(* ===== verification/_CoqProject ===== *)
-Q . S2P
Prelude.v
PyVal.v
Clock.v
RouteAssessment.v
Maintenance.v
Fallback.v
RouteSample.v
ControlLoop.v
Keeper.v
RouteFacts.v
FastPolicy.v
RemoteWarning.v
SendSample.v
EffectContract.v
FastRecovery.v
FastRecoveryProofs.v
UtcTime.v
Contracts.v
Store.v
Outbox.v
OutboxProofs.v
Dispatcher.v
DispatcherProofs.v
Incidents.v
IncidentProofs.v
IncidentService.v
IncidentServiceProofs.v
EffectModel.v
EffectModelProofs.v
EffectLedger.v
EffectReconcile.v
EffectLedgerProofs.v
EffectExecutor.v
EffectExecutorProofs.v
EffectReconcileProofs.v
AgentPolicy.v
AgentObserve.v
AgentDecide.v
AgentStore.v
AgentEffect.v
Agent.v
AgentStoreProofs.v
AgentProofs.v
AgentVerify.v
AgentDemo.v
AgentVerifyProofs.v
CentralStore.v
AgentSync.v
CentralProofs.v
Replication.v
ReplicationProofs.v
Evidence.v
EvidenceProofs.v
ObservationTime.v
ObservationTimeProofs.v
YtConfig.v
YtWorld.v
YtApi.v
YtProbe.v
ForceLive.v
YtFrame.v
ForceLiveProofs.v
YtHealth.v
YtStatus.v
YtWatchdog.v
YtWatchdogProofs.v
YtRestartProofs.v
V2Model.v
V2Signals.v
V2Orchestrator.v
V2Proofs.v
V2Evidence.v
V2Stored.v
V2Run.v
V2Sli.v
V2SliProofs.v
V2Pipeline.v
