(* ===== verification/Prelude.v ===== *)
(** * stream_v3: root of the development

    stream_v3 keeps a 24-hour live stream alive: FFmpeg on one host, a relay that
    copies it to YouTube and Twitch, a fallback pod that takes over, watchdogs that
    repair the stream, and a monitoring service that turns observations into
    incidents and notifications.  This library models the parts that decide and the
    parts that must not act twice, and proves what makes them correct.  Path names
    below start at src/, the root of the sources.

    ** Parts and files

    - Prelude, PyVal: exceptions and the result monad, the transaction monad [Tx] of
      a database ([transaction] rolls back when the body raises), decoded JSON values
      with the Python operations the code applies to them, the shared tactics
      ([inv_ok], [inv_db], [case_in], [db_guard]).

    - Self-healing of the relay (src/ops/selfheal).  Clock: the exchange that bounds
      a remote clock and the age of a source on boot-time clocks only
      (clock_contract.py).  RouteAssessment: transport witness, progress deadline,
      clock diagnostics, incident book (route_assessment.py).  Maintenance: the guard
      on manual operation and the session lock (maintenance_state.py).  RouteSample,
      Fallback, ControlLoop: from one HTTP exchange to a sample, from samples to
      START/STOP, one turn of the main loop (fallback_controller.py).  Keeper: the
      repair and renewal of forwards (forward_keeper.py).  RouteFacts: the server on
      the relay whose documents RouteSample reads (route_facts_http.py).

    - Fast recovery (src/src/watchers/fast_recovery.py and fast_recovery_core).
      FastPolicy: intents, budgets, streaks.  RemoteWarning: YouTube warnings and
      probes.  SendSample: upload rates.  EffectContract: the requests to the effect
      executor.  FastRecovery: one turn of the controller; FastRecoveryProofs: what an
      effect of a turn needs.

    - The runtime boundary (src/src/runtime_boundary, with the identities of
      src/src/cra_dell_recovery).  EffectModel: a typed request, its parser and its
      fences (model.py).  EffectLedger: the tables and every method (ledger.py).
      EffectReconcile: the evidence for a conclusion about an uncertain effect;
      EffectExecutor: a connection, the workers, the process around them (server.py).
      A request admitted by [EffectLedger.accept] claims its fence; the executor
      moves it to EXECUTION_STARTED, reserves the one attempt
      ([mark_effect_boundary]), calls the effect, and records the outcome; what stays
      uncertain blocks new requests until a conclusion is recorded.

    - The recovery agent (src/recovery-control/src/cra), a client of that executor.
      AgentPolicy: policies signed by the centre (policy.py, signing.py).
      AgentObserve: the published observation, the connection it proves, delivery
      evidence (observe.py, runtime_binding.py, recovery.py).  AgentDecide: the stall
      tracker and the decision (decide.py).  AgentStore: audit log, claims of
      generations, key/value table (store.py).  AgentEffect: the request and its
      answer, the policy in force (effect.py).  Agent: the loop step, the process
      (agent.py), over the monad [Exec]; a run is a list of [event]s.
      AgentStoreProofs, AgentProofs: the claims of a store, the invariant of a run.
      AgentDemo: a concrete run.

    - Its centre (src/recovery-control/src/cra/central).  AgentVerify: the checks of
      the audit records (verify.py); AgentVerifyProofs: why the log of an agent passes.
      CentralStore: policies, records, gaps, the HTTP handlers, publication (store.py,
      server.py, audit_ack.py, cli.py); AgentSync: the exchange from the agent's side
      (sync.py).  Replication, ReplicationProofs: agent, centre and a network that
      loses, repeats, delays and invents messages, as one transition system.

    - The YouTube watchdog (src/src/watchers).  Evidence: what each source said, the
      ledger that keeps it over restarts, the verdict over the fresh evidence and the
      gate of a restart (evidence/, decision/).  EvidenceProofs: why a verdict holds.
      YtConfig: the configuration and the results of probes.  YtWorld: the process, its
      files, clock, commands and the trace of the API calls it sends with their replies,
      over the monad [Exec].  YtApi: the calls, their log, the quota latch, the access token
      (youtube_api_lib/, youtube_oauth/).  YtProbe: the probes and the choice among
      broadcasts.  ForceLive: an attempt to bring a stalled broadcast live
      (youtube_api.py, youtube_lifecycle/).  YtFrame: which files and calls a program
      may touch, as rules over its structure.  ForceLiveProofs: its calls follow a
      protocol, stated as an automaton over the trace.  YtHealth: local readings,
      caches, cost guard, classification (youtube_watchdog_core/).  YtStatus: the
      published status (youtube_monitor/).  YtWatchdog: one pass, from the state it
      opens to the restart it orders (youtube_watchdog.py).  YtWatchdogProofs: the
      anatomy of a pass; YtRestartProofs: what a restart has behind it, over one pass
      and over any run of passes, with concrete runs.
      ObservationTime: the stamp of an observation, its age at a receiver and the
      continuity of verdicts (stream_core/common/observation_time.py).

    - Stream v2 (src/src/stream_v2).  V2Model: the snapshot of the subsystems, its
      stored form and the way back (model.py, pipeline.py, subsystems/common.py).
      V2Signals: a Module per subsystem, from files to signals to a decision with its
      evidence (subsystems/).  V2Orchestrator: the aggregator, the lock, candidates,
      gates, plans, the pass (aggregator.py, action_lock.py, recovery_orchestrator/,
      pipeline.py).  V2Proofs: the choice of an action; V2Evidence: from the files to
      a restart; V2Stored: the snapshot through its file, the age of the evidence, the
      lock; V2Run: concrete runs.  V2Sli: the report over the logs (sli.py); V2SliProofs:
      its shares of time and its comparison with production.  V2Pipeline: the passes
      over the state directory, each write a step that can fail, any run of them, and
      the log of plans it leaves.

    - Monitoring (src/monitoring-v4/src).  UtcTime, Contracts: timestamps,
      identifiers and the validated records.  Store: the tables.  Incidents: policies
      and the evaluation of a snapshot.  IncidentService: snapshots to transitions and
      intents, through the tables.  Outbox: leases, epochs, intents, attempts.
      Dispatcher: one dispatch turn, written against the class [DispatchRepository],
      whose laws ([DispatchLaws]) the outbox discharges in DispatcherProofs.

    ** What the theorems show

    - An action rests on evidence: [start_authorised], [stop_authorised],
      [healthy_needs_consecutive_progress], [stopped_verdict_evidence],
      [effect_needs_clearance], [physical_effect_needs_evidence],
      [reason_needs_consecutive_samples], [warning_needs_fresh_report],
      [command_needs_both_guards], [guard_fails_closed],
      [incident_needs_consecutive_evidence], [conclusion_needs_evidence],
      [requests_are_cleared], [confirmed_end_is_current], [verdict_is_earned],
      [force_live_protocol], [restart_is_cleared],
      [executed_plan_keeps_url], [restart_stream_exactly], [restart_needs_evidence].
    - Nothing is done twice or too often: [one_effect_per_generation],
      [one_request_per_generation], [effects_under_authority], [effects_are_paced],
      [restarts_are_rationed], [logged_plans_are_safe],
      [conclusive_attempt_is_last], [superseded_token_is_dead],
      [attempts_within_limit], [attempts_are_paced], [lock_is_held].
    - Components implement their specification: [progress_deadline_refines] (the
      deadline is the time since the last verified progress), [service_is_replay] (the
      database run of any mix of domains is the in-memory replay of each at the times the
      service gives them), [agent_log_passes] and
      [centre_accepts_agent] (what the agent did passes the centre's checks),
      [acknowledged_is_stored], [attempt_history_wellformed],
      [notifications_in_order].
    - Progress and totality: [every_due_intent_attempted], [repeat_deadline_advances],
      [twitch_outage_bounded], [connection_answered], [copy_route_sample_total].
    - Measures and round trips: [estimate_contains_offset],
      [source_age_conservative], [heartbeat_age_is_unchanged_time],
      [send_sample_sound], [budget_accounts_window], [canonical_roundtrip],
      [cause_book_reload], [reopened_ledger_is_same], [snapshot_round_trip],
      [decision_evidence_age], [shares_of_a_window], [comparison_accounts],
      [projection_keeps_the_report].

    ** Conventions

    - A handler is a function of its state and its readings.  Clock readings, HTTP
      answers, files, processes and [kubectl] are arguments, one per place that reads
      them, so two readings of one function may differ.
    - Floats are exact rationals ([Q]) or a non-finite value; integers are unbounded as
      in Python; strings are byte strings; a JSON object is a [dict] that keeps order.
    - SHA-256, [json.dumps], RFC 8785, ISO-8601 parsing and [repr] are operations of
      classes ([JsonSha], [JcsSha], [FromIso], [Repr], ...).  A theorem that needs a law
      of one of them says so ([digests_separate]: the digests of the requests of a
      run are different where the requests are), and its witness uses a concrete one.
    - An SQL statement is the table function it denotes, a table read by its primary
      key a [gmap], and a constraint a check of the insert that raises.  JSON columns
      hold the decoded value.
    - What others do between two steps is explicit: a function on the store for other
      dispatchers, a [tick] for the workers of the executor, for a storage fault and
      for the death of the process; [Restart] opens the same tables again.  Before each
      database access of the recovery agent its [reading] says what the
      synchronisation thread wrote and whether the storage fails or the process dies.
    - Signatures: what arrives over the network is arbitrary, except that a value that
      verifies under the key of the agent or the centre was signed by it ([allowed]).

    ** Fuel

    The one loop without a structural argument is [Incidents.advance_due]; its fuel
    [loop_fuel] is the distance to the present plus one, and [repeat_deadline_advances]
    proves that it is enough for every policy the constructor accepts.

    ** Not modelled

    Sockets, threads and process plumbing; HTTP clients and pages; FFmpeg command
    lines; metrics and reports; the schema migrations of columns; the PostgreSQL
    backend; the audit records next to an effect (they do not influence it).  Of the
    runtime boundary: clients, process observation, evidence publishing, and the
    checks of an operator's grant, which are a reading of the executor.  Of
    monitoring: collectors, projections, publications, lifecycle incidents.  Of
    recovery control: the status file and logs of the agent, key files, sockets, the
    counts of the verification summary.  Of
    the YouTube watchdog: the resolver of the video and the command line.  Of
    stream v2: the readers of the files, the summaries, the command line.
    The process watchdogs and the earlier notification loop are not modelled. *)

From stdpp Require Export base option list strings gmap.
From Stdlib Require Export ZArith Lia QArith Qround Lqa.
From Stdlib Require Import DecimalString DecimalZ.
From Stdlib Require Sorted.

#[global] Open Scope Z_scope.

(** ** Exceptions and the result monad

    The constructors are the exception classes the modelled code raises or
    catches.  [EObservation] and [EClock] are [ObservationRejected]
    (ops/selfheal/fallback_controller.py) and [ClockRejected]
    (ops/selfheal/clock_contract.py), both subclasses of [ValueError]. *)
Inductive exn : Type :=
  | EKey | EType | EAttr | EOverflow | EIndex
  | EValue (msg : string)
  | ERuntime (msg : string)
  | EOS (name : string)
  | EObservation (reason : string)
  | EClock (reason : string).

Inductive res (A : Type) : Type :=
  | Ok (a : A)
  | Err (e : exn).
Arguments Ok {A} a.
Arguments Err {A} e.

#[export] Instance exn_eq_dec : EqDecision exn.
Proof. solve_decision. Defined.
#[export] Instance res_eq_dec `{EqDecision A} : EqDecision (res A).
Proof. solve_decision. Defined.

Definition rbind {A B} (m : res A) (k : A -> res B) : res B :=
  match m with Ok a => k a | Err e => Err e end.

Definition rmap {A B} (f : A -> B) (m : res A) : res B :=
  match m with Ok a => Ok (f a) | Err e => Err e end.

(** [a and b] / [a or b] of conditions: the right operand is evaluated (and can
    raise) only when the left one does not decide. *)
Definition rand (a b : res bool) : res bool :=
  match a with Ok true => b | Ok false => Ok false | Err e => Err e end.
Definition ror (a b : res bool) : res bool :=
  match a with Ok true => Ok true | Ok false => b | Err e => Err e end.

Declare Scope py_scope.
Delimit Scope py_scope with py.
Notation "'let!' x := m 'in' k" := (rbind m (fun x => k))
  (at level 200, x pattern, m at level 100, k at level 200, right associativity) : py_scope.
Notation "a '&&!' b" := (rand a b) (at level 40, left associativity) : py_scope.
Notation "a '||!' b" := (ror a b) (at level 50, left associativity) : py_scope.
#[global] Open Scope py_scope.

Definition is_ok {A} (m : res A) : bool := match m with Ok _ => true | Err _ => false end.

(** The code's [all(f(x) for x in l)], stopping at the first false. *)
Fixpoint rall {A} (f : A -> res bool) (l : list A) : res bool :=
  match l with
  | [] => Ok true
  | x :: l' => f x &&! rall f l'
  end.

Lemma rbind_Ok {A B} (m : res A) (k : A -> res B) b :
  rbind m k = Ok b <-> exists a, m = Ok a /\ k a = Ok b.
Proof. destruct m; simpl; split; [eauto | by intros (? & [= ->] & ?) | done | by intros (? & ? & ?)]. Qed.

Lemma rand_Ok_true a b : rand a b = Ok true <-> a = Ok true /\ b = Ok true.
Proof. destruct a as [[]|]; simpl; naive_solver. Qed.

Lemma rall_Ok_true {A} (f : A -> res bool) l :
  rall f l = Ok true <-> Forall (fun x => f x = Ok true) l.
Proof.
  induction l as [|x l IH]; simpl; [naive_solver|].
  by rewrite rand_Ok_true, IH, Forall_cons.
Qed.

(** ** Rational time

    Seconds are exact rationals [Q].  The code's floats are rounded to 53 bits;
    the model computes with the exact values. *)
Definition Qleb (x y : Q) : bool := Qle_bool x y.
Definition Qltb (x y : Q) : bool := negb (Qle_bool y x).

#[global] Arguments Qleb : simpl never.
#[global] Arguments Qltb : simpl never.

Lemma Qleb_true x y : Qleb x y = true <-> (x <= y)%Q.
Proof. apply Qle_bool_iff. Qed.
Lemma Qleb_false x y : Qleb x y = false <-> (y < x)%Q.
Proof.
  rewrite <- not_true_iff_false, Qleb_true.
  split; [apply Qnot_le_lt | intros ? ?; lra].
Qed.
Lemma Qltb_true x y : Qltb x y = true <-> (x < y)%Q.
Proof. unfold Qltb. rewrite negb_true_iff. apply Qleb_false. Qed.
Lemma Qltb_false x y : Qltb x y = false <-> (y <= x)%Q.
Proof. unfold Qltb. rewrite negb_false_iff. apply Qleb_true. Qed.

Lemma Qleb_spec x y : BoolSpec (x <= y)%Q (y < x)%Q (Qleb x y).
Proof. destruct (Qleb x y) eqn:E; constructor; [by apply Qleb_true | by apply Qleb_false]. Qed.
Lemma Qltb_spec x y : BoolSpec (x < y)%Q (y <= x)%Q (Qltb x y).
Proof. destruct (Qltb x y) eqn:E; constructor; [by apply Qltb_true | by apply Qltb_false]. Qed.

#[export] Instance Qleb_proper : Proper (Qeq ==> Qeq ==> eq) Qleb.
Proof. exact Qleb_comp. Qed.
#[export] Instance Qltb_proper : Proper (Qeq ==> Qeq ==> eq) Qltb.
Proof. intros x x' Hx y y' Hy. unfold Qltb. by rewrite Hx, Hy. Qed.

Definition qmax (x y : Q) : Q := if Qleb x y then y else x.
Definition qmin (x y : Q) : Q := if Qleb x y then x else y.
Definition qabs (x : Q) : Q := if Qleb 0 x then x else (- x)%Q.

Lemma qmax_spec x y : (x <= qmax x y /\ y <= qmax x y /\ (qmax x y == x \/ qmax x y == y))%Q.
Proof. unfold qmax. destruct (Qleb_spec x y); repeat split; try lra; auto with qarith. Qed.

(** Python's [round(x, 3)]: round half to even at a thousandth. *)
Definition round_even (x : Q) : Z :=
  let n := Qfloor x in
  let r := (x - inject_Z n)%Q in
  if Qltb r (1 # 2) then n
  else if Qltb (1 # 2) r then n + 1
  else if Z.even n then n else n + 1.
Definition round3 (x : Q) : Q := (inject_Z (round_even (x * 1000)) / 1000)%Q.
(** [round(x, 6)] *)
Definition round6 (x : Q) : Q := (inject_Z (round_even (x * 1000000)) / 1000000)%Q.

Lemma round_even_error x : (qabs (inject_Z (round_even x) - x) <= 1 # 2)%Q.
Proof.
  unfold round_even. pose proof (Qfloor_le x) as Hl. pose proof (Qlt_floor x) as Hu.
  set (n := Qfloor x) in *. rewrite inject_Z_plus in Hu. change (inject_Z 1) with 1%Q in Hu.
  unfold qabs.
  destruct (Qltb_spec (x - inject_Z n) (1 # 2)), (Qltb_spec (1 # 2) (x - inject_Z n)),
    (Z.even n); rewrite ?inject_Z_plus; change (inject_Z 1) with 1%Q;
    match goal with |- context [Qleb ?a ?b] => destruct (Qleb_spec a b) end; lra.
Qed.

(** ** Continuity windows

    A timer that remembers when a condition started to hold: [since_ok log o]
    says that the entries of [log] from the remembered time on all satisfy [P]. *)
Section Window.
Context {A : Type} (P : A -> Prop) (time : A -> Q).

Definition since_ok (log : list A) (o : option Q) : Prop :=
  forall t, o = Some t ->
  exists pre e sfx, log = pre ++ e :: sfx /\ time e = t /\ Forall P (e :: sfx).

Lemma since_none log : since_ok log None.
Proof. by intros t [=]. Qed.

Lemma since_start log e : P e -> since_ok (log ++ [e]) (Some (time e)).
Proof. intros He t [= <-]. exists log, e, []. by repeat constructor. Qed.

Lemma since_extend log e o : P e -> since_ok log o -> since_ok (log ++ [e]) o.
Proof.
  intros He Ho t Ht. destruct (Ho t Ht) as (pre & e0 & sfx & -> & ? & Hf).
  exists pre, e0, (sfx ++ [e]). rewrite <- app_assoc. split; [done|]. split; [done|].
  apply (Forall_app_2 _ (e0 :: sfx) [e]); [done | by constructor].
Qed.

(** [since = since if since is not None else now] *)
Lemma since_continue log e o : P e -> since_ok log o ->
  since_ok (log ++ [e]) (Some (from_option (fun t => t) (time e) o)).
Proof. intros He Ho. destruct o as [t|]; [by apply since_extend | by apply since_start]. Qed.
End Window.

(** ** Decimal text of integers (f-strings, [str(n)]) *)
Definition str_Z (z : Z) : string := NilZero.string_of_int (Z.to_int z).

(** ** Automation *)
Create HintDb stream discriminated.
#[export] Hint Resolve since_none since_start since_extend since_continue : stream.
#[export] Hint Rewrite Qleb_true Qleb_false Qltb_true Qltb_false : qbool.
#[export] Hint Rewrite andb_true_iff orb_true_iff andb_false_iff orb_false_iff
  negb_true_iff negb_false_iff : boolp.
#[export] Hint Rewrite Z.leb_le Z.ltb_lt Z.eqb_eq Z.leb_gt Z.ltb_ge Z.eqb_neq
  Z.geb_leb Z.gtb_ltb : zbool.
#[export] Hint Rewrite bool_decide_eq_true bool_decide_eq_false : decb.

Ltac bools := autorewrite with boolp qbool zbool decb in *.

(** Split every rational comparison of the goal and hypotheses, then decide. *)
Ltac qcases :=
  repeat match goal with
  | |- context [Qleb ?a ?b] => destruct (Qleb_spec a b)
  | |- context [Qltb ?a ?b] => destruct (Qltb_spec a b)
  | H : context [Qleb ?a ?b] |- _ => destruct (Qleb_spec a b)
  | H : context [Qltb ?a ?b] |- _ => destruct (Qltb_spec a b)
  end.
Ltac qsolve := unfold qmax, qmin, qabs in *; qcases; simpl in *; try congruence; try lra.

(** Case analysis on the scrutinee of a [match]/[if] of hypothesis [H]. *)
Ltac case_in H :=
  match type of H with
  | context [match ?x with _ => _ end] =>
      lazymatch x with
      | context [match _ with _ => _ end] => fail
      | _ => let E := fresh "E" in destruct x eqn:E
      end
  end.
Ltac case_all_in H := repeat (case_in H; try discriminate H).

(** Case analysis on the scrutinees of the goal. *)
Ltac case_goal :=
  match goal with
  | |- context [match ?x with _ => _ end] =>
      lazymatch x with
      | context [match _ with _ => _ end] => fail
      | _ => let E := fresh "E" in destruct x eqn:E
      end
  end.

(** Invert a chain of monadic binds that succeeded. *)
Ltac inv_ok H :=
  repeat match type of H with
  | rbind _ _ = Ok _ =>
      let a := fresh "v" in let E := fresh "E" in
      apply rbind_Ok in H; destruct H as (a & E & H)
  end.

(** ** Transactions

    The body of a transaction changes the tables or raises; an exception rolls
    the changes back and propagates. *)
Definition Tx (St A : Type) : Type := St -> res (A * St).

Section Tx.
Context {St : Type}.
Implicit Types s : St.
#[local] Notation Db := (Tx St).

Definition db_ret {A} (a : A) : Db A := fun s => Ok (a, s).
Definition db_bind {A B} (m : Db A) (k : A -> Db B) : Db B :=
  fun s => match m s with Ok (a, s') => k a s' | Err e => Err e end.
Definition db_lift {A} (m : res A) : Db A := fun s => match m with Ok a => Ok (a, s) | Err e => Err e end.
Definition db_raise {A} (e : exn) : Db A := fun _ => Err e.
Definition db_get {A} (f : St -> A) : Db A := fun s => Ok (f s, s).
Definition db_mod (f : St -> St) : Db unit := fun s => Ok (tt, f s).

Definition transaction {A} (body : Db A) (s : St) : res A * St :=
  match body s with
  | Ok (a, s') => (Ok a, s')
  | Err e => (Err e, s)
  end.

(** A computation on values before a call; an exception leaves the store alone. *)
Definition before_tx {A B} (m : res A) (k : A -> St -> res B * St) (s : St) : res B * St :=
  match m with Ok a => k a s | Err e => (Err e, s) end.

(** ** Inversion of a committed transaction *)
Lemma transaction_cases {A} (body : Db A) s r s' :
  transaction body s = (r, s') ->
  (exists a, r = Ok a /\ body s = Ok (a, s')) \/ (exists e, r = Err e /\ s' = s).
Proof. unfold transaction. destruct (body s) as [[a s1]|e]; intros [= <- <-]; eauto. Qed.

Lemma db_bind_Ok {A B} (m : Db A) (k : A -> Db B) s r :
  db_bind m k s = Ok r -> exists a s1, m s = Ok (a, s1) /\ k a s1 = Ok r.
Proof. unfold db_bind. destruct (m s) as [[a s1]|]; [eauto | done]. Qed.
Lemma db_lift_Ok {A} (m : res A) s a s1 : db_lift m s = Ok (a, s1) -> m = Ok a /\ s1 = s.
Proof. unfold db_lift. destruct m; [by intros [= -> ->] | done]. Qed.
Lemma db_get_Ok {A} (f : St -> A) s a s1 : db_get f s = Ok (a, s1) -> a = f s /\ s1 = s.
Proof. by intros [= -> ->]. Qed.
Lemma db_mod_Ok (f : St -> St) s a s1 : db_mod f s = Ok (a, s1) -> s1 = f s.
Proof. by intros [= _ ->]. Qed.
End Tx.

Declare Scope db_scope.
Delimit Scope db_scope with db.
Notation "'do!' x := m 'in' k" := (db_bind m (fun x => k))
  (at level 200, x pattern, m at level 100, k at level 200, right associativity) : db_scope.
Notation "'run!' m 'then' k" := (db_bind m (fun _ => k))
  (at level 200, m at level 100, k at level 200, right associativity) : db_scope.

(** A violated PRIMARY KEY, UNIQUE, CHECK or FOREIGN KEY constraint. *)
Definition integrity_error : exn := EOS "IntegrityError".

Definition insert_unique {V} (k : string) (v : V) (m : gmap string V) : res (gmap string V) :=
  match m !! k with Some _ => Err integrity_error | None => Ok (<[k := v]> m) end.

(** Open a chain of [do!] that succeeded. *)
Ltac inv_db H :=
  repeat match type of H with
  | db_bind _ _ _ = Ok _ =>
      let a := fresh "v" in let s1 := fresh "s" in let E := fresh "E" in
      apply db_bind_Ok in H; destruct H as (a & s1 & E & H);
      first [ apply db_lift_Ok in E; destruct E as [E ->]
            | apply db_get_Ok in E; destruct E as [-> ->]
            | apply db_mod_Ok in E; subst s1; clear a
            | idtac ]
  | db_ret _ _ = Ok _ => unfold db_ret in H; injection H as H; subst
  | db_raise _ _ = Ok _ => discriminate H
  end.

(** A guard of the body that raises when it holds. *)
Ltac db_guard H E :=
  match type of H with
  | (if ?b then _ else _) _ = Ok _ =>
      destruct b eqn:E; [discriminate H|]; try apply negb_false_iff in E; inv_db H
  end.

(** ** Programs with effects

    A program over a state that returns, raises, or does not survive: the process
    died.  The state it leaves is what the others see. *)
Inductive outcome (E A : Type) : Type := Done (a : A) | Raised (e : E) | Dead.
Arguments Done {E A} a.
Arguments Raised {E A} e.
Arguments Dead {E A}.
Definition Exec (St E A : Type) : Type := St -> outcome E A * St.

(** What happens to a call of a database: it goes through, the storage fails and
    leaves the tables alone, or the process dies first. *)
Inductive weather : Type := Calm | Fault | Death.

Section Exec.
Context {St E : Type}.
#[local] Notation X := (Exec St E).

Definition xret {A} (a : A) : X A := fun w => (Done a, w).
Definition xraise {A} (e : E) : X A := fun w => (Raised e, w).
Definition xbind {A B} (m : X A) (k : A -> X B) : X B := fun w =>
  match m w with
  | (Done a, w') => k a w'
  | (Raised e, w') => (Raised e, w')
  | (Dead, w') => (Dead, w')
  end.
(** [try: ... except BaseException] *)
Definition xtry {A} (m : X A) (h : E -> X A) : X A := fun w =>
  match m w with
  | (Raised e, w') => h e w'
  | r => r
  end.

Lemma xbind_Done {A B} (m : X A) (k : A -> X B) w b w' : xbind m k w = (Done b, w') ->
  exists a w1, m w = (Done a, w1) /\ k a w1 = (Done b, w').
Proof. unfold xbind. destruct (m w) as [[a|e|] w1]; try done. eauto. Qed.

(** A triple: the post-condition holds of a result, the invariant [I] always. *)
Definition triple (I : St -> Prop) {A} (P : St -> Prop) (m : X A) (Q : A -> St -> Prop) : Prop := forall w, P w ->
  match m w with (Done a, w') => Q a w' | (_, w') => I w' end.

Lemma triple_ret I {A} (P : St -> Prop) (a : A) (Q : A -> St -> Prop) : (forall w, P w -> Q a w) -> triple I P (xret a) Q.
Proof. intros HQ w Hw. by apply HQ. Qed.
Lemma triple_raise (I P : St -> Prop) {A} e (Q : A -> St -> Prop) : (forall w, P w -> I w) -> triple I P (xraise e) Q.
Proof. intros HP w Hw. by apply HP. Qed.
Lemma triple_bind I {A B} P (m : X A) (k : A -> X B) Q R :
  triple I P m Q -> (forall a, triple I (Q a) (k a) R) -> triple I P (xbind m k) R.
Proof. intros Hm Hk w Hw. specialize (Hm w Hw). unfold xbind. destruct (m w) as [[a|e|] w']; try done. by apply Hk. Qed.
Lemma triple_try I {A} P (m : X A) h Q : triple I P m Q -> (forall e, triple I I (h e) Q) -> triple I P (xtry m h) Q.
Proof. intros Hm Hh w Hw. specialize (Hm w Hw). unfold xtry. destruct (m w) as [[a|e|] w']; try done. by apply Hh. Qed.
Lemma triple_weaken I {A} (P P' : St -> Prop) (m : X A) Q Q' :
  triple I P' m Q' -> (forall w, P w -> P' w) -> (forall a w, Q' a w -> Q a w) -> triple I P m Q.
Proof. intros Hm HP HQ w Hw. specialize (Hm w (HP w Hw)). destruct (m w) as [[a|e|] w']; try done. by apply HQ. Qed.
End Exec.

Declare Scope x_scope.
Delimit Scope x_scope with x.
Notation "'bind!' x := m 'in' k" := (xbind m (fun x => k))
  (at level 200, x pattern, m at level 100, k at level 200, right associativity) : x_scope.

(** ** Sorting by a key

    [sorted(l, key=f)]: stable, by insertion. *)
Section SortBy.
Context {A : Type} (key : A -> Z).

Fixpoint insert_by (x : A) (l : list A) : list A :=
  match l with
  | [] => [x]
  | y :: l' => if key x <=? key y then x :: l else y :: insert_by x l'
  end.
Definition sort_by (l : list A) : list A := fold_right insert_by [] l.

Definition key_le (x y : A) : Prop := key x <= key y.
Definition in_order (l : list A) : Prop := Sorted.StronglySorted key_le l.

Lemma insert_by_In x l y : In y (insert_by x l) <-> y = x \/ In y l.
Proof. induction l as [|z l IH]; simpl; [firstorder|]. destruct (_ <=? _); simpl; firstorder. Qed.
Lemma sort_by_In l x : In x (sort_by l) <-> In x l.
Proof. induction l as [|y l IH]; [done|]. unfold sort_by in *. simpl. rewrite insert_by_In, IH. firstorder. Qed.
Lemma insert_by_perm x l : Permutation (insert_by x l) (x :: l).
Proof. induction l as [|y l IH]; simpl; [done|]. destruct (_ <=? _); [done|]. rewrite IH. constructor. Qed.
Lemma sort_by_perm l : Permutation (sort_by l) l.
Proof. induction l as [|x l IH]; [done|]. unfold sort_by in *. simpl. by rewrite insert_by_perm, IH. Qed.
Lemma insert_by_first x l : Forall (key_le x) l -> insert_by x l = x :: l.
Proof. destruct l as [|y l]; [done|]. intros Hf. simpl. apply Forall_inv, Z.leb_le in Hf. by rewrite Hf. Qed.
Lemma insert_by_order x l : in_order l -> in_order (insert_by x l).
Proof.
  induction 1 as [|y l Hl IH Hy]; simpl; [repeat constructor|]. destruct (Z.leb_spec (key x) (key y)) as [Hx|Hx].
  - constructor; [by constructor|]. constructor; [done|]. eapply Forall_impl; [exact Hy|]. unfold key_le. intros; lia.
  - constructor; [done|]. apply List.Forall_forall. intros z Hz. apply insert_by_In in Hz as [->|Hz]; [unfold key_le; lia|].
    rewrite List.Forall_forall in Hy. by apply Hy.
Qed.
Lemma sort_by_order l : in_order (sort_by l).
Proof. induction l; [constructor | by apply insert_by_order]. Qed.
Lemma sort_by_id l : in_order l -> sort_by l = l.
Proof. induction 1 as [|x l Hl IH Hx]; [done|]. unfold sort_by in *. simpl. by rewrite IH, insert_by_first. Qed.

Lemma filter_insert_by f x l : in_order l ->
  List.filter f (insert_by x l) = if f x then insert_by x (List.filter f l) else List.filter f l.
Proof.
  induction 1 as [|y l Hl IH Hy]; simpl; [by destruct (f x)|]. destruct (Z.leb_spec (key x) (key y)) as [Hx|Hx]; simpl.
  - destruct (f x); [|done]. rewrite insert_by_first; [done|]. apply List.Forall_forall. intros z Hz. rewrite List.Forall_forall in Hy.
    unfold key_le in *. destruct (f y); [destruct Hz as [<-|Hz]; [done|]|]; apply filter_In in Hz as [Hz _]; specialize (Hy z Hz); lia.
  - rewrite IH. destruct (f y), (f x); simpl; try done. apply Z.leb_gt in Hx. by rewrite Hx.
Qed.
(** A stable sort commutes with taking a part of the list. *)
Lemma filter_sort_by f l : List.filter f (sort_by l) = sort_by (List.filter f l).
Proof.
  induction l as [|x l IH]; [done|]. simpl. rewrite filter_insert_by by apply sort_by_order. rewrite IH. by destruct (f x).
Qed.
Lemma in_order_splits l : (forall pre x post, l = pre ++ x :: post -> Forall (fun y => key_le y x) pre) -> in_order l.
Proof.
  induction l as [|x l IH]; intros Hl; [constructor|]. constructor.
  - apply IH. intros pre r post ->. specialize (Hl (x :: pre) r post eq_refl). by inversion Hl.
  - apply List.Forall_forall. intros y Hy. apply in_split in Hy as (pre & post & ->). by specialize (Hl (x :: pre) y post eq_refl); inversion Hl.
Qed.
End SortBy.
