(* ===== verification/PyVal.v ===== *)
(** * Python values decoded from JSON

    The state files, HTTP payloads and facts the program reads are untyped JSON
    trees.  [pyval] is such a tree, and the operations below are the Python
    operations the code applies to it, with the exceptions they raise.

    Dicts keep insertion order and have string keys (JSON objects).  Strings are
    byte strings.  Floats are exact rationals or one of the non-finite values. *)
From Stdlib Require Import Ascii.
From S2P Require Import Prelude.

Inductive pyfloat : Type := Fin (q : Q) | PosInf | NegInf | NaN.

Inductive pyval : Type :=
  | VNone
  | VBool (b : bool)
  | VInt (z : Z)
  | VFloat (f : pyfloat)
  | VStr (s : string)
  | VList (l : list pyval)
  | VDict (d : list (string * pyval)).

(** ** Ordered dictionaries *)
Section Dict.
Context {A : Type}.
Implicit Types d : list (string * A).

Fixpoint dict_get (k : string) d : option A :=
  match d with
  | [] => None
  | (k', v) :: d' => if String.eqb k k' then Some v else dict_get k d'
  end.

(** [d[k] = v]: an existing key keeps its position. *)
Fixpoint dict_set (k : string) (v : A) d : list (string * A) :=
  match d with
  | [] => [(k, v)]
  | (k', v') :: d' => if String.eqb k k' then (k', v) :: d' else (k', v') :: dict_set k v d'
  end.

(** [d.pop(k, None)]. *)
Definition dict_pop (k : string) d : list (string * A) :=
  List.filter (fun kv => negb (String.eqb k (fst kv))) d.

(** [d.update(e)]. *)
Definition dict_update d (e : list (string * A)) : list (string * A) :=
  fold_left (fun acc kv => dict_set (fst kv) (snd kv) acc) e d.

(** [d.setdefault(k, v)], without its result. *)
Definition dict_setdefault (k : string) (v : A) d : list (string * A) :=
  match dict_get k d with Some _ => d | None => dict_set k v d end.

Definition has_key (k : string) d : bool := bool_decide (is_Some (dict_get k d)).

Lemma dict_get_set_eq k v d : dict_get k (dict_set k v d) = Some v.
Proof.
  induction d as [|[k' v'] d IH]; simpl; [by rewrite String.eqb_refl|].
  destruct (String.eqb k k') eqn:E; simpl; rewrite E; done.
Qed.

Lemma dict_get_set_ne k k' v d : k <> k' -> dict_get k (dict_set k' v d) = dict_get k d.
Proof.
  intros Hne. induction d as [|[k0 v0] d IH]; simpl.
  - by rewrite (proj2 (String.eqb_neq _ _) Hne).
  - destruct (String.eqb k' k0) eqn:E0; simpl; [|by rewrite IH].
    apply String.eqb_eq in E0 as <-. by rewrite (proj2 (String.eqb_neq _ _) Hne).
Qed.

Lemma dict_get_set k k' v d :
  dict_get k (dict_set k' v d) = if String.eqb k k' then Some v else dict_get k d.
Proof.
  destruct (String.eqb_spec k k') as [->|Hne]; [apply dict_get_set_eq | by apply dict_get_set_ne].
Qed.

Lemma dict_get_pop k k' d :
  dict_get k (dict_pop k' d) = if String.eqb k k' then None else dict_get k d.
Proof.
  unfold dict_pop. induction d as [|[k0 v0] d IH]; simpl; [by destruct (String.eqb k k')|].
  destruct (String.eqb_spec k' k0) as [<-|H0]; simpl; rewrite ?IH.
  - by destruct (String.eqb_spec k k').
  - destruct (String.eqb_spec k k0) as [->|]; [|done].
    rewrite (proj2 (String.eqb_neq k0 k')); [done | congruence].
Qed.

Lemma dict_set_keys k v d : In k (map fst (dict_set k v d)).
Proof.
  induction d as [|[k' v'] d IH]; simpl; [auto|].
  destruct (String.eqb_spec k k') as [->|]; simpl; auto.
Qed.
End Dict.
#[export] Hint Rewrite @dict_get_set_eq @dict_get_pop : dict.

(** ** Type tests and truth *)
Definition is_dict (v : pyval) : bool := match v with VDict _ => true | _ => false end.
Definition is_list (v : pyval) : bool := match v with VList _ => true | _ => false end.
Definition is_str (v : pyval) : bool := match v with VStr _ => true | _ => false end.
Definition is_none (v : pyval) : bool := match v with VNone => true | _ => false end.
(** [type(v) is bool] *)
Definition is_bool (v : pyval) : bool := match v with VBool _ => true | _ => false end.
(** [v is True], [v is False] *)
Definition is_true (v : pyval) : bool := match v with VBool true => true | _ => false end.
Definition is_false (v : pyval) : bool := match v with VBool false => true | _ => false end.
(** [type(v) is int]: excludes [bool]. *)
Definition is_int (v : pyval) : bool := match v with VInt _ => true | _ => false end.

Definition as_dict (v : pyval) : list (string * pyval) :=
  match v with VDict d => d | _ => [] end.

(** [bool(v)] *)
Definition truthy (v : pyval) : bool :=
  match v with
  | VNone => false
  | VBool b => b
  | VInt z => negb (z =? 0)
  | VFloat (Fin q) => negb (Qeq_bool q 0)
  | VFloat _ => true
  | VStr s => negb (String.eqb s "")
  | VList l => match l with [] => false | _ => true end
  | VDict d => match d with [] => false | _ => true end
  end.

(** [v or w] *)
Definition py_or (v w : pyval) : pyval := if truthy v then v else w.

(** [v[k]] with a string key. *)
Definition idx (v : pyval) (k : string) : res pyval :=
  match v with
  | VDict d => match dict_get k d with Some x => Ok x | None => Err EKey end
  | _ => Err EType
  end.

(** [v.get(k, dflt)]; only dicts have the method. *)
Definition getd (v : pyval) (k : string) (dflt : pyval) : res pyval :=
  match v with
  | VDict d => Ok (from_option id dflt (dict_get k d))
  | _ => Err EAttr
  end.
Definition get (v : pyval) (k : string) : res pyval := getd v k VNone.

(** The elements a [for] over [v] visits. *)
Fixpoint chars (s : string) : list pyval :=
  match s with EmptyString => [] | String c s' => VStr (String c EmptyString) :: chars s' end.
Definition iter (v : pyval) : res (list pyval) :=
  match v with
  | VList l => Ok l
  | VDict d => Ok (map (fun kv => VStr (fst kv)) d)
  | VStr s => Ok (chars s)
  | _ => Err EType
  end.

(** [.get] on a value already known to be a dict. *)
Definition dget (d : list (string * pyval)) (k : string) (dflt : pyval) : pyval :=
  from_option id dflt (dict_get k d).

(** ** Numbers *)

(** Integers outside the float range make [math.isfinite] and [float] raise. *)
Definition int_fits_float (z : Z) : bool := Z.abs z <? 2 ^ 1024 - 2 ^ 970.

(** [type(v) in (int, float) and math.isfinite(v)] *)
Definition num_finite (v : pyval) : res bool :=
  match v with
  | VInt z => if int_fits_float z then Ok true else Err EOverflow
  | VFloat (Fin _) => Ok true
  | _ => Ok false
  end.

(** The value of a finite number; 0 for anything else (only read after
    [num_finite] said yes). *)
Definition num_val (v : pyval) : Q :=
  match v with VInt z => inject_Z z | VFloat (Fin q) => q | _ => 0%Q end.

Definition int_val (v : pyval) : Z := match v with VInt z => z | _ => 0 end.
Definition str_val (v : pyval) : string := match v with VStr s => s | _ => "" end.

Lemma num_finite_true v : num_finite v = Ok true ->
  (exists z, v = VInt z) \/ (exists q, v = VFloat (Fin q)).
Proof. destruct v as [| |z|[]| | |]; simpl; naive_solver. Qed.

(** ** Equality ([==])

    Numbers compare across [bool], [int] and [float]; dicts compare as maps. *)
Definition pyfloat_eq (f g : pyfloat) : bool :=
  match f, g with
  | Fin p, Fin q => Qeq_bool p q
  | PosInf, PosInf | NegInf, NegInf => true
  | _, _ => false
  end.

Definition as_number (v : pyval) : option pyfloat :=
  match v with
  | VBool b => Some (Fin (inject_Z (Z.b2z b)))
  | VInt z => Some (Fin (inject_Z z))
  | VFloat f => Some f
  | _ => None
  end.

Fixpoint py_eq (v w : pyval) {struct v} : bool :=
  match v, w with
  | VNone, VNone => true
  | VStr s, VStr t => String.eqb s t
  | VList l, VList m =>
      (fix eqs (l m : list pyval) {struct l} : bool :=
         match l, m with
         | [], [] => true
         | x :: l', y :: m' => py_eq x y && eqs l' m'
         | _, _ => false
         end) l m
  | VDict d, VDict e =>
      (Z.of_nat (length d) =? Z.of_nat (length e)) &&
      (fix sub (d : list (string * pyval)) : bool :=
         match d with
         | [] => true
         | (k, x) :: d' => match dict_get k e with
                           | Some y => py_eq x y
                           | None => false
                           end && sub d'
         end) d
  | (VBool _ | VInt _ | VFloat _), (VBool _ | VInt _ | VFloat _) =>
      match as_number v, as_number w with
      | Some f, Some g => pyfloat_eq f g
      | _, _ => false
      end
  | _, _ => false
  end.

(** [v == "literal"] and [v in ("a", "b")]. *)
Definition eq_str (v : pyval) (s : string) : bool :=
  match v with VStr t => String.eqb t s | _ => false end.
Definition in_strs (v : pyval) (l : list string) : bool := existsb (eq_str v) l.

Lemma eq_str_true v s : eq_str v s = true <-> v = VStr s.
Proof. destruct v; simpl; try (split; congruence). rewrite String.eqb_eq. naive_solver. Qed.

(** ** Conversions *)
Definition is_digit (c : ascii) : bool :=
  let n := nat_of_ascii c in (48 <=? n)%nat && (n <=? 57)%nat.
Definition digit_val (c : ascii) : Z := Z.of_nat (nat_of_ascii c - 48).
Definition is_space (c : ascii) : bool :=
  let n := nat_of_ascii c in
  ((9 <=? n)%nat && (n <=? 13)%nat) || ((28 <=? n)%nat && (n <=? 32)%nat).

Fixpoint lstrip (s : string) : string :=
  match s with
  | EmptyString => EmptyString
  | String c s' => if is_space c then lstrip s' else s
  end.
Fixpoint rstrip (s : string) : string :=
  match s with
  | EmptyString => EmptyString
  | String c s' => match rstrip s' with
                   | EmptyString => if is_space c then EmptyString else String c EmptyString
                   | r => String c r
                   end
  end.
(** [s.strip()] (ASCII white space). *)
Definition strip (s : string) : string := rstrip (lstrip s).

(** Decimal digits with single underscores between digits, as [int(s)] reads
    them; [prev] says the previous character was a digit. *)
Fixpoint digits (acc : Z) (prev : bool) (s : string) : option Z :=
  match s with
  | EmptyString => if prev then Some acc else None
  | String c s' =>
      if is_digit c then digits (acc * 10 + digit_val c) true s'
      else if Ascii.eqb c "_"%char && prev then digits acc false s'
      else None
  end.

(** [int(s)] of a string. *)
Definition int_of_str (s : string) : option Z :=
  match strip s with
  | String "-" s' => option_map Z.opp (digits 0 false s')
  | String "+" s' => digits 0 false s'
  | s' => digits 0 false s'
  end.

(** [int(q)] of a finite float: truncation toward zero. *)
Definition Qtrunc (q : Q) : Z := if Qleb 0 q then Qfloor q else - Qfloor (- q).

(** [int(v)] *)
Definition py_int (v : pyval) : res Z :=
  match v with
  | VBool b => Ok (Z.b2z b)
  | VInt z => Ok z
  | VFloat (Fin q) => Ok (Qtrunc q)
  | VFloat NaN => Err (EValue "cannot convert float NaN to integer")
  | VFloat _ => Err EOverflow
  | VStr s => match int_of_str s with Some z => Ok z | None => Err (EValue "invalid literal for int()") end
  | _ => Err EType
  end.

(** [str(v)].  The text of floats and containers ([repr]) is not spelled out:
    it is the class operation [repr_other]. *)
Class Repr := repr_other : pyval -> string.

Definition py_str `{Repr} (v : pyval) : string :=
  match v with
  | VNone => "None"
  | VBool true => "True"
  | VBool false => "False"
  | VInt z => str_Z z
  | VStr s => s
  | _ => repr_other v
  end.

(** SHA-256 of the canonical JSON text of a value, and the length of its compact
    JSON text.  Both are class operations: nothing here depends on the digest
    beyond its being a function. [allow_nan=False] makes the digest raise. *)
Class Digest := json_digest : pyval -> res string.
Class JsonText := json_len : pyval -> Z.

(** A float that [allow_nan=False] refuses, anywhere in the value. *)
Fixpoint nonfinite (v : pyval) : bool :=
  match v with
  | VFloat (Fin _) => false
  | VFloat _ => true
  | VList l => (fix any (l : list pyval) : bool :=
                  match l with [] => false | x :: l' => nonfinite x || any l' end) l
  | VDict d => (fix any (d : list (string * pyval)) : bool :=
                  match d with [] => false | (_, x) :: d' => nonfinite x || any d' end) d
  | _ => false
  end.

(** The length of [json.dumps(v, allow_nan=False, separators=(',', ':'))]. *)
Definition dumps `{JsonText} (v : pyval) : res Z :=
  if nonfinite v then Err (EValue "Out of range float values are not JSON compliant") else Ok (json_len v).

(** [len] of a string. *)
Definition slen (s : string) : Z := Z.of_nat (String.length s).

(** [p in s] and [s.endswith(p)]. *)
Fixpoint contains (p s : string) : bool :=
  String.prefix p s || match s with EmptyString => false | String _ s' => contains p s' end.
Fixpoint ends_with (suffix s : string) : bool :=
  String.eqb suffix s || match s with EmptyString => false | String _ s' => ends_with suffix s' end.

(** [s.split()]: the maximal runs of characters that are not white space. *)
Fixpoint split_go (cur : string) (s : string) : list string :=
  match s with
  | EmptyString => if String.eqb cur "" then [] else [cur]
  | String c s' =>
      if is_space c then (if String.eqb cur "" then split_go "" s' else cur :: split_go "" s')
      else split_go (cur ++ String c EmptyString)%string s'
  end.
Definition split_ws (s : string) : list string := split_go "" s.

(** [s.lower()] of an ASCII string. *)
Definition lower_ascii (c : ascii) : ascii :=
  let n := nat_of_ascii c in if (65 <=? n)%nat && (n <=? 90)%nat then ascii_of_nat (n + 32) else c.
Fixpoint lower (s : string) : string :=
  match s with EmptyString => EmptyString | String c s' => String (lower_ascii c) (lower s') end.

(** [s[:n]] for [n >= 0]. *)
Definition str_take (n : nat) (s : string) : string := String.substring 0 n s.

Definition is_hex (c : ascii) : bool :=
  let n := nat_of_ascii c in is_digit c || ((97 <=? n)%nat && (n <=? 102)%nat).
Fixpoint all_chars (p : ascii -> bool) (s : string) : bool :=
  match s with EmptyString => true | String c s' => p c && all_chars p s' end.

Lemma all_chars_app p s t : all_chars p (s +:+ t) = all_chars p s && all_chars p t.
Proof. induction s as [|c s IH]; simpl; [done|]. by rewrite IH, andb_assoc. Qed.

Lemma truthy_py_or v w : truthy (py_or v w) = truthy v || truthy w.
Proof. unfold py_or. by destruct (truthy v) eqn:E; [rewrite E|]. Qed.

Example int_of_str_ex : map int_of_str ["12"; " -3 "; "+7"; "1_000"; ""; "_1"; "1__0"; "4x"]
  = [Some 12; Some (-3); Some 7; Some 1000; None; None; None; None].
Proof. reflexivity. Qed.
Example py_eq_ex : py_eq (VDict [("a", VBool false); ("p", VInt 0)])
                         (VDict [("p", VFloat (Fin 0)); ("a", VInt 0)]) = true.
Proof. reflexivity. Qed.
Example split_ws_ex : split_ws "  a bc
 d " = ["a"; "bc"; "d"].
Proof. reflexivity. Qed.

(** [int(state.get(k, 0) or 0)] and [str(d.get(k, "") or "")]. *)
Definition int0 (d : list (string * pyval)) (k : string) : res Z := py_int (py_or (dget d k (VInt 0)) (VInt 0)).
Definition str0 `{Repr} (d : list (string * pyval)) (k : string) : string := py_str (py_or (dget d k (VStr "")) (VStr "")).

(** A key that an update does not write keeps its value. *)
Lemma dict_get_update_ne {A} k (d kvs : list (string * A)) : ~ In k (map fst kvs) -> dict_get k (dict_update d kvs) = dict_get k d.
Proof.
  unfold dict_update. revert d. induction kvs as [|[k' v'] kvs IH]; intros d Hn; [done|].
  simpl in *. rewrite IH; [|tauto]. apply dict_get_set_ne. intros ->. tauto.
Qed.
