(* ===== verification/Clock.v ===== *)
(** * The clock exchange contract (ops/selfheal/clock_contract.py)

    Offset bounds of a remote wall clock obtained from one request/response
    exchange, the age of a source observation bounded on boot-time clocks only,
    and the last-known-evidence cache.  A [stamp] is one [capture()]; the
    readings of the local clocks are arguments. *)
From Stdlib Require Import Ascii.
From S2P Require Import Prelude PyVal.

Definition SCHEMA : string := "stream.clock_exchange.v1".
Definition EPSILON : Q := 5 # 1000.
Definition STEP_LIMIT : Q := 50 # 1000.
Definition MAX_EXCHANGE : Q := 12.
Definition MODEL_TTL : Q := 180.
Definition PAIR_DRIFT : Q := 1 # 1000.

Record stamp : Type := Stamp { wall : Q; mono : Q }.

(** [capture()]: the three readings are the boot-time clock before, the wall
    clock, and the boot-time clock after. *)
Definition capture (before wall_now after : Q) : res stamp :=
  if Qltb EPSILON (after - before) then Err (EClock "clock_capture_delayed")
  else Ok (Stamp wall_now ((before + after) / 2)).

Definition stamp_py (s : stamp) : pyval :=
  VDict [("wall", VFloat (Fin (wall s))); ("mono", VFloat (Fin (mono s)))].

Record host_identity : Type := HostIdentity { h_boot : string; h_machine : string }.

Definition valid_nonce (v : pyval) : bool :=
  match v with
  | VStr s => (slen s =? 32) && all_chars is_hex s
  | _ => false
  end.

(** [envelope(nonce, started, host_identity=...)]; [sent] is its own capture. *)
Definition envelope (nonce : pyval) (started : stamp) (bound : host_identity) (sent : res stamp)
  : res pyval :=
  if negb (valid_nonce nonce) then Err (EClock "clock_nonce_invalid")
  else
    let! s := sent in
    Ok (VDict [("schema", VStr SCHEMA); ("nonce", nonce); ("boot_id", VStr (h_boot bound));
               ("machine_id_sha256", VStr (h_machine bound));
               ("received", stamp_py started); ("sent", stamp_py s)]).

(** [finite(value)]: an [int] or [float] (not [bool]) that is finite. *)
Definition finite (v : pyval) : res bool := num_finite v.

Record Estimate : Type := mkEstimate {
  low : Q; high : Q; received_wall : Q; received_mono : Q;
  boot_id : string; machine : string; local_boot : string; network_rtt : Q }.

Definition bounds (e : Estimate) (now : stamp) (local_identity : option host_identity)
  : res (Q * Q) :=
  let elapsed := (mono now - received_mono e)%Q in
  if negb (Qleb 0 elapsed && Qleb elapsed MODEL_TTL) then Err (EClock "clock_model_expired")
  else if Qltb STEP_LIMIT (qabs (wall now - received_wall e - elapsed))
  then Err (EClock "clock_local_step")
  else if match local_identity with
          | Some i => negb (String.eqb (h_boot i) (local_boot e))
          | None => false
          end
  then Err (EClock "clock_local_boot_changed")
  else let drift := (elapsed * PAIR_DRIFT)%Q in Ok (low e - drift, high e + drift)%Q.

Definition age_bounds (e : Estimate) (source_stamp : pyval) (now : stamp) : res (Q * Q) :=
  let! ok := finite source_stamp in
  if negb ok then Err (EClock "clock_timestamp_invalid")
  else
    let! (l, h) := bounds e now None in
    let age := (received_wall e + mono now - received_mono e - num_val source_stamp)%Q in
    Ok (age + l, age + h)%Q.

Definition fresh (e : Estimate) (source_stamp : pyval) (max_age : Q) (now : stamp) : res bool :=
  let! (l, h) := age_bounds e source_stamp now in
  Ok (Qleb (- EPSILON) h && Qleb h max_age).

Record clock_report : Type := ClockReport {
  offset_seconds : Q; uncertainty_seconds : Q; network_rtt_seconds : Q; model_ttl_seconds : Q }.

Definition diagnostic (e : Estimate) (now : stamp) : res clock_report :=
  let! (l, h) := bounds e now None in
  Ok (ClockReport ((l + h) / 2) ((h - l) / 2) (network_rtt e) MODEL_TTL).

(** [except (KeyError, TypeError, OverflowError): raise ClockRejected('clock_invalid')] *)
Definition clock_invalid {A} (m : res A) : res A :=
  match m with
  | Err (EKey | EType | EOverflow) => Err (EClock "clock_invalid")
  | _ => m
  end.

Definition stamp_finite (v : pyval) : res bool :=
  rall (fun k => let! x := idx v k in finite x) ["wall"; "mono"].

(** [value[k] != s] for a string [s]. *)
Definition field_ne (value : pyval) (k : string) (s : pyval) : res bool :=
  let! x := idx value k in Ok (negb (py_eq x s)).

Definition estimate_body (value nonce : pyval) (sent received : stamp) (machine : string)
    (boot_id : pyval) (local_boot : string) : res Estimate :=
  let! bad := field_ne value "schema" (VStr SCHEMA) ||! Ok (negb (valid_nonce nonce))
              ||! field_ne value "nonce" nonce in
  if bad : bool then Err (EClock "clock_nonce_mismatch") else
  let! bad := Ok (negb (slen machine =? 64)) ||! field_ne value "machine_id_sha256" (VStr machine)
              ||! (let! b := idx value "boot_id" in Ok (negb (is_str b)))
              ||! (let! b := idx value "boot_id" in Ok (negb (truthy b)))
              ||! (Ok (negb (is_none boot_id)) &&! field_ne value "boot_id" boot_id) in
  if bad : bool then Err (EClock "clock_identity_mismatch") else
  let! a := idx value "received" in
  let! b := idx value "sent" in
  let! fin := stamp_finite a &&! stamp_finite b in
  if negb fin then Err (EClock "clock_invalid") else
  let! aw := idx a "wall" in let! am := idx a "mono" in
  let! bw := idx b "wall" in let! bm := idx b "mono" in
  let local := (mono received - mono sent)%Q in
  let remote := (num_val bm - num_val am)%Q in
  if negb (Qleb 0 remote && Qleb remote (local + 2 * EPSILON))
     || negb (Qleb 0 local && Qleb local MAX_EXCHANGE)
  then Err (EClock "clock_exchange_delayed") else
  if Qltb STEP_LIMIT (qabs (wall received - wall sent - local))
     || Qltb STEP_LIMIT (qabs (num_val bw - num_val aw - remote))
  then Err (EClock "clock_step_during_exchange") else
  let lo := (num_val bw - wall received - EPSILON)%Q in
  let hi := (num_val aw - wall sent + EPSILON)%Q in
  if Qltb (hi + EPSILON) lo then Err (EClock "clock_interval_invalid") else
  let! vb := idx value "boot_id" in
  Ok (mkEstimate lo (qmax lo hi) (wall received) (mono received) (str_val vb) machine
        local_boot (qmax 0 (local - remote))).

Definition estimate (value nonce : pyval) (sent received : stamp) (machine : string)
    (boot_id : pyval) (local_boot : string) : res Estimate :=
  clock_invalid (estimate_body value nonce sent received machine boot_id local_boot).

Definition nonneg_finite (v : pyval) : res bool :=
  let! f := finite v in Ok (f && Qleb 0 (num_val v)).

Definition source_age_body (value nonce : pyval) (sent received : stamp) (machine : string)
    (boot_id source_mono : pyval) (max_age : Q) : res Q :=
  let! bad := field_ne value "schema" (VStr SCHEMA) ||! Ok (negb (valid_nonce nonce))
              ||! field_ne value "nonce" nonce in
  if bad : bool then Err (EClock "clock_nonce_mismatch") else
  let! bad := field_ne value "machine_id_sha256" (VStr machine)
              ||! Ok (negb (slen machine =? 64)) ||! field_ne value "boot_id" boot_id in
  if bad : bool then Err (EClock "clock_identity_mismatch") else
  let! ra := idx value "received" in let! a := idx ra "mono" in
  let! rb := idx value "sent" in let! b := idx rb "mono" in
  let! fin := rall nonneg_finite [a; b; VFloat (Fin (mono sent)); VFloat (Fin (mono received)); source_mono] in
  if negb fin then Err (EClock "clock_invalid") else
  let elapsed := (mono received - mono sent)%Q in
  let remote := (num_val b - num_val a)%Q in
  if negb (Qleb 0 elapsed && Qleb elapsed MAX_EXCHANGE)
     || negb (Qleb 0 remote && Qleb remote (elapsed + 2 * EPSILON))
  then Err (EClock "clock_exchange_delayed") else
  let age := (num_val b - num_val source_mono)%Q in
  if Qltb age (- EPSILON) || Qltb max_age (age + elapsed) then Err (EClock "clock_source_expired")
  else Ok (qmax 0 age + elapsed)%Q.

Definition monotonic_source_age (value nonce : pyval) (sent received : stamp) (machine : string)
    (boot_id source_mono : pyval) (max_age : Q) : res Q :=
  clock_invalid (source_age_body value nonce sent received machine boot_id source_mono max_age).

(** ** [EvidenceCache] *)
Record EvidenceCache (A : Type) : Type := mkCache {
  max_age : Q; entry : option (A * Estimate * pyval) }.
Arguments mkCache {A} _ _. Arguments max_age {A} _. Arguments entry {A} _.

Definition cache_put {A} (c : EvidenceCache A) (v : A) (m : Estimate) (src : pyval) : EvidenceCache A :=
  mkCache (max_age c) (Some (v, m, src)).

(** [get(now)]: [ClockRejected] reads as no evidence. *)
Definition cache_get {A} (c : EvidenceCache A) (now : stamp) : res (option A) :=
  match entry c with
  | None => Ok None
  | Some (v, m, src) =>
      match fresh m src (max_age c) now with
      | Ok b => Ok (if b then Some v else None)
      | Err (EClock _) => Ok None
      | Err e => Err e
      end
  end.

(** ** Facts about the exchange *)

Lemma clock_invalid_Ok {A} (m : res A) a : clock_invalid m = Ok a -> m = Ok a.
Proof. destruct m as [|[]]; simpl; congruence. Qed.

Lemma envelope_Ok nonce st id s v : envelope nonce st id s = Ok v ->
  valid_nonce nonce = true /\
  exists s2, s = Ok s2 /\
  v = VDict [("schema", VStr SCHEMA); ("nonce", nonce); ("boot_id", VStr (h_boot id));
             ("machine_id_sha256", VStr (h_machine id));
             ("received", stamp_py st); ("sent", stamp_py s2)].
Proof.
  unfold envelope. destruct (valid_nonce nonce); simpl; [|done].
  destruct s as [s2|]; simpl; [|done]. intros [= <-]. eauto.
Qed.

Lemma py_eq_str_l s v : py_eq (VStr s) v = eq_str v s.
Proof. destruct v; simpl; try done. apply String.eqb_sym. Qed.

(** A decoded exchange that [estimate] accepts, field by field. *)
Lemma estimate_envelope nonce st id s2 v sent received m boot lb e :
  envelope nonce st id (Ok s2) = Ok v ->
  estimate v nonce sent received m boot lb = Ok e ->
  low e = (wall s2 - wall received - EPSILON)%Q /\
  high e = qmax (low e) (wall st - wall sent + EPSILON) /\
  received_wall e = wall received /\ received_mono e = mono received /\
  machine e = h_machine id /\ boot_id e = h_boot id.
Proof.
  intros (Hn & s2' & [= <-] & ->)%envelope_Ok H%clock_invalid_Ok.
  unfold estimate_body, field_ne in H. cbn -[py_eq valid_nonce EPSILON STEP_LIMIT MAX_EXCHANGE Qminus Qplus] in H.
  rewrite Hn, !py_eq_str_l in H. cbn -[valid_nonce EPSILON STEP_LIMIT MAX_EXCHANGE Qminus Qplus] in H.
  destruct (py_eq nonce nonce); simpl in H; [|done].
  destruct (slen m =? 64); simpl in H; [|done].
  destruct (String.eqb_spec m (h_machine id)) as [<-|]; simpl in H; [|done].
  destruct (String.eqb (h_boot id) ""); simpl in H; [done|].
  destruct (if negb (is_none boot) then _ else _) as [[]|]; simpl in H; try done.
  repeat case_in H; try done. injection H as <-. by repeat split.
Qed.

Lemma bounds_Ok e now li l h : bounds e now li = Ok (l, h) ->
  (0 <= mono now - received_mono e <= MODEL_TTL)%Q /\
  (qabs (wall now - received_wall e - (mono now - received_mono e)) <= STEP_LIMIT)%Q /\
  l = (low e - (mono now - received_mono e) * PAIR_DRIFT)%Q /\
  h = (high e + (mono now - received_mono e) * PAIR_DRIFT)%Q.
Proof.
  unfold bounds. intros H.
  destruct (Qleb_spec 0 (mono now - received_mono e)); simpl in H; [|done].
  destruct (Qleb_spec (mono now - received_mono e) MODEL_TTL); simpl in H; [|done].
  destruct (Qltb_spec STEP_LIMIT (qabs (wall now - received_wall e - (mono now - received_mono e)))); [done|].
  destruct (match li with Some _ => _ | None => _ end); [done|].
  injection H as <- <-. auto.
Qed.

(** What the accepting path of [source_age_body] established. *)
Lemma source_age_Ok v nonce sent received m boot src mx r :
  monotonic_source_age v nonce sent received m boot src mx = Ok r ->
  exists n ra rb a b, idx v "nonce" = Ok n /\ py_eq n nonce = true /\ valid_nonce nonce = true /\
    idx v "received" = Ok ra /\ idx ra "mono" = Ok a /\
    idx v "sent" = Ok rb /\ idx rb "mono" = Ok b /\
    (0 <= mono received - mono sent <= MAX_EXCHANGE)%Q /\
    (0 <= num_val b - num_val a)%Q /\
    (- EPSILON <= num_val b - num_val src)%Q /\
    (num_val b - num_val src + (mono received - mono sent) <= mx)%Q /\
    r = (qmax 0 (num_val b - num_val src) + (mono received - mono sent))%Q.
Proof.
  intros H%clock_invalid_Ok. unfold source_age_body, field_ne in H.
  destruct (idx v "schema") as [s|]; simpl in H; [|done].
  destruct (py_eq s _); simpl in H; [|done].
  destruct (valid_nonce nonce) eqn:Hn; simpl in H; [|done].
  destruct (idx v "nonce") as [n|] eqn:En; simpl in H; [|done].
  destruct (py_eq n nonce) eqn:Ee; simpl in H; [|done].
  match type of H with rbind ?c _ = _ => destruct c as [[]|] end; simpl in H; try done.
  destruct (idx v "received") as [ra|] eqn:E1; simpl in H; [|done].
  destruct (idx ra "mono") as [a|] eqn:E2; simpl in H; [|done].
  destruct (idx v "sent") as [rb|] eqn:E3; simpl in H; [|done].
  destruct (idx rb "mono") as [b|] eqn:E4; simpl in H; [|done].
  match type of H with rbind ?c _ = _ => destruct c as [[]|] end; simpl in H; try done.
  destruct (negb _ || negb _) eqn:E5 in H; [done|].
  destruct (Qltb _ _ || Qltb _ _) eqn:E6 in H; [done|]. injection H as <-.
  apply orb_false_iff in E5 as [E5 E5'], E6 as [E6 E6'].
  apply negb_false_iff, andb_true_iff in E5 as [? ?], E5' as [? ?].
  rewrite Qltb_false in *. rewrite Qleb_true in *.
  exists n, ra, rb, a, b. repeat split; auto.
Qed.

(** ** Properties *)

(** The offset interval is sound.  If the peer answered with the envelope of
    this exchange, its two wall readings are within [EPSILON] of the local wall
    clock shifted by the true offset [delta] at the instants the request arrived
    ([L1]) and the reply left ([L2]), and those instants lie between sending and
    receiving, then the accepted interval contains [delta], whatever the
    asymmetry of the path. *)
Theorem estimate_contains_offset nonce st id s2 v sent received m boot lb e (delta L1 L2 : Q) :
  envelope nonce st id (Ok s2) = Ok v ->
  estimate v nonce sent received m boot lb = Ok e ->
  (wall sent <= L1)%Q -> (L2 <= wall received)%Q ->
  (qabs (wall st - (L1 + delta)) <= EPSILON)%Q ->
  (qabs (wall s2 - (L2 + delta)) <= EPSILON)%Q ->
  (low e <= delta <= high e)%Q.
Proof.
  intros Hv He H1 H2 Ha Hb.
  destruct (estimate_envelope _ _ _ _ _ _ _ _ _ _ _ Hv He) as (-> & -> & _).
  unfold EPSILON in *. qsolve.
Qed.

(** Evidence accepted as fresh is never older than the allowed age, also
    during holdover.  [delta] is the true offset at the exchange, [delta'] the
    true offset now, and the clocks drift apart by at most [PAIR_DRIFT]; the
    remote wall clock then reads the right-hand side of [R]. *)
Theorem fresh_evidence_age_sound e src mx now (delta delta' R : Q) :
  fresh e (VFloat (Fin src)) mx now = Ok true ->
  (low e <= delta <= high e)%Q ->
  (qabs (delta' - delta) <= (mono now - received_mono e) * PAIR_DRIFT)%Q ->
  (R == received_wall e + (mono now - received_mono e) + delta')%Q ->
  (R - src <= mx)%Q /\ (mono now - received_mono e <= MODEL_TTL)%Q.
Proof.
  unfold fresh, age_bounds. simpl. intros H [Hl Hh] Hd HR.
  destruct (bounds e now None) as [[l h]|] eqn:Eb; simpl in H; [|done].
  injection H as H. apply andb_true_iff in H as [_ H]. apply Qleb_true in H.
  apply bounds_Ok in Eb as ([? ?] & _ & -> & ->).
  split; [|done]. rewrite HR. unfold qabs in Hd. qcases; lra.
Qed.

(** The boot-time source age is conservative and bounded.  [t_req <= t_reply
    <= t_recv] are true instants (seconds of one reference clock), the remote
    clock runs [c] ahead of it and the local one [d] ahead, and the source was
    captured at the true instant [t_src].  An accepted age is at least the true
    age on receipt and exceeds [max_age] by at most [EPSILON]; no difference of the two hosts' clocks
    is taken. *)
Theorem source_age_conservative nonce st id s2 v sent received m boot src mx r
    (c d t_req t_reply t_recv t_src : Q) :
  envelope nonce st id (Ok s2) = Ok v ->
  monotonic_source_age v nonce sent received m boot (VFloat (Fin src)) mx = Ok r ->
  (mono sent == t_req + d)%Q -> (mono received == t_recv + d)%Q ->
  (mono s2 == t_reply + c)%Q -> (src == t_src + c)%Q -> (t_req <= t_reply)%Q ->
  (t_recv - t_src <= r <= mx + EPSILON)%Q.
Proof.
  intros (_ & s2' & [= <-] & ->)%envelope_Ok H Hs Hr H2 Hsrc Hle.
  apply source_age_Ok in H as (n & ra & rb & a & b & _ & _ & _ & _ & _ & Hb & Hbm & _ & _ & H5 & H6 & ->).
  cbn in Hb. injection Hb as <-. cbn in Hbm. injection Hbm as <-. cbn in *.
  unfold EPSILON in *. split; qsolve.
Qed.

(** A response is bound to this request, this machine and this boot: with
    another nonce (a replay) or another identity both consumers of the exchange
    reject it, whatever its clocks say. *)
Theorem replayed_or_foreign_exchange_rejected (nonce nonce' m boot lb : string) st id s2 v
    sent received src mx :
  envelope (VStr nonce') st id (Ok s2) = Ok v ->
  nonce <> nonce' \/ m <> h_machine id \/ boot <> h_boot id ->
  is_ok (estimate v (VStr nonce) sent received m (VStr boot) lb) = false /\
  is_ok (monotonic_source_age v (VStr nonce) sent received m (VStr boot) src mx) = false.
Proof.
  intros (Hn & s2' & [= <-] & ->)%envelope_Ok Hbad.
  unfold estimate, monotonic_source_age, estimate_body, source_age_body, field_ne.
  cbn -[valid_nonce EPSILON STEP_LIMIT MAX_EXCHANGE Qminus Qplus].
  assert (String.eqb nonce' nonce && String.eqb (h_machine id) m && String.eqb (h_boot id) boot = false)
    as Hb.
  { apply not_true_iff_false. rewrite !andb_true_iff, !String.eqb_eq.
    intros [[? ?] ?]. destruct Hbad as [|[|]]; congruence. }
  destruct (valid_nonce (VStr nonce)); [|by split].
  destruct (String.eqb nonce' nonce); [|by split].
  destruct (String.eqb (h_machine id) m); [|by destruct (slen m =? 64)].
  destruct (String.eqb (h_boot id) boot); [done|].
  simpl. destruct (slen m =? 64), (String.eqb (h_boot id) ""); by split.
Qed.

(** A live exchange round-trips: the envelope the peer builds for a valid
    nonce is accepted by the requester that holds the same nonce, machine and
    boot, with age exactly the source age plus the whole exchange delay, when
    the clock readings are non-negative, the exchange takes at most
    [MAX_EXCHANGE] and encloses the remote handling, and the bound is met. *)
Theorem envelope_source_age_roundtrip (nonce : string) st id s2 v sent received src mx :
  envelope (VStr nonce) st id (Ok s2) = Ok v ->
  slen (h_machine id) = 64 ->
  (0 <= mono st <= mono s2)%Q -> (0 <= mono sent)%Q -> (0 <= src <= mono s2)%Q ->
  (mono s2 - mono st <= mono received - mono sent <= MAX_EXCHANGE)%Q ->
  (mono s2 - src + (mono received - mono sent) <= mx)%Q ->
  exists r, monotonic_source_age v (VStr nonce) sent received (h_machine id) (VStr (h_boot id))
              (VFloat (Fin src)) mx = Ok r /\
            (r == mono s2 - src + (mono received - mono sent))%Q.
Proof.
  intros (Hn & s2' & [= <-] & ->)%envelope_Ok Hm [? ?] ? [? ?] [? ?] ?.
  unfold monotonic_source_age, source_age_body, field_ne.
  cbn -[valid_nonce EPSILON MAX_EXCHANGE Qminus Qplus Qmult slen].
  rewrite Hn, !String.eqb_refl, Hm. cbn -[EPSILON MAX_EXCHANGE Qminus Qplus Qmult].
  assert (Hr : (0 <= mono received)%Q) by lra.
  repeat match goal with H : (0 <= ?x)%Q |- context [Qleb 0 ?x] =>
    rewrite (proj2 (Qleb_true 0 x) H) end.
  rewrite !(proj2 (Qleb_true _ _)) by (unfold EPSILON in *; lra).
  rewrite !(proj2 (Qltb_false _ _)) by (unfold EPSILON in *; lra).
  simpl. eexists. split; [done|]. unfold qmax. qsolve.
Qed.

(** ** Witnesses

    One exchange: the remote wall clock runs 100 s ahead, the request takes
    0.2 s, handling 0.1 s, the reply 0.3 s. *)
Definition ex_nonce : string := "0123456789abcdef0123456789abcdef".
Definition ex_machine : string := String.concat "" [ex_nonce; ex_nonce].
Definition ex_id : host_identity := HostIdentity "boot-1" ex_machine.
Definition ex_sent : stamp := Stamp 1000 10.
Definition ex_st : stamp := Stamp (11002 # 10) (5002 # 10).
Definition ex_s2 : stamp := Stamp (11003 # 10) (5003 # 10).
Definition ex_received : stamp := Stamp (10006 # 10) (106 # 10).
Definition ex_value : pyval :=
  match envelope (VStr ex_nonce) ex_st ex_id (Ok ex_s2) with Ok v => v | Err _ => VNone end.
Definition ex_estimate : Estimate :=
  match estimate ex_value (VStr ex_nonce) ex_sent ex_received ex_machine (VStr "boot-1") "here" with
  | Ok e => e | Err _ => mkEstimate 0 0 0 0 "" "" "" 0 end.

Lemma estimate_contains_offset_witness : (low ex_estimate <= 100 <= high ex_estimate)%Q.
Proof.
  apply (estimate_contains_offset (VStr ex_nonce) ex_st ex_id ex_s2 ex_value ex_sent ex_received
           ex_machine (VStr "boot-1") "here" ex_estimate 100 (10002 # 10) (10003 # 10));
    vm_compute; congruence || reflexivity.
Defined.

Lemma fresh_evidence_age_sound_witness :
  (1110 + 100 - 1200 <= 20)%Q /\ (mono (Stamp 1110 120) - received_mono ex_estimate <= MODEL_TTL)%Q.
Proof.
  pose proof (fresh_evidence_age_sound ex_estimate 1200 20 (Stamp 1110 120) 100 100 1210) as H.
  destruct H as [H1 H2]; [vm_compute; reflexivity | vm_compute; split; congruence
    | vm_compute; congruence | vm_compute; reflexivity | split; [lra|exact H2]].
Defined.

Lemma source_age_conservative_witness :
  exists r, monotonic_source_age ex_value (VStr ex_nonce) ex_sent ex_received ex_machine
              (VStr "boot-1") (VFloat (Fin 495)) 20 = Ok r /\
            ((106 # 10) - 5 <= r <= 20 + EPSILON)%Q.
Proof.
  eexists. split; [vm_compute; reflexivity|].
  apply (source_age_conservative (VStr ex_nonce) ex_st ex_id ex_s2 ex_value ex_sent ex_received
    ex_machine (VStr "boot-1") 495 20 _ 490 0 10 (103 # 10) (106 # 10) 5);
    vm_compute; congruence || reflexivity.
Defined.

Lemma replayed_or_foreign_exchange_rejected_witness :
  let other : string := "ffffffffffffffffffffffffffffffff" in
  is_ok (estimate ex_value (VStr other) ex_sent ex_received ex_machine (VStr "boot-1") "here") = false /\
  is_ok (monotonic_source_age ex_value (VStr other) ex_sent ex_received ex_machine (VStr "boot-1")
           (VFloat (Fin 495)) 20) = false.
Proof.
  apply (replayed_or_foreign_exchange_rejected _ ex_nonce ex_machine "boot-1" "here" ex_st ex_id ex_s2);
    [vm_compute; reflexivity | left; vm_compute; congruence].
Defined.

Lemma envelope_source_age_roundtrip_witness :
  exists r, monotonic_source_age ex_value (VStr ex_nonce) ex_sent ex_received ex_machine
              (VStr "boot-1") (VFloat (Fin 495)) 20 = Ok r /\
            (r == mono ex_s2 - 495 + (mono ex_received - mono ex_sent))%Q.
Proof.
  apply (envelope_source_age_roundtrip ex_nonce ex_st ex_id ex_s2);
    vm_compute; repeat split; congruence || reflexivity.
Defined.
