(* ===== verification/RouteAssessment.v ===== *)
(** * Route facts and causal identity (ops/selfheal/route_assessment.py)

    [TransportWitness] compares two generations of the local transport export,
    [ProgressDeadline] is the single deadline since the last verified downstream
    progress, [ClockDiagnostics] the UTC diagnostic timer and [CauseBook] the
    durable bookmark of the current incident. *)
From Stdlib Require Import Ascii.
From S2P Require Import Prelude PyVal.

(** ** Assessment domains *)
Inductive domain : Type := HEALTHY | MEDIA_FAILURE | CLOCK_FAULT | OBSERVATION_LOST | INITIALIZING.
#[export] Instance domain_eq_dec : EqDecision domain.
Proof. solve_decision. Defined.

Definition domain_str (d : domain) : string :=
  match d with
  | HEALTHY => "HEALTHY" | MEDIA_FAILURE => "MEDIA_FAILURE" | CLOCK_FAULT => "CLOCK_FAULT"
  | OBSERVATION_LOST => "OBSERVATION_LOST" | INITIALIZING => "INITIALIZING"
  end.

Definition domain_for_missing (reason : string) : domain :=
  if String.eqb reason "baseline_required" then INITIALIZING else OBSERVATION_LOST.

(** ** [TransportWitness] *)
Module TransportWitness.
Inductive status : Type := FLOWING | UNKNOWN | STOPPED.
Record verdict : Type := Verdict { v_status : status; v_reason : string }.

Record generation : Type := Gen {
  g_generation : string; g_stamp : string; g_bytes : Z; g_digest : string; g_at : Q }.

Section Sample.
Context `{Digest}.

(** The fields read before the comparison, with their checks. *)
Definition parse (value : pyval) (now : Q) : res generation :=
  let! schema := idx value "schema" in
  if negb (eq_str schema "stream_v3.ffmpeg_transport.v1") then Err (EValue "") else
  let! gen := idx value "ffmpeg_generation" in
  let! stamp := idx value "observed_at" in
  let! count := idx value "ack_bytes_observed_total" in
  if negb (is_str gen) || negb (truthy gen) || negb (is_str stamp) || negb (truthy stamp)
     || negb (is_int count) || (int_val count <? 0)
  then Err (EValue "") else
  let! digest := json_digest value in
  Ok (Gen (str_val gen) (str_val stamp) (int_val count) digest now).

(** [0 < now - previous['at'] <= 45] *)
Definition within (p : generation) (now : Q) : bool :=
  Qltb 0 (now - g_at p) && Qleb (now - g_at p) 45.

(** [any(type(value.get('tcp_metrics',{}).get(k)) is int and ... > 0 for k in ...)] *)
Definition pending_key (value : pyval) (k : string) : res bool :=
  let! metrics := getd value "tcp_metrics" (VDict []) in
  let! n := get metrics k in
  Ok (is_int n && (0 <? int_val n)).
Definition pending (value : pyval) : res bool :=
  pending_key value "notsent" ||! pending_key value "unacked".

Definition stalled_verdict (value : pyval) : res verdict :=
  let! p := pending value in
  let! st := get value "state" in
  let! fifo := get value "fifo_recovering" in
  Ok (if eq_str st "TCP_ACK_STALLED" && p then Verdict STOPPED "local_transport_stalled"
      else if is_true fifo then Verdict STOPPED "local_fifo_recovering"
      else Verdict UNKNOWN "local_transport_unconfirmed").

Definition compare (previous : option generation) (current : generation) (value : pyval) (now : Q)
  : option generation * res verdict :=
  match previous with
  | None => (Some current, Ok (Verdict UNKNOWN "local_transport_baseline"))
  | Some p =>
      let same := String.eqb (g_generation current) (g_generation p) in
      if same && within p now && (g_bytes p <? g_bytes current)
      then (Some current, Ok (Verdict FLOWING "local_ack_advancing"))
      else if String.eqb (g_digest current) (g_digest p) || String.eqb (g_stamp current) (g_stamp p)
      then (Some p, Ok (Verdict UNKNOWN "local_transport_stale"))
      else if negb same || negb (within p now)
      then (Some current, Ok (Verdict UNKNOWN "local_transport_baseline"))
      else
        let delta := g_bytes current - g_bytes p in
        if delta <? 0
        then (Some current, Ok (Verdict UNKNOWN "local_transport_counter_regressed"))
        else if 0 <? delta
        then (Some current, Ok (Verdict FLOWING "local_ack_advancing"))
        else (Some current, stalled_verdict value)
  end.

(** [sample(value, now)]: the new [previous] and the result; an exception
    that the code does not catch is an [Err]. *)
Definition sample (previous : option generation) (value : pyval) (now : Q)
  : option generation * res verdict :=
  let unavailable := Ok (Verdict UNKNOWN "local_transport_unavailable") in
  match parse value now with
  | Err (EKey | EType | EValue _ | EObservation _ | EClock _ | EOverflow) => (None, unavailable)
  | Err e => (None, Err e)
  | Ok current =>
      match compare previous current value now with
      | (st, Err (EKey | EType | EValue _ | EObservation _ | EClock _ | EOverflow)) =>
          (st, unavailable)
      | r => r
      end
  end.
End Sample.
End TransportWitness.

(** ** [ProgressDeadline] *)
Module ProgressDeadline.
Definition AFTER : Q := 90.

Record state : Type := mk { started : option Q; last_route_progress : option Q }.
Definition init : state := mk None None.

Record report : Type := Report {
  unconfirmed_for_sec : Q; route_progress_confirmed : bool; after_sec : Q; expired : bool }.

Definition observe (s : state) (now : Q) (route_progress inhibited : bool) : state * report :=
  let s1 := if bool_decide (started s = None) || inhibited then mk (Some now) None else s in
  let last := if route_progress && negb inhibited then Some now else last_route_progress s1 in
  let since := match last with Some t => t | None => from_option id now (started s1) end in
  let age := qmax 0 (now - since) in
  (mk (started s1) last,
   Report (round3 age) (route_progress && negb inhibited) AFTER (Qleb AFTER age)).

(** One call per poll. *)
Record poll : Type := Poll { p_now : Q; p_progress : bool; p_inhibited : bool }.
Definition step (s : state) (p : poll) : state :=
  fst (observe s (p_now p) (p_progress p) (p_inhibited p)).
Definition run (ps : list poll) : state := fold_left step ps init.

(** Specification: the deadline counts from the latest poll that verified
    progress or was inhibited, or else from the first poll. *)
Definition renews (p : poll) : bool := p_progress p || p_inhibited p.
Definition anchor (ps : list poll) : option Q :=
  match List.find renews (rev ps) with
  | Some p => Some (p_now p)
  | None => option_map p_now (List.head ps)
  end.
End ProgressDeadline.

(** ** [ClockDiagnostics] *)
Module ClockDiagnostics.
Record report : Type := Report { c_status : string; fault_for_sec : Q }.

Definition observe (fault_since : option Q) (diagnostic : list (string * pyval)) (now : Q)
    (inhibited : bool) : res (option Q * report) :=
  let! st := get (dget diagnostic "clock" (VDict [])) "status" in
  let verified := eq_str st "VERIFIED" in
  let unknown := eq_str st "UNKNOWN" in
  let fs := if inhibited || verified then None
            else if unknown && bool_decide (fault_since = None) then Some now
            else fault_since in
  Ok (fs, Report (if verified then "VERIFIED" else if unknown then "FAULT" else "UNAVAILABLE")
                 (match fs with None => 0%Q | Some t => round3 (qmax 0 (now - t)) end)).
End ClockDiagnostics.

(** ** [CauseBook] *)
Module CauseBook.
Record cause : Type := Cause {
  id : string; sequence : Z; opened_boot : string; origin : string; origin_reason : string;
  fallback_started : bool; clear_since : option Q; clear_boot : option string;
  c_domain : domain; c_reason : string; last_action : option (string * option string) }.

Record state : Type := mk { seq : Z; current : option cause; last_closed_id : option string }.
Definition empty : state := mk 0 None None.

Inductive event : Type := cause_opened | cause_resolving | cause_closed.
Record report : Type := Report {
  cause_id : option string; assessment : domain; r_reason : string; cause_active : bool;
  fallback_active : option bool; secondary_recovery_blocked : bool; cause_event : option event }.

Definition is_problem (d : domain) (replicas : option Z) : bool :=
  negb (bool_decide (d = HEALTHY) || bool_decide (d = INITIALIZING))
  || match replicas with Some n => negb (n =? 0) | None => false end.

Definition set_clear (c : cause) (since : option Q) (b : option string) : cause :=
  Cause (id c) (sequence c) (opened_boot c) (origin c) (origin_reason c) (fallback_started c)
    since b (c_domain c) (c_reason c) (last_action c).

Definition open_cause (uuid boot : string) (n : Z) (d : domain) (reason : string) : cause :=
  Cause uuid n boot (if bool_decide (d = HEALTHY) then "UNATTRIBUTED_FALLBACK" else domain_str d)
    reason false None None d reason None.

Definition touch (c : cause) (d : domain) (reason : string) : cause :=
  Cause (id c) (sequence c) (opened_boot c) (origin c) (origin_reason c) (fallback_started c)
    None (clear_boot c) d reason (last_action c).

(** [update] before [save]; [uuid] is the fresh [uuid4().hex]. *)
Definition transition (boot uuid : string) (s : state) (d : domain) (reason : string)
    (replicas : option Z) (now : Q) : state * option event :=
  if is_problem d replicas then
    match current s with
    | None => (mk (seq s + 1) (Some (open_cause uuid boot (seq s + 1) d reason)) (last_closed_id s),
               Some cause_opened)
    | Some c => (mk (seq s) (Some (touch c d reason)) (last_closed_id s), None)
    end
  else
    match current s with
    | None => (s, None)
    | Some c =>
        if bool_decide (d = HEALTHY) && bool_decide (replicas = Some 0) then
          let restart := bool_decide (clear_since c = None) || negb (bool_decide (clear_boot c = Some boot)) in
          let c' := if restart then set_clear c (Some now) (Some boot) else c in
          let since := from_option (fun t => t) now (clear_since c') in
          if Qleb 180 (now - since)
          then (mk (seq s) None (Some (id c')), Some cause_closed)
          else (mk (seq s) (Some c') (last_closed_id s), if restart then Some cause_resolving else None)
        else (mk (seq s) (Some (set_clear c None (clear_boot c))) (last_closed_id s), None)
    end.

Definition make_report (s : state) (d : domain) (reason : string) (replicas : option Z)
    (ev : option event) : report :=
  Report (option_map id (current s)) d reason (bool_decide (is_Some (current s)))
    (option_map (fun n => 0 <? n) replicas)
    (negb (bool_decide (d = HEALTHY)) || bool_decide (is_Some (current s))
     || negb (bool_decide (replicas = Some 0))) ev.

(** [dispatched(action, result)] before [save]. *)
Definition dispatched (s : state) (action : string) (result : option string) : state :=
  match current s with
  | None => s
  | Some c =>
      mk (seq s)
        (Some (Cause (id c) (sequence c) (opened_boot c) (origin c) (origin_reason c)
                 (fallback_started c || (String.eqb action "START" && bool_decide (result = Some "SUCCEEDED")))
                 (clear_since c) (clear_boot c) (c_domain c) (c_reason c) (Some (action, result))))
        (last_closed_id s)
  end.

(** The JSON the book keeps on disk. *)
Definition opt_str (o : option string) : pyval := match o with Some s => VStr s | None => VNone end.
Definition opt_num (o : option Q) : pyval := match o with Some q => VFloat (Fin q) | None => VNone end.

Definition encode_cause (c : cause) : pyval :=
  VDict ([("id", VStr (id c)); ("sequence", VInt (sequence c)); ("opened_boot", VStr (opened_boot c));
          ("origin", VStr (origin c)); ("origin_reason", VStr (origin_reason c));
          ("fallback_started", VBool (fallback_started c)); ("clear_since", opt_num (clear_since c));
          ("clear_boot", opt_str (clear_boot c)); ("domain", VStr (domain_str (c_domain c)));
          ("reason", VStr (c_reason c))] ++
         match last_action c with
         | Some (a, r) => [("last_action", VStr a); ("last_action_result", opt_str r)]
         | None => []
         end).
Definition encode (s : state) : pyval :=
  VDict ([("schema", VStr "stream.route_cause_state.v1"); ("sequence", VInt (seq s));
          ("current", match current s with Some c => encode_cause c | None => VNone end)] ++
         match last_closed_id s with Some i => [("last_closed_id", VStr i)] | None => [] end).

(** [__init__] on an existing file: the accepted state is the JSON itself. *)
Definition load (raw_len : Z) (state : pyval) : res pyval :=
  if 16384 <? raw_len then Err (EValue "cause_state_oversized") else
  let! schema := get state "schema" in
  if negb (eq_str schema "stream.route_cause_state.v1") then Err (EValue "cause_state_invalid") else
  let! n := get state "sequence" in
  if negb (is_int n) || (int_val n <? 0) then Err (EValue "cause_state_invalid") else
  let! cur := get state "current" in
  if is_none cur then Ok state else
  if negb (is_dict cur) then Err (EValue "cause_state_invalid") else
  let i := dget (as_dict cur) "id" VNone in
  let m := dget (as_dict cur) "sequence" VNone in
  if negb (is_str i) || negb (slen (str_val i) =? 32) || negb (all_chars is_hex (str_val i))
     || negb (is_int m) || (int_val n <? int_val m)
  then Err (EValue "cause_state_invalid") else Ok state.

Section Save.
Context `{JsonText}.

Definition save (s : state) : res pyval :=
  if 16384 <? json_len (encode s) then Err (EValue "cause_state_oversized") else Ok (encode s).

(** [update(domain, reason, replicas, now)]: the new state in memory, and the
    file content and report, or the exception of [save]. *)
Definition update (boot uuid : string) (s : state) (d : domain) (reason : string)
    (replicas : option Z) (now : Q) : state * res (pyval * report) :=
  let '(s', ev) := transition boot uuid s d reason replicas now in
  (s', let! file := save s' in Ok (file, make_report s' d reason replicas ev)).
End Save.
End CauseBook.

(** ** Facts *)

Section WitnessFacts.
Context `{Digest}.
Import TransportWitness.

Lemma parse_at value now g : parse value now = Ok g -> g_at g = now.
Proof.
  unfold parse. intros Hp.
  destruct (idx value "schema") as [sc|]; simpl in Hp; [|done].
  destruct (negb (eq_str sc _)); [done|]. inv_ok Hp.
  match type of Hp with (if ?b then _ else _) = _ => destruct b; [done|] end.
  inv_ok Hp. by injection Hp as <-.
Qed.

(** The parsed fields do not depend on the time of the reading. *)
Lemma parse_again value now now' g : parse value now = Ok g ->
  parse value now' = Ok (Gen (g_generation g) (g_stamp g) (g_bytes g) (g_digest g) now').
Proof.
  unfold parse. intros Hp.
  destruct (idx value "schema") as [sc|]; simpl in *; [|done].
  destruct (negb (eq_str sc _)); [done|]. inv_ok Hp. rewrite E, E0, E1. simpl.
  match type of Hp with (if ?b then _ else _) = _ => destruct b; [done|] end.
  inv_ok Hp. rewrite E2. by injection Hp as <-.
Qed.

Lemma within_true p now : within p now = true <-> (0 < now - g_at p <= 45)%Q.
Proof. unfold within. by rewrite andb_true_iff, Qltb_true, Qleb_true. Qed.

Lemma stalled_verdict_flowing value v : stalled_verdict value = Ok v -> v_status v <> FLOWING.
Proof.
  unfold stalled_verdict. intros Hv. inv_ok Hv. injection Hv as <-.
  repeat case_match; done.
Qed.

Lemma stalled_verdict_stopped value v : stalled_verdict value = Ok v -> v_status v = STOPPED ->
  (get value "state" = Ok (VStr "TCP_ACK_STALLED") /\ pending value = Ok true) \/
  get value "fifo_recovering" = Ok (VBool true).
Proof.
  unfold stalled_verdict. intros Hv Hs. inv_ok Hv. injection Hv as <-.
  destruct (eq_str v1 "TCP_ACK_STALLED" && v0) eqn:Ea.
  - left. apply andb_true_iff in Ea as [Ea%eq_str_true ->]. by subst.
  - right. destruct (is_true v2) eqn:Et; [|done].
    destruct v2 as [|[]| | | | |]; done.
Qed.

(** Which generation the comparison looked at, for a result that is not an
    error of the parser. *)
Lemma sample_definite previous value now st v :
  sample previous value now = (st, Ok v) -> v_status v <> UNKNOWN ->
  exists cur p, parse value now = Ok cur /\ previous = Some p /\
    g_generation cur = g_generation p /\ within p now = true /\
    ((v_status v = FLOWING /\ g_bytes p < g_bytes cur) \/
     (v_status v = STOPPED /\ g_bytes cur = g_bytes p /\
      g_digest cur <> g_digest p /\ g_stamp cur <> g_stamp p /\ stalled_verdict value = Ok v)).
Proof.
  unfold sample. intros Hs Hu. destruct (parse value now) as [cur|e]; [|destruct e; naive_solver].
  exists cur. destruct previous as [p|]; simpl in Hs; [|naive_solver].
  exists p. split; [done|]. split; [done|].
  destruct (String.eqb_spec (g_generation cur) (g_generation p)) as [Hg|];
    destruct (within p now) eqn:Hw; simpl in Hs;
    repeat match type of Hs with context [if ?b then _ else _] => destruct b eqn:? end;
    bools; try naive_solver lia.
  destruct (stalled_verdict value) as [w|e] eqn:Ew; [|destruct e; naive_solver].
  injection Hs as <- <-. split; [done|]. split; [done|]. right.
  rewrite !String.eqb_neq in *. pose proof (stalled_verdict_flowing _ _ Ew).
  destruct (v_status w) eqn:?; try done. naive_solver lia.
Qed.

Lemma sample_replay value now t g : parse value now = Ok g ->
  sample (Some g) value t = (Some g, Ok (Verdict UNKNOWN "local_transport_stale")).
Proof.
  intros Hp. unfold sample. rewrite (parse_again _ _ t _ Hp). unfold compare. simpl.
  rewrite Z.ltb_irrefl, andb_false_r, !String.eqb_refl. done.
Qed.

(** A history of polls: the export read and the time of the reading. *)
Definition history : Type := list (pyval * Q).
Definition after (ps : history) : option generation :=
  fold_left (fun st p => fst (sample st (fst p) (snd p))) ps None.

Lemma compare_previous previous current value now p :
  fst (compare previous current value now) = Some p -> p = current \/ previous = Some p.
Proof. unfold compare. destruct previous; repeat case_match; simpl; naive_solver. Qed.

Lemma sample_previous previous value now p : fst (sample previous value now) = Some p ->
  parse value now = Ok p \/ previous = Some p.
Proof.
  unfold sample. destruct (parse value now) as [cur|e]; [|by destruct e].
  pose proof (compare_previous previous cur value now p) as Hc.
  destruct (compare previous cur value now) as [st [?|[]]]; simpl in *; naive_solver.
Qed.

Lemma after_snoc ps p : after (ps ++ [p]) = fst (sample (after ps) (fst p) (snd p)).
Proof. unfold after. by rewrite fold_left_app. Qed.

(** What is remembered was parsed from a poll of the history. *)
Lemma after_parsed ps p : after ps = Some p ->
  exists v t, In (v, t) ps /\ parse v t = Ok p.
Proof.
  induction ps as [|[v t] ps IH] using rev_ind; [done|].
  rewrite after_snoc. intros [Hp|Hp]%sample_previous.
  - exists v, t. split; [|done]. apply in_app_iff. simpl. auto.
  - destruct (IH Hp) as (v' & t' & ? & ?). exists v', t'. split; [|done]. apply in_app_iff. auto.
Qed.
End WitnessFacts.

Module DeadlineFacts.
Import ProgressDeadline.

Definition since (s : state) : option Q :=
  match started s, last_route_progress s with
  | None, _ => None
  | Some _, Some t => Some t
  | Some t, None => Some t
  end.

Lemma step_since s p :
  since (step s p) = if renews p then Some (p_now p)
                     else match since s with Some t => Some t | None => Some (p_now p) end.
Proof.
  unfold step, observe, since, renews. destruct p as [n [] []], s as [[st|] [la|]]; done.
Qed.

Lemma step_started s p : is_Some (started (step s p)).
Proof. unfold step, observe. destruct (started s) eqn:E, (p_inhibited p); simpl; rewrite ?E; eauto. Qed.

Lemma deadline_run_snoc ps p : run (ps ++ [p]) = step (run ps) p.
Proof. unfold run. by rewrite fold_left_app. Qed.

Lemma run_started ps : ps <> [] -> is_Some (started (run ps)).
Proof. destruct ps as [|p ps _] using rev_ind; [done|]. intros _. rewrite deadline_run_snoc. apply step_started. Qed.

Lemma anchor_snoc ps p : anchor (ps ++ [p]) =
  if renews p then Some (p_now p)
  else match anchor ps with Some t => Some t | None => Some (p_now p) end.
Proof.
  unfold anchor. rewrite rev_app_distr. simpl. destruct (renews p); [done|].
  destruct (List.find renews (rev ps)); [done|]. by destruct ps.
Qed.

(** The two fields of the object implement the specified anchor. *)
Lemma run_since ps : since (run ps) = anchor ps.
Proof.
  induction ps as [|p ps IH] using rev_ind; [done|].
  by rewrite deadline_run_snoc, step_since, anchor_snoc, IH.
Qed.

Lemma observe_expired s p a : since (step s p) = Some a ->
  expired (snd (observe s (p_now p) (p_progress p) (p_inhibited p))) = true <->
  (AFTER <= p_now p - a)%Q.
Proof.
  unfold step, observe, since. simpl. intros Hs. rewrite Qleb_true.
  match goal with |- context [qmax 0 (p_now p - ?x)] => replace x with a end.
  - unfold qmax, AFTER. destruct (Qleb_spec 0 (p_now p - a)); lra.
  - destruct p as [n [] []], s as [[st|] [la|]]; simpl in *; congruence.
Qed.
End DeadlineFacts.

Module CauseFacts.
Import CauseBook.

(** One call of [update]: its time, domain and replica count. *)
Record call : Type := Call { k_uuid : string; k_domain : domain; k_reason : string;
                             k_replicas : option Z; k_now : Q }.
Definition step (boot : string) (s : state) (k : call) : state * option event :=
  transition boot (k_uuid k) s (k_domain k) (k_reason k) (k_replicas k) (k_now k).
Definition run (boot : string) (s : state) (ks : list call) : state :=
  fold_left (fun s k => fst (step boot s k)) ks s.

Definition settled (k : call) : Prop := k_domain k = HEALTHY /\ k_replicas k = Some 0.

(** The settling window of the current cause, when it belongs to this boot,
    is a run of settled polls that started at [clear_since]. *)
Definition window (boot : string) (ks : list call) (s : state) : Prop :=
  forall c, current s = Some c -> clear_boot c = Some boot ->
  since_ok settled k_now ks (clear_since c).

(** The book's data invariant, the one [load] checks. *)
Definition wf (s : state) : Prop :=
  0 <= seq s /\
  forall c, current s = Some c ->
    sequence c <= seq s /\ slen (id c) = 32 /\ all_chars is_hex (id c) = true.

Lemma settled_not_problem k : settled k -> is_problem (k_domain k) (k_replicas k) = false.
Proof. unfold settled. by intros [-> ->]. Qed.

Lemma step_window boot ks s k :
  window boot ks s -> window boot (ks ++ [k]) (fst (step boot s k)).
Proof.
  intros Hw c Hc Hb. unfold step, transition in Hc.
  destruct (is_problem (k_domain k) (k_replicas k)).
  { destruct (current s); injection Hc as <-; apply since_none. }
  destruct (current s) as [c0|] eqn:Ec; [|by simpl in Hc; rewrite Ec in Hc].
  destruct (bool_decide (k_domain k = HEALTHY) && bool_decide (k_replicas k = Some 0)) eqn:Es;
    [|injection Hc as <-; apply since_none].
  apply andb_true_iff in Es as [?%bool_decide_eq_true ?%bool_decide_eq_true].
  assert (settled k) as Hk by done.
  destruct (bool_decide (clear_since c0 = None) || negb (bool_decide (clear_boot c0 = Some boot))) eqn:Er;
    destruct (Qleb _ _); simpl in Hc; try done; injection Hc as <-.
  - by apply since_start.
  - apply since_extend; [done|]. by apply Hw.
Qed.

Lemma run_window boot s ks : window boot [] s -> window boot ks (run boot s ks).
Proof.
  intros H0. induction ks as [|k ks IH] using rev_ind; [done|].
  unfold run. rewrite fold_left_app. by apply step_window.
Qed.

Lemma transition_wf boot uuid s d reason n now :
  wf s -> slen uuid = 32 -> all_chars is_hex uuid = true ->
  wf (fst (transition boot uuid s d reason n now)).
Proof.
  intros [Hs Hc] Hl Hx. unfold transition, wf.
  destruct (is_problem d n), (current s) as [c|] eqn:E; repeat case_match; simpl;
    (split; [lia|]); intros c' Hc'; simplify_eq; simpl; try done;
    try (destruct (Hc c) as (? & ? & ?); [done|]; repeat split; (done || lia)).
  all: destruct s as [n0 cur l]; simpl in *; simplify_eq; first [by apply Hc | by repeat split; try lia].
Qed.

Lemma load_encode s n : wf s -> n <= 16384 -> load n (encode s) = Ok (encode s).
Proof.
  intros [Hs Hc] Hn. unfold load. rewrite (proj2 (Z.ltb_ge 16384 n)) by done.
  simpl. rewrite (proj2 (Z.ltb_ge (seq s) 0)) by done. simpl.
  destruct (current s) as [c|]; [|done]. destruct (Hc c eq_refl) as (? & Hl & Hx).
  unfold encode_cause, dget. simpl. rewrite Hl, Hx.
  by rewrite (proj2 (Z.ltb_ge (seq s) (sequence c))).
Qed.

(** A closing step: what the state before it was. *)
Lemma step_closed boot s k : snd (step boot s k) = Some cause_closed ->
  exists c t, current s = Some c /\ settled k /\
    ((clear_since c = Some t /\ clear_boot c = Some boot /\ (180 <= k_now k - t)%Q)).
Proof.
  unfold step, transition. destruct (is_problem _ _).
  { by destruct (current s). }
  destruct (current s) as [c|] eqn:Ec; [|done].
  destruct (_ && _) eqn:Es; [|done].
  apply andb_true_iff in Es as [?%bool_decide_eq_true ?%bool_decide_eq_true].
  destruct (_ || _) eqn:Er; simpl; case_match eqn:Eq; simpl; try done.
  - apply Qleb_true in Eq. exfalso. lra.
  - apply orb_false_iff in Er as [E1 E2].
    apply bool_decide_eq_false in E1. apply negb_false_iff, bool_decide_eq_true in E2.
    destruct (clear_since c) as [t|] eqn:Et; [|done]. intros _.
    exists c, t. apply Qleb_true in Eq. by repeat split.
Qed.
End CauseFacts.

(** ** Properties *)
Module RouteAssessmentProperties.

Section Witness.
Context `{Digest}.
Import TransportWitness.

(** C26: a STOPPED verdict of the transport witness rests on two different
    exports of one ffmpeg generation, read at most 45 s apart, whose ACK
    counter did not move; and the later export either says TCP_ACK_STALLED and
    has pending transport work, or says that its FIFO is recovering. A single,
    stale or cross-generation export never produces it. *)
Theorem stopped_verdict_evidence (ps : history) value now v :
  snd (sample (after ps) value now) = Ok v -> v_status v = STOPPED ->
  exists v0 t0 g0 g, In (v0, t0) ps /\ parse v0 t0 = Ok g0 /\ parse value now = Ok g /\
    g_generation g = g_generation g0 /\ (0 < now - t0 <= 45)%Q /\
    g_bytes g = g_bytes g0 /\ g_digest g <> g_digest g0 /\ g_stamp g <> g_stamp g0 /\
    ((get value "state" = Ok (VStr "TCP_ACK_STALLED") /\ pending value = Ok true) \/
     get value "fifo_recovering" = Ok (VBool true)).
Proof.
  intros Hs Hv. destruct (sample (after ps) value now) as [st r] eqn:Es. simpl in Hs. subst r.
  destruct (sample_definite _ _ _ _ _ Es) as (g & g0 & Hg & Hp & Hgen & Hw & Hc); [congruence|].
  destruct (after_parsed _ _ Hp) as (v0 & t0 & Hin & H0).
  destruct Hc as [[? ?]|(_ & ? & ? & ? & Hst)]; [congruence|].
  exists v0, t0, g0, g. apply within_true in Hw. rewrite (parse_at _ _ _ H0) in Hw.
  repeat (split; [done|]). by apply (stalled_verdict_stopped _ v).
Qed.

(** Repeated reads of an unchanged export can never turn it into new
    evidence: whatever the times of the reads, each one is UNKNOWN/stale, and
    the observation keeps the age of the first read. *)
Theorem frozen_export_stays_stale (ps : history) value t0 g (ts : list Q) t :
  parse value t0 = Ok g -> after (ps ++ [(value, t0)]) = Some g ->
  sample (after (ps ++ (value, t0) :: map (pair value) ts)) value t
    = (Some g, Ok (Verdict UNKNOWN "local_transport_stale")).
Proof.
  intros Hp Ha.
  assert (after (ps ++ (value, t0) :: map (pair value) ts) = Some g) as ->;
    [|by apply (sample_replay _ t0)].
  induction ts as [|u ts IH] using rev_ind; [done|].
  rewrite map_app, app_comm_cons, app_assoc. change (map (pair value) [u]) with [(value, u)].
  rewrite after_snoc, IH. simpl.
  by rewrite (sample_replay value t0 u g Hp).
Qed.
End Witness.

(** C37: the no-progress deadline refines its specification: over any history of
    polls it has expired exactly when 90 s passed since the latest poll that
    verified route progress or was inhibited (the first poll when there is none).
    Transport samples and observation labels do not renew it. *)
Theorem progress_deadline_refines (ps : list ProgressDeadline.poll) p :
  exists a, ProgressDeadline.anchor (ps ++ [p]) = Some a /\
    (ProgressDeadline.expired (snd (ProgressDeadline.observe (ProgressDeadline.run ps)
       (ProgressDeadline.p_now p) (ProgressDeadline.p_progress p) (ProgressDeadline.p_inhibited p)))
     = true <-> (ProgressDeadline.AFTER <= ProgressDeadline.p_now p - a)%Q).
Proof.
  pose proof (DeadlineFacts.run_since (ps ++ [p])) as Hs. rewrite DeadlineFacts.deadline_run_snoc in Hs.
  destruct (ProgressDeadline.anchor (ps ++ [p])) as [a|] eqn:Ea.
  - exists a. split; [done|]. by apply DeadlineFacts.observe_expired.
  - rewrite DeadlineFacts.anchor_snoc in Ea. by repeat case_match.
Qed.

(** An incident closes only after 180 s of settled observation in this boot:
    every poll of an unbroken suffix of the history, the closing one included,
    was HEALTHY with zero fallback replicas, and the suffix started at least
    180 s before. *)
Theorem cause_closes_after_settling boot s ks k :
  CauseFacts.window boot [] s ->
  snd (CauseFacts.step boot (CauseFacts.run boot s ks) k) = Some CauseBook.cause_closed ->
  exists pre k0 sfx, ks = pre ++ k0 :: sfx /\ (180 <= CauseFacts.k_now k - CauseFacts.k_now k0)%Q /\
    Forall CauseFacts.settled (k0 :: sfx ++ [k]).
Proof.
  intros Hw Hc. apply CauseFacts.step_closed in Hc as (c & t & Hcur & Hk & Ht & Hb & Hle).
  destruct (CauseFacts.run_window boot s ks Hw c Hcur Hb t Ht) as (pre & k0 & sfx & -> & <- & Hf).
  exists pre, k0, sfx. repeat split; try done.
  apply (Forall_app_2 _ (k0 :: sfx) [k]); [done | by constructor].
Qed.

(** [CauseBook] never writes a state file it would refuse to read back: from
    a well-formed book, any sequence of updates leaves a state whose encoding the
    constructor accepts unchanged. *)
Theorem cause_book_reload boot s ks n :
  CauseFacts.wf s -> Forall (fun k => slen (CauseFacts.k_uuid k) = 32 /\
    all_chars is_hex (CauseFacts.k_uuid k) = true) ks -> n <= 16384 ->
  CauseBook.load n (CauseBook.encode (CauseFacts.run boot s ks))
    = Ok (CauseBook.encode (CauseFacts.run boot s ks)).
Proof.
  intros Hw Hu Hn. assert (CauseFacts.wf (CauseFacts.run boot s ks)) as Hr.
  { induction ks as [|k ks IH] using rev_ind; [done|]. apply Forall_app in Hu as [Hu Hk].
    unfold CauseFacts.run. rewrite fold_left_app. simpl.
    apply Forall_inv in Hk as [? ?]. by apply CauseFacts.transition_wf; [apply IH| |]. }
  by apply CauseFacts.load_encode.
Qed.

(** Secondary recovery is unblocked only by a HEALTHY assessment with no open
    incident and a confirmed replica count of zero. *)
Theorem secondary_recovery_gate `{JsonText} boot uuid s d reason replicas now s' file r :
  CauseBook.update boot uuid s d reason replicas now = (s', Ok (file, r)) ->
  CauseBook.secondary_recovery_blocked r = false <->
  (d = HEALTHY /\ CauseBook.current s' = None /\ replicas = Some 0).
Proof.
  unfold CauseBook.update. destruct (CauseBook.transition _ _ _ _ _ _ _) as [s1 ev].
  intros [= <- Hr]. inv_ok Hr. injection Hr as <- <-. simpl.
  rewrite !orb_false_iff, !negb_false_iff, bool_decide_eq_false, !bool_decide_eq_true, <- eq_None_not_Some.
  naive_solver.
Qed.

(** *** Witnesses *)

Definition demo_export (stamp : string) (bytes : Z) : pyval :=
  VDict [("schema", VStr "stream_v3.ffmpeg_transport.v1"); ("ffmpeg_generation", VStr "g1");
         ("observed_at", VStr stamp); ("ack_bytes_observed_total", VInt bytes);
         ("state", VStr "TCP_ACK_STALLED"); ("tcp_metrics", VDict [("unacked", VInt 3)])].
Definition demo_digest : Digest := fun v => Ok (str_val (dget (as_dict v) "observed_at" VNone)).
Definition demo_uuid : string := "0123456789abcdef0123456789abcdef".
Definition demo_call (d : domain) (n : option Z) (t : Q) : CauseFacts.call :=
  CauseFacts.Call demo_uuid d "r" n t.

Lemma stopped_verdict_evidence_witness :
  exists v0 t0 g0 g, In (v0, t0) [(demo_export "a" 7, 0%Q)] /\
    TransportWitness.parse (H := demo_digest) v0 t0 = Ok g0 /\
    TransportWitness.parse (H := demo_digest) (demo_export "b" 7) 15 = Ok g /\
    TransportWitness.g_generation g = TransportWitness.g_generation g0 /\ (0 < 15 - t0 <= 45)%Q /\
    TransportWitness.g_bytes g = TransportWitness.g_bytes g0 /\
    TransportWitness.g_digest g <> TransportWitness.g_digest g0 /\
    TransportWitness.g_stamp g <> TransportWitness.g_stamp g0 /\
    ((get (demo_export "b" 7) "state" = Ok (VStr "TCP_ACK_STALLED") /\
      TransportWitness.pending (demo_export "b" 7) = Ok true) \/
     get (demo_export "b" 7) "fifo_recovering" = Ok (VBool true)).
Proof.
  apply (stopped_verdict_evidence (H := demo_digest) [(demo_export "a" 7, 0%Q)] (demo_export "b" 7) 15
    (TransportWitness.Verdict TransportWitness.STOPPED "local_transport_stalled")); reflexivity.
Defined.

Lemma frozen_export_stays_stale_witness :
  TransportWitness.sample (H := demo_digest)
    (after (H := demo_digest) ([] ++ (demo_export "a" 7, 0%Q) :: map (pair (demo_export "a" 7)) [10%Q; 20%Q]))
    (demo_export "a" 7) 30
  = (Some (TransportWitness.Gen "g1" "a" 7 "a" 0),
     Ok (TransportWitness.Verdict TransportWitness.UNKNOWN "local_transport_stale")).
Proof.
  apply (frozen_export_stays_stale (H := demo_digest) [] (demo_export "a" 7) 0
    (TransportWitness.Gen "g1" "a" 7 "a" 0) [10%Q; 20%Q] 30); reflexivity.
Defined.

Lemma cause_closes_after_settling_witness :
  exists pre k0 sfx,
    [demo_call MEDIA_FAILURE (Some 0) 0; demo_call HEALTHY (Some 0) 10; demo_call HEALTHY (Some 0) 100]
      = pre ++ k0 :: sfx /\ (180 <= 190 - CauseFacts.k_now k0)%Q /\
    Forall CauseFacts.settled (k0 :: sfx ++ [demo_call HEALTHY (Some 0) 190]).
Proof.
  apply (cause_closes_after_settling "boot" CauseBook.empty
    [demo_call MEDIA_FAILURE (Some 0) 0; demo_call HEALTHY (Some 0) 10; demo_call HEALTHY (Some 0) 100]
    (demo_call HEALTHY (Some 0) 190)); [intros ? [=] | reflexivity].
Defined.

Lemma cause_book_reload_witness :
  CauseBook.load 400 (CauseBook.encode (CauseFacts.run "boot" CauseBook.empty
      [demo_call MEDIA_FAILURE (Some 0) 0; demo_call HEALTHY (Some 1) 10]))
  = Ok (CauseBook.encode (CauseFacts.run "boot" CauseBook.empty
      [demo_call MEDIA_FAILURE (Some 0) 0; demo_call HEALTHY (Some 1) 10])).
Proof.
  apply cause_book_reload.
  - split; [done|]. intros ? [=].
  - repeat constructor.
  - lia.
Defined.

Lemma secondary_recovery_gate_witness :
  false = false <-> (HEALTHY = HEALTHY /\ CauseBook.current CauseBook.empty = None /\ Some 0 = Some 0).
Proof.
  apply (secondary_recovery_gate (H := fun _ => 100) "boot" demo_uuid CauseBook.empty HEALTHY "ok"
    (Some 0) 5 CauseBook.empty (CauseBook.encode CauseBook.empty)
    (CauseBook.Report None HEALTHY "ok" false (Some false) false None)); reflexivity.
Defined.
End RouteAssessmentProperties.
