(* ===== verification/Maintenance.v ===== *)
(** * Manual maintenance state (ops/selfheal/maintenance_state.py)

    [guard] classifies the maintenance installation: a missing installation is
    normal, everything it cannot trust inhibits.  [session_lock] is the
    non-blocking file lock that serialises a manual operation with the fallback
    controller.  The file system is an argument: what [lstat], [open], [fstat]
    and [read] report. *)
From S2P Require Import Prelude PyVal.

Definition SCHEMA : string := "stream_v3.manual_maintenance.v1".
Definition PHASES : list string :=
  ["NORMAL"; "PREPARING"; "AWAITING_SLATE_CONFIRMATION"; "MAINTENANCE";
   "RESUMING"; "VERIFYING"; "RESTORING"].

(** Group and world write bits, [0o022]. *)
Definition WRITABLE : Z := 18.

(** ** The file system as the code reads it *)

(** A path opened with [O_NOFOLLOW]: the class of the [OSError] of [open], or the open file.
    [f_raw] is the length of [read(limit + 1)] and [f_json] the decoded body,
    [None] when decoding raises (invalid UTF-8, invalid JSON, a non-finite
    constant: all [ValueError]). *)
Record file : Type := File {
  f_regular : bool; f_size : Z; f_mode : Z; f_uid : Z; f_raw : Z; f_json : option pyval }.
Definition opened : Type := string + file.

Inductive root_stat : Type :=
  | Missing
  | StatFailed
  | Stat (is_directory : bool) (mode uid : Z).

Definition read_json (o : opened) (uid : option Z) (limit : Z) : res pyval :=
  match o with
  | inl e => Err (EOS e)
  | inr f =>
      if negb (f_regular f) || (limit <? f_size f) || negb (Z.land (f_mode f) WRITABLE =? 0)
         || match uid with Some u => negb (f_uid f =? u) | None => false end
      then Err (EValue "untrusted_state_file")
      else if limit <? f_raw f then Err (EValue "oversized_state")
      else match f_json f with Some v => Ok v | None => Err (EValue "invalid_json") end
  end.

(** ** [guard] *)
Record report : Type := Report {
  inhibited : bool; reason : string; phase : string; session_id : pyval; overdue : bool;
  generation : option Z }.

Definition invalid : report :=
  Report true "maintenance_state_invalid" "UNKNOWN" VNone false None.

(** [phase not in PHASES]: hashing a list or a dict raises. *)
Definition in_phases (v : pyval) : res bool :=
  if is_list v || is_dict v then Err EType else Ok (in_strs v PHASES).

(** The fields of the session file; [None] is [return result]. *)
Definition classify (value : pyval) (now : Q) : res (option report) :=
  let! phase := idx value "phase" in
  let! schema := idx value "schema" in
  if negb (eq_str schema SCHEMA) then Ok None else
  let! known := in_phases phase in
  if negb known then Ok None else
  let! gen := idx value "generation" in
  if negb (is_int gen) then Ok None else
  if eq_str phase "NORMAL" then
    Ok (Some (Report false "normal" "NORMAL" (dget (as_dict value) "session_id" VNone) false
                (Some (int_val gen))))
  else
    let! deadline := idx value "deadline" in
    let! sid := idx value "session_id" in
    if negb (is_str sid) || negb (truthy sid) then Ok None else
    let! fin := num_finite deadline in
    if negb fin then Ok None else
    Ok (Some (Report true "manual_maintenance" (str_val phase) sid (Qleb (num_val deadline) now)
                (Some (int_val gen)))).

(** [guard(root, uid, now)].  An exception outside [OSError], [ValueError],
    [TypeError] and [KeyError] escapes. *)
Definition guard (root : root_stat) (session : opened) (uid : Z) (now : Q) : res report :=
  match root with
  | Missing => Ok (Report false "not_installed" "NORMAL" VNone false None)
  | StatFailed => Ok (invalid)
  | Stat dir mode owner =>
      if negb dir || negb (Z.land mode WRITABLE =? 0) || negb (owner =? uid) then Ok (invalid)
      else match (let! value := read_json session (Some uid) 65536 in classify value now) with
           | Ok (Some r) => Ok r
           | Ok None => Ok (invalid)
           | Err (EOS _ | EValue _ | EObservation _ | EClock _ | EType | EKey) => Ok (invalid)
           | Err e => Err e
           end
  end.

(** ** [Store] *)
Module Store.
(** The value [initialize] writes. *)
Definition initial : pyval :=
  VDict [("schema", VStr SCHEMA); ("phase", VStr "NORMAL"); ("generation", VInt 0);
         ("session_id", VNone); ("effects", VList []); ("history", VList [])].

Definition read (session : opened) : res pyval :=
  let! value := read_json session None 65536 in
  let! schema := get value "schema" in
  if negb (eq_str schema SCHEMA) then Err (EValue "invalid_session") else
  let! phase := get value "phase" in
  let! known := in_phases phase in
  if negb known then Err (EValue "invalid_session") else Ok value.

(** [atomic_json]: the replacing write, as the file a later [open] sees.  The
    bytes are the compact JSON text and a newline. *)
Definition atomic_json `{JsonText} (value : pyval) (uid : Z) : res opened :=
  let n := json_len value + 1 in
  if 65536 <? n then Err (EValue "state_too_large")
  else Ok (inr (File true n 420 uid n (Some value))).
End Store.

(** ** [session_lock] *)

(** The lock file and the flocks other processes hold on it. *)
Record lock_file : Type := LockFile {
  l_open : option exn;        (* the OSError of open *)
  l_regular : bool;
  l_shared : nat;             (* shared holders *)
  l_exclusive : bool }.       (* an exclusive holder *)

Definition acquire (l : lock_file) (shared : bool) : res lock_file :=
  match l_open l with
  | Some e => Err e
  | None =>
      if negb (l_regular l) then Err (EValue "invalid_session_lock")
      else if l_exclusive l || (negb shared && negb (Nat.eqb (l_shared l) 0))
      then Err (EOS "BlockingIOError")
      else Ok (if shared then LockFile None true (S (l_shared l)) false
               else LockFile None true (l_shared l) true)
  end.

(** Closing the descriptor drops the flock it holds. *)
Definition release (l : lock_file) (shared : bool) : lock_file :=
  if shared then LockFile (l_open l) (l_regular l) (pred (l_shared l)) (l_exclusive l)
  else LockFile (l_open l) (l_regular l) (l_shared l) false.

(** [with session_lock(root, shared=...): body].  The body sees the lock held;
    its result or exception passes through and the lock is released. *)
Definition session_lock {A} (l : lock_file) (shared : bool) (body : lock_file -> res A)
  : lock_file * res A :=
  match acquire l shared with
  | Err e => (l, Err e)
  | Ok held => (release held shared, body held)
  end.

(** ** Facts *)
#[local] Arguments in_strs : simpl never.
#[local] Arguments int_fits_float : simpl never.

Lemma classify_cases value now r : classify value now = Ok (Some r) ->
  idx value "schema" = Ok (VStr SCHEMA) /\ idx value "phase" = Ok (VStr (phase r)) /\
  In (phase r) PHASES /\ (inhibited r = false <-> phase r = "NORMAL").
Proof.
  unfold classify. intros Hc. inv_ok Hc.
  destruct (eq_str v0 SCHEMA) eqn:Es; simpl in Hc; [|done]. apply eq_str_true in Es as ->.
  unfold in_phases in Hc. destruct (is_list v || is_dict v); simpl in Hc; [done|].
  destruct (in_strs v PHASES) eqn:Ep; simpl in Hc; [|done].
  unfold in_strs in Ep. apply existsb_exists in Ep as (p & Hin & Hp). apply eq_str_true in Hp as ->.
  destruct (idx value "generation") as [g|]; simpl in Hc; [|done].
  destruct (is_int g); simpl in Hc; [|done].
  destruct (String.eqb_spec p "NORMAL") as [->|Hne].
  { injection Hc as <-. simpl. split_and!; [done | done | by left | done]. }
  destruct (idx value "deadline") as [d|]; simpl in Hc; [|done].
  destruct (idx value "session_id") as [s|]; simpl in Hc; [|done].
  destruct (negb (is_str s) || negb (truthy s)); [done|].
  destruct (num_finite d) as [[]|]; simpl in Hc; try done.
  injection Hc as <-. simpl. split; [done|]. split; [done|]. split; [done|]. split; [done | by intros ->].
Qed.

Lemma classify_error value now e : classify value now = Err e ->
  e = EKey \/ e = EType \/ (e = EOverflow /\ exists z, idx value "deadline" = Ok (VInt z) /\ int_fits_float z = false).
Proof.
  assert (forall k e, idx value k = Err e -> e = EKey \/ e = EType) as Hidx.
  { intros k e'. unfold idx. destruct value; try (intros [= <-]; auto).
    destruct (dict_get k d); [done|]. intros [= <-]. auto. }
  unfold classify. intros Hc.
  destruct (idx value "phase") as [p|] eqn:E1; simpl in Hc; [|injection Hc as <-; destruct (Hidx _ _ E1); auto].
  destruct (idx value "schema") as [s|] eqn:E2; simpl in Hc; [|injection Hc as <-; destruct (Hidx _ _ E2); auto].
  destruct (eq_str s SCHEMA); simpl in Hc; [|done].
  unfold in_phases in Hc. destruct (is_list p || is_dict p); simpl in Hc; [injection Hc as <-; auto|].
  destruct (in_strs p PHASES); simpl in Hc; [|done].
  destruct (idx value "generation") as [g|] eqn:E3; simpl in Hc; [|injection Hc as <-; destruct (Hidx _ _ E3); auto].
  destruct (is_int g); simpl in Hc; [|done]. destruct (eq_str p "NORMAL"); [done|].
  destruct (idx value "deadline") as [d|] eqn:E4; simpl in Hc; [|injection Hc as <-; destruct (Hidx _ _ E4); auto].
  destruct (idx value "session_id") as [sid|] eqn:E5; simpl in Hc; [|injection Hc as <-; destruct (Hidx _ _ E5); auto].
  destruct (negb (is_str sid) || negb (truthy sid)); [done|].
  destruct (num_finite d) as [[]|] eqn:E6; simpl in Hc; try done. injection Hc as <-.
  right. right. destruct d as [| |z|[]| | |]; simpl in E6; try done.
  destruct (int_fits_float z) eqn:Ez; [done|]. injection E6 as <-. eauto.
Qed.

Lemma acquire_exclusive l shared held : acquire l shared = Ok held -> l_exclusive l = false.
Proof.
  unfold acquire. intros Ha. destruct (l_open l); [done|]. destruct (l_regular l); simpl in Ha; [|done].
  by destruct (l_exclusive l).
Qed.

(** Acquiring and releasing leaves the lock as it was. *)
Lemma acquire_release l shared held : acquire l shared = Ok held -> release held shared = l.
Proof.
  destruct l as [op reg n ex]. unfold acquire. simpl. intros Ha. destruct op; [done|].
  destruct reg; simpl in Ha; [|done]. destruct ex; simpl in Ha; [done|].
  destruct shared; simpl in Ha; [by injection Ha as <-|].
  destruct (Nat.eqb_spec n 0); simpl in Ha; [by injection Ha as <-|done].
Qed.

Lemma classify_phase value now r p : classify value now = Ok (Some r) ->
  idx value "phase" = Ok (VStr p) -> p = phase r.
Proof. intros (_ & Hp & _)%classify_cases Hq. congruence. Qed.

(** ** Properties *)
Module MaintenanceProperties.

(** C39: inhibition is released only by a missing installation or by a trusted
    state: a root directory and a regular session file owned by the expected user,
    neither writable by others, holding a session of the known schema whose phase
    is NORMAL.  Expired, unreadable or unknown states inhibit. *)
Theorem guard_fails_closed root session uid now r :
  guard root session uid now = Ok r -> inhibited r = false ->
  root = Missing \/
  exists mode f v, root = Stat true mode uid /\ Z.land mode WRITABLE = 0 /\
    session = inr f /\ f_regular f = true /\ Z.land (f_mode f) WRITABLE = 0 /\ f_uid f = uid /\
    f_json f = Some v /\ idx v "schema" = Ok (VStr SCHEMA) /\ idx v "phase" = Ok (VStr "NORMAL").
Proof.
  unfold guard. intros Hg Hi. destruct root as [| |dir mode owner]; [auto | by injection Hg as <- |].
  right. destruct (negb dir || negb (Z.land mode WRITABLE =? 0) || negb (owner =? uid)) eqn:Ed;
    [by injection Hg as <-|].
  destruct (read_json session (Some uid) 65536) as [v|e] eqn:Er; simpl in Hg;
    [|destruct e; by simplify_eq].
  destruct (classify v now) as [[w|]|e] eqn:Ec; [|by simplify_eq|destruct e; by simplify_eq].
  injection Hg as ->. apply classify_cases in Ec as (Hs & Hp & _ & Hn). rewrite (proj1 Hn Hi) in Hp.
  unfold read_json in Er. destruct session as [|f]; [done|].
  destruct (negb (f_regular f) || _ || _ || _) eqn:Ef; [done|]. destruct (65536 <? f_raw f); [done|].
  destruct (f_json f) as [v'|] eqn:Ej; [|done]. injection Er as ->. bools.
  destruct Ed as [[-> Hm] ->], Ef as [[[Hr _] Hfm] Hfu].
  by exists mode, f, v.
Qed.

(** The guard always answers, except on a trusted session file whose
    deadline is an integer beyond the float range: then [OverflowError] escapes
    its handlers. *)
Theorem guard_total root session uid now e :
  guard root session uid now = Err e ->
  e = EOverflow /\ exists f v z, session = inr f /\ f_json f = Some v /\
    idx v "deadline" = Ok (VInt z) /\ int_fits_float z = false.
Proof.
  unfold guard. intros Hg. destruct root as [| |dir mode owner]; [done..|].
  destruct (negb dir || _ || _); [done|].
  destruct (read_json session (Some uid) 65536) as [v|e'] eqn:Er; simpl in Hg.
  - destruct (classify v now) as [[w|]|e'] eqn:Ec; try done.
    unfold read_json in Er. destruct session as [|f]; [done|].
    destruct (negb (f_regular f) || _ || _ || _); [done|]. destruct (65536 <? f_raw f); [done|].
    destruct (f_json f) as [v'|] eqn:Ej; [|done]. injection Er as ->.
    apply classify_error in Ec as [->|[->|(-> & z & ? & ?)]]; [done..|].
    injection Hg as <-. split; [done|]. by exists f, v, z.
  - unfold read_json in Er. destruct session as [e0|f]; [by simplify_eq|].
    exfalso. by case_all_in Er; simplify_eq.
Qed.

(** A fresh installation is normal: the session file [initialize] writes is
    read back by [Store.read] and releases the guard of its owner. *)
Theorem initialize_then_guard `{JsonText} mode uid now session :
  Z.land mode WRITABLE = 0 -> Store.atomic_json Store.initial uid = Ok session ->
  Store.read session = Ok Store.initial /\
  guard (Stat true mode uid) session uid now = Ok (Report false "normal" "NORMAL" VNone false (Some 0)).
Proof.
  intros Hm. unfold Store.atomic_json. destruct (65536 <? _) eqn:En; [done|].
  intros [= <-]. unfold Store.read, guard, read_json. cbn -[Z.land WRITABLE Z.ltb classify].
  by rewrite Hm, !Z.eqb_refl, !En.
Qed.

(** The session lock excludes: a body runs only while no other process
    holds the lock exclusively, an exclusive body only while nobody holds it, and
    afterwards the lock is what it was before. *)
Theorem session_lock_excludes {A} l shared (body : lock_file -> res A) :
  fst (session_lock l shared body) = l /\
  ((exists held, acquire l shared = Ok held /\ snd (session_lock l shared body) = body held /\
      l_exclusive l = false /\ (shared = false -> l_shared l = 0%nat)) \/
   (exists e, snd (session_lock l shared body) = Err e)).
Proof.
  unfold session_lock. destruct (acquire l shared) as [held|e] eqn:Ea; simpl; [|eauto].
  split; [by apply acquire_release in Ea|]. left. exists held.
  split; [done|]. split; [done|]. split; [by apply acquire_exclusive in Ea|].
  intros ->. unfold acquire in Ea. destruct (l_open l); [done|].
  destruct (l_regular l); simpl in Ea; [|done]. destruct (l_exclusive l); simpl in Ea; [done|].
  by destruct (Nat.eqb_spec (l_shared l) 0).
Qed.

(** *** Witnesses *)
Definition demo_file (v : pyval) : opened := inr (File true 300 420 0 300 (Some v)).
Definition huge_deadline : pyval :=
  VDict [("schema", VStr SCHEMA); ("phase", VStr "MAINTENANCE"); ("generation", VInt 1);
         ("session_id", VStr "s"); ("deadline", VInt (2 ^ 1024))].

Lemma guard_fails_closed_witness :
  Stat true 493 0 = Missing \/
  exists mode f v, Stat true 493 0 = Stat true mode 0 /\ Z.land mode WRITABLE = 0 /\
    demo_file Store.initial = inr f /\ f_regular f = true /\ Z.land (f_mode f) WRITABLE = 0 /\
    f_uid f = 0 /\ f_json f = Some v /\ idx v "schema" = Ok (VStr SCHEMA) /\
    idx v "phase" = Ok (VStr "NORMAL").
Proof.
  apply (guard_fails_closed (Stat true 493 0) (demo_file Store.initial) 0 5
    (Report false "normal" "NORMAL" VNone false (Some 0))); reflexivity.
Defined.

Lemma guard_total_witness :
  EOverflow = EOverflow /\ exists f v z, demo_file huge_deadline = inr f /\ f_json f = Some v /\
    idx v "deadline" = Ok (VInt z) /\ int_fits_float z = false.
Proof. apply (guard_total (Stat true 493 0) (demo_file huge_deadline) 0 5). vm_compute. reflexivity. Defined.

Lemma initialize_then_guard_witness :
  Store.read (inr (File true 121 420 0 121 (Some Store.initial))) = Ok Store.initial /\
  guard (Stat true 493 0) (inr (File true 121 420 0 121 (Some Store.initial))) 0 9
    = Ok (Report false "normal" "NORMAL" VNone false (Some 0)).
Proof.
  apply (initialize_then_guard (H := fun _ => 120) 493 0 9); reflexivity.
Defined.
End MaintenanceProperties.
