(* ===== verification/Fallback.v ===== *)
(** * The fallback controller (ops/selfheal/fallback_controller.py)

    [copy_route_sample] turns the facts document into a typed sample or rejects
    it with a reason, [observe] performs one exchange, [Controller] classifies a
    sample against the previous one and decides START, STOP or nothing, and
    [cycle] is one turn of the main loop with the transport witness, the
    no-progress deadline, the clock diagnostics and the incident book.

    Clock readings, the HTTP exchange, [kubectl] and the ISO-8601 parser of the
    standard library are arguments. *)
From Stdlib Require Import Ascii.
From S2P Require Import Prelude PyVal Clock RouteAssessment Maintenance.

Definition START_AFTER : Q := 30.
Definition STOP_AFTER : Q := 300.
Definition MAX_SAMPLE_GAP : Q := 45.
Definition MAX_FACT_AGE : Q := 20.

(** ** Samples *)
Record youtube : Type := Youtube {
  y_state : pyval; y_error : bool; y_outbound : Z; y_video : option Z; y_audio : option Z }.

(** The identity tuple: boot id, relay pid, connection, copy session, destination. *)
Record identity : Type := Identity {
  i_boot : string; i_pid : Z; i_connection : pyval; i_ident : string; i_destination : string }.

(** One field per key the producers write; [None] is an absent key. *)
Record sample : Type := Sample {
  ready : bool; bytes_received : Z; s_identity : option identity;
  source_monotonic : option Q; received_monotonic : Q; received_boottime : option Q;
  relay_unavailable : bool; copy_unavailable : option string;
  copy_updated_at : option string; copy_observation_new : bool; copy_observation_fresh : bool;
  s_youtube : option youtube }.

(** [received_boottime], defaulting to [received_monotonic]. *)
Definition received (s : sample) : Q := from_option (fun t => t) (received_monotonic s) (received_boottime s).

Definition identity_eq (a b : identity) : bool :=
  String.eqb (i_boot a) (i_boot b) && (i_pid a =? i_pid b) && py_eq (i_connection a) (i_connection b)
  && String.eqb (i_ident a) (i_ident b) && String.eqb (i_destination a) (i_destination b).

(** [counter(value)] on a value whose type is already [int]. *)
Definition counter (n : Z) : bool := 0 <=? n.
Definition counter_opt (o : option Z) : bool := match o with Some n => counter n | None => false end.

(** ** [Controller] *)
Inductive health_t : Type := H_UNKNOWN | H_UNHEALTHY | H_HEALTHY.
#[export] Instance health_eq_dec : EqDecision health_t.
Proof. solve_decision. Defined.

Record Controller : Type := mkController {
  unhealthy_since : option Q; healthy_since : option Q; last : option sample;
  c_domain : domain; health : health_t; c_reason : string;
  healthy_resets_total : Z; last_reset_at : option string; last_reset_reason : option string;
  route_progress : bool; observation_gap : bool; transport_conflict : bool }.

Definition initial : Controller :=
  mkController None None None INITIALIZING H_UNKNOWN "baseline_required" 0 None None false false false.

(** The assessment fields [healthy] computes: health, domain, reason and
    [route_progress]; the fifth component is the returned boolean. *)
Record assessment : Type := Assess {
  a_health : health_t; a_domain : domain; a_reason : string; a_progress : bool; a_ok : bool }.

Definition lost (reason : string) : assessment := Assess H_UNKNOWN OBSERVATION_LOST reason false false.
Definition failed (reason : string) : assessment := Assess H_UNHEALTHY MEDIA_FAILURE reason false false.

(** The three output counters in the order they are checked. *)
Definition output_counters : list (string * string) :=
  [("outbound", "output_not_advancing"); ("video_packets", "video_not_advancing");
   ("audio_packets", "audio_not_advancing")].
Definition yt_counter (y : option youtube) (key : string) : option Z :=
  match y with
  | None => None
  | Some y => if String.eqb key "outbound" then Some (y_outbound y)
              else if String.eqb key "video_packets" then y_video y
              else if String.eqb key "audio_packets" then y_audio y else None
  end.

Definition advanced (yt before : option youtube) (key : string) : bool :=
  match yt_counter yt key, yt_counter before key with
  | Some n, Some m => counter n && counter m && (m <? n)
  | _, _ => false
  end.

(** [0 < a - b <= MAX_SAMPLE_GAP] *)
Definition gap_ok (a b : Q) : bool := Qltb 0 (a - b) && Qleb (a - b) MAX_SAMPLE_GAP.

(** The binding of a sample to the previous one; [Some] is an early return. *)
Definition binding (prev cur : sample) : option assessment :=
  match s_identity cur with
  | None => None
  | Some i =>
      if negb (match s_identity prev with Some j => identity_eq i j | None => false end)
      then Some (lost "connection_changed")
      else
        let src := from_option (fun t => t) 0%Q (source_monotonic cur) in
        let before := from_option (fun t => t) src (source_monotonic prev) in
        if negb (gap_ok src before) then Some (lost "sample_gap")
        else if negb (gap_ok (received cur) (received prev)) then Some (lost "sample_gap")
        else if match copy_updated_at cur with
                | Some u => bool_decide (copy_updated_at prev = Some u)
                            && negb (copy_observation_new cur)
                            && negb (copy_observation_fresh cur
                                     && forallb (advanced (s_youtube cur) (s_youtube prev))
                                          ["outbound"; "video_packets"; "audio_packets"])
                | None => false
                end
        then Some (lost "copy_stale")
        else None
  end.

(** The counter loop: an early return, or the checks it appended. *)
Fixpoint counter_checks (yt before : option youtube) (keys : list (string * string))
  : assessment + list (bool * string) :=
  match keys with
  | [] => inr []
  | (key, reason) :: keys' =>
      let n := yt_counter yt key in
      let m := yt_counter before key in
      if bool_decide (n = None) && bool_decide (m = None) && negb (String.eqb key "outbound")
      then counter_checks yt before keys'
      else if negb (counter_opt n) || negb (counter_opt m) then inl (lost "counter_invalid")
      else if from_option id 0 n <? from_option id 0 m then inl (lost "counter_regressed")
      else match counter_checks yt before keys' with
           | inl a => inl a
           | inr cs => inr ((from_option id 0 m <? from_option id 0 n, reason) :: cs)
           end
  end.

Definition media (prev cur : sample) (resumed : bool) : assessment :=
  let yt := s_youtube cur in
  match counter_checks yt (s_youtube prev) output_counters with
  | inl a => a
  | inr cs =>
      let checks := (ready cur, "input_not_ready")
                    :: (counter (bytes_received cur) && counter (bytes_received prev)
                        && (bytes_received prev <? bytes_received cur), "input_not_advancing") :: cs in
      match List.find (fun c => negb (fst c)) checks with
      | Some (_, reason) => failed reason
      | None =>
          if negb (match yt with Some y => eq_str (y_state y) "forwarding" | None => false end)
             || match yt with Some y => y_error y | None => false end
          then failed "output_not_forwarding"
          else if resumed then Assess H_UNKNOWN INITIALIZING "observation_resumed" true false
          else Assess H_HEALTHY HEALTHY "progress_confirmed" true true
      end
  end.

Definition assess (prev cur : option sample) (resumed : bool) (observation_reason : string) : assessment :=
  match cur with
  | None => Assess H_UNKNOWN (domain_for_missing observation_reason) observation_reason false false
  | Some cur =>
      if negb (ready cur)
      then failed (match copy_unavailable cur with
                   | Some r => if String.eqb r "" then if relay_unavailable cur then "relay_unit_not_running" else "input_not_live" else r
                   | None => if relay_unavailable cur then "relay_unit_not_running" else "input_not_live"
                   end)
      else match prev with
           | None => Assess H_UNKNOWN INITIALIZING "baseline_required" false false
           | Some prev =>
               match binding prev cur with
               | Some a => a
               | None => media prev cur resumed
               end
           end
  end.

(** [healthy(sample, observation_reason)] *)
Definition healthy (c : Controller) (cur : option sample) (observation_reason : string)
  : Controller * bool :=
  let a := assess (last c) cur (observation_gap c) observation_reason in
  (mkController (unhealthy_since c) (healthy_since c)
     (match cur with Some s => Some s | None => last c end)
     (a_domain a) (a_health a) (a_reason a)
     (healthy_resets_total c) (last_reset_at c) (last_reset_reason c)
     (a_progress a) (bool_decide (cur = None)) false,
   a_ok a).

(** [combine_transport(witness)] *)
Definition combine_transport (c : Controller) (w : TransportWitness.verdict) : Controller * bool :=
  let stopped := match TransportWitness.v_status w with TransportWitness.STOPPED => true | _ => false end in
  let fail := stopped && negb (route_progress c) in
  let c' := mkController (unhealthy_since c) (healthy_since c) (last c)
              (if fail then MEDIA_FAILURE else c_domain c)
              (if fail then H_UNHEALTHY else health c)
              (if fail then TransportWitness.v_reason w else c_reason c)
              (healthy_resets_total c) (last_reset_at c) (last_reset_reason c)
              (route_progress c) (observation_gap c) (stopped && route_progress c) in
  (c', bool_decide (health c' = H_HEALTHY)).

Inductive action : Type := START | STOP.
#[export] Instance action_eq_dec : EqDecision action.
Proof. solve_decision. Defined.
Definition action_str (a : action) : string := match a with START => "START" | STOP => "STOP" end.

Definition set_windows (c : Controller) (us hs : option Q) : Controller :=
  mkController us hs (last c) (c_domain c) (health c) (c_reason c) (healthy_resets_total c)
    (last_reset_at c) (last_reset_reason c) (route_progress c) (observation_gap c) (transport_conflict c).

(** The reset counters, when a healthy window was running; [at_utc] is the text
    of the current UTC time. *)
Definition count_reset (c : Controller) (at_utc : string) : Controller :=
  match healthy_since c with
  | None => c
  | Some _ =>
      mkController (unhealthy_since c) (healthy_since c) (last c) (c_domain c) (health c) (c_reason c)
        (healthy_resets_total c + 1) (Some at_utc) (Some (c_reason c))
        (route_progress c) (observation_gap c) (transport_conflict c)
  end.
Definition set_reason (c : Controller) (r : string) : Controller :=
  mkController (unhealthy_since c) (healthy_since c) (last c) (c_domain c) (health c) r
    (healthy_resets_total c) (last_reset_at c) (last_reset_reason c)
    (route_progress c) (observation_gap c) (transport_conflict c).

(** [decide(now, healthy, fallback_replicas, maintenance, uncertainty)]: the two
    reports are read through their [inhibited] and [expired] fields. *)
Definition decide (c : Controller) (now : Q) (ok : bool) (replicas : option Z)
    (inhibited expired : bool) (at_utc : string) : Controller * option action :=
  if inhibited then (set_windows c None None, None)
  else if negb ok && negb (bool_decide (c_domain c = MEDIA_FAILURE)) then
    let c1 := set_windows (count_reset c at_utc) None None in
    if expired then
      (set_reason c1 "youtube_observation_timeout",
       if bool_decide (replicas = Some 0) then Some START else None)
    else (c1, None)
  else
    let c1 :=
      if ok then set_windows c None (Some (from_option (fun t => t) now (healthy_since c)))
      else let r := count_reset c at_utc in
           set_windows r (Some (from_option (fun t => t) now (unhealthy_since r))) None in
    (c1,
     match replicas with
     | None => None
     | Some n =>
         if (n =? 0) && negb ok
            && match unhealthy_since c1 with Some t => Qleb START_AFTER (now - t) | None => false end
         then Some START
         else if (1 <=? n) && ok
            && match healthy_since c1 with Some t => Qleb STOP_AFTER (now - t) | None => false end
         then Some STOP
         else None
     end).

(** ** Histories of the controller *)

(** What one turn of the main loop feeds the controller. *)
Record tick : Type := Tick {
  t_sample : option sample; t_reason : string; t_witness : TransportWitness.verdict; t_now : Q;
  t_inhibited : bool; t_expired : bool; t_replicas : option Z; t_utc : string }.

(** What the turn concluded before [decide]. *)
Record entry : Type := Entry { e_now : Q; e_inhibited : bool; e_ok : bool; e_domain : domain }.

Definition step (c : Controller) (t : tick) : Controller * option action * entry :=
  let '(c1, _) := healthy c (t_sample t) (t_reason t) in
  let '(c2, ok) := combine_transport c1 (t_witness t) in
  let '(c3, act) := decide c2 (t_now t) ok (t_replicas t) (t_inhibited t) (t_expired t) (t_utc t) in
  (c3, act, Entry (t_now t) (t_inhibited t) ok (c_domain c2)).

Definition next (cl : Controller * list entry) (t : tick) : Controller * list entry :=
  let '(c, _, e) := step (fst cl) t in (c, snd cl ++ [e]).
Definition run (ts : list tick) : Controller * list entry := fold_left next ts (initial, []).

Definition failing (e : entry) : Prop :=
  e_inhibited e = false /\ e_ok e = false /\ e_domain e = MEDIA_FAILURE.
Definition stable (e : entry) : Prop := e_inhibited e = false /\ e_ok e = true.

(** Both timers tell the truth about the history. *)
Definition timed (log : list entry) (c : Controller) : Prop :=
  since_ok failing e_now log (unhealthy_since c) /\ since_ok stable e_now log (healthy_since c).

(** ** Facts *)

Lemma run_snoc ts t : run (ts ++ [t]) = next (run ts) t.
Proof. unfold run. by rewrite fold_left_app. Qed.

Lemma count_reset_windows c u :
  unhealthy_since (count_reset c u) = unhealthy_since c /\ healthy_since (count_reset c u) = healthy_since c.
Proof. unfold count_reset. destruct (healthy_since c) eqn:E; simpl; by rewrite ?E. Qed.

Lemma decide_timed log c now ok n inh ex u e :
  timed log c -> e = Entry now inh ok (c_domain c) ->
  timed (log ++ [e]) (fst (decide c now ok n inh ex u)).
Proof.
  intros [Hu Hh] ->. unfold decide.
  destruct inh; [split; apply since_none|].
  destruct ok; simpl.
  { split; [apply since_none|]. by apply (since_continue stable e_now log (Entry now false true (c_domain c))). }
  destruct (bool_decide_reflect (c_domain c = MEDIA_FAILURE)) as [Hd|Hd]; simpl.
  - split; [|apply since_none]. rewrite (proj1 (count_reset_windows c u)).
    by apply (since_continue failing e_now log (Entry now false false (c_domain c))).
  - destruct ex; simpl; split; apply since_none.
Qed.

Lemma combine_windows c w :
  unhealthy_since (fst (combine_transport c w)) = unhealthy_since c /\
  healthy_since (fst (combine_transport c w)) = healthy_since c.
Proof. done. Qed.

Lemma step_timed log c t c' act e : timed log c -> step c t = (c', act, e) -> timed (log ++ [e]) c'.
Proof.
  intros Ht. unfold step. destruct (healthy c (t_sample t) (t_reason t)) as [c1 b] eqn:E1.
  destruct (combine_transport c1 (t_witness t)) as [c2 ok] eqn:E2.
  destruct (decide c2 (t_now t) ok _ _ _ _) as [c3 a] eqn:E3. intros [= <- <- <-].
  change c3 with (fst (c3, a)). rewrite <- E3. apply decide_timed; [|done].
  unfold combine_transport in E2. injection E2 as <- _. unfold healthy in E1. injection E1 as <- _.
  exact Ht.
Qed.

Lemma run_timed ts : timed (snd (run ts)) (fst (run ts)).
Proof.
  induction ts as [|t ts IH] using rev_ind; [split; apply since_none|].
  rewrite run_snoc. unfold next. destruct (step (fst (run ts)) t) as [[c act] e] eqn:E.
  by eapply step_timed.
Qed.

(** Why [decide] returns an action. *)
Lemma decide_start c now ok n inh ex u c' : decide c now ok n inh ex u = (c', Some START) ->
  inh = false /\ n = Some 0 /\ ok = false /\
  ((ex = true /\ c_domain c <> MEDIA_FAILURE) \/
   (c_domain c = MEDIA_FAILURE /\ exists t, unhealthy_since c' = Some t /\ (START_AFTER <= now - t)%Q)).
Proof.
  unfold decide. destruct inh; [done|]. destruct ok; simpl.
  - intros [= <- Hs]. destruct n as [n|]; [|done]. rewrite andb_false_r in Hs. simpl in Hs. by case_match.
  - destruct (bool_decide_reflect (c_domain c = MEDIA_FAILURE)) as [Hd|Hd]; simpl.
    + intros [= <- Hs]. destruct n as [n|]; [|done].
      destruct (Z.eqb_spec n 0) as [->|]; simpl in Hs; [|by rewrite andb_false_r in Hs].
      destruct (Qleb START_AFTER _) eqn:Eq; [|done]. apply Qleb_true in Eq.
      split_and!; try done. right. split; [done|]. eexists. by split.
    + destruct ex; [|done]. intros [= <- Hs]. case_bool_decide; [|done].
      split_and!; try done. by left.
Qed.

Lemma decide_stop c now ok n inh ex u c' : decide c now ok n inh ex u = (c', Some STOP) ->
  inh = false /\ ok = true /\ (exists r, n = Some r /\ 1 <= r) /\
  exists t, healthy_since c' = Some t /\ (STOP_AFTER <= now - t)%Q.
Proof.
  unfold decide. destruct inh; [done|]. destruct ok; simpl.
  - intros [= <- Hs]. destruct n as [n|]; [|done]. rewrite andb_false_r in Hs. simpl in Hs.
    destruct (Z.leb_spec 1 n); simpl in Hs; [|done].
    destruct (Qleb STOP_AFTER _) eqn:Eq; [|done]. apply Qleb_true in Eq.
    split_and!; try done; [by exists n|]. eexists. by split.
  - destruct (bool_decide_reflect (c_domain c = MEDIA_FAILURE)); simpl.
    + intros [= <- Hs]. destruct n as [n|]; [|done]. rewrite andb_false_r in Hs. simpl in Hs. by case_match.
    + destruct ex; [|done]. intros [= <- Hs]. by case_bool_decide.
Qed.

(** The assessment that confirms progress. *)
Lemma counter_checks_advanced yt before keys cs :
  counter_checks yt before keys = inr cs -> List.find (fun c => negb (fst c)) cs = None ->
  forall key r, In (key, r) keys ->
    advanced yt before key = true \/
    (key <> "outbound" /\ yt_counter yt key = None /\ yt_counter before key = None).
Proof.
  revert cs. induction keys as [|[k r] keys IH]; intros cs Hc Hf; [done|].
  intros key r' Hin. cbn [counter_checks] in Hc.
  destruct (bool_decide _ && bool_decide _ && negb (String.eqb k "outbound")) eqn:Es.
  - bools. destruct Es as [[Hn Hm] Hk]. destruct Hin as [[= <- <-]|Hin].
    + right. apply String.eqb_neq in Hk. done.
    + by eapply IH.
  - destruct (yt_counter yt k) as [n|] eqn:En, (yt_counter before k) as [m|] eqn:Em;
      cbn [counter_opt] in Hc; rewrite ?orb_true_r in Hc; try done.
    destruct (counter n) eqn:Hn, (counter m) eqn:Hm; simpl in Hc; try done.
    destruct (n <? m) eqn:Elt; [done|].
    destruct (counter_checks yt before keys) as [|cs'] eqn:Er; [done|]. injection Hc as <-.
    simpl in Hf. destruct (m <? n) eqn:Eg; [|done]. simpl in Hf. destruct Hin as [[= <- <-]|Hin].
    + left. unfold advanced. by rewrite En, Em, Hn, Hm, Eg.
    + by eapply IH.
Qed.

(** What a HEALTHY verdict asserts of two consecutive samples. *)
Definition progress_between (prev cur : sample) : Prop :=
  ready cur = true /\ 0 <= bytes_received prev < bytes_received cur /\
  (exists y, s_youtube cur = Some y /\ y_state y = VStr "forwarding" /\ y_error y = false) /\
  advanced (s_youtube cur) (s_youtube prev) "outbound" = true /\
  (forall key, In key ["video_packets"; "audio_packets"] ->
     advanced (s_youtube cur) (s_youtube prev) key = true \/
     (yt_counter (s_youtube cur) key = None /\ yt_counter (s_youtube prev) key = None)) /\
  (forall i, s_identity cur = Some i ->
     (exists j, s_identity prev = Some j /\ identity_eq i j = true) /\
     (0 < received cur - received prev <= MAX_SAMPLE_GAP)%Q /\
     forall a b, source_monotonic cur = Some a -> source_monotonic prev = Some b ->
       (0 < a - b <= MAX_SAMPLE_GAP)%Q).

Lemma gap_ok_true a b : gap_ok a b = true <-> (0 < a - b <= MAX_SAMPLE_GAP)%Q.
Proof. unfold gap_ok. by rewrite andb_true_iff, Qltb_true, Qleb_true. Qed.

Lemma binding_none prev cur : binding prev cur = None -> forall i, s_identity cur = Some i ->
  (exists j, s_identity prev = Some j /\ identity_eq i j = true) /\
  (0 < received cur - received prev <= MAX_SAMPLE_GAP)%Q /\
  forall a b, source_monotonic cur = Some a -> source_monotonic prev = Some b ->
    (0 < a - b <= MAX_SAMPLE_GAP)%Q.
Proof.
  unfold binding. intros Hb i Hi. rewrite Hi in Hb.
  destruct (s_identity prev) as [j|] eqn:Ej; [|done].
  destruct (identity_eq i j) eqn:Eij; simpl in Hb; [|done].
  destruct (gap_ok (from_option _ 0%Q (source_monotonic cur)) _) eqn:E1; simpl in Hb; [|done].
  destruct (gap_ok (received cur) (received prev)) eqn:E2; simpl in Hb; [|done].
  apply gap_ok_true in E1, E2. split; [by exists j|]. split; [done|].
  intros a b Ha Hb'. by rewrite Ha, Hb' in E1.
Qed.

Lemma media_ok prev cur resumed : a_health (media prev cur resumed) = H_HEALTHY ->
  binding prev cur = None -> resumed = false /\ progress_between prev cur.
Proof.
  unfold media. intros Hm Hb.
  destruct (counter_checks (s_youtube cur) (s_youtube prev) output_counters) as [a|cs] eqn:Ec.
  { exfalso. clear Hb. revert Ec Hm. generalize output_counters.
    intros keys. revert a. induction keys as [|[k r] keys IH]; intros a Ec Hm; [done|].
    cbn [counter_checks] in Ec. repeat (case_in Ec; try done); simplify_eq; try done; by eapply IH. }
  cbn [List.find fst negb] in Hm.
  destruct (ready cur) eqn:Hr; simpl in Hm; [|done].
  destruct (counter (bytes_received cur) && counter (bytes_received prev)
            && (bytes_received prev <? bytes_received cur)) eqn:Hy; simpl in Hm; [|done].
  destruct (List.find (fun c => negb (fst c)) cs) as [[b r]|] eqn:Ef; [done|].
  destruct (s_youtube cur) as [y|] eqn:Ey; simpl in Hm; [|done].
  destruct (eq_str (y_state y) "forwarding") eqn:Es; simpl in Hm; [|done].
  destruct (y_error y) eqn:Ee; [done|]. destruct resumed; [done|]. split; [done|].
  apply eq_str_true in Es. unfold counter in Hy. bools.
  pose proof (counter_checks_advanced _ _ _ _ Ec Ef) as Ha.
  unfold progress_between. rewrite Ey. split_and!; try lia; try done.
  - by exists y.
  - destruct (Ha "outbound" "output_not_advancing") as [?|[? _]]; [by left | done | done].
  - intros key [<-|[<-|[]]].
    + destruct (Ha "video_packets" "video_not_advancing") as [?|[_ ?]]; [simpl; auto | auto | auto].
    + destruct (Ha "audio_packets" "audio_not_advancing") as [?|[_ ?]]; [simpl; auto | auto | auto].
  - by apply binding_none.
Qed.

Lemma assess_ok prev cur resumed reason :
  a_health (assess prev cur resumed reason) = H_HEALTHY ->
  exists p c, prev = Some p /\ cur = Some c /\ resumed = false /\ progress_between p c.
Proof.
  unfold assess. destruct cur as [c|]; [|done]. destruct (ready c) eqn:Hr; simpl; [|done].
  destruct prev as [p|]; [|done]. destruct (binding p c) as [a|] eqn:Hb.
  - intros Ha. exfalso. unfold binding in Hb. by case_all_in Hb; simplify_eq.
  - intros Ha. destruct (media_ok _ _ _ Ha Hb). by exists p, c.
Qed.

Lemma decide_keeps c now ok n inh ex u :
  last (fst (decide c now ok n inh ex u)) = last c /\
  observation_gap (fst (decide c now ok n inh ex u)) = observation_gap c.
Proof.
  unfold decide, count_reset. destruct inh; [done|].
  destruct ok; simpl; [done|]. destruct (healthy_since c); case_bool_decide; simpl; try done; by destruct ex.
Qed.

Lemma step_keeps c t c' act e : step c t = (c', act, e) ->
  last c' = (match t_sample t with Some s => Some s | None => last c end) /\
  observation_gap c' = bool_decide (t_sample t = None) /\
  (e_ok e = true ->
   a_health (assess (last c) (t_sample t) (observation_gap c) (t_reason t)) = H_HEALTHY).
Proof.
  unfold step. destruct (healthy c (t_sample t) (t_reason t)) as [c1 b] eqn:E1.
  destruct (combine_transport c1 (t_witness t)) as [c2 ok] eqn:E2.
  destruct (decide c2 (t_now t) ok _ _ _ _) as [c3 a] eqn:E3. intros [= <- _ <-].
  pose proof (decide_keeps c2 (t_now t) ok (t_replicas t) (t_inhibited t) (t_expired t) (t_utc t)) as Hk.
  rewrite E3 in Hk. simpl in Hk. destruct Hk as [-> ->].
  unfold combine_transport in E2. injection E2 as <- <-. unfold healthy in E1. injection E1 as <- _.
  simpl. split; [done|]. split; [done|]. intros Hok%bool_decide_eq_true. by case_match.
Qed.

(** ** Properties *)
Module FallbackProperties.

(** C1: START is returned only outside maintenance, with zero fallback replicas,
    and for one of two reasons: 30 s of uninterrupted media failure (every turn of
    a suffix of the history spanning 30 s was an uninhibited MEDIA_FAILURE), or an
    expired no-progress deadline while the domain is not a media failure. *)
Theorem start_authorised (ts : list tick) t c e :
  step (fst (run ts)) t = (c, Some START, e) ->
  t_inhibited t = false /\ t_replicas t = Some 0 /\ e_ok e = false /\
  ((t_expired t = true /\ e_domain e <> MEDIA_FAILURE) \/
   exists pre e0 sfx, snd (run (ts ++ [t])) = pre ++ e0 :: sfx /\
     (START_AFTER <= t_now t - e_now e0)%Q /\ Forall failing (e0 :: sfx)).
Proof.
  intros Hs. pose proof (step_timed (snd (run ts)) _ _ _ _ _ (run_timed ts) Hs) as [Hu _].
  rewrite run_snoc. unfold next. rewrite Hs. cbn [snd fst]. revert Hs. unfold step.
  destruct (healthy _ _ _) as [c1 b]. destruct (combine_transport c1 _) as [c2 ok].
  destruct (decide c2 _ ok _ _ _ _) as [c3 a] eqn:Ed. intros [= <- -> <-]. simpl in *.
  apply decide_start in Ed as (? & ? & -> & [[? ?]|[? (t0 & Ht & ?)]]); split_and!; try done; [by left|].
  right. destruct (Hu _ Ht) as (pre & e0 & sfx & Hlog & <- & ?). by exists pre, e0, sfx.
Qed.

(** C3: STOP is returned only outside maintenance, with at least one confirmed
    fallback replica, after 300 s during which every turn was healthy and
    uninhibited. *)
Theorem stop_authorised (ts : list tick) t c e :
  step (fst (run ts)) t = (c, Some STOP, e) ->
  t_inhibited t = false /\ (exists r, t_replicas t = Some r /\ 1 <= r) /\
  exists pre e0 sfx, snd (run (ts ++ [t])) = pre ++ e0 :: sfx /\
    (STOP_AFTER <= t_now t - e_now e0)%Q /\ Forall stable (e0 :: sfx).
Proof.
  intros Hs. pose proof (step_timed (snd (run ts)) _ _ _ _ _ (run_timed ts) Hs) as [_ Hh].
  rewrite run_snoc. unfold next. rewrite Hs. cbn [snd fst]. revert Hs. unfold step.
  destruct (healthy _ _ _) as [c1 b]. destruct (combine_transport c1 _) as [c2 ok].
  destruct (decide c2 _ ok _ _ _ _) as [c3 a] eqn:Ed. intros [= <- -> <-]. simpl in *.
  apply decide_stop in Ed as (? & ? & ? & t0 & Ht & ?). split_and!; try done.
  destruct (Hh _ Ht) as (pre & e0 & sfx & Hlog & <- & ?). by exists pre, e0, sfx.
Qed.

(** C38: a turn is healthy only when it and the turn immediately before it both
    have a sample and the pair shows progress: every counter strictly advanced,
    the output is forwarding without error, and a bound sample has the same
    identity and gaps of at most 45 s on both monotonic clocks. *)
Theorem healthy_needs_consecutive_progress (ts : list tick) t c act e :
  step (fst (run ts)) t = (c, act, e) -> e_ok e = true ->
  exists ts0 t0 prev cur, ts = ts0 ++ [t0] /\ t_sample t0 = Some prev /\ t_sample t = Some cur /\
    progress_between prev cur.
Proof.
  intros Hs Hok. apply step_keeps in Hs as (_ & _ & Ha). specialize (Ha Hok).
  apply assess_ok in Ha as (prev & cur & Hl & Hc & Hg & Hp).
  destruct ts as [|t0 ts0 _] using rev_ind; [done|].
  rewrite run_snoc in Hl, Hg. unfold next in Hl, Hg.
  destruct (step (fst (run ts0)) t0) as [[c0 a0] e0] eqn:E0.
  apply step_keeps in E0 as (Hl0 & Hg0 & _). simpl in Hl, Hg. rewrite Hl in Hl0. rewrite Hg in Hg0.
  symmetry in Hg0. apply bool_decide_eq_false in Hg0.
  exists ts0, t0, prev, cur. destruct (t_sample t0); naive_solver.
Qed.

(** A turn without a sample, whose transport witness does not prove a stop,
    clears both timers, and the controller acts only when the no-progress
    deadline expired: observation loss is not a media failure. *)
Theorem missing_sample_gives_no_credit c t c' act e :
  step c t = (c', act, e) -> t_sample t = None ->
  TransportWitness.v_status (t_witness t) <> TransportWitness.STOPPED ->
  healthy_since c' = None /\ unhealthy_since c' = None /\ e_ok e = false /\
  act = (if t_expired t && negb (t_inhibited t) && bool_decide (t_replicas t = Some 0) then Some START else None).
Proof.
  unfold step, healthy, combine_transport. intros Hs Hn Hw. rewrite Hn in Hs. simpl in Hs.
  assert (domain_for_missing (t_reason t) <> MEDIA_FAILURE) as Hd
    by (unfold domain_for_missing; destruct (String.eqb _ _); discriminate).
  destruct (TransportWitness.v_status (t_witness t)); [| |done]; simpl in Hs;
    unfold decide in Hs; simpl in Hs; rewrite (bool_decide_eq_false_2 _ Hd) in Hs; simpl in Hs;
    destruct (t_inhibited t), (t_expired t); simpl in Hs; injection Hs as <- <- <-; by rewrite ?andb_false_r.
Qed.

(** Local transport evidence cannot override verified downstream progress:
    with a progressing route a STOPPED witness leaves the assessment unchanged and
    is reported as a conflict; without progress it is a media failure. *)
Theorem transport_conflict_resolution c w :
  TransportWitness.v_status w = TransportWitness.STOPPED ->
  let '(c', ok) := combine_transport c w in
  if route_progress c
  then health c' = health c /\ c_domain c' = c_domain c /\ c_reason c' = c_reason c /\
       transport_conflict c' = true
  else ok = false /\ c_domain c' = MEDIA_FAILURE /\ c_reason c' = TransportWitness.v_reason w /\
       transport_conflict c' = false.
Proof. unfold combine_transport. intros ->. by destruct (route_progress c). Qed.

(** *** Witnesses *)
Definition flowing : TransportWitness.verdict :=
  TransportWitness.Verdict TransportWitness.UNKNOWN "local_transport_unavailable".
Definition demo_sample (n : Z) (t : Q) : sample :=
  Sample true n (Some (Identity "b" 7 (VStr "c") "youtube-forward-1-1" "d")) (Some t) t (Some t)
    false None (Some (str_Z n)) true true
    (Some (Youtube (VStr "forwarding") false n (Some n) (Some n))).
Definition demo_tick (s : option sample) (t : Q) (n : Z) : tick :=
  Tick s "observation_unavailable" flowing t false false (Some n) "utc".
Definition dead : sample :=
  Sample false 0 None (Some 1%Q) 1 None true None None false false None.

Lemma start_authorised_witness :
  false = false /\ Some 0 = Some 0 /\ false = false /\
  ((false = true /\ MEDIA_FAILURE <> MEDIA_FAILURE) \/
   exists pre e0 sfx,
     snd (run ([demo_tick (Some dead) 0 0; demo_tick (Some dead) 15 0] ++ [demo_tick (Some dead) 30 0]))
       = pre ++ e0 :: sfx /\
     (START_AFTER <= 30 - e_now e0)%Q /\ Forall failing (e0 :: sfx)).
Proof.
  apply (start_authorised [demo_tick (Some dead) 0 0; demo_tick (Some dead) 15 0]
    (demo_tick (Some dead) 30 0)
    (fst (fst (step (fst (run [demo_tick (Some dead) 0 0; demo_tick (Some dead) 15 0]))
                 (demo_tick (Some dead) 30 0))))
    (Entry 30 false false MEDIA_FAILURE)).
  vm_compute. reflexivity.
Defined.

Definition demo_history (n : nat) : list tick :=
  map (fun k => demo_tick (Some (demo_sample (Z.of_nat k + 1) (15 * inject_Z (Z.of_nat k))))
                  (15 * inject_Z (Z.of_nat k)) 1) (seq 0 n).

Lemma stop_authorised_witness :
  false = false /\ (exists r, Some 1 = Some r /\ 1 <= r) /\
  exists pre e0 sfx,
    snd (run (demo_history 21 ++ [demo_tick (Some (demo_sample 22 315)) 315 1])) = pre ++ e0 :: sfx /\
    (STOP_AFTER <= 315 - e_now e0)%Q /\ Forall stable (e0 :: sfx).
Proof.
  apply (stop_authorised (demo_history 21) (demo_tick (Some (demo_sample 22 315)) 315 1)
    (fst (fst (step (fst (run (demo_history 21))) (demo_tick (Some (demo_sample 22 315)) 315 1))))
    (Entry 315 false true HEALTHY)).
  vm_compute. reflexivity.
Defined.

Lemma healthy_needs_consecutive_progress_witness :
  exists ts0 t0 prev cur, demo_history 2 = ts0 ++ [t0] /\ t_sample t0 = Some prev /\
    Some (demo_sample 3 30) = Some cur /\ progress_between prev cur.
Proof.
  apply (healthy_needs_consecutive_progress (demo_history 2) (demo_tick (Some (demo_sample 3 30)) 30 1)
    (fst (fst (step (fst (run (demo_history 2))) (demo_tick (Some (demo_sample 3 30)) 30 1))))
    None (Entry 30 false true HEALTHY)); vm_compute; reflexivity.
Defined.

Lemma missing_sample_gives_no_credit_witness :
  healthy_since (fst (fst (step (fst (run (demo_history 3))) (demo_tick None 45 1)))) = None /\
  unhealthy_since (fst (fst (step (fst (run (demo_history 3))) (demo_tick None 45 1)))) = None /\
  false = false /\ None = None (A := action).
Proof.
  apply (missing_sample_gives_no_credit (fst (run (demo_history 3))) (demo_tick None 45 1)
    (fst (fst (step (fst (run (demo_history 3))) (demo_tick None 45 1)))) None
    (Entry 45 false false OBSERVATION_LOST)); [vm_compute; reflexivity | reflexivity | discriminate].
Defined.

Lemma transport_conflict_resolution_witness :
  let w := TransportWitness.Verdict TransportWitness.STOPPED "local_transport_stalled" in
  TransportWitness.v_status w = TransportWitness.STOPPED /\
  (false = false /\ MEDIA_FAILURE = MEDIA_FAILURE /\
   "local_transport_stalled" = "local_transport_stalled" /\ false = false).
Proof.
  split; [reflexivity|].
  exact (transport_conflict_resolution initial
    (TransportWitness.Verdict TransportWitness.STOPPED "local_transport_stalled") eq_refl).
Defined.
End FallbackProperties.
