(* ===== verification/RouteSample.v ===== *)
(** * From the facts document to a sample (ops/selfheal/fallback_controller.py)

    [copy_route_sample] and [observe] fill a diagnostic dict on the way, so they
    run in a state-and-exception monad over that dict: an exception keeps the
    entries written before it. *)
From Stdlib Require Import Ascii.
From S2P Require Import Prelude PyVal Clock RouteAssessment Fallback.

Definition diag : Type := list (string * pyval).

(** ** The monad of the diagnostic dict *)
Definition D (A : Type) : Type := diag -> diag * res A.
Definition dret {A} (a : A) : D A := fun d => (d, Ok a).
Definition lift {A} (m : res A) : D A := fun d => (d, m).
Definition dbind {A B} (m : D A) (k : A -> D B) : D B :=
  fun d => match m d with (d', Ok a) => k a d' | (d', Err e) => (d', Err e) end.
Definition dput (kvs : diag) : D unit := fun d => (dict_update d kvs, Ok tt).
Notation "'do!' x := m 'in' k" := (dbind m (fun x => k))
  (at level 200, x pattern, m at level 100, k at level 200, right associativity) : py_scope.
Notation "m ';;!' k" := (dbind m (fun _ => k)) (at level 199, right associativity) : py_scope.

(** [require(condition, reason)]: the condition is evaluated first. *)
Definition require (condition : res bool) (reason : string) : D unit :=
  do! b := lift condition in if b : bool then dret tt else lift (Err (EObservation reason)).

(** ** Shorthands for the conditions *)

(** [v[k1][k2]] *)
Definition idx2 (v : pyval) (k1 k2 : string) : res pyval := let! x := idx v k1 in idx x k2.
(** [v[k] == s], [v[k] is True], [counter(v[k])], [counter(v[k]) and v[k] > 0] *)
Definition is_at (v : pyval) (k s : string) : res bool := let! x := idx v k in Ok (eq_str x s).
Definition eq_at (v : pyval) (k : string) (w : pyval) : res bool := let! x := idx v k in Ok (py_eq x w).
Definition is_counter (v : pyval) : bool := is_int v && (0 <=? int_val v).
Definition counter_at (v : pyval) (k : string) : res bool := let! x := idx v k in Ok (is_counter x).
Definition positive_at (v : pyval) (k : string) : res bool :=
  let! x := idx v k in Ok (is_counter x && (0 <? int_val x)).
(** [isinstance(v[k], str) and bool(v[k])] *)
Definition text_at (v : pyval) (k : string) : res bool :=
  let! x := idx v k in Ok (is_str x && truthy x).
(** [isinstance(v[k], str) and len(v[k]) <= n] *)
Definition short_at (n : Z) (v : pyval) (k : string) : res bool :=
  let! x := idx v k in Ok (is_str x && (slen (str_val x) <=? n)).
(** [type(v[k]) in (int, float) and math.isfinite(v[k]) and v[k] >= 0] *)
Definition clock_at (v : pyval) (k : string) : res bool :=
  let! x := idx v k in let! f := num_finite x in Ok (f && Qleb 0 (num_val x)).

Section CopyRoute.
Context (expected_host : string).

Definition stopped_relay : pyval := VDict [("active", VBool false); ("pid", VInt 0)].
Definition offline_input : pyval :=
  VDict [("available", VBool false); ("ready", VBool false); ("online", VBool false);
         ("content_state", VStr "OFFLINE"); ("connection_id", VNone); ("bytes", VInt 0)].
Definition relay_stopped_notice : pyval :=
  VDict [("schema", VStr "stream_v3.relay_availability.v1"); ("state", VStr "STOPPED");
         ("reason", VStr "unit_not_running")].

(** The relay's own unit is not running (lines 93-109). *)
Definition relay_negative (availability raw cp : pyval) (received : Q) : D sample :=
  require (Ok (py_eq availability relay_stopped_notice)) "relay_availability_invalid" ;;!
  require (eq_at raw "relay" stopped_relay
           &&! (let! x := idx2 raw "relay" "active" in Ok (is_false x))
           &&! (let! x := idx2 raw "relay" "pid" in Ok (is_int x))
           &&! Ok (is_none cp)
           &&! eq_at raw "input" offline_input
           &&! rall (fun k => let! x := idx2 raw "input" k in Ok (is_false x)) ["available"; "ready"; "online"]
           &&! (let! x := idx2 raw "input" "bytes" in Ok (is_int x))
           &&! eq_at raw "destinations" (VDict [])
           &&! text_at raw "boot_id"
           &&! clock_at raw "monotonic_seconds") "relay_availability_invalid" ;;!
  dput [("health", VStr "UNHEALTHY"); ("reason", VStr "relay_unit_not_running")] ;;!
  do! mono := lift (idx raw "monotonic_seconds") in
  dret (Sample false 0 None (Some (num_val mono)) received None true None None false false None).

Definition same_int (cp pid : pyval) (k : string) : res bool :=
  let! x := idx cp k in Ok (is_int x && py_eq x pid).

(** The copy unit is stopped or its heartbeat does not advance (lines 110-138). *)
Definition copy_negative (ca raw cp : pyval) (destination : string) (received : Q) : D sample :=
  require (is_at ca "schema" "stream_v3.copy_availability.v1"
           &&! is_at ca "destination_fingerprint" destination
           &&! (let! x := idx2 raw "relay" "active" in Ok (is_true x))
           &&! (let! r := idx raw "relay" in positive_at r "pid")) "copy_availability_invalid" ;;!
  do! state := lift (idx ca "state") in
  do! pid := lift (idx ca "pid") in
  do! reason :=
    (if eq_str state "STOPPED" then
       require (Ok (is_int pid && py_eq pid (VInt 0)) &&! Ok (is_none cp)
                &&! is_at ca "reason" "unit_not_running") "copy_availability_invalid" ;;!
       dret "copy_unit_not_running"
     else
       do! age := lift (idx ca "unobserved_for_sec") in
       require (Ok (eq_str state "STALLED")
                &&! (let! f := num_finite age in Ok (f && Qltb 20 (num_val age)))
                &&! is_at ca "reason" "heartbeat_not_advancing"
                &&! Ok (is_counter pid && (0 <? int_val pid)) &&! Ok (is_dict cp)
                &&! is_at cp "schema" "stream_v3.youtube_forward.v1"
                &&! same_int cp pid "pid"
                &&! (let! b := idx cp "boot_id" in let! b' := idx raw "boot_id" in Ok (py_eq b b'))
                &&! is_at cp "destination_fingerprint" destination
                &&! positive_at cp "session"
                &&! (let! x := idx ca "session" in Ok (is_int x))
                &&! (let! a := idx cp "session" in let! b := idx ca "session" in Ok (py_eq a b))
                &&! (let! x := idx cp "state" in Ok (in_strs x ["FLOWING"; "CONNECTING"; "ERROR"]))
                &&! rall (counter_at cp) ["output_bytes"; "video_packets"; "audio_packets"])
         "copy_availability_invalid" ;;!
       dret "copy_heartbeat_stalled") in
  require (text_at raw "boot_id" &&! clock_at raw "monotonic_seconds") "copy_availability_invalid" ;;!
  dput [("health", VStr "UNHEALTHY"); ("reason", VStr reason)] ;;!
  dret (Sample false 0 None None received None false (Some reason) None false false None).

(** [copy_observation]: [(mono_fresh, copy_new)] (lines 140-148). *)
Definition copy_freshness (observation : pyval) (source_age : Q) : D (bool * bool) :=
  if is_none observation then dret (false, false) else
  do! age := lift (idx observation "age_seconds") in
  require (is_at observation "schema" "stream_v3.copy_observation.v1"
           &&! (let! f := num_finite age in Ok (f && Qleb 0 (num_val age)))
           &&! (let! x := idx observation "confirmed" in Ok (is_bool x))
           &&! (let! x := idx observation "new_observation" in Ok (is_bool x)))
    "copy_observation_invalid" ;;!
  do! confirmed := lift (idx observation "confirmed") in
  do! new_observation := lift (idx observation "new_observation") in
  let mono_fresh := is_true confirmed && Qleb (num_val age + qmax 0 source_age) MAX_FACT_AGE in
  dret (mono_fresh, mono_fresh && is_true new_observation).

Definition ident_of (pid session : Z) : string :=
  ("youtube-forward-" ++ str_Z pid ++ "-" ++ str_Z session)%string.

(** The bound counters of a live route (lines 139-175); [received_boot] is the
    reading of [clock.mono()] in the returned dict. *)
Definition live_sample (value raw cp : pyval) (destination : string) (received received_boot source_age : Q)
  : D sample :=
  require (Ok (is_dict cp)) "copy_facts_missing" ;;!
  do! observation := lift (get value "copy_observation") in
  do! (mono_fresh, copy_new) := copy_freshness observation source_age in
  require (Ok mono_fresh) "copy_freshness_unavailable" ;;!
  require (rall (short_at 40 cp) ["updated_at"; "last_progress_at"]) "facts_invalid" ;;!
  require (is_at cp "schema" "stream_v3.youtube_forward.v1"
           &&! (let! b := idx cp "boot_id" in let! b' := idx raw "boot_id" in Ok (py_eq b b'))
           &&! is_at cp "destination_fingerprint" destination) "copy_binding_mismatch" ;;!
  require (let! x := idx cp "state" in Ok (in_strs x ["FLOWING"; "CONNECTING"; "ERROR"])) "facts_invalid" ;;!
  require (positive_at cp "pid" &&! positive_at cp "session") "copy_identity_invalid" ;;!
  do! incoming := lift (idx raw "input") in
  do! yt := lift (idx2 raw "destinations" "youtube") in
  do! pid := lift (idx cp "pid") in
  do! session := lift (idx cp "session") in
  let ident := ident_of (int_val pid) (int_val session) in
  require (is_at yt "id" ident
           &&! (let! x := idx yt "state" in
                Ok (in_strs x ["forwarding"; "unknown"; "idle"; "connecting"]))) "copy_binding_mismatch" ;;!
  require (text_at raw "boot_id" &&! (let! r := idx raw "relay" in positive_at r "pid")
           &&! (let! x := idx2 raw "relay" "active" in Ok (is_bool x))) "facts_invalid" ;;!
  require ((let! x := idx incoming "ready" in Ok (is_bool x))
           &&! (let! x := idx incoming "available" in Ok (is_bool x))) "facts_invalid" ;;!
  do! active := lift (idx2 raw "relay" "active") in
  do! in_ready := lift (idx incoming "ready") in
  do! available := lift (idx incoming "available") in
  let ready := is_true active && is_true in_ready && is_true available in
  do! content := lift (getd incoming "content_state" (VStr "LIVE")) in
  do! online := lift (getd incoming "online" (VBool true)) in
  let live := eq_str content "LIVE" && is_true online in
  do! connection := lift (idx incoming "connection_id") in
  require (Ok ((is_str connection && truthy connection) || negb ready || negb live)) "facts_invalid" ;;!
  do! bytes := lift (idx incoming "bytes") in
  do! out := lift (idx cp "output_bytes") in
  do! video := lift (idx cp "video_packets") in
  do! audio := lift (idx cp "audio_packets") in
  require (Ok (forallb is_counter [bytes; out; video; audio])) "facts_invalid" ;;!
  require (clock_at raw "monotonic_seconds") "facts_invalid" ;;!
  dput [("health", VStr "UNKNOWN"); ("reason", VStr "baseline_required")] ;;!
  do! boot := lift (idx raw "boot_id") in
  do! rpid := lift (idx2 raw "relay" "pid") in
  do! mono := lift (idx raw "monotonic_seconds") in
  do! updated := lift (idx cp "updated_at") in
  do! ystate := lift (idx yt "state") in
  do! cstate := lift (idx cp "state") in
  dret (Sample (ready && live) (int_val bytes)
          (Some (Identity (str_val boot) (int_val rpid) connection ident destination))
          (Some (num_val mono)) received (Some received_boot) false None
          (Some (str_val updated)) copy_new mono_fresh
          (Some (Youtube ystate (negb (eq_str cstate "FLOWING")) (int_val out)
                   (Some (int_val video)) (Some (int_val audio))))).

(** The body of the [try] (lines 82-175). *)
Definition copy_route_body (value : pyval) (machine destination : string)
    (received received_boot source_age : Q) : D sample :=
  do! ra := lift (get value "relay_availability") in
  do! ca0 := lift (if negb (is_none ra) then Ok VNone else get value "copy_availability") in
  let negative := negb (is_none ra) || negb (is_none ca0) in
  require (Ok (Qleb 0 source_age && Qleb source_age MAX_FACT_AGE)) "source_freshness_unavailable" ;;!
  do! raw := lift (idx value "relay") in
  do! cp := lift (idx value "youtube_copy") in
  require (is_at value "schema" "stream_v3.route_facts.v1" &&! is_at raw "schema" "stream.relay_raw.v1")
    "schema_invalid" ;;!
  require (is_at raw "host_id" expected_host &&! Ok (slen machine =? 64)
           &&! is_at raw "machine_id_sha256" machine &&! Ok (slen destination =? 64))
    "host_binding_mismatch" ;;!
  require (short_at 64 raw "observed_at") "facts_invalid" ;;!
  do! observed := lift (idx raw "observed_at") in
  dput [("source_observed_at", observed);
        ("source_age_bounds_seconds", VList [VFloat (Fin 0); VFloat (Fin source_age)]);
        (if negative then "negative_evidence_timing" else "media_evidence_timing", VStr "bound_boottime")] ;;!
  do! availability := lift (get value "relay_availability") in
  if negb (is_none availability) then relay_negative availability raw cp received else
  do! ca := lift (get value "copy_availability") in
  if negb (is_none ca) then copy_negative ca raw cp destination received else
  live_sample value raw cp destination received received_boot source_age.

(** The handlers (lines 176-180); an exception they do not name escapes. *)
Definition copy_route_sample (value : pyval) (machine destination : string)
    (received received_boot source_age : Q) (d : diag) : diag * res (option sample) :=
  let d0 := dict_update d [("health", VStr "UNKNOWN"); ("reason", VStr "facts_invalid")] in
  match copy_route_body value machine destination received received_boot source_age d0 with
  | (d', Ok s) => (d', Ok (Some s))
  | (d', Err (EObservation r)) => (dict_set "reason" (VStr r) d', Ok None)
  | (d', Err (EClock r)) =>
      (dict_update d' [("reason", VStr "clock_unavailable");
                       ("clock", VDict [("status", VStr "UNKNOWN"); ("reason", VStr r)])], Ok None)
  | (d', Err (EKey | EValue _ | EType | EAttr | EOverflow)) => (d', Ok None)
  | (d', Err e) => (d', Err e)
  end.
End CopyRoute.

(** ** One exchange: [observe] *)

(** What [urlopen] and [read] did: a transport exception, or the length read (at
    most 16385) and the decoded body ([None] when decoding raises [ValueError]). *)
Inductive failure : Type :=
  | Py (e : exn)
  | HTTPError (code : Z)
  | TimedOut
  | URLError (reason_is_timeout : bool).
Definition response : Type := failure + (Z * option pyval).

(** [get_url(url)] after the transport. *)
Definition get_url (r : response) : failure + pyval :=
  match r with
  | inl f => inl f
  | inr (n, body) =>
      if 16384 <? n then inl (Py (EValue "oversized_facts"))
      else match body with Some v => inr v | None => inl (Py (EValue "invalid_json")) end
  end.

(** [s.replace('Z', '+00:00')] *)
Fixpoint replace_z (s : string) : string :=
  match s with
  | EmptyString => EmptyString
  | String c s' => if Ascii.eqb c "Z"%char then ("+00:00" ++ replace_z s')%string else String c (replace_z s')
  end.

(** [datetime.fromisoformat(s)]: [None] when it raises, [Some None] for a naive
    time, [Some (Some t)] for an aware one with [t] its [timestamp()]. *)
Class IsoFormat := fromisoformat : string -> option (option Q).

(** The three clock readings of one [capture()]. *)
Record reading : Type := Reading { r_before : Q; r_wall : Q; r_after : Q }.
Definition take (r : reading) : res stamp := capture (r_before r) (r_wall r) (r_after r).

(** The readings one label check takes: [time.time()] and the capture inside
    [age_bounds]. *)
Record label_clock : Type := LabelClock { utc_now : Q; label_now : reading }.

Section Observe.
Context `{IsoFormat}.

Definition check_timestamp (value : pyval) (name : string) (c : label_clock) (model : Estimate) : D unit :=
  require (Ok (is_str value && (slen (str_val value) <=? 40))) "timestamp_invalid" ;;!
  do! stamp := lift (match fromisoformat (replace_z (str_val value)) with
                     | Some t => Ok t
                     | None => Err (EValue "Invalid isoformat string")
                     end) in
  require (Ok (bool_decide (is_Some stamp))) "timestamp_invalid" ;;!
  let t := from_option (fun t => t) 0%Q stamp in
  (if String.eqb name "source" then dput [("source_observed_at", value)] else dret tt) ;;!
  dput [((name ++ "_age_seconds")%string, VFloat (Fin (round3 (utc_now c - t))))] ;;!
  do! (lo, hi) := lift (let! now := take (label_now c) in age_bounds model (VFloat (Fin t)) now) in
  dput [((name ++ "_age_bounds_seconds")%string,
         VList [VFloat (Fin (round6 lo)); VFloat (Fin (round6 hi))])] ;;!
  require (Ok (Qleb (- EPSILON) hi)) (name ++ "_future")%string ;;!
  require (Ok (Qleb hi MAX_FACT_AGE)) (name ++ "_stale")%string.

Definition report_py (r : clock_report) : diag :=
  [("offset_seconds", VFloat (Fin (offset_seconds r)));
   ("uncertainty_seconds", VFloat (Fin (uncertainty_seconds r)));
   ("network_rtt_seconds", VFloat (Fin (network_rtt_seconds r)));
   ("model_ttl_seconds", VFloat (Fin (model_ttl_seconds r)))].

(** The three labels of line 349, with their clock readings. *)
Definition labels (cs : label_clock * label_clock * label_clock)
  : list (string * string * string * label_clock) :=
  let '(a, b, c) := cs in
  [("relay", "observed_at", "source", a); ("youtube_copy", "updated_at", "copy", b);
   ("youtube_copy", "last_progress_at", "progress", c)].

Fixpoint check_labels (value : pyval) (model : Estimate)
    (ls : list (string * string * string * label_clock)) : D unit :=
  match ls with
  | [] => dret tt
  | (section, field, name, c) :: ls' =>
      do! x := lift (get value section) in
      (if is_none x then dret tt
       else do! v := lift (idx2 value section field) in check_timestamp v name c model) ;;!
      check_labels value model ls'
  end.

Context (expected_host expected_machine expected_destination local_boot : string).

(** The readings of one exchange. *)
Record exchange : Type := Exchange {
  x_started : reading; x_nonce : pyval; x_started_at : string; x_response : response;
  x_completed_at : string; x_completed : reading; x_diagnostic : reading;
  x_labels : label_clock * label_clock * label_clock; x_received : Q; x_received_boot : Q }.

(** Lines 348-353: the verified clock and the three labels. *)
Definition utc_labels (value : pyval) (model : Estimate) (now : reading)
    (cs : label_clock * label_clock * label_clock) : D unit :=
  do! r := lift (let! n := take now in diagnostic model n) in
  dput [("clock", VDict (("status", VStr "VERIFIED") :: report_py r))] ;;!
  check_labels value model (labels cs).

Definition utc_unknown (reason : string) : diag :=
  [("clock", VDict [("status", VStr "UNKNOWN"); ("reason", VStr reason)])].
(** The two handlers (lines 354-357). *)
Definition utc_handlers (r : diag * res unit) : diag * res unit :=
  match r with
  | (d, Err (EClock r | EObservation r)) => (dict_update d (utc_unknown r), Ok tt)
  | (d, Err (EKey | EValue _ | EType)) => (dict_update d (utc_unknown "clock_labels_invalid"), Ok tt)
  | r => r
  end.

(** The UTC block (lines 345-357): it only writes the diagnostic. *)
Definition utc_block (value nonce : pyval) (started completed : stamp) (now : reading)
    (cs : label_clock * label_clock * label_clock) : D unit :=
  fun d => utc_handlers
    ((do! clk := lift (getd value "clock" (VDict [])) in
      do! boot := lift (idx2 value "relay" "boot_id") in
      do! model := lift (estimate clk nonce started completed expected_machine boot local_boot) in
      utc_labels value model now cs) d).

(** Lines 358-362. *)
Definition media_block (value nonce : pyval) (started completed : stamp) (received received_boot : Q)
  : D (option sample) :=
  do! clk := lift (idx value "clock") in
  do! boot := lift (idx2 value "relay" "boot_id") in
  do! src := lift (idx2 value "relay" "observed_boottime_seconds") in
  do! age := lift (monotonic_source_age clk nonce started completed expected_machine boot src MAX_FACT_AGE) in
  copy_route_sample expected_host value expected_machine expected_destination received received_boot age.

(** The exchange branch up to its handlers: the diagnostic and the value, or
    the exception.  [finally] runs on both outcomes of [get_url], and its own
    exception replaces the first. *)
Definition exchange_body (x : exchange) (d : diag) : diag * (failure + option sample) :=
  match take (x_started x) with
  | Err e => (d, inl (Py e))
  | Ok started =>
      let d1 := dict_update d [("http_started_at", VStr (x_started_at x));
                               ("http_completed_at", VStr (x_completed_at x))] in
      match take (x_completed x) with
      | Err e => (d1, inl (Py e))
      | Ok completed =>
          let d2 := dict_set "http_elapsed_seconds"
                      (VFloat (Fin (round6 (mono completed - mono started)))) d1 in
          match get_url (x_response x) with
          | inl f => (d2, inl f)
          | inr value =>
              match (utc_block value (x_nonce x) started completed (x_diagnostic x) (x_labels x) ;;!
                     media_block value (x_nonce x) started completed (x_received x) (x_received_boot x)) d2 with
              | (d3, Ok s) => (d3, inr s)
              | (d3, Err e) => (d3, inl (Py e))
              end
          end
      end
  end.

(** [observe(diagnostic)] with [FACTS_URL] set; it starts from a cleared dict. *)
Definition observe (x : exchange) : diag * option sample :=
  let d0 := [("health", VStr "UNKNOWN"); ("reason", VStr "observation_unavailable")] in
  match exchange_body x d0 with
  | (d, inr s) => (d, s)
  | (d, inl (Py (EClock r))) =>
      (dict_update d [("reason", VStr "clock_unavailable");
                      ("clock", VDict [("status", VStr "UNKNOWN"); ("reason", VStr r)])], None)
  | (d, inl (HTTPError code)) =>
      (dict_update d [("reason", VStr "facts_http_unavailable"); ("http_status", VInt code)], None)
  | (d, inl TimedOut) => (dict_set "reason" (VStr "facts_timeout") d, None)
  | (d, inl (URLError timeout)) =>
      (dict_set "reason" (VStr (if timeout then "facts_timeout" else "facts_transport_error")) d, None)
  | (d, inl (Py _)) => (dict_set "reason" (VStr "facts_invalid") d, None)
  end.
End Observe.

(** ** The MediaMTX branch *)
Section Legacy.
(** [urlsplit(s).hostname or ''] *)
Context `{Repr} (hostname : string -> string).

Inductive provider_t : Type := P_youtube | P_twitch.

Definition provider (item : pyval) : res (option provider_t) :=
  let! conf := get item "conf" in
  let! dest := get (py_or conf (VDict [])) "dest" in
  let host := hostname (py_str (py_or dest (VStr ""))) in
  Ok (if String.eqb host "youtube.com" || ends_with ".youtube.com" host then Some P_youtube
      else if ends_with ".live-video.net" host || ends_with ".twitch.tv" host then Some P_twitch
      else None).

Fixpoint matches (items : list pyval) : res (list pyval) :=
  match items with
  | [] => Ok []
  | i :: items' =>
      let! p := provider i in
      let! ms := matches items' in
      Ok (match p with Some P_youtube => i :: ms | _ => ms end)
  end.

(** [items] is the decoded list. *)
Definition youtube_item (items : list pyval) : res (option pyval) :=
  let! ms := matches items in
  Ok (match ms with [i] => Some i | _ => None end).

Definition legacy_sample (path : pyval) (items : list pyval) (received received_boot : Q) : res sample :=
  let! yt := youtube_item items in
  let! r := get path "ready" in
  let! ready :=
    if negb (is_true r) then Ok false else
    let! o := getd path "online" (VBool true) in
    if negb (is_true o) then Ok false else
    let! src := get path "source" in
    let! id := get (py_or src (VDict [])) "id" in Ok (truthy id) in
  let! b1 := get path "bytesReceived" in
  let! b2 := get path "inboundBytes" in
  let! bytes := py_int (py_or (py_or b1 b2) (VInt 0)) in
  let! y := match yt with
            | None => Ok None
            | Some i =>
                let! st := get i "state" in
                let! e := get i "lastError" in
                let! o := get i "outboundBytes" in
                let! out := py_int (py_or o (VInt 0)) in
                Ok (Some (Youtube st (truthy e) out None None))
            end in
  Ok (Sample ready bytes None None received (Some received_boot) false None None false false y).
End Legacy.

(** ** Facts *)

(** A computation whose result does not depend on the diagnostic dict. *)
Definition oblivious {A} (m : D A) : Prop := forall d d', snd (m d) = snd (m d').

Lemma oblivious_ret {A} (a : A) : oblivious (dret a).
Proof. done. Qed.
Lemma oblivious_lift {A} (m : res A) : oblivious (lift m).
Proof. done. Qed.
Lemma oblivious_put kvs : oblivious (dput kvs).
Proof. done. Qed.
Lemma oblivious_bind {A B} (m : D A) (k : A -> D B) :
  oblivious m -> (forall a, oblivious (k a)) -> oblivious (dbind m k).
Proof.
  intros Hm Hk d d'. unfold dbind. specialize (Hm d d').
  destruct (m d) as [e [a|]], (m d') as [e' [a'|]]; simpl in Hm; simplify_eq; first [apply Hk | done].
Qed.
Lemma oblivious_require c r : oblivious (require c r).
Proof. apply oblivious_bind; [apply oblivious_lift|]. intros [|]; done. Qed.

(** The classes of exceptions a computation can raise. *)
Section Raises.
Context (P : exn -> bool).
Definition only {A} (m : res A) : Prop := forall e, m = Err e -> P e = true.
Definition raises {A} (m : D A) : Prop := forall d, only (snd (m d)).

Lemma only_ok {A} (a : A) : only (Ok a).
Proof. by intros e [=]. Qed.
Lemma only_err {A} e : P e = true -> only (A := A) (Err e).
Proof. by intros ? e' [= <-]. Qed.
Lemma only_bind {A B} (m : res A) (k : A -> res B) : only m -> (forall a, only (k a)) -> only (rbind m k).
Proof. intros Hm Hk e. destruct m; simpl; [apply Hk | intros [= <-]; by apply Hm]. Qed.
Lemma only_and a b : only a -> only b -> only (rand a b).
Proof. intros Ha Hb e. destruct a as [[]|]; simpl; [apply Hb | done | intros [= <-]; by apply Ha]. Qed.
Lemma only_or a b : only a -> only b -> only (ror a b).
Proof. intros Ha Hb e. destruct a as [[]|]; simpl; [done | apply Hb | intros [= <-]; by apply Ha]. Qed.
Lemma only_rall {A} (f : A -> res bool) l : (forall a, only (f a)) -> only (rall f l).
Proof. intros Hf. induction l as [|a l IH]; simpl; [apply only_ok | by apply only_and]. Qed.
Lemma only_idx v k : P EKey = true -> P EType = true -> only (idx v k).
Proof. intros ? ? e. unfold idx. destruct v; try (by intros [= <-]). case_match; [done | by intros [= <-]]. Qed.
Lemma only_getd v k d : P EAttr = true -> only (getd v k d).
Proof. intros ? e. unfold getd. destruct v; by intros [= <-]. Qed.
Lemma only_num v : P EOverflow = true -> only (num_finite v).
Proof. intros ? e. unfold num_finite. destruct v as [| |z|[]| | |]; try done. case_match; [done | by intros [= <-]]. Qed.

Lemma raises_ret {A} (a : A) : raises (dret a).
Proof. intros d. apply only_ok. Qed.
Lemma raises_put kvs : raises (dput kvs).
Proof. intros d. apply only_ok. Qed.
Lemma raises_lift {A} (m : res A) : only m -> raises (lift m).
Proof. intros Hm d. apply Hm. Qed.
Lemma raises_bind {A B} (m : D A) (k : A -> D B) :
  raises m -> (forall a, raises (k a)) -> raises (dbind m k).
Proof.
  intros Hm Hk d e. unfold dbind. specialize (Hm d). destruct (m d) as [d' [a|e']]; simpl in *;
    [apply Hk | intros [= <-]; by apply Hm].
Qed.
Lemma raises_require c r : only c -> P (EObservation r) = true -> raises (require c r).
Proof.
  intros Hc Hr. apply raises_bind; [by apply raises_lift|]. intros [|]; [apply raises_ret|].
  apply raises_lift. by apply only_err.
Qed.
End Raises.

(** Everything decoded JSON can raise, and what the UTC block handles. *)
Definition json_exn (e : exn) : bool :=
  match e with EKey | EType | EAttr | EOverflow | EObservation _ | EClock _ | EValue _ => true | _ => false end.
Definition utc_exn (e : exn) : bool :=
  match e with EKey | EType | EObservation _ | EClock _ | EValue _ => true | _ => false end.

(** Walk through a monadic term. *)
Ltac walk_oblivious :=
  repeat first
    [ apply oblivious_ret | apply oblivious_lift | apply oblivious_put | apply oblivious_require
    | apply oblivious_bind; [|intros ?]
    | match goal with
      | |- oblivious (if ?b then _ else _) => destruct b
      | |- oblivious (match ?x with _ => _ end) => destruct x
      end ].
Ltac walk_raises :=
  repeat first
    [ apply raises_ret | apply raises_put | apply raises_require; [|reflexivity] | apply raises_lift
    | apply raises_bind; [|intros ?]
    | apply only_ok | apply only_err; reflexivity | apply only_idx; reflexivity
    | apply only_getd; reflexivity | apply only_num; reflexivity
    | apply only_and | apply only_or | apply only_rall; intros ? | apply only_bind; [|intros ?]
    | match goal with
      | |- raises _ (if ?b then _ else _) => destruct b
      | |- only _ (if ?b then _ else _) => destruct b
      | |- raises _ (match ?x with _ => _ end) => destruct x
      | |- only _ (match ?x with _ => _ end) => destruct x
      end ].

Lemma copy_route_body_oblivious host value m dest r rb age :
  oblivious (copy_route_body host value m dest r rb age).
Proof.
  unfold copy_route_body, relay_negative, copy_negative, live_sample, copy_freshness. walk_oblivious.
Qed.

Lemma copy_route_body_raises host value m dest r rb age :
  raises json_exn (copy_route_body host value m dest r rb age).
Proof.
  unfold copy_route_body, relay_negative, copy_negative, live_sample, copy_freshness,
    idx2, is_at, eq_at, counter_at, positive_at, text_at, short_at, clock_at, same_int, get. walk_raises.
Qed.

(** Inversion of a computation that succeeded. *)
Lemma dbind_Ok {A B} (m : D A) (k : A -> D B) d d' b :
  dbind m k d = (d', Ok b) -> exists d1 a, m d = (d1, Ok a) /\ k a d1 = (d', Ok b).
Proof. unfold dbind. destruct (m d) as [d1 [a|e]]; [eauto | done]. Qed.
Lemma lift_Ok {A} (m : res A) d d' a : lift m d = (d', Ok a) -> m = Ok a /\ d' = d.
Proof. by intros [= <- ->]. Qed.
Lemma require_Ok c r d d' u : require c r d = (d', Ok u) -> c = Ok true /\ d' = d.
Proof.
  intros (d1 & b & [-> ->]%lift_Ok & Hk)%dbind_Ok. destruct b; [by injection Hk as <- <- | done].
Qed.

Ltac inv_D H :=
  repeat match type of H with
  | dbind _ _ _ = (_, Ok _) =>
      let d1 := fresh "d" in let a := fresh "a" in let E := fresh "E" in
      apply dbind_Ok in H; destruct H as (d1 & a & E & H);
      try (apply require_Ok in E; destruct E as [E ->]);
      try (apply lift_Ok in E; destruct E as [E ->]);
      try (injection E as <- <-)
  | rbind _ _ = Ok _ =>
      let a := fresh "v" in let E := fresh "E" in
      apply rbind_Ok in H; destruct H as (a & E & H)
  end.

Lemma check_labels_raises `{IsoFormat} value e cs :
  is_dict value = true -> raises utc_exn (check_labels value e (labels cs)).
Proof.
  intros Hd. assert (forall k, only utc_exn (get value k)) as Hget.
  { intros k e'. unfold get, getd. by destruct value. }
  destruct cs as [[a b] c]. unfold labels, check_labels, check_timestamp, take, capture, age_bounds, bounds,
    finite, idx2. walk_raises; try apply Hget; try (destruct a0; walk_raises); walk_raises.
Qed.

Lemma utc_labels_raises `{IsoFormat} value model n c :
  is_dict value = true -> raises utc_exn (utc_labels value model n c).
Proof.
  intros Hd. unfold utc_labels, take, capture, diagnostic, bounds.
  walk_raises; try (by apply check_labels_raises); destruct a; walk_raises.
Qed.

Lemma utc_handlers_ok d e : utc_exn e = true -> snd (utc_handlers (d, Err e)) = Ok tt.
Proof. by destruct e. Qed.

(** The UTC block ends normally, or with an exception its other inputs decide. *)
Lemma utc_block_result i1 i2 em lb value nonce st co n1 n2 c1 c2 d1 d2 :
  snd (utc_block (H := i1) em lb value nonce st co n1 c1 d1)
  = snd (utc_block (H := i2) em lb value nonce st co n2 c2 d2).
Proof.
  assert (forall i n c d m, is_dict value = true ->
            snd (utc_handlers (utc_labels (H := i) value m n c d)) = Ok tt) as Hl.
  { intros i n c d m Hd. pose proof (utc_labels_raises (H := i) value m n c Hd d) as Hr.
    destruct (utc_labels value m n c d) as [d' [[]|e]]; [done|]. by apply utc_handlers_ok, Hr. }
  unfold utc_block, dbind, lift.
  destruct (getd value "clock" (VDict [])) as [clk|e] eqn:Ec; [|by destruct e].
  assert (is_dict value = true) as Hd by (by destruct value).
  destruct (idx2 value "relay" "boot_id") as [boot|e]; [|by destruct e].
  destruct (estimate clk nonce st co em boot lb) as [model|e]; [|by destruct e].
  by rewrite !Hl.
Qed.

Lemma media_block_oblivious host em ed value nonce st co r rb :
  oblivious (media_block host em ed value nonce st co r rb).
Proof.
  unfold media_block. walk_oblivious. intros d d'. unfold copy_route_sample.
  match goal with |- context [copy_route_body ?a ?b ?c ?e ?f ?g ?h ?x] =>
    pose proof (copy_route_body_oblivious a b c e f g h x
      (dict_update d' [("health", VStr "UNKNOWN"); ("reason", VStr "facts_invalid")])) as Ho end.
  destruct (copy_route_body _ _ _ _ _ _ _ (dict_update d _)) as [d1 [s1|e1]],
    (copy_route_body _ _ _ _ _ _ _ (dict_update d' _)) as [d2 [s2|e2]]; simpl in *; simplify_eq; try done.
  by destruct e2.
Qed.

Lemma relay_negative_Ok availability raw cp r d d' s :
  relay_negative availability raw cp r d = (d', Ok s) ->
  ready s = false /\ s_identity s = None /\ relay_unavailable s = true.
Proof. unfold relay_negative. intros H. inv_D H. injection H as <- <-. done. Qed.

Lemma copy_negative_Ok ca raw cp dest r d d' s :
  copy_negative ca raw cp dest r d = (d', Ok s) ->
  ready s = false /\ s_identity s = None /\ is_Some (copy_unavailable s).
Proof. unfold copy_negative. intros H. inv_D H. injection H as <- <-. simpl. eauto. Qed.

Lemma live_sample_Ok value raw cp dest r rb age d d' s :
  live_sample value raw cp dest r rb age d = (d', Ok s) ->
  exists i y, s_identity s = Some i /\ i_destination i = dest /\ copy_observation_fresh s = true /\
    s_youtube s = Some y /\ 0 <= bytes_received s /\ 0 <= y_outbound y /\
    counter_opt (y_video y) = true /\ counter_opt (y_audio y) = true.
Proof.
  unfold live_sample. intros H. inv_D H.
  match type of H with context [match ?x with (_, _) => _ end] => destruct x as [fresh new] end.
  inv_D H.
  repeat match goal with E : Ok ?b = Ok true |- _ => injection E as E end. subst fresh.
  injection H as <- <-. simpl.
  match goal with E : is_counter _ && _ = true |- _ => unfold is_counter in E; bools; destruct_and! E end.
  do 2 eexists. split_and!; try done; by apply Z.leb_le.
Qed.

(** Computations that keep the reason entry. *)
Definition reasoned (d : diag) : Prop := is_Some (dict_get "reason" d).
Definition keeps {A} (m : D A) : Prop := forall d, reasoned d -> reasoned (fst (m d)).

Lemma reasoned_set k v d : reasoned d -> reasoned (dict_set k v d).
Proof. unfold reasoned. rewrite dict_get_set. by destruct (String.eqb "reason" k). Qed.
Lemma reasoned_update kvs d : reasoned d -> reasoned (dict_update d kvs).
Proof.
  unfold dict_update. revert d. induction kvs as [|[k v] kvs IH]; intros d Hd; [done|].
  simpl. by apply IH, reasoned_set.
Qed.
Lemma keeps_ret {A} (a : A) : keeps (dret a).
Proof. by intros d. Qed.
Lemma keeps_lift {A} (m : res A) : keeps (lift m).
Proof. by intros d. Qed.
Lemma keeps_put kvs : keeps (dput kvs).
Proof. intros d. apply reasoned_update. Qed.
Lemma keeps_bind {A B} (m : D A) (k : A -> D B) : keeps m -> (forall a, keeps (k a)) -> keeps (dbind m k).
Proof.
  intros Hm Hk d Hd. unfold dbind. specialize (Hm d Hd). destruct (m d) as [d' [a|e]]; [by apply Hk | done].
Qed.
Lemma keeps_require c r : keeps (require c r).
Proof. apply keeps_bind; [apply keeps_lift|]. intros [|]; [apply keeps_ret | apply keeps_lift]. Qed.

Ltac walk_keeps :=
  repeat first
    [ apply keeps_ret | apply keeps_lift | apply keeps_put | apply keeps_require
    | apply keeps_bind; [|intros ?]
    | match goal with
      | |- keeps (if ?b then _ else _) => destruct b
      | |- keeps (match ?x with _ => _ end) => destruct x
      end ].

Lemma copy_route_sample_keeps host value m dest r rb age : keeps (copy_route_sample host value m dest r rb age).
Proof.
  intros d Hd. unfold copy_route_sample.
  assert (keeps (copy_route_body host value m dest r rb age)) as Hk.
  { unfold copy_route_body, relay_negative, copy_negative, live_sample, copy_freshness. walk_keeps. }
  match goal with |- context [copy_route_body _ _ _ _ _ _ _ ?d0] => specialize (Hk d0) end.
  destruct (copy_route_body _ _ _ _ _ _ _ _) as [d1 [s|e]]; [by apply Hk, reasoned_update|].
  specialize (Hk (reasoned_update _ _ Hd)).
  destruct e; try exact Hk; [by apply reasoned_set | by apply reasoned_update].
Qed.

Lemma utc_block_keeps `{IsoFormat} em lb value nonce st co n c : keeps (utc_block em lb value nonce st co n c).
Proof.
  intros d Hd. unfold utc_block.
  match goal with |- context [utc_handlers (?m d)] => assert (keeps m) as Hk end.
  { unfold utc_labels. destruct c as [[c1 c2] c3]. unfold labels, check_labels, check_timestamp. walk_keeps. }
  specialize (Hk d Hd). destruct (dbind _ _ d) as [d1 [u|e]]; [done|].
  destruct e; try exact Hk; by apply reasoned_update.
Qed.

Lemma observe_reason `{IsoFormat} host em ed lb x : reasoned (fst (observe host em ed lb x)).
Proof.
  unfold observe.
  set (d0 := [("health", VStr "UNKNOWN"); ("reason", VStr "observation_unavailable")]).
  assert (reasoned d0) as H0 by (by eexists).
  assert (reasoned (fst (exchange_body host em ed lb x d0))) as Hb.
  { unfold exchange_body. destruct (take (x_started x)) as [st|]; [|done].
    assert (forall kvs, reasoned (dict_update d0 kvs)) as Hu by (intros; by apply reasoned_update).
    destruct (take (x_completed x)) as [co|]; [|by apply Hu].
    destruct (get_url (x_response x)) as [f|value]; [by apply reasoned_set, Hu|].
    assert (keeps (utc_block em lb value (x_nonce x) st co (x_diagnostic x) (x_labels x) ;;!
                   media_block host em ed value (x_nonce x) st co (x_received x) (x_received_boot x))) as Hk.
    { apply keeps_bind; [apply utc_block_keeps|]. intros _. unfold media_block. walk_keeps.
      apply copy_route_sample_keeps. }
    match goal with |- context [dbind _ _ ?d2] => specialize (Hk d2 (reasoned_set _ _ _ (Hu _))) end.
    by destruct (dbind _ _ _) as [d3 [s|e]]. }
  destruct (exchange_body host em ed lb x d0) as [d [[[]| | |]|s]]; simpl in *;
    by repeat first [exact Hb | apply reasoned_set].
Qed.

(** ** Properties *)
Module RouteSampleProperties.

(** UTC labels never decide media health.  Two exchanges with the same
    response, nonce and monotonic readings of the exchange itself produce the same
    sample, whatever the ISO labels parse to, whatever [time.time()] returns and
    whatever the local clock shows while the labels are checked. *)
Theorem sample_ignores_utc (i1 i2 : IsoFormat) host em ed lb (x1 x2 : exchange) :
  x_started x1 = x_started x2 -> x_completed x1 = x_completed x2 -> x_nonce x1 = x_nonce x2 ->
  x_response x1 = x_response x2 -> x_received x1 = x_received x2 -> x_received_boot x1 = x_received_boot x2 ->
  snd (observe (H := i1) host em ed lb x1) = snd (observe (H := i2) host em ed lb x2).
Proof.
  intros E1 E2 E3 E4 E5 E6. unfold observe, exchange_body. rewrite E1, E2, E4.
  destruct (take (x_started x2)) as [st|e]; [|by destruct e].
  destruct (take (x_completed x2)) as [co|e]; [|by destruct e].
  destruct (get_url (x_response x2)) as [f|value]; [by destruct f as [[]| | |]|].
  rewrite E3, E5, E6. unfold dbind.
  match goal with |- context [utc_block (H := i1) _ _ _ _ _ _ _ _ ?d1] =>
    match goal with |- context [utc_block (H := i2) _ _ _ _ _ _ _ _ ?d2] =>
      pose proof (utc_block_result i1 i2 em lb value (x_nonce x2) st co (x_diagnostic x1) (x_diagnostic x2)
        (x_labels x1) (x_labels x2) d1 d2) as Hu end end.
  destruct (utc_block (H := i1) _ _ _ _ _ _ _ _ _) as [d1 u1].
  destruct (utc_block (H := i2) _ _ _ _ _ _ _ _ _) as [d2 u2]. simpl in Hu. subst u1.
  destruct u2 as [[]|e]; [|by destruct e].
  pose proof (media_block_oblivious host em ed value (x_nonce x2) st co (x_received x2) (x_received_boot x2) d1 d2) as Hm.
  destruct (media_block _ _ _ _ _ _ _ _ _ d1) as [d1' m1].
  destruct (media_block _ _ _ _ _ _ _ _ _ d2) as [d2' m2]. simpl in Hm. subst m1.
  destruct m2 as [s|e]; [done|]. by destruct e.
Qed.

(** [copy_route_sample] never raises: on any decoded document it returns a
    sample, or rejects it. *)
Theorem copy_route_sample_total host value m dest r rb age d :
  exists d' o, copy_route_sample host value m dest r rb age d = (d', Ok o).
Proof.
  unfold copy_route_sample.
  match goal with |- context [copy_route_body _ _ _ _ _ _ _ ?d0] =>
    pose proof (copy_route_body_raises host value m dest r rb age d0) as Hr end.
  destruct (copy_route_body _ _ _ _ _ _ _ _) as [d' [s|e]]; [eauto|].
  specialize (Hr e eq_refl). destruct e; try done; eauto.
Qed.

(** An accepted sample is bound: it comes from the expected relay machine
    through an exchange at most 20 s old, and it is either the proof that the relay
    or the copy unit is down (never ready, never comparable), or a live reading of
    the expected destination with non-negative counters and a fresh copy
    observation. *)
Theorem accepted_sample_bound host value m dest r rb age d d' s :
  copy_route_sample host value m dest r rb age d = (d', Ok (Some s)) ->
  (0 <= age <= MAX_FACT_AGE)%Q /\
  (exists raw, idx value "relay" = Ok raw /\ is_at raw "host_id" host = Ok true /\
     is_at raw "machine_id_sha256" m = Ok true) /\
  ((ready s = false /\ s_identity s = None /\ (relay_unavailable s = true \/ is_Some (copy_unavailable s))) \/
   exists i y, s_identity s = Some i /\ i_destination i = dest /\ copy_observation_fresh s = true /\
     s_youtube s = Some y /\ 0 <= bytes_received s /\ 0 <= y_outbound y /\
     counter_opt (y_video y) = true /\ counter_opt (y_audio y) = true).
Proof.
  unfold copy_route_sample. destruct (copy_route_body _ _ _ _ _ _ _ _) as [d1 [s1|e]] eqn:Eb;
    [|by destruct e].
  intros [= <- <-]. unfold copy_route_body in Eb. inv_D Eb.
  repeat match goal with E : rand _ _ = Ok true |- _ => apply rand_Ok_true in E as [? ?] end.
  repeat match goal with E : Ok ?b = Ok true |- _ => injection E as E end.
  match goal with E : Qleb 0 age && _ = true |- _ => apply andb_true_iff in E as [?%Qleb_true ?%Qleb_true] end.
  split; [done|]. split; [eexists; split_and!; eassumption|].
  match type of Eb with (if ?b then _ else _) _ = _ => destruct b end.
  - left. apply relay_negative_Ok in Eb as (? & ? & ?). auto.
  - inv_D Eb. match type of Eb with (if ?b then _ else _) _ = _ => destruct b end.
    + left. apply copy_negative_Ok in Eb as (? & ? & ?). auto.
    + right. by eapply live_sample_Ok.
Qed.

(** Every observation leaves a reason in the diagnostic, so that the main
    loop can read [diagnostic['reason']] whatever happened. *)
Theorem observe_has_reason `{IsoFormat} host em ed lb x :
  is_Some (dict_get "reason" (fst (observe host em ed lb x))).
Proof. apply observe_reason. Qed.

(** *** Witnesses *)
Fixpoint demo_hex (n : nat) : string := match n with O => "" | S n => String "a" (demo_hex n) end.
Definition demo_machine : string := demo_hex 64.
Definition demo_nonce : pyval := VStr (demo_hex 32).
Definition demo_raw : pyval :=
  VDict [("schema", VStr "stream.relay_raw.v1"); ("host_id", VStr "relay-host");
         ("machine_id_sha256", VStr demo_machine); ("observed_at", VStr "2026-01-01T00:00:00Z");
         ("observed_boottime_seconds", VInt 99); ("boot_id", VStr "b"); ("monotonic_seconds", VInt 99);
         ("relay", VDict [("active", VBool true); ("pid", VInt 7)]);
         ("input", VDict [("ready", VBool true); ("available", VBool true); ("connection_id", VStr "c");
                          ("bytes", VInt 5)]);
         ("destinations", VDict [("youtube", VDict [("id", VStr "youtube-forward-8-1");
                                                    ("state", VStr "forwarding")])])].
Definition demo_cp : pyval :=
  VDict [("schema", VStr "stream_v3.youtube_forward.v1"); ("updated_at", VStr "2026-01-01T00:00:00Z");
         ("last_progress_at", VStr "2026-01-01T00:00:00Z"); ("boot_id", VStr "b");
         ("destination_fingerprint", VStr demo_machine); ("state", VStr "FLOWING"); ("pid", VInt 8);
         ("session", VInt 1); ("output_bytes", VInt 4); ("video_packets", VInt 3); ("audio_packets", VInt 2)].
Definition demo_clock : pyval :=
  VDict [("schema", VStr SCHEMA); ("nonce", demo_nonce); ("boot_id", VStr "b");
         ("machine_id_sha256", VStr demo_machine);
         ("received", VDict [("wall", VInt 1000); ("mono", VInt 100)]);
         ("sent", VDict [("wall", VInt 1000); ("mono", VInt 100)])].
Definition demo_facts : pyval :=
  VDict [("schema", VStr "stream_v3.route_facts.v1"); ("relay", demo_raw); ("youtube_copy", demo_cp);
         ("clock", demo_clock);
         ("copy_observation", VDict [("schema", VStr "stream_v3.copy_observation.v1"); ("age_seconds", VInt 1);
                                     ("confirmed", VBool true); ("new_observation", VBool true)])].
Definition demo_exchange (labels_wall : Q) : exchange :=
  Exchange (Reading 50 1000 50) demo_nonce "t0" (inr (900, Some demo_facts)) "t1" (Reading 51 1001 51)
    (Reading 51 labels_wall 51)
    (LabelClock labels_wall (Reading 51 labels_wall 51), LabelClock 0 (Reading 51 labels_wall 51),
     LabelClock 0 (Reading 51 labels_wall 51)) 52 52.
Definition demo_observe (iso : string -> option (option Q)) (x : exchange) : diag * option sample :=
  observe (H := iso) "relay-host" demo_machine demo_machine "lb" x.

(** The labels are accepted in the first exchange and rejected in the second;
    both produce a sample. *)
Lemma sample_ignores_utc_witness :
  is_Some (snd (demo_observe (fun _ => Some (Some 1000%Q)) (demo_exchange 1001))) /\
  snd (demo_observe (fun _ => Some (Some 1000%Q)) (demo_exchange 1001))
  = snd (demo_observe (fun _ => None) (demo_exchange 77)).
Proof.
  split; [vm_compute; eexists; reflexivity|].
  apply (sample_ignores_utc (fun _ => Some (Some 1000%Q)) (fun _ => None) "relay-host" demo_machine
    demo_machine "lb" (demo_exchange 1001) (demo_exchange 77)); reflexivity.
Defined.

Definition demo_live : diag * res (option sample) :=
  copy_route_sample "relay-host" demo_facts demo_machine demo_machine 52 52 3 [].
Definition demo_sample_of (o : diag * res (option sample)) : sample :=
  match o with (_, Ok (Some s)) => s | _ => Sample false 0 None None 0 None false None None false false None end.

Lemma accepted_sample_bound_witness :
  (0 <= 3 <= MAX_FACT_AGE)%Q /\
  (exists raw, idx demo_facts "relay" = Ok raw /\ is_at raw "host_id" "relay-host" = Ok true /\
     is_at raw "machine_id_sha256" demo_machine = Ok true) /\
  let s := demo_sample_of demo_live in
  ((ready s = false /\ s_identity s = None /\ (relay_unavailable s = true \/ is_Some (copy_unavailable s))) \/
   exists i y, s_identity s = Some i /\ i_destination i = demo_machine /\ copy_observation_fresh s = true /\
     s_youtube s = Some y /\ 0 <= bytes_received s /\ 0 <= y_outbound y /\
     counter_opt (y_video y) = true /\ counter_opt (y_audio y) = true).
Proof.
  exact (accepted_sample_bound "relay-host" demo_facts demo_machine demo_machine 52 52 3 []
    (fst demo_live) (demo_sample_of demo_live) eq_refl).
Defined.
End RouteSampleProperties.
