(* ===== verification/ControlLoop.v ===== *)
(** * One turn of the fallback main loop (ops/selfheal/fallback_controller.py)

    [cycle] composes the observation, the controller, the transport witness, the
    no-progress deadline, the clock diagnostics, the incident book and the guarded
    scaling in the order of [main].  The effects are the [kubectl scale] commands
    issued. *)
From S2P Require Import Prelude PyVal Clock RouteAssessment Maintenance Fallback RouteSample.

(** ** [scale_if_allowed] *)

(** [--replicas=1] or [--replicas=0]. *)
Definition target (a : action) : Z := match a with START => 1 | STOP => 0 end.

Inductive scale_result : Type := INHIBITED | SUCCEEDED.

(** The world at the time of the scaling: whether the root exists, its lock file,
    the guard's answer under the lock, and what [kubectl] does. *)
Record scale_world : Type := ScaleWorld {
  w_exists : bool; w_lock : lock_file; w_guard : res report; w_kubectl : res unit }.

(** [scale()]: the commands issued and the result. *)
Definition scale (a : action) (w : scale_world) : list Z * res scale_result :=
  match w_guard w with
  | Err e => ([], Err e)
  | Ok g => if inhibited g then ([], Ok INHIBITED)
            else ([target a], let! _ := w_kubectl w in Ok SUCCEEDED)
  end.

Definition scale_if_allowed (a : action) (w : scale_world) : list Z * res scale_result :=
  let r :=
    if w_exists w then
      match acquire (w_lock w) true with
      | Err e => ([], Err e)
      | Ok _ => scale a w
      end
    else scale a w in
  match r with
  | (cmds, Err (EOS n)) =>
      if String.eqb n "BlockingIOError" || String.eqb n "FileNotFoundError"
      then (cmds, Ok INHIBITED) else r
  | _ => r
  end.

(** ** The loop *)
Record loop : Type := Loop {
  l_controller : Controller; l_witness : option TransportWitness.generation;
  l_deadline : ProgressDeadline.state; l_fault_since : option Q; l_book : CauseBook.state }.

Definition start (book : CauseBook.state) : loop :=
  Loop Fallback.initial None ProgressDeadline.init None book.

(** The local transport export: the [OSError] of [open], or the length read and
    the decoded body. *)
Definition transport_file : Type := string + (Z * option pyval).

(** Everything one turn reads from outside. *)
Record inputs : Type := Inputs {
  in_first : diag * option sample;      (* the first observation *)
  in_replicas : option Z;               (* kubectl get *)
  in_recheck : Q;                       (* the clock at the staleness test *)
  in_second : diag * option sample;     (* the repeated observation *)
  in_transport : transport_file; in_witness_now : Q;
  in_now : Q; in_guard : res report; in_utc : string; in_uuid : string;
  in_scale : scale_world }.

(** A sample older than 5 s is observed again. *)
Definition observation (x : inputs) : diag * option sample :=
  match snd (in_first x) with
  | Some s => if Qltb 5 (in_recheck x - received s) then in_second x else in_first x
  | None => in_first x
  end.

Definition unavailable : TransportWitness.verdict :=
  TransportWitness.Verdict TransportWitness.UNKNOWN "local_transport_unavailable".

(** Lines 485-489: the witness on the export, with the handler. *)
Definition local_witness `{Digest} (prev : option TransportWitness.generation) (f : transport_file) (now : Q)
  : option TransportWitness.generation * res TransportWitness.verdict :=
  match f with
  | inl _ => (prev, Ok unavailable)
  | inr (n, body) =>
      if 16384 <? n then (prev, Ok unavailable)
      else match body with
           | None => (prev, Ok unavailable)
           | Some v => TransportWitness.sample prev v now
           end
  end.

(** The tick the turn feeds the controller. *)
Definition tick_of (x : inputs) (w : TransportWitness.verdict) (inh expired : bool) (reason : string) : tick :=
  Tick (snd (observation x)) reason w (in_now x) inh expired (in_replicas x) (in_utc x).

(** The assessment before [decide], as the deadline and the book read it. *)
Definition assessed (c : Controller) (x : inputs) (w : TransportWitness.verdict) (reason : string)
  : Controller * bool :=
  combine_transport (fst (healthy c (snd (observation x)) reason)) w.

Record outcome : Type := Outcome {
  o_action : option action; o_commands : list Z; o_result : option string;
  o_expired : bool; o_blocked : bool; o_eligible : bool }.

(** [automatic_switch_eligible] of [status_snapshot]. *)
Definition switch_eligible (c : Controller) : bool :=
  bool_decide (c_domain c = MEDIA_FAILURE)
  || String.eqb (c_reason c) "observation_no_progress_timeout"
  || String.eqb (c_reason c) "youtube_observation_timeout".

(** Lines 501-511: the guarded scaling of an action and the text of its result. *)
Definition dispatch (act : option action) (w : scale_world) : list Z * option string :=
  match act with
  | None => ([], None)
  | Some a => match scale_if_allowed a w with
              | (cmds, Ok SUCCEEDED) => (cmds, Some "SUCCEEDED")
              | (cmds, Ok INHIBITED) => (cmds, Some "INHIBITED")
              | (cmds, Err _) => (cmds, Some "FAILED")
              end
  end.

(** One turn (lines 478-513).  An [Err] is an exception that leaves [main]. *)
Definition cycle `{Digest} `{JsonText} (boot : string) (l : loop) (x : inputs) : res (loop * outcome) :=
  let '(diagnostic, _) := observation x in
  let! reason := match dict_get "reason" diagnostic with Some r => Ok r | None => Err EKey end in
  let '(wit, w) := local_witness (l_witness l) (in_transport x) (in_witness_now x) in
  let! w := w in
  let '(c2, ok) := assessed (l_controller l) x w (str_val reason) in
  let! g := in_guard x in
  let '(dl, rep) := ProgressDeadline.observe (l_deadline l) (in_now x) (route_progress c2) (inhibited g) in
  let! (fs, clk) := ClockDiagnostics.observe (l_fault_since l) diagnostic (in_now x) (inhibited g) in
  let '(c3, act) := decide c2 (in_now x) ok (in_replicas x) (inhibited g) (ProgressDeadline.expired rep) (in_utc x) in
  let '(book, saved) := CauseBook.update boot (in_uuid x) (l_book l) (c_domain c3) (c_reason c3)
                          (in_replicas x) (in_now x) in
  let! (_, causal) := saved in
  let blocked := CauseBook.secondary_recovery_blocked causal
                 || negb (String.eqb (ClockDiagnostics.c_status clk) "VERIFIED") in
  let '(cmds, result) := dispatch act (in_scale x) in
  let! book' := match act with
                | None => Ok book
                | Some a => let b := CauseBook.dispatched book (action_str a) result in
                            let! _ := CauseBook.save b in Ok b
                end in
  Ok (Loop c3 wit dl fs book',
      Outcome act cmds result (ProgressDeadline.expired rep) blocked (switch_eligible c3)).

(** ** Facts *)

(** Commands are issued only past both guards. *)
Lemma scale_if_allowed_commands a w cmds r :
  scale_if_allowed a w = (cmds, r) -> cmds <> [] ->
  cmds = [target a] /\ (exists g, w_guard w = Ok g /\ inhibited g = false) /\
  (w_exists w = true -> l_exclusive (w_lock w) = false).
Proof.
  assert (forall cmds r, scale a w = (cmds, r) -> cmds <> [] ->
            cmds = [target a] /\ exists g, w_guard w = Ok g /\ inhibited g = false) as Hs.
  { unfold scale. intros c0 r0. destruct (w_guard w) as [g|]; [|by intros [= <- _]].
    destruct (inhibited g) eqn:Ei; [by intros [= <- _]|]. intros [= <- _] _. eauto. }
  unfold scale_if_allowed. destruct (w_exists w).
  - destruct (acquire (w_lock w) true) as [held|e] eqn:Ea.
    + apply acquire_exclusive in Ea. destruct (scale a w) as [c0 r0] eqn:Es.
      intros Hr Hne. assert (cmds = c0) as -> by (destruct r0 as [|[]]; repeat case_match; congruence).
      destruct (Hs _ _ eq_refl Hne) as [-> ?]. auto.
    + intros Hr Hne. exfalso. destruct e; repeat case_match; congruence.
  - destruct (scale a w) as [c0 r0] eqn:Es.
    intros Hr Hne. assert (cmds = c0) as -> by (destruct r0 as [|[]]; repeat case_match; congruence).
    destruct (Hs _ _ eq_refl Hne) as [-> ?]. by auto.
Qed.

(** The controller inside the loop makes exactly the step of the controller
    alone, on the tick with the deadline's verdict. *)
Lemma cycle_step `{Digest} `{JsonText} boot l x l' o :
  cycle boot l x = Ok (l', o) ->
  exists w reason g dl rep e, in_guard x = Ok g /\
    ProgressDeadline.observe (l_deadline l) (in_now x)
      (route_progress (fst (assessed (l_controller l) x w reason))) (inhibited g) = (dl, rep) /\
    l_deadline l' = dl /\ o_expired o = ProgressDeadline.expired rep /\
    step (l_controller l) (tick_of x w (inhibited g) (o_expired o) reason) = (l_controller l', o_action o, e) /\
    (o_commands o, o_result o) = dispatch (o_action o) (in_scale x) /\
    o_eligible o = switch_eligible (l_controller l').
Proof.
  unfold cycle. intros Hc. destruct (observation x) as [d s] eqn:Eo.
  destruct (dict_get "reason" d) as [reason|]; cbn [rbind] in Hc; [|done].
  destruct (local_witness _ _ _) as [wit [w|]]; cbn [rbind] in Hc; [|done].
  destruct (assessed (l_controller l) x w (str_val reason)) as [c2 ok] eqn:Ea.
  destruct (in_guard x) as [g|] eqn:Eg; cbn [rbind] in Hc; [|done].
  destruct (ProgressDeadline.observe _ _ _ _) as [dl rep] eqn:Ed.
  destruct (ClockDiagnostics.observe _ _ _ _) as [[fs clk]|]; cbn [rbind] in Hc; [|done].
  destruct (decide c2 _ ok _ _ _ _) as [c3 act] eqn:Edec.
  destruct (CauseBook.update _ _ _ _ _ _ _) as [book [[file causal]|]]; cbn [rbind] in Hc; [|done].
  destruct (dispatch act (in_scale x)) as [cmds result] eqn:Edis.
  destruct (match act with Some _ => _ | None => _ end) as [b|]; cbn [rbind] in Hc; [|done].
  injection Hc as <- <-. exists w, (str_val reason), g, dl, rep, (Entry (in_now x) (inhibited g) ok (c_domain c2)).
  rewrite Ea. cbn [fst snd o_expired o_action o_commands o_result o_eligible l_deadline l_controller].
  rewrite Ed, Edis. split_and!; try done. unfold step, tick_of, assessed in *.
  cbn [t_sample t_reason t_witness t_now t_inhibited t_expired t_replicas t_utc].
  destruct (healthy (l_controller l) (snd (observation x)) (str_val reason)) as [c1 b1]. cbn [fst] in Ea.
  by rewrite Ea, Edec.
Qed.

(** An action presupposes an uninhibited turn and the opposite replica state. *)
Lemma step_action_uninhibited c t c' a e : step c t = (c', Some a, e) ->
  t_inhibited t = false /\
  exists n, t_replicas t = Some n /\ match a with START => n = 0 | STOP => 1 <= n end.
Proof.
  unfold step. destruct (healthy _ _ _) as [c1 b]. destruct (combine_transport c1 _) as [c2 ok].
  destruct (decide c2 _ ok _ _ _ _) as [c3 a'] eqn:Ed. intros [= <- -> <-]. destruct a.
  - apply decide_start in Ed as (? & ? & _). eauto.
  - apply decide_stop in Ed as (? & _ & ? & _). eauto.
Qed.

(** Turns of the loop, none of which raised. *)
Fixpoint cycles `{Digest} `{JsonText} (boot : string) (l : loop) (xs : list inputs) : res loop :=
  match xs with
  | [] => Ok l
  | x :: xs' => let! (l', _) := cycle boot l x in cycles boot l' xs'
  end.

(** ** Properties *)
Module ControlLoopProperties.

(** C25: a turn issues at most one scaling command, the one of the action the
    controller decided, and only when the maintenance guard is not inhibited both
    at the decision and again under the shared lock, no manual operation holds that
    lock exclusively, and the replica count confirmed the opposite state. *)
Theorem command_needs_both_guards `{Digest} `{JsonText} boot l x l' o :
  cycle boot l x = Ok (l', o) -> o_commands o <> [] ->
  exists a, o_action o = Some a /\ o_commands o = [target a] /\
    (exists g, in_guard x = Ok g /\ inhibited g = false) /\
    (exists g, w_guard (in_scale x) = Ok g /\ inhibited g = false) /\
    (w_exists (in_scale x) = true -> l_exclusive (w_lock (in_scale x)) = false) /\
    (exists n, in_replicas x = Some n /\ match a with START => n = 0 | STOP => 1 <= n end).
Proof.
  intros Hc Hne. apply cycle_step in Hc as (w & reason & g & dl & rep & e & Hg & _ & _ & _ & Hs & Hd & _).
  destruct (o_action o) as [a|]; cbn [dispatch] in Hd; [|congruence].
  destruct (scale_if_allowed a (in_scale x)) as [cmds r] eqn:Ew.
  assert (o_commands o = cmds) as Hcmd by (destruct r as [[]|]; congruence).
  rewrite Hcmd in *. apply scale_if_allowed_commands in Ew as (-> & ? & ?); [|done].
  exists a. split_and!; try done.
  - exists g. split; [done|]. apply step_action_uninhibited in Hs. by destruct Hs.
  - apply step_action_uninhibited in Hs. by destruct Hs.
Qed.

(** *** Witnesses *)
Definition demo_guard : report := Report false "not_installed" "NORMAL" VNone false None.
Definition demo_inputs (t : Q) : inputs :=
  let o : diag * option sample :=
    ([("reason", VStr "relay_unit_not_running"); ("clock", VDict [("status", VStr "VERIFIED")])],
     Some (Sample false 0 None (Some t) t None true None None false false None)) in
  Inputs o (Some 0) t o (inl "FileNotFoundError") t t (Ok demo_guard) "utc"
    "0123456789abcdef0123456789abcdef" (ScaleWorld false (LockFile None true 0 false) (Ok demo_guard) (Ok tt)).
Definition demo_digest : Digest := fun _ => Ok "d".
Definition demo_len : JsonText := fun _ => 400.
Definition demo_loop : loop :=
  match cycles (H := demo_digest) (H0 := demo_len) "boot" (start CauseBook.empty)
          [demo_inputs 0; demo_inputs 15] with Ok l => l | Err _ => start CauseBook.empty end.

(** After 30 s of a stopped relay the loop scales the backup to one replica. *)
Definition demo_turn : res (loop * outcome) :=
  cycle (H := demo_digest) (H0 := demo_len) "boot" demo_loop (demo_inputs 30).
Definition demo_outcome : loop * outcome :=
  match demo_turn with Ok r => r | Err _ => (demo_loop, Outcome None [] None false false false) end.

Lemma command_needs_both_guards_witness :
  o_commands (snd demo_outcome) = [1] /\
  exists a, o_action (snd demo_outcome) = Some a /\ o_commands (snd demo_outcome) = [target a] /\
    (exists g, Ok demo_guard = Ok g /\ inhibited g = false) /\
    (exists g, Ok demo_guard = Ok g /\ inhibited g = false) /\
    (false = true -> false = false) /\
    (exists n, Some 0 = Some n /\ match a with START => n = 0 | STOP => 1 <= n end).
Proof.
  split; [vm_compute; reflexivity|].
  apply (command_needs_both_guards (H := demo_digest) (H0 := demo_len) "boot" demo_loop (demo_inputs 30)
    (fst demo_outcome) (snd demo_outcome)); vm_compute; [reflexivity | discriminate].
Defined.
End ControlLoopProperties.
