(* ===== verification/Keeper.v ===== *)
(** * The forward keeper (ops/selfheal/forward_keeper.py)

    [Keeper] decides which forwards MediaMTX should have: it re-creates a broken
    forward by putting a placeholder in its slot for one turn, and renews the
    Twitch session once per JST day by dropping only the Twitch forward.  [turn] is
    one turn of the main loop after the MediaMTX reads; times are monotonic
    seconds, [wall] is UTC seconds since the epoch. *)
From Stdlib Require Import Ascii.
From S2P Require Import Prelude PyVal.

Definition BAD_SECONDS : Q := 30.
Definition HEAL_INTERVAL : Q := 60.
Definition OFFLINE_MIN : Q := 120.
Definition OFFLINE_MAX : Q := 600.
Definition VERIFY_MAX : Q := 180.
Definition AGE_LIMIT : Q := 165600.

(** ** Destinations *)

(** A forward: the dict with its ['dest'] and its other entries. *)
Record forward : Type := Forward { dest : string; extra : list (string * pyval) }.
Definition HEALING_DEST : forward := Forward "rtmp://127.0.0.1:1/stream-v3-healing" [].

Definition is_twitch (d : string) : bool := contains "live-video.net" d || contains "twitch" d.

(** ** State *)
Inductive phase_t : Type := IDLE | WAIT_OFFLINE | VERIFY.
#[export] Instance phase_eq_dec : EqDecision phase_t.
Proof. solve_decision. Defined.

Record Keeper : Type := mkKeeper {
  destinations : list forward;
  bad_since : gmap string Q;
  last_heal : gmap string Q;
  previous_samples : gmap string (list (string * pyval));
  removed : option string;
  phase : phase_t;
  phase_at : Q;
  last_renewal_date : string;
  old_stream_id : string;
  current : list forward }.

Definition init (ds : list forward) : Keeper :=
  mkKeeper ds ∅ ∅ ∅ None IDLE 0 "" "" ds.

Definition desired_forward (k : Keeper) (d : forward) : list forward :=
  if bool_decide (phase k = WAIT_OFFLINE) && is_twitch (dest d) then []
  else if bool_decide (removed k = Some (dest d)) then [HEALING_DEST]
  else [d].
Definition desired (k : Keeper) : list forward := flat_map (desired_forward k) (destinations k).

(** [apply(value)]: the new state; the returned list is [value]. *)
Definition apply (k : Keeper) (v : list forward) : Keeper :=
  mkKeeper (destinations k) (bad_since k) (last_heal k) (previous_samples k) (removed k) (phase k)
    (phase_at k) (last_renewal_date k) (old_stream_id k) v.
Definition set_removed (k : Keeper) (r : option string) : Keeper :=
  mkKeeper (destinations k) (bad_since k) (last_heal k) (previous_samples k) r (phase k)
    (phase_at k) (last_renewal_date k) (old_stream_id k) (current k).
Definition set_maps (k : Keeper) (bad heal : gmap string Q) (prev : gmap string (list (string * pyval))) : Keeper :=
  mkKeeper (destinations k) bad heal prev (removed k) (phase k) (phase_at k) (last_renewal_date k)
    (old_stream_id k) (current k).

(** ** Healing *)

(** [dest in configured]: an unhashable value raises. *)
Definition configured (k : Keeper) (v : pyval) : res (option string) :=
  match v with
  | VStr s => Ok (if bool_decide (s ∈ map dest (destinations k)) then Some s else None)
  | VList _ | VDict _ => Err EType
  | _ => Ok None
  end.

(** The item and its previous sample show a forward that works. *)
Definition working (item previous : list (string * pyval)) : bool :=
  let count := dget item "outboundBytes" VNone in
  let before := dget previous "outboundBytes" VNone in
  eq_str (dget item "state" VNone) "forwarding" && negb (truthy (dget item "lastError" VNone))
  && eq_str (dget previous "state" VNone) "forwarding" && negb (truthy (dget previous "lastError" VNone))
  && py_eq (dget item "id" VNone) (dget previous "id" VNone)
  && is_int count && is_int before && (int_val before <? int_val count) && (0 <=? int_val before).

(** The loop over the items of [heal]; [Some] is the early return. *)
Fixpoint heal_items (k : Keeper) (now : Q) (items : list pyval) : res (Keeper * option (list forward)) :=
  match items with
  | [] => Ok (k, None)
  | item :: items' =>
      let! conf := get item "conf" in
      let! d := get (py_or conf (VDict [])) "dest" in
      let! c := configured k d in
      match c with
      | None => heal_items k now items'
      | Some d =>
          let previous := default [] (previous_samples k !! d) in
          let prev' := <[d := as_dict item]> (previous_samples k) in
          if working (as_dict item) previous
          then heal_items (set_maps k (delete d (bad_since k)) (last_heal k) prev') now items'
          else
            let since := default now (bad_since k !! d) in
            let bad' := <[d := since]> (bad_since k) in
            if Qleb BAD_SECONDS (now - since)
               && Qleb HEAL_INTERVAL (now - default (- (1000000000))%Q (last_heal k !! d))
            then
              let k1 := set_removed (set_maps k (delete d bad') (<[d := now]> (last_heal k)) prev') (Some d) in
              Ok (apply k1 (desired k1), Some (desired k1))
            else heal_items (set_maps k bad' (last_heal k) prev') now items'
      end
  end.

Definition heal (k : Keeper) (now : Q) (ready : bool) (items : list pyval)
  : res (Keeper * option (list forward)) :=
  match removed k with
  | Some _ => let k1 := set_removed k None in Ok (apply k1 (desired k1), Some (desired k1))
  | None =>
      if negb ready then Ok (set_maps k ∅ (last_heal k) ∅, None)
      else heal_items k now items
  end.

(** ** Renewal *)
Inductive live_status : Type := LIVE | OFFLINE | UNKNOWN.
#[export] Instance live_status_eq_dec : EqDecision live_status.
Proof. solve_decision. Defined.
Record twitch_t : Type := Twitch { t_status : live_status; t_stream_id : string; t_started_at : option Q }.

(** [date().isoformat()] of a day number since 1970-01-01 (years 0001 to 9999). *)
Definition civil (days : Z) : Z * Z * Z :=
  let z := days + 719468 in
  let era := z / 146097 in
  let doe := z - era * 146097 in
  let yoe := (doe - doe / 1460 + doe / 36524 - doe / 146096) / 365 in
  let doy := doe - (365 * yoe + yoe / 4 - yoe / 100) in
  let mp := (5 * doy + 2) / 153 in
  let m := if mp <? 10 then mp + 3 else mp - 9 in
  let y := yoe + era * 400 + (if m <=? 2 then 1 else 0) in
  (y, m, doy - (153 * mp + 2) / 5 + 1).
Fixpoint zeros (n : nat) : string := match n with O => "" | S n => String "0" (zeros n) end.
Definition pad (width : nat) (n : Z) : string :=
  let s := str_Z n in (zeros (width - String.length s) ++ s)%string.
Definition isoformat (days : Z) : string :=
  let '(y, m, d) := civil days in (pad 4 y ++ "-" ++ pad 2 m ++ "-" ++ pad 2 d)%string.
Example isoformat_ex : map isoformat [0; 19782; 20454] = ["1970-01-01"; "2024-02-29"; "2026-01-01"].
Proof. reflexivity. Qed.

(** [wall.astimezone(JST).date().isoformat()] *)
Definition jst_date (wall : Q) : string := isoformat (Qfloor ((wall + 32400) / 86400)).

Definition set_phase (k : Keeper) (p : phase_t) (at_ : Q) : Keeper :=
  mkKeeper (destinations k) (bad_since k) (last_heal k) (previous_samples k) (removed k) p at_
    (last_renewal_date k) (old_stream_id k) (current k).
Definition set_date (k : Keeper) (date : string) : Keeper :=
  mkKeeper (destinations k) (bad_since k) (last_heal k) (previous_samples k) (removed k) (phase k)
    (phase_at k) date (old_stream_id k) (current k).
Definition set_stream (k : Keeper) (s : string) : Keeper :=
  mkKeeper (destinations k) (bad_since k) (last_heal k) (previous_samples k) (removed k) (phase k)
    (phase_at k) (last_renewal_date k) s (current k).

Definition renewal (k : Keeper) (now wall : Q) (ready : bool) (t : twitch_t) : Keeper * option (list forward) :=
  let today := jst_date wall in
  match phase k with
  | IDLE =>
      if negb ready || negb (bool_decide (t_status t = LIVE)) then (k, None)
      else
        let age := match t_started_at t with Some s => (wall - s)%Q | None => 0%Q end in
        let first := String.eqb (last_renewal_date k) "" in
        let due_daily := negb first && negb (String.eqb today (last_renewal_date k)) in
        let k1 := if first then set_date k today else k in
        if negb (due_daily || Qleb AGE_LIMIT age) then (k1, None)
        else
          let k2 := set_date (set_stream (set_phase k1 WAIT_OFFLINE now) (t_stream_id t)) today in
          (apply k2 (desired k2), Some (desired k2))
  | WAIT_OFFLINE =>
      let waited := (now - phase_at k)%Q in
      if (bool_decide (t_status t = OFFLINE) && Qleb OFFLINE_MIN waited) || Qleb OFFLINE_MAX waited
      then let k1 := set_phase k VERIFY now in (apply k1 (desired k1), Some (desired k1))
      else (k, None)
  | VERIFY =>
      let new_live := bool_decide (t_status t = LIVE)
                      && negb (String.eqb (t_stream_id t) "") && negb (String.eqb (t_stream_id t) (old_stream_id k)) in
      if new_live || Qleb VERIFY_MAX (now - phase_at k) || negb ready
      then (set_phase k IDLE (phase_at k), None)
      else (k, None)
  end.

(** ** Reconciliation *)
Definition configured_dests `{Repr} (path_config : pyval) : res (option (list string)) :=
  match path_config with
  | VDict d =>
      match dget d "forward" VNone with
      | VList fs =>
          let! l := (fix go (fs : list pyval) : res (list string) :=
                       match fs with
                       | [] => Ok []
                       | f :: fs' =>
                           let! x := get (py_or f (VDict [])) "dest" in
                           let! rest := go fs' in
                           Ok (py_str (py_or x (VStr "")) :: rest)
                       end) fs in
          Ok (Some l)
      | _ => Ok None
      end
  | _ => Ok None
  end.

Inductive reconcile_result : Type := in_sync | patched | unconfirmed | failed.

(** [reconcile]: the two reads and the outcome of the patch. *)
Definition reconcile `{Repr} (read1 : res pyval) (patch : list forward -> res unit) (read2 : res pyval)
    (target : list forward) : res reconcile_result :=
  let want := map dest target in
  let! c1 := read1 in
  let! l1 := configured_dests c1 in
  if bool_decide (l1 = Some want) then Ok in_sync else
  match patch target with
  | Err _ => Ok failed
  | Ok _ =>
      let! c2 := read2 in
      let! l2 := configured_dests c2 in
      Ok (if bool_decide (l2 = Some want) then patched else unconfirmed)
  end.

(** ** One turn (lines 245-251), and the restart (lines 218-229) *)
Definition turn (k : Keeper) (now wall : Q) (ready : bool) (t : twitch_t) (items : list pyval) : res Keeper :=
  let '(k1, change) := renewal k now wall ready t in
  match change, phase k1 with
  | None, IDLE => let! (k2, _) := heal k1 now ready items in Ok k2
  | _, _ => match removed k1 with
            | Some _ => Ok (set_removed k1 None)
            | None => Ok k1
            end
  end.

Definition phase_str (p : phase_t) : string :=
  match p with IDLE => "IDLE" | WAIT_OFFLINE => "WAIT_OFFLINE" | VERIFY => "VERIFY" end.
Definition to_state (k : Keeper) : list (string * pyval) :=
  [("phase", VStr (phase_str (phase k))); ("last_renewal_date", VStr (last_renewal_date k));
   ("old_stream_id", VStr (old_stream_id k))].

(** [saved] is the decoded state file, empty when absent or unreadable. *)
Definition restore (ds : list forward) (saved : list (string * pyval)) (now : Q) : Keeper :=
  let k := init ds in
  match saved with
  | [] => k
  | _ =>
      let k1 := set_date k (str_val (dget saved "last_renewal_date" (VStr ""))) in
      if in_strs (dget saved "phase" VNone) ["WAIT_OFFLINE"; "VERIFY"]
      then set_stream (set_phase k1 VERIFY now) (str_val (dget saved "old_stream_id" (VStr "")))
      else k1
  end.

(** ** Histories *)
Record turn_input : Type := TurnInput {
  i_now : Q; i_wall : Q; i_ready : bool; i_twitch : twitch_t; i_items : list pyval }.

(** The removals of a run, in order: the destination and the time. *)
Definition removal (k : Keeper) (now : Q) : list (string * Q) :=
  match removed k with Some d => [(d, now)] | None => [] end.
Fixpoint turns (k : Keeper) (is_ : list turn_input) : res (Keeper * list (string * Q)) :=
  match is_ with
  | [] => Ok (k, [])
  | i :: is' =>
      let! k1 := turn k (i_now i) (i_wall i) (i_ready i) (i_twitch i) (i_items i) in
      let! (k2, log) := turns k1 is' in
      Ok (k2, removal k1 (i_now i) ++ log)
  end.

(** ** Facts *)
#[local] Opaque jst_date.
#[local] Arguments AGE_LIMIT : simpl never.

(** What one turn does to the healing state. *)
Definition heals (k k' : Keeper) (now : Q) : Prop :=
  (removed k' = None /\ last_heal k' = last_heal k) \/
  exists d s, removed k' = Some d /\ last_heal k' = <[d := now]> (last_heal k) /\
    (HEAL_INTERVAL <= now - default (- (1000000000))%Q (last_heal k !! d))%Q /\
    bad_since k !! d = Some s /\ (BAD_SECONDS <= now - s)%Q /\ removed k = None.

Lemma heal_items_spec now items k k' r : heal_items k now items = Ok (k', r) -> removed k = None ->
  forall bad0 : gmap string Q, (forall d s, bad_since k !! d = Some s -> s = now \/ bad0 !! d = Some s) ->
  (removed k' = None /\ last_heal k' = last_heal k) \/
  exists d s, removed k' = Some d /\ last_heal k' = <[d := now]> (last_heal k) /\
    (HEAL_INTERVAL <= now - default (- (1000000000))%Q (last_heal k !! d))%Q /\
    bad0 !! d = Some s /\ (BAD_SECONDS <= now - s)%Q.
Proof.
  revert k. induction items as [|item items IH]; intros k Hh Hr bad0 Hb; cbn [heal_items] in Hh.
  { injection Hh as <- _. by left. }
  inv_ok Hh. destruct v1 as [d|]; [|by apply (IH k)].
  destruct (working _ _).
  { apply (IH _ Hh); [done|]. simpl. intros d' s Hs. apply Hb.
    by apply lookup_delete_Some in Hs as [_ ?]. }
  cbv zeta in Hh.
  set (since := default now (bad_since k !! d)) in *.
  assert (since = now \/ bad0 !! d = Some since) as Hsince.
  { unfold since. destruct (bad_since k !! d) as [s|] eqn:Es; simpl; [by apply Hb | by left]. }
  destruct (Qleb BAD_SECONDS (now - since)
            && Qleb HEAL_INTERVAL (now - default (- (1000000000))%Q (last_heal k !! d))) eqn:Eq.
  - apply andb_true_iff in Eq as [E3%Qleb_true E4%Qleb_true].
    assert (bad0 !! d = Some since) as Hb0.
    { destruct Hsince as [Hs|?]; [|done]. exfalso. rewrite Hs in E3. unfold BAD_SECONDS in E3. lra. }
    injection Hh as <- _. right. exists d, since. simpl. by split_and!.
  - apply (IH _ Hh); [done|]. simpl. intros d' s Hs.
    apply lookup_insert_Some in Hs as [[<- <-]|[_ Hs]]; [done | by apply Hb].
Qed.

Lemma renewal_healing k now wall ready t :
  let k' := fst (renewal k now wall ready t) in
  removed k' = removed k /\ last_heal k' = last_heal k /\ bad_since k' = bad_since k /\
  destinations k' = destinations k.
Proof. unfold renewal. destruct (phase k); simpl; repeat case_match; done. Qed.

Lemma turn_heals k i k' : turn k (i_now i) (i_wall i) (i_ready i) (i_twitch i) (i_items i) = Ok k' ->
  heals k k' (i_now i).
Proof.
  unfold turn. pose proof (renewal_healing k (i_now i) (i_wall i) (i_ready i) (i_twitch i)) as Hr.
  destruct (renewal k _ _ _ _) as [k1 change]. simpl in Hr. destruct Hr as (Hr & Hl & Hb & _).
  assert (match removed k1 with Some _ => Ok (set_removed k1 None) | None => Ok k1 end = Ok k' ->
          heals k k' (i_now i)) as Hother.
  { destruct (removed k1) eqn:E; intros [= <-]; left; simpl; by split. }
  destruct change; [done|]. destruct (phase k1); [|done..].
  intros Ht. inv_ok Ht. destruct v as [k2 r]. injection Ht as <-. unfold heal in E.
  destruct (removed k1) as [d|] eqn:Er; [injection E as <- _; by left|].
  destruct (negb (i_ready i)); [injection E as <- _; by left|].
  destruct (heal_items_spec _ _ _ _ _ E Er (bad_since k)) as [[? ?]|(d & s & ? & ? & ? & ? & ?)].
  - intros d s. rewrite Hb. auto.
  - left. by rewrite <- Hl.
  - right. exists d, s. rewrite <- Hl. split_and!; try done; congruence.
Qed.

Lemma turns_snoc k is_ i k' log :
  turns k (is_ ++ [i]) = Ok (k', log) ->
  exists k0 log0, turns k is_ = Ok (k0, log0) /\
    turn k0 (i_now i) (i_wall i) (i_ready i) (i_twitch i) (i_items i) = Ok k' /\
    log = log0 ++ removal k' (i_now i).
Proof.
  revert k log. induction is_ as [|j is_ IH]; intros k log; simpl.
  - intros H. inv_ok H. injection H as <- <-. exists k, []. split; [done|]. by rewrite app_nil_r.
  - intros H. inv_ok H. destruct v0 as [k2 l2]. injection H as <- <-.
    apply IH in E0 as (k0 & log0 & H0 & ? & ->). exists k0, (removal v (i_now j) ++ log0).
    rewrite E. simpl. rewrite H0. simpl. split_and!; try done. by rewrite app_assoc.
Qed.

(** Every removal in the log is remembered, no later than its time, by
    [last_heal]. *)
Lemma turns_remember is_ k k' log : turns k is_ = Ok (k', log) ->
  forall d t, In (d, t) log -> exists h, last_heal k' !! d = Some h /\ (t <= h)%Q.
Proof.
  revert k' log. induction is_ as [|i is_ IH] using rev_ind; intros k' log Ht.
  { injection Ht as <- <-. done. }
  apply turns_snoc in Ht as (k0 & log0 & H0 & Htn & ->). intros d t Hin.
  apply turn_heals in Htn as [[Hn Hl]|(d0 & s & Hr & Hl & Hge & _)]; unfold removal in Hin.
  - rewrite Hn, app_nil_r in Hin. rewrite Hl. by eapply IH.
  - rewrite Hr in Hin. rewrite Hl. apply in_app_iff in Hin as [Hin|[[= <- <-]|[]]].
    + destruct (IH _ _ H0 _ _ Hin) as (h & Hh & Hle).
      destruct (decide (d = d0)) as [->|Hne].
      * exists (i_now i). rewrite lookup_insert. split; [by case_decide|].
        rewrite Hh in Hge. simpl in Hge. unfold HEAL_INTERVAL in Hge. lra.
      * exists h. by rewrite lookup_insert_ne.
    + exists (i_now i). rewrite lookup_insert. split; [by case_decide | lra].
Qed.

Lemma heal_phase k now ready items k' r : heal k now ready items = Ok (k', r) -> phase k' = phase k.
Proof.
  unfold heal. destruct (removed k); [by intros [= <- _]|]. destruct (negb ready); [by intros [= <- _]|].
  revert k. induction items as [|item items IH]; intros k Hh; cbn [heal_items] in Hh; [by injection Hh as <- _|].
  inv_ok Hh. destruct v1; [|by apply IH].
  destruct (working _ _); [by apply IH in Hh|]. cbv zeta in Hh.
  destruct (Qleb _ _ && Qleb _ _); [by injection Hh as <- _ | by apply IH in Hh].
Qed.

Lemma renewal_start k i k' :
  turn k (i_now i) (i_wall i) (i_ready i) (i_twitch i) (i_items i) = Ok k' ->
  phase k <> WAIT_OFFLINE -> phase k' = WAIT_OFFLINE ->
  phase k = IDLE /\ i_ready i = true /\ t_status (i_twitch i) = LIVE /\
  last_renewal_date k' = jst_date (i_wall i) /\
  ((last_renewal_date k <> "" /\ jst_date (i_wall i) <> last_renewal_date k) \/
   exists s, t_started_at (i_twitch i) = Some s /\ (AGE_LIMIT <= i_wall i - s)%Q).
Proof.
  unfold turn. intros Ht Hp Hp'.
  destruct (renewal k _ _ _ _) as [k1 change] eqn:Er.
  assert (phase k1 = WAIT_OFFLINE /\ last_renewal_date k' = last_renewal_date k1) as [H1 Hd].
  { destruct change; [|destruct (phase k1) eqn:E1].
    3-4: destruct (removed k1); injection Ht as <-; simpl in *; split; congruence.
    - destruct (removed k1); injection Ht as <-; simpl in *; by split.
    - inv_ok Ht. destruct v as [k2 r]. injection Ht as <-. apply heal_phase in E. congruence. }
  rewrite Hd. clear Ht Hd Hp'. unfold renewal in Er. destruct (phase k) eqn:Ek; [|done|].
  - split; [done|]. destruct (i_ready i); simpl in Er; [|injection Er as <- _; congruence].
    case_bool_decide as Hl; simpl in Er; [|injection Er as <- _; congruence].
    split; [done|]. split; [done|].
    cbv zeta in Er. match type of Er with (if negb ?c then _ else _) = _ => destruct c eqn:Ed end; simpl in Er.
    2: { injection Er as <- _. destruct (String.eqb _ _); simpl in H1; congruence. }
    injection Er as <- _. split; [done|]. apply orb_true_iff in Ed as [Ed|Ed].
    + left. apply andb_true_iff in Ed as [E1 E2].
      rewrite negb_true_iff, String.eqb_neq in E1. by rewrite negb_true_iff, String.eqb_neq in E2.
    + right. apply Qleb_true in Ed. destruct (t_started_at (i_twitch i)) as [s|]; [by exists s|].
      exfalso. unfold AGE_LIMIT in Ed. lra.
  - exfalso. destruct (_ || _); injection Er as <- _; simpl in *; congruence.
Qed.

(** ** Properties *)
Module KeeperProperties.

(** Healing never steals a slot: outside the Twitch renewal the wanted list
    has every configured forward in its own position, the one being healed replaced
    by the placeholder; during the renewal only Twitch forwards are missing. *)
Theorem slots_preserved k :
  (phase k <> WAIT_OFFLINE ->
   length (desired k) = length (destinations k) /\
   forall i d, destinations k !! i = Some d ->
     desired k !! i = Some (if bool_decide (removed k = Some (dest d)) then HEALING_DEST else d)) /\
  (forall d, In d (destinations k) -> is_twitch (dest d) = false ->
     In (if bool_decide (removed k = Some (dest d)) then HEALING_DEST else d) (desired k)).
Proof.
  split.
  - intros Hp. assert (desired k = map (fun d => if bool_decide (removed k = Some (dest d)) then HEALING_DEST else d)
                          (destinations k)) as ->.
    { unfold desired. induction (destinations k) as [|d ds IH]; [done|]. simpl. rewrite IH.
      unfold desired_forward. rewrite (bool_decide_eq_false_2 _ Hp). simpl. by case_bool_decide. }
    split; [apply length_map|]. intros i d Hd. change (@map forward forward) with (@fmap _ list_fmap forward forward).
    rewrite list_lookup_fmap, Hd. done.
  - intros d Hin Htw. unfold desired. apply in_flat_map. exists d. split; [done|].
    unfold desired_forward. rewrite Htw, andb_false_r. case_bool_decide; by left.
Qed.

(** The keeper removes a forward only after it was observed bad for 30 s, never
    the same one twice within 60 s, and puts it back on the next turn. *)
Theorem healing_is_paced ds is_ k log i k' :
  turns (init ds) is_ = Ok (k, log) ->
  turn k (i_now i) (i_wall i) (i_ready i) (i_twitch i) (i_items i) = Ok k' ->
  (is_Some (removed k) -> removed k' = None) /\
  forall d, removed k' = Some d ->
    (exists s, bad_since k !! d = Some s /\ (BAD_SECONDS <= i_now i - s)%Q) /\
    forall t, In (d, t) log -> (HEAL_INTERVAL <= i_now i - t)%Q.
Proof.
  intros Hr Ht. apply turn_heals in Ht as [[Hn _]|(d & s & Hd & Hl & Hge & Hb & Hs & Hk)].
  { split; [done|]. rewrite Hn. done. }
  split; [rewrite Hk; intros [? [=]]|]. intros d' Hd'. assert (d' = d) as -> by congruence.
  split; [by exists s|]. intros t Hin.
  destruct (turns_remember _ _ _ _ Hr _ _ Hin) as (h & Hh & Hle). rewrite Hh in Hge. simpl in Hge. lra.
Qed.

(** Twitch is never held down for long: a renewal that has waited 600 s is over
    at the next turn whatever was observed, and a renewal ends early only after
    OFFLINE was observed and 120 s passed. *)
Theorem twitch_outage_bounded k i k' :
  phase k = WAIT_OFFLINE ->
  turn k (i_now i) (i_wall i) (i_ready i) (i_twitch i) (i_items i) = Ok k' ->
  ((OFFLINE_MAX <= i_now i - phase_at k)%Q -> phase k' = VERIFY) /\
  (phase k' <> WAIT_OFFLINE -> phase k' = VERIFY /\
     ((OFFLINE_MAX <= i_now i - phase_at k)%Q \/
      ((OFFLINE_MIN <= i_now i - phase_at k)%Q /\ t_status (i_twitch i) = OFFLINE))).
Proof.
  intros Hp. unfold turn, renewal. rewrite Hp.
  destruct (bool_decide (t_status (i_twitch i) = OFFLINE)) eqn:Eo,
    (Qleb_spec OFFLINE_MIN (i_now i - phase_at k)), (Qleb_spec OFFLINE_MAX (i_now i - phase_at k));
    cbn -[set_removed desired]; rewrite ?Hp; destruct (removed k) eqn:Er; cbn -[desired]; rewrite ?Er; intros [= <-];
    cbn -[desired]; rewrite ?Hp; bools; split; intros; try done; try lra; auto.
Qed.

(** A Twitch renewal starts only from IDLE with input present and the channel
    confirmed LIVE, either 46 hours after the session started or on a JST date other
    than the last renewal's; it then records today, so a date renews once. *)
Theorem renewal_once_per_day k i k' :
  turn k (i_now i) (i_wall i) (i_ready i) (i_twitch i) (i_items i) = Ok k' ->
  phase k <> WAIT_OFFLINE -> phase k' = WAIT_OFFLINE ->
  phase k = IDLE /\ i_ready i = true /\ t_status (i_twitch i) = LIVE /\
  last_renewal_date k' = jst_date (i_wall i) /\
  ((last_renewal_date k <> "" /\ jst_date (i_wall i) <> last_renewal_date k) \/
   exists s, t_started_at (i_twitch i) = Some s /\ (AGE_LIMIT <= i_wall i - s)%Q).
Proof. apply renewal_start. Qed.

(** A restart never leaves Twitch removed: whatever phase was saved, the
    restored keeper wants every configured forward, and it keeps the date of the last
    renewal. *)
Theorem restart_restores_forwards ds k now :
  desired (restore ds (to_state k) now) = ds /\
  last_renewal_date (restore ds (to_state k) now) = last_renewal_date k /\
  (phase k <> IDLE -> phase (restore ds (to_state k) now) = VERIFY).
Proof.
  assert (forall k', phase k' <> WAIT_OFFLINE -> removed k' = None -> destinations k' = ds -> desired k' = ds) as Hd.
  { intros k' Hp Hr <-. unfold desired, desired_forward.
    rewrite (bool_decide_eq_false_2 _ Hp), Hr. simpl. induction (destinations k') as [|d l IH]; [done|].
    simpl. by rewrite IH. }
  unfold restore, to_state. destruct (phase k); cbn -[desired]; (split; [by apply Hd | done]).
Qed.

(** [reconcile] reports success only after MediaMTX itself returned exactly the
    wanted destinations in order, and it patches only when they differ. *)
Theorem reconcile_confirms `{Repr} read1 patch read2 target r :
  reconcile read1 patch read2 target = Ok r ->
  match r with
  | in_sync => exists c, read1 = Ok c /\ configured_dests c = Ok (Some (map dest target))
  | patched => (exists c, read1 = Ok c /\ configured_dests c <> Ok (Some (map dest target))) /\
               patch target = Ok tt /\
               exists c, read2 = Ok c /\ configured_dests c = Ok (Some (map dest target))
  | unconfirmed => patch target = Ok tt /\
               exists c, read2 = Ok c /\ configured_dests c <> Ok (Some (map dest target))
  | failed => exists e, patch target = Err e
  end.
Proof.
  unfold reconcile. intros Hr. inv_ok Hr. case_bool_decide as H1.
  { injection Hr as <-. exists v. subst. by split. }
  destruct (patch target) as [[]|e]; [|injection Hr as <-; eauto]. inv_ok Hr.
  case_bool_decide as H2; injection Hr as <-.
  - split; [exists v; split; [done|]; congruence|]. split; [done|]. exists v1. subst. by split.
  - split; [done|]. exists v1. split; [done|]. congruence.
Qed.

(** *** Witnesses *)
Definition demo_dests : list forward := [Forward "rtmp://y" []; Forward "rtmp://twitch.tv/x" []].
Definition demo_item : pyval := VDict [("conf", VDict [("dest", VStr "rtmp://y")]); ("state", VStr "idle")].
Definition demo_twitch (s : live_status) : twitch_t := Twitch s "s1" (Some 0%Q).
Definition demo_turn (t wall : Q) (s : live_status) : turn_input :=
  TurnInput t wall true (demo_twitch s) [demo_item].
Definition demo_run (ts : list Q) : Keeper * list (string * Q) :=
  match turns (init demo_dests) (map (fun t => demo_turn t 1000 UNKNOWN) ts) with
  | Ok r => r | Err _ => (init demo_dests, []) end.
Definition demo_next (k : Keeper) (i : turn_input) : Keeper :=
  match turn k (i_now i) (i_wall i) (i_ready i) (i_twitch i) (i_items i) with Ok k' => k' | Err _ => k end.

(** The broken forward is removed at 30 s, put back, and removed again at 95 s. *)
Lemma healing_is_paced_witness :
  removed (demo_next (fst (demo_run [0; 30; 35; 40; 65]%Q)) (demo_turn 95 1000 UNKNOWN)) = Some "rtmp://y" /\
  (is_Some (removed (fst (demo_run [0; 30; 35; 40; 65]%Q))) ->
   removed (demo_next (fst (demo_run [0; 30; 35; 40; 65]%Q)) (demo_turn 95 1000 UNKNOWN)) = None) /\
  forall d, removed (demo_next (fst (demo_run [0; 30; 35; 40; 65]%Q)) (demo_turn 95 1000 UNKNOWN)) = Some d ->
    (exists s, bad_since (fst (demo_run [0; 30; 35; 40; 65]%Q)) !! d = Some s /\ (BAD_SECONDS <= 95 - s)%Q) /\
    forall t, In (d, t) (snd (demo_run [0; 30; 35; 40; 65]%Q)) -> (HEAL_INTERVAL <= 95 - t)%Q.
Proof.
  split; [vm_compute; reflexivity|].
  apply (healing_is_paced demo_dests (map (fun t => demo_turn t 1000 UNKNOWN) [0; 30; 35; 40; 65]%Q)
    (fst (demo_run [0; 30; 35; 40; 65]%Q)) (snd (demo_run [0; 30; 35; 40; 65]%Q)) (demo_turn 95 1000 UNKNOWN)
    (demo_next (fst (demo_run [0; 30; 35; 40; 65]%Q)) (demo_turn 95 1000 UNKNOWN))); vm_compute; reflexivity.
Defined.

Definition demo_waiting : Keeper := demo_next (init demo_dests) (demo_turn 10 170000 LIVE).

Lemma twitch_outage_bounded_witness :
  ((OFFLINE_MAX <= 700 - 10)%Q -> phase (demo_next demo_waiting (demo_turn 700 170000 UNKNOWN)) = VERIFY) /\
  (phase (demo_next demo_waiting (demo_turn 700 170000 UNKNOWN)) <> WAIT_OFFLINE ->
   phase (demo_next demo_waiting (demo_turn 700 170000 UNKNOWN)) = VERIFY /\
   ((OFFLINE_MAX <= 700 - 10)%Q \/ ((OFFLINE_MIN <= 700 - 10)%Q /\ UNKNOWN = OFFLINE))).
Proof.
  apply (twitch_outage_bounded demo_waiting (demo_turn 700 170000 UNKNOWN)
    (demo_next demo_waiting (demo_turn 700 170000 UNKNOWN))); vm_compute; reflexivity.
Defined.

Lemma renewal_once_per_day_witness :
  IDLE = IDLE /\ true = true /\ LIVE = LIVE /\ last_renewal_date demo_waiting = jst_date 170000 /\
  (("" <> "" /\ jst_date 170000 <> "") \/
   exists s, Some 0%Q = Some s /\ (AGE_LIMIT <= 170000 - s)%Q).
Proof.
  apply (renewal_once_per_day (init demo_dests) (demo_turn 10 170000 LIVE) demo_waiting);
    [vm_compute; reflexivity | discriminate | vm_compute; reflexivity].
Defined.

Definition demo_config (ds : list string) : pyval :=
  VDict [("forward", VList (map (fun d => VDict [("dest", VStr d)]) ds))].
Lemma reconcile_confirms_witness :
  (exists c, Ok (demo_config ["a"]) = Ok c /\
     configured_dests (H := fun _ => "") c <> Ok (Some (map dest demo_dests))) /\
  (fun _ : list forward => Ok tt) demo_dests = Ok tt /\
  exists c, Ok (demo_config (map dest demo_dests)) = Ok c /\
    configured_dests (H := fun _ => "") c = Ok (Some (map dest demo_dests)).
Proof.
  apply (reconcile_confirms (H := fun _ => "") (Ok (demo_config ["a"])) (fun _ => Ok tt)
    (Ok (demo_config (map dest demo_dests))) demo_dests patched).
  vm_compute. reflexivity.
Defined.
End KeeperProperties.
