(* ===== verification/RouteFacts.v ===== *)
(** * The relay's facts server (ops/selfheal/route_facts_http.py)

    [collect] builds the facts document of the relay from the processes of two
    units, the MediaMTX API and the copy status file; [CopyHeartbeat] turns changes
    of the copy record into ages on the boot-time clock; [do_GET] answers one
    request.  The theorems connect this producer with its consumer, [RouteSample].

    [UnitNotRunning] is the [ValueError] with message unit_not_running.  The
    observer module the server is given (fingerprint file, provider and copy
    facts) is code outside this file: its results are arguments. *)
From Stdlib Require Import Ascii.
From S2P Require Import Prelude PyVal Clock RouteAssessment Fallback RouteSample.

Definition MAX_BYTES : Z := 16384.
Definition COPY_FIELDS : list string :=
  ["schema"; "pid"; "boot_id"; "session"; "destination_fingerprint"; "updated_at"; "state";
   "output_bytes"; "video_packets"; "audio_packets"; "last_progress_at"].

(** ** Documents for a stopped unit *)

(** The readings one document takes: host identity, UTC text, monotonic and
    boot-time clocks. *)
Record host : Type := Host {
  hs_identity : host_identity; hs_utc : string; hs_mono : Q; hs_boot : Q }.

Definition offline : pyval :=
  VDict [("available", VBool false); ("ready", VBool false); ("online", VBool false);
         ("content_state", VStr "OFFLINE"); ("connection_id", VNone); ("bytes", VInt 0)].

Definition relay_doc (h : host) (relay input destinations : pyval) : pyval :=
  VDict [("schema", VStr "stream.relay_raw.v1"); ("host_id", VStr "relay-host");
         ("boot_id", VStr (h_boot (hs_identity h))); ("machine_id_sha256", VStr (h_machine (hs_identity h)));
         ("observed_at", VStr (hs_utc h)); ("monotonic_seconds", VFloat (Fin (hs_mono h)));
         ("observed_boottime_seconds", VFloat (Fin (hs_boot h)));
         ("relay", relay); ("input", input); ("destinations", destinations)].

Definition stopped_relay_facts (h : host) : pyval :=
  VDict [("schema", VStr "stream_v3.route_facts.v1");
         ("relay_availability", VDict [("schema", VStr "stream_v3.relay_availability.v1");
                                       ("state", VStr "STOPPED"); ("reason", VStr "unit_not_running")]);
         ("relay", relay_doc h (VDict [("active", VBool false); ("pid", VInt 0)]) offline (VDict []));
         ("youtube_copy", VNone)].

Definition unavailable_copy_facts (h : host) (media_pid : Z) (fingerprint : string) : pyval :=
  VDict [("schema", VStr "stream_v3.route_facts.v1");
         ("relay", relay_doc h (VDict [("active", VBool true); ("pid", VInt media_pid)]) VNone (VDict []));
         ("youtube_copy", VNone);
         ("copy_availability", VDict [("schema", VStr "stream_v3.copy_availability.v1");
                                      ("state", VStr "STOPPED"); ("reason", VStr "unit_not_running");
                                      ("pid", VInt 0); ("destination_fingerprint", VStr fingerprint)])].

Definition legacy_input_facts (path : pyval) : res pyval :=
  let! ready := idx path "ready" in
  let! src := get path "source" in
  let! id := get (py_or src (VDict [])) "id" in
  let! inbound := get path "inboundBytes" in
  let! bytes := getd path "bytesReceived" inbound in
  Ok (VDict [("available", VBool true); ("ready", ready); ("connection_id", id); ("bytes", bytes)]).

(** ** [CopyHeartbeat] *)
Module CopyHeartbeat.
Record key : Type := Key {
  k_path : string; k_boot : pyval; k_pid : pyval; k_session : pyval; k_destination : pyval }.
Definition key_eq (a b : key) : bool :=
  String.eqb (k_path a) (k_path b) && py_eq (k_boot a) (k_boot b) && py_eq (k_pid a) (k_pid b)
  && py_eq (k_session a) (k_session b) && py_eq (k_destination a) (k_destination b).

Record state : Type := mk {
  identity : option key; digest : option string; changed_at : Q; confirmed : bool }.
Definition init : state := mk None None 0 false.

Record report : Type := Report { age_seconds : Q; r_confirmed : bool; new_observation : bool }.

(** [{k: value[k] for k in COPY_FIELDS}] *)
Fixpoint project (value : pyval) (ks : list string) : res (list (string * pyval)) :=
  match ks with
  | [] => Ok []
  | k :: ks' => let! x := idx value k in let! rest := project value ks' in Ok ((k, x) :: rest)
  end.

Section Observe.
Context `{Digest}.

Definition key_of (value : pyval) (path : string) : res key :=
  let! b := idx value "boot_id" in
  let! p := idx value "pid" in
  let! s := idx value "session" in
  let! d := idx value "destination_fingerprint" in
  Ok (Key path b p s d).

Definition report_of (s : state) (now : Q) (changed : bool) : report :=
  Report (qmax 0 (now - changed_at s)) (confirmed s) changed.

(** The comparison of the record with the previous one. *)
Definition advance (s : state) (k : key) (dg : string) (now : Q) : state * report :=
  if negb (match identity s with Some k' => key_eq k k' | None => false end)
  then let s' := mk (Some k) (Some dg) now false in (s', report_of s' now false)
  else if negb (match digest s with Some d => String.eqb dg d | None => false end)
  then let s' := mk (identity s) (Some dg) now true in (s', report_of s' now true)
  else (s, report_of s now false).

Definition observe (s : state) (value : pyval) (path : string) (now : Q) : res (state * report) :=
  let! k := key_of value path in
  let! fields := project value COPY_FIELDS in
  let! dg := json_digest (VDict fields) in
  Ok (advance s k dg now).
End Observe.

Definition report_py (r : report) : pyval :=
  VDict [("schema", VStr "stream_v3.copy_observation.v1"); ("age_seconds", VFloat (Fin (age_seconds r)));
         ("confirmed", VBool (r_confirmed r)); ("new_observation", VBool (new_observation r))].
End CopyHeartbeat.

(** ** [bound_copy] *)
Definition bound_copy_body (value : pyval) (pid : Z) (boot fingerprint : string) : res bool :=
  is_at value "schema" "stream_v3.youtube_forward.v1"
  &&! (let! x := idx value "pid" in Ok (is_int x && (int_val x =? pid) && (0 <? pid)))
  &&! is_at value "boot_id" boot &&! is_at value "destination_fingerprint" fingerprint
  &&! Ok (slen fingerprint =? 64) &&! Ok (all_chars is_hex fingerprint)
  &&! (let! x := idx value "session" in Ok (is_int x && (0 <? int_val x)))
  &&! (let! x := idx value "state" in Ok (in_strs x ["FLOWING"; "CONNECTING"; "ERROR"]))
  &&! rall (counter_at value) ["output_bytes"; "video_packets"; "audio_packets"]
  &&! rall (short_at 40 value) ["updated_at"; "last_progress_at"].
Definition bound_copy (value : pyval) (pid : Z) (boot fingerprint : string) : res bool :=
  match bound_copy_body value pid boot fingerprint with
  | Err (EKey | EType) => Ok false
  | r => r
  end.

(** ** [unit_pid] *)

(** [cgroup.procs]: absent, unreadable, or the white-space separated fields. *)
Inductive procs : Type := NoUnit | ProcsError (e : exn) | Procs (pids : list string).
(** One reading: the procs file and the [comm] of the process, stripped. *)
Record unit_read : Type := UnitRead { u_procs : procs; u_comm : res string }.

Definition UnitNotRunning : exn := EValue "unit_not_running".
Definition not_running (e : exn) : bool := bool_decide (e = UnitNotRunning).

Definition unit_pid (u : unit_read) (comm : string) : res Z :=
  match u_procs u with
  | NoUnit => Err UnitNotRunning
  | ProcsError e => Err e
  | Procs [] => Err UnitNotRunning
  | Procs [p] =>
      match int_of_str p with
      | None => Err (EValue "invalid literal for int()")
      | Some pid =>
          let! c := u_comm u in
          if String.eqb c comm then Ok pid else Err (EValue "unit_process_mismatch")
      end
  | Procs _ => Err (EValue "unit_process_not_unique")
  end.

(** ** [collect] *)
Section Collect.
Context `{Digest}.
(** The observer module: the bridge destination, its provider test, its optional
    [input_facts], and [youtube_forward_facts] at the time of the call. *)
Context (YOUTUBE_BRIDGE : string) (is_youtube : pyval -> res bool)
  (input_facts : option (pyval -> res pyval)) (youtube_forward_facts : pyval -> res (option pyval)).

(** Everything one collection reads. *)
Record readings : Type := Readings {
  rd_media1 : unit_read; rd_media2 : unit_read; rd_copy1 : unit_read; rd_copy2 : unit_read;
  rd_host : host; rd_fingerprint : res string; rd_path : res pyval; rd_dests : res pyval;
  rd_status : res pyval; rd_status_path : string; rd_heartbeat_now : Q }.

Definition media_unit (u : unit_read) : res Z := unit_pid u "mediamtx".
Definition copy_unit (u : unit_read) : res Z := unit_pid u "youtube-forward".

(** The rows whose configured destination is the bridge. *)
Definition is_bridge (x : pyval) : res bool :=
  let! conf := get x "conf" in
  let! d := get (py_or conf (VDict [])) "dest" in Ok (eq_str d YOUTUBE_BRIDGE).
Fixpoint count_bridges (rows : list pyval) : res nat :=
  match rows with
  | [] => Ok O
  | x :: rows' => let! b := is_bridge x in let! n := count_bridges rows' in Ok (if b : bool then S n else n)
  end.
Fixpoint any_youtube (rows : list pyval) : res bool :=
  match rows with
  | [] => Ok false
  | x :: rows' => is_youtube x ||! any_youtube rows'
  end.

(** Lines 138-145: the media unit is not running. *)
Definition collect_stopped (r : readings) : res pyval :=
  match media_unit (rd_media2 r) with
  | Ok _ => Err (EValue "unit_process_changed")
  | Err e => if not_running e then Ok (stopped_relay_facts (rd_host r)) else Err e
  end.

(** Lines 148-156: the copy unit is not running. *)
Definition collect_no_copy (r : readings) (media_pid : Z) : res pyval :=
  let! fp := rd_fingerprint r in
  if negb (slen fp =? 64) || negb (all_chars is_hex fp) then Err (EValue "copy_binding_mismatch") else
  match copy_unit (rd_copy2 r) with
  | Ok _ => Err (EValue "unit_process_changed")
  | Err e =>
      if not_running e then
        let! again := media_unit (rd_media2 r) in
        if negb (again =? media_pid) then Err (EValue "unit_process_changed")
        else Ok (unavailable_copy_facts (rd_host r) media_pid fp)
      else Err e
  end.

(** What the copy block adds (lines 169-195): the observation, the availability,
    the copy record and the destination row. *)
Record copy_part : Type := CopyPart {
  cp_observation : option CopyHeartbeat.report; cp_availability : option pyval;
  cp_copy : pyval; cp_youtube : option pyval }.

Definition stalled (pid : Z) (session : pyval) (fp : string) (age : Q) : pyval :=
  VDict [("schema", VStr "stream_v3.copy_availability.v1"); ("state", VStr "STALLED");
         ("reason", VStr "heartbeat_not_advancing"); ("pid", VInt pid); ("session", session);
         ("destination_fingerprint", VStr fp); ("unobserved_for_sec", VFloat (Fin age))].

(** [{'id': f'youtube-forward-{pid}-{session}', 'state': ..., 'bytes': ...}] *)
Definition forward_row (pid : Z) (session : pyval) (state : string) (bytes : pyval) : pyval :=
  VDict [("id", VStr (ident_of pid (int_val session))); ("state", VStr state); ("bytes", bytes)].

(** The row for the bound record [value] (lines 179-191). *)
Definition copy_row (value : pyval) (copy_pid : Z) (obs : CopyHeartbeat.report) (is_stalled : bool)
  : res (option pyval) :=
  let! session := idx value "session" in
  let! state := idx value "state" in
  let! bytes := idx value "output_bytes" in
  let! facts := youtube_forward_facts value in
  let facts1 := match facts with
                | Some f => Some f
                | None =>
                    if CopyHeartbeat.r_confirmed obs && Qleb (CopyHeartbeat.age_seconds obs) 20
                    then Some (forward_row copy_pid session (if eq_str state "FLOWING" then "forwarding" else "unknown") bytes)
                    else None
                end in
  Ok (match facts1 with
      | Some f => Some f
      | None => if is_stalled then Some (forward_row copy_pid session "unknown" bytes) else None
      end).

(** The [try] block: an exception keeps what was assigned before it, and the
    heartbeat's state. *)
Definition copy_block (r : readings) (hb : CopyHeartbeat.state) (copy_pid : Z) (boot : string)
  : CopyHeartbeat.state * res copy_part :=
  let nothing := CopyPart None None VNone None in
  match (let! value := rd_status r in
         let! fp := rd_fingerprint r in
         let! ok := bound_copy value copy_pid boot fp in
         if negb ok then Err (EValue "copy_binding_mismatch") else
         let! (hb', obs) := CopyHeartbeat.observe hb value (rd_status_path r) (rd_heartbeat_now r) in
         Ok (value, fp, hb', obs)) with
  | Err (EOS _ | EKey | EType | EValue _ | EObservation _ | EClock _) => (hb, Ok nothing)
  | Err e => (hb, Err e)
  | Ok (value, fp, hb', obs) =>
      let late := Qltb 20 (CopyHeartbeat.age_seconds obs) in
      (hb',
       match (let! session := idx value "session" in
              let av := if late then Some (stalled copy_pid session fp (CopyHeartbeat.age_seconds obs)) else None in
              Ok av) with
       | Err (EOS _ | EKey | EType | EValue _ | EObservation _ | EClock _) =>
           Ok (CopyPart (Some obs) None VNone None)
       | Err e => Err e
       | Ok av =>
           match (let! row := copy_row value copy_pid obs late in
                  match row with
                  | None => Ok (None, VNone)
                  | Some f => let! fields := CopyHeartbeat.project value COPY_FIELDS in
                              Ok (Some f, VDict fields)
                  end) with
           | Err (EOS _ | EKey | EType | EValue _ | EObservation _ | EClock _) =>
               Ok (CopyPart (Some obs) av VNone None)
           | Err e => Err e
           | Ok (row, copy) => Ok (CopyPart (Some obs) av copy row)
           end
       end)
  end.

Definition opt_entry (k : string) (o : option pyval) : list (string * pyval) :=
  match o with Some v => [(k, v)] | None => [] end.

(** [collect(module, heartbeat)] *)
Definition collect (r : readings) (hb : CopyHeartbeat.state) : CopyHeartbeat.state * res pyval :=
  match media_unit (rd_media1 r) with
  | Err e => (hb, if not_running e then collect_stopped r else Err e)
  | Ok media_pid =>
      match copy_unit (rd_copy1 r) with
      | Err e => (hb, if not_running e then collect_no_copy r media_pid else Err e)
      | Ok copy_pid =>
          match (let! path := rd_path r in
                 let! dests := rd_dests r in
                 let! items := idx dests "items" in
                 let! rows := iter items in
                 let! n := count_bridges rows in
                 let! bad := Ok (negb (Nat.eqb n 1)) ||! any_youtube rows in
                 if bad : bool then Err (EValue "route_binding_mismatch") else
                 match input_facts with Some f => f path | None => legacy_input_facts path end) with
          | Err e => (hb, Err e)
          | Ok input =>
              let h := rd_host r in
              let '(hb', part) := copy_block r hb copy_pid (h_boot (hs_identity h)) in
              (hb',
               let! p := part in
               let! m := media_unit (rd_media2 r) in
               let! changed := if negb (m =? media_pid) then Ok true
                               else let! c := copy_unit (rd_copy2 r) in Ok (negb (c =? copy_pid)) in
               if changed : bool then Err (EValue "unit_process_changed") else
               Ok (VDict ([("schema", VStr "stream_v3.route_facts.v1");
                           ("relay", relay_doc h (VDict [("active", VBool true); ("pid", VInt media_pid)])
                                       input (VDict (opt_entry "youtube" (cp_youtube p))));
                           ("youtube_copy", cp_copy p)]
                          ++ opt_entry "copy_observation" (option_map CopyHeartbeat.report_py (cp_observation p))
                          ++ opt_entry "copy_availability" (cp_availability p))))
          end
      end
  end.
End Collect.

(** ** [do_GET] *)

(** The request: peer, path, fragment, whether the query text is non-empty, and the
    parsed query ([parse_qs]). *)
Record request : Type := Request {
  q_peer : string; q_path : string; q_fragment : string; q_query : bool;
  q_values : list (string * list string) }.

Definition nonce_of (q : request) : pyval :=
  match dict_get "nonce" (q_values q) with Some (n :: _) => VStr n | _ => VNone end.

Definition bad_request (q : request) : bool :=
  negb (String.eqb (q_path q) "/facts") || negb (String.eqb (q_fragment q) "")
  || (q_query q && (negb (bool_decide (map fst (q_values q) = ["nonce"]))
                    || match dict_get "nonce" (q_values q) with Some [_] => false | _ => true end
                    || negb (valid_nonce (nonce_of q)))).

Definition error_doc (e : string) : pyval := VDict [("error", VStr e)].

(** The status and body of the reply; an [Err] closes the connection.  [started]
    and [sent] are the captures at the start and inside the envelope. *)
Definition do_GET `{JsonText} (allowed : string) (q : request) (started sent : res stamp)
    (collector : res pyval) : res (Z * pyval) :=
  let! st := started in
  if negb (String.eqb (q_peer q) allowed) then Ok (403, error_doc "peer_not_allowed") else
  if bad_request q then Ok (404, error_doc "not_found") else
  match (let! value := collector in
         let! value' :=
           if is_none (nonce_of q) then Ok value
           else let! b := idx2 value "relay" "boot_id" in
                let! m := idx2 value "relay" "machine_id_sha256" in
                let! env := envelope (nonce_of q) st (HostIdentity (str_val b) (str_val m)) sent in
                Ok (VDict (dict_set "clock" env (as_dict value))) in
         let! n := dumps value' in
         if MAX_BYTES <? n then Err (EValue "oversized_facts") else Ok value') with
  | Ok value => Ok (200, value)
  | Err (EOS _ | EKey | EValue _ | EObservation _ | EClock _ | EType) => Ok (503, error_doc "facts_unavailable")
  | Err e => Err e
  end.

(** ** Facts *)

(** A document with the server's clock envelope added. *)
Definition with_clock (doc env : pyval) : pyval := VDict (dict_set "clock" env (as_dict doc)).

(** The host identity is well formed and the clocks are not negative. *)
Definition host_ok (h : host) : Prop :=
  slen (h_machine (hs_identity h)) = 64 /\ h_boot (hs_identity h) <> "" /\
  slen (hs_utc h) <= 64 /\ (0 <= hs_mono h)%Q.

Lemma copy_route_sample_of_body host value m dest r rb age d d' s :
  copy_route_body host value m dest r rb age
    (dict_update d [("health", VStr "UNKNOWN"); ("reason", VStr "facts_invalid")]) = (d', Ok s) ->
  copy_route_sample host value m dest r rb age d = (d', Ok (Some s)).
Proof. unfold copy_route_sample. by intros ->. Qed.

Lemma stopped_relay_body h env dest recv rb age d :
  host_ok h -> slen dest = 64 -> (0 <= age <= MAX_FACT_AGE)%Q ->
  exists d', copy_route_body "relay-host" (with_clock (stopped_relay_facts h) env)
    (h_machine (hs_identity h)) dest recv rb age d
  = (d', Ok (Sample false 0 None (Some (hs_mono h)) recv None true None None false false None)).
Proof.
  intros (Hm & Hb & Hu & Hmono) Hd [Ha1%Qleb_true Ha2%Qleb_true].
  apply Qleb_true in Hmono. apply Z.leb_le in Hu. apply String.eqb_neq in Hb. apply Z.eqb_eq in Hm, Hd.
  unfold copy_route_body, relay_negative, require, dbind, lift, dret, MAX_FACT_AGE in *.
  cbn -[Z.leb Z.eqb slen dict_update].
  rewrite Ha1, Ha2. cbn -[Z.leb Z.eqb slen dict_update].
  rewrite Hm, Hd, String.eqb_refl. cbn -[Z.leb Z.eqb slen dict_update].
  rewrite Hu. cbn -[Z.leb Z.eqb slen dict_update].
  rewrite Hb. cbn -[Z.leb Z.eqb slen dict_update].
  rewrite Hmono. cbn -[dict_update]. eexists. reflexivity.
Qed.

Lemma stopped_copy_body h env pid dest recv rb age d :
  host_ok h -> slen dest = 64 -> 0 < pid -> (0 <= age <= MAX_FACT_AGE)%Q ->
  exists d', copy_route_body "relay-host" (with_clock (unavailable_copy_facts h pid dest) env)
    (h_machine (hs_identity h)) dest recv rb age d
  = (d', Ok (Sample false 0 None None recv None false (Some "copy_unit_not_running") None false false None)).
Proof.
  intros (Hm & Hb & Hu & Hmono) Hd Hp [Ha1%Qleb_true Ha2%Qleb_true].
  apply Qleb_true in Hmono. apply Z.leb_le in Hu. apply String.eqb_neq in Hb. apply Z.eqb_eq in Hm, Hd.
  assert (0 <= pid) as Hp0%Z.leb_le by lia. apply Z.ltb_lt in Hp.
  unfold copy_route_body, copy_negative, require, dbind, lift, dret, MAX_FACT_AGE in *.
  cbn -[Z.leb Z.ltb Z.eqb slen dict_update].
  rewrite Ha1, Ha2. cbn -[Z.leb Z.ltb Z.eqb slen dict_update].
  rewrite Hm, Hd, String.eqb_refl. cbn -[Z.leb Z.ltb Z.eqb slen dict_update].
  rewrite Hu. cbn -[Z.leb Z.ltb Z.eqb slen dict_update].
  rewrite String.eqb_refl, Hp, Hp0. cbn -[Z.leb slen dict_update].
  rewrite Hb, Hmono. cbn -[dict_update]. eexists. reflexivity.
Qed.

(** The heartbeat's history: the records observed and the times. *)
Section HeartbeatHistory.
Context `{Digest}.
Import CopyHeartbeat.

Definition poll : Type := pyval * Q.
Fixpoint beats (path : string) (s : state) (ps : list poll) : res (state * list report) :=
  match ps with
  | [] => Ok (s, [])
  | (v, now) :: ps' =>
      let! (s', r) := observe s v path now in
      let! (s'', rs) := beats path s' ps' in
      Ok (s'', r :: rs)
  end.

(** The record [v] at time [t] has digest [dg] under the identity [k]. *)
Definition shows (path : string) (p : poll) (k : key) (dg : string) : Prop :=
  key_of (fst p) path = Ok k /\
  exists fields, project (fst p) COPY_FIELDS = Ok fields /\ json_digest (VDict fields) = Ok dg.

(** What the state remembers of the history [ps]: the record whose digest it holds
    was first seen at [changed_at] and in every record since, and a confirmed state saw
    another digest before. *)
Definition remembers (path : string) (ps : list poll) (s : state) : Prop :=
  forall k dg, identity s = Some k -> digest s = Some dg ->
    exists p pre post, ps = pre ++ p :: post /\ snd p = changed_at s /\
      (exists k', shows path p k' dg) /\
      Forall (fun q => exists k', shows path q k' dg) post /\
      (confirmed s = true -> exists q k' dg', In q pre /\ shows path q k' dg' /\ dg' <> dg).

Lemma observe_shows s v path now s' r : observe s v path now = Ok (s', r) ->
  exists k dg, shows path (v, now) k dg /\ (s', r) = advance s k dg now.
Proof.
  unfold observe. intros H0. inv_ok H0. injection H0 as Ha.
  exists v0, v2. split; [|done]. split; [done|]. by exists v1.
Qed.

Lemma advance_remembers path ps s v now k dg s' r :
  remembers path ps s -> (identity s = None <-> digest s = None) ->
  shows path (v, now) k dg -> advance s k dg now = (s', r) ->
  remembers path (ps ++ [(v, now)]) s' /\ (identity s' = None <-> digest s' = None).
Proof.
  unfold advance. intros Hr Hid Hs Ha.
  assert (forall c, c = false -> remembers path (ps ++ [(v, now)]) (mk (Some k) (Some dg) now c)) as Hfresh.
  { intros c -> k0 dg0 [= <-] [= <-]. exists (v, now), ps, []. split_and!; try done. by exists k. }
  destruct (identity s) as [k1|] eqn:Ek; simpl in Ha.
  2: { injection Ha as <- _. split; [by apply Hfresh | done]. }
  destruct (key_eq k k1) eqn:Eq; simpl in Ha.
  2: { injection Ha as <- _. split; [by apply Hfresh | done]. }
  destruct (digest s) as [dg1|] eqn:Ed; [|destruct Hid as [_ Hid]; by discriminate Hid].
  destruct (String.eqb_spec dg dg1) as [->|Hne]; simpl in Ha; injection Ha as <- _.
  - split; [|by rewrite Ek, Ed]. intros k0 dg0 Hk0 Hd0.
    destruct (Hr k0 dg0 Hk0 Hd0) as (p & pre & post & -> & ? & ? & Hpost & Hc).
    exists p, pre, (post ++ [(v, now)]). rewrite <- app_assoc. split_and!; try done.
    apply Forall_app. split; [done|]. constructor; [|done].
    assert (dg0 = dg1) as -> by congruence. by exists k.
  - split; [|done]. intros k0 dg0 _ [= <-]. exists (v, now), ps, []. split_and!; try done; [by exists k|].
    intros _. destruct (Hr k1 dg1 Ek Ed) as (p & pre & post & -> & _ & [k' ?] & _).
    exists p, k', dg1. split_and!; [apply in_app_iff; simpl; auto | done | congruence].
Qed.

Lemma beats_remember path ps s rs : beats path init ps = Ok (s, rs) ->
  remembers path ps s /\ (identity s = None <-> digest s = None).
Proof.
  assert (forall ps0 s0, remembers path ps0 s0 -> (identity s0 = None <-> digest s0 = None) ->
    forall rs, beats path s0 ps = Ok (s, rs) ->
    remembers path (ps0 ++ ps) s /\ (identity s = None <-> digest s = None)) as Hgen.
  { induction ps as [|[v now] ps IH]; intros ps0 s0 Hr Hid rs0 Hb; cbn [beats] in Hb.
    - injection Hb as <- _. by rewrite app_nil_r.
    - inv_ok Hb. destruct v0 as [s1 r1]. inv_ok Hb. destruct v0 as [s2 rs2]. injection Hb as <- _.
      apply observe_shows in E as (k & dg & Hs & Ha).
      destruct (advance_remembers _ _ _ _ _ _ _ _ _ Hr Hid Hs (eq_sym Ha)) as [Hr1 Hid1].
      change ((v, now) :: ps) with ([(v, now)] ++ ps). rewrite app_assoc. by apply (IH _ _ Hr1 Hid1 rs2). }
  intros Hb. apply (Hgen [] init) in Hb; [done | intros ? ? [=] | done].
Qed.

Lemma beats_identity path ps s0 s rs : beats path s0 ps = Ok (s, rs) -> ps <> [] -> is_Some (identity s).
Proof.
  intros Hb Hne. assert (forall s1 v now s' r, observe s1 v path now = Ok (s', r) -> is_Some (identity s')) as Hobs.
  { intros s1 v now s' r (k & dg & _ & Ha)%observe_shows. unfold advance in Ha.
    destruct (identity s1) as [k1|] eqn:Ek; simpl in Ha; [|injection Ha as -> _; by eexists].
    destruct (key_eq k k1); simpl in Ha; [|injection Ha as -> _; by eexists].
    destruct (negb _); injection Ha as -> _; simpl; rewrite ?Ek; by eexists. }
  revert s0 rs Hb. induction ps as [|[v now] ps IH]; intros s0 rs Hb; [done|]. cbn [beats] in Hb.
  inv_ok Hb. destruct v0 as [s1 r1]. inv_ok Hb. destruct v0 as [s2 rs2]. injection Hb as <- _.
  destruct ps; [|by eapply IH]. injection E0 as <- _. by eapply Hobs.
Qed.
End HeartbeatHistory.

(** ** Properties *)
Module RouteFactsProperties.

(** The producer's notice that the relay unit is stopped is understood by the
    consumer: whatever clock envelope the server adds, [copy_route_sample] turns it
    into the never-ready relay-unavailable sample of that host. *)
Theorem stopped_relay_understood h env dest recv rb age d :
  host_ok h -> slen dest = 64 -> (0 <= age <= MAX_FACT_AGE)%Q ->
  snd (copy_route_sample "relay-host" (with_clock (stopped_relay_facts h) env)
         (h_machine (hs_identity h)) dest recv rb age d)
  = Ok (Some (Sample false 0 None (Some (hs_mono h)) recv None true None None false false None)).
Proof.
  intros Hh Hd Ha.
  destruct (stopped_relay_body h env dest recv rb age
    (dict_update d [("health", VStr "UNKNOWN"); ("reason", VStr "facts_invalid")]) Hh Hd Ha) as [d' Hb].
  by rewrite (copy_route_sample_of_body _ _ _ _ _ _ _ _ _ _ Hb).
Qed.

(** The producer's notice that the copy unit is stopped is understood by the
    consumer as copy_unit_not_running for its own destination. *)
Theorem stopped_copy_understood h env pid dest recv rb age d :
  host_ok h -> slen dest = 64 -> 0 < pid -> (0 <= age <= MAX_FACT_AGE)%Q ->
  snd (copy_route_sample "relay-host" (with_clock (unavailable_copy_facts h pid dest) env)
         (h_machine (hs_identity h)) dest recv rb age d)
  = Ok (Some (Sample false 0 None None recv None false (Some "copy_unit_not_running") None false false None)).
Proof.
  intros Hh Hd Hp Ha.
  destruct (stopped_copy_body h env pid dest recv rb age
    (dict_update d [("health", VStr "UNKNOWN"); ("reason", VStr "facts_invalid")]) Hh Hd Hp Ha) as [d' Hb].
  by rewrite (copy_route_sample_of_body _ _ _ _ _ _ _ _ _ _ Hb).
Qed.

(** The copy heartbeat measures change, not labels: after any history the
    reported age counts from the record that first had the current digest, the
    digest has not changed since, and confirmed needs an earlier different digest. *)
Theorem heartbeat_age_is_unchanged_time `{Digest} path ps s rs :
  beats path CopyHeartbeat.init ps = Ok (s, rs) -> ps <> [] ->
  exists dg p pre post, ps = pre ++ p :: post /\ snd p = CopyHeartbeat.changed_at s /\
    Forall (fun q => exists k, shows path q k dg) (p :: post) /\
    (CopyHeartbeat.confirmed s = true -> exists q k dg', In q pre /\ shows path q k dg' /\ dg' <> dg).
Proof.
  intros Hb Hne. pose proof (beats_remember _ _ _ _ Hb) as [Hr Hid].
  destruct (beats_identity _ _ _ _ _ Hb Hne) as [k Hk].
  destruct (CopyHeartbeat.digest s) as [dg|] eqn:Ed; [|destruct Hid as [_ Hid]; by rewrite Hid in Hk].
  destruct (Hr k dg Hk Ed) as (p & pre & post & Hps & Hp & Hk' & Hpost & Hc).
  exists dg, p, pre, post. split_and!; try done. by constructor.
Qed.

(** A missing process is reported as stopped only when the unit was empty or
    absent at both ends of the collection: a start that races the read makes the
    collection fail instead. *)
Theorem stopped_needs_two_absences `{Digest} bridge yt inp fwd r hb hb' value :
  collect bridge yt inp fwd r hb = (hb', Ok value) ->
  (get value "relay_availability" <> Ok VNone ->
     media_unit (rd_media1 r) = Err UnitNotRunning /\ media_unit (rd_media2 r) = Err UnitNotRunning) /\
  (media_unit (rd_media1 r) <> Err UnitNotRunning ->
   copy_unit (rd_copy1 r) = Err UnitNotRunning ->
     copy_unit (rd_copy2 r) = Err UnitNotRunning /\ media_unit (rd_media2 r) = media_unit (rd_media1 r)).
Proof.
  unfold collect. intros Hc. destruct (media_unit (rd_media1 r)) as [mp|e] eqn:Em.
  - destruct (copy_unit (rd_copy1 r)) as [cp|e] eqn:Ecp.
    + split; [|done]. intros Hg. exfalso.
      match type of Hc with context [match ?x with Ok _ => _ | Err _ => _ end] => destruct x as [input|] end; [|done].
      destruct (copy_block _ _ _ _ _) as [hb1 part]. injection Hc as _ Hv. inv_ok Hv.
      match type of Hv with context [if ?b then _ else _] => destruct b; [done|] end.
      injection Hv as <-. apply Hg. simpl.
      by destruct (cp_observation v) as [o|], (cp_availability v) as [a|].
    + destruct (not_running e) eqn:En; [|done]. injection Hc as _ Hc. unfold collect_no_copy in Hc. inv_ok Hc.
      destruct (negb (slen v =? 64) || _); [done|].
      destruct (copy_unit (rd_copy2 r)) as [|e2]; [done|]. destruct (not_running e2) eqn:E2; [|done]. inv_ok Hc.
      destruct (Z.eqb_spec v0 mp) as [->|]; [|done]. injection Hc as <-.
      apply bool_decide_eq_true in E2 as ->. split; [by intros []|]. done.
  - destruct (not_running e) eqn:En; [|done]. apply bool_decide_eq_true in En as ->.
    injection Hc as _ Hc. unfold collect_stopped in Hc.
    destruct (media_unit (rd_media2 r)) as [|e2]; [done|]. destruct (not_running e2) eqn:E2; [|done].
    apply bool_decide_eq_true in E2 as ->. done.
Qed.

(** *** Witnesses *)
Fixpoint demo_id (n : nat) : string := match n with O => "" | S n => String "a" (demo_id n) end.
Definition demo_machine_id : string := demo_id 64.
Definition demo_host : host := Host (HostIdentity "b" demo_machine_id) "2026-01-01T00:00:00Z" 9 9.

Lemma stopped_relay_understood_witness :
  snd (copy_route_sample "relay-host" (with_clock (stopped_relay_facts demo_host) VNone)
         demo_machine_id demo_machine_id 52 52 3 [])
  = Ok (Some (Sample false 0 None (Some 9%Q) 52 None true None None false false None)).
Proof.
  apply (stopped_relay_understood demo_host VNone demo_machine_id 52 52 3 []);
    [|reflexivity|split; discriminate].
  repeat split; discriminate.
Defined.

Lemma stopped_copy_understood_witness :
  snd (copy_route_sample "relay-host" (with_clock (unavailable_copy_facts demo_host 7 demo_machine_id) VNone)
         demo_machine_id demo_machine_id 52 52 3 [])
  = Ok (Some (Sample false 0 None None 52 None false (Some "copy_unit_not_running") None false false None)).
Proof.
  apply (stopped_copy_understood demo_host VNone 7 demo_machine_id 52 52 3 []);
    [|reflexivity|reflexivity|split; discriminate].
  repeat split; discriminate.
Defined.

Definition demo_record (n : Z) : pyval :=
  VDict [("schema", VStr "stream_v3.youtube_forward.v1"); ("pid", VInt 8); ("boot_id", VStr "b");
         ("session", VInt 1); ("destination_fingerprint", VStr "d"); ("updated_at", VStr "u");
         ("state", VStr "FLOWING"); ("output_bytes", VInt n); ("video_packets", VInt n);
         ("audio_packets", VInt n); ("last_progress_at", VStr "u")].
Definition demo_record_digest : Digest := fun v => Ok (str_Z (int_val (dget (as_dict v) "output_bytes" VNone))).
Definition demo_beats : CopyHeartbeat.state :=
  match beats (H := demo_record_digest) "p" CopyHeartbeat.init
          [(demo_record 1, 0%Q); (demo_record 2, 5%Q); (demo_record 2, 9%Q)] with
  | Ok (s, _) => s | Err _ => CopyHeartbeat.init end.
Definition demo_reports : list CopyHeartbeat.report :=
  match beats (H := demo_record_digest) "p" CopyHeartbeat.init
          [(demo_record 1, 0%Q); (demo_record 2, 5%Q); (demo_record 2, 9%Q)] with
  | Ok (_, rs) => rs | Err _ => [] end.

Lemma heartbeat_age_is_unchanged_time_witness :
  exists dg p pre post,
    [(demo_record 1, 0%Q); (demo_record 2, 5%Q); (demo_record 2, 9%Q)] = pre ++ p :: post /\
    snd p = CopyHeartbeat.changed_at demo_beats /\
    Forall (fun q => exists k, shows (H := demo_record_digest) "p" q k dg) (p :: post) /\
    (CopyHeartbeat.confirmed demo_beats = true ->
     exists q k dg', In q pre /\ shows (H := demo_record_digest) "p" q k dg' /\ dg' <> dg).
Proof.
  apply (heartbeat_age_is_unchanged_time (H := demo_record_digest) "p"
    [(demo_record 1, 0%Q); (demo_record 2, 5%Q); (demo_record 2, 9%Q)] demo_beats demo_reports);
    [vm_compute; reflexivity | discriminate].
Defined.

Definition demo_absent : unit_read := UnitRead NoUnit (Err EKey).
Definition demo_readings : readings :=
  Readings demo_absent demo_absent demo_absent demo_absent demo_host (Ok "") (Err EKey) (Err EKey) (Err EKey) "p" 0.
Lemma stopped_needs_two_absences_witness :
  (get (stopped_relay_facts demo_host) "relay_availability" <> Ok VNone ->
     media_unit demo_absent = Err UnitNotRunning /\ media_unit demo_absent = Err UnitNotRunning) /\
  (media_unit demo_absent <> Err UnitNotRunning -> copy_unit demo_absent = Err UnitNotRunning ->
     copy_unit demo_absent = Err UnitNotRunning /\ media_unit demo_absent = media_unit demo_absent).
Proof.
  apply (stopped_needs_two_absences (H := demo_record_digest) "bridge" (fun _ => Ok false) None (fun _ => Ok None)
    demo_readings CopyHeartbeat.init CopyHeartbeat.init (stopped_relay_facts demo_host)).
  reflexivity.
Defined.
End RouteFactsProperties.
