(* ===== verification/FastPolicy.v ===== *)
(** * Fast recovery: policy, budgets, streaks and probes
    (src/watchers/fast_recovery_core/{policy,budget,state,decision,
    connectivity_policy,remote_warning,tcp_metrics}.py)

    The pure parts of the fast recovery loop.  The loop's state is the dict it
    saves as JSON; times are integer seconds.  Events appended to the event log are
    returned as a list of kinds and messages; their data payload is not modelled. *)
From Stdlib Require Import Ascii Sorted.
From S2P Require Import Prelude PyVal.

Definition dict : Type := list (string * pyval).
Record event : Type := Event { ev_kind : string; ev_reason : string }.

(** ** policy.py *)
Definition RESTART_FFMPEG : string := "RESTART_FFMPEG".
Definition RECONCILE_FFMPEG : string := "RECONCILE_FFMPEG".
Definition ESCALATE_RUNTIME_RECOVERY : string := "ESCALATE_RUNTIME_RECOVERY".
Definition NO_ACTION : string := "NO_ACTION".

Record RecoveryIntentDecision : Type := Decision {
  reason_kind : string; failure_domain : string; intent_type : string; target_type : string;
  effect_owner : string; effect_scope : string; automatic_retry : bool;
  verification : string; decision_reason : string }.

(** [_decision]: [automatic_retry] is always [False]. *)
Definition decision (kind domain intent target owner scope verif why : string) : RecoveryIntentDecision :=
  Decision kind domain intent target owner scope false verif why.

Section Policy.
Context `{Repr}.

(** [str(observation.get(k) or dflt)] *)
Definition text_or (observation : dict) (k dflt : string) : string :=
  py_str (py_or (dget observation k VNone) (VStr dflt)).

Definition select_recovery_intent (kind : string) (observation : dict) : RecoveryIntentDecision :=
  if bool_decide (kind ∈ ["tcp_stall"; "remote_warning"]) then
    decision kind "DELIVERY_PATH" RESTART_FFMPEG "FfmpegTargetIdentity" "stream-engine-effect-executor"
      "ffmpeg_child" "new exact FFmpeg generation and positive transport progress"
      "legacy k8s policy terminates the current FFmpeg child"
  else if String.eqb kind "ffmpeg_missing" then
    let runtime_valid := String.eqb (text_or observation "runtime_snapshot_status" "") "VALID"
                         && is_dict (dget observation "runtime_identity" VNone) in
    let lifecycle := text_or observation "runtime_lifecycle_state" "UNKNOWN" in
    let cardinality := text_or observation "managed_child_cardinality" "UNKNOWN" in
    if runtime_valid && String.eqb lifecycle "RESTART_DELAY" && String.eqb cardinality "0" then
      decision kind "FFMPEG_LOCAL" RECONCILE_FFMPEG "RuntimeIdentity" "stream-engine-effect-executor"
        "ffmpeg_child_convergence" "exactly one new managed FFmpeg child observed"
        "owner runtime is stable and waiting to restart a missing child"
    else if runtime_valid && String.eqb cardinality "1" then
      decision kind "OBSERVATION_SKEW" NO_ACTION "RuntimeIdentity" "none" "none"
        "refresh observation" "runtime already owns one managed FFmpeg child"
    else if runtime_valid && bool_decide (lifecycle ∈ ["INITIALIZING"; "STARTING_FFMPEG"; "CONNECTIVITY_WAIT"; "STOPPING"]) then
      decision kind "STARTUP_OR_CONNECTIVITY_TRANSIENT" NO_ACTION "RuntimeIdentity" "none" "none"
        "wait for lifecycle transition and fresh observation"
        ("runtime lifecycle " ++ lifecycle ++ " is not a reconcile boundary")%string
    else if runtime_valid && negb (bool_decide (cardinality ∈ ["2+"; "UNKNOWN"])) then
      decision kind "RUNTIME_LOCAL" ESCALATE_RUNTIME_RECOVERY "RuntimeIdentity"
        "legacy-runtime-recovery-adapter" "runtime"
        "new runtime and FFmpeg identity with transport progress"
        "missing child cannot be safely reconciled by the narrow executor"
    else
      decision kind "UNKNOWN" NO_ACTION "RuntimeIdentity" "none" "none"
        "obtain fresh runtime identity and exact child cardinality"
        "runtime identity or child cardinality is unavailable/unsafe"
  else if String.eqb kind "network_down" then
    decision kind "UNKNOWN_NETWORK" NO_ACTION "none" "none" "none" "connectivity recovery observation"
      "production branch persists connectivity wait and returns without mutation"
  else if bool_decide (kind ∈ ["low_upload_pressure"; "healthy"; "startup_transient"; "target_unavailable"; ""]) then
    decision kind "NONE_OR_INSUFFICIENT_EVIDENCE" NO_ACTION "none" "none" "none" "continued observation"
      "legacy policy does not select a physical recovery effect"
  else
    decision kind "UNKNOWN" NO_ACTION "none" "none" "none" "policy inventory update required"
      "UNMODELED_POLICY_PATH".
End Policy.

(** ** budget.py and the restart history of state.py *)

(** A restart event after trimming. *)
Record restart_event : Type := RestartEvent { re_ts : Z; re_downtime : Z; re_reason : string }.

Fixpoint sum_downtime (events : list restart_event) (now_ts window_sec cost : Z) : Z :=
  match events with
  | [] => 0
  | e :: events' =>
      (if (re_ts e <=? 0) || (window_sec <? now_ts - re_ts e) then 0
       else if re_downtime e =? 0 then cost else re_downtime e)
      + sum_downtime events' now_ts window_sec cost
  end.
Definition used_downtime_budget_sec (events : list restart_event) (now_ts window_sec cost : Z) : Z :=
  Z.max 0 (sum_downtime events now_ts window_sec cost).

Definition emergency_budget_override_active (kind : string) (first_ts now_ts override_sec : Z) : bool :=
  if override_sec <=? 0 then false
  else if negb (bool_decide (kind ∈ ["remote_warning"; "network_down"; "tcp_stall"; "low_upload_pressure"])) then false
  else if first_ts <=? 0 then false
  else override_sec <=? now_ts - first_ts.

Definition restart_failure_backoff_left (now_ts last_restart_failure_ts backoff_sec : Z) : Z :=
  if (last_restart_failure_ts <=? 0) || (backoff_sec <=? 0) then 0
  else let left := last_restart_failure_ts + backoff_sec - now_ts in if 0 <? left then left else 0.

Section Trim.
Context `{Repr}.

(** [isinstance(item, int)], [bool] included. *)
Definition int_like (v : pyval) : option Z :=
  match v with VInt z => Some z | VBool b => Some (Z.b2z b) | _ => None end.

(** One item of [trim_restart_events]: [None] is [continue]. *)
Definition trim_item (item : pyval) (now_ts cost : Z) : res (option restart_event) :=
  let keep (ts downtime : Z) (reason : string) :=
    Ok (if (ts <=? 0) || (86400 <? now_ts - ts) then None
        else Some (RestartEvent ts (Z.max 1 downtime) reason)) in
  match int_like item, item with
  | Some ts, _ => keep ts cost "legacy"
  | None, VDict d =>
      match int0 d "ts" with
      | Err (EType | EValue _) => Ok None
      | Err e => Err e
      | Ok ts =>
          let! downtime :=
            match py_int (py_or (dget d "downtime_sec" (VInt cost)) (VInt cost)) with
            | Err (EType | EValue _) => Ok cost
            | r => r
            end in
          keep ts downtime (py_str (dget d "reason" (VStr "")))
      end
  | None, _ => Ok None
  end.

Fixpoint trim_items (items : list pyval) (now_ts cost : Z) : res (list restart_event) :=
  match items with
  | [] => Ok []
  | i :: items' =>
      let! e := trim_item i now_ts cost in
      let! rest := trim_items items' now_ts cost in
      Ok (match e with Some e => e :: rest | None => rest end)
  end.

(** [list.sort(key=...)] is stable: insertion from the right. *)
Fixpoint insert_event (e : restart_event) (l : list restart_event) : list restart_event :=
  match l with
  | [] => [e]
  | x :: l' => if re_ts e <=? re_ts x then e :: l else x :: insert_event e l'
  end.
Fixpoint sort_events (l : list restart_event) : list restart_event :=
  match l with [] => [] | e :: l' => insert_event e (sort_events l') end.

Definition trim_restart_events (raw : pyval) (now_ts cost : Z) : res (list restart_event) :=
  let! es := trim_items (match raw with VList l => l | _ => [] end) now_ts cost in
  Ok (sort_events es).
End Trim.

Definition event_py (e : restart_event) : pyval :=
  VDict [("ts", VInt (re_ts e)); ("downtime_sec", VInt (re_downtime e)); ("reason", VStr (re_reason e))].
Definition events_py (es : list restart_event) : pyval := VList (map event_py es).

(** [list(deque(items, maxlen=n))]: the last [n]. *)
Definition last_n {A} (n : nat) (l : list A) : list A := drop (length l - n) l.
Definition trim_samples (raw : pyval) (maxlen : nat) : list pyval :=
  match raw with VList l => last_n maxlen (List.filter is_dict l) | _ => [] end.

(** ** decision.py *)
Record TcpObservation : Type := Tcp {
  metrics : dict; bytes_sent : Z; prev_bytes_sent : Z; prev_bytes_ts : Z; bytes_delta : Z;
  bytes_elapsed_sec : Z; send_mbps_value : option Q; notsent : Z; unacked : Z; lastsnd_ms : Z;
  stall_now : bool; low_upload_pressure : bool }.
Record NetworkObservation : Type := Network {
  gateway : string; gateway_ok : bool; public_ok_count : Z; dns_ok : bool; tcp_probe_ok : bool;
  network_down : bool }.
Record RestartReason : Type := Reason { r_kind : string; r_reason : string; first_ts : Z }.

(** The thresholds [tcp_observation] is called with. *)
Record thresholds : Type := Thresholds {
  th_stall_lastsnd : Z; th_stall_notsent : Z; th_stall_unacked : Z;
  th_low_enabled : bool; th_low_mbps : Q; th_low_notsent : Z; th_low_unacked : Z; th_low_lastsnd : Z }.

Definition reset_pid_dependent_state (state : dict) (pid : Z) : res dict :=
  let! p := py_int (dget state "last_pid" (VInt 0)) in
  Ok (if p =? pid then state
      else dict_update state [("stall_streak", VInt 0); ("low_upload_pressure_streak", VInt 0);
                              ("last_bytes_sent", VInt 0); ("last_bytes_sent_ts", VInt 0)]).

(** tcp_metrics.py: [send_mbps] and [low_upload_pressure_now]. *)
Definition send_mbps (delta elapsed : Z) : option Q :=
  if elapsed <=? 0 then None
  else Some (round3 (inject_Z (Z.max 0 delta * 8) / inject_Z (elapsed * 1000000))%Q).

Definition low_upload_pressure_now (th : thresholds) (m : dict) (elapsed : Z) (mbps : option Q)
    (ns ua ls : Z) (down probe stall : bool) : bool :=
  let pressure := (th_low_notsent th <=? ns) || (th_low_unacked th <=? ua) || (th_low_lastsnd th <=? ls) in
  th_low_enabled th && truthy (VDict m) && (0 <? elapsed)
  && match mbps with Some x => Qleb x (th_low_mbps th) | None => false end
  && pressure && negb down && probe && negb stall.

Definition tcp_observation (state : dict) (now_ts : Z) (m : dict) (th : thresholds) (down probe : bool)
  : res TcpObservation :=
  let! sent := py_int (dget m "bytes_sent" (VInt 0)) in
  let! ns := py_int (dget m "notsent" (VInt 0)) in
  let! ua := py_int (dget m "unacked" (VInt 0)) in
  let! ls := py_int (dget m "lastsnd_ms" (VInt 0)) in
  let! prev := int0 state "last_bytes_sent" in
  let! prev_ts := int0 state "last_bytes_sent_ts" in
  let delta := Z.max 0 (sent - prev) in
  let elapsed := if 0 <? prev_ts then Z.max 0 (now_ts - prev_ts) else 0 in
  let mbps := send_mbps delta elapsed in
  let stall := truthy (VDict m) && (delta =? 0) && (th_stall_lastsnd th <=? ls)
               && ((th_stall_notsent th <=? ns) || (th_stall_unacked th <=? ua)) in
  Ok (Tcp m sent prev prev_ts delta elapsed mbps ns ua ls stall
        (low_upload_pressure_now th m elapsed mbps ns ua ls down probe stall)).

Definition network_observation (gw : string) (gw_ok : bool) (public : Z) (dns probe : bool) : NetworkObservation :=
  Network gw gw_ok public dns probe
    ((negb dns && negb probe) || (negb gw_ok && (public =? 0) && negb probe)).

(** The new streak and the state holding it. *)
Definition update_streak (state : dict) (key : string) (active : bool) : res (dict * Z) :=
  let! streak := (if active then let! n := int0 state key in Ok (n + 1) else Ok 0) in
  Ok (dict_set key (VInt streak) state, streak).

Definition bool_str (b : bool) : string := if b then "True" else "False".

(** [select_restart_reason]: the two unused low-upload arguments are left out. *)
Definition select_restart_reason (state : dict) (url_preservation : bool) (warn_streak warn_confirm : Z)
    (warn_reason : string) (network : NetworkObservation) (net_confirm stall_confirm : Z)
    (tcp : TcpObservation) : res (string * string) :=
  if url_preservation && (warn_confirm <=? warn_streak)
  then Ok ("remote_warning", ("youtube pre-loss warning while broadcast live: " ++ warn_reason)%string)
  else
    let! net := py_int (dget state "net_fail_streak" (VInt 0)) in
    if net_confirm <=? net
    then Ok ("network_down",
             ("network down: gw_ok=" ++ bool_str (gateway_ok network) ++ " public_ok_count="
              ++ str_Z (public_ok_count network) ++ " dns_ok=" ++ bool_str (dns_ok network)
              ++ " tcp_probe_ok=" ++ bool_str (tcp_probe_ok network))%string)
    else
      let! stall := py_int (dget state "stall_streak" (VInt 0)) in
      if stall_confirm <=? stall
      then Ok ("tcp_stall",
               ("tcp stall: bytes_delta=" ++ str_Z (bytes_delta tcp) ++ " lastsnd_ms=" ++ str_Z (lastsnd_ms tcp)
                ++ " notsent=" ++ str_Z (notsent tcp) ++ " unacked=" ++ str_Z (unacked tcp))%string)
      else Ok ("", "").

Definition update_active_reason `{Repr} (state : dict) (now_ts : Z) (kind reason : string)
  : res (dict * RestartReason) :=
  if negb (String.eqb reason "") then
    let state1 := if negb (String.eqb (py_str (dget state "active_reason_kind" (VStr ""))) kind)
                  then dict_update state [("active_reason_kind", VStr kind); ("active_reason_first_ts", VInt now_ts)]
                  else state in
    let! first := py_int (py_or (dget state1 "active_reason_first_ts" (VInt now_ts)) (VInt now_ts)) in
    Ok (state1, Reason kind reason first)
  else Ok (dict_pop "active_reason_first_ts" (dict_pop "active_reason_kind" state), Reason kind reason 0).

Definition mark_latest_transport_sample (state : dict) (pid sent now_ts : Z) (last_reason : option string) : dict :=
  dict_update state ([("last_pid", VInt pid); ("last_bytes_sent", VInt sent); ("last_bytes_sent_ts", VInt now_ts)]
                     ++ match last_reason with Some r => [("last_reason", VStr r)] | None => [] end).

Definition clear_recovery_streaks (state : dict) : dict :=
  dict_update state
    [("net_fail_streak", VInt 0); ("stall_streak", VInt 0); ("low_upload_pressure_streak", VInt 0);
     ("remote_warning_streak", VInt 0); ("remote_warning_last_stats_ts", VInt 0);
     ("remote_warning_last_sample_key", VStr ""); ("remote_warning_last_probe_ts", VInt 0);
     ("remote_warning_context_key", VStr ""); ("remote_warning_recovery_episode_id", VStr "");
     ("remote_warning_ffmpeg_generation", VStr "")].

(** [sample_row]: the metrics are read again with [int(... or 0)]. *)
Definition opt_float (o : option Q) : pyval := match o with Some q => VFloat (Fin q) | None => VNone end.
Definition sample_row (now_ts pid : Z) (tcp : TcpObservation) (down warning : bool) : res pyval :=
  let! acked := int0 (metrics tcp) "bytes_acked" in
  let! send_q := int0 (metrics tcp) "send_q" in
  let! rto := int0 (metrics tcp) "rto_ms" in
  Ok (VDict [("ts", VInt now_ts); ("pid", VInt pid); ("bytes_sent_delta", VInt (bytes_delta tcp));
             ("bytes_sent", VInt (bytes_sent tcp)); ("bytes_acked", VInt acked); ("send_q", VInt send_q);
             ("notsent", VInt (notsent tcp)); ("unacked", VInt (unacked tcp)); ("lastsnd_ms", VInt (lastsnd_ms tcp));
             ("rto_ms", VInt rto); ("network_down", VBool down); ("remote_warning", VBool warning);
             ("low_upload_pressure", VBool (low_upload_pressure tcp)); ("send_mbps", opt_float (send_mbps_value tcp))]).

(** ** connectivity_policy.py: the new state and the events appended *)
Definition network_fields (n : NetworkObservation) : dict :=
  [("connectivity_gateway_present", VBool (negb (String.eqb (gateway n) "")));
   ("connectivity_gateway_ok", VBool (gateway_ok n)); ("connectivity_public_ok_count", VInt (public_ok_count n));
   ("connectivity_dns_ok", VBool (dns_ok n)); ("connectivity_tcp_probe_ok", VBool (tcp_probe_ok n))].

Definition mark_wait (state : dict) (now_ts : Z) (n : NetworkObservation) : dict * list event :=
  let was_active := is_true (dget state "connectivity_wait_active" VNone) in
  let state1 := if was_active then state else dict_set "connectivity_wait_since_ts" (VInt now_ts) state in
  (dict_update state1
     ([("connectivity_wait_active", VBool true); ("connectivity_last_observed_ts", VInt now_ts)] ++ network_fields n
      ++ [("last_reason", VStr "network unavailable; runtime restart suppressed until connectivity recovers")]),
   if was_active then []
   else [Event "connectivity_wait" "network unavailable; runtime restart intentionally suppressed"]).

Definition clear_wait (state : dict) (now_ts : Z) (n : option NetworkObservation) : res (dict * list event) :=
  let! (state1, evs) :=
    if is_true (dget state "connectivity_wait_active" VNone) then
      let! since := py_int (py_or (dget state "connectivity_wait_since_ts" (VInt now_ts)) (VInt now_ts)) in
      Ok (dict_set "connectivity_recovered_ts" (VInt now_ts) state,
          [Event "connectivity_recovered" "network probes recovered; normal fast recovery actions re-enabled"])
    else Ok (state, []) in
  let state2 := dict_update state1 [("connectivity_wait_active", VBool false);
                                    ("connectivity_last_observed_ts", VInt now_ts)] in
  Ok (match n with Some n => dict_update state2 (network_fields n) | None => state2 end, evs).

(** ** Correctness *)
Module FastPolicyProperties.

(** The text of containers in the concrete inputs, which hold none. *)
Definition no_repr : Repr := fun _ => "".

(** What an observation must show before a child may be reconciled. *)
Definition runtime_valid `{Repr} (o : dict) : Prop :=
  text_or o "runtime_snapshot_status" "" = "VALID" /\ is_dict (dget o "runtime_identity" VNone) = true.

(** The policy never retries by itself and selects a physical effect only on
    its evidence: the delivery restart exactly for a confirmed stall or remote
    warning, the reconcile only for a missing child of a VALID runtime that waits
    in RESTART_DELAY with cardinality 0, the escalation only for a VALID runtime
    whose child count is known and is not one; every other decision has no
    effect owner. *)
Theorem physical_effect_needs_evidence `{Repr} kind o :
  let d := select_recovery_intent kind o in
  automatic_retry d = false /\
  (intent_type d = RESTART_FFMPEG <-> kind = "tcp_stall" \/ kind = "remote_warning") /\
  (intent_type d = RECONCILE_FFMPEG <->
     kind = "ffmpeg_missing" /\ runtime_valid o /\
     text_or o "runtime_lifecycle_state" "UNKNOWN" = "RESTART_DELAY" /\
     text_or o "managed_child_cardinality" "UNKNOWN" = "0") /\
  (intent_type d = ESCALATE_RUNTIME_RECOVERY ->
     kind = "ffmpeg_missing" /\ runtime_valid o /\
     text_or o "managed_child_cardinality" "UNKNOWN" ∉ ["1"; "2+"; "UNKNOWN"]) /\
  (intent_type d = NO_ACTION <-> effect_owner d = "none") /\
  intent_type d ∈ [RESTART_FFMPEG; RECONCILE_FFMPEG; ESCALATE_RUNTIME_RECOVERY; NO_ACTION].
Proof.
  intros d. subst d. unfold select_recovery_intent, runtime_valid.
  destruct (bool_decide_reflect (kind ∈ ["tcp_stall"; "remote_warning"])) as [Hk|Hk].
  { rewrite elem_of_cons, list_elem_of_singleton in Hk. destruct Hk as [-> | ->]; cbn; intuition (try congruence); set_solver. }
  rewrite elem_of_cons, list_elem_of_singleton in Hk.
  destruct (String.eqb_spec kind "ffmpeg_missing") as [->|Hm].
  2: { destruct (String.eqb kind "network_down"); [|case_bool_decide]; cbn;
       intuition (try congruence); set_solver. }
  destruct (String.eqb_spec (text_or o "runtime_snapshot_status" "") "VALID") as [Hv|Hv];
    destruct (is_dict (dget o "runtime_identity" VNone)) eqn:Hd; cbn [andb].
  2-4: cbn; intuition (try congruence); set_solver.
  set (l := text_or o "runtime_lifecycle_state" "UNKNOWN").
  set (c := text_or o "managed_child_cardinality" "UNKNOWN").
  destruct (String.eqb_spec l "RESTART_DELAY") as [Hl|Hl];
    destruct (String.eqb_spec c "0") as [Hc|Hc]; cbn [andb];
    try (destruct (String.eqb_spec c "1") as [Hc1|Hc1]); try rewrite Hl; try rewrite Hc; try rewrite Hc1;
    repeat case_bool_decide; cbn; intuition (try congruence); try set_solver.
Qed.

(** ** Restart history and budgets *)
Definition in_window (now window : Z) (e : restart_event) : bool := (0 <? re_ts e) && (now - re_ts e <=? window).
Definition kept (now : Z) (e : restart_event) : Prop := in_window now 86400 e = true /\ 1 <= re_downtime e.
Definition by_ts (a b : restart_event) : Prop := re_ts a <= re_ts b.

Lemma in_window_negb now window e : in_window now window e = negb ((re_ts e <=? 0) || (window <? now - re_ts e)).
Proof. unfold in_window. by rewrite negb_orb, <- Z.ltb_antisym, <- Z.leb_antisym. Qed.

Lemma insert_event_perm e l : insert_event e l ≡ₚ e :: l.
Proof.
  induction l as [|x l IH]; simpl; [done|]. destruct (re_ts e <=? re_ts x); [done|].
  rewrite IH. by rewrite Permutation_swap.
Qed.
Lemma sort_events_perm l : sort_events l ≡ₚ l.
Proof. induction l as [|e l IH]; simpl; [done|]. by rewrite insert_event_perm, IH. Qed.
Lemma insert_event_sorted e l : StronglySorted by_ts l -> StronglySorted by_ts (insert_event e l).
Proof.
  unfold by_ts. induction 1 as [|x l Hs IH Hf]; simpl; [repeat constructor|].
  destruct (Z.leb_spec (re_ts e) (re_ts x)); constructor; auto.
  - by constructor.
  - constructor; [done|]. rewrite Forall_forall in *. intros y Hy. specialize (Hf y Hy). lia.
  - rewrite insert_event_perm. constructor; [lia | done].
Qed.
Lemma sort_events_sorted l : StronglySorted by_ts (sort_events l).
Proof. induction l; simpl; [constructor | by apply insert_event_sorted]. Qed.

Lemma insert_event_head e l : Forall (by_ts e) l -> insert_event e l = e :: l.
Proof. destruct 1; simpl; [done|]. by rewrite (proj2 (Z.leb_le _ _)). Qed.
Lemma sort_events_id l : StronglySorted by_ts l -> sort_events l = l.
Proof. induction 1 as [|e l Hs IH Hf]; simpl; [done|]. rewrite IH. by apply insert_event_head. Qed.

Lemma trim_item_kept `{Repr} v now cost e : trim_item v now cost = Ok (Some e) -> kept now e.
Proof.
  intros Hr.
  assert (Hk : forall ts dt r, Ok (if (ts <=? 0) || (86400 <? now - ts) then None
            else Some (RestartEvent ts (Z.max 1 dt) r)) = Ok (Some e) -> kept now e).
  { intros ts dt r Hx. destruct (_ || _) eqn:E; [done|]. injection Hx as <-. bools. unfold kept, in_window; simpl.
    split; [bools|]; lia. }
  unfold trim_item in Hr. destruct (int_like v); [eauto|]. destruct v; try discriminate Hr.
  destruct (int0 d "ts") as [ts|[]]; try discriminate Hr.
  destruct (py_int _) as [dt|[]]; cbn [rbind] in Hr; try discriminate Hr; eauto.
Qed.

Lemma trim_items_kept `{Repr} l now cost es : trim_items l now cost = Ok es -> Forall (kept now) es.
Proof.
  revert es. induction l as [|v l IH]; simpl; intros es Hr; [injection Hr as <-; constructor|].
  inv_ok Hr. injection Hr as <-. destruct v0; [constructor|]; eauto using trim_item_kept.
Qed.

Lemma trim_event_py `{Repr} e now cost :
  1 <= re_downtime e ->
  trim_item (event_py e) now cost = Ok (if in_window now 86400 e then Some e else None).
Proof.
  intros Hd. rewrite in_window_negb. unfold trim_item, event_py, int_like, int0. cbn.
  assert (Ht : py_int (py_or (VInt (re_ts e)) (VInt 0)) = Ok (re_ts e)).
  { unfold py_or; simpl. destruct (Z.eqb_spec (re_ts e) 0) as [->|]; done. }
  assert (Hdt : py_int (py_or (VInt (re_downtime e)) (VInt cost)) = Ok (re_downtime e)).
  { unfold py_or; simpl. destruct (Z.eqb_spec (re_downtime e) 0); [lia | done]. }
  unfold dget; cbn in *. rewrite Ht. cbn. rewrite Hdt. cbn.
  rewrite Z.max_r by lia.
  destruct (_ || _); [done|]. by destruct e.
Qed.

Lemma trim_items_events `{Repr} es now cost : Forall (fun e => 1 <= re_downtime e) es ->
  trim_items (map event_py es) now cost = Ok (List.filter (in_window now 86400) es).
Proof.
  induction 1 as [|e es He Hes IH]; simpl; [done|].
  rewrite trim_event_py by done. cbn [rbind]. rewrite IH. cbn [rbind]. by destruct (in_window now 86400 e).
Qed.

Lemma filter_strongly_sorted p l : StronglySorted by_ts l -> StronglySorted by_ts (List.filter p l).
Proof.
  induction 1 as [|e l Hs IH Hf]; simpl; [constructor|]. destruct (p e); [|done]. constructor; [done|].
  rewrite Forall_forall in *. intros x Hx%list_elem_of_In%filter_In. apply Hf, list_elem_of_In, Hx.
Qed.

(** Whatever the stored history holds, trimming it yields events in time
    order, within the last day and with positive downtime; writing such a history
    to the state and trimming it at any later time [now'] returns exactly the
    events still within the day. *)
Theorem restart_history_reload `{Repr} raw now cost es (Ht : trim_restart_events raw now cost = Ok es) :
  StronglySorted by_ts es /\ Forall (kept now) es /\
  forall now' cost', trim_restart_events (events_py es) now' cost' = Ok (List.filter (in_window now' 86400) es).
Proof.
  unfold trim_restart_events in Ht. inv_ok Ht. injection Ht as <-. apply trim_items_kept in E.
  assert (Hf : Forall (kept now) (sort_events v)) by by rewrite sort_events_perm.
  split_and!; [apply sort_events_sorted | done | intros now' cost'].
  unfold trim_restart_events, events_py. rewrite trim_items_events.
  - cbn [rbind]. rewrite sort_events_id; [done|]. apply filter_strongly_sorted, sort_events_sorted.
  - eapply Forall_impl; [exact Hf|]. by intros ? [_ ?].
Qed.

Lemma restart_history_reload_witness :
  let r := no_repr in exists es, trim_restart_events (VList [VInt 900; VDict [("ts", VInt 500); ("downtime_sec", VInt 0)]; VStr "x"; VInt (-1)]) 1000 30 = Ok es
  /\ (StronglySorted by_ts es /\ Forall (kept 1000) es /\
      forall now' cost', trim_restart_events (events_py es) now' cost' = Ok (List.filter (in_window now' 86400) es)).
Proof. intros r. eexists. split; [vm_compute; reflexivity|]. apply (restart_history_reload (VList [VInt 900; VDict [("ts", VInt 500); ("downtime_sec", VInt 0)]; VStr "x"; VInt (-1)]) 1000 30). vm_compute. reflexivity. Defined.

(** The downtime a window accounts for, as a sum over the events inside it. *)
Definition window_cost (es : list restart_event) (now window : Z) : Z :=
  foldr (fun e acc => re_downtime e + acc) 0 (List.filter (in_window now window) es).

Lemma sum_downtime_window es now window cost : Forall (fun e => 1 <= re_downtime e) es ->
  sum_downtime es now window cost = window_cost es now window.
Proof.
  unfold window_cost. induction 1 as [|e es He Hes IH]; simpl; [done|].
  rewrite in_window_negb, IH. destruct (_ || _); simpl; [done|]. destruct (Z.eqb_spec (re_downtime e) 0); lia.
Qed.

Lemma window_cost_mono es now w1 w2 : Forall (fun e => 1 <= re_downtime e) es -> w1 <= w2 ->
  0 <= window_cost es now w1 <= window_cost es now w2.
Proof.
  unfold window_cost. intros Hf Hw. induction Hf as [|e es He Hes IH]; simpl; [lia|].
  destruct (in_window now w1 e) eqn:E1, (in_window now w2 e) eqn:E2; simpl; try lia.
  unfold in_window in *. bools. lia.
Qed.

(** On a trimmed history the used budget is exactly the downtime of the events
    inside the window: it is never negative, the hourly use never exceeds the
    daily use, and one more restart now raises it by its own downtime. *)
Theorem budget_accounts_window `{Repr} raw now cost es (Ht : trim_restart_events raw now cost = Ok es) :
  (forall window, used_downtime_budget_sec es now window cost = window_cost es now window) /\
  (forall w1 w2, w1 <= w2 -> 0 <= used_downtime_budget_sec es now w1 cost <= used_downtime_budget_sec es now w2 cost) /\
  (forall window dt r, 0 <= window -> 0 < now -> 1 <= dt ->
     used_downtime_budget_sec (es ++ [RestartEvent now dt r]) now window cost
     = used_downtime_budget_sec es now window cost + dt).
Proof.
  unfold trim_restart_events in Ht. inv_ok Ht. injection Ht as <-. apply trim_items_kept in E.
  assert (Hf : Forall (fun e => 1 <= re_downtime e) (sort_events v)).
  { rewrite sort_events_perm. eapply Forall_impl; [exact E|]. by intros ? [_ ?]. }
  assert (Hu : forall window, used_downtime_budget_sec (sort_events v) now window cost = window_cost (sort_events v) now window).
  { intros w. unfold used_downtime_budget_sec. rewrite sum_downtime_window by done.
    pose proof (window_cost_mono _ now w w Hf). lia. }
  split_and!; [done | intros w1 w2 Hw; rewrite !Hu; by apply window_cost_mono|].
  intros w dt r Hw Hn Hdt. unfold used_downtime_budget_sec at 1.
  rewrite sum_downtime_window by (apply Forall_app_2; [done | by constructor]).
  assert (Ew : in_window now w (RestartEvent now dt r) = true) by (unfold in_window; simpl; bools; lia).
  rewrite Hu. unfold window_cost. rewrite List.filter_app, foldr_app. cbn [List.filter]. rewrite Ew. cbn [foldr re_downtime].
  pose proof (window_cost_mono _ now w w Hf) as Hge. unfold window_cost in Hge.
  assert (Hs : forall (l : list restart_event) b, foldr (fun e acc => re_downtime e + acc) b l
             = foldr (fun e acc => re_downtime e + acc) 0 l + b).
  { intros l b. induction l; simpl; lia. }
  rewrite Hs. lia.
Qed.

Lemma budget_accounts_window_witness :
  let r := no_repr in exists es, trim_restart_events (VList [VInt 900; VInt 500]) 1000 30 = Ok es
  /\ used_downtime_budget_sec es 1000 300 30 = 30 /\ used_downtime_budget_sec es 1000 3600 30 = 60
  /\ forall window, used_downtime_budget_sec es 1000 window 30 = window_cost es 1000 window.
Proof.
  intros r. eexists. split; [vm_compute; reflexivity|]. split_and!; [reflexivity | reflexivity|].
  apply (budget_accounts_window (VList [VInt 900; VInt 500]) 1000 30). vm_compute. reflexivity.
Defined.

(** ** Streaks *)

(** The number of trailing [true]s. *)
Fixpoint trailing (acc : Z) (l : list bool) : Z :=
  match l with [] => acc | b :: l' => trailing (if b then acc + 1 else 0) l' end.

(** The streak after a history of samples. *)
Fixpoint streak_run (key : string) (state : dict) (l : list bool) : res dict :=
  match l with
  | [] => Ok state
  | b :: l' => let! (s, _) := update_streak state key b in streak_run key s l'
  end.

Lemma int0_set_eq k z (d : dict) : int0 (dict_set k (VInt z) d) k = Ok z.
Proof. unfold int0, dget. rewrite dict_get_set_eq. unfold py_or; simpl. destruct (Z.eqb_spec z 0) as [->|]; done. Qed.

Lemma streak_run_from key l : forall state n, int0 state key = Ok n ->
  exists s, streak_run key state l = Ok s /\ int0 s key = Ok (trailing n l) /\
            (forall k, k <> key -> dict_get k s = dict_get k state).
Proof.
  induction l as [|b l IH]; intros state n Hn; simpl; [eauto|].
  unfold update_streak. assert (E : (if b then let! n := int0 state key in Ok (n + 1) else Ok 0) = Ok (if b then n + 1 else 0)).
  { destruct b; [|done]. by rewrite Hn. }
  rewrite E. cbn [rbind].
  destruct (IH (dict_set key (VInt (if b then n + 1 else 0)) state) _ (int0_set_eq _ _ _)) as (s & -> & ? & Hk).
  eexists; split_and!; eauto. intros k Hne. rewrite Hk by done. by apply dict_get_set_ne.
Qed.

Lemma trailing_app acc l l' : trailing acc (l ++ l') = trailing (trailing acc l) l'.
Proof. revert acc. induction l; simpl; auto. Qed.

(** The trailing count reaches [n] only over [n] samples in a row. *)
Lemma trailing_reaches n l acc : 0 <= acc -> acc + Z.of_nat n <= trailing acc l -> acc = 0 ->
  exists pre, l = pre ++ repeat true n.
Proof.
  intros Ha Hr ->. revert n Hr. induction l as [|b l IH] using rev_ind; intros n Hr.
  { destruct n; [by exists []|]. simpl in Hr. lia. }
  rewrite trailing_app in Hr. simpl in Hr. destruct n as [|n]; [exists (l ++ [b]); by rewrite app_nil_r|].
  destruct b; [|lia]. destruct (IH n) as [pre ->]; [lia|]. exists pre.
  rewrite <- app_assoc. f_equal. symmetry. apply repeat_cons.
Qed.

(** With any history of samples since the streak was cleared, a transport
    stall is selected as the restart reason only when the last [stall_confirm]
    samples were all stalls, and a network outage only when the last
    [net_confirm] samples were all outages; low upload pressure is never a
    reason. *)
Theorem reason_needs_consecutive_samples state stalls nets s1 s2 up ws wc why net confirm_net confirm_stall tcp kind reason
  (H0 : int0 state "stall_streak" = Ok 0) (H1 : int0 state "net_fail_streak" = Ok 0)
  (Hs : streak_run "stall_streak" state stalls = Ok s1) (Hn : streak_run "net_fail_streak" s1 nets = Ok s2)
  (Hr : select_restart_reason s2 up ws wc why net (Z.of_nat confirm_net) (Z.of_nat confirm_stall) tcp = Ok (kind, reason)) :
  kind ∈ [""; "remote_warning"; "network_down"; "tcp_stall"] /\
  (kind = "remote_warning" -> up = true /\ wc <= ws) /\
  (kind = "network_down" -> exists pre, nets = pre ++ repeat true confirm_net) /\
  (kind = "tcp_stall" -> exists pre, stalls = pre ++ repeat true confirm_stall).
Proof.
  destruct (streak_run_from "stall_streak" stalls state 0 H0) as (x & E & Hx & Hkeep).
  rewrite Hs in E. injection E as <-.
  assert (H1' : int0 s1 "net_fail_streak" = Ok 0).
  { unfold int0, dget in *. by rewrite Hkeep. }
  destruct (streak_run_from "net_fail_streak" nets s1 0 H1') as (y & E & Hy & Hkeep2).
  rewrite Hn in E. injection E as <-.
  assert (Hst : int0 s2 "stall_streak" = Ok (trailing 0 stalls)).
  { unfold int0, dget in *. by rewrite Hkeep2. }
  assert (Hv : forall k n, int0 s2 k = Ok n -> 0 < n -> py_int (dget s2 k (VInt 0)) = Ok n).
  { intros k n Hi Hp. unfold int0, py_or in Hi. destruct (truthy (dget s2 k (VInt 0))); [done|].
    injection Hi as <-. lia. }
  assert (Hz : forall k n m, int0 s2 k = Ok n -> py_int (dget s2 k (VInt 0)) = Ok m -> m = n).
  { intros k n m Hi Hm. unfold int0, py_or in Hi. destruct (truthy (dget s2 k (VInt 0))) eqn:Et; [congruence|].
    injection Hi as <-. destruct (dget s2 k (VInt 0)) as [|[]|z|[q| | |]|str| |]; simpl in *; try congruence; try discriminate Et.
    - apply negb_false_iff, Z.eqb_eq in Et. congruence.
    - apply negb_false_iff in Et. apply Qeq_bool_iff in Et. injection Hm as <-. unfold Qtrunc. 
      assert (Qleb 0 q = true) as -> by (apply Qleb_true; lra). by rewrite Et.
    - apply negb_false_iff, String.eqb_eq in Et. subst. discriminate Hm. }
  unfold select_restart_reason in Hr. destruct (up && (wc <=? ws)) eqn:Eu.
  { injection Hr as <- _. bools. split_and!; try done; [set_solver]. }
  inv_ok Hr. apply (Hz _ _ _ Hy) in E as ->.
  destruct (Z.leb_spec (Z.of_nat confirm_net) (trailing 0 nets)) as [Hle|Hle].
  { injection Hr as <- _. split_and!; try done; [set_solver|]. intros _. by apply (trailing_reaches _ _ 0). }
  inv_ok Hr. apply (Hz _ _ _ Hst) in E as ->.
  destruct (Z.leb_spec (Z.of_nat confirm_stall) (trailing 0 stalls)) as [Hle'|Hle'].
  { injection Hr as <- _. split_and!; try done; [set_solver|]. intros _. by apply (trailing_reaches _ _ 0). }
  injection Hr as <- _. split_and!; try done; set_solver.
Qed.

Definition idle_tcp : TcpObservation := Tcp [] 5 5 10 0 5 None 9 9 99 true false.
Lemma reason_needs_consecutive_samples_witness :
  exists s1 s2 reason,
    streak_run "stall_streak" [] [true; false; true; true] = Ok s1 /\
    streak_run "net_fail_streak" s1 [true; false] = Ok s2 /\
    select_restart_reason s2 true 0 2 "" (Network "gw" true 1 true true false) 2 2 idle_tcp = Ok ("tcp_stall", reason) /\
    exists pre, [true; false; true; true] = pre ++ repeat true 2.
Proof.
  do 3 eexists. split; [reflexivity|]. split; [reflexivity|]. split; [vm_compute; reflexivity|].
  eapply (reason_needs_consecutive_samples [] [true; false; true; true] [true; false] _ _ true 0 2 ""
            (Network "gw" true 1 true true false) 2 2 idle_tcp "tcp_stall"); try reflexivity.
Defined.

(** ** Transport samples *)

(** A stall and low upload pressure exclude each other, a stall needs a sample
    without new bytes, and the first sample of a new ffmpeg process has no
    measured interval. *)
Lemma tcp_observation_sound state now m th down probe tcp :
  tcp_observation state now m th down probe = Ok tcp ->
  stall_now tcp && low_upload_pressure tcp = false /\
  (stall_now tcp = true -> bytes_delta tcp = 0 /\ th_stall_lastsnd th <= lastsnd_ms tcp /\ bytes_sent tcp <= prev_bytes_sent tcp) /\
  (low_upload_pressure tcp = true -> down = false /\ probe = true /\ 0 < bytes_elapsed_sec tcp) /\
  0 <= bytes_delta tcp /\ 0 <= bytes_elapsed_sec tcp.
Proof.
  unfold tcp_observation. intros Hr. inv_ok Hr. injection Hr as <-. cbn -[low_upload_pressure_now].
  unfold low_upload_pressure_now. split_and!; try lia.
  - match goal with |- ?s && _ = false => destruct s end; [cbn; by rewrite ?andb_false_r | done].
  - intros Hs. bools. intuition.
  - destruct (0 <? v4); lia.
Qed.

Lemma reset_clears_history state pid s : reset_pid_dependent_state state pid = Ok s ->
  (exists p, py_int (dget state "last_pid" (VInt 0)) = Ok p /\ p <> pid) ->
  int0 s "stall_streak" = Ok 0 /\ int0 s "last_bytes_sent_ts" = Ok 0.
Proof.
  unfold reset_pid_dependent_state. intros Hr (p & Hp & Hne). rewrite Hp in Hr. cbn [rbind] in Hr.
  destruct (Z.eqb_spec p pid); [done|]. injection Hr as <-. unfold int0, dget, dict_update. simpl.
  split; repeat (rewrite dict_get_set_eq || rewrite dict_get_set_ne by discriminate); done.
Qed.
End FastPolicyProperties.
