(* ===== verification/RemoteWarning.v ===== *)
(** * Fast recovery: YouTube pre-loss warnings and probe parsing
    (src/watchers/fast_recovery_core/{remote_warning,tcp_metrics,probes}.py)

    [read_youtube_live_warning] decides from the watchdog's statistics whether to
    warn; [update_remote_warning_streak] counts distinct confirmations of one
    episode.  [parse_iso_ts] (src/watchers/fast_recovery.py) reads ISO-8601 text
    with the standard library; it is a class operation returning 0 on text it
    rejects. *)
From Stdlib Require Import Ascii.
From S2P Require Import Prelude PyVal FastPolicy.

Class IsoSeconds := parse_iso_ts : string -> Z.

Section Warning.
Context `{Repr} `{IsoSeconds}.

(** [str(payload.get(k, "")).strip()] and [str(payload.get(k, "") or "").strip()]. *)
Definition text (payload : dict) (k : string) : string := strip (py_str (dget payload k (VStr ""))).
Definition text0 (payload : dict) (k : string) : string := strip (str0 payload k).

Definition remote_probe_epoch (payload : dict) : Z :=
  let probe := parse_iso_ts (text payload "remote_probe_ts_utc") in
  if 0 <? probe then probe
  else
    let a := parse_iso_ts (text payload "oauth_checked_ts_utc") in
    let b := parse_iso_ts (text payload "data_api_checked_ts_utc") in
    match List.filter (Z.ltb 0) [a; b] with
    | [] => parse_iso_ts (text payload "ts_utc")
    | x :: xs => fold_left Z.max xs x
    end.

Definition remote_warning_sample_key (payload : dict) : string :=
  let sample_id := text0 payload "remote_sample_id" in
  if negb (String.eqb sample_id "") then ("id:" ++ sample_id)%string
  else
    let probe := remote_probe_epoch payload in
    if 0 <? probe then
      let source := strip (py_str (py_or (dget payload "remote_sample_source" (VStr ""))
                             (py_or (dget payload "remote_probe_source" (VStr ""))
                                (py_or (dget payload "remote_source" (VStr "")) (VStr ""))))) in
      ("probe:" ++ str_Z probe ++ ":" ++ source ++ ":" ++ text0 payload "recovery_episode_id" ++ ":"
       ++ text0 payload "ffmpeg_generation")%string
    else
      let stats := parse_iso_ts (text payload "ts_utc") in
      if 0 <? stats then ("stats:" ++ str_Z stats)%string else "".

(** [(context_key, episode_id, ffmpeg_generation)] *)
Definition remote_warning_context (payload : dict) : string * string * string :=
  let episode := text0 payload "recovery_episode_id" in
  let generation := text0 payload "ffmpeg_generation" in
  (("episode=" ++ episode ++ "|ffmpeg_generation=" ++ generation)%string, episode, generation).

Definition API_REMOTE_SOURCES : list string :=
  ["data_api"; "data_api_oauth"; "data_api_search"; "data_api_videos"; "oauth"; "oauth_api";
   "oauth_livebroadcasts"; "oauth_livestreams"; "oauth_probe"; "search.list"; "videos.list";
   "livebroadcasts.list"; "livestreams.list"; "youtube_api"].
Definition aliases : list (string * string) :=
  [("oauth_livebroadcasts", "oauth_api"); ("oauth_livestreams", "oauth_api"); ("oauth_probe", "oauth_api");
   ("data_api_search", "data_api"); ("data_api_videos", "data_api"); ("search.list", "data_api");
   ("videos.list", "data_api"); ("livebroadcasts.list", "oauth_api"); ("livestreams.list", "oauth_api")].
Definition normalize_remote_source (raw : string) : string :=
  let source := lower (strip raw) in
  if String.eqb source "" then "" else default source (dict_get source aliases).
Definition is_api_remote_source (source : string) : bool :=
  bool_decide (normalize_remote_source source ∈ ["data_api"; "oauth_api"; "data_api_oauth"; "youtube_api"])
  || bool_decide (source ∈ API_REMOTE_SOURCES).

(** [quota_guard_active_from_state]: [None] when the file cannot be read or
    decoded. *)
Definition quota_guard_active_from_state (file : option pyval) (now_ts : Z) : res (bool * string) :=
  match file with
  | None => Ok (false, "quota state unavailable")
  | Some (VDict payload) =>
      if negb (truthy (dget payload "quota_exhausted" (VBool false))) then Ok (false, "quota state inactive") else
      let! until := int0 payload "quota_exhausted_until_ts" in
      if (0 <? until) && (until <=? now_ts) then Ok (false, "quota state expired") else
      let source := let s := text payload "quota_exhausted_source" in if String.eqb s "" then "unknown" else s in
      Ok (true, ("quota state active (source=" ++ source ++ ")")%string)
  | Some _ => Ok (false, "quota state invalid")
  end.

Definition or_dash (s : string) : string := if String.eqb s "" then "-" else s.
Definition or_else (s d : string) : string := if String.eqb s "" then d else s.

(** [int(v or 0)] with [TypeError] and [ValueError] read as 0. *)
Definition pid_of (payload : dict) : res Z :=
  match int0 payload "ffmpeg_pid" with Err (EType | EValue _) => Ok 0 | r => r end.

Definition local_established (payload : dict) (pid : Z) : bool :=
  is_true (dget payload "local_ok" VNone) && is_true (dget payload "stream_active" VNone)
  && is_true (dget payload "ingest_connected" VNone) && (1 <? pid).

Record warning_config : Type := WarningConfig {
  wc_preserve : bool; wc_max_age : Z; wc_require_local : bool; wc_live_like : list string;
  wc_distinct : bool }.

Definition suppressed (source why : string) : string :=
  ("youtube watchdog quota guard active (suppressed source=" ++ source ++ "; " ++ why ++ ")")%string.

(** [read_youtube_live_warning]: the statistics file and the quota file as decoded
    ([None] when that fails). *)
Definition read_youtube_live_warning (cfg : warning_config) (stats quota : option pyval)
    (now_ts last_restart_ts : Z) : res (bool * string * dict) :=
  if negb (wc_preserve cfg) then Ok (false, "url preservation mode disabled", []) else
  match stats with
  | None => Ok (false, "youtube stats unavailable", [])
  | Some (VDict payload) =>
      let stats_ts := parse_iso_ts (py_str (dget payload "ts_utc" (VStr ""))) in
      let probe := remote_probe_epoch payload in
      if stats_ts <=? 0 then Ok (false, "youtube stats timestamp missing", payload) else
      if probe <=? 0 then Ok (false, "youtube remote probe timestamp missing", payload) else
      if (0 <? last_restart_ts) && (probe <=? last_restart_ts) then
        Ok (false, ("youtube remote probe older than last restart (" ++ str_Z probe ++ "<=" ++ str_Z last_restart_ts ++ ")")%string, payload)
      else
      let age := now_ts - probe in
      if wc_max_age cfg <? age then
        Ok (false, ("youtube remote probe stale (" ++ str_Z age ++ "s)")%string, payload) else
      let! blocked :=
        if wc_require_local cfg then
          let! pid := pid_of payload in
          if local_established payload pid then Ok None
          else Ok (Some ("youtube remote warning ignored until local ingest re-established (local_ok="
                         ++ py_str (dget payload "local_ok" VNone) ++ " stream_active="
                         ++ py_str (dget payload "stream_active" VNone) ++ " ingest_connected="
                         ++ py_str (dget payload "ingest_connected" VNone) ++ " ffmpeg_pid=" ++ str_Z pid ++ ")")%string)
        else Ok None in
      match blocked with
      | Some why => Ok (false, why, payload)
      | None =>
          let remote_source := lower (text payload "remote_source") in
          let remote_status := lower (text payload "remote_status") in
          let remote_reason := text payload "remote_reason" in
          let! (state_quota, why) := quota_guard_active_from_state quota now_ts in
          let guard := truthy (dget payload "quota_guard_active" (VBool false)) || state_quota in
          if String.eqb remote_status "warning" then
            let source := or_else remote_source "unknown" in
            if guard && is_api_remote_source source then Ok (false, suppressed source why, payload)
            else Ok (true, or_else remote_reason ("remote warning source=" ++ source)%string, payload)
          else
            let lifecycle := text payload "oauth_life_cycle_status" in
            let stream_status := lower (text payload "oauth_stream_status") in
            let stream_health := lower (text payload "oauth_stream_health_status") in
            let api := text payload "api_live_state" in
            if negb (String.eqb api "live" || bool_decide (lifecycle ∈ wc_live_like cfg)) then
              Ok (false, ("broadcast not live-like (api=" ++ or_dash api ++ " lifecycle=" ++ or_dash lifecycle ++ ")")%string, payload)
            else
              let inactive := String.eqb stream_status "inactive" in
              let nodata := String.eqb stream_health "nodata" in
              if inactive || nodata then
                let source := or_else remote_source "data_api_oauth" in
                if guard && is_api_remote_source source then Ok (false, suppressed source why, payload)
                else Ok (true,
                         (if inactive then if nodata then "streamStatus=inactive, healthStatus=noData"
                                           else "streamStatus=inactive"
                          else "healthStatus=noData"),
                         dict_set "remote_source" (VStr source) payload)
              else Ok (false, "youtube stream status looks normal", payload)
      end
  | Some _ => Ok (false, "youtube stats format invalid", [])
  end.

Definition streak_reset : dict :=
  [("remote_warning_streak", VInt 0); ("remote_warning_last_stats_ts", VInt 0);
   ("remote_warning_last_sample_key", VStr ""); ("remote_warning_last_probe_ts", VInt 0);
   ("remote_warning_context_key", VStr ""); ("remote_warning_recovery_episode_id", VStr "");
   ("remote_warning_ffmpeg_generation", VStr "")].

(** The context comparison (lines 237-243): the state to count in. *)
Definition enter_context (state : dict) (context_key : string) : dict :=
  let last := str0 state "remote_warning_context_key" in
  if negb (String.eqb last "") && negb (String.eqb context_key last)
  then dict_update state [("remote_warning_streak", VInt 0); ("remote_warning_last_sample_key", VStr "");
                          ("remote_warning_last_stats_ts", VInt 0); ("remote_warning_last_probe_ts", VInt 0)]
  else state.

(** The new state and the streak; the payload is the dict
    [read_youtube_live_warning] returned. *)
Definition update_remote_warning_streak (state : dict) (warning : bool) (payload : dict) (distinct : bool)
  : res (dict * Z) :=
  if negb warning then Ok (dict_update state streak_reset, 0) else
  if negb distinct then
    let! n := int0 state "remote_warning_streak" in
    Ok (dict_set "remote_warning_streak" (VInt (n + 1)) state, n + 1)
  else
    let! pid := pid_of payload in
    if negb (local_established payload pid) then Ok (dict_set "remote_warning_streak" (VInt 0) state, 0) else
    let '(context_key, episode, generation) := remote_warning_context payload in
    let state1 := enter_context state context_key in
    let stats_ts := parse_iso_ts (py_str (dget payload "ts_utc" (VStr ""))) in
    let key := remote_warning_sample_key payload in
    if negb (String.eqb key "") && String.eqb key (str0 state1 "remote_warning_last_sample_key") then
      let! n := int0 state1 "remote_warning_streak" in Ok (state1, n)
    else
      let! last_stats := int0 state1 "remote_warning_last_stats_ts" in
      if String.eqb key "" && (0 <? stats_ts) && (stats_ts =? last_stats) then
        let! n := int0 state1 "remote_warning_streak" in Ok (state1, n)
      else
        let! n := int0 state1 "remote_warning_streak" in
        let probe := remote_probe_epoch payload in
        let state2 := dict_set "remote_warning_streak" (VInt (n + 1)) state1 in
        let state3 := if 0 <? stats_ts then dict_set "remote_warning_last_stats_ts" (VInt stats_ts) state2 else state2 in
        let state4 := if negb (String.eqb key "") then dict_set "remote_warning_last_sample_key" (VStr key) state3 else state3 in
        let state5 := dict_update state4 [("remote_warning_context_key", VStr context_key);
                                          ("remote_warning_recovery_episode_id", VStr episode);
                                          ("remote_warning_ffmpeg_generation", VStr generation)] in
        let state6 := if 0 <? probe then dict_set "remote_warning_last_probe_ts" (VInt probe) state5 else state5 in
        Ok (state6, n + 1).
End Warning.

(** ** tcp_metrics.py: the text of [ss -tinp] *)

(** [s.splitlines()] *)
Definition is_newline (c : ascii) : bool :=
  let n := nat_of_ascii c in ((10 <=? n)%nat && (n <=? 13)%nat) || ((28 <=? n)%nat && (n <=? 30)%nat).
Fixpoint lines_go (cur : string) (s : string) : list string :=
  match s with
  | EmptyString => if String.eqb cur "" then [] else [cur]
  | String c s' =>
      if Ascii.eqb c (ascii_of_nat 13)
      then match s' with
           | String d s'' => if Ascii.eqb d (ascii_of_nat 10) then cur :: lines_go "" s'' else cur :: lines_go "" s'
           | EmptyString => [cur]
           end
      else if is_newline c then cur :: lines_go "" s'
      else lines_go (cur ++ String c EmptyString)%string s'
  end.
Definition splitlines (s : string) : list string := lines_go "" s.

Definition is_word (c : ascii) : bool :=
  let n := nat_of_ascii c in
  is_digit c || ((65 <=? n)%nat && (n <=? 90)%nat) || ((97 <=? n)%nat && (n <=? 122)%nat) || Ascii.eqb c "_"%char.

(** The digits at the head of [s], as an integer. *)
Fixpoint leading_digits (acc : option Z) (s : string) : option Z :=
  match s with
  | String c s' => if is_digit c then leading_digits (Some (default 0 acc * 10 + digit_val c)) s' else acc
  | EmptyString => acc
  end.

Fixpoint drop_prefix (p s : string) : option string :=
  match p, s with
  | EmptyString, _ => Some s
  | String a p', String b s' => if Ascii.eqb a b then drop_prefix p' s' else None
  | _, EmptyString => None
  end.

(** [re.search(r"\bkey:(\d+)", text)]: the leftmost place where the key starts a
    word and digits follow; [boundary] says the previous character is no word
    character. *)
Fixpoint search_int (key : string) (boundary : bool) (s : string) : option Z :=
  match (if boundary then drop_prefix (key ++ ":")%string s else None) with
  | Some rest =>
      match leading_digits None rest with
      | Some n => Some n
      | None => match s with
                | EmptyString => None
                | String c s' => search_int key (negb (is_word c)) s'
                end
      end
  | None => match s with
            | EmptyString => None
            | String c s' => search_int key (negb (is_word c)) s'
            end
  end.
Definition extract_int (text key : string) : Z := default 0 (search_int key true text).

Definition parse_queue_bytes (value : string) : Z :=
  match int_of_str value with Some n => Z.max 0 n | None => 0 end.

Definition port_match (peer : string) (ports : list Z) : bool :=
  existsb (fun p => ends_with (":" ++ str_Z p)%string peer || ends_with ("]:" ++ str_Z p)%string peer) ports.

Definition row_metrics (line : string) (parts : list string) (details : string) : dict :=
  [("conn", VStr (strip line));
   ("send_q", VInt (match parts !! 2%nat with Some q => parse_queue_bytes q | None => 0 end));
   ("bytes_sent", VInt (extract_int details "bytes_sent")); ("bytes_acked", VInt (extract_int details "bytes_acked"));
   ("notsent", VInt (extract_int details "notsent")); ("unacked", VInt (extract_int details "unacked"));
   ("lastsnd_ms", VInt (extract_int details "lastsnd")); ("rto_ms", VInt (extract_int details "rto"))].

Definition row_matches (line : string) (pid : Z) (ports : list Z) : bool :=
  contains "ESTAB" line && contains ("pid=" ++ str_Z pid ++ ",")%string line
  && port_match (default "" (split_ws line !! 4%nat)) ports.

Fixpoint parse_rows (lines : list string) (pid : Z) (ports : list Z) : dict :=
  match lines with
  | [] => []
  | line :: rest =>
      if row_matches line pid ports then row_metrics line (split_ws line) (default "" (List.head rest))
      else parse_rows rest pid ports
  end.
Definition parse_ss_tcp_metrics (stdout : string) (pid : Z) (ports : list Z) : dict :=
  if pid <=? 1 then [] else parse_rows (splitlines stdout) pid ports.

(** probes.py: [get_default_gateway] on the output of [ip route show default]. *)
Fixpoint via (parts : list string) : option string :=
  match parts with
  | [] => None
  | p :: rest => match rest with
                 | g :: _ => if String.eqb p "via" then Some g else via rest
                 | [] => None
                 end
  end.
Fixpoint gateway_of (lines : list string) : string :=
  match lines with
  | [] => ""
  | line :: rest =>
      let parts := split_ws (strip line) in
      if (Z.of_nat (length parts) <? 3) || negb (String.eqb (default "" (List.head parts)) "default")
      then gateway_of rest
      else match via parts with Some g => g | None => gateway_of rest end
  end.
Definition get_default_gateway (returncode : Z) (stdout : string) : string :=
  if negb (returncode =? 0) then "" else gateway_of (splitlines stdout).

Example gateway_ex : get_default_gateway 0 "default via 10.0.0.1 dev eth0
other" = "10.0.0.1".
Proof. reflexivity. Qed.
Example ss_ex :
  dict_get "bytes_sent" (parse_ss_tcp_metrics "State Recv-Q
ESTAB 0 42 10.0.0.2:4000 1.2.3.4:1935 users:((ffmpeg,pid=77,fd=3))
  cubic rto:204 bytes_sent:123456 bytes_acked:1 unacked:7 notsent:9 lastsnd:12" 77 [1935; 443]) = Some (VInt 123456).
Proof. vm_compute. reflexivity. Qed.

(** ** Correctness *)
Module RemoteWarningProperties.
Section Props.
Context `{Repr} `{IsoSeconds}.

(** The report a warning may rest on. *)
Record warnable (cfg : warning_config) (d : dict) (now last_restart : Z) : Prop := Warnable {
  w_preserve : wc_preserve cfg = true;
  w_stats : 0 < parse_iso_ts (py_str (dget d "ts_utc" (VStr "")));
  w_probe : 0 < remote_probe_epoch d;
  w_after_restart : 0 < last_restart -> last_restart < remote_probe_epoch d;
  w_age : now - remote_probe_epoch d <= wc_max_age cfg;
  w_local : wc_require_local cfg = true -> exists pid, pid_of d = Ok pid /\ local_established d pid = true }.

(** What the report must say. *)
Definition pre_loss (cfg : warning_config) (d : dict) : Prop :=
  lower (text d "remote_status") = "warning" \/
  ((text d "api_live_state" = "live" \/ text d "oauth_life_cycle_status" ∈ wc_live_like cfg) /\
   (lower (text d "oauth_stream_status") = "inactive" \/ lower (text d "oauth_stream_health_status") = "nodata")).

(** The source a warning is attributed to. *)
Definition warning_source (d : dict) : string :=
  or_else (lower (text d "remote_source"))
    (if String.eqb (lower (text d "remote_status")) "warning" then "unknown" else "data_api_oauth").

(** A pre-loss warning is raised only in URL-preservation mode, from a decoded
    report whose remote probe is stamped, younger than the age limit and newer
    than the last restart, with local ingest established when that is required,
    that reports a warning or an inactive/no-data stream of a live broadcast, and
    never from an API source while a quota guard is active. *)
Theorem warning_needs_fresh_report cfg stats quota now last_restart why payload
  (Hr : read_youtube_live_warning cfg stats quota now last_restart = Ok (true, why, payload)) :
  exists d, stats = Some (VDict d) /\ warnable cfg d now last_restart /\ pre_loss cfg d /\
    (is_api_remote_source (warning_source d) = true ->
     truthy (dget d "quota_guard_active" (VBool false)) = false /\
     exists q, quota_guard_active_from_state quota now = Ok (false, q)).
Proof.
  unfold read_youtube_live_warning in Hr.
  destruct (wc_preserve cfg) eqn:Ep; [|done]. destruct stats as [[| | | | | |d]|]; try done. cbn [negb] in Hr.
  destruct (Z.leb_spec (parse_iso_ts (py_str (dget d "ts_utc" (VStr "")))) 0); [done|].
  destruct (Z.leb_spec (remote_probe_epoch d) 0); [done|].
  destruct (_ && (remote_probe_epoch d <=? last_restart)) eqn:El; [done|].
  destruct (Z.ltb_spec (wc_max_age cfg) (now - remote_probe_epoch d)); [done|].
  inv_ok Hr. destruct v; [done|]. inv_ok Hr. destruct v as [sq q]. exists d. split; [done|].
  assert (Hw : warnable cfg d now last_restart).
  { split; try done; [intros Hp; bools; destruct El; lia|].
    intros Hl. rewrite Hl in E. inv_ok E. exists v. split; [done|]. by destruct (local_established d v). }
  split; [done|]. clear Hw E.
  assert (Hg : forall (P : Prop) src, (truthy (dget d "quota_guard_active" (VBool false)) || sq) && is_api_remote_source src = false ->
     src = warning_source d -> is_api_remote_source (warning_source d) = true ->
     truthy (dget d "quota_guard_active" (VBool false)) = false /\ exists q, quota_guard_active_from_state quota now = Ok (false, q)).
  { intros _ src Hf -> Hs. rewrite Hs, andb_true_r in Hf. apply orb_false_iff in Hf as [? ->]. eauto. }
  unfold pre_loss. unfold warning_source in *.
  destruct (String.eqb_spec (lower (text d "remote_status")) "warning") as [Hs|Hs].
  - case_in Hr; [done|]. split; [by left|]. by apply (Hg True _ E).
  - destruct (negb _) eqn:Elive in Hr; [done|].
    destruct (String.eqb_spec (lower (text d "oauth_stream_status")) "inactive") as [Ha|Ha],
      (String.eqb_spec (lower (text d "oauth_stream_health_status")) "nodata") as [Hb|Hb];
      cbn [orb] in Hr; try done;
      (case_in Hr; [done|]; split; [right; split; [|by auto] | by apply (Hg True _ E)];
       bools; destruct Elive as [Hx|Hx]; [left; by apply String.eqb_eq | by right]).
Qed.
End Props.

(** A report whose stamps read as the length of their text. *)
#[local] Instance len_iso : IsoSeconds := slen.
#[local] Instance no_repr : Repr := fun _ => "".
Definition sample_report : dict :=
  [("ts_utc", VStr "abc"); ("remote_probe_ts_utc", VStr "abcd"); ("remote_status", VStr "warning");
   ("remote_source", VStr "data_api"); ("remote_reason", VStr "noData"); ("local_ok", VBool true);
   ("stream_active", VBool true); ("ingest_connected", VBool true); ("ffmpeg_pid", VInt 42)].
Lemma warning_needs_fresh_report_witness :
  let cfg := WarningConfig true 300 true ["live"] true in
  read_youtube_live_warning cfg (Some (VDict sample_report)) None 100 2 = Ok (true, "noData", sample_report) /\
  exists d, Some (VDict sample_report) = Some (VDict d) /\ warnable cfg d 100 2 /\ pre_loss cfg d /\
    (is_api_remote_source (warning_source d) = true ->
     truthy (dget d "quota_guard_active" (VBool false)) = false /\
     exists q, quota_guard_active_from_state None 100 = Ok (false, q)).
Proof.
  split; [vm_compute; reflexivity|].
  apply (warning_needs_fresh_report _ _ _ _ _ "noData" sample_report). vm_compute. reflexivity.
Defined.

(** ** The streak counts distinct confirmations of one episode *)
Section Streak.
Context `{Repr} `{IsoSeconds}.
Implicit Types (s : dict) (p : dict) (cs : list dict).

Definition context_of p : string := (remote_warning_context p).1.1.

(** A chain of confirmations, latest first: one context, local ingest
    established, each sample different from the one before. *)
Inductive chain : list dict -> Prop :=
  | chain_nil : chain []
  | chain_one p pid : pid_of p = Ok pid -> local_established p pid = true -> chain [p]
  | chain_cons p q cs pid : pid_of p = Ok pid -> local_established p pid = true ->
      context_of p = context_of q -> remote_warning_sample_key p <> remote_warning_sample_key q ->
      chain (q :: cs) -> chain (p :: q :: cs).

(** The loop's inputs: whether the turn warned, and the payload read. *)
Fixpoint streak_turns s (l : list (bool * dict)) : res (dict * Z) :=
  match l with
  | [] => let! n := int0 s "remote_warning_streak" in Ok (s, n)
  | (w, p) :: l' => let! (s', _) := update_remote_warning_streak s w p true in streak_turns s' l'
  end.

Definition holds s cs : Prop :=
  chain cs /\ int0 s "remote_warning_streak" = Ok (Z.of_nat (length cs)) /\
  (forall p cs', cs = p :: cs' -> str0 s "remote_warning_last_sample_key" = remote_warning_sample_key p /\
     str0 s "remote_warning_context_key" = context_of p).

Lemma str0_VStr s k x : dict_get k s = Some (VStr x) -> str0 s k = x.
Proof. unfold str0, dget. intros ->. unfold py_or; simpl. by destruct (String.eqb_spec x "") as [->|]. Qed.
Lemma int0_VInt s k x : dict_get k s = Some (VInt x) -> int0 s k = Ok x.
Proof. unfold int0, dget. intros ->. unfold py_or; simpl. by destruct (Z.eqb_spec x 0) as [->|]. Qed.
Lemma context_nonempty p : context_of p <> "".
Proof. unfold context_of, remote_warning_context; simpl. discriminate. Qed.

(** Reads of the keys a turn writes. *)
Ltac lookups := unfold dict_update; simpl; rewrite ?dict_get_set; simpl.

Lemma enter_context_keeps s p cs : holds s cs ->
  exists cs1, holds (enter_context s (context_of p)) cs1 /\ (cs1 = [] \/ cs1 = cs) /\
    (forall q l, cs1 = q :: l -> context_of p = context_of q).
Proof.
  intros (Hc & Hn & Hk). unfold enter_context. destruct (_ && _) eqn:E.
  - exists []. split; [|by naive_solver]. split_and!; [constructor | apply int0_VInt; lookups; done | done].
  - exists cs. split; [done|]. split; [by right|]. intros q l ->. destruct (Hk _ _ eq_refl) as [_ Hx].
    rewrite Hx in E. pose proof (context_nonempty q). apply String.eqb_neq in H1. rewrite H1 in E. cbn in E.
    by apply negb_false_iff, String.eqb_eq in E.
Qed.

(** One turn with a sample: the counted chain either stays, restarts or grows by
    this sample. *)
Lemma streak_turn s w p cs s' n (Hkey : w = true -> remote_warning_sample_key p <> "") : holds s cs ->
  update_remote_warning_streak s w p true = Ok (s', n) ->
  exists cs', holds s' cs' /\ n = Z.of_nat (length cs') /\
    (cs' = [] \/ cs' = cs \/ (w = true /\ (cs' = [p] \/ cs' = p :: cs))).
Proof.
  intros Hh Hu. unfold update_remote_warning_streak in Hu. destruct w; cbn [negb] in Hu.
  2: { injection Hu as <- <-. exists []. split; [|by auto].
       split_and!; [constructor | apply int0_VInt; lookups; done | done]. }
  inv_ok Hu. destruct (local_established p v) eqn:El; cbn [negb] in Hu.
  2: { injection Hu as <- <-. exists []. split; [|by auto].
       split_and!; [constructor | apply int0_VInt; lookups; done | done]. }
  destruct (enter_context_keeps s p cs Hh) as (cs1 & Hh1 & Hcs & Hctx).
  destruct (remote_warning_context p) as [[ctx ep] gen] eqn:Ec.
  assert (Hx : context_of p = ctx) by (unfold context_of; by rewrite Ec). rewrite Hx in *.
  specialize (Hkey eq_refl). apply String.eqb_neq in Hkey as Hkey'. rewrite Hkey' in Hu. cbn [negb andb] in Hu.
  set (s1 := enter_context s ctx) in *. clearbody s1. pose proof Hh1 as (Hc & Hn & Hk).
  destruct (String.eqb_spec (remote_warning_sample_key p) (str0 s1 "remote_warning_last_sample_key")) as [Hsame|Hdiff].
  { rewrite Hn in Hu. cbn [rbind] in Hu. injection Hu as <- <-. exists cs1. split; [done|]. split; [done|]. tauto. }
  inv_ok Hu. rewrite Hn in E1. injection E1 as <-. injection Hu as <- <-.
  exists (p :: cs1). split; [split_and!|].
  - destruct cs1 as [|q cs']; [by eapply chain_one|]. destruct (Hk _ _ eq_refl) as [Hkk _].
    eapply chain_cons; eauto; [by rewrite Hx; eapply Hctx | congruence].
  - rewrite length_cons. replace (Z.of_nat (S (length cs1))) with (Z.of_nat (length cs1) + 1) by lia.
    apply int0_VInt. repeat case_match; lookups; done.
  - intros ? ? [= <- <-]. rewrite Hx. split; apply str0_VStr; repeat case_match; lookups; done.
  - rewrite length_cons. split; [lia|]. destruct Hcs as [-> | ->]; auto.
Qed.

(** When distinct confirmations are required, after any sequence of turns
    starting from a cleared streak the streak counts confirmations the sequence
    really contains, in order: all of one recovery episode and ffmpeg generation,
    each with local ingest established, and no two neighbours the same sample.
    Reading one sample again never raises it. *)
Theorem remote_streak_counts_confirmations s l s' n
  (Hclear : str0 s "remote_warning_last_sample_key" = "" /\ int0 s "remote_warning_streak" = Ok 0)
  (Hkeys : Forall (fun wp => wp.1 = true -> remote_warning_sample_key wp.2 <> "") l)
  (Hr : streak_turns s l = Ok (s', n)) :
  exists cs, chain cs /\ n = Z.of_nat (length cs) /\ reverse cs `sublist_of` map snd (List.filter fst l) /\
    forall p, cs = p :: tail cs -> update_remote_warning_streak s' true p true = Ok (s', n).
Proof.
  assert (Hh : holds s []) by (split_and!; [constructor | apply Hclear | done]).
  assert (Hgo : forall cs, holds s cs -> forall pre, reverse cs `sublist_of` pre ->
     exists cs', holds s' cs' /\ n = Z.of_nat (length cs') /\ reverse cs' `sublist_of` pre ++ map snd (List.filter fst l)).
  { clear Hh Hclear. revert s Hr. induction Hkeys as [|[w p] l Hk Hl IH]; intros s Hr cs Hh pre Hs; simpl in Hr.
    - destruct Hh as (? & Hn & ?). rewrite Hn in Hr. cbn [rbind] in Hr. injection Hr as <- <-.
      exists cs. rewrite app_nil_r. split; [by split_and! | done].
    - simpl in Hk. inv_ok Hr. destruct v as [s1 n1]. destruct (streak_turn _ _ _ _ _ _ Hk Hh E) as (cs1 & Hh1 & _ & Hc).
      destruct (IH s1 Hr cs1 Hh1 (pre ++ (if w then [p] else []))) as (cs' & ? & ? & Hsub).
      + destruct Hc as [-> | [-> | [-> [-> | ->]]]].
        * apply sublist_nil_l.
        * by apply sublist_inserts_r.
        * by apply sublist_inserts_l.
        * rewrite reverse_cons. by apply sublist_app.
      + exists cs'. split; [done|]. split; [done|]. destruct w; simpl; [by rewrite <- app_assoc in Hsub | by rewrite app_nil_r in Hsub]. }
  destruct (Hgo [] Hh [] (sublist_nil_l _)) as (cs & (Hc & Hn & Hk) & -> & Hsub).
  exists cs. split; [done|]. split; [done|]. split; [done|]. intros p Hp. destruct (Hk _ _ Hp) as [Hlast Hctx].
  assert (Hp1 : exists pid, pid_of p = Ok pid /\ local_established p pid = true).
  { rewrite Hp in Hc. inversion Hc; subst; eauto. }
  destruct Hp1 as (pid & Hpid & Hloc). unfold update_remote_warning_streak. cbn [negb].
  rewrite Hpid. cbn [rbind]. rewrite Hloc. cbn [negb].
  assert (Hx : enter_context s' (context_of p) = s').
  { unfold enter_context. rewrite Hctx, String.eqb_refl. cbn. by rewrite andb_false_r. }
  destruct (remote_warning_context p) as [[ctx ep] gen] eqn:Ec.
  unfold context_of in Hx. rewrite Ec in Hx. simpl in Hx. rewrite Hx, Hlast, String.eqb_refl, Hn.
  assert (Hin : remote_warning_sample_key p <> "").
  { rewrite Forall_forall in Hkeys.
    assert (Hm : p ∈ map snd (List.filter fst l)).
    { eapply sublist_subseteq; [exact Hsub|]. rewrite Hp. apply elem_of_reverse. left. }
    apply list_elem_of_In, in_map_iff in Hm as ([w q] & <- & Hq%filter_In). destruct Hq as [Hq ?].
    apply (Hkeys (w, q)); [by apply list_elem_of_In | done]. }
  apply String.eqb_neq in Hin as ->. done.
Qed.
End Streak.

#[local] Existing Instance len_iso.
#[local] Existing Instance no_repr.
Definition confirmation (id : string) : dict := ("remote_sample_id", VStr id) :: sample_report.
Lemma remote_streak_counts_confirmations_witness :
  let l := [(true, confirmation "a"); (true, confirmation "a"); (true, confirmation "b")] in
  exists s', streak_turns [] l = Ok (s', 2) /\
    exists cs, chain cs /\ 2 = Z.of_nat (length cs) /\ reverse cs `sublist_of` map snd (List.filter fst l) /\
    forall p, cs = p :: tail cs -> update_remote_warning_streak s' true p true = Ok (s', 2).
Proof.
  intros l. eexists. split; [vm_compute; reflexivity|].
  eapply (remote_streak_counts_confirmations [] l).
  - split; reflexivity.
  - repeat (constructor; [intros _; vm_compute; discriminate|]). constructor.
  - vm_compute. reflexivity.
Defined.

(** ** The socket metrics *)
Lemma leading_digits_nonneg s : forall acc n, (forall a, acc = Some a -> 0 <= a) -> leading_digits acc s = Some n -> 0 <= n.
Proof.
  induction s as [|c s IH]; simpl; intros acc n Ha Hr; [eauto|]. destruct (is_digit c); [|eauto].
  eapply IH; [|exact Hr]. intros a [= <-]. unfold digit_val. destruct acc as [a|]; simpl; [specialize (Ha a eq_refl)|]; lia.
Qed.
Lemma search_int_nonneg key s : forall b n, search_int key b s = Some n -> 0 <= n.
Proof.
  induction s as [|c s IH]; intros b n Hr; cbn [search_int] in Hr;
    destruct (if b then _ else _) as [rest|] in Hr; try (destruct (leading_digits None rest) eqn:El in Hr); try discriminate Hr; eauto;
    injection Hr as <-; by eapply leading_digits_nonneg; [|exact El].
Qed.
Lemma extract_int_nonneg text key : 0 <= extract_int text key.
Proof. unfold extract_int. destruct (search_int key true text) eqn:E; simpl; [|lia]. by eapply search_int_nonneg. Qed.

(** Metrics come from the first established row of the process on an ingest
    port, with the counters of the line below it, none negative. *)
Lemma parse_ss_own_row stdout pid ports : parse_ss_tcp_metrics stdout pid ports <> [] ->
  1 < pid /\ exists pre line post, splitlines stdout = pre ++ line :: post /\
    Forall (fun l => row_matches l pid ports = false) pre /\ row_matches line pid ports = true /\
    parse_ss_tcp_metrics stdout pid ports = row_metrics line (split_ws line) (default "" (List.head post)).
Proof.
  unfold parse_ss_tcp_metrics. destruct (Z.leb_spec pid 1); [done|]. intros Hne. split; [done|].
  induction (splitlines stdout) as [|l ls IH]; simpl in *; [done|].
  destruct (row_matches l pid ports) eqn:E.
  - exists [], l, ls. by repeat constructor.
  - destruct (IH Hne) as (pre & line & post & -> & Hf & Hm & ->). exists (l :: pre), line, post.
    split_and!; [done | by constructor | done | done].
Qed.

(** The sample the policy reads off them never fails. *)
Lemma ss_observation_total state now stdout pid ports th down probe a b :
  int0 state "last_bytes_sent" = Ok a -> int0 state "last_bytes_sent_ts" = Ok b ->
  exists tcp, tcp_observation state now (parse_ss_tcp_metrics stdout pid ports) th down probe = Ok tcp.
Proof.
  intros Ha Hb. assert (Hm : parse_ss_tcp_metrics stdout pid ports = [] \/ exists l ps d, parse_ss_tcp_metrics stdout pid ports = row_metrics l ps d).
  { destruct (parse_ss_tcp_metrics stdout pid ports) as [|x xs] eqn:E; [by left|]. right.
    destruct (parse_ss_own_row stdout pid ports) as (_ & ? & ? & ? & _ & _ & _ & Hx); [by rewrite E|]. rewrite E in Hx. eauto. }
  unfold tcp_observation. destruct Hm as [-> | (l & ps & d & ->)]; cbn [dget row_metrics]; unfold dget;
    simpl; rewrite Ha; cbn [rbind]; rewrite Hb; cbn [rbind]; eauto.
Qed.
End RemoteWarningProperties.
