(* ===== verification/SendSample.v ===== *)
(** * Fast recovery: source-timed upload samples
    (src/src/watchers/fast_recovery_core/tcp_send_sample.py)

    A sample is a rate between two snapshots of one byte counter, timed by the
    producer of the counter.  The state is the dict the loop saves; the baseline
    and the last seen snapshot live under one key of it.  ISO parsing and SHA-256
    are class operations. *)
From Stdlib Require Import Ascii.
From S2P Require Import Prelude PyVal Clock RouteAssessment Maintenance Fallback RouteSample FastPolicy.

(** [datetime.fromisoformat(s)] in microseconds since the epoch: [None] when it
    raises, [Some None] for a naive time. *)
Class IsoMicros := iso_micros : string -> option (option Z).
Class TextDigest := sha256_text : string -> string.

Definition STATE_KEY : string := "tcp_send_sample_source_v2".
Definition TIME_SOURCE : string := "runtime_observation.observed_at".

(** [a / b] of integers, [b > 0]: a float, or [OverflowError]. *)
Definition true_div (a b : Z) : res Q :=
  let q := (inject_Z a / inject_Z b)%Q in
  if Qltb (qabs q) (inject_Z (2 ^ 1024 - 2 ^ 970)) then Ok q else Err EOverflow.

Definition bind_runtime_metrics (observation : dict) (consumer_monotonic_ns : Z) : dict :=
  match dget observation "tcp_metrics" VNone with
  | VDict (kv :: d) =>
      dict_update (kv :: d)
        [("sample_observed_at", dget observation "observed_at" VNone);
         ("sample_producer_instance_id", dget observation "producer_instance_id" VNone);
         ("sample_ffmpeg_generation", dget observation "ffmpeg_generation" VNone);
         ("sample_source_sequence", dget observation "sequence" VNone);
         ("sample_consumer_monotonic_ns", VInt consumer_monotonic_ns)]
  | _ => []
  end.

Definition positive_int (v : pyval) : res Z :=
  match v with VInt z => if 0 <? z then Ok z else Err (EValue "invalid positive integer")
             | _ => Err (EValue "invalid positive integer") end.

(** [isinstance(v, str) and v.strip()] *)
Definition named (v : pyval) : bool := match v with VStr s => negb (String.eqb (strip s) "") | _ => false end.

Section SendSample.
Context `{Repr} `{IsoMicros} `{TextDigest}.

(** The connection identity: [None], or the digest of the two socket endpoints. *)
Definition connection (metrics : dict) : res pyval :=
  if truthy (dget metrics "conn" VNone) then
    let parts := split_ws (py_str (dget metrics "conn" VNone)) in
    match parts with
    | p0 :: _ :: _ :: p3 :: p4 :: _ =>
        if String.eqb p0 "ESTAB" then Ok (VStr (sha256_text (p3 ++ String "000" EmptyString ++ p4)))
        else Err (EValue "invalid connection identity")
    | _ => Err (EValue "invalid connection identity")
    end
  else Ok VNone.

Definition snapshot (ffmpeg_pid bytes_sent : Z) (metrics : dict) : res dict :=
  let! observed_at := idx (VDict metrics) "sample_observed_at" in
  let! text := match observed_at with VStr s => Ok s | _ => Err EType end in
  let! observed_us :=
    match iso_micros (replace_z text) with
    | Some (Some us) => positive_int (VInt us)
    | _ => Err (EValue "invalid source timestamp")
    end in
  let! producer := idx (VDict metrics) "sample_producer_instance_id" in
  let! generation := idx (VDict metrics) "sample_ffmpeg_generation" in
  if negb (named producer && named generation) then Err (EValue "missing source identity") else
  if (bytes_sent <? 0) || negb (py_eq (dget metrics "bytes_sent" VNone) (VInt bytes_sent))
  then Err (EValue "counter mismatch") else
  let! conn := connection metrics in
  let! pid := positive_int (VInt ffmpeg_pid) in
  let! sequence := let! v := idx (VDict metrics) "sample_source_sequence" in positive_int v in
  let! mono := let! v := idx (VDict metrics) "sample_consumer_monotonic_ns" in positive_int v in
  Ok [("identity", VList [producer; generation; VInt pid; conn]); ("observed_at", VStr text);
      ("observed_us", VInt observed_us); ("sequence", VInt sequence); ("consumer_monotonic_ns", VInt mono);
      ("bytes_sent", VInt bytes_sent)].

(** The stored snapshot has the current one's keys and integer counters. *)
Definition stored_ok (v : pyval) : bool :=
  match v with
  | VDict d =>
      forallb (fun k => has_key k d) ["identity"; "observed_at"; "observed_us"; "sequence"; "consumer_monotonic_ns"; "bytes_sent"]
      && forallb (fun k => match dget d k VNone with VInt z => 0 <? z | _ => false end)
           ["observed_us"; "sequence"; "consumer_monotonic_ns"]
      && match dget d "bytes_sent" VNone with VInt z => 0 <=? z | _ => false end
  | _ => false
  end.

Definition num (d : dict) (k : string) : Z := int_val (dget d k VNone).
Definition identity (d : dict) : pyval := dget d "identity" VNone.

Definition saved_pair (current : dict) : pyval := VDict [("baseline", VDict current); ("seen", VDict current)].

(** The payload of one sample. *)
Definition identity_part (current : dict) (i : nat) : pyval :=
  match identity current with VList l => default VNone (l !! i) | _ => VNone end.
Definition sample_payload (baseline current metrics : dict) (pid bytes_sent : Z) (interval rate : Q) : dict :=
  [("ffmpeg_pid", VInt pid); ("sample_interval_sec", VFloat (Fin interval));
   ("bytes_sent_delta", VInt (num current "bytes_sent" - num baseline "bytes_sent"));
   ("bytes_sent", VInt bytes_sent); ("mbps", VFloat (Fin rate));
   ("sample_schema_version", VStr "ffmpeg_tcp_send_sample.v2"); ("sample_time_source", VStr TIME_SOURCE);
   ("sample_start_observed_at", dget baseline "observed_at" VNone);
   ("sample_end_observed_at", dget current "observed_at" VNone);
   ("sample_source_sequence_start", dget baseline "sequence" VNone);
   ("sample_source_sequence_end", dget current "sequence" VNone);
   ("sample_producer_instance_id", identity_part current 0); ("sample_ffmpeg_generation", identity_part current 1);
   ("sample_connection_id", identity_part current 3);
   ("sample_identity_scope", VStr (if truthy (identity_part current 3) then "socket_endpoints" else "ffmpeg_generation"))]
  ++ map (fun name => (name, dget metrics name (VInt 0)))
       ["bytes_acked"; "send_q"; "notsent"; "unacked"; "lastsnd_ms"; "rto_ms"]
  ++ [("conn", VStr (str0 metrics "conn"))].

(** The continuity test between the stored snapshots and the current one (lines
    150-175): [true] when the stored pair must be replaced. *)
Definition discontinuous (baseline seen current : dict) (monotonic_us : Q) : bool :=
  let seen_elapsed := num current "observed_us" - num seen "observed_us" in
  negb (py_eq (identity current) (identity baseline) && py_eq (identity baseline) (identity seen))
  || (num current "bytes_sent" <? num seen "bytes_sent")
  || (seen_elapsed <=? 0) || Qleb monotonic_us 0
  || Qltb 6000000 (qabs (inject_Z seen_elapsed - monotonic_us))
  || (num seen "bytes_sent" <? num baseline "bytes_sent")
  || (num seen "observed_us" <? num baseline "observed_us").

(** The new state and the payload, if any. *)
Definition source_timed_sample (state : dict) (ffmpeg_pid bytes_sent : Z) (metrics : dict) (interval_seconds : Z)
  : res (dict * option dict) :=
  match snapshot ffmpeg_pid bytes_sent metrics with
  | Err (EKey | EType | EValue _ | EOverflow) => Ok (dict_pop STATE_KEY state, None)
  | Err e => Err e
  | Ok current =>
      if interval_seconds <=? 0 then Ok (state, None) else
      let restart := dict_set STATE_KEY (saved_pair current) state in
      match dget state STATE_KEY VNone with
      | VDict saved =>
          if negb (stored_ok (dget saved "baseline" VNone) && stored_ok (dget saved "seen" VNone)) then Ok (restart, None) else
          let baseline := as_dict (dget saved "baseline" VNone) in
          let seen := as_dict (dget saved "seen" VNone) in
          let same := py_eq (identity current) (identity baseline) && py_eq (identity baseline) (identity seen) in
          let! monotonic_us := true_div (num current "consumer_monotonic_ns" - num seen "consumer_monotonic_ns") 1000 in
          if same && (num current "sequence" - num seen "sequence" <=? 0) then Ok (state, None) else
          if discontinuous baseline seen current monotonic_us then Ok (restart, None) else
          let saved1 := dict_set "seen" (VDict current) saved in
          let elapsed_us := num current "observed_us" - num baseline "observed_us" in
          if elapsed_us <? interval_seconds * 1000000 then Ok (dict_set STATE_KEY (VDict saved1) state, None) else
          let! interval := true_div elapsed_us 1000000 in
          let! rate := true_div ((num current "bytes_sent" - num baseline "bytes_sent") * 8) elapsed_us in
          Ok (dict_set STATE_KEY (VDict (dict_set "baseline" (VDict current) saved1)) state,
              Some (sample_payload baseline current metrics ffmpeg_pid bytes_sent interval (round3 rate)))
      | _ => Ok (restart, None)
      end
  end.
End SendSample.

(** ** Correctness *)
Module SendSampleProperties.
Section Props.
Context `{Repr} `{IsoMicros} `{TextDigest}.

(** The pair of snapshots the state holds. *)
Definition stored (state baseline seen : dict) : Prop :=
  exists saved, dget state STATE_KEY VNone = VDict saved /\
    dget saved "baseline" VNone = VDict baseline /\ dget saved "seen" VNone = VDict seen.

Lemma dget_set_eq k v (d : dict) x : dget (dict_set k v d) k x = v.
Proof. unfold dget. by rewrite dict_get_set_eq. Qed.
Lemma dget_set_ne k k' v (d : dict) x : k <> k' -> dget (dict_set k' v d) k x = dget d k x.
Proof. intros. unfold dget. by rewrite dict_get_set_ne. Qed.

Lemma stored_saved_pair state c : stored (dict_set STATE_KEY (saved_pair c) state) c c.
Proof. exists [("baseline", VDict c); ("seen", VDict c)]. by rewrite dget_set_eq. Qed.

Lemma stored_seen state saved b c : dget saved "baseline" VNone = VDict b ->
  stored (dict_set STATE_KEY (VDict (dict_set "seen" (VDict c) saved)) state) b c.
Proof. intros Hb. eexists. rewrite dget_set_eq. split; [done|]. rewrite dget_set_ne by done. by rewrite dget_set_eq. Qed.

Lemma stored_both state saved c :
  stored (dict_set STATE_KEY (VDict (dict_set "baseline" (VDict c) (dict_set "seen" (VDict c) saved))) state) c c.
Proof. eexists. rewrite dget_set_eq. split; [done|]. rewrite dget_set_eq, dget_set_ne by discriminate. by rewrite dget_set_eq. Qed.

Lemma stored_ok_dict v : stored_ok v = true -> v = VDict (as_dict v).
Proof. by destruct v. Qed.

Lemma true_div_Ok a b q : true_div a b = Ok q -> q = (inject_Z a / inject_Z b)%Q.
Proof. unfold true_div. destruct (Qltb _ _); by intros [= <-]. Qed.

Lemma round3_error x : (qabs (round3 x - x) <= 1 # 2000)%Q.
Proof.
  pose proof (round_even_error (x * 1000)) as He. unfold round3.
  set (n := inject_Z (round_even (x * 1000))) in *.
  assert (E : (n / 1000 - x == (n - x * 1000) * (1 # 1000))%Q) by field.
  unfold qabs in *. destruct (Qleb_spec 0 (n - x * 1000)), (Qleb_spec 0 (n / 1000 - x)); lra.
Qed.

Lemma positive_int_Ok v z : positive_int v = Ok z -> 0 < z.
Proof. destruct v as [| |n| | | |]; simpl; try done. destruct (Z.ltb_spec 0 n); [by intros [= <-] | done]. Qed.

(** A snapshot is a stored snapshot, and its identity equals itself. *)
Lemma snapshot_shape pid bytes m c : snapshot pid bytes m = Ok c ->
  stored_ok (VDict c) = true /\ py_eq (identity c) (identity c) = true.
Proof.
  intros Ec. unfold snapshot in Ec. inv_ok Ec. destruct (negb (named v2 && named v3)) eqn:En; [done|].
  destruct (_ || _) eqn:Eb in Ec; [done|]. inv_ok Ec. injection Ec as <-.
  apply negb_false_iff, andb_true_iff in En as [En2 En3]. apply orb_false_iff in Eb as [Eb _]. apply Z.ltb_ge in Eb.
  assert (Hus : 0 < v1) by (case_all_in E1; by eapply positive_int_Ok).
  inv_ok E6. inv_ok E7. apply positive_int_Ok in E6, E7.
  split.
  - unfold stored_ok, dget; cbn -[Z.ltb Z.leb]. by rewrite !(proj2 (Z.ltb_lt _ _)), (proj2 (Z.leb_le _ _)) by lia.
  - destruct v2; try done. destruct v3; try done. unfold identity, dget; cbn -[Qeq_bool].
    rewrite !String.eqb_refl, (proj2 (Qeq_bool_iff _ _)) by done. cbn.
    unfold connection in E4. destruct (truthy _) in E4; [|injection E4 as <-; done].
    case_all_in E4. injection E4 as <-. cbn. by rewrite String.eqb_refl.
Qed.

Lemma repeat_changes_nothing state pid bytes m iv c : snapshot pid bytes m = Ok c -> stored state c c ->
  source_timed_sample state pid bytes m iv = Ok (state, None).
Proof.
  intros Ec (saved & Hs & Hb & Hn). unfold source_timed_sample. rewrite Ec. destruct (iv <=? 0); [done|].
  destruct (snapshot_shape _ _ _ _ Ec) as [Hok Hid].
  rewrite Hs, Hb, Hn, Hok. cbn [andb negb as_dict]. rewrite !Z.sub_diag.
  change (true_div 0 1000) with (Ok (A:=Q) (inject_Z 0 / inject_Z 1000)%Q). cbn [rbind]. by rewrite Hid.
Qed.

(** What one call does to the stored pair: it drops it, keeps it, replaces it by
    the current snapshot, records the current snapshot as seen, or closes the
    interval at the current snapshot and emits its payload. *)
Inductive step (pid bytes : Z) (m : dict) (iv : Z) (state : dict) : dict -> option dict -> Prop :=
  | s_drop : step pid bytes m iv state (dict_pop STATE_KEY state) None
  | s_keep : step pid bytes m iv state state None
  | s_restart state' c : snapshot pid bytes m = Ok c -> stored state' c c -> step pid bytes m iv state state' None
  | s_seen state' b s c : snapshot pid bytes m = Ok c -> stored state b s -> stored state' b c ->
      num s "sequence" < num c "sequence" -> step pid bytes m iv state state' None
  | s_emit state' b s c interval rate : snapshot pid bytes m = Ok c -> stored state b s -> stored state' c c ->
      num s "sequence" < num c "sequence" ->
      py_eq (identity c) (identity b) = true -> py_eq (identity b) (identity s) = true ->
      num b "bytes_sent" <= num s "bytes_sent" <= num c "bytes_sent" ->
      num b "observed_us" <= num s "observed_us" < num c "observed_us" ->
      iv * 1000000 <= num c "observed_us" - num b "observed_us" ->
      interval = (inject_Z (num c "observed_us" - num b "observed_us") / 1000000)%Q ->
      rate = round3 (inject_Z ((num c "bytes_sent" - num b "bytes_sent") * 8)
                     / inject_Z (num c "observed_us" - num b "observed_us")) ->
      step pid bytes m iv state state' (Some (sample_payload b c m pid bytes interval rate)).

Lemma source_timed_step state pid bytes m iv state' o :
  source_timed_sample state pid bytes m iv = Ok (state', o) -> step pid bytes m iv state state' o.
Proof.
  intros Hr. unfold source_timed_sample in Hr. destruct (snapshot pid bytes m) as [c|e] eqn:Ec.
  2: { destruct e; try discriminate Hr; injection Hr as <- <-; constructor. }
  destruct (Z.leb_spec iv 0); [injection Hr as <- <-; constructor|].
  destruct (dget state STATE_KEY VNone) as [| | | | | |saved] eqn:Es;
    try (injection Hr as <- <-; eapply s_restart; [done | apply stored_saved_pair]).
  destruct (stored_ok (dget saved "baseline" VNone)) eqn:Eb; cbn [andb negb] in Hr;
    [destruct (stored_ok (dget saved "seen" VNone)) eqn:En; cbn [andb negb] in Hr|];
    try (injection Hr as <- <-; eapply s_restart; [done | apply stored_saved_pair]).
  apply stored_ok_dict in Eb, En. remember (as_dict (dget saved "baseline" VNone)) as b.
  remember (as_dict (dget saved "seen" VNone)) as s. clear Heqb Heqs.
  assert (Hst : stored state b s) by by exists saved.
  inv_ok Hr. destruct (py_eq (identity c) (identity b) && py_eq (identity b) (identity s)) eqn:Eid;
    [destruct (Z.leb_spec (num c "sequence" - num s "sequence") 0) as [Hq|Hq]|]; cbn [andb] in Hr.
  { injection Hr as <- <-. constructor. }
  2: { unfold discontinuous in Hr. rewrite Eid in Hr. injection Hr as <- <-. eapply s_restart; [done | apply stored_saved_pair]. }
  destruct (discontinuous b s c v) eqn:Ed; [injection Hr as <- <-; eapply s_restart; [done | apply stored_saved_pair]|].
  unfold discontinuous in Ed. rewrite Eid in Ed. apply andb_true_iff in Eid as [Ei1 Ei2]. cbn [negb orb] in Ed.
  repeat (apply orb_false_iff in Ed as [Ed ?]). bools.
  destruct (Z.ltb_spec (num c "observed_us" - num b "observed_us") (iv * 1000000)).
  { injection Hr as <- <-. eapply s_seen; [done | done | by apply stored_seen | lia]. }
  inv_ok Hr. injection Hr as <- <-. apply true_div_Ok in E0 as ->, E1 as ->.
  eapply s_emit; try done; try lia; [apply stored_both].
Qed.

(** An emitted upload sample spans two snapshots of one counter identity with
    a newer sequence number; the interval is the producer's time between them and
    at least the configured one, the byte delta is not negative, the rate is
    their quotient to the thousandth, and the next interval starts at this
    snapshot.  A repeated or reordered reading of the same identity changes
    nothing and emits nothing. *)
Theorem send_sample_sound state pid bytes m iv state' payload
  (Hr : source_timed_sample state pid bytes m iv = Ok (state', Some payload)) :
  exists b s c, snapshot pid bytes m = Ok c /\ stored state b s /\ stored state' c c /\
    py_eq (identity c) (identity b) = true /\ num s "sequence" < num c "sequence" /\
    (let dt := num c "observed_us" - num b "observed_us" in
     let db := num c "bytes_sent" - num b "bytes_sent" in
     iv * 1000000 <= dt /\ 0 < dt /\ 0 <= db /\
     dget payload "bytes_sent_delta" VNone = VInt db /\
     dget payload "sample_interval_sec" VNone = VFloat (Fin (inject_Z dt / 1000000)) /\
     exists rate, dget payload "mbps" VNone = VFloat (Fin rate) /\
       (qabs (rate - inject_Z (db * 8) / inject_Z dt) <= 1 # 2000)%Q) /\
    source_timed_sample state' pid bytes m iv = Ok (state', None).
Proof.
  apply source_timed_step in Hr as Hs. inversion Hs as [| | | |x b s c interval rate Ec Hst Hst' Hq Hi1 Hi2 Hb Ht Hiv Ei Er]; subst.
  exists b, s, c. cbv zeta. split_and!; try done; try lia.
  - eexists. split; [reflexivity|]. apply round3_error.
  - apply (repeat_changes_nothing _ _ _ _ _ c Ec Hst').
Qed.
End Props.

(** Timestamps written as microseconds; no connection text. *)
#[local] Instance micros : IsoMicros := fun s => option_map Some (int_of_str s).
#[local] Instance no_digest : TextDigest := fun s => s.
#[local] Existing Instance FastPolicyProperties.no_repr.
Definition reading (us seq bytes : Z) : dict :=
  bind_runtime_metrics
    [("tcp_metrics", VDict [("bytes_sent", VInt bytes)]); ("observed_at", VStr (str_Z us));
     ("producer_instance_id", VStr "p"); ("ffmpeg_generation", VStr "g"); ("sequence", VInt seq)] (us * 1000).
Definition after (r : res (dict * option dict)) : dict := match r with Ok (s, _) => s | _ => [] end.
Definition first_state : dict := after (source_timed_sample [] 7 1000 (reading 5000000 1 1000) 60).
Definition second_state : dict := after (source_timed_sample first_state 7 76001000 (reading 66000000 9 76001000) 60).
Definition second_payload : dict :=
  match source_timed_sample first_state 7 76001000 (reading 66000000 9 76001000) 60 with Ok (_, Some p) => p | _ => [] end.
Lemma send_sample_sound_witness :
  source_timed_sample first_state 7 76001000 (reading 66000000 9 76001000) 60 = Ok (second_state, Some second_payload) /\
  dget second_payload "bytes_sent_delta" VNone = VInt 76000000 /\
  exists b s c, stored first_state b s /\ stored second_state c c /\ num s "sequence" < num c "sequence".
Proof.
  assert (E : source_timed_sample first_state 7 76001000 (reading 66000000 9 76001000) 60 = Ok (second_state, Some second_payload))
    by (vm_compute; reflexivity).
  split; [exact E|]. split; [vm_compute; reflexivity|].
  destruct (send_sample_sound _ _ _ _ _ _ _ E) as (b & s & c & _ & Hb & Hc & _ & Hq & _).
  exists b, s, c. exact (conj Hb (conj Hc Hq)).
Defined.
End SendSampleProperties.
