(* ===== verification/EffectContract.v ===== *)
(** * Fast recovery: the effect executor contract
    (src/src/watchers/fast_recovery_core/effect_contract.py)

    The controller reads one runtime observation file and talks to the effect
    executor over a socket.  [EffectClient] (runtime_boundary) is an argument: a
    function of the request that answers with a dict or raises.  Reading the clock,
    ISO text and the SHA-256 of a JSON text are class operations. *)
From S2P Require Import Prelude PyVal FastPolicy.

(** [datetime.fromisoformat(s.replace("Z", "+00:00")).astimezone(UTC)] as seconds
    since the epoch, with the exception it raises. *)
Class IsoEpoch := parse_epoch : string -> res Q.
(** [isoformat(timespec="milliseconds")] with the [Z] suffix. *)
Class IsoText := iso_ms : Q -> string.
(** SHA-256 of the sorted compact JSON text. *)
Class JsonSha := json_sha256 : pyval -> string.

(** [type(exc).__name__] *)
Definition exn_name (e : exn) : string :=
  match e with
  | EKey => "KeyError" | EType => "TypeError" | EAttr => "AttributeError" | EOverflow => "OverflowError"
  | EIndex => "IndexError" | EValue _ => "ValueError" | ERuntime _ => "RuntimeError" | EOS name => name
  | EObservation _ => "ObservationRejected" | EClock _ => "ClockRejected"
  end.

(** One reading of the observation file: its decoded content ([None] when that
    fails) and the clock. *)
Record file_reading : Type := FileReading { f_file : option pyval; f_now : Q }.

(** The executor's answer to a request, or the exception of the client. *)
Definition client : Type := pyval -> res dict.

Definition rejected (reason : string) : dict :=
  [("ok", VBool false); ("state", VStr "REJECTED"); ("reason", VStr reason)].

Section Contract.
Context `{Repr} `{IsoEpoch} `{IsoText} `{JsonSha}.

Definition MAX_AGE : Q := 3.

Definition read_runtime_observation (r : file_reading) : res dict :=
  match f_file r with
  | Some (VDict value) =>
      if negb (String.eqb (str0 value "schema_version") "runtime.ffmpeg_observation.v1") then Ok [] else
      match parse_epoch (str0 value "observed_at") with
      | Err (EValue _) => Ok []
      | Err e => Err e
      | Ok observed =>
          let age := (f_now r - observed)%Q in
          Ok (if Qltb age (-1) || Qltb MAX_AGE age then [] else value)
      end
  | _ => Ok []
  end.

Record effect_request : Type := EffectRequest {
  q_producer_id : string; q_producer_generation : Z; q_intent : string; q_domain : string;
  q_reason : string; q_correlation : string; q_uuid : string; q_now : Q }.

(** The checks before a request is built (lines 76-94): the rejection, if any. *)
Definition request_refused (intent : string) (o : dict) : option string :=
  if String.eqb (str0 o "executor_instance_id") "" || String.eqb (str0 o "observation_id") "" then
    Some "EXECUTOR_IDENTITY_UNAVAILABLE"
  else if String.eqb intent RESTART_FFMPEG then
    if negb (String.eqb (str0 o "target_snapshot_status") "VALID") || negb (is_dict (dget o "target_identity" VNone))
    then Some "TARGET_IDENTITY_UNAVAILABLE"
    else if String.eqb (str0 o "ffmpeg_generation") "" || String.eqb (str0 o "target_snapshot_id") ""
            || negb (truthy (dget o "ffmpeg_running" VNone))
    then Some "FFMPEG_GENERATION_UNAVAILABLE"
    else None
  else
    if negb (String.eqb (str0 o "runtime_snapshot_status") "VALID") || negb (is_dict (dget o "runtime_identity" VNone))
    then Some "RUNTIME_IDENTITY_UNAVAILABLE"
    else if String.eqb (str0 o "runtime_snapshot_id") "" then Some "RUNTIME_SNAPSHOT_ID_UNAVAILABLE"
    else None.

(** The request of lines 97-120. *)
Definition typed_request (q : effect_request) (o : dict) : res pyval :=
  let restart := String.eqb (q_intent q) RESTART_FFMPEG in
  let operation_id := if String.eqb (q_correlation q) "" then ("fra-" ++ q_uuid q)%string else q_correlation q in
  let! projection_sequence := py_int (py_or (dget o "projection_sequence" VNone) (VInt 0)) in
  Ok (VDict
    [("schema_version", VStr "runtime.typed_effect_request.v2"); ("request_id", VStr operation_id);
     ("producer_id", VStr (q_producer_id q)); ("producer_generation", VInt (q_producer_generation q));
     ("intent_type", VStr (q_intent q)); ("reason", VStr (str_take 512 (q_reason q)));
     ("failure_domain", VStr (q_domain q)); ("issued_at", VStr (iso_ms (q_now q)));
     ("expires_at", VStr (iso_ms (q_now q + 3)));
     ("ffmpeg_target_identity", if restart then dget o "target_identity" VNone else VNone);
     ("runtime_identity", if negb restart then dget o "runtime_identity" VNone else VNone);
     ("expected_ffmpeg_generation", VStr (if restart then str0 o "ffmpeg_generation" else ""));
     ("idempotency_key", VStr operation_id); ("correlation_id", VStr operation_id);
     ("target_snapshot_id", VStr (if restart then str0 o "target_snapshot_id" else ""));
     ("runtime_snapshot_id", VStr (if negb restart then str0 o "runtime_snapshot_id" else ""));
     ("runtime_observation_id", VStr (str0 o "observation_id"));
     ("expected_executor_instance_id", VStr (str0 o "executor_instance_id"));
     ("maintenance_evidence_status",
      VStr (py_str (py_or (dget o "maintenance_evidence_status" VNone) (VStr "UNKNOWN"))));
     ("projection_id", VStr (str0 o "projection_id")); ("projection_sequence", VInt projection_sequence)]).

(** What [execute_typed_effect_request] does before it calls the client: reject,
    or send this request. *)
Definition plan_effect_request (file : file_reading) (q : effect_request) : res (string + pyval) :=
  let! o := read_runtime_observation file in
  if negb (truthy (VDict o)) then Ok (inl "RUNTIME_OBSERVATION_UNAVAILABLE") else
  if negb (bool_decide (q_intent q ∈ [RESTART_FFMPEG; RECONCILE_FFMPEG; ESCALATE_RUNTIME_RECOVERY]))
  then Ok (inl "INTENT_NOT_SUPPORTED") else
  match request_refused (q_intent q) o with
  | Some reason => Ok (inl reason)
  | None => let! request := typed_request q o in Ok (inr request)
  end.

Definition execute_typed_effect_request (file : file_reading) (q : effect_request) (execute : client) : res dict :=
  let! plan := plan_effect_request file q in
  match plan with inl reason => Ok (rejected reason) | inr request => execute request end.

(** [unresolved_effect_scopes] on the client's answer. *)
Definition unresolved_effect_scopes (answer : res dict) : res dict :=
  let! response := answer in
  match dget response "unresolved_scopes" VNone, dget response "unresolved_count" VNone with
  | VList scopes, VInt count =>
      if py_eq (dget response "schema_version" VNone) (VStr "runtime.effect_unresolved_response.v1")
         && is_true (dget response "ok" VNone) && (count =? Z.of_nat (length scopes)) && forallb is_dict scopes
      then Ok response else Err (EValue "UNRESOLVED_EFFECT_RESPONSE_INVALID")
  | _, _ => Err (EValue "UNRESOLVED_EFFECT_RESPONSE_INVALID")
  end.

(** The reconciliation request: a conclusion about a delayed exit; it can not ask
    for an effect. *)
Definition reconcile_request (scope observation : dict) (bytes_sent : Z) (down probe : bool) (now : Q) : res pyval :=
  match dget scope "identity" VNone, dget observation "target_identity" VNone with
  | VDict before, VDict observed =>
      let scope_id := str0 scope "effect_scope_id" in
      let owner := str0 scope "owner_request_id" in
      let digest := str0 scope "owner_request_digest" in
      let observation_id := str0 observation "observation_id" in
      if existsb (String.eqb "") [scope_id; owner; digest; observation_id]
      then Err (EValue "RECONCILIATION_IDENTITY_MISSING") else
      let stable := VDict [("effect_scope_id", VStr scope_id); ("owner_request_id", VStr owner);
                           ("observed_ffmpeg_generation", dget observed "ffmpeg_generation" VNone);
                           ("observed_ffmpeg_pid", dget observed "ffmpeg_pid" VNone)] in
      Ok (VDict
        [("schema_version", VStr "runtime.effect_reconciliation_request.v1");
         ("reconciliation_id", VStr ("dell-auto-reconcile-" ++ json_sha256 stable));
         ("effect_scope_id", VStr scope_id); ("owner_request_id", VStr owner); ("owner_request_digest", VStr digest);
         ("resolution", VStr "EFFECT_OBSERVED");
         ("evidence", VDict
           [("schema_version", VStr "runtime.delayed_exit_reconciliation_evidence.v1");
            ("oracle", VStr "DELAYED_FFMPEG_EXIT_AND_HEALTHY_SUCCESSOR"); ("observed_at", VStr (iso_ms now));
            ("physical_effect_count", VInt 1); ("automatic_retry_count", VInt 0);
            ("before_target", VDict before); ("observed_target", VDict observed);
            ("runtime_observation_id", VStr observation_id);
            ("transport", VDict [("bytes_sent", VInt bytes_sent); ("network_down", VBool down);
                                 ("tcp_probe_ok", VBool probe)])])])
  | _, _ => Err EType
  end.
Definition reconcile_delayed_effect (scope observation : dict) (bytes_sent : Z) (down probe : bool) (now : Q)
    (reconcile : client) : res dict :=
  let! request := reconcile_request scope observation bytes_sent down probe now in reconcile request.

(** ** Correctness *)

(** A request leaves only on a fresh observation, and restates the identity that
    observation names for exactly the kind of target it acts on. *)
Lemma plan_request_fenced file q request : plan_effect_request file q = Ok (inr request) ->
  exists o observed, read_runtime_observation file = Ok o /\ f_file file = Some (VDict o) /\
    parse_epoch (str0 o "observed_at") = Ok observed /\
    (-1 <= f_now file - observed <= 3)%Q /\
    request_refused (q_intent q) o = None /\ typed_request q o = Ok request.
Proof.
  unfold plan_effect_request. intros Hp. inv_ok Hp. destruct (negb (truthy (VDict v))) eqn:Ev; [done|].
  destruct (negb (bool_decide _)); [done|]. destruct (request_refused _ v) eqn:Er; [done|].
  inv_ok Hp. injection Hp as <-. pose proof E as Eread. unfold read_runtime_observation in E.
  destruct (f_file file) as [[| | | | | |value]|]; try (injection E as <-; discriminate Ev).
  destruct (negb _); [injection E as <-; discriminate Ev|].
  destruct (parse_epoch _) as [observed|[]] eqn:Eo; try done; try (injection E as <-; discriminate Ev).
  destruct (_ || _) eqn:Ea; injection E as <-; [discriminate Ev|]. apply orb_false_iff in Ea as [Ha Hb].
  apply Qltb_false in Ha, Hb. unfold MAX_AGE in Hb.
  exists value, observed. split; [done|]. split_and!; try done.
Qed.
End Contract.
