(* ===== verification/FastRecovery.v ===== *)
(** * Fast recovery: one turn of the controller (src/src/watchers/fast_recovery.py)

    A turn loads its state, observes, and sends at most one recovery effect.  It
    runs in a monad over the state dict, the list of actions taken so far (events
    logged, effects sent, reconciliations requested) and the state last saved; a
    turn ends by returning after [save_state] or by an exception.  Everything read
    from outside is a field of [inputs]: each place that reads the observation
    file or the clock has its own reading.  Audit records, the restart-reason file,
    the transport snapshot file and the text of log lines do not influence the turn
    and are not modelled; the data payload of events is left out. *)
From Stdlib Require Import Ascii.
From S2P Require Import Prelude PyVal FastPolicy RemoteWarning SendSample EffectContract.

(** ** Configuration (lines 68-206) *)
Class FloatText := float_of_text : string -> option Q.

Definition getenv : Type := string -> option string.
Definition env (e : getenv) (name dflt : string) : string := strip (default dflt (e name)).
Definition int_env (e : getenv) (name : string) (dflt : Z) : Z :=
  default dflt (int_of_str (env e name (str_Z dflt))).
Definition bool_env (e : getenv) (name : string) (dflt : bool) : bool :=
  bool_decide (lower (env e name (if dflt then "1" else "0")) ∈ ["1"; "true"; "yes"; "on"]).
Definition float_env `{FloatText} (e : getenv) (name : string) (text : string) (dflt : Q) : Q :=
  default dflt (float_of_text (env e name text)).

(** [s.upper()] of an ASCII string, [s.split(",")], [s.isdigit()]. *)
Definition upper_ascii (c : ascii) : ascii :=
  let n := nat_of_ascii c in if (97 <=? n)%nat && (n <=? 122)%nat then ascii_of_nat (n - 32) else c.
Fixpoint upper (s : string) : string :=
  match s with EmptyString => EmptyString | String c s' => String (upper_ascii c) (upper s') end.
Fixpoint split_comma (cur : string) (s : string) : list string :=
  match s with
  | EmptyString => [cur]
  | String c s' => if Ascii.eqb c ","%char then cur :: split_comma "" s' else split_comma (cur ++ String c EmptyString)%string s'
  end.
Definition isdigit (s : string) : bool := negb (String.eqb s "") && all_chars is_digit s.

Record config : Type := Config {
  CONTROLLER_ID : string; EXECUTION_MODE : string; EFFECT_AUTHORITY_MODE : string;
  EFFECT_EXECUTOR_SOCKET : string; EFFECT_PRODUCER_ID : string; EFFECT_PRODUCER_GENERATION : Z;
  CONTROLLER_RUNTIME_MODE : string; GPU_PREFLIGHT_ENABLED : bool; REQUIRE_ESTABLISHED : bool;
  RTMP_PORTS : list Z; PUBLIC_PING_TARGETS : list string;
  NET_FAIL_CONFIRM : Z; STALL_CONFIRM : Z; REMOTE_WARNING_CONFIRM : Z; WARNING : warning_config;
  THRESHOLDS : thresholds; MIN_FFMPEG_UPTIME_SEC : Z; FFMPEG_MISSING_RESTART_SEC : Z;
  FFMPEG_MISSING_SUCCESS_BACKOFF_SEC : Z; RESTART_GUARD_SEC : Z; RESTART_FAILURE_BACKOFF_SEC : Z;
  HOURLY_DOWNTIME_BUDGET_SEC : Z; DAILY_DOWNTIME_BUDGET_SEC : Z; RESTART_DOWNTIME_COST_SEC : Z;
  BUDGET_EMERGENCY_OVERRIDE_SEC : Z; SAMPLES_MAX : Z; TCP_SEND_SAMPLE_LOG_SEC : Z;
  SUPERVISOR : string; ENFORCEMENT : bool; OBSERVATION_ENV : bool }.

Definition LIVE_LIKE_LIFECYCLE : list string := ["live"; "liveStarting"; "testing"; "testStarting"].

Definition load_config `{FloatText} (e : getenv) : config :=
  let ports := map (fun p => default 0 (int_of_str (strip p)))
                 (List.filter (fun p => isdigit (strip p)) (split_comma "" (env e "FR_RTMP_PORTS" "1935,443"))) in
  {| CONTROLLER_ID := env e "FR_CONTROLLER_ID" "dell_fast_recovery";
     EXECUTION_MODE := env e "FR_EXECUTION_MODE" "execute";
     EFFECT_AUTHORITY_MODE := upper (env e "FR_EFFECT_AUTHORITY_MODE" "LEGACY_DIRECT");
     EFFECT_EXECUTOR_SOCKET := env e "FR_EFFECT_EXECUTOR_SOCKET" "";
     EFFECT_PRODUCER_ID := env e "FR_EFFECT_PRODUCER_ID" "legacy-in-pod";
     EFFECT_PRODUCER_GENERATION := Z.max 1 (int_env e "FR_EFFECT_PRODUCER_GENERATION" 1);
     CONTROLLER_RUNTIME_MODE := upper (env e "FR_CONTROLLER_RUNTIME_MODE" "LEGACY");
     GPU_PREFLIGHT_ENABLED := bool_env e "FR_GPU_PREFLIGHT_ENABLED" true;
     REQUIRE_ESTABLISHED := bool_env e "FR_FFMPEG_MISSING_REQUIRE_CURRENT_POD_ESTABLISHED" true;
     RTMP_PORTS := match ports with [] => [1935; 443] | _ => ports end;
     PUBLIC_PING_TARGETS := List.filter (fun x => negb (String.eqb x ""))
                              (map strip (split_comma "" (env e "FR_PUBLIC_PING_TARGETS" "1.1.1.1,8.8.8.8")));
     NET_FAIL_CONFIRM := Z.max 1 (int_env e "FR_NET_FAIL_CONFIRM" 1);
     STALL_CONFIRM := Z.max 1 (int_env e "FR_STALL_CONFIRM" 2);
     REMOTE_WARNING_CONFIRM := Z.max 1 (int_env e "FR_REMOTE_WARNING_CONFIRM" 1);
     WARNING := WarningConfig (bool_env e "FR_URL_PRESERVATION_MODE" true)
                  (Z.max 15 (int_env e "FR_YTW_STATUS_MAX_AGE_SEC" 180))
                  (bool_env e "FR_REMOTE_WARNING_REQUIRE_LOCAL_OK" true) LIVE_LIKE_LIFECYCLE
                  (bool_env e "FR_REMOTE_WARNING_CONFIRM_DISTINCT_STATS" true);
     THRESHOLDS := Thresholds (Z.max 1000 (int_env e "FR_STALL_LASTSND_MS" 4000))
                     (Z.max 4096 (int_env e "FR_STALL_NOTSENT_BYTES" 8192)) (Z.max 8 (int_env e "FR_STALL_UNACKED" 64))
                     (bool_env e "FR_LOW_UPLOAD_PRESSURE_ENABLED" true)
                     (qmax (1 # 10) (float_env e "FR_LOW_UPLOAD_PRESSURE_MAX_MBPS" "3.2" (32 # 10)))
                     (Z.max 4096 (int_env e "FR_LOW_UPLOAD_PRESSURE_NOTSENT_BYTES" 524288))
                     (Z.max 8 (int_env e "FR_LOW_UPLOAD_PRESSURE_UNACKED" 256))
                     (Z.max 100 (int_env e "FR_LOW_UPLOAD_PRESSURE_LASTSND_MS" 1000));
     MIN_FFMPEG_UPTIME_SEC := Z.max 0 (int_env e "FR_MIN_FFMPEG_UPTIME_SEC" 20);
     FFMPEG_MISSING_RESTART_SEC := Z.max 5 (int_env e "FR_FFMPEG_MISSING_RESTART_SEC" 20);
     FFMPEG_MISSING_SUCCESS_BACKOFF_SEC := Z.max 0 (int_env e "FR_FFMPEG_MISSING_SUCCESS_BACKOFF_SEC" 60);
     RESTART_GUARD_SEC := Z.max 1 (int_env e "FR_RESTART_GUARD_SEC" 5);
     RESTART_FAILURE_BACKOFF_SEC := Z.max 1 (int_env e "FR_RESTART_FAILURE_BACKOFF_SEC" 30);
     HOURLY_DOWNTIME_BUDGET_SEC := Z.max 0 (int_env e "FR_HOURLY_DOWNTIME_BUDGET_SEC" 300);
     DAILY_DOWNTIME_BUDGET_SEC := Z.max 0 (int_env e "FR_DAILY_DOWNTIME_BUDGET_SEC" 1800);
     RESTART_DOWNTIME_COST_SEC := Z.max 1 (int_env e "FR_RESTART_DOWNTIME_COST_SEC" 30);
     BUDGET_EMERGENCY_OVERRIDE_SEC := Z.max 0 (int_env e "FR_BUDGET_EMERGENCY_OVERRIDE_SEC" 90);
     SAMPLES_MAX := Z.max 120 (int_env e "FR_SAMPLES_MAX" 1024);
     TCP_SEND_SAMPLE_LOG_SEC := Z.max 0 (int_env e "FR_TCP_SEND_SAMPLE_LOG_SEC" 60);
     SUPERVISOR := lower (strip (env e "STREAM_RUNTIME_SUPERVISOR" "systemd"));
     ENFORCEMENT := bool_env e "MAINTENANCE_ENFORCEMENT_ENABLED" false;
     OBSERVATION_ENV := bool_decide (is_Some (e "FR_RUNTIME_OBSERVATION_FILE")) |}.

(** ** Inputs of a turn *)
Record completed : Type := Completed { returncode : Z; stdout : string }.

(** The places that read the runtime observation file, and the clock. *)
Inductive obs_site : Type :=
  | OPid | OUptime | OMetrics | OReconcile | OGpu | OEstablished | OTyped | OScope | OAuthority | OExecute
  | ORequest | OEscalation.
Inductive time_site : Type := TSave | TGpu | TStartup | TBlock (name : string) | TOverride (name : string).

(** What [os.kill] did, and whether the process still existed after the wait. *)
Inductive kill_result : Type := Killed (still_there : bool) | NoProcess | KillFailed (detail : string).

Record inputs : Type := Inputs {
  i_state_file : option pyval; i_now : Z; i_times : time_site -> Z; i_obs : obs_site -> file_reading;
  i_unresolved : res dict; i_unresolved_again : res dict;
  i_main_pid : completed; i_pgrep_child : completed; i_pgrep : completed; i_ps : completed; i_ss : completed;
  i_route : completed; i_gateway_ping : bool; i_pings : string -> bool; i_getent : completed; i_connect : Z -> bool;
  i_stats : option pyval; i_quota : option pyval; i_monotonic_ns : Z;
  i_gpu_status : dict; i_establishment : dict; i_uuid : string; i_request_uuid : string; i_request_now : Q;
  i_execute : client; i_reconcile : client; i_reconcile_now : Q;
  i_kill : kill_result; i_supervisor : res (bool * string); i_save : option exn }.

(** ** The monad of a turn *)
Inductive effect : Type :=
  | SendRequest (intent : string) (request : pyval)   (** to the effect executor *)
  | SignalChild (pid : Z)                             (** SIGTERM to the ffmpeg child *)
  | RestartRuntime.                                   (** restart by the supervisor *)
Inductive action : Type :=
  | Logged (e : event) | Effect (e : effect) | ReconcileSent (request : pyval).

Record world : Type := World { w_state : dict; w_actions : list action; w_saved : option dict }.
Inductive flow (A : Type) : Type := Go (a : A) | Return | Raise (e : exn).
Arguments Go {A}. Arguments Return {A}. Arguments Raise {A}.

Definition M (A : Type) : Type := world -> flow A * world.
Definition mret {A} (a : A) : M A := fun w => (Go a, w).
Definition mbind {A B} (m : M A) (k : A -> M B) : M B := fun w =>
  match m w with
  | (Go a, w') => k a w'
  | (Return, w') => (Return, w')
  | (Raise e, w') => (Raise e, w')
  end.
Definition lift {A} (r : res A) : M A := fun w => (match r with Ok a => Go a | Err e => Raise e end, w).
Definition get_state : M dict := fun w => (Go (w_state w), w).
Definition put_state (s : dict) : M unit := fun w => (Go tt, World s (w_actions w) (w_saved w)).
Definition act (a : action) : M unit := fun w => (Go tt, World (w_state w) (w_actions w ++ [a]) (w_saved w)).

Notation "'do' x <- m ; k" := (mbind m (fun x => k))
  (at level 200, x pattern, m at level 100, k at level 200, right associativity) : py_scope.
Notation "m ;;; k" := (mbind m (fun _ => k)) (at level 200, k at level 200, right associativity) : py_scope.

Definition modify (f : dict -> dict) : M unit := do s <- get_state; put_state (f s).
Definition set_keys (kvs : dict) : M unit := modify (fun s => dict_update s kvs).
Definition append_event (kind message : string) : M unit := act (Logged (Event kind message)).
(** A computation on the state that can raise before it changes the state. *)
Definition state_res {A} (f : dict -> res (dict * A)) : M A :=
  do s <- get_state; do (s', a) <- lift (f s); put_state s' ;;; mret a.
Definition modify_res (f : dict -> res dict) : M unit := state_res (fun s => let! s' := f s in Ok (s', tt)).
Definition when (b : bool) (m : M unit) : M unit := if b then m else mret tt.
Fixpoint foreach {A} (l : list A) (f : A -> M unit) : M unit :=
  match l with [] => mret tt | x :: l' => f x ;;; foreach l' f end.

Section Turn.
Context `{Repr} `{IsoSeconds} `{IsoMicros} `{TextDigest} `{IsoEpoch} `{IsoText} `{JsonSha}.
Variables (c : config) (i : inputs).

Definition socket_mode : bool := negb (String.eqb (EFFECT_EXECUTOR_SOCKET c) "").
Definition k8s_supervisor_active : bool :=
  socket_mode || bool_decide (SUPERVISOR c ∈ ["k8s"; "k3s"; "kubernetes"]).
Definition observe (site : obs_site) : M dict := lift (read_runtime_observation (i_obs i site)).
Definition trim (raw : pyval) : res (list restart_event) := trim_restart_events raw (i_now i) (RESTART_DOWNTIME_COST_SEC c).
Definition used (events : list restart_event) (window : Z) : Z :=
  used_downtime_budget_sec events (i_now i) window (RESTART_DOWNTIME_COST_SEC c).

(** [save_state(state); return 0]; the write of the file can raise. *)
Definition save_state : M unit := fun w =>
  let s := dict_set "observed_ts" (VInt (i_times i TSave)) (w_state w) in
  match i_save i with
  | Some e => (Raise e, World s (w_actions w) (w_saved w))
  | None => (Go tt, World s (w_actions w) (Some s))
  end.
Definition save_and_return {A} : M A := do _ <- save_state; fun w => (Return, w).

(** ** State file and contract *)
Definition default_state : dict :=
  [("last_pid", VInt 0); ("last_bytes_sent", VInt 0); ("net_fail_streak", VInt 0); ("stall_streak", VInt 0);
   ("remote_warning_streak", VInt 0); ("remote_warning_last_stats_ts", VInt 0);
   ("remote_warning_last_sample_key", VStr ""); ("remote_warning_last_probe_ts", VInt 0);
   ("remote_warning_context_key", VStr ""); ("remote_warning_recovery_episode_id", VStr "");
   ("remote_warning_ffmpeg_generation", VStr ""); ("last_restart_ts", VInt 0); ("last_restart_failure_ts", VInt 0);
   ("restart_failure_count", VInt 0); ("last_reason", VStr ""); ("last_budget_block_key", VStr "");
   ("last_budget_block_ts", VInt 0); ("last_gpu_restart_block_key", VStr ""); ("last_gpu_restart_block_ts", VInt 0);
   ("last_startup_restart_block_key", VStr ""); ("last_startup_restart_block_ts", VInt 0);
   ("last_tcp_send_sample_ts", VInt 0); ("last_tcp_send_sample_pid", VInt 0);
   ("last_tcp_send_sample_bytes_sent", VInt 0); ("observed_ts", VInt 0); ("connectivity_wait_active", VBool false);
   ("connectivity_wait_since_ts", VInt 0); ("connectivity_last_observed_ts", VInt 0);
   ("connectivity_recovered_ts", VInt 0); ("connectivity_gateway_present", VBool false);
   ("connectivity_gateway_ok", VBool false); ("connectivity_public_ok_count", VInt 0);
   ("connectivity_dns_ok", VBool false); ("connectivity_tcp_probe_ok", VBool false); ("restart_events", VList []);
   ("pending_recovery_actions", VList []); ("samples", VList [])].

Definition load_state (file : option pyval) : res dict :=
  match file with
  | Some (VDict payload) =>
      let state := dict_update default_state payload in
      let! events := trim (dget state "restart_events" (VList [])) in
      let state1 := dict_set "restart_events" (events_py events) state in
      Ok (dict_set "samples" (VList (trim_samples (dget state1 "samples" (VList [])) (Z.to_nat (SAMPLES_MAX c)))) state1)
  | _ => Ok default_state
  end.

Definition validate_controller_runtime_contract : res unit :=
  if ENFORCEMENT c then Err (ERuntime "P2_ENFORCEMENT_NOT_AUTHORIZED")
  else if String.eqb (CONTROLLER_RUNTIME_MODE c) "SHADOW_OBSERVER_ONLY" then
    if negb (String.eqb (EFFECT_AUTHORITY_MODE c) "SHADOW_ONLY") then Err (ERuntime "SHADOW_CONTROLLER_AUTHORITY_MODE_INVALID")
    else if GPU_PREFLIGHT_ENABLED c then Err (ERuntime "SHADOW_CONTROLLER_GPU_PREFLIGHT_CAPABILITY_NOT_ALLOWED")
    else Ok tt
  else if String.eqb (CONTROLLER_RUNTIME_MODE c) "NARROW_EXECUTOR_ONLY" then
    if negb socket_mode then Err (ERuntime "EFFECT_EXECUTOR_SOCKET_REQUIRED")
    else if negb (String.eqb (EFFECT_AUTHORITY_MODE c) "AUTO_FENCED") then Err (ERuntime "AUTO_FENCED_AUTHORITY_REQUIRED")
    else Ok tt
  else Ok tt.

(** ** Process and network observations *)
Definition get_main_pid (cp : completed) : Z :=
  if negb (returncode cp =? 0) then 0 else
  match int_of_str (strip (stdout cp)) with Some pid => if 1 <? pid then pid else 0 | None => 0 end.

(** The first line whose number, read by [number], is above 1. *)
Fixpoint first_pid (number : string -> option Z) (lines : list string) : Z :=
  match lines with
  | [] => 0
  | line :: rest =>
      match number line with
      | Some pid => if 1 <? pid then pid else first_pid number rest
      | None => first_pid number rest
      end
  end.
Definition get_child_ffmpeg_pid (main_pid : Z) (cp : completed) : Z :=
  if main_pid <=? 1 then 0 else
  if negb (returncode cp =? 0) then 0 else first_pid (fun l => int_of_str (strip l)) (splitlines (stdout cp)).
Definition ffmpeg_line_pid (line : string) : option Z :=
  if negb (contains " x11grab " line) && negb (contains "rtmp://" line) && negb (contains "rtmps://" line) then None
  else match split_ws line with t :: _ => int_of_str t | [] => None end.
Definition get_k8s_stream_ffmpeg_pid : M Z :=
  if socket_mode then
    do o <- observe OPid;
    do pid <- lift (py_int (py_or (dget o "protocol_ffmpeg_pid" VNone) (VInt 0)));
    mret (if truthy (dget o "ffmpeg_running" VNone) && (1 <? pid) then pid else 0)
  else mret (if negb (returncode (i_pgrep i) =? 0) then 0 else first_pid ffmpeg_line_pid (splitlines (stdout (i_pgrep i)))).
Definition get_stream_ffmpeg_pid (main_pid : Z) : M Z :=
  let pid := get_child_ffmpeg_pid main_pid (i_pgrep_child i) in
  if 1 <? pid then mret pid
  else if bool_decide (SUPERVISOR c ∈ ["k8s"; "k3s"; "kubernetes"]) then get_k8s_stream_ffmpeg_pid else mret 0.
Definition get_process_elapsed_sec (pid : Z) : M Z :=
  if socket_mode then
    do o <- observe OUptime;
    do p <- lift (py_int (py_or (dget o "protocol_ffmpeg_pid" VNone) (VInt 0)));
    if p =? pid then
      do u <- lift (py_int (py_or (dget o "ffmpeg_uptime_sec" VNone) (VInt 0))); mret (Z.max 0 u)
    else mret 0
  else if pid <=? 1 then mret 0
  else if negb (returncode (i_ps i) =? 0) then mret 0
  else mret (match int_of_str (strip (stdout (i_ps i))) with Some n => Z.max 0 n | None => 0 end).
Definition parse_ffmpeg_tcp_metrics (pid : Z) : M dict :=
  if socket_mode then
    do o <- observe OMetrics;
    do p <- lift (py_int (py_or (dget o "protocol_ffmpeg_pid" VNone) (VInt 0)));
    mret (if p =? pid then bind_runtime_metrics o (i_monotonic_ns i) else [])
  else mret (if (pid <=? 1) || negb (returncode (i_ss i) =? 0) then []
             else parse_ss_tcp_metrics (stdout (i_ss i)) pid (RTMP_PORTS c)).

(** probes.py [dns_ok] and [tcp_probe_ok]. *)
Definition dns_ok (cp : completed) : bool := (returncode cp =? 0) && negb (String.eqb (strip (stdout cp)) "").
Definition tcp_probe_ok (connect : Z -> bool) (ports : list Z) : bool := existsb connect ports.
Definition current_network_observation : NetworkObservation :=
  let gw := get_default_gateway (returncode (i_route i)) (stdout (i_route i)) in
  network_observation gw (negb (String.eqb gw "") && i_gateway_ping i)
    (Z.of_nat (length (List.filter (i_pings i) (PUBLIC_PING_TARGETS c)))) (dns_ok (i_getent i))
    (tcp_probe_ok (i_connect i) (RTMP_PORTS c)).

(** ** The executor ledger and pending recoveries (lines 426-532) *)
Definition pending_of (state : dict) : list dict :=
  match dget state "pending_recovery_actions" (VList []) with
  | VList l => map as_dict (List.filter is_dict l)
  | _ => []
  end.
Definition pending_recovery_count (state : dict) : Z := Z.of_nat (length (pending_of state)).
Definition put_pending (pending : list dict) (state : dict) : dict :=
  dict_set "pending_recovery_actions" (VList (last_n 16 (map VDict pending))) state.

Definition remember_pending_recovery (action : dict) (kind reason : string) (pid : Z) (state : dict) : dict :=
  put_pending (pending_of state
    ++ [dict_update action [("requested_at_ts", VInt (i_now i)); ("trigger", VStr kind); ("reason", VStr reason);
                            ("requested_ffmpeg_pid", VInt pid)]]) state.

(** The key of a local entry, and the entry for an owner: the last one wins. *)
Definition entry_key (item : dict) : string :=
  py_str (py_or (dget item "recovery_action_id" VNone) (py_or (dget item "owner_request_id" VNone) (VStr ""))).
Definition local_entry (owner : string) (items : list dict) : dict :=
  default [] (last (List.filter (fun item => String.eqb (entry_key item) owner) items)).
Definition scope_identity (scope : dict) : dict := as_dict (dget scope "identity" VNone).

Definition synced_entry (items : list dict) (scope : dict) : res dict :=
  let owner := str0 scope "owner_request_id" in
  let! pid := int0 (scope_identity scope) "ffmpeg_pid" in
  Ok (dict_update (local_entry owner items)
    [("recovery_action_id", VStr owner); ("owner_request_id", VStr owner);
     ("owner_request_digest", VStr (str0 scope "owner_request_digest"));
     ("effect_scope_id", VStr (str0 scope "effect_scope_id"));
     ("executor_scope_state", VStr (py_str (py_or (dget scope "state" VNone) (VStr "UNKNOWN"))));
     ("requested_ffmpeg_pid", VInt pid);
     ("requested_ffmpeg_generation", VStr (str0 (scope_identity scope) "ffmpeg_generation"));
     ("executor_identity", VDict (scope_identity scope))]).
Fixpoint synced_entries (items : list dict) (scopes : list dict) : res (list dict) :=
  match scopes with
  | [] => Ok []
  | s :: scopes' => let! e := synced_entry items s in let! es := synced_entries items scopes' in Ok (e :: es)
  end.
Definition sync_pending_recovery_from_executor (scopes : list dict) (state : dict) : res dict :=
  let! pending := synced_entries (pending_of state) scopes in Ok (put_pending pending state).

(** [None] when zero unresolved effects can not be shown. *)
Definition read_executor_unresolved_scopes (answer : res dict) : M (option (list dict)) :=
  if negb socket_mode then mret (Some []) else
  match unresolved_effect_scopes answer with
  | Err e => set_keys [("last_reason", VStr ("effect ledger unavailable; new action suppressed: " ++ exn_name e))] ;;; mret None
  | Ok response =>
      let scopes := match dget response "unresolved_scopes" VNone with VList l => map as_dict l | _ => [] end in
      modify_res (sync_pending_recovery_from_executor scopes) ;;; mret (Some scopes)
  end.

Definition new_event (kind : string) : pyval :=
  VDict [("ts", VInt (i_now i)); ("downtime_sec", VInt (RESTART_DOWNTIME_COST_SEC c)); ("reason", VStr kind)].
(** [trim_restart_events([*restart_events, {...}], now_ts)] *)
Definition add_restart_event (events : list restart_event) (kind : string) : res pyval :=
  let! es := trim (VList (map event_py events ++ [new_event kind])) in Ok (events_py es).

Definition record_unresolved_recovery_dispatch (action : dict) (kind reason : string) (pid : Z) (detail : string)
    (events : list restart_event) : M unit :=
  modify (remember_pending_recovery action kind reason pid) ;;;
  do es <- lift (add_restart_event events (if String.eqb kind "" then "unknown" else kind));
  set_keys [("restart_events", es); ("last_restart_ts", VInt (i_now i)); ("last_restart_failure_ts", VInt 0);
            ("restart_failure_count", VInt 0);
            ("last_reason", VStr ("effect outcome unresolved; automatic retry suppressed: " ++ detail))].

(** [decision.restart_metrics] and the snapshot's metrics and network parts. *)
Definition restart_metrics (tcp : TcpObservation) (down warning : bool) : res dict :=
  let! acked := int0 (metrics tcp) "bytes_acked" in
  let! send_q := int0 (metrics tcp) "send_q" in
  let! rto := int0 (metrics tcp) "rto_ms" in
  Ok [("bytes_sent_delta", VInt (bytes_delta tcp)); ("bytes_sent", VInt (bytes_sent tcp)); ("bytes_acked", VInt acked);
      ("bytes_elapsed_sec", VInt (bytes_elapsed_sec tcp)); ("send_mbps", opt_float (send_mbps_value tcp));
      ("send_q", VInt send_q); ("lastsnd_ms", VInt (lastsnd_ms tcp)); ("notsent", VInt (notsent tcp));
      ("unacked", VInt (unacked tcp)); ("rto_ms", VInt rto); ("network_down", VBool down);
      ("remote_warning", VBool warning); ("low_upload_pressure", VBool (low_upload_pressure tcp))].

(** The transport the snapshot shows is usable: bytes sent, network up, probe ok. *)
Definition transport_usable (tcp : TcpObservation) (n : NetworkObservation) : bool :=
  (0 <? bytes_sent tcp) && negb (network_down n) && FastPolicy.tcp_probe_ok n.

Definition still_running (pid : Z) (item : dict) : res bool :=
  let! requested := int0 item "requested_ffmpeg_pid" in Ok ((1 <? requested) && (requested =? pid)).
Fixpoint split_pending (pid : Z) (items : list dict) : res (list dict * list dict) :=
  match items with
  | [] => Ok ([], [])
  | item :: items' =>
      let! same := still_running pid item in
      let! (done_, remaining) := split_pending pid items' in
      Ok (if same then (done_, item :: remaining) else (item :: done_, remaining))
  end.
Definition maybe_record_recovery_completed (pid : Z) (tcp : TcpObservation) (n : NetworkObservation) : M unit :=
  do s <- get_state;
  if match pending_of s with [] => true | _ => false end then mret tt else
  if (pid <=? 1) || negb (transport_usable tcp n) then mret tt else
  do (done_, remaining) <- lift (split_pending pid (pending_of s));
  foreach done_ (fun item =>
    do _ <- lift (py_int (py_or (dget item "requested_at_ts" (VInt (i_now i))) (VInt (i_now i))));
    append_event "recovery_completed" (py_str (py_or (dget item "reason" VNone) (VStr "recovery completed")))) ;;;
  modify (put_pending remaining).

Definition stable_fields : list string :=
  ["host_id"; "host_boot_id"; "namespace"; "pod_uid"; "container_name"; "container_id"].

(** The scope's target is the observed one's predecessor: same container, another
    process and another generation. *)
Definition successor (before observed : dict) : res bool :=
  if existsb (fun k => negb (py_eq (dget before k VNone) (dget observed k VNone))) stable_fields then Ok false else
  let! p := int0 before "ffmpeg_pid" in
  let! q := int0 observed "ffmpeg_pid" in
  Ok (negb (p =? q) && negb (String.eqb (str0 before "ffmpeg_generation") (str0 observed "ffmpeg_generation"))).

Fixpoint reconcile_scopes (scopes : list dict) (observation observed : dict) (tcp : TcpObservation)
    (n : NetworkObservation) (any : bool) : M bool :=
  match scopes with
  | [] => mret any
  | scope :: rest =>
      let continue_with := reconcile_scopes rest observation observed tcp n in
      match dget scope "identity" VNone with
      | VDict before =>
          do next <- lift (successor before observed);
          if negb next then continue_with any else
          match reconcile_request scope observation (bytes_sent tcp) (network_down n) (FastPolicy.tcp_probe_ok n) (i_reconcile_now i) with
          | Err e => set_keys [("last_reason", VStr ("effect reconciliation pending: " ++ exn_name e))] ;;; continue_with any
          | Ok request =>
              act (ReconcileSent request) ;;;
              match i_reconcile i request with
              | Err e => set_keys [("last_reason", VStr ("effect reconciliation pending: " ++ exn_name e))] ;;; continue_with any
              | Ok response =>
                  if negb (is_true (dget response "ok" VNone)) || negb (eq_str (dget response "state" VNone) "RECONCILED_EFFECT_OBSERVED")
                  then set_keys [("last_reason", VStr ("effect reconciliation rejected: "
                                   ++ py_str (dget response "reason" (VStr "UNKNOWN"))))] ;;; continue_with any
                  else append_event "recovery_completed" "delayed FFmpeg exit reconciled from executor ledger" ;;;
                       continue_with true
              end
          end
      | _ => continue_with any
      end
  end.
Definition maybe_reconcile_delayed_executor_effects (scopes : list dict) (pid : Z) (tcp : TcpObservation)
    (n : NetworkObservation) : M bool :=
  if match scopes with [] => true | _ => false end || (pid <=? 1) then mret false else
  do o <- observe OReconcile;
  match dget o "target_identity" VNone with
  | VDict observed => if transport_usable tcp n then reconcile_scopes scopes o observed tcp n false else mret false
  | _ => mret false
  end.

(** ** Blocks and their throttled records (lines 1197-1369) *)

(** An event that repeats at most once a minute for one key. *)
Definition throttled (key_name ts_name kind : string) (site : time_site) (block_key message : string) : M unit :=
  do s <- get_state;
  let last_key := py_str (dget s key_name (VStr "")) in
  do last_ts <- lift (int0 s ts_name);
  when (negb (String.eqb block_key last_key) || (60 <=? i_times i site - last_ts))
    (append_event kind message ;;;
     set_keys [(key_name, VStr block_key); (ts_name, VInt (i_times i site))]).
Definition maybe_record_budget_block (name block_key reason : string) : M unit :=
  throttled "last_budget_block_key" "last_budget_block_ts" "restart_budget_block" (TBlock name) block_key reason.
Definition maybe_record_budget_override (name block_key reason : string) : M unit :=
  throttled "last_budget_override_key" "last_budget_override_ts" "restart_budget_override" (TOverride name) block_key reason.

Definition runtime_gpu_restart_block : M dict :=
  if socket_mode then
    do o <- observe OGpu;
    mret (if negb (truthy (VDict o)) then
            [("available", VBool false); ("status", VStr "runtime_observation_unavailable"); ("restart_blocked", VBool false);
             ("error", VStr "effect executor performs target validation")]
          else
            [("available", VBool true);
             ("status", VStr (if truthy (dget o "ffmpeg_running" VNone) then "stream_engine_owner_active" else "ffmpeg_missing"));
             ("restart_blocked", VBool false); ("stream_engine_running", VBool true);
             ("effect_executor_revalidates_target", VBool true)])
  else mret (if negb (GPU_PREFLIGHT_ENABLED c) || negb k8s_supervisor_active then [] else i_gpu_status i).

Definition gpu_detail (status : dict) (dflt : string) : string :=
  py_str (py_or (dget status "restart_block_reason" VNone) (py_or (dget status "status" VNone) (VStr dflt))).
Definition maybe_record_gpu_restart_block (trigger : string) (status : dict) : M unit :=
  throttled "last_gpu_restart_block_key" "last_gpu_restart_block_ts" "restart_blocked_gpu" TGpu
    (trigger ++ ":" ++ py_str (dget status "status" VNone) ++ ":" ++ py_str (dget status "restart_block_reason" VNone))%string
    (gpu_detail status "gpu preflight blocked restart").
Definition block_restart_if_gpu_preflight_fails (trigger : string) : M bool :=
  do status <- runtime_gpu_restart_block;
  if negb (truthy (dget status "restart_blocked" VNone)) then mret false else
  maybe_record_gpu_restart_block trigger status ;;;
  set_keys [("last_reason", VStr ("restart blocked by GPU preflight: " ++ gpu_detail status "gpu preflight"))] ;;;
  mret true.

Definition current_stream_establishment : M dict :=
  if socket_mode then
    do o <- observe OEstablished;
    mret (if negb (truthy (VDict o)) then [("established", VBool false); ("reason", VStr "runtime observation unavailable")]
          else
            [("established", VBool (truthy (dget o "stream_established" VNone)));
             ("reason", VStr (if truthy (dget o "stream_established" VNone)
                              then "stream-engine reports established FFmpeg delivery"
                              else "stream-engine has not established FFmpeg delivery"));
             ("pod_uid", VStr (str0 o "pod_uid")); ("pod_name", VStr (str0 o "pod_name"))])
  else mret (if negb (REQUIRE_ESTABLISHED c) || negb k8s_supervisor_active
             then [("established", VBool true); ("reason", VStr "current Pod establishment gate disabled")]
             else i_establishment i).
Definition block_ffmpeg_missing_restart_before_established : M bool :=
  do e <- current_stream_establishment;
  if truthy (dget e "established" VNone) then mret false else
  let detail := py_str (py_or (dget e "reason" VNone) (VStr "current Pod has not established streaming")) in
  throttled "last_startup_restart_block_key" "last_startup_restart_block_ts" "restart_blocked_startup" TStartup
    ("ffmpeg_missing:" ++ detail)%string detail ;;;
  set_keys [("last_reason", VStr ("restart blocked before current Pod established streaming: " ++ detail))] ;;;
  mret true.

(** One budget: [None] lets the restart pass, [Some block] stops it. *)
Definition over_budget (used_sec budget : Z) : bool :=
  (0 <? budget) && (budget <? used_sec + RESTART_DOWNTIME_COST_SEC c).
Definition budget_gate (name : string) (used_sec budget : Z) (kind : string) (first : Z) : M (option string) :=
  if negb (over_budget used_sec budget) then mret None else
  let block := (name ++ " downtime budget exceeded (" ++ str_Z used_sec ++ "+" ++ str_Z (RESTART_DOWNTIME_COST_SEC c)
                ++ ">" ++ str_Z budget ++ "s)")%string in
  let key := (name ++ ":" ++ str_Z used_sec ++ ":" ++ kind)%string in
  if emergency_budget_override_active kind first (i_now i) (BUDGET_EMERGENCY_OVERRIDE_SEC c) then
    maybe_record_budget_override name key
      (block ++ "; emergency override after " ++ str_Z (i_now i - first) ++ "s")%string ;;; mret None
  else maybe_record_budget_block name key block ;;; mret (Some block).

(** ** The typed policy and the effect *)
Definition is_legacy : bool := String.eqb (CONTROLLER_RUNTIME_MODE c) "LEGACY".
Definition record_typed_policy_decision (kind : string) : M RecoveryIntentDecision :=
  do o <- if is_legacy then mret [] else observe OTyped;
  let d := select_recovery_intent kind o in
  when (negb is_legacy) (append_event "typed_policy_decision" (decision_reason d)) ;;; mret d.

Definition legacy_child (kind : string) : bool :=
  k8s_supervisor_active && bool_decide (kind ∈ ["tcp_stall"; "remote_warning"]).
Definition planned_recovery_scope (kind : string) : M string :=
  if socket_mode then do o <- observe OScope; mret (effect_scope (select_recovery_intent kind o))
  else mret (if legacy_child kind then "ffmpeg_child" else "runtime").

Definition effect_authority_active : M bool :=
  if negb socket_mode then mret (negb (String.eqb (EFFECT_AUTHORITY_MODE c) "SHADOW_ONLY"))
  else if String.eqb (EFFECT_AUTHORITY_MODE c) "SHADOW_ONLY" then mret false
  else if negb (String.eqb (EFFECT_AUTHORITY_MODE c) "AUTO_FENCED") then mret true
  else
    do o <- observe OAuthority;
    if negb (String.eqb (str0 o "active_producer_id") (EFFECT_PRODUCER_ID c)) then mret false
    else do g <- lift (py_int (py_or (dget o "active_producer_generation" VNone) (VInt 0)));
         mret (g =? EFFECT_PRODUCER_GENERATION c).

Definition new_recovery_action (kind : string) (first pid : Z) (scope : string) (execute : bool) : dict :=
  [("recovery_action_id", VStr ("fra-" ++ str_Z (i_now i) ++ "-" ++ str_take 12 (i_uuid i)));
   ("controller_id", VStr (CONTROLLER_ID c)); ("execution_mode", VStr (EXECUTION_MODE c)); ("execute", VBool execute);
   ("idempotency_key", VStr (CONTROLLER_ID c ++ ":" ++ scope ++ ":" ++ str_Z pid ++ ":"
                             ++ (if String.eqb kind "" then "unknown" else kind)));
   ("requested_signal", VStr (if String.eqb scope "ffmpeg_child" then "SIGTERM" else "")); ("recovery_scope", VStr scope);
   ("recovery_episode_started_ts", VInt (if first =? 0 then i_now i else first))].

Definition append_recovery_dispatch_result (scope reason : string) (ok : bool) (retry : option bool) : M unit :=
  append_event
    (if negb ok && bool_decide (retry = Some false) then "recovery_outcome_unknown"
     else if negb ok then "recovery_action_failed"
     else if String.eqb (or_else scope "runtime") "ffmpeg_child" then "recovery_signal_sent"
     else "recovery_action_dispatched") reason.

(** executor.py *)
Definition restart_ffmpeg_child (pid : Z) : M (bool * string) :=
  if pid <=? 1 then mret (false, "invalid ffmpeg pid") else
  act (Effect (SignalChild pid)) ;;;
  mret match i_kill i with
       | NoProcess => (true, "ffmpeg child already exited")
       | KillFailed detail => (false, detail)
       | Killed true => (true, "SIGTERM sent; stream engine owns final child cleanup")
       | Killed false => (true, "ffmpeg child exited after SIGTERM")
       end.
Definition restart_stream : M (bool * string) :=
  act (Effect RestartRuntime) ;;;
  do (ok, said) <- lift (i_supervisor i);
  mret (if (ok : bool) then (true, "restart ok") else (false, strip (or_else said "restart failed"))).

(** The typed request: [ok], detail, scope and the executor's retry verdict. *)
Definition dispatched (scope : string) (response : dict) : bool * string * string * option bool :=
  (truthy (dget response "ok" VNone),
   (py_str (dget response "state" (VStr "UNKNOWN")) ++ ": " ++ py_str (dget response "reason" (VStr "UNKNOWN")))%string,
   scope, match dget response "automatic_retry" VNone with VBool b => Some b | _ => None end).
Definition execute_typed (d : RecoveryIntentDecision) (reason correlation : string) : M (bool * string * string * option bool) :=
  let q := EffectRequest (EFFECT_PRODUCER_ID c) (EFFECT_PRODUCER_GENERATION c) (intent_type d) (failure_domain d)
             reason correlation (i_request_uuid i) (i_request_now i) in
  let site := if String.eqb (intent_type d) ESCALATE_RUNTIME_RECOVERY then OEscalation else ORequest in
  let unavailable e := (false, ("typed effect executor unavailable: " ++ exn_name e)%string, effect_scope d, None) in
  match plan_effect_request (i_obs i site) q with
  | Err e => mret (unavailable e)
  | Ok (inl why) => mret (dispatched (effect_scope d) (rejected why))
  | Ok (inr request) =>
      act (Effect (SendRequest (intent_type d) request)) ;;;
      mret match i_execute i request with
           | Err e => unavailable e
           | Ok response => dispatched (effect_scope d) response
           end
  end.
Definition execute_recovery_action_with_policy (kind reason : string) (pid : Z) (correlation : string)
  : M (bool * string * string * option bool) :=
  if socket_mode then
    do o <- observe OExecute;
    let d := select_recovery_intent kind o in
    if String.eqb (intent_type d) NO_ACTION
    then mret (false, ("typed policy no action: " ++ decision_reason d)%string, "none", None)
    else if negb (OBSERVATION_ENV c) then lift (Err EKey)   (* configured_paths reads os.environ directly *)
    else execute_typed d reason correlation
  else if legacy_child kind then
    do (ok, detail) <- restart_ffmpeg_child pid; mret (ok, detail, "ffmpeg_child", None)
  else do (ok, detail) <- restart_stream; mret (ok, detail, "runtime", None).

(** ** Upload samples (lines 1372-1426) *)
Definition maybe_append_tcp_send_sample (pid sent : Z) (m : dict) : M unit :=
  let log_sec := TCP_SEND_SAMPLE_LOG_SEC c in
  if socket_mode then
    do payload <- state_res (fun s => source_timed_sample s pid sent m log_sec);
    match payload with Some _ => append_event "tcp_send_sample" "ffmpeg tcp send sample" | None => mret tt end
  else if (log_sec <=? 0) || (pid <=? 1) || negb (truthy (VDict m)) then mret tt
  else
    do s <- get_state;
    do last_pid <- lift (int0 s "last_tcp_send_sample_pid");
    do last_ts <- lift (int0 s "last_tcp_send_sample_ts");
    do last_bytes <- lift (int0 s "last_tcp_send_sample_bytes_sent");
    let mark := set_keys [("last_tcp_send_sample_ts", VInt (i_now i)); ("last_tcp_send_sample_pid", VInt pid);
                          ("last_tcp_send_sample_bytes_sent", VInt sent)] in
    if negb (last_pid =? pid) || (last_ts <=? 0) || (last_bytes <=? 0) || (sent <? last_bytes) then mark
    else if Z.max 0 (i_now i - last_ts) <? log_sec then mret tt
    else
      do _ <- lift (let! a := int0 m "bytes_acked" in let! b := int0 m "send_q" in let! d := int0 m "notsent" in
                    let! e := int0 m "unacked" in let! f := int0 m "lastsnd_ms" in int0 m "rto_ms");
      append_event "tcp_send_sample" "ffmpeg tcp send sample" ;;; mark.

(** ** The turn (lines 1454-2249) *)
Definition forget_samples : dict :=
  [("last_pid", VInt 0); ("last_bytes_sent", VInt 0); ("last_tcp_send_sample_pid", VInt 0);
   ("last_tcp_send_sample_bytes_sent", VInt 0)].
Definition streaks_off : dict :=
  [("net_fail_streak", VInt 0); ("stall_streak", VInt 0); ("low_upload_pressure_streak", VInt 0);
   ("remote_warning_streak", VInt 0); ("remote_warning_last_sample_key", VStr ""); ("remote_warning_last_probe_ts", VInt 0);
   ("remote_warning_context_key", VStr ""); ("remote_warning_recovery_episode_id", VStr "");
   ("remote_warning_ffmpeg_generation", VStr "")].
Definition set_reason (why : string) : M unit := set_keys [("last_reason", VStr why)].

Definition mark_connectivity_wait (n : NetworkObservation) : M unit :=
  do s <- get_state;
  let '(s', evs) := mark_wait s (i_now i) n in
  foreach evs (fun e => act (Logged e)) ;;; put_state s'.
Definition clear_connectivity_wait (n : NetworkObservation) : M unit :=
  do evs <- state_res (fun s => clear_wait s (i_now i) (Some n)); foreach evs (fun e => act (Logged e)).

Definition waiting (s : dict) : bool := is_true (dget s "connectivity_wait_active" VNone).

(** The network check of a missing ffmpeg (lines 1509-1529). *)
Definition missing_network_gate (should_restart : bool) : M unit :=
  do s <- get_state;
  if waiting s || should_restart then
    let n := current_network_observation in
    if network_down n then
      mark_connectivity_wait n ;;;
      set_keys [("last_pid", VInt 0); ("last_bytes_sent", VInt 0); ("last_bytes_sent_ts", VInt 0);
                ("last_tcp_send_sample_pid", VInt 0); ("last_tcp_send_sample_bytes_sent", VInt 0)] ;;;
      save_and_return
    else clear_connectivity_wait n
  else mret tt.

(** The two budgets of a missing ffmpeg (lines 1536-1571). *)
Definition missing_budget_gate (name : string) (used_sec budget first : Z) : M unit :=
  do block <- budget_gate name used_sec budget "ffmpeg_missing" first;
  match block with
  | None => mret tt
  | Some why => set_reason why ;;; set_keys forget_samples ;;; save_and_return
  end.

(** The request events, the effect and its result (lines 1583-1656). *)
Definition missing_dispatch (reason : string) (first : Z) : M (dict * bool * (bool * string * string * option bool)) :=
  do scope <- planned_recovery_scope "ffmpeg_missing";
  do active <- effect_authority_active;
  let action := new_recovery_action "ffmpeg_missing" first 0 scope active in
  append_event "recovery_requested" reason ;;;
  do result <- (if negb active then mret (true, "shadow producer inactive; physical effect skipped", scope, None)
                else execute_recovery_action_with_policy "ffmpeg_missing" reason 0 (str0 action "recovery_action_id"));
  let '(ok, detail, dscope, retry) := result in
  append_recovery_dispatch_result dscope reason ok retry ;;;
  append_event (if negb active then "shadow_recovery_candidate" else if ok then "restart" else "restart_failed") reason ;;;
  mret (action, active, result).

(** Recording the result (lines 1658-1713). *)
Definition missing_record (reason : string) (events : list restart_event)
    (r : dict * bool * (bool * string * string * option bool)) : M unit :=
  let '(action, active, (ok, detail, dscope, retry)) := r in
  (if ok then
     when active (modify (remember_pending_recovery action "ffmpeg_missing" reason 0)) ;;;
     do es <- lift (add_restart_event events "ffmpeg_missing");
     set_keys [("restart_events", es); ("last_restart_ts", VInt (i_now i));
               ("last_reason", VStr (if active then "restarted: ffmpeg pid missing" else "shadow would restart: ffmpeg pid missing"));
               ("ffmpeg_missing_first_ts", VInt 0);
               ("ffmpeg_missing_success_backoff_until", VInt (i_now i + FFMPEG_MISSING_SUCCESS_BACKOFF_SEC c));
               ("restart_failure_count", VInt 0)]
   else if bool_decide (retry = Some false) then
     record_unresolved_recovery_dispatch (dict_set "recovery_scope" (VStr dscope) action) "ffmpeg_missing" reason 0 detail events
   else
     do s <- get_state; do n <- lift (int0 s "restart_failure_count");
     set_keys [("last_restart_failure_ts", VInt (i_now i)); ("restart_failure_count", VInt (n + 1));
               ("last_reason", VStr ("restart failed: " ++ detail))]) ;;;
  save_and_return.

(** Lines 1530-1713. *)
Definition missing_restart (reason : string) (first : Z) : M unit :=
  do s <- get_state;
  do events <- lift (trim (dget s "restart_events" (VList [])));
  set_keys [("restart_events", events_py events)] ;;;
  missing_budget_gate "hourly" (used events 3600) (HOURLY_DOWNTIME_BUDGET_SEC c) first ;;;
  missing_budget_gate "daily" (used events 86400) (DAILY_DOWNTIME_BUDGET_SEC c) first ;;;
  do blocked <- block_ffmpeg_missing_restart_before_established;
  when blocked save_and_return ;;;
  do gpu <- block_restart_if_gpu_preflight_fails "ffmpeg_missing";
  when gpu save_and_return ;;;
  do d <- record_typed_policy_decision "ffmpeg_missing";
  when (socket_mode && String.eqb (intent_type d) NO_ACTION)
    (set_reason ("typed policy no action: " ++ decision_reason d)%string ;;; save_and_return) ;;;
  do r <- missing_dispatch reason first;
  missing_record reason events r.

(** Lines 1493-1739: no ffmpeg process. *)
Definition ffmpeg_missing_turn (last_restart_ts : Z) : M unit :=
  let now := i_now i in
  do s <- get_state;
  do first0 <- lift (int0 s "ffmpeg_missing_first_ts");
  let first := if first0 <=? 0 then now else first0 in
  set_keys [("ffmpeg_missing_first_ts", VInt first)] ;;;
  let reason := ("ffmpeg pid not found for " ++ str_Z (now - first) ++ "s")%string in
  let should_restart := FFMPEG_MISSING_RESTART_SEC c <=? now - first in
  let guard_active := now - last_restart_ts <? RESTART_GUARD_SEC c in
  do failure_ts <- lift (int0 s "last_restart_failure_ts");
  let backoff_left := restart_failure_backoff_left now failure_ts (RESTART_FAILURE_BACKOFF_SEC c) in
  do until <- lift (int0 s "ffmpeg_missing_success_backoff_until");
  let success_left := Z.max 0 (until - now) in
  let clear := negb guard_active && (backoff_left <=? 0) && (success_left <=? 0) in
  missing_network_gate should_restart ;;;
  if should_restart && clear then missing_restart reason first else
  set_keys ([("last_pid", VInt 0); ("last_bytes_sent", VInt 0); ("last_bytes_sent_ts", VInt 0)] ++ streaks_off
            ++ [("last_reason", VStr (if clear then reason else reason ++ "; restart guard/backoff active")%string);
                ("last_tcp_send_sample_pid", VInt 0); ("last_tcp_send_sample_bytes_sent", VInt 0)]) ;;;
  when (0 <? success_left)
    (set_reason (reason ++ "; success backoff active (" ++ str_Z success_left ++ "s remaining)")%string) ;;;
  do _ <- record_typed_policy_decision "ffmpeg_missing";
  save_and_return.

(** Lines 1742-1773: a young ffmpeg process. *)
Definition warmup_turn (pid uptime : Z) : M unit :=
  do s <- get_state;
  when (waiting s)
    (let n := current_network_observation in
     if network_down n then mark_connectivity_wait n else clear_connectivity_wait n) ;;;
  set_keys ([("last_pid", VInt pid); ("last_bytes_sent", VInt 0); ("last_bytes_sent_ts", VInt (i_now i))] ++ streaks_off
            ++ [("last_reason", VStr ("ffmpeg warmup (" ++ str_Z uptime ++ "s<" ++ str_Z (MIN_FFMPEG_UPTIME_SEC c) ++ "s)")%string)]) ;;;
  do _ <- record_typed_policy_decision "startup_transient";
  save_and_return.

(** What a turn with a running ffmpeg observes. *)
Record observed : Type := Observed {
  o_tcp : TcpObservation; o_network : NetworkObservation; o_warning : bool; o_warning_reason : string;
  o_warning_streak : Z }.

(** [recovery_decision.mark_latest_transport_sample(state, ...)] *)
Definition mark_sample (pid : Z) (o : observed) (last_reason : option string) : M unit :=
  modify (fun s => mark_latest_transport_sample s pid (bytes_sent (o_tcp o)) (i_now i) last_reason).

(** Lines 1775-1828: the observations and their streaks. *)
Definition observe_transport (pid last_restart_ts : Z) : M observed :=
  do m <- parse_ffmpeg_tcp_metrics pid;
  modify_res (fun s => reset_pid_dependent_state s pid) ;;;
  let n := current_network_observation in
  do _ <- state_res (fun s => update_streak s "net_fail_streak" (network_down n));
  do s <- get_state;
  do tcp <- lift (tcp_observation s (i_now i) m (THRESHOLDS c) (network_down n) (FastPolicy.tcp_probe_ok n));
  maybe_append_tcp_send_sample pid (bytes_sent tcp) m ;;;
  do _ <- state_res (fun s => update_streak s "stall_streak" (stall_now tcp));
  do _ <- state_res (fun s => update_streak s "low_upload_pressure_streak" (low_upload_pressure tcp));
  do (warning, why, payload) <- lift (read_youtube_live_warning (WARNING c) (i_stats i) (i_quota i) (i_now i) last_restart_ts);
  do streak <- state_res (fun s => update_remote_warning_streak s warning payload (wc_distinct (WARNING c)));
  do _ <- lift (restart_metrics tcp (network_down n) warning);
  mret (Observed tcp n warning why streak).

(** Lines 1830-1873: reconciliation first; unresolved effects end the turn. *)
Definition settle_effects (pid : Z) (unresolved : list dict) (o : observed) : M unit :=
  do scopes <-
    (if socket_mode then
       do reconciled <- maybe_reconcile_delayed_executor_effects unresolved pid (o_tcp o) (o_network o);
       do again <- read_executor_unresolved_scopes (i_unresolved_again i);
       match again with
       | None => save_and_return
       | Some scopes =>
           when reconciled
             (mark_sample pid o (Some "delayed effect reconciled; candidate evaluation deferred to next cycle") ;;;
              save_and_return) ;;;
           mret scopes
       end
     else maybe_record_recovery_completed pid (o_tcp o) (o_network o) ;;; mret unresolved);
  do s <- get_state;
  when (match scopes with [] => false | _ => true end || (0 <? pending_recovery_count s))
    (mark_sample pid o (Some "effect outcome unresolved; automatic retry suppressed until reconciliation") ;;; save_and_return).

(** Lines 1875-1904. *)
Definition record_sample (pid : Z) (o : observed) : M unit :=
  do s <- get_state;
  let old := trim_samples (dget s "samples" (VList [])) (Z.to_nat (SAMPLES_MAX c)) in
  do row <- lift (sample_row (i_now i) pid (o_tcp o) (network_down (o_network o)) (o_warning o));
  set_keys [("samples", VList (last_n (Z.to_nat (SAMPLES_MAX c)) (old ++ [row])))].
Definition network_gate (pid : Z) (o : observed) : M unit :=
  if network_down (o_network o) then
    do _ <- record_typed_policy_decision "network_down";
    mark_connectivity_wait (o_network o) ;;;
    set_keys [("remote_warning_streak", VInt 0)] ;;;
    mark_sample pid o None ;;; save_and_return
  else clear_connectivity_wait (o_network o).

(** Lines 1906-1924: the restart reason of this turn. *)
Definition choose_reason (o : observed) : M RestartReason :=
  do s <- get_state;
  do (kind, reason) <- lift (select_restart_reason s (wc_preserve (WARNING c)) (o_warning_streak o) (REMOTE_WARNING_CONFIRM c)
                               (o_warning_reason o) (o_network o) (NET_FAIL_CONFIRM c) (STALL_CONFIRM c) (o_tcp o));
  state_res (fun s => update_active_reason s (i_now i) kind reason).

(** Lines 1926-1955: the restart guard and the failure backoff. *)
Definition guard_gate (pid last_restart_ts : Z) (o : observed) (r : RestartReason) : M unit :=
  when (negb (String.eqb (r_reason r) "") && (i_now i - last_restart_ts <? RESTART_GUARD_SEC c))
    (mark_sample pid o (Some ("restart guard active (" ++ str_Z (i_now i - last_restart_ts) ++ "s<"
                              ++ str_Z (RESTART_GUARD_SEC c) ++ "s)")%string) ;;; save_and_return).
Definition backoff_gate (pid : Z) (o : observed) (r : RestartReason) : M Z :=
  do s <- get_state;
  do failure_ts <- lift (int0 s "last_restart_failure_ts");
  do failures <- lift (int0 s "restart_failure_count");
  let left := restart_failure_backoff_left (i_now i) failure_ts (RESTART_FAILURE_BACKOFF_SEC c) in
  when (negb (String.eqb (r_reason r) "") && (0 <? left))
    (mark_sample pid o (Some ("restart failure backoff active (" ++ str_Z left ++ "s<"
                              ++ str_Z (RESTART_FAILURE_BACKOFF_SEC c) ++ "s)")%string) ;;; save_and_return) ;;;
  mret failures.

(** Lines 1964-2030, one budget each. *)
Definition running_budget_gate (name : string) (used_sec budget : Z) (pid : Z) (o : observed) (r : RestartReason) : M unit :=
  do block <- budget_gate name used_sec budget (r_kind r) (first_ts r);
  match block with
  | None => mret tt
  | Some why => set_reason why ;;; mark_sample pid o None ;;; save_and_return
  end.

(** Lines 2094-2114 and 2155-2175: the state after a (shadow) restart. *)
Definition restarted (events : list restart_event) (kind why : string) : M unit :=
  do es <- lift (add_restart_event events (if String.eqb kind "" then "unknown" else kind));
  set_keys [("restart_events", es); ("last_restart_ts", VInt (i_now i)); ("last_restart_failure_ts", VInt 0);
            ("restart_failure_count", VInt 0)] ;;;
  modify clear_recovery_streaks ;;;
  set_keys [("last_bytes_sent", VInt 0); ("last_bytes_sent_ts", VInt 0); ("last_tcp_send_sample_pid", VInt 0);
            ("last_tcp_send_sample_bytes_sent", VInt 0); ("last_reason", VStr why)].

(** Lines 2131-2238: the effect and the record of its result. *)
Definition dispatch_and_record (pid : Z) (o : observed) (r : RestartReason) (events : list restart_event)
    (failures : Z) (action : dict) : M unit :=
  let kind := r_kind r in
  let reason := r_reason r in
  do (ok, detail, scope, retry) <- execute_recovery_action_with_policy kind reason pid (str0 action "recovery_action_id");
  append_recovery_dispatch_result scope reason ok retry ;;;
  let action' := dict_set "recovery_scope" (VStr scope) action in
  if ok then
    modify (remember_pending_recovery action' kind reason pid) ;;;
    restarted events kind reason ;;;
    set_keys [("last_budget_block_key", VStr ""); ("last_budget_block_ts", VInt 0)] ;;;
    append_event "restart" reason ;;; save_and_return
  else if bool_decide (retry = Some false) then
    record_unresolved_recovery_dispatch action' kind reason pid detail events ;;;
    mark_sample pid o None ;;; save_and_return
  else
    set_keys [("last_restart_failure_ts", VInt (i_now i)); ("restart_failure_count", VInt (failures + 1));
              ("last_reason", VStr ("restart failed (" ++ str_Z (failures + 1) ++ "): " ++ reason)%string)] ;;;
    mark_sample pid o None ;;;
    append_event "restart_failed" reason ;;; save_and_return.

(** Lines 1959-2238: a turn with a restart reason. *)
Definition restart_turn (pid : Z) (o : observed) (r : RestartReason) (events : list restart_event) (failures : Z) : M unit :=
  running_budget_gate "hourly" (used events 3600) (HOURLY_DOWNTIME_BUDGET_SEC c) pid o r ;;;
  running_budget_gate "daily" (used events 86400) (DAILY_DOWNTIME_BUDGET_SEC c) pid o r ;;;
  do _ <- lift (restart_metrics (o_tcp o) (network_down (o_network o)) (o_warning o));
  do gpu <- block_restart_if_gpu_preflight_fails (or_else (r_kind r) "unknown");
  when gpu (mark_sample pid o None ;;; save_and_return) ;;;
  do scope <- planned_recovery_scope (r_kind r);
  do _ <- record_typed_policy_decision (r_kind r);
  do active <- effect_authority_active;
  let action := new_recovery_action (r_kind r) (first_ts r) pid scope active in
  append_event "recovery_requested" (r_reason r) ;;;
  if negb active then
    restarted events (r_kind r) ("shadow would execute: " ++ r_reason r)%string ;;;
    append_event "shadow_recovery_candidate" (r_reason r) ;;; save_and_return
  else dispatch_and_record pid o r events failures action.

(** Lines 1775-2249: a running ffmpeg. *)
Definition running_turn (pid last_restart_ts : Z) (unresolved : list dict) : M unit :=
  do o <- observe_transport pid last_restart_ts;
  settle_effects pid unresolved o ;;;
  record_sample pid o ;;;
  network_gate pid o ;;;
  do r <- choose_reason o;
  guard_gate pid last_restart_ts o r ;;;
  do failures <- backoff_gate pid o r;
  do s <- get_state;
  do events <- lift (trim (dget s "restart_events" (VList [])));
  set_keys [("restart_events", events_py events)] ;;;
  if negb (String.eqb (r_reason r) "") then restart_turn pid o r events failures
  else
    mark_sample pid o (Some "healthy") ;;;
    do _ <- record_typed_policy_decision "healthy";
    save_and_return.

Definition main_body : M unit :=
  do s <- get_state;
  do last_restart_ts <- lift (int0 s "last_restart_ts");
  do unresolved <- read_executor_unresolved_scopes (i_unresolved i);
  match unresolved with
  | None => save_and_return
  | Some scopes =>
      do pid <- get_stream_ffmpeg_pid (get_main_pid (i_main_pid i));
      do uptime <- get_process_elapsed_sec pid;
      do s <- get_state;
      if pid <=? 1 then
        if match scopes with [] => false | _ => true end || (0 <? pending_recovery_count s) then
          set_reason "effect outcome unresolved; automatic retry suppressed until reconciliation" ;;;
          set_keys forget_samples ;;; save_and_return
        else ffmpeg_missing_turn last_restart_ts
      else
        set_keys [("ffmpeg_missing_first_ts", VInt 0)] ;;;
        if uptime <? MIN_FFMPEG_UPTIME_SEC c then warmup_turn pid uptime
        else running_turn pid last_restart_ts scopes
  end.

(** [main]: the outcome, and the world it leaves.  [Return] is [return 0]. *)
Definition main : flow unit * world :=
  match (let! _ := validate_controller_runtime_contract in load_state (i_state_file i)) with
  | Err e => (Raise e, World [] [] None)
  | Ok s => main_body (World s [] None)
  end.
End Turn.
