(* ===== verification/FastRecoveryProofs.v ===== *)
(** * Fast recovery: what an effect needs

    Theorems about one turn of the controller (FastRecovery.v).  The turn's blocks
    are classified by what they leave alone ([frame]); an effect found after a turn
    is traced back through the blocks that let the turn continue. *)
From Stdlib Require Import Ascii.
From S2P Require Import Prelude PyVal FastPolicy RemoteWarning SendSample EffectContract FastRecovery.

Module FastRecoveryProperties.

(** The effects of a list of actions. *)
Fixpoint effects_in (l : list action) : list effect :=
  match l with [] => [] | Effect e :: l' => e :: effects_in l' | _ :: l' => effects_in l' end.
Definition effects (w : world) : list effect := effects_in (w_actions w).
Lemma effects_in_app l l' : effects_in (l ++ l') = effects_in l ++ effects_in l'.
Proof. induction l as [|[] l IH]; simpl; by rewrite ?IH. Qed.

(** [m] sends no effect and leaves the keys [ks] of the state alone. *)
Definition frame {A} (ks : list string) (m : M A) : Prop := forall w,
  effects (snd (m w)) = effects w /\ forall k, k ∈ ks -> dict_get k (w_state (snd (m w))) = dict_get k (w_state w).

Lemma frame_mret {A} ks (a : A) : frame ks (mret a).
Proof. by intros w. Qed.
Lemma frame_lift {A} ks (r : res A) : frame ks (lift r).
Proof. by intros w. Qed.
Lemma frame_get ks : frame ks get_state.
Proof. by intros w. Qed.
Lemma frame_stop {A} ks : frame ks (fun w => (@Return A, w)).
Proof. by intros w. Qed.
Lemma frame_bind {A B} ks (m : M A) (k : A -> M B) : frame ks m -> (forall a, frame ks (k a)) -> frame ks (mbind m k).
Proof.
  intros Hm Hk w. unfold mbind. destruct (Hm w) as [He Hs]. destruct (m w) as [[a| |e] w1]; simpl in *; [|by auto|by auto].
  destruct (Hk a w1) as [He' Hs']. split; [congruence|]. intros x Hx. by rewrite Hs', Hs.
Qed.
Lemma frame_act ks a : (forall e, a <> Effect e) -> frame ks (act a).
Proof.
  intros Ha w. split; [|done]. unfold effects; simpl. rewrite effects_in_app. destruct a; simpl; [by rewrite app_nil_r | by edestruct Ha | by rewrite app_nil_r].
Qed.
Lemma frame_modify ks f : (forall s k, k ∈ ks -> dict_get k (f s) = dict_get k s) -> frame ks (modify f).
Proof. intros Hf w. split; [done|]. intros k Hk. by apply Hf. Qed.
Lemma frame_set_keys ks kvs : Forall (fun k => k ∉ map fst kvs) ks -> frame ks (set_keys kvs).
Proof.
  intros Hf. apply frame_modify. intros s k Hk. apply dict_get_update_ne. rewrite Forall_forall in Hf.
  intros Hin. by apply (Hf k Hk), list_elem_of_In.
Qed.
Lemma frame_state_res {A} ks (f : dict -> res (dict * A)) :
  (forall s s' a k, f s = Ok (s', a) -> k ∈ ks -> dict_get k s' = dict_get k s) -> frame ks (state_res f).
Proof.
  intros Hf w. unfold state_res, mbind, get_state, lift, put_state. destruct (f (w_state w)) as [[s' a]|e] eqn:E; [|done].
  split; [done|]. simpl. eauto.
Qed.
Lemma frame_modify_res ks (f : dict -> res dict) :
  (forall s s' k, f s = Ok s' -> k ∈ ks -> dict_get k s' = dict_get k s) -> frame ks (modify_res f).
Proof. intros Hf. apply frame_state_res. intros s s' a k Hr. inv_ok Hr. injection Hr as <- _. by apply Hf. Qed.
Lemma frame_foreach {A} ks (l : list A) f : (forall x, frame ks (f x)) -> frame ks (foreach l f).
Proof. intros Hf. induction l; simpl; [apply frame_mret | by apply frame_bind]. Qed.
Lemma frame_if {A} ks (b : bool) (m1 m2 : M A) : frame ks m1 -> frame ks m2 -> frame ks (if b then m1 else m2).
Proof. by destruct b. Qed.
Lemma frame_when ks b m : frame ks m -> frame ks (when b m).
Proof. intros. unfold when. apply frame_if; [done | apply frame_mret]. Qed.

Lemma frame_through {A B} ks (m : M A) (k : A -> M B) w : frame ks m -> effects w = [] ->
  effects (snd (mbind m k w)) <> [] ->
  exists a w1, m w = (Go a, w1) /\ effects w1 = [] /\
    (forall x, x ∈ ks -> dict_get x (w_state w1) = dict_get x (w_state w)) /\ mbind m k w = k a w1.
Proof.
  intros Hm He Hb. destruct (Hm w) as [He' Hs]. unfold mbind in *. destruct (m w) as [[a| |e] w1]; simpl in *; try congruence.
  exists a, w1. rewrite He in He'. by split_and!.
Qed.

Lemma frame_weaken {A} ks ks' (m : M A) : frame ks m -> ks' ⊆ ks -> frame ks' m.
Proof. intros Hm Hs w. destruct (Hm w) as [? Hk]. split; [done|]. intros k Hin. apply Hk. set_solver. Qed.

Create HintDb frame discriminated.
#[local] Hint Resolve frame_mret frame_lift frame_get frame_stop : frame.

(** A concrete key that is not among the keys written. *)
Ltac fresh_key := simpl; rewrite ?not_elem_of_cons; repeat split; first [discriminate | apply not_elem_of_nil].
(** Reduce a frame goal through binds, branches and matches. *)
Ltac frame_step :=
  match goal with
  | |- forall _, _ => intro
  | |- frame _ (mbind _ _) => apply frame_bind
  | |- frame _ (when _ _) => apply frame_when
  | |- frame _ (foreach _ _) => apply frame_foreach
  | |- frame _ (set_keys _) => apply frame_set_keys; repeat (constructor; [first [solve [fresh_key] | set_solver]|]); constructor
  | |- frame _ (act (Logged _)) => apply frame_act; discriminate
  | |- frame _ (act (ReconcileSent _)) => apply frame_act; discriminate
  | |- frame _ (let '(_, _) := ?x in _) => destruct x
  | |- frame _ (if ?b then _ else _) => destruct b
  | |- frame _ (match ?x with _ => _ end) => destruct x
  | |- frame _ _ => solve [eauto with frame]
  end.
Ltac framed := repeat frame_step.

(** The keys that decide whether a restart is due. *)
Definition gate_keys : list string :=
  ["last_restart_failure_ts"; "restart_events"; "net_fail_streak"; "restart_failure_count"; "active_reason_kind"; "active_reason_first_ts";
   "stall_streak"].
(** Of these, the keys that choosing the reason leaves alone. *)
Definition chosen_keys : list string := ["last_restart_failure_ts"; "restart_events"; "net_fail_streak"; "restart_failure_count"; "stall_streak"].
Definition reason_keys : list string := ["active_reason_kind"; "active_reason_first_ts"].
(** The keys of earlier turns that this turn's reason is computed from. *)
Definition past_keys : list string := ["last_pid"; "stall_streak"; "ffmpeg_missing_first_ts"; "ffmpeg_missing_success_backoff_until"].

(** With the pending recoveries, the keys the observations leave alone. *)
Definition obs_keys : list string :=
  ["pending_recovery_actions"; "last_restart_failure_ts"; "restart_events"; "net_fail_streak"; "restart_failure_count"; "active_reason_kind";
   "active_reason_first_ts"].
Definition all_keys : list string := "pending_recovery_actions" :: gate_keys.

(** The keys the observations leave alone besides the network streak. *)
Definition kept_keys : list string :=
  ["pending_recovery_actions"; "last_restart_failure_ts"; "restart_events"; "restart_failure_count"; "active_reason_kind"; "active_reason_first_ts"].

(** Writes to other keys do not matter. *)
Ltac untouched :=
  match goal with
  | Hk : _ ∈ _ |- _ =>
      try unfold all_keys in Hk; try unfold obs_keys in Hk; try unfold gate_keys in Hk;
      repeat (apply elem_of_cons in Hk as [->|Hk]; [unfold dict_update; simpl; rewrite ?dict_get_set_ne by discriminate; done|]);
      by apply elem_of_nil in Hk
  end.
Ltac off := repeat (constructor; [fresh_key|]); constructor.

(** The concrete keys of a list one by one. *)
Ltac each Hk tac := repeat (apply elem_of_cons in Hk as [->|Hk]; [tac|]); by apply elem_of_nil in Hk.

(** Membership of a concrete key. *)
Ltac gate := try unfold kept_keys; try unfold all_keys; try unfold obs_keys; try unfold gate_keys; try unfold chosen_keys; try unfold reason_keys; try unfold past_keys; repeat (apply list_elem_of_here || apply list_elem_of_further).

Section Frames.
Context `{Repr} `{IsoSeconds} `{IsoMicros} `{TextDigest} `{IsoEpoch} `{IsoText} `{JsonSha}.
Variables (c : config) (i : inputs).
Notation framed m := (frame gate_keys m).

(** Every dictionary write of the turn outside the gates' own keys. *)
Lemma gate_keys_pending l (s : dict) k : k ∈ gate_keys -> dict_get k (put_pending l s) = dict_get k s.
Proof. intros Hk. apply dict_get_set_ne. set_solver. Qed.
Lemma gate_keys_update (s kvs : dict) k : Forall (fun k => k ∉ map fst kvs) gate_keys -> k ∈ gate_keys ->
  dict_get k (dict_update s kvs) = dict_get k s.
Proof.
  intros Hf Hk. apply dict_get_update_ne. rewrite Forall_forall in Hf. intros Hin. by apply (Hf k Hk), list_elem_of_In.
Qed.
Lemma gate_keys_mark (s : dict) pid sent now why k : k ∈ gate_keys ->
  dict_get k (mark_latest_transport_sample s pid sent now why) = dict_get k s.
Proof. intros Hk. unfold mark_latest_transport_sample. destruct why; apply gate_keys_update; try done; repeat (constructor; [set_solver|]); constructor. Qed.

Lemma frame_save : framed (save_state i).
Proof. intros w. unfold save_state. destruct (i_save i); (split; [done|]); intros k Hk; simpl; apply dict_get_set_ne; set_solver. Qed.
#[local] Hint Resolve frame_save : frame.
Lemma frame_save_and_return {A} : framed (@save_and_return i A).
Proof. apply frame_bind; intros; auto with frame. Qed.
#[local] Hint Resolve frame_save_and_return : frame.
Lemma frame_mark pid o why : framed (mark_sample i pid o why).
Proof. apply frame_modify. intros. by apply gate_keys_mark. Qed.
Lemma frame_event ks k m : frame ks (append_event k m).
Proof. by apply frame_act. Qed.
Lemma frame_reason why : framed (set_reason why).
Proof. apply frame_set_keys. off. Qed.
Lemma frame_observe ks site : frame ks (observe i site).
Proof. apply frame_lift. Qed.
#[local] Hint Resolve frame_mark frame_event frame_reason frame_observe : frame.
Lemma frame_throttled kn tn kind site key msg : kn ∉ gate_keys -> tn ∉ gate_keys ->
  framed (throttled i kn tn kind site key msg).
Proof.
  intros Hk Ht. unfold throttled. repeat frame_step.
Qed.
Lemma frame_wait n : framed (mark_connectivity_wait i n).
Proof.
  intros w. unfold mark_connectivity_wait, mbind, get_state, mark_wait.
  assert (Hs : forall (s : dict) k, k ∈ gate_keys -> dict_get k (dict_update (if is_true (dget s "connectivity_wait_active" VNone) then s
      else dict_set "connectivity_wait_since_ts" (VInt (i_now i)) s)
     ([("connectivity_wait_active", VBool true); ("connectivity_last_observed_ts", VInt (i_now i))] ++ network_fields n
      ++ [("last_reason", VStr "network unavailable; runtime restart suppressed until connectivity recovers")])) = dict_get k s).
  { intros s k Hk. rewrite gate_keys_update; [|off|done]. case_match; [done|]. apply dict_get_set_ne. set_solver. }
  destruct (is_true _) eqn:E; simpl; (split; [unfold effects; simpl; rewrite ?effects_in_app; simpl; by rewrite ?app_nil_r|]);
    intros k Hk; specialize (Hs (w_state w) k Hk); rewrite E in Hs; done.
Qed.
Lemma frame_clear n : framed (clear_connectivity_wait i n).
Proof.
  unfold clear_connectivity_wait. apply frame_bind; [|intros; repeat frame_step].
  apply frame_state_res. intros s s' a k Hc Hk. unfold clear_wait in Hc. inv_ok Hc. destruct v as [s1 evs]. injection Hc as <- <-.
  rewrite !dict_get_set_ne by set_solver.
  destruct (is_true _); [inv_ok E|]; injection E as <- _; [apply dict_get_set_ne; set_solver | done].
Qed.
#[local] Hint Resolve frame_wait frame_clear : frame.
Lemma frame_typed kind : framed (record_typed_policy_decision c i kind).
Proof. unfold record_typed_policy_decision. repeat frame_step. Qed.
Lemma frame_budget_gate name u b kind first : framed (budget_gate c i name u b kind first).
Proof.
  unfold budget_gate, maybe_record_budget_override, maybe_record_budget_block. repeat frame_step;
    apply frame_throttled; set_solver.
Qed.
Lemma frame_gpu trigger : framed (block_restart_if_gpu_preflight_fails c i trigger).
Proof.
  unfold block_restart_if_gpu_preflight_fails, runtime_gpu_restart_block, maybe_record_gpu_restart_block.
  repeat frame_step; apply frame_throttled; set_solver.
Qed.
Lemma frame_established : framed (block_ffmpeg_missing_restart_before_established c i).
Proof.
  unfold block_ffmpeg_missing_restart_before_established, current_stream_establishment. repeat frame_step; apply frame_throttled; set_solver.
Qed.
Lemma frame_scope kind : framed (planned_recovery_scope c i kind).
Proof. unfold planned_recovery_scope. repeat frame_step. Qed.
Lemma frame_authority : framed (effect_authority_active c i).
Proof. unfold effect_authority_active. repeat frame_step. Qed.
Lemma frame_result scope reason ok retry : framed (append_recovery_dispatch_result scope reason ok retry).
Proof. apply frame_event. Qed.
#[local] Hint Resolve frame_typed frame_budget_gate frame_gpu frame_established frame_scope frame_authority frame_result : frame.

Lemma frame_put_synced scopes (s s' : dict) : sync_pending_recovery_from_executor scopes s = Ok s' ->
  forall k, k ∈ gate_keys -> dict_get k s' = dict_get k s.
Proof. unfold sync_pending_recovery_from_executor. intros Hs. inv_ok Hs. injection Hs as <-. intros. by apply gate_keys_pending. Qed.
Lemma frame_ledger answer : framed (read_executor_unresolved_scopes c answer).
Proof.
  unfold read_executor_unresolved_scopes. destruct (negb (socket_mode c)); [auto with frame|].
  destruct (unresolved_effect_scopes answer); repeat frame_step.
  apply frame_modify_res. intros s s' k Hs. by eapply frame_put_synced.
Qed.
Lemma frame_reconcile_scopes o obs tcp n scopes : forall any, framed (reconcile_scopes i scopes o obs tcp n any).
Proof. induction scopes; intros any; simpl; repeat frame_step. Qed.
#[local] Hint Resolve frame_ledger frame_reconcile_scopes : frame.
Lemma frame_reconcile scopes pid tcp n : framed (maybe_reconcile_delayed_executor_effects i scopes pid tcp n).
Proof. unfold maybe_reconcile_delayed_executor_effects. repeat frame_step. Qed.
Lemma frame_completed pid tcp n : framed (maybe_record_recovery_completed i pid tcp n).
Proof.
  unfold maybe_record_recovery_completed. repeat frame_step.
  apply frame_modify. intros. by apply gate_keys_pending.
Qed.
#[local] Hint Resolve frame_reconcile frame_completed : frame.
Lemma frame_settle pid scopes o : framed (settle_effects c i pid scopes o).
Proof. unfold settle_effects. repeat frame_step. Qed.
Lemma frame_sample pid o : framed (record_sample c i pid o).
Proof. unfold record_sample. repeat frame_step. Qed.
Lemma frame_network_gate pid o : framed (network_gate c i pid o).
Proof. unfold network_gate. repeat frame_step. Qed.
Lemma frame_streak ks key active : key ∉ ks -> frame ks (state_res (fun s => update_streak s key active)).
Proof.
  intros Hk. apply frame_state_res. intros s s' a k Hu Hin. unfold update_streak in Hu. inv_ok Hu. injection Hu as <- <-.
  apply dict_get_set_ne. set_solver.
Qed.
Lemma frame_send_sample pid sent m : frame all_keys (maybe_append_tcp_send_sample c i pid sent m).
Proof.
  unfold maybe_append_tcp_send_sample. destruct (socket_mode c).
  - apply frame_bind; [|intros []; repeat frame_step]. apply frame_state_res. intros s s' a k Hr Hk.
    assert (Hne : k <> STATE_KEY) by (intros ->; set_solver).
    unfold source_timed_sample in Hr.
    destruct (snapshot _ _ _) as [cur|[]]; try discriminate Hr;
      try (injection Hr as <- _; rewrite dict_get_pop; by rewrite (proj2 (String.eqb_neq _ _) Hne)).
    destruct (_ <=? 0); [by injection Hr as <- _|].
    destruct (dget s STATE_KEY VNone); try (injection Hr as <- _; by apply dict_get_set_ne).
    destruct (negb _); [injection Hr as <- _; by apply dict_get_set_ne|].
    inv_ok Hr. destruct (_ && _); [by injection Hr as <- _|].
    destruct (discontinuous _ _ _ _); [injection Hr as <- _; by apply dict_get_set_ne|].
    destruct (_ <? _); [injection Hr as <- _; by apply dict_get_set_ne|].
    inv_ok Hr. injection Hr as <- _. by apply dict_get_set_ne.
  - repeat first [apply frame_set_keys; repeat (constructor; [fresh_key|]); constructor | frame_step].
Qed.
Lemma frame_warning_streak w payload d : frame all_keys (state_res (fun s => update_remote_warning_streak s w payload d)).
Proof.
  apply frame_state_res. intros s s' a k Hu Hk. unfold update_remote_warning_streak in Hu.
  assert (He : forall ctx, dict_get k (enter_context s ctx) = dict_get k s).
  { intros ctx. unfold enter_context. destruct (negb _ && negb (ctx =? _)%string)%bool; [untouched | done]. }
  destruct (negb w); [injection Hu as <- _; untouched|].
  destruct (negb d); [inv_ok Hu; injection Hu as <- _; untouched|].
  inv_ok Hu. destruct (negb _); [injection Hu as <- _; untouched|].
  destruct (remote_warning_context payload) as [[ctx ep] gen]. specialize (He ctx). set (s1 := enter_context s ctx) in *. clearbody s1.
  destruct (negb _ && _); [inv_ok Hu; by injection Hu as <- _|]. inv_ok Hu.
  destruct (_ && _ && _); [inv_ok Hu; by injection Hu as <- _|]. inv_ok Hu. injection Hu as <- _.
  repeat case_match; untouched.
Qed.
Lemma frame_reset pid : frame obs_keys (modify_res (fun s => reset_pid_dependent_state s pid)).
Proof.
  apply frame_modify_res. intros s s' k Hr Hk. unfold reset_pid_dependent_state in Hr. inv_ok Hr. injection Hr as <-.
  destruct (v =? pid); [done|]. untouched.
Qed.
Lemma frame_all {A} (m : M A) : frame all_keys m -> frame obs_keys m.
Proof. intros Hm. eapply frame_weaken; [exact Hm | set_solver]. Qed.
End Frames.

(** ** Runs that continue *)
Lemma bind_Go {A B} (m : M A) (k : A -> M B) w b w' :
  mbind m k w = (Go b, w') <-> exists a w1, m w = (Go a, w1) /\ k a w1 = (Go b, w').
Proof.
  unfold mbind. destruct (m w) as [[a| |e] w1]; split.
  - eauto.
  - by intros (? & ? & [= <- <-] & ?).
  - done.
  - by intros (? & ? & ? & ?).
  - done.
  - by intros (? & ? & ? & ?).
Qed.
Lemma bind_assoc {A B C} (m : M A) (f : A -> M B) (g : B -> M C) w :
  mbind (mbind m f) g w = mbind m (fun a => mbind (f a) g) w.
Proof. unfold mbind. by destruct (m w) as [[a| |e] w1]. Qed.
Lemma lift_Go {A} (r : res A) w a w' : lift r w = (Go a, w') -> r = Ok a /\ w' = w.
Proof. unfold lift. destruct r; by intros [= <- <-]. Qed.
Lemma save_and_return_stops {A} i w a w' : @save_and_return i A w <> (Go a, w').
Proof. unfold save_and_return, save_state, mbind. destruct (i_save i); intros [=]. Qed.
Lemma then_return_stops {A B} i (m : M A) w (b : B) w' : mbind m (fun _ => save_and_return i) w <> (Go b, w').
Proof. intros (a & w1 & _ & Hx)%bind_Go. by apply save_and_return_stops in Hx. Qed.
(** [if b: ...; save_state(state); return 0] continues only when [b] is false. *)
Lemma when_return_Go {A} b i (m : M A) w w' : when b (mbind m (fun _ => save_and_return i)) w = (Go tt, w') -> b = false /\ w' = w.
Proof. destruct b; simpl; [intros Hx; by apply then_return_stops in Hx | by intros [= ->]]. Qed.

Ltac inv_go Hx :=
  repeat match type of Hx with
  | mbind _ _ _ = (Go _, _) =>
      let a := fresh "a" in let w := fresh "w" in let E := fresh "G" in
      apply bind_Go in Hx; destruct Hx as (a & w & E & Hx)
  end.

(** ** At most one effect *)
Definition one {A} (m : M A) : Prop := forall w, exists l, effects (snd (m w)) = effects w ++ l /\ (length l <= 1)%nat.
Lemma one_frame {A} ks (m : M A) : frame ks m -> one m.
Proof. intros Hm w. exists []. rewrite app_nil_r. split; [apply Hm | simpl; lia]. Qed.
Lemma one_bind_l {A B} ks (m : M A) (k : A -> M B) : frame ks m -> (forall a, one (k a)) -> one (mbind m k).
Proof.
  intros Hm Hk w. destruct (Hm w) as [He _]. unfold mbind. destruct (m w) as [[a| |e] w1]; simpl in *.
  - destruct (Hk a w1) as (l & Hl & ?). exists l. split; [congruence | done].
  - exists []. rewrite app_nil_r. split; [done | simpl; lia].
  - exists []. rewrite app_nil_r. split; [done | simpl; lia].
Qed.
Lemma one_bind_r {A B} ks (m : M A) (k : A -> M B) : one m -> (forall a, frame ks (k a)) -> one (mbind m k).
Proof.
  intros Hm Hk w. destruct (Hm w) as (l & He & ?). unfold mbind. destruct (m w) as [[a| |e] w1]; simpl in *; [|by exists l|by exists l].
  destruct (Hk a w1) as [He' _]. exists l. split; [congruence | done].
Qed.

Lemma frame_Go {A} ks (m : M A) w a w' k : frame ks m -> m w = (Go a, w') -> k ∈ ks ->
  dict_get k (w_state w') = dict_get k (w_state w).
Proof. intros Hm E Hk. destruct (Hm w) as [_ Hs]. rewrite E in Hs. by apply Hs. Qed.

(** Frame goals on blocks whose parts are in the hint database. *)
Ltac quiet :=
  repeat first [solve [eauto with frame] | apply frame_bind; [|intros] | apply frame_if | apply frame_when
               | apply (frame_bind _ _ (fun _ => _)); [|intros]].

Section OneEffect.
Context `{Repr} `{IsoSeconds} `{IsoMicros} `{TextDigest} `{IsoEpoch} `{IsoText} `{JsonSha}.
Variables (c : config) (i : inputs).
#[local] Hint Resolve frame_typed frame_budget_gate frame_gpu frame_established frame_scope frame_authority
  frame_result frame_settle frame_sample frame_network_gate frame_send_sample frame_warning_streak frame_mark
  frame_reason frame_save_and_return frame_ledger frame_event frame_wait frame_clear frame_observe frame_reset : frame.

Lemma one_act e : one (act (Effect e)).
Proof. intros w. exists [e]. split; [unfold effects; simpl; by rewrite effects_in_app | simpl; lia]. Qed.
Lemma one_execute kind reason pid corr : one (execute_recovery_action_with_policy c i kind reason pid corr).
Proof.
  unfold execute_recovery_action_with_policy, execute_typed, restart_ffmpeg_child, restart_stream.
  assert (Ho : forall A e (a : A), one (mbind (act (Effect e)) (fun _ => mret a))).
  { intros A e a. apply (one_bind_r []); [apply one_act | intros; apply frame_mret]. }
  destruct (socket_mode c).
  - apply (one_bind_l []); [apply frame_observe|]. intros o. destruct (String.eqb _ _); [eapply one_frame, (frame_mret [])|].
    destruct (negb _); [eapply one_frame, (frame_lift [])|].
    destruct (plan_effect_request _ _) as [[|]|]; try (eapply one_frame, (frame_mret [])). apply Ho.
  - destruct (legacy_child c kind).
    + apply (one_bind_r []); [|intros []; apply frame_mret].
      destruct (pid <=? 1); [eapply one_frame, (frame_mret []) | apply Ho].
    + apply (one_bind_r []); [|intros []; apply frame_mret]. apply (one_bind_r []); [apply one_act|]. intros _.
      apply frame_bind; [apply frame_lift|]. intros []. apply frame_mret.
Qed.

Lemma frame_nil_modify f : frame [] (modify f).
Proof. apply frame_modify. intros s k Hk. by apply elem_of_nil in Hk. Qed.
Lemma frame_nil_set kvs : frame [] (set_keys kvs).
Proof. apply frame_nil_modify. Qed.
Lemma frame_nil_save {A} : frame [] (@save_and_return i A).
Proof. eapply frame_weaken; [apply frame_save_and_return | set_solver]. Qed.
Lemma frame_nil_mark pid o why : frame [] (mark_sample i pid o why).
Proof. apply frame_nil_modify. Qed.
Lemma frame_nil_event k m : frame [] (append_event k m).
Proof. by apply frame_act. Qed.
#[local] Hint Resolve frame_nil_modify frame_nil_set frame_nil_save frame_nil_mark frame_nil_event : frame.

Lemma frame_nil_restarted events kind why : frame [] (restarted c i events kind why).
Proof. unfold restarted. quiet. Qed.
Lemma frame_nil_unresolved action kind reason pid detail events :
  frame [] (record_unresolved_recovery_dispatch c i action kind reason pid detail events).
Proof. unfold record_unresolved_recovery_dispatch. quiet. Qed.
#[local] Hint Resolve frame_nil_restarted frame_nil_unresolved : frame.
Lemma frame_nil_result scope reason ok retry : frame [] (append_recovery_dispatch_result scope reason ok retry).
Proof. apply frame_nil_event. Qed.
#[local] Hint Resolve frame_nil_result : frame.
Lemma frame_nil_missing_record reason events r : frame [] (missing_record c i reason events r).
Proof.
  unfold missing_record. destruct r as [[action active] [[[ok detail] scope] retry]].
  quiet.
Qed.

Lemma one_missing_dispatch reason first : one (missing_dispatch c i reason first).
Proof.
  unfold missing_dispatch. eapply one_bind_l; [auto with frame|]. intros scope.
  eapply one_bind_l; [auto with frame|]. intros active. eapply one_bind_l; [apply frame_nil_event|]. intros _.
  apply (one_bind_r []).
  - destruct (negb active); [eapply one_frame, (frame_mret []) | apply one_execute].
  - intros [[[ok detail] dscope] retry]. quiet.
Qed.
Lemma one_missing_tail reason first events :
  one (mbind (missing_dispatch c i reason first) (fun r => missing_record c i reason events r)).
Proof. apply (one_bind_r []); [apply one_missing_dispatch | intros; apply frame_nil_missing_record]. Qed.
Lemma one_dispatch pid o r events failures action : one (dispatch_and_record c i pid o r events failures action).
Proof.
  unfold dispatch_and_record. apply (one_bind_r []); [apply one_execute|]. intros [[[ok detail] scope] retry]. quiet.
Qed.
End OneEffect.

(** ** What an effect needs *)
Section Clearance.
Context `{Repr} `{IsoSeconds} `{IsoMicros} `{TextDigest} `{IsoEpoch} `{IsoText} `{JsonSha}.
Variables (c : config) (i : inputs).
#[local] Hint Resolve frame_typed frame_budget_gate frame_gpu frame_established frame_scope frame_authority
  frame_result frame_settle frame_sample frame_network_gate frame_send_sample frame_warning_streak frame_mark
  frame_reason frame_save_and_return frame_ledger frame_event frame_wait frame_clear frame_observe frame_reset : frame.

#[local] Hint Resolve frame_nil_modify frame_nil_set frame_nil_save frame_nil_mark frame_nil_event
  frame_nil_restarted frame_nil_unresolved frame_nil_result frame_nil_missing_record : frame.

(** The budget of a window lets one more restart pass, or the override for this
    reason is active. *)
Definition within_budget (events : list restart_event) (kind : string) (first window budget : Z) : Prop :=
  0 < budget -> budget < used c i events window + RESTART_DOWNTIME_COST_SEC c ->
  emergency_budget_override_active kind first (i_now i) (BUDGET_EMERGENCY_OVERRIDE_SEC c) = true.

(** When the episode of [kind] started, by the loaded state. *)
Definition started (s : dict) (kind : string) : res Z :=
  if String.eqb kind "ffmpeg_missing" then
    let! first := int0 s "ffmpeg_missing_first_ts" in Ok (if first <=? 0 then i_now i else first)
  else if String.eqb (py_str (dget s "active_reason_kind" (VStr ""))) kind
  then py_int (py_or (dget s "active_reason_first_ts" (VInt (i_now i))) (VInt (i_now i)))
  else Ok (i_now i).

(** The stalled samples in a row counted for process [pid] by earlier turns. *)
Definition stalls_before (s : dict) (pid : Z) : res Z :=
  let! last := py_int (dget s "last_pid" (VInt 0)) in if last =? pid then int0 s "stall_streak" else Ok 0.
(** A socket that has been silent for long with unsent or unacknowledged data. *)
Definition stalling (m : dict) : Prop :=
  m <> [] /\ exists silent ns ua,
    py_int (dget m "lastsnd_ms" (VInt 0)) = Ok silent /\ py_int (dget m "notsent" (VInt 0)) = Ok ns /\
    py_int (dget m "unacked" (VInt 0)) = Ok ua /\ th_stall_lastsnd (THRESHOLDS c) <= silent /\
    (th_stall_notsent (THRESHOLDS c) <= ns \/ th_stall_unacked (THRESHOLDS c) <= ua).

(** What this turn's reading of process [pid] and the loaded state show for a
    recovery of each kind. *)
Inductive caused (s : dict) (last pid : Z) : string -> Prop :=
  | cause_missing first until : pid <= 1 -> started s "ffmpeg_missing" = Ok first ->
      FFMPEG_MISSING_RESTART_SEC c <= i_now i - first ->
      int0 s "ffmpeg_missing_success_backoff_until" = Ok until -> until <= i_now i ->
      caused s last pid "ffmpeg_missing"
  | cause_warning why payload : 1 < pid -> wc_preserve (WARNING c) = true ->
      read_youtube_live_warning (WARNING c) (i_stats i) (i_quota i) (i_now i) last = Ok (true, why, payload) ->
      caused s last pid "remote_warning"
  | cause_stall m before : 1 < pid -> (forall w, parse_ffmpeg_tcp_metrics c i pid w = (Go m, w)) -> stalling m ->
      stalls_before s pid = Ok before -> STALL_CONFIRM c <= before + 1 ->
      caused s last pid "tcp_stall".

(** The effect is the one for [kind] at process [pid]. *)
Definition effect_of (kind : string) (pid : Z) (e : effect) : Prop :=
  if socket_mode c then exists o request, read_runtime_observation (i_obs i OExecute) = Ok o /\
    intent_type (select_recovery_intent kind o) <> NO_ACTION /\ e = SendRequest (intent_type (select_recovery_intent kind o)) request
  else e = if legacy_child c kind then SignalChild pid else RestartRuntime.

(** A recovery of [kind], whose episode started at [first], is due by the loaded
    state [s]; the turn found process [pid]. *)
Record cleared (s : dict) (last pid : Z) (kind : string) (first : Z) : Prop := Cleared {
  cl_cause : 1 <= STALL_CONFIRM c -> 1 <= REMOTE_WARNING_CONFIRM c -> caused s last pid kind;
  cl_kind : if pid <=? 1 then kind = "ffmpeg_missing" else kind = "remote_warning" \/ kind = "tcp_stall";
  cl_first : started s kind = Ok first;
  cl_network : network_down (current_network_observation c i) = false;
  cl_authority : EFFECT_AUTHORITY_MODE c <> "SHADOW_ONLY";
  cl_guard : RESTART_GUARD_SEC c <= i_now i - last;
  cl_backoff : exists failure, int0 s "last_restart_failure_ts" = Ok failure /\
    restart_failure_backoff_left (i_now i) failure (RESTART_FAILURE_BACKOFF_SEC c) <= 0;
  cl_budget : exists events, trim c i (dget s "restart_events" (VList [])) = Ok events /\
    within_budget events kind first 3600 (HOURLY_DOWNTIME_BUDGET_SEC c) /\
    within_budget events kind first 86400 (DAILY_DOWNTIME_BUDGET_SEC c) }.

Lemma int0_ext k s s' : dict_get k s' = dict_get k s -> int0 s' k = int0 s k.
Proof. intros E. unfold int0, dget. by rewrite E. Qed.
Lemma dget_ext k s s' v : dict_get k s' = dict_get k s -> dget s' k v = dget s k v.
Proof. intros E. unfold dget. by rewrite E. Qed.

Lemma budget_gate_Go name u b kind first w w' : budget_gate c i name u b kind first w = (Go None, w') ->
  0 < b -> b < u + RESTART_DOWNTIME_COST_SEC c ->
  emergency_budget_override_active kind first (i_now i) (BUDGET_EMERGENCY_OVERRIDE_SEC c) = true.
Proof.
  intros Hg Hb Hu. unfold budget_gate, over_budget in Hg. rewrite (proj2 (Z.ltb_lt _ _) Hb), (proj2 (Z.ltb_lt _ _) Hu) in Hg.
  cbn [andb negb] in Hg. destruct (emergency_budget_override_active _ _ _ _); [done|]. by inv_go Hg.
Qed.
Lemma missing_budget_Go name u b first w w' : missing_budget_gate c i name u b first w = (Go tt, w') ->
  exists w1, budget_gate c i name u b "ffmpeg_missing" first w = (Go None, w1).
Proof.
  intros Hg. unfold missing_budget_gate in Hg. inv_go Hg. destruct a; [|by exists w0].
  inv_go Hg. by apply save_and_return_stops in Hg.
Qed.
Lemma running_budget_Go name u b pid o r w w' : running_budget_gate c i name u b pid o r w = (Go tt, w') ->
  exists w1, budget_gate c i name u b (r_kind r) (first_ts r) w = (Go None, w1).
Proof.
  intros Hg. unfold running_budget_gate in Hg. inv_go Hg. destruct a; [|by exists w0].
  inv_go Hg. by apply save_and_return_stops in Hg.
Qed.
Lemma authority_Go w w' : effect_authority_active c i w = (Go true, w') -> EFFECT_AUTHORITY_MODE c <> "SHADOW_ONLY".
Proof.
  unfold effect_authority_active. destruct (String.eqb_spec (EFFECT_AUTHORITY_MODE c) "SHADOW_ONLY"); [|done].
  by destruct (negb (socket_mode c)).
Qed.

Lemma frame_nil {A} (m : M A) : frame gate_keys m -> frame [] m.
Proof. intros Hm. eapply frame_weaken; [exact Hm | set_solver]. Qed.

(** Pass a block that sent nothing and left [ks] alone: the effect came from the
    rest. *)
Ltac pass_with ks tac He Hb a w' Em Hk :=
  let He' := fresh He in let Eb := fresh "Eb" in
  match type of Hb with
  | effects (snd (mbind ?m ?k ?w)) <> [] =>
      destruct (frame_through ks m k w ltac:(tac) He Hb) as (a & w' & Em & He' & Hk & Eb);
      rewrite ?Eb; rewrite Eb in Hb; clear Eb; clear He; rename He' into He
  end.
Ltac pass He Hb a w' Em Hk := pass_with gate_keys ltac:(repeat frame_step) He Hb a w' Em Hk.
Ltac pass0 He Hb a w' Em :=
  let Hk := fresh in
  pass_with (@nil string) ltac:(first [apply frame_nil_set | apply frame_nil; solve [repeat frame_step] | quiet]) He Hb a w' Em Hk; clear Hk.

Lemma no_effect_left {A} (m : M A) w : effects w = [] -> frame [] m -> effects (snd (m w)) <> [] -> False.
Proof. intros He Hm Hb. apply Hb. by rewrite (proj1 (Hm w)). Qed.

Lemma frame_missing_budget name u b first : frame gate_keys (missing_budget_gate c i name u b first).
Proof. unfold missing_budget_gate. repeat frame_step. Qed.
Lemma frame_running_budget name u b pid o r : frame gate_keys (running_budget_gate c i name u b pid o r).
Proof. unfold running_budget_gate. repeat frame_step. Qed.
Lemma frame_missing_network b : frame gate_keys (missing_network_gate c i b).
Proof. unfold missing_network_gate. repeat frame_step. Qed.
#[local] Hint Resolve frame_missing_budget frame_running_budget frame_missing_network : frame.

(** ** The effect that is sent *)
Lemma execute_effect kind reason pid corr w e : effects w = [] ->
  e ∈ effects (snd (execute_recovery_action_with_policy c i kind reason pid corr w)) -> effect_of kind pid e.
Proof.
  unfold execute_recovery_action_with_policy, effect_of, execute_typed, restart_ffmpeg_child, restart_stream, effects.
  intros He. destruct (socket_mode c).
  - unfold observe, lift, mbind, mret, act. destruct (read_runtime_observation (i_obs i OExecute)) as [o|]; simpl;
      [|rewrite He; by intros ?%elem_of_nil].
    destruct (String.eqb_spec (intent_type (select_recovery_intent kind o)) NO_ACTION) as [|Hne]; simpl; [rewrite He; by intros ?%elem_of_nil|].
    destruct (negb (OBSERVATION_ENV c)); simpl; [rewrite He; by intros ?%elem_of_nil|].
    destruct (plan_effect_request _ _) as [[|request]|]; simpl; [rewrite He; by intros ?%elem_of_nil | | rewrite He; by intros ?%elem_of_nil].
    rewrite effects_in_app, He. simpl. intros ->%list_elem_of_singleton. by exists o, request.
  - unfold lift, mbind, mret, act. destruct (legacy_child c kind).
    + destruct (pid <=? 1); simpl; [rewrite He; by intros ?%elem_of_nil|].
      intros Hin. apply (list_elem_of_singleton e (SignalChild pid)). revert Hin.
      destruct (i_kill i) as [[]| |]; simpl; by rewrite effects_in_app, He.
    + intros Hin. apply (list_elem_of_singleton e RestartRuntime). revert Hin.
      destruct (i_supervisor i) as [[[] ?]|]; simpl; by rewrite effects_in_app, He.
Qed.
Lemma effect_of_missing pid e : effect_of "ffmpeg_missing" 0 e -> effect_of "ffmpeg_missing" pid e.
Proof.
  unfold effect_of, legacy_child. destruct (socket_mode c); [done|].
  rewrite (bool_decide_eq_false_2 ("ffmpeg_missing" ∈ ["tcp_stall"; "remote_warning"])) by set_solver. by rewrite andb_false_r.
Qed.
Lemma effects_then {A B} (m : M A) (k : A -> M B) w : (forall a, frame [] (k a)) -> effects (snd (mbind m k w)) = effects (snd (m w)).
Proof. intros Hk. unfold mbind. destruct (m w) as [[a| |] w1]; simpl; [apply Hk | done | done]. Qed.
Lemma dispatch_effect pid o r events failures action w e : effects w = [] ->
  e ∈ effects (snd (dispatch_and_record c i pid o r events failures action w)) -> effect_of (r_kind r) pid e.
Proof.
  intros He. unfold dispatch_and_record. rewrite effects_then by (intros [[[ok detail] scope] retry]; quiet). by apply execute_effect.
Qed.
Lemma missing_effect reason first events w e : effects w = [] ->
  e ∈ effects (snd (mbind (missing_dispatch c i reason first) (fun r => missing_record c i reason events r) w)) ->
  effect_of "ffmpeg_missing" 0 e.
Proof.
  intros He. rewrite effects_then by (intros; apply frame_nil_missing_record). unfold missing_dispatch.
  assert (Hq : forall A B (m : M A) (k : A -> M B) w, effects w = [] -> frame [] m ->
    (forall a w', effects w' = [] -> e ∈ effects (snd (k a w')) -> effect_of "ffmpeg_missing" 0 e) ->
    e ∈ effects (snd (mbind m k w)) -> effect_of "ffmpeg_missing" 0 e).
  { intros A B m k w0 He0 Hm Hk. destruct (Hm w0) as [Hs _]. unfold mbind. destruct (m w0) as [[a| |] w1]; simpl in *;
      rewrite He0 in Hs; [by apply Hk | rewrite Hs; by intros ?%elem_of_nil..]. }
  apply Hq; [done | apply frame_nil; auto with frame|]. intros scope w1 He1.
  apply Hq; [done | apply frame_nil; auto with frame|]. intros active w2 He2.
  apply Hq; [done | apply frame_nil_event|]. intros _ w3 He3.
  rewrite effects_then by (intros [[[ok detail] dscope] retry]; quiet).
  destruct active; simpl; [by apply execute_effect | unfold effects in *; rewrite He3; by intros ?%elem_of_nil].
Qed.

(** What [missing_restart] checks before the effect; the events are read first. *)
Lemma missing_restart_clear reason first w : effects w = [] ->
  effects (snd (missing_restart c i reason first w)) <> [] ->
  (length (effects (snd (missing_restart c i reason first w))) <= 1)%nat /\ EFFECT_AUTHORITY_MODE c <> "SHADOW_ONLY" /\
  (forall e, e ∈ effects (snd (missing_restart c i reason first w)) -> effect_of "ffmpeg_missing" 0 e) /\
  exists events, trim c i (dget (w_state w) "restart_events" (VList [])) = Ok events /\
    within_budget events "ffmpeg_missing" first 3600 (HOURLY_DOWNTIME_BUDGET_SEC c) /\
    within_budget events "ffmpeg_missing" first 86400 (DAILY_DOWNTIME_BUDGET_SEC c).
Proof.
  intros He Hb. unfold missing_restart in *.
  pass He Hb s w1 E1 K1. injection E1 as <- <-. pass He Hb events w2 E2 K2.
  injection E2 as E2 <-. destruct (trim c i _) as [es|] eqn:Et; [|done]. injection E2 as ->.
  pass0 He Hb u w3 E3. pass0 He Hb u4 w4 E4. pass0 He Hb u5 w5 E5.
  pass0 He Hb blocked w6 E6. pass0 He Hb u7 w7 E7. pass0 He Hb gpu w8 E8. pass0 He Hb u9 w9 E9.
  pass0 He Hb d w10 E10. pass0 He Hb u11 w11 E11.
  split; [|split; [|split]].
  - destruct (one_missing_tail c i reason first events w11) as (l & -> & ?). by rewrite He.
  - unfold missing_dispatch in Hb. rewrite bind_assoc in Hb. pass0 He Hb scope w12 E12.
    rewrite bind_assoc in Hb. pass0 He Hb active w13 E13. destruct active; [by eapply authority_Go|].
    exfalso. eapply (no_effect_left _ _ He); [|exact Hb]. cbn [negb].
    repeat first [solve [eauto with frame] | apply frame_bind; [|intros] | case_match].
  - intros e Hin. by eapply missing_effect.
  - exists events. split; [done|].
    destruct u4, u5. apply missing_budget_Go in E4 as [w' E4], E5 as [w'' E5].
    split; intros ??; [exact (budget_gate_Go _ _ _ _ _ _ _ E4 ltac:(done) ltac:(done)) | exact (budget_gate_Go _ _ _ _ _ _ _ E5 ltac:(done) ltac:(done))].
Qed.

(** Lines 1509-1529 let the turn continue only with a working network, once a
    restart is due. *)
Lemma missing_network_Go w w' : missing_network_gate c i true w = (Go tt, w') ->
  network_down (current_network_observation c i) = false.
Proof.
  unfold missing_network_gate. intros Hg. inv_go Hg. injection G as <- <-. rewrite orb_true_r in Hg.
  destruct (network_down (current_network_observation c i)); [|done]. inv_go Hg. by apply save_and_return_stops in Hg.
Qed.

Lemma missing_turn_clear pid last w : pid <= 1 -> effects w = [] ->
  effects (snd (ffmpeg_missing_turn c i last w)) <> [] ->
  (length (effects (snd (ffmpeg_missing_turn c i last w))) <= 1)%nat /\
  (forall e, e ∈ effects (snd (ffmpeg_missing_turn c i last w)) -> effect_of "ffmpeg_missing" pid e) /\
  exists first, cleared (w_state w) last pid "ffmpeg_missing" first.
Proof.
  intros Hpid He Hb. unfold ffmpeg_missing_turn in *.
  pass He Hb s w1 E1 K1. injection E1 as <- <-. pass He Hb first0 w2 E2 K2. injection E2 as E2 <-.
  destruct (int0 (w_state w) "ffmpeg_missing_first_ts") as [z|] eqn:Ez; [|done]. injection E2 as ->.
  pass He Hb u w3 E3 K3. pass He Hb failure w4 E4 K4. injection E4 as E4 <-.
  destruct (int0 (w_state w) "last_restart_failure_ts") as [f|] eqn:Ef; [|done]. injection E4 as ->.
  pass He Hb until w5 E5 K5. injection E5 as E5 <-.
  match type of Hb with context [missing_network_gate c i ?b] => destruct b eqn:Eb end.
  2: { exfalso. eapply (no_effect_left _ _ He); [|exact Hb]. cbn [andb].
       repeat first [solve [eauto with frame] | apply frame_nil; solve [eauto with frame] | apply frame_bind; [|intros] | apply frame_when]. }
  pass He Hb u6 w6 E6 K6. destruct u6. cbn [andb] in *.
  match type of Hb with context [if ?b then missing_restart _ _ _ _ else _] => destruct b eqn:Ec end.
  2: { exfalso. eapply (no_effect_left _ _ He); [|exact Hb].
       repeat first [solve [eauto with frame] | apply frame_nil; solve [eauto with frame] | apply frame_bind; [|intros] | apply frame_when]. }
  destruct (missing_restart_clear _ _ _ He Hb) as (Hlen & Ha & Hsent & events & Et & Hh & Hd).
  split; [done|]. split; [intros e Hin; by apply effect_of_missing, Hsent|].
  apply andb_true_iff in Ec as [Ec Ec3]. apply andb_true_iff in Ec as [Ec1 Ec2].
  assert (Hfirst : started (w_state w) "ffmpeg_missing" = Ok (if first0 <=? 0 then i_now i else first0)).
  { unfold started. cbn [String.eqb Ascii.eqb Bool.eqb]. by rewrite Ez. }
  exists (if first0 <=? 0 then i_now i else first0).
  split; [| by rewrite (proj2 (Z.leb_le _ _) Hpid) | done| by eapply missing_network_Go | done | | | ].
  - intros _ _. apply (cause_missing _ _ _ _ until Hpid Hfirst); [by apply Z.leb_le | | apply Z.leb_le in Ec3; lia].
    destruct (int0 (w_state w) "ffmpeg_missing_success_backoff_until"); [by injection E5 as -> | done].
  - apply negb_true_iff, Z.ltb_ge in Ec1. done.
  - exists failure. split; [done|]. by apply Z.leb_le.
  - exists events. split; [|done].
    rewrite <- Et. f_equal. symmetry. apply dget_ext. rewrite K6, K3 by gate. done.
Qed.

(** ** A turn with a running ffmpeg *)
Lemma frame_kept {A} (m : M A) : frame obs_keys m -> frame kept_keys m.
Proof. intros Hm. eapply frame_weaken; [exact Hm | set_solver]. Qed.
Lemma frame_net_streak b : frame kept_keys (state_res (fun s => update_streak s "net_fail_streak" b)).
Proof.
  apply frame_state_res. intros s s' a k Hu Hin. unfold update_streak in Hu. inv_ok Hu. injection Hu as <- <-.
  apply dict_get_set_ne. set_solver.
Qed.
Lemma frame_metrics pid : frame obs_keys (parse_ffmpeg_tcp_metrics c i pid).
Proof. unfold parse_ffmpeg_tcp_metrics. repeat frame_step. Qed.
Lemma frame_observe_transport pid last : frame kept_keys (observe_transport c i pid last).
Proof.
  unfold observe_transport. repeat first
    [ apply frame_net_streak | apply frame_lift | apply frame_get | apply frame_mret
    | apply frame_kept; first [apply frame_streak; set_solver | apply frame_metrics | apply frame_reset
        | apply frame_all; first [apply frame_send_sample | apply frame_warning_streak]]
    | apply frame_bind; [|intros] | case_match ].
Qed.

Lemma observe_transport_Go pid last w o w' : observe_transport c i pid last w = (Go o, w') ->
  o_network o = current_network_observation c i /\
  (network_down (o_network o) = false -> dict_get "net_fail_streak" (w_state w') = Some (VInt 0)).
Proof.
  unfold observe_transport. intros Hg. inv_go Hg. destruct a7 as [[warning why] payload].
  inv_go Hg. injection Hg as <- <-. split; [done|]. intros Hn. cbn [o_network] in Hn. rewrite Hn in G1.
  assert (E : dict_get "net_fail_streak" (w_state w2) = Some (VInt 0)).
  { unfold state_res, mbind, get_state, lift, update_streak, put_state in G1. cbn [rbind] in G1. injection G1 as _ <-.
    apply dict_get_set_eq. }
  apply (frame_Go obs_keys) with (k := "net_fail_streak") in G2, G3, G4, G5, G6, G7, G8, G9; try set_solver;
    try (apply frame_lift || apply frame_get || apply frame_all, frame_send_sample || (apply frame_streak; set_solver) || apply frame_all, frame_warning_streak).
  congruence.
Qed.

(** The streak of stalls after the observation counts on from the earlier turns
    of the same process, and only with a stalling socket. *)
Lemma metrics_Go pid w m w1 : parse_ffmpeg_tcp_metrics c i pid w = (Go m, w1) ->
  w1 = w /\ forall w2, parse_ffmpeg_tcp_metrics c i pid w2 = (Go m, w2).
Proof.
  unfold parse_ffmpeg_tcp_metrics, observe, lift, mbind, mret.
  destruct (socket_mode c); [|by intros [= <- <-]].
  destruct (read_runtime_observation (i_obs i OMetrics)) as [o|]; [|done].
  destruct (py_int _) as [p|]; [|done]. intros [= <- <-]. split; [done|]. intros w2. reflexivity.
Qed.
Lemma streak_Go key b w n w' : state_res (fun s => update_streak s key b) w = (Go n, w') ->
  dict_get key (w_state w') = Some (VInt n) /\ (b = false -> n = 0) /\
  (b = true -> exists before, int0 (w_state w) key = Ok before /\ n = before + 1).
Proof.
  unfold state_res, mbind, get_state, lift, update_streak, put_state, mret. intros Hg.
  destruct b; cbn [rbind] in Hg.
  - destruct (int0 (w_state w) key) as [x|]; [|done]. cbn [rbind] in Hg. injection Hg as <- <-. simpl. rewrite dict_get_set_eq. naive_solver.
  - injection Hg as <- <-. simpl. by rewrite dict_get_set_eq.
Qed.
Lemma stalling_of s now m th down probe tcp : th = THRESHOLDS c -> tcp_observation s now m th down probe = Ok tcp ->
  stall_now tcp = true -> stalling m.
Proof.
  intros ->. unfold tcp_observation, stalling. intros Ht Hs. inv_ok Ht. injection Ht as <-. cbn [stall_now] in Hs. bools.
  destruct Hs as [[[Hm _] Hl] Hq]. split; [by intros ->|]. by exists v2, v0, v1.
Qed.
Lemma warning_streak_Go w0 b payload d n w' : state_res (fun s => update_remote_warning_streak s b payload d) w0 = (Go n, w') ->
  b = false -> n = 0.
Proof. intros Hg ->. unfold state_res, mbind, get_state, lift, update_remote_warning_streak, put_state, mret in Hg. simpl in Hg. by injection Hg as <- _. Qed.
Lemma reset_Go pid w u w' : modify_res (fun s => reset_pid_dependent_state s pid) w = (Go u, w') ->
  stalls_before (w_state w) pid = int0 (w_state w') "stall_streak".
Proof.
  unfold modify_res, state_res, mbind, get_state, lift, put_state, mret, stalls_before, reset_pid_dependent_state.
  destruct (py_int (dget (w_state w) "last_pid" (VInt 0))) as [p|]; cbn [rbind]; [|done]. intros [= _ <-]. simpl.
  destruct (p =? pid); [done|]. unfold int0, dget, dict_update. simpl. by rewrite !dict_get_set_ne, dict_get_set_eq by discriminate.
Qed.
Lemma observe_evidence pid last w o w' : observe_transport c i pid last w = (Go o, w') ->
  (exists why payload, read_youtube_live_warning (WARNING c) (i_stats i) (i_quota i) (i_now i) last = Ok (o_warning o, why, payload)) /\
  (o_warning o = false -> o_warning_streak o = 0) /\
  exists n, dict_get "stall_streak" (w_state w') = Some (VInt n) /\
    (n = 0 \/ exists m before, (forall w2, parse_ffmpeg_tcp_metrics c i pid w2 = (Go m, w2)) /\ stalling m /\
       stalls_before (w_state w) pid = Ok before /\ n = before + 1).
Proof.
  unfold observe_transport. intros Hg. inv_go Hg. destruct a7 as [[warning why] payload].
  inv_go Hg. injection Hg as <- <-. cbn [o_warning o_warning_streak].
  apply metrics_Go in G as [-> Hm]. apply reset_Go in G0. apply lift_Go in G7 as [Hw ->]. apply lift_Go in G3 as [Ht ->].
  apply lift_Go in G9 as [_ ->]. injection G2 as <- <-.
  split; [eauto|]. split; [by eapply warning_streak_Go|]. apply streak_Go in G5 as (E5 & Hz & Hn). exists a5. split.
  - apply (frame_Go ["stall_streak"]) with (k := "stall_streak") in G6, G8; [congruence|..]; try (by left).
    + eapply frame_weaken; [apply frame_warning_streak | set_solver].
    + apply frame_streak. set_solver.
  - destruct (stall_now a3) eqn:Es; [|left; by apply Hz]. right. destruct (Hn eq_refl) as (before & Hb & ->).
    exists a, before. split_and!; [done | by eapply stalling_of | | done]. rewrite G0, <- Hb. symmetry. apply int0_ext.
    apply (frame_Go ["stall_streak"]) with (k := "stall_streak") in G1, G4; [congruence|..]; try (by left).
    + eapply frame_weaken; [apply frame_send_sample | set_solver].
    + apply frame_streak. set_solver.
Qed.

Lemma frame_choose o : frame chosen_keys (choose_reason c i o).
Proof.
  unfold choose_reason. apply frame_bind; [apply frame_get|]. intros s. apply frame_bind; [apply frame_lift|]. intros [kind reason].
  apply frame_state_res. intros x x' a k Hu Hk. unfold update_active_reason in Hu. unfold chosen_keys in Hk.
  assert (Hne : k <> "active_reason_kind" /\ k <> "active_reason_first_ts") by set_solver.
  destruct (negb (String.eqb reason "")).
  - inv_ok Hu. injection Hu as <- _. destruct (negb _); [|done]. unfold dict_update. simpl. rewrite !dict_get_set_ne; naive_solver.
  - injection Hu as <- _. rewrite !dict_get_pop. destruct Hne as [N1 N2].
    by rewrite (proj2 (String.eqb_neq _ _) N1), (proj2 (String.eqb_neq _ _) N2).
Qed.

(** The state names the reason of the restart. *)
Definition current_reason (s : dict) (kind : string) : Prop := py_str (dget s "active_reason_kind" (VStr "")) = kind.
Lemma choose_reason_Go o w r w' : 1 <= NET_FAIL_CONFIRM c -> dict_get "net_fail_streak" (w_state w) = Some (VInt 0) ->
  choose_reason c i o w = (Go r, w') -> r_reason r <> "" ->
  started (w_state w) (r_kind r) = Ok (first_ts r) /\ current_reason (w_state w') (r_kind r) /\
  ((r_kind r = "remote_warning" /\ wc_preserve (WARNING c) = true /\ REMOTE_WARNING_CONFIRM c <= o_warning_streak o) \/
   (r_kind r = "tcp_stall" /\ exists n, py_int (dget (w_state w) "stall_streak" (VInt 0)) = Ok n /\ STALL_CONFIRM c <= n)).
Proof.
  intros Hc Hn Hg Hr. unfold choose_reason in Hg. inv_go Hg. destruct a0 as [kind reason]. injection G as <- <-.
  injection G0 as G0 <-. destruct (select_restart_reason _ _ _ _ _ _ _ _ _) as [[k r0]|] eqn:Es; [|done]. injection G0 as -> ->.
  assert (Hk : reason <> "" ->
    (kind = "remote_warning" /\ wc_preserve (WARNING c) = true /\ REMOTE_WARNING_CONFIRM c <= o_warning_streak o) \/
    (kind = "tcp_stall" /\ exists n, py_int (dget (w_state w) "stall_streak" (VInt 0)) = Ok n /\ STALL_CONFIRM c <= n)).
  { unfold select_restart_reason in Es. destruct (_ && _) eqn:Eb; [injection Es as <- _; bools; left; destruct Eb; by split_and!|].
    unfold dget in Es at 1. rewrite Hn in Es. cbn [from_option py_int rbind id] in Es.
    destruct (Z.leb_spec (NET_FAIL_CONFIRM c) 0); [lia|].
    inv_ok Es. destruct (Z.leb_spec (STALL_CONFIRM c) v); injection Es as <- <-; [right; eauto | done]. }
  unfold state_res in Hg. inv_go Hg. destruct a0 as [s' r']. injection G as <- <-. inv_go Hg. injection Hg as -> <-.
  injection G0 as G0 <-. destruct (update_active_reason _ _ _ _) as [[s2 r2]|] eqn:Eu; [|done]. injection G0 as -> ->.
  unfold put_state in G. injection G as _ <-. cbn [w_state].
  unfold update_active_reason in Eu. destruct (negb (String.eqb reason "")) eqn:Ene.
  - inv_ok Eu. injection Eu as <- <-. cbn [r_kind r_reason first_ts] in *. specialize (Hk Hr).
    assert (Hf : kind <> "ffmpeg_missing") by (destruct Hk as [[-> _]|[-> _]]; discriminate).
    unfold started. rewrite (proj2 (String.eqb_neq _ _) Hf). unfold current_reason.
    destruct (String.eqb_spec (py_str (dget (w_state w) "active_reason_kind" (VStr ""))) kind) as [Ek|Ek]; cbn [negb] in *.
    + split_and!; [exact E | exact Ek | exact Hk].
    + unfold dget, dict_update in *. simpl in *. rewrite dict_get_set_eq in E. rewrite dict_get_set_ne, dict_get_set_eq by discriminate.
      split_and!; [|done|exact Hk]. simpl in E. unfold py_or in E. by destruct (truthy (VInt (i_now i))); injection E as <-.
  - injection Eu as <- <-. apply negb_false_iff, String.eqb_eq in Ene. by subst.
Qed.
Lemma frame_guard pid last o r : frame gate_keys (guard_gate c i pid last o r).
Proof. unfold guard_gate. repeat frame_step. Qed.
Lemma frame_backoff pid o r : frame gate_keys (backoff_gate c i pid o r).
Proof. unfold backoff_gate. repeat frame_step. Qed.
#[local] Hint Resolve frame_choose frame_guard frame_backoff : frame.

Lemma network_gate_Go pid o w w' : network_gate c i pid o w = (Go tt, w') -> network_down (o_network o) = false.
Proof.
  unfold network_gate. destruct (network_down (o_network o)); [|done]. intros Hg. inv_go Hg. by apply save_and_return_stops in Hg.
Qed.
Lemma guard_gate_Go pid last o r w w' : guard_gate c i pid last o r w = (Go tt, w') -> r_reason r <> "" ->
  RESTART_GUARD_SEC c <= i_now i - last.
Proof.
  unfold guard_gate. intros [Hb _]%when_return_Go Hr. apply String.eqb_neq in Hr. rewrite Hr in Hb. cbn in Hb. by apply Z.ltb_ge.
Qed.
Lemma backoff_gate_Go pid o r w n w' : backoff_gate c i pid o r w = (Go n, w') -> r_reason r <> "" ->
  exists failure, int0 (w_state w) "last_restart_failure_ts" = Ok failure /\
    restart_failure_backoff_left (i_now i) failure (RESTART_FAILURE_BACKOFF_SEC c) <= 0.
Proof.
  unfold backoff_gate. intros Hg Hr. inv_go Hg. injection G as <- <-. injection G0 as G0 <-. injection G1 as _ <-.
  destruct (int0 (w_state w) "last_restart_failure_ts") as [f|]; [|done]. injection G0 as ->.
  destruct a2. apply when_return_Go in G2 as [Hb _]. apply String.eqb_neq in Hr. rewrite Hr in Hb. cbn in Hb.
  apply Z.ltb_ge in Hb. eauto.
Qed.

(** ** Settled effects *)

(** The ledger's answer shows no unresolved effect. *)
Definition ledger_empty (answer : res dict) : Prop :=
  exists response, unresolved_effect_scopes answer = Ok response /\ dget response "unresolved_scopes" VNone = VList [].
(** No earlier effect may still be in flight when ffmpeg process [pid] runs: the
    ledger's last answer is empty, or (without an executor) no pending recovery
    was requested for this very process. *)
Record settled (pid : Z) (s : dict) : Prop := Settled {
  st_ledger : socket_mode c = true -> ledger_empty (i_unresolved_again i);
  st_pending : socket_mode c = false -> Forall (fun item => still_running pid item = Ok false) (pending_of s) }.

Lemma ledger_Go answer w scopes w' : read_executor_unresolved_scopes c answer w = (Go (Some scopes), w') ->
  (socket_mode c = true -> scopes = [] -> ledger_empty answer) /\ (socket_mode c = false -> w' = w /\ scopes = []).
Proof.
  unfold read_executor_unresolved_scopes. destruct (socket_mode c); cbn [negb].
  2: { intros [= <- <-]. by split. }
  intros Hg. split; [|done]. intros _ ->. destruct (unresolved_effect_scopes answer) as [response|] eqn:Eu; [|by inv_go Hg].
  exists response. split; [done|]. inv_go Hg. injection Hg as Hs _.
  unfold unresolved_effect_scopes in Eu. inv_ok Eu. destruct (dget v "unresolved_scopes" VNone) as [| | | | |l|] eqn:El; try done.
  destruct (dget v "unresolved_count" VNone); try done. destruct (_ && _); [|done]. injection Eu as <-.
  rewrite El in *. by destruct l.
Qed.

Lemma dicts_of_map (l : list dict) : map as_dict (List.filter is_dict (map VDict l)) = l.
Proof. induction l as [|x l IH]; simpl; [done|]. by rewrite IH. Qed.
Lemma pending_put (l : list dict) s : pending_of (put_pending l s) = last_n 16 l.
Proof.
  unfold pending_of, put_pending, dget. rewrite dict_get_set_eq. cbn [from_option id]. unfold last_n.
  rewrite skipn_map, dicts_of_map. by rewrite length_map.
Qed.
Lemma last_n_nil {A} (l : list A) : last_n 16 l = [] -> l = [].
Proof. unfold last_n. intros E. destruct l as [|x l]; [done|]. apply (f_equal length) in E. rewrite length_drop in E. simpl in *. lia. Qed.
Lemma split_pending_rest pid l done_ : split_pending pid l = Ok (done_, []) -> Forall (fun item => still_running pid item = Ok false) l.
Proof.
  revert done_. induction l as [|x l IH]; intros done_ Hs; simpl in *; [constructor|]. inv_ok Hs. destruct v0 as [d r].
  destruct v; [by injection Hs as _ Hr|]. injection Hs as _ ->. constructor; [done | by eapply IH].
Qed.

Lemma settle_effects_Go pid scopes o w w' : settle_effects c i pid scopes o w = (Go tt, w') ->
  (socket_mode c = true -> ledger_empty (i_unresolved_again i)) /\
  (socket_mode c = false -> Forall (fun item => still_running pid item = Ok false) (pending_of (w_state w))).
Proof.
  unfold settle_effects. intros Hg. inv_go Hg. injection G0 as <- <-. apply when_return_Go in Hg as [Hn _].
  apply orb_false_iff in Hn as [Hn Hp]. destruct a as [|x a]; [|done]. apply Z.ltb_ge in Hp. unfold pending_recovery_count in Hp.
  destruct (socket_mode c) eqn:Es; split; try done; intros _.
  - inv_go G. destruct a0; [|by apply save_and_return_stops in G]. inv_go G. injection G as -> _.
    by eapply ledger_Go.
  - inv_go G. injection G as -> <-. unfold maybe_record_recovery_completed in G0. inv_go G0. injection G as <- <-.
    destruct (pending_of (w_state w)) as [|p ps] eqn:Ep; [constructor|].
    destruct ((pid <=? 1) || _); [injection G0 as _ <-; rewrite Ep in Hp; simpl in Hp; lia|].
    inv_go G0. destruct a0 as [done_ remaining]. inv_go G0.
    apply lift_Go in G as [Esp ->].
    injection G0 as _ <-. cbn in Hp. rewrite pending_put in Hp.
    assert (remaining = []) as -> by (apply last_n_nil; destruct (last_n 16 remaining); [done | simpl in Hp; lia]).
    by eapply split_pending_rest.
Qed.

Lemma restart_turn_clear pid o r events failures w : effects w = [] ->
  effects (snd (restart_turn c i pid o r events failures w)) <> [] ->
  (length (effects (snd (restart_turn c i pid o r events failures w))) <= 1)%nat /\ EFFECT_AUTHORITY_MODE c <> "SHADOW_ONLY" /\
  (forall e, e ∈ effects (snd (restart_turn c i pid o r events failures w)) -> effect_of (r_kind r) pid e) /\
  within_budget events (r_kind r) (first_ts r) 3600 (HOURLY_DOWNTIME_BUDGET_SEC c) /\
  within_budget events (r_kind r) (first_ts r) 86400 (DAILY_DOWNTIME_BUDGET_SEC c).
Proof.
  intros He Hb. unfold restart_turn in *.
  pass0 He Hb u1 w1 E1. pass0 He Hb u2 w2 E2. pass0 He Hb u3 w3 E3. pass0 He Hb gpu w4 E4. pass0 He Hb u5 w5 E5.
  pass0 He Hb scope w6 E6. pass0 He Hb d w7 E7. pass0 He Hb active w8 E8. pass0 He Hb u9 w9 E9.
  destruct active; cbn [negb] in *.
  2: { exfalso. eapply (no_effect_left _ _ He); [|exact Hb]. quiet. }
  destruct u1, u2. apply running_budget_Go in E1 as [w' E1], E2 as [w'' E2].
  split; [|split; [by eapply authority_Go | split; [intros e; by apply dispatch_effect | split]]].
  - destruct (one_dispatch c i pid o r events failures (new_recovery_action c i (r_kind r) (first_ts r) pid scope true) w9) as (l & -> & ?).
    by rewrite He.
  - intros ??. exact (budget_gate_Go _ _ _ _ _ _ _ E1 ltac:(done) ltac:(done)).
  - intros ??. exact (budget_gate_Go _ _ _ _ _ _ _ E2 ltac:(done) ltac:(done)).
Qed.

(** ** The reason stays in the state *)
Lemma started_ext s s' kind : kind <> "ffmpeg_missing" -> (forall k, k ∈ reason_keys -> dict_get k s' = dict_get k s) ->
  started s kind = started s' kind.
Proof.
  intros Hk He. unfold started. rewrite (proj2 (String.eqb_neq _ _) Hk).
  rewrite (dget_ext "active_reason_kind" s s'), (dget_ext "active_reason_first_ts" s s') by (apply He; gate). done.
Qed.

(** [m] leaves the keys alone, whatever it sends. *)
Definition keeps {A} (ks : list string) (m : M A) : Prop := forall w k, k ∈ ks ->
  dict_get k (w_state (snd (m w))) = dict_get k (w_state w).
Lemma keeps_frame {A} ks (m : M A) : frame ks m -> keeps ks m.
Proof. intros Hm w k Hk. by apply Hm. Qed.
Lemma keeps_then {A B} ks (m : M A) (k : A -> M B) : keeps ks m -> (forall a, keeps ks (k a)) -> keeps ks (mbind m k).
Proof.
  intros Hm Hk w x Hx. unfold mbind. specialize (Hm w x Hx). destruct (m w) as [[a| |] w1]; simpl in *; [|done|done].
  by rewrite (Hk a w1 x Hx).
Qed.
Lemma keeps_if {A} ks (b : bool) (m1 m2 : M A) : keeps ks m1 -> keeps ks m2 -> keeps ks (if b then m1 else m2).
Proof. by destruct b. Qed.
Lemma keeps_execute ks kind reason pid corr : keeps ks (execute_recovery_action_with_policy c i kind reason pid corr).
Proof.
  intros w k Hk. unfold execute_recovery_action_with_policy, execute_typed, restart_ffmpeg_child, restart_stream, observe, lift, mbind, mret, act.
  repeat (case_match; simplify_eq; simpl; try done).
Qed.
Lemma frame_reason_restarted events kind why : frame reason_keys (restarted c i events kind why).
Proof.
  unfold restarted. repeat frame_step. apply frame_modify. intros s k Hk. unfold clear_recovery_streaks. apply dict_get_update_ne.
  simpl. unfold reason_keys in Hk. rewrite !elem_of_cons, elem_of_nil in Hk. destruct Hk as [->|[->|[]]]; intuition discriminate.
Qed.
Lemma frame_reason_save {A} : frame reason_keys (@save_and_return i A).
Proof. eapply frame_weaken; [apply frame_save_and_return | set_solver]. Qed.
Lemma frame_reason_mark pid o why : frame reason_keys (mark_sample i pid o why).
Proof. eapply frame_weaken; [apply frame_mark | set_solver]. Qed.
Lemma frame_reason_pending action kind reason pid : frame reason_keys (modify (remember_pending_recovery i action kind reason pid)).
Proof.
  apply frame_modify. intros s k Hk. unfold remember_pending_recovery. apply dict_get_set_ne. set_solver.
Qed.
#[local] Hint Resolve frame_reason_restarted frame_reason_save frame_reason_mark frame_reason_pending : frame.
Lemma keeps_dispatch pid o r events failures action : keeps reason_keys (dispatch_and_record c i pid o r events failures action).
Proof.
  unfold dispatch_and_record, append_recovery_dispatch_result, append_event, record_unresolved_recovery_dispatch.
  apply keeps_then; [apply keeps_execute|]. intros [[[ok detail] scope] retry]. apply keeps_frame. repeat frame_step.
Qed.
Lemma keeps_restart_turn pid o r events failures : keeps reason_keys (restart_turn c i pid o r events failures).
Proof.
  assert (Hg : forall A (m : M A), frame gate_keys m -> keeps reason_keys m).
  { intros A m Hm. apply keeps_frame. eapply frame_weaken; [exact Hm | set_solver]. }
  unfold restart_turn. repeat first [apply keeps_dispatch | apply Hg; solve [repeat frame_step]
    | apply keeps_frame; solve [repeat frame_step] | apply keeps_then; [|intros] | apply keeps_if].
Qed.

Lemma running_turn_clear pid last scopes w : 1 < pid -> 1 <= NET_FAIL_CONFIRM c ->
  effects w = [] -> effects (snd (running_turn c i pid last scopes w)) <> [] ->
  (length (effects (snd (running_turn c i pid last scopes w))) <= 1)%nat /\ settled pid (w_state w) /\
  exists kind first, cleared (w_state w) last pid kind first /\
    current_reason (w_state (snd (running_turn c i pid last scopes w))) kind /\
    (forall e, e ∈ effects (snd (running_turn c i pid last scopes w)) -> effect_of kind pid e).
Proof.
  intros Hpid Hc He Hb. unfold running_turn in *.
  pass_with kept_keys ltac:(apply frame_observe_transport) He Hb o w1 E1 K1.
  destruct (observe_transport_Go _ _ _ _ _ E1) as [Hnet Hstreak].
  destruct (observe_evidence _ _ _ _ _ E1) as ((why & payload & Hread) & Hquiet & n & Hn & Hstall).
  pass He Hb u2 w2 E2 K2. pass He Hb u3 w3 E3 K3. pass He Hb u4 w4 E4 K4. destruct u4. apply network_gate_Go in E4.
  specialize (Hstreak E4). pass_with chosen_keys ltac:(apply frame_choose) He Hb r w5 E5 K5. pass He Hb u6 w6 E6 K6. destruct u6. pass He Hb failures w7 E7 K7.
  pass He Hb s w8 E8 K8. injection E8 as <- <-. pass He Hb events w9 E9 K9.
  injection E9 as E9 <-. destruct (trim c i (dget (w_state w7) _ _)) as [es|] eqn:Et; [|done]. injection E9 as ->.
  pass0 He Hb u10 w10 E10. destruct (String.eqb_spec (r_reason r) "") as [Hr|Hr]; cbn [negb] in *.
  { exfalso. eapply (no_effect_left _ _ He); [|exact Hb]. repeat first [solve [eauto with frame] | apply frame_nil; solve [eauto with frame] | apply frame_bind; [|intros]]. }
  destruct (restart_turn_clear _ _ _ _ _ _ He Hb) as (Hlen & Ha & Hsent & Hh & Hd).
  destruct (choose_reason_Go _ _ _ _ Hc ltac:(by rewrite K4, K3, K2 by gate) E5 Hr) as (Hfirst & Hreason & Hwhy).
  split; [done|]. split.
  { destruct u2. destruct (settle_effects_Go _ _ _ _ _ E2) as [Hs Hp]. split; [done|]. intros Hl. specialize (Hp Hl).
    unfold pending_of, dget in *. by rewrite K1 in Hp by gate. }
  exists (r_kind r), (first_ts r). split; [|split; [|done]].
  2: { unfold current_reason in *. rewrite <- Hreason. f_equal. apply dget_ext.
       rewrite keeps_restart_turn by gate. assert (K10 : dict_get "active_reason_kind" (w_state w10) = dict_get "active_reason_kind" (w_state w7)).
       { eapply (frame_Go reason_keys); [|exact E10|gate]. repeat frame_step. }
       by rewrite K10, K7, K6 by gate. }
  split; [| | | by rewrite <- Hnet | done | | |].
  - intros Hst Hwn. destruct Hwhy as [(Hk & Hp & Hle)|(Hk & n' & Hn' & Hle)]; rewrite Hk.
    + apply (cause_warning _ _ _ why payload Hpid Hp). destruct (o_warning o); [done|]. rewrite Hquiet in Hle by done. lia.
    + unfold dget in Hn'. rewrite K4, K3, K2, Hn in Hn' by gate. cbn in Hn'. injection Hn' as <-.
      destruct Hstall as [->|(m & before & Hm & Hs & Hbef & ->)]; [lia|]. by apply (cause_stall _ _ _ m before).
  - rewrite (proj2 (Z.leb_gt _ _) Hpid). destruct Hwhy as [[? _]|[? _]]; auto.
  - rewrite <- Hfirst. apply started_ext; [by destruct Hwhy as [[-> _]|[-> _]] | intros k Hk].
    unfold reason_keys in Hk. each Hk ltac:(by rewrite K4, K3, K2, K1 by gate).
  - by eapply guard_gate_Go.
  - destruct (backoff_gate_Go _ _ _ _ _ _ E7 Hr) as (f & Hf & ?). exists f. split; [|done]. rewrite <- Hf. symmetry. apply int0_ext.
    by rewrite K6, K5, K4, K3, K2, K1 by gate.
  - exists events. split; [|done]. rewrite <- Et. f_equal. symmetry. apply dget_ext.
    by rewrite K7, K6, K5, K4, K3, K2, K1 by gate.
Qed.

(** ** The whole turn *)
Lemma frame_k8s_pid ks : frame ks (get_k8s_stream_ffmpeg_pid c i).
Proof. unfold get_k8s_stream_ffmpeg_pid. apply frame_if; [|apply frame_mret]. repeat (apply frame_bind; [apply frame_lift|intros]). apply frame_mret. Qed.
Lemma frame_pid ks n : frame ks (get_stream_ffmpeg_pid c i n).
Proof. unfold get_stream_ffmpeg_pid. repeat first [apply frame_mret | apply frame_k8s_pid | apply frame_if]. Qed.
Lemma frame_uptime ks pid : frame ks (get_process_elapsed_sec c i pid).
Proof.
  unfold get_process_elapsed_sec. repeat first [apply frame_if | apply frame_bind; [apply frame_lift|intros] | apply frame_mret].
Qed.
Lemma uptime_Go pid w u w' : get_process_elapsed_sec c i pid w = (Go u, w') -> w' = w.
Proof.
  unfold get_process_elapsed_sec, observe, lift, mbind, mret. intros Hg.
  repeat match type of Hg with context [match ?x with _ => _ end] => destruct x end; try done; by injection Hg as _ <-.
Qed.
Lemma frame_warmup pid uptime : frame [] (warmup_turn c i pid uptime).
Proof.
  unfold warmup_turn. repeat first [solve [eauto with frame] | apply frame_nil; solve [eauto with frame]
    | apply frame_bind; [|intros] | apply frame_when | apply frame_if | cbv zeta].
Qed.

Lemma frame_ledger_past answer : frame past_keys (read_executor_unresolved_scopes c answer).
Proof.
  unfold read_executor_unresolved_scopes. destruct (negb (socket_mode c)); [apply frame_mret|].
  destruct (unresolved_effect_scopes answer); [|repeat frame_step].
  apply frame_bind; [|intros; apply frame_mret]. apply frame_modify_res. intros s s' k Hs Hk.
  unfold sync_pending_recovery_from_executor in Hs. inv_ok Hs. injection Hs as <-. apply dict_get_set_ne. set_solver.
Qed.

(** A recovery due by a state is due by one that agrees on the keys read, of which
    a running process does not read when ffmpeg went missing. *)
Lemma cleared_ext s s' last pid kind first : (forall k, k ∈ gate_keys -> dict_get k s' = dict_get k s) ->
  (forall k, k ∈ past_keys -> 1 < pid /\ k = "ffmpeg_missing_first_ts" \/ dict_get k s' = dict_get k s) ->
  cleared s' last pid kind first -> cleared s last pid kind first.
Proof.
  intros Hk Hp [Hca Hki Hst ? ? ? (f & Hf & ?) (events & Ht & ?)].
  assert (Hs : started s kind = started s' kind).
  { destruct (String.eqb_spec kind "ffmpeg_missing") as [->|Hne].
    - destruct (Z.leb_spec pid 1); [|by destruct Hki].
      destruct (Hp "ffmpeg_missing_first_ts" ltac:(gate)) as [[? _]|Hx]; [lia|]. unfold started. simpl.
      by rewrite (int0_ext _ s s').
    - apply started_ext; [done|]. intros k Hin. apply Hk. unfold reason_keys in Hin. each Hin gate. }
  split; try done.
  - intros K1 K2. destruct (Hca K1 K2) as [first' until Hle Hfi Hd Hun ?|why payload|m before Hlt Hm Hsl Hb Hn].
    + apply (cause_missing _ _ _ first' until); [done | by rewrite Hs | done | | done].
      rewrite <- Hun. symmetry. apply int0_ext. by destruct (Hp "ffmpeg_missing_success_backoff_until" ltac:(gate)) as [[_ ?]|].
    + by apply (cause_warning _ _ _ why payload).
    + apply (cause_stall _ _ _ m before); try done. rewrite <- Hb. unfold stalls_before.
      destruct (Hp "last_pid" ltac:(gate)) as [[_ ?]|K3]; [done|]. destruct (Hp "stall_streak" ltac:(gate)) as [[_ ?]|K4]; [done|].
      rewrite (dget_ext "last_pid" s s') by done. by rewrite (int0_ext "stall_streak" s s').
  - by rewrite Hs.
  - exists f. split; [|done]. rewrite <- Hf. symmetry. apply int0_ext, Hk. gate.
  - exists events. split; [|done]. rewrite <- Ht. f_equal. symmetry. apply dget_ext, Hk. gate.
Qed.

(** The turn found ffmpeg process [pid] (at most 1 when there is none). *)
Definition found_pid (pid : Z) : Prop := forall w, get_stream_ffmpeg_pid c i (get_main_pid (i_main_pid i)) w = (Go pid, w).
Lemma pid_Go n w pid w' : get_stream_ffmpeg_pid c i n w = (Go pid, w') ->
  w' = w /\ forall w2, get_stream_ffmpeg_pid c i n w2 = (Go pid, w2).
Proof.
  unfold get_stream_ffmpeg_pid, get_k8s_stream_ffmpeg_pid, observe, lift, mbind, mret.
  destruct (1 <? _); [by intros [= <- <-]|]. destruct (bool_decide _); [|by intros [= <- <-]].
  destruct (socket_mode c); [|by intros [= <- <-]].
  destruct (read_runtime_observation (i_obs i OPid)) as [o|]; [|done]. destruct (py_int _) as [p|]; [|done].
  intros [= <- <-]. split; [done|]. intros w2. reflexivity.
Qed.

(** Nothing is in flight when the turn finds process [pid]: the ledger's answer is
    empty (the last one, when the process runs); without an executor no recovery
    is pending at all, or none that was requested for this very process. *)
Definition nothing_in_flight (pid : Z) (s : dict) : Prop :=
  (socket_mode c = true -> ledger_empty (if pid <=? 1 then i_unresolved i else i_unresolved_again i)) /\
  (socket_mode c = false -> if pid <=? 1 then pending_of s = []
     else Forall (fun item => still_running pid item = Ok false) (pending_of s)).

Lemma main_body_clear w : 1 <= NET_FAIL_CONFIRM c ->
  effects w = [] -> effects (snd (main_body c i w)) <> [] ->
  (length (effects (snd (main_body c i w))) <= 1)%nat /\
  exists pid last kind first, found_pid pid /\ int0 (w_state w) "last_restart_ts" = Ok last /\
    cleared (w_state w) last pid kind first /\ nothing_in_flight pid (w_state w) /\
    (1 < pid -> current_reason (w_state (snd (main_body c i w))) kind) /\
    forall e, e ∈ effects (snd (main_body c i w)) -> effect_of kind pid e.
Proof.
  intros Hc He Hb. unfold main_body in *. pass He Hb s w1 E1 K1. injection E1 as <- <-.
  pass He Hb restarted_at w2 E2 K2. apply lift_Go in E2 as [Hl ->].
  assert (Hun := frame_ledger_past (i_unresolved i) w). apply proj2 in Hun.
  pass He Hb scopes w3 E3 K3. rewrite E3 in Hun. cbn [snd] in Hun.
  destruct scopes as [scopes|]; [|exfalso; by eapply (no_effect_left _ _ He (frame_nil_save i))].
  destruct (ledger_Go _ _ _ _ E3) as [Hled Hleg].
  pass_with obs_keys ltac:(apply frame_pid) He Hb pid w4 E4 K4. apply pid_Go in E4 as [-> Hpid].
  pass_with obs_keys ltac:(apply frame_uptime) He Hb uptime w5 E5 K5. apply uptime_Go in E5 as ->.
  pass He Hb s w6 E6 K6. injection E6 as <- <-.
  assert (Hpend : socket_mode c = false -> pending_of (w_state w3) = pending_of (w_state w)).
  { intros Hs. by destruct (Hleg Hs) as [-> _]. }
  destruct (Z.leb_spec pid 1) as [Hle|Hlt].
  - destruct (match scopes with [] => false | _ => true end || (0 <? pending_recovery_count (w_state w3))) eqn:Ep.
    { exfalso. eapply (no_effect_left _ _ He); [|exact Hb]. quiet. }
    apply orb_false_iff in Ep as [Hn Hp]. destruct scopes; [|done]. apply Z.ltb_ge in Hp.
    destruct (missing_turn_clear pid _ _ Hle He Hb) as (Hlen & Hsent & first & Hcl). split; [done|].
    exists pid, restarted_at, "ffmpeg_missing", first. split_and!; [done..| | | lia | done].
    + eapply cleared_ext; [exact K3 | intros k Hk; right; by apply Hun | done].
    + unfold nothing_in_flight. rewrite (proj2 (Z.leb_le _ _) Hle). split; [intros Hs; by apply Hled | intros Hs]. rewrite <- Hpend by done.
      unfold pending_recovery_count in Hp. destruct (pending_of (w_state w3)); [done | simpl in Hp; lia].
  - pass_with ("ffmpeg_missing_success_backoff_until" :: "last_pid" :: "stall_streak" :: obs_keys) ltac:(apply frame_set_keys; off) He Hb u w7 E7 K7.
    destruct (uptime <? MIN_FFMPEG_UPTIME_SEC c).
    { exfalso. eapply (no_effect_left _ _ He); [|exact Hb]. apply frame_warmup. }
    destruct (running_turn_clear _ _ _ _ Hlt Hc He Hb) as (Hlen & [Hs Hp] & kind & first & Hcl & Hre & Hsent). split; [done|].
    exists pid, restarted_at, kind, first. split_and!; [done..| | | done | done].
    + eapply cleared_ext; [ | | exact Hcl].
      * intros k Hk. rewrite <- K3 by done. apply K7. unfold gate_keys in Hk. each Hk gate.
      * intros k Hk. rewrite <- Hun by done. unfold past_keys in Hk. each Hk ltac:(first [by left | right; apply K7; gate]).
    + unfold nothing_in_flight. rewrite (proj2 (Z.leb_gt _ _) Hlt). split; [done|]. intros Hm. specialize (Hp Hm). rewrite <- Hpend by done.
      unfold pending_of, dget in *. by rewrite K7 in Hp by gate.
Qed.

(** C2: one turn sends at most one recovery effect, and only when the recovery of
    the kind the effect belongs to is due: ffmpeg missing for long enough, a remote
    warning read by this turn, or a socket stalling now after enough stalled samples
    of the same process, that kind being the active reason of the state the turn
    leaves; with the network up; under a mode with effect authority; outside the
    restart guard and the failure backoff of the loaded state; within the hourly and
    daily downtime budgets, unless the emergency override holds for that kind and
    the start of its episode in the loaded state; and with no earlier effect
    unresolved, and none pending (none requested for the process the turn found,
    when it runs).  The confirmation counts are at least 1, as [load_config] clamps
    them; the cause is stated for such counts of stalls and warnings. *)
Theorem effect_needs_clearance f w e (Hc : 1 <= NET_FAIL_CONFIRM c) (Hm : main c i = (f, w)) (He : e ∈ effects w) :
  effects w = [e] /\
  exists s pid last kind first, load_state c i (i_state_file i) = Ok s /\ found_pid pid /\ int0 s "last_restart_ts" = Ok last /\
    effect_of kind pid e /\ (1 < pid -> current_reason (w_state w) kind) /\
    cleared s last pid kind first /\ nothing_in_flight pid s.
Proof.
  unfold main in Hm. destruct (let! _ := _ in load_state c i (i_state_file i)) as [s|] eqn:El.
  2: { injection Hm as _ <-. by apply elem_of_nil in He. }
  inv_ok El. destruct (main_body_clear (World s [] None) Hc eq_refl) as (Hlen & pid & last & kind & first & Hp & Hl & Hcl & Hn & Hre & Hsent).
  { rewrite Hm. intros Hz. cbn [snd] in Hz. rewrite Hz in He. by apply elem_of_nil in He. }
  rewrite Hm in Hlen, Hre, Hsent. cbn [snd] in *. split.
  - destruct (effects w) as [|e1 [|? ?]]; [by apply elem_of_nil in He | | simpl in Hlen; lia].
    apply list_elem_of_singleton in He as ->. done.
  - exists s, pid, last, kind, first. split_and!; try done. by apply Hsent.
Qed.

(** A turn with an effect started outside the guard and the backoff. *)
Lemma effect_guarded f w : 1 <= NET_FAIL_CONFIRM c ->
  main c i = (f, w) -> effects w <> [] ->
  exists s last failure, load_state c i (i_state_file i) = Ok s /\ int0 s "last_restart_ts" = Ok last /\
    RESTART_GUARD_SEC c <= i_now i - last /\ int0 s "last_restart_failure_ts" = Ok failure /\
    restart_failure_backoff_left (i_now i) failure (RESTART_FAILURE_BACKOFF_SEC c) <= 0.
Proof.
  intros Hc Hm He. unfold main in Hm. destruct (let! _ := _ in load_state c i (i_state_file i)) as [s|] eqn:El.
  2: { by injection Hm as _ <-. }
  inv_ok El. destruct (main_body_clear (World s [] None) Hc eq_refl) as (_ & pid & last & kind & first & _ & Hl & [? ? ? ? ? Hg (x & ? & ?) _] & _).
  { by rewrite Hm. }
  by exists s, last, x.
Qed.
End Clearance.

(** ** Effects are recorded and paced *)
Section Recorded.
Context `{Repr} `{IsoSeconds} `{IsoMicros} `{TextDigest} `{IsoEpoch} `{IsoText} `{JsonSha}.
Variables (c : config) (i : inputs).
#[local] Hint Resolve frame_typed frame_budget_gate frame_gpu frame_established frame_scope frame_authority
  frame_result frame_settle frame_sample frame_network_gate frame_send_sample frame_warning_streak frame_mark
  frame_reason frame_save_and_return frame_ledger frame_event frame_wait frame_clear frame_observe frame_reset
  frame_choose frame_guard frame_backoff frame_missing_budget frame_running_budget frame_missing_network : frame.

(** The state stamps this turn as one of a restart, or of a failed restart. *)
Definition stamped (s : dict) : Prop :=
  dict_get "last_restart_ts" s = Some (VInt (i_now i)) \/ dict_get "last_restart_failure_ts" s = Some (VInt (i_now i)).

(** The turn ends with a stamped saved state, or with the exception of the
    supervisor or of the write of the state file. *)
Definition ends (r : flow unit * world) : Prop :=
  (fst r = Return /\ exists s, w_saved (snd r) = Some s /\ stamped s) \/
  exists e, fst r = Raise e /\ (i_supervisor i = Err e \/ i_save i = Some e).

(** The turn's effect is followed by such an end. *)
Definition recorded (m : M unit) : Prop := forall w,
  is_ok (int0 (w_state w) "restart_failure_count") = true -> effects w = [] -> effects (snd (m w)) <> [] ->
  ends (m w).

Definition count_key : list string := ["restart_failure_count"].
Lemma recorded_frame ks (m : M unit) : frame ks m -> recorded m.
Proof. intros Hm w _ He Hb. exfalso. apply Hb. by rewrite (proj1 (Hm w)). Qed.
Lemma recorded_bind {A} ks (m : M A) (k : A -> M unit) : "restart_failure_count" ∈ ks -> frame ks m -> (forall a, recorded (k a)) ->
  recorded (mbind m k).
Proof.
  intros Hin Hm Hk w Hc He Hb. destruct (frame_through ks m k w Hm He Hb) as (a & w1 & _ & He1 & Hs & Eb).
  rewrite Eb in *. apply Hk; [|done|done]. by rewrite (int0_ext _ _ _ (Hs _ Hin)).
Qed.
Lemma recorded_if (b : bool) (m1 m2 : M unit) : recorded m1 -> recorded m2 -> recorded (if b then m1 else m2).
Proof. by destruct b. Qed.

Lemma trim_item_event e now cost : exists o, trim_item (event_py e) now cost = Ok o.
Proof.
  unfold trim_item, event_py, int_like, int0, dget. cbn. destruct (py_int (py_or (VInt (re_ts e)) (VInt 0))) eqn:E.
  - cbn. destruct (py_int (py_or (VInt (re_downtime e)) (VInt cost))) eqn:E2; [cbn; eauto|].
    unfold py_or in E2. by destruct (truthy _).
  - unfold py_or in E. by destruct (truthy _).
Qed.
Lemma trim_items_total es now cost : exists l, trim_items (map event_py es) now cost = Ok l.
Proof.
  induction es as [|e es [l IH]]; simpl; [eauto|]. destruct (trim_item_event e now cost) as [o ->]. cbn. rewrite IH. cbn. eauto.
Qed.
Lemma add_restart_event_total events kind : exists v, add_restart_event c i events kind = Ok v.
Proof.
  unfold add_restart_event, trim, trim_restart_events.
  change (new_event c i kind) with (event_py (RestartEvent (i_now i) (RESTART_DOWNTIME_COST_SEC c) kind)).
  assert (E : map event_py events ++ [event_py (RestartEvent (i_now i) (RESTART_DOWNTIME_COST_SEC c) kind)]
            = map event_py (events ++ [RestartEvent (i_now i) (RESTART_DOWNTIME_COST_SEC c) kind])) by by rewrite map_app.
  rewrite E. destruct (trim_items_total (events ++ [RestartEvent (i_now i) (RESTART_DOWNTIME_COST_SEC c) kind]) (i_now i)
                         (RESTART_DOWNTIME_COST_SEC c)) as [l ->]. cbn. eauto.
Qed.

(** The effect itself: it raises only before anything was sent or when the
    supervisor raises, and it leaves the state alone. *)
Lemma execute_outcome kind reason pid corr w :
  let r := execute_recovery_action_with_policy c i kind reason pid corr w in
  w_state (snd r) = w_state w /\ ((exists x, fst r = Go x) \/ effects (snd r) = effects w \/ exists e, fst r = Raise e /\ i_supervisor i = Err e).
Proof.
  unfold execute_recovery_action_with_policy, execute_typed, restart_ffmpeg_child, restart_stream, observe, lift, mbind, mret, act.
  cbv zeta. repeat (case_match; simplify_eq; simpl; eauto 8).
Qed.

(** Straight-line runs: [m] continues, taking states in [P] to states in [Q]; [m]
    returns, having saved a stamped state. *)
Definition steps {A} (m : M A) (P Q : dict -> Prop) : Prop := forall w, P (w_state w) ->
  exists a w1, m w = (Go a, w1) /\ Q (w_state w1).
Definition finishes (m : M unit) (P : dict -> Prop) : Prop := forall w, P (w_state w) -> ends (m w).
Definition any : dict -> Prop := fun _ => True.
Definition has (k : string) (s : dict) : Prop := dict_get k s = Some (VInt (i_now i)).

Lemma finishes_bind {A} (m : M A) (k : A -> M unit) P Q : steps m P Q -> (forall a, finishes (k a) Q) -> finishes (mbind m k) P.
Proof. intros Hm Hk w Hp. unfold mbind. destruct (Hm w Hp) as (a & w1 & -> & Hq). by apply Hk. Qed.
Lemma steps_bind {A B} (m : M A) (k : A -> M B) P Q R : steps m P Q -> (forall a, steps (k a) Q R) -> steps (mbind m k) P R.
Proof. intros Hm Hk w Hp. unfold mbind. destruct (Hm w Hp) as (a & w1 & -> & Hq). by apply Hk. Qed.
Lemma steps_get P : steps get_state P P.
Proof. intros w Hp. do 2 eexists. by split. Qed.
Lemma steps_act a P : steps (act a) P P.
Proof. intros w Hp. do 2 eexists. by split. Qed.
Lemma steps_mret {A} (a : A) P : steps (mret a) P P.
Proof. intros w Hp. do 2 eexists. by split. Qed.
Lemma steps_lift {A} (r : res A) P : is_ok r = true -> steps (lift r) P P.
Proof. intros Hr w Hp. destruct r; [|done]. do 2 eexists. by split. Qed.
Lemma steps_modify f P Q : (forall s, P s -> Q (f s)) -> steps (modify f) P Q.
Proof. intros Hf w Hp. do 2 eexists. split; [reflexivity|]. by apply Hf. Qed.
Lemma steps_set kvs k P : In (k, VInt (i_now i)) kvs -> NoDup (map fst kvs) -> steps (set_keys kvs) P (has k).
Proof.
  intros Hin Hnd. apply steps_modify. intros s _. unfold has, dict_update. revert s.
  induction kvs as [|[k' v'] kvs IH]; intros s; [done|]. simpl in *. apply NoDup_cons in Hnd as [Hni Hnd].
  destruct Hin as [[= -> ->]|Hin]; [|by apply IH].
  assert (E := dict_get_update_ne k (dict_set k (VInt (i_now i)) s) kvs). unfold dict_update in E. rewrite E, dict_get_set_eq; [done|].
  intros Hx. by apply Hni, list_elem_of_In.
Qed.
Lemma steps_keep kvs k : ~ In k (map fst kvs) -> steps (set_keys kvs) (has k) (has k).
Proof. intros Hn. apply steps_modify. intros s Hs. unfold has. by rewrite dict_get_update_ne. Qed.
Lemma finishes_save k : k = "last_restart_ts" \/ k = "last_restart_failure_ts" -> finishes (save_and_return i) (has k).
Proof.
  intros Hk w Hp. unfold save_and_return, save_state, mbind. destruct (i_save i) as [e|] eqn:Es; [right; by exists e; auto|].
  left. split; [done|]. eexists. split; [reflexivity|]. unfold stamped, has in *.
  destruct Hk as [-> | ->]; [left | right]; by rewrite dict_get_set_ne by discriminate.
Qed.

Lemma add_restart_event_ok events kind : is_ok (add_restart_event c i events kind) = true.
Proof. by destruct (add_restart_event_total events kind) as [v ->]. Qed.
Lemma steps_restarted events kind why : steps (restarted c i events kind why) any (has "last_restart_ts").
Proof.
  unfold restarted. eapply steps_bind; [apply steps_lift, add_restart_event_ok|]. intros es.
  eapply steps_bind; [apply (steps_set _ "last_restart_ts"); [right; by left | repeat (constructor; [set_solver|]); constructor]|]. intros _.
  eapply steps_bind; [apply (steps_keep _ "last_restart_ts"); simpl; intuition discriminate|]. intros _.
  apply steps_keep. simpl. intuition discriminate.
Qed.
Lemma steps_unresolved action kind reason pid detail events :
  steps (record_unresolved_recovery_dispatch c i action kind reason pid detail events) any (has "last_restart_ts").
Proof.
  unfold record_unresolved_recovery_dispatch. eapply steps_bind; [by apply (steps_modify _ any any)|]. intros _.
  eapply steps_bind; [apply steps_lift, add_restart_event_ok|]. intros es.
  apply steps_set; [right; by left | repeat (constructor; [set_solver|]); constructor].
Qed.
Lemma steps_mark pid o why k : k = "last_restart_ts" \/ k = "last_restart_failure_ts" -> steps (mark_sample i pid o why) (has k) (has k).
Proof.
  intros Hk. unfold mark_sample, mark_latest_transport_sample. apply steps_modify. intros s Hs. unfold has in *.
  rewrite dict_get_update_ne; [done|]. destruct why; simpl; destruct Hk as [-> | ->]; intuition discriminate.
Qed.

(** The steps after an effect: record it, then save. *)
Ltac line := eapply finishes_bind; [|intros ?].
Lemma dispatch_recorded pid o r events failures action : recorded (dispatch_and_record c i pid o r events failures action).
Proof.
  intros w Hc He Hb. unfold dispatch_and_record in *.
  destruct (execute_outcome (r_kind r) (r_reason r) pid (str0 action "recovery_action_id") w) as [_ Hx].
  unfold mbind at 1 in Hb. unfold mbind at 1.
  destruct (execute_recovery_action_with_policy _ _ _ _ _ _ w) as [[x| |e] w1];
    [|destruct Hx as [[? [=]]|[Hx|(e' & [=] & Hx)]]; cbn [fst snd] in *; first [congruence | right; naive_solver]..]. clear Hx Hb.
  destruct x as [[[ok detail] scope] retry].
  match goal with |- ends (?m w1) => enough (Hf : finishes m any) by exact (Hf w1 I) end.
  line; [apply steps_act|]. destruct ok; [|destruct (bool_decide (retry = Some false))].
  - line; [by apply (steps_modify _ any any)|]. line; [apply steps_restarted|].
    line; [apply (steps_keep _ "last_restart_ts"); simpl; intuition discriminate|]. line; [apply steps_act|].
    apply finishes_save. by left.
  - line; [apply steps_unresolved|]. line; [apply steps_mark; by left|]. apply finishes_save. by left.
  - line; [apply (steps_set _ "last_restart_failure_ts"); [by left | repeat (constructor; [set_solver|]); constructor]|].
    line; [apply steps_mark; by right|]. line; [apply steps_act|]. apply finishes_save. by right.
Qed.

Lemma missing_record_finishes reason events r : finishes (missing_record c i reason events r)
  (fun s => is_ok (int0 s "restart_failure_count") = true).
Proof.
  destruct r as [[action active] [[[ok detail] scope] retry]]. unfold missing_record.
  destruct ok; [|destruct (bool_decide (retry = Some false))].
  - eapply finishes_bind; [|intros _; apply (finishes_save "last_restart_ts"); by left].
    eapply (steps_bind _ _ _ any); [destruct active; [by apply steps_modify | intros w ?; by do 2 eexists]|]. intros _.
    eapply steps_bind; [apply steps_lift, add_restart_event_ok|]. intros es.
    apply steps_set; [right; by left | repeat (constructor; [set_solver|]); constructor].
  - eapply finishes_bind; [|intros _; apply (finishes_save "last_restart_ts"); by left].
    intros w _. by apply steps_unresolved.
  - eapply finishes_bind; [|intros _; apply (finishes_save "last_restart_failure_ts"); by right].
    intros w Hc. unfold mbind, get_state. cbn [fst]. destruct (int0 (w_state w) "restart_failure_count") as [n|]; [|done].
    apply (steps_set _ "last_restart_failure_ts" any); [by left | repeat (constructor; [set_solver|]); constructor | done].
Qed.

(** A block whose frame is known, before a recorded rest. *)
Ltac block := eapply (recorded_bind gate_keys); [gate | solve [repeat frame_step] | intros ?].
Ltac block_with ks := eapply (recorded_bind ks); [gate | | intros ?].

Lemma missing_recorded reason first events :
  recorded (mbind (missing_dispatch c i reason first) (fun r => missing_record c i reason events r)).
Proof.
  intros w Hc He Hb. unfold missing_dispatch in *. rewrite bind_assoc in *.
  revert w Hc He Hb. block. intros w Hc He Hb. rewrite bind_assoc in *. revert w Hc He Hb. block. intros w Hc He Hb.
  rewrite bind_assoc in *. revert w Hc He Hb. block. intros w Hc He Hb. rewrite bind_assoc in *.
  destruct a0; cbn [negb] in *.
  2: { exfalso. eapply (no_effect_left _ _ He); [|exact Hb].
       repeat first [apply frame_mret | apply frame_event | apply frame_nil_result | apply frame_nil_missing_record | apply frame_bind; [|intros] | case_match]. }
  match type of Hb with effects (snd (mbind (execute_recovery_action_with_policy _ _ ?k ?r ?p ?co) _ _)) <> [] =>
    destruct (execute_outcome k r p co w) as [Hst Hx]; unfold mbind at 1 in Hb; unfold mbind at 1;
    destruct (execute_recovery_action_with_policy c i k r p co w) as [[x| |e] w1];
      [|destruct Hx as [[? [=]]|[Hx|(e' & [=] & Hx)]]; cbn [fst snd] in *; first [congruence | right; naive_solver]..] end.
  cbn [snd] in Hst. rewrite <- Hst in Hc. clear Hx Hb Hst He.
  destruct x as [[[ok detail] scope] retry].
  match goal with |- ends (?m w1) =>
    enough (Hf : finishes m (fun s => is_ok (int0 s "restart_failure_count") = true)) by exact (Hf w1 Hc) end.
  intros w2 Hc2. rewrite bind_assoc. revert w2 Hc2. change (finishes (mbind (append_recovery_dispatch_result scope reason ok retry)
    (fun _ => mbind (mbind (append_event (if ok then "restart" else "restart_failed") reason)
       (fun _ => mret (new_recovery_action c i "ffmpeg_missing" first 0 a true, true, (ok, detail, scope, retry))))
       (fun r => missing_record c i reason events r))) (fun s => is_ok (int0 s "restart_failure_count") = true)).
  line; [apply steps_act|]. eapply finishes_bind; [eapply steps_bind; [apply steps_act|]; intros ?; apply steps_mret|].
  intros r. apply missing_record_finishes.
Qed.

Lemma missing_turn_recorded last : recorded (ffmpeg_missing_turn c i last).
Proof.
  unfold ffmpeg_missing_turn. block. block. block. block. block. block.
  apply recorded_if.
  - unfold missing_restart. block. block. block_with count_key; [apply frame_set_keys; repeat (constructor; [fresh_key|]); constructor|].
    block. block. block. block. block. block. block. block. apply missing_recorded.
  - apply (recorded_frame []). repeat first [solve [eauto with frame] | apply frame_nil; solve [eauto with frame] | apply frame_nil_set
      | apply frame_nil_save | apply frame_bind; [|intros] | apply frame_when].
Qed.

Lemma restart_turn_recorded pid o r events failures : recorded (restart_turn c i pid o r events failures).
Proof.
  unfold restart_turn. block. block. block. block. block. block. block. block. block. apply recorded_if.
  - apply (recorded_frame []). repeat first [apply frame_nil_restarted | apply frame_nil_event | apply frame_nil_save | apply frame_bind; [|intros]].
  - apply dispatch_recorded.
Qed.
Lemma running_turn_recorded pid last scopes : recorded (running_turn c i pid last scopes).
Proof.
  unfold running_turn. block_with kept_keys; [apply frame_observe_transport|].
  block. block. block. block_with chosen_keys; [apply frame_choose|]. block. block. block. block.
  block_with count_key; [apply frame_set_keys; repeat (constructor; [fresh_key|]); constructor|].
  apply recorded_if; [apply restart_turn_recorded|]. apply (recorded_frame gate_keys).
  repeat first [solve [eauto with frame] | apply frame_bind; [|intros]].
Qed.

Lemma main_body_recorded : recorded (main_body c i).
Proof.
  unfold main_body. block. block. block. destruct a1 as [scopes|]; [|apply (recorded_frame gate_keys); apply frame_save_and_return].
  block_with obs_keys; [apply frame_pid|]. block_with obs_keys; [apply frame_uptime|]. block. apply recorded_if.
  - apply recorded_if; [|apply missing_turn_recorded]. apply (recorded_frame []).
    repeat first [apply frame_nil_set | apply frame_nil_save | apply frame_bind; [|intros]].
  - block_with obs_keys; [apply frame_set_keys; off|]. apply recorded_if; [|apply running_turn_recorded].
    apply (recorded_frame []), frame_warmup.
Qed.
End Recorded.

Section Paced.
Context `{Repr} `{IsoSeconds} `{IsoMicros} `{TextDigest} `{IsoEpoch} `{IsoText} `{JsonSha}.

Lemma dict_get_update_in {A} k (v : A) kvs d : NoDup (map fst kvs) -> dict_get k kvs = Some v ->
  dict_get k (dict_update d kvs) = Some v.
Proof.
  unfold dict_update. revert d. induction kvs as [|[k' v'] kvs IH]; intros d Hnd Hk; [done|].
  simpl in *. apply NoDup_cons in Hnd as [Hni Hnd]. destruct (String.eqb_spec k k') as [<-|Hne]; [|by apply IH].
  injection Hk as ->. assert (E := dict_get_update_ne k (dict_set k v d) kvs). unfold dict_update in E.
  rewrite E, dict_get_set_eq; [done|]. intros Hx. by apply Hni, list_elem_of_In.
Qed.
Lemma load_state_keeps c i s s0 k z : NoDup (map fst s) -> k ∉ ["restart_events"; "samples"] ->
  dict_get k s = Some (VInt z) -> load_state c i (Some (VDict s)) = Ok s0 -> int0 s0 k = Ok z.
Proof.
  intros Hnd Hne Hk Hl. unfold load_state in Hl. inv_ok Hl. injection Hl as <-.
  apply RemoteWarningProperties.int0_VInt. rewrite !dict_get_set_ne by set_solver. by apply dict_get_update_in.
Qed.

(** C4: a turn that sends an effect returns normally and saves a state from which
    no turn sends another effect until the shorter of the restart guard and the
    failure backoff has passed, whatever that turn observes; only the supervisor
    or the write of the state file can make it raise instead. *)
Theorem effects_are_paced c i f w (Hc : 1 <= NET_FAIL_CONFIRM c) (Hm : main c i = (f, w)) (He : effects w <> [])
  (Hcount : forall s, load_state c i (i_state_file i) = Ok s -> is_ok (int0 s "restart_failure_count") = true) :
  (exists e, f = Raise e /\ (i_supervisor i = Err e \/ i_save i = Some e)) \/
  f = Return /\ exists s, w_saved w = Some s /\
    forall i', i_state_file i' = Some (VDict s) -> NoDup (map fst s) -> 0 < i_now i -> 0 < RESTART_FAILURE_BACKOFF_SEC c ->
      i_now i' < i_now i + Z.min (RESTART_GUARD_SEC c) (RESTART_FAILURE_BACKOFF_SEC c) ->
      effects (snd (main c i')) = [].
Proof.
  unfold main in Hm. destruct (let! _ := _ in load_state c i (i_state_file i)) as [s|] eqn:El; [|by injection Hm as _ <-].
  inv_ok El. assert (Hr := main_body_recorded c i (World s [] None)). rewrite Hm in Hr.
  destruct (Hr (Hcount s El) eq_refl He) as [[Hf (s' & Hs & Hst)]|Hx]; [right|by left]. cbn [fst snd] in *. split; [done|].
  exists s'. split; [done|].
  intros i' Hi Hnd Hpos Hb Ht. destruct (effects (snd (main c i'))) as [|e es] eqn:Ee; [done|]. exfalso.
  destruct (main c i') as [f' w2] eqn:Em. cbn [snd] in Ee.
  destruct (effect_guarded c i' f' w2 Hc Em ltac:(by rewrite Ee)) as (s0 & last & x & Hl & Hlast & Hguard & Hx & Hback).
  rewrite Hi in Hl. destruct Hst as [Hst|Hst].
  - rewrite (load_state_keeps c i' s' s0 "last_restart_ts" (i_now i) Hnd ltac:(set_solver) Hst Hl) in Hlast. injection Hlast as <-. lia.
  - rewrite (load_state_keeps c i' s' s0 "last_restart_failure_ts" (i_now i) Hnd ltac:(set_solver) Hst Hl) in Hx. injection Hx as <-.
    unfold restart_failure_backoff_left in Hback. rewrite (proj2 (Z.leb_gt _ _) Hpos), (proj2 (Z.leb_gt _ _) Hb) in Hback. cbn in Hback.
    destruct (Z.ltb_spec 0 (i_now i + RESTART_FAILURE_BACKOFF_SEC c - i_now i')); lia.
Qed.
End Paced.

(** The configuration read from the environment is clamped as the theorems need. *)
Lemma load_config_bounds `{FloatText} e : let c := load_config e in
  1 <= NET_FAIL_CONFIRM c /\ 1 <= STALL_CONFIRM c /\ 1 <= REMOTE_WARNING_CONFIRM c /\ 1 <= RESTART_GUARD_SEC c /\
  1 <= RESTART_FAILURE_BACKOFF_SEC c /\ 1 <= RESTART_DOWNTIME_COST_SEC c /\ 120 <= SAMPLES_MAX c /\ RTMP_PORTS c <> [].
Proof. cbn -[Z.max int_env env split_comma]. split_and!; try lia. by case_match. Qed.

(** The emergency override of a missing ffmpeg (lines 1545-1558) can never hold. *)
Lemma missing_override_never first now sec : emergency_budget_override_active "ffmpeg_missing" first now sec = false.
Proof. unfold emergency_budget_override_active. by destruct (sec <=? 0). Qed.

(** ** A concrete turn: a confirmed stall restarts the child *)
Module StallTurn.
#[local] Existing Instance FastPolicyProperties.no_repr.
#[local] Instance ex_seconds : IsoSeconds := fun _ => 0.
#[local] Instance ex_micros : IsoMicros := fun _ => None.
#[local] Instance ex_digest : TextDigest := fun s => s.
#[local] Instance ex_epoch : IsoEpoch := fun _ => Err (EValue "").
#[local] Instance ex_text : IsoText := fun _ => "".
#[local] Instance ex_sha : JsonSha := fun _ => "".
#[local] Instance ex_float : FloatText := fun _ => None.
Definition ex_env : getenv := fun name => dict_get name [("STREAM_RUNTIME_SUPERVISOR", "k8s"); ("FR_GPU_PREFLIGHT_ENABLED", "0")].
Definition ex_config : config := load_config ex_env.
Definition ok (s : string) : completed := Completed 0 s.
Definition no_file : file_reading := FileReading None 0.
Definition ex_state : dict :=
  [("last_pid", VInt 77); ("stall_streak", VInt 1); ("last_bytes_sent", VInt 900); ("last_bytes_sent_ts", VInt 990);
   ("restart_events", VList [VInt 500])].
Definition ex_ss : string := "State
ESTAB 0 42 10.0.0.2:4000 1.2.3.4:1935 users:((ffmpeg,pid=77,fd=3))
 cubic rto:204 bytes_sent:900 bytes_acked:1 unacked:70 notsent:9000 lastsnd:9000".
Definition ex_inputs : inputs := Inputs (Some (VDict ex_state)) 1000 (fun _ => 1000) (fun _ => no_file) (Err EType) (Err EType)
  (ok "0") (ok "") (ok "77 ffmpeg -f x11grab rtmp://a") (ok " 600") (ok ex_ss) (ok "default via 10.0.0.1 dev eth0") true (fun _ => true)
  (ok "1.2.3.4 STREAM") (fun _ => true) None None 0 [] [] "0123456789abcdef" "u" 0 (fun _ => Err EType) (fun _ => Err EType) 0
  (Killed false) (Ok (false, "")) None.
Definition ex_world : world := snd (main ex_config ex_inputs).
Lemma effect_needs_clearance_witness :
  1 <= NET_FAIL_CONFIRM ex_config /\ main ex_config ex_inputs = (Return, ex_world) /\ SignalChild 77 ∈ effects ex_world /\
  effects ex_world = [SignalChild 77] /\
  exists s pid last kind first, load_state ex_config ex_inputs (Some (VDict ex_state)) = Ok s /\ found_pid ex_config ex_inputs pid /\
    int0 s "last_restart_ts" = Ok last /\ effect_of ex_config ex_inputs kind pid (SignalChild 77) /\
    (1 < pid -> current_reason (w_state ex_world) kind) /\
    cleared ex_config ex_inputs s last pid kind first /\ nothing_in_flight ex_config ex_inputs pid s.
Proof.
  assert (Hc : 1 <= NET_FAIL_CONFIRM ex_config) by (vm_compute; discriminate).
  assert (Hm : main ex_config ex_inputs = (Return, ex_world)) by (vm_compute; reflexivity).
  assert (He : SignalChild 77 ∈ effects ex_world) by (vm_compute; left).
  split; [exact Hc|]. split; [exact Hm|]. split; [exact He|].
  exact (effect_needs_clearance ex_config ex_inputs _ _ _ Hc Hm He).
Defined.
Definition ex_saved : dict := default [] (w_saved ex_world).
Lemma effects_are_paced_witness :
  exists s, w_saved ex_world = Some s /\ NoDup (map fst s) /\
    forall i', i_state_file i' = Some (VDict s) -> i_now i' < 1005 -> effects (snd (main ex_config i')) = [].
Proof.
  assert (Hc : 1 <= NET_FAIL_CONFIRM ex_config) by (vm_compute; discriminate).
  assert (Hm : main ex_config ex_inputs = (Return, ex_world)) by (vm_compute; reflexivity).
  assert (He : effects ex_world <> []) by (vm_compute; discriminate).
  assert (Hn : NoDup (map fst ex_saved)) by (apply (bool_decide_unpack (NoDup (map fst ex_saved))); vm_compute; exact I).
  assert (Hcount : forall s, load_state ex_config ex_inputs (i_state_file ex_inputs) = Ok s ->
    is_ok (int0 s "restart_failure_count") = true) by (vm_compute; intros s [= <-]; reflexivity).
  destruct (effects_are_paced ex_config ex_inputs Return ex_world Hc Hm He Hcount) as [(e & [=] & _)|(_ & s & Hs & Hp)].
  assert (E : s = ex_saved) by (unfold ex_saved; rewrite Hs; reflexivity).
  exists s. split; [exact Hs|]. split; [rewrite E; exact Hn|]. intros i' Hf Ht. apply Hp; [exact Hf | rewrite E; exact Hn | reflexivity | reflexivity | exact Ht].
Defined.
End StallTurn.
End FastRecoveryProperties.
