(* ===== verification/UtcTime.v ===== *)
(** * UTC timestamps of the monitoring contracts

    Models src/monitoring-v4/src/stream_contracts/monitoring_v4/time.py: second
    timestamps, their RFC 3339 text and its parser.  The proleptic Gregorian
    calendar of [datetime] is written out; the grammar of
    [datetime.fromisoformat] is an operation of the class [FromIso], and
    [basic_iso] is the part of it that [utc_text] produces. *)
From Stdlib Require Import Ascii.
From S2P Require Import Prelude PyVal.

(** ** The calendar: days since 1970-01-01 and dates

    Years are counted from March, 146097 days per 400 years. *)
Definition civil_of_doe (doe : Z) : Z * Z * Z :=
  let yoe := (doe - doe / 1460 + doe / 36524 - doe / 146096) / 365 in
  let doy := doe - (365 * yoe + yoe / 4 - yoe / 100) in
  let mp := (5 * doy + 2) / 153 in
  let m := if mp <? 10 then mp + 3 else mp - 9 in
  (yoe + (if m <=? 2 then 1 else 0), m, doy - (153 * mp + 2) / 5 + 1).

Definition civil_from_days (z : Z) : Z * Z * Z :=
  let era := (z + 719468) / 146097 in
  let '(y, m, d) := civil_of_doe ((z + 719468) mod 146097) in
  (y + era * 400, m, d).

Definition days_from_civil (y m d : Z) : Z :=
  let y := if m <=? 2 then y - 1 else y in
  let era := y / 400 in
  let yoe := y - era * 400 in
  let doy := (153 * (if 2 <? m then m - 3 else m + 9) + 2) / 5 + d - 1 in
  era * 146097 + (yoe * 365 + yoe / 4 - yoe / 100 + doy) - 719468.

Lemma doe_year doe : 0 <= doe < 146097 ->
  let yoe := (doe - doe / 1460 + doe / 36524 - doe / 146096) / 365 in
  0 <= yoe < 400 /\ 0 <= doe - (365 * yoe + yoe / 4 - yoe / 100) <= 365.
Proof. intros H. cbv zeta. Z.to_euclidean_division_equations; lia. Qed.

Lemma doy_month doy : 0 <= doy <= 365 ->
  let mp := (5 * doy + 2) / 153 in
  0 <= mp <= 11 /\ 1 <= doy - (153 * mp + 2) / 5 + 1 <= 31.
Proof. intros H. cbv zeta. Z.to_euclidean_division_equations; lia. Qed.

Lemma civil_of_doe_inv doe : 0 <= doe < 146097 ->
  let '(y, m, d) := civil_of_doe doe in
  days_from_civil y m d = doe - 719468 /\ 1 <= m <= 12 /\ 1 <= d <= 31.
Proof.
  intros H. pose proof (doe_year doe H) as Hy. unfold civil_of_doe. cbv zeta in *.
  set (yoe := (doe - doe / 1460 + doe / 36524 - doe / 146096) / 365) in *.
  set (doy := doe - (365 * yoe + yoe / 4 - yoe / 100)) in *.
  pose proof (doy_month doy (proj2 Hy)) as Hm. cbv zeta in Hm.
  set (mp := (5 * doy + 2) / 153) in *.
  unfold days_from_civil. destruct Hy as [Hy _], Hm as [Hm Hd].
  destruct (Z.ltb_spec mp 10).
  - rewrite (proj2 (Z.leb_gt (mp + 3) 2)), (proj2 (Z.ltb_lt 2 (mp + 3))) by lia.
    rewrite Z.add_0_r, (Z.div_small yoe 400) by lia.
    replace (mp + 3 - 3) with mp by lia. replace (yoe - 0 * 400) with yoe by lia. unfold doy in *. repeat split; lia.
  - rewrite (proj2 (Z.leb_le (mp - 9) 2)), (proj2 (Z.ltb_ge 2 (mp - 9))) by lia.
    replace (yoe + 1 - 1) with yoe by lia. rewrite (Z.div_small yoe 400) by lia.
    replace (mp - 9 + 9) with mp by lia. replace (yoe - 0 * 400) with yoe by lia. unfold doy in *. repeat split; lia.
Qed.

Lemma days_era y m d era : days_from_civil (y + era * 400) m d = days_from_civil y m d + era * 146097.
Proof.
  unfold days_from_civil. destruct (m <=? 2).
  - replace (y + era * 400 - 1) with (y - 1 + era * 400) by lia.
    rewrite Z.div_add by lia. replace (y - 1 + era * 400 - ((y - 1) / 400 + era) * 400) with (y - 1 - (y - 1) / 400 * 400) by lia. lia.
  - rewrite Z.div_add by lia. replace (y + era * 400 - (y / 400 + era) * 400) with (y - y / 400 * 400) by lia. lia.
Qed.

Lemma civil_roundtrip z :
  let '(y, m, d) := civil_from_days z in
  days_from_civil y m d = z /\ 1 <= m <= 12 /\ 1 <= d <= 31.
Proof.
  unfold civil_from_days. pose proof (Z.mod_pos_bound (z + 719468) 146097 ltac:(lia)) as Hb.
  pose proof (civil_of_doe_inv _ Hb) as Hc. destruct (civil_of_doe _) as [[y m] d].
  destruct Hc as (Hd & ? & ?). split; [|done]. rewrite days_era, Hd.
  pose proof (Z.div_mod (z + 719468) 146097 ltac:(lia)). lia.
Qed.

(** ** Text *)
Definition digit (n : Z) : ascii := ascii_of_nat (48 + Z.to_nat n).

(** [f"{n:02d}"], [f"{n:04d}"] of a number that fits. *)
Definition pad2 (n : Z) : string := String (digit (n / 10)) (String (digit (n mod 10)) "").
Definition pad4 (n : Z) : string := (pad2 (n / 100) ++ pad2 (n mod 100))%string.

Definition MIN_TS : Z := -62135596800.
Definition MAX_TS : Z := 253402300799.

(** [datetime.fromtimestamp(z, timezone.utc).isoformat(timespec="seconds")] without its offset. *)
Definition iso_seconds (z : Z) : string :=
  let '(y, m, d) := civil_from_days (z / 86400) in
  let s := z mod 86400 in
  (pad4 y ++ "-" ++ pad2 m ++ "-" ++ pad2 d ++ "T" ++ pad2 (s / 3600) ++ ":"
   ++ pad2 (s / 60 mod 60) ++ ":" ++ pad2 (s mod 60))%string.

(** [fromtimestamp] accepts the years 1 to 9999. *)
Definition utc_text (z : Z) : res string :=
  if (z <? - 2 ^ 63) || (2 ^ 63 <=? z) then Err EOverflow
  else if (z <? MIN_TS) || (MAX_TS <? z) then Err (EValue "year is out of range")
  else Ok (iso_seconds z ++ "Z")%string.

Lemma utc_text_ok z : MIN_TS <= z <= MAX_TS -> utc_text z = Ok (iso_seconds z ++ "Z")%string.
Proof.
  unfold utc_text, MIN_TS, MAX_TS. intros Hz.
  destruct (Z.ltb_spec z (- 2 ^ 63)), (Z.leb_spec (2 ^ 63) z), (Z.ltb_spec z (-62135596800)),
    (Z.ltb_spec 253402300799 z); simpl in *; try done; lia.
Qed.

(** [datetime.fromisoformat(s)]: the wall-clock seconds and the offset from UTC
    (none for a naive value), [None] when it raises [ValueError]. *)
Class FromIso := fromisoformat : string -> option (Q * option Q).

Definition drop_last (s : string) : string := String.substring 0 (String.length s - 1) s.

Section Parse.
Context `{FromIso}.

Definition parse_utc (value : string) : res Q :=
  let raw := strip value in
  if String.eqb raw "" then Err (EValue "timestamp is required") else
  let text := if ends_with "Z" raw then (drop_last raw ++ "+00:00")%string else raw in
  match fromisoformat text with
  | None => Err (EValue "timestamp must be RFC3339")
  | Some (_, None) => Err (EValue "timestamp must include a timezone")
  | Some (wall, Some off) =>
      if Qeq_bool off 0 then Ok wall else Err (EValue "timestamp must be UTC")
  end.

Definition unix_ts (value : string) : res Z := let! t := parse_utc value in Ok (Qtrunc t).

Definition require_not_before (later earlier : string) : res unit :=
  let! l := parse_utc later in
  let! e := parse_utc earlier in
  if Qltb l e then Err (EValue "must not precede") else Ok tt.
End Parse.

(** ** The text [utc_text] writes, read back *)
Definition two (a b : ascii) : option Z :=
  if is_digit a && is_digit b then Some (10 * digit_val a + digit_val b) else None.

(** [YYYY-MM-DDTHH:MM:SS+00:00], read by position. *)
Definition basic_iso : FromIso := fun s =>
  match String.list_ascii_of_string s with
  | [y1; y2; y3; y4; _; m1; m2; _; d1; d2; _; h1; h2; _; i1; i2; _; s1; s2; _; _; _; _; _; _] =>
      match two y1 y2, two y3 y4, two m1 m2, two d1 d2, two h1 h2, two i1 i2, two s1 s2 with
      | Some ya, Some yb, Some m, Some d, Some h, Some i, Some s =>
          Some (inject_Z (days_from_civil (100 * ya + yb) m d * 86400 + h * 3600 + i * 60 + s), Some 0%Q)
      | _, _, _, _, _, _, _ => None
      end
  | _ => None
  end.
Example utc_text_ex : map utc_text [0; 951782400; 1790000000; MIN_TS; MAX_TS; MAX_TS + 1] =
  [Ok "1970-01-01T00:00:00Z"; Ok "2000-02-29T00:00:00Z"; Ok "2026-09-21T14:13:20Z";
   Ok "0001-01-01T00:00:00Z"; Ok "9999-12-31T23:59:59Z"; Err (EValue "year is out of range")].
Proof. vm_compute. reflexivity. Qed.

Lemma digit_ok n : 0 <= n < 10 -> is_digit (digit n) = true /\ digit_val (digit n) = n /\ is_space (digit n) = false.
Proof.
  intros H. rewrite <- (Z2Nat.id n) by lia. assert (Z.to_nat n < 10)%nat as Hk by lia. revert Hk.
  generalize (Z.to_nat n). intros k Hk. do 10 (destruct k as [|k]; [done|]). lia.
Qed.

Lemma two_pad n : 0 <= n < 100 -> two (digit (n / 10)) (digit (n mod 10)) = Some n.
Proof.
  intros H. assert (0 <= n / 10 < 10) as Ha by (Z.to_euclidean_division_equations; lia).
  assert (0 <= n mod 10 < 10) as Hb by (Z.to_euclidean_division_equations; lia).
  unfold two. destruct (digit_ok _ Ha) as (-> & -> & _), (digit_ok _ Hb) as (-> & -> & _). simpl. f_equal.
  pose proof (Z.div_mod n 10 ltac:(lia)). lia.
Qed.

Lemma rstrip_Z s : rstrip (s ++ "Z") = (s ++ "Z")%string.
Proof. induction s as [|c s IH]; [done|]. simpl. rewrite IH. by destruct s. Qed.
Lemma ends_with_Z s : ends_with "Z" (s ++ "Z") = true.
Proof.
  induction s as [|c s IH]; [done|].
  change (ends_with "Z" (String c s ++ "Z")) with (String.eqb "Z" (String c (s ++ "Z")) || ends_with "Z" (s ++ "Z"))%string.
  rewrite IH. apply orb_true_r.
Qed.
Lemma drop_last_Z s : drop_last (s ++ "Z") = s.
Proof.
  unfold drop_last. assert (String.length (s ++ "Z") = S (String.length s)) as -> by (induction s; simpl; congruence).
  simpl. rewrite Nat.sub_0_r.
  induction s as [|c s IH]; [done|]. simpl. by rewrite IH.
Qed.

Lemma year_bound y m d : days_from_civil y m d <= 2932896 -> -719162 <= days_from_civil y m d ->
  1 <= m <= 12 -> 1 <= d <= 31 -> 0 <= y < 10000.
Proof.
  unfold days_from_civil. intros H1 H2 Hm Hd.
  destruct (Z.leb_spec m 2), (Z.ltb_spec 2 m); try lia; cbv zeta in *.
  - set (w := y - 1) in *. Z.to_euclidean_division_equations; lia.
  - Z.to_euclidean_division_equations; lia.
Qed.

Lemma basic_iso_text z : MIN_TS <= z <= MAX_TS ->
  basic_iso (iso_seconds z ++ "+00:00")%string = Some (inject_Z z, Some 0%Q).
Proof.
  unfold MIN_TS, MAX_TS. intros Hz. unfold iso_seconds. pose proof (civil_roundtrip (z / 86400)) as Hc.
  destruct (civil_from_days (z / 86400)) as [[y m] d]. destruct Hc as (Hd & Hm & Hday).
  assert (Hy : 0 <= y < 10000).
  { apply (year_bound y m d); rewrite ?Hd; try done; Z.to_euclidean_division_equations; lia. }
  unfold basic_iso, pad4, pad2. simpl String.list_ascii_of_string. cbv beta iota.
  rewrite !two_pad by (Z.to_euclidean_division_equations; lia).
  do 3 f_equal.
  replace (100 * (y / 100) + y mod 100) with y by (pose proof (Z.div_mod y 100); lia).
  rewrite Hd. Z.to_euclidean_division_equations; lia.
Qed.

(** What the code relies on in [fromisoformat]: it reads the text of a second
    time stamp back. *)
Class FromIsoLaw `{FromIso} := fromiso_text z : MIN_TS <= z <= MAX_TS ->
  fromisoformat (iso_seconds z ++ "+00:00")%string = Some (inject_Z z, Some 0%Q).

#[export] Instance basic_iso_law : @FromIsoLaw basic_iso.
Proof. exact basic_iso_text. Qed.

Lemma Qtrunc_inject z : Qtrunc (inject_Z z) = z.
Proof.
  unfold Qtrunc. rewrite <- inject_Z_opp, !Qfloor_Z.
  destruct (Qleb 0 (inject_Z z)); [done | lia].
Qed.

Lemma lstrip_digit n s : 0 <= n < 10 -> lstrip (String (digit n) s) = String (digit n) s.
Proof. intros Hn. unfold lstrip. by destruct (digit_ok n Hn) as (_ & _ & ->). Qed.

Lemma iso_seconds_head z : MIN_TS <= z <= MAX_TS ->
  exists n s, 0 <= n < 10 /\ iso_seconds z = String (digit n) s.
Proof.
  unfold MIN_TS, MAX_TS. intros Hz. unfold iso_seconds. pose proof (civil_roundtrip (z / 86400)) as Hc.
  destruct (civil_from_days (z / 86400)) as [[y m] d]. destruct Hc as (Hd & Hm & Hday).
  assert (0 <= y < 10000).
  { apply (year_bound y m d); rewrite ?Hd; try done; Z.to_euclidean_division_equations; lia. }
  unfold pad4. unfold pad2 at 1. eexists (y / 100 / 10), _.
  split; [Z.to_euclidean_division_equations; lia | reflexivity].
Qed.

Section Roundtrip.
Context `{FromIsoLaw}.

Lemma parse_utc_text z s : utc_text z = Ok s -> parse_utc s = Ok (inject_Z z).
Proof.
  unfold utc_text. destruct (_ || _); [done|].
  destruct (Z.ltb_spec z MIN_TS), (Z.ltb_spec MAX_TS z); simpl; try done. intros [= <-].
  unfold parse_utc.
  assert (strip (iso_seconds z ++ "Z") = (iso_seconds z ++ "Z")%string) as ->.
  { unfold strip. rewrite <- rstrip_Z at 2. f_equal.
    destruct (iso_seconds_head z) as (n & s & Hn & ->); [lia|]. by apply (lstrip_digit n). }
  rewrite ends_with_Z, drop_last_Z, fromiso_text by lia.
  destruct (iso_seconds_head z) as (n & s & _ & ->); [lia|]. reflexivity.
Qed.

Lemma unix_ts_text z s : utc_text z = Ok s -> unix_ts s = Ok z.
Proof. intros Hs. unfold unix_ts. rewrite (parse_utc_text z s Hs). simpl. by rewrite Qtrunc_inject. Qed.
End Roundtrip.
