(* ===== verification/Contracts.v ===== *)
(** * Monitoring contracts: identifiers, incidents, intents and current snapshots

    Models src/monitoring-v4/src/stream_contracts/monitoring_v4/{ids,observation,
    incident,notification,current}.py: the frozen records and the validation
    their constructors run ([__post_init__]), which [dataclasses.replace] runs
    again.  The offending value is left out of the error messages. *)
From Stdlib Require Import Ascii.
From S2P Require Import Prelude PyVal UtcTime.

(** ** Names and identifiers *)
Definition is_lower (c : ascii) : bool :=
  let n := nat_of_ascii c in (97 <=? n)%nat && (n <=? 122)%nat.
Definition is_name_char (c : ascii) : bool :=
  is_lower c || is_digit c || in_strs (VStr (String c "")) ["_"; "."; "-"].
Definition is_lower_hex (c : ascii) : bool :=
  let n := nat_of_ascii c in is_digit c || ((97 <=? n)%nat && (n <=? 102)%nat).

Definition between (lo hi n : Z) : bool := (lo <=? n) && (n <=? hi).

(** [[a-z][a-z0-9_.-]{1,hi}] *)
Definition name_re (hi : Z) (s : string) : bool :=
  match s with
  | EmptyString => false
  | String c s' => is_lower c && between 1 hi (slen s') && all_chars is_name_char s'
  end.

(** The text before and after the first [:]. *)
Fixpoint split_colon (s : string) : option (string * string) :=
  match s with
  | EmptyString => None
  | String c s' =>
      if Ascii.eqb c ":"%char then Some (EmptyString, s')
      else option_map (fun p => (String c (fst p), snd p)) (split_colon s')
  end.

Definition id_re (s : string) : bool :=
  match split_colon s with
  | Some (ns, hex) => name_re 47 ns && between 24 64 (slen hex) && all_chars is_lower_hex hex
  | None => false
  end.

Definition demand (b : bool) (msg : string) : res unit := if b then Ok tt else Err (EValue msg).

Definition validate_id (value field : string) : res unit := demand (id_re value) field.

Definition in_list (l : list string) (s : string) : bool := existsb (String.eqb s) l.

Definition _name (value field : string) (allowed : option (list string)) : res unit :=
  let! _ := demand (name_re 95 value) field in
  match allowed with
  | None => Ok tt
  | Some l => demand (in_list l value) field
  end.

(** The hexadecimal SHA-256 of [canonical_json(v)]. *)
Class CanonicalSha := canonical_sha : pyval -> string.

Definition stable_id `{CanonicalSha} (namespace : string) (parts : list pyval) : res string :=
  if negb (name_re 47 namespace) then Err (EValue "invalid ID namespace") else
  Ok (namespace ++ ":" ++ str_take 32 (canonical_sha (VList parts)))%string.

(** A SHA-256 digest is 64 lowercase hexadecimal digits. *)
Class CanonicalShaLaw `{CanonicalSha} := canonical_sha_hex v :
  slen (canonical_sha v) = 64 /\ all_chars is_lower_hex (canonical_sha v) = true.

(** ** Sorted sets of strings: [tuple(sorted(set(l)))] *)
Fixpoint insert_str (s : string) (l : list string) : list string :=
  match l with
  | [] => [s]
  | x :: l' => match String.compare s x with
               | Lt => s :: l
               | Eq => l
               | Gt => x :: insert_str s l'
               end
  end.
Definition sorted_set (l : list string) : list string := fold_right insert_str [] l.

Lemma insert_str_in s x l : In x (insert_str s l) <-> x = s \/ In x l.
Proof.
  induction l as [|y l IH]; simpl; [naive_solver|].
  destruct (String.compare s y) eqn:E; simpl; [|naive_solver|rewrite IH; naive_solver].
  apply String.compare_eq_iff in E as ->. naive_solver.
Qed.
Lemma sorted_set_in x l : In x (sorted_set l) <-> In x l.
Proof. induction l as [|y l IH]; simpl; [done|]. rewrite insert_str_in, IH. naive_solver. Qed.

(** ** Vocabularies *)
Definition DOMAINS : list string :=
  ["youtube_lifecycle"; "youtube_input_quality"; "delivery"; "rendering"; "audio";
   "viewer_external"; "monitoring_platform"; "network_transport"; "runtime_resource";
   "adsb_source"; "api_quota"; "recovery_policy"; "notification_delivery"; "control_loop"].
Definition EPISODE_STATUSES : list string := ["active"; "closed"].
Definition TRANSITION_PHASES : list string := ["detected"; "repeat"; "recovered"].
Definition SEVERITIES : list string := ["info"; "warning"; "critical"].
Definition CURRENT_STATES : list string := ["good"; "bad"; "unknown"].

Fixpoint each_name (l : list string) (field : string) : res unit :=
  match l with
  | [] => Ok tt
  | x :: l' => let! _ := _name x field None in each_name l' field
  end.
Fixpoint each_id (l : list string) (field : string) : res unit :=
  match l with
  | [] => Ok tt
  | x :: l' => let! _ := validate_id x field in each_id l' field
  end.

(** ** incident.py *)
Record IncidentEpisode : Type := mkEpisode {
  episode_id : string; ep_domain : string; ep_status : string; ep_severity : string;
  opened_at : string; last_bad_at : string; closed_at : string;
  bad_samples : Z; unknown_samples : Z;
  last_transition_at : string; next_notification_at : string;
  ep_policy_revision : string; ep_summary : string; ep_reason_codes : list string }.

Record IncidentTransition : Type := mkTransition {
  transition_id : string; tr_episode_id : string; tr_domain : string; tr_phase : string;
  tr_severity : string; occurred_at : string; current_snapshot_id : string;
  tr_summary : string; tr_reason_codes : list string }.

Definition sized (s : string) (hi : Z) (msg : string) : res unit := demand (between 1 hi (slen s)) msg.

Section Incident.
Context `{FromIso} `{CanonicalSha}.

Definition closed_checks (e : IncidentEpisode) : res unit :=
  if String.eqb (closed_at e) "" then Ok tt else
  let! _ := parse_utc (closed_at e) in
  require_not_before (closed_at e) (opened_at e).

Definition due_checks (e : IncidentEpisode) : res unit :=
  if String.eqb (ep_status e) "active" then
    let! _ := parse_utc (next_notification_at e) in
    require_not_before (next_notification_at e) (last_transition_at e)
  else demand (String.eqb (next_notification_at e) "") "closed episode must not have next_notification_at".

Definition set_episode_reasons (l : list string) (e : IncidentEpisode) : IncidentEpisode :=
  mkEpisode (episode_id e) (ep_domain e) (ep_status e) (ep_severity e) (opened_at e) (last_bad_at e)
    (closed_at e) (bad_samples e) (unknown_samples e) (last_transition_at e) (next_notification_at e)
    (ep_policy_revision e) (ep_summary e) l.

(** [IncidentEpisode(...)] *)
Definition episode_init (e : IncidentEpisode) : res IncidentEpisode :=
  let! _ := validate_id (episode_id e) "episode_id" in
  let! _ := _name (ep_domain e) "domain" (Some DOMAINS) in
  let! _ := _name (ep_status e) "episode_status" (Some EPISODE_STATUSES) in
  let! _ := _name (ep_severity e) "severity" (Some SEVERITIES) in
  let! _ := parse_utc (opened_at e) in
  let! _ := parse_utc (last_bad_at e) in
  let! _ := parse_utc (last_transition_at e) in
  let! _ := require_not_before (last_bad_at e) (opened_at e) in
  let! _ := closed_checks e in
  let! _ := demand (negb (String.eqb (ep_status e) "closed" && String.eqb (closed_at e) ""))
              "closed episode requires closed_at" in
  let! _ := demand (negb (String.eqb (ep_status e) "active" && negb (String.eqb (closed_at e) "")))
              "active episode must not have closed_at" in
  let! _ := due_checks e in
  let! _ := sized (ep_policy_revision e) 200 "policy_revision must contain 1-200 characters" in
  let! _ := demand ((0 <=? bad_samples e) && (0 <=? unknown_samples e)) "sample counters must be non-negative" in
  let! _ := sized (ep_summary e) 300 "summary must contain 1-300 characters" in
  let! _ := each_name (ep_reason_codes e) "reason_code" in
  Ok (set_episode_reasons (sorted_set (ep_reason_codes e)) e).

(** [IncidentEpisode.open(...)] *)
Definition episode_open (domain severity opened summary : string) (reasons : list string)
    (snapshot state next_at revision : string) : res IncidentEpisode :=
  let! ident := stable_id "inc" [VStr domain; VStr opened; VStr snapshot; VStr revision] in
  episode_init (mkEpisode ident domain "active" severity opened opened ""
    (if String.eqb state "bad" then 1 else 0) (if String.eqb state "unknown" then 1 else 0)
    opened next_at revision summary reasons).

(** [IncidentTransition(...)] *)
Definition transition_init (t : IncidentTransition) : res IncidentTransition :=
  let! _ := validate_id (transition_id t) "transition_id" in
  let! _ := validate_id (tr_episode_id t) "episode_id" in
  let! _ := validate_id (current_snapshot_id t) "current_snapshot_id" in
  let! _ := _name (tr_domain t) "domain" (Some DOMAINS) in
  let! _ := _name (tr_phase t) "transition_phase" (Some TRANSITION_PHASES) in
  let! _ := _name (tr_severity t) "severity" (Some SEVERITIES) in
  let! _ := parse_utc (occurred_at t) in
  let! _ := sized (tr_summary t) 300 "summary must contain 1-300 characters" in
  let! _ := each_name (tr_reason_codes t) "reason_code" in
  Ok (mkTransition (transition_id t) (tr_episode_id t) (tr_domain t) (tr_phase t) (tr_severity t)
        (occurred_at t) (current_snapshot_id t) (tr_summary t) (sorted_set (tr_reason_codes t))).

(** [IncidentTransition.create(...)] *)
Definition transition_create (episode domain phase severity occurred snapshot summary : string)
    (reasons : list string) : res IncidentTransition :=
  let! ident := stable_id "trn" [VStr episode; VStr phase; VStr occurred; VStr snapshot] in
  transition_init (mkTransition ident episode domain phase severity occurred snapshot summary reasons).
End Incident.

(** ** notification.py *)
Record NotificationIntent : Type := mkIntent {
  intent_id : string; in_transition_id : string; in_episode_id : string; route : string;
  in_phase : string; in_severity : string; created_at : string; not_before : string;
  subject : string; content : string; dedupe_key : string;
  route_policy_revision : string; template_revision : string }.

(** ["|".join(l)] *)
Definition join_bar (l : list string) : string := String.concat "|" l.

Section Notification.
Context `{FromIso} `{CanonicalSha}.

(** [NotificationIntent(...)] *)
Definition intent_init (i : NotificationIntent) : res NotificationIntent :=
  let! _ := validate_id (intent_id i) "intent_id" in
  let! _ := validate_id (in_transition_id i) "transition_id" in
  let! _ := validate_id (in_episode_id i) "episode_id" in
  let! _ := _name (route i) "route" None in
  let! _ := _name (in_phase i) "transition_phase" (Some TRANSITION_PHASES) in
  let! _ := _name (in_severity i) "severity" (Some SEVERITIES) in
  let! _ := parse_utc (created_at i) in
  let! _ := parse_utc (not_before i) in
  let! _ := require_not_before (not_before i) (created_at i) in
  let! _ := sized (subject i) 200 "subject must contain 1-200 characters" in
  let! _ := sized (content i) 4000 "content must contain 1-4000 characters" in
  let! _ := sized (dedupe_key i) 300 "dedupe_key must contain 1-300 characters" in
  let! _ := sized (route_policy_revision i) 200 "route_policy_revision must contain 1-200 characters" in
  let! _ := sized (template_revision i) 200 "template_revision must contain 1-200 characters" in
  Ok i.

(** [NotificationIntent.create(...)] *)
Definition intent_create (transition episode rt phase severity created notbefore subj text
    route_revision template : string) (dedupe_parts : list string) : res NotificationIntent :=
  let key := join_bar ([rt; phase; episode] ++ dedupe_parts) in
  let! ident := stable_id "ntf" [VStr transition; VStr rt; VStr key; VStr route_revision; VStr template] in
  intent_init (mkIntent ident transition episode rt phase severity created notbefore subj text key
    route_revision template).
End Notification.

(** ** current.py *)
Record DomainCurrent : Type := mkCurrent {
  snapshot_id : string; cu_domain : string; cu_state : string; reason_codes : list string;
  source_observation_ids : list string; observed_at : string; reduced_at : string;
  valid_until : string; cu_policy_revision : string; reducer_revision : string;
  payload : list (string * pyval) }.

(** [DomainCurrent(...)].  [json_copy] rejects non-finite numbers; the key order
    of its copy is not observed. *)
Definition current_init `{FromIso} (c : DomainCurrent) : res DomainCurrent :=
  let! _ := validate_id (snapshot_id c) "snapshot_id" in
  let! _ := _name (cu_domain c) "domain" (Some DOMAINS) in
  let! _ := _name (cu_state c) "state" (Some CURRENT_STATES) in
  let! _ := each_name (reason_codes c) "reason_code" in
  let! _ := each_id (source_observation_ids c) "source_observation_id" in
  let! _ := parse_utc (observed_at c) in
  let! _ := parse_utc (reduced_at c) in
  let! _ := parse_utc (valid_until c) in
  let! _ := require_not_before (reduced_at c) (observed_at c) in
  let! _ := sized (cu_policy_revision c) 200 "policy_revision must contain 1-200 characters" in
  let! _ := sized (reducer_revision c) 200 "reducer_revision must contain 1-200 characters" in
  let! _ := require_not_before (valid_until c) (reduced_at c) in
  let! _ := demand (negb (nonfinite (VDict (payload c)))) "Out of range float values are not JSON compliant" in
  Ok c.
