(* ===== verification/Store.v ===== *)
(** * The monitoring database

    The tables of src/monitoring-v4/src/stream_monitoring_v4/storage/schema.py
    that the notification outbox and the incident ledger use, and the
    transactions of storage/repository.py.  A table read by its primary key is a
    [gmap]; [attempts] is scanned and kept in insertion order.  A column pair
    [x_at]/[x_ts] written from one value keeps both columns.  Failures of the
    database file itself (busy, I/O) are not modelled. *)
From stdpp Require Import sorting.
From S2P Require Import Prelude PyVal UtcTime Contracts.

(** ** Rows *)
Record lease : Type := mkLease {
  l_owner : string; l_acquired_at : string; l_acquired_ts : Z; l_expires_at : string; l_expires_ts : Z }.

(** CHECK(state IN (...)) of [delivery_attempt_states]. *)
Inductive attempt_state : Type := in_flight | succeeded | retryable_failed | permanent_failed | uncertain.
#[export] Instance attempt_state_eq_dec : EqDecision attempt_state.
Proof. solve_decision. Defined.

Record attempt_row : Type := mkAttempt {
  at_id : string; at_intent : string; at_no : Z; at_owner : string; at_started_at : string; at_started_ts : Z }.
Record state_row : Type := mkState {
  st_state : attempt_state; st_lease : string; st_fence : Z; st_next_retry : Z; st_completed : Z; st_detail : string }.
Record result_row : Type := mkResult {
  rs_attempt : string; rs_intent : string; rs_success : bool; rs_status : Z; rs_detail : string;
  rs_retry_after : Z; rs_completed_at : string; rs_completed_ts : Z }.

Record epoch_row : Type := mkEpoch {
  epo_status : string; epo_cutover_at : string; epo_cutover_ts : Z; epo_activated_at : string;
  epo_activated_ts : Z; epo_closed_at : string; epo_closed_ts : Z; epo_policy : string;
  epo_writer : string; epo_note : string }.
Record intent_row : Type := mkIntentRow { ir_item : NotificationIntent; ir_created_ts : Z; ir_not_before_ts : Z }.
Record delivery_row : Type := mkDelivery {
  dv_mode : string; dv_epoch : option string; dv_eligible : Z; dv_reason : string; dv_assigned_at : string; dv_assigned_ts : Z }.

Record candidate_row : Type := mkCandidate {
  c_domain : string; c_state : string; c_first_seen_at : string; c_last_seen_at : string;
  c_samples : Z; c_snapshot : string; c_reasons : list string }.

(** ** The tables *)
Record store : Type := mkStore {
  leases : gmap string lease;
  fences : gmap string Z;
  epochs : gmap string epoch_row;
  intents : gmap string intent_row;
  deliveries : gmap string delivery_row;
  attempts : list attempt_row;
  states : gmap string state_row;
  results : gmap string result_row;
  snapshots : gmap string DomainCurrent;
  candidates : gmap string candidate_row;
  episodes : gmap string IncidentEpisode;
  transitions : gmap string IncidentTransition;
  processed : gmap string (string * string) }.

Definition empty_store : store := mkStore ∅ ∅ ∅ ∅ ∅ [] ∅ ∅ ∅ ∅ ∅ ∅ ∅.

Section Setters.
Implicit Types s : store.
Definition set_leases x s := mkStore x (fences s) (epochs s) (intents s) (deliveries s) (attempts s) (states s) (results s) (snapshots s) (candidates s) (episodes s) (transitions s) (processed s).
Definition set_fences x s := mkStore (leases s) x (epochs s) (intents s) (deliveries s) (attempts s) (states s) (results s) (snapshots s) (candidates s) (episodes s) (transitions s) (processed s).
Definition set_epochs x s := mkStore (leases s) (fences s) x (intents s) (deliveries s) (attempts s) (states s) (results s) (snapshots s) (candidates s) (episodes s) (transitions s) (processed s).
Definition set_intents x s := mkStore (leases s) (fences s) (epochs s) x (deliveries s) (attempts s) (states s) (results s) (snapshots s) (candidates s) (episodes s) (transitions s) (processed s).
Definition set_deliveries x s := mkStore (leases s) (fences s) (epochs s) (intents s) x (attempts s) (states s) (results s) (snapshots s) (candidates s) (episodes s) (transitions s) (processed s).
Definition set_attempts x s := mkStore (leases s) (fences s) (epochs s) (intents s) (deliveries s) x (states s) (results s) (snapshots s) (candidates s) (episodes s) (transitions s) (processed s).
Definition set_states x s := mkStore (leases s) (fences s) (epochs s) (intents s) (deliveries s) (attempts s) x (results s) (snapshots s) (candidates s) (episodes s) (transitions s) (processed s).
Definition set_results x s := mkStore (leases s) (fences s) (epochs s) (intents s) (deliveries s) (attempts s) (states s) x (snapshots s) (candidates s) (episodes s) (transitions s) (processed s).
Definition set_snapshots x s := mkStore (leases s) (fences s) (epochs s) (intents s) (deliveries s) (attempts s) (states s) (results s) x (candidates s) (episodes s) (transitions s) (processed s).
Definition set_candidates x s := mkStore (leases s) (fences s) (epochs s) (intents s) (deliveries s) (attempts s) (states s) (results s) (snapshots s) x (episodes s) (transitions s) (processed s).
Definition set_episodes x s := mkStore (leases s) (fences s) (epochs s) (intents s) (deliveries s) (attempts s) (states s) (results s) (snapshots s) (candidates s) x (transitions s) (processed s).
Definition set_transitions x s := mkStore (leases s) (fences s) (epochs s) (intents s) (deliveries s) (attempts s) (states s) (results s) (snapshots s) (candidates s) (episodes s) x (processed s).
Definition set_processed x s := mkStore (leases s) (fences s) (epochs s) (intents s) (deliveries s) (attempts s) (states s) (results s) (snapshots s) (candidates s) (episodes s) (transitions s) x.
End Setters.

(** Transactions over these tables ([Tx], Prelude). *)
Notation Db := (Tx store).
#[global] Open Scope db_scope.
