(* ===== verification/Outbox.v ===== *)
(** * Notification outbox: leases, intents and delivery attempts

    Models src/monitoring-v4/src/stream_monitoring_v4/storage/outbox_parts/
    {leases,intents,delivery}.py.  Every operation is one database transaction
    over [Store.store]; each SQL statement is the table function it denotes. *)
From stdpp Require Import sorting.
From S2P Require Import Prelude PyVal UtcTime Contracts Store.

Section Outbox.
Context `{FromIso} `{CanonicalSha}.

(** ** leases.py *)

(** INSERT INTO leases ... ON CONFLICT DO UPDATE ... WHERE expired or own. *)
Definition upsert_lease (name owner acquired_at expires_at : string) (now ttl : Z) (s : store) : store :=
  let row := mkLease owner acquired_at now expires_at (now + ttl) in
  match leases s !! name with
  | Some l =>
      if (l_expires_ts l <=? now) || String.eqb (l_owner l) owner
      then set_leases (<[name := row]> (leases s)) s else s
  | None => set_leases (<[name := row]> (leases s)) s
  end.

(** The SELECT after the upsert: the lease is ours and not expired. *)
Definition lease_mine (name owner : string) (now : Z) (s : store) : bool :=
  match leases s !! name with
  | Some l => String.eqb (l_owner l) owner && negb (l_expires_ts l <=? now)
  | None => false
  end.

Definition next_token (name : string) (s : store) : Z :=
  match fences s !! name with Some t => t + 1 | None => 1 end.

Definition acquire_fenced_lease (name owner : string) (now_ts ttl_sec : Z) : store -> res (option Z) * store :=
  before_tx (utc_text now_ts) (fun acquired_at =>
  let ttl := Z.max 1 ttl_sec in
  before_tx (utc_text (now_ts + ttl)) (fun expires_at =>
  transaction (
    run! db_mod (upsert_lease name owner acquired_at expires_at now_ts ttl) then
    do! mine := db_get (lease_mine name owner now_ts) in
    if negb mine then db_ret None else
    do! token := db_get (next_token name) in
    run! db_mod (fun s => set_fences (<[name := token]> (fences s)) s) then
    db_ret (Some token)))).

Definition acquire_lease (name owner : string) (now_ts ttl_sec : Z) (s : store) : res bool * store :=
  let '(r, s') := acquire_fenced_lease name owner now_ts ttl_sec s in
  (rmap (fun t => match t with Some _ => true | None => false end) r, s').

Definition fence_is (name : string) (token : Z) (s : store) : bool :=
  match fences s !! name with Some t => t =? token | None => false end.

Definition renew_fenced_lease (name owner : string) (fence_token now_ts ttl_sec : Z) : store -> res bool * store :=
  let ttl := Z.max 1 ttl_sec in
  transaction (
    do! current := db_get (fence_is name fence_token) in
    if negb current then db_ret false else
    do! expires_at := db_lift (utc_text (now_ts + ttl)) in
    do! mine := db_get (lease_mine name owner now_ts) in
    if negb mine then db_ret false else
    run! db_mod (fun s => set_leases (alter (fun l =>
          mkLease (l_owner l) (l_acquired_at l) (l_acquired_ts l) expires_at (now_ts + ttl)) name (leases s)) s) then
    db_ret true).

Definition clear_lease (name owner : string) (s : store) : store :=
  set_leases (alter (fun l => if String.eqb (l_owner l) owner
    then mkLease (l_owner l) (l_acquired_at l) (l_acquired_ts l) "" 0 else l) name (leases s)) s.

Definition release_lease (name owner : string) (fence_token : option Z) : store -> res unit * store :=
  transaction (
    do! current := db_get (fun s => match fence_token with None => true | Some t => fence_is name t s end) in
    if negb current then db_ret tt else
    db_mod (clear_lease name owner)).

(** ** intents.py *)
Definition strip_empty (v : string) : bool := String.eqb (strip v) "".

(** INSERT of an active epoch: [epoch_id] is the primary key and at most one row
    is active (notification_one_active_delivery_epoch_idx). *)
Definition insert_epoch (id : string) (row : epoch_row) : Db unit :=
  do! es := db_get epochs in
  if existsb (fun kv => String.eqb (epo_status (snd kv)) "active") (map_to_list es) then db_raise integrity_error else
  do! es := db_lift (insert_unique id row es) in
  db_mod (set_epochs es).

Definition activate_delivery_epoch (cutover_at activated_at policy_revision writer_identity note : string)
    : store -> res string * store :=
  before_tx (unix_ts cutover_at) (fun cutover_ts =>
  before_tx (unix_ts activated_at) (fun activated_ts =>
  before_tx (demand (cutover_ts <=? activated_ts) "notification cutover cannot be after activation") (fun _ =>
  before_tx (demand (negb (strip_empty policy_revision || strip_empty writer_identity || strip_empty note))
          "notification delivery epoch audit fields are required") (fun _ =>
  before_tx (stable_id "nep" [VStr cutover_at; VStr activated_at; VStr policy_revision; VStr writer_identity]) (fun id =>
  transaction (
    run! insert_epoch id (mkEpoch "active" cutover_at cutover_ts activated_at activated_ts "" 0
           (str_take 200 policy_revision) (str_take 200 writer_identity) (str_take 500 note)) then
    db_ret id)))))).

Definition close_row (closed_at : string) (closed_ts : Z) (e : epoch_row) : epoch_row :=
  mkEpoch "closed" (epo_cutover_at e) (epo_cutover_ts e) (epo_activated_at e) (epo_activated_ts e)
    closed_at closed_ts (epo_policy e) (epo_writer e) (epo_note e).

Definition close_delivery_epoch (epoch_id closed_at : string) : store -> res unit * store :=
  before_tx (unix_ts closed_at) (fun closed_ts =>
  transaction (
    do! row := db_get (fun s => epochs s !! epoch_id) in
    match row with
    | Some e =>
        if String.eqb (epo_status e) "active" && (epo_activated_ts e <=? closed_ts)
        then db_mod (fun s => set_epochs (<[epoch_id := close_row closed_at closed_ts e]> (epochs s)) s)
        else db_raise (EValue "notification delivery epoch is not active")
    | None => db_raise (EValue "notification delivery epoch is not active")
    end)).

(** The eligibility of a new intent: shadow, or production in an active epoch. *)
Definition eligibility (item : NotificationIntent) (delivery_epoch_id : option string)
    : Db (string * option string * Z * string) :=
  match delivery_epoch_id with
  | None => db_ret ("shadow", None, 0, "credential_free_shadow")
  | Some id =>
      do! row := db_get (fun s => epochs s !! id) in
      match row with
      | Some e =>
          if negb (String.eqb (epo_status e) "active")
          then db_raise (EValue "notification delivery epoch is not active") else
          do! created := db_lift (unix_ts (created_at item)) in
          if created <? epo_cutover_ts e
          then db_raise (EValue "pre-cutover notification intent cannot become deliverable")
          else db_ret ("production", Some id, 1, "created_in_active_delivery_epoch")
      | None => db_raise (EValue "notification delivery epoch is not active")
      end
  end.

(** A row with the same primary key, the same transition and route, or the same
    dedupe key: INSERT OR IGNORE leaves the table alone. *)
Definition intent_conflict (item : NotificationIntent) (s : store) : bool :=
  match intents s !! intent_id item with
  | Some _ => true
  | None => existsb (fun kv => let r := ir_item (snd kv) in
      (String.eqb (in_transition_id r) (in_transition_id item) && String.eqb (route r) (route item))
      || String.eqb (dedupe_key r) (dedupe_key item)) (map_to_list (intents s))
  end.

(** FOREIGN KEYs of [notification_intents]; OR IGNORE does not cover them. *)
Definition intent_references (item : NotificationIntent) (s : store) : bool :=
  bool_decide (is_Some (transitions s !! in_transition_id item))
  && bool_decide (is_Some (episodes s !! in_episode_id item)).

Definition insert_intent (item : NotificationIntent) : Db bool :=
  do! created := db_lift (unix_ts (created_at item)) in
  do! notbefore := db_lift (unix_ts (not_before item)) in
  do! conflict := db_get (intent_conflict item) in
  if conflict : bool then db_ret false else
  do! refs := db_get (intent_references item) in
  if negb refs then db_raise integrity_error else
  run! db_mod (fun s => set_intents (<[intent_id item := mkIntentRow item created notbefore]> (intents s)) s) then
  db_ret true.

Definition insert_delivery (id : string) (row : delivery_row) : Db unit :=
  do! old := db_get (fun s => deliveries s !! id) in
  match old with
  | Some _ => db_ret tt
  | None =>
      do! known := db_get (fun s => bool_decide (is_Some (intents s !! id))) in
      if negb known then db_raise integrity_error else
      db_mod (fun s => set_deliveries (<[id := row]> (deliveries s)) s)
  end.

Definition append_intent (item : NotificationIntent) (delivery_epoch_id : option string) : Db bool :=
  do! (mode, epoch, eligible, reason) := eligibility item delivery_epoch_id in
  do! inserted := insert_intent item in
  do! assigned := db_lift (unix_ts (created_at item)) in
  run! insert_delivery (intent_id item) (mkDelivery mode epoch eligible reason (created_at item) assigned) then
  db_ret inserted.

(** ORDER BY a number, then an identifier (binary collation). *)
Definition key_le (x y : Z * string) : Prop :=
  fst x < fst y \/ (fst x = fst y /\ String.leb (snd x) (snd y) = true).
#[local] Instance key_le_dec x y : Decision (key_le x y).
Proof. unfold key_le. apply _. Defined.

Definition by_created (x y : intent_row) : Prop :=
  key_le (ir_created_ts x, intent_id (ir_item x)) (ir_created_ts y, intent_id (ir_item y)).
Definition by_due (x y : intent_row) : Prop :=
  key_le (ir_not_before_ts x, intent_id (ir_item x)) (ir_not_before_ts y, intent_id (ir_item y)).
#[local] Instance by_created_dec x y : Decision (by_created x y).
Proof. unfold by_created. apply _. Defined.
#[local] Instance by_due_dec x y : Decision (by_due x y).
Proof. unfold by_due. apply _. Defined.

(** [[self._intent(row) for row in rows]] *)
Fixpoint load_intents (rows : list intent_row) : res (list NotificationIntent) :=
  match rows with
  | [] => Ok []
  | r :: rows' =>
      let! i := intent_init (ir_item r) in
      let! l := load_intents rows' in
      Ok (i :: l)
  end.

Definition intent_rows (s : store) : list intent_row := map snd (map_to_list (intents s)).

Definition all_intents (s : store) : res (list NotificationIntent) :=
  load_intents (merge_sort by_created (intent_rows s)).

Definition intent_delivery_metadata (id : string) (s : store) : option delivery_row := deliveries s !! id.

(** ** delivery.py: reading the attempts of an intent *)
Definition attempts_of (id : string) (s : store) : list attempt_row :=
  List.filter (fun a => String.eqb (at_intent a) id) (attempts s).
Definition attempt_count (id : string) (s : store) : Z := Z.of_nat (length (attempts_of id s)).
(** [COALESCE(MAX(attempt_no), 0)] *)
Definition max_attempt_no (id : string) (s : store) : Z :=
  fold_right Z.max 0 (map at_no (attempts_of id s)).

(** [state IN ('in_flight', 'succeeded', 'permanent_failed', 'uncertain')] *)
Definition blocks (st : attempt_state) : bool :=
  match st with in_flight | succeeded | permanent_failed | uncertain => true | retryable_failed => false end.

Definition state_of (a : attempt_row) (s : store) : option attempt_state :=
  option_map st_state (states s !! at_id a).
Definition blocked (id : string) (s : store) : bool :=
  existsb (fun a => match state_of a s with Some st => blocks st | None => false end) (attempts_of id s).

(** The lease and its fence, joined: held by [owner] with [token] at [now]. *)
Definition fence_current (name owner : string) (token now : Z) (s : store) : bool :=
  match leases s !! name, fences s !! name with
  | Some l, Some t => String.eqb (l_owner l) owner && (t =? token) && negb (l_expires_ts l <=? now)
  | _, _ => false
  end.

(** In production mode, eligible, in an active epoch and created after its cutover. *)
Definition deliverable (id : string) (s : store) : bool :=
  match intents s !! id, deliveries s !! id with
  | Some i, Some d =>
      String.eqb (dv_mode d) "production" && (dv_eligible d =? 1) &&
      match dv_epoch d with
      | Some e => match epochs s !! e with
                  | Some ep => String.eqb (epo_status ep) "active" && (epo_cutover_ts ep <=? ir_created_ts i)
                  | None => false
                  end
      | None => false
      end
  | _, _ => false
  end.

(** The attempt dict handed from [begin] to [finish]. *)
Record attempt : Type := mkHandle {
  h_attempt : string; h_intent : string; h_no : Z; h_started : Z; h_owner : string; h_lease : string; h_fence : Z }.

Definition insert_attempt (row : attempt_row) (st : state_row) : Db unit :=
  do! old := db_get attempts in
  do! sts := db_get states in
  if existsb (fun a => String.eqb (at_id a) (at_id row)
                       || (String.eqb (at_intent a) (at_intent row) && (at_no a =? at_no row))) old
  then db_raise integrity_error else
  do! sts := db_lift (insert_unique (at_id row) st sts) in
  run! db_mod (set_attempts (old ++ [row])) then
  db_mod (set_states sts).

Definition begin_delivery_attempt (id owner lease_name : string) (fence_token now_ts : Z)
    : store -> res attempt * store :=
  transaction (
    do! current := db_get (fence_current lease_name owner fence_token now_ts) in
    if negb current then db_raise (ERuntime "delivery lease fence is not current") else
    do! ok := db_get (deliverable id) in
    if negb ok then db_raise (ERuntime "notification intent is not delivery eligible") else
    do! blocker := db_get (blocked id) in
    if blocker : bool then db_raise (ERuntime "notification intent is blocked") else
    do! no := db_get (fun s => max_attempt_no id s + 1) in
    do! attempt_id := db_lift (stable_id "try" [VStr id; VInt no]) in
    do! started_at := db_lift (utc_text now_ts) in
    run! insert_attempt (mkAttempt attempt_id id no owner started_at now_ts)
          (mkState in_flight lease_name fence_token 0 0 "") then
    db_ret (mkHandle attempt_id id no now_ts owner lease_name fence_token)).

(** ** Finishing an attempt *)
Definition retry_delay (outcome : attempt_state) (no retry_after : Z) : Z :=
  Z.max 0 (Z.max retry_after (if decide (outcome = retryable_failed) then 2 ^ Z.min 10 no else 0)).

(** UPDATE ... WHERE attempt_id=? AND state='in_flight' *)
Definition close_uncertain (detail : string) (now : Z) (st : state_row) : state_row :=
  match st_state st with
  | in_flight => mkState uncertain (st_lease st) (st_fence st) (st_next_retry st) now detail
  | _ => st
  end.

Definition own_state (h : attempt) (s : store) : option state_row :=
  match states s !! h_attempt h with
  | Some st => if bool_decide (st_state st = in_flight) && String.eqb (st_lease st) (h_lease h) && (st_fence st =? h_fence h)
               then Some st else None
  | None => None
  end.

(** The transaction of [finish_delivery_attempt]; its result is [fence_lost]. *)
Definition record_outcome (h : attempt) (result_id detail : string) (success : bool)
    (status_code retry_after_sec now_ts : Z) (outcome : attempt_state) : Db bool :=
  do! current := db_get (fence_current (h_lease h) (h_owner h) (h_fence h) now_ts) in
  if negb current then
    run! db_mod (fun s => set_states (alter (close_uncertain "lease_fence_lost_before_result" now_ts) (h_attempt h) (states s)) s) then
    db_ret true
  else
    do! mine := db_get (own_state h) in
    match mine with
    | None => db_raise (ERuntime "delivery attempt is no longer in flight")
    | Some st =>
        let retry := if decide (outcome = retryable_failed)
                     then now_ts + retry_delay outcome (h_no h) retry_after_sec else 0 in
        run! db_mod (fun s => set_states (<[h_attempt h :=
              mkState outcome (st_lease st) (st_fence st) retry now_ts (str_take 500 detail)]> (states s)) s) then
        do! completed_at := db_lift (utc_text now_ts) in
        do! rs := db_get results in
        if existsb (fun kv => String.eqb (rs_attempt (snd kv)) (h_attempt h)) (map_to_list rs)
        then db_raise integrity_error else
        do! rs := db_lift (insert_unique result_id (mkResult (h_attempt h) (h_intent h) success status_code
                    (str_take 500 detail) (Z.max 0 retry_after_sec) completed_at now_ts) rs) in
        run! db_mod (set_results rs) then
        db_ret false
    end.

Definition finish_delivery_attempt (h : attempt) (success : bool) (status_code : Z) (detail : string)
    (retry_after_sec now_ts : Z) (outcome : attempt_state) : store -> res string * store :=
  before_tx (demand (negb (bool_decide (outcome = in_flight))) "invalid delivery attempt outcome state") (fun _ =>
  before_tx (stable_id "res" [VStr (h_attempt h); VBool success; VInt status_code; VInt now_ts; VStr (str_take 200 detail)])
    (fun result_id s =>
  match transaction (record_outcome h result_id detail success status_code retry_after_sec now_ts outcome) s with
  | (Ok true, s') => (Err (ERuntime "delivery lease fence was lost before result persistence"), s')
  | (Ok false, s') => (Ok result_id, s')
  | (Err e, s') => (Err e, s')
  end)).

(** ** Quarantine and the read model *)
Definition stale (now timeout : Z) (id : string) (s : store) : bool :=
  existsb (fun a => String.eqb (at_id a) id && (at_started_ts a <=? now - Z.max 1 timeout)) (attempts s).

Definition quarantined (now timeout : Z) (s : store) (id : string) (st : state_row) : bool :=
  bool_decide (st_state st = in_flight) && stale now timeout id s.

Definition quarantine_states (now timeout : Z) (s : store) : gmap string state_row :=
  map_imap (fun id st => Some (if quarantined now timeout s id st
                               then close_uncertain "writer_lost_before_result" now st else st)) (states s).

Definition quarantine_stale_delivery_attempts (now_ts timeout : Z) : store -> res Z * store :=
  transaction (
    do! rows := db_get (fun s => List.filter (fun kv => quarantined now_ts timeout s (fst kv) (snd kv)) (map_to_list (states s))) in
    run! db_mod (fun s => set_states (quarantine_states now_ts timeout s) s) then
    db_ret (Z.of_nat (length rows))).

Record delivery_view : Type := mkView { dl_attempts : list (attempt_row * state_row); dl_results : list (string * result_row) }.
Definition by_no (x y : attempt_row * state_row) : Prop := at_no (fst x) <= at_no (fst y).
#[local] Instance by_no_dec x y : Decision (by_no x y).
Proof. unfold by_no. apply _. Defined.
Definition by_completed (x y : string * result_row) : Prop :=
  key_le (rs_completed_ts (snd x), fst x) (rs_completed_ts (snd y), fst y).
#[local] Instance by_completed_dec x y : Decision (by_completed x y).
Proof. unfold by_completed. apply _. Defined.

Definition delivery_state (id : string) (s : store) : delivery_view :=
  mkView
    (merge_sort by_no (omap (fun a => option_map (pair a) (states s !! at_id a)) (attempts_of id s)))
    (merge_sort by_completed (List.filter (fun kv => String.eqb (rs_intent (snd kv)) id) (map_to_list (results s)))).

(** No attempt yet, or the latest one failed retryably and its delay has passed. *)
Definition retry_ready (id : string) (now : Z) (s : store) : bool :=
  match attempts_of id s with
  | [] => true
  | _ => existsb (fun a => (at_no a =? max_attempt_no id s) &&
           match states s !! at_id a with
           | Some st => bool_decide (st_state st = retryable_failed) && (st_next_retry st <=? now)
           | None => false
           end) (attempts_of id s)
  end.

Definition pending (id : string) (max_attempts : Z) (s : store) : bool :=
  deliverable id s && (attempt_count id s <? Z.max 1 max_attempts) && negb (blocked id s).

Definition due (now max_attempts : Z) (s : store) (r : intent_row) : bool :=
  let id := intent_id (ir_item r) in
  pending id max_attempts s && (ir_not_before_ts r <=? now) && retry_ready id now s.

Definition due_rows (now max_attempts limit : Z) (s : store) : list intent_row :=
  take (Z.to_nat (Z.max 1 limit)) (merge_sort by_due (List.filter (due now max_attempts s) (intent_rows s))).

Definition due_intents (now max_attempts limit : Z) (s : store) : res (list NotificationIntent) :=
  load_intents (due_rows now max_attempts limit s).

Definition undelivered_intent_count (max_attempts : Z) (s : store) : Z :=
  Z.of_nat (length (List.filter (fun r => pending (intent_id (ir_item r)) max_attempts s) (intent_rows s))).

(** GROUP BY state of [delivery_outbox_counts]. *)
Definition state_count (st : attempt_state) (s : store) : Z :=
  Z.of_nat (length (List.filter (fun kv => bool_decide (st_state (snd kv) = st)) (map_to_list (states s)))).

(** All attempts used and none of them conclusive or still unknown. *)
Definition is_exhausted (max_attempts : Z) (s : store) (kv : string * delivery_row) : bool :=
  String.eqb (dv_mode (snd kv)) "production" && (dv_eligible (snd kv) =? 1) &&
  (Z.max 1 max_attempts <=? attempt_count (fst kv) s) &&
  negb (existsb (fun a => match state_of a s with Some st => blocks st && negb (bool_decide (st = in_flight)) | None => false end)
          (attempts_of (fst kv) s)).

Record outbox_counts : Type := mkCounts { shadow_quarantined : Z; exhausted : Z; by_state : attempt_state -> Z }.
Definition delivery_outbox_counts (max_attempts : Z) (s : store) : outbox_counts :=
  mkCounts
    (Z.of_nat (length (List.filter (fun kv => String.eqb (dv_mode (snd kv)) "shadow" && (dv_eligible (snd kv) =? 0)) (map_to_list (deliveries s)))))
    (Z.of_nat (length (List.filter (is_exhausted max_attempts s) (map_to_list (deliveries s)))))
    (fun st => state_count st s).

(** ** The calls of the repository, as data

    [NotificationDispatchRepository] (storage/ports.py) with the epoch and intent
    writers.  An intent reaches [append_intent] only after its constructor
    accepted it. *)
Inductive call : Type :=
  | CAcquire (name owner : string) (now ttl : Z)
  | CRenew (name owner : string) (token now ttl : Z)
  | CRelease (name owner : string) (token : option Z)
  | CQuarantine (now timeout : Z)
  | CBegin (id owner name : string) (token now : Z)
  | CFinish (h : attempt) (success : bool) (status : Z) (detail : string) (retry_after now : Z) (outcome : attempt_state)
  | CActivate (cutover activated policy writer note : string)
  | CClose (id closed : string)
  | CAppend (item : NotificationIntent) (epoch : option string).

Definition run_call (c : call) (s : store) : store :=
  match c with
  | CAcquire name owner now ttl => snd (acquire_fenced_lease name owner now ttl s)
  | CRenew name owner token now ttl => snd (renew_fenced_lease name owner token now ttl s)
  | CRelease name owner token => snd (release_lease name owner token s)
  | CQuarantine now timeout => snd (quarantine_stale_delivery_attempts now timeout s)
  | CBegin id owner name token now => snd (begin_delivery_attempt id owner name token now s)
  | CFinish h ok status detail retry now outcome => snd (finish_delivery_attempt h ok status detail retry now outcome s)
  | CActivate cutover activated policy writer note =>
      snd (activate_delivery_epoch cutover activated policy writer note s)
  | CClose id closed => snd (close_delivery_epoch id closed s)
  | CAppend item epoch =>
      match intent_init item with
      | Ok i => snd (transaction (append_intent i epoch) s)
      | Err _ => s
      end
  end.

Definition run_calls (cs : list call) (s : store) : store := fold_left (fun s c => run_call c s) cs s.
End Outbox.
