(* ===== verification/OutboxProofs.v ===== *)
(** * Notification outbox: histories of delivery attempts and fenced leases

    What every sequence of repository calls keeps: attempts are numbered without
    gaps, at most the latest is open, a conclusive one is the last, and a fencing
    token that was superseded is never accepted again. *)
From S2P Require Import Prelude PyVal UtcTime Contracts Store Outbox.

Section Frames.
Context `{FromIso} `{CanonicalSha}.

(** A change of the attempt tables: nothing, a state leaving [in_flight], or one
    new attempt. *)
Definition advance (m m' : gmap string state_row) : Prop := forall id,
  match m !! id, m' !! id with
  | None, None => True
  | Some st, Some st' => st' = st \/ (st_state st = in_flight /\ st_state st' <> in_flight)
  | _, _ => False
  end.

Inductive attempts_step (s s' : store) : Prop :=
  | as_keep : attempts s' = attempts s -> advance (states s) (states s') -> attempts_step s s'
  | as_new row st : attempts s' = attempts s ++ [row] -> states s' = <[at_id row := st]> (states s) ->
      states s !! at_id row = None -> st_state st = in_flight -> blocked (at_intent row) s = false ->
      at_no row = max_attempt_no (at_intent row) s + 1 -> attempts_step s s'.

Lemma advance_refl m : advance m m.
Proof. intros id. destruct (m !! id); auto. Qed.

Lemma as_same s s' : attempts s' = attempts s -> states s' = states s -> attempts_step s s'.
Proof. intros Ha Hs. apply as_keep; [done|]. rewrite Hs. apply advance_refl. Qed.

(** A committed or rolled back transaction. *)
Lemma transaction_snd {A} (P : store -> Prop) (body : Db A) s :
  P s -> (forall a s', body s = Ok (a, s') -> P s') -> P (snd (transaction body s)).
Proof.
  intros Hs Hb. unfold transaction. destruct (body s) as [[a s']|e] eqn:E; [by apply (Hb a) | done].
Qed.

Lemma before_tx_snd {A B} (P : store -> Prop) (m : res A) (k : A -> store -> res B * store) s :
  P s -> (forall a, m = Ok a -> P (snd (k a s))) -> P (snd (before_tx m k s)).
Proof. intros Hs Hk. unfold before_tx. destruct m; [by apply Hk | done]. Qed.

(** Calls that leave the attempts, intents and epochs alone. *)
Definition lease_only (s s' : store) : Prop :=
  attempts s' = attempts s /\ states s' = states s /\ intents s' = intents s /\ deliveries s' = deliveries s
  /\ epochs s' = epochs s /\ results s' = results s.
Definition epoch_only (s s' : store) : Prop :=
  attempts s' = attempts s /\ states s' = states s /\ intents s' = intents s /\ deliveries s' = deliveries s
  /\ leases s' = leases s /\ fences s' = fences s /\ results s' = results s.

Lemma acquire_frame name owner now ttl s : lease_only s (snd (acquire_fenced_lease name owner now ttl s)).
Proof.
  unfold acquire_fenced_lease. apply (before_tx_snd (lease_only s)); [done|]. intros at1 _.
  apply (before_tx_snd (lease_only s)); [done|]. intros at2 _.
  apply (transaction_snd (lease_only s)); [done|]. intros a s' Hb. inv_db Hb.
  assert (Hu : forall t, lease_only s (upsert_lease name owner at1 at2 now t s)).
  { intros t. unfold upsert_lease. by repeat case_match. }
  case_in Hb; inv_db Hb; apply Hu.
Qed.

Lemma renew_frame name owner token now ttl s : lease_only s (snd (renew_fenced_lease name owner token now ttl s)).
Proof.
  unfold renew_fenced_lease. apply (transaction_snd (lease_only s)); [done|]. intros a s' Hb. inv_db Hb.
  case_in Hb; inv_db Hb; [done|]. case_in Hb; inv_db Hb; done.
Qed.

Lemma release_frame name owner token s : lease_only s (snd (release_lease name owner token s)).
Proof.
  unfold release_lease. apply (transaction_snd (lease_only s)); [done|]. intros a s' Hb. inv_db Hb.
  destruct (negb _); [by inv_db Hb|]. by apply db_mod_Ok in Hb as ->.
Qed.

Lemma activate_frame c a p w n s : epoch_only s (snd (activate_delivery_epoch c a p w n s)).
Proof.
  unfold activate_delivery_epoch.
  do 5 (apply (before_tx_snd (epoch_only s)); [done|]; intros ? _).
  apply (transaction_snd (epoch_only s)); [done|]. intros ? s' Hb. inv_db Hb.
  unfold insert_epoch in E. inv_db E. case_in E; inv_db E. by apply db_mod_Ok in E as ->.
Qed.

Lemma close_frame id c s : epoch_only s (snd (close_delivery_epoch id c s)).
Proof.
  unfold close_delivery_epoch. apply (before_tx_snd (epoch_only s)); [done|]. intros ts _.
  apply (transaction_snd (epoch_only s)); [done|]. intros ? s' Hb.
  inv_db Hb. case_in Hb; [case_in Hb|]; inv_db Hb. by apply db_mod_Ok in Hb as ->.
Qed.

(** [append_intent] only extends the intent and delivery tables. *)
Definition intents_grow (s s' : store) : Prop :=
  attempts s' = attempts s /\ states s' = states s /\ leases s' = leases s /\ fences s' = fences s
  /\ epochs s' = epochs s /\ results s' = results s
  /\ (forall id r, intents s !! id = Some r -> intents s' !! id = Some r)
  /\ (forall id r, deliveries s !! id = Some r -> deliveries s' !! id = Some r).

Lemma intents_grow_refl s : intents_grow s s.
Proof. by repeat split. Qed.
Lemma intents_grow_trans s1 s2 s3 : intents_grow s1 s2 -> intents_grow s2 s3 -> intents_grow s1 s3.
Proof.
  intros (?&?&?&?&?&?&Hi&Hd) (?&?&?&?&?&?&Hi'&Hd'). repeat split; try congruence; eauto.
Qed.

Lemma eligibility_pure item epoch s a s' : eligibility item epoch s = Ok (a, s') -> s' = s.
Proof.
  unfold eligibility. destruct epoch as [id|]; [|by intros [= _ ->]]. intros Hb. inv_db Hb.
  case_in Hb; [|done]. case_in Hb; [done|]. inv_db Hb. case_in Hb; [done|]. by inv_db Hb.
Qed.

Lemma insert_intent_grow item s b s' : insert_intent item s = Ok (b, s') ->
  intents_grow s s' /\ deliveries s' = deliveries s
  /\ (forall id r, intents s' !! id = Some r -> intents s !! id = Some r \/ (id = intent_id item /\ ir_item r = item)).
Proof.
  intros Hb. unfold insert_intent in Hb. inv_db Hb. case_in Hb.
  { inv_db Hb. split_and!; [apply intents_grow_refl | done | auto]. }
  inv_db Hb. destruct (negb _); [done|]. inv_db Hb. unfold intent_conflict in E1.
  destruct (intents s !! intent_id item) eqn:Ei; [done|]. split_and!; [|done|].
  - repeat split; simpl; auto. intros id r Hr. rewrite lookup_insert_ne; [done | congruence].
  - simpl. intros id r. rewrite lookup_insert_Some. intros [[<- <-]|[_ ?]]; auto.
Qed.

Lemma insert_delivery_grow id row s b s' : insert_delivery id row s = Ok (b, s') ->
  intents_grow s s' /\ intents s' = intents s
  /\ (forall i r, deliveries s' !! i = Some r -> deliveries s !! i = Some r \/ is_Some (intents s !! i)).
Proof.
  intros Hb. unfold insert_delivery in Hb. inv_db Hb. case_in Hb.
  { inv_db Hb. split; [apply intents_grow_refl | auto]. }
  inv_db Hb. case_in Hb; [done|]. apply db_mod_Ok in Hb as ->. apply negb_false_iff in E0.
  rewrite bool_decide_eq_true in E0. split; [|split; [done|]].
  - repeat split; simpl; auto. intros i r Hr. rewrite lookup_insert_ne; [done | congruence].
  - simpl. intros i r. rewrite lookup_insert_Some. intros [[<- <-]|[_ ?]]; auto.
Qed.

Lemma append_intent_grow item epoch s b s' : append_intent item epoch s = Ok (b, s') ->
  intents_grow s s'
  /\ (forall id r, intents s' !! id = Some r -> intents s !! id = Some r \/ (id = intent_id item /\ ir_item r = item))
  /\ (forall i r, deliveries s' !! i = Some r -> deliveries s !! i = Some r \/ is_Some (intents s' !! i)).
Proof.
  intros Hb. unfold append_intent in Hb. inv_db Hb. apply eligibility_pure in E as ->.
  destruct v as [[[mode ep] el] reason]. inv_db Hb.
  apply insert_intent_grow in E as (Hg1 & Hd1 & Hi1). apply insert_delivery_grow in E1 as (Hg2 & Hi2 & Hd).
  split; [by eapply intents_grow_trans|]. rewrite Hi2. split; [done|].
  intros i r Hr. rewrite <- Hd1. auto.
Qed.

(** ** Attempts *)
Lemma begin_Ok id owner name token now s h s' :
  begin_delivery_attempt id owner name token now s = (Ok h, s') ->
  fence_current name owner token now s = true /\ deliverable id s = true /\ blocked id s = false
  /\ exists aid started, let no := max_attempt_no id s + 1 in
     stable_id "try" [VStr id; VInt no] = Ok aid /\ utc_text now = Ok started
     /\ states s !! aid = None
     /\ existsb (fun a => String.eqb (at_id a) aid || (String.eqb (at_intent a) id && (at_no a =? no))) (attempts s) = false
     /\ h = mkHandle aid id no now owner name token
     /\ s' = set_states (<[aid := mkState in_flight name token 0 0 ""]> (states s))
               (set_attempts (attempts s ++ [mkAttempt aid id no owner started now]) s).
Proof.
  intros Hb. unfold begin_delivery_attempt in Hb. apply transaction_cases in Hb as [(a & [= <-] & Hb)|(e & [=] & _)].
  inv_db Hb. db_guard Hb Ef. db_guard Hb Ed. db_guard Hb Ek. unfold insert_attempt in E1. inv_db E1.
  db_guard E1 Ex. apply db_mod_Ok in E1 as ->.
  unfold insert_unique in E2. simpl in *. destruct (states s !! v) eqn:Es; [done|]. injection E2 as <-.
  do 3 (split; [done|]). exists v, v0. done.
Qed.

Lemma begin_cases id owner name token now s :
  (exists h s', begin_delivery_attempt id owner name token now s = (Ok h, s'))
  \/ (exists e, begin_delivery_attempt id owner name token now s = (Err e, s)).
Proof.
  destruct (begin_delivery_attempt id owner name token now s) as [r s'] eqn:E. unfold begin_delivery_attempt in E.
  apply transaction_cases in E as [(a & -> & Hb)|(e & -> & ->)]; eauto.
Qed.

Lemma advance_alter f k m :
  (forall st, m !! k = Some st -> f st = st \/ (st_state st = in_flight /\ st_state (f st) <> in_flight)) ->
  advance m (alter f k m).
Proof.
  intros Hf id. destruct (decide (id = k)) as [->|Hne].
  - rewrite lookup_alter_eq. destruct (m !! k) eqn:E; simpl; [by apply Hf | done].
  - rewrite lookup_alter_ne by done. destruct (m !! id); auto.
Qed.

Lemma close_uncertain_advance d now st :
  close_uncertain d now st = st \/ (st_state st = in_flight /\ st_state (close_uncertain d now st) <> in_flight).
Proof. unfold close_uncertain. destruct (st_state st) eqn:E; auto. Qed.

Lemma own_state_Some h s st : own_state h s = Some st ->
  states s !! h_attempt h = Some st /\ st_state st = in_flight /\ st_lease st = h_lease h /\ st_fence st = h_fence h.
Proof.
  unfold own_state. destruct (states s !! h_attempt h) as [st'|]; [|done].
  destruct (_ && _) eqn:E; [|done]. intros [= ->].
  rewrite !andb_true_iff, bool_decide_eq_true, String.eqb_eq, Z.eqb_eq in E. tauto.
Qed.

Definition attempt_only (s s' : store) : Prop :=
  attempts s' = attempts s /\ advance (states s) (states s') /\ intents s' = intents s
  /\ deliveries s' = deliveries s /\ leases s' = leases s /\ fences s' = fences s /\ epochs s' = epochs s.

Lemma attempt_only_refl s : attempt_only s s.
Proof. repeat split. apply advance_refl. Qed.

Lemma record_outcome_frame h rid detail ok status retry now outcome s b s' :
  outcome <> in_flight ->
  record_outcome h rid detail ok status retry now outcome s = Ok (b, s') -> attempt_only s s'.
Proof.
  intros Ho Hb. unfold record_outcome in Hb. inv_db Hb. destruct (negb _).
  { inv_db Hb. repeat split. apply advance_alter. intros st _. apply close_uncertain_advance. }
  inv_db Hb. destruct (own_state h s) as [st|] eqn:Eo; [|done]. apply own_state_Some in Eo as (Hs & Hf & _).
  inv_db Hb. db_guard Hb Ex. repeat split. intros id. simpl.
  destruct (decide (id = h_attempt h)) as [->|Hne].
  - rewrite Hs, lookup_insert_eq. auto.
  - rewrite lookup_insert_ne by done. destruct (states s !! id); auto.
Qed.

Lemma finish_frame h ok status detail retry now outcome s :
  attempt_only s (snd (finish_delivery_attempt h ok status detail retry now outcome s)).
Proof.
  unfold finish_delivery_attempt. apply (before_tx_snd (attempt_only s)); [apply attempt_only_refl|].
  intros ? Hd. apply (before_tx_snd (attempt_only s)); [apply attempt_only_refl|]. intros rid _.
  assert (outcome <> in_flight) as Ho.
  { unfold demand in Hd. destruct (bool_decide_reflect (outcome = in_flight)); [done|done]. }
  destruct (transaction _ s) as [r s'] eqn:E. apply transaction_cases in E as [(b & -> & Hb)|(e & -> & ->)].
  - apply record_outcome_frame in Hb; [|done]. by destruct b.
  - apply attempt_only_refl.
Qed.

Lemma quarantine_frame now timeout s : attempt_only s (snd (quarantine_stale_delivery_attempts now timeout s)).
Proof.
  unfold quarantine_stale_delivery_attempts. apply (transaction_snd (attempt_only s)); [apply attempt_only_refl|].
  intros n s' Hb. inv_db Hb. repeat split. intros id. simpl. unfold quarantine_states.
  rewrite map_lookup_imap. destruct (states s !! id) as [st|]; simpl; [|done].
  destruct (quarantined now timeout s id st); [apply close_uncertain_advance | auto].
Qed.

Lemma run_call_step c s : attempts_step s (run_call c s).
Proof.
  destruct c; simpl.
  - destruct (acquire_frame name owner now ttl s) as (?&?&_). by apply as_same.
  - destruct (renew_frame name owner token now ttl s) as (?&?&_). by apply as_same.
  - destruct (release_frame name owner token s) as (?&?&_). by apply as_same.
  - destruct (quarantine_frame now timeout s) as (?&?&_). by apply as_keep.
  - destruct (begin_cases id owner name token now s) as [(h & s' & Hb)|(e & ->)]; [|by apply as_same].
    rewrite Hb. apply begin_Ok in Hb as (_ & _ & Hk & aid & started & Hid & _ & Hs & _ & _ & ->).
    eapply as_new; simpl; try done.
  - destruct (finish_frame h success status detail retry_after now outcome s) as (?&?&_). by apply as_keep.
  - destruct (activate_frame cutover activated policy writer note s) as (?&?&_). by apply as_same.
  - destruct (close_frame id closed s) as (?&?&_). by apply as_same.
  - destruct (intent_init item) as [i|]; [|by apply as_same].
    apply (transaction_snd (attempts_step s)); [by apply as_same|]. intros b s' Hb.
    apply append_intent_grow in Hb as ((?&?&_)&_). by apply as_same.
Qed.
End Frames.

(** ** Steps of the database

    A step is one repository call, or a write of the incident ledger, which
    leaves the outbox tables alone. *)
Definition same_outbox (s s' : store) : Prop :=
  attempts s' = attempts s /\ states s' = states s /\ leases s' = leases s /\ fences s' = fences s
  /\ intents s' = intents s /\ deliveries s' = deliveries s /\ epochs s' = epochs s /\ results s' = results s.

Inductive step `{FromIso} `{CanonicalSha} (s : store) : store -> Prop :=
  | step_call c : step s (run_call c s)
  | step_ledger s' : same_outbox s s' -> step s s'.

Lemma step_attempts `{FromIso} `{CanonicalSha} s s' : step s s' -> attempts_step s s'.
Proof. intros [c|s'' (?&?&_)]; [apply run_call_step | by apply as_same]. Qed.

Section History.
Context `{FromIso} `{CanonicalSha}.

(** Attempts of one intent are numbered 1, 2, ... in order, and all but the
    latest have failed retryably. *)
Definition numbered (l : list attempt_row) : Prop := map at_no l = map Z.of_nat (seq 1 (length l)).
Definition only_last_open (l : list attempt_row) (s : store) : Prop :=
  forall pre a post, l = pre ++ a :: post -> post <> [] -> state_of a s = Some retryable_failed.

Record history_ok (s : store) : Prop := {
  ho_states : forall a, In a (attempts s) -> is_Some (states s !! at_id a);
  ho_numbers : forall id, numbered (attempts_of id s);
  ho_last : forall id, only_last_open (attempts_of id s) s }.

Lemma history_start s : attempts s = [] -> history_ok s.
Proof.
  intros Ha. split; unfold attempts_of; rewrite Ha; simpl; [done | done |].
  intros id pre a post Hl _. by destruct pre.
Qed.

Lemma fold_max_seq n k : fold_right Z.max 0 (map Z.of_nat (seq k (S n))) = Z.of_nat (k + n).
Proof.
  revert k. induction n as [|n IH]; intros k.
  - simpl. lia.
  - change (seq k (S (S n))) with (k :: seq (S k) (S n)). simpl fold_right in *. rewrite IH. lia.
Qed.

Lemma max_of_numbered id s : numbered (attempts_of id s) -> max_attempt_no id s = attempt_count id s.
Proof.
  unfold numbered, max_attempt_no, attempt_count. intros ->.
  destruct (length (attempts_of id s)) as [|n]; [done|]. rewrite fold_max_seq. lia.
Qed.

Lemma numbered_snoc l a : numbered l -> at_no a = Z.of_nat (length l) + 1 -> numbered (l ++ [a]).
Proof.
  unfold numbered. intros Hl Ha. rewrite List.map_app, Hl, length_app. simpl length.
  rewrite seq_app, List.map_app. f_equal. simpl. f_equal. lia.
Qed.

Lemma attempts_of_snoc id s s' row : attempts s' = attempts s ++ [row] ->
  attempts_of id s' = if String.eqb (at_intent row) id then attempts_of id s ++ [row] else attempts_of id s.
Proof.
  intros Ha. unfold attempts_of. rewrite Ha, List.filter_app. simpl.
  destruct (String.eqb (at_intent row) id); [done | by rewrite app_nil_r].
Qed.

Lemma attempts_of_in id s a : In a (attempts_of id s) <-> In a (attempts s) /\ at_intent a = id.
Proof. unfold attempts_of. by rewrite filter_In, String.eqb_eq. Qed.

Lemma unblocked id s a : history_ok s -> blocked id s = false -> In a (attempts_of id s) ->
  state_of a s = Some retryable_failed.
Proof.
  intros Ho Hb Hin. unfold blocked in Hb. pose proof (proj1 (attempts_of_in _ _ _) Hin) as [Ha _].
  destruct (ho_states s Ho a Ha) as [st Hst].
  rewrite <- not_true_iff_false, existsb_exists in Hb. unfold state_of in *. rewrite Hst. simpl.
  destruct (blocks (st_state st)) eqn:Ek; [|by destruct (st_state st)].
  exfalso. apply Hb. exists a. by rewrite Hst.
Qed.

Lemma history_step s s' : history_ok s -> attempts_step s s' -> history_ok s'.
Proof.
  intros Ho [Ha Hadv | row st Ha Hs Hfresh Hst Hb Hno].
  - assert (Hl : forall id, attempts_of id s' = attempts_of id s) by (intros id; unfold attempts_of; by rewrite Ha).
    split.
    + intros a Hin. rewrite Ha in Hin. destruct (ho_states s Ho a Hin) as [st Hst].
      specialize (Hadv (at_id a)). rewrite Hst in Hadv. destruct (states s' !! at_id a); [eauto | done].
    + intros id. rewrite Hl. apply Ho.
    + intros id pre a post. rewrite Hl. intros E Hp. pose proof (ho_last s Ho id pre a post E Hp) as Hr.
      unfold state_of in *. specialize (Hadv (at_id a)). destruct (states s !! at_id a) as [st|] eqn:Es; [|done].
      destruct (states s' !! at_id a) as [st'|]; [|done]. simpl in *. destruct Hadv as [->|[Hf _]]; [done|congruence].
  - assert (Hkeep : forall a, In a (attempts s) -> states s' !! at_id a = states s !! at_id a).
    { intros a Hin. rewrite Hs, lookup_insert_ne; [done|]. intros E. destruct (ho_states s Ho a Hin). congruence. }
    split.
    + intros a. rewrite Ha, in_app_iff. intros [Hin|[<-|[]]].
      * rewrite Hkeep by done. by apply Ho.
      * rewrite Hs, lookup_insert_eq. eauto.
    + intros id. rewrite (attempts_of_snoc id s s' row Ha). destruct (String.eqb_spec (at_intent row) id) as [<-|]; [|apply Ho].
      apply numbered_snoc; [apply Ho|]. rewrite Hno, max_of_numbered by apply Ho. done.
    + intros id pre a post. rewrite (attempts_of_snoc id s s' row Ha).
      assert (Hold : In a (attempts_of id s) -> state_of a s = Some retryable_failed -> state_of a s' = Some retryable_failed).
      { intros Hin Hr. unfold state_of. rewrite Hkeep; [done|]. by apply attempts_of_in in Hin as [? _]. }
      destruct (String.eqb_spec (at_intent row) id) as [<-|].
      * intros E Hp. assert (In a (attempts_of (at_intent row) s)) as Hin.
        { destruct post as [|b post _] using rev_ind; [done|].
          rewrite app_comm_cons, app_assoc in E. apply app_inj_tail in E as [-> _].
          apply in_app_iff. right. by left. }
        apply Hold; [done|]. by eapply unblocked.
      * intros E Hp. apply Hold; [rewrite E; apply in_app_iff; right; by left|]. by apply (ho_last s Ho id pre a post).
Qed.

Lemma history_steps s s' : rtc step s s' -> history_ok s -> history_ok s'.
Proof. induction 1 as [|s s1 s' Hs _ IH]; [done|]. intros Ho. apply IH. by eapply history_step, step_attempts. Qed.

(** A conclusive state is final and closes the intent. *)
Definition conclusive (st : attempt_state) : bool :=
  match st with succeeded | permanent_failed | uncertain => true | _ => false end.

Lemma conclusive_step s s' id a st : attempts_step s s' -> history_ok s -> In a (attempts_of id s) ->
  state_of a s = Some st -> conclusive st = true ->
  attempts_of id s' = attempts_of id s /\ state_of a s' = Some st.
Proof.
  intros Hstep Ho Hin Hst Hc. unfold state_of in *. destruct (states s !! at_id a) as [sr|] eqn:Es; [|done].
  simpl in Hst. injection Hst as Hst. destruct Hstep as [Ha Hadv | row st0 Ha Hs Hfresh Hst0 Hb Hno].
  - split; [unfold attempts_of; by rewrite Ha|]. specialize (Hadv (at_id a)). rewrite Es in Hadv.
    destruct (states s' !! at_id a) as [sr'|]; [|done]. destruct Hadv as [->|[Hf _]]; simpl; [by rewrite Hst|].
    rewrite Hf in Hst. by subst st.
  - rewrite (attempts_of_snoc id s s' row Ha). destruct (String.eqb_spec (at_intent row) id) as [E|].
    + rewrite E in Hb. pose proof (unblocked id s a Ho Hb Hin) as Hr. unfold state_of in Hr.
      rewrite Es in Hr. simpl in Hr. injection Hr as Hr. rewrite Hr in Hst. by subst st.
    + split; [done|]. rewrite Hs, lookup_insert_ne, Es by congruence. simpl. by rewrite Hst.
Qed.

Lemma conclusive_steps s s' id a st : rtc step s s' -> history_ok s -> In a (attempts_of id s) ->
  state_of a s = Some st -> conclusive st = true ->
  attempts_of id s' = attempts_of id s /\ state_of a s' = Some st.
Proof.
  induction 1 as [s|s s1 s' Hs Hr IH]; [done|]. intros Ho Hin Hst Hc.
  destruct (conclusive_step s s1 id a st) as [Ha Hst1]; try done; [by apply step_attempts|].
  rewrite <- Ha in Hin. destruct IH as [-> ?]; try done. by eapply history_step, step_attempts.
Qed.
End History.

(** ** Identifiers of attempts and results

    They are digests of what the row says, and a result belongs to an attempt
    that has left [in_flight]. *)
Section Identifiers.
Context `{FromIso} `{CanonicalSha}.

Lemma str_take_take n m t : (n <= m)%nat -> str_take n (str_take m t) = str_take n t.
Proof.
  unfold str_take. revert m t. induction n as [|n IH]; intros m t Hn; [by destruct t, m|].
  destruct m as [|m]; [lia|]. destruct t as [|c t]; [done|]. simpl. f_equal. apply IH. lia.
Qed.

Definition attempt_named (a : attempt_row) : Prop := stable_id "try" [VStr (at_intent a); VInt (at_no a)] = Ok (at_id a).
Definition result_named (id : string) (r : result_row) : Prop :=
  stable_id "res" [VStr (rs_attempt r); VBool (rs_success r); VInt (rs_status r); VInt (rs_completed_ts r); VStr (str_take 200 (rs_detail r))] = Ok id.
Record names_ok (s : store) : Prop := {
  no_attempts : forall a, In a (attempts s) -> attempt_named a;
  no_states : forall id, is_Some (states s !! id) -> exists a, In a (attempts s) /\ at_id a = id;
  no_results : forall id r, results s !! id = Some r ->
    result_named id r /\ exists st, states s !! rs_attempt r = Some st /\ st_state st <> in_flight }.

Lemma names_start s : attempts s = [] -> states s = ∅ -> results s = ∅ -> names_ok s.
Proof.
  intros Ha Hs Hr. split; rewrite ?Ha, ?Hs, ?Hr; [done|..].
  - intros id. rewrite lookup_empty. by intros [].
  - intros id r. by rewrite lookup_empty.
Qed.

Lemma advance_left m m' id st : advance m m' -> m !! id = Some st -> st_state st <> in_flight -> m' !! id = Some st.
Proof. intros Hm Hst Hne. specialize (Hm id). rewrite Hst in Hm. destruct (m' !! id); [|done]. by destruct Hm as [->|[]]. Qed.

(** States may leave [in_flight]; nothing else changes. *)
Lemma names_advance s s' : names_ok s -> attempts s' = attempts s -> advance (states s) (states s') -> results s' = results s -> names_ok s'.
Proof.
  intros [H1 H2 H3] Ha Hs Hr. split; rewrite ?Ha, ?Hr; [done|..].
  - intros id Hid. apply H2. specialize (Hs id). destruct (states s !! id); [done|]. by destruct Hid as [x Hx]; rewrite Hx in Hs.
  - intros id r Hid. destruct (H3 id r Hid) as (Hn & st & Hst & Hne). split; [done|]. exists st. split; [|done]. by eapply advance_left.
Qed.
Lemma names_same s s' : names_ok s -> attempts s' = attempts s -> states s' = states s -> results s' = results s -> names_ok s'.
Proof. intros Hn Ha Hs. apply names_advance; [done..|]. rewrite Hs. apply advance_refl. Qed.

Lemma names_begin id owner name token now s h s' : names_ok s -> begin_delivery_attempt id owner name token now s = (Ok h, s') -> names_ok s'.
Proof.
  intros [H1 H2 H3] Hb. apply begin_Ok in Hb as (_ & _ & _ & aid & started & Hid & _ & Hfresh & _ & _ & ->). split; simpl.
  - intros a [Ha|[<-|[]]]%in_app_iff; [by apply H1|done].
  - intros i. destruct (decide (i = aid)) as [->|Hne]; [intros _; eexists; split; [apply in_app_iff; right; by left|done]|].
    rewrite lookup_insert_ne by done. intros (a & Ha & Hi)%H2. exists a. split; [|done]. apply in_app_iff. by left.
  - intros i r Hr. destruct (H3 i r Hr) as (Hn & st & Hst & Hne). split; [done|]. exists st. split; [|done].
    rewrite lookup_insert_ne; [done|]. intros E. by rewrite <- E, Hfresh in Hst.
Qed.

(** What a finished attempt writes, and the result that can be in its way. *)
Lemma record_outcome_results h rid text ok status retry now outcome s b s' :
  record_outcome h rid text ok status retry now outcome s = Ok (b, s') -> results s' = results s \/
  (exists st, states s !! h_attempt h = Some st /\ states s' = <[h_attempt h := mkState outcome (st_lease st) (st_fence st)
      (if decide (outcome = retryable_failed) then now + retry_delay outcome (h_no h) retry else 0) now (str_take 500 text)]> (states s))
  /\ exists row, results s' = <[rid := row]> (results s) /\ rs_attempt row = h_attempt h /\ rs_success row = ok /\ rs_status row = status
     /\ rs_completed_ts row = now /\ rs_detail row = str_take 500 text.
Proof.
  intros Hb. unfold record_outcome in Hb. inv_db Hb. destruct (negb _); [inv_db Hb; by left|]. right.
  inv_db Hb. destruct (own_state h s) as [st|] eqn:Eo; [|done]. apply own_state_Some in Eo as (Hs & _).
  inv_db Hb. db_guard Hb Ex. unfold insert_unique in *. inv_db Hb. split; [by exists st|].
  simpl in *. case_match; [done|]. simplify_eq. eexists. split; [done|]. done.
Qed.
Lemma names_finish h ok status text retry now outcome s :
  names_ok s -> names_ok (snd (finish_delivery_attempt h ok status text retry now outcome s)).
Proof.
  intros Hs. pose proof (finish_frame h ok status text retry now outcome s) as Hframe. revert Hframe. unfold finish_delivery_attempt.
  apply (before_tx_snd (fun s' => attempt_only s s' -> names_ok s')); [done|]. intros ? Hd.
  apply (before_tx_snd (fun s' => attempt_only s s' -> names_ok s')); [done|]. intros rid Hrid.
  assert (outcome <> in_flight) as Ho by (unfold demand in Hd; by destruct (bool_decide_reflect (outcome = in_flight))).
  destruct (transaction _ s) as [r s'] eqn:E. intros Hframe.
  assert (attempt_only s s') as (Ha & Hadv & _) by (by destruct r as [[]|]). enough (names_ok s') by (by destruct r as [[]|]).
  apply transaction_cases in E as [(b & -> & Hb)|(e & -> & ->)]; [|done].
  apply record_outcome_results in Hb as [Hr|[(st & Hst & Hs') (row & Hr & E1 & E2 & E3 & E4 & E5)]]; [by eapply names_advance|].
  destruct (names_advance s (set_states (states s') s) Hs eq_refl Hadv eq_refl) as [H1 H2 H3]. simpl in *.
  split; rewrite ?Ha; [done..|]. intros id r0. rewrite Hr, lookup_insert_Some. intros [[<- <-]|[_ Hid]]; [|by apply H3].
  unfold result_named. rewrite E1, E2, E3, E4, E5, str_take_take by lia. split; [done|]. rewrite Hs', lookup_insert_eq. eauto.
Qed.

Lemma names_step s s' : step s s' -> names_ok s -> names_ok s'.
Proof.
  intros [c|s1 (?&?&_&_&_&_&_&?)] Hs; [|by eapply names_same]. clear s'. destruct c; simpl.
  - destruct (acquire_frame name owner now ttl s) as (?&?&_&_&_&?). by eapply names_same.
  - destruct (renew_frame name owner token now ttl s) as (?&?&_&_&_&?). by eapply names_same.
  - destruct (release_frame name owner token s) as (?&?&_&_&_&?). by eapply names_same.
  - destruct (quarantine_frame now timeout s) as (?&?&_). by eapply names_advance.
  - destruct (begin_cases id owner name token now s) as [(h & s' & Hb)|(e & ->)]; [|done]. rewrite Hb. by eapply names_begin.
  - by apply names_finish.
  - destruct (activate_frame cutover activated policy writer note s) as (?&?&_&_&_&_&?). by eapply names_same.
  - destruct (close_frame id closed s) as (?&?&_&_&_&_&?). by eapply names_same.
  - destruct (intent_init item) as [i|]; [|done]. apply (transaction_snd names_ok); [done|]. intros b s' Hb.
    apply append_intent_grow in Hb as ((?&?&_&_&_&?&_)&_). by eapply names_same.
Qed.
Lemma names_steps s s' : rtc step s s' -> names_ok s -> names_ok s'.
Proof. induction 1 as [|s s1 s' Hs _ IH]; [done|]. intros Hn. by eapply IH, names_step. Qed.

(** The next attempt of an intent would be named like another attempt, or the
    result of an attempt like that of another. *)
Definition attempt_collision (id : string) (s : store) : Prop :=
  let no := max_attempt_no id s + 1 in
  exists a, In a (attempts s) /\ (at_intent a <> id \/ at_no a <> no) /\ stable_id "try" [VStr id; VInt no] = Ok (at_id a).
Definition result_collision (attempt_id : string) (ok : bool) (status now : Z) (text : string) (s : store) : Prop :=
  exists rid row, results s !! rid = Some row /\ rs_attempt row <> attempt_id
    /\ stable_id "res" [VStr attempt_id; VBool ok; VInt status; VInt now; VStr (str_take 200 text)] = Ok rid.

Lemma next_no_fresh id s a : In a (attempts s) -> at_intent a <> id \/ at_no a <> max_attempt_no id s + 1.
Proof.
  intros Ha. destruct (decide (at_intent a = id)) as [Hid|]; [right|by left].
  enough (at_no a <= max_attempt_no id s) by lia. assert (In a (attempts_of id s)) as Hin by (by apply attempts_of_in).
  unfold max_attempt_no. clear Ha. induction (attempts_of id s) as [|b l IH]; [done|]. simpl. destruct Hin as [->|Hin]; [lia|]. specialize (IH Hin). lia.
Qed.

Lemma begin_ready id owner name token now s : names_ok s -> fence_current name owner token now s = true ->
  deliverable id s = true -> blocked id s = false -> MIN_TS <= now <= MAX_TS ->
  (exists h s', begin_delivery_attempt id owner name token now s = (Ok h, s'))
  \/ (begin_delivery_attempt id owner name token now s = (Err integrity_error, s) /\ attempt_collision id s).
Proof.
  intros Hok Hf Hd Hb Hn. unfold begin_delivery_attempt, transaction, db_bind, db_get, db_lift.
  rewrite Hf. cbv beta iota delta [negb]. rewrite Hd. cbv beta iota. rewrite Hb. cbv beta iota.
  rewrite (utc_text_ok now Hn). destruct (stable_id "try" [VStr id; VInt (max_attempt_no id s + 1)]) as [aid|] eqn:Eaid; [|done].
  simpl. unfold insert_attempt, db_bind, db_get, db_lift. simpl.
  assert (forall a, In a (attempts s) -> at_id a = aid -> attempt_collision id s) as Hcol.
  { intros a Ha <-. exists a. split; [done|]. split; [by apply next_no_fresh|done]. }
  destruct (existsb _ (attempts s)) eqn:Ex.
  - right. split; [done|]. apply existsb_exists in Ex as (a & Ha & Ex). apply orb_true_iff in Ex as [Ex|Ex].
    + apply String.eqb_eq in Ex. by apply (Hcol a).
    + apply andb_true_iff in Ex as [E1%String.eqb_eq E2%Z.eqb_eq]. by destruct (next_no_fresh id s a Ha).
  - unfold insert_unique. destruct (states s !! aid) eqn:Es; [right|left; eauto]. split; [done|].
    destruct (no_states s Hok aid) as (a & Ha & Hid); [by rewrite Es|]. by apply (Hcol a).
Qed.

Lemma finish_errors h ok status text retry now st s e s' : names_ok s -> st <> in_flight -> MIN_TS <= now <= MAX_TS ->
  finish_delivery_attempt h ok status text retry now st s = (Err e, s') ->
  (e = integrity_error /\ result_collision (h_attempt h) ok status now text s') \/ exists m, e = ERuntime m.
Proof.
  intros Hok Hst Hn. unfold finish_delivery_attempt, before_tx.
  rewrite bool_decide_eq_false_2 by done. cbn [negb demand].
  destruct (stable_id "res" [VStr (h_attempt h); VBool ok; VInt status; VInt now; VStr (str_take 200 text)]) as [rid|] eqn:Erid; [|done].
  unfold transaction, record_outcome, db_bind, db_get, db_lift. rewrite (utc_text_ok now Hn).
  destruct (negb _); simpl; [intros [= <- _]; eauto|].
  destruct (own_state h s) as [own|] eqn:Eo; simpl; [|intros [= <- _]; eauto]. apply own_state_Some in Eo as (Hs & Hf & _).
  assert (forall id row, results s !! id = Some row -> rs_attempt row <> h_attempt h) as Hne.
  { intros id row Hr E. destruct (no_results s Hok id row Hr) as (_ & st' & Hst' & Hf'). rewrite E, Hs in Hst'. by injection Hst' as <-. }
  destruct (existsb _ _) eqn:Ex; simpl.
  - apply existsb_exists in Ex as ([id row] & Hin & Heq%String.eqb_eq). exfalso. apply (Hne id row); [|done].
    apply elem_of_map_to_list. by apply list_elem_of_In.
  - unfold insert_unique. destruct (results s !! rid) as [row|] eqn:Er; simpl; [|done].
    intros [= <- <-]. left. split; [done|]. exists rid, row. split; [done|]. split; [by apply (Hne rid)|done].
Qed.
End Identifiers.

(** ** Fencing *)
Section Fencing.
Context `{FromIso} `{CanonicalSha}.

Definition fence_grows (s s' : store) : Prop := forall name t, fences s !! name = Some t ->
  exists t', fences s' !! name = Some t' /\ t <= t'.

Lemma fence_same s s' : fences s' = fences s -> fence_grows s s'.
Proof. intros Hf name t Ht. exists t. rewrite Hf. split; [done | lia]. Qed.

Lemma upsert_fences name owner a1 a2 now ttl s : fences (upsert_lease name owner a1 a2 now ttl s) = fences s.
Proof. unfold upsert_lease. by repeat case_match. Qed.

Lemma acquire_Ok name owner now ttl s o s' :
  acquire_fenced_lease name owner now ttl s = (Ok o, s') ->
  exists a1 a2, let s1 := upsert_lease name owner a1 a2 now (Z.max 1 ttl) s in
  match o with
  | None => s' = s1 /\ lease_mine name owner now s1 = false
  | Some t => lease_mine name owner now s1 = true /\ t = next_token name s
              /\ s' = set_fences (<[name := t]> (fences s)) s1
  end.
Proof.
  unfold acquire_fenced_lease, before_tx. destruct (utc_text now) as [a1|]; [|done].
  destruct (utc_text (now + Z.max 1 ttl)) as [a2|]; [|done]. intros Hb. exists a1, a2.
  apply transaction_cases in Hb as [(a & [= <-] & Hb)|(e & [=] & _)]. inv_db Hb.
  destruct (lease_mine _ _ _ _) eqn:El; simpl in Hb; inv_db Hb; [|done].
  split; [done|]. unfold next_token. rewrite upsert_fences. split; done.
Qed.

Lemma acquire_fence name owner now ttl s t s' :
  acquire_fenced_lease name owner now ttl s = (Ok (Some t), s') ->
  fences s' !! name = Some t /\ (forall t0, fences s !! name = Some t0 -> t0 < t).
Proof.
  intros Hb. apply acquire_Ok in Hb as (a1 & a2 & _ & -> & ->). simpl. rewrite lookup_insert_eq.
  split; [done|]. unfold next_token. intros t0 ->. lia.
Qed.

Lemma acquire_grows name owner now ttl s : fence_grows s (snd (acquire_fenced_lease name owner now ttl s)).
Proof.
  destruct (acquire_fenced_lease name owner now ttl s) as [[[t|]|e] s'] eqn:E; simpl.
  - apply acquire_Ok in E as (a1 & a2 & _ & -> & ->). intros n t Ht. simpl.
    destruct (decide (n = name)) as [->|Hne].
    + rewrite lookup_insert_eq. unfold next_token. rewrite Ht. exists (t + 1). split; [done | lia].
    + rewrite lookup_insert_ne by done. exists t. split; [done | lia].
  - apply acquire_Ok in E as (a1 & a2 & -> & _). apply fence_same, upsert_fences.
  - unfold acquire_fenced_lease, before_tx in E. case_match; [|by injection E as _ <-; apply fence_same].
    case_match; [|by injection E as _ <-; apply fence_same].
    apply transaction_cases in E as [(a' & [=] & _)|(? & _ & ->)]. by apply fence_same.
Qed.

Lemma renew_fences name owner token now ttl s : fences (snd (renew_fenced_lease name owner token now ttl s)) = fences s.
Proof.
  unfold renew_fenced_lease. apply (transaction_snd (fun s' => fences s' = fences s)); [done|].
  intros a s' Hb. inv_db Hb. case_in Hb; inv_db Hb; [done|]. case_in Hb; inv_db Hb; done.
Qed.
Lemma release_fences name owner token s : fences (snd (release_lease name owner token s)) = fences s.
Proof.
  unfold release_lease. apply (transaction_snd (fun s' => fences s' = fences s)); [done|].
  intros a s' Hb. inv_db Hb. destruct (negb _); [by inv_db Hb|]. by apply db_mod_Ok in Hb as ->.
Qed.

Lemma step_grows s s' : step s s' -> fence_grows s s'.
Proof.
  intros [c|s'' Hs]; [destruct c; simpl|].
  - apply acquire_grows.
  - apply fence_same, renew_fences.
  - apply fence_same, release_fences.
  - apply fence_same. by destruct (quarantine_frame now timeout s) as (?&?&?&?&?&?&?).
  - destruct (begin_cases id owner name token now s) as [(h & s1 & Hb)|(e & ->)]; [|by apply fence_same].
    rewrite Hb. apply begin_Ok in Hb as (_ & _ & _ & aid & started & _ & _ & _ & _ & _ & ->). by apply fence_same.
  - apply fence_same. by destruct (finish_frame h success status detail retry_after now outcome s) as (?&?&?&?&?&?&?).
  - apply fence_same. by destruct (activate_frame cutover activated policy writer note s) as (?&?&?&?&?&?&?).
  - apply fence_same. by destruct (close_frame id closed s) as (?&?&?&?&?&?&?).
  - destruct (intent_init item) as [i|]; [|by apply fence_same].
    apply (transaction_snd (fence_grows s)); [by apply fence_same|]. intros b s1 Hb.
    apply append_intent_grow in Hb as ((?&?&?&?&_)&_). by apply fence_same.
  - destruct Hs as (?&?&?&?&_). by apply fence_same.
Qed.

Lemma steps_grow s s' : rtc step s s' -> fence_grows s s'.
Proof.
  induction 1 as [s|s s1 s' Hs _ IH]; [by apply fence_same|]. intros name t Ht.
  destruct (step_grows s s1 Hs name t Ht) as (t1 & Ht1 & ?). destruct (IH name t1 Ht1) as (t2 & Ht2 & ?).
  exists t2. split; [done | lia].
Qed.

(** What an operation with a superseded token does. *)
Lemma old_fence name t t' s owner now : fences s !! name = Some t' -> t < t' -> fence_current name owner t now s = false.
Proof.
  intros Ht Hlt. unfold fence_current. rewrite Ht. destruct (leases s !! name); [|done].
  rewrite (proj2 (Z.eqb_neq t' t)) by lia. by rewrite andb_false_r.
Qed.

Lemma begin_without_fence id owner name token now s : fence_current name owner token now s = false ->
  begin_delivery_attempt id owner name token now s = (Err (ERuntime "delivery lease fence is not current"), s).
Proof.
  intros Hf. unfold begin_delivery_attempt, transaction, db_bind, db_get. rewrite Hf. done.
Qed.

Lemma finish_without_fence h ok status detail retry now outcome s :
  fence_current (h_lease h) (h_owner h) (h_fence h) now s = false ->
  exists e s', finish_delivery_attempt h ok status detail retry now outcome s = (Err e, s')
    /\ results s' = results s.
Proof.
  intros Hf. unfold finish_delivery_attempt, before_tx. destruct (demand _ _); [|eauto].
  destruct (stable_id _ _); [|eauto].
  unfold transaction, record_outcome, db_bind, db_get. rewrite Hf. simpl. eauto.
Qed.

Lemma renew_without_fence name owner token now ttl s : fence_is name token s = false ->
  renew_fenced_lease name owner token now ttl s = (Ok false, s).
Proof. intros Hf. unfold renew_fenced_lease, transaction, db_bind, db_get. by rewrite Hf. Qed.

(** A lease that is held and not expired is given to nobody else. *)
Lemma lease_not_given name owner token now ttl s o' :
  fence_current name owner token now s = true -> o' <> owner ->
  forall o s', acquire_fenced_lease name o' now ttl s = (Ok o, s') -> o = None /\ s' = s.
Proof.
  unfold fence_current. intros Hf Hne o s' Hb.
  destruct (leases s !! name) as [l|] eqn:El; [|done]. destruct (fences s !! name) as [t|]; [|done].
  apply andb_true_iff in Hf as [Hf He]. apply andb_true_iff in Hf as [Ho _].
  apply String.eqb_eq in Ho. apply negb_true_iff in He.
  apply acquire_Ok in Hb as (a1 & a2 & Hb). unfold upsert_lease in Hb. rewrite El, He in Hb.
  rewrite (proj2 (String.eqb_neq (l_owner l) o')) in Hb by congruence. simpl in Hb.
  unfold lease_mine in Hb. rewrite El, (proj2 (String.eqb_neq (l_owner l) o')) in Hb by congruence. simpl in Hb.
  destruct o; [by destruct Hb|]. by destruct Hb as [-> _].
Qed.
End Fencing.

Lemma run_calls_steps `{FromIso} `{CanonicalSha} cs s : rtc step s (run_calls cs s).
Proof.
  revert s. induction cs as [|c cs IH]; intros s; [apply rtc_refl|].
  eapply rtc_l; [apply (step_call s c) | apply IH].
Qed.

(** ** A concrete database *)
Module OutboxDemo.
Definition iso : FromIso := basic_iso.
(** Stands for the digest: distinct on the attempt numbers used below. *)
Definition sha : CanonicalSha := fun v =>
  match v with
  | VList [VStr _; VInt n] => (pad4 n ++ "aaaaaaaaaaaaaaaaaaaaaaaaaaaaaaaaaaaaaaaaaaaaaaaaaaaaaaaaaaaa")%string
  | _ => "bbbbbbbbbbbbbbbbbbbbbbbbbbbbbbbbbbbbbbbbbbbbbbbbbbbbbbbbbbbbbbbb"
  end.

Definition hex : string := "0123456789abcdef01234567".
Definition ntf : string := ("ntf:" ++ hex)%string.
Definition trn : string := ("trn:" ++ hex)%string.
Definition inc : string := ("inc:" ++ hex)%string.
Definition t0 : string := "2026-01-01T00:00:00Z".
Definition now0 : Z := 1767225600.

Definition item : NotificationIntent :=
  mkIntent ntf trn inc "discord" "detected" "warning" t0 t0 "subject" "content" "key" "r1" "t1".
Definition episode : IncidentEpisode :=
  mkEpisode inc "delivery" "active" "warning" t0 t0 "" 1 0 t0 t0 "p" "s" [].
Definition transition : IncidentTransition := mkTransition trn inc "delivery" "detected" "warning" t0 "cur" "s" [].
Definition fresh : store :=
  set_transitions {[ trn := transition ]} (set_episodes {[ inc := episode ]} empty_store).

Definition nep : string := "nep:bbbbbbbbbbbbbbbbbbbbbbbbbbbbbbbb".
Definition setup : list call := [CActivate t0 t0 "p" "w" "n"; CAppend item (Some nep)].
Definition name : string := "notification_dispatcher".
Definition try1 : string := "try:0001aaaaaaaaaaaaaaaaaaaaaaaaaaaa".
Definition handle : attempt := mkHandle try1 ntf 1 now0 "a/1" name 1.
Definition first_send : list call :=
  [CAcquire name "a/1" now0 180; CBegin ntf "a/1" name 1 now0;
   CFinish handle true 204 "ok" 0 (now0 + 1) succeeded].
Definition ready : store := run_calls (H := iso) (H0 := sha) setup fresh.
Definition sent : store := run_calls (H := iso) (H0 := sha) first_send ready.
Definition row : attempt_row := mkAttempt try1 ntf 1 "a/1" t0 now0.

Example sent_once : attempts sent = [row] /\ state_of row sent = Some succeeded
  /\ due_rows now0 8 20 ready = [mkIntentRow item now0 now0] /\ due_rows (now0 + 600) 8 20 sent = [].
Proof. vm_compute. repeat split. Qed.
End OutboxDemo.

Module OutboxProperties.
Section Properties.
Context `{FromIso} `{CanonicalSha}.

(** C31: After any sequence of repository calls and ledger writes, the attempts of
    an intent are numbered 1, 2, ... without gaps, and every one but the latest
    has failed retryably. *)
Theorem attempt_history_wellformed s0 s id : attempts s0 = [] -> rtc step s0 s ->
  numbered (attempts_of id s) /\ only_last_open (attempts_of id s) s.
Proof.
  intros Ha Hr. pose proof (history_steps s0 s Hr (history_start s0 Ha)) as Ho.
  split; [apply Ho | apply Ho].
Qed.

(** C27: Once an attempt of an intent has succeeded, failed permanently or become
    uncertain, nothing the repository does adds an attempt to that intent or
    changes that state: no second message. *)
Theorem conclusive_attempt_is_last s0 s s' id a st : attempts s0 = [] -> rtc step s0 s ->
  In a (attempts_of id s) -> state_of a s = Some st -> conclusive st = true -> rtc step s s' ->
  attempts_of id s' = attempts_of id s /\ state_of a s' = Some st
  /\ forall owner name token now, exists e,
       begin_delivery_attempt id owner name token now s' = (Err e, s').
Proof.
  intros Ha Hr Hin Hst Hc Hr'. pose proof (history_steps s0 s Hr (history_start s0 Ha)) as Ho.
  destruct (conclusive_steps s s' id a st Hr' Ho Hin Hst Hc) as [Hl Hst']. do 2 (split; [done|]).
  intros owner name token now. destruct (begin_cases id owner name token now s') as [(h & s1 & Hb)|]; [|done].
  apply begin_Ok in Hb as (_ & _ & Hb & _). unfold blocked in Hb.
  rewrite <- not_true_iff_false, existsb_exists in Hb. exfalso. apply Hb. exists a.
  rewrite Hl, Hst'. split; [done|]. by destruct st.
Qed.

(** C40: A later successful acquisition of the lease, by anyone, gives a larger
    token, and from then on the earlier token renews nothing, begins no attempt
    and records no result, at whatever time and by whatever owner it is used. *)
Theorem superseded_token_is_dead name o1 n1 ttl1 s0 t1 s1 s2 o2 n2 ttl2 t2 s3 s :
  acquire_fenced_lease name o1 n1 ttl1 s0 = (Ok (Some t1), s1) -> rtc step s1 s2 ->
  acquire_fenced_lease name o2 n2 ttl2 s2 = (Ok (Some t2), s3) -> rtc step s3 s ->
  t1 < t2
  /\ (forall owner now ttl, renew_fenced_lease name owner t1 now ttl s = (Ok false, s))
  /\ (forall id owner now, begin_delivery_attempt id owner name t1 now s
        = (Err (ERuntime "delivery lease fence is not current"), s))
  /\ (forall h ok status detail retry now outcome, h_lease h = name -> h_fence h = t1 ->
        exists e s', finish_delivery_attempt h ok status detail retry now outcome s = (Err e, s')
          /\ results s' = results s).
Proof.
  intros Ha1 Hr1 Ha2 Hr2. apply acquire_fence in Ha1 as [Hf1 _]. apply acquire_fence in Ha2 as [Hf2 Hlt].
  destruct (steps_grow s1 s2 Hr1 name t1 Hf1) as (t & Ht & ?). specialize (Hlt t Ht).
  destruct (steps_grow s3 s Hr2 name t2 Hf2) as (t' & Ht' & ?).
  split; [lia|]. split; [|split].
  - intros owner now ttl. apply renew_without_fence. unfold fence_is. rewrite Ht'. apply Z.eqb_neq. lia.
  - intros id owner now. apply begin_without_fence. apply (old_fence name t1 t'); [done | lia].
  - intros h ok status detail retry now outcome <- <-. apply finish_without_fence.
    apply (old_fence _ _ t'); [done | lia].
Qed.
End Properties.

Import OutboxDemo.
#[local] Existing Instance iso.
#[local] Existing Instance sha.

Lemma attempt_history_wellformed_witness :
  numbered (attempts_of ntf sent) /\ only_last_open (attempts_of ntf sent) sent.
Proof.
  apply (attempt_history_wellformed fresh); [reflexivity|].
  transitivity ready; [exact (run_calls_steps setup fresh) | exact (run_calls_steps first_send ready)].
Defined.

Lemma conclusive_attempt_is_last_witness :
  attempts_of ntf (run_calls first_send sent) = [row].
Proof.
  destruct (conclusive_attempt_is_last fresh sent (run_calls first_send sent) ntf row succeeded) as [E _].
  - reflexivity.
  - transitivity ready; [exact (run_calls_steps setup fresh) | exact (run_calls_steps first_send ready)].
  - vm_compute. by left.
  - vm_compute. reflexivity.
  - reflexivity.
  - apply run_calls_steps.
  - rewrite E. vm_compute. reflexivity.
Defined.

Definition taken : store := run_call (CAcquire name "a/1" now0 180) ready.
Definition retaken : store := run_call (CAcquire name "b/2" (now0 + 200) 180) taken.

Lemma superseded_token_is_dead_witness : 1 < 2
  /\ begin_delivery_attempt ntf "a/1" name 1 (now0 + 201) retaken
     = (Err (ERuntime "delivery lease fence is not current"), retaken).
Proof.
  destruct (superseded_token_is_dead name "a/1" now0 180 ready 1 taken taken "b/2" (now0 + 200) 180 2 retaken retaken)
    as (Hlt & _ & Hb & _).
  - vm_compute. reflexivity.
  - apply rtc_refl.
  - vm_compute. reflexivity.
  - apply rtc_refl.
  - split; [exact Hlt | apply Hb].
Defined.
End OutboxProperties.
