(* ===== verification/Dispatcher.v ===== *)
(** * Notification dispatcher

    Models src/monitoring-v4/src/stream_monitoring_v4/notifications/dispatcher.py
    and providers/base.py over the repository interface of storage/ports.py.
    Clock readings, provider replies and what other processes do to the database
    between two repository calls are arguments of a run. *)
From S2P Require Import Prelude PyVal UtcTime Contracts Store Outbox.

(** ** The repository the dispatcher is written against (storage/ports.py) *)
Class DispatchRepository (S : Type) : Type := {
  r_acquire_fenced_lease : string -> string -> Z -> Z -> S -> res (option Z) * S;
  r_renew_fenced_lease : string -> string -> Z -> Z -> Z -> S -> res bool * S;
  r_release_lease : string -> string -> option Z -> S -> res unit * S;
  r_quarantine : Z -> Z -> S -> res Z * S;
  r_due_intents : Z -> Z -> Z -> S -> res (list NotificationIntent);
  r_begin : string -> string -> string -> Z -> Z -> S -> res attempt * S;
  r_finish : attempt -> bool -> Z -> string -> Z -> Z -> attempt_state -> S -> res string * S;
  r_undelivered : Z -> S -> Z }.

#[export] Instance outbox_repository `{FromIso} `{CanonicalSha} : DispatchRepository store := {|
  r_acquire_fenced_lease := acquire_fenced_lease;
  r_renew_fenced_lease := renew_fenced_lease;
  r_release_lease := release_lease;
  r_quarantine := quarantine_stale_delivery_attempts;
  r_due_intents := due_intents;
  r_begin := begin_delivery_attempt;
  r_finish := finish_delivery_attempt;
  r_undelivered := undelivered_intent_count |}.

(** ** providers/base.py *)
Record DeliveryResponse : Type := mkResponse {
  success : bool; status_code : Z; detail : string; retry_after_sec : Z; delivery_uncertain : bool }.

Definition response_init (r : DeliveryResponse) : res DeliveryResponse :=
  let! _ := demand (between 0 599 (status_code r)) "delivery status_code is outside the supported range" in
  let! _ := demand (between 1 500 (slen (detail r))) "delivery detail must contain 1-500 characters" in
  let! _ := demand (0 <=? retry_after_sec r) "delivery retry_after_sec must be non-negative" in
  let! _ := demand (negb (success r && negb (between 200 299 (status_code r)))) "successful delivery requires a 2xx status" in
  let! _ := demand (negb (success r && delivery_uncertain r)) "successful delivery cannot be uncertain" in
  Ok r.

(** What [provider.send(intent)] does: build a response, run into the alarm of
    [_provider_deadline], raise, or return something else. *)
Inductive reply : Type :=
  | Sent (r : DeliveryResponse)
  | DeadlineExpired
  | TimeoutRaised
  | Raised (name : string)
  | NotAResponse.

Definition uncertain_response (text : string) : res DeliveryResponse := response_init (mkResponse false 0 text 0 true).

(** The response the dispatcher goes on with. *)
Definition respond (configured : bool) (r : reply) : res DeliveryResponse :=
  if negb configured then response_init (mkResponse false 400 "provider_not_configured" 0 false) else
  match r with
  | Sent a => match response_init a with
              | Ok resp => Ok resp
              | Err _ => uncertain_response "provider_exception_delivery_uncertain:ValueError"
              end
  | DeadlineExpired => uncertain_response "provider_deadline_exceeded_delivery_uncertain"
  | TimeoutRaised => uncertain_response "provider_timeout_delivery_uncertain"
  | Raised name => uncertain_response ("provider_exception_delivery_uncertain:" ++ name)
  | NotAResponse => uncertain_response "provider_invalid_response_delivery_uncertain"
  end.

Definition _outcome_state (r : DeliveryResponse) : attempt_state :=
  if success r then succeeded
  else if delivery_uncertain r || (status_code r =? 0) then uncertain
  else if (status_code r =? 408) || (status_code r =? 425) || (status_code r =? 429) || (500 <=? status_code r)
  then retryable_failed else permanent_failed.

(** ** NotificationDispatcher *)
Record dispatcher : Type := mkDispatcher {
  providers : list string; lease_owner : string; lease_ttl_sec : Z; max_attempts : Z; attempt_timeout_sec : Z }.

(** [__init__]; [instance] is [instance_id or uuid4().hex]. *)
Definition new_dispatcher (routes : list string) (owner instance : string) (ttl attempts timeout : Z) : res dispatcher :=
  let! _ := demand (negb (strip_empty owner)) "dispatcher owner is required" in
  let! _ := demand (negb (strip_empty instance)) "dispatcher instance_id is required" in
  let ttl := Z.max 1 ttl in
  let timeout := Z.max 1 timeout in
  let! _ := demand (negb (ttl <=? timeout)) "dispatcher lease_ttl_sec must exceed attempt_timeout_sec" in
  Ok (mkDispatcher routes (strip owner ++ "/" ++ strip instance)%string ttl (Z.max 1 attempts) timeout).

Record DispatchSummary : Type := mkSummary {
  lease_acquired : bool; attempted : Z; sent : Z; failed : Z; pending_left : Z; uncertain_count : Z }.

(** The counters of a run, and the attempts whose intent was handed to a provider. *)
Record tally : Type := mkTally { n_attempted : Z; n_sent : Z; n_failed : Z; n_uncertain : Z; handed : list attempt }.
Definition tally0 : tally := mkTally 0 0 0 0 [].

(** [attempted += 1] and the call of the provider. *)
Definition count_attempt (h : attempt) (c : tally) : tally :=
  mkTally (n_attempted c + 1) (n_sent c) (n_failed c) (n_uncertain c) (handed c ++ [h]).
Definition count_outcome (st : attempt_state) (c : tally) : tally :=
  match st with
  | succeeded => mkTally (n_attempted c) (n_sent c + 1) (n_failed c) (n_uncertain c) (handed c)
  | uncertain => mkTally (n_attempted c) (n_sent c) (n_failed c + 1) (n_uncertain c + 1) (handed c)
  | _ => mkTally (n_attempted c) (n_sent c) (n_failed c + 1) (n_uncertain c) (handed c)
  end.

Definition lease_name : string := "notification_dispatcher".

Section Run.
Context {S : Type} `{DispatchRepository S}.

(** One turn of the loop: the readings of [time.monotonic()], the provider, and
    what others do before each repository call. *)
Record turn : Type := mkTurn {
  t_start : Q; t_reply : reply; t_end : Q; before_renew : S -> S; before_begin : S -> S; before_finish : S -> S }.

Record inputs : Type := mkInputs {
  started : Q; turns : nat -> turn; t_pending : Q;
  before_quarantine : S -> S; before_due : S -> S; before_pending : S -> S; before_release : S -> S }.

(** [now_ts + max(0, int(time.monotonic() - started_monotonic))] *)
Definition operation_ts (now : Z) (started reading : Q) : Z := now + Z.max 0 (Qtrunc (reading - started)).

(** [finish_delivery_attempt] and its [except RuntimeError]. *)
Definition finish_turn (h : attempt) (r : DeliveryResponse) (now : Z) (s : S) : res attempt_state * S :=
  let outcome := _outcome_state r in
  match r_finish h (success r) (status_code r) (detail r) (retry_after_sec r) now outcome s with
  | (Ok _, s') => (Ok outcome, s')
  | (Err (ERuntime _), s') => (Ok uncertain, s')
  | (Err e, s') => (Err e, s')
  end.

(** [for intent in intents]; [break] when the lease is lost. *)
Fixpoint dispatch_loop (d : dispatcher) (token now : Z) (st : Q) (ts : nat -> turn) (k : nat)
    (l : list NotificationIntent) (c : tally) (s : S) : res tally * tally * S :=
  match l with
  | [] => (Ok c, c, s)
  | i :: l' =>
      let t := ts k in
      let attempt_now := operation_ts now st (t_start t) in
      match r_renew_fenced_lease lease_name (lease_owner d) token attempt_now (lease_ttl_sec d) (before_renew t s) with
      | (Err e, s1) => (Err e, c, s1)
      | (Ok false, s1) => (Ok c, c, s1)
      | (Ok true, s1) =>
          match r_begin (intent_id i) (lease_owner d) lease_name token attempt_now (before_begin t s1) with
          | (Err e, s2) => (Err e, c, s2)
          | (Ok h, s2) =>
              let c := count_attempt h c in
              match respond (existsb (String.eqb (route i)) (providers d)) (t_reply t) with
              | Err e => (Err e, c, s2)
              | Ok r =>
                  match finish_turn h r (operation_ts now st (t_end t)) (before_finish t s2) with
                  | (Err e, s3) => (Err e, c, s3)
                  | (Ok outcome, s3) => dispatch_loop d token now st ts (Datatypes.S k) l' (count_outcome outcome c) s3
                  end
              end
          end
      end
  end.

(** The [try] block; the tally is also returned when it raises. *)
Definition dispatch_body (d : dispatcher) (token now limit : Z) (x : inputs) (s : S) : res DispatchSummary * tally * S :=
  match r_quarantine now (attempt_timeout_sec d) (before_quarantine x s) with
  | (Err e, s1) => (Err e, tally0, s1)
  | (Ok _, s1) =>
      let s1 := before_due x s1 in
      match r_due_intents now (max_attempts d) limit s1 with
      | Err e => (Err e, tally0, s1)
      | Ok l =>
          match dispatch_loop d token now (started x) (turns x) 0 l tally0 s1 with
          | (Err e, c, s2) => (Err e, c, s2)
          | (Ok c, _, s2) =>
              let s2 := before_pending x s2 in
              (Ok (mkSummary true (n_attempted c) (n_sent c) (n_failed c) (r_undelivered (max_attempts d) s2) (n_uncertain c)), c, s2)
          end
      end
  end.

Definition dispatch_once (d : dispatcher) (now limit : Z) (x : inputs) (s : S) : res DispatchSummary * tally * S :=
  match r_acquire_fenced_lease lease_name (lease_owner d) now (lease_ttl_sec d) s with
  | (Err e, s1) => (Err e, tally0, s1)
  | (Ok None, s1) => (Ok (mkSummary false 0 0 0 (r_undelivered (max_attempts d) s1) 0), tally0, s1)
  | (Ok (Some token), s1) =>
      let '(r, c, s2) := dispatch_body d token now limit x s1 in
      match r_release_lease lease_name (lease_owner d) (Some token) (before_release x s2) with
      | (Err e, s3) => (Err e, c, s3)
      | (Ok _, s3) => (r, c, s3)
      end
  end.
End Run.
Arguments turn S : clear implicits.
Arguments inputs S : clear implicits.
