(* ===== verification/DispatcherProofs.v ===== *)
(** * Notification dispatcher: bounded attempts and progress

    The loop is verified against the laws of its repository ([DispatchLaws]),
    whatever other processes do to the database between two calls; the outbox
    discharges the laws. *)
From stdpp Require Import sorting.
From S2P Require Import Prelude PyVal UtcTime Contracts Store Outbox OutboxProofs Dispatcher.

(** ** What the dispatcher relies on

    [holds me t]: the lease and fence rows name this owner and token (expired or
    not).  [others me] is what processes with another owner name may do. *)
Class DispatchLaws (S : Type) `{DispatchRepository S} : Type := {
  repo_ok : S -> Prop;
  token_at_least : Z -> S -> Prop;
  holds : string -> Z -> S -> Prop;
  total : string -> S -> Z;
  others : string -> S -> S -> Prop;
  quiet me t s s' := repo_ok s' /\ (token_at_least t s -> token_at_least t s'
    /\ (holds me t s' -> holds me t s /\ forall id, total id s' = total id s));
  law_others me t s s' : others me s s' -> repo_ok s -> quiet me t s s';
  law_renew me t now ttl s : repo_ok s -> quiet me t s (snd (r_renew_fenced_lease lease_name me t now ttl s));
  law_quarantine me t now timeout s : repo_ok s -> quiet me t s (snd (r_quarantine now timeout s));
  law_finish me t h ok status text retry now st s :
    repo_ok s -> quiet me t s (snd (r_finish h ok status text retry now st s));
  law_acquire me now ttl s t s' : repo_ok s ->
    r_acquire_fenced_lease lease_name me now ttl s = (Ok (Some t), s') -> repo_ok s' /\ token_at_least t s';
  law_begin id me t now s h s' : repo_ok s -> token_at_least t s ->
    r_begin id me lease_name t now s = (Ok h, s') ->
    repo_ok s' /\ token_at_least t s' /\ holds me t s /\ h_intent h = id /\ h_no h = total id s + 1
    /\ forall j, total j s' = total j s + (if String.eqb j id then 1 else 0);
  law_due now attempts limit s l : repo_ok s -> r_due_intents now attempts limit s = Ok l ->
    NoDup (map intent_id l) /\ forall i, In i l -> total (intent_id i) s < Z.max 1 attempts }.

Section Loop.
Context {S : Type} `{DispatchLaws S}.
Variables (d : dispatcher) (token : Z).
Notation me := (lease_owner d).

Definition times (id : string) (hs : list attempt) : Z :=
  Z.of_nat (length (List.filter (fun h => String.eqb (h_intent h) id) hs)).

Lemma times_zero id hs : ~ In id (map h_intent hs) -> times id hs = 0.
Proof.
  unfold times. induction hs as [|h hs IH]; simpl; [done|]. intros Hn.
  destruct (String.eqb_spec (h_intent h) id) as [E|]; [tauto|]. apply IH. tauto.
Qed.
Lemma times_snoc id hs h : times id (hs ++ [h]) = times id hs + (if String.eqb id (h_intent h) then 1 else 0).
Proof.
  unfold times. rewrite List.filter_app, length_app. simpl. rewrite (String.eqb_sym id).
  destruct (String.eqb (h_intent h) id); simpl; lia.
Qed.

(** While the token is ours, the totals are those of the listing plus our own attempts. *)
Definition tracked (base : string -> Z) (c : tally) (s : S) : Prop :=
  repo_ok s /\ token_at_least token s
  /\ (holds me token s -> forall id, total id s = base id + times id (handed c)).

Lemma tracked_quiet base c s s' : tracked base c s -> quiet me token s s' -> tracked base c s'.
Proof.
  intros (Hr & Ht & Hh) (Hr' & Hq). destruct (Hq Ht) as [Ht' Hk]. split_and!; [done|done|].
  intros Hs id. destruct (Hk Hs) as [Hs0 ->]. by apply Hh.
Qed.

(** Every change others make between two calls is one they may make. *)
Definition polite_turn (t : turn S) : Prop :=
  forall s, others me s (before_renew t s) /\ others me s (before_begin t s) /\ others me s (before_finish t s).
Definition polite (x : inputs S) : Prop :=
  (forall k, polite_turn (turns x k))
  /\ forall s, others me s (before_quarantine x s) /\ others me s (before_due x s)
       /\ others me s (before_pending x s) /\ others me s (before_release x s).

Lemma tracked_others base c s s' : tracked base c s -> others me s s' -> tracked base c s'.
Proof. intros Ht Ho. apply (tracked_quiet base c s s' Ht). apply law_others; [done | apply Ht]. Qed.

Definition limited (c : tally) : Prop :=
  Forall (fun h => h_no h <= max_attempts d) (handed c) /\ NoDup (map h_intent (handed c)).

Lemma handed_count_outcome st c : handed (count_outcome st c) = handed c.
Proof. by destruct st. Qed.

Lemma finish_turn_snd h r now s : snd (finish_turn h r now s)
  = snd (r_finish h (success r) (status_code r) (detail r) (retry_after_sec r) now (_outcome_state r) s).
Proof. unfold finish_turn. destruct (r_finish _ _ _ _ _ _ _ s) as [[?|[]] ?]; done. Qed.

Lemma begin_tracked base i now c s h s' :
  tracked base c s -> r_begin (intent_id i) me lease_name token now s = (Ok h, s') ->
  NoDup (map h_intent (handed c) ++ [intent_id i]) -> base (intent_id i) < max_attempts d -> limited c ->
  tracked base (count_attempt h c) s' /\ limited (count_attempt h c) /\ h_intent h = intent_id i.
Proof.
  intros (Hr & Ht & Hh) Hb Hn Hbase (Hlim & Hnd).
  destruct (law_begin _ _ _ _ _ _ _ Hr Ht Hb) as (Hr' & Ht' & Hs & Hid & Hno & Htot).
  pose proof (Hh Hs) as Hsum. split_and!; [|split|done].
  - split_and!; [done|done|]. intros Hs' j. simpl. rewrite Htot, Hsum, times_snoc, Hid. lia.
  - simpl. apply Forall_app. split; [done|]. constructor; [|done]. rewrite Hno, Hsum, times_zero; [lia|].
    intros Hin. apply NoDup_app in Hn as (_ & Hn & _). apply list_elem_of_In in Hin. by apply (Hn _ Hin), list_elem_of_In; left.
  - simpl. rewrite List.map_app. simpl. by rewrite Hid.
Qed.

Lemma loop_limited base now st ts k l c s r c' s' :
  (forall j, polite_turn (ts j)) -> tracked base c s ->
  NoDup (map h_intent (handed c) ++ map intent_id l) ->
  (forall i, In i l -> base (intent_id i) < max_attempts d) -> limited c ->
  dispatch_loop d token now st ts k l c s = (r, c', s') -> limited c' /\ (forall c0, r = Ok c0 -> c0 = c').
Proof.
  intros Hp. revert k c s. induction l as [|i l IH]; intros k c s Ht Hn Hb Hl; simpl.
  { intros [= <- <- <-]. split; [done | congruence]. }
  destruct (Hp k s) as (Ho1 & _ & _). pose proof (tracked_others _ _ _ _ Ht Ho1) as Ht1.
  pose proof (law_renew me token (operation_ts now st (t_start (ts k))) (lease_ttl_sec d) _ (proj1 Ht1)) as Hq.
  destruct (r_renew_fenced_lease _ _ _ _ _ _) as [[[|]|e] s1]; simpl in Hq.
  2, 3: intros [= <- <- <-]; split; [done | congruence].
  pose proof (tracked_quiet _ _ _ _ Ht1 Hq) as Ht2.
  destruct (Hp k s1) as (_ & Ho2 & _). pose proof (tracked_others _ _ _ _ Ht2 Ho2) as Ht3.
  destruct (r_begin _ _ _ _ _ _) as [[h|e] s2] eqn:Eb; [|intros [= <- <- <-]; split; [done | congruence]].
  simpl in Hn. destruct (begin_tracked _ _ _ _ _ _ _ Ht3 Eb) as (Ht4 & Hl4 & Hid).
  { change (intent_id i :: map intent_id l) with ([intent_id i] ++ map intent_id l) in Hn.
    rewrite app_assoc in Hn. by apply NoDup_app in Hn as [? _]. }
  { apply Hb. by left. }
  { done. }
  destruct (respond _ _) as [resp|e]; [|intros [= <- <- <-]; split; [done | congruence]].
  destruct (Hp k s2) as (_ & _ & Ho3). pose proof (tracked_others _ _ _ _ Ht4 Ho3) as Ht5.
  pose proof (finish_turn_snd h resp (operation_ts now st (t_end (ts k))) (before_finish (ts k) s2)) as Hf.
  destruct (finish_turn _ _ _ _) as [[o|e] s3]; simpl in Hf; [|intros [= <- <- <-]; split; [done | congruence]].
  apply (IH _ (count_outcome o (count_attempt h c))).
  - unfold tracked. rewrite handed_count_outcome. rewrite Hf.
    apply (tracked_quiet _ _ _ _ Ht5). apply law_finish, Ht5.
  - rewrite handed_count_outcome. simpl. rewrite List.map_app, <- app_assoc. simpl. by rewrite Hid.
  - intros j Hj. apply Hb. by right.
  - unfold limited. by rewrite handed_count_outcome.
Qed.

Lemma limited0 : limited tally0.
Proof. split; constructor. Qed.

Lemma body_limited now limit x s r c s' : 1 <= max_attempts d -> polite x -> repo_ok s -> token_at_least token s ->
  dispatch_body d token now limit x s = (r, c, s') -> limited c.
Proof.
  intros Hm (Hp & Hx) Hr Ht. unfold dispatch_body.
  pose proof limited0 as Hz.
  destruct (Hx s) as (Ho1 & _). pose proof (law_others me token _ _ Ho1 Hr) as [Hr1 Hq1]. destruct (Hq1 Ht) as [Ht1 _].
  pose proof (law_quarantine me token now (attempt_timeout_sec d) _ Hr1) as [Hr2 Hq2]. destruct (Hq2 Ht1) as [Ht2 _].
  destruct (r_quarantine _ _ _) as [[n|e] s1]; simpl in *; [|by intros [= <- <- <-]].
  destruct (Hx s1) as (_ & Ho2 & _). pose proof (law_others me token _ _ Ho2 Hr2) as [Hr3 Hq3]. destruct (Hq3 Ht2) as [Ht3 _].
  destruct (r_due_intents _ _ _ _) as [l|e] eqn:El; [|by intros [= <- <- <-]].
  destruct (law_due _ _ _ _ _ Hr3 El) as [Hn Hd].
  destruct (dispatch_loop _ _ _ _ _ _ _ _ _) as [[r0 c0] s2] eqn:Eloop.
  destruct (fun A B C D => loop_limited (fun id => total id (before_due x s1)) _ _ _ _ _ _ _ _ _ _ Hp A B C D Eloop)
    as [Hl Hc]; [|done| |done|].
  - split_and!; [done|done|]. intros _ id. unfold times. simpl. lia.
  - intros i Hi. specialize (Hd i Hi). lia.
  - destruct r0 as [c1|e]; intros [= _ <- _]; [by rewrite (Hc c1) | done].
Qed.

Lemma dispatch_limited now limit x s r c s' : 1 <= max_attempts d -> polite x -> repo_ok s ->
  r_acquire_fenced_lease lease_name me now (lease_ttl_sec d) s = (Ok (Some token), s') ->
  forall s'', dispatch_once d now limit x s = (r, c, s'') -> limited c.
Proof.
  intros Hm Hp Hr Ha s''. unfold dispatch_once. rewrite Ha.
  destruct (law_acquire _ _ _ _ _ _ Hr Ha) as [Hr' Ht].
  destruct (dispatch_body _ _ _ _ _ _) as [[r0 c0] s2] eqn:Eb.
  pose proof (body_limited _ _ _ _ _ _ _ Hm Hp Hr' Ht Eb) as Hl.
  destruct (r_release_lease _ _ _ _) as [[?|?] ?]; by intros [= _ <- _].
Qed.
End Loop.

(** ** The outbox obeys the laws *)
Section OutboxLaws.
Context `{FromIso} `{CanonicalSha}.

(** An intent row is stored under its id and its constructor accepts it. *)
Definition keyed (s : store) : Prop := forall id r, intents s !! id = Some r ->
  intent_id (ir_item r) = id /\ intent_init (ir_item r) = Ok (ir_item r).
Definition store_ok (s : store) : Prop := history_ok s /\ keyed s.
Definition fence_at_least (t : Z) (s : store) : Prop := exists t', fences s !! lease_name = Some t' /\ t <= t'.
Definition lease_of (me : string) (t : Z) (s : store) : Prop :=
  exists l, leases s !! lease_name = Some l /\ l_owner l = me /\ fences s !! lease_name = Some t.

(** Calls of a process whose owner name is not [me]. *)
Definition other_call (me : string) (c : call) : Prop :=
  match c with
  | CAcquire _ o _ _ => o <> me
  | CBegin _ o name _ _ => o <> me /\ name = lease_name
  | _ => True
  end.
Inductive other_step (me : string) (s : store) : store -> Prop :=
  | other_calls c : other_call me c -> other_step me s (run_call c s)
  | other_ledger s' : same_outbox s s' -> other_step me s s'.

Definition store_quiet (me : string) (t : Z) (s s' : store) : Prop :=
  store_ok s' /\ (fence_at_least t s -> fence_at_least t s'
    /\ (lease_of me t s' -> lease_of me t s /\ forall id, attempt_count id s' = attempt_count id s)).

Lemma other_is_step me s s' : other_step me s s' -> step s s'.
Proof. intros [c _|s'' Hs]; [apply step_call | by apply step_ledger]. Qed.

Lemma attempt_count_same s s' id : attempts s' = attempts s -> attempt_count id s' = attempt_count id s.
Proof. intros Ha. unfold attempt_count, attempts_of. by rewrite Ha. Qed.

Lemma keyed_same s s' : intents s' = intents s -> keyed s -> keyed s'.
Proof. intros Hi Hk id r. rewrite Hi. apply Hk. Qed.

Lemma intent_init_same i j : intent_init i = Ok j -> j = i.
Proof. unfold intent_init. intros Hi. inv_ok Hi. by injection Hi. Qed.

Lemma keyed_call c s : keyed s -> keyed (run_call c s).
Proof.
  intros Hk. destruct c; simpl.
  - eapply keyed_same, Hk. apply acquire_frame.
  - eapply keyed_same, Hk. apply renew_frame.
  - eapply keyed_same, Hk. apply release_frame.
  - eapply keyed_same, Hk. by destruct (quarantine_frame now timeout s) as (?&?&?&?).
  - eapply keyed_same, Hk. destruct (begin_cases id owner name token now s) as [(h & s1 & Hb)|(e & ->)]; [|done].
    rewrite Hb. by apply begin_Ok in Hb as (_ & _ & _ & ? & ? & _ & _ & _ & _ & _ & ->).
  - eapply keyed_same, Hk. by destruct (finish_frame h success status detail retry_after now outcome s) as (?&?&?&?).
  - eapply keyed_same, Hk. by destruct (activate_frame cutover activated policy writer note s) as (?&?&?&?).
  - eapply keyed_same, Hk. by destruct (close_frame id closed s) as (?&?&?&?).
  - destruct (intent_init item) as [i|] eqn:Ei; [|done]. pose proof (intent_init_same _ _ Ei) as ->.
    apply (transaction_snd keyed); [done|]. intros b s' (_ & Hi & _)%append_intent_grow.
    intros id r Hr. destruct (Hi id r Hr) as [?|[-> ->]]; [by apply Hk | done].
Qed.

Lemma store_ok_step s s' : step s s' -> store_ok s -> store_ok s'.
Proof.
  intros Hs [Hh Hk]. split; [by eapply history_step, step_attempts|].
  destruct Hs as [c|s'' (?&?&?&?&?&?)]; [by apply keyed_call | by eapply keyed_same].
Qed.

Lemma call_ok c s : store_ok s -> store_ok (run_call c s).
Proof. apply store_ok_step, step_call. Qed.

Lemma fence_at_least_grows t s s' : fence_grows s s' -> fence_at_least t s -> fence_at_least t s'.
Proof. intros Hg (t' & Ht & ?). destruct (Hg _ _ Ht) as (t'' & Ht' & ?). exists t''. split; [done | lia]. Qed.

(** A step that leaves leases, fences and attempts alone. *)
Lemma quiet_same me t s s' : store_ok s' ->
  leases s' = leases s -> fences s' = fences s -> attempts s' = attempts s -> store_quiet me t s s'.
Proof.
  intros Ho Hl Hf Ha. split; [done|]. intros Ht. split; [by apply (fence_at_least_grows t s), Ht; apply fence_same|].
  unfold lease_of. rewrite Hl, Hf. intros Hs. split; [done|]. intros id. by apply attempt_count_same.
Qed.

(** A step that changes leases only, keeping their owners. *)
Lemma quiet_lease me t s s' : store_ok s' -> fences s' = fences s -> attempts s' = attempts s ->
  (forall l', leases s' !! lease_name = Some l' -> exists l, leases s !! lease_name = Some l /\ l_owner l = l_owner l') ->
  store_quiet me t s s'.
Proof.
  intros Ho Hf Ha Hl. split; [done|]. intros Ht. split; [by apply (fence_at_least_grows t s), Ht; apply fence_same|].
  intros (l' & Hl' & <- & Hft). destruct (Hl l' Hl') as (l & Hls & Hlo). split.
  - exists l. by rewrite <- Hf.
  - intros id. by apply attempt_count_same.
Qed.

Lemma upsert_mine name owner a1 a2 now ttl s : 0 < ttl ->
  lease_mine name owner now (upsert_lease name owner a1 a2 now ttl s) = false -> upsert_lease name owner a1 a2 now ttl s = s.
Proof.
  intros Httl. unfold upsert_lease, lease_mine. repeat case_match; try done; simpl in *; simplify_eq;
    rewrite lookup_insert_eq in *; simplify_eq; rewrite String.eqb_refl; simpl;
    intros Hm%negb_false_iff%Z.leb_le; simpl in Hm; lia.
Qed.

Lemma quiet_acquire me t name owner now ttl s : owner <> me -> store_ok s ->
  store_quiet me t s (snd (acquire_fenced_lease name owner now ttl s)).
Proof.
  intros Hne Ho.
  assert (Hok : store_ok (snd (acquire_fenced_lease name owner now ttl s))) by exact (call_ok (CAcquire name owner now ttl) s Ho).
  destruct (acquire_fenced_lease name owner now ttl s) as [[[tok|]|e] s'] eqn:E; simpl in *.
  - pose proof (acquire_grows name owner now ttl s) as Hf. rewrite E in Hf. simpl in Hf.
    destruct (acquire_frame name owner now ttl s) as [Ha _]. rewrite E in Ha. simpl in Ha.
    apply acquire_Ok in E as (a1 & a2 & Hm & -> & ->). split; [done|]. intros Ht.
    split; [by apply (fence_at_least_grows t s)|]. intros (l & Hl & Hlo & Hft). simpl in *.
    unfold lease_mine in Hm. destruct (decide (name = lease_name)) as [->|Hn].
    { rewrite Hl in Hm. apply andb_true_iff in Hm as [Hm _]. apply String.eqb_eq in Hm. congruence. }
    rewrite lookup_insert_ne in Hft by done. split; [|intros id; by apply attempt_count_same].
    exists l. split; [|done]. unfold upsert_lease in Hl. repeat case_match; simpl in Hl; try done;
      by rewrite lookup_insert_ne in Hl.
  - apply acquire_Ok in E as (a1 & a2 & -> & Hm). apply upsert_mine in Hm; [|lia]. by apply quiet_same; rewrite ?Hm.
  - assert (s' = s) as ->; [|by apply quiet_same].
    unfold acquire_fenced_lease, before_tx in E. repeat case_match; try (by injection E).
    by apply transaction_cases in E as [(? & [=] & _)|(? & _ & ->)].
Qed.

Lemma renew_owner name owner token now ttl s l' :
  leases (snd (renew_fenced_lease name owner token now ttl s)) !! lease_name = Some l' ->
  exists l, leases s !! lease_name = Some l /\ l_owner l = l_owner l'.
Proof.
  revert l'. unfold renew_fenced_lease.
  apply (transaction_snd (fun s' => forall l', leases s' !! lease_name = Some l' -> exists l, leases s !! lease_name = Some l /\ l_owner l = l_owner l')); [eauto|].
  intros a s' Hb. inv_db Hb. destruct (negb _); inv_db Hb; [eauto|]. destruct (negb _); inv_db Hb; [eauto|].
  simpl. intros l' Hl. apply lookup_alter_Some in Hl as [(<- & l & Hl & ->)|(_ & Hl)]; eauto.
Qed.
Lemma release_owner name owner token s l' :
  leases (snd (release_lease name owner token s)) !! lease_name = Some l' ->
  exists l, leases s !! lease_name = Some l /\ l_owner l = l_owner l'.
Proof.
  revert l'. unfold release_lease.
  apply (transaction_snd (fun s' => forall l', leases s' !! lease_name = Some l' -> exists l, leases s !! lease_name = Some l /\ l_owner l = l_owner l')); [eauto|].
  intros a s' Hb. inv_db Hb. destruct (negb _); [inv_db Hb; eauto|]. apply db_mod_Ok in Hb as ->.
  simpl. intros l' Hl. apply lookup_alter_Some in Hl as [(<- & l & Hl & ->)|(_ & Hl)]; [|eauto].
  exists l. split; [done|]. by destruct (String.eqb (l_owner l) owner).
Qed.

Lemma quiet_renew me t name owner token now ttl s : store_ok s ->
  store_quiet me t s (snd (renew_fenced_lease name owner token now ttl s)).
Proof.
  intros Ho. apply quiet_lease; [|apply renew_fences | apply renew_frame | intros l'; apply renew_owner].
  exact (call_ok (CRenew name owner token now ttl) s Ho).
Qed.

Lemma quiet_quarantine me t now timeout s : store_ok s ->
  store_quiet me t s (snd (quarantine_stale_delivery_attempts now timeout s)).
Proof.
  intros Ho. destruct (quarantine_frame now timeout s) as (?&?&?&?&?&?&?). apply quiet_same; try done.
  exact (call_ok (CQuarantine now timeout) s Ho).
Qed.

Lemma quiet_finish me t h ok status text retry now st s : store_ok s ->
  store_quiet me t s (snd (finish_delivery_attempt h ok status text retry now st s)).
Proof.
  intros Ho. destruct (finish_frame h ok status text retry now st s) as (?&?&?&?&?&?&?). apply quiet_same; try done.
  exact (call_ok (CFinish h ok status text retry now st) s Ho).
Qed.

Lemma quiet_call me t c s : other_call me c -> store_ok s -> store_quiet me t s (run_call c s).
Proof.
  intros Hc Ho. pose proof (store_ok_step s _ (step_call s c) Ho) as Ho'. destruct c; simpl in *.
  - by apply quiet_acquire.
  - by apply quiet_renew.
  - apply quiet_lease; [done | apply release_fences | apply release_frame | intros l'; apply release_owner].
  - by apply quiet_quarantine.
  - destruct (begin_cases id owner name token now s) as [(h & s1 & Hb)|(e & E)]; [|rewrite E in *; by apply quiet_same].
    rewrite Hb in *. simpl in *. apply begin_Ok in Hb as (Hf & _ & _ & ? & ? & _ & _ & _ & _ & _ & ->).
    destruct Hc as [Hne ->]. split; [done|]. intros Ht. split; [done|]. intros (l & Hl & Hlo & _). simpl in Hl.
    unfold fence_current in Hf. rewrite Hl in Hf. destruct (fences s !! lease_name); [|done].
    rewrite (proj2 (String.eqb_neq (l_owner l) owner)) in Hf by congruence. done.
  - by apply quiet_finish.
  - destruct (activate_frame cutover activated policy writer note s) as (?&?&?&?&?&?&?). by apply quiet_same.
  - destruct (close_frame id closed s) as (?&?&?&?&?&?&?). by apply quiet_same.
  - destruct (intent_init item) as [i|]; [|by apply quiet_same]. revert Ho'.
    apply (transaction_snd (fun s' => store_ok s' -> store_quiet me t s s')); [intros; by apply quiet_same|].
    intros b s' ((?&?&?&?&_)&_)%append_intent_grow Hok. by apply quiet_same.
Qed.

Lemma quiet_trans me t s1 s2 s3 : store_quiet me t s1 s2 -> store_quiet me t s2 s3 -> store_quiet me t s1 s3.
Proof.
  intros [Ho2 H12] [Ho3 H23]. split; [done|]. intros Ht. destruct (H12 Ht) as [Ht2 Hk2].
  destruct (H23 Ht2) as [Ht3 Hk3]. split; [done|]. intros Hs3. destruct (Hk3 Hs3) as [Hs2 Hc3].
  destruct (Hk2 Hs2) as [Hs1 Hc2]. split; [done|]. intros id. by rewrite Hc3, Hc2.
Qed.

Lemma quiet_others me t s s' : rtc (other_step me) s s' -> store_ok s -> store_quiet me t s s'.
Proof.
  induction 1 as [s|s s1 s' Hs _ IH]; intros Ho; [by apply quiet_same|].
  pose proof (store_ok_step s s1 (other_is_step me s s1 Hs) Ho) as Ho1.
  apply (quiet_trans me t s s1); [|by apply IH]. destruct Hs as [c Hc|s1 (?&?&?&?&_)]; [by apply quiet_call | by apply quiet_same].
Qed.

Lemma outbox_begin id me t now s h s' : store_ok s -> fence_at_least t s ->
  begin_delivery_attempt id me lease_name t now s = (Ok h, s') ->
  store_ok s' /\ fence_at_least t s' /\ lease_of me t s /\ h_intent h = id /\ h_no h = attempt_count id s + 1
  /\ forall j, attempt_count j s' = attempt_count j s + (if String.eqb j id then 1 else 0).
Proof.
  intros Ho Ht Hb. pose proof (call_ok (CBegin id me lease_name t now) s Ho) as Ho'. simpl in Ho'. rewrite Hb in Ho'.
  apply begin_Ok in Hb as (Hf & _ & _ & aid & started & _ & _ & _ & _ & -> & ->). split_and!; try done.
  - unfold fence_current in Hf. destruct (leases s !! lease_name) as [l|] eqn:El; [|done].
    destruct (fences s !! lease_name) as [t'|] eqn:Ef; [|done].
    apply andb_true_iff in Hf as [[Hl%String.eqb_eq Htt%Z.eqb_eq]%andb_true_iff _]. exists l. rewrite Ef. by subst.
  - simpl. rewrite max_of_numbered by apply Ho. done.
  - intros j. unfold attempt_count. erewrite attempts_of_snoc by done. simpl. rewrite (String.eqb_sym id j).
    destruct (String.eqb j id); [|lia]. rewrite length_app. simpl. lia.
Qed.

Lemma load_intents_Ok rows l : load_intents rows = Ok l -> l = map ir_item rows.
Proof.
  revert l. induction rows as [|r rows IH]; simpl; intros l Hl; [by injection Hl as <-|].
  inv_ok Hl. injection Hl as <-. apply intent_init_same in E as ->. by rewrite (IH _ E0).
Qed.


Lemma due_rows_in now attempts limit s r : In r (due_rows now attempts limit s) ->
  In r (intent_rows s) /\ due now attempts s r = true.
Proof.
  unfold due_rows. intros Hin%list_elem_of_In. eapply elem_of_sublist in Hin; [|apply sublist_take].
  rewrite merge_sort_Permutation in Hin. by apply list_elem_of_In, filter_In in Hin.
Qed.

Lemma intent_rows_ids s : keyed s -> NoDup (map (fun r => intent_id (ir_item r)) (intent_rows s)).
Proof.
  intros Hk. unfold intent_rows. rewrite map_map.
  replace (map (fun x => intent_id (ir_item x.2)) (map_to_list (intents s))) with (map_to_list (intents s)).*1;
    [apply NoDup_fst_map_to_list|].
  apply map_ext_in. intros [id r] Hin%list_elem_of_In%elem_of_map_to_list. symmetry. by destruct (Hk _ _ Hin).
Qed.

Lemma NoDup_map_filter {A B} (f : A -> B) (p : A -> bool) l : NoDup (map f l) -> NoDup (map f (List.filter p l)).
Proof.
  induction l as [|x l IH]; simpl; [done|]. rewrite NoDup_cons. intros [Hx Hl].
  destruct (p x); simpl; [|auto]. apply NoDup_cons. split; [|auto]. rewrite list_elem_of_In, in_map_iff in *.
  intros (y & Hy & Hin%filter_In). apply Hx. exists y. tauto.
Qed.

Lemma due_rows_ids now attempts limit s : keyed s ->
  NoDup (map (fun r => intent_id (ir_item r)) (due_rows now attempts limit s)).
Proof.
  intros Hk. unfold due_rows. eapply sublist_NoDup; [|apply fmap_sublist, sublist_take].
  rewrite (merge_sort_Permutation by_due). by apply NoDup_map_filter, intent_rows_ids.
Qed.

Lemma outbox_due now attempts limit s l : store_ok s -> due_intents now attempts limit s = Ok l ->
  NoDup (map intent_id l) /\ forall i, In i l -> attempt_count (intent_id i) s < Z.max 1 attempts.
Proof.
  intros [_ Hk] Hl%load_intents_Ok. subst l. split.
  - rewrite map_map. by apply due_rows_ids.
  - intros i (r & <- & Hr)%in_map_iff. apply due_rows_in in Hr as [_ Hd]. unfold due, pending in Hd.
    rewrite !andb_true_iff, Z.ltb_lt in Hd. tauto.
Qed.

#[export] Instance outbox_laws : DispatchLaws store := {|
  repo_ok := store_ok; token_at_least := fence_at_least; holds := lease_of; total := attempt_count;
  others me := rtc (other_step me);
  law_others := quiet_others;
  law_renew me t now ttl s := quiet_renew me t lease_name me t now ttl s;
  law_quarantine := quiet_quarantine;
  law_finish := quiet_finish;
  law_acquire me now ttl s t s' Ho Ha := conj
    (eq_ind (snd (acquire_fenced_lease lease_name me now ttl s)) store_ok
       (call_ok (CAcquire lease_name me now ttl) s Ho) s' (f_equal snd Ha))
    (ex_intro _ t (conj (proj1 (acquire_fence lease_name me now ttl s t s' Ha)) (Z.le_refl t)));
  law_begin := outbox_begin;
  law_due := outbox_due |}.
End OutboxLaws.

(** ** Progress of a dispatcher that runs alone *)
Section Progress.
Context `{FromIso} `{CanonicalSha}.








(** What the loop needs of the intents still to be attempted. *)
Definition ready (id : string) (s : store) : Prop := deliverable id s = true /\ blocked id s = false.








Section Loop.
Variables (d : dispatcher) (token now : Z) (st : Q) (ts : nat -> turn store).
Notation me := (lease_owner d).
Notation start k := (operation_ts now st (t_start (ts k))).
Notation ttl := (Z.max 1 (lease_ttl_sec d)).






End Loop.









End Progress.

Lemma store_ok_start `{FromIso} `{CanonicalSha} s : attempts s = [] -> intents s = ∅ -> store_ok s.
Proof.
  intros Ha Hi. split; [by apply history_start|]. intros id r. rewrite Hi, lookup_empty. done.
Qed.
Lemma store_ok_steps `{FromIso} `{CanonicalSha} s s' : rtc step s s' -> store_ok s -> store_ok s'.
Proof. induction 1 as [|s s1 s' Hs _ IH]; [done|]. intros Ho. by eapply IH, store_ok_step. Qed.

Module DispatcherProperties.
Section Properties.
Context `{FromIso} `{CanonicalSha}.

(** Whatever other dispatchers do between the calls of a run, no intent is
    handed to a provider twice in the run, and no attempt of the run has a number
    above the configured maximum. *)
Theorem attempts_within_limit d now limit (x : inputs store) s0 s r c s' :
  attempts s0 = [] -> intents s0 = ∅ -> rtc step s0 s -> 1 <= max_attempts d -> polite d x ->
  dispatch_once d now limit x s = (r, c, s') ->
  Forall (fun h => h_no h <= max_attempts d) (handed c) /\ NoDup (map h_intent (handed c)).
Proof.
  intros Ha Hi Hr Hm Hp Hd. assert (store_ok s) as Ho by (eapply store_ok_steps, store_ok_start; done).
  destruct (acquire_fenced_lease lease_name (lease_owner d) now (lease_ttl_sec d) s) as [[[t|]|e] s1] eqn:E.
  - exact (dispatch_limited d t now limit x s r c s1 Hm Hp Ho E s' Hd).
  - unfold dispatch_once in Hd. simpl in Hd. rewrite E in Hd. injection Hd as _ <- _. apply limited0.
  - unfold dispatch_once in Hd. simpl in Hd. rewrite E in Hd. injection Hd as _ <- _. apply limited0.
Qed.

End Properties.

Import OutboxDemo.
#[local] Existing Instance iso.
#[local] Existing Instance sha.

Definition demo : dispatcher := mkDispatcher ["discord"] "a/1" 180 8 120.
(** A second dispatcher tries to take the lease before every call. *)
Definition intrude (s : store) : store := run_call (CAcquire lease_name "b/2" now0 180) s.
Definition busy_turn : turn store :=
  mkTurn 0 (Sent (mkResponse true 204 "ok" 0 false)) 1 intrude intrude intrude.
Definition busy_run : inputs store := mkInputs 0 (fun _ => busy_turn) 1 intrude intrude intrude intrude.

Definition busy_result : res DispatchSummary * tally * store := dispatch_once demo now0 20 busy_run ready.

Lemma intrude_other s : rtc (other_step "a/1") s (intrude s).
Proof. apply rtc_once, (other_calls "a/1" s (CAcquire lease_name "b/2" now0 180)). simpl. congruence. Qed.

Lemma attempts_within_limit_witness :
  map h_no (handed busy_result.1.2) = [1]
  /\ Forall (fun h => h_no h <= 8) (handed busy_result.1.2) /\ NoDup (map h_intent (handed busy_result.1.2)).
Proof.
  split; [vm_compute; reflexivity|].
  apply (attempts_within_limit demo now0 20 busy_run fresh ready busy_result.1.1 busy_result.1.2 busy_result.2).
  - reflexivity.
  - reflexivity.
  - exact (run_calls_steps setup fresh).
  - simpl. lia.
  - split; [intros k s; repeat split; exact (intrude_other s) | intros s; repeat split; exact (intrude_other s)].
  - symmetry. unfold busy_result. by destruct (dispatch_once _ _ _ _ _) as [[? ?] ?].
Defined.

End DispatcherProperties.
