(* ===== verification/Incidents.v ===== *)
(** * Incident policy, evaluation and replay

    Models src/monitoring-v4/src/stream_monitoring_v4/incidents/{policy,engine,
    replay}.py: when a bad or unknown current state opens an incident, repeats
    its notification, escalates and closes it. *)
From S2P Require Import Prelude PyVal UtcTime Contracts Store.

(** ** policy.py *)
Record IncidentPolicy : Type := mkPolicy {
  p_domain : string; p_summary : string; p_revision : string;
  bad_severity : string; unknown_severity : string;
  bad_min_samples : Z; bad_min_duration_sec : Z; unknown_min_samples : Z; unknown_min_duration_sec : Z;
  repeat_sec : Z; bad_repeat_sec : option Z; unknown_repeat_sec : option Z;
  reason_repeat_sec : list (string * Z);
  actionable_unknown_reason_codes : option (list string);
  suppress_during_maintenance : bool }.

Definition INCIDENT_POLICY_REVISION : string := "monitoring-v4-incident-policy-r5.1".

Definition repeat_ok (v : option Z) : bool := match v with Some n => negb (n <? 60) | None => true end.

(** [__post_init__] *)
Definition policy_init (p : IncidentPolicy) : res IncidentPolicy :=
  let! _ := demand (negb (String.eqb (p_revision p) "")) "incident policy revision is required" in
  let! _ := demand (negb ((bad_min_samples p <? 1) || (unknown_min_samples p <? 1))) "incident sample thresholds must be positive" in
  let! _ := demand (negb ((bad_min_duration_sec p <? 0) || (unknown_min_duration_sec p <? 0)))
              "incident duration thresholds must be non-negative" in
  let! _ := demand (negb (repeat_sec p <? 60)) "repeat_sec must be at least 60 seconds" in
  let! _ := demand (forallb repeat_ok [bad_repeat_sec p; unknown_repeat_sec p]) "state repeat interval must be at least 60 seconds" in
  let! _ := demand (forallb (fun ri => negb (String.eqb (fst ri) "" || (snd ri <? 60))) (reason_repeat_sec p))
              "reason repeat policy is invalid" in
  let! _ := demand (match actionable_unknown_reason_codes p with
                    | Some l => negb (existsb (fun r => String.eqb r "") l) | None => true end)
              "actionable unknown reason codes must be non-empty" in
  Ok p.

Definition threshold (p : IncidentPolicy) (state : string) : res (Z * Z * string) :=
  if String.eqb state "bad" then Ok (bad_min_samples p, bad_min_duration_sec p, bad_severity p)
  else if String.eqb state "unknown" then Ok (unknown_min_samples p, unknown_min_duration_sec p, unknown_severity p)
  else Err (EValue "no incident threshold").

(** [dict(self.reason_repeat_sec)]: a later pair replaces an earlier one. *)
Definition by_reason (p : IncidentPolicy) : list (string * Z) := dict_update [] (reason_repeat_sec p).

Definition matching (p : IncidentPolicy) (reasons : list string) : list Z :=
  omap (fun r => dict_get r (by_reason p)) reasons.

Definition repeat_interval (p : IncidentPolicy) (state : string) (reasons : list string) : Z :=
  match matching p reasons with
  | n :: l => fold_left Z.max l n
  | [] =>
      match (if String.eqb state "bad" then bad_repeat_sec p else None),
            (if String.eqb state "unknown" then unknown_repeat_sec p else None) with
      | Some n, _ => n
      | None, Some n => n
      | None, None => repeat_sec p
      end
  end.

Definition is_actionable (p : IncidentPolicy) (state : string) (reasons : list string) : bool :=
  if String.eqb state "bad" then true
  else if negb (String.eqb state "unknown") then false
  else match actionable_unknown_reason_codes p with
       | None => true
       | Some allowed => existsb (in_list allowed) reasons
       end.

(** The dataclass defaults, and the policies the reducer runs with. *)
Definition default_policy (domain summary : string) : IncidentPolicy :=
  mkPolicy domain summary INCIDENT_POLICY_REVISION "warning" "warning" 1 0 2 300 600 None None [] None true.

Definition with_bad (severity : string) (samples duration : Z) (p : IncidentPolicy) : IncidentPolicy :=
  mkPolicy (p_domain p) (p_summary p) (p_revision p) severity (unknown_severity p) samples duration
    (unknown_min_samples p) (unknown_min_duration_sec p) (repeat_sec p) (bad_repeat_sec p) (unknown_repeat_sec p)
    (reason_repeat_sec p) (actionable_unknown_reason_codes p) (suppress_during_maintenance p).
Definition with_repeat (all : Z) (bad unknown : option Z) (reasons : list (string * Z)) (p : IncidentPolicy) : IncidentPolicy :=
  mkPolicy (p_domain p) (p_summary p) (p_revision p) (bad_severity p) (unknown_severity p)
    (bad_min_samples p) (bad_min_duration_sec p) (unknown_min_samples p) (unknown_min_duration_sec p)
    all bad unknown reasons (actionable_unknown_reason_codes p) (suppress_during_maintenance p).
Definition with_actionable (l : list string) (p : IncidentPolicy) : IncidentPolicy :=
  mkPolicy (p_domain p) (p_summary p) (p_revision p) (bad_severity p) (unknown_severity p)
    (bad_min_samples p) (bad_min_duration_sec p) (unknown_min_samples p) (unknown_min_duration_sec p)
    (repeat_sec p) (bad_repeat_sec p) (unknown_repeat_sec p) (reason_repeat_sec p) (Some l) (suppress_during_maintenance p).

Definition DEFAULT_INCIDENT_POLICIES : list IncidentPolicy :=
  [with_repeat 600 None None [("source_disagreement", 1800)]
     (default_policy "youtube_lifecycle" "YouTube lifecycle current state is outside the accepted contract");
   with_actionable ["measurement_coverage_missing"; "measurement_freshness_stale"]
     (default_policy "youtube_input_quality" "YouTube current input quality warning is active");
   with_bad "critical" 1 0 (with_repeat 600 None None [("source_disagreement", 1800)]
     (default_policy "delivery" "stream delivery current state is degraded"));
   default_policy "rendering" "rendering current state is degraded";
   default_policy "audio" "audio current state is degraded";
   with_repeat 900 (Some 300) (Some 900) []
     (default_policy "viewer_external" "supporting viewer or external evidence is degraded");
   default_policy "monitoring_platform" "Monitoring v4 self-health is degraded";
   with_bad "critical" 2 180 (default_policy "network_transport" "network and RTMPS reachability evidence is degraded");
   with_bad "warning" 2 300 (default_policy "runtime_resource" "runtime resource guardrail is degraded");
   with_bad "warning" 2 180 (default_policy "adsb_source" "ADS-B source freshness is degraded");
   with_bad "warning" 2 300 (default_policy "api_quota" "YouTube API quota or coverage evidence is degraded");
   with_bad "warning" 2 300 (default_policy "recovery_policy" "a non-noop recovery action is pending");
   with_bad "warning" 2 300 (default_policy "notification_delivery" "notification delivery outbox is pending or malformed");
   with_bad "warning" 2 180 (default_policy "control_loop" "the V3 control-loop task matrix is incomplete, stale, or failed")].

(** ** engine.py

    A candidate is the row of [incident_candidates]. *)
Definition SEVERITY_RANK (severity : string) : res Z :=
  if String.eqb severity "info" then Ok 0 else if String.eqb severity "warning" then Ok 1
  else if String.eqb severity "critical" then Ok 2 else Err EKey.

Record IncidentEvaluation : Type := mkEvaluation {
  ev_candidate : option candidate_row; ev_episode : option IncidentEpisode; ev_transition : option IncidentTransition }.

Definition _candidate (current : DomainCurrent) (previous : option candidate_row) : candidate_row :=
  let fresh := mkCandidate (cu_domain current) (cu_state current) (observed_at current) (observed_at current)
                 1 (snapshot_id current) (reason_codes current) in
  match previous with
  | None => fresh
  | Some p =>
      if negb (String.eqb (c_state p) (cu_state current)) || negb (bool_decide (c_reasons p = reason_codes current))
      then fresh
      else if String.eqb (c_snapshot p) (snapshot_id current) then p
      else mkCandidate (cu_domain current) (cu_state current) (c_first_seen_at p) (observed_at current)
             (c_samples p + 1) (snapshot_id current) (reason_codes current)
  end.

(** [while next_due_ts <= now: next_due_ts += repeat_interval]; [None] is a loop
    that has not ended when the fuel is used up. *)
Fixpoint advance_due (fuel : nat) (due now interval : Z) : option Z :=
  if due <=? now then
    match fuel with O => None | S n => advance_due n (due + interval) now interval end
  else Some due.
Definition loop_fuel (due now : Z) : nat := Z.to_nat (now - due + 1).

(** Stands for a call that does not return. *)
Definition diverges : exn := EOS "does not return".

Definition payload_true (current : DomainCurrent) (key : string) : bool := is_true (dget (payload current) key VNone).

(** [replace(episode, ...)] before its constructor runs. *)
Definition closed_with (now_at : string) (reasons : list string) (e : IncidentEpisode) : IncidentEpisode :=
  mkEpisode (episode_id e) (ep_domain e) "closed" (ep_severity e) (opened_at e) (last_bad_at e) now_at
    (bad_samples e) (unknown_samples e) now_at "" (ep_policy_revision e) (ep_summary e) reasons.
Definition opened_with (bad unknown : Z) (last_bad now_at : string) (e : IncidentEpisode) : IncidentEpisode :=
  mkEpisode (episode_id e) (ep_domain e) (ep_status e) (ep_severity e) (opened_at e) last_bad (closed_at e)
    bad unknown now_at (next_notification_at e) (ep_policy_revision e) (ep_summary e) (ep_reason_codes e).
Definition counted_with (current : DomainCurrent) (e : IncidentEpisode) : IncidentEpisode :=
  mkEpisode (episode_id e) (ep_domain e) (ep_status e) (ep_severity e) (opened_at e) (observed_at current) (closed_at e)
    (bad_samples e + if String.eqb (cu_state current) "bad" then 1 else 0)
    (unknown_samples e + if String.eqb (cu_state current) "unknown" then 1 else 0)
    (last_transition_at e) (next_notification_at e) (ep_policy_revision e) (ep_summary e) (reason_codes current).
Definition notified_with (severity now_at next_at : string) (e : IncidentEpisode) : IncidentEpisode :=
  mkEpisode (episode_id e) (ep_domain e) (ep_status e) severity (opened_at e) (last_bad_at e) (closed_at e)
    (bad_samples e) (unknown_samples e) now_at next_at (ep_policy_revision e) (ep_summary e) (ep_reason_codes e).
Definition due_with (next_at : string) (e : IncidentEpisode) : IncidentEpisode :=
  mkEpisode (episode_id e) (ep_domain e) (ep_status e) (ep_severity e) (opened_at e) (last_bad_at e) (closed_at e)
    (bad_samples e) (unknown_samples e) (last_transition_at e) next_at (ep_policy_revision e) (ep_summary e) (ep_reason_codes e).

Section Engine.
Context `{FromIso} `{CanonicalSha}.

Definition _transition (e : IncidentEpisode) (current : DomainCurrent) (phase severity now_at : string) : res IncidentTransition :=
  transition_create (episode_id e) (cu_domain current) phase severity now_at (snapshot_id current)
    (ep_summary e) (reason_codes current).

(** Lines 115-130: the state is not actionable. *)
Definition evaluate_inactive (current : DomainCurrent) (now_at : string) (active : option IncidentEpisode) : res IncidentEvaluation :=
  match active with
  | None => Ok (mkEvaluation None None None)
  | Some e =>
      let! closed := episode_init (closed_with now_at (reason_codes current) e) in
      let! t := _transition closed current "recovered" "info" now_at in
      Ok (mkEvaluation None (Some closed) (Some t))
  end.

(** Lines 132-163: no incident is open. *)
Definition evaluate_pending (current : DomainCurrent) (p : IncidentPolicy) (now_at : string)
    (pending : option candidate_row) : res IncidentEvaluation :=
  let candidate := _candidate current pending in
  let! (min_samples, min_duration, severity) := threshold p (cu_state current) in
  let severity := if payload_true current "planned_rollout" then "info" else severity in
  let! now := unix_ts now_at in
  let! first := unix_ts (c_first_seen_at candidate) in
  if (c_samples candidate <? min_samples) || (Z.max 0 (now - first) <? min_duration)
  then Ok (mkEvaluation (Some candidate) None None) else
  let! next_at := utc_text (now + repeat_interval p (cu_state current) (reason_codes current)) in
  let! e := episode_open (cu_domain current) severity (c_first_seen_at candidate) (p_summary p) (reason_codes current)
              (snapshot_id current) (cu_state current) next_at (p_revision p) in
  let! e := episode_init (opened_with
              (if String.eqb (cu_state current) "bad" then c_samples candidate else 0)
              (if String.eqb (cu_state current) "unknown" then c_samples candidate else 0)
              (observed_at current) now_at e) in
  let! t := _transition e current "detected" severity now_at in
  Ok (mkEvaluation None (Some e) (Some t)).

(** Lines 190-214: the incident is open and its severity stays. *)
Definition evaluate_repeat (current : DomainCurrent) (now_at : string) (active updated : IncidentEpisode)
    (interval : Z) : res IncidentEvaluation :=
  let! due0 := unix_ts (next_notification_at active) in
  let! now := unix_ts now_at in
  let due := Z.min due0 (now + interval) in
  let! updated :=
    if negb (due =? due0) then let! next_at := utc_text due in episode_init (due_with next_at updated)
    else Ok updated in
  if now <? due then Ok (mkEvaluation None (Some updated) None) else
  match advance_due (loop_fuel due now) due now interval with
  | None => Err diverges
  | Some next_due =>
      let! next_at := utc_text next_due in
      let! updated := episode_init (notified_with (ep_severity active) now_at next_at updated) in
      let! t := _transition updated current "repeat" (ep_severity active) now_at in
      Ok (mkEvaluation None (Some updated) (Some t))
  end.

(** Lines 165-214: an incident is open and the state still actionable. *)
Definition evaluate_active (current : DomainCurrent) (p : IncidentPolicy) (now_at : string)
    (active : IncidentEpisode) (pending : option candidate_row) : res IncidentEvaluation :=
  if match pending with Some c => String.eqb (c_snapshot c) (snapshot_id current) | None => false end
  then Ok (mkEvaluation None (Some active) None) else
  let! updated := episode_init (counted_with current active) in
  let interval := repeat_interval p (cu_state current) (reason_codes current) in
  let! (_, desired) := threshold p (cu_state current) in
  let desired := if payload_true current "planned_rollout" then "info" else desired in
  let! new := SEVERITY_RANK desired in
  let! old := SEVERITY_RANK (ep_severity active) in
  if old <? new then
    let! now := unix_ts now_at in
    let! next_at := utc_text (now + interval) in
    let! updated := episode_init (notified_with desired now_at next_at updated) in
    let! t := _transition updated current "repeat" desired now_at in
    Ok (mkEvaluation None (Some updated) (Some t))
  else evaluate_repeat current now_at active updated interval.

Definition evaluate_current (current : DomainCurrent) (p : IncidentPolicy) (now_at : string)
    (active : option IncidentEpisode) (pending : option candidate_row) : res IncidentEvaluation :=
  if negb (String.eqb (cu_domain current) (p_domain p)) then Err (EValue "current domain and incident policy do not match") else
  if suppress_during_maintenance p && payload_true current "maintenance" then Ok (mkEvaluation None active None) else
  if negb (is_actionable p (cu_state current) (reason_codes current)) then evaluate_inactive current now_at active else
  match active with
  | None => evaluate_pending current p now_at pending
  | Some e => evaluate_active current p now_at e pending
  end.

(** ** replay.py *)
Record ReplayStep : Type := mkStep { rs_current : DomainCurrent; rs_now_at : string }.

(** The loop variables of [replay]. *)
Record replay_state : Type := mkReplay {
  rp_candidate : option candidate_row; rp_episode : option IncidentEpisode;
  rp_transitions : list IncidentTransition; rp_processed : list string }.
Definition replay0 : replay_state := mkReplay None None [] [].

Definition active_only (e : option IncidentEpisode) : option IncidentEpisode :=
  match e with Some x => if String.eqb (ep_status x) "active" then Some x else None | None => None end.
Definition drop_closed (e : option IncidentEpisode) : option IncidentEpisode :=
  match e with Some x => if String.eqb (ep_status x) "closed" then None else Some x | None => None end.

Definition replay_step (p : IncidentPolicy) (st : ReplayStep) (r : replay_state) : res replay_state :=
  let current := rs_current st in
  if in_list (rp_processed r) (snapshot_id current) then Ok r else
  let! ev := evaluate_current current p (rs_now_at st) (active_only (rp_episode r)) (rp_candidate r) in
  let episode := match ev_episode ev with Some e => Some e | None => rp_episode r end in
  Ok (mkReplay (ev_candidate ev) (drop_closed episode)
        (rp_transitions r ++ match ev_transition ev with Some t => [t] | None => [] end)
        (snapshot_id current :: rp_processed r)).

Fixpoint replay_from (p : IncidentPolicy) (steps : list ReplayStep) (r : replay_state) : res replay_state :=
  match steps with
  | [] => Ok r
  | st :: steps' => let! r' := replay_step p st r in replay_from p steps' r'
  end.

Definition replay (steps : list ReplayStep) (p : IncidentPolicy) : res (list IncidentTransition) :=
  rmap rp_transitions (replay_from p steps replay0).

Definition phases (steps : list ReplayStep) (p : IncidentPolicy) : res (list string) :=
  rmap (map tr_phase) (replay steps p).
End Engine.

Example default_policies_valid :
  forallb (fun p => is_ok (policy_init p)) DEFAULT_INCIDENT_POLICIES = true
  /\ map p_domain DEFAULT_INCIDENT_POLICIES = DOMAINS.
Proof. vm_compute. split; reflexivity. Qed.
