(* ===== verification/IncidentProofs.v ===== *)
(** * Incidents: deadlines, evidence and the order of notifications

    The repeat loop ends and moves the deadline past the present; an incident
    opens only on enough consecutive snapshots; the transitions of a replay tell
    a well-formed story. *)
From Stdlib Require Import Sorted.
From S2P Require Import Prelude PyVal UtcTime Contracts Store Incidents.

(** ** The repeat interval and the loop of the deadline *)
Section Interval.
Implicit Types p : IncidentPolicy.

Record policy_ok p : Prop := {
  po_samples : 1 <= bad_min_samples p /\ 1 <= unknown_min_samples p;
  po_durations : 0 <= bad_min_duration_sec p /\ 0 <= unknown_min_duration_sec p;
  po_repeat : 60 <= repeat_sec p;
  po_bad : forall n, bad_repeat_sec p = Some n -> 60 <= n;
  po_unknown : forall n, unknown_repeat_sec p = Some n -> 60 <= n;
  po_reasons : forall r n, In (r, n) (reason_repeat_sec p) -> 60 <= n }.

Lemma demand_Ok b msg u : demand b msg = Ok u -> b = true.
Proof. unfold demand. by destruct b. Qed.

Lemma repeat_ok_Some v n : repeat_ok v = true -> v = Some n -> 60 <= n.
Proof. intros Hv ->. simpl in Hv. apply negb_true_iff, Z.ltb_ge in Hv. done. Qed.

Lemma policy_init_ok p q : policy_init p = Ok q -> policy_ok p.
Proof.
  unfold policy_init. intros Hp. inv_ok Hp. clear Hp.
  repeat match goal with E : demand _ _ = Ok _ |- _ => apply demand_Ok in E end.
  rewrite negb_true_iff, orb_false_iff, !Z.ltb_ge in E0, E1.
  apply negb_true_iff, Z.ltb_ge in E2. simpl in E3. rewrite !andb_true_iff in E3. destruct E3 as (Hb & Hu & _).
  rewrite forallb_forall in E4. split; try done; try lia.
  - intros n. by apply repeat_ok_Some.
  - intros n. by apply repeat_ok_Some.
  - intros r n Hin. specialize (E4 _ Hin). simpl in E4.
    rewrite negb_true_iff, orb_false_iff, Z.ltb_ge in E4. tauto.
Qed.

Lemma dict_set_In {A} k (v : A) d x : In x (dict_set k v d) -> snd x = v \/ In x d.
Proof.
  induction d as [|[k' v'] d IH]; simpl; [intros [<-|[]]; auto|].
  destruct (String.eqb k k'); simpl; [|naive_solver]. intros [<-|]; auto.
Qed.

Lemma dict_update_In {A} d (e : list (string * A)) x :
  In x (dict_update d e) -> In x d \/ exists k, In (k, snd x) e.
Proof.
  unfold dict_update. revert d. induction e as [|[k v] e IH]; simpl; intros d; [auto|].
  intros [Hin|[k' Hk]]%IH; [|right; exists k'; by right].
  apply dict_set_In in Hin as [->|]; [|auto]. right. exists k. by left.
Qed.

Lemma dict_get_In {A} k (v : A) d : dict_get k d = Some v -> In (k, v) d.
Proof.
  induction d as [|[k' v'] d IH]; simpl; [done|].
  destruct (String.eqb_spec k k') as [->|]; [intros [= ->]; by left | intros; right; by apply IH].
Qed.

Lemma fold_max_ge l n m : m <= n \/ In m l -> m <= fold_left Z.max l n.
Proof. revert n. induction l as [|x l IH]; simpl; intros n; [lia|]. intros Hm. apply IH. destruct Hm as [|[->|]]; [lia..|auto]. Qed.

Lemma matching_ge p reasons n : policy_ok p -> In n (matching p reasons) -> 60 <= n.
Proof.
  intros Hp. unfold matching. rewrite <- list_elem_of_In, list_elem_of_omap.
  intros (r & _ & Hr). apply dict_get_In, dict_update_In in Hr as [[]|[k Hk]].
  by apply (po_reasons p Hp k).
Qed.

Lemma repeat_interval_ge p state reasons : policy_ok p -> 60 <= repeat_interval p state reasons.
Proof.
  intros Hp. unfold repeat_interval. destruct (matching p reasons) as [|n l] eqn:E.
  - repeat case_match; simplify_eq; try (by apply (po_bad p Hp)); try (by apply (po_unknown p Hp)); apply Hp.
  - transitivity n; [|apply fold_max_ge; left; lia]. apply (matching_ge p reasons); [done|]. rewrite E. by left.
Qed.

(** With the fuel of the model the loop ends, at the first multiple of the
    interval after [now]. *)
Lemma advance_due_closed fuel due now interval : 0 < interval -> now - due + 1 <= Z.of_nat fuel ->
  advance_due fuel due now interval =
  Some (if due <=? now then due + interval * ((now - due) / interval + 1) else due).
Proof.
  intros Hi. revert due. induction fuel as [|fuel IH]; intros due Hf; simpl.
  - by rewrite (proj2 (Z.leb_gt due now)) by lia.
  - destruct (Z.leb_spec due now); [|done]. rewrite IH by lia.
    destruct (Z.leb_spec (due + interval) now) as [Hle|Hgt]; f_equal.
    + replace (now - (due + interval)) with (now - due + (-1) * interval) by lia. rewrite Z.div_add by lia. lia.
    + rewrite (Z.div_small (now - due) interval) by lia. lia.
Qed.

Lemma advance_due_Some due now interval : 0 < interval ->
  exists n, advance_due (loop_fuel due now) due now interval = Some n
    /\ now < n /\ (due <= now -> n <= now + interval).
Proof.
  intros Hi. unfold loop_fuel. rewrite advance_due_closed by lia. eexists. split; [done|].
  destruct (Z.leb_spec due now); [|lia].
  pose proof (Z.div_mod (now - due) interval ltac:(lia)). pose proof (Z.mod_pos_bound (now - due) interval Hi). nia.
Qed.
End Interval.

(** ** Calls that return *)
Section Returns.
Context `{FromIso} `{CanonicalSha}.

Definition returns {A} (m : res A) : Prop := m <> Err diverges.

Lemma returns_Ok {A} (a : A) : returns (Ok a).
Proof. done. Qed.
Lemma returns_bind {A B} (m : res A) (k : A -> res B) : returns m -> (forall a, returns (k a)) -> returns (rbind m k).
Proof. intros Hm Hk. destruct m as [a|e]; [apply Hk|]. simpl. intros [= ->]. by apply Hm. Qed.
Lemma returns_demand b msg : returns (demand b msg).
Proof. unfold demand. by destruct b. Qed.
Lemma returns_utc_text z : returns (utc_text z).
Proof. unfold utc_text. by repeat case_match. Qed.
Lemma returns_parse s : returns (parse_utc s).
Proof. unfold parse_utc. by repeat case_match. Qed.
Lemma returns_rank s : returns (SEVERITY_RANK s).
Proof. unfold SEVERITY_RANK. by repeat case_match. Qed.
Lemma returns_threshold p s : returns (threshold p s).
Proof. unfold threshold. by repeat case_match. Qed.
End Returns.
Create HintDb returns discriminated.
#[export] Hint Resolve returns_Ok returns_demand returns_utc_text returns_parse returns_rank returns_threshold : returns.

(** Walk through the binds and branches of a computation that returns. *)
Ltac returning :=
  repeat first
    [ solve [auto with returns]
    | apply returns_bind; [|intros ?]
    | match goal with |- returns (let '(_, _) := ?x in _) => destruct x end
    | match goal with |- returns (if ?b then _ else _) => destruct b end
    | discriminate ].

Section Returning.
Context `{FromIso} `{CanonicalSha}.

Lemma returns_unix_ts s : returns (unix_ts s).
Proof. unfold unix_ts. returning. Qed.
Lemma returns_not_before a b : returns (require_not_before a b).
Proof. unfold require_not_before. returning. Qed.
Lemma returns_name v f o : returns (_name v f o).
Proof. unfold _name. returning. destruct o; auto with returns. Qed.
Lemma returns_each_name l f : returns (each_name l f).
Proof. induction l; simpl; [done|]. apply returns_bind; [apply returns_name | done]. Qed.
Hint Resolve returns_unix_ts returns_not_before returns_name returns_each_name : returns.

Lemma returns_episode e : returns (episode_init e).
Proof. unfold episode_init, validate_id, sized, closed_checks, due_checks. returning. Qed.
Lemma returns_stable_id ns l : returns (stable_id ns l).
Proof. unfold stable_id. returning. Qed.
Lemma returns_transition t : returns (transition_init t).
Proof. unfold transition_init, validate_id, sized. returning. Qed.
Hint Resolve returns_episode returns_stable_id returns_transition : returns.
Lemma returns_open a b c d e f g h i : returns (episode_open a b c d e f g h i).
Proof. unfold episode_open. returning. Qed.
Lemma returns_create a b c d e f g h : returns (transition_create a b c d e f g h).
Proof. unfold transition_create. returning. Qed.
Lemma returns_make a b c d e : returns (_transition a b c d e).
Proof. unfold _transition. apply returns_create. Qed.
Hint Resolve returns_open returns_make : returns.

Lemma repeat_returns current now_at active updated interval : 0 < interval ->
  returns (evaluate_repeat current now_at active updated interval).
Proof.
  intros Hi. unfold evaluate_repeat. do 3 (apply returns_bind; [returning|intros ?]).
  match goal with |- returns (if ?b then _ else _) => destruct b end; [done|].
  match goal with |- context [advance_due (loop_fuel ?d ?n) _ _ _] => destruct (advance_due_Some d n interval Hi) as (nx & -> & _) end.
  returning.
Qed.
Hint Resolve repeat_returns : returns.

Lemma evaluate_returns current p now_at active pending : policy_ok p ->
  returns (evaluate_current current p now_at active pending).
Proof.
  intros Hp. unfold evaluate_current, evaluate_inactive, evaluate_pending, evaluate_active.
  destruct (negb _); [done|]. destruct (_ && _); [done|]. destruct (negb _).
  { destruct active; returning. }
  pose proof (repeat_interval_ge p (cu_state current) (reason_codes current) Hp) as Hi.
  assert (0 < repeat_interval p (cu_state current) (reason_codes current)) by lia.
  destruct active as [e|]; returning.
Qed.

(** ** Constructors keep their fields *)
Lemma episode_init_eq e e' : episode_init e = Ok e' -> e' = set_episode_reasons (sorted_set (ep_reason_codes e)) e.
Proof. unfold episode_init. intros He. inv_ok He. by injection He as <-. Qed.

Lemma transition_create_eq a b c d e f g h t : transition_create a b c d e f g h = Ok t ->
  tr_episode_id t = a /\ tr_domain t = b /\ tr_phase t = c /\ tr_severity t = d /\ occurred_at t = e
  /\ current_snapshot_id t = f /\ in_list SEVERITIES d = true /\ in_list TRANSITION_PHASES c = true.
Proof.
  unfold transition_create, transition_init. intros Ht. inv_ok Ht. injection Ht as <-. simpl.
  repeat match goal with E : _name _ _ (Some _) = Ok _ |- _ =>
    unfold _name in E; inv_ok E; apply demand_Ok in E end. simpl in *. split_and!; auto.
Qed.

(** ** What an evaluation can do *)
Definition rank_le (a b : string) : Prop := exists x y, SEVERITY_RANK a = Ok x /\ SEVERITY_RANK b = Ok y /\ x <= y.

(** The counters of the next state of an open incident: same incident, same status. *)
Definition same_incident (e e' : IncidentEpisode) : Prop :=
  episode_id e' = episode_id e /\ ep_domain e' = ep_domain e /\ opened_at e' = opened_at e.

Definition tells (t : IncidentTransition) (e : IncidentEpisode) (phase severity : string) (current : DomainCurrent) : Prop :=
  tr_episode_id t = episode_id e /\ tr_phase t = phase /\ tr_severity t = severity
  /\ current_snapshot_id t = snapshot_id current /\ tr_domain t = cu_domain current.

(** The evidence for opening an incident. *)
Record evidence (current : DomainCurrent) (p : IncidentPolicy) (now_at : string) (c : candidate_row) : Prop := {
  evd_samples : exists samples duration severity now first,
    threshold p (cu_state current) = Ok (samples, duration, severity)
    /\ unix_ts now_at = Ok now /\ unix_ts (c_first_seen_at c) = Ok first
    /\ samples <= c_samples c /\ duration <= Z.max 0 (now - first);
  evd_actionable : is_actionable p (cu_state current) (reason_codes current) = true }.

Inductive verdict (current : DomainCurrent) (p : IncidentPolicy) (now_at : string)
    (active : option IncidentEpisode) (pending : option candidate_row) : IncidentEvaluation -> Prop :=
  | v_keep : verdict current p now_at active pending (mkEvaluation None active None)
  | v_close e e' t : active = Some e -> is_actionable p (cu_state current) (reason_codes current) = false ->
      same_incident e e' -> ep_status e' = "closed" -> tells t e "recovered" "info" current -> episode_init e' = Ok e' ->
      verdict current p now_at active pending (mkEvaluation None (Some e') (Some t))
  | v_wait : active = None -> is_actionable p (cu_state current) (reason_codes current) = true ->
      verdict current p now_at active pending (mkEvaluation (Some (_candidate current pending)) None None)
  | v_open e t sev : active = None -> evidence current p now_at (_candidate current pending) ->
      ep_status e = "active" -> ep_severity e = sev -> in_list SEVERITIES sev = true -> tells t e "detected" sev current ->
      episode_init e = Ok e -> stable_id "inc" [VStr (cu_domain current); VStr (opened_at e); VStr (snapshot_id current); VStr (p_revision p)] = Ok (episode_id e) ->
      ep_domain e = cu_domain current -> opened_at e = c_first_seen_at (_candidate current pending) ->
      verdict current p now_at active pending (mkEvaluation None (Some e) (Some t))
  | v_count e e' : active = Some e -> is_actionable p (cu_state current) (reason_codes current) = true ->
      same_incident e e' -> ep_status e' = ep_status e -> ep_severity e' = ep_severity e -> episode_init e' = Ok e' ->
      verdict current p now_at active pending (mkEvaluation None (Some e') None)
  | v_repeat e e' t now n : active = Some e -> is_actionable p (cu_state current) (reason_codes current) = true ->
      same_incident e e' -> ep_status e' = ep_status e -> rank_le (ep_severity e) (ep_severity e') ->
      tells t e "repeat" (ep_severity e') current ->
      unix_ts now_at = Ok now -> utc_text n = Ok (next_notification_at e') ->
      now < n <= now + repeat_interval p (cu_state current) (reason_codes current) -> episode_init e' = Ok e' ->
      verdict current p now_at active pending (mkEvaluation None (Some e') (Some t)).

Definition str_lt (a b : string) : Prop := String.compare a b = Lt.

Lemma insert_str_sorted s l : Sorted str_lt l -> Sorted str_lt (insert_str s l).
Proof.
  assert (forall x, str_lt x s -> forall l, HdRel str_lt x l -> HdRel str_lt x (insert_str s l)) as Hhd.
  { intros x Hx l' Hl. destruct l' as [|y l']; simpl; [by constructor|].
    inversion Hl; subst. destruct (String.compare s y); by constructor. }
  induction l as [|x l IH]; intros Hl; simpl; [by repeat constructor|].
  inversion Hl as [|? ? Hs Hr]; subst. destruct (String.compare s x) eqn:E; [done| |].
  - by constructor; [|constructor].
  - constructor; [by apply IH|]. apply Hhd; [|done]. unfold str_lt. rewrite String.compare_antisym, E. done.
Qed.
Lemma sorted_set_sorted l : Sorted str_lt (sorted_set l).
Proof. induction l; simpl; [constructor | by apply insert_str_sorted]. Qed.
Lemma sorted_set_fix l : Sorted str_lt l -> sorted_set l = l.
Proof.
  induction 1 as [|x l Hs IH Hh]; [done|]. simpl. rewrite IH. destruct Hh as [|y l Hxy]; [done|].
  simpl. unfold str_lt in Hxy. by rewrite Hxy.
Qed.

Lemma each_name_Forall l f u : each_name l f = Ok u <-> Forall (fun x => _name x f None = Ok tt) l.
Proof.
  destruct u. induction l as [|x l IH]; simpl; [by split|].
  split.
  - intros ([] & Hx & Hl)%rbind_Ok. constructor; [done | by apply IH].
  - inversion 1; subst. apply rbind_Ok. exists tt. split; [done | by apply IH].
Qed.
Lemma each_name_sorted l f u : each_name l f = Ok u -> each_name (sorted_set l) f = Ok u.
Proof.
  intros Hl%each_name_Forall. apply each_name_Forall. rewrite Forall_forall in *. intros x Hx. apply Hl.
  by rewrite list_elem_of_In, sorted_set_in, <- list_elem_of_In in Hx.
Qed.

(** A constructed episode is accepted again, as it is. *)
Lemma episode_init_fix e e' : episode_init e = Ok e' -> episode_init e' = Ok e'.
Proof.
  intros He. pose proof (episode_init_eq _ _ He) as ->. unfold episode_init in *. inv_ok He. clear He.
  apply each_name_sorted in E14. unfold closed_checks, due_checks in *. destruct e; simpl in *.
  repeat match goal with E : ?m = Ok _ |- context [rbind ?m _] => rewrite E; clear E; simpl end.
  by rewrite (sorted_set_fix _ (sorted_set_sorted _)).
Qed.

Lemma name_allowed v f l u : _name v f (Some l) = Ok u -> in_list l v = true.
Proof. unfold _name. intros Hv. inv_ok Hv. by apply demand_Ok in Hv. Qed.

Lemma episode_status e e' : episode_init e = Ok e' -> ep_status e = "active" \/ ep_status e = "closed".
Proof.
  unfold episode_init. intros He. inv_ok He. apply name_allowed in E1. unfold in_list in E1. simpl in E1.
  rewrite orb_false_r, orb_true_iff, !String.eqb_eq in E1. done.
Qed.

Lemma transition_tells e current phase severity now_at t : _transition e current phase severity now_at = Ok t ->
  tells t e phase severity current /\ in_list SEVERITIES severity = true.
Proof. intros Ht. apply transition_create_eq in Ht as (?&?&?&?&?&?&?&?). done. Qed.

Lemma severity_rank s : in_list SEVERITIES s = true -> exists n, SEVERITY_RANK s = Ok n.
Proof.
  unfold in_list, SEVERITY_RANK. simpl. rewrite !orb_true_iff. intros [E|[E|[E|]]]; [rewrite E; eauto.. | done];
    repeat case_match; eauto.
Qed.

Lemma rank_refl a n : SEVERITY_RANK a = Ok n -> rank_le a a.
Proof. intros Ha. exists n, n. split_and!; [done | done | lia]. Qed.

Lemma evaluate_repeat_verdict current p now_at e updated pending ev old : policy_ok p ->
  is_actionable p (cu_state current) (reason_codes current) = true -> SEVERITY_RANK (ep_severity e) = Ok old ->
  same_incident e updated -> ep_status updated = ep_status e -> ep_severity updated = ep_severity e ->
  episode_init updated = Ok updated ->
  evaluate_repeat current now_at e updated (repeat_interval p (cu_state current) (reason_codes current)) = Ok ev ->
  verdict current p now_at (Some e) pending ev.
Proof.
  intros Hp Hact Hrank (Hid & Hdom & Hop) Hst Hsev Hfix He. unfold evaluate_repeat in He.
  pose proof (repeat_interval_ge p (cu_state current) (reason_codes current) Hp) as Hi.
  set (interval := repeat_interval _ _ _) in *. inv_ok He.
  assert ((same_incident e v1 /\ ep_status v1 = ep_status e /\ ep_severity v1 = ep_severity e) /\ episode_init v1 = Ok v1)
    as (((Hid1 & Hdom1 & Hop1) & Hst1 & Hsev1) & Hfix1).
  { destruct (negb _); [inv_ok E1; split; [|by eapply episode_init_fix]; apply episode_init_eq in E1 as ->
                       | injection E1 as <-; split; [|done]]; by repeat split. }
  match type of He with (if ?b then _ else _) = _ => destruct b eqn:Edue end; [injection He as <-; by apply (v_count _ _ _ _ _ e)|].
  match type of He with context [advance_due (loop_fuel ?d ?n) _ _ _] =>
    destruct (advance_due_Some d n interval) as (nx & Hn & Hlo & Hhi); [lia|] end.
  rewrite Hn in He. inv_ok He. injection He as <-. apply transition_tells in E4 as [Htells _].
  pose proof (episode_init_fix _ _ E3). apply episode_init_eq in E3 as ->. apply Z.ltb_ge in Edue.
  apply (v_repeat _ _ _ _ _ e _ _ v0 nx); simpl; try done.
  - by eapply rank_refl.
  - destruct Htells as (?&?&?&?&?). simpl in *. split_and!; congruence.
  - split; [done | by apply Hhi].
Qed.

Lemma evaluate_active_verdict current p now_at e pending ev : policy_ok p ->
  is_actionable p (cu_state current) (reason_codes current) = true ->
  evaluate_active current p now_at e pending = Ok ev -> verdict current p now_at (Some e) pending ev.
Proof.
  intros Hp Hact He. unfold evaluate_active in He.
  match type of He with (if ?b then _ else _) = _ => destruct b end; [injection He as <-; constructor|].
  inv_ok He. destruct v0 as [[n1 n2] desired0]. inv_ok He. pose proof (episode_init_fix _ _ E) as Hfix.
  apply episode_init_eq in E as ->.
  set (desired := if payload_true current "planned_rollout" then "info" else desired0) in *.
  destruct (Z.ltb_spec v1 v0).
  - inv_ok He. injection He as <-. apply transition_tells in E5 as [(?&?&?&?&?) _].
    pose proof (episode_init_fix _ _ E4). apply episode_init_eq in E4 as ->.
    pose proof (repeat_interval_ge p (cu_state current) (reason_codes current) Hp).
    eapply (v_repeat _ _ _ _ _ e _ _ v (v + repeat_interval p (cu_state current) (reason_codes current)));
      simpl; try done; [|lia]. exists v1, v0. simpl. split_and!; [done | done | lia].
  - by eapply evaluate_repeat_verdict in He.
Qed.

Lemma evaluate_pending_verdict current p now_at pending ev :
  is_actionable p (cu_state current) (reason_codes current) = true ->
  evaluate_pending current p now_at pending = Ok ev -> verdict current p now_at None pending ev.
Proof.
  intros Hact He. unfold evaluate_pending in He. inv_ok He. destruct v as [[samples duration] severity0]. inv_ok He.
  match type of He with (if ?b then _ else _) = _ => destruct b eqn:Eb end; [injection He as <-; by constructor|].
  apply orb_false_iff in Eb as [Hs%Z.ltb_ge Hd%Z.ltb_ge].
  inv_ok He. injection He as <-. apply transition_tells in E5 as [Ht Hsev].
  pose proof (episode_init_fix _ _ E4) as Hfix. apply episode_init_eq in E4 as ->.
  unfold episode_open in E3. inv_ok E3. apply episode_init_eq in E3 as ->. simpl in *.
  eapply v_open; try done. split; [|done]. exists samples, duration, severity0. eauto 10.
Qed.

Lemma evaluate_verdict current p now_at active pending ev : policy_ok p ->
  evaluate_current current p now_at active pending = Ok ev -> verdict current p now_at active pending ev.
Proof.
  intros Hp He. unfold evaluate_current in He. destruct (negb _); [done|]. destruct (_ && _); [injection He as <-; constructor|].
  destruct (is_actionable _ _ _) eqn:Ea; simpl in He.
  - destruct active as [e|]; [by apply evaluate_active_verdict | by apply evaluate_pending_verdict].
  - unfold evaluate_inactive in He. destruct active as [e|]; [|injection He as <-; constructor].
    inv_ok He. injection He as <-. apply transition_tells in E0 as [Ht _].
    pose proof (episode_init_fix _ _ E). apply episode_init_eq in E as ->. by apply (v_close _ _ _ _ _ e).
Qed.
End Returning.

(** ** Replays *)
Section Replay.
Context `{FromIso} `{CanonicalSha}.
Variable p : IncidentPolicy.
Hypothesis Hp : policy_ok p.

(** The order in which notifications are told; the state is the open incident
    and its severity. *)
Inductive told : option (string * string) -> list IncidentTransition -> Prop :=
  | told_none : told None []
  | told_detected ts t : told None ts -> tr_phase t = "detected" ->
      told (Some (tr_episode_id t, tr_severity t)) (ts ++ [t])
  | told_repeat ts t sev : told (Some (tr_episode_id t, sev)) ts -> tr_phase t = "repeat" ->
      rank_le sev (tr_severity t) -> told (Some (tr_episode_id t, tr_severity t)) (ts ++ [t])
  | told_recovered ts t sev : told (Some (tr_episode_id t, sev)) ts -> tr_phase t = "recovered" ->
      told None (ts ++ [t]).

Definition open_incident (r : replay_state) : option (string * string) :=
  option_map (fun e => (episode_id e, ep_severity e)) (rp_episode r).

Definition in_order (r : replay_state) : Prop :=
  told (open_incident r) (rp_transitions r)
  /\ forall e, rp_episode r = Some e -> ep_status e = "active".

Lemma active_only_id e : (forall x, e = Some x -> ep_status x = "active") -> active_only e = e.
Proof. destruct e as [x|]; simpl; [|done]. intros Hx. by rewrite (Hx x). Qed.
Lemma drop_closed_active e : ep_status e = "active" -> drop_closed (Some e) = Some e.
Proof. intros He. unfold drop_closed. by rewrite He. Qed.
Lemma drop_closed_closed e : ep_status e = "closed" -> drop_closed (Some e) = None.
Proof. intros He. unfold drop_closed. by rewrite He. Qed.
#[local] Arguments drop_closed : simpl never.

Lemma replay_step_inv st r r' : replay_step p st r = Ok r' ->
  (in_list (rp_processed r) (snapshot_id (rs_current st)) = true /\ r' = r)
  \/ exists ev, in_list (rp_processed r) (snapshot_id (rs_current st)) = false
    /\ verdict (rs_current st) p (rs_now_at st) (active_only (rp_episode r)) (rp_candidate r) ev
    /\ r' = mkReplay (ev_candidate ev)
               (drop_closed (match ev_episode ev with Some e => Some e | None => rp_episode r end))
               (rp_transitions r ++ match ev_transition ev with Some t => [t] | None => [] end)
               (snapshot_id (rs_current st) :: rp_processed r).
Proof.
  unfold replay_step. destruct (in_list _ _) eqn:Ein; [intros [= <-]; by left|].
  intros Hr. inv_ok Hr. injection Hr as <-. right. exists v. split_and!; [done | by apply evaluate_verdict | done].
Qed.

Lemma replay_step_order st r r' : in_order r -> replay_step p st r = Ok r' -> in_order r'.
Proof.
  intros [Ht Ha] [[_ ->]|(ev & _ & Hv & ->)]%replay_step_inv; [done|].
  unfold in_order, open_incident. simpl. rewrite (active_only_id _ Ha) in Hv. unfold open_incident in Ht.
  destruct Hv as [|e e' t He _ (Hid & _) Hst Htl _|_ _|e t sev He _ Hst Hsev _ Htl _ _ _ _|e e' He _ (Hid & _) Hst Hsev _
    |e e' t now n He _ (Hid & _) Hst Hrk Htl _ _ _ _]; simpl.
  - rewrite app_nil_r. destruct (rp_episode r) as [e|] eqn:E; [|by split].
    rewrite drop_closed_active by auto. split; [done|]. intros x [= <-]. auto.
  - rewrite (drop_closed_closed e' Hst). simpl. split; [|done]. rewrite He in Ht. simpl in Ht.
    destruct Htl as (Htid & Htp & _). rewrite <- Htid in Ht. by eapply told_recovered.
  - rewrite app_nil_r. destruct (rp_episode r) as [e|] eqn:E; [|by split].
    rewrite drop_closed_active by auto. split; [done|]. intros x [= <-]. auto.
  - rewrite (drop_closed_active e Hst). split; [|by intros x [= <-]]. rewrite He in Ht. simpl in *.
    destruct Htl as (<- & Htp & Hts & _). rewrite Hsev, <- Hts. by apply told_detected.
  - assert (ep_status e' = "active") as Hst' by (rewrite Hst; auto). rewrite (drop_closed_active e' Hst'), app_nil_r.
    split; [|by intros x [= <-]]. rewrite He in Ht. simpl in *. by rewrite Hid, Hsev.
  - assert (ep_status e' = "active") as Hst' by (rewrite Hst; auto). rewrite (drop_closed_active e' Hst').
    split; [|by intros x [= <-]]. rewrite He in Ht. simpl in *. destruct Htl as (Htid & Htp & Hts & _).
    rewrite Hid, <- Htid, <- Hts. rewrite <- Htid in Ht. eapply told_repeat; [done | done | by rewrite Hts].
Qed.

Lemma replay_from_order steps r r' : in_order r -> replay_from p steps r = Ok r' -> in_order r'.
Proof.
  revert r. induction steps as [|st steps IH]; simpl; intros r Ho Hr; [by injection Hr as <-|].
  inv_ok Hr. eapply IH; [|done]. by eapply replay_step_order.
Qed.

(** ** The snapshots a candidate counts *)
Fixpoint fresh_steps (seen : list string) (steps : list ReplayStep) : list ReplayStep :=
  match steps with
  | [] => []
  | st :: steps' =>
      if in_list seen (snapshot_id (rs_current st)) then fresh_steps seen steps'
      else st :: fresh_steps (snapshot_id (rs_current st) :: seen) steps'
  end.

Definition agrees (state : string) (reasons : list string) (st : ReplayStep) : Prop :=
  cu_state (rs_current st) = state /\ reason_codes (rs_current st) = reasons.

(** [c] counts the last entries of [log]. *)
Definition counts (log : list ReplayStep) (c : candidate_row) : Prop :=
  exists pre st sfx, log = pre ++ st :: sfx /\ c_samples c = Z.of_nat (length (st :: sfx))
    /\ Forall (agrees (c_state c) (c_reasons c)) (st :: sfx)
    /\ c_first_seen_at c = observed_at (rs_current st).

Definition counted (log : list ReplayStep) (r : replay_state) : Prop :=
  forall c, rp_candidate r = Some c -> counts log c /\ in_list (rp_processed r) (c_snapshot c) = true.

Lemma candidate_counts log r st : counted log r -> in_list (rp_processed r) (snapshot_id (rs_current st)) = false ->
  counts (log ++ [st]) (_candidate (rs_current st) (rp_candidate r))
  /\ c_state (_candidate (rs_current st) (rp_candidate r)) = cu_state (rs_current st)
  /\ c_reasons (_candidate (rs_current st) (rp_candidate r)) = reason_codes (rs_current st)
  /\ c_snapshot (_candidate (rs_current st) (rp_candidate r)) = snapshot_id (rs_current st).
Proof.
  intros Hc Hn. unfold _candidate.
  assert (counts (log ++ [st]) (mkCandidate (cu_domain (rs_current st)) (cu_state (rs_current st)) (observed_at (rs_current st))
    (observed_at (rs_current st)) 1 (snapshot_id (rs_current st)) (reason_codes (rs_current st)))) as Hfresh.
  { exists log, st, []. split_and!; [done | done | by repeat constructor | done]. }
  destruct (rp_candidate r) as [c|] eqn:Ec; [|done]. destruct (Hc c Ec) as [(pre & s0 & sfx & -> & Hs & Hf & Hfirst) Hin].
  destruct (negb (String.eqb (c_state c) (cu_state (rs_current st))) || negb (bool_decide (c_reasons c = reason_codes (rs_current st)))) eqn:Eb; [done|].
  apply orb_false_iff in Eb as [E1%negb_false_iff%String.eqb_eq E2%negb_false_iff%bool_decide_eq_true].
  destruct (String.eqb_spec (c_snapshot c) (snapshot_id (rs_current st))) as [E|]; [congruence|].
  split; [|done]. exists pre, s0, (sfx ++ [st]). rewrite <- app_assoc. simpl. split; [done|].
  rewrite Hs. simpl length. rewrite length_app. simpl length. split; [lia|]. split; [|done].
  rewrite E1, E2 in Hf. apply (Forall_app_2 _ (s0 :: sfx) [st]); [done | by repeat constructor].
Qed.

Lemma counted_step log st r r' : counted log r -> replay_step p st r = Ok r' ->
  (in_list (rp_processed r) (snapshot_id (rs_current st)) = true /\ r' = r)
  \/ (in_list (rp_processed r) (snapshot_id (rs_current st)) = false /\ counted (log ++ [st]) r'
      /\ rp_processed r' = snapshot_id (rs_current st) :: rp_processed r).
Proof.
  intros Hc [Hin|(ev & Hn & Hv & ->)]%replay_step_inv; [by left|]. right. split; [done|]. split; [|done].
  destruct (candidate_counts log r st Hc Hn) as (Hcount & _ & _ & Hsnap).
  intros c. simpl. destruct Hv; simpl; try done. intros [= <-].
  rewrite Hsnap, String.eqb_refl. done.
Qed.

Lemma counted_from log steps r r' : counted log r -> replay_from p steps r = Ok r' ->
  counted (log ++ fresh_steps (rp_processed r) steps) r'
  /\ forall tail, fresh_steps (rp_processed r) (steps ++ tail) = fresh_steps (rp_processed r) steps ++ fresh_steps (rp_processed r') tail.
Proof.
  revert log r. induction steps as [|st steps IH]; simpl; intros log r Hc Hr.
  { injection Hr as <-. by rewrite app_nil_r. }
  inv_ok Hr. destruct (counted_step log st r v Hc E) as [[Hin ->]|(Hn & Hc' & Hpr)].
  - rewrite Hin. destruct (IH log r Hc Hr) as [Hc1 Ht]. split; [done|]. exact Ht.
  - rewrite Hn, <- Hpr. destruct (IH _ _ Hc' Hr) as [Hc1 Ht]. rewrite <- app_assoc in Hc1. split; [done|].
    intros tail. by rewrite Ht.
Qed.
End Replay.

(** ** A concrete history *)
Module IncidentDemo.
Definition iso : FromIso := basic_iso.
(** Stands for the digest. *)
Definition sha : CanonicalSha := fun _ => "bbbbbbbbbbbbbbbbbbbbbbbbbbbbbbbbbbbbbbbbbbbbbbbbbbbbbbbbbbbbbbbb".
Definition at_min (m : string) : string := ("2026-01-01T00:" ++ m ++ ":00Z")%string.
Definition snap (digit minute state : string) : DomainCurrent :=
  mkCurrent ("cur:0123456789abcdef0123456" ++ digit) "network_transport" state ["rtmps_unreachable"] []
    (at_min minute) (at_min minute) (at_min "59") "p" "r" [].
Definition policy : IncidentPolicy :=
  with_bad "critical" 2 180 (default_policy "network_transport" "network and RTMPS reachability evidence is degraded").
Definition seen (digit minute state : string) : ReplayStep := mkStep (snap digit minute state) (at_min minute).
Definition first_steps : list ReplayStep := [seen "0" "00" "bad"; seen "0" "01" "bad"].
Definition opening : ReplayStep := seen "1" "04" "bad".
Definition later_steps : list ReplayStep := [seen "2" "09" "bad"; seen "3" "29" "bad"; seen "4" "30" "good"].
Definition history : list ReplayStep := first_steps ++ opening :: later_steps.
Definition before_opening : res replay_state := replay_from (H := iso) (H0 := sha) policy first_steps replay0.

Example phases_ex : phases (H := iso) (H0 := sha) history policy = Ok ["detected"; "repeat"; "recovered"].
Proof. vm_compute. reflexivity. Qed.
End IncidentDemo.

Module IncidentProperties.
Section Properties.
Context `{FromIso} `{CanonicalSha}.

(** C29: Under a policy the constructor accepts, the loop that moves the repeat
    deadline ends at the first multiple of the interval after the present, the
    evaluation of a snapshot always returns, and the deadline it leaves after a
    repeated notification lies in the future and at most one interval away. *)
Theorem repeat_deadline_advances p q current now_at active pending : policy_init p = Ok q ->
  (forall due now state reasons interval, interval = repeat_interval p state reasons ->
     advance_due (loop_fuel due now) due now interval
     = Some (if due <=? now then due + interval * ((now - due) / interval + 1) else due))
  /\ returns (evaluate_current current p now_at active pending)
  /\ (forall ev t, evaluate_current current p now_at active pending = Ok ev ->
        ev_transition ev = Some t -> tr_phase t = "repeat" ->
        exists e now n, ev_episode ev = Some e /\ unix_ts now_at = Ok now /\ utc_text n = Ok (next_notification_at e)
          /\ now < n <= now + repeat_interval p (cu_state current) (reason_codes current)).
Proof.
  intros Hp%policy_init_ok. split; [|split].
  - intros due now state reasons interval ->. pose proof (repeat_interval_ge p state reasons Hp).
    apply advance_due_closed; unfold loop_fuel; simpl; lia.
  - by apply evaluate_returns.
  - intros ev t He Ht Hphase. apply evaluate_verdict in He; [|done].
    destruct He as [|e e' t' _ _ _ _ Htl _| |e t' sev _ _ _ _ _ Htl _ _ _ _| |e e' t' now n _ _ _ _ _ _ Hn Hu Hb _];
      simpl in Ht; try done; injection Ht as <-; [destruct Htl as (_ & E & _); congruence..|].
    by exists e', now, n.
Qed.

(** C30: In a replay an incident opens only on a run of consecutive snapshots,
    each processed once, with the state and reasons of the opening one; the run
    has at least the policy's number of samples, spans at least its duration, and
    the incident is dated from the first of them. *)
Theorem incident_needs_consecutive_evidence p q steps st r r' e : policy_init p = Ok q ->
  replay_from p steps replay0 = Ok r -> replay_step p st r = Ok r' ->
  rp_episode r = None -> rp_episode r' = Some e ->
  exists pre s0 sfx samples duration severity now first,
    fresh_steps [] (steps ++ [st]) = pre ++ s0 :: sfx
    /\ Forall (agrees (cu_state (rs_current st)) (reason_codes (rs_current st))) (s0 :: sfx)
    /\ threshold p (cu_state (rs_current st)) = Ok (samples, duration, severity)
    /\ samples <= Z.of_nat (length (s0 :: sfx))
    /\ unix_ts (rs_now_at st) = Ok now /\ unix_ts (observed_at (rs_current s0)) = Ok first
    /\ duration <= Z.max 0 (now - first) /\ opened_at e = observed_at (rs_current s0)
    /\ is_actionable p (cu_state (rs_current st)) (reason_codes (rs_current st)) = true.
Proof.
  intros Hp%policy_init_ok Hr Hstep Hno He.
  destruct (counted_from p Hp [] steps replay0 r) as [Hc Htail]; [done | done |].
  apply (replay_step_inv p Hp) in Hstep as [[_ ->]|(ev & Hn & Hv & ->)]; [congruence|].
  destruct (candidate_counts _ r st Hc Hn) as ((pre & s0 & sfx & Hlog & Hs & Hf & Hfirst) & Hst & Hrs & _).
  rewrite Hno in Hv. simpl in He, Hv, Hlog.
  inversion Hv as [| | |e0 t sev _ Hev Hact _ _ _ _ _ _ Hop| |]; subst ev; simpl in He; rewrite ?Hno in He; try done.
  assert (e0 = e) as ->. { unfold drop_closed in He. destruct (String.eqb _ _); [done | by injection He]. }
  destruct Hev as [(samples & duration & severity & now & first & Hth & Hnow & Hfst & Hsam & Hdur) Ha].
  exists pre, s0, sfx, samples, duration, severity, now, first.
  rewrite Htail. simpl fresh_steps at 2. rewrite Hn. rewrite Hst, Hrs in Hf. rewrite Hfirst in *.
  split_and!; try done. by rewrite <- Hs.
Qed.

(** The notifications of a replay come in order: an incident is detected,
    repeated with a severity that never goes down, and recovered, all under one
    incident id, before the next one is detected. *)
Theorem notifications_in_order p q steps r : policy_init p = Ok q -> replay_from p steps replay0 = Ok r ->
  told (open_incident r) (rp_transitions r).
Proof.
  intros Hp%policy_init_ok Hr. eapply (replay_from_order p Hp); [|exact Hr].
  split; [constructor | done].
Qed.
End Properties.

Import IncidentDemo.
#[local] Existing Instance iso.
#[local] Existing Instance sha.

Definition opened_state : replay_state := match before_opening with Ok r => match replay_step policy opening r with Ok r' => r' | Err _ => replay0 end | Err _ => replay0 end.
Definition waiting_state : replay_state := match before_opening with Ok r => r | Err _ => replay0 end.
Definition opened_episode : IncidentEpisode :=
  match rp_episode opened_state with Some e => e | None => mkEpisode "" "" "" "" "" "" "" 0 0 "" "" "" "" [] end.
Definition end_state : replay_state := match replay_from policy history replay0 with Ok r => r | Err _ => replay0 end.
Definition late : DomainCurrent := snap "3" "29" "bad".

Lemma repeat_deadline_advances_witness :
  advance_due (loop_fuel 100 5000) 100 5000 600 = Some 5500
  /\ evaluate_current late policy (at_min "29") (Some opened_episode) None <> Err diverges.
Proof.
  destruct (repeat_deadline_advances policy policy late (at_min "29") (Some opened_episode) None) as (Hloop & Hret & _).
  - vm_compute. reflexivity.
  - split; [exact (Hloop 100 5000 "bad" [] 600 eq_refl) | exact Hret].
Defined.

Lemma incident_needs_consecutive_evidence_witness :
  exists pre s0 sfx, fresh_steps [] (first_steps ++ [opening]) = pre ++ s0 :: sfx
    /\ 2 <= Z.of_nat (length (s0 :: sfx)).
Proof.
  destruct (incident_needs_consecutive_evidence policy policy first_steps opening waiting_state opened_state opened_episode)
    as (pre & s0 & sfx & samples & duration & severity & now & first & Hl & _ & Ht & Hs & _).
  - vm_compute. reflexivity.
  - vm_compute. reflexivity.
  - vm_compute. reflexivity.
  - vm_compute. reflexivity.
  - vm_compute. reflexivity.
  - vm_compute in Ht. injection Ht as <- _ _. exists pre, s0, sfx. split; [exact Hl | exact Hs].
Defined.

Lemma notifications_in_order_witness :
  map tr_phase (rp_transitions end_state) = ["detected"; "repeat"; "recovered"] /\ told None (rp_transitions end_state).
Proof.
  split; [vm_compute; reflexivity|].
  apply (notifications_in_order policy policy history end_state); vm_compute; reflexivity.
Defined.
End IncidentProperties.
