(* ===== verification/IncidentService.v ===== *)
(** * Incident service: snapshots to incidents to notification intents

    Models src/monitoring-v4/src/stream_monitoring_v4/incidents/service.py with
    the tables it writes (storage/incident_store.py, current_store.py) and the
    intents it builds (notifications/routing.py, renderer.py, intent.py). *)
From S2P Require Import Prelude PyVal UtcTime Contracts Store Outbox Incidents.

(** ** notifications/routing.py *)
Record RoutePolicy : Type := mkRoute { rt_revision : string; discord_route : string; slack_route : string; slack_after_sec : Z }.
Definition ROUTE_POLICY_REVISION : string := "monitoring-v4-route-policy-r5.1".
Definition default_routes : RoutePolicy := mkRoute ROUTE_POLICY_REVISION "discord" "slack" 1800.
Definition route_policy_init (r : RoutePolicy) : res RoutePolicy :=
  let! _ := demand (negb (String.eqb (rt_revision r) "")) "route policy revision is required" in Ok r.

(** [tuple(dict.fromkeys(l))]: first occurrences, in order. *)
Fixpoint unique_from (seen : list string) (l : list string) : list string :=
  match l with
  | [] => []
  | x :: l' => if in_list seen x then unique_from seen l' else x :: unique_from (x :: seen) l'
  end.

Section Service.
Context `{FromIso} `{CanonicalSha}.

(** [max(0, unix_ts(occurred_at) - unix_ts(opened_at))] *)
Definition duration_sec (t : IncidentTransition) (e : IncidentEpisode) : res Z :=
  let! occurred := unix_ts (occurred_at t) in
  let! opened := unix_ts (opened_at e) in
  Ok (Z.max 0 (occurred - opened)).

Definition routes (rp : RoutePolicy) (t : IncidentTransition) (e : IncidentEpisode) : res (list string) :=
  let! duration := duration_sec t e in
  let severity := if String.eqb (tr_phase t) "recovered" then ep_severity e else tr_severity t in
  let slack := String.eqb severity "critical"
               || (String.eqb severity "warning" && (Z.max 0 (slack_after_sec rp) <=? duration)) in
  Ok (unique_from [] (discord_route rp :: if slack then [slack_route rp] else [])).

(** ** notifications/renderer.py *)
Definition TEMPLATE_REVISION : string := "monitoring-v4-ja-r5.2".
Definition PHASE_LABELS (phase : string) : res string :=
  if String.eqb phase "detected" then Ok "Incident detected"
  else if String.eqb phase "repeat" then Ok "Ongoing incident status"
  else if String.eqb phase "recovered" then Ok "Recovery notification" else Err EKey.

(** [strftime("%Y-%m-%d %H:%M:%S JST")] nine hours ahead of UTC. *)
Definition _jst (value : string) : res string :=
  let! t := parse_utc value in
  let z := Qfloor t + 32400 in
  if MAX_TS <? z then Err EOverflow else
  let '(y, m, d) := civil_from_days (z / 86400) in
  let s := z mod 86400 in
  let year := if y <? 1000 then str_Z y else pad4 y in
  Ok (year ++ "-" ++ pad2 m ++ "-" ++ pad2 d ++ " " ++ pad2 (s / 3600) ++ ":"
      ++ pad2 (s / 60 mod 60) ++ ":" ++ pad2 (s mod 60) ++ " JST")%string.

Definition newline : string := String (Ascii.ascii_of_nat 10) "".

Definition render (t : IncidentTransition) (e : IncidentEpisode) : res (string * string) :=
  let self_restart := in_list (tr_reason_codes t) "ffmpeg_child_auto_recovered" in
  let! label := if String.eqb (tr_phase t) "recovered" && self_restart
                then Ok "FFmpeg self-restart event" else PHASE_LABELS (tr_phase t) in
  let subject := ("[ADS-B Stream] " ++ label ++ ": " ++ tr_domain t)%string in
  let! duration := duration_sec t e in
  let reasons := match tr_reason_codes t with [] => "none" | l => String.concat "," l end in
  let recovery := if self_restart then "ffmpeg_child_self_recovery" else "human_review_no_automatic_restart" in
  let! time := _jst (occurred_at t) in
  Ok (subject, String.concat newline
    [("[ADS-B Stream] " ++ label)%string;
     ("time=" ++ time)%string;
     ("component=" ++ tr_domain t ++ " severity=" ++ tr_severity t)%string;
     ("episode_id=" ++ tr_episode_id t ++ " phase=" ++ tr_phase t ++ " duration_sec=" ++ str_Z duration)%string;
     ("issue=" ++ tr_summary t)%string;
     ("reason_codes=" ++ reasons)%string;
     ("recovery_type=" ++ recovery)%string]).

(** ** notifications/intent.py *)
Fixpoint create_intents (t : IncidentTransition) (rp : RoutePolicy) (subj text : string) (l : list string)
    : res (list NotificationIntent) :=
  match l with
  | [] => Ok []
  | rt :: l' =>
      let! i := intent_create (transition_id t) (tr_episode_id t) rt (tr_phase t) (tr_severity t) (occurred_at t)
                  (occurred_at t) subj text (rt_revision rp) TEMPLATE_REVISION [transition_id t] in
      let! rest := create_intents t rp subj text l' in
      Ok (i :: rest)
  end.

Definition build_notification_intents (t : IncidentTransition) (e : IncidentEpisode) (rp : RoutePolicy)
    : res (list NotificationIntent) :=
  let! (subj, text) := render t e in
  let! l := routes rp t e in
  create_intents t rp subj text l.

(** ** storage/current_store.py *)
Definition append_current_snapshot (c : DomainCurrent) : Db bool :=
  do! _ := db_lift (unix_ts (observed_at c)) in
  do! _ := db_lift (unix_ts (reduced_at c)) in
  do! _ := db_lift (unix_ts (valid_until c)) in
  do! old := db_get (fun s => snapshots s !! snapshot_id c) in
  match old with
  | Some _ => db_ret false
  | None => run! db_mod (fun s => set_snapshots (<[snapshot_id c := c]> (snapshots s)) s) then db_ret true
  end.

(** ** storage/incident_store.py *)
Definition is_active_in (domain : string) (e : IncidentEpisode) : bool :=
  String.eqb (ep_domain e) domain && String.eqb (ep_status e) "active".

(** The row of [WHERE domain=? AND status='active'], rebuilt as an episode. *)
Definition active_episode (domain : string) : Db (option IncidentEpisode) :=
  do! row := db_get (fun s => List.find (fun kv => is_active_in domain (snd kv)) (map_to_list (episodes s))) in
  match row with
  | Some (_, e) => do! e := db_lift (episode_init e) in db_ret (Some e)
  | None => db_ret None
  end.

(** ON CONFLICT(episode_id) DO UPDATE leaves the domain and the opening time. *)
Definition merge_episode (old : option IncidentEpisode) (e : IncidentEpisode) : IncidentEpisode :=
  match old with
  | None => e
  | Some o => mkEpisode (episode_id e) (ep_domain o) (ep_status e) (ep_severity e) (opened_at o) (last_bad_at e)
                (closed_at e) (bad_samples e) (unknown_samples e) (last_transition_at e) (next_notification_at e)
                (ep_policy_revision e) (ep_summary e) (ep_reason_codes e)
  end.

Definition opt_ts (v : string) : res Z := if String.eqb v "" then Ok 0 else unix_ts v.

Definition save_episode (e : IncidentEpisode) : Db unit :=
  do! _ := db_lift (unix_ts (opened_at e)) in
  do! _ := db_lift (unix_ts (last_bad_at e)) in
  do! _ := db_lift (opt_ts (closed_at e)) in
  do! _ := db_lift (unix_ts (last_transition_at e)) in
  do! _ := db_lift (opt_ts (next_notification_at e)) in
  do! row := db_get (fun s => merge_episode (episodes s !! episode_id e) e) in
  do! clash := db_get (fun s => String.eqb (ep_status row) "active" && existsb (fun kv =>
      negb (String.eqb (fst kv) (episode_id e)) && is_active_in (ep_domain row) (snd kv)) (map_to_list (episodes s))) in
  if clash : bool then db_raise integrity_error else
  db_mod (fun s => set_episodes (<[episode_id e := row]> (episodes s)) s).

Definition candidate (domain : string) : Db (option candidate_row) := db_get (fun s => candidates s !! domain).

(** The triggers of schema version 5: a row names a stored snapshot of its domain. *)
Definition snapshot_known (id domain : string) (s : store) : bool :=
  match snapshots s !! id with Some c => String.eqb (cu_domain c) domain | None => false end.

Definition save_candidate (c : candidate_row) : Db unit :=
  do! _ := db_lift (unix_ts (c_first_seen_at c)) in
  do! _ := db_lift (unix_ts (c_last_seen_at c)) in
  do! known := db_get (snapshot_known (c_snapshot c) (c_domain c)) in
  if negb (known && in_list ["bad"; "unknown"] (c_state c) && (0 <? c_samples c)) then db_raise integrity_error else
  db_mod (fun s => set_candidates (<[c_domain c := c]> (candidates s)) s).

Definition delete_candidate (domain : string) : Db unit :=
  db_mod (fun s => set_candidates (delete domain (candidates s)) s).

Definition append_transition (t : IncidentTransition) : Db bool :=
  do! _ := db_lift (unix_ts (occurred_at t)) in
  do! known := db_get (snapshot_known (current_snapshot_id t) (tr_domain t)) in
  if negb known then db_raise integrity_error else
  do! old := db_get (fun s => transitions s !! transition_id t) in
  match old with
  | Some _ => db_ret false
  | None =>
      do! ep := db_get (fun s => bool_decide (is_Some (episodes s !! tr_episode_id t))) in
      if negb ep then db_raise integrity_error else
      run! db_mod (fun s => set_transitions (<[transition_id t := t]> (transitions s)) s) then db_ret true
  end.

Definition current_was_processed (id : string) : Db bool :=
  db_get (fun s => bool_decide (is_Some (processed s !! id))).

Definition mark_current_processed (id domain processed_at : string) : Db unit :=
  do! _ := db_lift (unix_ts processed_at) in
  db_mod (fun s => match processed s !! id with
                   | Some _ => s
                   | None => set_processed (<[id := (domain, processed_at)]> (processed s)) s
                   end).

(** ** service.py *)
Record ProcessResult : Type := mkProcess {
  duplicate : bool; pr_episode : option IncidentEpisode; pr_transition : option IncidentTransition;
  pr_intents : list NotificationIntent }.

Record IncidentService : Type := mkService {
  sv_policies : list (string * IncidentPolicy); sv_routes : RoutePolicy; sv_epoch : option string }.

Fixpoint append_intents (l : list NotificationIntent) (epoch : option string) : Db unit :=
  match l with
  | [] => db_ret tt
  | i :: l' => do! _ := append_intent i epoch in append_intents l' epoch
  end.

Definition store_candidate (ev : IncidentEvaluation) (domain : string) : Db unit :=
  match ev_candidate ev with
  | None => delete_candidate domain
  | Some c => save_candidate c
  end.

(** Lines 69-83: the transition and, when it is new, its intents. *)
Definition publish (sv : IncidentService) (ev : IncidentEvaluation) : Db (list NotificationIntent) :=
  match ev_transition ev with
  | None => db_ret []
  | Some t =>
      do! inserted := append_transition t in
      match ev_episode ev with
      | Some e =>
          if inserted : bool then
            do! l := db_lift (build_notification_intents t e (sv_routes sv)) in
            run! append_intents l (sv_epoch sv) then
            db_ret l
          else db_ret []
      | None => db_ret []
      end
  end.

Definition process_body (sv : IncidentService) (current : DomainCurrent) (now_at : string) : Db ProcessResult :=
  do! known := current_was_processed (snapshot_id current) in
  if known : bool then db_ret (mkProcess true None None []) else
  do! _ := append_current_snapshot current in
  do! episode := active_episode (cu_domain current) in
  do! pending := candidate (cu_domain current) in
  do! p := db_lift (match dict_get (cu_domain current) (sv_policies sv) with Some p => Ok p | None => Err EKey end) in
  do! ev := db_lift (evaluate_current current p now_at episode pending) in
  run! store_candidate ev (cu_domain current) then
  run! match ev_episode ev with Some e => save_episode e | None => db_ret tt end then
  do! intents := publish sv ev in
  run! mark_current_processed (snapshot_id current) (cu_domain current) now_at then
  db_ret (mkProcess false (ev_episode ev) (ev_transition ev) intents).

Definition effective_now (current : DomainCurrent) (now_at : string) : res string :=
  let! now := unix_ts now_at in
  let! reduced := unix_ts (reduced_at current) in
  utc_text (Z.max now reduced).

Definition process (sv : IncidentService) (current : DomainCurrent) (now_at : string) : store -> res ProcessResult * store :=
  before_tx (effective_now current now_at) (fun now => transaction (process_body sv current now)).

(** Snapshots processed one after another, up to the first exception. *)
Fixpoint process_all (sv : IncidentService) (steps : list ReplayStep) (s : store) : res (list ProcessResult) * store :=
  match steps with
  | [] => (Ok [], s)
  | st :: steps' =>
      match process sv (rs_current st) (rs_now_at st) s with
      | (Err e, s') => (Err e, s')
      | (Ok r, s') =>
          let '(rs, s'') := process_all sv steps' s' in (rmap (cons r) rs, s'')
      end
  end.
End Service.
