(* ===== verification/IncidentServiceProofs.v ===== *)
(** * Incident service: the database run is the replay

    Processing snapshots of many domains through the database yields, for each
    domain, the transitions that replaying that domain's snapshots in memory
    gives: rows, unique indexes and upserts implement the loop variables. *)
From S2P Require Import Prelude PyVal UtcTime Contracts Store Outbox OutboxProofs Incidents IncidentProofs IncidentService.

Section Service.
Context `{FromIso} `{CanonicalSha}.

(** ** What one call changes *)
Definition ledger_same (s s' : store) : Prop :=
  candidates s' = candidates s /\ episodes s' = episodes s /\ processed s' = processed s.

Lemma ledger_refl s : ledger_same s s.
Proof. done. Qed.
Lemma ledger_trans s1 s2 s3 : ledger_same s1 s2 -> ledger_same s2 s3 -> ledger_same s1 s3.
Proof. intros (?&?&?) (?&?&?). repeat split; congruence. Qed.

Lemma insert_intent_ledger item s b s' : insert_intent item s = Ok (b, s') -> ledger_same s s'.
Proof.
  intros Hb. unfold insert_intent in Hb. inv_db Hb. destruct (intent_conflict item s); inv_db Hb; [done|].
  db_guard Hb Er. done.
Qed.
Lemma insert_delivery_ledger id row s b s' : insert_delivery id row s = Ok (b, s') -> ledger_same s s'.
Proof.
  intros Hb. unfold insert_delivery in Hb. inv_db Hb. destruct (deliveries s !! id); inv_db Hb; [done|].
  db_guard Hb Er. by apply db_mod_Ok in Hb as ->.
Qed.
Lemma append_intent_ledger item epoch s b s' : append_intent item epoch s = Ok (b, s') -> ledger_same s s'.
Proof.
  intros Hb. unfold append_intent in Hb. inv_db Hb. apply eligibility_pure in E as ->.
  destruct v as [[[mode ep] el] reason]. inv_db Hb.
  apply insert_intent_ledger in E. apply insert_delivery_ledger in E1. by eapply ledger_trans.
Qed.
Lemma append_intents_ledger l epoch s b s' : append_intents l epoch s = Ok (b, s') -> ledger_same s s'.
Proof.
  revert s. induction l as [|i l IH]; simpl; intros s Hb; [by inv_db Hb|].
  inv_db Hb. apply append_intent_ledger in E. apply IH in Hb. by eapply ledger_trans.
Qed.

Lemma append_transition_ledger t s b s' : append_transition t s = Ok (b, s') -> ledger_same s s'.
Proof.
  intros Hb. unfold append_transition in Hb. inv_db Hb. db_guard Hb Ek.
  destruct (transitions s !! transition_id t); inv_db Hb; [done|]. db_guard Hb Ee. done.
Qed.

Lemma publish_ledger sv ev s l s' : publish sv ev s = Ok (l, s') -> ledger_same s s'.
Proof.
  intros Hb. unfold publish in Hb. destruct (ev_transition ev) as [t|]; [|by inv_db Hb]. inv_db Hb.
  apply append_transition_ledger in E. destruct (ev_episode ev) as [e|]; [|by inv_db Hb].
  destruct v; [|by inv_db Hb]. inv_db Hb. apply append_intents_ledger in E1. by eapply ledger_trans.
Qed.

Lemma append_snapshot_ledger c s b s' : append_current_snapshot c s = Ok (b, s') -> ledger_same s s'.
Proof.
  intros Hb. unfold append_current_snapshot in Hb. inv_db Hb.
  destruct (snapshots s !! snapshot_id c); inv_db Hb; done.
Qed.

Lemma save_episode_eq e s u s' : save_episode e s = Ok (u, s') ->
  candidates s' = candidates s /\ processed s' = processed s
  /\ episodes s' = <[episode_id e := merge_episode (episodes s !! episode_id e) e]> (episodes s).
Proof. intros Hb. unfold save_episode in Hb. inv_db Hb. db_guard Hb Ec. by apply db_mod_Ok in Hb as ->. Qed.

Lemma store_candidate_eq ev d s u s' : store_candidate ev d s = Ok (u, s') ->
  episodes s' = episodes s /\ processed s' = processed s
  /\ candidates s' = match ev_candidate ev with None => delete d (candidates s) | Some c => <[c_domain c := c]> (candidates s) end.
Proof.
  unfold store_candidate. destruct (ev_candidate ev) as [c|]; intros Hb.
  - unfold save_candidate in Hb. inv_db Hb. db_guard Hb Ec. by apply db_mod_Ok in Hb as ->.
  - by apply db_mod_Ok in Hb as ->.
Qed.

Lemma mark_eq id d at_ s u s' : mark_current_processed id d at_ s = Ok (u, s') -> processed s !! id = None ->
  candidates s' = candidates s /\ episodes s' = episodes s /\ processed s' = <[id := (d, at_)]> (processed s).
Proof. intros Hb Hn. unfold mark_current_processed in Hb. inv_db Hb. apply db_mod_Ok in Hb as ->. by rewrite Hn. Qed.

(** The episode the SELECT finds. *)
Definition found (d : string) (s : store) (o : option IncidentEpisode) : Prop :=
  match o with
  | None => forall id e, episodes s !! id = Some e -> is_active_in d e = false
  | Some e => exists id e0, episodes s !! id = Some e0 /\ is_active_in d e0 = true /\ episode_init e0 = Ok e
  end.

Lemma active_episode_found d s o s' : active_episode d s = Ok (o, s') -> found d s o /\ s' = s.
Proof.
  intros Hb. unfold active_episode in Hb. inv_db Hb.
  destruct (List.find _ _) as [[id e]|] eqn:Ef.
  - inv_db Hb. split; [|done]. apply find_some in Ef as [Hin Ha].
    exists id, e. split; [|done]. by apply list_elem_of_In, elem_of_map_to_list in Hin.
  - inv_db Hb. split; [|done]. intros id e He. apply elem_of_map_to_list, list_elem_of_In in He.
    exact (find_none _ _ Ef _ He).
Qed.

(** Everything a successful call did. *)
Lemma process_Ok sv current now_at s r s' : process sv current now_at s = (Ok r, s') ->
  (is_Some (processed s !! snapshot_id current) /\ s' = s /\ pr_transition r = None)
  \/ exists now active q ev, processed s !! snapshot_id current = None
     /\ effective_now current now_at = Ok now /\ found (cu_domain current) s active
     /\ dict_get (cu_domain current) (sv_policies sv) = Some q
     /\ evaluate_current current q now active (candidates s !! cu_domain current) = Ok ev
     /\ pr_transition r = ev_transition ev
     /\ candidates s' = match ev_candidate ev with None => delete (cu_domain current) (candidates s)
                        | Some c => <[c_domain c := c]> (candidates s) end
     /\ episodes s' = match ev_episode ev with None => episodes s
                      | Some e => <[episode_id e := merge_episode (episodes s !! episode_id e) e]> (episodes s) end
     /\ processed s' = <[snapshot_id current := (cu_domain current, now)]> (processed s).
Proof.
  unfold process, before_tx. destruct (effective_now current now_at) as [now|]; [|done].
  intros [(a & [= <-] & Hb)|(e & [=] & _)]%transaction_cases. unfold process_body, current_was_processed in Hb. inv_db Hb.
  destruct (bool_decide _) eqn:Ek.
  { inv_db Hb. left. by apply bool_decide_eq_true in Ek. }
  apply bool_decide_eq_false in Ek. assert (processed s !! snapshot_id current = None) as Hn.
  { destruct (processed s !! snapshot_id current); [exfalso; eauto | done]. }
  inv_db Hb. apply append_snapshot_ledger in E as (Hc1 & He1 & Hp1).
  apply active_episode_found in E0 as [Hf ->].
  destruct (dict_get _ _) as [q|] eqn:Eq; [|done]. injection E1 as <-.
  apply store_candidate_eq in E3 as (He2 & Hp2 & Hc2). apply publish_ledger in E5 as (Hc4 & He4 & Hp4).
  assert (candidates s3 = candidates s2 /\ processed s3 = processed s2 /\ episodes s3 = match ev_episode v2 with None => episodes s2
      | Some e => <[episode_id e := merge_episode (episodes s2 !! episode_id e) e]> (episodes s2) end) as (Hc3 & Hp3 & He3).
  { destruct (ev_episode v2) as [e|]; [by apply save_episode_eq in E4 | by inv_db E4]. }
  apply mark_eq in E6 as (Hc5 & He5 & Hp5); [|congruence].
  right. exists now, v0, q, v2. rewrite Hc1 in E2. split_and!; try done.
  - unfold found in *. by rewrite <- He1.
  - rewrite Hc5, Hc4, Hc3, Hc2, Hc1. done.
  - rewrite He5, He4, He3, He2, He1. done.
  - rewrite Hp5, Hp4, Hp3, Hp2, Hp1. done.
Qed.

(** ** The rows and the loop variables of one domain *)
Variables (sv : IncidentService) (steps0 : list ReplayStep) (owner : string -> string) (d : string).

(** What the incidents of a run can be opened from: a snapshot, the observation
    time of some snapshot and the revision of a policy. *)
Definition opening (dom opened snap rev : string) : list pyval := [VStr dom; VStr opened; VStr snap; VStr rev].
Definition observed_times : list string := map (fun st => observed_at (rs_current st)) steps0.
Definition revisions : list string := map (fun kv => p_revision (snd kv)) (sv_policies sv).
Definition openings : list (list pyval) :=
  flat_map (fun st => flat_map (fun o => map (fun rev =>
    opening (cu_domain (rs_current st)) o (snapshot_id (rs_current st)) rev) revisions) observed_times) steps0.

(** No two openings of the run share their digest. *)
Definition no_collision : Prop := forall l1 l2 x, In l1 openings -> In l2 openings ->
  stable_id "inc" l1 = Ok x -> stable_id "inc" l2 = Ok x -> l1 = l2.

Lemma in_openings st o q dom : In st steps0 -> In o observed_times -> dict_get dom (sv_policies sv) = Some q ->
  In (opening (cu_domain (rs_current st)) o (snapshot_id (rs_current st)) (p_revision q)) openings.
Proof.
  intros Hst Ho Hq%dict_get_In. apply in_flat_map. exists st. split; [done|]. apply in_flat_map. exists o. split; [done|].
  apply in_map_iff. exists (p_revision q). split; [done|]. apply in_map_iff. by exists (dom, q).
Qed.

(** An episode and the opening its identifier was made from. *)
Definition opened_from (e : IncidentEpisode) (snap : string) : Prop := exists rev,
  In (opening (ep_domain e) (opened_at e) snap rev) openings
  /\ stable_id "inc" (opening (ep_domain e) (opened_at e) snap rev) = Ok (episode_id e).

Lemma opened_from_same e e' snap : same_incident e e' -> opened_from e snap -> opened_from e' snap.
Proof. unfold opened_from. by intros (-> & -> & ->). Qed.

(** Every episode row is a constructed episode under the identifier it was opened with. *)
Definition rows_ok (s : store) : Prop :=
  (forall id e, episodes s !! id = Some e -> episode_id e = id /\ episode_init e = Ok e
     /\ exists snap, opened_from e snap /\ is_Some (processed s !! snap))
  /\ forall dom c, candidates s !! dom = Some c -> c_domain c = dom /\ In (c_first_seen_at c) observed_times.

Record mirrors (s : store) (r : replay_state) : Prop := {
  mi_candidate : candidates s !! d = rp_candidate r;
  mi_row : forall id e, episodes s !! id = Some e -> is_active_in d e = true -> rp_episode r = Some e;
  mi_episode : forall e, rp_episode r = Some e -> episodes s !! episode_id e = Some e /\ is_active_in d e = true;
  mi_processed : forall id, owner id = d -> (is_Some (processed s !! id) <-> in_list (rp_processed r) id = true) }.

Lemma is_active_true dom e : is_active_in dom e = true <-> ep_domain e = dom /\ ep_status e = "active".
Proof. unfold is_active_in. by rewrite andb_true_iff, !String.eqb_eq. Qed.

Lemma merge_same o e : same_incident o e -> merge_episode (Some o) e = e.
Proof. intros (_ & Hd & Ho). destruct e. simpl in *. by rewrite <- Hd, <- Ho. Qed.

Hypothesis Hnc : no_collision.
Hypothesis Hpol : forall dom q, dict_get dom (sv_policies sv) = Some q -> policy_ok q.

Lemma candidate_first_seen s st dom : rows_ok s -> In st steps0 ->
  In (c_first_seen_at (_candidate (rs_current st) (candidates s !! dom))) observed_times.
Proof.
  intros [_ Hc] Hst. assert (In (observed_at (rs_current st)) observed_times) as Ho by by apply (in_map (fun st => observed_at (rs_current st))).
  unfold _candidate. destruct (candidates s !! dom) as [c|] eqn:Ec; [|done]. destruct (Hc dom c Ec) as [_ Hf].
  by repeat case_match.
Qed.

(** The saved row is the evaluated episode, which is again constructed and opened
    from a processed snapshot. *)
Lemma saved_row s st q now active ev e : rows_ok s -> In st steps0 ->
  dict_get (cu_domain (rs_current st)) (sv_policies sv) = Some q ->
  processed s !! snapshot_id (rs_current st) = None ->
  (forall e0, active = Some e0 -> episodes s !! episode_id e0 = Some e0 /\ ep_domain e0 = cu_domain (rs_current st)) ->
  verdict (rs_current st) q now active (candidates s !! cu_domain (rs_current st)) ev -> ev_episode ev = Some e ->
  merge_episode (episodes s !! episode_id e) e = e /\ episode_init e = Ok e /\ ep_domain e = cu_domain (rs_current st)
  /\ exists snap, opened_from e snap /\ (snap = snapshot_id (rs_current st) \/ is_Some (processed s !! snap)).
Proof.
  intros Hok Hst Hq Hn Hact Hv He. pose proof (proj1 Hok) as Hrows.
  assert (forall e0, active = Some e0 -> same_incident e0 e -> episode_init e = Ok e ->
    merge_episode (episodes s !! episode_id e) e = e /\ episode_init e = Ok e /\ ep_domain e = cu_domain (rs_current st)
    /\ exists snap, opened_from e snap /\ (snap = snapshot_id (rs_current st) \/ is_Some (processed s !! snap))) as Hold.
  { intros e0 Ha Hs Hfix. destruct (Hact e0 Ha) as [Hrow Hd0]. destruct (Hrows _ _ Hrow) as (_ & _ & snap & Hof & Hsnap).
    pose proof Hs as (Hid & Hdom & _). rewrite Hid, Hrow. split_and!; [by apply merge_same | done | congruence |].
    exists snap. split; [by eapply opened_from_same | by right]. }
  destruct Hv as [|e0 e' t Ha _ Hs _ _ Hfix|_ _|e' t sev Ha _ _ _ _ _ Hfix Hid Hdom Hop|e0 e' Ha _ Hs _ _ Hfix|e0 e' t nw n Ha _ Hs _ _ _ _ _ _ Hfix];
    simpl in He; try done.
  2, 4, 5: injection He as <-; by apply (Hold e0).
  - apply (Hold e); [done | done |]. destruct (Hact e He) as [Hrow _]. by destruct (Hrows _ _ Hrow) as (_ & ? & _).
  - injection He as <-. pose proof (candidate_first_seen s st (cu_domain (rs_current st)) Hok Hst) as Hfs. rewrite <- Hop in Hfs.
    pose proof (in_openings st _ q _ Hst Hfs Hq) as Hin. unfold opening in Hin. rewrite <- Hdom in Hid, Hin.
    split; [|split; [done|split; [done|exists (snapshot_id (rs_current st)); split; [by exists (p_revision q) | by left]]]].
    destruct (episodes s !! episode_id e') as [o|] eqn:Eo; [|done]. exfalso.
    destruct (Hrows _ _ Eo) as (Hoid & _ & snap & (rev & Hino & Hido) & Hsnap). rewrite Hoid in Hido.
    pose proof (Hnc _ _ _ Hin Hino Hid Hido) as [= _ _ E _]. rewrite <- E, Hn in Hsnap. by destruct Hsnap.
Qed.

Lemma found_row dom s active : rows_ok s -> found dom s active ->
  forall e0, active = Some e0 -> episodes s !! episode_id e0 = Some e0 /\ is_active_in dom e0 = true.
Proof.
  intros [Hrows _] Hf e0 ->. destruct Hf as (id & e1 & Hrow & Ha & Hi).
  destruct (Hrows _ _ Hrow) as (<- & Hfix & _). rewrite Hfix in Hi. by injection Hi as <-.
Qed.

(** A successful call on a snapshot not seen before. *)
Record effect_of (st : ReplayStep) (s : store) (r : ProcessResult) (s' : store)
    (now : string) (active : option IncidentEpisode) (q : IncidentPolicy) (ev : IncidentEvaluation) : Prop := {
  ef_new : processed s !! snapshot_id (rs_current st) = None;
  ef_now : effective_now (rs_current st) (rs_now_at st) = Ok now;
  ef_found : found (cu_domain (rs_current st)) s active;
  ef_policy : dict_get (cu_domain (rs_current st)) (sv_policies sv) = Some q;
  ef_eval : evaluate_current (rs_current st) q now active (candidates s !! cu_domain (rs_current st)) = Ok ev;
  ef_verdict : verdict (rs_current st) q now active (candidates s !! cu_domain (rs_current st)) ev;
  ef_transition : pr_transition r = ev_transition ev;
  ef_candidates : candidates s' = match ev_candidate ev with None => delete (cu_domain (rs_current st)) (candidates s)
                                  | Some c => <[c_domain c := c]> (candidates s) end;
  ef_episodes : episodes s' = match ev_episode ev with None => episodes s | Some e => <[episode_id e := e]> (episodes s) end;
  ef_merge : forall e, ev_episode ev = Some e -> merge_episode (episodes s !! episode_id e) e = e;
  ef_row : forall e, ev_episode ev = Some e -> episode_init e = Ok e /\ ep_domain e = cu_domain (rs_current st)
    /\ exists snap, opened_from e snap /\ (snap = snapshot_id (rs_current st) \/ is_Some (processed s !! snap));
  ef_kept : forall c, ev_candidate ev = Some c -> c_domain c = cu_domain (rs_current st) /\ In (c_first_seen_at c) observed_times;
  ef_processed : processed s' = <[snapshot_id (rs_current st) := (cu_domain (rs_current st), now)]> (processed s) }.

Lemma process_effect st s r s' : rows_ok s -> In st steps0 ->
  process sv (rs_current st) (rs_now_at st) s = (Ok r, s') ->
  (is_Some (processed s !! snapshot_id (rs_current st)) /\ s' = s /\ pr_transition r = None)
  \/ exists now active q ev, effect_of st s r s' now active q ev.
Proof.
  intros Hok Hst [?|(now & active & q & ev & Hn & Hnow & Hf & Hq & Hev & Ht & Hc & He & Hpr)]%process_Ok; [by left|]. right.
  pose proof (evaluate_verdict _ _ _ _ _ _ (Hpol _ _ Hq) Hev) as Hv.
  assert (forall e0, active = Some e0 -> episodes s !! episode_id e0 = Some e0 /\ ep_domain e0 = cu_domain (rs_current st)) as Hact.
  { intros e0 Ha0. destruct (found_row _ _ _ Hok Hf e0 Ha0) as [? [Hia _]%is_active_true]. done. }
  pose proof (fun e => saved_row s st q now active ev e Hok Hst Hq Hn Hact Hv) as Hsaved.
  exists now, active, q, ev. split; try done.
  - rewrite He. destruct (ev_episode ev) as [e|]; [|done]. by destruct (Hsaved e eq_refl) as [-> _].
  - intros e Ee. by apply Hsaved.
  - intros e Ee. by apply Hsaved.
  - intros c Hcand. destruct Hv; simpl in Hcand; simplify_eq. split; [|by apply candidate_first_seen].
    unfold _candidate. repeat case_match; try done. by apply (proj2 Hok).
Qed.

Lemma effect_rows st s r s' now active q ev : rows_ok s -> effect_of st s r s' now active q ev -> rows_ok s'.
Proof.
  intros Hok [Hn _ _ _ _ _ _ Hc He _ Hrow Hkept Hpr].
  assert (forall snap, is_Some (processed s !! snap) -> is_Some (processed s' !! snap)) as Hmono.
  { intros snap [x Hx]. rewrite Hpr. destruct (decide (snapshot_id (rs_current st) = snap)) as [->|];
      [rewrite lookup_insert_eq | rewrite lookup_insert_ne by done]; eauto. }
  assert (forall id x, episodes s !! id = Some x -> episode_id x = id /\ episode_init x = Ok x
     /\ exists snap, opened_from x snap /\ is_Some (processed s' !! snap)) as Hold.
  { intros id x Hx. destruct (proj1 Hok id x Hx) as (? & ? & sn & ? & ?). split_and!; [done|done|]. exists sn. auto. }
  split.
  - intros id x. rewrite He. destruct (ev_episode ev) as [e|]; [|apply Hold].
    rewrite lookup_insert_Some. intros [[<- <-]|[_ Hx]]; [|by apply Hold].
    destruct (Hrow e eq_refl) as (Hfix & _ & snap & Hof & Hsnap). split_and!; [done|done|]. exists snap. split; [done|].
    destruct Hsnap as [->|]; [|by apply Hmono]. rewrite Hpr, lookup_insert_eq. eauto.
  - intros dom c. rewrite Hc. destruct (ev_candidate ev) as [c'|].
    + rewrite lookup_insert_Some. intros [[<- <-]|[_ ?]]; [|by apply (proj2 Hok)].
      split; [done | by apply Hkept].
    + rewrite lookup_delete_Some. intros [_ ?]. by apply (proj2 Hok).
Qed.

(** A snapshot of another domain leaves the loop variables of [d] alone. *)
Lemma mirrors_other st s r0 s' r now active q ev : mirrors s r ->
  cu_domain (rs_current st) <> d -> owner (snapshot_id (rs_current st)) = cu_domain (rs_current st) ->
  effect_of st s r0 s' now active q ev -> mirrors s' r.
Proof.
  intros [Mc Mr Me Mp] Hd Hown [Hn _ _ _ _ Hv _ Hc He Hmerge Hrow Hkept Hpr].
  split.
  - rewrite Hc, <- Mc. destruct (ev_candidate ev) as [c|]; [|by rewrite lookup_delete_ne].
    rewrite lookup_insert_ne; [done|]. by rewrite (proj1 (Hkept c eq_refl)).
  - intros id e. rewrite He. destruct (ev_episode ev) as [e1|]; [|apply Mr].
    rewrite lookup_insert_Some. intros [[_ <-]|[_ Hx]] Ha; [|by eapply Mr].
    apply is_active_true in Ha as [Ha _]. destruct (Hrow e1 eq_refl) as (_ & Hd1 & _). congruence.
  - intros e Ee. destruct (Me e Ee) as [Hrowe Ha]. split; [|done]. rewrite He.
    destruct (ev_episode ev) as [e1|] eqn:Ee1; [|done]. rewrite lookup_insert_ne; [done|]. intros Eid.
    destruct (Hrow e1 eq_refl) as (_ & Hd1 & _). apply is_active_true in Ha as [Ha _].
    pose proof (Hmerge e1 eq_refl) as Hm. rewrite Eid, Hrowe in Hm. rewrite <- Hm in Hd1. simpl in Hd1. congruence.
  - intros id Hid. rewrite <- (Mp id Hid), Hpr, lookup_insert_ne by congruence. done.
Qed.

Lemma mirrors_active s r active : rows_ok s -> mirrors s r -> found d s active -> active = rp_episode r /\ active_only (rp_episode r) = active.
Proof.
  intros Hok [_ Mr Me _] Hf. assert (active = rp_episode r) as ->.
  { destruct active as [e|].
    - destruct (found_row d s (Some e) Hok Hf e eq_refl) as [Hrow Ha]. symmetry. by eapply Mr.
    - destruct (rp_episode r) as [e|] eqn:Ee; [|done]. destruct (Me e eq_refl) as [Hrow Ha]. rewrite (Hf _ _ Hrow) in Ha. done. }
  split; [done|]. destruct (rp_episode r) as [e|] eqn:Ee; [|done]. simpl.
  destruct (Me e eq_refl) as [_ [_ Hst]%is_active_true]. by rewrite Hst.
Qed.

#[local] Arguments drop_closed : simpl never.

(** The step at the time the service evaluates it: [max(now_at, reduced_at)]. *)
Definition at_effective_time (st : ReplayStep) : ReplayStep :=
  match effective_now (rs_current st) (rs_now_at st) with Ok now => mkStep (rs_current st) now | Err _ => st end.

(** A snapshot of [d] moves the loop variables as the replay at that time does. *)
Lemma mirrors_own st s r0 s' r now active q ev p : rows_ok s -> mirrors s r ->
  dict_get d (sv_policies sv) = Some p ->
  cu_domain (rs_current st) = d -> owner (snapshot_id (rs_current st)) = d ->
  effect_of st s r0 s' now active q ev ->
  exists r', replay_step p (at_effective_time st) r = Ok r' /\ mirrors s' r'
    /\ rp_transitions r' = rp_transitions r ++ match pr_transition r0 with Some t => [t] | None => [] end.
Proof.
  intros Hok Hm Hpd Hd Hown [Hn Hnow Hf Hq Hev Hv Ht Hc He _ Hrow Hkept Hpr].
  assert (at_effective_time st = mkStep (rs_current st) now) as -> by (unfold at_effective_time; by rewrite Hnow). rewrite Hd in *. rewrite Hpd in Hq. injection Hq as <-.
  destruct (mirrors_active s r active Hok Hm Hf) as [Hact Hao]. destruct Hm as [Mc Mr Me Mp]. rewrite Mc in Hev, Hv.
  assert (in_list (rp_processed r) (snapshot_id (rs_current st)) = false) as Hfresh.
  { apply not_true_iff_false. intros Hin. apply (Mp _ Hown) in Hin. rewrite Hn in Hin. by destruct Hin. }
  unfold replay_step. simpl rs_current. simpl rs_now_at. rewrite Hfresh, Hao, Hev. simpl. eexists. split; [done|]. split; [|by rewrite Ht].
  assert (forall id, owner id = d -> is_Some (processed s' !! id) <->
    in_list (snapshot_id (rs_current st) :: rp_processed r) id = true) as Hproc.
  { intros id Hid. rewrite Hpr. simpl. rewrite orb_true_iff, String.eqb_eq, <- (Mp id Hid).
    destruct (decide (id = snapshot_id (rs_current st))) as [->|Hne].
    - rewrite lookup_insert_eq. split; eauto.
    - rewrite lookup_insert_ne by done. naive_solver. }
  assert (candidates s' !! d = ev_candidate ev) as Hcand.
  { rewrite Hc. destruct (ev_candidate ev) as [c|]; [|apply lookup_delete_eq]. by rewrite (proj1 (Hkept c eq_refl)), lookup_insert_eq. }
  destruct (ev_episode ev) as [e|] eqn:Ee.
  - destruct (Hrow e eq_refl) as (_ & Hde & _).
    assert (forall x, rp_episode r = Some x -> episode_id x = episode_id e) as Hsame.
    { intros x Hx. rewrite Hx in Hact. destruct Hv as [|? ? ? Ha _ (Hs & _)|? ?|? ? ? Ha|? ? Ha _ (Hs & _)|? ? ? ? ? Ha _ (Hs & _)];
        simpl in Ee; simplify_eq; congruence. }
    assert (ep_status e = "active" \/ ep_status e = "closed") as Hst.
    { destruct (Hrow e eq_refl) as (Hfix & _). by apply episode_status in Hfix. }
    split; simpl.
    + done.
    + intros id x. rewrite He, lookup_insert_Some. intros [[<- <-]|[Hne Hx]] Ha.
      * apply is_active_true in Ha as [_ Ha]. by apply drop_closed_active.
      * pose proof (Mr id x Hx Ha) as Hrx. destruct (Me x Hrx) as [Hx' _]. exfalso. apply Hne.
        rewrite <- (Hsame x Hrx). destruct (proj1 Hok id x Hx) as [? _]. congruence.
    + intros x Hx. destruct Hst as [Ha|Hcl]; [|rewrite (drop_closed_closed e Hcl) in Hx; done].
      rewrite (drop_closed_active e Ha) in Hx. injection Hx as <-. rewrite He, lookup_insert_eq.
      split; [done|]. by apply is_active_true.
    + done.
  - split; simpl; [done| | |done]; rewrite He.
    + intros id x Hx Ha. rewrite (Mr id x Hx Ha). apply drop_closed_active. by apply is_active_true in Ha as [_ ?].
    + intros x Hx. destruct (rp_episode r) as [e|] eqn:Er; [|done]. destruct (Me e eq_refl) as [Hre Ha].
      apply is_active_true in Ha as [Hd0 Ha]. rewrite (drop_closed_active e Ha) in Hx. injection Hx as <-.
      split; [done|]. by apply is_active_true.
Qed.

(** ** A whole run *)
Definition of_domain (st : ReplayStep) : bool := String.eqb (cu_domain (rs_current st)) d.

(** The transitions the run reported for [d], in order. *)
Fixpoint domain_transitions (steps : list ReplayStep) (rs : list ProcessResult) : list IncidentTransition :=
  match steps, rs with
  | st :: steps', r :: rs' =>
      (if of_domain st then match pr_transition r with Some t => [t] | None => [] end else [])
      ++ domain_transitions steps' rs'
  | _, _ => []
  end.

(** Snapshot ids belong to one domain. *)
Definition owned (st : ReplayStep) : Prop := owner (snapshot_id (rs_current st)) = cu_domain (rs_current st).

Lemma effective_current st : rs_current (at_effective_time st) = rs_current st.
Proof. unfold at_effective_time. by destruct (effective_now _ _). Qed.

Lemma mirrors_start s : episodes s = ∅ -> candidates s = ∅ -> processed s = ∅ -> rows_ok s /\ mirrors s replay0.
Proof.
  intros He Hc Hpr. split; [split|split]; rewrite ?He, ?Hc, ?Hpr; try done.
  - intros id Hid. rewrite lookup_empty. simpl. split; [by intros [] | done].
Qed.

Lemma run_mirrors p steps s r rs s' : dict_get d (sv_policies sv) = Some p ->
  Forall (fun st => In st steps0 /\ owned st) steps -> rows_ok s -> mirrors s r ->
  process_all sv steps s = (Ok rs, s') ->
  exists r', replay_from p (map at_effective_time (List.filter of_domain steps)) r = Ok r'
    /\ rp_transitions r' = rp_transitions r ++ domain_transitions steps rs.
Proof.
  intros Hpd Hf. revert s r rs. induction Hf as [|st steps (Hst & Hown) _ IH]; intros s r rs Hok Hm; simpl.
  { intros [= <- _]. exists r. by rewrite app_nil_r. }
  destruct (process sv (rs_current st) (rs_now_at st) s) as [[r0|e] s1] eqn:Ep; [|done].
  destruct (process_all sv steps s1) as [[rs1|e] s2] eqn:Ea; simpl; [|done]. intros [= <- <-].
  destruct (process_effect st s r0 s1 Hok Hst Ep) as [(Hproc & -> & Ht)|(now & active & q & ev & Hef)].
  - destruct (IH s r rs1 Hok Hm Ea) as (r' & Hr & Htr). exists r'. rewrite Ht.
    destruct (of_domain st) eqn:Eo; [|done]. apply String.eqb_eq in Eo. simpl. unfold replay_step. rewrite effective_current.
    by rewrite (proj1 (mi_processed _ _ Hm (snapshot_id (rs_current st)) ltac:(unfold owned in Hown; congruence)) Hproc).
  - pose proof (effect_rows _ _ _ _ _ _ _ _ Hok Hef) as Hok1.
    destruct (of_domain st) eqn:Eo; [apply String.eqb_eq in Eo | apply String.eqb_neq in Eo].
    + destruct (mirrors_own _ _ _ _ r _ _ _ _ p Hok Hm Hpd Eo ltac:(unfold owned in Hown; congruence) Hef) as (r1 & Hr1 & Hm1 & Ht1).
      destruct (IH s1 r1 rs1 Hok1 Hm1 Ea) as (r' & Hr & Htr). exists r'. simpl. rewrite Hr1. simpl.
      split; [done|]. by rewrite Htr, Ht1, <- app_assoc.
    + apply (IH s1 r rs1 Hok1); [|done]. by eapply mirrors_other.
Qed.
End Service.

Module IncidentServiceProperties.
Section Properties.
Context `{FromIso} `{CanonicalSha}.

(** C32: When the service has processed snapshots of any mix of domains through
    the database, the transitions it reported for a domain are those of the
    in-memory replay of that domain's snapshots, each at the time the service gives
    it: the later of its [now_at] and of the reduction of its snapshot. The tables
    start empty, the policies are ones their constructor accepts, a snapshot
    identifier belongs to one domain, and no two openings of the run share their
    digest. *)
Theorem service_is_replay sv d p owner steps s rs s' :
  (forall dom q, dict_get dom (sv_policies sv) = Some q -> is_ok (policy_init q) = true) ->
  dict_get d (sv_policies sv) = Some p -> no_collision sv steps ->
  Forall (owned owner) steps -> episodes s = ∅ -> candidates s = ∅ -> processed s = ∅ ->
  process_all sv steps s = (Ok rs, s') ->
  replay (map at_effective_time (List.filter (of_domain d) steps)) p = Ok (domain_transitions d steps rs).
Proof.
  intros Hpol Hpd Hnc Hf He Hc Hpr Hrun.
  assert (forall dom q, dict_get dom (sv_policies sv) = Some q -> policy_ok q) as Hpol'.
  { intros dom q Hq. specialize (Hpol dom q Hq). destruct (policy_init q) eqn:E; [by eapply policy_init_ok | done]. }
  destruct (mirrors_start sv steps owner d s He Hc Hpr) as [Hok Hm].
  destruct (run_mirrors sv steps owner d Hnc Hpol' p steps s replay0 rs s' Hpd) as (r & Hr & Ht); try done.
  - apply Forall_forall. intros st Hst. split; [by apply list_elem_of_In|]. by eapply Forall_forall in Hf.
  - unfold replay. rewrite Hr. simpl. by rewrite Ht.
Qed.
End Properties.

(** The openings of a run are finite: a check of [no_collision]. *)
Definition keys (l : list pyval) : list string := map str_val l.
Definition collision_free `{CanonicalSha} (sv : IncidentService) (steps : list ReplayStep) : bool :=
  forallb (fun l1 => forallb (fun l2 =>
    implb (bool_decide (stable_id "inc" l1 = stable_id "inc" l2)) (bool_decide (keys l1 = keys l2)))
    (openings sv steps)) (openings sv steps).

Lemma keys_inj sv steps l : In l (openings sv steps) -> l = map VStr (keys l).
Proof.
  unfold openings. rewrite in_flat_map. intros (st & _ & Hl). rewrite in_flat_map in Hl.
  destruct Hl as (o & _ & Hl). apply in_map_iff in Hl as (rev & <- & _). done.
Qed.

Lemma collision_free_ok `{CanonicalSha} sv steps : collision_free sv steps = true -> no_collision sv steps.
Proof.
  unfold collision_free. rewrite forallb_forall. intros Hc l1 l2 x H1 H2 E1 E2.
  specialize (Hc l1 H1). rewrite forallb_forall in Hc. specialize (Hc l2 H2).
  rewrite E1, E2, bool_decide_eq_true_2 in Hc by done. simpl in Hc. apply bool_decide_eq_true in Hc.
  rewrite (keys_inj sv steps l1 H1), (keys_inj sv steps l2 H2). by rewrite Hc.
Qed.

(** Two domains interleaved. *)
Definition demo_iso : FromIso := basic_iso.
#[local] Existing Instance demo_iso.
Definition minutes (s : string) : string :=
  let m := String.substring 14 2 s in if (slen m =? 2) && all_chars is_lower_hex m then m else "bb".
Definition last_hex (s : string) : string :=
  let c := String.substring (String.length s - 1) 1 s in if all_chars is_lower_hex c then c else "b".
(** Stands for the digest: distinct on the openings of the run below. *)
Definition demo_sha : CanonicalSha := fun v =>
  match v with
  | VList (VStr _ :: VStr a :: VStr b :: _) =>
      (last_hex b ++ minutes a ++ minutes b ++ "aaaaaaaaaaaaaaaaaaaaaaaaaaaaaaaaaaaaaaaaaaaaaaaaaaaaaaaaaaa")%string
  | _ => "bbbbbbbbbbbbbbbbbbbbbbbbbbbbbbbbbbbbbbbbbbbbbbbbbbbbbbbbbbbbbbbb"
  end.
#[local] Existing Instance demo_sha.

Definition seen_in (dom digit minute state : string) : ReplayStep :=
  let t := IncidentDemo.at_min minute in
  mkStep (mkCurrent ("cur:0123456789abcdef0123456" ++ digit) dom state ["evidence_degraded"] [] t t
            (IncidentDemo.at_min "59") "p" "r" []) t.
(** The snapshot that closes the audio incident is processed with a clock five minutes behind. *)
Definition behind (st : ReplayStep) : ReplayStep := mkStep (rs_current st) (IncidentDemo.at_min "00").
Definition demo_run : list ReplayStep :=
  [seen_in "network_transport" "0" "00" "bad"; seen_in "audio" "8" "01" "bad";
   seen_in "network_transport" "1" "04" "bad"; behind (seen_in "audio" "9" "05" "good");
   seen_in "network_transport" "2" "30" "good"].
Definition demo_owner (id : string) : string := if ends_with "8" id || ends_with "9" id then "audio" else "network_transport".
Definition audio : IncidentPolicy := default_policy "audio" "audio current state is degraded".
Definition demo_service : IncidentService :=
  mkService [("network_transport", IncidentDemo.policy); ("audio", audio)] default_routes None.
Definition demo_results : list ProcessResult := match process_all demo_service demo_run empty_store with (Ok rs, _) => rs | _ => [] end.
Definition demo_store : store := snd (process_all demo_service demo_run empty_store).

Lemma service_is_replay_witness :
  replay (map at_effective_time (List.filter (of_domain "audio") demo_run)) audio = Ok (domain_transitions "audio" demo_run demo_results)
  /\ map tr_phase (domain_transitions "audio" demo_run demo_results) = ["detected"; "recovered"]
  /\ is_ok (replay (List.filter (of_domain "audio") demo_run) audio) = false.
Proof.
  split; [|split; vm_compute; reflexivity].
  apply (service_is_replay demo_service "audio" audio demo_owner demo_run empty_store demo_results demo_store).
  - intros dom q Hq. apply dict_get_In in Hq as [[= _ <-]|[[= _ <-]|[]]]; vm_compute; reflexivity.
  - reflexivity.
  - apply collision_free_ok. vm_compute. reflexivity.
  - repeat constructor; vm_compute; reflexivity.
  - reflexivity.
  - reflexivity.
  - reflexivity.
  - vm_compute. reflexivity.
Defined.
End IncidentServiceProperties.
