(* ===== verification/EffectModel.v ===== *)
(** * Typed effect requests of the runtime boundary

    Models src/src/runtime_boundary/model.py and the scope identifiers of
    src/src/cra_dell_recovery/effect_scope.py and models.py: the identities a
    request is fenced by, its parser with every refusal, and its canonical form. *)
From Stdlib Require Import Ascii.
From S2P Require Import Prelude PyVal UtcTime FastPolicy EffectContract.

(** SHA-256 of the RFC 8785 text of a value; [rfc8785.dumps] refuses some values. *)
Class JcsSha := jcs_sha256 : pyval -> res string.

Definition MAX_EFFECT_REQUEST_LIFETIME_SECONDS : Q := 5.
Definition SWITCH_STREAM_ROUTE : string := "SWITCH_STREAM_ROUTE".
Definition DELIVERY_TARGET_INTENTS : list string := [RESTART_FFMPEG; SWITCH_STREAM_ROUTE].
Definition EXECUTOR_OWNED_INTENTS : list string := [RESTART_FFMPEG; SWITCH_STREAM_ROUTE; RECONCILE_FFMPEG].
Definition ALL_EFFECT_INTENTS : list string :=
  [RESTART_FFMPEG; SWITCH_STREAM_ROUTE; RECONCILE_FFMPEG; ESCALATE_RUNTIME_RECOVERY].

Definition EXACT_TARGET_FIELDS : list string :=
  ["host_id"; "host_boot_id"; "namespace"; "pod_uid"; "container_name"; "container_id"; "ffmpeg_generation"; "ffmpeg_pid"].
Definition EXACT_RUNTIME_FIELDS : list string :=
  ["host_id"; "host_boot_id"; "namespace"; "pod_uid"; "stream_engine_container_name"; "stream_engine_container_id";
   "runtime_generation"].

Definition listed (l : list string) (s : string) : bool := existsb (String.eqb s) l.

(** [raise ProtocolError(reason)]: a [ValueError]. *)
Definition protocol_error {A} (reason : string) : res A := Err (EValue reason).
Definition require (b : bool) (reason : string) : res unit := if b then Ok tt else protocol_error reason.

(** [except (TypeError, ValueError) as exc: raise ProtocolError(reason)] *)
Definition or_protocol {A} (m : res A) (reason : string) : res A :=
  match m with
  | Err EType | Err (EValue _) | Err (EObservation _) | Err (EClock _) => protocol_error reason
  | _ => m
  end.

(** [set(value) == set(fields)] *)
Definition exact_keys (fields : list string) (d : dict) : bool :=
  forallb (fun k => has_key k d) fields && forallb (fun kv => listed fields (fst kv)) d.

(** [s.replace("Z", "+00:00")], [s.upper()] of ASCII text. *)
Fixpoint replace_z (s : string) : string :=
  match s with
  | EmptyString => EmptyString
  | String c s' => if Ascii.eqb c "Z"%char then ("+00:00" ++ replace_z s')%string else String c (replace_z s')
  end.
Definition upper_ascii (c : ascii) : ascii :=
  let n := nat_of_ascii c in if (97 <=? n)%nat && (n <=? 122)%nat then ascii_of_nat (n - 32) else c.
Fixpoint upper (s : string) : string :=
  match s with EmptyString => EmptyString | String c s' => String (upper_ascii c) (upper s') end.

Definition line_feed : string := String (ascii_of_nat 10) "".
Definition carriage_return : string := String (ascii_of_nat 13) "".

(** An FFmpeg process, and the runtime it belongs to. *)
Record Target : Type := mkTarget {
  t_host_id : string; t_host_boot_id : string; t_namespace : string; t_pod_uid : string;
  t_container_name : string; t_container_id : string; t_generation : string; t_pid : Z }.
Record Runtime : Type := mkRuntime {
  r_host_id : string; r_host_boot_id : string; r_namespace : string; r_pod_uid : string;
  r_container_name : string; r_container_id : string; r_generation : string }.
Record Route : Type := mkRouteChange {
  from_route : string; to_route : string; expected_route_generation : Z; operator_grant_id : string }.

#[export] Instance target_eq_dec : EqDecision Target.
Proof. solve_decision. Defined.
#[export] Instance runtime_eq_dec : EqDecision Runtime.
Proof. solve_decision. Defined.
#[export] Instance route_eq_dec : EqDecision Route.
Proof. solve_decision. Defined.

Definition target_dict (t : Target) : dict :=
  [("host_id", VStr (t_host_id t)); ("host_boot_id", VStr (t_host_boot_id t)); ("namespace", VStr (t_namespace t));
   ("pod_uid", VStr (t_pod_uid t)); ("container_name", VStr (t_container_name t));
   ("container_id", VStr (t_container_id t)); ("ffmpeg_generation", VStr (t_generation t)); ("ffmpeg_pid", VInt (t_pid t))].
Definition runtime_dict (r : Runtime) : dict :=
  [("host_id", VStr (r_host_id r)); ("host_boot_id", VStr (r_host_boot_id r)); ("namespace", VStr (r_namespace r));
   ("pod_uid", VStr (r_pod_uid r)); ("stream_engine_container_name", VStr (r_container_name r));
   ("stream_engine_container_id", VStr (r_container_id r)); ("runtime_generation", VStr (r_generation r))].
Definition route_dict (r : Route) : dict :=
  [("from_route", VStr (from_route r)); ("to_route", VStr (to_route r));
   ("expected_route_generation", VInt (expected_route_generation r)); ("operator_grant_id", VStr (operator_grant_id r))].

Record EffectRequest : Type := mkRequest {
  q_schema : string; request_id : string; producer_id : string; producer_generation : Z; intent_type : string;
  reason : string; failure_domain : string; issued_at : string; expires_at : string;
  ffmpeg_target_identity : option Target; runtime_identity : option Runtime; expected_ffmpeg_generation : string;
  idempotency_key : string; correlation_id : string; target_snapshot_id : string; runtime_snapshot_id : string;
  runtime_observation_id : string; expected_executor_instance_id : string; maintenance_evidence_status : string;
  projection_id : string; projection_sequence : Z; route_transition : option Route }.

#[export] Instance request_eq_dec : EqDecision EffectRequest.
Proof. solve_decision. Defined.

Section Model.
Context `{Repr} `{FromIso}.

(** Aware timestamps only; [astimezone] stays within the calendar. *)
Definition parse_utc (value : string) : res Q :=
  match fromisoformat (replace_z value) with
  | None => protocol_error "INVALID_TIMESTAMP"
  | Some (_, None) => protocol_error "TIMESTAMP_TZ_REQUIRED"
  | Some (wall, Some off) =>
      let t := (wall - off)%Q in
      if Qltb t (inject_Z MIN_TS) || Qleb (inject_Z MAX_TS + 1) t then Err EOverflow else Ok t
  end.

(** One text field of [validate_target]. *)
Definition target_text (d : dict) (field : string) : res string :=
  let! _ := require (negb (String.eqb (strip (str0 d field)) "")) ("TARGET_" ++ upper field ++ "_MISSING") in
  Ok (py_str (dget d field VNone)).

Definition target_pid (d : dict) : res Z :=
  let! pid := or_protocol (py_int (dget d "ffmpeg_pid" VNone)) "TARGET_PID_INVALID" in
  let! _ := require (1 <? pid) "TARGET_PID_INVALID" in Ok pid.

Definition validate_target (value : pyval) : res Target :=
  match value with
  | VDict d =>
      let! _ := require (exact_keys EXACT_TARGET_FIELDS d) "TARGET_IDENTITY_NOT_EXACT" in
      let! host := target_text d "host_id" in
      let! boot := target_text d "host_boot_id" in
      let! namespace := target_text d "namespace" in
      let! pod := target_text d "pod_uid" in
      let! name := target_text d "container_name" in
      let! container := target_text d "container_id" in
      let! generation := target_text d "ffmpeg_generation" in
      let! pid := target_pid d in
      let! _ := require (String.eqb name "stream-engine") "TARGET_CONTAINER_NOT_STREAM_ENGINE" in
      Ok (mkTarget host boot namespace pod name container generation pid)
  | _ => protocol_error "TARGET_IDENTITY_NOT_EXACT"
  end.

Definition runtime_text (d : dict) (field : string) : res string :=
  let normalized := strip (str0 d field) in
  let! _ := require (negb (String.eqb normalized "")) ("RUNTIME_" ++ upper field ++ "_MISSING") in
  Ok normalized.

Definition validate_runtime_identity (value : pyval) : res Runtime :=
  match value with
  | VDict d =>
      let! _ := require (exact_keys EXACT_RUNTIME_FIELDS d) "RUNTIME_IDENTITY_NOT_EXACT" in
      let! host := runtime_text d "host_id" in
      let! boot := runtime_text d "host_boot_id" in
      let! namespace := runtime_text d "namespace" in
      let! pod := runtime_text d "pod_uid" in
      let! name := runtime_text d "stream_engine_container_name" in
      let! container := runtime_text d "stream_engine_container_id" in
      let! generation := runtime_text d "runtime_generation" in
      let! _ := require (String.eqb name "stream-engine") "RUNTIME_CONTAINER_NOT_STREAM_ENGINE" in
      let! _ := require (String.prefix "containerd://" container) "RUNTIME_CONTAINER_ID_INVALID" in
      Ok (mkRuntime host boot namespace pod name container generation)
  | _ => protocol_error "RUNTIME_IDENTITY_NOT_EXACT"
  end.

(** [str(value.get(name) or "").strip()], and the same when it may not be empty. *)
Definition text_of (value : dict) (name : string) : string := strip (str0 value name).
Definition _required_text (value : dict) (name : string) : res string :=
  let result := text_of value name in
  let! _ := require (negb (String.eqb result "")) "REQUIRED_IDENTITY_MISSING" in Ok result.

(** The keyword arguments [_common] returns. *)
Record common_args : Type := mkCommon {
  c_request_id : string; c_producer_id : string; c_producer_generation : Z; c_reason : string;
  c_issued_at : string; c_expires_at : string; c_idempotency_key : string; c_correlation_id : string;
  c_executor : string; c_evidence_status : string; c_projection_id : string; c_projection_sequence : Z }.

Definition reason_ok (reason : string) : bool :=
  negb (String.eqb reason "") && (slen reason <=? 512) && negb (contains line_feed reason)
  && negb (contains carriage_return reason).

Definition _common (value : dict) : res common_args :=
  let issued_at := str0 value "issued_at" in
  let expires_at := str0 value "expires_at" in
  let! issued := parse_utc issued_at in
  let! expires := parse_utc expires_at in
  let! _ := require (Qltb issued expires) "EXPIRY_NOT_AFTER_ISSUE" in
  let! _ := require (Qleb (expires - issued) MAX_EFFECT_REQUEST_LIFETIME_SECONDS) "REQUEST_LIFETIME_TOO_LONG" in
  let! generation := or_protocol (int0 value "producer_generation") "GENERATION_INVALID" in
  let! sequence := or_protocol (int0 value "projection_sequence") "GENERATION_INVALID" in
  let! _ := require ((0 <? generation) && (0 <=? sequence)) "GENERATION_INVALID" in
  let! _ := require (reason_ok (text_of value "reason")) "REASON_INVALID" in
  let evidence := text_of value "maintenance_evidence_status" in
  let! _ := require (listed ["AVAILABLE"; "UNKNOWN"; "STALE"; "INVALID"] evidence) "MAINTENANCE_EVIDENCE_STATUS_INVALID" in
  let projection := text_of value "projection_id" in
  let! _ := require (negb (String.eqb evidence "AVAILABLE") || (negb (String.eqb projection "") && (0 <? sequence)))
              "MAINTENANCE_EVIDENCE_IDENTITY_MISSING" in
  let! id := _required_text value "request_id" in
  let! producer := _required_text value "producer_id" in
  let! key := _required_text value "idempotency_key" in
  let! correlation := _required_text value "correlation_id" in
  let! executor := _required_text value "expected_executor_instance_id" in
  Ok (mkCommon id producer generation (text_of value "reason") issued_at expires_at key correlation executor evidence
        projection sequence).

Definition _from_v1 (value : dict) : res EffectRequest :=
  let! _ := require (String.eqb (str0 value "operation") "restart_ffmpeg") "OPERATION_NOT_ALLOWED" in
  let! c := _common value in
  let! generation := _required_text value "expected_ffmpeg_generation" in
  let! target := validate_target (dget value "target_identity" VNone) in
  let! snapshot := _required_text value "target_snapshot_id" in
  let! observation := _required_text value "runtime_observation_id" in
  Ok (mkRequest "runtime.effect_request.v1" (c_request_id c) (c_producer_id c) (c_producer_generation c) RESTART_FFMPEG
        (c_reason c) "FFMPEG_LOCAL" (c_issued_at c) (c_expires_at c) (Some target) None generation
        (c_idempotency_key c) (c_correlation_id c) snapshot "" observation (c_executor c) (c_evidence_status c)
        (c_projection_id c) (c_projection_sequence c) None).

Definition V2 : string := "runtime.typed_effect_request.v2".
Definition V3 : string := "runtime.typed_effect_request.v3".

(** The fields of a route change. *)
Definition route_of (value : pyval) : res Route :=
  match value with
  | VDict d =>
      let! _ := require (exact_keys ["from_route"; "to_route"; "expected_route_generation"; "operator_grant_id"] d)
                  "ROUTE_TRANSITION_NOT_EXACT" in
      let! (from, to) :=
        match dget d "from_route" VNone, dget d "to_route" VNone with
        | VStr a, VStr b =>
            let! _ := require ((String.eqb a "PRIMARY" && String.eqb b "FALLBACK")
                               || (String.eqb a "FALLBACK" && String.eqb b "PRIMARY")) "ROUTE_TRANSITION_INVALID" in Ok (a, b)
        | _, _ => protocol_error "ROUTE_TRANSITION_INVALID"
        end in
      let! generation :=
        match dget d "expected_route_generation" VNone with
        | VInt n => let! _ := require (0 <? n) "ROUTE_GENERATION_INVALID" in Ok n
        | _ => protocol_error "ROUTE_GENERATION_INVALID"
        end in
      match dget d "operator_grant_id" VNone with
      | VStr g =>
          let! _ := require ((1 <=? slen g) && (slen g <=? 128)) "OPERATOR_GRANT_ID_INVALID" in
          Ok (mkRouteChange from to generation g)
      | _ => protocol_error "OPERATOR_GRANT_ID_INVALID"
      end
  | _ => protocol_error "ROUTE_TRANSITION_NOT_EXACT"
  end.

(** Route changes and protocol version 3 imply each other. *)
Definition route_part (value : dict) (intent : string) : res (option Route) :=
  let v3 := eq_str (dget value "schema_version" VNone) V3 in
  let switch := String.eqb intent SWITCH_STREAM_ROUTE in
  let! _ := require (negb (v3 && negb switch)) "V3_ROUTE_INTENT_REQUIRED" in
  if switch then
    let! _ := require v3 "ROUTE_REQUIRES_PROTOCOL_V3" in
    let! r := route_of (dget value "route_transition" VNone) in Ok (Some r)
  else
    let! _ := require (is_none (dget value "route_transition" VNone)) "ROUTE_FIELDS_FORBIDDEN" in Ok None.

(** [value.get(k) is not None and value.get(k) != ""] *)
Definition given (value : dict) (k : string) : bool :=
  negb (is_none (dget value k VNone)) && negb (eq_str (dget value k VNone) "").

(** Exactly one of the two identities. *)
Definition identity_part (value : dict) (intent : string) : res (option Target * option Runtime) :=
  let generation := text_of value "expected_ffmpeg_generation" in
  if listed DELIVERY_TARGET_INTENTS intent then
    let! t := validate_target (dget value "ffmpeg_target_identity" VNone) in
    let! _ := require (negb (given value "runtime_identity")) "RESTART_RUNTIME_IDENTITY_FORBIDDEN" in
    let! _ := require (negb (String.eqb generation "" || String.eqb (text_of value "target_snapshot_id") ""
                             || String.eqb (text_of value "runtime_observation_id") "")) "RESTART_IDENTITY_MISSING" in
    Ok (Some t, None)
  else
    let! r := validate_runtime_identity (dget value "runtime_identity" VNone) in
    let! _ := require (negb (given value "ffmpeg_target_identity")) "RUNTIME_INTENT_FFMPEG_TARGET_FORBIDDEN" in
    let! _ := require (String.eqb generation "" && negb (String.eqb (text_of value "runtime_snapshot_id") ""))
                "RUNTIME_INTENT_IDENTITY_INVALID" in
    let! _ := require (negb (String.eqb intent RECONCILE_FFMPEG && String.eqb (text_of value "runtime_observation_id") ""))
                "RECONCILE_OBSERVATION_ID_MISSING" in
    Ok (None, Some r).

Definition _from_v2 (value : dict) : res EffectRequest :=
  let! c := _common value in
  let intent := text_of value "intent_type" in
  let! _ := require (listed ALL_EFFECT_INTENTS intent) "INTENT_NOT_ALLOWED" in
  let! route := route_part value intent in
  let domain := text_of value "failure_domain" in
  let! _ := require (negb (String.eqb domain "")) "FAILURE_DOMAIN_MISSING" in
  let! (target, runtime) := identity_part value intent in
  Ok (mkRequest (if route then V3 else V2) (c_request_id c) (c_producer_id c) (c_producer_generation c) intent
        (c_reason c) domain (c_issued_at c) (c_expires_at c) target runtime (text_of value "expected_ffmpeg_generation")
        (c_idempotency_key c) (c_correlation_id c) (text_of value "target_snapshot_id")
        (text_of value "runtime_snapshot_id") (text_of value "runtime_observation_id") (c_executor c)
        (c_evidence_status c) (c_projection_id c) (c_projection_sequence c) route).

Definition from_mapping (value : dict) : res EffectRequest :=
  let schema := str0 value "schema_version" in
  if String.eqb schema "runtime.effect_request.v1" then _from_v1 value
  else if negb (listed [V2; V3] schema) then protocol_error "SCHEMA_VERSION_UNSUPPORTED"
  else _from_v2 value.
End Model.

Definition opt_dict {A} (f : A -> dict) (o : option A) : pyval :=
  match o with Some a => VDict (f a) | None => VNone end.

Definition canonical (r : EffectRequest) : dict :=
  [("schema_version", VStr (if route_transition r then V3 else V2)); ("request_id", VStr (request_id r));
   ("producer_id", VStr (producer_id r)); ("producer_generation", VInt (producer_generation r));
   ("intent_type", VStr (intent_type r)); ("reason", VStr (reason r)); ("failure_domain", VStr (failure_domain r));
   ("issued_at", VStr (issued_at r)); ("expires_at", VStr (expires_at r));
   ("ffmpeg_target_identity", opt_dict target_dict (ffmpeg_target_identity r));
   ("runtime_identity", opt_dict runtime_dict (runtime_identity r));
   ("expected_ffmpeg_generation", VStr (expected_ffmpeg_generation r)); ("idempotency_key", VStr (idempotency_key r));
   ("correlation_id", VStr (correlation_id r)); ("target_snapshot_id", VStr (target_snapshot_id r));
   ("runtime_snapshot_id", VStr (runtime_snapshot_id r)); ("runtime_observation_id", VStr (runtime_observation_id r));
   ("expected_executor_instance_id", VStr (expected_executor_instance_id r));
   ("maintenance_evidence_status", VStr (maintenance_evidence_status r)); ("projection_id", VStr (projection_id r));
   ("projection_sequence", VInt (projection_sequence r))]
  ++ match route_transition r with Some rt => [("route_transition", VDict (route_dict rt))] | None => [] end.

(** [operation]: a KeyError for any other intent. *)
Definition operation (r : EffectRequest) : res string :=
  if String.eqb (intent_type r) RESTART_FFMPEG then Ok "restart_ffmpeg"
  else if String.eqb (intent_type r) SWITCH_STREAM_ROUTE then Ok "switch_stream_route"
  else if String.eqb (intent_type r) RECONCILE_FFMPEG then Ok "reconcile_ffmpeg"
  else if String.eqb (intent_type r) ESCALATE_RUNTIME_RECOVERY then Ok "escalate_runtime_recovery"
  else Err EKey.

Definition on_delivery (r : EffectRequest) : bool := listed DELIVERY_TARGET_INTENTS (intent_type r).
Definition identity_type (r : EffectRequest) : string := if on_delivery r then "FFMPEG_TARGET" else "RUNTIME".
Definition fence_identity (r : EffectRequest) : pyval :=
  if on_delivery r then VDict (from_option target_dict [] (ffmpeg_target_identity r))
  else VDict (from_option runtime_dict [] (runtime_identity r)).

Section Scope.
Context `{Repr} `{JsonSha} `{JcsSha}.

Definition digest (r : EffectRequest) : string := json_sha256 (VDict (canonical r)).

(** cra_dell_recovery/models.py *)
Definition target_field (d : dict) (name : string) : res string :=
  let text := str0 d name in
  let! _ := require (negb (String.eqb (strip text) "")) (name ++ " is required") in Ok text.
Definition target_from_dict (d : dict) : res Target :=
  let! pid := int0 d "ffmpeg_pid" in
  let! host := target_field d "host_id" in
  let! boot := target_field d "host_boot_id" in
  let! namespace := target_field d "namespace" in
  let! pod := target_field d "pod_uid" in
  let! name := target_field d "container_name" in
  let! container := target_field d "container_id" in
  let! generation := target_field d "ffmpeg_generation" in
  let! _ := require (1 <? pid) "ffmpeg_pid must be greater than 1" in
  let! _ := require (String.eqb name "stream-engine") "container_name must be stream-engine" in
  Ok (mkTarget host boot namespace pod name container generation pid).

Definition is_expected_ffmpeg_successor (before after : Target) : bool :=
  String.eqb (t_host_id before) (t_host_id after) && String.eqb (t_host_boot_id before) (t_host_boot_id after)
  && String.eqb (t_namespace before) (t_namespace after) && String.eqb (t_pod_uid before) (t_pod_uid after)
  && String.eqb (t_container_name before) (t_container_name after)
  && String.eqb (t_container_id before) (t_container_id after)
  && negb (String.eqb (t_generation before) (t_generation after)) && negb (t_pid before =? t_pid after).

(** cra_dell_recovery/effect_scope.py *)
Definition scope_action (action : string) : res string :=
  let normalized := lower (strip action) in
  if String.eqb normalized "restart_ffmpeg" then Ok normalized
  else Err (EValue "effect scope action must be restart_ffmpeg").

(** [to_dict] without the PID. *)
Definition logical_dict (t : Target) : dict := dict_pop "ffmpeg_pid" (target_dict t).

Definition logical_generation_scope_id (action : string) (target : dict) : res string :=
  let! normalized := scope_action action in
  let! identity := target_from_dict target in
  jcs_sha256 (VDict [("action", VStr normalized); ("logical_generation_identity", VDict (logical_dict identity))]).

Definition effect_scope_id (action : string) (target : dict) : res string :=
  let! normalized := scope_action action in
  let! identity := target_from_dict target in
  jcs_sha256 (VDict [("action", VStr normalized); ("exact_target_identity", VDict (target_dict identity))]).

(** The fences of a request. *)
Definition request_scope_id (r : EffectRequest) : res string :=
  match ffmpeg_target_identity r with
  | Some t =>
      if on_delivery r then effect_scope_id "restart_ffmpeg" (target_dict t)
      else Ok (json_sha256 (VDict [("intent_type", VStr (intent_type r)); ("identity", fence_identity r)]))
  | None => Ok (json_sha256 (VDict [("intent_type", VStr (intent_type r)); ("identity", fence_identity r)]))
  end.
Definition request_logical_id (r : EffectRequest) : res (option string) :=
  match ffmpeg_target_identity r with
  | Some t =>
      if on_delivery r then let! id := logical_generation_scope_id "restart_ffmpeg" (target_dict t) in Ok (Some id)
      else Ok None
  | None => Ok None
  end.
End Scope.
