(* ===== verification/EffectModelProofs.v ===== *)
(** * Typed effect requests: the canonical form is read back

    The ledger keeps the canonical form of a request and decodes it again when it
    starts; a request that was accepted decodes to the same request. *)
From Stdlib Require Import Ascii.
From S2P Require Import Prelude PyVal UtcTime FastPolicy EffectContract EffectModel.

#[local] Arguments strip : simpl never.
#[local] Arguments listed : simpl never.

(** ** Stripped text *)
Lemma rstrip_cons c s : rstrip (String c s) =
  match rstrip s with EmptyString => if is_space c then EmptyString else String c EmptyString | r => String c r end.
Proof. done. Qed.
Lemma rstrip_idem s : rstrip (rstrip s) = rstrip s.
Proof.
  induction s as [|c s IH]; [done|]. rewrite rstrip_cons. destruct (rstrip s) as [|c' s'] eqn:E.
  - destruct (is_space c) eqn:Ec; [done|]. rewrite rstrip_cons. simpl. by rewrite Ec.
  - by rewrite rstrip_cons, IH.
Qed.

Lemma lstrip_first s c s' : lstrip s = String c s' -> is_space c = false.
Proof.
  induction s as [|c0 s IH]; simpl; [done|]. destruct (is_space c0) eqn:E; [done|]. by intros [= <- _].
Qed.

Lemma strip_idem s : strip (strip s) = strip s.
Proof.
  unfold strip. destruct (lstrip s) as [|c s'] eqn:E; [done|]. apply lstrip_first in E.
  assert (lstrip (rstrip (String c s')) = rstrip (String c s')) as ->; [|apply rstrip_idem].
  simpl. destruct (rstrip s'); rewrite ?E; simpl; by rewrite E.
Qed.

Lemma py_or_str (s : string) : py_or (VStr s) (VStr "") = VStr s.
Proof. unfold py_or. simpl. by destruct (String.eqb_spec s "") as [->|]. Qed.

Section Model.
Context `{Repr} `{FromIso}.

Lemma str0_of d k s : dict_get k d = Some (VStr s) -> str0 d k = s.
Proof. intros Hg. unfold str0, dget. rewrite Hg. simpl. by rewrite py_or_str. Qed.
Lemma text_of_again d k d' k' : dict_get k d = Some (VStr (text_of d' k')) -> text_of d k = text_of d' k'.
Proof. intros Hg. unfold text_of at 1. rewrite (str0_of _ _ _ Hg). unfold text_of. apply strip_idem. Qed.
Lemma int0_of d k z : dict_get k d = Some (VInt z) -> int0 d k = Ok z.
Proof. intros Hg. unfold int0, dget. rewrite Hg. simpl. unfold py_or. simpl. by destruct (Z.eqb_spec z 0) as [->|]. Qed.

Lemma require_ok b reason u : require b reason = Ok u -> b = true.
Proof. unfold require. by destruct b. Qed.
Lemma require_true b reason : b = true -> require b reason = Ok tt.
Proof. by intros ->. Qed.

(** ** Identities *)
Lemma target_text_ok d field v : target_text d field = Ok v -> strip v <> "".
Proof.
  unfold target_text. intros Ht. inv_ok Ht. injection Ht as <-. apply require_ok in E. apply negb_true_iff, String.eqb_neq in E.
  unfold str0, py_or in E. unfold dget in *. destruct (dict_get field d) as [w|]; simpl in *; [|by destruct E].
  destruct (truthy w); [done | by destruct E].
Qed.
Lemma target_text_again d field v : dict_get field d = Some (VStr v) -> strip v <> "" -> target_text d field = Ok v.
Proof.
  intros Hg Hv. unfold target_text. rewrite (str0_of _ _ _ Hg), (proj2 (String.eqb_neq _ _) Hv). simpl. unfold dget. by rewrite Hg.
Qed.

Lemma validate_target_again v t : validate_target v = Ok t -> validate_target (VDict (target_dict t)) = Ok t.
Proof.
  unfold validate_target at 1. destruct v; try done. intros Hv. inv_ok Hv. injection Hv as <-.
  repeat match goal with E : target_text _ _ = Ok _ |- _ => apply target_text_ok in E end.
  unfold target_pid in E7. apply rbind_Ok in E7 as (pid & _ & E7). apply rbind_Ok in E7 as ([] & Hp & [= <-]).
  apply require_ok in Hp, E8. unfold validate_target.
  rewrite (target_text_again _ "host_id" v0), (target_text_again _ "host_boot_id" v1), (target_text_again _ "namespace" v2),
    (target_text_again _ "pod_uid" v3), (target_text_again _ "container_name" v4), (target_text_again _ "container_id" v5),
    (target_text_again _ "ffmpeg_generation" v6) by done.
  unfold target_pid. simpl. rewrite Hp. simpl. by rewrite E8.
Qed.

Lemma runtime_text_ok d field v : runtime_text d field = Ok v -> v = text_of d field /\ v <> "".
Proof.
  unfold runtime_text. intros Ht. inv_ok Ht. injection Ht as <-. apply require_ok in E. by apply negb_true_iff, String.eqb_neq in E.
Qed.
Lemma runtime_text_again d d' field v : v = text_of d field /\ v <> "" -> dict_get field d' = Some (VStr v) -> runtime_text d' field = Ok v.
Proof.
  intros [-> Hv] Hg. unfold runtime_text. fold (text_of d' field). rewrite (text_of_again _ _ _ _ Hg), (proj2 (String.eqb_neq _ _) Hv). done.
Qed.

Lemma validate_runtime_again v t : validate_runtime_identity v = Ok t -> validate_runtime_identity (VDict (runtime_dict t)) = Ok t.
Proof.
  unfold validate_runtime_identity at 1. destruct v; try done. intros Hv. inv_ok Hv. injection Hv as <-.
  repeat match goal with E : runtime_text _ _ = Ok _ |- _ => apply runtime_text_ok in E end.
  apply require_ok in E7, E8. unfold validate_runtime_identity.
  rewrite (runtime_text_again _ _ "host_id" _ E0), (runtime_text_again _ _ "host_boot_id" _ E1),
    (runtime_text_again _ _ "namespace" _ E2), (runtime_text_again _ _ "pod_uid" _ E3),
    (runtime_text_again _ _ "stream_engine_container_name" _ E4), (runtime_text_again _ _ "stream_engine_container_id" _ E5),
    (runtime_text_again _ _ "runtime_generation" _ E6) by done.
  simpl. rewrite E7. simpl. by rewrite E8.
Qed.

Lemma route_again v rt : route_of v = Ok rt -> route_of (VDict (route_dict rt)) = Ok rt.
Proof.
  unfold route_of at 1. destruct v; try done. intros Hv. apply rbind_Ok in Hv as (? & _ & Hv).
  apply rbind_Ok in Hv as ([from to] & Hft & Hv). destruct (dget d "from_route" VNone); try done.
  destruct (dget d "to_route" VNone); try done. apply rbind_Ok in Hft as ([] & Hr & [= -> ->]).
  apply rbind_Ok in Hv as (generation & Hg & Hv). destruct (dget d "expected_route_generation" VNone); try done.
  apply rbind_Ok in Hg as ([] & Hz & [= ->]). destruct (dget d "operator_grant_id" VNone); try done.
  apply rbind_Ok in Hv as ([] & Hl & [= <-]). unfold route_of. simpl. rewrite Hr. simpl. rewrite Hz. simpl. by rewrite Hl.
Qed.

(** ** The common fields *)
Lemma or_protocol_Ok {A} (m : res A) reason a : or_protocol m reason = Ok a -> m = Ok a.
Proof. unfold or_protocol. by destruct m as [|[]]. Qed.
Lemma required_ok d name v : _required_text d name = Ok v -> v = text_of d name.
Proof. unfold _required_text. intros Hr. inv_ok Hr. by injection Hr as <-. Qed.

(** The arguments [_common] returned, where a dict repeats them. *)
Definition repeats (d : dict) (c : common_args) : Prop :=
  dict_get "request_id" d = Some (VStr (c_request_id c)) /\ dict_get "producer_id" d = Some (VStr (c_producer_id c))
  /\ dict_get "producer_generation" d = Some (VInt (c_producer_generation c)) /\ dict_get "reason" d = Some (VStr (c_reason c))
  /\ dict_get "issued_at" d = Some (VStr (c_issued_at c)) /\ dict_get "expires_at" d = Some (VStr (c_expires_at c))
  /\ dict_get "idempotency_key" d = Some (VStr (c_idempotency_key c)) /\ dict_get "correlation_id" d = Some (VStr (c_correlation_id c))
  /\ dict_get "expected_executor_instance_id" d = Some (VStr (c_executor c))
  /\ dict_get "maintenance_evidence_status" d = Some (VStr (c_evidence_status c))
  /\ dict_get "projection_id" d = Some (VStr (c_projection_id c))
  /\ dict_get "projection_sequence" d = Some (VInt (c_projection_sequence c)).

Lemma required_again d name d' v : _required_text d name = Ok v -> dict_get name d' = Some (VStr v) -> _required_text d' name = Ok v.
Proof.
  intros Hr Hg. pose proof (required_ok _ _ _ Hr) as ->. unfold _required_text in *. by rewrite (text_of_again _ _ _ _ Hg).
Qed.

Lemma common_again value c d : _common value = Ok c -> repeats d c -> _common d = Ok c.
Proof.
  intros Hc (R1 & R2 & R3 & R4 & R5 & R6 & R7 & R8 & R9 & R10 & R11 & R12). unfold _common in Hc. inv_ok Hc.
  injection Hc as <-. simpl in *. apply or_protocol_Ok in E3, E4. unfold _common.
  rewrite (str0_of _ _ _ R5), (str0_of _ _ _ R6), E. simpl. rewrite E0. simpl. rewrite E1. simpl. rewrite E2. simpl.
  rewrite (int0_of _ _ _ R3), (int0_of _ _ _ R12). simpl. rewrite E5. simpl.
  rewrite (text_of_again _ _ _ _ R4), (text_of_again _ _ _ _ R10), (text_of_again _ _ _ _ R11). rewrite E6. simpl. rewrite E7. simpl.
  rewrite E8. simpl. rewrite (required_again _ _ _ _ E9 R1). simpl. rewrite (required_again _ _ _ _ E10 R2). simpl.
  rewrite (required_again _ _ _ _ E11 R7). simpl. rewrite (required_again _ _ _ _ E12 R8). simpl.
  by rewrite (required_again _ _ _ _ E13 R9).
Qed.

(** ** The round trip *)
Definition restored (r : EffectRequest) : EffectRequest :=
  mkRequest (if route_transition r then V3 else V2) (request_id r) (producer_id r) (producer_generation r) (intent_type r)
    (reason r) (failure_domain r) (issued_at r) (expires_at r) (ffmpeg_target_identity r) (runtime_identity r)
    (expected_ffmpeg_generation r) (idempotency_key r) (correlation_id r) (target_snapshot_id r) (runtime_snapshot_id r)
    (runtime_observation_id r) (expected_executor_instance_id r) (maintenance_evidence_status r) (projection_id r)
    (projection_sequence r) (route_transition r).

Lemma canonical_restored r : canonical (restored r) = canonical r.
Proof. done. Qed.

Lemma route_part_again value intent route d : route_part value intent = Ok route ->
  dict_get "schema_version" d = Some (VStr (if route then V3 else V2)) ->
  dict_get "route_transition" d = (if route is Some rt then Some (VDict (route_dict rt)) else None) ->
  route_part d intent = Ok route.
Proof.
  unfold route_part. intros Hr Hs Ht. apply rbind_Ok in Hr as ([] & _ & Hr). unfold dget. rewrite Hs, Ht.
  destruct (String.eqb intent SWITCH_STREAM_ROUTE).
  - apply rbind_Ok in Hr as ([] & _ & Hr). apply rbind_Ok in Hr as (rt & Hrt & [= <-]). simpl.
    apply route_again in Hrt. simpl in Hrt. by rewrite Hrt.
  - apply rbind_Ok in Hr as ([] & _ & [= <-]). done.
Qed.

Lemma identity_part_again value intent target runtime d : identity_part value intent = Ok (target, runtime) ->
  dict_get "ffmpeg_target_identity" d = Some (opt_dict target_dict target) ->
  dict_get "runtime_identity" d = Some (opt_dict runtime_dict runtime) ->
  (forall k, In k ["expected_ffmpeg_generation"; "target_snapshot_id"; "runtime_observation_id"; "runtime_snapshot_id"] ->
     text_of d k = text_of value k) ->
  identity_part d intent = Ok (target, runtime).
Proof.
  unfold identity_part. intros Hi Ht Hr Hk. unfold given, dget. rewrite Ht, Hr.
  rewrite !Hk by (simpl; tauto). destruct (listed DELIVERY_TARGET_INTENTS intent).
  - apply rbind_Ok in Hi as (t & Et & Hi). apply rbind_Ok in Hi as ([] & _ & Hi). apply rbind_Ok in Hi as ([] & Hx & [= <- <-]).
    apply validate_target_again in Et. simpl in Et. simpl. rewrite Et. simpl. by rewrite Hx.
  - apply rbind_Ok in Hi as (t & Et & Hi). apply rbind_Ok in Hi as ([] & _ & Hi). apply rbind_Ok in Hi as ([] & Hx & Hi).
    apply rbind_Ok in Hi as ([] & Hy & [= <- <-]). apply validate_runtime_again in Et. simpl in Et. simpl. rewrite Et. simpl.
    rewrite Hx. simpl. by rewrite Hy.
Qed.

Lemma from_v2_again value r : _from_v2 value = Ok r -> _from_v2 (canonical r) = Ok (restored r).
Proof.
  unfold _from_v2 at 1. intros Hr. apply rbind_Ok in Hr as (c & Ec & Hr). cbv zeta in Hr. apply rbind_Ok in Hr as ([] & Ei & Hr).
  apply rbind_Ok in Hr as (route & Er & Hr). apply rbind_Ok in Hr as ([] & Ed & Hr). apply rbind_Ok in Hr as ([target runtime] & Et & [= <-]).
  set (r := mkRequest _ _ _ _ _ _ _ _ _ _ _ _ _ _ _ _ _ _ _ _ _ _). unfold _from_v2.
  rewrite (common_again value c (canonical r)) by (done || by split_and!). cbv zeta. cbn [rbind].
  rewrite (text_of_again (canonical r) "intent_type" value "intent_type"), (text_of_again (canonical r) "failure_domain" value "failure_domain") by done.
  rewrite Ei, Ed. cbn [rbind].
  rewrite (route_part_again _ _ _ (canonical r) Er), (identity_part_again _ _ _ _ (canonical r) Et); try done.
  - cbn [rbind]. rewrite (text_of_again (canonical r) "expected_ffmpeg_generation" value "expected_ffmpeg_generation"),
      (text_of_again (canonical r) "target_snapshot_id" value "target_snapshot_id"),
      (text_of_again (canonical r) "runtime_snapshot_id" value "runtime_snapshot_id"),
      (text_of_again (canonical r) "runtime_observation_id" value "runtime_observation_id") by done. done.
  - intros k [<-|[<-|[<-|[<-|[]]]]]; by apply text_of_again.
  - unfold canonical. simpl. by destruct route.
Qed.

Lemma from_v1_again value r : _from_v1 value = Ok r -> _from_v2 (canonical r) = Ok (restored r).
Proof.
  unfold _from_v1. intros Hr. apply rbind_Ok in Hr as ([] & _ & Hr). apply rbind_Ok in Hr as (c & Ec & Hr).
  apply rbind_Ok in Hr as (generation & Eg & Hr). apply rbind_Ok in Hr as (target & Et & Hr).
  apply rbind_Ok in Hr as (snapshot & Es & Hr). apply rbind_Ok in Hr as (observation & Eo & [= <-]).
  set (r := mkRequest _ _ _ _ _ _ _ _ _ _ _ _ _ _ _ _ _ _ _ _ _ _). unfold _from_v2.
  rewrite (common_again value c (canonical r)) by (done || by split_and!). cbv zeta. cbn [rbind].
  change (text_of (canonical r) "intent_type") with RESTART_FFMPEG.
  change (text_of (canonical r) "failure_domain") with "FFMPEG_LOCAL".
  change (route_part (canonical r) RESTART_FFMPEG) with (@Ok (option Route) None). cbn [rbind require String.eqb negb].
  assert (forall k v, _required_text value k = Ok v -> dict_get k (canonical r) = Some (VStr v) -> text_of (canonical r) k = v) as Hreq.
  { intros k v Hv. pose proof (required_ok _ _ _ Hv) as ->. apply text_of_again. }
  pose proof (Hreq _ _ Eg eq_refl) as Hg. pose proof (Hreq _ _ Es eq_refl) as Hs. pose proof (Hreq _ _ Eo eq_refl) as Ho.
  unfold identity_part. rewrite Hg, Hs, Ho. apply validate_target_again in Et.
  change (dget (canonical r) "ffmpeg_target_identity" VNone) with (VDict (target_dict target)). rewrite Et.
  assert (forall k v, _required_text value k = Ok v -> String.eqb v "" = false) as Hne.
  { intros k v Hv. unfold _required_text in Hv. apply rbind_Ok in Hv as ([] & Hx & [= <-]). apply require_ok in Hx. by apply negb_true_iff. }
  rewrite (Hne _ _ Eg), (Hne _ _ Es), (Hne _ _ Eo). done.
Qed.
End Model.

Module EffectModelProperties.
Section Properties.
Context `{Repr} `{FromIso} `{JsonSha}.

(** C33: A request the parser accepts, of any protocol version, is accepted again
    from its canonical form with every field unchanged but the schema version, which
    the canonical form sets; the two have one digest. *)
Theorem canonical_roundtrip value r : from_mapping value = Ok r ->
  from_mapping (canonical r) = Ok (restored r) /\ digest (restored r) = digest r.
Proof.
  intros Hm. split; [|done].
  assert (_from_v2 (canonical r) = Ok (restored r)) as Hv.
  { unfold from_mapping in Hm. destruct (String.eqb _ _); [by eapply from_v1_again|]. destruct (negb _); [done|]. by eapply from_v2_again. }
  unfold from_mapping. rewrite (str0_of _ "schema_version" (if route_transition r then V3 else V2)) by done.
  by destruct (route_transition r).
Qed.
End Properties.

Definition v1_message : dict :=
  [("schema_version", VStr "runtime.effect_request.v1"); ("operation", VStr "restart_ffmpeg"); ("request_id", VStr " r1 ");
   ("producer_id", VStr "p"); ("producer_generation", VStr "3"); ("reason", VStr "stall "); ("issued_at", VStr "2026-01-01T00:00:00Z");
   ("expires_at", VStr "2026-01-01T00:00:05Z"); ("expected_ffmpeg_generation", VStr "g"); ("idempotency_key", VStr "k");
   ("correlation_id", VInt 7); ("target_snapshot_id", VStr "s"); ("runtime_observation_id", VStr "o");
   ("expected_executor_instance_id", VStr "x"); ("maintenance_evidence_status", VStr "STALE");
   ("target_identity", VDict [("ffmpeg_pid", VStr "11"); ("host_id", VStr "h"); ("host_boot_id", VStr "b"); ("namespace", VStr "n");
      ("pod_uid", VStr "u"); ("container_name", VStr "stream-engine"); ("container_id", VStr "c"); ("ffmpeg_generation", VStr "g")])].
#[local] Instance demo_repr : Repr := fun _ => "".
#[local] Instance demo_iso : FromIso := basic_iso.
#[local] Instance demo_sha : JsonSha := fun _ => "d".
Definition v1_request : EffectRequest :=
  match from_mapping v1_message with Ok r => r | Err _ => mkRequest "" "" "" 0 "" "" "" "" "" None None "" "" "" "" "" "" "" "" "" 0 None end.

Lemma canonical_roundtrip_witness :
  from_mapping (canonical v1_request) = Ok (restored v1_request) /\ digest (restored v1_request) = digest v1_request.
Proof. apply (canonical_roundtrip v1_message v1_request). vm_compute. reflexivity. Defined.
End EffectModelProperties.
