(* ===== verification/EffectLedger.v ===== *)
(** * The effect ledger of the runtime boundary

    Models src/src/runtime_boundary/ledger.py: the tables, the authority of the
    producer, the admission of a request, its state transitions, the reservation
    of its one physical attempt, reconciliation, retirement and the repairs at
    start-up.  Every method is one transaction over the tables; [now k] is the
    reading of [now_text] at the [k]-th place of a method that calls it. JSON
    columns hold the value their text decodes to. *)
From Stdlib Require Import Ascii.
From stdpp Require Import sorting.
From S2P Require Import Prelude PyVal UtcTime FastPolicy EffectContract EffectModel.

#[global] Open Scope db_scope.

Record authority_row : Type := mkAuthority {
  a_producer_id : string; a_generation : Z; a_version : Z; a_high_water : Z; a_updated_at : string }.

(** The columns of a row that change. *)
Record progress : Type := mkProgress {
  p_state : string; p_result : option pyval; p_started_at : option string; p_finished_at : option string }.

Record typed_row : Type := mkTyped {
  y_idempotency_key : string; y_digest : string; y_producer_id : string; y_producer_generation : Z;
  y_intent_type : string; y_operation : string; y_failure_domain : string; y_correlation_id : string;
  y_target_snapshot_id : string; y_runtime_snapshot_id : string; y_runtime_observation_id : string;
  y_expected_executor : string; y_evidence_status : string; y_projection_id : string; y_projection_sequence : Z;
  y_identity_type : string; y_identity : pyval; y_target : option pyval; y_runtime : option pyval;
  y_expected_generation : string; y_request : pyval; y_accepted_at : string; y_progress : progress }.

(** A row of the first protocol; no operation inserts one. The columns no
    operation reads are left out. *)
Record legacy_row : Type := mkLegacy {
  g_idempotency_key : string; g_request_digest : string; g_operation : string; g_correlation_id : string;
  g_target_identity : pyval; g_accepted_at : string; g_progress : progress }.

Record fence_row : Type := mkFence {
  f_logical : option string; f_action : string; f_identity : pyval; f_owner : string; f_owner_digest : string;
  f_state : string; f_boundary : bool; f_attempts : Z; f_result : option pyval; f_created_at : string; f_updated_at : string }.

Record reconciliation_row : Type := mkReconciliation {
  n_scope : string; n_resolution : string; n_evidence : pyval; n_digest : string; n_recorded_at : string }.
Record retirement_row : Type := mkRetirement {
  i_scope : string; i_evidence : pyval; i_digest : string; i_recorded_at : string }.

Record ledger : Type := mkLedger {
  authority_table : option authority_row;
  effect_requests : gmap string legacy_row;
  typed_effect_requests : gmap string typed_row;
  effect_scope_fences : gmap string fence_row;
  effect_reconciliations : gmap string reconciliation_row;
  effect_scope_retirements : gmap string retirement_row }.

Section Setters.
Implicit Types s : ledger.
Definition set_authority x s := mkLedger x (effect_requests s) (typed_effect_requests s) (effect_scope_fences s) (effect_reconciliations s) (effect_scope_retirements s).
Definition set_legacy x s := mkLedger (authority_table s) x (typed_effect_requests s) (effect_scope_fences s) (effect_reconciliations s) (effect_scope_retirements s).
Definition set_typed x s := mkLedger (authority_table s) (effect_requests s) x (effect_scope_fences s) (effect_reconciliations s) (effect_scope_retirements s).
Definition set_fences x s := mkLedger (authority_table s) (effect_requests s) (typed_effect_requests s) x (effect_reconciliations s) (effect_scope_retirements s).
Definition set_reconciliations x s := mkLedger (authority_table s) (effect_requests s) (typed_effect_requests s) (effect_scope_fences s) x (effect_scope_retirements s).
Definition set_retirements x s := mkLedger (authority_table s) (effect_requests s) (typed_effect_requests s) (effect_scope_fences s) (effect_reconciliations s) x.
End Setters.

Definition set_progress (p : progress) (y : typed_row) : typed_row :=
  mkTyped (y_idempotency_key y) (y_digest y) (y_producer_id y) (y_producer_generation y) (y_intent_type y)
    (y_operation y) (y_failure_domain y) (y_correlation_id y) (y_target_snapshot_id y) (y_runtime_snapshot_id y)
    (y_runtime_observation_id y) (y_expected_executor y) (y_evidence_status y) (y_projection_id y)
    (y_projection_sequence y) (y_identity_type y) (y_identity y) (y_target y) (y_runtime y)
    (y_expected_generation y) (y_request y) (y_accepted_at y) p.
Definition set_legacy_progress (p : progress) (g : legacy_row) : legacy_row :=
  mkLegacy (g_idempotency_key g) (g_request_digest g) (g_operation g) (g_correlation_id g) (g_target_identity g)
    (g_accepted_at g) p.

(** UPDATE of the state, the reservation and the result of a fence. *)
Definition set_fence (state : string) (boundary : bool) (attempts : Z) (result : option pyval) (at_ : string)
    (f : fence_row) : fence_row :=
  mkFence (f_logical f) (f_action f) (f_identity f) (f_owner f) (f_owner_digest f) state boundary attempts result
    (f_created_at f) at_.
Definition set_logical (id : string) (f : fence_row) : fence_row :=
  mkFence (Some id) (f_action f) (f_identity f) (f_owner f) (f_owner_digest f) (f_state f) (f_boundary f)
    (f_attempts f) (f_result f) (f_created_at f) (f_updated_at f).

Definition y_state (y : typed_row) : string := p_state (y_progress y).
Definition g_state (g : legacy_row) : string := p_state (g_progress g).

(** ** Reads *)
Definition UNRESOLVED : list string :=
  ["ACCEPTED"; "EXECUTION_STARTED"; "EFFECT_BOUNDARY_REACHED"; "OUTCOME_UNKNOWN"; "EFFECT_OBSERVED_AWAITING_VERIFICATION"].
Definition RESOLVED_LATER : list string :=
  ["RECONCILED_EFFECT_OBSERVED"; "RELEASED_NO_EFFECT"; "RETIRED_TARGET_OUTCOME_UNKNOWN"].
Definition PENDING : list string := ["ACCEPTED"; "EXECUTION_STARTED"; "OUTCOME_UNKNOWN"].

Definition fence_of (id : string) (s : ledger) : option (string * fence_row) :=
  List.find (fun kv => String.eqb (f_owner (snd kv)) id) (map_to_list (effect_scope_fences s)).

Definition authority (s : ledger) : res authority_row :=
  match authority_table s with Some a => Ok a | None => Err (ERuntime "AUTHORITY_MISSING") end.

(** The LEFT JOIN of a request with the fence it owns. *)
Definition counts (s : ledger) (id state : string) : bool :=
  let fence := from_option (fun kv => f_state (snd kv)) "" (fence_of id s) in
  (listed PENDING state
   || (String.eqb state "EFFECT_OBSERVED" && String.eqb fence "EFFECT_OBSERVED_AWAITING_VERIFICATION"))
  && negb (listed RESOLVED_LATER fence).
Definition count {A} (p : A -> bool) (l : list A) : Z := Z.of_nat (length (List.filter p l)).

Definition unresolved_count (s : ledger) : Z :=
  count (fun kv => counts s (fst kv) (g_state (snd kv))) (map_to_list (effect_requests s))
  + count (fun kv => counts s (fst kv) (y_state (snd kv))) (map_to_list (typed_effect_requests s)).
Definition raw_unresolved_count (s : ledger) : Z :=
  count (fun kv => listed PENDING (g_state (snd kv))) (map_to_list (effect_requests s))
  + count (fun kv => listed PENDING (y_state (snd kv))) (map_to_list (typed_effect_requests s)).

(** ORDER BY created_at, effect_scope_id. *)
Definition created_le (x y : string * fence_row) : Prop :=
  let c := String.compare (f_created_at (snd x)) (f_created_at (snd y)) in
  c = Lt \/ (c = Eq /\ String.leb (fst x) (fst y) = true).
#[export] Instance created_le_dec x y : base.Decision (created_le x y).
Proof. unfold created_le. apply _. Defined.

Definition fence_rows (s : ledger) : list (string * fence_row) :=
  merge_sort created_le (map_to_list (effect_scope_fences s)).
Definition unresolved_rows (s : ledger) : list (string * fence_row) :=
  List.filter (fun kv => listed UNRESOLVED (f_state (snd kv))) (fence_rows s).

Definition scope (id : string) (s : ledger) : option fence_row := effect_scope_fences s !! id.

(** The state and the result of a request of either protocol. *)
Definition request_progress (id : string) (s : ledger) : option progress :=
  match typed_effect_requests s !! id with
  | Some y => Some (y_progress y)
  | None => option_map g_progress (effect_requests s !! id)
  end.

Record status : Type := mkStatus {
  st_request : string; st_state : string; st_result : option pyval; st_scope : string; st_scope_state : string;
  st_boundary : bool; st_attempts : Z }.

Definition request_status (id : string) (s : ledger) : option status :=
  match request_progress id s with
  | None => None
  | Some p =>
      Some match fence_of id s with
           | Some (k, f) => mkStatus id (p_state p) (p_result p) k (f_state f) (f_boundary f) (f_attempts f)
           | None => mkStatus id (p_state p) (p_result p) "" "UNKNOWN" false 0
           end
  end.

(** UNION of the two tables: request ids once each. *)
Definition correlated_ids (correlation : string) (s : ledger) : list string :=
  elements (list_to_set (C := gset string)
    (map fst (List.filter (fun kv => String.eqb (y_correlation_id (snd kv)) correlation) (map_to_list (typed_effect_requests s)))
     ++ map fst (List.filter (fun kv => String.eqb (g_correlation_id (snd kv)) correlation) (map_to_list (effect_requests s))))).

Definition request_status_by_correlation (correlation : string) (s : ledger) : Z * option status :=
  match correlated_ids correlation s with
  | [id] => (1, request_status id s)
  | l => (Z.of_nat (length l), None)
  end.

(** ** Authority *)
Record HandoffDecision : Type := mkHandoff {
  h_accepted : bool; h_reason : string; h_producer : string; h_generation : Z; h_version : Z }.

Definition switch_body (now : nat -> string) (expected_producer : string) (expected_generation : Z)
    (new_producer : string) (new_generation : Z) : Tx ledger HandoffDecision :=
  do! row := db_get authority in
  do! a := db_lift row in
  let refuse reason := db_ret (mkHandoff false reason (a_producer_id a) (a_generation a) (a_version a)) in
  if negb (String.eqb (a_producer_id a) expected_producer && (a_generation a =? expected_generation))
  then refuse "EXPECTED_AUTHORITY_MISMATCH" else
  do! pending := db_get unresolved_count in
  if negb (pending =? 0) then refuse "UNRESOLVED_EXECUTION_EXISTS" else
  if negb (0 <? new_generation) then db_raise integrity_error else
  let version := a_version a + 1 in
  run! db_mod (set_authority (Some (mkAuthority new_producer new_generation version (a_high_water a) (now 0%nat)))) then
  db_ret (mkHandoff true "AUTHORITY_SWITCHED" new_producer new_generation version).
Definition switch_authority now ep eg np ng : ledger -> res HandoffDecision * ledger :=
  transaction (switch_body now ep eg np ng).

(** ** Start-up after a stop *)
Definition unknown_if_started (at_ : string) (p : progress) : progress :=
  if String.eqb (p_state p) "EXECUTION_STARTED" then mkProgress "OUTCOME_UNKNOWN" (p_result p) (p_started_at p) (Some at_) else p.

Definition outcome_unknown (s : ledger) (id : string) : bool :=
  match typed_effect_requests s !! id with
  | Some y => String.eqb (y_state y) "OUTCOME_UNKNOWN"
  | None => false
  end
  || match effect_requests s !! id with Some g => String.eqb (g_state g) "OUTCOME_UNKNOWN" | None => false end.

Definition started_count (s : ledger) : Z :=
  count (fun kv => String.eqb (g_state (snd kv)) "EXECUTION_STARTED") (map_to_list (effect_requests s))
  + count (fun kv => String.eqb (y_state (snd kv)) "EXECUTION_STARTED") (map_to_list (typed_effect_requests s)).

Definition fence_unknown (s : ledger) (at_ : string) (f : fence_row) : fence_row :=
  if outcome_unknown s (f_owner f) && listed ["ACCEPTED"; "EXECUTION_STARTED"; "EFFECT_BOUNDARY_REACHED"] (f_state f)
  then set_fence "OUTCOME_UNKNOWN" (f_boundary f) (f_attempts f) (f_result f) at_ f else f.

Definition reconcile_started_body (now : nat -> string) : Tx ledger Z :=
  do! n := db_get started_count in
  run! db_mod (fun s => set_legacy ((fun g => set_legacy_progress (unknown_if_started (now 0%nat) (g_progress g)) g) <$> effect_requests s) s) then
  run! db_mod (fun s => set_typed ((fun y => set_progress (unknown_if_started (now 1%nat) (y_progress y)) y) <$> typed_effect_requests s) s) then
  run! db_mod (fun s => set_fences (fence_unknown s (now 2%nat) <$> effect_scope_fences s) s) then
  db_ret n.
Definition reconcile_started now : ledger -> res Z * ledger := transaction (reconcile_started_body now).

Section Ledger.
Context `{Repr} `{FromIso} `{JsonSha} `{JcsSha}.

(** ** Admission *)
Record accept_result : Type := mkAccept {
  ac_accepted : bool; ac_reason : string; ac_state : string; ac_replay : bool; ac_result : option pyval;
  ac_scope : string; ac_owner : string }.

(** [WHERE request_id=? OR idempotency_key=?]: the row of the identifier, else the row of the key. *)
Definition by_id_or_key {A} (key : A -> string) (id k : string) (m : gmap string A) : option A :=
  match m !! id with
  | Some a => Some a
  | None => option_map snd (List.find (fun kv => String.eqb (key (snd kv)) k) (map_to_list m))
  end.
Definition existing_request (r : EffectRequest) (s : ledger) : option (string * progress) :=
  match by_id_or_key g_idempotency_key (request_id r) (idempotency_key r) (effect_requests s) with
  | Some g => Some (g_request_digest g, g_progress g)
  | None => option_map (fun y => (y_digest y, y_progress y))
              (by_id_or_key y_idempotency_key (request_id r) (idempotency_key r) (typed_effect_requests s))
  end.

Definition replayed (r : EffectRequest) (old : string * progress) : accept_result :=
  let '(d, p) := old in
  if negb (String.eqb d (digest r)) then mkAccept false "IDEMPOTENCY_CONFLICT" (p_state p) true None "" ""
  else mkAccept (String.eqb (p_state p) "ACCEPTED") "IDEMPOTENT_REPLAY" (p_state p) true (p_result p) "" "".

(** The fence that already covers the request: by generation, else by exact scope. *)
Definition existing_fence (logical : option string) (exact : string) (s : ledger) : option (string * fence_row) :=
  let by_logical :=
    match logical with
    | Some id => List.find (fun kv => bool_decide (f_logical (snd kv) = Some id)) (map_to_list (effect_scope_fences s))
    | None => None
    end in
  match by_logical with
  | Some kv => Some kv
  | None => option_map (fun f => (exact, f)) (effect_scope_fences s !! exact)
  end.

Definition blocked_by (reason : string) (kv : string * fence_row) : accept_result :=
  mkAccept false reason (f_state (snd kv)) true (f_result (snd kv)) (fst kv) (f_owner (snd kv)).

Definition new_row (now : nat -> string) (op : string) (r : EffectRequest) : typed_row :=
  mkTyped (idempotency_key r) (digest r) (producer_id r) (producer_generation r) (intent_type r) op (failure_domain r)
    (correlation_id r) (target_snapshot_id r) (runtime_snapshot_id r) (runtime_observation_id r)
    (expected_executor_instance_id r) (maintenance_evidence_status r) (projection_id r) (projection_sequence r)
    (identity_type r) (fence_identity r) (option_map (fun t => VDict (target_dict t)) (ffmpeg_target_identity r))
    (option_map (fun i => VDict (runtime_dict i)) (runtime_identity r)) (expected_ffmpeg_generation r)
    (VDict (canonical r)) (now 0%nat) (mkProgress "ACCEPTED" None None None).
Definition new_fence (now : nat -> string) (op : string) (logical : option string) (r : EffectRequest) : fence_row :=
  mkFence logical op (fence_identity r) (request_id r) (digest r) "ACCEPTED" false 0 None (now 1%nat) (now 2%nat).

(** PRIMARY KEY, UNIQUE(idempotency_key) and the CHECK of the intent. *)
Definition insert_typed (id : string) (y : typed_row) : Tx ledger unit :=
  do! clash := db_get (fun s => bool_decide (is_Some (typed_effect_requests s !! id))
    || existsb (fun kv => String.eqb (y_idempotency_key (snd kv)) (y_idempotency_key y)) (map_to_list (typed_effect_requests s))) in
  if clash || negb (listed ALL_EFFECT_INTENTS (y_intent_type y)) then db_raise integrity_error else
  db_mod (fun s => set_typed (<[id := y]> (typed_effect_requests s)) s).

(** PRIMARY KEY, UNIQUE(owner_request_id) and the unique index on the generation. *)
Definition fence_clash (id : string) (f : fence_row) (s : ledger) : bool :=
  bool_decide (is_Some (effect_scope_fences s !! id))
  || existsb (fun kv => String.eqb (f_owner (snd kv)) (f_owner f)
                        || (bool_decide (is_Some (f_logical f)) && bool_decide (f_logical (snd kv) = f_logical f)))
       (map_to_list (effect_scope_fences s)).
Definition insert_fence (id : string) (f : fence_row) : Tx ledger unit :=
  do! clash := db_get (fence_clash id f) in
  if clash : bool then db_raise integrity_error else
  db_mod (fun s => set_fences (<[id := f]> (effect_scope_fences s)) s).

Definition raise_high_water (now : nat -> string) (sequence : Z) (s : ledger) : ledger :=
  set_authority (option_map (fun a => mkAuthority (a_producer_id a) (a_generation a) (a_version a)
                                        (Z.max (a_high_water a) sequence) (now 3%nat)) (authority_table s)) s.

(** The request and its fence are recorded together. *)
Definition admit_request (now : nat -> string) (r : EffectRequest) (logical : option string) (exact : string) : Tx ledger accept_result :=
  do! op := db_lift (operation r) in
  run! insert_typed (request_id r) (new_row now op r) then
  run! insert_fence exact (new_fence now op logical r) then
  run! db_mod (raise_high_water now (projection_sequence r)) then
  db_ret (mkAccept true "ACCEPTED_DURABLE" "ACCEPTED" false None exact "").

Definition accept_body (now : nat -> string) (r : EffectRequest) : Tx ledger accept_result :=
  do! row := db_get authority in
  do! a := db_lift row in
  do! existing := db_get (existing_request r) in
  match existing with
  | Some old => db_ret (replayed r old)
  | None =>
      let reject reason := db_ret (mkAccept false reason "REJECTED" false None "" "") in
      if negb (String.eqb (a_producer_id a) (producer_id r)) then reject "PRODUCER_NOT_ACTIVE" else
      if negb (a_generation a =? producer_generation r) then reject "PRODUCER_GENERATION_MISMATCH" else
      do! logical := db_lift (request_logical_id r) in
      do! exact := db_lift (request_scope_id r) in
      do! covering := db_get (existing_fence logical exact) in
      match covering with
      | Some kv =>
          db_ret (blocked_by (if String.eqb (fst kv) exact then "EFFECT_SCOPE_ALREADY_CLAIMED"
                              else "LOGICAL_GENERATION_PID_INVARIANT_BROKEN") kv)
      | None =>
          do! pending := db_get unresolved_rows in
          match pending with
          | kv :: _ => db_ret (blocked_by "TARGET_EFFECT_UNRESOLVED" kv)
          | [] => admit_request now r logical exact
          end
      end
  end.
Definition accept now r : ledger -> res accept_result * ledger := transaction (accept_body now r).

(** ** Transitions *)
Definition moved (state : string) (result : option pyval) (at_ : string) (p : progress) : progress :=
  if String.eqb state "EXECUTION_STARTED" then mkProgress state result (Some at_) (p_finished_at p)
  else mkProgress state result (p_started_at p) (Some at_).

(** [scope_state or state] and [coalesce(?, result_json)] on the fence of an owner. *)
Definition move_fence (now : nat -> string) (id state : string) (scope_state : option string) (result : option pyval)
    (f : fence_row) : fence_row :=
  if String.eqb (f_owner f) id
  then set_fence (match scope_state with Some s => if String.eqb s "" then state else s | None => state end)
         (f_boundary f) (f_attempts f) (match result with Some v => Some v | None => f_result f end) (now 2%nat) f
  else f.

Definition transition_body (now : nat -> string) (id expected state : string) (result : option pyval)
    (scope_state : option string) : Tx ledger bool :=
  do! y := db_get (fun s => typed_effect_requests s !! id) in
  do! g := db_get (fun s => effect_requests s !! id) in
  let typed := match y with Some y => if String.eqb (y_state y) expected then Some y else None | None => None end in
  let legacy := match g with Some g => if String.eqb (g_state g) expected then Some g else None | None => None end in
  let move := db_mod (fun s => set_fences (move_fence now id state scope_state result <$> effect_scope_fences s) s) in
  match typed, legacy with
  | Some y, _ =>
      run! db_mod (fun s => set_typed (<[id := set_progress (moved state result (now 0%nat) (y_progress y)) y]> (typed_effect_requests s)) s) then
      run! move then db_ret true
  | None, Some g =>
      run! db_mod (fun s => set_legacy (<[id := set_legacy_progress (moved state result (now 1%nat) (g_progress g)) g]> (effect_requests s)) s) then
      run! move then db_ret true
  | None, None => db_ret false
  end.
Definition transition now id expected state result scope_state : ledger -> res bool * ledger :=
  transaction (transition_body now id expected state result scope_state).

Definition reservable (id : string) (f : fence_row) : bool :=
  String.eqb (f_owner f) id && String.eqb (f_state f) "EXECUTION_STARTED" && negb (f_boundary f) && (f_attempts f =? 0).
Definition reserve (now : nat -> string) (id : string) (f : fence_row) : fence_row :=
  if reservable id f then set_fence "EFFECT_BOUNDARY_REACHED" true 1 (f_result f) (now 0%nat) f else f.

Definition mark_body (now : nat -> string) (id : string) : Tx ledger bool :=
  do! n := db_get (fun s => count (fun kv => reservable id (snd kv)) (map_to_list (effect_scope_fences s))) in
  run! db_mod (fun s => set_fences (reserve now id <$> effect_scope_fences s) s) then
  db_ret (n =? 1).
Definition mark_effect_boundary now id : ledger -> res bool * ledger := transaction (mark_body now id).

(** ** Conclusions *)
Record conclusion : Type := mkConclusion {
  cn_replay : bool; cn_reconciliation_id : string; cn_scope : string; cn_resolution : string; cn_digest : string }.

Definition unless {A} (b : bool) (reason : string) (k : Tx ledger A) : Tx ledger A :=
  if b then db_raise (EValue reason) else k.

(** [int(evidence.get("physical_effect_count", -1))] *)
Definition effect_count (evidence : dict) : res Z := py_int (dget evidence "physical_effect_count" (VInt (-1))).

(** The count the resolution asks for; the evidence is read only then. *)
Definition check_count (resolution : string) (evidence : dict) : res unit :=
  if String.eqb resolution "NO_EFFECT_PROVEN" then
    let! n := effect_count evidence in require (n =? 0) "NO_EFFECT_PROVEN requires physical_effect_count=0 evidence"
  else if String.eqb resolution "EFFECT_OBSERVED" then
    let! n := effect_count evidence in require (n =? 1) "EFFECT_OBSERVED requires physical_effect_count=1 evidence"
  else Ok tt.

Definition alter_fence (g : fence_row -> fence_row) (id : string) : Tx ledger unit :=
  db_mod (fun s => set_fences (alter g id (effect_scope_fences s)) s).

Definition conclude (now : nat -> string) (resolution : string) (evidence : dict) (id : string) : Tx ledger unit :=
  if String.eqb resolution "EFFECT_OBSERVED"
  then alter_fence (set_fence "RECONCILED_EFFECT_OBSERVED" true 1 (Some (VDict evidence)) (now 1%nat)) id
  else if String.eqb resolution "NO_EFFECT_PROVEN"
  then alter_fence (set_fence "RELEASED_NO_EFFECT" false 0 (Some (VDict evidence)) (now 1%nat)) id
  else db_ret tt.

Definition differs (given : option string) (s : string) : bool :=
  match given with Some g => negb (String.eqb s g) | None => false end.

Definition reconciliation_body (now : nat -> string) (rid scope_id resolution : string) (evidence : dict)
    (owner owner_digest : option string) : Tx ledger conclusion :=
  let sha := json_sha256 (VDict evidence) in
  do! existing := db_get (fun s => effect_reconciliations s !! rid) in
  match existing with
  | Some n =>
      unless (negb (String.eqb (n_scope n) scope_id && String.eqb (n_resolution n) resolution && String.eqb (n_digest n) sha))
        "RECONCILIATION_ID_CONFLICT"
        (db_ret (mkConclusion true rid scope_id resolution sha))
  | None =>
      do! fence := db_get (scope scope_id) in
      match fence with
      | None => db_raise (EValue "effect scope is not present")
      | Some f =>
          unless (differs owner (f_owner f)) "RECONCILIATION_OWNER_REQUEST_MISMATCH" (
          unless (differs owner_digest (f_owner_digest f)) "RECONCILIATION_OWNER_DIGEST_MISMATCH" (
          unless (listed ["EFFECT_OBSERVED"; "NO_EFFECT_PROVEN"] resolution && negb (listed UNRESOLVED (f_state f)))
            "RECONCILIATION_SCOPE_ALREADY_RESOLVED" (
          run! db_lift (check_count resolution evidence) then
          run! db_mod (fun s => set_reconciliations
                 (<[rid := mkReconciliation scope_id resolution (VDict evidence) sha (now 0%nat)]> (effect_reconciliations s)) s) then
          run! conclude now resolution evidence scope_id then
          db_ret (mkConclusion false rid scope_id resolution sha))))
      end
  end.
Definition record_reconciliation now rid scope_id resolution evidence owner owner_digest (s : ledger) : res conclusion * ledger :=
  if negb (listed ["EFFECT_OBSERVED"; "NO_EFFECT_PROVEN"; "REMAINS_UNKNOWN"] resolution)
  then (Err (EValue "unsupported effect reconciliation resolution"), s)
  else transaction (reconciliation_body now rid scope_id resolution evidence owner owner_digest) s.

Definition retirable_states (evidence : dict) : list string :=
  if eq_str (dget evidence "physical_effect_outcome" VNone) "EFFECT_OBSERVED"
  then ["EFFECT_OBSERVED_AWAITING_VERIFICATION"]
  else ["EFFECT_BOUNDARY_REACHED"; "EXECUTION_STARTED"; "OUTCOME_UNKNOWN"].

(** The unique index allows one retirement per scope. *)
Definition retired_already (scope_id : string) (s : ledger) : bool :=
  existsb (fun kv => String.eqb (i_scope (snd kv)) scope_id) (map_to_list (effect_scope_retirements s)).

Definition retirement_body (now : nat -> string) (rid scope_id : string) (evidence : dict) (owner owner_digest : string)
    : Tx ledger conclusion :=
  let sha := json_sha256 (VDict evidence) in
  do! existing := db_get (fun s => effect_scope_retirements s !! rid) in
  match existing with
  | Some i =>
      unless (negb (String.eqb (i_scope i) scope_id && String.eqb (i_digest i) sha)) "RECONCILIATION_ID_CONFLICT"
        (db_ret (mkConclusion true rid scope_id "TARGET_RETIRED" sha))
  | None =>
      do! fence := db_get (scope scope_id) in
      match fence with
      | None => db_raise (EValue "effect scope is not present")
      | Some f =>
          unless (negb (String.eqb (f_owner f) owner)) "RECONCILIATION_OWNER_REQUEST_MISMATCH" (
          unless (negb (String.eqb (f_owner_digest f) owner_digest)) "RECONCILIATION_OWNER_DIGEST_MISMATCH" (
          unless (negb (listed (retirable_states evidence) (f_state f))) "RECONCILIATION_SCOPE_ALREADY_RESOLVED" (
          unless (negb (f_attempts f =? 1)) "TARGET_RETIREMENT_REQUIRES_ONE_PHYSICAL_ATTEMPT" (
          do! again := db_get (retired_already scope_id) in
          if again : bool then db_raise integrity_error else
          run! db_mod (fun s => set_retirements
                 (<[rid := mkRetirement scope_id (VDict evidence) sha (now 0%nat)]> (effect_scope_retirements s)) s) then
          run! alter_fence (set_fence "RETIRED_TARGET_OUTCOME_UNKNOWN" true 1 (Some (VDict evidence)) (now 1%nat)) scope_id then
          db_ret (mkConclusion false rid scope_id "TARGET_RETIRED" sha)))))
      end
  end.
Definition record_target_retirement now rid scope_id evidence owner owner_digest : ledger -> res conclusion * ledger :=
  transaction (retirement_body now rid scope_id evidence owner owner_digest).

(** ** Repairs at start-up ([_migrate])

    A fence for every request recorded before fences existed. A row that does not
    decode is skipped; any other exception ends the start. *)
Definition skips (e : exn) : bool :=
  match e with EKey | EType | EValue _ | EObservation _ | EClock _ => true | _ => false end.

Definition boundary_of (state : string) : bool := negb (String.eqb state "ACCEPTED").
Definition old_fence (now : nat -> string) (op : string) (identity : pyval) (id d : string) (p : progress) : fence_row :=
  let b := boundary_of (p_state p) in
  mkFence None op identity id d (p_state p) b (Z.b2z b) (p_result p) (now 0%nat) (now 1%nat).

Definition typed_candidate (now : nat -> string) (kv : string * typed_row) : res (option (string * fence_row)) :=
  let '(id, y) := kv in
  match y_request y with
  | VDict d =>
      match from_mapping d with
      | Ok r => let! k := request_scope_id r in
                Ok (Some (k, old_fence now (y_operation y) (y_identity y) id (y_digest y) (y_progress y)))
      | Err e => if skips e then Ok None else Err e
      end
  | _ => Ok None
  end.
Definition legacy_candidate (now : nat -> string) (kv : string * legacy_row) : res (option (string * fence_row)) :=
  let '(id, g) := kv in
  match g_target_identity g with
  | VDict d =>
      match effect_scope_id "restart_ffmpeg" d with
      | Ok k => Ok (Some (k, old_fence now (g_operation g) (VDict d) id (g_request_digest g) (g_progress g)))
      | Err EKey => Err EKey
      | Err e => if skips e then Ok None else Err e
      end
  | _ => Ok None
  end.

Fixpoint candidates_of {A} (f : A -> res (option (string * fence_row))) (l : list A) : res (list (string * fence_row)) :=
  match l with
  | [] => Ok []
  | x :: l' =>
      let! c := f x in
      let! rest := candidates_of f l' in
      Ok (match c with Some kv => kv :: rest | None => rest end)
  end.

(** ORDER BY accepted_at. *)
Definition accepted_le {A} (at_ : A -> string) (x y : string * A) : Prop :=
  String.leb (at_ (snd x)) (at_ (snd y)) = true.
#[export] Instance accepted_le_dec {A} (at_ : A -> string) x y : base.Decision (accepted_le at_ x y).
Proof. unfold accepted_le. apply _. Defined.

(** INSERT OR IGNORE, then the boundary of a request past admission. *)
Definition backfill_one (now : nat -> string) (s : ledger) (kv : string * fence_row) : ledger :=
  let '(id, f) := kv in
  let s1 := if fence_clash id f s then s else set_fences (<[id := f]> (effect_scope_fences s)) s in
  if f_boundary f
  then set_fences (alter (fun f => set_fence (if String.eqb (f_state f) "ACCEPTED" then "OUTCOME_UNKNOWN" else f_state f)
                                     true 1 (f_result f) (now 2%nat) f) id (effect_scope_fences s1)) s1
  else s1.

Definition _backfill_effect_scope_fences (now : nat -> string) (s : ledger) : res unit * ledger :=
  let typed := merge_sort (accepted_le y_accepted_at) (map_to_list (typed_effect_requests s)) in
  let legacy := merge_sort (accepted_le g_accepted_at) (map_to_list (effect_requests s)) in
  match candidates_of (typed_candidate now) typed with
  | Err e => (Err e, s)
  | Ok l1 =>
      match candidates_of (legacy_candidate now) legacy with
      | Err e => (Err e, s)
      | Ok l2 => (Ok tt, fold_left (backfill_one now) (l1 ++ l2) s)
      end
  end.

(** The generation of each delivery fence; one generation with two exact scopes
    ends the start. *)
Fixpoint planned_generations (owners : gmap string (string * pyval)) (l : list (string * fence_row))
    : res (list (string * string)) :=
  match l with
  | [] => Ok []
  | (id, f) :: l' =>
      if negb (listed ["restart_ffmpeg"; "switch_stream_route"] (f_action f)) then planned_generations owners l' else
      match f_identity f with
      | VDict d =>
          match logical_generation_scope_id "restart_ffmpeg" d with
          | Err e => if skips e then planned_generations owners l' else Err e
          | Ok logical =>
              let clash := match owners !! logical with
                           | Some (id', exact) => negb (String.eqb id' id && py_eq exact (VDict d))
                           | None => false
                           end in
              if clash then Err (ERuntime "RUNTIME_LOGICAL_GENERATION_PID_INVARIANT_BROKEN") else
              let! rest := planned_generations (<[logical := (id, VDict d)]> owners) l' in
              Ok ((logical, id) :: rest)
          end
      | _ => planned_generations owners l'
      end
  end.

Definition name_generation (s : ledger) (plan : string * string) : ledger :=
  set_fences (alter (fun f => match f_logical f with Some _ => f | None => set_logical (fst plan) f end) (snd plan)
                (effect_scope_fences s)) s.

Definition _backfill_logical_generation_scopes (s : ledger) : res unit * ledger :=
  match planned_generations ∅ (fence_rows s) with
  | Err e => (Err e, s)
  | Ok plan => (Ok tt, fold_left name_generation plan s)
  end.

(** CREATE UNIQUE INDEX one_runtime_effect_per_logical_generation. *)
Definition generations_unique (s : ledger) : bool :=
  bool_decide (NoDup (omap (fun kv => f_logical (snd kv)) (map_to_list (effect_scope_fences s)))).

Definition initial_authority (now : nat -> string) (producer : string) (generation : Z) (s : ledger) : ledger :=
  match authority_table s with
  | Some _ => s
  | None => if 0 <? generation then set_authority (Some (mkAuthority producer generation 1 0 (now 0%nat))) s else s
  end.

(** [EffectLedger.__init__] on an existing file: the tables, then the repairs. *)
Definition open_ledger (now1 now2 now3 : nat -> string) (producer : string) (generation : Z) (s : ledger) : res unit * ledger :=
  let s := initial_authority now1 producer generation s in
  match _backfill_effect_scope_fences now2 s with
  | (Err e, s) => (Err e, s)
  | (Ok _, s) =>
      match _backfill_logical_generation_scopes s with
      | (Err e, s) => (Err e, s)
      | (Ok _, s) =>
          if generations_unique s then
            let '(n, s) := reconcile_started now3 s in (rmap (fun _ => tt) n, s)
          else (Err integrity_error, s)
      end
  end.
End Ledger.

Definition empty_ledger : ledger := mkLedger None ∅ ∅ ∅ ∅ ∅.
