(* ===== verification/EffectReconcile.v ===== *)
(** * Reconciliation requests of the effect executor

    Models the evidence checks of [EffectExecutorServer._reconcile]
    (src/src/runtime_boundary/server.py): which conclusions about an uncertain
    effect the executor records without an operator, and on what evidence. *)
From Stdlib Require Import Ascii.
From S2P Require Import Prelude PyVal UtcTime FastPolicy EffectContract EffectModel EffectLedger.

Section Reconcile.
Context `{Repr} `{FromIso}.

Definition DELAYED_V1 : string := "runtime.delayed_exit_reconciliation_evidence.v1".
Definition DELAYED_V2 : string := "runtime.delayed_exit_reconciliation_evidence.v2".

(** [v in {"a", "b"}]: an unhashable value raises. *)
Definition in_str_set (v : pyval) (l : list string) : res bool :=
  match v with VList _ | VDict _ => Err EType | _ => Ok (in_strs v l) end.

Definition equals (v : pyval) (z : Z) : bool := py_eq v (VInt z).

Record reconcile_text : Type := mkText {
  x_id : string; x_scope : string; x_owner : string; x_digest : string; x_resolution : string }.

(** The envelope of the request. *)
Definition reconcile_envelope (value : dict) : res (reconcile_text * dict) :=
  let! _ := require (exact_keys ["schema_version"; "reconciliation_id"; "effect_scope_id"; "owner_request_id";
                                 "owner_request_digest"; "resolution"; "evidence"] value) "RECONCILIATION_FIELDS_NOT_EXACT" in
  let x := mkText (text_of value "reconciliation_id") (text_of value "effect_scope_id") (text_of value "owner_request_id")
             (text_of value "owner_request_digest") (text_of value "resolution") in
  let! _ := require (negb (existsb (String.eqb "") [x_id x; x_scope x; x_owner x; x_digest x; x_resolution x]))
              "RECONCILIATION_IDENTITY_MISSING" in
  let! _ := require (listed ["EFFECT_OBSERVED"; "TARGET_RETIRED"] (x_resolution x))
              "AUTOMATIC_RECONCILIATION_RESOLUTION_NOT_ALLOWED" in
  match dget value "evidence" VNone with
  | VDict e => Ok (x, e)
  | _ => protocol_error "RECONCILIATION_EVIDENCE_NOT_OBJECT"
  end.

Definition observed_resolution (x : reconcile_text) : bool := String.eqb (x_resolution x) "EFFECT_OBSERVED".

Definition evidence_fields (observed : bool) : list string :=
  ["schema_version"; "oracle"; "observed_at"; "automatic_retry_count"; "before_target"; "observed_target";
   "runtime_observation_id"; "transport"]
  ++ if observed then ["physical_effect_count"] else ["physical_attempt_count"; "physical_effect_outcome"].

(** The schema, the oracle and the counts the resolution asks for. *)
Definition check_oracle (observed : bool) (e : dict) : res unit :=
  let schema := str0 e "schema_version" in
  if observed then
    let! _ := require (listed [DELAYED_V1; DELAYED_V2] schema) "RECONCILIATION_EVIDENCE_SCHEMA_INVALID" in
    let! _ := require (eq_str (dget e "oracle" VNone)
                         (if String.eqb schema DELAYED_V1 then "DELAYED_FFMPEG_EXIT_AND_HEALTHY_SUCCESSOR"
                          else "DELAYED_FFMPEG_EXIT_AND_SUCCESSOR_ACK_PROGRESS")) "RECONCILIATION_ORACLE_INVALID" in
    require (equals (dget e "physical_effect_count" VNone) 1) "RECONCILIATION_ATTEMPT_COUNT_INVALID"
  else
    let! _ := require (String.eqb schema "runtime.retired_target_reconciliation_evidence.v1")
                "RECONCILIATION_EVIDENCE_SCHEMA_INVALID" in
    let! _ := require (eq_str (dget e "oracle" VNone) "EXACT_TARGET_RETIRED_AND_HEALTHY_REPLACEMENT")
                "RECONCILIATION_ORACLE_INVALID" in
    let! ok := Ok (equals (dget e "physical_attempt_count" VNone) 1)
               &&! in_str_set (dget e "physical_effect_outcome" VNone) ["UNKNOWN"; "EFFECT_OBSERVED"] in
    require ok "RECONCILIATION_ATTEMPT_COUNT_INVALID".

(** The checks before the ledger is read; [now] is the clock at that point. *)
Definition evidence_head (observed : bool) (e : dict) (now : Q) : res (Q * Target * Target) :=
  let! _ := require (exact_keys (evidence_fields observed) e) "RECONCILIATION_EVIDENCE_FIELDS_NOT_EXACT" in
  let! _ := check_oracle observed e in
  let! observed_at := parse_utc (py_str (dget e "observed_at" VNone)) in
  let! _ := require (Qleb (-1) (now - observed_at) && Qleb (now - observed_at) 30) "RECONCILIATION_EVIDENCE_STALE_OR_FUTURE" in
  let! _ := require (equals (dget e "automatic_retry_count" VNone) 0) "RECONCILIATION_ATTEMPT_COUNT_INVALID" in
  let! _ := require (negb (String.eqb (text_of e "runtime_observation_id") "")) "RECONCILIATION_OBSERVATION_ID_MISSING" in
  let! before := validate_target (dget e "before_target" VNone) in
  let! after := validate_target (dget e "observed_target" VNone) in
  Ok (observed_at, before, after).

(** [current.get("ffmpeg_target_identity", current.get("target_identity"))] *)
Definition current_target_of (current : dict) : pyval :=
  dget current "ffmpeg_target_identity" (dget current "target_identity" VNone).

(** The fence holds the old target, the runtime the new one. *)
Definition check_bound (fence : option fence_row) (before : Target) : res unit :=
  require (match fence with Some f => py_eq (f_identity f) (VDict (target_dict before)) | None => false end)
    "RECONCILIATION_BEFORE_TARGET_NOT_BOUND".
Definition check_current (current : dict) (after : Target) : res unit :=
  require (py_eq (current_target_of current) (VDict (target_dict after))) "RECONCILIATION_OBSERVED_TARGET_NOT_CURRENT".

Definition transport_fields (v2 : bool) : list string :=
  ["bytes_sent"; "network_down"; "tcp_probe_ok"]
  ++ if v2 then ["ffmpeg_generation"; "ack_observation_count"; "bytes_acked_start"; "bytes_acked_end"; "bytes_acked_delta"; "ack_samples"]
     else [].

(** A healthy transport of the new target. *)
Definition check_transport (schema : string) (transport : pyval) : res dict :=
  match transport with
  | VDict t =>
      let! _ := require (exact_keys (transport_fields (String.eqb schema DELAYED_V2)) t) "RECONCILIATION_TRANSPORT_FIELDS_INVALID" in
      let! _ := require (is_int (dget t "bytes_sent" VNone) && (0 <? int_val (dget t "bytes_sent" VNone))
                         && is_false (dget t "network_down" VNone) && is_true (dget t "tcp_probe_ok" VNone))
                  "RECONCILIATION_TRANSPORT_NOT_HEALTHY" in
      Ok t
  | _ => protocol_error "RECONCILIATION_TRANSPORT_FIELDS_INVALID"
  end.

(** One acknowledged sample; the previous time and count. *)
Definition ack_sample (observed_at now : Q) (after : Target) (previous : option (Q * Z)) (sample : pyval) : res (Q * Z) :=
  match sample with
  | VDict d =>
      let! _ := require (exact_keys ["observed_at"; "ffmpeg_pid"; "ffmpeg_generation"; "bytes_acked"] d)
                  "RECONCILIATION_ACK_SAMPLES_INVALID" in
      let! _ := require (is_int (dget d "ffmpeg_pid" VNone) && (int_val (dget d "ffmpeg_pid" VNone) =? t_pid after)
                         && String.eqb (str0 d "ffmpeg_generation") (t_generation after))
                  "RECONCILIATION_ACK_GENERATION_MISMATCH" in
      let acked := dget d "bytes_acked" VNone in
      let! _ := require (is_int acked && (0 <=? int_val acked)) "RECONCILIATION_ACK_SAMPLES_INVALID" in
      let! at_ := parse_utc (py_str (dget d "observed_at" VNone)) in
      let! _ := require (Qleb (-1) (now - at_) && Qleb (now - at_) 30 && Qleb at_ (observed_at + 1))
                  "RECONCILIATION_ACK_SAMPLE_STALE_OR_FUTURE" in
      let! _ := require (match previous with Some (t, _) => Qltb t at_ | None => true end) "RECONCILIATION_ACK_SAMPLES_INVALID" in
      let! _ := require (match previous with Some (_, n) => n <? int_val acked | None => true end)
                  "RECONCILIATION_ACK_NOT_CONSECUTIVELY_PROGRESSING" in
      Ok (at_, int_val acked)
  | _ => protocol_error "RECONCILIATION_ACK_SAMPLES_INVALID"
  end.

(** The accepted samples, in order; [clock k] is the clock at the [k]-th one. *)
Fixpoint ack_samples (observed_at : Q) (clock : nat -> Q) (k : nat) (after : Target) (previous : option (Q * Z)) (l : list pyval)
    : res (list (Q * Z)) :=
  match l with
  | [] => Ok []
  | x :: l' =>
      let! s := ack_sample observed_at (clock k) after previous x in
      let! rest := ack_samples observed_at clock (S k) after (Some s) l' in
      Ok (s :: rest)
  end.

(** Acknowledged progress of the successor. *)
Definition check_acks (observed_at : Q) (clock : nat -> Q) (after : Target) (t : dict) : res (list (Q * Z)) :=
  let! _ := require (String.eqb (str0 t "ffmpeg_generation") (t_generation after)) "RECONCILIATION_ACK_GENERATION_MISMATCH" in
  match dget t "ack_observation_count" VNone, dget t "bytes_acked_start" VNone, dget t "bytes_acked_end" VNone,
        dget t "bytes_acked_delta" VNone with
  | VInt count, VInt start, VInt end_, VInt delta =>
      match dget t "ack_samples" VNone with
      | VList l =>
          let! _ := require ((3 <=? count) && (count <=? 16) && (0 <=? start) && (start <? end_) && (delta =? end_ - start)
                             && (Z.of_nat (length l) =? count)) "RECONCILIATION_ACK_AGGREGATE_INVALID" in
          let! samples := ack_samples observed_at clock 0 after None l in
          let! _ := require (bool_decide (snd <$> head samples = Some start) && bool_decide (snd <$> last samples = Some end_))
                      "RECONCILIATION_ACK_AGGREGATE_INVALID" in
          Ok samples
      | _ => protocol_error "RECONCILIATION_ACK_AGGREGATE_INVALID"
      end
  | _, _, _, _ => protocol_error "RECONCILIATION_ACK_AGGREGATE_INVALID"
  end.

(** A successor inside the same runtime, or a runtime that is gone. *)
Definition check_identities (observed : bool) (before after : Target) : res unit :=
  if observed then
    let! _ := require (String.eqb (t_host_id before) (t_host_id after) && String.eqb (t_host_boot_id before) (t_host_boot_id after)
                       && String.eqb (t_namespace before) (t_namespace after) && String.eqb (t_pod_uid before) (t_pod_uid after)
                       && String.eqb (t_container_name before) (t_container_name after)
                       && String.eqb (t_container_id before) (t_container_id after)) "RECONCILIATION_RUNTIME_IDENTITY_DRIFT" in
    require (negb (t_pid before =? t_pid after) && negb (String.eqb (t_generation before) (t_generation after)))
      "RECONCILIATION_SUCCESSOR_NOT_DISTINCT"
  else
    let! _ := require (String.eqb (t_host_id before) (t_host_id after) && String.eqb (t_namespace before) (t_namespace after)
                       && String.eqb (t_container_name before) (t_container_name after)) "RECONCILIATION_REPLACEMENT_DOMAIN_MISMATCH" in
    require (negb (String.eqb (t_host_boot_id before) (t_host_boot_id after) && String.eqb (t_pod_uid before) (t_pod_uid after)
                   && String.eqb (t_container_id before) (t_container_id after))) "RECONCILIATION_OLD_TARGET_NOT_RETIRED".

(** Everything after the current target was read. *)
Definition evidence_tail (observed : bool) (e : dict) (observed_at : Q) (clock : nat -> Q) (before after : Target) : res unit :=
  let schema := str0 e "schema_version" in
  let! t := check_transport schema (dget e "transport" VNone) in
  let! _ := if String.eqb schema DELAYED_V2 then check_acks observed_at clock after t else Ok [] in
  check_identities observed before after.
End Reconcile.
