(* ===== verification/EffectLedgerProofs.v ===== *)
(** * Invariant of the effect ledger

    [ledger_inv strict s reserved]: the fences and requests of [s] belong to each
    other one to one, and every request of [reserved] has had its physical attempt
    reserved: its fence never opens again.  With [strict], an open request whose
    attempt is still free belongs to the producer that holds the authority.  Every
    method of the ledger preserves it. *)
From stdpp Require Import sorting.
From S2P Require Import Prelude PyVal UtcTime FastPolicy EffectContract EffectModel EffectLedger.

#[local] Arguments listed : simpl never.

Definition open_state (state : string) : bool := listed ["ACCEPTED"; "EXECUTION_STARTED"] state.
Definition is_accepted (y : typed_row) : bool := String.eqb (y_state y) "ACCEPTED".

(** ** Canonical forms determine requests *)
Lemma target_dict_inj t t' : target_dict t = target_dict t' -> t = t'.
Proof. destruct t, t'. unfold target_dict. simpl. intros [= -> -> -> -> -> -> -> ->]. done. Qed.
Lemma runtime_dict_inj t t' : runtime_dict t = runtime_dict t' -> t = t'.
Proof. destruct t, t'. unfold runtime_dict. simpl. intros [= -> -> -> -> -> -> ->]. done. Qed.

Lemma canonical_fields r r' : canonical r = canonical r' ->
  request_id r = request_id r' /\ producer_id r = producer_id r' /\ producer_generation r = producer_generation r'
  /\ intent_type r = intent_type r' /\ ffmpeg_target_identity r = ffmpeg_target_identity r'
  /\ runtime_identity r = runtime_identity r'.
Proof.
  intros Hc.
  assert (forall k, dict_get k (canonical r) = dict_get k (canonical r')) as Hk by (intros; by rewrite Hc). clear Hc.
  pose proof (Hk "request_id") as E1. pose proof (Hk "producer_id") as E2. pose proof (Hk "producer_generation") as E3.
  pose proof (Hk "intent_type") as E4. pose proof (Hk "ffmpeg_target_identity") as E5. pose proof (Hk "runtime_identity") as E6.
  simpl in E1, E2, E3, E4, E5, E6. injection E1 as E1. injection E2 as E2. injection E3 as E3. injection E4 as E4.
  split_and!; try done.
  - destruct (ffmpeg_target_identity r), (ffmpeg_target_identity r'); simpl in E5; try done.
    injection E5. intros. f_equal. by apply target_dict_inj; unfold target_dict; congruence.
  - destruct (runtime_identity r), (runtime_identity r'); simpl in E6; try done.
    injection E6. intros. f_equal. by apply runtime_dict_inj; unfold runtime_dict; congruence.
Qed.

Lemma canonical_scopes `{Repr} `{JsonSha} `{JcsSha} r r' : canonical r = canonical r' ->
  request_scope_id r = request_scope_id r' /\ request_logical_id r = request_logical_id r'.
Proof.
  intros Hc. apply canonical_fields in Hc as (_ & _ & _ & Hi & Ht & Hr).
  unfold request_scope_id, request_logical_id, fence_identity, on_delivery. by rewrite Hi, Ht, Hr.
Qed.

Section Inv.
Context `{Repr} `{FromIso} `{JsonSha} `{JcsSha}.

(** The requests of a run: their digests separate them, and a delivery request
    has a target. *)
Variable Known : EffectRequest -> Prop.
Hypothesis Known_target : forall r, Known r -> on_delivery r = true -> is_Some (ffmpeg_target_identity r).
Hypothesis Known_digest : forall r r', Known r -> Known r' -> digest r = digest r' -> canonical r = canonical r'.
Variable strict : Prop.

(** The row [y] and the fence [f] at [k] were written for [r]. *)
Definition written_for (r : EffectRequest) (y : typed_row) (k : string) (f : fence_row) : Prop :=
  Known r /\ y_digest y = digest r /\ y_producer_id y = producer_id r /\ y_producer_generation y = producer_generation r
  /\ request_scope_id r = Ok k /\ request_logical_id r = Ok (f_logical f) /\ operation r = Ok (f_action f)
  /\ f_owner f = request_id r.

Definition holds_authority (s : ledger) (y : typed_row) : Prop :=
  exists a, authority_table s = Some a /\ a_producer_id a = y_producer_id y /\ a_generation a = y_producer_generation y.

(** A fence is open only while its request is. *)
Definition synced (s : ledger) : Prop := forall k f y, effect_scope_fences s !! k = Some f ->
  typed_effect_requests s !! f_owner f = Some y -> open_state (f_state f) = true -> open_state (y_state y) = true.

Record ledger_inv (s : ledger) (reserved : list EffectRequest) : Prop := {
  inv_legacy : effect_requests s = ∅;
  inv_owner : forall k k' f f', effect_scope_fences s !! k = Some f -> effect_scope_fences s !! k' = Some f' ->
    f_owner f = f_owner f' -> k = k';
  inv_logical : forall k k' f f' l, effect_scope_fences s !! k = Some f -> effect_scope_fences s !! k' = Some f' ->
    f_logical f = Some l -> f_logical f' = Some l -> k = k';
  inv_row : forall id y, typed_effect_requests s !! id = Some y ->
    exists k f r, effect_scope_fences s !! k = Some f /\ request_id r = id /\ written_for r y k f;
  inv_fence : forall k f, effect_scope_fences s !! k = Some f -> is_Some (typed_effect_requests s !! f_owner f);
  inv_synced : synced s;
  inv_free : strict -> forall id y k f, typed_effect_requests s !! id = Some y -> open_state (y_state y) = true ->
    effect_scope_fences s !! k = Some f -> f_owner f = id -> f_boundary f = false ->
    listed RESOLVED_LATER (f_state f) = false /\ holds_authority s y;
  inv_reserved : forall r, r ∈ reserved -> Known r /\ exists y k f,
    typed_effect_requests s !! request_id r = Some y /\ y_digest y = digest r /\ is_accepted y = false
    /\ effect_scope_fences s !! k = Some f /\ f_owner f = request_id r /\ open_state (f_state f) = false;
  inv_once : NoDup (map request_id reserved) }.

Lemma empty_ledger_inv : ledger_inv empty_ledger [].
Proof. clear Known_target Known_digest. split; simpl; try (intros *; rewrite lookup_empty; done); try done; [set_solver | constructor]. Qed.

(** ** Evolution

    What a method may do to rows that exist. *)
Definition fence_step (s : ledger) (f f' : fence_row) : Prop :=
  f_logical f' = f_logical f /\ f_owner f' = f_owner f /\ f_action f' = f_action f
  /\ (open_state (f_state f') = true -> open_state (f_state f) = true
        \/ exists y, typed_effect_requests s !! f_owner f = Some y /\ is_accepted y = true)
  /\ (strict -> f_boundary f' = false -> f_boundary f = false
        /\ (listed RESOLVED_LATER (f_state f') = true -> listed RESOLVED_LATER (f_state f) = true)).
Definition row_step (y y' : typed_row) : Prop :=
  y_digest y' = y_digest y /\ y_producer_id y' = y_producer_id y /\ y_producer_generation y' = y_producer_generation y
  /\ (is_accepted y' = true -> is_accepted y = true) /\ (open_state (y_state y') = true -> open_state (y_state y) = true).

Record evolves (s s' : ledger) : Prop := {
  ev_legacy : effect_requests s' = effect_requests s;
  ev_authority : authority_table s' = authority_table s;
  ev_typed : forall id, option_Forall2 row_step (typed_effect_requests s !! id) (typed_effect_requests s' !! id);
  ev_fences : forall k, option_Forall2 (fence_step s) (effect_scope_fences s !! k) (effect_scope_fences s' !! k);
  ev_synced : synced s -> synced s' }.

(** Unchanged requests stay in step with their fences. *)
Lemma same_rows_synced s s' : typed_effect_requests s' = typed_effect_requests s ->
  (forall k, option_Forall2 (fence_step s) (effect_scope_fences s !! k) (effect_scope_fences s' !! k)) -> synced s -> synced s'.
Proof.
  intros Ht Hf Hs k f' y Hk Hy Ho. specialize (Hf k). rewrite Hk in Hf. inversion Hf as [f ? Hstep Hk0|]; subst.
  destruct Hstep as (_ & Hfo & _ & Hfs & _). rewrite Ht, Hfo in Hy. destruct (Hfs Ho) as [Ho'|(y0 & Hy0 & Ha)].
  - by eapply (Hs k f).
  - rewrite Hy0 in Hy. injection Hy as <-. unfold is_accepted in Ha. apply String.eqb_eq in Ha. by rewrite Ha.
Qed.

Lemma fence_step_refl s f : fence_step s f f.
Proof. unfold fence_step. naive_solver. Qed.
Lemma row_step_refl y : row_step y y.
Proof. unfold row_step. naive_solver. Qed.

Lemma evolves_refl s : evolves s s.
Proof.
  split; try done; intros; apply option_Forall2_refl; intros ?; [apply row_step_refl | apply fence_step_refl].
Qed.


(** Rows keep their digest. *)
Definition has_row (r : EffectRequest) (s : ledger) : Prop :=
  exists y, typed_effect_requests s !! request_id r = Some y /\ y_digest y = digest r.

Lemma typed_after s s' id y' : evolves s s' -> typed_effect_requests s' !! id = Some y' ->
  exists y, typed_effect_requests s !! id = Some y /\ row_step y y'.
Proof. intros Hev Hy. pose proof (ev_typed _ _ Hev id) as Hf. rewrite Hy in Hf. inversion Hf; subst. eauto. Qed.
Lemma typed_before s s' id y : evolves s s' -> typed_effect_requests s !! id = Some y ->
  exists y', typed_effect_requests s' !! id = Some y' /\ row_step y y'.
Proof. intros Hev Hy. pose proof (ev_typed _ _ Hev id) as Hf. rewrite Hy in Hf. inversion Hf; subst. eauto. Qed.
Lemma fence_after s s' k f' : evolves s s' -> effect_scope_fences s' !! k = Some f' ->
  exists f, effect_scope_fences s !! k = Some f /\ fence_step s f f'.
Proof. intros Hev Hf'. pose proof (ev_fences _ _ Hev k) as Hf. rewrite Hf' in Hf. inversion Hf; subst. eauto. Qed.
Lemma fence_before s s' k f : evolves s s' -> effect_scope_fences s !! k = Some f ->
  exists f', effect_scope_fences s' !! k = Some f' /\ fence_step s f f'.
Proof. intros Hev Hf'. pose proof (ev_fences _ _ Hev k) as Hf. rewrite Hf' in Hf. inversion Hf; subst. eauto. Qed.

Lemma evolves_has_row r s s' : evolves s s' -> has_row r s -> has_row r s'.
Proof.
  intros Hev (y & Hy & Hd). destruct (typed_before _ _ _ _ Hev Hy) as (y' & Hy' & Hs & _).
  exists y'. by rewrite Hs.
Qed.

Lemma evolves_reserved s s' reserved r : evolves s s' -> ledger_inv s reserved -> r ∈ reserved ->
  Known r /\ exists y k f, typed_effect_requests s' !! request_id r = Some y /\ y_digest y = digest r
    /\ is_accepted y = false /\ effect_scope_fences s' !! k = Some f /\ f_owner f = request_id r /\ open_state (f_state f) = false.
Proof.
  intros Hev Hinv Hr. destruct (inv_reserved _ _ Hinv r Hr) as (Hk & y & k & f & Hy & Hd & Ha & Hf & Ho & Hc).
  split; [done|]. destruct (typed_before _ _ _ _ Hev Hy) as (y' & Hy' & Hyd & _ & _ & Hya & _).
  destruct (fence_before _ _ _ _ Hev Hf) as (f' & Hf' & _ & Hfo & _ & Hfs & _).
  exists y', k, f'. split_and!; try done; try congruence.
  - destruct (is_accepted y') eqn:E; [|done]. by rewrite Hya in Ha.
  - destruct (open_state (f_state f')) eqn:E; [|done]. destruct (Hfs eq_refl) as [?|(y0 & Hy0 & Ha0)]; congruence.
Qed.

Lemma evolves_inv s s' reserved : evolves s s' -> ledger_inv s reserved -> ledger_inv s' reserved.
Proof.
  intros Hev Hinv. split.
  - rewrite (ev_legacy _ _ Hev). apply Hinv.
  - intros k k' f f' Hf Hf' Ho. destruct (fence_after _ _ _ _ Hev Hf) as (g & Hg & _ & Hgo & _).
    destruct (fence_after _ _ _ _ Hev Hf') as (g' & Hg' & _ & Hgo' & _).
    eapply (inv_owner _ _ Hinv k k' g g'); try done. congruence.
  - intros k k' f f' l Hf Hf' Hl Hl'. destruct (fence_after _ _ _ _ Hev Hf) as (g & Hg & Hgl & _).
    destruct (fence_after _ _ _ _ Hev Hf') as (g' & Hg' & Hgl' & _).
    eapply (inv_logical _ _ Hinv k k' g g' l); try done; congruence.
  - intros id y' Hy'. destruct (typed_after _ _ _ _ Hev Hy') as (y & Hy & Hd & Hp & Hg & _).
    destruct (inv_row _ _ Hinv id y Hy) as (k & f & r & Hf & Hid & W1 & W2 & W3 & W4 & W5 & W6 & W7 & W8).
    destruct (fence_before _ _ _ _ Hev Hf) as (f' & Hf' & Hfl & Hfo & Hfa & _).
    exists k, f', r. unfold written_for. rewrite Hd, Hp, Hg, Hfl, Hfo, Hfa. done.
  - intros k f' Hf'. destruct (fence_after _ _ _ _ Hev Hf') as (f & Hf & _ & Hfo & _).
    destruct (inv_fence _ _ Hinv k f Hf) as [y Hy]. destruct (typed_before _ _ _ _ Hev Hy) as (y' & Hy' & _).
    rewrite Hfo, Hy'. by eexists.
  - apply (ev_synced _ _ Hev), Hinv.
  - intros Hst id y' k f' Hy' Hop Hf' Ho Hb. destruct (typed_after _ _ _ _ Hev Hy') as (y & Hy & _ & Hp & Hg & _ & Hopen).
    destruct (fence_after _ _ _ _ Hev Hf') as (f & Hf & _ & Hfo & _ & _ & Hfb). destruct (Hfb Hst Hb) as [Hb0 Hres].
    destruct (inv_free _ _ Hinv Hst id y k f) as [Hl Ha]; auto; [congruence|]. split.
    + destruct (listed RESOLVED_LATER (f_state f')) eqn:E; [|done]. rewrite (Hres eq_refl) in Hl. done.
    + unfold holds_authority in *. rewrite (ev_authority _ _ Hev), Hp, Hg. done.
  - intros r Hr. by eapply evolves_reserved.
  - apply Hinv.
Qed.

(** ** The methods

    Fences changed in place, one by one. *)
Lemma fences_evolve s g :
  (forall k f, effect_scope_fences s !! k = Some f -> fence_step s f (g f)) ->
  evolves s (set_fences (g <$> effect_scope_fences s) s).
Proof.
  intros Hg.
  assert (forall k, option_Forall2 (fence_step s) (effect_scope_fences s !! k) ((g <$> effect_scope_fences s) !! k)) as Hk.
  { intros k. rewrite lookup_fmap. destruct (effect_scope_fences s !! k) eqn:E; simpl; constructor. by eapply Hg. }
  split; try done; simpl; [|by apply same_rows_synced].
  intros id. apply option_Forall2_refl. intros ?. apply row_step_refl.
Qed.
Lemma fence_evolves s g id :
  (forall f, effect_scope_fences s !! id = Some f -> fence_step s f (g f)) ->
  evolves s (set_fences (alter g id (effect_scope_fences s)) s).
Proof.
  intros Hg.
  assert (forall k, option_Forall2 (fence_step s) (effect_scope_fences s !! k) (alter g id (effect_scope_fences s) !! k)) as Hk.
  { intros k. destruct (decide (k = id)) as [->|Hne].
    - rewrite lookup_alter_eq. destruct (effect_scope_fences s !! id) eqn:E; simpl; constructor. by apply Hg.
    - rewrite lookup_alter_ne by done. apply option_Forall2_refl. intros ?. apply fence_step_refl. }
  split; try done; simpl; [|by apply same_rows_synced].
  intros k. apply option_Forall2_refl. intros ?. apply row_step_refl.
Qed.

(** The fence state of a transition. *)
Definition next_fence_state (state : string) (scope_state : option string) : string :=
  match scope_state with Some s => if String.eqb s "" then state else s | None => state end.

(** A transition that opens nothing but what an accepted request opens. *)
Definition orderly (expected state : string) (scope_state : option string) : Prop :=
  state <> "ACCEPTED" /\ listed RESOLVED_LATER (next_fence_state state scope_state) = false
  /\ (open_state state = true \/ open_state (next_fence_state state scope_state) = true -> expected = "ACCEPTED")
  /\ (open_state (next_fence_state state scope_state) = true -> open_state state = true).

Lemma transition_evolves now id expected state result scope_state s :
  effect_requests s = ∅ -> orderly expected state scope_state ->
  evolves s (snd (transition now id expected state result scope_state s)).
Proof.
  intros Hl (Hna & Hr & Ho & Hos). unfold transition, transaction, transition_body, db_bind, db_get, db_mod, db_ret. rewrite Hl, lookup_empty.
  destruct (typed_effect_requests s !! id) as [y|] eqn:Ey; [|apply evolves_refl].
  destruct (String.eqb_spec (y_state y) expected) as [Hy|]; [|apply evolves_refl]. simpl.
  split; try done; simpl.
  - intros id'. destruct (decide (id' = id)) as [->|Hne].
    + rewrite lookup_insert_eq, Ey. constructor. unfold row_step, is_accepted, y_state, moved. simpl.
      split_and!; try done.
      * intros Hs. destruct (String.eqb state "EXECUTION_STARTED"); simpl in Hs; apply String.eqb_eq in Hs; done.
      * intros Hs. assert (expected = "ACCEPTED") as He by (apply Ho; left; by destruct (String.eqb state "EXECUTION_STARTED")).
        unfold y_state in Hy. by rewrite Hy, He.
    + rewrite lookup_insert_ne by done. apply option_Forall2_refl. intros ?. apply row_step_refl.
  - intros k. rewrite lookup_fmap. destruct (effect_scope_fences s !! k) as [f|]; simpl; constructor.
    unfold move_fence. destruct (String.eqb_spec (f_owner f) id) as [Hf|]; [|apply fence_step_refl].
    unfold fence_step. simpl. fold (next_fence_state state scope_state). split_and!; try done.
    + intros Hs. right. exists y. rewrite Hf. split; [done|]. unfold is_accepted. rewrite Hy, (Ho (or_intror Hs)). done.
    + by rewrite Hr.
  - intros Hs k f' y'. simpl. rewrite lookup_fmap. destruct (effect_scope_fences s !! k) as [f|] eqn:Ef; [|done]. simpl.
    intros [= <-]. unfold move_fence. destruct (String.eqb_spec (f_owner f) id) as [Hf|Hne].
    + simpl. rewrite Hf, lookup_insert_eq. intros [= <-] Ho'. fold (next_fence_state state scope_state) in Ho'.
      unfold y_state, moved. simpl. apply Hos in Ho'. by destruct (String.eqb state "EXECUTION_STARTED").
    + rewrite lookup_insert_ne by done. intros Hy' Ho'. by eapply (Hs k f).
Qed.

Lemma mark_evolves now id s : evolves s (snd (mark_effect_boundary now id s)).
Proof.
  unfold mark_effect_boundary, transaction, mark_body, db_bind, db_get, db_mod, db_ret. simpl. apply fences_evolve.
  intros k f _. unfold reserve. destruct (reservable id f); [|apply fence_step_refl]. unfold fence_step. simpl. done.
Qed.

Lemma count_one {A} (p : A -> bool) l : count p l = 1 -> exists x, In x l /\ p x = true.
Proof.
  unfold count. destruct (List.filter p l) as [|x l'] eqn:E; [done|]. intros _. exists x.
  rewrite <- filter_In, E. by left.
Qed.

(** The attempt of [r] is reserved at most once: its fence was open before. *)
Lemma mark_reserves now r s reserved : ledger_inv s reserved -> has_row r s -> Known r ->
  fst (mark_effect_boundary now (request_id r) s) = Ok true ->
  (forall y, typed_effect_requests s !! request_id r = Some y -> is_accepted y = false) ->
  ledger_inv (snd (mark_effect_boundary now (request_id r) s)) (reserved ++ [r]).
Proof.
  intros Hinv (y & Hy & Hd) Hk Hm Hna.
  assert (exists k f, effect_scope_fences s !! k = Some f /\ reservable (request_id r) f = true) as (k & f & Hf & Hres).
  { unfold mark_effect_boundary, transaction, mark_body, db_bind, db_get, db_mod, db_ret in Hm. simpl in Hm.
    injection Hm as Hm. apply Z.eqb_eq, count_one in Hm as ([k f] & Hin & Hp). exists k, f. split; [|done].
    by apply elem_of_map_to_list, list_elem_of_In. }
  pose proof (mark_evolves now (request_id r) s) as Hev. pose proof (evolves_inv _ _ _ Hev Hinv) as Hinv'.
  unfold reservable in Hres. bools. destruct Hres as [[[Ho Hst] Hb] Hatt]. apply String.eqb_eq in Ho, Hst. apply Z.eqb_eq in Hatt.
  split; try apply Hinv'.
  - intros r' Hr'. apply elem_of_app in Hr' as [Hr'|Hr'%list_elem_of_singleton]; [by apply Hinv'|]. subst r'.
    split; [done|]. exists y, k, (reserve now (request_id r) f). simpl. rewrite lookup_fmap, Hf. simpl.
    unfold reserve, reservable. rewrite Ho, Hst, Hb, String.eqb_refl. simpl.
    rewrite Hatt. simpl. split_and!; try done. by apply Hna.
  - rewrite map_app. simpl. apply NoDup_app. split_and!; [apply Hinv | | apply NoDup_singleton].
    intros id Hid Hr%list_elem_of_singleton. subst id. apply list_elem_of_fmap in Hid as (r' & Hr' & Hin).
    destruct (inv_reserved _ _ Hinv r' Hin) as (_ & y' & k' & f' & _ & _ & _ & Hf' & Ho' & Hc).
    assert (k = k') as <- by (eapply (inv_owner _ _ Hinv); try done; congruence). rewrite Hf in Hf'. injection Hf' as <-.
    unfold open_state in Hc. rewrite Hst in Hc. done.
Qed.

(** ** Admission *)
Lemma fence_clash_false id f s : fence_clash id f s = false ->
  effect_scope_fences s !! id = None
  /\ forall k g, effect_scope_fences s !! k = Some g ->
       f_owner g <> f_owner f /\ (forall l, f_logical f = Some l -> f_logical g <> Some l).
Proof.
  unfold fence_clash. intros Hc. apply orb_false_iff in Hc as [Hi Hc]. split.
  - apply bool_decide_eq_false in Hi. destruct (effect_scope_fences s !! id) eqn:E; [|done]. exfalso. apply Hi. by eexists.
  - intros k g Hg.
    assert (String.eqb (f_owner g) (f_owner f)
            || (bool_decide (is_Some (f_logical f)) && bool_decide (f_logical g = f_logical f)) = false) as Hn.
    { destruct (_ || _) eqn:E; [|done]. rewrite <- Hc. symmetry. apply existsb_exists. exists (k, g).
      split; [|done]. by apply list_elem_of_In, elem_of_map_to_list. }
    apply orb_false_iff in Hn as [Ho Hl]. split; [by apply String.eqb_neq|].
    intros l Hf Hg'. rewrite Hf, Hg' in Hl. by rewrite !bool_decide_eq_true_2 in Hl by (done || by eexists).
Qed.

Definition admitted (now : nat -> string) (op : string) (logical : option string) (exact : string) (r : EffectRequest)
    (s : ledger) : ledger :=
  raise_high_water now (projection_sequence r)
    (set_fences (<[exact := new_fence now op logical r]> (effect_scope_fences s))
       (set_typed (<[request_id r := new_row now op r]> (typed_effect_requests s)) s)).

Lemma admit_spec now r logical exact s a s' : admit_request now r logical exact s = Ok (a, s') ->
  exists op, operation r = Ok op /\ typed_effect_requests s !! request_id r = None
    /\ fence_clash exact (new_fence now op logical r) s = false /\ s' = admitted now op logical exact r s.
Proof.
  unfold admit_request. intros Ha. inv_db Ha. unfold insert_typed in E0. inv_db E0.
  destruct (_ || _) eqn:Ec in E0; [done|]. apply db_mod_Ok in E0. subst s0.
  unfold insert_fence in E1. inv_db E1. destruct (fence_clash _ _ _) eqn:Ef in E1; [done|]. apply db_mod_Ok in E1. subst s1.
  eexists. split_and!; try done. apply orb_false_iff in Ec as [Ec _]. apply orb_false_iff in Ec as [Ec _].
  apply bool_decide_eq_false in Ec. destruct (typed_effect_requests s !! request_id r) eqn:Et; [|done].
  exfalso. apply Ec. by eexists.
Qed.

Lemma holds_authority_raised s now z y : holds_authority s y ->
  holds_authority (raise_high_water now z s) y.
Proof. intros (a & Ha & Hp & Hg). unfold raise_high_water, holds_authority. simpl. rewrite Ha. simpl. eexists. done. Qed.

Lemma admitted_inv now op logical exact r s reserved : Known r -> ledger_inv s reserved ->
  operation r = Ok op -> request_logical_id r = Ok logical -> request_scope_id r = Ok exact ->
  typed_effect_requests s !! request_id r = None -> fence_clash exact (new_fence now op logical r) s = false ->
  holds_authority s (new_row now op r) ->
  ledger_inv (admitted now op logical exact r s) reserved.
Proof.
  intros Hk Hinv Hop Hlo Hex Hnone [Hfn Hfc]%fence_clash_false Hauth. simpl in Hfc.
  assert (forall k f, effect_scope_fences (admitted now op logical exact r s) !! k = Some f ->
            (k = exact /\ f = new_fence now op logical r)
            \/ (k <> exact /\ effect_scope_fences s !! k = Some f)) as Hf.
  { intros k f. simpl. rewrite lookup_insert_Some. naive_solver. }
  split.
  - apply Hinv.
  - intros k k' f f' [[-> ->]|[Hne Hk1]]%Hf [[-> ->]|[Hne' Hk2]]%Hf Ho; try done; simpl in *.
    + by destruct (Hfc _ _ Hk2) as [? _].
    + by destruct (Hfc _ _ Hk1) as [? _].
    + by eapply (inv_owner _ _ Hinv).
  - intros k k' f f' l [[-> ->]|[Hne Hk1]]%Hf [[-> ->]|[Hne' Hk2]]%Hf Hl Hl'; try done; simpl in *.
    + by destruct (Hfc _ _ Hk2) as [_ Hx]; destruct (Hx l).
    + by destruct (Hfc _ _ Hk1) as [_ Hx]; destruct (Hx l).
    + by eapply (inv_logical _ _ Hinv).
  - intros id y. simpl. rewrite lookup_insert_Some. intros [[<- <-]|[Hne Hy]].
    + exists exact, (new_fence now op logical r), r. rewrite lookup_insert_eq. unfold written_for. simpl. done.
    + destruct (inv_row _ _ Hinv id y Hy) as (k & f & r0 & Hkf & Hid & Hw). exists k, f, r0.
      rewrite lookup_insert_ne; [done|]. intros <-. congruence.
  - intros k f [[-> ->]|[Hne Hk1]]%Hf; simpl.
    + rewrite lookup_insert_eq. by eexists.
    + destruct (inv_fence _ _ Hinv k f Hk1) as [y Hy]. rewrite lookup_insert_ne; [by eexists|]. intros He. congruence.
  - intros k f y [[-> ->]|[Hne Hk1]]%Hf; simpl.
    + rewrite lookup_insert_eq. by intros [= <-].
    + rewrite lookup_insert_Some. intros [[He _]|[_ Hy]]; [|by apply (inv_synced _ _ Hinv k f)].
      destruct (inv_fence _ _ Hinv k f Hk1) as [y0 Hy0]. congruence.
  - intros Hst id y k f. simpl. rewrite lookup_insert_Some. intros [[<- <-]|[Hne Hy]] Hopen Hkf Ho Hb.
    + destruct (Hf k f Hkf) as [[-> ->]|[Hne Hk1]]; [|by destruct (Hfc _ _ Hk1) as [? _]].
      split; [done|]. by apply holds_authority_raised.
    + destruct (Hf k f Hkf) as [[-> ->]|[Hne' Hk1]]; [by simpl in Ho|].
      destruct (inv_free _ _ Hinv Hst id y k f) as [Hl Ha]; auto. split; [done|].
      unfold holds_authority in *. destruct Ha as (a & Ha & Hp & Hg). simpl. rewrite Ha. simpl. eexists. done.
  - intros r' Hr'. destruct (inv_reserved _ _ Hinv r' Hr') as (Hk' & y & k & f & Hy & Hd & Hac & Hkf & Ho & Hc).
    split; [done|]. exists y, k, f. simpl. rewrite !lookup_insert_ne; [done| |]; intros He; congruence.
  - apply Hinv.
Qed.

Lemma existing_row r s d p : effect_requests s = ∅ -> existing_request r s = Some (d, p) ->
  exists id y, typed_effect_requests s !! id = Some y /\ y_digest y = d /\ y_progress y = p.
Proof.
  unfold existing_request, by_id_or_key. intros -> . rewrite lookup_empty, map_to_list_empty. simpl.
  destruct (typed_effect_requests s !! request_id r) as [y|] eqn:E.
  - simpl. intros [= <- <-]. eauto.
  - destruct (List.find _ _) as [[id y]|] eqn:Ef; [|done]. simpl. intros [= <- <-].
    apply find_some in Ef as [Hin _]. exists id, y. split; [|done]. by apply elem_of_map_to_list, list_elem_of_In.
Qed.

(** A row with the digest of [r] is the row of [r]. *)
Lemma row_of_digest r s reserved id y : Known r -> ledger_inv s reserved ->
  typed_effect_requests s !! id = Some y -> y_digest y = digest r -> has_row r s.
Proof.
  intros Hk Hinv Hy Hd. destruct (inv_row _ _ Hinv id y Hy) as (k & f & r0 & _ & Hid & Hk0 & Hd0 & _).
  assert (canonical r = canonical r0) as Hc by (apply Known_digest; congruence).
  apply canonical_fields in Hc as [Hi _]. exists y. rewrite Hi, Hid. done.
Qed.

Lemma accept_cases now r s a s' : effect_requests s = ∅ -> accept_body now r s = Ok (a, s') ->
  (s' = s /\ (ac_accepted a = true -> exists p, existing_request r s = Some (digest r, p)))
  \/ exists op logical exact, operation r = Ok op /\ request_logical_id r = Ok logical /\ request_scope_id r = Ok exact
       /\ typed_effect_requests s !! request_id r = None /\ fence_clash exact (new_fence now op logical r) s = false
       /\ holds_authority s (new_row now op r) /\ s' = admitted now op logical exact r s.
Proof.
  intros Hl Ha. unfold accept_body in Ha. inv_db Ha. unfold authority in E.
  destruct (authority_table s) as [a0|] eqn:Ea; [|done]. injection E as <-.
  destruct (existing_request r s) as [[d p]|] eqn:Ee.
  { inv_db Ha. left. split; [done|]. unfold replayed. destruct (String.eqb_spec d (digest r)) as [->|]; simpl; [by eexists | done]. }
  destruct (String.eqb_spec (a_producer_id a0) (producer_id r)) as [Hp|]; simpl in Ha; [|inv_db Ha; by left].
  destruct (Z.eqb_spec (a_generation a0) (producer_generation r)) as [Hg|]; simpl in Ha; [|inv_db Ha; by left].
  inv_db Ha. destruct (existing_fence _ _ s); [inv_db Ha; by left|]. inv_db Ha.
  destruct (unresolved_rows s); [|inv_db Ha; by left]. apply admit_spec in Ha as (op & Hop & Hn & Hc & ->). right.
  exists op, v, v0. split_and!; try done. exists a0. done.
Qed.

(** What every method does: the invariant stays, and so do the rows. *)
Definition safe_at {A} (op : ledger -> res A * ledger) (s : ledger) (reserved : list EffectRequest) : Prop :=
  ledger_inv (snd (op s)) reserved /\ forall r, has_row r s -> has_row r (snd (op s)).

Lemma evolves_safe {A} (op : ledger -> res A * ledger) s reserved :
  evolves s (snd (op s)) -> ledger_inv s reserved -> safe_at op s reserved.
Proof. intros Hev Hinv. split; [by eapply evolves_inv | intros r; by apply evolves_has_row]. Qed.

Lemma admitted_has_row now op logical exact r r' s : typed_effect_requests s !! request_id r = None ->
  has_row r' s -> has_row r' (admitted now op logical exact r s).
Proof.
  intros Hn (y & Hy & Hd). exists y. simpl. rewrite lookup_insert_ne; [done|]. intros He. congruence.
Qed.

Lemma accept_safe now r s reserved : Known r -> ledger_inv s reserved -> safe_at (accept now r) s reserved
  /\ forall a, fst (accept now r s) = Ok a -> ac_accepted a = true -> has_row r (snd (accept now r s)).
Proof.
  intros Hk Hinv. unfold safe_at, accept, transaction. destruct (accept_body now r s) as [[a s']|e] eqn:E; simpl; [|done].
  apply accept_cases in E as [[-> Hacc]|(op & logical & exact & Hop & Hlo & Hex & Hn & Hc & Ha & ->)]; [| |apply Hinv].
  - split; [done|]. intros a' [= <-] Hacc'. destruct (Hacc Hacc') as [p Hp].
    destruct (existing_row _ _ _ _ (inv_legacy _ _ Hinv) Hp) as (id & y & Hy & Hd & _).
    eapply row_of_digest; try done; congruence.
  - split_and!.
    + by apply admitted_inv.
    + intros r'. by apply admitted_has_row.
    + intros _ _ _. exists (new_row now op r). simpl. by rewrite lookup_insert_eq.
Qed.

Lemma transition_safe now id expected state result scope_state s reserved :
  orderly expected state scope_state -> ledger_inv s reserved ->
  safe_at (transition now id expected state result scope_state) s reserved.
Proof. intros Ho Hinv. apply evolves_safe; [apply transition_evolves; [apply Hinv | done] | done]. Qed.

(** ** Conclusions and authority *)
Lemma closing_fence_step s f state attempts result at_ : open_state state = false ->
  fence_step s f (set_fence state true attempts result at_ f).
Proof. intros Hc. unfold fence_step. simpl. rewrite Hc. done. Qed.

Lemma transaction_safe {A} (body : Tx ledger A) s reserved : ledger_inv s reserved ->
  (forall a s', body s = Ok (a, s') -> evolves s s') -> safe_at (transaction body) s reserved.
Proof.
  intros Hinv Hb. apply evolves_safe; [|done]. unfold transaction. destruct (body s) as [[a s']|] eqn:E; simpl; [by eapply Hb | apply evolves_refl].
Qed.

(** Writing a conclusion or a retirement touches neither requests nor other fences. *)
Lemma fence_written s s1 g id : authority_table s1 = authority_table s -> effect_requests s1 = effect_requests s ->
  typed_effect_requests s1 = typed_effect_requests s ->
  (forall f, effect_scope_fences s !! id = Some f -> fence_step s f (g f)) ->
  evolves s (set_fences (alter g id (effect_scope_fences s)) s1).
Proof.
  intros Ha Hl Ht Hg. destruct (fence_evolves s g id Hg) as [_ _ _ E _]. split; simpl; [done | done | | exact E | by apply same_rows_synced].
  rewrite Ht. apply evolves_refl.
Qed.
Lemma same_tables_evolve s s1 : authority_table s1 = authority_table s -> effect_requests s1 = effect_requests s ->
  typed_effect_requests s1 = typed_effect_requests s -> effect_scope_fences s1 = effect_scope_fences s -> evolves s s1.
Proof.
  intros Ha Hl Ht Hf. split; [done | done | rewrite Ht; apply evolves_refl | rewrite Hf; apply evolves_refl |].
  unfold synced. by rewrite Ht, Hf.
Qed.

Ltac inv_unless H :=
  repeat match type of H with
  | unless ?b _ _ _ = Ok _ => let E := fresh "E" in unfold unless at 1 in H; destruct b eqn:E; [discriminate H|]; inv_db H
  end.

Lemma reconciliation_safe now rid id resolution evidence owner d s reserved :
  (strict -> resolution <> "NO_EFFECT_PROVEN") -> ledger_inv s reserved ->
  safe_at (record_reconciliation now rid id resolution evidence owner d) s reserved.
Proof.
  intros Hst Hinv. unfold record_reconciliation. destruct (negb _); [by apply evolves_safe; [apply evolves_refl|]|].
  apply transaction_safe; [done|]. intros a s' Hb. unfold reconciliation_body in Hb. inv_db Hb.
  destruct (effect_reconciliations s !! rid) as [n|].
  { inv_unless Hb. apply evolves_refl. }
  inv_db Hb. destruct (scope id s) as [f|]; [|done]. inv_unless Hb. unfold conclude in E3.
  destruct (String.eqb_spec resolution "EFFECT_OBSERVED"); [|destruct (String.eqb_spec resolution "NO_EFFECT_PROVEN")].
  - apply db_mod_Ok in E3. subst. apply (fence_written s); [reflexivity..|]. intros f' _. by apply closing_fence_step.
  - apply db_mod_Ok in E3. subst. apply (fence_written s); [reflexivity..|].
    intros f' _. unfold fence_step. simpl. split_and!; try done. intros Hs. by destruct (Hst Hs).
  - inv_db E3. by apply same_tables_evolve.
Qed.

Lemma retirement_safe now rid id evidence owner d s reserved : ledger_inv s reserved ->
  safe_at (record_target_retirement now rid id evidence owner d) s reserved.
Proof.
  intros Hinv. apply transaction_safe; [done|]. intros a s' Hb. unfold retirement_body in Hb. inv_db Hb.
  destruct (effect_scope_retirements s !! rid) as [n|].
  { inv_unless Hb. apply evolves_refl. }
  inv_db Hb. destruct (scope id s) as [f|]; [|done]. inv_unless Hb.
  destruct (retired_already id s); [done|]. inv_db Hb.
  apply (fence_written s); [reflexivity..|]. intros f' _. by apply closing_fence_step.
Qed.

Lemma fence_of_owner s reserved k f : ledger_inv s reserved -> effect_scope_fences s !! k = Some f ->
  fence_of (f_owner f) s = Some (k, f).
Proof.
  intros Hinv Hf. unfold fence_of. destruct (List.find _ _) as [[k' f']|] eqn:E.
  - apply find_some in E as [Hin He]. apply list_elem_of_In, elem_of_map_to_list in Hin. apply String.eqb_eq in He. simpl in He.
    assert (k' = k) as -> by (by eapply (inv_owner _ _ Hinv)). congruence.
  - eapply (find_none _ _) in E; [|apply list_elem_of_In, elem_of_map_to_list; exact Hf]. simpl in E. by rewrite String.eqb_refl in E.
Qed.

Lemma count_zero {A} (p : A -> bool) l x : count p l = 0 -> In x l -> p x = false.
Proof.
  unfold count. intros Hc Hin. destruct (p x) eqn:E; [|done].
  assert (In x (List.filter p l)) as Hf by (by apply filter_In). destruct (List.filter p l); simpl in *; [done | lia].
Qed.

(** Authority moves only when no request is open. *)
Lemma switch_safe now ep eg np ng s reserved : ledger_inv s reserved -> safe_at (switch_authority now ep eg np ng) s reserved.
Proof.
  intros Hinv. unfold safe_at, switch_authority, transaction. destruct (switch_body _ _ _ _ _ s) as [[h s']|] eqn:E; [|done].
  simpl. unfold switch_body in E. inv_db E. destruct (negb (_ && _)) in E; [inv_db E; done|]. inv_db E.
  destruct (negb (unresolved_count s =? 0)) eqn:Eu in E; [inv_db E; done|]. destruct (negb (0 <? ng)); [done|]. inv_db E.
  split; [|done]. split; try apply Hinv. intros Hst id y k f Hy Hopen Hf Ho Hb. exfalso.
  destruct (inv_free _ _ Hinv Hst id y k f Hy Hopen Hf Ho Hb) as [Hl _].
  apply negb_false_iff, Z.eqb_eq in Eu. unfold unresolved_count in Eu.
  assert (count (fun kv => counts s (fst kv) (y_state (snd kv))) (map_to_list (typed_effect_requests s)) = 0) as Hc.
  { unfold count in *. lia. }
  eapply count_zero in Hc; [|apply list_elem_of_In, elem_of_map_to_list; exact Hy]. simpl in Hc.
  unfold counts in Hc. rewrite <- Ho, (fence_of_owner s reserved k f Hinv Hf) in Hc. simpl in Hc. rewrite Hl, andb_true_r in Hc.
  apply orb_false_iff in Hc as [Hc _]. unfold open_state, listed in Hopen. unfold listed, PENDING in Hc. simpl in *. 
  destruct (String.eqb (y_state y) "ACCEPTED"), (String.eqb (y_state y) "EXECUTION_STARTED"); done.
Qed.

(** ** Start-up *)
Lemma evolves_trans s s1 s2 : evolves s s1 -> evolves s1 s2 -> evolves s s2.
Proof.
  intros H12 H23. split.
  - rewrite (ev_legacy _ _ H23). apply H12.
  - rewrite (ev_authority _ _ H23). apply H12.
  - intros id. pose proof (ev_typed _ _ H12 id) as Ha. pose proof (ev_typed _ _ H23 id) as Hb.
    inversion Ha as [y y1 Hy E1 E2|E1 E2]; rewrite <- E2 in Hb; inversion Hb as [y1' y2 Hy2|]; subst; constructor.
    unfold row_step in *. naive_solver congruence.
  - intros k. pose proof (ev_fences _ _ H12 k) as Ha. pose proof (ev_fences _ _ H23 k) as Hb.
    inversion Ha as [f f1 Hf E1 E2|E1 E2]; rewrite <- E2 in Hb; inversion Hb as [f1' f2 Hf2|]; subst; constructor.
    destruct Hf as (A1 & A2 & A3 & A4 & A5), Hf2 as (B1 & B2 & B3 & B4 & B5). unfold fence_step.
    split_and!; try congruence.
    + intros Ho. destruct (B4 Ho) as [Ho1|(y1 & Hy1 & Hacc)]; [by apply A4|]. right.
      destruct (typed_after _ _ _ _ H12 Hy1) as (y & Hy & Hs). exists y. rewrite <- A2. split; [done|]. by apply Hs.
    + intros Hst Hb2. destruct (B5 Hst Hb2) as [Hb1 Hr1]. destruct (A5 Hst Hb1) as [Hb0 Hr0]. auto.
  - intros Hs. apply (ev_synced _ _ H23), (ev_synced _ _ H12), Hs.
Qed.

Definition known_owner (s : ledger) (kv : string * fence_row) : Prop := is_Some (typed_effect_requests s !! f_owner (snd kv)).

Lemma backfill_one_evolves now s reserved kv : ledger_inv s reserved -> known_owner s kv -> evolves s (backfill_one now s kv).
Proof.
  destruct kv as [id f]. intros Hinv [y Hy]. simpl in Hy. unfold backfill_one.
  destruct (inv_row _ _ Hinv _ _ Hy) as (k & g & r & Hg & Hid & _ & _ & _ & _ & _ & _ & _ & Ho).
  destruct (fence_clash id f s) eqn:Ec.
  2:{ apply fence_clash_false in Ec as [_ Hc]. destruct (Hc k g Hg) as [Hne _]. congruence. }
  destruct (f_boundary f); [|apply evolves_refl]. apply fence_evolves. intros h _. unfold fence_step. simpl. split_and!; try done.
  intros Hs. left. by destruct (String.eqb (f_state h) "ACCEPTED").
Qed.

Lemma backfill_evolves now l s reserved : ledger_inv s reserved -> Forall (known_owner s) l ->
  evolves s (fold_left (backfill_one now) l s).
Proof.
  revert s. induction l as [|kv l IH]; intros s Hinv Hl; simpl; [apply evolves_refl|]. inversion Hl as [|? ? Hkv Hrest]; subst.
  pose proof (backfill_one_evolves now s reserved kv Hinv Hkv) as Hev. eapply evolves_trans; [exact Hev|]. apply IH.
  - by eapply evolves_inv.
  - eapply Forall_impl; [exact Hrest|]. intros x [y Hy]. destruct (typed_before _ _ _ _ Hev Hy) as (y' & Hy' & _). by exists y'.
Qed.

Lemma candidates_owner {A} (f : A -> res (option (string * fence_row))) (P : string * fence_row -> Prop) l out :
  (forall x kv, x ∈ l -> f x = Ok (Some kv) -> P kv) -> candidates_of f l = Ok out -> Forall P out.
Proof.
  revert out. induction l as [|x l IH]; simpl; intros out Hp Hc; [injection Hc as <-; constructor|]. inv_ok Hc.
  injection Hc as <-. assert (Forall P v0) as Hv by (apply IH; [intros; eapply Hp; [by right|done] | done]).
  destruct v as [kv|]; [|done]. constructor; [|done]. eapply Hp; [by left | done].
Qed.

Lemma typed_candidate_owner now s x kv : x ∈ map_to_list (typed_effect_requests s) -> typed_candidate now x = Ok (Some kv) ->
  known_owner s kv.
Proof.
  destruct x as [id y]. intros Hx Hc. unfold typed_candidate in Hc. apply elem_of_map_to_list in Hx.
  destruct (y_request y); try done. destruct (from_mapping d) as [r|e]; [|by destruct (skips e)]. inv_ok Hc.
  injection Hc as <-. unfold known_owner. simpl. by eexists.
Qed.

Lemma backfill_fences_safe now s reserved : ledger_inv s reserved -> evolves s (snd (_backfill_effect_scope_fences now s)).
Proof.
  intros Hinv. unfold _backfill_effect_scope_fences. rewrite (inv_legacy _ _ Hinv), map_to_list_empty. simpl.
  destruct (candidates_of _ _) as [l|e] eqn:E; [|apply evolves_refl]. simpl. eapply backfill_evolves; [exact Hinv|].
  rewrite app_nil_r. eapply candidates_owner; [|exact E]. intros x kv Hx Hc. eapply typed_candidate_owner; [|exact Hc].
  by rewrite merge_sort_Permutation in Hx.
Qed.

(** A fence on a delivery target names its generation. *)
Lemma delivery_fence_named s reserved k f : ledger_inv s reserved -> effect_scope_fences s !! k = Some f ->
  listed ["restart_ffmpeg"; "switch_stream_route"] (f_action f) = true -> is_Some (f_logical f).
Proof.
  intros Hinv Hf Hact. destruct (inv_fence _ _ Hinv k f Hf) as [y Hy].
  destruct (inv_row _ _ Hinv _ _ Hy) as (k' & f' & r & Hf' & Hid & Hk & _ & _ & _ & _ & Hlo & Hop & Ho).
  assert (k' = k) as -> by (eapply (inv_owner _ _ Hinv); try done; congruence). rewrite Hf in Hf'. injection Hf' as <-.
  assert (on_delivery r = true) as Hd.
  { unfold operation in Hop. unfold on_delivery, listed, DELIVERY_TARGET_INTENTS. simpl.
    destruct (String.eqb (intent_type r) RESTART_FFMPEG); [done|]. destruct (String.eqb (intent_type r) SWITCH_STREAM_ROUTE); [done|].
    exfalso. destruct (String.eqb (intent_type r) RECONCILE_FFMPEG); [injection Hop as Hop; by rewrite <- Hop in Hact|].
    destruct (String.eqb (intent_type r) ESCALATE_RUNTIME_RECOVERY); [injection Hop as Hop; by rewrite <- Hop in Hact | done]. }
  destruct (Known_target r Hk Hd) as [t Ht]. unfold request_logical_id in Hlo. rewrite Ht, Hd in Hlo. inv_ok Hlo.
  injection Hlo as <-. by eexists.
Qed.

Lemma planned_rows owners l plan : planned_generations owners l = Ok plan ->
  forall p, p ∈ plan -> exists f, (snd p, f) ∈ l /\ listed ["restart_ffmpeg"; "switch_stream_route"] (f_action f) = true.
Proof.
  revert owners plan. induction l as [|[id f] l IH]; intros owners plan; simpl.
  { intros [= <-] p Hp. by apply elem_of_nil in Hp. }
  assert (forall owners plan p, planned_generations owners l = Ok plan -> p ∈ plan ->
            exists g, (snd p, g) ∈ (id, f) :: l /\ listed ["restart_ffmpeg"; "switch_stream_route"] (f_action g) = true) as Hrec.
  { intros o pl p Hpl Hp. destruct (IH o pl Hpl p Hp) as (g & Hin & Hg). exists g. split; [by right | done]. }
  destruct (listed _ (f_action f)) eqn:Ea; simpl; [|intros Hpl p; by apply Hrec with owners].
  destruct (f_identity f); try (intros Hpl p; by apply Hrec with owners).
  destruct (logical_generation_scope_id _ _) as [logical|e]; [|destruct (skips e); [intros Hpl p; by apply Hrec with owners | done]].
  destruct (match owners !! logical with Some _ => _ | None => _ end); [done|]. intros Hpl. inv_ok Hpl. injection Hpl as <-.
  intros p [->|Hp]%elem_of_cons; [|by eapply Hrec]. exists f. split; [by left | done].
Qed.

Lemma name_generation_id s reserved p f : ledger_inv s reserved -> effect_scope_fences s !! (snd p) = Some f ->
  is_Some (f_logical f) -> name_generation s p = s.
Proof.
  intros _ Hf [l Hl]. unfold name_generation. destruct s as [a g y fs n i]. unfold set_fences. simpl in *. f_equal.
  apply map_eq. intros k. destruct (decide (k = snd p)) as [->|Hne].
  - rewrite lookup_alter_eq, Hf. simpl. by rewrite Hl.
  - by rewrite lookup_alter_ne.
Qed.

Lemma backfill_generations_id s reserved : ledger_inv s reserved -> snd (_backfill_logical_generation_scopes s) = s.
Proof.
  intros Hinv. unfold _backfill_logical_generation_scopes. destruct (planned_generations _ _) as [plan|e] eqn:E; [|done]. simpl.
  pose proof (planned_rows _ _ _ E) as Hp. clear E. induction plan as [|p plan IH]; [done|]. simpl.
  assert (name_generation s p = s) as ->.
  { destruct (Hp p ltac:(by left)) as (f & Hin & Ha). unfold fence_rows in Hin. rewrite merge_sort_Permutation in Hin.
    apply elem_of_map_to_list in Hin. eapply name_generation_id; [done | done |]. by eapply delivery_fence_named. }
  apply IH. intros q Hq. apply Hp. by right.
Qed.

Lemma fence_unknown_owner s at_ f : f_owner (fence_unknown s at_ f) = f_owner f.
Proof. unfold fence_unknown. by destruct (_ && _). Qed.

(** A fence left open by the repair has a request the repair did not touch. *)
Lemma fence_unknown_open s at_ f y : typed_effect_requests s !! f_owner f = Some y ->
  open_state (f_state (fence_unknown s at_ f)) = true -> y_state y <> "OUTCOME_UNKNOWN" /\ open_state (f_state f) = true.
Proof.
  intros Hy. unfold fence_unknown, outcome_unknown, open_state, listed. rewrite Hy. simpl.
  destruct (String.eqb_spec (y_state y) "OUTCOME_UNKNOWN"); simpl.
  - destruct (String.eqb (f_state f) "ACCEPTED") eqn:E1; simpl; [done|].
    destruct (String.eqb (f_state f) "EXECUTION_STARTED") eqn:E2; simpl; [done|].
    destruct (String.eqb (f_state f) "EFFECT_BOUNDARY_REACHED") eqn:E3; simpl; [done|]. by rewrite E1, E2.
  - destruct (_ && _); simpl; [done|]. done.
Qed.

Lemma unknown_if_started_state at_ p : p_state (unknown_if_started at_ p) =
  if String.eqb (p_state p) "EXECUTION_STARTED" then "OUTCOME_UNKNOWN" else p_state p.
Proof. unfold unknown_if_started. by destruct (String.eqb _ _). Qed.

Lemma reconcile_started_evolves now s : effect_requests s = ∅ -> evolves s (snd (reconcile_started now s)).
Proof.
  intros Hl. unfold reconcile_started, transaction, reconcile_started_body, db_bind, db_get, db_mod, db_ret. simpl.
  set (s1 := set_typed _ _). split; simpl; [by rewrite Hl, fmap_empty | done | | |].
  - intros id. rewrite lookup_fmap. destruct (typed_effect_requests s !! id) as [y|]; simpl; constructor.
    unfold row_step, is_accepted, y_state, set_progress. simpl. rewrite unknown_if_started_state.
    by destruct (String.eqb _ "EXECUTION_STARTED").
  - intros k. rewrite lookup_fmap. destruct (effect_scope_fences s !! k) as [f|]; simpl; constructor.
    unfold fence_unknown. destruct (_ && _); [|apply fence_step_refl]. unfold fence_step. simpl. done.
  - intros Hs k f' y'. simpl. rewrite lookup_fmap. destruct (effect_scope_fences s !! k) as [f|] eqn:Ef; [|done]. simpl.
    intros [= <-]. rewrite fence_unknown_owner. intros Hy' Ho. pose proof Hy' as Hy. rewrite lookup_fmap in Hy.
    destruct (typed_effect_requests s !! f_owner f) as [y|] eqn:Ey; [|done]. simpl in Hy. injection Hy as <-.
    apply (fence_unknown_open s1 _ f _ Hy') in Ho as [Hne Ho]. revert Hne. unfold y_state, set_progress. simpl.
    rewrite unknown_if_started_state. destruct (String.eqb _ "EXECUTION_STARTED"); [done|]. intros _. by apply (Hs k f y).
Qed.

Lemma initial_authority_inv now producer generation s reserved : ledger_inv s reserved ->
  ledger_inv (initial_authority now producer generation s) reserved.
Proof.
  intros Hinv. unfold initial_authority. destruct (authority_table s) eqn:Ea; [done|]. destruct (0 <? generation); [|done].
  split; try apply Hinv. intros Hst id y k f Hy Ho Hf Hid Hb.
  destruct (inv_free _ _ Hinv Hst id y k f) as (_ & a & Ha & _); try done. congruence.
Qed.

Lemma open_ledger_safe now1 now2 now3 producer generation s reserved : ledger_inv s reserved ->
  ledger_inv (snd (open_ledger now1 now2 now3 producer generation s)) reserved.
Proof.
  intros Hinv. unfold open_ledger. apply (initial_authority_inv now1 producer generation) in Hinv.
  set (s0 := initial_authority now1 producer generation s) in *.
  pose proof (evolves_inv _ _ _ (backfill_fences_safe now2 s0 reserved Hinv) Hinv) as H1'.
  destruct (_backfill_effect_scope_fences now2 s0) as [[] s1]; simpl in H1'; [|done].
  pose proof (backfill_generations_id s1 reserved H1') as Hid. destruct (_backfill_logical_generation_scopes s1) as [[] s2]; simpl in Hid; subst; [|done].
  destruct (generations_unique s1); [|done]. pose proof (reconcile_started_evolves now3 s1 (inv_legacy _ _ H1')) as Hev.
  destruct (reconcile_started now3 s1) as [n s2]. simpl in *. by eapply evolves_inv.
Qed.
End Inv.
