(* ===== verification/EffectExecutor.v ===== *)
(** * The effect executor

    Models [EffectExecutorServer] of src/src/runtime_boundary/server.py: one
    connection from the peer check to the response, the workers that finish an
    effect, and the process around them.  A run is sequential where the code is
    (one listener thread); between two ledger calls of a connection a [tick] lets
    workers finish, a storage fault hit the call, or the process die. *)
From S2P Require Import Prelude PyVal UtcTime FastPolicy EffectContract EffectModel EffectLedger EffectReconcile.

(** What a raised exception is to the handlers: [OutcomeUnknown] and
    [EffectRejected] are [RuntimeError]s of their own, every other one is Python's. *)
Inductive failure : Type :=
  | OutcomeUnknown (reason : string) (result : dict)
  | EffectRejected (reason : string)
  | PyExn (e : exn).

(** [self.result = dict(result or {}); self.result["reason"] = reason] *)
Definition unknown_result (reason : string) (result : dict) : dict := dict_set "reason" (VStr reason) result.

(** A worker that finishes: its request, what [perform_effect] did, whether the
    store failed when the outcome was written, the clock texts. *)
Record completion : Type := mkCompletion {
  k_request : string; k_effect : dict + failure; k_fault : bool; k_now : nat -> string }.

Record tick : Type := mkTick { k_finished : list completion; k_weather : weather }.

(** The trace holds every call of [perform_effect] with the authority in the
    ledger at that moment, the latest last. *)
Record world : Type := mkWorld {
  w_ledger : ledger; w_workers : list (EffectRequest * bool); w_trace : list (EffectRequest * option authority_row);
  w_script : list tick; w_alive : bool }.

Definition with_ledger (s : ledger) (w : world) : world := mkWorld s (w_workers w) (w_trace w) (w_script w) (w_alive w).
Definition with_workers (l : list (EffectRequest * bool)) (w : world) : world :=
  mkWorld (w_ledger w) l (w_trace w) (w_script w) (w_alive w).
Definition with_script (l : list tick) (w : world) : world :=
  mkWorld (w_ledger w) (w_workers w) (w_trace w) l (w_alive w).
Definition invoked (r : EffectRequest) (w : world) : world :=
  mkWorld (w_ledger w) (w_workers w) (w_trace w ++ [(r, authority_table (w_ledger w))]) (w_script w) (w_alive w).
(** The process is gone, and its workers with it. *)
Definition killed (w : world) : world := mkWorld (w_ledger w) [] (w_trace w) [] false.

(** ** Programs of the executor *)
Notation X := (Exec world failure).
Definition xlift {A} (m : res A) : X A := match m with Ok a => xret a | Err e => xraise (PyExn e) end.
Definition xsum {A} (m : failure + A) : X A := match m with inl f => xraise f | inr a => xret a end.

#[global] Open Scope x_scope.

Record config : Type := mkConfig {
  allowed_peer_uids : list Z; allowed_intents : list string; execute_async : bool;
  require_transport_verification : bool; has_authorizer : bool; has_before_effect : bool; has_handoff : bool }.

(** What one connection reads from its surroundings. [n_k i] are the clock texts
    of its [i]-th ledger method. *)
Record readings : Type := mkReadings {
  n_issue : Q; n_expiry : Q; n_evidence : Q; n_samples : nat -> Q;
  n_target : failure + dict; n_revalidated : failure + dict;
  n_grant : failure + string; n_grant_again : failure + string;
  n_before_fails : bool; n_effect : failure + dict; n_spawn : res unit;
  n_handoff : failure + (string * Z * string * Z); n_k : nat -> nat -> string }.

Section Executor.
Context `{Repr} `{FromIso} `{JsonSha} `{JcsSha}.
Variable cf : config.

Definition awaiting (r : EffectRequest) : string :=
  if require_transport_verification cf && on_delivery r then "EFFECT_OBSERVED_AWAITING_VERIFICATION" else "EFFECT_OBSERVED".

Definition audited (hook_failed : bool) (result : dict) : dict :=
  if hook_failed
  then dict_set "production_behavior_modified_by_audit" (VBool false) (dict_set "audit_hook_failure" (VBool true) result)
  else result.

(** The state, the result and the fence state a finished effect leaves. *)
Definition effect_conclusion (r : EffectRequest) (hook_failed : bool) (o : dict + failure) : string * dict * option string :=
  match o with
  | inl result => ("EFFECT_OBSERVED", audited hook_failed result, Some (awaiting r))
  | inr (OutcomeUnknown reason result) => ("OUTCOME_UNKNOWN", unknown_result reason result, None)
  | inr (EffectRejected reason) => ("EFFECT_FAILED", [("reason", VStr reason); ("physical_effect_count", VInt 0)], None)
  | inr (PyExn e) => ("OUTCOME_UNKNOWN", [("reason", VStr "EXECUTOR_INTERNAL_ERROR"); ("error_type", VStr (exn_name e))], None)
  end.

(** [_complete_effect] after [perform_effect] came back. *)
Definition _complete_effect (c : completion) (r : EffectRequest) (hook_failed : bool) (s : ledger) : ledger :=
  let '(state, result, scope_state) := effect_conclusion r hook_failed (k_effect c) in
  if k_fault c then s
  else snd (transition (k_now c) (request_id r) "EXECUTION_STARTED" state (Some (VDict result)) scope_state s).

Fixpoint take_worker (id : string) (l : list (EffectRequest * bool)) : option ((EffectRequest * bool) * list (EffectRequest * bool)) :=
  match l with
  | [] => None
  | x :: l' =>
      if String.eqb (request_id (fst x)) id then Some (x, l')
      else option_map (fun '(y, rest) => (y, x :: rest)) (take_worker id l')
  end.

Definition finish_worker (w : world) (c : completion) : world :=
  match take_worker (k_request c) (w_workers w) with
  | Some ((r, hook_failed), rest) => with_ledger (_complete_effect c r hook_failed (w_ledger w)) (with_workers rest w)
  | None => w
  end.
Definition finish_workers (l : list completion) (w : world) : world := fold_left finish_worker l w.

(** A point where the rest of the process can act. *)
Definition next_tick (w : world) : weather * world :=
  match w_script w with
  | [] => (Calm, w)
  | t :: script => (k_weather t, finish_workers (k_finished t) (with_script script w))
  end.

(** A ledger method: one transaction, or a storage fault that left the tables alone. *)
Definition call {A} (op : ledger -> res A * ledger) : X A := fun w =>
  match next_tick w with
  | (Death, w') => (Dead, killed w')
  | (Fault, w') => (Raised (PyExn (EOS "OperationalError")), w')
  | (Calm, w') =>
      match op (w_ledger w') with
      | (Ok a, s) => (Done a, with_ledger s w')
      | (Err e, s) => (Raised (PyExn e), with_ledger s w')
      end
  end.
Definition read {A} (f : ledger -> res A) : X A := call (fun s => (f s, s)).

(** The process can also die between the reservation and the effect. *)
Definition point : X unit := fun w =>
  match next_tick w with
  | (Death, w') => (Dead, killed w')
  | (_, w') => (Done tt, w')
  end.
Definition invoke (r : EffectRequest) : X unit := fun w => (Done tt, invoked r w).

Definition authority_dict (a : authority_row) : dict :=
  [("singleton", VInt 1); ("producer_id", VStr (a_producer_id a)); ("producer_generation", VInt (a_generation a));
   ("authority_version", VInt (a_version a)); ("projection_high_water", VInt (a_high_water a));
   ("updated_at", VStr (a_updated_at a))].

Definition no_retry (state reason : string) : pyval :=
  if String.eqb state "OUTCOME_UNKNOWN" || listed ["LOGICAL_GENERATION_PID_INVARIANT_BROKEN"; "TARGET_EFFECT_UNRESOLVED"] reason
  then VBool false else VNone.

Definition _response (ok : bool) (reason state : string) (r : option EffectRequest) (replay : bool) (result : pyval) : X dict :=
  bind! active := xtry (bind! a := read authority in xret (authority_dict a)) (fun _ => xret []) in
  bind! in_flight := xtry (read (fun s => Ok (unresolved_count s))) (fun _ => xret (-1)) in
  let field (f : EffectRequest -> string) := VStr (match r with Some q => f q | None => "" end) in
  xret [("schema_version", VStr "runtime.effect_response.v1"); ("ok", VBool ok); ("reason", VStr reason); ("state", VStr state);
        ("request_id", field request_id); ("correlation_id", field correlation_id); ("intent_type", field intent_type);
        ("replay", VBool replay); ("result", result); ("active_authority", VDict active); ("in_flight_count", VInt in_flight);
        ("automatic_retry", no_retry state reason)].

Definition _identity_mismatch (r : EffectRequest) (current : dict) : string :=
  let executor := if String.eqb (str0 current "executor_instance_id") (expected_executor_instance_id r) then "" else "EXECUTOR_INSTANCE_DRIFT" in
  if on_delivery r then
    if negb (py_eq (current_target_of current) (opt_dict target_dict (ffmpeg_target_identity r))) then "TARGET_IDENTITY_DRIFT"
    else if negb (String.eqb (str0 current "ffmpeg_generation") (expected_ffmpeg_generation r)) then "FFMPEG_GENERATION_DRIFT"
    else if String.eqb (intent_type r) SWITCH_STREAM_ROUTE
            && negb (py_eq (dget current "route" VNone) (from_option (fun rt => VStr (from_route rt)) VNone (route_transition r))
                     && py_eq (dget current "route_generation" VNone)
                          (from_option (fun rt => VInt (expected_route_generation rt)) VNone (route_transition r)))
    then "STREAM_ROUTE_GENERATION_DRIFT" else executor
  else if negb (py_eq (dget current "runtime_identity" VNone) (opt_dict runtime_dict (runtime_identity r))) then "RUNTIME_IDENTITY_DRIFT"
  else executor.

Definition _safe_transition (now : nat -> string) (id state : string) (result : dict) (scope_state : option string) : X bool :=
  xtry (call (transition now id "EXECUTION_STARTED" state (Some (VDict result)) scope_state)) (fun _ => xret false).

(** The error a route authorizer answers, "" for none. *)
Definition grant_error (answer : failure + string) (r : EffectRequest) : X string :=
  if negb (String.eqb (intent_type r) SWITCH_STREAM_ROUTE) then xret ""
  else if has_authorizer cf then xsum answer else xret "OPERATOR_ROUTE_GRANT_REQUIRED".

Definition refuse (reason : string) (r : EffectRequest) : X dict := _response false reason "REJECTED" (Some r) false VNone.

Variable rd : readings.

(** After the reservation: the effect itself. *)
Definition perform_sync (r : EffectRequest) (hook_failed : bool) : X dict :=
  bind! _ := invoke r in
  bind! raw := xsum (n_effect rd) in
  let result := audited hook_failed raw in
  bind! persisted := _safe_transition (n_k rd 3%nat) (request_id r) "EFFECT_OBSERVED" result (Some (awaiting r)) in
  if persisted : bool then _response true "EFFECT_OBSERVED" "EFFECT_OBSERVED" (Some r) false (VDict result)
  else _response false "EFFECT_RESULT_PERSISTENCE_FAILED" "OUTCOME_UNKNOWN" (Some r) false
         (VDict (dict_set "result_persisted" (VBool false) result)).

(** A thread whose next action is the effect.  The effect counts from here: a process that
    dies before the thread has run counts one more than it performed, never one less. *)
Definition _start_effect_worker (r : EffectRequest) (hook_failed : bool) : X unit := fun w =>
  match n_spawn rd with
  | Err e => (Raised (PyExn e), w)
  | Ok _ => (Done tt, with_workers (w_workers w ++ [(r, hook_failed)]) (invoked r w))
  end.

Definition perform (r : EffectRequest) (hook_failed : bool) : X dict :=
  bind! _ := point in
  if execute_async cf then
    bind! _ := _start_effect_worker r hook_failed in
    _response true "EFFECT_ACCEPTED_EXECUTION_STARTED" "EXECUTION_STARTED" (Some r) false
      (VDict [("execution_async", VBool true); ("effect_result_pending", VBool true)])
  else perform_sync r hook_failed.

Definition reservation_failed : string := "EFFECT_SCOPE_BOUNDARY_RESERVATION_FAILED".

(** The second checks and the reservation of the one attempt. *)
Definition start_effect (r : EffectRequest) (replay : bool) : X dict :=
  bind! current := xsum (n_revalidated rd) in
  let drift := _identity_mismatch r current in
  if negb (String.eqb drift "") then
    let result := [("reason", VStr "EFFECT_BOUNDARY_IDENTITY_DRIFT"); ("identity_mismatch", VStr drift); ("physical_effect_count", VInt 0)] in
    bind! _ := _safe_transition (n_k rd 3%nat) (request_id r) "EFFECT_FAILED" result None in
    _response false "EFFECT_BOUNDARY_IDENTITY_DRIFT" "EFFECT_FAILED" (Some r) replay (VDict result)
  else
  bind! denied := grant_error (n_grant_again rd) r in
  if negb (String.eqb denied "") then
    bind! _ := _safe_transition (n_k rd 3%nat) (request_id r) "EFFECT_FAILED" [("reason", VStr denied); ("physical_effect_count", VInt 0)] None in
    _response false denied "EFFECT_FAILED" (Some r) false VNone
  else
  bind! reserved := call (mark_effect_boundary (n_k rd 2%nat) (request_id r)) in
  if negb reserved then
    bind! _ := _safe_transition (n_k rd 3%nat) (request_id r) "OUTCOME_UNKNOWN" [("reason", VStr reservation_failed)] None in
    _response false reservation_failed "OUTCOME_UNKNOWN" (Some r) false VNone
  else perform r (has_before_effect cf && n_before_fails rd).

(** The first checks, admission, and the move to EXECUTION_STARTED. *)
Definition execute_request (r : EffectRequest) : X dict :=
  if negb (listed (allowed_intents cf) (intent_type r)) then refuse "INTENT_NOT_OWNED_BY_EXECUTOR" r else
  bind! denied := grant_error (n_grant rd) r in
  if negb (String.eqb denied "") then refuse denied r else
  bind! issued := xlift (parse_utc (issued_at r)) in
  if Qltb (n_issue rd) issued then refuse "REQUEST_ISSUED_IN_FUTURE" r else
  bind! expires := xlift (parse_utc (expires_at r)) in
  if Qleb expires (n_expiry rd) then refuse "REQUEST_EXPIRED" r else
  bind! current := xsum (n_target rd) in
  let drift := _identity_mismatch r current in
  if negb (String.eqb drift "") then refuse drift r else
  bind! accepted := call (accept (n_k rd 0%nat) r) in
  if negb (ac_accepted accepted) then
    _response false (ac_reason accepted) (ac_state accepted) (Some r) (ac_replay accepted) (from_option id VNone (ac_result accepted))
  else
  bind! started := call (transition (n_k rd 1%nat) (request_id r) "ACCEPTED" "EXECUTION_STARTED" None None) in
  if negb started then _response false "EXECUTION_START_TRANSITION_FAILED" "OUTCOME_UNKNOWN" (Some r) false VNone
  else start_effect r (ac_replay accepted).

Definition value_error_text (e : exn) : option string :=
  match e with EValue m => Some m | EObservation m => Some m | EClock m => Some m | _ => None end.

(** The [except] clauses. *)
Definition handle_failure (r : option EffectRequest) (f : failure) : X dict :=
  let record state result :=
    match r with
    | Some q => bind! _ := _safe_transition (n_k rd 4%nat) (request_id q) state result None in xret tt
    | None => xret tt
    end in
  match f with
  | OutcomeUnknown reason result =>
      let result := unknown_result reason result in
      bind! _ := record "OUTCOME_UNKNOWN" result in
      _response false "OUTCOME_UNKNOWN" "OUTCOME_UNKNOWN" r false (VDict result)
  | EffectRejected reason =>
      let result := [("reason", VStr reason); ("physical_effect_count", VInt 0)] in
      bind! _ := record "EFFECT_FAILED" result in
      _response false reason "EFFECT_FAILED" r false (VDict result)
  | PyExn e =>
      match value_error_text e with
      | Some m => _response false m "REJECTED" r false VNone
      | None =>
          bind! _ := record "OUTCOME_UNKNOWN" [("error_type", VStr (exn_name e))] in
          _response false "EXECUTOR_INTERNAL_ERROR" "OUTCOME_UNKNOWN" r false VNone
      end
  end.

(** ** Queries *)
Definition fence_dict (kv : string * fence_row) : pyval :=
  let '(id, f) := kv in
  VDict [("effect_scope_id", VStr id); ("logical_generation_scope_id", from_option VStr VNone (f_logical f));
         ("action", VStr (f_action f)); ("owner_request_id", VStr (f_owner f)); ("owner_request_digest", VStr (f_owner_digest f));
         ("state", VStr (f_state f)); ("effect_boundary_reached", VInt (Z.b2z (f_boundary f)));
         ("physical_attempt_count", VInt (f_attempts f)); ("created_at", VStr (f_created_at f));
         ("updated_at", VStr (f_updated_at f)); ("identity", f_identity f)].

Definition unresolved_answer (value : dict) : X dict :=
  bind! _ := xlift (require (exact_keys ["schema_version"] value) "UNRESOLVED_QUERY_FIELDS_NOT_EXACT") in
  bind! scopes := read (fun s => Ok (unresolved_rows s)) in
  bind! active := read authority in
  xret [("schema_version", VStr "runtime.effect_unresolved_response.v1"); ("ok", VBool true);
        ("reason", VStr "UNRESOLVED_SCOPES_READ"); ("unresolved_count", VInt (Z.of_nat (length scopes)));
        ("unresolved_scopes", VList (map fence_dict scopes)); ("active_authority", VDict (authority_dict active));
        ("automatic_retry", match scopes with [] => VNone | _ => VBool false end)].

Definition status_dict (st : status) : dict :=
  [("request_id", VStr (st_request st)); ("state", VStr (st_state st)); ("result", from_option id VNone (st_result st));
   ("effect_scope_id", VStr (st_scope st)); ("effect_scope_state", VStr (st_scope_state st));
   ("effect_boundary_reached", VBool (st_boundary st)); ("physical_attempt_count", VInt (st_attempts st))].
Definition missing_status (id : string) : dict := status_dict (mkStatus id "UNKNOWN" None "" "UNKNOWN" false 0).
Definition status_retry (st : status) : pyval :=
  if listed ["EXECUTION_STARTED"; "OUTCOME_UNKNOWN"] (st_state st)
     || String.eqb (st_scope_state st) "EFFECT_OBSERVED_AWAITING_VERIFICATION" then VBool false else VNone.

Definition query_id (value : dict) (field exact invalid : string) : res string :=
  let! _ := require (exact_keys ["schema_version"; field] value) exact in
  let id := text_of value field in
  let! _ := require (negb (String.eqb id "") && (slen id <=? 256)) invalid in Ok id.

Definition status_answer (value : dict) : X dict :=
  bind! id := xlift (query_id value "request_id" "REQUEST_STATUS_QUERY_FIELDS_NOT_EXACT" "REQUEST_STATUS_QUERY_ID_INVALID") in
  bind! found := read (fun s => Ok (request_status id s)) in
  let head ok reason := [("schema_version", VStr "runtime.effect_request_status_response.v1"); ("ok", VBool ok); ("reason", VStr reason)] in
  xret match found with
       | None => head false "REQUEST_NOT_FOUND" ++ missing_status id ++ [("automatic_retry", VNone)]
       | Some st => head true "REQUEST_STATUS_READ" ++ status_dict st ++ [("automatic_retry", status_retry st)]
       end.

Definition correlation_answer (value : dict) : X dict :=
  bind! id := xlift (query_id value "correlation_id" "CORRELATION_STATUS_QUERY_FIELDS_NOT_EXACT" "CORRELATION_STATUS_QUERY_ID_INVALID") in
  bind! (n, found) := read (fun s => Ok (request_status_by_correlation id s)) in
  let head ok reason :=
    [("schema_version", VStr "runtime.effect_correlation_status_response.v1"); ("ok", VBool ok); ("reason", VStr reason);
     ("correlation_id", VStr id); ("matching_count", VInt n)] in
  match n =? 1, found with
  | true, Some st => xret (head true "CORRELATION_STATUS_READ" ++ status_dict st ++ [("automatic_retry", status_retry st)])
  | true, None => xraise (PyExn (ERuntime "CORRELATION_REQUEST_STATUS_MISSING"))
  | false, _ => xret (head false (if n =? 0 then "CORRELATION_NOT_FOUND" else "CORRELATION_AMBIGUOUS")
                      ++ missing_status "" ++ [("automatic_retry", VNone)])
  end.

(** ** Reconciliation and handoff *)
Definition conclusion_dict (c : conclusion) : dict :=
  [("recorded", VBool true); ("replay", VBool (cn_replay c)); ("reconciliation_id", VStr (cn_reconciliation_id c));
   ("effect_scope_id", VStr (cn_scope c)); ("resolution", VStr (cn_resolution c)); ("evidence_digest", VStr (cn_digest c))].

Definition record_conclusion (x : reconcile_text) (e : dict) : X conclusion :=
  if observed_resolution x
  then call (record_reconciliation (n_k rd 5%nat) (x_id x) (x_scope x) (x_resolution x) e (Some (x_owner x)) (Some (x_digest x)))
  else call (record_target_retirement (n_k rd 5%nat) (x_id x) (x_scope x) e (x_owner x) (x_digest x)).

Definition _reconcile (value : dict) : X dict :=
  bind! (x, e) := xlift (reconcile_envelope value) in
  let observed := observed_resolution x in
  bind! (observed_at, before, after) := xlift (evidence_head observed e (n_evidence rd)) in
  bind! fence := read (fun s => Ok (scope (x_scope x) s)) in
  bind! _ := xlift (check_bound fence before) in
  bind! current := xsum (n_target rd) in
  bind! _ := xlift (check_current current after) in
  bind! _ := xlift (evidence_tail observed e observed_at (n_samples rd) before after) in
  bind! c := record_conclusion x e in
  bind! active := read authority in
  bind! in_flight := read (fun s => Ok (unresolved_count s)) in
  bind! again := read (fun s => Ok (unresolved_count s)) in
  xret ([("schema_version", VStr "runtime.effect_reconciliation_response.v1"); ("ok", VBool true);
         ("reason", VStr "EFFECT_SCOPE_RECONCILED");
         ("state", VStr (if observed then "RECONCILED_EFFECT_OBSERVED" else "RETIRED_TARGET_OUTCOME_UNKNOWN"))]
        ++ conclusion_dict c
        ++ [("active_authority", VDict (authority_dict active)); ("in_flight_count", VInt in_flight);
            ("automatic_retry", if negb (again =? 0) then VBool false else VNone)]).

(** [operator_handoff] (stream_core/runtime_boundary_entrypoint.py): the checks of
    the grant are the reading [n_handoff]; a handoff it allows is one ledger method. *)
Definition handoff_answer : X dict :=
  bind! (expected_producer, expected_generation, new_producer, new_generation) := xsum (n_handoff rd) in
  bind! h := call (switch_authority (n_k rd 6%nat) expected_producer expected_generation new_producer new_generation) in
  xret [("schema_version", VStr "runtime.operator_authority_handoff_response.v1"); ("accepted", VBool (h_accepted h));
        ("reason", VStr (h_reason h)); ("producer_id", VStr (h_producer h)); ("producer_generation", VInt (h_generation h));
        ("authority_version", VInt (h_version h))].

(** ** One connection

    The bytes of a request: too many, not JSON, or a value. *)
Inductive incoming : Type := TooLarge | NotJson (e : exn) | Decoded (v : pyval).

(** [except ... as exc] around a body, with the request it had parsed. *)
Definition guarded (r : option EffectRequest) (m : X dict) : X dict := xtry m (handle_failure r).

Definition dispatch (uid : Z) (value : dict) : X dict :=
  let schema := str0 value "schema_version" in
  if String.eqb schema "runtime.operator_authority_handoff.v1" then
    if negb (uid =? 0) || negb (has_handoff cf)
    then _response false "OPERATOR_HANDOFF_UNAUTHORIZED" "REJECTED" None false VNone
    else guarded None handoff_answer
  else if String.eqb schema "runtime.effect_unresolved_query.v1" then guarded None (unresolved_answer value)
  else if String.eqb schema "runtime.effect_correlation_status_query.v1" then guarded None (correlation_answer value)
  else if String.eqb schema "runtime.effect_request_status_query.v1" then guarded None (status_answer value)
  else if String.eqb schema "runtime.effect_reconciliation_request.v1" then guarded None (_reconcile value)
  else
    match from_mapping value with
    | Err e => handle_failure None (PyExn e)
    | Ok r => guarded (Some r) (execute_request r)
    end.

Definition _handle_connection (uid : Z) (input : incoming) : X dict :=
  if negb (bool_decide (uid ∈ allowed_peer_uids cf))
  then _response false "PEER_UID_UNAUTHORIZED" "REJECTED" None false VNone else
  match input with
  | TooLarge => _response false "REQUEST_TOO_LARGE" "REJECTED" None false VNone
  | NotJson e => handle_failure None (PyExn e)
  | Decoded (VDict value) => dispatch uid value
  | Decoded _ => handle_failure None (PyExn (EValue "REQUEST_NOT_OBJECT"))
  end.
End Executor.

(** ** Runs of the process

    [Restart] is a new process on the same ledger file; nothing else happens while
    the process is dead.  The last three steps are ledger methods called by the
    rest of the program. *)
Inductive step : Type :=
  | Connect (uid : Z) (input : incoming) (rd : readings) (script : list tick)
  | WorkerDone (c : completion)
  | Kill
  | Restart (now1 now2 now3 : nat -> string) (producer : string) (generation : Z)
  | Reconciled (now : nat -> string) (rid scope_id resolution : string) (evidence : dict) (owner owner_digest : option string)
  | Retired (now : nat -> string) (rid scope_id : string) (evidence : dict) (owner owner_digest : string)
  | HandedOver (now : nat -> string) (expected_producer : string) (expected_generation : Z) (new_producer : string) (new_generation : Z).

Section Run.
Context `{Repr} `{FromIso} `{JsonSha} `{JcsSha}.
Variable cf : config.

Definition on_ledger {A} (op : ledger -> res A * ledger) (w : world) : world := with_ledger (snd (op (w_ledger w))) w.

Definition restarted (m : res unit * ledger) (w : world) : world :=
  mkWorld (snd m) [] (w_trace w) [] (is_ok (fst m)).

Definition live_step (st : step) (w : world) : world :=
  match st with
  | Connect uid input rd script => with_script [] (snd (_handle_connection cf rd uid input (with_script script w)))
  | WorkerDone c => finish_worker cf w c
  | Kill => killed w
  | Restart now1 now2 now3 producer generation =>
      restarted (open_ledger now1 now2 now3 producer generation (w_ledger w)) w
  | Reconciled now rid id resolution e owner d => on_ledger (record_reconciliation now rid id resolution e owner d) w
  | Retired now rid id e owner d => on_ledger (record_target_retirement now rid id e owner d) w
  | HandedOver now ep eg np ng => on_ledger (switch_authority now ep eg np ng) w
  end.

Definition run_step (st : step) (w : world) : world :=
  match st with
  | Restart _ _ _ _ _ => live_step st w
  | _ => if w_alive w then live_step st w else w
  end.
Definition run (steps : list step) (w : world) : world := fold_left (fun w st => run_step st w) steps w.

Definition cold_start : world := mkWorld empty_ledger [] [] [] false.
End Run.
