(* ===== verification/EffectExecutorProofs.v ===== *)
(** * Correctness of the effect executor

    A Hoare logic for the executor's monad, the invariant of a run under storage
    faults, worker interleavings and process death, and what follows from it. *)
From stdpp Require Import sorting.
From S2P Require Import Prelude PyVal UtcTime FastPolicy EffectContract EffectModel EffectLedger EffectReconcile EffectLedgerProofs EffectExecutor.

#[local] Arguments listed : simpl never.

(** The producer of a request holds the authority read when its effect began. *)
Definition under_authority (x : EffectRequest * option authority_row) : Prop :=
  exists a, snd x = Some a /\ a_producer_id a = producer_id (fst x) /\ a_generation a = producer_generation (fst x).

Section Logic.
Context `{Repr} `{FromIso} `{JsonSha} `{JcsSha}.
Variable Known : EffectRequest -> Prop.
Hypothesis Known_target : forall r, Known r -> on_delivery r = true -> is_Some (ffmpeg_target_identity r).
Hypothesis Known_digest : forall r r', Known r -> Known r' -> digest r = digest r' -> canonical r = canonical r'.
Variable strict : Prop.
Variable cf : config.

Notation ledger_inv := (ledger_inv Known strict).
Notation evolves := (evolves strict).

Definition traced (w : world) : list EffectRequest := map fst (w_trace w).
Definition Inv (w : world) : Prop :=
  ledger_inv (w_ledger w) (traced w) /\ (strict -> Forall under_authority (w_trace w)).

(** The request [r] has its row; its row left ACCEPTED; its attempt is reserved. *)
Definition HasRow (r : EffectRequest) (w : world) : Prop := Inv w /\ has_row r (w_ledger w).
Definition Started (r : EffectRequest) (w : world) : Prop :=
  HasRow r w /\ forall y, typed_effect_requests (w_ledger w) !! request_id r = Some y -> is_accepted y = false.
Definition Reserved (r : EffectRequest) (w : world) : Prop :=
  ledger_inv (w_ledger w) (traced w ++ [r]) /\ (strict -> Forall under_authority (w_trace w))
  /\ (strict -> under_authority (r, authority_table (w_ledger w))).

Lemma ledger_inv_prefix s l r : ledger_inv s (l ++ [r]) -> ledger_inv s l.
Proof.
  intros Hi. split; try apply Hi.
  - intros r' Hr'. apply Hi. apply elem_of_app. by left.
  - pose proof (inv_once _ _ _ _ Hi) as Hn. rewrite map_app in Hn. by apply NoDup_app in Hn as [? _].
Qed.

(** Facts about the tables that interference keeps. *)
Record lasting (P : world -> Prop) : Prop := {
  lasting_inv : forall w, P w -> Inv w;
  lasting_ev : forall w w', P w -> evolves (w_ledger w) (w_ledger w') -> w_trace w' = w_trace w -> P w' }.

Lemma Inv_lasting : lasting Inv.
Proof.
  split; [done|]. intros w w' [Hi Ht] Hev Htr. split; [|by rewrite Htr]. unfold traced. rewrite Htr. by eapply evolves_inv.
Qed.
Lemma HasRow_lasting r : lasting (HasRow r).
Proof.
  split; [by intros w [? ?]|]. intros w w' [Hi Hr] Hev Htr. split; [by eapply (lasting_ev _ Inv_lasting)|]. by eapply evolves_has_row.
Qed.
Lemma Started_lasting r : lasting (Started r).
Proof.
  split; [by intros w [[? ?] ?]|]. intros w w' [Hi Ha] Hev Htr. split; [by eapply (lasting_ev _ (HasRow_lasting r))|].
  intros y' Hy'. destruct (typed_after _ _ _ _ _ Hev Hy') as (y & Hy & _ & _ & _ & Hs & _).
  destruct (is_accepted y') eqn:E; [|done]. rewrite <- (Ha y Hy). symmetry. by apply Hs.
Qed.
Lemma Reserved_lasting r : lasting (Reserved r).
Proof.
  split; [intros w (Hi & Ht & _); split; [by eapply ledger_inv_prefix | done]|].
  intros w w' (Hi & Ht & Ha) Hev Htr. unfold Reserved, traced. rewrite Htr, (ev_authority _ _ _ Hev).
  split_and!; try done. by eapply evolves_inv.
Qed.
#[local] Hint Resolve Inv_lasting HasRow_lasting Started_lasting Reserved_lasting : stream.

(** ** Interference *)
Lemma effect_conclusion_orderly r hook o :
  let '(state, _, scope_state) := effect_conclusion cf r hook o in orderly "EXECUTION_STARTED" state scope_state.
Proof.
  assert (orderly "EXECUTION_STARTED" "EFFECT_OBSERVED" (Some (awaiting cf r))) as Ho.
  { unfold awaiting. destruct (_ && _); split_and!; try done; by intros [?|?]. }
  destruct o as [result|[]]; simpl; [done | | |]; split_and!; try done; by intros [?|?].
Qed.

Lemma finish_worker_evolves c w : effect_requests (w_ledger w) = ∅ ->
  evolves (w_ledger w) (w_ledger (finish_worker cf w c)) /\ w_trace (finish_worker cf w c) = w_trace w.
Proof.
  intros Hl. unfold finish_worker. destruct (take_worker _ _) as [[[r hook] rest]|]; [|split; [apply evolves_refl | done]].
  simpl. split; [|done]. unfold _complete_effect. pose proof (effect_conclusion_orderly r hook (k_effect c)) as Ho.
  destruct (effect_conclusion cf r hook (k_effect c)) as [[state result] scope_state].
  destruct (k_fault c); [apply evolves_refl|]. by apply transition_evolves.
Qed.

Lemma finish_workers_evolve l w : effect_requests (w_ledger w) = ∅ ->
  evolves (w_ledger w) (w_ledger (finish_workers cf l w)) /\ w_trace (finish_workers cf l w) = w_trace w.
Proof.
  unfold finish_workers. revert w. induction l as [|c l IH]; intros w Hl; simpl; [split; [apply evolves_refl | done]|].
  destruct (finish_worker_evolves c w Hl) as [Hev Htr]. destruct (IH (finish_worker cf w c)) as [Hev' Htr'].
  - by rewrite (ev_legacy _ _ _ Hev).
  - split; [by eapply evolves_trans | congruence].
Qed.

Lemma tick_lasting P w : lasting P -> P w -> P (snd (next_tick cf w)).
Proof.
  intros HP Hw. unfold next_tick. destruct (w_script w) as [|t script]; [done|]. simpl.
  assert (effect_requests (w_ledger (with_script script w)) = ∅) as Hl.
  { simpl. eapply inv_legacy. by apply (lasting_inv P HP) in Hw as [? _]. }
  destruct (finish_workers_evolve (k_finished t) _ Hl) as [Hev Htr]. by eapply (lasting_ev P HP).
Qed.

Lemma killed_inv w : Inv w -> Inv (killed w).
Proof. done. Qed.
Lemma ledger_kept w : w = with_ledger (w_ledger w) w.
Proof. by destruct w. Qed.

(** ** Triples: the post-condition holds of a result, the invariant always *)
#[local] Notation triple := (triple Inv).
#[local] Hint Resolve lasting_inv : stream.

Lemma triple_lift {A} P (m : res A) : lasting P -> triple P (xlift m) (fun _ => P).
Proof. intros HP w Hw. unfold xlift. destruct m; [done | by apply (lasting_inv P HP)]. Qed.
Lemma triple_sum {A} P (m : failure + A) : lasting P -> triple P (xsum m) (fun _ => P).
Proof. intros HP w Hw. unfold xsum. destruct m; [by apply (lasting_inv P HP) | done]. Qed.
Lemma triple_call {A} P (op : ledger -> res A * ledger) (Q : A -> world -> Prop) : lasting P ->
  (forall w a s, P w -> op (w_ledger w) = (Ok a, s) -> Q a (with_ledger s w)) ->
  (forall w e s, P w -> op (w_ledger w) = (Err e, s) -> Inv (with_ledger s w)) -> triple P (call cf op) Q.
Proof.
  intros HP Hok Herr w Hw. pose proof (tick_lasting P w HP Hw) as Hw'. unfold call.
  destruct (next_tick cf w) as [[] w'] eqn:E; simpl in Hw'.
  - destruct (op (w_ledger w')) as [[a|e] s] eqn:Eop; [by eapply Hok | by eapply Herr].
  - by apply (lasting_inv P HP).
  - apply killed_inv. by apply (lasting_inv P HP).
Qed.
Lemma triple_read {A} P (f : ledger -> res A) : lasting P -> triple P (read cf f) (fun _ => P).
Proof.
  intros HP. apply triple_call; [done | |]; intros w x s Hw [= _ <-]; rewrite <- ledger_kept; [done | by apply (lasting_inv P HP)].
Qed.
Lemma triple_point P : lasting P -> triple P (point cf) (fun _ => P).
Proof.
  intros HP w Hw. pose proof (tick_lasting P w HP Hw) as Hw'. unfold point. destruct (next_tick cf w) as [[] w']; try done.
  simpl in Hw'. apply killed_inv. by apply (lasting_inv P HP).
Qed.

(** A ledger method that is safe keeps the invariant. *)
Lemma safe_inv {A} (op : ledger -> res A * ledger) w x s : safe_at Known strict op (w_ledger w) (traced w) ->
  Inv w -> op (w_ledger w) = (x, s) -> Inv (with_ledger s w).
Proof. intros [Hs _] [_ Ht] E. rewrite E in Hs. split; done. Qed.
Lemma triple_safe {A} (op : ledger -> res A * ledger) : (forall w, Inv w -> safe_at Known strict op (w_ledger w) (traced w)) ->
  triple Inv (call cf op) (fun _ => Inv).
Proof. intros Hs. apply triple_call; [auto with stream | |]; intros w x s Hw E; eapply safe_inv; try done; by apply Hs. Qed.

(** ** The handlers *)
#[local] Notation X_ok m := (triple Inv m (fun _ => Inv)).

Lemma response_ok ok reason state r replay result : X_ok (_response cf ok reason state r replay result).
Proof.
  apply triple_bind with (fun _ => Inv).
  { apply triple_try; [|intros; by apply triple_ret]. eapply triple_bind; [by apply triple_read, Inv_lasting|].
    intros a. by apply triple_ret. }
  intros active. apply triple_bind with (fun _ => Inv).
  { apply triple_try; [by apply triple_read, Inv_lasting | intros; by apply triple_ret]. }
  intros n. by apply triple_ret.
Qed.
Lemma response_from P ok reason state r replay result : lasting P ->
  triple P (_response cf ok reason state r replay result) (fun _ => Inv).
Proof. intros HP. eapply triple_weaken; [apply response_ok | apply HP | done]. Qed.

Definition terminal_state (state : string) : bool := listed ["EFFECT_OBSERVED"; "EFFECT_FAILED"; "OUTCOME_UNKNOWN"] state.

Lemma terminal_orderly state scope_state : terminal_state state = true ->
  scope_state = None \/ scope_state = Some "EFFECT_OBSERVED" \/ scope_state = Some "EFFECT_OBSERVED_AWAITING_VERIFICATION" ->
  orderly "EXECUTION_STARTED" state scope_state.
Proof.
  unfold terminal_state, listed. simpl. intros Ht Hs.
  assert (state = "EFFECT_OBSERVED" \/ state = "EFFECT_FAILED" \/ state = "OUTCOME_UNKNOWN") as Hc.
  { destruct (String.eqb_spec state "EFFECT_OBSERVED"), (String.eqb_spec state "EFFECT_FAILED"),
      (String.eqb_spec state "OUTCOME_UNKNOWN"); simpl in Ht; auto; done. }
  destruct Hc as [-> | [-> | ->]], Hs as [-> | [-> | ->]]; split_and!; try done; by intros [?|?].
Qed.

Lemma transition_safe_op now id expected state result scope_state : orderly expected state scope_state ->
  X_ok (call cf (transition now id expected state result scope_state)).
Proof. intros Ho. apply triple_safe. intros w [Hi _]. by apply transition_safe. Qed.

Lemma awaiting_cases r : Some (awaiting cf r) = None \/ Some (awaiting cf r) = Some "EFFECT_OBSERVED"
  \/ Some (awaiting cf r) = Some "EFFECT_OBSERVED_AWAITING_VERIFICATION".
Proof. unfold awaiting. destruct (_ && _); auto. Qed.

Lemma safe_transition_from P now id state result scope_state : lasting P -> terminal_state state = true ->
  scope_state = None \/ scope_state = Some "EFFECT_OBSERVED" \/ scope_state = Some "EFFECT_OBSERVED_AWAITING_VERIFICATION" ->
  triple P (_safe_transition cf now id state result scope_state) (fun _ => Inv).
Proof.
  intros HP Ht Hs. eapply triple_weaken; [|apply HP|intros a w Ha; exact Ha]. apply triple_try.
  - apply transition_safe_op. by apply terminal_orderly.
  - intros f. by apply triple_ret.
Qed.

Lemma handle_failure_ok rd r f : X_ok (handle_failure cf rd r f).
Proof.
  assert (forall state result, terminal_state state = true -> X_ok (match r with
    | Some q => bind! _ := _safe_transition cf (n_k rd 4%nat) (request_id q) state result None in xret tt
    | None => xret tt end)) as Hrec.
  { intros state result Hst. destruct r as [q|]; [|by apply triple_ret]. eapply triple_bind.
    - apply safe_transition_from; [apply Inv_lasting | done | by left].
    - intros a. by apply triple_ret. }
  unfold handle_failure. destruct f as [reason result|reason|e]; [| |destruct (value_error_text e)];
    try apply response_ok; (eapply triple_bind; [by apply Hrec | intros ?; apply response_ok]).
Qed.

Variable rd : readings.

Lemma grant_error_lasting P answer r : lasting P -> triple P (grant_error cf answer r) (fun _ => P).
Proof.
  intros HP. unfold grant_error. destruct (negb _); [by apply triple_ret|]. destruct (has_authorizer cf); [by apply triple_sum | by apply triple_ret].
Qed.

(** The effect is invoked on a reservation and only once. *)
Lemma invoked_inv r w : Reserved r w -> Inv (invoked r w).
Proof.
  intros (Hi & Ht & Ha). split; simpl.
  - unfold traced. simpl. rewrite map_app. exact Hi.
  - intros Hs. apply Forall_app. split; [by apply Ht | constructor; [by apply Ha | constructor]].
Qed.

Lemma perform_ok r hook : triple (Reserved r) (perform cf rd r hook) (fun _ => Inv).
Proof.
  eapply triple_bind; [apply triple_point, Reserved_lasting|]. intros []. destruct (execute_async cf).
  - apply triple_bind with (fun _ => Inv); [|intros ?; apply response_ok]. intros w Hw. unfold _start_effect_worker.
    destruct (n_spawn rd); [|by apply (lasting_inv _ (Reserved_lasting r))]. by apply invoked_inv in Hw.
  - unfold perform_sync. apply triple_bind with (fun _ => Inv); [intros w Hw; by apply invoked_inv|]. intros [].
    eapply triple_bind; [apply triple_sum, Inv_lasting|]. intros raw.
    eapply triple_bind; [apply safe_transition_from; [apply Inv_lasting | done | apply awaiting_cases]|]. intros [];
    apply response_ok.
Qed.

(** The authority covers a request whose attempt is free. *)
Lemma started_authority r w k f : Known r -> Started r w -> effect_scope_fences (w_ledger w) !! k = Some f ->
  reservable (request_id r) f = true -> strict -> under_authority (r, authority_table (w_ledger w)).
Proof.
  intros Hk [[[Hi _] (y & Hy & Hd)] _] Hf Hres Hst. unfold reservable in Hres.
  apply andb_true_iff in Hres as [Hres _]. apply andb_true_iff in Hres as [Hres Hb]. apply andb_true_iff in Hres as [Ho Hs].
  apply negb_true_iff in Hb. apply String.eqb_eq in Ho, Hs.
  assert (open_state (y_state y) = true) as Hopen.
  { eapply (inv_synced _ _ _ _ Hi k f); [done | by rewrite Ho | by rewrite Hs]. }
  destruct (inv_free _ _ _ _ Hi Hst _ y k f Hy Hopen Hf Ho Hb) as [_ (a & Ha & Hp & Hg)].
  destruct (inv_row _ _ _ _ Hi _ y Hy) as (k0 & f0 & r0 & _ & _ & Hk0 & Hd0 & Hp0 & Hg0 & _).
  assert (canonical r = canonical r0) as Hc by (apply Known_digest; congruence).
  apply canonical_fields in Hc as (_ & Hp1 & Hg1 & _). exists a. simpl. split_and!; congruence.
Qed.

Lemma mark_ok r : Known r -> triple (Started r) (call cf (mark_effect_boundary (n_k rd 2%nat) (request_id r)))
  (fun b => if b then Reserved r else Inv).
Proof.
  intros Hk. apply triple_call; [apply Started_lasting | | by intros ???? [=]].
  intros w b s Hw E. pose proof Hw as Hw0. destruct Hw as [[[Hi Ht] Hr] Hna].
  pose proof (mark_evolves strict (n_k rd 2%nat) (request_id r) (w_ledger w)) as Hev. rewrite E in Hev. simpl in Hev.
  destruct b; [|by eapply (lasting_ev _ Inv_lasting); [by split| |]].
  pose proof (mark_reserves Known strict (n_k rd 2%nat) r (w_ledger w) (traced w) Hi Hr Hk) as Hm. rewrite E in Hm.
  unfold Reserved. simpl. split_and!; [by apply Hm | done |]. intros Hst. rewrite (ev_authority _ _ _ Hev).
  unfold mark_effect_boundary, transaction, mark_body, db_bind, db_get, db_mod, db_ret in E. simpl in E.
  injection E as En _. apply Z.eqb_eq, count_one in En as ([k f] & Hin & Hp).
  eapply started_authority; try done. by apply elem_of_map_to_list, list_elem_of_In.
Qed.

Lemma start_effect_ok r replay : Known r -> triple (Started r) (start_effect cf rd r replay) (fun _ => Inv).
Proof.
  intros Hk. unfold start_effect. eapply triple_bind; [apply triple_sum, Started_lasting|]. intros current. simpl.
  destruct (negb _).
  { eapply triple_bind; [apply safe_transition_from; [apply Started_lasting | done | by left]|]. intros ?. apply response_ok. }
  eapply triple_bind; [apply grant_error_lasting, Started_lasting|]. intros denied. destruct (negb _).
  { eapply triple_bind; [apply safe_transition_from; [apply Started_lasting | done | by left]|]. intros ?. apply response_ok. }
  eapply triple_bind; [by apply mark_ok|]. intros []; simpl; [apply perform_ok|].
  eapply triple_bind; [apply safe_transition_from; [apply Inv_lasting | done | by left]|]. intros ?. apply response_ok.
Qed.

Lemma accept_ok r : Known r -> triple Inv (call cf (accept (n_k rd 0%nat) r))
  (fun a w => Inv w /\ (ac_accepted a = true -> has_row r (w_ledger w))).
Proof.
  intros Hk. apply triple_call; [apply Inv_lasting | |].
  - intros w a s Hw E. pose proof Hw as [Hi Ht]. destruct (accept_safe Known Known_digest strict (n_k rd 0%nat) r _ _ Hk Hi) as [Hs Hr].
    split; [by eapply safe_inv|]. intros Ha. rewrite E in Hr. simpl in *. by eapply Hr.
  - intros w e s Hw E. pose proof Hw as [Hi Ht]. destruct (accept_safe Known Known_digest strict (n_k rd 0%nat) r _ _ Hk Hi) as [Hs Hr].
    by eapply safe_inv.
Qed.

Lemma start_orderly : orderly "ACCEPTED" "EXECUTION_STARTED" None.
Proof. by split_and!. Qed.

Lemma start_ok r : triple (HasRow r) (call cf (transition (n_k rd 1%nat) (request_id r) "ACCEPTED" "EXECUTION_STARTED" None None))
  (fun b => if b then Started r else Inv).
Proof.
  apply triple_call; [apply HasRow_lasting | |].
  - intros w b s Hw E. pose proof Hw as [[Hi Ht] (y & Hy & Hd)].
    pose proof (transition_evolves strict (n_k rd 1%nat) (request_id r) _ _ None None (w_ledger w) (inv_legacy _ _ _ _ Hi) start_orderly) as Hev.
    rewrite E in Hev. simpl in Hev. pose proof (lasting_ev _ (HasRow_lasting r) w (with_ledger s w) Hw Hev eq_refl) as Hw'.
    destruct b; [|apply Hw']. split; [done|]. intros y' Hy'. simpl in Hy'.
    unfold transition, transaction, transition_body, db_bind, db_get, db_mod, db_ret in E.
    rewrite (inv_legacy _ _ _ _ Hi), lookup_empty, Hy in E.
    destruct (String.eqb (y_state y) "ACCEPTED"); simpl in E; [|done]. injection E as <-. simpl in Hy'.
    rewrite lookup_insert_eq in Hy'. by injection Hy' as <-.
  - intros w e s Hw E. pose proof Hw as [[Hi Ht] Hr]. eapply safe_inv; [|by apply Hw|exact E].
    apply transition_safe; [apply start_orderly | done].
Qed.

Lemma execute_request_ok r : Known r -> X_ok (execute_request cf rd r).
Proof.
  intros Hk. unfold execute_request, refuse. destruct (negb _); [apply response_ok|].
  eapply triple_bind; [apply grant_error_lasting, Inv_lasting|]. intros denied. destruct (negb _); [apply response_ok|].
  eapply triple_bind; [apply triple_lift, Inv_lasting|]. intros issued. destruct (Qltb _ _); [apply response_ok|].
  eapply triple_bind; [apply triple_lift, Inv_lasting|]. intros expires. destruct (Qleb _ _); [apply response_ok|].
  eapply triple_bind; [apply triple_sum, Inv_lasting|]. intros current. simpl. destruct (negb _); [apply response_ok|].
  eapply triple_bind; [by apply accept_ok|]. intros a. destruct (ac_accepted a) eqn:Ea; simpl.
  - eapply triple_bind; [eapply triple_weaken; [apply start_ok | intros w [? ?]; by split; auto | done]|].
    intros []; simpl; [by apply start_effect_ok | apply response_ok].
  - eapply triple_weaken; [apply response_ok | by intros w [? ?] | done].
Qed.

(** Queries, conclusions and handoffs. *)
Ltac x_step := eapply triple_bind; [first [apply triple_read | apply triple_lift | apply triple_sum]; apply Inv_lasting | intros ?].

Lemma unresolved_answer_ok value : X_ok (unresolved_answer cf value).
Proof. unfold unresolved_answer. do 3 x_step. by apply triple_ret. Qed.
Lemma status_answer_ok value : X_ok (status_answer cf value).
Proof. unfold status_answer. do 2 x_step. by apply triple_ret. Qed.
Lemma correlation_answer_ok value : X_ok (correlation_answer cf value).
Proof.
  unfold correlation_answer. do 2 x_step. destruct (a0) as [n found]. destruct (n =? 1), found;
    first [by apply triple_ret | apply triple_raise, Inv_lasting].
Qed.

Lemma record_conclusion_ok x e : X_ok (record_conclusion cf rd x e).
Proof.
  unfold record_conclusion. destruct (observed_resolution x) eqn:E; apply triple_safe; intros w [Hi _].
  - apply reconciliation_safe; [|done]. intros _. unfold observed_resolution in E. apply String.eqb_eq in E. by rewrite E.
  - by apply retirement_safe.
Qed.

Lemma reconcile_ok value : X_ok (_reconcile cf rd value).
Proof.
  unfold _reconcile. x_step. destruct a as [x e]. x_step. destruct a as [[observed_at before] after]. do 5 x_step.
  eapply triple_bind; [apply record_conclusion_ok|]. intros c. do 3 x_step. by apply triple_ret.
Qed.

Lemma handoff_ok : X_ok (handoff_answer cf rd).
Proof.
  unfold handoff_answer. x_step. destruct a as [[[ep eg] np] ng]. eapply triple_bind.
  - apply triple_safe. intros w [Hi _]. by apply switch_safe.
  - intros h. by apply triple_ret.
Qed.

Lemma guarded_ok r m : X_ok m -> X_ok (guarded cf rd r m).
Proof. intros Hm. apply triple_try; [done | intros f; apply handle_failure_ok]. Qed.

Lemma dispatch_ok uid value : (forall r, from_mapping value = Ok r -> Known r) -> X_ok (dispatch cf rd uid value).
Proof.
  intros Hk. unfold dispatch.
  repeat match goal with |- triple _ (if ?b then _ else _) _ => destruct b end;
    try apply response_ok; try (apply guarded_ok; first [apply handoff_ok | apply unresolved_answer_ok | apply correlation_answer_ok
      | apply status_answer_ok | apply reconcile_ok]).
  destruct (from_mapping value) as [r|e] eqn:E; [|apply handle_failure_ok]. apply guarded_ok, execute_request_ok. by apply Hk.
Qed.

Definition requested (input : incoming) : list EffectRequest :=
  match input with
  | Decoded (VDict value) => match from_mapping value with Ok r => [r] | Err _ => [] end
  | _ => []
  end.

Lemma connection_ok uid input : (forall r, r ∈ requested input -> Known r) -> X_ok (_handle_connection cf rd uid input).
Proof.
  intros Hk. unfold _handle_connection. destruct (negb _); [apply response_ok|].
  destruct input as [|e|[]]; try apply response_ok; try apply handle_failure_ok.
  apply dispatch_ok. intros r Hr. apply Hk. simpl. rewrite Hr. by left.
Qed.
End Logic.

(** ** Runs *)
Definition requests_of `{Repr} `{FromIso} (steps : list step) : list EffectRequest :=
  flat_map (fun st => match st with Connect _ input _ _ => requested input | _ => [] end) steps.

(** No request is declared free of effects by hand. *)
Definition no_release (st : step) : Prop :=
  match st with Reconciled _ _ _ resolution _ _ _ => resolution <> "NO_EFFECT_PROVEN" | _ => True end.

Section Runs.
Context `{Repr} `{FromIso} `{JsonSha} `{JcsSha}.

Lemma validated_delivery value r : from_mapping value = Ok r -> on_delivery r = true -> is_Some (ffmpeg_target_identity r).
Proof.
  unfold from_mapping. destruct (String.eqb _ _).
  - unfold _from_v1. intros Hm. inv_ok Hm. injection Hm as <-. by eexists.
  - destruct (negb _); [done|]. unfold _from_v2. intros Hm. inv_ok Hm. destruct v3 as [target runtime]. injection Hm as <-.
    simpl. unfold on_delivery. simpl. intros Hd. unfold identity_part in E3. rewrite Hd in E3. inv_ok E3.
    injection E3 as <- <-. by eexists.
Qed.

Lemma requests_validated steps r : r ∈ requests_of steps -> on_delivery r = true -> is_Some (ffmpeg_target_identity r).
Proof.
  unfold requests_of. rewrite list_elem_of_In, in_flat_map. intros (st & _ & Hr). destruct st as [uid input rd script| | | | | |]; try done.
  destruct input as [|e|[]]; try done. simpl in Hr. destruct (from_mapping d) as [q|] eqn:E; [|done].
  destruct Hr as [<-|[]]. by eapply validated_delivery.
Qed.

(** Equal digests come from equal canonical texts, among the requests of a run. *)
Definition digests_separate (steps : list step) : Prop := forall r r',
  r ∈ requests_of steps -> r' ∈ requests_of steps -> digest r = digest r' -> canonical r = canonical r'.

Section Step.
Variable all : list step.
Hypothesis Hsep : digests_separate all.
Variable strict : Prop.
Variable cf : config.
Notation Known := (fun r => r ∈ requests_of all).
Notation Inv := (Inv Known strict).

Lemma on_ledger_inv {A} (op : ledger -> res A * ledger) w : Inv w -> safe_at Known strict op (w_ledger w) (traced w) ->
  Inv (on_ledger op w).
Proof. intros [_ Ht] [Hi _]. split; done. Qed.

Lemma run_step_inv st w : (forall r, r ∈ requests_of [st] -> r ∈ requests_of all) -> (strict -> no_release st) ->
  Inv w -> Inv (run_step cf st w).
Proof.
  intros Hk Hst Hw. pose proof (requests_validated all) as Htgt.
  assert (Inv (live_step cf st w)) as Hlive.
  { destruct st as [uid input rd script|c| |n1 n2 n3 p g|now rid id rs e o d|now rid id e o d|now ep eg np ng]; simpl in *.
    - pose proof (connection_ok Known Hsep strict cf rd uid input) as Hc.
      assert (forall r, r ∈ requested input -> r ∈ requests_of all) as Hin.
      { intros r Hr. apply Hk. unfold requests_of. simpl. by rewrite app_nil_r. }
      specialize (Hc Hin (with_script script w) Hw). by destruct (_handle_connection _ _ _ _ _) as [[] w'].
    - assert (effect_requests (w_ledger w) = ∅) as Hl by apply Hw.
      destruct (finish_worker_evolves strict cf c w Hl) as [Hev Htr]. by eapply (lasting_ev _ _ _ (Inv_lasting _ _)).
    - done.
    - destruct Hw as [Hi Ht]. split; [|done]. unfold restarted. simpl. by apply open_ledger_safe.
    - apply on_ledger_inv; [done|]. apply reconciliation_safe; [done | apply Hw].
    - apply on_ledger_inv; [done|]. apply retirement_safe, Hw.
    - apply on_ledger_inv; [done|]. apply switch_safe, Hw. }
  unfold run_step. destruct st; try done; by destruct (w_alive w).
Qed.

Lemma run_inv steps w : (forall r, r ∈ requests_of steps -> r ∈ requests_of all) -> (strict -> Forall no_release steps) ->
  Inv w -> Inv (run cf steps w).
Proof.
  revert w. induction steps as [|st steps IH]; intros w Hk Hst Hw; [done|]. simpl. apply IH.
  - intros r Hr. apply Hk. unfold requests_of in *. simpl. apply elem_of_app. by right.
  - intros Hs. specialize (Hst Hs). by inversion Hst.
  - apply run_step_inv; [|intros Hs; specialize (Hst Hs); by inversion Hst | done].
    intros r Hr. apply Hk. unfold requests_of in *. simpl in *. rewrite app_nil_r in Hr. apply elem_of_app. by left.
Qed.

Lemma cold_start_inv : Inv cold_start.
Proof. split; [apply empty_ledger_inv | intros _; constructor]. Qed.
End Step.

(** ** What is fenced

    Two requests for the same thing: one FFmpeg generation of one container
    whatever its PID, or one repair of one runtime. *)
Definition same_effect (r r' : EffectRequest) : Prop :=
  (on_delivery r = true /\ on_delivery r' = true
   /\ exists t t', ffmpeg_target_identity r = Some t /\ ffmpeg_target_identity r' = Some t' /\ logical_dict t = logical_dict t')
  \/ (on_delivery r = false /\ intent_type r = intent_type r' /\ runtime_identity r = runtime_identity r').

Lemma py_str_int_or (s : string) : py_str (py_or (VStr s) (VStr "")) = s.
Proof. unfold py_or. simpl. by destruct (String.eqb_spec s "") as [->|]. Qed.

Lemma target_from_dict_id t t' : target_from_dict (target_dict t) = Ok t' -> t' = t.
Proof.
  unfold target_from_dict, target_field. intros Hf.
  assert (int0 (target_dict t) "ffmpeg_pid" = Ok (t_pid t)) as Hpid.
  { unfold int0, dget, py_or. simpl. destruct (Z.eqb_spec (t_pid t) 0) as [E|]; simpl; [by rewrite E | done]. }
  rewrite Hpid in Hf. unfold str0, dget in Hf. simpl in Hf. rewrite !py_str_int_or in Hf. inv_ok Hf.
  repeat match goal with E : rbind _ _ = Ok _ |- _ => apply rbind_Ok in E as ([] & _ & [= <-]) end.
  injection Hf as <-. by destruct t.
Qed.

Lemma logical_id_spec r t o : on_delivery r = true -> ffmpeg_target_identity r = Some t -> request_logical_id r = Ok o ->
  exists l, o = Some l
    /\ jcs_sha256 (VDict [("action", VStr "restart_ffmpeg"); ("logical_generation_identity", VDict (logical_dict t))]) = Ok l.
Proof.
  unfold request_logical_id, logical_generation_scope_id, scope_action. intros Hd -> Hr. rewrite Hd in Hr. inv_ok Hr.
  injection Hr as <-. simpl in E. inv_ok E. apply target_from_dict_id in E0 as ->. eauto.
Qed.

Lemma same_effect_fences r r' k k' o o' : same_effect r r' ->
  request_scope_id r = Ok k -> request_scope_id r' = Ok k' -> request_logical_id r = Ok o -> request_logical_id r' = Ok o' ->
  k = k' \/ exists l, o = Some l /\ o' = Some l.
Proof.
  intros [(Hd & Hd' & t & t' & Ht & Ht' & Hl)|(Hd & Hi & Hr)] Hk Hk' Ho Ho'.
  - right. destruct (logical_id_spec r t o Hd Ht Ho) as (l & -> & Hs). destruct (logical_id_spec r' t' o' Hd' Ht' Ho') as (l' & -> & Hs').
    rewrite Hl, Hs' in Hs. injection Hs as ->. eauto.
  - left. assert (on_delivery r' = false) as Hd' by (revert Hd; unfold on_delivery; by rewrite Hi).
    revert Hk Hk'. unfold request_scope_id, fence_identity. rewrite Hd, Hd', Hi, Hr.
    destruct (ffmpeg_target_identity r), (ffmpeg_target_identity r'); congruence.
Qed.

Lemma reserved_unique Known (Hsep : forall r r', Known r -> Known r' -> digest r = digest r' -> canonical r = canonical r')
    strict s reserved r r' : ledger_inv Known strict s reserved -> r ∈ reserved -> r' ∈ reserved -> same_effect r r' ->
  request_id r = request_id r'.
Proof.
  assert (forall q, ledger_inv Known strict s reserved -> q ∈ reserved -> exists k f, effect_scope_fences s !! k = Some f
            /\ f_owner f = request_id q /\ request_scope_id q = Ok k /\ request_logical_id q = Ok (f_logical f)) as Hfence.
  { intros q Hi Hq. destruct (inv_reserved _ _ _ _ Hi q Hq) as (Hk & y & _ & _ & Hy & Hd & _).
    destruct (inv_row _ _ _ _ Hi _ y Hy) as (k & f & q0 & Hf & Hid & Hk0 & Hd0 & _ & _ & Hs & Hl & _ & Ho).
    assert (canonical q = canonical q0) as Hc by (apply Hsep; congruence). apply canonical_scopes in Hc as [Hs' Hl'].
    exists k, f. split_and!; congruence. }
  intros Hi Hr Hr' Hsame. destruct (Hfence r Hi Hr) as (k & f & Hf & Ho & Hs & Hl).
  destruct (Hfence r' Hi Hr') as (k' & f' & Hf' & Ho' & Hs' & Hl').
  assert (k = k') as <-; [|congruence].
  destruct (same_effect_fences r r' _ _ _ _ Hsame Hs Hs' Hl Hl') as [->|(l & E & E')]; [done|].
  by eapply (inv_logical _ _ _ _ Hi k k' f f' l).
Qed.
End Runs.

(** ** Answers *)
Definition answers {A} (m : X A) : Prop := forall w, match fst (m w) with Raised _ => False | _ => True end.

Lemma answers_ret {A} (a : A) : answers (xret a).
Proof. by intros w. Qed.
Lemma answers_bind {A B} (m : X A) (k : A -> X B) : answers m -> (forall a, answers (k a)) -> answers (xbind m k).
Proof. intros Hm Hk w. specialize (Hm w). unfold xbind. destruct (m w) as [[a|f|] w']; try done. apply Hk. Qed.
Lemma answers_try {A} (m : X A) h : (forall f, answers (h f)) -> answers (xtry m h).
Proof. intros Hh w. unfold xtry. destruct (m w) as [[a|f|] w']; try done. apply Hh. Qed.

Section Answers.
Context `{Repr} `{FromIso} `{JsonSha} `{JcsSha}.

Lemma answers_response cf ok reason state r replay result : answers (_response cf ok reason state r replay result).
Proof.
  apply answers_bind; [apply answers_try; intros; apply answers_ret|]. intros a.
  apply answers_bind; [apply answers_try; intros; apply answers_ret|]. intros n. apply answers_ret.
Qed.

Lemma answers_failure cf rd r f : answers (handle_failure cf rd r f).
Proof.
  unfold handle_failure.
  assert (forall state result, answers (match r with
    | Some q => bind! _ := _safe_transition cf (n_k rd 4%nat) (request_id q) state result None in xret tt
    | None => xret tt end)) as Hrec.
  { intros state result. destruct r; [|apply answers_ret]. apply answers_bind; [apply answers_try; intros; apply answers_ret|]. intros; apply answers_ret. }
  destruct f as [reason result|reason|e]; [| |destruct (value_error_text e)]; try apply answers_response;
    (apply answers_bind; [apply Hrec | intros; apply answers_response]).
Qed.

Lemma answers_guarded cf rd r m : answers (guarded cf rd r m).
Proof. apply answers_try. intros f. apply answers_failure. Qed.
End Answers.

(** ** A run

    One container, requests for its first and second FFmpeg generation. The digests
    stand for SHA-256: distinct on the requests below. *)
Module ExecutorDemo.
#[export] Instance demo_repr : Repr := fun _ => "".
#[export] Instance demo_iso : FromIso := basic_iso.
#[export] Instance demo_sha : JsonSha := fun v =>
  match v with VDict d => (str0 d "request_id" ++ "/" ++ str0 d "observed_at")%string | _ => "" end.
#[export] Instance demo_jcs : JcsSha := fun v =>
  match v with
  | VDict d => match dget d "logical_generation_identity" VNone, dget d "exact_target_identity" VNone with
               | VDict t, _ => Ok ("L" ++ str0 t "ffmpeg_generation")%string
               | _, VDict t => Ok ("E" ++ str0 t "ffmpeg_generation" ++ str0 t "ffmpeg_pid")%string
               | _, _ => Ok ""
               end
  | _ => Ok ""
  end.

Definition target (generation : string) (pid : Z) : Target :=
  mkTarget "host" "boot" "stream" "pod" "stream-engine" "container" generation pid.
Definition message (id generation : string) (pid : Z) : dict :=
  [("schema_version", VStr V2); ("request_id", VStr id); ("producer_id", VStr "controller"); ("producer_generation", VInt 1);
   ("intent_type", VStr RESTART_FFMPEG); ("reason", VStr "stall"); ("failure_domain", VStr "FFMPEG_LOCAL");
   ("issued_at", VStr "2026-01-01T00:00:00Z"); ("expires_at", VStr "2026-01-01T00:00:03Z");
   ("ffmpeg_target_identity", VDict (target_dict (target generation pid))); ("runtime_identity", VNone);
   ("expected_ffmpeg_generation", VStr generation); ("idempotency_key", VStr id); ("correlation_id", VStr id);
   ("target_snapshot_id", VStr "s"); ("runtime_snapshot_id", VStr ""); ("runtime_observation_id", VStr "o");
   ("expected_executor_instance_id", VStr "x"); ("maintenance_evidence_status", VStr "UNKNOWN"); ("projection_id", VStr "");
   ("projection_sequence", VInt 0)].
Definition current (generation : string) (pid : Z) : dict :=
  [("ffmpeg_target_identity", VDict (target_dict (target generation pid))); ("ffmpeg_generation", VStr generation);
   ("executor_instance_id", VStr "x")].

Definition now (n : nat) : nat -> string := fun _ => ("2026-01-01T00:00:0" ++ str_Z (Z.of_nat n))%string.
Definition at_one : Q := inject_Z (days_from_civil 2026 1 1 * 86400 + 1).
Definition sees (generation : string) (pid : Z) (n : nat) : readings :=
  mkReadings at_one at_one at_one (fun _ => at_one) (inr (current generation pid)) (inr (current generation pid))
    (inr "") (inr "") false (inr []) (Ok tt) (inl (PyExn EKey)) (fun _ => now n).
(** The settings of runtime_boundary_entrypoint.py. *)
Definition production : config := mkConfig [0; 992] EXECUTOR_OWNED_INTENTS true true true true true.

Definition ask (id generation : string) (pid : Z) (n : nat) (script : list tick) : step :=
  Connect 992 (Decoded (VDict (message id generation pid))) (sees generation pid n) script.
Definition boot (n : nat) : step := Restart (now n) (now n) (now n) "controller" 1.
Definition calm : tick := mkTick [] Calm.
Definition death : tick := mkTick [] Death.

(** The process dies right after admission and the request is sent again; a second
    request names the same generation under another PID; the process dies again
    while the effect runs, and the request is sent a third time. *)
Definition crashes : list step :=
  [boot 0; ask "r1" "g1" 11 1 [calm; death]; boot 2; ask "r1" "g1" 11 3 []; ask "r2" "g1" 12 4 []; Kill; boot 5; ask "r1" "g1" 11 6 []].
Definition crashed : world := run production crashes cold_start.

Lemma crashes_separate : digests_separate crashes.
Proof.
  assert (forall r, r ∈ requests_of crashes ->
    from_mapping (message "r1" "g1" 11) = Ok r \/ from_mapping (message "r2" "g1" 12) = Ok r) as Hr.
  { intros r. rewrite list_elem_of_In. unfold requests_of, crashes. cbn [flat_map app]. unfold ask, requested, boot.
    destruct (from_mapping (message "r1" "g1" 11)), (from_mapping (message "r2" "g1" 12)); simpl; intuition congruence. }
  intros r r' [H1|H1]%Hr [H2|H2]%Hr; vm_compute in H1, H2; injection H1 as <-; injection H2 as <-; vm_compute; congruence.
Qed.

(** The worker of the first effect is still running when its success is recorded
    and a second effect begins; its own report then comes in. *)
Definition seen_evidence : dict := [("physical_effect_count", VInt 1); ("observed_at", VStr "1")].
Definition seen_again : dict := [("physical_effect_count", VInt 1); ("observed_at", VStr "2")].
Definition scope_1 : string := "Eg111".
Definition late : list step :=
  [boot 0; ask "r1" "g1" 11 1 []; Reconciled (now 2) "n1" scope_1 "EFFECT_OBSERVED" seen_evidence None None;
   ask "r2" "g2" 12 3 []; WorkerDone (mkCompletion "r1" (inl [("physical_effect_count", VInt 1)]) false (now 4))].
Definition reopened : world := run production late cold_start.

(** A conclusion about an effect does not survive the late report of its worker:
    the scope is unresolved again, next to the one of the second effect, and the
    same conclusion with a later observation is refused as a conflict. *)
Lemma late_result_reopens_scope :
  map fst (unresolved_rows (w_ledger (run production (firstn 3 late) cold_start))) = []
  /\ map (fun kv => (fst kv, f_state (snd kv))) (unresolved_rows (w_ledger reopened))
     = [(scope_1, "EFFECT_OBSERVED_AWAITING_VERIFICATION"); ("Eg212", "EFFECT_BOUNDARY_REACHED")]
  /\ fst (record_reconciliation (now 5) "n1" scope_1 "EFFECT_OBSERVED" seen_again None None (w_ledger reopened))
     = Err (EValue "RECONCILIATION_ID_CONFLICT").
Proof. split_and!; vm_compute; reflexivity. Qed.
End ExecutorDemo.

Module EffectExecutorProperties.
Section Properties.
Context `{Repr} `{FromIso} `{JsonSha} `{JcsSha}.

(** C5: Over any run of the executor from an empty ledger, with storage faults,
    workers finishing at any point, process deaths, restarts, reconciliations and
    handoffs, [perform_effect] is called at most once per request, and at most once
    per FFmpeg generation of a container or per repair of a runtime. *)
Theorem one_effect_per_generation cf steps : digests_separate steps ->
  let trace := w_trace (run cf steps cold_start) in
  NoDup (map (fun x => request_id (fst x)) trace)
  /\ forall r a r' a', (r, a) ∈ trace -> (r', a') ∈ trace -> same_effect r r' -> request_id r = request_id r'.
Proof.
  intros Hsep trace. destruct (run_inv steps Hsep False cf steps cold_start) as [Hi _]; [done | done | by apply cold_start_inv |].
  fold trace in Hi. unfold traced in Hi. split.
  - rewrite <- (map_map fst request_id). apply Hi.
  - intros r a r' a' Hr Hr'. eapply (reserved_unique _ Hsep); [exact Hi | |]; apply list_elem_of_fmap; [by exists (r, a) | by exists (r', a')].
Qed.

(** C24: In a run in which nobody declares by hand that a request had no effect,
    every call of [perform_effect] is for the producer, in its generation, that
    holds the authority at that moment: a handoff leaves no effect behind. *)
Theorem effects_under_authority cf steps : digests_separate steps -> Forall no_release steps ->
  Forall under_authority (w_trace (run cf steps cold_start)).
Proof.
  intros Hsep Hno. destruct (run_inv steps Hsep True cf steps cold_start) as [_ Ht]; [done | done | by apply cold_start_inv | by apply Ht].
Qed.

(** C36: A connection is always answered unless the process dies: no request, no
    evidence, no exception of an effect and no storage fault escapes the handler. *)
Theorem connection_answered cf rd uid input :
  answers (_handle_connection cf rd uid input).
Proof.
  unfold _handle_connection.
  destruct (negb _); [apply answers_response|].
  destruct input as [|e|[]]; try apply answers_response; try apply answers_failure. unfold dispatch.
  repeat match goal with |- answers (if ?b then _ else _) => destruct b end; try apply answers_response; try apply answers_guarded.
  destruct (from_mapping d); [apply answers_guarded | apply answers_failure].
Qed.
End Properties.

Import ExecutorDemo.
Lemma one_effect_per_generation_witness :
  NoDup (map (fun x => request_id (fst x)) (w_trace crashed)) /\ map (fun x => request_id (fst x)) (w_trace crashed) = ["r1"].
Proof.
  split; [|vm_compute; reflexivity].
  apply (one_effect_per_generation production crashes crashes_separate).
Defined.
Lemma effects_under_authority_witness :
  Forall under_authority (w_trace crashed) /\ length (w_trace crashed) = 1%nat.
Proof.
  split; [|vm_compute; reflexivity].
  apply (effects_under_authority production crashes crashes_separate). repeat constructor.
Defined.
End EffectExecutorProperties.
