(* ===== verification/AgentPolicy.v ===== *)
(** * Recovery agent: signed policies

    Models src/recovery-control/src/cra/policy.py and signing.py: the bounds of a
    policy, its signed envelope and the rule by which a newer one is adopted.  The
    canonical JSON text and Ed25519 are class operations. *)
From S2P Require Import Prelude PyVal FastPolicy EffectContract EffectModel Contracts.

(** ** Signatures over canonical JSON (signing.py)

    [json_canonical] is [canonical], which raises on values JSON cannot express;
    [ed25519_verify] is false when the base64 text, the key or the signature is bad. *)
Class JsonCanon := json_canonical : pyval -> res string.
Class Ed25519 := mkEd25519 {
  ed25519_sign : string -> string -> string;
  ed25519_verify : string -> string -> string -> bool;
  public_key_text : string -> string }.
Class Ed25519Law `{Ed25519} := ed25519_correct key text :
  ed25519_verify (public_key_text key) text (ed25519_sign key text) = true.

Definition is_value_error (e : exn) : bool := match e with EValue _ | EObservation _ | EClock _ => true | _ => false end.
Definition value_or_type_error (e : exn) : bool := is_value_error e || match e with EType => true | _ => false end.

Section Signing.
Context `{JsonCanon} `{Ed25519}.
Definition sign (key : string) (value : pyval) : res string := let! text := json_canonical value in Ok (ed25519_sign key text).
Definition verify (public_key : string) (value : pyval) (signature : string) : res bool :=
  match json_canonical value with
  | Ok text => Ok (ed25519_verify public_key text signature)
  | Err e => if value_or_type_error e then Ok false else Err e
  end.
End Signing.

(** ** Policies *)
Definition POLICY_SCHEMA : string := "cra.policy.v1".
Definition MODES : list string := ["off"; "dry_run"; "enforce"].

Record int_bounds : Type := mkBounds { b_name : string; b_min : Z; b_max : Z }.
Definition INT_FIELDS : list int_bounds :=
  [mkBounds "version" 0 (2 ^ 31); mkBounds "stall_grace_sec" 0 600; mkBounds "stall_confirm_samples" 2 30;
   mkBounds "stall_lastsnd_ms" 1000 600000; mkBounds "stall_notsent_bytes" 1 (2 ^ 30); mkBounds "stall_unacked" 1 (2 ^ 20);
   mkBounds "min_ffmpeg_uptime_sec" 0 3600; mkBounds "cooldown_sec" 10 86400; mkBounds "max_per_hour" 0 60;
   mkBounds "max_per_day" 0 500; mkBounds "verify_window_sec" 10 600].
Definition OPTIONAL : list string := ["stall_grace_sec"].

Definition policy_error {A} (reason : string) : res A := Err (EValue reason).

Record Policy : Type := mkPolicy {
  po_version : Z; po_mode : string; po_stall_confirm_samples : Z; po_stall_lastsnd_ms : Z; po_stall_notsent_bytes : Z;
  po_stall_unacked : Z; po_stall_grace_sec : Z; po_min_ffmpeg_uptime_sec : Z; po_cooldown_sec : Z; po_max_per_hour : Z;
  po_max_per_day : Z; po_verify_window_sec : Z }.
#[export] Instance policy_eq_dec : EqDecision Policy.
Proof. solve_decision. Defined.

(** The defaults of the dataclass. *)
Definition BUILTIN : Policy := mkPolicy 0 "dry_run" 5 4000 8192 64 90 20 60 4 12 60.

Definition int_items (p : Policy) : list (string * Z) :=
  [("stall_confirm_samples", po_stall_confirm_samples p); ("stall_lastsnd_ms", po_stall_lastsnd_ms p);
   ("stall_notsent_bytes", po_stall_notsent_bytes p); ("stall_unacked", po_stall_unacked p);
   ("stall_grace_sec", po_stall_grace_sec p); ("min_ffmpeg_uptime_sec", po_min_ffmpeg_uptime_sec p);
   ("cooldown_sec", po_cooldown_sec p); ("max_per_hour", po_max_per_hour p); ("max_per_day", po_max_per_day p);
   ("verify_window_sec", po_verify_window_sec p)].
Definition policy_dict (p : Policy) : dict :=
  [("schema", VStr POLICY_SCHEMA); ("version", VInt (po_version p)); ("mode", VStr (po_mode p))]
  ++ map (fun kv => (fst kv, VInt (snd kv))) (int_items p).

(** [getattr(Policy, name)] *)
Definition default_of (name : string) : Z := default 0 (dict_get name (("version", po_version BUILTIN) :: int_items BUILTIN)).

Definition int_field (value : dict) (b : int_bounds) : res (string * Z) :=
  if listed OPTIONAL (b_name b) && negb (has_key (b_name b) value) then Ok (b_name b, default_of (b_name b)) else
  match dget value (b_name b) VNone with
  | VInt z => if (b_min b <=? z) && (z <=? b_max b) then Ok (b_name b, z) else policy_error ("POLICY_FIELD_INVALID:" ++ b_name b)
  | _ => policy_error ("POLICY_FIELD_INVALID:" ++ b_name b)
  end.
Fixpoint int_fields (value : dict) (l : list int_bounds) : res (list (string * Z)) :=
  match l with
  | [] => Ok []
  | b :: l' => let! x := int_field value b in let! rest := int_fields value l' in Ok (x :: rest)
  end.

(** The construction from the checked fields. *)
Definition policy_of (mode : string) (fields : list (string * Z)) : Policy :=
  let f name := default 0 (dict_get name fields) in
  mkPolicy (f "version") mode (f "stall_confirm_samples") (f "stall_lastsnd_ms") (f "stall_notsent_bytes") (f "stall_unacked")
    (f "stall_grace_sec") (f "min_ffmpeg_uptime_sec") (f "cooldown_sec") (f "max_per_hour") (f "max_per_day") (f "verify_window_sec").

Definition known_field (k : string) : bool := listed (["schema"; "mode"] ++ map b_name INT_FIELDS) k.
Definition unknown_fields (value : dict) : list string := List.filter (fun k => negb (known_field k)) (map fst value).
Fixpoint join_with (sep : string) (l : list string) : string :=
  match l with [] => "" | [x] => x | x :: l' => (x ++ sep ++ join_with sep l')%string end.

Definition parse (value : pyval) : res Policy :=
  match value with
  | VDict d =>
      if negb (eq_str (dget d "schema" VNone) POLICY_SCHEMA) then policy_error "POLICY_SCHEMA_INVALID" else
      match unknown_fields d with
      | _ :: _ as unknown => policy_error ("POLICY_UNKNOWN_FIELDS:" ++ join_with "," (sorted_set unknown))
      | [] =>
          if negb (in_strs (dget d "mode" VNone) MODES) then policy_error "POLICY_MODE_INVALID" else
          let! fields := int_fields d INT_FIELDS in
          let p := policy_of (str_val (dget d "mode" VNone)) fields in
          if po_max_per_day p <? po_max_per_hour p then policy_error "POLICY_DAILY_BELOW_HOURLY" else Ok p
      end
  | _ => policy_error "POLICY_SCHEMA_INVALID"
  end.

Section Envelope.
Context `{JsonCanon} `{Ed25519}.

Definition sign_envelope (key : string) (p : Policy) : res pyval :=
  let! signature := sign key (VDict (policy_dict p)) in
  Ok (VDict [("policy", VDict (policy_dict p)); ("signature", VStr signature)]).

Definition open_envelope (envelope : pyval) (public_key : string) : res Policy :=
  match envelope with
  | VDict d =>
      match dget d "signature" VNone with
      | VStr signature =>
          let body := dget d "policy" VNone in
          let! ok := verify public_key body signature in
          if negb ok then policy_error "POLICY_SIGNATURE_INVALID" else parse body
      | _ => policy_error "POLICY_ENVELOPE_INVALID"
      end
  | _ => policy_error "POLICY_ENVELOPE_INVALID"
  end.
End Envelope.

(** The reason a candidate is refused, if it is. *)
Definition adoption_error (current : option Policy) (candidate : Policy) : option string :=
  match current with
  | None => None
  | Some c =>
      if po_version candidate <? po_version c then Some "POLICY_VERSION_REGRESSION"
      else if po_version candidate =? po_version c then
        if bool_decide (candidate = c) then None else Some "POLICY_VERSION_REUSED"
      else None
  end.

(** ** What a parsed policy is *)
Record policy_wf (p : Policy) : Prop := {
  wf_mode : In (po_mode p) MODES;
  wf_fields : Forall (fun b => b_min b <= default 0 (dict_get (b_name b) (("version", po_version p) :: int_items p)) <= b_max b) INT_FIELDS;
  wf_daily : po_max_per_hour p <= po_max_per_day p }.

Lemma in_strs_true v l : in_strs v l = true -> exists s, v = VStr s /\ In s l.
Proof.
  unfold in_strs. intros Hx. apply existsb_exists in Hx as (s & Hs & He). apply eq_str_true in He. eauto.
Qed.

Lemma int_field_ok d b kv : int_field d b = Ok kv ->
  fst kv = b_name b /\ (b_min b <= snd kv <= b_max b \/ (listed OPTIONAL (b_name b) = true /\ snd kv = default_of (b_name b))).
Proof.
  unfold int_field. intros Hf. case_in Hf.
  - injection Hf as <-. apply andb_true_iff in E as [? _]. auto.
  - case_all_in Hf. injection Hf as <-. bools. simpl. split; [done|]. left. lia.
Qed.

(** The fields of a parsed policy, one hypothesis each. *)
Lemma parse_wf v p : parse v = Ok p -> policy_wf p.
Proof.
  unfold parse. intros Hp. destruct v; try discriminate Hp. case_in Hp; [discriminate Hp|]. case_in Hp; [|discriminate Hp].
  case_in Hp; [discriminate Hp|]. apply negb_false_iff, in_strs_true in E1 as (m & Em & Hm). rewrite Em in Hp.
  inv_ok Hp. case_in Hp; [discriminate Hp|]. injection Hp as <-. unfold INT_FIELDS in E1. cbn [int_fields] in E1. inv_ok E1.
  repeat match goal with E : rbind _ _ = Ok _ |- _ => apply rbind_Ok in E as (? & ? & E) end.
  repeat match goal with E : Ok _ = Ok _ |- _ => injection E as <- end.
  repeat match goal with E : int_field _ _ = Ok ?kv |- _ =>
    apply int_field_ok in E; destruct kv as [? ?]; cbn [fst snd b_name b_min b_max] in E; destruct E as [-> E];
    destruct E as [E | [? ->]]; [|try discriminate] end.
  all: unfold policy_of in *; simpl in *; bools; split; simpl; try done; try (by unfold MODES in Hm).
  all: repeat (constructor; [simpl; try lia|]); try constructor; try lia; try done.
Qed.

Lemma listed_In l s : listed l s = true <-> In s l.
Proof.
  unfold listed. rewrite existsb_exists. split; [intros (x & Hx & E); apply String.eqb_eq in E; by subst|].
  intros Hs. exists s. by rewrite String.eqb_refl.
Qed.

Lemma parse_policy_dict p : policy_wf p -> parse (VDict (policy_dict p)) = Ok p.
Proof.
  intros [Hm Hf Hd]. unfold parse.
  assert (in_strs (dget (policy_dict p) "mode" VNone) MODES = true) as Hmode.
  { apply existsb_exists. exists (po_mode p). split; [done|]. by apply eq_str_true. }
  change (eq_str (dget (policy_dict p) "schema" VNone) POLICY_SCHEMA) with true. cbn [negb].
  change (unknown_fields (policy_dict p)) with (@nil string). cbv iota. rewrite Hmode. cbn [negb].
  unfold INT_FIELDS in *. repeat (apply Forall_cons in Hf as [?F Hf]). simpl in *.
  assert (forall d b z, dget d (b_name b) VNone = VInt z -> has_key (b_name b) d = true -> b_min b <= z <= b_max b ->
    int_field d b = Ok (b_name b, z)) as Hfield.
  { intros d b z Hz Hk [Hl Hu]. unfold int_field. rewrite Hk, Hz, andb_false_r.
    by rewrite (proj2 (Z.leb_le _ _) Hl), (proj2 (Z.leb_le _ _) Hu). }
  repeat (erewrite Hfield; [|reflexivity|reflexivity|simpl; lia]; cbn [rbind]).
  unfold policy_of. simpl. destruct (Z.ltb_spec (po_max_per_day p) (po_max_per_hour p)); [lia|]. by destruct p.
Qed.
