(* ===== verification/AgentObserve.v ===== *)
(** * Recovery agent: observations and delivery evidence

    Models src/recovery-control/src/cra/observe.py, the transport contract of
    runtime_binding.py and recovery.py: how the published observation becomes a
    typed one, which connection it names, and what counts as sending progress.
    Probes of the network are readings. *)
From S2P Require Import Prelude PyVal UtcTime FastPolicy EffectContract EffectModel EffectReconcile AgentPolicy.

(** The zone of the machine, for naive times; [str(ip_address(s))]; [isoformat()]. *)
Class LocalZone := local_offset : Q -> Q.
Class IpText := ip_text : string -> option string.
Class IsoFull := isoformat : Q -> string.

(** ** Comparisons of decoded values

    Numbers compare with numbers and strings with strings; anything else raises,
    which every caller here treats as "no". JSON arrays, which also have an order,
    are not written by any producer and count as raising. *)
Definition pyfloat_lt (f g : pyfloat) : bool :=
  match f, g with
  | Fin p, Fin q => Qltb p q
  | NegInf, (Fin _ | PosInf) | Fin _, PosInf => true
  | _, _ => false
  end.
Definition py_lt (v w : pyval) : bool :=
  match v, w with
  | VStr s, VStr t => match String.compare s t with Lt => true | _ => false end
  | _, _ => match as_number v, as_number w with Some f, Some g => pyfloat_lt f g | _, _ => false end
  end.
Definition py_le (v w : pyval) : bool :=
  match v, w with
  | VStr s, VStr t => match String.compare s t with Gt => false | _ => true end
  | _, _ => match as_number v, as_number w with Some f, Some g => pyfloat_lt f g || pyfloat_eq f g | _, _ => false end
  end.

(** [v[k]], no value when it raises. *)
Definition item (v : pyval) (k : string) : option pyval := match v with VDict d => dict_get k d | _ => None end.
Definition qval (q : Q) : pyval := VFloat (Fin q).

(** ** The transport contract (runtime_binding.py) *)
Definition TRANSPORT_SCHEMA : string := "runtime.delivery_transport.v1".
Definition FIELDS : list string :=
  ["schema"; "executor_instance_id"; "pod_uid"; "generation"; "pid"; "start_ticks"; "socket_inode"; "local_host"; "local_port";
   "peer_host"; "peer_port"; "route"; "route_generation"].

Fixpoint every (f : string -> res unit) (l : list string) : res unit :=
  match l with [] => Ok tt | x :: l' => let! _ := f x in every f l' end.

Section Transport.
Context `{IpText}.
Definition canonical_address (v : pyval) : bool :=
  match v with VStr s => bool_decide (ip_text s = Some s) | _ => false end.
Definition validate_transport (value : pyval) : res dict :=
  match value with
  | VDict d =>
      let! _ := require (exact_keys FIELDS d && eq_str (dget d "schema" VNone) TRANSPORT_SCHEMA) "TRANSPORT_NOT_EXACT" in
      let! route := in_str_set (dget d "route" VNone) ["PRIMARY"; "FALLBACK"] in
      let! _ := require route "TRANSPORT_ROUTE_INVALID" in
      let! _ := every (fun k => require (is_str (dget d k VNone) && truthy (dget d k VNone)) "TRANSPORT_IDENTITY_MISSING")
                  ["executor_instance_id"; "pod_uid"; "generation"] in
      let! _ := every (fun k => require (is_int (dget d k VNone) && (0 <? int_val (dget d k VNone))) "TRANSPORT_INTEGER_INVALID")
                  ["pid"; "start_ticks"; "socket_inode"; "local_port"; "peer_port"; "route_generation"] in
      let port k := int_val (dget d k VNone) in
      let! _ := require ((1 <? port "pid") && (Z.max (port "peer_port") (port "local_port") <=? 65535)) "TRANSPORT_ENDPOINT_INVALID" in
      let! _ := every (fun k => require (canonical_address (dget d k VNone)) "TRANSPORT_ADDRESS_NOT_CANONICAL")
                  ["local_host"; "peer_host"] in
      Ok d
  | _ => protocol_error "TRANSPORT_NOT_EXACT"
  end.
End Transport.

(** ** Observations (observe.py) *)
Definition OBSERVATION_SCHEMA : string := "runtime.ffmpeg_observation.v1".

Record TcpMetrics : Type := mkTcp { bytes_sent : Z; notsent : Z; unacked : Z; lastsnd_ms : Z; bytes_acked : option Z }.

Definition tcp_parse (value : pyval) : res (option TcpMetrics) :=
  match value with
  | VDict d =>
      if negb (has_key "bytes_sent" d) then Ok None else
      let parsed :=
        let! sent := int0 d "bytes_sent" in
        let! queued := int0 d "notsent" in
        let! flying := int0 d "unacked" in
        let! idle := int0 d "lastsnd_ms" in
        match dget d "bytes_acked" VNone with
        | VNone => Ok (Some (mkTcp sent queued flying idle None))
        | v => let! acked := py_int v in Ok (Some (mkTcp sent queued flying idle (Some acked)))
        end in
      match parsed with Err e => if value_or_type_error e then Ok None else Err e | r => r end
  | _ => Ok None
  end.

Record Observation : Type := mkObservation {
  observation_id : string; executor_instance_id : string; sequence : Z; observed_at : Q; pod_uid : string;
  ffmpeg_generation : string; ffmpeg_running : bool; ffmpeg_uptime_sec : Z; active_producer_id : string;
  active_producer_generation : Z; in_flight_count : Z; target_valid : bool; tcp : option TcpMetrics; raw : dict }.

Definition raw_get (o : Observation) (k : string) : pyval := dget (raw o) k VNone.
Definition generation_key (o : Observation) : string := (pod_uid o ++ "/" ++ ffmpeg_generation o)%string.

Section Observe.
Context `{IpText} `{Repr} `{FromIso} `{LocalZone}.

(** The connection the observation proves, when it belongs to the observed process. *)
Definition binding (o : Observation) : option dict :=
  match raw_get o "delivery_transport" with
  | VDict sample =>
      if negb (eq_str (dget sample "status" VNone) "AVAILABLE") then None else
      match validate_transport (dget sample "binding" VNone) with
      | Err _ => None
      | Ok value =>
          let same k w := py_eq (dget value k VNone) w in
          if same "executor_instance_id" (VStr (executor_instance_id o)) && same "pod_uid" (VStr (pod_uid o))
             && same "generation" (VStr (ffmpeg_generation o)) && same "pid" (raw_get o "local_ffmpeg_pid")
             && same "route" (raw_get o "delivery_route") && same "route_generation" (raw_get o "delivery_route_generation")
          then Some value else None
      end
  | _ => None
  end.
Definition binding_status (o : Observation) : string :=
  if negb (has_key "delivery_transport" (raw o)) then "LEGACY_UNBOUND"
  else match binding o with Some _ => "AVAILABLE" | None => "UNAVAILABLE" end.

(** The tuple of the code; the sorted items of a binding are compared as the dict. *)
Definition transport_identity (o : Observation) : pyval :=
  VList [VStr (executor_instance_id o); VStr (generation_key o); raw_get o "delivery_route"; raw_get o "delivery_route_generation";
         match binding o with Some d => VDict d | None => VStr (binding_status o) end].

(** [astimezone(UTC)] *)
Definition as_utc (t : Q * option Q) : res Q :=
  let u := (fst t - from_option id (local_offset (fst t)) (snd t))%Q in
  if Qltb u (inject_Z MIN_TS) || Qleb (inject_Z MAX_TS + 1) u then Err EOverflow else Ok u.

Definition raw_metrics (d : dict) : pyval :=
  match dget d "delivery_transport" VNone with
  | VDict sample => dget sample "tcp_metrics" VNone
  | _ => dget d "tcp_metrics" VNone
  end.

Definition observation_of (d : dict) : res Observation :=
  let! text := idx (VDict d) "observed_at" in
  let! at_ := match fromisoformat (py_str text) with Some t => as_utc t | None => Err (EValue "Invalid isoformat string") end in
  let! id := idx (VDict d) "observation_id" in
  let! seq := idx (VDict d) "sequence" in
  let! seq := py_int seq in
  let! uptime := int0 d "ffmpeg_uptime_sec" in
  let! generation := int0 d "active_producer_generation" in
  let! flying := int0 d "in_flight_count" in
  let! metrics := tcp_parse (raw_metrics d) in
  Ok (mkObservation (py_str id) (str0 d "executor_instance_id") seq at_ (str0 d "pod_uid") (str0 d "ffmpeg_generation")
        (is_true (dget d "ffmpeg_running" VNone)) uptime (str0 d "active_producer_id") generation flying
        (eq_str (dget d "target_snapshot_status" VNone) "VALID" && is_dict (dget d "target_identity" VNone)) metrics d).

(** A usable observation, or why there is none. *)
Definition parse_observation (value : pyval) (max_age : option Q) (now : Q) : res (string + Observation) :=
  match value with
  | VDict d =>
      if negb (eq_str (dget d "schema_version" VNone) OBSERVATION_SCHEMA) then Ok (inl "OBSERVATION_SCHEMA_INVALID") else
      match observation_of d with
      | Err e => match e with EKey => Ok (inl "OBSERVATION_INVALID")
                 | _ => if value_or_type_error e then Ok (inl "OBSERVATION_INVALID") else Err e end
      | Ok o =>
          let age := (now - observed_at o)%Q in
          match max_age with
          | Some m => if Qltb age (-1) || Qltb m age then Ok (inl "OBSERVATION_STALE") else Ok (inr o)
          | None => Ok (inr o)
          end
      end
  | _ => Ok (inl "OBSERVATION_SCHEMA_INVALID")
  end.

(** What reading and decoding the file gave. *)
Inductive file_content : Type := Missing | Unreadable | Undecodable | Content (v : pyval) | Broken (e : exn).
Definition read_observation (f : file_content) (max_age now : Q) : res (string + Observation) :=
  match f with
  | Missing => Ok (inl "OBSERVATION_MISSING")
  | Unreadable => Ok (inl "OBSERVATION_UNREADABLE")
  | Undecodable => Ok (inl "OBSERVATION_INVALID")
  | Content v => parse_observation v (Some max_age) now
  | Broken e => Err e
  end.
End Observe.

Record Network : Type := mkNetwork { gateway_ok : bool; public_ok_count : Z; ingest_ok : bool; timed_out : bool }.
Definition network_down (n : Network) : bool := negb (gateway_ok n) && (public_ok_count n =? 0).

Record Endpoint : Type := mkEndpoint { host : string; port : Z }.
#[export] Instance endpoint_eq_dec : EqDecision Endpoint.
Proof. solve_decision. Defined.
Definition new_endpoint `{IpText} (host : string) (port : Z) : res Endpoint :=
  match ip_text host with
  | None => Err (EValue "not an IP address")
  | Some _ => if (1 <=? port) && (port <=? 65535) then Ok (mkEndpoint host port) else Err (EValue "invalid ingest port")
  end.

(** ** Delivery evidence (recovery.py) *)
Definition tcp_dict (t : TcpMetrics) : dict :=
  [("bytes_sent", VInt (bytes_sent t)); ("notsent", VInt (notsent t)); ("unacked", VInt (unacked t));
   ("lastsnd_ms", VInt (lastsnd_ms t)); ("bytes_acked", from_option VInt VNone (bytes_acked t))].
Definition opt_tcp (o : option TcpMetrics) : pyval := match o with Some t => VDict (tcp_dict t) | None => VNone end.

Definition delivery_sample `{IsoFull} (o : Observation) : dict :=
  [("generation_key", VStr (generation_key o)); ("executor_instance_id", VStr (executor_instance_id o));
   ("delivery_route", raw_get o "delivery_route"); ("delivery_route_generation", raw_get o "delivery_route_generation");
   ("sequence", VInt (sequence o)); ("observed_at", VStr (isoformat (observed_at o))); ("uptime_sec", VInt (ffmpeg_uptime_sec o));
   ("ffmpeg_running", VBool (ffmpeg_running o)); ("tcp", opt_tcp (tcp o))].

Definition slash : Ascii.ascii := Ascii.ascii_of_nat 47.
(** [s.partition("/")]: what precedes and follows the first separator. *)
Fixpoint partition_slash (s : string) : string * string :=
  match s with
  | EmptyString => ("", "")
  | String c s' => if Ascii.eqb c slash then ("", s') else let '(a, b) := partition_slash s' in (String c a, b)
  end.

Section Evidence.
Context `{FromIso}.

(** [(fromisoformat(a) - fromisoformat(b)).total_seconds()], no value when it raises. *)
Definition seconds_between (later earlier : option pyval) : option Q :=
  match later, earlier with
  | Some (VStr a), Some (VStr b) =>
      match fromisoformat a, fromisoformat b with
      | Some (w, Some o), Some (w', Some o') => Some ((w - o) - (w' - o'))%Q
      | Some (w, None), Some (w', None) => Some (w - w')%Q
      | _, _ => None
      end
  | _, _ => None
  end.

(** [if_all m k]: a missing value makes the answer "no". *)
Definition given_value {A} (m : option A) (k : A -> bool) : bool := match m with Some a => k a | None => false end.

Definition after_request (sample response : dict) : bool :=
  match dict_get "generation_key" sample with
  | Some (VStr key) =>
      let '(pod, generation) := partition_slash key in
      given_value (seconds_between (dict_get "observed_at" sample) (dict_get "agent_request_issued_at" response)) (fun elapsed =>
      given_value (dict_get "agent_pod_uid" response) (fun v => py_eq (VStr pod) v) &&
      given_value (dict_get "executor_instance_id" sample) (fun v =>
        given_value (dict_get "agent_executor_instance_id" response) (fun w => py_eq v w)) &&
      negb (String.eqb generation "") &&
      given_value (dict_get "agent_previous_generation" response) (fun v => negb (py_eq (VStr generation) v)) &&
      given_value (dict_get "uptime_sec" sample) (fun v =>
        py_le (VInt 0) v && py_le v (qval elapsed) &&
        given_value (dict_get "agent_verify_window_sec" response) (fun w => py_le (qval elapsed) w)))
  | _ => false
  end.

Definition SAME_KEYS : list string := ["generation_key"; "executor_instance_id"; "delivery_route"; "delivery_route_generation"].
Definition same_item (first second : dict) (k : string) : bool :=
  given_value (dict_get k first) (fun v => given_value (dict_get k second) (fun w => py_eq v w)).

Definition sending_progress (first second : dict) (max_gap : pyval) (lastsnd : pyval) : bool :=
  given_value (seconds_between (dict_get "observed_at" second) (dict_get "observed_at" first)) (fun gap =>
  forallb (same_item first second) SAME_KEYS &&
  given_value (dict_get "ffmpeg_running" first) is_true && given_value (dict_get "ffmpeg_running" second) is_true &&
  given_value (dict_get "sequence" second) (fun s => given_value (dict_get "sequence" first) (fun f => py_lt f s)) &&
  py_lt (VInt 0) (qval gap) && py_le (qval gap) max_gap &&
  given_value (dict_get "tcp" first) (fun tf => given_value (item tf "bytes_sent") (fun bf =>
  given_value (dict_get "tcp" second) (fun ts => given_value (item ts "bytes_sent") (fun bs =>
    py_le (VInt 0) bf && py_lt bf bs &&
    given_value (item ts "lastsnd_ms") (fun idle => py_le (VInt 0) idle && py_lt idle lastsnd))))))
  .
End Evidence.
