(* ===== verification/AgentDecide.v ===== *)
(** * Recovery agent: the stall tracker and the decision

    Models src/recovery-control/src/cra/decide.py: consecutive stalled samples of
    one connection, and whether a confirmed stall is to be answered by a restart. *)
From S2P Require Import Prelude PyVal UtcTime FastPolicy EffectContract EffectModel AgentPolicy AgentObserve.

Definition RESTART : string := "RESTART".
Definition WOULD_RESTART : string := "WOULD_RESTART".
Definition NONE : string := "NONE".

Record StallTracker : Type := mkTracker {
  t_key : string; t_last_sequence : Z; t_last_bytes_sent : Z; t_last_bytes_acked : option Z; t_streak : Z;
  t_stall_started_at : option Q; t_last_observed_at : option Q; t_identity : pyval; t_criteria : list Z }.
Definition new_tracker : StallTracker := mkTracker "" 0 (-1) None 0 None None (VList []) [].

(** One stalled interval: nothing acknowledged while data is still queued. *)
Definition stall_sample (m : TcpMetrics) (last_sent : Z) (last_acked : option Z) (p : Policy) : bool :=
  let pressure := (po_stall_notsent_bytes p <=? notsent m) || (po_stall_unacked p <=? unacked m) in
  match bytes_acked m, last_acked with
  | Some acked, Some last => pressure && (acked =? last)
  | _, _ => pressure && (0 <=? last_sent) && (bytes_sent m =? last_sent) && (po_stall_lastsnd_ms p <=? lastsnd_ms m)
  end.

Definition criteria_of (p : Policy) : list Z :=
  [po_stall_lastsnd_ms p; po_stall_notsent_bytes p; po_stall_unacked p; po_stall_confirm_samples p].

Section Tracker.
Context `{IpText} `{Repr} `{FromIso} `{LocalZone}.

Definition last_sent (o : Observation) : Z := match tcp o with Some m => bytes_sent m | None => -1 end.
Definition last_acked (o : Observation) : option Z := match tcp o with Some m => bytes_acked m | None => None end.
Definition restart_tracking (o : Observation) (p : Policy) : StallTracker :=
  mkTracker (generation_key o) (sequence o) (last_sent o) (last_acked o) 0 None (Some (observed_at o)) (transport_identity o) (criteria_of p).

Definition gap_of (t : StallTracker) (o : Observation) : Q :=
  match t_last_observed_at t with Some last => (observed_at o - last)%Q | None => 0%Q end.
(** The sample does not continue what was tracked. *)
Definition discontinuous (t : StallTracker) (o : Observation) (p : Policy) (max_gap : Q) : bool :=
  negb (py_eq (transport_identity o) (t_identity t)) || (sequence o <? t_last_sequence t)
  || Qltb (gap_of t o) 0 || Qltb max_gap (gap_of t o) || negb (bool_decide (criteria_of p = t_criteria t)).

Definition stalled_now (t : StallTracker) (o : Observation) (p : Policy) : bool :=
  match tcp o with Some m => stall_sample m (t_last_bytes_sent t) (t_last_bytes_acked t) p | None => false end.

(** [StallTracker.update]: whether this sample is stalled, and the tracker with its streak. *)
Definition update (t : StallTracker) (o : Observation) (p : Policy) (max_gap : Q) : bool * StallTracker :=
  if discontinuous t o p max_gap then (false, restart_tracking o p)
  else if sequence o =? t_last_sequence t then (0 <? t_streak t, t)
  else
    let stalled := stalled_now t o p in
    let started := if stalled then (if t_streak t =? 0 then t_last_observed_at t else t_stall_started_at t) else None in
    (stalled, mkTracker (t_key t) (sequence o) (last_sent o) (last_acked o) (if stalled then t_streak t + 1 else 0)
                started (Some (observed_at o)) (t_identity t) (t_criteria t)).
End Tracker.

Definition stall_duration (t : StallTracker) (now : Q) : Q :=
  match t_stall_started_at t with
  | Some at_ => if t_streak t =? 0 then 0%Q else qmax 0 (now - at_)%Q
  | None => 0%Q
  end.

(** ** The decision *)
Record History : Type := mkHistory {
  generation_already_acted : bool; last_action_at : option Q; actions_last_hour : Z; actions_last_day : Z }.
Record AgentDecision : Type := mkDecision { d_outcome : string; d_reason : string; d_blockers : list string }.
Definition summary (d : AgentDecision) : string := (d_outcome d ++ ":" ++ d_reason d ++ ":" ++ join_with "," (d_blockers d))%string.

Record evidence : Type := mkEvidence {
  e_now : Q; e_streak : Z; e_duration : Q; e_network : option Network; e_history : History; e_producer : string;
  e_generation : Z; e_stop : bool }.

Definition network_blocker (n : option Network) : list string :=
  match n with
  | None => ["NETWORK_NOT_PROBED"]
  | Some n => if timed_out n then ["NETWORK_PROBE_TIMEOUT"] else if network_down n then ["NETWORK_DOWN"]
              else if negb (ingest_ok n) then ["INGEST_UNREACHABLE"] else []
  end.
Definition blocked_if (b : bool) (reason : string) : list string := if b then [reason] else [].

Definition child_missing (o : Observation) : bool :=
  negb (ffmpeg_running o) || String.eqb (ffmpeg_generation o) "" || String.eqb (pod_uid o) "".
(** Within the cooldown of the last action. *)
Definition cooling (e : evidence) (p : Policy) : bool :=
  match last_action_at (e_history e) with
  | Some at_ => Qltb (e_now e - at_) (inject_Z (po_cooldown_sec p))
  | None => false
  end.
Definition no_authority (o : Observation) (e : evidence) : bool :=
  negb (String.eqb (active_producer_id o) (e_producer e)) || negb (active_producer_generation o =? e_generation e).
Definition context_missing (o : Observation) : bool :=
  String.eqb (executor_instance_id o) "" || negb (truthy (raw_get o "delivery_route"))
  || negb (is_int (raw_get o "delivery_route_generation")) || (int_val (raw_get o "delivery_route_generation") <? 1).

Definition blockers (o : Observation) (p : Policy) (e : evidence) : list string :=
  let enforce := String.eqb (po_mode p) "enforce" in
  network_blocker (e_network e)
  ++ blocked_if (child_missing o) "FFMPEG_NOT_RUNNING"
  ++ blocked_if (negb (target_valid o)) "TARGET_UNAVAILABLE"
  ++ blocked_if (negb (is_none (raw_get o "runtime_lifecycle_state") || eq_str (raw_get o "runtime_lifecycle_state") "FFMPEG_RUNNING"))
       "FFMPEG_NOT_IN_RUNNING_STATE"
  ++ blocked_if (ffmpeg_uptime_sec o <? po_min_ffmpeg_uptime_sec p) "FFMPEG_TOO_YOUNG"
  ++ blocked_if (negb (in_flight_count o =? 0)) "EXECUTOR_IN_FLIGHT"
  ++ blocked_if (generation_already_acted (e_history e)) "GENERATION_ALREADY_ACTED"
  ++ blocked_if (cooling e p) "COOLDOWN"
  ++ blocked_if (po_max_per_hour p <=? actions_last_hour (e_history e)) "HOURLY_LIMIT"
  ++ blocked_if (po_max_per_day p <=? actions_last_day (e_history e)) "DAILY_LIMIT"
  ++ blocked_if (e_stop e) "LOCAL_STOP"
  ++ blocked_if (String.eqb (po_mode p) "off") "MODE_OFF"
  ++ blocked_if (enforce && no_authority o e) "NOT_EXECUTOR_AUTHORITY"
  ++ blocked_if (enforce && context_missing o) "RUNTIME_CONTEXT_UNAVAILABLE".

Definition decide_restart (o : Observation) (p : Policy) (e : evidence) : AgentDecision :=
  if e_streak e <? po_stall_confirm_samples p then
    if child_missing o then mkDecision NONE "FFMPEG_NOT_RUNNING" []
    else if negb (target_valid o) then mkDecision NONE "TARGET_UNAVAILABLE" []
    else mkDecision NONE (if negb (e_streak e =? 0) then "STALL_UNCONFIRMED"
                          else match tcp o with None => "NO_TCP_METRICS" | Some _ => "HEALTHY" end) []
  else if Qltb (e_duration e) (inject_Z (po_stall_grace_sec p)) then mkDecision NONE "STALL_CONFIRMED" ["WITHIN_ENGINE_GRACE"]
  else
    match blockers o p e with
    | [] => mkDecision (if String.eqb (po_mode p) "enforce" then RESTART else WOULD_RESTART) "STALL_CONFIRMED" []
    | l => mkDecision NONE "STALL_CONFIRMED" l
    end.

(** ** What a positive decision rests on *)
Definition acts (d : AgentDecision) : bool := String.eqb (d_outcome d) RESTART || String.eqb (d_outcome d) WOULD_RESTART.

Record clearance (o : Observation) (p : Policy) (e : evidence) : Prop := {
  cl_streak : po_stall_confirm_samples p <= e_streak e;
  cl_grace : (inject_Z (po_stall_grace_sec p) <= e_duration e)%Q;
  cl_network : exists n, e_network e = Some n /\ timed_out n = false /\ network_down n = false /\ ingest_ok n = true;
  cl_child : child_missing o = false;
  cl_target : target_valid o = true;
  cl_lifecycle : raw_get o "runtime_lifecycle_state" = VNone \/ raw_get o "runtime_lifecycle_state" = VStr "FFMPEG_RUNNING";
  cl_uptime : po_min_ffmpeg_uptime_sec p <= ffmpeg_uptime_sec o;
  cl_in_flight : in_flight_count o = 0;
  cl_claimed : generation_already_acted (e_history e) = false;
  cl_cooldown : cooling e p = false;
  cl_hour : actions_last_hour (e_history e) < po_max_per_hour p;
  cl_day : actions_last_day (e_history e) < po_max_per_day p;
  cl_stop : e_stop e = false;
  cl_off : po_mode p <> "off";
  cl_authority : po_mode p = "enforce" -> no_authority o e = false;
  cl_context : po_mode p = "enforce" -> context_missing o = false }.

Lemma blocked_nil b r l : blocked_if b r ++ l = [] <-> b = false /\ l = [].
Proof. destruct b; simpl; [split; [done | by intros [? _]] | tauto]. Qed.
Lemma network_clear n : network_blocker n = [] <->
  exists x, n = Some x /\ timed_out x = false /\ network_down x = false /\ ingest_ok x = true.
Proof.
  unfold network_blocker. destruct n as [x|]; [|split; [done | by intros (? & ? & _)]].
  destruct (timed_out x) eqn:E, (network_down x) eqn:E1, (ingest_ok x) eqn:E2; simpl; split; try done; eauto;
    intros (y & [= <-] & ? & ? & ?); congruence.
Qed.

(** [decide_restart] answers with an action exactly when nothing blocks it. *)
Lemma decide_acts o p e : acts (decide_restart o p e) = true <-> clearance o p e.
Proof.
  unfold decide_restart. destruct (Z.ltb_spec (e_streak e) (po_stall_confirm_samples p)) as [Hs|Hs].
  { split; [|intros [Hc]; lia]. destruct (child_missing o), (target_valid o); done. }
  destruct (Qltb_spec (e_duration e) (inject_Z (po_stall_grace_sec p))) as [Hg|Hg].
  { split; [done|]. intros [_ Hc]. exfalso. lra. }
  transitivity (blockers o p e = []).
  { destruct (blockers o p e); [|done]. split; [done|]. intros _. by destruct (String.eqb (po_mode p) "enforce"). }
  unfold blockers. cbv zeta. split.
  - intros Hb. apply app_eq_nil in Hb as [Hn Hb]. apply network_clear in Hn.
    rewrite !blocked_nil in Hb. rewrite <- (app_nil_r (blocked_if (_ && context_missing o) _)), blocked_nil in Hb.
    destruct Hb as (Hb1 & Hb2 & Hb3 & Hb4 & Hb5 & Hb6 & Hb7 & Hb8 & Hb9 & Hb10 & Hb11 & Hb12 & Hb13 & _).
    apply negb_false_iff in Hb2, Hb3, Hb5. apply Z.eqb_eq in Hb5. apply Z.ltb_ge in Hb4. apply Z.leb_gt in Hb8, Hb9.
    split; try done.
    + apply orb_true_iff in Hb3 as [Hb3|Hb3]; [left; by destruct (raw_get o "runtime_lifecycle_state") | right; by apply eq_str_true].
    + by apply String.eqb_neq.
    + intros E. by rewrite E in Hb12.
    + intros E. by rewrite E in Hb13.
  - intros []. rewrite (proj2 (network_clear _) cl_network0). simpl.
    rewrite !blocked_nil. rewrite <- (app_nil_r (blocked_if (_ && context_missing o) _)), blocked_nil.
    split_and!; try done; try (by apply Z.ltb_ge); try (by apply Z.leb_gt).
    + by rewrite cl_target0.
    + by destruct cl_lifecycle0 as [-> | ->].
    + by rewrite cl_in_flight0.
    + by apply String.eqb_neq.
    + destruct (String.eqb_spec (po_mode p) "enforce"); [by rewrite cl_authority0 | done].
    + destruct (String.eqb_spec (po_mode p) "enforce"); [by rewrite cl_context0 | done].
Qed.
Lemma decide_outcome o p e : acts (decide_restart o p e) = true ->
  decide_restart o p e = mkDecision (if String.eqb (po_mode p) "enforce" then RESTART else WOULD_RESTART) "STALL_CONFIRMED" [].
Proof.
  unfold decide_restart. destruct (_ <? _); [by destruct (child_missing o), (target_valid o)|].
  destruct (Qltb _ _); [done|]. by destruct (blockers o p e).
Qed.
