(* ===== verification/AgentStore.v ===== *)
(** * Recovery agent: the durable store

    Models src/recovery-control/src/cra/store.py: the append-only audit log, the
    claims of actions and the key/value table.  Rows of [actions] and [audit] are
    never deleted, so the row with identifier [n] is the [n]-th of its list.  A
    time column holds the milliseconds its text denotes: all texts have one width
    and one offset, so their order is that of the instants.  A JSON column holds
    the value its text decodes to. *)
From S2P Require Import Prelude PyVal FastPolicy EffectContract EffectModel AgentDecide.

#[global] Open Scope db_scope.

(** [isoformat(timespec="milliseconds")], and the instant such a text denotes. *)
Definition _ts (t : Q) : Z := Qfloor (t * 1000).
Definition ts_instant (ms : Z) : Q := (inject_Z ms / 1000)%Q.

Record audit_record : Type := mkAudit { au_ts : Z; au_kind : string; au_payload : dict }.
Record action_row : Type := mkAction {
  act_key : string; act_mode : string; act_request_id : string; act_policy_version : Z; act_created_at : Z; act_bytes_sent : Z;
  act_state : string; act_response : option dict; act_verify_result : option string; act_verified_at : option Z }.
Record agent_store : Type := mkStore { audit_log : list audit_record; actions : list action_row; kv_table : gmap string pyval }.

Definition set_audit (x : list audit_record) (s : agent_store) : agent_store := mkStore x (actions s) (kv_table s).
Definition set_actions (x : list action_row) (s : agent_store) : agent_store := mkStore (audit_log s) x (kv_table s).
Definition set_kv (x : gmap string pyval) (s : agent_store) : agent_store := mkStore (audit_log s) (actions s) x.

Definition set_outcome (state : string) (response : dict) (a : action_row) : action_row :=
  mkAction (act_key a) (act_mode a) (act_request_id a) (act_policy_version a) (act_created_at a) (act_bytes_sent a)
    state (Some response) (act_verify_result a) (act_verified_at a).
Definition set_verified (result : string) (at_ : Z) (a : action_row) : action_row :=
  mkAction (act_key a) (act_mode a) (act_request_id a) (act_policy_version a) (act_created_at a) (act_bytes_sent a)
    (act_state a) (act_response a) (Some result) (Some at_).

(** The tables of a new database: [CREATE TABLE], and the identifier of the database. *)
Definition new_store (instance_id : string) : agent_store := mkStore [] [] {[ "instance_id" := VStr instance_id ]}.

(** The row with identifier [id], if there is one. *)
Definition action (id : Z) (s : agent_store) : option action_row := if 1 <=? id then actions s !! Z.to_nat (id - 1) else None.
Definition update_action (f : action_row -> action_row) (id : Z) (s : agent_store) : agent_store :=
  if 1 <=? id then set_actions (alter f (Z.to_nat (id - 1)) (actions s)) s else s.
(** The rows with their identifiers. *)
Definition numbered {A} (l : list A) : list (Z * A) := imap (fun n x => (Z.of_nat n + 1, x)) l.

(** ** Audit *)
Definition last_seq (s : agent_store) : Z := Z.of_nat (length (audit_log s)).
Definition append (now : Q) (kind : string) (payload : dict) : Tx agent_store Z :=
  run! db_mod (fun s => set_audit (audit_log s ++ [mkAudit (_ts now) kind payload]) s) then
  db_get last_seq.
Definition record_audit (now : Q) (kind : string) (payload : dict) : agent_store -> res Z * agent_store :=
  transaction (append now kind payload).
Definition read_audit (after_seq limit : Z) (s : agent_store) : list (Z * audit_record) :=
  take (Z.to_nat limit) (List.filter (fun kv => after_seq <? fst kv) (numbered (audit_log s))).

(** ** Actions *)
Definition claims (key mode : string) (a : action_row) : bool := String.eqb (act_key a) key && String.eqb (act_mode a) mode.
Definition claimed (key mode : string) (s : agent_store) : bool := existsb (claims key mode) (actions s).

Definition reserved_payload (id : Z) (key mode request_id : string) (policy_version : Z) (evidence : dict) : dict :=
  [("action_id", VInt id); ("generation_key", VStr key); ("mode", VStr mode); ("request_id", VStr request_id);
   ("policy_version", VInt policy_version); ("evidence", VDict evidence)].

(** The claim of a generation; UNIQUE(generation_key, mode) refuses a second one. *)
Definition reserve_body (now : Q) (key mode request_id : string) (policy_version bytes : Z) (evidence : dict) : Tx agent_store (option Z) :=
  do! taken := db_get (claimed key mode) in
  if taken || negb (listed ["dry_run"; "enforce"] mode) then db_ret None else
  run! db_mod (fun s => set_actions (actions s ++ [mkAction key mode request_id policy_version (_ts now) bytes "RESERVED" None None None]) s) then
  do! id := db_get (fun s => Z.of_nat (length (actions s))) in
  run! append now "action_reserved" (reserved_payload id key mode request_id policy_version evidence) then
  db_ret (Some id).
Definition reserve_action now key mode request_id policy_version bytes evidence : agent_store -> res (option Z) * agent_store :=
  transaction (reserve_body now key mode request_id policy_version bytes evidence).

Definition complete_body (now : Q) (id : Z) (state : string) (response : dict) : Tx agent_store unit :=
  run! db_mod (update_action (fun a => if String.eqb (act_state a) "RESERVED" then set_outcome state response a else a) id) then
  run! append now "action_result" [("action_id", VInt id); ("state", VStr state); ("response", VDict response)] then
  db_ret tt.
Definition complete_action now id state response : agent_store -> res unit * agent_store :=
  transaction (complete_body now id state response).

Definition verification_body (now : Q) (id : Z) (result : string) (detail : dict) : Tx agent_store unit :=
  run! db_mod (update_action (fun a => match act_verify_result a with None => set_verified result (_ts now) a | Some _ => a end) id) then
  run! append now "action_verified" (dict_update [("action_id", VInt id); ("result", VStr result)] detail) then
  db_ret tt.
Definition record_verification now id result detail : agent_store -> res unit * agent_store :=
  transaction (verification_body now id result detail).

(** Terminal evidence of the executor replaces an unknown outcome, once. *)
Definition outcome_open (id : Z) (s : agent_store) : bool :=
  match action id s with Some a => String.eqb (act_state a) "OUTCOME_UNKNOWN" | None => false end.
Definition reconcile_body (now : Q) (id : Z) (response : dict) : Tx agent_store unit :=
  do! changed := db_get (outcome_open id) in
  if changed : bool then
    run! db_mod (update_action (set_outcome "EFFECT_OBSERVED" response) id) then
    run! append now "action_reconciled" [("action_id", VInt id); ("previous_state", VStr "OUTCOME_UNKNOWN");
           ("state", VStr "EFFECT_OBSERVED"); ("response", VDict response)] then
    db_ret tt
  else db_ret tt.
Definition reconcile_observed_action now id response : agent_store -> res unit * agent_store :=
  transaction (reconcile_body now id response).

Definition resumed_enforce_actions (s : agent_store) : list (Z * string) :=
  map (fun kv => (fst kv, act_request_id (snd kv)))
    (List.filter (fun kv => String.eqb (act_mode (snd kv)) "enforce" && bool_decide (act_verify_result (snd kv) = Some "DELIVERY_RESUMED"))
       (numbered (actions s))).
Definition unverified_actions (s : agent_store) : list (Z * action_row) :=
  List.filter (fun kv => bool_decide (act_verify_result (snd kv) = None)) (numbered (actions s)).

(** [MAX(created_at)] and [COUNT(...)] of one mode. *)
Definition of_mode (mode : string) (s : agent_store) : list Z :=
  map act_created_at (List.filter (fun a => String.eqb (act_mode a) mode) (actions s)).
Fixpoint maximum (l : list Z) : option Z :=
  match l with [] => None | z :: l' => Some (match maximum l' with Some m => Z.max z m | None => z end) end.
Definition count_since (mode : string) (since : Q) (s : agent_store) : Z :=
  Z.of_nat (length (List.filter (fun ms => _ts since <=? ms) (of_mode mode s))).
Definition history (now : Q) (key mode : string) (s : agent_store) : History :=
  mkHistory (claimed key mode s) (option_map ts_instant (maximum (of_mode mode s)))
    (count_since mode (now - 3600)%Q s) (count_since mode (now - 86400)%Q s).

(** ** Key/value *)
Definition kv_get (key : string) (s : agent_store) : option pyval := kv_table s !! key.
Definition put_body (key : string) (value : pyval) (entry : option (Q * string * dict)) : Tx agent_store unit :=
  run! db_mod (fun s => set_kv (<[key := value]> (kv_table s)) s) then
  match entry with
  | Some (now, kind, payload) => run! append now kind payload then db_ret tt
  | None => db_ret tt
  end.
Definition put key value entry : agent_store -> res unit * agent_store := transaction (put_body key value entry).
