(* ===== verification/AgentEffect.v ===== *)
(** * Recovery agent: requests to the effect executor, and the policy it acts under

    Models src/recovery-control/src/cra/effect.py, the cached policy of sync.py and
    the configuration and endpoint choice of agent.py.  The socket is a reading. *)
From S2P Require Import Prelude PyVal UtcTime FastPolicy SendSample EffectContract EffectModel AgentPolicy AgentObserve AgentDecide AgentStore.

Section Effect.
Context `{Repr} `{JsonSha} `{TextDigest} `{IsoText}.

(** The identifier derives from the generation: a restarted agent mints the same one. *)
Definition request_id_for (key : string) : string := ("cra-" ++ str_take 40 (sha256_text key))%string.

Definition build_restart_request (o : Observation) (now : Q) (producer_id : string) (producer_generation : Z) (reason : string) : res dict :=
  let request_id := request_id_for (generation_key o) in
  let text k dflt := VStr (py_str (py_or (raw_get o k) (VStr dflt))) in
  let! projection_sequence := int0 (raw o) "projection_sequence" in
  Ok [("schema_version", VStr V2); ("request_id", VStr request_id); ("producer_id", VStr producer_id);
      ("producer_generation", VInt producer_generation); ("intent_type", VStr RESTART_FFMPEG); ("reason", VStr (str_take 512 reason));
      ("failure_domain", VStr "DELIVERY_PATH"); ("issued_at", VStr (iso_ms now)); ("expires_at", VStr (iso_ms (now + 3)%Q));
      ("ffmpeg_target_identity", raw_get o "target_identity"); ("runtime_identity", VNone);
      ("expected_ffmpeg_generation", VStr (ffmpeg_generation o)); ("idempotency_key", VStr request_id); ("correlation_id", VStr request_id);
      ("target_snapshot_id", text "target_snapshot_id" ""); ("runtime_snapshot_id", VStr ""); ("runtime_observation_id", VStr (observation_id o));
      ("expected_executor_instance_id", VStr (executor_instance_id o));
      ("maintenance_evidence_status", text "maintenance_evidence_status" "UNKNOWN"); ("projection_id", text "projection_id" "");
      ("projection_sequence", VInt projection_sequence)].

(** The state of an action after the executor answered. *)
Definition classify (response : dict) (expected_request_id : string) : string :=
  let state := str0 response "state" in
  let refused := is_false (dget response "ok" VNone) in
  if negb (eq_str (dget response "request_id" VNone) expected_request_id) then "OUTCOME_UNKNOWN"
  else if is_true (dget response "ok" VNone) && String.eqb state "EFFECT_OBSERVED" then "EFFECT_OBSERVED"
  else if refused && listed ["REJECTED"; "EFFECT_FAILED"] state then state
  else if refused && eq_str (dget response "reason" VNone) "TARGET_EFFECT_UNRESOLVED" then "REJECTED"
  else "OUTCOME_UNKNOWN".

(** The evidence that closes the fence of a verified restart. *)
Definition build_reconciliation (scope : dict) (o : Observation) (now : Q) : res dict :=
  let sent := match tcp o with Some m => bytes_sent m | None => 0 end in
  let! scope_id := idx (VDict scope) "effect_scope_id" in
  let! owner := idx (VDict scope) "owner_request_id" in
  let! pid := get (py_or (raw_get o "target_identity") (VDict [])) "ffmpeg_pid" in
  let digest := json_sha256 (VDict [("effect_scope_id", scope_id); ("owner_request_id", owner);
                                    ("observed_ffmpeg_generation", VStr (ffmpeg_generation o)); ("observed_ffmpeg_pid", pid)]) in
  let! owner_digest := idx (VDict scope) "owner_request_digest" in
  let! identity := idx (VDict scope) "identity" in
  Ok [("schema_version", VStr "runtime.effect_reconciliation_request.v1");
      ("reconciliation_id", VStr ("cra-reconcile-" ++ str_take 40 digest)); ("effect_scope_id", scope_id); ("owner_request_id", owner);
      ("owner_request_digest", owner_digest); ("resolution", VStr "EFFECT_OBSERVED");
      ("evidence", VDict [("schema_version", VStr "runtime.delayed_exit_reconciliation_evidence.v1");
         ("oracle", VStr "DELAYED_FFMPEG_EXIT_AND_HEALTHY_SUCCESSOR"); ("observed_at", VStr (iso_ms now));
         ("physical_effect_count", VInt 1); ("automatic_retry_count", VInt 0); ("before_target", identity);
         ("observed_target", raw_get o "target_identity"); ("runtime_observation_id", VStr (observation_id o));
         ("transport", VDict [("bytes_sent", VInt sent); ("network_down", VBool false); ("tcp_probe_ok", VBool true)])])].
End Effect.

(** ** The policy in force (sync.py, agent.py) *)
Definition POLICY_KEY : string := "policy_envelope".
Definition ACKED_KEY : string := "acked_seq".

Section Policy.
Context `{JsonCanon} `{Ed25519}.
Definition load_cached_policy (s : agent_store) (public_key : string) : res (option Policy) :=
  match kv_get POLICY_KEY s with
  | None => Ok None
  | Some raw =>
      match open_envelope raw public_key with
      | Ok p => Ok (Some p)
      | Err e => if is_value_error e then Ok None else Err e
      end
  end.
End Policy.

(** ** Configuration *)
Record agent_config : Type := mkConfig {
  central_key : option string; producer_id : string; producer_generation : Z; ingest_host : string; ingest_port : Z;
  ingest_endpoints : list (string * Endpoint); interval_sec : Q; observation_max_age_sec : Q }.

Section Config.
Context `{JsonCanon} `{Ed25519} `{IpText} `{Repr}.
Definition policy_in_force (c : agent_config) (s : agent_store) : res Policy :=
  match central_key c with
  | None => Ok BUILTIN
  | Some key => let! cached := load_cached_policy s key in Ok (default BUILTIN cached)
  end.

(** The ingest address to probe, if the observation names one that is configured. *)
Definition endpoint (c : agent_config) (o : Observation) : res (option Endpoint) :=
  let route := raw_get o "delivery_route" in
  let mapped := dict_get (py_str route) (ingest_endpoints c) in
  if has_key "delivery_transport" (raw o) then
    match binding o with
    | None => Ok None
    | Some b =>
        let! e := new_endpoint (str_val (dget b "peer_host" VNone)) (int_val (dget b "peer_port" VNone)) in
        Ok (if bool_decide (mapped = Some e) then Some e else None)
    end
  else if negb (is_none route) then Ok mapped
  else match ingest_endpoints c with
       | [] => let! e := new_endpoint (ingest_host c) (ingest_port c) in Ok (Some e)
       | _ => Ok None
       end.
Definition max_gap (c : agent_config) : Q := (interval_sec c + observation_max_age_sec c)%Q.
End Config.
