(* ===== verification/Agent.v ===== *)
(** * The recovery agent

    Models src/recovery-control/src/cra/agent.py: one step of the reflex loop
    (observe, decide, reserve, request, verify) and the process around it.  Every
    place that reads the clock, a file, the network or a socket takes the next
    [reading] of the step's surroundings.  Before each access of the database the
    synchronisation thread may have written, the storage may fail, and the process
    may die.  The status file and the log lines have no influence and are left out. *)
From S2P Require Import Prelude PyVal UtcTime FastPolicy SendSample EffectContract EffectModel EffectReconcile AgentPolicy AgentObserve AgentDecide AgentStore AgentEffect.

#[global] Open Scope x_scope.

(** What the synchronisation thread writes: an adopted policy, the refusal of one,
    the acknowledged sequence number (AgentSync). *)
Inductive sync_write : Type :=
  | PolicyAdopted (now : Q) (envelope : pyval) (payload : dict)
  | PolicyRejected (now : Q) (payload : dict)
  | AuditAcked (seq : Z).
Definition apply_sync (s : agent_store) (x : sync_write) : agent_store :=
  match x with
  | PolicyAdopted now envelope payload => snd (put POLICY_KEY envelope (Some (now, "policy_adopted", payload)) s)
  | PolicyRejected now payload => snd (record_audit now "policy_rejected" payload s)
  | AuditAcked seq => snd (put ACKED_KEY (VInt seq) None s)
  end.

Record reading : Type := mkReading {
  r_now : Q; r_file : file_content; r_stop : bool; r_network : res Network; r_reply : res dict; r_status : res pyval;
  r_scopes : res (list dict); r_sync : list sync_write; r_weather : weather }.

(** ** State *)
Record Counters : Type := mkCounters { n_samples : Z; n_unavailable : list (string * Z); n_stalled : Z; n_confirmed : Z }.
Definition new_counters : Counters := mkCounters 0 [] 0 0.

Record Agent : Type := mkAgent {
  tracker : StallTracker; counters : Counters; last_summary : string; last_heartbeat : Q;
  recovery_samples : gmap Z dict; delivery_progress : gmap Z (dict * dict); last_reconcile_attempt : option Q }.
Definition set_tracker x a := mkAgent x (counters a) (last_summary a) (last_heartbeat a) (recovery_samples a) (delivery_progress a) (last_reconcile_attempt a).
Definition set_counters x a := mkAgent (tracker a) x (last_summary a) (last_heartbeat a) (recovery_samples a) (delivery_progress a) (last_reconcile_attempt a).
Definition set_summary x a := mkAgent (tracker a) (counters a) x (last_heartbeat a) (recovery_samples a) (delivery_progress a) (last_reconcile_attempt a).
Definition set_heartbeat x a := mkAgent (tracker a) (counters a) (last_summary a) x (recovery_samples a) (delivery_progress a) (last_reconcile_attempt a).
Definition set_samples x a := mkAgent (tracker a) (counters a) (last_summary a) (last_heartbeat a) x (delivery_progress a) (last_reconcile_attempt a).
Definition set_delivery x a := mkAgent (tracker a) (counters a) (last_summary a) (last_heartbeat a) (recovery_samples a) x (last_reconcile_attempt a).
Definition set_attempt x a := mkAgent (tracker a) (counters a) (last_summary a) (last_heartbeat a) (recovery_samples a) (delivery_progress a) x.

(** A request handed to the socket, with what the last check before it had read. *)
Record sending : Type := mkSending {
  s_request : dict; s_action : Z; s_observation : Observation; s_policy : Policy; s_evidence : evidence; s_checked_at : Q;
  s_store : agent_store }.

Record agent_world : Type := mkWorld {
  w_store : agent_store; w_agent : Agent; w_trace : list sending; w_env : nat -> reading; w_pos : nat; w_alive : bool }.
Definition with_store s w := mkWorld s (w_agent w) (w_trace w) (w_env w) (w_pos w) (w_alive w).
Definition with_agent a w := mkWorld (w_store w) a (w_trace w) (w_env w) (w_pos w) (w_alive w).
Definition with_env e w := mkWorld (w_store w) (w_agent w) (w_trace w) e 0 (w_alive w).
Definition sent x w := mkWorld (w_store w) (w_agent w) (w_trace w ++ [x]) (w_env w) (w_pos w) (w_alive w).
Definition killed w := mkWorld (w_store w) (w_agent w) (w_trace w) (w_env w) (w_pos w) false.

Notation X := (Exec agent_world exn).

(** The next reading. *)
Definition sense : X reading := fun w =>
  (Done (w_env w (w_pos w)), mkWorld (w_store w) (w_agent w) (w_trace w) (w_env w) (S (w_pos w)) (w_alive w)).
Definition clock : X Q := bind! r := sense in xret (r_now r).
(** [self.cancelled() or self.config.stop_file.exists()] *)
Definition stopped : X bool := bind! r := sense in xret (r_stop r).
Definition xlift {A} (m : res A) : X A := match m with Ok a => xret a | Err e => xraise e end.
Definition self : X Agent := fun w => (Done (w_agent w), w).
Definition assign (f : Agent -> Agent) : X unit := fun w => (Done tt, with_agent (f (w_agent w)) w).

(** One access of the database. *)
Definition call {A} (op : agent_store -> res A * agent_store) : X A :=
  bind! r := sense in fun w =>
  let s := fold_left apply_sync (r_sync r) (w_store w) in
  match r_weather r with
  | Death => (Dead, killed (with_store s w))
  | Fault => (Raised (EOS "OperationalError"), with_store s w)
  | Calm =>
      match op s with
      | (Ok a, s') => (Done a, with_store s' w)
      | (Err e, s') => (Raised e, with_store s' w)
      end
  end.
Definition read {A} (f : agent_store -> res A) : X A := call (fun s => (f s, s)).

(** [except Exception]: the answer of a socket, or the exception. *)
Definition caught {A} (m : res A) : X (A + exn) := xret (match m with Ok a => inl a | Err e => inr e end).

Section Agent.
Context `{Repr} `{FromIso} `{LocalZone} `{IpText} `{IsoFull} `{JsonCanon} `{Ed25519} `{JsonSha} `{TextDigest} `{IsoText}.
Variable cf : agent_config.

Definition policy : X Policy := read (policy_in_force cf).
Definition observe (now : Q) : X (string + Observation) :=
  bind! r := sense in xlift (read_observation (r_file r) (observation_max_age_sec cf) now).
Definition probe : X Network := bind! r := sense in xlift (r_network r).

Definition bump (f : Counters -> Counters) : X unit := assign (fun a => set_counters (f (counters a)) a).
Definition unavailable (why : string) : X unit :=
  bump (fun n => mkCounters (n_samples n) (dict_set why (default 0 (dict_get why (n_unavailable n)) + 1) (n_unavailable n))
                   (n_stalled n) (n_confirmed n)).
(** [self.tracker.reset()] *)
Definition reset_tracker : X unit := assign (set_tracker new_tracker).
Definition lose_samples : X unit := assign (set_samples ∅).

Definition endpoint_value (e : option Endpoint) : pyval :=
  match e with Some e => VDict [("host", VStr (host e)); ("port", VInt (port e))] | None => VNone end.
Definition network_value (n : option Network) : pyval :=
  match n with
  | Some n => VDict [("gateway_ok", VBool (gateway_ok n)); ("public_ok_count", VInt (public_ok_count n)); ("ingest_ok", VBool (ingest_ok n));
                     ("timed_out", VBool (timed_out n)); ("network_down", VBool (network_down n))]
  | None => VNone
  end.

Definition _evidence (o : option Observation) (streak : Z) (network : option Network) : res dict :=
  match o with
  | None => Ok []
  | Some o =>
      let! e := endpoint cf o in
      Ok [("generation_key", VStr (generation_key o)); ("observation_id", VStr (observation_id o)); ("sequence", VInt (sequence o));
          ("uptime_sec", VInt (ffmpeg_uptime_sec o)); ("streak", VInt streak); ("tcp", opt_tcp (tcp o));
          ("executor_instance_id", VStr (executor_instance_id o)); ("delivery_route", raw_get o "delivery_route");
          ("transport_binding_status", VStr (binding_status o));
          ("transport_binding", match binding o with Some d => VDict d | None => VNone end);
          ("ingest_endpoint", endpoint_value e); ("network", network_value network)]
  end.

Definition decision_payload (d : AgentDecision) (p : Policy) (evidence : dict) : dict :=
  dict_update [("outcome", VStr (d_outcome d)); ("reason", VStr (d_reason d)); ("blockers", VList (map VStr (d_blockers d)));
               ("policy_version", VInt (po_version p)); ("mode", VStr (po_mode p))] evidence.
Definition _record_decision (now : Q) (d : AgentDecision) (p : Policy) (o : option Observation) (streak : Z) (network : option Network) : X unit :=
  bind! a := self in
  if String.eqb (summary d) (last_summary a) then xret tt else
  bind! _ := assign (set_summary (summary d)) in
  bind! evidence := xlift (_evidence o streak network) in
  bind! _ := call (record_audit now "decision" (decision_payload d p evidence)) in
  xret tt.

Definition counters_dict (n : Counters) : dict :=
  [("samples", VInt (n_samples n)); ("unavailable", VDict (map (fun kv => (fst kv, VInt (snd kv))) (n_unavailable n)));
   ("stalled_samples", VInt (n_stalled n)); ("confirmed_stall_samples", VInt (n_confirmed n))].
Definition HEARTBEAT_SEC : Q := 600.
(** [_finish]: the heartbeat, and the last sequence number the status shows. *)
Definition _finish (now : Q) (p : Policy) : X unit :=
  bind! a := self in
  bind! _ := (if Qleb HEARTBEAT_SEC (now - last_heartbeat a) then
                bind! _ := assign (fun a => set_counters new_counters (set_heartbeat now a)) in
                bind! _ := call (record_audit now "heartbeat" ([("policy_version", VInt (po_version p)); ("mode", VStr (po_mode p))]
                                                               ++ counters_dict (counters a))) in
                xret tt
              else xret tt) in
  bind! _ := read (fun s => Ok (last_seq s)) in
  xret tt.

(** ** The checks before a request *)
Definition mode_of (p : Policy) : string := if String.eqb (po_mode p) "enforce" then "enforce" else "dry_run".
Definition no_history : History := mkHistory false None 0 0.
Definition blocked (reason : string) : AgentDecision := mkDecision NONE "DISPATCH_BLOCKED" [reason].

(** What the guard hands on: the fresh observation and the evidence it decided on. *)
Record guarded : Type := mkGuarded { g_now : Q; g_latest : option (Observation * evidence); g_decision : AgentDecision }.
Definition stop_here (now : Q) (reason : string) : X guarded := xret (mkGuarded now None (blocked reason)).

Definition target_changed (c : agent_config) (o original : Observation) : res bool :=
  if negb (py_eq (transport_identity o) (transport_identity original)) then Ok true
  else if negb (py_eq (raw_get o "target_identity") (raw_get original "target_identity")) then Ok true
  else let! e := endpoint c o in let! e' := endpoint c original in Ok (negb (bool_decide (e = e'))).

Definition _dispatch_guard (p : Policy) (original : Observation) (streak : Z) (network : option Network) (checked_at : Q) (reserved : bool)
    : X guarded :=
  bind! current := policy in
  bind! now := clock in
  bind! stop := stopped in
  if stop : bool then stop_here now "LOCAL_STOP" else
  if negb (bool_decide (current = p)) then stop_here now "POLICY_CHANGED" else
  if negb (Qleb 0 (now - checked_at) && Qleb (now - checked_at) (observation_max_age_sec cf)) then stop_here now "NETWORK_EVIDENCE_STALE" else
  bind! seen := observe now in
  match seen with
  | inl why => bind! _ := reset_tracker in stop_here now why
  | inr o =>
      bind! changed := xlift (target_changed cf o original) in
      if changed : bool then bind! _ := reset_tracker in stop_here now "TARGET_CHANGED" else
      if (sequence o <? sequence original) || Qltb (observed_at o) (observed_at original)
      then bind! _ := reset_tracker in stop_here now "OBSERVATION_REGRESSED" else
      bind! a := self in
      let '(_, t) := update (tracker a) o p (max_gap cf) in
      bind! _ := assign (set_tracker t) in
      bind! h := (if reserved then xret no_history else read (fun s => Ok (history now (generation_key o) (mode_of p) s))) in
      let e := mkEvidence now (Z.min streak (t_streak t)) (stall_duration t (observed_at o)) network h (producer_id cf)
                 (producer_generation cf) false in
      let d := decide_restart o p e in
      bind! stop := stopped in
      if stop : bool then stop_here now "LOCAL_STOP" else
      xret (mkGuarded now (Some (o, e)) d)
  end.

(** The answer of the executor, or the exception of the socket, as it is stored. *)
Definition exn_text (e : exn) : string :=
  (exn_name e ++ ": " ++ match e with EValue m | ERuntime m | EObservation m | EClock m => m | _ => "" end)%string.
Definition error_dict (e : exn) : dict := [("error", VStr (str_take 300 (exn_text e)))].
Definition sent_context (issued : Q) (o : Observation) (p : Policy) : dict :=
  [("agent_request_issued_at", VStr (isoformat issued)); ("agent_executor_instance_id", VStr (executor_instance_id o));
   ("agent_pod_uid", VStr (pod_uid o)); ("agent_verify_window_sec", VInt (po_verify_window_sec p));
   ("agent_previous_generation", VStr (ffmpeg_generation o)); ("agent_delivery_route", raw_get o "delivery_route");
   ("agent_delivery_route_generation", raw_get o "delivery_route_generation");
   ("agent_max_sample_gap_sec", qval (max_gap cf)); ("agent_stall_lastsnd_ms", VInt (po_stall_lastsnd_ms p))].

(** [self.sender(...)]: from here on the request is out. *)
Definition send (x : sending) : X (dict + exn) :=
  bind! _ := (fun w => (Done tt, sent x w)) in
  bind! r := sense in caught (r_reply r).

Definition request_restart (p : Policy) (o : Observation) (e : evidence) (streak : Z) (checked_at : Q) (id : Z) (d : AgentDecision) : X AgentDecision :=
  bind! issued := clock in
  bind! request := xlift (build_restart_request o issued (producer_id cf) (producer_generation cf)
                            ("cra: confirmed tcp stall streak=" ++ str_Z streak)) in
  bind! w := (fun w => (Done (w_store w), w)) in
  bind! reply := send (mkSending request id o p e checked_at w) in
  let '(response, state) :=
    match reply with
    | inl d => (d, classify d (request_id_for (generation_key o)))
    | inr x => (error_dict x, "OUTCOME_UNKNOWN")
    end in
  bind! now := clock in
  bind! _ := call (complete_action now id state (dict_update response (sent_context issued o p))) in
  xret d.

Definition _act (d : AgentDecision) (p : Policy) (o : Observation) (streak : Z) (network : option Network) (checked_at : Q) : X AgentDecision :=
  bind! g := _dispatch_guard p o streak network checked_at false in
  match (if String.eqb (d_outcome (g_decision g)) (d_outcome d) then g_latest g else None) with
  | None => xret (g_decision g)
  | Some (o1, _) =>
      let mode := if String.eqb (d_outcome d) RESTART then "enforce" else "dry_run" in
      let bytes := match tcp o1 with Some m => bytes_sent m | None => 0 end in
      bind! evidence := xlift (_evidence (Some o1) streak network) in
      bind! claim := call (reserve_action (g_now g) (generation_key o1) mode (request_id_for (generation_key o1)) (po_version p) bytes evidence) in
      match claim with
      | None => xret (mkDecision NONE "STALL_CONFIRMED" ["GENERATION_ALREADY_ACTED"])
      | Some id =>
          bind! g2 := _dispatch_guard p o1 streak network checked_at true in
          match (if String.eqb (d_outcome (g_decision g2)) (d_outcome d) then g_latest g2 else None) with
          | None =>
              bind! _ := call (complete_action (g_now g2) id "CANCELLED_BEFORE_SEND" [("reason", VStr (summary (g_decision g2)))]) in
              xret (g_decision g2)
          | Some (o2, e2) =>
              if String.eqb mode "dry_run" then
                bind! _ := call (complete_action (g_now g2) id "DRY_RUN" []) in xret d
              else request_restart p o2 e2 streak checked_at id d
          end
      end
  end.

(** ** Verification of earlier actions *)
(** The executor's status proves that the effect of the request was observed. *)
Definition OBSERVED_SCOPES : list string := ["EFFECT_OBSERVED"; "EFFECT_OBSERVED_AWAITING_VERIFICATION"; "RECONCILED_EFFECT_OBSERVED"].
Definition status_proves (st : dict) (request_id : string) (o : Observation) : res bool :=
  let v k := dget st k VNone in
  Ok (eq_str (v "schema_version") "runtime.effect_request_status_response.v1" && is_true (v "ok")
      && eq_str (v "request_id") request_id
      && (negb (has_key "executor_instance_id" st) || eq_str (v "executor_instance_id") (executor_instance_id o))
      && eq_str (v "state") "EFFECT_OBSERVED" && is_true (v "effect_boundary_reached")
      && is_int (v "physical_attempt_count") && (int_val (v "physical_attempt_count") =? 1))
  &&! in_str_set (v "effect_scope_state") OBSERVED_SCOPES
  &&! Ok (is_str (v "effect_scope_id") && truthy (v "effect_scope_id")).

Definition stored_response (row : action_row) : dict := default [] (act_response row).

(** The status query of one uncertain action, bracketed by fresh observations of one
    connection: the row and the observation to go on with, or nothing. *)
Definition bracket_broken (o : Observation) (latest : string + Observation) : bool :=
  match latest with
  | inl _ => true
  | inr l => negb (py_eq (transport_identity l) (transport_identity o)) || (sequence l <? sequence o) || Qltb (observed_at l) (observed_at o)
  end.
Definition read_status (st : res pyval) : X dict :=
  match st with
  | Ok (VDict d) => xret d
  | Ok _ => xret []
  | Err e => if value_or_type_error e || match e with EOS _ => true | _ => false end then xret [] else xraise e
  end.
Definition query_status (id : Z) (row : action_row) (now : Q) (o : Observation) : X (option (Q * Observation * action_row)) :=
  bind! r := sense in
  bind! st := read_status (r_status r) in
  bind! at_ := clock in
  bind! latest := observe at_ in
  match (if bracket_broken o latest then inl "" else latest) with
  | inl _ => bind! _ := assign (fun a => set_samples (delete id (recovery_samples a)) a) in xret None
  | inr l =>
      bind! now := clock in
      bind! proved := xlift (status_proves st (act_request_id row) l) in
      if proved : bool then
        let response := dict_set "executor_reconciliation" (VDict st) (stored_response row) in
        bind! at_ := clock in
        bind! _ := call (reconcile_observed_action at_ id response) in
        xret (Some (now, l, set_outcome "EFFECT_OBSERVED" response row))
      else xret (Some (now, l, row))
  end.
Definition queryable (row : action_row) (o : Observation) : bool :=
  String.eqb (act_mode row) "enforce" && String.eqb (act_state row) "OUTCOME_UNKNOWN"
  && py_eq (dget (stored_response row) "agent_executor_instance_id" VNone) (VStr (executor_instance_id o))
  && py_eq (dget (stored_response row) "agent_pod_uid" VNone) (VStr (pod_uid o)).

Definition number_le (q : Q) (v : pyval) : res bool :=
  match as_number v with Some f => Ok (pyfloat_lt (Fin q) f || pyfloat_eq (Fin q) f) | None => Err EType end.
Definition number_gt (q : Q) (v : pyval) : res bool :=
  match as_number v with Some f => Ok (pyfloat_lt f (Fin q)) | None => Err EType end.
(** Seconds since the request was issued; since the claim when that is not stored. *)
Definition action_age (now : Q) (row : action_row) : res Q :=
  let v := dget (stored_response row) "agent_request_issued_at" VNone in
  if negb (truthy v) then Ok (now - ts_instant (act_created_at row))%Q else
  match v with
  | VStr s =>
      match fromisoformat s with
      | Some (wall, Some off) => Ok (now - (wall - off))%Q
      | Some (_, None) => Err EType
      | None => Err (EValue "Invalid isoformat string")
      end
  | _ => Err EType
  end.

(** What is concluded about one action: the result ("" for none yet), the progress
    kept, and whether the sample is remembered. *)
Record judgement : Type := mkJudgement { j_result : string; j_progress : option (dict * dict); j_remember : bool }.
Definition resumed_result (row : action_row) (progress : option (dict * dict)) : string :=
  match progress with
  | Some _ => "DELIVERY_RESUMED_EXECUTION_UNKNOWN"
  | None => if String.eqb (act_state row) "OUTCOME_UNKNOWN" then "OUTCOME_UNRESOLVED" else "NOT_RECOVERED"
  end.
Definition same_runtime (response : dict) (o : Observation) (sample : dict) : bool :=
  let r k := dget response k VNone in
  py_eq (r "agent_executor_instance_id") (VStr (executor_instance_id o)) && py_eq (r "agent_pod_uid") (VStr (pod_uid o))
  && py_eq (r "agent_delivery_route") (dget sample "delivery_route" VNone)
  && py_eq (r "agent_delivery_route_generation") (dget sample "delivery_route_generation" VNone).

Definition judge_enforce (now : Q) (p : Policy) (o : Observation) (row : action_row) (progress : option (dict * dict)) (previous : dict)
    : res judgement :=
  let response := stored_response row in
  let sample := delivery_sample o in
  let! age := action_age now row in
  let window := dget response "agent_verify_window_sec" (VInt (po_verify_window_sec p)) in
  if negb (String.eqb (generation_key o) (act_key row)) && ffmpeg_running o && negb (String.eqb (ffmpeg_generation o) "") && target_valid o then
    let! foreign := Ok (negb (same_runtime response o sample)) ||! (number_le age window &&! Ok (negb (after_request sample response))) in
    if foreign : bool then Ok (mkJudgement "GENERATION_CHANGED_UNATTRIBUTED" progress false) else
    let progress :=
      if after_request sample response && after_request previous response
         && sending_progress previous sample (qval (max_gap cf)) (dget response "agent_stall_lastsnd_ms" (VInt (po_stall_lastsnd_ms p)))
      then Some (previous, sample) else progress in
    if bool_decide (is_Some progress) && String.eqb (act_state row) "EFFECT_OBSERVED"
    then Ok (mkJudgement "DELIVERY_RESUMED" progress true) else
    let! over := number_gt age window in
    Ok (mkJudgement (if over : bool then resumed_result row progress else "") progress true)
  else
    let! over := number_gt age window in
    Ok (mkJudgement (if over : bool then (if String.eqb (act_state row) "OUTCOME_UNKNOWN" then "OUTCOME_UNRESOLVED" else "NOT_RECOVERED") else "")
          progress false).

Definition judge_dry_run (now : Q) (p : Policy) (o : Observation) (row : action_row) : string :=
  let same := String.eqb (generation_key o) (act_key row) in
  if same && match tcp o with Some m => act_bytes_sent row <? bytes_sent m | None => false end then "SELF_RECOVERED"
  else if negb same && ffmpeg_running o && negb (String.eqb (ffmpeg_generation o) "") then "GENERATION_CHANGED_WITHOUT_ACTION"
  else if Qltb (inject_Z (po_verify_window_sec p)) (now - ts_instant (act_created_at row)) then "STILL_STALLED" else "".

Definition judge (now : Q) (p : Policy) (o : Observation) (row : action_row) (progress : option (dict * dict)) (previous : dict) : res judgement :=
  if listed ["REJECTED"; "EFFECT_FAILED"; "CANCELLED_BEFORE_SEND"] (act_state row) then Ok (mkJudgement "NOT_EXECUTED" progress false)
  else if String.eqb (act_mode row) "enforce" then judge_enforce now p o row progress previous
  else Ok (mkJudgement (judge_dry_run now p o row) progress false).

Definition round1 (q : Q) : Q := (inject_Z (round_even (q * 10)) / 10)%Q.
Definition verified_detail (now : Q) (o : Observation) (row : action_row) (progress : option (dict * dict)) : dict :=
  [("after_sec", qval (round1 (now - ts_instant (act_created_at row)))); ("observed_generation_key", VStr (generation_key o));
   ("execution_state", VStr (act_state row)); ("sample", VDict (match progress with Some (_, s) => s | None => delivery_sample o end));
   ("progress_from", match progress with Some (f, _) => VDict f | None => VNone end);
   ("executor_instance_id", VStr (executor_instance_id o)); ("observed_at", VStr (isoformat (observed_at o)));
   ("uptime_sec", VInt (ffmpeg_uptime_sec o)); ("tcp", opt_tcp (tcp o))].

(** Progress of another connection is not progress of this one. *)
Definition kept_progress (progress : option (dict * dict)) (sample : dict) : option (dict * dict) :=
  match progress with
  | Some (f, s) => if forallb (fun k => py_eq (dget s k VNone) (dget sample k VNone)) SAME_KEYS then Some (f, s) else None
  | None => None
  end.
Definition opt_insert {A} (id : Z) (v : option A) (m : gmap Z A) : gmap Z A := match v with Some x => <[id := x]> m | None => delete id m end.

Definition verify_row (p : Policy) (now : Q) (o : Observation) (id : Z) (row : action_row) : X unit :=
  bind! a := self in
  let progress := kept_progress (delivery_progress a !! id) (delivery_sample o) in
  bind! _ := assign (fun a => set_delivery (opt_insert id progress (delivery_progress a)) a) in
  bind! j := xlift (judge now p o row progress (default [] (recovery_samples a !! id))) in
  bind! _ := assign (fun a => set_delivery (opt_insert id (j_progress j) (delivery_progress a))
                                (set_samples (if j_remember j then <[id := delivery_sample o]> (recovery_samples a) else recovery_samples a) a)) in
  if String.eqb (j_result j) "" then xret tt else
  bind! _ := call (record_verification now id (j_result j) (verified_detail now o row (j_progress j))) in
  assign (fun a => set_delivery (delete id (delivery_progress a)) (set_samples (delete id (recovery_samples a)) a)).

Fixpoint verify_rows (p : Policy) (now : Q) (o : Observation) (queried : bool) (rows : list (Z * action_row)) : X unit :=
  match rows with
  | [] => xret tt
  | (id, row) :: rest =>
      if queryable row o && negb queried then
        bind! found := query_status id row now o in
        match found with
        | None => verify_rows p now o true rest
        | Some (now', o', row') => bind! _ := verify_row p now' o' id row' in verify_rows p now' o' true rest
        end
      else bind! _ := verify_row p now o id row in verify_rows p now o queried rest
  end.
Definition _verify (now : Q) (p : Policy) (o : Observation) : X unit :=
  bind! rows := read (fun s => Ok (unverified_actions s)) in
  verify_rows p now o false rows.

(** ** Closing the executor's fence of an own, verified action *)
Definition reconciled_key (id : Z) : string := ("executor_reconciled:" ++ str_Z id)%string.
Fixpoint pending_of (rows : list (Z * string)) : X (list (string * Z)) :=
  match rows with
  | [] => xret []
  | (id, request_id) :: rest =>
      bind! done := read (fun s => Ok (kv_get (reconciled_key id) s)) in
      bind! l := pending_of rest in
      xret (match done with None => (request_id, id) :: l | Some _ => l end)
  end.
(** [pending.get(v)]: of two rows with one request the later counts; only strings are keys. *)
Fixpoint pending_action (l : list (string * Z)) (id : string) : option Z :=
  match l with
  | [] => None
  | (k, n) :: l' => match pending_action l' id with Some m => Some m | None => if String.eqb k id then Some n else None end
  end.
Definition pending_get (l : list (string * Z)) (v : pyval) : res (option Z) :=
  match v with VStr s => Ok (pending_action l s) | VList _ | VDict _ => Err EType | _ => Ok None end.

(** One fence: whether the loop over the fences ends here. *)
Definition reconcile_scope (now : Q) (o : Observation) (e : option Endpoint) (pending : list (string * Z)) (scope : dict) : X bool :=
  bind! found := xlift (pending_get pending (dget scope "owner_request_id" VNone)) in
  match (if eq_str (dget scope "state" VNone) "EFFECT_OBSERVED_AWAITING_VERIFICATION" then found else None) with
  | None => xret false
  | Some id =>
      bind! network := (match e with Some _ => bind! n := probe in xret (Some n) | None => xret None end) in
      if match network with Some n => network_down n || negb (ingest_ok n) | None => true end then
        bind! _ := call (record_audit now "executor_reconciliation" [("action_id", VInt id); ("result", VStr "DEFERRED_NETWORK")]) in
        xret true
      else
        bind! at_ := clock in
        bind! _ := xlift (build_reconciliation scope o at_) in
        bind! r := sense in
        let response := match r_reply r with Ok d => d | Err x => error_dict x end in
        let done := is_true (dget response "ok" VNone) && eq_str (dget response "state" VNone) "RECONCILED_EFFECT_OBSERVED" in
        bind! _ := call (put (if done then reconciled_key id else "executor_reconcile_last:" ++ str_Z id) (VDict response)
                           (Some (now, "executor_reconciliation",
                              [("action_id", VInt id); ("result", VStr (if done then "RECONCILED" else "FAILED")); ("response", VDict response)]))) in
        xret false
  end.
Fixpoint reconcile_scopes (now : Q) (o : Observation) (e : option Endpoint) (pending : list (string * Z)) (scopes : list dict) : X unit :=
  match scopes with
  | [] => xret tt
  | scope :: rest =>
      bind! stop := reconcile_scope now o e pending scope in
      if stop : bool then xret tt else reconcile_scopes now o e pending rest
  end.

Definition _reconcile_executor (now : Q) (o : Observation) : X unit :=
  bind! a := self in
  if match last_reconcile_attempt a with Some t => Qltb (now - t) 30 | None => false end then xret tt else
  bind! rows := read (fun s => Ok (resumed_enforce_actions s)) in
  bind! pending := pending_of rows in
  match pending with
  | [] => xret tt
  | _ =>
      bind! _ := assign (set_attempt (Some now)) in
      bind! r := sense in
      match r_scopes r with
      | Err e => if value_or_type_error e || match e with EOS _ => true | _ => false end then xret tt else xraise e
      | Ok scopes => bind! e := xlift (endpoint cf o) in reconcile_scopes now o e pending scopes
      end
  end.

(** ** One step *)
Definition decision_evidence (now : Q) (t : StallTracker) (duration : Q) (network : option Network) (h : History) (stop : bool) : evidence :=
  mkEvidence now (t_streak t) duration network h (producer_id cf) (producer_generation cf) stop.

Definition assess (now : Q) (p : Policy) (stop : bool) (o : Observation) : X (AgentDecision * option Network) :=
  bind! a := self in
  let '(stalled, t) := update (tracker a) o p (max_gap cf) in
  bind! _ := assign (set_tracker t) in
  bind! _ := bump (fun n => mkCounters (n_samples n) (n_unavailable n) (n_stalled n + Z.b2z stalled) (n_confirmed n)) in
  bind! e := xlift (endpoint cf o) in
  let duration := stall_duration t (observed_at o) in
  let past_grace := (po_stall_confirm_samples p <=? t_streak t) && Qleb (inject_Z (po_stall_grace_sec p)) duration in
  bind! network := (if bool_decide (is_Some e) && past_grace then bind! n := probe in xret (Some n) else xret None) in
  bind! checked_at := clock in
  bind! _ := (if bool_decide (is_Some network)
              then bump (fun n => mkCounters (n_samples n) (n_unavailable n) (n_stalled n) (n_confirmed n + 1)) else xret tt) in
  bind! h := read (fun s => Ok (history now (generation_key o) (mode_of p) s)) in
  let d := decide_restart o p (decision_evidence now t duration network h stop) in
  let d := if bool_decide (e = None) && ffmpeg_running o && negb (String.eqb (ffmpeg_generation o) "")
           then mkDecision NONE "TARGET_MISMATCH" ["INGEST_ENDPOINT_UNMAPPED"] else d in
  bind! d := (if acts d then _act d p o (t_streak t) network checked_at else xret d) in
  xret (d, network).

(** After the decision: earlier actions are verified on a fresh observation. *)
Definition after_decision (p : Policy) (o : Observation) (streak : Z) (d : AgentDecision) (network : option Network) : X AgentDecision :=
  bind! now := clock in
  bind! latest := observe now in
  bind! d := (match latest with
              | inr l =>
                  bind! _ := _verify now p l in
                  bind! _ := (if String.eqb (po_mode p) "enforce" && (0 <? in_flight_count l) then _reconcile_executor now l else xret tt) in
                  xret d
              | inl why =>
                  bind! _ := reset_tracker in
                  bind! _ := lose_samples in
                  bind! _ := unavailable why in
                  xret (if String.eqb (d_outcome d) NONE then mkDecision NONE why [] else d)
              end) in
  bind! _ := _record_decision now d p (Some o) streak network in
  bind! current := policy in
  bind! _ := stopped in
  bind! _ := _finish now current in
  xret d.

Definition step : X AgentDecision :=
  bind! now := clock in
  bind! p := policy in
  bind! stop := stopped in
  bind! _ := bump (fun n => mkCounters (n_samples n + 1) (n_unavailable n) (n_stalled n) (n_confirmed n)) in
  bind! seen := observe now in
  match seen with
  | inl why =>
      bind! _ := reset_tracker in
      bind! _ := lose_samples in
      bind! _ := unavailable why in
      let d := mkDecision NONE why [] in
      bind! _ := _record_decision now d p None 0 None in
      bind! _ := _finish now p in
      xret d
  | inr o =>
      bind! a := self in
      bind! (d, network) := assess now p stop o in
      after_decision p o (t_streak (snd (update (tracker a) o p (max_gap cf)))) d network
  end.

(** ** The process *)
Fixpoint close_rows (rows : list (Z * action_row)) : X unit :=
  match rows with
  | [] => xret tt
  | (id, row) :: rest =>
      bind! _ := (if String.eqb (act_state row) "RESERVED" then
                    bind! now := clock in
                    call (complete_action now id "OUTCOME_UNKNOWN" [("error", VStr "AGENT_RESTARTED")])
                  else xret tt) in
      close_rows rest
  end.
(** An action left RESERVED by a process that died: its outcome is unknown. *)
Definition _close_interrupted_actions : X unit :=
  bind! rows := read (fun s => Ok (unverified_actions s)) in close_rows rows.

(** The payloads of [agent_start] and [agent_stop] name the process and its release. *)
Definition new_agent (now : Q) : Agent := mkAgent new_tracker new_counters "" now ∅ ∅ None.
Definition boot : X unit :=
  bind! now := clock in
  bind! _ := assign (fun _ => new_agent now) in
  bind! _ := _close_interrupted_actions in
  bind! at_ := clock in
  bind! _ := call (record_audit at_ "agent_start" []) in
  xret tt.

Definition shut_down : X unit :=
  bind! now := clock in
  bind! _ := call (record_audit now "agent_stop" []) in
  xret tt.

(** What happens to the agent: a step of its loop, whose exceptions are logged; a
    write of the synchronisation thread; the death of the process; its orderly end;
    a start, which ends the process when it raises. *)
Inductive event : Type :=
  | Step (env : nat -> reading)
  | Synced (x : sync_write)
  | Kill
  | Stop (env : nat -> reading)
  | Start (env : nat -> reading).
Definition perform (e : event) (w : agent_world) : agent_world :=
  match e with
  | Step env => if w_alive w then snd (step (with_env env w)) else w
  | Synced x => if w_alive w then with_store (apply_sync (w_store w) x) w else w
  | Kill => killed w
  | Stop env => if w_alive w then killed (snd (shut_down (with_env env w))) else w
  | Start env =>
      let w := mkWorld (w_store w) (w_agent w) (w_trace w) env 0 true in
      match boot w with
      | (Done _, w') => w'
      | (_, w') => killed w'
      end
  end.
Definition run (events : list event) (w : agent_world) : agent_world := fold_left (fun w e => perform e w) events w.
Definition nothing : reading := mkReading 0 Missing true (Err EKey) (Err EKey) (Err EKey) (Err EKey) [] Calm.
Definition cold_start (instance_id : string) : agent_world :=
  mkWorld (new_store instance_id) (new_agent 0) [] (fun _ => nothing) 0 false.
End Agent.
