(* ===== verification/AgentStoreProofs.v ===== *)
(** * Recovery agent: what its store keeps

    Every claim of a generation has one row and one audit record, in one order; all
    other operations leave the claims alone and only append to the audit log. *)
From S2P Require Import Prelude PyVal FastPolicy EffectContract EffectModel AgentObserve AgentDecide AgentStore AgentEffect.

(** ** Claims *)
Record claim : Type := mkClaim {
  c_key : string; c_mode : string; c_request_id : string; c_version : Z; c_at : Q; c_bytes : Z; c_evidence : dict }.

(** The columns of a claim that no operation changes. *)
Definition core (a : action_row) : string * string * string * Z * Z * Z :=
  (act_key a, act_mode a, act_request_id a, act_policy_version a, act_created_at a, act_bytes_sent a).
Definition claim_core (c : claim) : string * string * string * Z * Z * Z :=
  (c_key c, c_mode c, c_request_id c, c_version c, _ts (c_at c), c_bytes c).
Definition claim_record (id : Z) (c : claim) : audit_record :=
  mkAudit (_ts (c_at c)) "action_reserved" (reserved_payload id (c_key c) (c_mode c) (c_request_id c) (c_version c) (c_evidence c)).
Definition is_claim (r : audit_record) : bool := String.eqb (au_kind r) "action_reserved".
Definition claim_records (l : list claim) : list audit_record := imap (fun n c => claim_record (Z.of_nat n + 1) c) l.

(** What may be written under a key of the key/value table, and a log that is to be
    kept; the agent's own keys are free. *)
Definition own_key (k : string) : Prop := k <> POLICY_KEY /\ k <> ACKED_KEY /\ k <> "instance_id".
Class Rules := mkRules { kv_ok : string -> pyval -> Prop; kept_log : list audit_record; kv_free k v : own_key k -> kv_ok k v }.

Section Claims.
Context `{RU : Rules}.

(** The rows and the reserved records of a store are those of the claims [l]; its
    values keep the rules, and its log continues the one to be kept. *)
Record holds_claims (l : list claim) (s : agent_store) : Prop := {
  hc_rows : map core (actions s) = map claim_core l;
  hc_audit : List.filter is_claim (audit_log s) = claim_records l;
  hc_kv : forall k v, kv_get k s = Some v -> kv_ok k v;
  hc_instance : is_Some (kv_get "instance_id" s);
  hc_log : kept_log `prefix_of` audit_log s }.

Lemma claims_length l s : holds_claims l s -> length (actions s) = length l.
Proof. intros [Hr _ _ _ _]. by rewrite <- (length_map core), Hr, length_map. Qed.

Lemma new_store_claims id : kept_log = [] -> kv_ok "instance_id" (VStr id) -> holds_claims [] (new_store id).
Proof.
  intros Hk Hid. split; [done | done | | |].
  - intros k v Hv. unfold kv_get, new_store in Hv. simpl in Hv. by apply lookup_singleton_Some in Hv as [<- <-].
  - unfold kv_get, new_store. simpl. rewrite lookup_singleton_eq. eauto.
  - rewrite Hk. apply prefix_nil.
Qed.

(** ** Operations that make no claim *)
Lemma append_keeps now kind payload l s : String.eqb kind "action_reserved" = false -> holds_claims l s ->
  holds_claims l (set_audit (audit_log s ++ [mkAudit (_ts now) kind payload]) s).
Proof.
  intros Hk [Hr Ha Hp Hi Hl]. split; try done; simpl.
  - rewrite List.filter_app. simpl. unfold is_claim at 2. simpl. by rewrite Hk, app_nil_r.
  - by apply prefix_app_r.
Qed.
Lemma update_keeps f id l s : (forall a, core (f a) = core a) -> holds_claims l s -> holds_claims l (update_action f id s).
Proof.
  intros Hf [Hr Ha Hp Hi Hl]. unfold update_action. destruct (1 <=? id); [|done]. split; [|done..]. simpl. rewrite <- Hr.
  change (@map action_row) with (@fmap list _ action_row). apply list_eq. intros i. rewrite !list_lookup_fmap.
  destruct (decide (i = Z.to_nat (id - 1))) as [->|Hne].
  - rewrite list_lookup_alter_eq. destruct (actions s !! _) as [a|]; [|done]. change (Some (core (f a)) = Some (core a)). by rewrite Hf.
  - by rewrite list_lookup_alter_ne.
Qed.
Lemma kv_keeps k v l s : kv_ok k v -> holds_claims l s -> holds_claims l (set_kv (<[k := v]> (kv_table s)) s).
Proof.
  intros Hv [Hr Ha Hp Hi Hl]. split; try done; unfold kv_get in *; simpl.
  - intros k' v'. destruct (decide (k = k')) as [->|Hk]; [rewrite lookup_insert_eq; by intros [= <-] | rewrite lookup_insert_ne by done; apply Hp].
  - destruct (decide (k = "instance_id")) as [->|Hk]; [rewrite lookup_insert_eq; eauto | by rewrite lookup_insert_ne].
Qed.
End Claims.
#[export] Hint Resolve append_keeps update_keeps : stream.

Section Quiet.
Context `{RU : Rules}.
Definition quiet {A} (op : agent_store -> res A * agent_store) : Prop := forall l s, holds_claims l s -> holds_claims l (snd (op s)).

Lemma audit_quiet now kind payload : String.eqb kind "action_reserved" = false -> quiet (record_audit now kind payload).
Proof. intros Hk l s Hs. by apply append_keeps. Qed.
Lemma complete_quiet now id state response : quiet (complete_action now id state response).
Proof.
  intros l s Hs. apply append_keeps; [done|]. apply update_keeps; [|done]. intros a. by destruct (String.eqb _ _).
Qed.
Lemma verification_quiet now id result detail : quiet (record_verification now id result detail).
Proof.
  intros l s Hs. apply append_keeps; [done|]. apply update_keeps; [|done]. intros a. by destruct (act_verify_result a).
Qed.
Lemma reconcile_quiet now id response : quiet (reconcile_observed_action now id response).
Proof.
  intros l s Hs. unfold reconcile_observed_action, transaction, reconcile_body, db_bind, db_get.
  destruct (outcome_open id s); [|done]. apply append_keeps; [done|]. by apply update_keeps.
Qed.
Lemma put_quiet k v entry : kv_ok k v ->
  match entry with Some (_, kind, _) => String.eqb kind "action_reserved" = false | None => True end -> quiet (put k v entry).
Proof.
  intros Hk He l s Hs. unfold put, transaction, put_body, db_bind, db_mod. destruct entry as [[[now kind] payload]|].
  - apply append_keeps; [done|]. by apply kv_keeps.
  - by apply kv_keeps.
Qed.
Lemma read_quiet {A} (f : agent_store -> res A) : quiet (fun s => (f s, s)).
Proof. by intros l s Hs. Qed.
End Quiet.
#[export] Hint Resolve audit_quiet complete_quiet verification_quiet reconcile_quiet read_quiet : stream.

(** ** Claiming *)
Section Claiming.
Context `{RU : Rules}.
Lemma claimed_claims l s key mode : holds_claims l s ->
  claimed key mode s = existsb (fun c => String.eqb (c_key c) key && String.eqb (c_mode c) mode) l.
Proof.
  intros [Hr _ _ _ _]. unfold claimed, claims. revert Hr. generalize (actions s). induction l as [|c l IH]; intros [|a rows] Hr; try done.
  simpl in *. injection Hr as E1 E2 _ _ _ _ Hr. rewrite (IH rows Hr). unfold core in *. congruence.
Qed.

Lemma reserve_claims l s now key mode rid version bytes ev r s' : holds_claims l s ->
  reserve_action now key mode rid version bytes ev s = (r, s') ->
  (r = Ok None /\ s' = s)
  \/ (claimed key mode s = false /\ r = Ok (Some (Z.of_nat (length l) + 1)) /\ holds_claims (l ++ [mkClaim key mode rid version now bytes ev]) s').
Proof.
  intros Hs. pose proof (claims_length _ _ Hs) as Hlen. unfold reserve_action, transaction, reserve_body, db_bind, db_get.
  destruct (claimed key mode s) eqn:Ec; simpl; [intros [= <- <-]; by left|].
  destruct (negb _); simpl; [intros [= <- <-]; by left|]. unfold append, db_bind, db_mod, db_get, db_ret. simpl. intros [= <- <-]. right.
  split; [done|]. rewrite length_app, Hlen. simpl. split; [do 3 f_equal; lia|]. destruct Hs as [Hr Ha Hp Hi Hl]. split; simpl; [| |exact Hp | exact Hi | by apply prefix_app_r].
  - by rewrite !map_app, Hr.
  - rewrite List.filter_app, Ha. simpl. unfold claim_records. rewrite imap_app. simpl. do 2 f_equal. unfold claim_record. simpl.
    do 2 f_equal. unfold reserved_payload. do 3 f_equal. lia.
Qed.

(** ** The history the policy is checked against *)
Lemma of_mode_claims l s mode : holds_claims l s ->
  of_mode mode s = map (fun c => _ts (c_at c)) (List.filter (fun c => String.eqb (c_mode c) mode) l).
Proof.
  intros [Hr _ _ _ _]. unfold of_mode. revert Hr. generalize (actions s). induction l as [|c l IH]; intros [|a rows] Hr; try done.
  simpl in *. injection Hr as E1 E2 _ _ E5 _ Hr. unfold core in *. rewrite E2. destruct (String.eqb (c_mode c) mode); simpl; [|by apply IH].
  by rewrite E5, (IH rows Hr).
Qed.
End Claiming.

Lemma maximum_ge l m : maximum l = Some m -> Forall (fun z => z <= m) l.
Proof.
  revert m. induction l as [|z l IH]; intros m; simpl; [done|]. intros [= <-]. destruct (maximum l) as [m|] eqn:E.
  - constructor; [lia|]. eapply Forall_impl; [by apply IH|]. simpl. lia.
  - constructor; [lia|]. destruct l; [done | simpl in E; by destruct (maximum l)].
Qed.
Lemma maximum_None l : maximum l = None -> l = [].
Proof. destruct l; [done|]. simpl. by destruct (maximum l). Qed.

(** The milliseconds of a time moved by whole seconds, and their order. *)
Lemma Qfloor_unique q z : (inject_Z z <= q)%Q -> (q < inject_Z (z + 1))%Q -> Qfloor q = z.
Proof.
  intros Hl Hu. pose proof (Qfloor_le q) as Hf. pose proof (Qlt_floor q) as Hf'.
  assert (inject_Z z < inject_Z (Qfloor q + 1))%Q as H1 by lra. assert (inject_Z (Qfloor q) < inject_Z (z + 1))%Q as H2 by lra.
  rewrite <- Zlt_Qlt in H1, H2. lia.
Qed.
Lemma _ts_sub t (n : Z) : _ts (t - inject_Z n) = _ts t - n * 1000.
Proof.
  unfold _ts. pose proof (Qfloor_le (t * 1000)) as Hl. pose proof (Qlt_floor (t * 1000)) as Hu. apply Qfloor_unique.
  - unfold Z.sub. rewrite inject_Z_plus, inject_Z_opp, inject_Z_mult. change (inject_Z 1000) with 1000%Q. lra.
  - replace (_ + 1) with (Qfloor (t * 1000) + 1 - n * 1000) by lia.
    unfold Z.sub. rewrite (inject_Z_plus _ (- _)), inject_Z_opp, inject_Z_mult. change (inject_Z 1000) with 1000%Q. lra.
Qed.
Lemma ts_instant_le ms t (n : Z) : (inject_Z n <= t - ts_instant ms)%Q -> ms + n * 1000 <= _ts t.
Proof.
  unfold _ts, ts_instant. intros Hn. pose proof (Qlt_floor (t * 1000)) as Hu.
  assert (inject_Z (ms + n * 1000) < inject_Z (Qfloor (t * 1000) + 1))%Q as Hlt; [|rewrite <- Zlt_Qlt in Hlt; lia].
  rewrite inject_Z_plus, inject_Z_mult. change (inject_Z 1000) with 1000%Q.
  assert (inject_Z ms == (inject_Z ms / 1000) * 1000)%Q as E by field. rewrite E. lra.
Qed.
