(* ===== verification/AgentProofs.v ===== *)
(** * Correctness of the recovery agent

    The invariant of every run: each claim of a generation was allowed by a policy in
    force at that time, and each request sent belongs to one claim, made before it
    and never used twice.  Programs that make no claim and send nothing are [calm]. *)
From S2P Require Import Prelude PyVal UtcTime FastPolicy SendSample EffectContract EffectModel AgentPolicy AgentObserve AgentDecide AgentStore AgentEffect Agent AgentStoreProofs.

#[local] Arguments listed : simpl never.
Create HintDb calm.

Section Agent.
Context `{Repr} `{FromIso} `{LocalZone} `{IpText} `{IsoFull} `{JsonCanon} `{Ed25519} `{JsonSha} `{TextDigest} `{IsoText} `{RU : Rules}.
Variable cf : agent_config.

(** A policy the agent may act under: the built-in one, or one that was handed to its
    store and is signed by the centre. *)
Definition authorised (p : Policy) : Prop :=
  p = BUILTIN \/ exists key envelope, central_key cf = Some key /\ kv_ok POLICY_KEY envelope /\ open_envelope envelope key = Ok p.

Definition same_mode (c d : claim) : bool := String.eqb (c_mode d) (c_mode c).
(** Earlier claims of the mode of [c] within [ms] milliseconds before it. *)
Definition recent_claims (earlier : list claim) (c : claim) (ms : Z) : Z :=
  Z.of_nat (length (List.filter (fun d => same_mode c d && (_ts (c_at c) - ms <=? _ts (c_at d))) earlier)).

(** What a claim needs when [earlier] claims were made before it. *)
Record claim_ok (earlier : list claim) (c : claim) : Prop := {
  co_first : Forall (fun d => c_key d = c_key c -> c_mode d <> c_mode c) earlier;
  co_network : exists n, dict_get "network" (c_evidence c) = Some (network_value (Some n))
               /\ timed_out n = false /\ network_down n = false /\ ingest_ok n = true;
  co_policy : exists p, authorised p /\ c_version c = po_version p /\ c_mode c = mode_of p /\ po_mode p <> "off"
    /\ Forall (fun d => same_mode c d = true -> _ts (c_at d) + po_cooldown_sec p * 1000 <= _ts (c_at c)) earlier
    /\ recent_claims earlier c 3600000 < po_max_per_hour p /\ recent_claims earlier c 86400000 < po_max_per_day p }.
(** The generations requests were sent for. *)
Definition requested (w : agent_world) : list string := map (fun x => generation_key (s_observation x)) (w_trace w).
Inductive paced : list claim -> Prop :=
  | paced_nil : paced []
  | paced_snoc l c : paced l -> claim_ok l c -> paced (l ++ [c]).

(** What the last check before a request had established. *)
Record sending_ok (x : sending) : Prop := {
  so_clear : clearance (s_observation x) (s_policy x) (s_evidence x);
  so_policy : authorised (s_policy x) /\ po_mode (s_policy x) = "enforce";
  so_network : (0 <= e_now (s_evidence x) - s_checked_at x <= observation_max_age_sec cf)%Q;
  so_fresh : (-1 <= e_now (s_evidence x) - observed_at (s_observation x) <= observation_max_age_sec cf)%Q;
  so_request : exists issued streak, build_restart_request (s_observation x) issued (producer_id cf) (producer_generation cf)
                 ("cra: confirmed tcp stall streak=" ++ str_Z streak) = Ok (s_request x);
  so_claimed : claimed (generation_key (s_observation x)) "enforce" (s_store x) = true }.
(** Its claim is in the store it was sent from. *)
Definition claim_of (l : list claim) (x : sending) : Prop :=
  exists c, l !! Z.to_nat (s_action x - 1) = Some c /\ 1 <= s_action x
  /\ c_key c = generation_key (s_observation x) /\ c_mode c = "enforce".

Record good (l : list claim) (tr : list sending) : Prop := {
  gd_paced : paced l;
  gd_claims : Forall (claim_of l) tr;
  gd_once : NoDup (map s_action tr);
  gd_ok : Forall sending_ok tr }.
Definition write_ok (x : sync_write) : Prop :=
  match x with PolicyAdopted _ v _ => kv_ok POLICY_KEY v | AuditAcked n => kv_ok ACKED_KEY (VInt n) | PolicyRejected _ _ => True end.
Definition env_ok (env : nat -> reading) : Prop := forall n, Forall write_ok (r_sync (env n)).
Definition Held (l : list claim) (tr : list sending) (w : agent_world) : Prop :=
  holds_claims l (w_store w) /\ w_trace w = tr /\ good l tr /\ env_ok (w_env w).
Definition Inv (w : agent_world) : Prop := exists l tr, Held l tr w.

(** ** Calm programs *)
Definition calm {A} (m : X A) : Prop := forall l tr, triple Inv (Held l tr) m (fun _ => Held l tr).
#[local] Notation xtriple := (triple Inv).

Lemma held_inv l tr w : Held l tr w -> Inv w.
Proof. intros Hw. by exists l, tr. Qed.
#[local] Hint Resolve held_inv : stream.

Lemma calm_ret {A} (a : A) : calm (xret a).
Proof. intros l tr. by apply triple_ret. Qed.
Lemma calm_raise {A} e : calm (@xraise _ _ A e).
Proof. intros l tr. apply triple_raise. eauto with stream. Qed.
Lemma calm_bind {A B} (m : X A) (k : A -> X B) : calm m -> (forall a, calm (k a)) -> calm (xbind m k).
Proof. intros Hm Hk l tr. eapply triple_bind; [apply Hm | intros a; apply Hk]. Qed.
Lemma calm_sense : calm sense.
Proof. by intros l tr w Hw. Qed.
Lemma calm_self : calm self.
Proof. by intros l tr w Hw. Qed.
Lemma calm_assign f : calm (assign f).
Proof. by intros l tr w Hw. Qed.
Lemma calm_lift {A} (m : res A) : calm (xlift m).
Proof. destruct m; [apply calm_ret | apply calm_raise]. Qed.

Lemma sync_holds l x s : write_ok x -> holds_claims l s -> holds_claims l (apply_sync s x).
Proof. intros Hx Hs. destruct x; cbn [apply_sync]; [apply put_quiet | apply audit_quiet | apply put_quiet]; done. Qed.
Lemma syncs_hold l xs s : Forall write_ok xs -> holds_claims l s -> holds_claims l (fold_left apply_sync xs s).
Proof. intros Hx. revert s. induction Hx as [|x xs Hx _ IH]; simpl; [done|]. intros s Hs. by apply IH, sync_holds. Qed.

(** An access of the database, by what it does to the claims. *)
Lemma call_rule {A} (op : agent_store -> res A * agent_store) l tr (Q : A -> agent_world -> Prop) :
  (forall s a s' w, holds_claims l s -> good l tr -> op s = (Ok a, s') -> w_store w = s' -> w_trace w = tr -> env_ok (w_env w) -> Q a w) ->
  (forall s e s', holds_claims l s -> op s = (Err e, s') -> holds_claims l s') -> xtriple (Held l tr) (call op) Q.
Proof.
  intros Hok Herr w (Hs & Ht & Hg & He). unfold call, sense, xbind. simpl.
  set (r := w_env w (w_pos w)). pose proof (syncs_hold l (r_sync r) _ (He _) Hs) as Hs'. destruct (r_weather r); simpl.
  - destruct (op _) as [[a|e] s] eqn:E; [by eapply Hok|]. exists l, tr. split_and!; try done. by eapply Herr.
  - by exists l, tr.
  - by exists l, tr.
Qed.
Lemma calm_call {A} (op : agent_store -> res A * agent_store) : quiet op -> calm (call op).
Proof.
  intros Hq l tr. apply call_rule.
  - intros s a s' w Hs Hg E <- Hw He. split_and!; try done. specialize (Hq l s Hs). by rewrite E in Hq.
  - intros s e s' Hs E. specialize (Hq l s Hs). by rewrite E in Hq.
Qed.
Lemma calm_read {A} (f : agent_store -> res A) : calm (read f).
Proof. apply calm_call, read_quiet. Qed.
End Agent.

#[export] Hint Resolve calm_ret calm_raise calm_sense calm_self calm_assign calm_lift calm_read : calm.
Lemma reconcile_key_other `{Rules} (b : bool) id v :
  kv_ok (if b then reconciled_key id else "executor_reconcile_last:" ++ str_Z id)%string v.
Proof. apply kv_free. by destruct b. Qed.
Ltac calm_step :=
  first [ solve [auto with calm]
        | apply calm_call; solve [auto with stream | apply put_quiet; [apply reconcile_key_other | done]]
        | apply calm_bind; [|intros ?]
        | case_goal ].
Ltac calm_tac := intros; repeat calm_step.

Section Calm.
Context `{Repr} `{FromIso} `{LocalZone} `{IpText} `{IsoFull} `{JsonCanon} `{Ed25519} `{JsonSha} `{TextDigest} `{IsoText} `{RU : Rules}.
Variable cf : agent_config.
#[local] Notation calm := (calm cf).

Lemma policy_calm : calm (policy cf).
Proof. apply calm_read. Qed.
Lemma clock_calm : calm clock.
Proof. unfold clock. calm_tac. Qed.
Lemma stopped_calm : calm stopped.
Proof. unfold stopped. calm_tac. Qed.
Lemma observe_calm now : calm (observe cf now).
Proof. unfold observe. calm_tac. Qed.
Lemma probe_calm : calm probe.
Proof. unfold probe. calm_tac. Qed.
Lemma bump_calm f : calm (bump f).
Proof. apply calm_assign. Qed.
Lemma unavailable_calm why : calm (unavailable why).
Proof. apply calm_assign. Qed.
Lemma reset_calm : calm reset_tracker.
Proof. apply calm_assign. Qed.
Lemma lose_calm : calm lose_samples.
Proof. apply calm_assign. Qed.
#[local] Hint Resolve policy_calm clock_calm stopped_calm observe_calm probe_calm bump_calm unavailable_calm reset_calm lose_calm : calm.

Lemma record_decision_calm now d p o streak n : calm (_record_decision cf now d p o streak n).
Proof. unfold _record_decision. calm_tac. Qed.
Lemma finish_calm now p : calm (_finish now p).
Proof. unfold _finish. calm_tac. Qed.
Lemma guard_calm p o streak n at_ reserved : calm (_dispatch_guard cf p o streak n at_ reserved).
Proof. unfold _dispatch_guard, stop_here. calm_tac. Qed.
Lemma query_status_calm id row now o : calm (query_status cf id row now o).
Proof. unfold query_status, read_status. calm_tac. Qed.
#[local] Hint Resolve record_decision_calm finish_calm guard_calm query_status_calm : calm.
Lemma verify_row_calm p now o id row : calm (verify_row cf p now o id row).
Proof. unfold verify_row. calm_tac. Qed.
#[local] Hint Resolve verify_row_calm : calm.
Lemma verify_rows_calm p rows : forall now o q, calm (verify_rows cf p now o q rows).
Proof. induction rows as [|[id row] rows IH]; intros; simpl; calm_tac; apply IH. Qed.
Lemma verify_calm now p o : calm (_verify cf now p o).
Proof. unfold _verify. apply calm_bind; [apply calm_read|]. intros rows. apply verify_rows_calm. Qed.

Lemma pending_calm rows : calm (pending_of rows).
Proof. induction rows as [|[id rid] rows IH]; simpl; [auto with calm|]. apply calm_bind; [auto with calm|]. intros done. apply calm_bind; [done | auto with calm]. Qed.
Lemma reconcile_scope_calm now o e pending scope : calm (reconcile_scope now o e pending scope).
Proof. unfold reconcile_scope. calm_tac. Qed.
#[local] Hint Resolve pending_calm reconcile_scope_calm : calm.
Lemma reconcile_scopes_calm now o e pending scopes : calm (reconcile_scopes now o e pending scopes).
Proof. induction scopes; simpl; calm_tac. Qed.
#[local] Hint Resolve reconcile_scopes_calm : calm.
Lemma reconcile_executor_calm now o : calm (_reconcile_executor cf now o).
Proof. unfold _reconcile_executor. calm_tac. Qed.
#[local] Hint Resolve verify_calm reconcile_executor_calm : calm.
Lemma after_decision_calm p o streak d n : calm (after_decision cf p o streak d n).
Proof. unfold after_decision. calm_tac. Qed.

Lemma close_rows_calm rows : calm (close_rows rows).
Proof. induction rows as [|[id row] rows IH]; simpl; calm_tac; done. Qed.
#[local] Hint Resolve close_rows_calm : calm.
Lemma boot_calm : calm boot.
Proof. unfold boot, _close_interrupted_actions. calm_tac. Qed.
Lemma shut_down_calm : calm shut_down.
Proof. unfold shut_down. calm_tac. Qed.
End Calm.
#[export] Hint Resolve policy_calm clock_calm stopped_calm observe_calm probe_calm bump_calm unavailable_calm reset_calm lose_calm
  record_decision_calm finish_calm guard_calm query_status_calm verify_row_calm verify_calm reconcile_executor_calm after_decision_calm
  boot_calm shut_down_calm : calm.

(** ** What the guard establishes *)
Definition history_of (l : list claim) (now : Q) (key mode : string) : History :=
  let ms := map (fun c => _ts (c_at c)) (List.filter (fun c => String.eqb (c_mode c) mode) l) in
  mkHistory (existsb (fun c => String.eqb (c_key c) key && String.eqb (c_mode c) mode) l) (option_map ts_instant (maximum ms))
    (Z.of_nat (length (List.filter (fun m => _ts (now - 3600)%Q <=? m) ms)))
    (Z.of_nat (length (List.filter (fun m => _ts (now - 86400)%Q <=? m) ms))).
Lemma history_claims `{Rules} l s now key mode : holds_claims l s -> history now key mode s = history_of l now key mode.
Proof. intros Hs. unfold history, history_of, count_since. by rewrite (claimed_claims l s) , (of_mode_claims l s). Qed.

Section Acting.
Context `{Repr} `{FromIso} `{LocalZone} `{IpText} `{IsoFull} `{JsonCanon} `{Ed25519} `{JsonSha} `{TextDigest} `{IsoText} `{RU : Rules}.
Variable cf : agent_config.
#[local] Notation Held := (Held cf).
#[local] Notation xtriple := (triple (Inv cf)).

(** A fact about the result alone. *)
Definition returns {A} (m : X A) (R : A -> Prop) : Prop := forall w a w', m w = (Done a, w') -> R a.
Lemma triple_returns {A} (P : agent_world -> Prop) (m : X A) Q (R : A -> Prop) :
  xtriple P m Q -> returns m R -> xtriple P m (fun a w => Q a w /\ R a).
Proof. intros Hm HR w Hw. specialize (Hm w Hw). destruct (m w) as [[a|e|] w'] eqn:E; try done. split; [done|]. by eapply HR. Qed.
Lemma triple_pure {A} (P : agent_world -> Prop) (R : Prop) (m : X A) Q : (R -> xtriple P m Q) -> xtriple (fun w => P w /\ R) m Q.
Proof. intros Hm w [Hw HR]. by apply Hm. Qed.
Lemma calm_bind_rule {A B} (m : X A) (k : A -> X B) l tr Q (R : A -> Prop) : calm cf m -> returns m R ->
  (forall a, R a -> xtriple (Held l tr) (k a) Q) -> xtriple (Held l tr) (xbind m k) Q.
Proof.
  intros Hm HR Hk. eapply triple_bind; [apply triple_returns; [apply Hm | exact HR]|]. intros a. apply triple_pure, Hk.
Qed.
Lemma calm_bind_any {A B} (m : X A) (k : A -> X B) l tr Q : calm cf m -> (forall a, xtriple (Held l tr) (k a) Q) ->
  xtriple (Held l tr) (xbind m k) Q.
Proof. intros Hm Hk. eapply triple_bind; [apply Hm | apply Hk]. Qed.

Lemma lift_returns {A} (m : res A) : returns (xlift m) (fun a => m = Ok a).
Proof. intros w a w'. destruct m; simpl; [by intros [= -> _] | done]. Qed.
Definition seen_fresh (now : Q) (r : string + Observation) : Prop :=
  match r with inr o => (-1 <= now - observed_at o <= observation_max_age_sec cf)%Q | inl _ => True end.
Lemma observe_fresh now : returns (observe cf now) (seen_fresh now).
Proof.
  intros w a w' E. unfold observe, sense, xbind in E. simpl in E. apply lift_returns in E.
  destruct (r_file _) as [| | |v|e]; simpl in E; try discriminate E; try (injection E as <-; exact I).
  unfold parse_observation in E. destruct a as [why|o]; [exact I|]. destruct v as [| | | | | |d]; try discriminate E.
  case_in E; [discriminate E|]. destruct (observation_of d) as [o'|x]; [|destruct x; simpl in E; discriminate E].
  case_in E; [discriminate E|]. injection E as ->. apply orb_false_iff in E1 as [E1 E2]. apply Qltb_false in E1, E2. split; done.
Qed.

Record guard_post (l : list claim) (p : Policy) (original : Observation) (n : option Network) (at_ : Q) (reserved : bool) (g : guarded)
    (o : Observation) (e : evidence) : Prop := {
  gp_decision : g_decision g = decide_restart o p e;
  gp_network : e_network e = n /\ (0 <= g_now g - at_ <= observation_max_age_sec cf)%Q;
  gp_now : e_now e = g_now g;
  gp_fresh : (-1 <= g_now g - observed_at o <= observation_max_age_sec cf)%Q;
  gp_key : generation_key o = generation_key original;
  gp_history : reserved = false -> e_history e = history_of l (g_now g) (generation_key o) (mode_of p) }.

Lemma target_kept o original : target_changed cf o original = Ok false -> generation_key o = generation_key original.
Proof.
  unfold target_changed. destruct (py_eq (transport_identity o) (transport_identity original)) eqn:E; [|done]. intros _.
  unfold transport_identity in E. simpl in E. apply andb_true_iff in E as [_ E]. apply andb_true_iff in E as [E _]. by apply String.eqb_eq in E.
Qed.

Lemma history_rule l tr now key mode (k : History -> X guarded) Q :
  (xtriple (Held l tr) (k (history_of l now key mode)) Q) -> xtriple (Held l tr) (xbind (read (fun s => Ok (history now key mode s))) k) Q.
Proof.
  intros Hk. eapply triple_bind with (fun h w => Held l tr w /\ h = history_of l now key mode).
  - apply call_rule.
    + intros s a s' w Hs Hg [= <- <-] Hw Ht He. split; [|by apply history_claims]. split_and!; [by rewrite Hw | done | done | done].
    + by intros s e s' Hs [= _ <-].
  - intros h. apply triple_pure. by intros ->.
Qed.

(** [_dispatch_guard] is calm; an observation it returns carries [guard_post]. *)
Lemma guard_rule l tr p original streak n at_ reserved : xtriple (Held l tr) (_dispatch_guard cf p original streak n at_ reserved)
  (fun g w => Held l tr w /\ forall o e, g_latest g = Some (o, e) -> guard_post l p original n at_ reserved g o e).
Proof.
  assert (forall now why, xtriple (Held l tr) (stop_here now why)
    (fun g w => Held l tr w /\ forall o e, g_latest g = Some (o, e) -> guard_post l p original n at_ reserved g o e)) as Hstop.
  { intros now why. apply triple_ret. by intros w Hw. }
  assert (forall now why, xtriple (Held l tr) (bind! _ := reset_tracker in stop_here now why)
    (fun g w => Held l tr w /\ forall o e, g_latest g = Some (o, e) -> guard_post l p original n at_ reserved g o e)) as Hreset.
  { intros now why. apply calm_bind_any; [auto with calm | intros _; apply Hstop]. }
  unfold _dispatch_guard. apply calm_bind_any; [auto with calm|]. intros current. apply calm_bind_any; [auto with calm|]. intros now.
  apply calm_bind_any; [auto with calm|]. intros [|]; [apply Hstop|]. destruct (negb (bool_decide _)); [apply Hstop|].
  destruct (negb (Qleb _ _ && _)) eqn:Enet; [apply Hstop|].
  eapply calm_bind_rule; [auto with calm | apply observe_fresh|]. intros [why|o] Hfresh; [apply Hreset|].
  eapply calm_bind_rule; [auto with calm | apply lift_returns|]. intros [|] Hkept; [apply Hreset|].
  destruct (_ || _); [apply Hreset|]. apply calm_bind_any; [auto with calm|]. intros a.
  destruct (update (tracker a) o p (max_gap cf)) as [stalled t]. apply calm_bind_any; [auto with calm|]. intros _.
  assert (forall h, (reserved = false -> h = history_of l now (generation_key o) (mode_of p)) ->
    let e := mkEvidence now (Z.min streak (t_streak t)) (stall_duration t (observed_at o)) n h (producer_id cf) (producer_generation cf) false in
    xtriple (Held l tr) (bind! stop := stopped in if stop : bool then stop_here now "LOCAL_STOP"
                         else xret (mkGuarded now (Some (o, e)) (decide_restart o p e)))
      (fun g w => Held l tr w /\ forall o e, g_latest g = Some (o, e) -> guard_post l p original n at_ reserved g o e)) as Hend.
  { intros h Hh e. apply calm_bind_any; [auto with calm|]. intros [|]; [apply Hstop|]. apply triple_ret. intros w Hw. split; [done|].
    intros o' e' [= <- <-]. bools. split; simpl; try done. by apply target_kept. }
  destruct reserved.
  - assert (true = false -> no_history = history_of l now (generation_key o) (mode_of p)) as Hno by done. exact (Hend no_history Hno).
  - apply history_rule. by apply Hend.
Qed.

(** ** Claims and requests *)
Lemma evidence_network o streak n ev : _evidence cf (Some o) streak n = Ok ev -> dict_get "network" ev = Some (network_value n).
Proof. unfold _evidence. intros He. apply rbind_Ok in He as (e & _ & [= <-]). reflexivity. Qed.

Lemma filter_map_filter {A} (h : A -> bool) (g : A -> Z) (f : Z -> bool) l :
  length (List.filter f (map g (List.filter h l))) = length (List.filter (fun d => h d && f (g d)) l).
Proof. induction l as [|x l IH]; simpl; [done|]. destruct (h x); simpl; [|done]. destruct (f (g x)); simpl; by rewrite IH. Qed.

Lemma recent_history l c ms now : c_at c = now -> _ts (c_at c) - ms = _ts (now - inject_Z (ms / 1000)) ->
  recent_claims l c ms = Z.of_nat (length (List.filter (fun m => _ts (now - inject_Z (ms / 1000)) <=? m)
    (map (fun c => _ts (c_at c)) (List.filter (fun d => String.eqb (c_mode d) (c_mode c)) l)))).
Proof. intros Hc Hms. unfold recent_claims, same_mode. by rewrite filter_map_filter, Hms. Qed.

Lemma claim_allowed l p o original n at_ g e rid bytes ev streak : authorised cf p -> guard_post l p original n at_ false g o e ->
  acts (g_decision g) = true -> _evidence cf (Some o) streak n = Ok ev ->
  claim_ok cf l (mkClaim (generation_key o) (mode_of p) rid (po_version p) (g_now g) bytes ev).
Proof.
  intros Hp [Hd [Hn _] Hnow _ _ Hh] Ha He. rewrite Hd in Ha. apply decide_acts in Ha. destruct Ha.
  specialize (Hh eq_refl). rewrite Hh in *. simpl in *. split; simpl.
  - apply Forall_forall. intros d Hd1 Hk Hm. apply not_true_iff_false in cl_claimed. apply cl_claimed, existsb_exists.
    exists d. rewrite Hk, Hm, !String.eqb_refl. split; [by apply list_elem_of_In | done].
  - destruct cl_network as (x & Hx & ? & ? & ?). exists x. split; [|done]. rewrite (evidence_network _ _ _ _ He). by rewrite <- Hn, Hx.
  - exists p. split_and!; try done.
    + apply Forall_forall. intros d Hin Hm. unfold cooling in cl_cooldown. simpl in cl_cooldown. rewrite Hh, Hnow in cl_cooldown. simpl in cl_cooldown.
      set (ms := map _ _) in *. destruct (maximum ms) as [m|] eqn:Em.
      * simpl in cl_cooldown. apply Qltb_false, ts_instant_le in cl_cooldown. apply maximum_ge in Em. rewrite Forall_forall in Em.
        assert (_ts (c_at d) <= m); [|lia]. apply Em. apply list_elem_of_In, in_map_iff. exists d. split; [done|].
        apply filter_In. split; [by apply list_elem_of_In | done].
      * apply maximum_None, map_eq_nil in Em. assert (In d []) as []. rewrite <- Em. apply filter_In. split; [by apply list_elem_of_In | done].
    + rewrite (recent_history l _ _ (g_now g)); [exact cl_hour | done | by rewrite _ts_sub].
    + rewrite (recent_history l _ _ (g_now g)); [exact cl_day | done | by rewrite _ts_sub].
Qed.

Lemma claim_of_app l c x : claim_of l x -> claim_of (l ++ [c]) x.
Proof. intros (d & Hd & ?). exists d. split; [by apply lookup_app_l_Some | done]. Qed.
Lemma good_claim l tr c : good cf l tr -> claim_ok cf l c -> good cf (l ++ [c]) tr.
Proof.
  intros [Hp Hc Ho Hk] Hok. split; try done; [by constructor|]. eapply Forall_impl; [exact Hc|]. intros x. apply claim_of_app.
Qed.

Lemma reserve_rule l tr now key mode rid version bytes ev (c := mkClaim key mode rid version now bytes ev) : claim_ok cf l c ->
  xtriple (Held l tr) (call (reserve_action now key mode rid version bytes ev))
    (fun r w => match r with None => Held l tr w | Some id => Held (l ++ [c]) tr w /\ id = Z.of_nat (length l) + 1 end).
Proof.
  intros Hok. apply call_rule.
  - intros s a s' w Hs Hg E Hw Ht He. destruct (reserve_claims l s _ _ _ _ _ _ _ _ _ Hs E) as [[[= ->] ->] | (_ & [= ->] & Hs')].
    + split_and!; [by rewrite Hw | done | done | done].
    + split; [|done]. split_and!; [by rewrite Hw | done | by apply good_claim | done].
  - intros s e s' Hs E. by destruct (reserve_claims l s _ _ _ _ _ _ _ _ _ Hs E) as [[? ?] | (_ & ? & _)].
Qed.

Lemma fresh_action l tr id : good cf l tr -> Z.of_nat (length l) < id -> id ∉ map s_action tr.
Proof.
  intros [_ Hc _ _] Hid Hin. apply list_elem_of_fmap in Hin as (x & -> & Hx). rewrite Forall_forall in Hc.
  destruct (Hc x Hx) as (c & Hl & Hge & _). apply lookup_lt_Some in Hl. lia.
Qed.

(** The request goes out for a claim no request was sent for. *)
Lemma request_rule l tr p o e streak at_ id d c : l !! Z.to_nat (id - 1) = Some c -> 1 <= id -> c_key c = generation_key o ->
  c_mode c = "enforce" -> id ∉ map s_action tr ->
  (forall request s, claimed (generation_key o) "enforce" s = true -> (exists issued streak, build_restart_request o issued (producer_id cf) (producer_generation cf)
                 ("cra: confirmed tcp stall streak=" ++ str_Z streak) = Ok request) -> sending_ok cf (mkSending request id o p e at_ s)) ->
  xtriple (Held l tr) (request_restart cf p o e streak at_ id d) (fun _ => Inv cf).
Proof.
  intros Hl Hid Hk Hm Hnew Hok. unfold request_restart. apply calm_bind_any; [auto with calm|]. intros issued.
  eapply calm_bind_rule; [auto with calm | apply lift_returns|]. intros request Hreq.
  eapply triple_bind with (fun s w => Held l tr w /\ claimed (generation_key o) "enforce" s = true).
  { intros w Hw. split; [done|]. rewrite (claimed_claims l _ _ _ (proj1 Hw)). apply existsb_exists. exists c.
    rewrite Hk, Hm, !String.eqb_refl. split; [by apply list_elem_of_In, list_elem_of_lookup; eauto | done]. }
  intros s. apply triple_pure. intros Hs. set (x := mkSending request id o p e at_ s).
  eapply triple_bind with (fun _ => Held l (tr ++ [x])).
  { unfold send. eapply triple_bind with (fun _ => Held l (tr ++ [x])); [|intros _; apply (calm_bind cf); [auto with calm | intros ?; apply calm_ret]].
    intros w (Hs' & Ht & [Hp Hc Ho Hok'] & He). split_and!; [done | simpl; by rewrite Ht | | done]. split; try done.
    - apply Forall_app. split; [done|]. apply Forall_singleton. by exists c.
    - rewrite map_app. apply NoDup_app. split_and!; [done | | apply NoDup_singleton].
      intros n Hn Hn'. simpl in Hn'. apply list_elem_of_singleton in Hn' as ->. by apply Hnew.
    - apply Forall_app. split; [done|]. apply Forall_singleton, Hok; [done | by exists issued, streak]. }
  intros reply. destruct (match reply with inl _ => _ | inr _ => _ end) as [response state].
  apply calm_bind_any; [auto with calm|]. intros now. eapply triple_weaken with (Q' := fun _ => Held l (tr ++ [x])); [| done | eauto using held_inv].
  apply calm_bind; [apply calm_call; auto with stream | intros ?; apply calm_ret].
Qed.

Lemma decide_mode o p e outcome : acts (decide_restart o p e) = true -> d_outcome (decide_restart o p e) = outcome ->
  (if String.eqb outcome RESTART then "enforce" else "dry_run") = mode_of p.
Proof.
  intros Ha <-. rewrite (decide_outcome _ _ _ Ha). unfold mode_of. by destruct (String.eqb (po_mode p) "enforce").
Qed.

Lemma held_good {A} l tr (m : X A) Q : (good cf l tr -> xtriple (Held l tr) m Q) -> xtriple (Held l tr) m Q.
Proof. intros Hm w Hw. apply Hm; [apply Hw | done]. Qed.

Lemma act_rule l tr d p o streak n at_ : authorised cf p -> acts d = true ->
  xtriple (Held l tr) (_act cf d p o streak n at_) (fun _ => Inv cf).
Proof.
  intros Hp Ha. apply held_good. intros Hgood. unfold _act. eapply triple_bind; [apply guard_rule|]. intros g. apply triple_pure. intros Hg.
  assert (forall A (a : A) l', xtriple (Held l' tr) (xret a : X A) (fun _ => Inv cf)) as Hret.
  { intros A a l'. apply triple_ret. eauto using held_inv. }
  destruct (String.eqb_spec (d_outcome (g_decision g)) (d_outcome d)) as [Eo|]; [|apply Hret].
  destruct (g_latest g) as [[o1 e1]|]; [|apply Hret]. specialize (Hg o1 e1 eq_refl).
  assert (acts (g_decision g) = true) as Hga by (unfold acts in *; by rewrite Eo).
  assert ((if String.eqb (d_outcome d) RESTART then "enforce" else "dry_run") = mode_of p) as ->.
  { rewrite <- Eo, (gp_decision _ _ _ _ _ _ _ _ _ Hg). apply decide_mode with o1 e1; [|done]. by rewrite <- (gp_decision _ _ _ _ _ _ _ _ _ Hg). }
  eapply calm_bind_rule; [auto with calm | apply lift_returns|]. intros ev Hev.
  eapply triple_bind; [apply reserve_rule, (claim_allowed l p o1 o n at_ g e1 _ _ ev streak Hp Hg Hga Hev)|].
  intros [id|]; [|apply Hret]. set (c := mkClaim _ _ _ _ _ _ _). apply triple_pure. intros ->.
  eapply triple_bind; [apply guard_rule|]. intros g2. apply triple_pure. intros Hg2.
  assert (forall id state response (a : AgentDecision), xtriple (Held (l ++ [c]) tr)
    (bind! _ := call (complete_action (g_now g2) id state response) in xret a) (fun _ => Inv cf)) as Hdone.
  { intros. apply calm_bind_any; [apply calm_call; auto with stream | intros; apply Hret]. }
  destruct (String.eqb_spec (d_outcome (g_decision g2)) (d_outcome d)) as [Eo2|]; [|apply Hdone].
  destruct (g_latest g2) as [[o2 e2]|]; [|apply Hdone]. specialize (Hg2 o2 e2 eq_refl).
  destruct (String.eqb_spec (mode_of p) "dry_run") as [|Em]; [apply Hdone|].
  assert (po_mode p = "enforce") as Hmode.
  { unfold mode_of in Em. by destruct (String.eqb_spec (po_mode p) "enforce"). }
  apply request_rule with c.
  - rewrite lookup_app_r by lia. by replace (Z.to_nat (Z.of_nat (length l) + 1 - 1) - length l)%nat with 0%nat by lia.
  - lia.
  - simpl. symmetry. apply (gp_key _ _ _ _ _ _ _ _ _ Hg2).
  - simpl. unfold mode_of. by rewrite Hmode.
  - apply (fresh_action l); [done | lia].
  - intros request s Hcl Hreq. destruct Hg2 as [Hd2 [Hn2 Hat2] Hnow2 Hf2 _ _]. split; simpl; try done; try (by rewrite Hnow2).
    apply decide_acts. rewrite <- Hd2. unfold acts in *. by rewrite Eo2.
Qed.
End Acting.

(** ** Steps and runs *)
Section Runs.
Context `{Repr} `{FromIso} `{LocalZone} `{IpText} `{IsoFull} `{JsonCanon} `{Ed25519} `{JsonSha} `{TextDigest} `{IsoText} `{RU : Rules}.
Variable cf : agent_config.
#[local] Notation Held := (Held cf).
#[local] Notation Inv := (Inv cf).
#[local] Notation xtriple := (triple Inv).

Lemma inv_rule {A} (m : X A) Q : (forall l tr, xtriple (Held l tr) m Q) -> xtriple Inv m Q.
Proof. intros Hm w (l & tr & Hw). by apply (Hm l tr). Qed.
Lemma calm_inv {A} (m : X A) : calm cf m -> xtriple Inv m (fun _ => Inv).
Proof. intros Hm. apply inv_rule. intros l tr. eapply triple_weaken; [apply Hm | done |]. intros a w Hw. by apply held_inv in Hw. Qed.

Lemma policy_of_store s p : policy_in_force cf s = Ok p -> (forall v, kv_get POLICY_KEY s = Some v -> kv_ok POLICY_KEY v) -> authorised cf p.
Proof.
  unfold policy_in_force. intros Hp Hs. destruct (central_key cf) as [key|] eqn:Ek; [|injection Hp as <-; by left].
  unfold load_cached_policy in Hp. destruct (kv_get POLICY_KEY s) as [env|]; simpl in Hp; [|injection Hp as <-; by left].
  destruct (open_envelope env key) as [q|e] eqn:E; simpl in Hp.
  - injection Hp as <-. right. exists key, env. split_and!; [done | by apply Hs | done].
  - destruct (is_value_error e); simpl in Hp; [|done]. injection Hp as <-. by left.
Qed.
Lemma policy_rule l tr : xtriple (Held l tr) (policy cf) (fun p w => Held l tr w /\ authorised cf p).
Proof.
  apply call_rule.
  - intros s p s' w Hs Hg [= E <-] Hw Ht He. split; [split_and!; [by rewrite Hw | done | done | done]|].
    by apply (policy_of_store s); [|intros v; apply (hc_kv _ _ Hs)].
  - by intros s e s' Hs [= _ <-].
Qed.

Lemma assess_rule l tr now p stop o : authorised cf p -> xtriple (Held l tr) (assess cf now p stop o) (fun _ => Inv).
Proof.
  intros Hp. unfold assess. apply calm_bind_any; [auto with calm|]. intros a.
  destruct (update (tracker a) o p (max_gap cf)) as [stalled t]. do 2 (apply calm_bind_any; [auto with calm|]; intros _).
  apply calm_bind_any; [auto with calm|]. intros e. apply calm_bind_any.
  { destruct (_ && _); [apply calm_bind; [apply probe_calm | intros ?; apply calm_ret] | apply calm_ret]. }
  intros network. apply calm_bind_any; [auto with calm|]. intros at_. apply calm_bind_any.
  { destruct (bool_decide _); [apply bump_calm | apply calm_ret]. }
  intros _. apply calm_bind_any; [auto with calm|]. intros h.
  match goal with |- context [acts ?x] => generalize x end. intros d. eapply triple_bind with (fun _ => Inv).
  - destruct (acts d) eqn:Ea; [by apply act_rule|]. apply triple_ret. eauto using held_inv.
  - intros d'. by apply triple_ret.
Qed.

Lemma step_rule : xtriple Inv (step cf) (fun _ => Inv).
Proof.
  apply inv_rule. intros l tr. unfold step. apply calm_bind_any; [auto with calm|]. intros now.
  eapply triple_bind; [apply policy_rule|]. intros p. apply triple_pure. intros Hp.
  apply calm_bind_any; [auto with calm|]. intros stop. apply calm_bind_any; [auto with calm|]. intros _.
  apply calm_bind_any; [auto with calm|]. intros [why|o].
  - eapply triple_weaken; [apply calm_inv; calm_tac | intros w Hw; by apply held_inv in Hw | done].
  - apply calm_bind_any; [auto with calm|]. intros a. eapply triple_bind; [by apply assess_rule|]. intros [d n].
    apply calm_inv, after_decision_calm.
Qed.

Lemma triple_end {A} (m : X A) w : xtriple Inv m (fun _ => Inv) -> Inv w -> Inv (snd (m w)).
Proof. intros Hm Hw. specialize (Hm w Hw). by destruct (m w) as [[a|e|] w']. Qed.

(** What an event hands to the store. *)
Definition event_ok (e : event) : Prop :=
  match e with Step env | Stop env | Start env => env_ok env | Synced x => write_ok x | Kill => True end.
Lemma new_env env w w' : env_ok env -> w_store w' = w_store w -> w_trace w' = w_trace w -> w_env w' = env -> Inv w -> Inv w'.
Proof. intros He Es Et Ee (l & tr & Hs & Ht & Hg & _). exists l, tr. split_and!; [by rewrite Es | by rewrite Et | done | by rewrite Ee]. Qed.
Lemma perform_inv e w : event_ok e -> Inv w -> Inv (perform cf e w).
Proof.
  intros He Hw. destruct e; simpl in *.
  - destruct (w_alive w); [|done]. apply triple_end; [apply step_rule | by apply (new_env env w)].
  - destruct (w_alive w); [|done]. destruct Hw as (l & tr & Hs & Ht & Hg). exists l, tr. split_and!; [by apply sync_holds | done | apply Hg | apply Hg].
  - exact Hw.
  - destruct (w_alive w); [|done]. apply (triple_end shut_down (with_env env w)); [apply calm_inv, shut_down_calm | by apply (new_env env w)].
  - set (w0 := mkWorld _ _ _ _ _ _). assert (Inv w0) as Hw0 by by apply (new_env env w).
    pose proof (triple_end boot w0 (calm_inv _ (boot_calm cf)) Hw0) as Hb. by destruct (boot w0) as [[a|e|] w'].
Qed.
Lemma agent_run_inv events w : Forall event_ok events -> Inv w -> Inv (run cf events w).
Proof. intros He. unfold run. revert w. induction He as [|e events He _ IH]; intros w Hw; [done|]. simpl. by apply IH, perform_inv. Qed.
Lemma cold_inv id : kept_log = [] -> kv_ok "instance_id" (VStr id) -> Inv (cold_start id).
Proof. intros Hk Hid. exists [], []. split_and!; [by apply new_store_claims | done | split; constructor | by intros n]. Qed.

Lemma paced_lookup l i c : paced cf l -> l !! i = Some c -> claim_ok cf (take i l) c.
Proof.
  intros Hp. revert i c. induction Hp as [|l d Hp IH Hd]; intros i c Hl; [done|].
  apply lookup_app_Some in Hl as [Hl | [Hge Hl]].
  - rewrite take_app_le; [by apply IH|]. apply lookup_lt_Some in Hl. lia.
  - destruct (i - length l)%nat eqn:Ei; [|done]. injection Hl as ->. by rewrite take_app_ge, Ei, app_nil_r by lia.
Qed.
(** Two claims of one mode and one generation are one. *)
Lemma claims_once l i j c d : paced cf l -> l !! i = Some c -> l !! j = Some d -> c_key c = c_key d -> c_mode c = c_mode d -> i = j.
Proof.
  intros Hp Hi Hj Hk Hm. assert (forall i j c d, l !! i = Some c -> l !! j = Some d -> c_key c = c_key d -> c_mode c = c_mode d -> ~ (i < j)%nat) as Hno.
  { clear Hi Hj. intros i' j' c' d' Hi Hj Hk' Hm' Hlt. pose proof (co_first _ _ _ (paced_lookup l j' d' Hp Hj)) as Hf. rewrite Forall_forall in Hf.
    apply (Hf c'); try done. apply list_elem_of_lookup. exists i'. by rewrite lookup_take_lt. }
  pose proof (Hno i j c d Hi Hj Hk Hm). pose proof (Hno j i d c Hj Hi (eq_sym Hk) (eq_sym Hm)). lia.
Qed.
End Runs.

(** ** Runs *)
(** The envelopes an event hands to the store. *)
Definition gives (x : sync_write) (v : pyval) : Prop := match x with PolicyAdopted _ w _ => w = v | _ => False end.
Definition hands (e : event) (v : pyval) : Prop :=
  match e with
  | Step env | Stop env | Start env => exists n, Exists (fun x => gives x v) (r_sync (env n))
  | Synced x => gives x v
  | Kill => False
  end.
Definition handed_policy (events : list event) (v : pyval) : Prop := Exists (fun e => hands e v) events.
(** The policy of a store was handed to it by one of the events. *)
Program Definition adopted_by (events : list event) : Rules :=
  mkRules (fun k v => k = POLICY_KEY -> handed_policy events v) [] _.
Next Obligation. match goal with Hk : own_key _ |- _ => by destruct Hk end. Qed.

Lemma write_given `{Rules} x : (forall v, gives x v -> kv_ok POLICY_KEY v) -> (forall n, kv_ok ACKED_KEY (VInt n)) -> write_ok x.
Proof. destruct x; simpl; auto. Qed.
Lemma events_ok events : Forall (@event_ok (adopted_by events)) events.
Proof.
  apply Forall_forall. intros e He. assert (forall v, hands e v -> handed_policy events v) as Hv.
  { intros v Hv. apply Exists_exists. by exists e. }
  destruct e as [env|x| |env|env]; simpl; try done; [|by apply write_given; [intros v Hg _; apply Hv|]| |].
  all: intros n; apply Forall_forall; intros x Hx; apply write_given; [|done]; intros v Hg _; apply Hv; exists n; apply Exists_exists; eauto.
Qed.

Section Run.
Context `{Repr} `{FromIso} `{LocalZone} `{IpText} `{IsoFull} `{JsonCanon} `{Ed25519} `{JsonSha} `{TextDigest} `{IsoText}.
Lemma run_held cf events id : exists l tr, Held (RU := adopted_by events) cf l tr (run cf events (cold_start id)).
Proof. pose (RU := adopted_by events). apply agent_run_inv; [apply events_ok | by apply cold_inv]. Qed.
End Run.

(** The claim a request was sent under, as the store has it. *)
Definition claimed_in (s : agent_store) (x : sending) : Prop := exists a,
  action (s_action x) s = Some a /\ act_key a = generation_key (s_observation x) /\ act_mode a = "enforce".
Lemma claim_stored `{Repr} `{RU : Rules} l s x : holds_claims l s -> claim_of l x -> claimed_in s x.
Proof.
  intros Hs (c & Hl & Hge & Hk & Hm). unfold claimed_in, action. rewrite (proj2 (Z.leb_le _ _) Hge).
  assert (E : (core <$> actions s) !! Z.to_nat (s_action x - 1) = (claim_core <$> l) !! Z.to_nat (s_action x - 1)).
  { f_equal. apply (hc_rows _ _ Hs). }
  rewrite !list_lookup_fmap, Hl in E. destruct (actions s !! _) as [a|]; [|discriminate E].
  exists a. split; [done|]. injection E as Ek Em _. split; congruence.
Qed.

Module AgentProperties.
Section Properties.
Context `{Repr} `{FromIso} `{LocalZone} `{IpText} `{IsoFull} `{JsonCanon} `{Ed25519} `{JsonSha} `{TextDigest} `{IsoText}.

(** C6: Whatever storage faults, deaths, restarts and writes of the synchronisation
    thread a run sees, the agent sends at most one restart request per FFmpeg
    generation, and each request has a claim of its own: a row of the store for its
    generation in mode enforce, the row of no other request. *)
Theorem one_request_per_generation cf events id : let w := run cf events (cold_start id) in
  NoDup (requested w) /\ NoDup (map s_action (w_trace w)) /\ Forall (claimed_in (w_store w)) (w_trace w).
Proof.
  cbv zeta. unfold requested. destruct (run_held cf events id) as (l & tr & Hs & -> & [Hp Hc Ho _] & _).
  split; [|split; [done|]].
  2: { eapply Forall_impl; [exact Hc|]. intros x. by apply (claim_stored (RU := adopted_by events) l). }
  apply NoDup_fmap_2_strong; [|by eapply NoDup_fmap_1].
  intros x y Hx Hy Hk. rewrite Forall_forall in Hc.
  destruct (Hc x Hx) as (c & Hl & Hge & Hkx & Hmx), (Hc y Hy) as (d & Hl' & Hge' & Hky & Hmy).
  assert (s_action x = s_action y) as Hid.
  { pose proof (claims_once cf l _ _ c d Hp Hl Hl' ltac:(congruence) ltac:(congruence)). lia. }
  apply list_elem_of_lookup in Hx as [i Hi], Hy as [j Hj].
  assert (i = j) as ->; [|congruence]. eapply (NoDup_lookup (s_action <$> tr) i j (s_action x)); [exact Ho | |].
  - by rewrite list_lookup_fmap, Hi.
  - by rewrite list_lookup_fmap, Hj, Hid.
Qed.

(** C7: Every request of a run rests on a confirmed stall past the grace of the
    engine, reachable ingest checked at most the age limit ago, a fresh observation,
    a policy in mode enforce that was handed to the store during the run and is
    signed by the centre, the executor's authority, and a claim already in the
    store. *)
Theorem requests_are_cleared cf events id : Forall (sending_ok (RU := adopted_by events) cf) (w_trace (run cf events (cold_start id))).
Proof. destruct (run_held cf events id) as (l & tr & _ & -> & [] & _). done. Qed.
End Properties.
End AgentProperties.
