(* ===== verification/AgentVerify.v ===== *)
(** * Recovery control: verification of the audit log

    Models src/recovery-control/src/cra/central/verify.py: the invariants the centre
    checks on the records of its agents.  The counts of its summary are left out.
    Times are the milliseconds their texts denote. *)
From S2P Require Import Prelude PyVal UtcTime FastPolicy EffectContract EffectModel AgentPolicy AgentObserve AgentDecide AgentStore.

Record audit_entry : Type := mkEntry { v_agent : string; v_instance : string; v_seq : Z; v_ts : Z; v_kind : string; v_payload : dict }.
Record violation : Type := mkViolation { vi_code : string; vi_agent : string; vi_seq : option Z; vi_detail : string }.

Definition RESULT_GRACE : Z := 300000.
Definition SILENT_AFTER : Z := 1500000.

(** A dict or set keyed by decoded values: only hashable ones can be keys. *)
Definition hashable (v : pyval) : res unit := match v with VList _ | VDict _ => Err EType | _ => Ok tt end.
Definition keyed {A} (k : pyval) (l : list (pyval * A)) : option A := snd <$> List.find (fun kv => py_eq (fst kv) k) l.
(** [d[k] = a]: a new key goes to the end, an old one keeps its place. *)
Fixpoint keyed_set {A} (k : pyval) (a : A) (l : list (pyval * A)) : list (pyval * A) :=
  match l with
  | [] => [(k, a)]
  | (k', a') :: l' => if py_eq k' k then (k', a) :: l' else (k', a') :: keyed_set k a l'
  end.

(** Policies by version. *)
Definition find_policy (policies : list (Z * dict)) (version : pyval) : res (option dict) :=
  let! _ := hashable version in Ok (snd <$> List.find (fun kv => py_eq (VInt (fst kv)) version) policies).

(** ** Per agent instance: results of actions and evidence of recovery *)
Section Verify.
Context `{Repr} `{FromIso}.

Definition opt_sample (v response : pyval) : bool :=
  match v, response with VDict s, VDict r => after_request s r | _, _ => false end.
Definition opt_progress (first second max_gap lastsnd : pyval) : bool :=
  match first, second with VDict f, VDict s => sending_progress f s max_gap lastsnd | _, _ => false end.

(** A historical RECOVERED label. *)
Definition recovered_valid (payload result : dict) (response : pyval) : bool :=
  eq_str (dget result "state" VNone) "EFFECT_OBSERVED"
  && opt_sample (VDict [("generation_key", dget payload "observed_generation_key" VNone);
                        ("executor_instance_id", dget payload "executor_instance_id" VNone);
                        ("observed_at", dget payload "observed_at" VNone); ("uptime_sec", dget payload "uptime_sec" VNone)]) response.

(** A DELIVERY_RESUMED label, with or without a confirmed execution. *)
Definition resumed_valid (policies : list (Z * dict)) (resumed : bool) (payload action result : dict) (response : pyval) : res bool :=
  let! found := find_policy policies (dget action "policy_version" VNone) in
  let recovery_policy := default [] found in
  let first := py_or (dget payload "progress_from" VNone) (VDict []) in
  let second := py_or (dget payload "sample" VNone) (VDict []) in
  let expected := if resumed then "EFFECT_OBSERVED" else "OUTCOME_UNKNOWN" in
  Ok (eq_str (dget action "mode" VNone) "enforce") &&! Ok (eq_str (dget result "state" VNone) expected)
  &&! Ok (eq_str (dget payload "execution_state" VNone) expected)
  &&! (let! pod := get response "agent_pod_uid" in let! generation := get response "agent_previous_generation" in
       Ok (eq_str (dget action "generation_key" VNone) (py_str pod ++ "/" ++ py_str generation)))
  &&! Ok (opt_sample first response) &&! Ok (opt_sample second response)
  &&! rall (fun k => let! mine := get second k in let! theirs := get response ("agent_" ++ k) in Ok (py_eq mine theirs))
        ["delivery_route"; "delivery_route_generation"]
  &&! (let! w := get response "agent_verify_window_sec" in Ok (py_eq w (dget recovery_policy "verify_window_sec" VNone)))
  &&! (let! w := get response "agent_stall_lastsnd_ms" in Ok (py_eq w (dget recovery_policy "stall_lastsnd_ms" VNone)))
  &&! (let! gap := getd response "agent_max_sample_gap_sec" (VInt 5) in
       Ok (opt_progress first second gap (dget recovery_policy "stall_lastsnd_ms" (VInt (po_stall_lastsnd_ms BUILTIN))))).

Record stream_state : Type := mkStream { st_reserved : list (pyval * audit_entry); st_results : list (pyval * dict); st_violations : list violation }.
Definition report (code : string) (r : audit_entry) (detail : string) : violation := mkViolation code (v_agent r) (Some (v_seq r)) detail.

Definition action_id (payload : dict) : res pyval := let! id := idx (VDict payload) "action_id" in let! _ := hashable id in Ok id.
Definition RESUMED : list string := ["DELIVERY_RESUMED"; "DELIVERY_RESUMED_EXECUTION_UNKNOWN"; "RECOVERED"].
Definition verified_entry (policies : list (Z * dict)) (s : stream_state) (r : audit_entry) : res stream_state :=
  let payload := v_payload r in
  let result_name := dget payload "result" VNone in
  let! _ := hashable (dget payload "result" (VStr "")) in
  if negb (in_strs result_name RESUMED) then Ok s else
  let! id := action_id payload in
  let action := match keyed id (st_reserved s) with Some e => v_payload e | None => [] end in
  let result := default [] (keyed id (st_results s)) in
  let response := dget result "response" (VDict []) in
  let! valid := (if eq_str result_name "RECOVERED" then Ok (recovered_valid payload result response)
                 else resumed_valid policies (eq_str result_name "DELIVERY_RESUMED") payload action result response) in
  Ok (if valid : bool then s
      else mkStream (st_reserved s) (st_results s) (st_violations s ++ [report "RECOVERY_EVIDENCE_INVALID" r ""])).
Definition stream_entry (policies : list (Z * dict)) (s : stream_state) (r : audit_entry) : res stream_state :=
  let payload := v_payload r in
  if String.eqb (v_kind r) "action_reserved" then
    let! id := action_id payload in Ok (mkStream (keyed_set id r (st_reserved s)) (st_results s) (st_violations s))
  else if listed ["action_result"; "action_reconciled"] (v_kind r) then
    let! id := action_id payload in Ok (mkStream (st_reserved s) (keyed_set id payload (st_results s)) (st_violations s))
  else if String.eqb (v_kind r) "action_verified" then verified_entry policies s r
  else Ok s.
Fixpoint stream_entries (policies : list (Z * dict)) (s : stream_state) (l : list audit_entry) : res stream_state :=
  match l with
  | [] => Ok s
  | r :: l' => let! s' := stream_entry policies s r in stream_entries policies s' l'
  end.
(** An action whose result is missing for longer than the grace. *)
Definition without_result (now : Q) (s : stream_state) (kv : pyval * audit_entry) : bool :=
  bool_decide (keyed (fst kv) (st_results s) = None) && (RESULT_GRACE <? Qfloor (now * 1000) - v_ts (snd kv)).
Definition stream_violations (now : Q) (policies : list (Z * dict)) (l : list audit_entry) : res (list violation) :=
  let! s := stream_entries policies (mkStream [] [] []) l in
  Ok (st_violations s ++ map (fun kv => report "I2_ACTION_WITHOUT_RESULT" (snd kv) ("action " ++ py_str (fst kv)))
                           (List.filter (without_result now s) (st_reserved s))).

(** The records of each agent instance, in the order of first appearance. *)
Definition of_stream (a i : string) (r : audit_entry) : bool := String.eqb (v_agent r) a && String.eqb (v_instance r) i.
Fixpoint stream_names (l : list audit_entry) (seen : list (string * string)) : list (string * string) :=
  match l with
  | [] => []
  | r :: l' => if bool_decide ((v_agent r, v_instance r) ∈ seen) then stream_names l' seen
               else (v_agent r, v_instance r) :: stream_names l' ((v_agent r, v_instance r) :: seen)
  end.
Fixpoint streams_violations (now : Q) (policies : list (Z * dict)) (records : list audit_entry) (names : list (string * string))
    : res (list violation) :=
  match names with
  | [] => Ok []
  | (a, i) :: rest =>
      let! l := stream_violations now policies (List.filter (of_stream a i) records) in
      let! l' := streams_violations now policies records rest in Ok (l ++ l')
  end.

(** ** Per agent and mode: the limits of actions *)
(** [sorted(records, key=...)] *)
Definition by_time (l : list audit_entry) : list audit_entry := sort_by v_ts l.

(** A reservation that was counted: its agent, mode, generation and time. *)
Record counted : Type := mkCounted { n_agent : string; n_mode : pyval; n_key : pyval; n_ts : Z }.
Definition same_key (x y : counted) : bool := String.eqb (n_agent x) (n_agent y) && py_eq (n_mode x) (n_mode y).
Definition same_generation (x y : counted) : bool := same_key x y && py_eq (n_key x) (n_key y).

Definition flag (b : bool) (code : string) (r : audit_entry) (detail : string) : list violation := if b then [report code r detail] else [].
Definition seconds (ms : Z) : Q := (inject_Z ms / 1000)%Q.
(** [q < v] and [n >= v] for a decoded number; anything else raises. *)
Definition below (q : Q) (v : pyval) : res bool := match as_number v with Some f => Ok (pyfloat_lt (Fin q) f) | None => Err EType end.
Definition at_least (n : Z) (v : pyval) : res bool :=
  match as_number v with Some f => Ok (pyfloat_lt f (Fin (inject_Z n)) || pyfloat_eq f (Fin (inject_Z n))) | None => Err EType end.
Definition within (at_ ms : Z) (l : list Z) : Z := Z.of_nat (length (List.filter (fun t => at_ - t <=? ms) l)).

Definition bad_network (payload : dict) : res bool :=
  let! network := get (py_or (dget payload "evidence" VNone) (VDict [])) "network" in
  let network := py_or network (VDict []) in
  (let! v := get network "network_down" in Ok (negb (is_false v)))
  ||! (let! v := get network "ingest_ok" in Ok (negb (is_true v))) ||! (let! v := get network "timed_out" in Ok (is_true v)).

Definition rate_violations (r : audit_entry) (previous : list Z) (policy : dict) : res (list violation) :=
  let! soon := (match last previous with
                | Some t => let! c := idx (VDict policy) "cooldown_sec" in below (seconds (v_ts r - t)) c
                | None => Ok false
                end) in
  let! full := (let! m := idx (VDict policy) "max_per_hour" in at_least (within (v_ts r) 3600000 previous) m)
               ||! (let! m := idx (VDict policy) "max_per_day" in at_least (within (v_ts r) 86400000 previous) m) in
  Ok (flag soon "I6_COOLDOWN" r "" ++ flag full "I6_LIMIT" r "").

Definition limit_entry (policies : list (Z * dict)) (seen : list counted) (r : audit_entry) : res (list counted * list violation) :=
  let payload := v_payload r in
  let mode := dget payload "mode" (VStr "") in
  let x := mkCounted (v_agent r) mode (dget payload "generation_key" (VStr "")) (v_ts r) in
  let! _ := hashable mode in
  let! _ := hashable (n_key x) in
  let again := existsb (same_generation x) seen in
  let version := dget payload "policy_version" VNone in
  let! found := find_policy policies version in
  let policy := match found with Some p => Some p | None => if py_eq version (VInt 0) then Some (policy_dict BUILTIN) else None end in
  let mismatch := match policy with Some p => eq_str mode "enforce" && negb (eq_str (dget p "mode" VNone) "enforce") | None => false end in
  let! unlocalised := bad_network payload in
  let! rates := match policy with Some p => rate_violations r (map n_ts (List.filter (same_key x) seen)) p | None => Ok [] end in
  Ok (seen ++ [x],
      flag again "I1_DUPLICATE_GENERATION_ACTION" r (py_str (n_key x))
      ++ flag (bool_decide (policy = None)) "I8_UNKNOWN_POLICY_VERSION" r (py_str version)
      ++ flag mismatch "I7_ENFORCE_WITHOUT_ENFORCE_POLICY" r ("policy " ++ py_str version)
      ++ flag unlocalised "I4_ACTION_WITHOUT_LOCALIZED_STALL" r "" ++ rates).
Fixpoint limit_entries (policies : list (Z * dict)) (seen : list counted) (l : list audit_entry) : res (list violation) :=
  match l with
  | [] => Ok []
  | r :: l' =>
      let! (seen', found) := limit_entry policies seen r in
      let! rest := limit_entries policies seen' l' in Ok (found ++ rest)
  end.
Definition limits (policies : list (Z * dict)) (records : list audit_entry) : res (list violation) :=
  limit_entries policies [] (List.filter (fun r => String.eqb (v_kind r) "action_reserved") (by_time records)).

(** ** The whole check *)
Definition last_seen (records : list audit_entry) (a : string) : option Z :=
  maximum (map v_ts (List.filter (fun r => String.eqb (v_agent r) a) records)).
Fixpoint agent_names (l : list audit_entry) (seen : list string) : list string :=
  match l with
  | [] => []
  | r :: l' => if bool_decide (v_agent r ∈ seen) then agent_names l' seen else v_agent r :: agent_names l' (v_agent r :: seen)
  end.
Definition silence (now : Q) (records : list audit_entry) (expected : list string) : list violation :=
  match records with [] => [mkViolation "AUDIT_EMPTY" "" None "no observed audit records"] | _ => [] end
  ++ map (fun a => mkViolation "AGENT_UNOBSERVED" a None "no audit received")
       (List.filter (fun a => bool_decide (last_seen records a = None)) expected)
  ++ map (fun a => mkViolation "AGENT_SILENT" a None "")
       (List.filter (fun a => match last_seen records a with Some t => SILENT_AFTER <? Qfloor (now * 1000) - t | None => false end)
          (agent_names records [])).

Definition verify_audit (records : list audit_entry) (policies : list (Z * dict)) (now : Q) (expected : list string) : res (list violation) :=
  let! recovery := streams_violations now policies records (stream_names records []) in
  let! rates := limits policies records in
  Ok (recovery ++ rates ++ silence now records expected).
End Verify.
