(* ===== verification/AgentDemo.v ===== *)
(** * A run of the recovery agent

    Concrete surroundings in which the agent adopts a policy, confirms a stall, sends
    one request, dies, starts again, sees a new child stall and waits for the end of
    the cooldown.  The signature accepts the text of one policy only. *)
From S2P Require Import Prelude PyVal UtcTime FastPolicy SendSample EffectContract EffectModel EffectReconcile AgentPolicy AgentObserve AgentDecide AgentStore AgentEffect Agent.

Module Demo.
#[export] Instance repr_demo : Repr := fun _ => "".
#[export] Instance from_demo : FromIso := basic_iso.
#[export] Instance zone_demo : LocalZone := fun _ => 0%Q.
#[export] Instance ip_demo : IpText := Some.
#[export] Instance full_demo : IsoFull := fun t => (iso_seconds (Qfloor t) ++ "+00:00")%string.
#[export] Instance sha_demo : JsonSha := fun _ => "d".
#[export] Instance digest_demo : TextDigest := fun s => s.
#[export] Instance text_demo : IsoText := fun t => (iso_seconds (Qfloor t) ++ "Z")%string.

Definition policy_demo : Policy := mkPolicy 7 "enforce" 2 4000 8192 64 0 20 60 4 12 60.
#[export] Instance canon_demo : JsonCanon := fun v =>
  Ok (match parse v with Ok p => if bool_decide (p = policy_demo) then "policy 7" else "" | Err _ => "" end).
#[export] Instance ed_demo : Ed25519 := {|
  ed25519_sign key text := (key ++ text)%string;
  ed25519_verify key text signature := String.eqb text "policy 7" && String.eqb signature (key ++ text)%string;
  public_key_text key := key |}.

Definition envelope_demo : pyval := VDict [("policy", VDict (policy_dict policy_demo)); ("signature", VStr "centrepolicy 7")].

Definition config_demo : agent_config :=
  mkConfig (Some "centre") "cra" 1 "192.0.2.9" 443 [("PRIMARY", mkEndpoint "192.0.2.1" 443)] 2 3.

(** The observation of second [t]: a child whose peer acknowledges nothing. *)
Definition observation_demo (generation : string) (t : Z) : dict :=
  [("schema_version", VStr OBSERVATION_SCHEMA); ("observed_at", VStr (iso_seconds t ++ "+00:00")); ("observation_id", VStr "o");
   ("executor_instance_id", VStr "x1"); ("sequence", VInt t); ("pod_uid", VStr "pod"); ("ffmpeg_generation", VStr generation);
   ("ffmpeg_running", VBool true); ("ffmpeg_uptime_sec", VInt 100); ("active_producer_id", VStr "cra");
   ("active_producer_generation", VInt 1); ("target_snapshot_status", VStr "VALID"); ("target_identity", VDict []);
   ("tcp_metrics", VDict [("bytes_sent", VInt (100 + t)); ("notsent", VInt 9000); ("unacked", VInt 70); ("lastsnd_ms", VInt 10);
                          ("bytes_acked", VInt 90)]);
   ("delivery_route", VStr "PRIMARY"); ("delivery_route_generation", VInt 1)].
Definition answer_demo (generation : string) : dict :=
  [("request_id", VStr ("cra-pod/" ++ generation)); ("ok", VBool true); ("state", VStr "EFFECT_OBSERVED")].
(** Every reading of a step in second [t]. *)
Definition second (generation : string) (t : Z) (weather : weather) (_ : nat) : reading :=
  mkReading (inject_Z t) (Content (VDict (observation_demo generation t))) false (Ok (mkNetwork true 2 true false))
    (Ok (answer_demo generation)) (Err (EOS "refused")) (Ok []) [] weather.
Definition T0 : Z := 1790000000.
Definition steps (generation : string) (from : Z) (n : nat) : list event :=
  map (fun k => Step (second generation (T0 + from + 2 * Z.of_nat k) Calm)) (seq 0 n).
Definition adopted : event := Synced (PolicyAdopted (inject_Z T0) envelope_demo [("version", VInt 7)]).

(** Three samples confirm the stall; the restarted agent sees the same child stalled. *)
Definition events_demo : list event :=
  [Start (second "g1" T0 Calm); adopted] ++ steps "g1" 2 5 ++ [Kill; Start (second "g1" (T0 + 20) Calm)] ++ steps "g1" 22 4
  ++ steps "g2" 30 5 ++ steps "g2" 80 4.
Definition world_demo : agent_world := run config_demo events_demo (cold_start "db").
End Demo.
Import Demo.

(** One request per child: the second one after the cooldown. *)
Example demo_requests :
  map (fun x => (generation_key (s_observation x), s_action x, Qfloor (e_now (s_evidence x)) - T0)) (w_trace world_demo)
    = [("pod/g1", 1, 6); ("pod/g2", 2, 84)].
Proof. vm_compute. reflexivity. Qed.
