(* ===== verification/AgentVerifyProofs.v ===== *)
(** * The centre accepts the log of every agent

    The verifier reads the records sorted by time, across modes; the agent checks its
    limits against its own claims in the order it made them.  Sorting is stable and
    the claims of one mode have increasing times, so both look at the same lists. *)
From S2P Require Import Prelude PyVal UtcTime FastPolicy SendSample EffectContract EffectModel AgentPolicy AgentObserve AgentDecide AgentStore AgentEffect Agent AgentStoreProofs AgentProofs AgentVerify AgentDemo.

Lemma filter_split {A} (f : A -> bool) l pre r post : List.filter f l = pre ++ r :: post ->
  exists pre' post', l = pre' ++ r :: post' /\ List.filter f pre' = pre.
Proof.
  revert pre. induction l as [|x l IH]; intros pre; simpl; [by destruct pre|]. destruct (f x) eqn:Ef.
  - destruct pre as [|y pre]; simpl; intros [= -> Hl].
    + by exists [], l.
    + destruct (IH pre Hl) as (pre' & post' & -> & <-). exists (y :: pre'), post'. simpl. by rewrite Ef.
  - intros Hl. destruct (IH pre Hl) as (pre' & post' & -> & <-). exists (x :: pre'), post'. simpl. by rewrite Ef.
Qed.
(** ** The check of one record depends on the records of its mode only *)
Section Limits.
Context `{Repr}.
Definition counted_of (r : audit_entry) : counted :=
  mkCounted (v_agent r) (dget (v_payload r) "mode" (VStr "")) (dget (v_payload r) "generation_key" (VStr "")) (v_ts r).
Definition mode_mates (r x : audit_entry) : bool := same_key (counted_of r) (counted_of x).
Definition passes (policies : list (Z * dict)) (seen : list counted) (r : audit_entry) : Prop :=
  limit_entry policies seen r = Ok (seen ++ [counted_of r], []).

Lemma existsb_same_key x seen : existsb (same_generation x) (List.filter (same_key x) seen) = existsb (same_generation x) seen.
Proof.
  induction seen as [|y seen IH]; simpl; [done|]. destruct (same_key x y) eqn:E; simpl; [by rewrite IH|]. rewrite IH. unfold same_generation at 2. by rewrite E.
Qed.
Lemma filter_idem {A} (f : A -> bool) l : List.filter f (List.filter f l) = List.filter f l.
Proof. induction l as [|x l IH]; simpl; [done|]. destruct (f x) eqn:E; simpl; rewrite ?E; congruence. Qed.

Definition limit_of (policies : list (Z * dict)) (seen : list counted) (r : audit_entry) : res (list violation) :=
  let! x := limit_entry policies seen r in Ok (snd x).
Lemma limit_entry_seen policies seen r : limit_entry policies seen r = let! v := limit_of policies seen r in Ok (seen ++ [counted_of r], v).
Proof.
  unfold limit_of, limit_entry, counted_of. destruct (hashable _); simpl; [|done]. destruct (hashable _); simpl; [|done].
  destruct (find_policy _ _) as [found|]; simpl; [|done]. destruct (bad_network _); simpl; [|done].
  destruct found; simpl; [by destruct (rate_violations _ _ _)|]. destruct (py_eq _ _); simpl; [by destruct (rate_violations _ _ _) | done].
Qed.
Lemma limit_of_mates policies seen r :
  limit_of policies seen r = limit_of policies (List.filter (same_key (counted_of r)) seen) r.
Proof.
  unfold limit_of, limit_entry, counted_of. rewrite existsb_same_key, filter_idem. destruct (hashable _); simpl; [|done].
  destruct (hashable _); simpl; [|done]. destruct (find_policy _ _); simpl; [|done]. destruct (bad_network _); simpl; [|done].
  by destruct (match _ with Some _ => rate_violations _ _ _ | None => _ end).
Qed.
Lemma passes_mates policies seen seen' r : passes policies seen r ->
  List.filter (same_key (counted_of r)) seen' = List.filter (same_key (counted_of r)) seen -> passes policies seen' r.
Proof.
  unfold passes. rewrite !limit_entry_seen, (limit_of_mates _ seen), (limit_of_mates _ seen'). intros Hp ->.
  destruct (limit_of _ _ _); simpl in *; congruence.
Qed.
Lemma filter_counted r l : List.filter (same_key (counted_of r)) (map counted_of l) = map counted_of (List.filter (mode_mates r) l).
Proof. unfold mode_mates. induction l as [|x l IH]; simpl; [done|]. destruct (same_key _ _); simpl; congruence. Qed.

Lemma limit_entries_pass policies l : forall seen,
  (forall pre r post, l = pre ++ r :: post -> passes policies (seen ++ map counted_of pre) r) -> limit_entries policies seen l = Ok [].
Proof.
  induction l as [|r l IH]; intros seen Hl; [done|]. cbn [limit_entries]. rewrite <- (app_nil_r seen) at 1.
  rewrite (Hl [] r l eq_refl). cbn [rbind]. rewrite app_nil_r in *. rewrite IH; [done|]. intros pre x post ->.
  specialize (Hl (r :: pre) x post eq_refl). simpl in Hl. by rewrite <- app_assoc.
Qed.

Definition text_mode (r : audit_entry) : Prop := exists m, dget (v_payload r) "mode" (VStr "") = VStr m.
Lemma mates_iff r x m : dget (v_payload r) "mode" (VStr "") = VStr m ->
  mode_mates r x = true <-> v_agent r = v_agent x /\ dget (v_payload x) "mode" (VStr "") = VStr m.
Proof.
  intros Hm. unfold mode_mates, same_key, counted_of. cbn [n_agent n_mode]. rewrite Hm, andb_true_iff, String.eqb_eq.
  split; intros [Ha Hx]; (split; [done|]).
  - destruct (dget (v_payload x) "mode" (VStr "")); try done. apply String.eqb_eq in Hx. congruence.
  - rewrite Hx. apply String.eqb_refl.
Qed.
Lemma mates_trans r x y : text_mode r -> mode_mates r x = true -> mode_mates r y = true -> mode_mates x y = true.
Proof.
  intros [m Hm]. rewrite !(mates_iff r _ m Hm). intros [Hx Hmx] [Hy Hmy]. apply (mates_iff x y m Hmx). split; [congruence | done].
Qed.
Lemma mates_refl r : text_mode r -> mode_mates r r = true.
Proof. intros [m Hm]. by apply (mates_iff r r m Hm). Qed.

(** Sorting by time changes nothing for a list whose modes are in order. *)
Lemma limits_in_order policies l : Forall text_mode l ->
  (forall pre r post, l = pre ++ r :: post -> passes policies (map counted_of pre) r
     /\ Forall (fun x => mode_mates r x = true -> key_le v_ts x r) pre) ->
  limit_entries policies [] (by_time l) = Ok [].
Proof.
  unfold by_time. intros Ht Hl. apply limit_entries_pass. intros pre r post Hs. cbn [app]. rewrite List.Forall_forall in Ht.
  assert (text_mode r) as Hr by (apply Ht, (sort_by_In v_ts); rewrite Hs; apply in_elt). pose proof (mates_refl r Hr) as Hrr.
  assert (List.filter (mode_mates r) l = List.filter (mode_mates r) pre ++ r :: List.filter (mode_mates r) post) as Hf.
  { transitivity (List.filter (mode_mates r) (sort_by v_ts l)).
    - rewrite filter_sort_by, sort_by_id; [done|]. apply in_order_splits. intros pre' x post' Hx.
      destruct (filter_split _ _ _ _ _ Hx) as (pre2 & post2 & -> & <-). destruct (Hl pre2 x post2 eq_refl) as [_ Ho].
      apply List.Forall_forall. intros y Hy. apply filter_In in Hy as [Hy Hm]. rewrite List.Forall_forall in Ho. apply Ho; [done|].
      assert (In x (List.filter (mode_mates r) (pre2 ++ x :: post2))) as Hi by (rewrite Hx; apply in_elt).
      apply filter_In in Hi as [_ Hi]. by apply (mates_trans r x y).
    - rewrite Hs, List.filter_app. simpl. by rewrite Hrr. }
  destruct (filter_split _ _ _ _ _ Hf) as (pre' & post' & -> & Hpre). destruct (Hl pre' r post' eq_refl) as [Hp _].
  eapply passes_mates; [exact Hp|]. rewrite !filter_counted. by rewrite Hpre.
Qed.
End Limits.

(** ** The records of an agent *)
Section Records.
Context `{Repr} `{FromIso} `{LocalZone} `{IpText} `{IsoFull} `{JsonCanon} `{Ed25519} `{JsonSha} `{TextDigest} `{IsoText} `{RU : Rules}.
Variable cf : agent_config.
Variable policies : list (Z * dict).

(** The record the centre holds of the [n]-th line of the log. *)
Definition entry_of (agent instance : string) (kv : Z * audit_record) : audit_entry :=
  mkEntry agent instance (fst kv) (au_ts (snd kv)) (au_kind (snd kv)) (au_payload (snd kv)).
Definition log_entries (agent instance : string) (log : list audit_record) : list audit_entry :=
  map (entry_of agent instance) (numbered log).

(** The centre knows the policy under its version; version 0 may be the built-in one. *)
Definition published (p : Policy) : Prop :=
  find_policy policies (VInt (po_version p)) = Ok (Some (policy_dict p)) \/ (p = BUILTIN /\ find_policy policies (VInt 0) = Ok None).

Definition line_of (r : audit_entry) : audit_record := mkAudit (v_ts r) (v_kind r) (v_payload r).
(** A record of agent [a] that reports the claim. *)
Record reports (a : string) (r : audit_entry) (c : claim) : Prop := {
  re_agent : v_agent r = a;
  re_line : exists n, line_of r = claim_record n c }.

Lemma filter_map {A B} (g : A -> B) f l : map g (List.filter (fun x => f (g x)) l) = List.filter f (map g l).
Proof. induction l as [|x l IH]; simpl; [done|]. destruct (f (g x)); simpl; by rewrite IH. Qed.
Lemma numbered_snd {A} (l : list A) : map snd (numbered l) = l.
Proof.
  unfold numbered. change (map snd) with (fmap (M := list) (@snd Z A)). rewrite fmap_imap. apply list_eq. intros i.
  rewrite list_lookup_imap. by destruct (l !! i).
Qed.
Lemma reports_claims a i l log : List.filter is_claim log = claim_records l ->
  Forall2 (reports a) (List.filter (fun r => String.eqb (v_kind r) "action_reserved") (log_entries a i log)) l.
Proof.
  intros Ha. unfold log_entries. set (rs := List.filter _ _).
  assert (map line_of rs = claim_records l) as Hm.
  { rewrite <- Ha. unfold rs. rewrite (filter_map line_of is_claim), map_map. f_equal. rewrite <- (numbered_snd log) at 2.
    apply map_ext. by intros [n []]. }
  assert (Forall (fun r => v_agent r = a) rs) as Hagent.
  { apply List.Forall_forall. intros r Hr. apply filter_In in Hr as [Hr _]. by apply in_map_iff in Hr as (kv & <- & _). }
  clearbody rs. clear Ha. apply Forall2_same_length_lookup_2.
  - apply (f_equal length) in Hm. unfold claim_records in Hm. by rewrite length_map, length_imap in Hm.
  - intros n r c Hr Hc. split; [by eapply Forall_lookup_1 in Hagent|]. exists (Z.of_nat n + 1).
    apply (f_equal (lookup n)) in Hm. unfold claim_records in Hm. change (map line_of) with (fmap (M := list) line_of) in Hm.
    rewrite list_lookup_fmap, list_lookup_imap, Hr, Hc in Hm. by apply (inj Some) in Hm.
Qed.

(** What the check reads from such a record. *)
Lemma reports_ts a r c : reports a r c -> v_ts r = _ts (c_at c).
Proof. intros [_ [n [= ? ? ?]]]. done. Qed.
Lemma reports_payload a r c : reports a r c -> exists n,
  v_payload r = reserved_payload n (c_key c) (c_mode c) (c_request_id c) (c_version c) (c_evidence c).
Proof. intros [_ [n [= ? ? ?]]]. by exists n. Qed.
Lemma reports_text a r c : reports a r c -> text_mode r.
Proof. intros Hr. destruct (reports_payload a r c Hr) as [n E]. exists (c_mode c). by rewrite E. Qed.
Lemma reports_texts a rs l : Forall2 (reports a) rs l -> Forall text_mode rs.
Proof. induction 1; constructor; [by eapply reports_text | done]. Qed.
Lemma reports_mates a r c x d : reports a r c -> reports a x d -> mode_mates r x = same_mode c d.
Proof.
  intros Hr Hx. destruct (reports_payload a r c Hr) as [n E], (reports_payload a x d Hx) as [m E'].
  unfold mode_mates, same_key, same_mode, counted_of. rewrite E, E', (re_agent _ _ _ Hr), (re_agent _ _ _ Hx). simpl.
  rewrite String.eqb_refl. apply String.eqb_sym.
Qed.
Lemma reports_times a r c pre earlier : reports a r c -> Forall2 (reports a) pre earlier ->
  map n_ts (List.filter (same_key (counted_of r)) (map counted_of pre)) = map (fun d => _ts (c_at d)) (List.filter (same_mode c) earlier).
Proof.
  intros Hr Hf. rewrite filter_counted, map_map. induction Hf as [|x d pre earlier Hx Hf IH]; simpl; [done|].
  rewrite (reports_mates a r c x d Hr Hx). destruct (same_mode c d); [|done]. simpl. f_equal; [by apply (reports_ts a) | exact IH].
Qed.

Lemma last_In {A} (l : list A) x : last l = Some x -> In x l.
Proof. intros Hl. apply list_elem_of_In, list_elem_of_lookup. rewrite last_lookup in Hl. eauto. Qed.
Lemma within_recent c earlier ms :
  within (_ts (c_at c)) ms (map (fun d => _ts (c_at d)) (List.filter (same_mode c) earlier)) = recent_claims earlier c ms.
Proof.
  unfold within, recent_claims. f_equal. induction earlier as [|d l IH]; simpl; [done|]. destruct (same_mode c d); simpl; [|done].
  destruct (Z.leb_spec (_ts (c_at c) - _ts (c_at d)) ms), (Z.leb_spec (_ts (c_at c) - ms) (_ts (c_at d))); simpl; lia.
Qed.
Lemma at_least_false n m : n < m -> at_least n (VInt m) = Ok false.
Proof.
  intros Hn. unfold at_least. simpl. f_equal. apply orb_false_iff. split.
  - destruct (Qltb_spec (inject_Z m) (inject_Z n)) as [Hq|]; [|done]. rewrite <- Zlt_Qlt in Hq. lia.
  - unfold Qeq_bool. simpl. apply Z.eqb_neq. lia.
Qed.
Lemma below_false ms m : m * 1000 <= ms -> below (seconds ms) (VInt m) = Ok false.
Proof.
  intros Hm. unfold below, seconds. cbn [as_number]. f_equal. change (Qltb (inject_Z ms / 1000) (inject_Z m) = false).
  destruct (Qltb_spec (inject_Z ms / 1000) (inject_Z m)) as [Hq|]; [|done].
  assert (inject_Z ms < inject_Z (m * 1000))%Q as Hlt; [|rewrite <- Zlt_Qlt in Hlt; lia].
  rewrite inject_Z_mult. change (inject_Z 1000) with 1000%Q. assert (inject_Z ms == (inject_Z ms / 1000) * 1000)%Q as E by field. rewrite E.
  lra.
Qed.

(** The limits hold for a claim the agent made. *)
Lemma claim_rates a r c pre earlier p : reports a r c -> Forall2 (reports a) pre earlier ->
  Forall (fun d => same_mode c d = true -> _ts (c_at d) + po_cooldown_sec p * 1000 <= _ts (c_at c)) earlier ->
  recent_claims earlier c 3600000 < po_max_per_hour p -> recent_claims earlier c 86400000 < po_max_per_day p ->
  rate_violations r (map n_ts (List.filter (same_key (counted_of r)) (map counted_of pre))) (policy_dict p) = Ok [].
Proof.
  intros Hr Hf Hc Hh Hd. unfold rate_violations. rewrite (reports_times a r c pre earlier Hr Hf), (reports_ts a r c Hr), !within_recent.
  assert (forall k z, dict_get k (policy_dict p) = Some (VInt z) -> idx (VDict (policy_dict p)) k = Ok (VInt z)) as Hi.
  { intros k z E. unfold idx. by rewrite E. }
  rewrite (Hi "cooldown_sec" (po_cooldown_sec p) eq_refl), (Hi "max_per_hour" (po_max_per_hour p) eq_refl), (Hi "max_per_day" (po_max_per_day p) eq_refl). cbn [rbind].
  rewrite !at_least_false by done. cbn [rbind ror]. destruct (last _) as [t|] eqn:El; [|done]. apply last_In, in_map_iff in El as (d & <- & Hin).
  apply filter_In in Hin as [Hin Hm]. rewrite List.Forall_forall in Hc. specialize (Hc d Hin Hm). cbn beta. by rewrite below_false by lia.
Qed.

Lemma reachable_localised ev n : dict_get "network" ev = Some (network_value (Some n)) ->
  timed_out n = false -> network_down n = false -> ingest_ok n = true -> forall d, dget d "evidence" VNone = VDict ev -> bad_network d = Ok false.
Proof.
  intros Hn Ht Hd Hi d Hev. unfold bad_network. rewrite Hev. assert (py_or (VDict ev) (VDict []) = VDict ev) as -> by by destruct ev.
  unfold get at 1, getd. rewrite Hn. simpl. by rewrite Ht, Hd, Hi.
Qed.

Lemma claim_passes a r c pre earlier : (forall p, authorised cf p -> published p) ->
  reports a r c -> Forall2 (reports a) pre earlier -> claim_ok cf earlier c -> passes policies (map counted_of pre) r.
Proof.
  intros Hpub Hr Hf [Hfirst (n & Hn & Ht & Hd & Hi) (p & Hp & Hv & Hm & _ & Hcool & Hh & Hday)].
  destruct (reports_payload a r c Hr) as [k E]. unfold passes. rewrite limit_entry_seen. unfold limit_of, limit_entry.
  change (mkCounted (v_agent r) _ _ _) with (counted_of r).
  assert (existsb (same_generation (counted_of r)) (map counted_of pre) = false) as ->.
  { apply not_true_is_false. intros Hx. apply existsb_exists in Hx as (y & Hy & Hg). apply in_map_iff in Hy as (x & <- & Hx).
    apply list_elem_of_In, list_elem_of_lookup in Hx as [i Hx]. destruct (Forall2_lookup_l _ _ _ _ _ Hf Hx) as (d & Hd' & Hxd).
    unfold same_generation in Hg. apply andb_true_iff in Hg as [Hg Hk]. change (mode_mates r x = true) in Hg.
    rewrite (reports_mates a r c x d Hr Hxd) in Hg. apply String.eqb_eq in Hg. destruct (reports_payload a x d Hxd) as [k' E'].
    unfold counted_of in Hk. cbn [n_key] in Hk. rewrite E, E' in Hk. apply String.eqb_eq in Hk.
    eapply Forall_lookup_1 in Hfirst; [|exact Hd']. by apply Hfirst. }
  rewrite (reachable_localised (c_evidence c) n Hn Ht Hd Hi) by by rewrite E.
  assert (dget (v_payload r) "mode" (VStr "") = VStr (c_mode c)) as Em by by rewrite E.
  assert (dget (v_payload r) "policy_version" VNone = VInt (po_version p)) as -> by by rewrite E, <- Hv.
  assert (n_key (counted_of r) = VStr (c_key c)) as -> by (unfold counted_of; by rewrite E).
  pose proof (claim_rates a r c pre earlier p Hr Hf Hcool Hh Hday) as Hrates.
  assert (eq_str (VStr (c_mode c)) "enforce" && negb (eq_str (dget (policy_dict p) "mode" VNone) "enforce") = false) as Hmode.
  { rewrite Hm. unfold mode_of. simpl. by destruct (String.eqb (po_mode p) "enforce") eqn:Ee; rewrite ?Ee. }
  rewrite Em. cbn [hashable rbind]. destruct (Hpub p Hp) as [-> | [-> Hnone]].
  - cbn [rbind]. rewrite Hmode, Hrates. reflexivity.
  - change (po_version BUILTIN) with 0. rewrite Hnone. cbn [rbind]. change (py_eq (VInt 0) (VInt 0)) with true. cbv iota.
    rewrite Hmode, Hrates. reflexivity.
Qed.

Lemma cooldown_positive p : authorised cf p -> 0 <= po_cooldown_sec p.
Proof.
  intros [->|(key & envelope & _ & _ & Hp)]; [done|]. assert (policy_wf p) as [_ Hf _].
  { unfold open_envelope in Hp. destruct envelope; try discriminate Hp. case_all_in Hp. inv_ok Hp. case_in Hp; [discriminate Hp|]. by eapply parse_wf. }
  rewrite List.Forall_forall in Hf. assert (10 <= po_cooldown_sec p <= 86400); [|lia].
  apply (Hf (mkBounds "cooldown_sec" 10 86400)). do 7 right. by left.
Qed.

Lemma claims_in_order a rs l : (forall p, authorised cf p -> published p) -> paced cf l -> Forall2 (reports a) rs l ->
  forall pre r post, rs = pre ++ r :: post -> passes policies (map counted_of pre) r
     /\ Forall (fun x => mode_mates r x = true -> key_le v_ts x r) pre.
Proof.
  intros Hpub Hl Hf pre r post ->. apply Forall2_app_inv_l in Hf as (earlier & rest & Hpre & Hf & ->).
  apply Forall2_cons_inv_l in Hf as (c & later & Hr & _ & ->).
  assert (claim_ok cf earlier c) as Hc.
  { pose proof (paced_lookup cf (earlier ++ c :: later) (length earlier) c Hl) as Hc. rewrite list_lookup_middle in Hc by done.
    rewrite take_app_length in Hc. by apply Hc. }
  split; [by eapply claim_passes|]. apply Forall_lookup. intros i x Hx Hm.
  destruct (Forall2_lookup_l _ _ _ _ _ Hpre Hx) as (d & Hd & Hxd). rewrite (reports_mates a r c x d Hr Hxd) in Hm.
  destruct Hc as [_ _ (p & Hp & _ & _ & _ & Hcool & _)]. eapply Forall_lookup_1 in Hcool; [|exact Hd]. specialize (Hcool Hm).
  pose proof (cooldown_positive p Hp). unfold key_le. rewrite (reports_ts a x d Hxd), (reports_ts a r c Hr). lia.
Qed.

(** What holds of a log holds of what was read of it. *)
Lemma take_claims k l log : List.filter is_claim log = claim_records l ->
  exists m, List.filter is_claim (take k log) = claim_records (take m l).
Proof.
  intros Ha. exists (length (List.filter is_claim (take k log))). rewrite <- (take_drop k log), List.filter_app in Ha.
  transitivity (take (length (List.filter is_claim (take k log))) (claim_records l)); [by rewrite <- Ha, take_app_length|].
  generalize (length (List.filter is_claim (take k log))). intros m. unfold claim_records. apply list_eq. intros n.
  rewrite lookup_take, !list_lookup_imap, lookup_take. by destruct (decide (n < m)%nat).
Qed.
Lemma paced_take m l : paced cf l -> paced cf (take m l).
Proof.
  intros Hp. induction Hp as [|l c Hp IH Hc]; [rewrite take_nil; constructor|]. destruct (decide (m <= length l)%nat).
  - by rewrite take_app_le.
  - rewrite take_ge by (rewrite length_app; simpl; lia). by constructor.
Qed.
Lemma log_passes a i l log k : (forall p, authorised cf p -> published p) -> paced cf l ->
  List.filter is_claim log = claim_records l -> limits policies (log_entries a i (take k log)) = Ok [].
Proof.
  intros Hpub Hp Ha. destruct (take_claims k l log Ha) as [m Hm]. pose proof (reports_claims a i _ _ Hm) as Hf.
  unfold limits, by_time. rewrite filter_sort_by. apply limits_in_order; [by eapply reports_texts|].
  eapply claims_in_order; [done | by apply paced_take | exact Hf].
Qed.
End Records.

Module AgentVerifyProperties.
Section Properties.
Context `{Repr} `{FromIso} `{LocalZone} `{IpText} `{IsoFull} `{JsonCanon} `{Ed25519} `{JsonSha} `{TextDigest} `{IsoText}.

(** C8: When every policy the agent may act under is published, the centre finds no
    repeated generation, no action without reachable ingest, no unknown policy, no
    request under a policy that is not in mode enforce and no action over the limits
    in the log of any run of the agent. *)
Theorem agent_log_passes cf policies events id agent instance :
  (forall p, authorised (RU := adopted_by events) cf p -> published policies p) ->
  limits policies (log_entries agent instance (audit_log (w_store (run cf events (cold_start id))))) = Ok [].
Proof.
  intros Hpub. destruct (run_held cf events id) as (l & tr & [_ Ha _ _ _] & _ & [Hl _ _ _] & _).
  rewrite <- (firstn_all (audit_log _)). by eapply log_passes.
Qed.
End Properties.

(** *** A run with two requests *)
Import Demo.
Definition policies_demo : list (Z * dict) := [(7, policy_dict policy_demo)].

Lemma only_policy `{Rules} p : authorised config_demo p -> published policies_demo p.
Proof.
  intros [->|(key & envelope & _ & _ & Hp)]; [right; by split|]. left. unfold open_envelope in Hp. destruct envelope as [| | | | | |d]; try discriminate Hp.
  destruct (dget d "signature" VNone) as [| | | |signature| |]; try discriminate Hp. cbv zeta in Hp.
  destruct (parse (dget d "policy" VNone)) as [q|e] eqn:Eq.
  - unfold verify, json_canonical, canon_demo in Hp. rewrite Eq in Hp. case_bool_decide as Hq; [|discriminate Hp].
    cbn [rbind] in Hp. case_in Hp; [discriminate Hp|]. by injection Hp as <-; subst.
  - unfold verify, json_canonical, canon_demo in Hp. rewrite Eq in Hp. discriminate Hp.
Qed.

Lemma agent_log_passes_witness :
  map act_key (actions (w_store world_demo)) = ["pod/g1"; "pod/g2"]
  /\ limits policies_demo (log_entries "dell" "db" (audit_log (w_store world_demo))) = Ok [].
Proof.
  split; [vm_compute; reflexivity|]. apply (agent_log_passes config_demo policies_demo events_demo "db" "dell" "db").
  intros p. apply only_policy.
Defined.
End AgentVerifyProperties.
