(* ===== verification/CentralStore.v ===== *)
(** * Recovery control: the central store and its server

    Models src/recovery-control/src/cra/central/store.py, central/server.py,
    audit_ack.py and the publication of central/cli.py: the published policies, the
    audit records pulled in from agents, and the signed acknowledgement of the
    contiguous prefix.  Times of reception are arguments; a JSON column holds the
    value its text decodes to and is compared as the sorted text. *)
From S2P Require Import Prelude PyVal UtcTime FastPolicy SendSample EffectContract EffectModel Contracts AgentPolicy AgentObserve AgentDecide AgentStore AgentVerify.

(** [json.dumps(value, sort_keys=True)] *)
Class SortedJson := sorted_json : pyval -> string.
(** [isoformat(timespec="milliseconds")] of an instant in milliseconds, and back. *)
Class Stamp := mkStamp { stamp_text : Z -> string; stamp_ms : string -> res Z }.
Class StampLaw `{Stamp} := stamp_back z : stamp_ms (stamp_text z) = Ok z.

(** ** Tables *)
Record central_row : Type := mkRow { cr_ts : string; cr_kind : string; cr_payload : pyval }.
Record conflict : Type := mkConflict { cf_agent : string; cf_instance : string; cf_seq : Z; cf_received_at : Q; cf_record : dict }.
Record gap : Type := mkGap { gp_first_seen : Q; gp_last_seen : Q; gp_sightings : Z; gp_resolved_at : option Q }.
Notation stream := (gmap Z central_row).
Record central_store : Type := mkCentral {
  c_policies : list (Z * dict); c_audit : gmap (string * string) stream; c_conflicts : list conflict;
  c_gaps : gmap (string * string * Z * Z) gap }.
Definition new_central : central_store := mkCentral [] ∅ [] ∅.
Definition set_policies x s := mkCentral x (c_audit s) (c_conflicts s) (c_gaps s).
Definition set_c_audit x s := mkCentral (c_policies s) x (c_conflicts s) (c_gaps s).
Definition set_conflicts x s := mkCentral (c_policies s) (c_audit s) x (c_gaps s).
Definition set_gaps x s := mkCentral (c_policies s) (c_audit s) (c_conflicts s) x.

(** The rows of one database of one agent. *)
Definition stream_of (a i : string) (s : central_store) : stream := default ∅ (c_audit s !! (a, i)).
Definition put_row (a i : string) (seq : Z) (r : central_row) (s : central_store) : central_store :=
  set_c_audit (<[(a, i) := <[seq := r]> (stream_of a i s)]> (c_audit s)) s.

(** ** Policies *)
Definition record_policy (body : dict) : Tx central_store unit :=
  do! version := db_lift (idx (VDict body) "version") in
  do! taken := db_get (fun s => existsb (fun kv => fst kv =? int_val version) (c_policies s)) in
  if taken : bool then db_raise (EOS "IntegrityError") else
  db_mod (fun s => set_policies (c_policies s ++ [(int_val version, body)]) s).
Definition latest_policy_version (s : central_store) : Z := default (-1) (maximum (map fst (c_policies s))).

(** ** Ingestion *)
(** [SELECT 1 ... seq = high + 1] in a loop: past the rows stored without a gap. *)
Fixpoint advance (fuel : nat) (m : stream) (high : Z) : Z :=
  match fuel with
  | O => high
  | S fuel => match m !! (high + 1) with Some _ => advance fuel m (high + 1) | None => high end
  end.
(** [ORDER BY seq] *)
Definition ordered_rows (m : stream) : list (Z * central_row) := sort_by fst (map_to_list m).
Fixpoint leading (l : list (Z * central_row)) (high : Z) : Z :=
  match l with
  | [] => high
  | (seq, _) :: l' => if seq =? high + 1 then leading l' seq else high
  end.
Definition contiguous_high (a i : string) (s : central_store) : Z := leading (ordered_rows (stream_of a i s)) 0.

Section Ingest.
Context `{Repr} `{SortedJson}.

(** The sequence numbers are checked before anything is stored. *)
Fixpoint checked_records (l : list pyval) : res (list (Z * dict)) :=
  match l with
  | [] => Ok []
  | VDict d :: l' =>
      match dget d "seq" VNone with
      | VInt n => if n <? 1 then Err (EValue "seq must be a positive integer") else let! rest := checked_records l' in Ok ((n, d) :: rest)
      | _ => Err (EValue "seq must be a positive integer")
      end
  | _ => Err EAttr
  end.

Definition same_record (stored : central_row) (d : dict) (payload : pyval) : res bool :=
  let! ts := idx (VDict d) "ts" in
  let! kind := idx (VDict d) "kind" in
  Ok (eq_str ts (cr_ts stored) && eq_str kind (cr_kind stored) && String.eqb (sorted_json (cr_payload stored)) (sorted_json payload)).
Definition note_gap (now : Q) (a i : string) (expected received : Z) (s : central_store) : central_store :=
  let k := (a, i, expected, received) in
  set_gaps (<[k := match c_gaps s !! k with
                   | Some g => mkGap (gp_first_seen g) now (gp_sightings g + 1) None
                   | None => mkGap now now 1 None
                   end]> (c_gaps s)) s.
Definition SQLITE_MAX : Z := 2 ^ 63 - 1.

(** The records in order; the high-water mark so far. *)
Fixpoint ingest_loop (now : Q) (a i : string) (l : list (Z * dict)) (high : Z) : Tx central_store Z :=
  match l with
  | [] => db_ret high
  | (seq, d) :: l' =>
      do! payload := db_lift (idx (VDict d) "payload") in
      if SQLITE_MAX <? seq then db_raise EOverflow else
      do! stored := db_get (fun s => stream_of a i s !! seq) in
      do! same := db_lift (match stored with Some r => same_record r d payload | None => Ok true end) in
      run! db_mod (fun s => if same : bool then s else set_conflicts (c_conflicts s ++ [mkConflict a i seq now d]) s) then
      if high + 1 <? seq then run! db_mod (note_gap now a i (high + 1) seq) then db_ret high else
      match stored with
      | Some _ => ingest_loop now a i l' high
      | None =>
          do! ts := db_lift (idx (VDict d) "ts") in
          do! kind := db_lift (idx (VDict d) "kind") in
          run! db_mod (put_row a i seq (mkRow (py_str ts) (py_str kind) payload)) then
          do! high := db_get (fun s => advance (size (stream_of a i s)) (stream_of a i s) seq) in
          ingest_loop now a i l' high
      end
  end.
Definition resolve_gaps (now : Q) (a i : string) (high : Z) (s : central_store) : central_store :=
  set_gaps (map_imap (fun k g =>
    let '(a', i', _, received) := k in
    Some (if String.eqb a' a && String.eqb i' i && (received <=? high) && bool_decide (gp_resolved_at g = None)
          then mkGap (gp_first_seen g) (gp_last_seen g) (gp_sightings g) (Some now) else g)) (c_gaps s)) s.
Definition ingest_body (now : Q) (a i : string) (l : list (Z * dict)) : Tx central_store Z :=
  do! start := db_get (contiguous_high a i) in
  do! high := ingest_loop now a i (sort_by fst l) start in
  run! db_mod (resolve_gaps now a i high) then
  db_ret high.
Definition ingest (now : Q) (a i : string) (records : list pyval) (s : central_store) : res Z * central_store :=
  match checked_records records with
  | Ok l => transaction (ingest_body now a i l) s
  | Err e => (Err e, s)
  end.
End Ingest.

(** ** What is read back *)
Definition agents_of (s : central_store) : list string := sorted_set (map (fun kv => fst (fst kv)) (map_to_list (c_audit s))).
Definition instances_of (a : string) (s : central_store) : list string :=
  sorted_set (map (fun kv => snd (fst kv)) (List.filter (fun kv => String.eqb (fst (fst kv)) a) (map_to_list (c_audit s)))).
Definition stream_records (a i : string) (s : central_store) : list (string * string * Z * central_row) :=
  map (fun kv => (a, i, fst kv, snd kv)) (ordered_rows (stream_of a i s)).
(** [audit_records]: of one agent, or of all. *)
Definition audit_records (agent : option string) (s : central_store) : list (string * string * Z * central_row) :=
  flat_map (fun a => flat_map (fun i => stream_records a i s) (instances_of a s))
    (match agent with Some a => if String.eqb a "" then agents_of s else [a] | None => agents_of s end).

(** [integrity]: how far a stream is known to reach, and what is missing of it. *)
Definition open_gaps (a i : string) (s : central_store) : list Z :=
  omap (fun kv => let '((a', i', _, received), g) := kv in
          if String.eqb a' a && String.eqb i' i && bool_decide (gp_resolved_at g = None) then Some (received - 1) else None)
    (map_to_list (c_gaps s)).
Definition gap_instances (a : string) (s : central_store) : list string :=
  omap (fun kv => let '((a', i', _, _), g) := kv in
          if String.eqb a' a && bool_decide (gp_resolved_at g = None) then Some i' else None) (map_to_list (c_gaps s)).
Definition upper_seq (a i : string) (s : central_store) : option Z :=
  maximum (map fst (ordered_rows (stream_of a i s)) ++ open_gaps a i s).
Definition missing_in (a i : string) (s : central_store) : Z :=
  match upper_seq a i s with
  | Some upper => upper - Z.of_nat (length (List.filter (fun kv => fst kv <=? upper) (ordered_rows (stream_of a i s))))
  | None => 0
  end.

(** ** Acknowledgements (audit_ack.py) *)
Definition ACK_SCHEMA : string := "cra.audit_ack.v1".

Section Ack.
Context `{JsonCanon} `{Ed25519} `{TextDigest}.

Definition request_digest (body : pyval) : res string := let! text := json_canonical body in Ok (sha256_text text).

Definition ack_of (request : pyval) (nonce high : pyval) : res pyval :=
  let! agent := idx request "agent_id" in
  let! instance := idx request "instance_id" in
  let! digest := request_digest request in
  Ok (VDict [("schema", VStr ACK_SCHEMA); ("agent_id", agent); ("instance_id", instance); ("nonce", nonce);
             ("request_sha256", VStr digest); ("acked_seq", high)]).
Definition sign_ack (key : string) (request : pyval) (high : Z) : res pyval :=
  let! nonce := getd request "nonce" (VStr "") in
  let! ack := ack_of request nonce (VInt high) in
  let! signature := sign key ack in
  Ok (VDict [("acked_seq", VInt high); ("ack", ack); ("signature", VStr signature)]).

(** [request["records"][-1]["seq"]] *)
Definition last_record_seq (request : pyval) : res pyval :=
  let! records := idx request "records" in
  match records with
  | VList l => match last l with Some r => idx r "seq" | None => Err EIndex end
  | _ => Err EType
  end.
(** [n <= v] for a decoded number; anything else raises. *)
Definition at_most (n : Z) (v : pyval) : res bool :=
  match as_number v with Some f => Ok (pyfloat_lt (Fin (inject_Z n)) f || pyfloat_eq (Fin (inject_Z n)) f) | None => Err EType end.
Definition verify_ack (public_key : string) (response request : pyval) (previous : Z) : res Z :=
  match response with
  | VDict r =>
      match dget r "ack" VNone with
      | VDict ack =>
          let! _ := require (is_str (dget r "signature" VNone)) "ACK_SIGNATURE_INVALID" in
          let! ok := verify public_key (VDict ack) (str_val (dget r "signature" VNone)) in
          let! _ := require ok "ACK_SIGNATURE_INVALID" in
          let! nonce := idx request "nonce" in
          let! expected := ack_of request nonce (dget ack "acked_seq" VNone) in
          let! _ := require (py_eq (VDict ack) expected) "ACK_REQUEST_MISMATCH" in
          let! high := idx (VDict ack) "acked_seq" in
          match high with
          | VInt n =>
              if n <? previous then Err (EValue "ACK_RANGE_INVALID") else
              let! upper := last_record_seq request in
              let! covered := at_most n upper in
              if negb covered || negb (py_eq (dget r "acked_seq" VNone) high) then Err (EValue "ACK_RANGE_INVALID") else Ok n
          | _ => Err (EValue "ACK_RANGE_INVALID")
          end
      | _ => Err (EValue "ACK_UNSIGNED")
      end
  | _ => Err (EValue "ACK_UNSIGNED")
  end.
End Ack.

(** ** The HTTP server (server.py)

    The reply is the status and the JSON body; an exception that the handler does
    not catch ends the connection. *)
Definition MAX_BODY : Z := 4 * 2 ^ 20.
Definition error_body (reason : string) : pyval := VDict [("error", VStr reason)].
Definition key_type_or_value_error (e : exn) : bool := value_or_type_error e || match e with EKey => true | _ => false end.

Definition do_GET (path : string) (policy_file : res pyval) : res (Z * pyval) :=
  if String.eqb path "/v1/policy" then
    match policy_file with
    | Ok v => Ok (200, v)
    | Err (EOS _) | Err (EValue "JSONDecodeError") => Ok (503, error_body "POLICY_UNAVAILABLE")
    | Err e => Err e
    end
  else if String.eqb path "/v1/health" then Ok (200, VDict [("ok", VBool true)]) else Ok (404, error_body "NOT_FOUND").

(** The parts of the envelope, or a malformed one. *)
Definition envelope_parts (envelope : pyval) : res (pyval * pyval * pyval * string * list pyval) :=
  let! body := idx envelope "body" in
  let! signature := idx envelope "signature" in
  let! agent := idx body "agent_id" in
  let! instance := idx body "instance_id" in
  let! records := idx body "records" in
  match records, instance with
  | VList l, VStr i => if String.eqb i "" then Err (EValue "") else Ok (body, signature, agent, i, l)
  | _, _ => Err (EValue "")
  end.

Section Server.
Context `{Repr} `{SortedJson} `{JsonCanon} `{Ed25519} `{TextDigest}.
Variables (agent_keys : list (string * string)) (ack_key : string).

(** [agent_keys.get(agent_id)]; a list or dict is no key and raises. *)
Definition agent_key (agent : pyval) : res (option (string * string)) :=
  let! _ := hashable agent in
  Ok (match agent with VStr a => pair a <$> dict_get a agent_keys | _ => None end).
Definition signature_ok (key : string) (body signature : pyval) : res bool :=
  match signature with VStr s => verify key body s | _ => Ok false end.

Definition post_audit (now : Q) (content : res pyval) (s : central_store) : res (Z * pyval) * central_store :=
  match (let! envelope := content in envelope_parts envelope) with
  | Err e => (if key_type_or_value_error e then Ok (400, error_body "MALFORMED") else Err e, s)
  | Ok (body, signature, agent, instance, records) =>
      match agent_key agent with
      | Err e => (Err e, s)
      | Ok None => (Ok (403, error_body "SIGNATURE_INVALID"), s)
      | Ok (Some (a, key)) =>
          match signature_ok key body signature with
          | Err e => (Err e, s)
          | Ok false => (Ok (403, error_body "SIGNATURE_INVALID"), s)
          | Ok true =>
              match ingest now a instance records s with
              | (Ok high, s') => (let! ack := sign_ack ack_key body high in Ok (200, ack), s')
              | (Err e, s') => (if key_type_or_value_error e then Ok (400, error_body "RECORD_INVALID") else Err e, s')
              end
          end
      end
  end.
Definition do_POST (now : Q) (path : string) (length_header : option string) (content : res pyval) (s : central_store)
    : res (Z * pyval) * central_store :=
  if negb (String.eqb path "/v1/audit") then (Ok (404, error_body "NOT_FOUND"), s) else
  match py_int (py_or (from_option VStr VNone length_header) (VInt 0)) with
  | Err e => (Err e, s)
  | Ok length => if negb ((0 <? length) && (length <=? MAX_BODY)) then (Ok (413, error_body "BODY_SIZE"), s) else post_audit now content s
  end.

(** [cmd_publish]: the version of a published policy increases. *)
Definition cmd_publish (key : string) (value : pyval) (s : central_store) : res (Z * option pyval) * central_store :=
  match parse value with
  | Err e => (Err e, s)
  | Ok candidate =>
      if po_version candidate <=? latest_policy_version s then (Ok (2, None), s) else
      match sign_envelope key candidate with
      | Err e => (Err e, s)
      | Ok envelope =>
          match transaction (record_policy (policy_dict candidate)) s with
          | (Ok _, s') => (Ok (0, Some envelope), s')
          | (Err e, s') => (Err e, s')
          end
      end
  end.
End Server.

(** ** Verification of what is stored (cli.py) *)
Section Verify.
Context `{Repr} `{FromIso} `{Stamp}.
Definition stored_entry (r : string * string * Z * central_row) : res audit_entry :=
  let '(a, i, seq, row) := r in
  let! ms := stamp_ms (cr_ts row) in
  match cr_payload row with
  | VDict d => Ok (mkEntry a i seq ms (cr_kind row) d)
  | _ => Err EAttr
  end.
Fixpoint stored_entries (l : list (string * string * Z * central_row)) : res (list audit_entry) :=
  match l with [] => Ok [] | r :: l' => let! e := stored_entry r in let! rest := stored_entries l' in Ok (e :: rest) end.
(** The violations [cmd_verify] prints for one agent. *)
Definition cmd_verify (agent : string) (now : Q) (s : central_store) : res (list violation) :=
  let! entries := stored_entries (audit_records (Some agent) s) in
  let! found := verify_audit entries (c_policies s) now [agent] in
  let gap := existsb (fun i => negb (missing_in agent i s =? 0) || negb (bool_decide (open_gaps agent i s = []))) (instances_of agent s ++ gap_instances agent s) in
  Ok (found ++ if gap then [mkViolation "I9_AUDIT_GAP" "" None ""] else []).
End Verify.
