(* ===== verification/AgentSync.v ===== *)
(** * Recovery agent: synchronisation with the centre

    Models src/recovery-control/src/cra/sync.py: adoption of a newer signed policy
    and delivery of the audit log.  An HTTP exchange is a function of the request
    body; between two accesses of the database the agent's own thread may write,
    which [others] says. *)
From S2P Require Import Prelude PyVal UtcTime FastPolicy SendSample EffectContract EffectModel EffectReconcile AgentPolicy AgentObserve AgentDecide AgentStore AgentVerify AgentEffect Agent CentralStore.

Section Sync.
Context `{Repr} `{JsonCanon} `{Ed25519} `{TextDigest} `{Stamp}.
Variables (agent_id public_key agent_key : string) (batch : Z).

(** ** Policies *)
Definition version_or (dflt : pyval) (p : option Policy) : pyval := match p with Some p => VInt (po_version p) | None => dflt end.

(** [fetch_policy]: the status word, what is written and the last rejection. *)
Definition fetch_policy (now : Q) (envelope : pyval) (s : agent_store) (last_rejection : string)
    : res (string * option sync_write * string) :=
  let! current := load_cached_policy s public_key in
  let! answer := (match open_envelope envelope public_key with
                  | Ok candidate => Ok (Some candidate, adoption_error current candidate)
                  | Err (EValue reason) => Ok (None, Some reason)
                  | Err e => Err e
                  end) in
  let '(candidate, error) := answer in
  match error with
  | Some reason =>
      let key := (reason ++ ":" ++ py_str (version_or (VStr "?") candidate))%string in
      Ok ("REJECTED", (if String.eqb key last_rejection then None
                       else Some (PolicyRejected now [("reason", VStr reason); ("version", version_or VNone candidate)])), key)
  | None =>
      match candidate with
      | None => Err EType
      | Some p =>
          if bool_decide (current = Some p) then Ok ("UNCHANGED", None, last_rejection)
          else Ok ("ADOPTED", Some (PolicyAdopted now envelope
                 [("version", VInt (po_version p)); ("mode", VStr (po_mode p)); ("previous_version", version_or VNone current)]), last_rejection)
      end
  end.

(** ** Audit *)
Definition record_value (kv : Z * audit_record) : pyval :=
  VDict [("seq", VInt (fst kv)); ("ts", VStr (stamp_text (au_ts (snd kv)))); ("kind", VStr (au_kind (snd kv)));
         ("payload", VDict (au_payload (snd kv)))].
Definition instance_id (s : agent_store) : string := py_str (default VNone (kv_get "instance_id" s)).
Definition request_body (instance nonce : string) (records : list (Z * audit_record)) : pyval :=
  VDict [("agent_id", VStr agent_id); ("instance_id", VStr instance); ("records", VList (map record_value records)); ("nonce", VStr nonce)].
Definition acked_seq (s : agent_store) : res Z := py_int (py_or (default VNone (kv_get ACKED_KEY s)) (VInt 0)).

(** The request, if anything is unacknowledged. *)
Definition audit_request (nonce : string) (s : agent_store) : res (Z * option pyval) :=
  let! acked := acked_seq s in
  match read_audit acked batch s with
  | [] => Ok (acked, None)
  | records => Ok (acked, Some (request_body (instance_id s) nonce records))
  end.
Definition signed_request (body : pyval) : res pyval :=
  let! signature := sign agent_key body in Ok (VDict [("body", body); ("signature", VStr signature)]).
Definition audit_acked (body : pyval) (acked : Z) (response : pyval) : res (Z * option sync_write) :=
  let! high := verify_ack public_key response body acked in
  Ok (high, if high =? acked then None else Some (AuditAcked high)).

Definition write (x : option sync_write) (s : agent_store) : agent_store := match x with Some x => apply_sync s x | None => s end.

(** The surroundings of a cycle: what the other thread writes, and the exchanges. *)
Variables (others : nat -> agent_store -> agent_store) (post : nat -> pyval -> res pyval) (nonce : nat -> string).

Definition push_audit (n : nat) (s : agent_store) : res Z * agent_store :=
  match audit_request (nonce n) s with
  | Err e => (Err e, s)
  | Ok (acked, None) => (Ok acked, s)
  | Ok (acked, Some body) =>
      let s := others n s in
      match (let! request := signed_request body in let! response := post n request in audit_acked body acked response) with
      | Err e => (Err e, s)
      | Ok (high, x) => (Ok high, write x s)
      end
  end.
(** [for _ in range(20)]: drain a backlog while it moves. *)
Fixpoint drain (fuel n : nat) (acked : Z) (s : agent_store) : res Z * agent_store :=
  match fuel with
  | O => (Ok acked, s)
  | S fuel =>
      if last_seq s <=? acked then (Ok acked, s) else
      match push_audit n s with
      | (Err e, s') => (Err e, s')
      | (Ok high, s') => if high =? acked then (Ok high, s') else drain fuel (S n) high s'
      end
  end.
Definition cycle (now : Q) (policy : res pyval) (s : agent_store) (last_rejection : string) : res string * agent_store * string :=
  let caught (e : exn) : res string := if is_value_error e || match e with EOS _ => true | _ => false end then Ok ("ERROR:" ++ exn_name e)%string else Err e in
  match (let! envelope := policy in fetch_policy now envelope s last_rejection) with
  | Err e => (caught e, s, last_rejection)
  | Ok (status, x, rejection) =>
      let s := others 0 (write x s) in
      match push_audit 0 s with
      | (Err e, s) => (caught e, s, rejection)
      | (Ok acked, s) =>
          match drain 20 1 acked s with
          | (Err e, s) => (caught e, s, rejection)
          | (Ok acked, s) => (Ok (status ++ ":acked=" ++ str_Z acked)%string, s, rejection)
          end
      end
  end.
End Sync.
