(* ===== verification/CentralProofs.v ===== *)
(** * What the central store keeps

    A stream that was stored in order stays a prefix: ingestion adds rows at its end
    only, and never changes one. *)
From S2P Require Import Prelude PyVal UtcTime FastPolicy SendSample EffectContract EffectModel Contracts AgentPolicy AgentObserve AgentDecide AgentStore AgentVerify CentralStore.

(** ** The loop over the following rows ends at the first missing one *)
Lemma advance_delete fuel m h k : k <= h -> advance fuel (delete k m) h = advance fuel m h.
Proof.
  revert h. induction fuel as [|fuel IH]; intros h Hk; [done|]. simpl. rewrite lookup_delete_ne by lia.
  destruct (m !! (h + 1)); [apply IH; lia | done].
Qed.
Lemma advance_ge fuel m h : h <= advance fuel m h.
Proof. revert h. induction fuel as [|fuel IH]; intros h; simpl; [lia|]. destruct (m !! (h + 1)); [|lia]. specialize (IH (h + 1)). lia. Qed.
Lemma advance_end fuel m h : (size m <= fuel)%nat -> m !! (advance fuel m h + 1) = None.
Proof.
  revert m h. induction fuel as [|fuel IH]; intros m h Hs; simpl.
  - assert (m = ∅) as -> by (apply map_size_empty_inv; lia). apply lookup_empty.
  - destruct (m !! (h + 1)) as [r|] eqn:E; [|done].
    assert (size (delete (h + 1)%Z m) <= fuel)%nat as Hd by (rewrite map_size_delete, E; lia).
    pose proof (IH (delete (h + 1) m) (h + 1) Hd) as Hn. pose proof (advance_ge fuel (delete (h + 1) m) (h + 1)) as Hge.
    rewrite lookup_delete_ne in Hn by lia. rewrite advance_delete in Hn by lia. exact Hn.
Qed.

(** ** A stream stored without a gap: the rows [xs] from 1 *)
Notation rows xs := (map_seqZ (M := gmap Z central_row) 1 xs).

Lemma numbered_zip {A} (xs : list A) : numbered xs = zip (seqZ 1 (Z.of_nat (length xs))) xs.
Proof.
  unfold numbered. apply list_eq. intros i. rewrite list_lookup_imap. apply option_eq. intros [n x]. rewrite lookup_zip_Some, lookup_seqZ.
  destruct (xs !! i) as [y|] eqn:E; simpl; [|split; [done | by intros [_ ?]]]. pose proof (lookup_lt_Some _ _ _ E).
  split; [intros [= <- <-]; split; [split; lia | done] | intros [[-> _] [= ->]]; do 2 f_equal; lia].
Qed.
Lemma numbered_cons {A} (x : A) xs k : imap (fun n y => (Z.of_nat n + k, y)) (x :: xs) = (k, x) :: imap (fun n y => (Z.of_nat n + (k + 1), y)) xs.
Proof. simpl. f_equal. apply imap_ext. intros n y _. simpl. f_equal. lia. Qed.
Lemma numbered_order {A} (xs : list A) : in_order fst (numbered xs).
Proof.
  apply in_order_splits. intros pre [n x] post Hs. apply List.Forall_forall. intros [m y] Hy. unfold key_le. simpl.
  apply list_elem_of_In, list_elem_of_lookup in Hy as [i Hi]. pose proof (lookup_lt_Some _ _ _ Hi) as Hlt.
  assert (numbered xs !! i = Some (m, y)) as Hi' by by rewrite Hs, lookup_app_l.
  assert (numbered xs !! length pre = Some (n, x)) as Hn by by rewrite Hs, list_lookup_middle.
  unfold numbered in Hi', Hn. rewrite list_lookup_imap in Hi', Hn. destruct (xs !! i), (xs !! length pre); try done. simpl in *.
  injection Hi' as <- _. injection Hn as <- _. lia.
Qed.
(** [ORDER BY seq] of such a stream. *)
Lemma ordered_rows_rows xs : ordered_rows (rows xs) = numbered xs.
Proof.
  apply (sorting.StronglySorted_unique_strong (key_le fst)); [| apply sort_by_order | apply numbered_order |].
  - intros [n r] [m r'] Hn Hm H1 H2. unfold key_le in *. simpl in *. assert (n = m) as -> by lia.
    assert (forall r, (m, r) ∈ ordered_rows (rows xs) -> rows xs !! m = Some r) as Ho.
    { intros r0 Hr. apply list_elem_of_In, (sort_by_In fst), list_elem_of_In, elem_of_map_to_list in Hr. done. }
    rewrite numbered_zip in Hm. rewrite <- map_to_list_seqZ, elem_of_map_to_list in Hm. apply Ho in Hn. congruence.
  - unfold ordered_rows. by rewrite sort_by_perm, map_to_list_seqZ, numbered_zip.
Qed.
Lemma leading_numbered xs x : leading (imap (fun n y => (Z.of_nat n + (x + 1), y)) xs) x = x + Z.of_nat (length xs).
Proof.
  revert x. induction xs as [|y xs IH]; intros x; [simpl; lia|]. rewrite numbered_cons. cbn [leading]. rewrite Z.eqb_refl, IH. simpl length. lia.
Qed.
Lemma contiguous_high_rows a i s xs : stream_of a i s = rows xs -> contiguous_high a i s = Z.of_nat (length xs).
Proof. intros Hs. unfold contiguous_high. rewrite Hs, ordered_rows_rows. apply (leading_numbered xs 0). Qed.
Lemma rows_next xs : rows xs !! (Z.of_nat (length xs) + 1) = None.
Proof. rewrite lookup_map_seqZ_None. lia. Qed.
Lemma advance_rows fuel xs : advance fuel (rows xs) (Z.of_nat (length xs)) = Z.of_nat (length xs).
Proof. destruct fuel; simpl; [done|]. by rewrite rows_next. Qed.
Lemma rows_snoc xs r : <[Z.of_nat (length xs) + 1 := r]> (rows xs) = rows (xs ++ [r]).
Proof. rewrite map_seqZ_snoc. by replace (1 + Z.of_nat (length xs)) with (Z.of_nat (length xs) + 1) by lia. Qed.

(** ** Ingestion appends *)
Lemma stream_put a i a' i' n r s : stream_of a' i' (put_row a i n r s)
  = if decide ((a', i') = (a, i)) then <[n := r]> (stream_of a i s) else stream_of a' i' s.
Proof.
  unfold stream_of at 1, put_row. simpl. destruct (decide ((a', i') = (a, i))) as [[= -> ->]|Hne]; [by rewrite lookup_insert_eq|].
  by rewrite lookup_insert_ne.
Qed.

Section Ingest.
Context `{Repr} `{SortedJson}.

(** The row a record becomes. *)
Definition row_from (d : dict) (r : central_row) : Prop := exists ts kind,
  idx (VDict d) "ts" = Ok ts /\ idx (VDict d) "kind" = Ok kind /\ idx (VDict d) "payload" = Ok (cr_payload r)
  /\ r = mkRow (py_str ts) (py_str kind) (cr_payload r).

(** What ingestion of the records [l] into the stream (a, i) does to the store. *)
Record appended (a i : string) (l : list (Z * dict)) (s s' : central_store) (xs new : list central_row) : Prop := {
  ap_stream : stream_of a i s' = rows (xs ++ new);
  ap_rows : forall k r, new !! k = Some r -> exists d, In (Z.of_nat (length xs + k) + 1, d) l /\ row_from d r;
  ap_others : forall a' i', (a', i') <> (a, i) -> c_audit s' !! (a', i') = c_audit s !! (a', i');
  ap_policies : c_policies s' = c_policies s }.

Lemma appended_nil a i l s xs : stream_of a i s = rows xs -> appended a i l s s xs [].
Proof. intros Hs. split; rewrite ?app_nil_r; done. Qed.
(** Steps that do not touch rows and policies. *)
Lemma appended_frame a i l s s1 s' xs new : c_audit s1 = c_audit s -> c_policies s1 = c_policies s ->
  appended a i l s1 s' xs new -> appended a i l s s' xs new.
Proof. intros Ha Hp [H1 H2 H3 H4]. split; try done; [by rewrite <- Ha | congruence]. Qed.
Lemma appended_weaken a i l l' s s' xs new : (forall x, In x l -> In x l') -> appended a i l s s' xs new -> appended a i l' s s' xs new.
Proof. intros Hl [H1 H2 H3 H4]. split; try done. intros k r Hk. destruct (H2 k r Hk) as (d & ? & ?). eauto. Qed.

Lemma ingest_loop_appends now a i l : forall xs s high s', stream_of a i s = rows xs -> Forall (fun x => 1 <= fst x) l ->
  ingest_loop now a i l (Z.of_nat (length xs)) s = Ok (high, s') ->
  exists new, appended a i l s s' xs new /\ high = Z.of_nat (length (xs ++ new)).
Proof.
  induction l as [|[seq d] l IH]; intros xs s high s' Hs Hge Hi.
  - cbn [ingest_loop] in Hi. injection Hi as <- <-. exists []. rewrite app_nil_r. split; [by apply appended_nil | done].
  - cbn [ingest_loop] in Hi. inv_db Hi. case_in Hi; [discriminate Hi|]. inv_db Hi.
    match type of Hi with context [if ?b then s else ?c] => set (s1 := if b then s else c) in Hi;
      assert (c_audit s1 = c_audit s /\ c_policies s1 = c_policies s) as [Ha Hp] by (unfold s1; by destruct b) end.
    assert (stream_of a i s1 = rows xs) as Hs1 by (unfold stream_of; by rewrite Ha).
    destruct (Z.ltb_spec (Z.of_nat (length xs) + 1) seq) as [Hgap|Hgap].
    { inv_db Hi. exists []. rewrite app_nil_r. split; [|done]. apply (appended_frame _ _ _ s s1); [done..|].
      apply (appended_frame _ _ _ s1 (note_gap now a i (Z.of_nat (length xs) + 1) seq s1)); [done..|]. by apply appended_nil. }
    apply Forall_cons in Hge as [Hseq Hge]. simpl in Hseq. rewrite Hs in Hi. destruct (rows xs !! seq) as [r|] eqn:Er.
    { destruct (IH xs s1 high s' Hs1 Hge Hi) as (new & Hn & ->). exists new. split; [|done]. eapply appended_frame; [done..|].
      eapply appended_weaken; [|exact Hn]. by right. }
    assert (seq = Z.of_nat (length xs) + 1) as -> by (apply lookup_map_seqZ_None in Er; lia).
    inv_db Hi. match type of Hi with context [put_row a i _ ?r s1] => set (row := r) in Hi end.
    set (s2 := put_row a i (Z.of_nat (length xs) + 1) row s1) in Hi.
    assert (stream_of a i s2 = rows (xs ++ [row])) as Hs2.
    { unfold s2. rewrite stream_put, decide_True by done. by rewrite Hs1, rows_snoc. }
    rewrite Hs2 in Hi. replace (Z.of_nat (length xs) + 1) with (Z.of_nat (length (xs ++ [row]))) in Hi by (rewrite length_app; simpl; lia).
    rewrite advance_rows in Hi. destruct (IH _ s2 high s' Hs2 Hge Hi) as (new & [H1 H2 H3 H4] & ->).
    exists (row :: new). split; [|by rewrite <- app_assoc]. split.
    + by rewrite <- app_assoc in H1.
    + intros [|k] r Hk; simpl in Hk.
      * injection Hk as <-. exists d. split; [left; f_equal; lia|]. by eexists _, _.
      * destruct (H2 k r Hk) as (d' & Hd & Hr). exists d'. split; [right|done]. rewrite length_app in Hd. simpl in Hd.
        by replace (Z.of_nat (length xs + S k) + 1) with (Z.of_nat (length xs + 1 + k) + 1) by lia.
    + intros a' i' Hne. rewrite H3 by done. unfold s2, put_row. simpl. by rewrite lookup_insert_ne, Ha by congruence.
    + rewrite H4. exact Hp.
Qed.

Lemma checked_records_In l out n d : checked_records l = Ok out -> In (n, d) out -> In (VDict d) l /\ dget d "seq" VNone = VInt n /\ 1 <= n.
Proof.
  revert out. induction l as [|v l IH]; intros out Ho Hin; simpl in Ho; [by injection Ho as <-|].
  destruct v as [| | | | | |e]; try discriminate Ho. destruct (dget e "seq" VNone) as [| |m| | | |] eqn:Ed; try discriminate Ho.
  destruct (Z.ltb_spec m 1); [discriminate Ho|]. inv_ok Ho. injection Ho as <-. destruct Hin as [[= <- <-]|Hin]; [by split; [left|]|].
  destruct (IH _ E Hin) as (? & ? & ?). split; [by right | done].
Qed.

(** One call of [ingest]: nothing, or rows at the end of one stream. *)
Lemma ingest_appends now a i records s r s' xs : stream_of a i s = rows xs -> ingest now a i records s = (r, s') ->
  (s' = s /\ exists e, r = Err e)
  \/ exists l new, appended a i l s s' xs new /\ r = Ok (Z.of_nat (length (xs ++ new)))
     /\ forall n d, In (n, d) l -> In (VDict d) records /\ dget d "seq" VNone = VInt n.
Proof.
  intros Hs. unfold ingest. destruct (checked_records records) as [l|e] eqn:Ec; [|intros [= <- <-]; eauto].
  intros Ht. apply transaction_cases in Ht as [(v & -> & Hb)|(e & -> & ->)]; [|by left; eauto]. right.
  unfold ingest_body in Hb. inv_db Hb. rewrite (contiguous_high_rows a i s xs Hs) in E.
  assert (forall n d, In (n, d) (sort_by fst l) -> In (VDict d) records /\ dget d "seq" VNone = VInt n /\ 1 <= n) as Hl.
  { intros n d Hn. apply sort_by_In in Hn. by eapply checked_records_In. }
  assert (Forall (fun x => 1 <= fst x) (sort_by fst l)) as Hge.
  { apply List.Forall_forall. intros [n d] Hn. apply (Hl n d Hn). }
  destruct (ingest_loop_appends now a i _ xs s _ _ Hs Hge E) as (new & Hn & ->).
  exists (sort_by fst l), new. split; [|split; [done|]].
  - destruct Hn. by split.
  - intros n d Hn'. destruct (Hl n d Hn') as (? & ? & _). done.
Qed.

(** Whatever a stream held before, other streams and the policies stay. *)
Definition frame (a i : string) (s s' : central_store) : Prop :=
  c_policies s' = c_policies s /\ forall k, k <> (a, i) -> c_audit s' !! k = c_audit s !! k.
Lemma frame_trans a i s s1 s2 : frame a i s s1 -> frame a i s1 s2 -> frame a i s s2.
Proof. intros [Hp Ha] [Hp' Ha']. split; [congruence|]. intros k Hk. by rewrite Ha', Ha. Qed.
Lemma frame_put a i n r s : frame a i s (put_row a i n r s).
Proof. split; [done|]. intros k Hk. unfold put_row. simpl. by rewrite lookup_insert_ne. Qed.
Lemma ingest_loop_frame now a i l : forall high s v, ingest_loop now a i l high s = Ok v -> frame a i s (snd v).
Proof.
  induction l as [|[seq d] l IH]; intros high s v Hi; cbn [ingest_loop] in Hi; [by injection Hi as <-|].
  inv_db Hi. case_in Hi; [discriminate Hi|]. inv_db Hi.
  match type of Hi with context [if ?b then s else ?c] => set (s1 := if b then s else c) in Hi;
    assert (frame a i s s1) as Hs1 by (unfold s1; by destruct b) end.
  apply (frame_trans a i s s1); [done|]. destruct (high + 1 <? seq); [inv_db Hi; by split|].
  destruct (stream_of a i s !! seq); [by eapply IH|]. inv_db Hi. eapply frame_trans; [apply frame_put|]. by eapply IH.
Qed.
Lemma ingest_frame now a i records s r s' : ingest now a i records s = (r, s') -> frame a i s s'.
Proof.
  unfold ingest. destruct (checked_records records) as [l|e]; [|by intros [= _ <-]].
  intros Ht. apply transaction_cases in Ht as [(v & -> & Hb)|(e & -> & ->)]; [|done].
  unfold ingest_body in Hb. inv_db Hb. by apply (ingest_loop_frame _ _ _ _ _ _ _ E).
Qed.
End Ingest.
