(* ===== verification/Replication.v ===== *)
(** * Agent, centre and network

    The recovery agent, its synchronisation thread and the central store as one
    transition system.  The network delivers, loses, repeats and delays requests and
    answers, and shows both sides anything it likes; it cannot sign.  [y_requests] and
    [y_signed] record what the agent and the centre signed, [y_earned] the sequence
    numbers the synchronisation thread accepted as acknowledged. *)
From S2P Require Import Prelude PyVal UtcTime FastPolicy SendSample EffectContract EffectModel EffectReconcile Contracts AgentPolicy AgentObserve AgentDecide AgentStore AgentVerify AgentEffect Agent CentralStore AgentSync.

(** One agent with its database, its centre, their keys. *)
Record deployment : Type := mkDeployment {
  dp_config : agent_config; dp_agent : string; dp_instance : string; dp_agent_key : string; dp_centre_key : string;
  dp_keys : list (string * string); dp_batch : Z }.

Record system : Type := mkSystem {
  y_agent : agent_world; y_central : central_store; y_requests : list (Z * pyval); y_signed : list pyval; y_earned : list Z }.

Inductive sys_event : Type :=
  | AgentDoes (e : event)
(** the synchronisation thread builds a request from what it sees of the log *)
| Ask (nonce : string) (seen : nat)
(** something arrives at the server *)
| Arrives (now : Q) (path : string) (length : option string) (content : res pyval)
(** something arrives as the answer to a request *)
| Answered (acked : Z) (body response : pyval)
| Publish (value : pyval).

Section System.
Context `{Repr} `{FromIso} `{LocalZone} `{IpText} `{IsoFull} `{JsonCanon} `{Ed25519} `{JsonSha} `{TextDigest} `{IsoText}.
Context `{SortedJson} `{Stamp}.
Variable d : deployment.

Definition centre_public : string := public_key_text (dp_centre_key d).
Definition agent_public : string := public_key_text (dp_agent_key d).
(** The two sides are configured with each other's keys. *)
Definition deployed : Prop :=
  central_key (dp_config d) = Some centre_public /\ dict_get (dp_agent d) (dp_keys d) = Some agent_public /\ dp_agent d <> "".

Definition with_world w y := mkSystem w (y_central y) (y_requests y) (y_signed y) (y_earned y).
Definition with_central c signed y := mkSystem (y_agent y) c (y_requests y) (y_signed y ++ signed) (y_earned y).
Definition with_request r y := mkSystem (y_agent y) (y_central y) (y_requests y ++ [r]) (y_signed y) (y_earned y).
Definition with_earned n y := mkSystem (y_agent y) (y_central y) (y_requests y) (y_signed y) (y_earned y ++ [n]).

(** The acknowledgement in a reply of the server, the policy in a published envelope. *)
Definition signed_reply (r : res (Z * pyval)) : list pyval :=
  match r with Ok (200, VDict b) => [dget b "ack" VNone] | _ => [] end.
Definition signed_envelope (r : res (Z * option pyval)) : list pyval :=
  match r with Ok (_, Some (VDict b)) => [dget b "policy" VNone] | _ => [] end.

Definition sys_step (ev : sys_event) (y : system) : system :=
  match ev with
  | AgentDoes e => with_world (perform (dp_config d) e (y_agent y)) y
  | Ask nonce seen =>
      let s := w_store (y_agent y) in
      match audit_request (dp_agent d) (dp_batch d) nonce (set_audit (take seen (audit_log s)) s) with
      | Ok (acked, Some body) => with_request (acked, body) y
      | _ => y
      end
  | Arrives now path length content =>
      let '(reply, c) := do_POST (dp_keys d) (dp_centre_key d) now path length content (y_central y) in
      with_central c (signed_reply reply) y
  | Answered acked body response =>
      match audit_acked centre_public body acked response with
      | Ok (_, Some (AuditAcked n)) => with_earned n y
      | _ => y
      end
  | Publish value =>
      let '(r, c) := cmd_publish (dp_centre_key d) value (y_central y) in
      with_central c (signed_envelope r) y
  end.

(** ** What the network and the keys allow *)
(** A value that verifies was signed. *)
Definition unforged (key : string) (signed : list pyval) (v signature : pyval) : Prop :=
  match signature with VStr s => verify key v s = Ok true -> In v signed | _ => True end.
Definition write_allowed (y : system) (x : sync_write) : Prop :=
  match x with
  | PolicyAdopted _ (VDict e) _ => unforged centre_public (y_signed y) (dget e "policy" VNone) (dget e "signature" VNone)
  | AuditAcked n => In n (y_earned y)
  | _ => True
  end.
Definition env_allowed (y : system) (env : nat -> reading) : Prop := forall n, Forall (write_allowed y) (r_sync (env n)).
Definition allowed (y : system) (ev : sys_event) : Prop :=
  match ev with
  | AgentDoes (Step env) | AgentDoes (Stop env) | AgentDoes (Start env) => env_allowed y env
  | AgentDoes (Synced x) => write_allowed y x
  | AgentDoes Kill => True
  | Ask _ _ => True
  | Arrives _ _ _ content =>
      match (let! envelope := content in envelope_parts envelope) with
      | Ok (body, signature, VStr a, _, _) => a = dp_agent d -> unforged agent_public (map snd (y_requests y)) body signature
      | _ => True
      end
  | Answered acked body response =>
      In (acked, body) (y_requests y) /\
      match response with VDict r => unforged centre_public (y_signed y) (dget r "ack" VNone) (dget r "signature" VNone) | _ => True end
| Publish _ => True
end.

Definition sys_start : system := mkSystem (cold_start (dp_instance d)) new_central [] [] [].
Inductive sys_reachable : system -> Prop :=
  | reach_start : sys_reachable sys_start
  | reach_step y ev : sys_reachable y -> allowed y ev -> sys_reachable (sys_step ev y).
Definition sys_run (evs : list sys_event) (y : system) : system := fold_left (fun y ev => sys_step ev y) evs y.
End System.
