(* ===== verification/ReplicationProofs.v ===== *)
(** * What reaches the centre is the log of the agent

    The invariant of the system: the stream at the centre is a prefix of the agent's
    log, every sequence number the centre signed or the agent accepted lies within
    it, and every policy the agent can open was recorded before it was signed. *)
From S2P Require Import Prelude PyVal UtcTime FastPolicy SendSample EffectContract EffectModel EffectReconcile Contracts AgentPolicy AgentObserve AgentDecide AgentStore AgentVerify AgentEffect Agent AgentStoreProofs AgentProofs AgentVerifyProofs CentralStore AgentSync CentralProofs Replication AgentDemo.
From Stdlib Require Import DecimalString DecimalZ.

(** ** Equal dicts agree on every key *)
Lemma py_eq_dict d e k x : py_eq (VDict d) (VDict e) = true -> dict_get k d = Some x -> exists y, dict_get k e = Some y /\ py_eq x y = true.
Proof.
  simpl. rewrite andb_true_iff. intros [_ Hd]. revert Hd. induction d as [|[k' x'] d IH]; simpl; [done|].
  rewrite andb_true_iff. intros [Hx Hd]. destruct (String.eqb_spec k k') as [->|Hk].
  - intros [= <-]. destruct (dict_get k' e) as [y|]; [eauto | done].
  - by apply IH.
Qed.
Lemma py_eq_str x s : py_eq x (VStr s) = true -> x = VStr s.
Proof. destruct x; simpl; try done. intros Hs. apply String.eqb_eq in Hs. by subst. Qed.
Lemma py_eq_int_r x n : py_eq (VInt n) x = true -> forall m, x = VInt m -> n = m.
Proof.
  intros Hx m ->. simpl in Hx. unfold Qeq_bool in Hx. simpl in Hx. apply Z.eqb_eq in Hx. lia.
Qed.

Lemma required b reason u : require b reason = Ok u -> b = true.
Proof. by destruct b. Qed.

(** ** Held under weaker rules *)
Section Mono.
Context `{Repr} `{FromIso} `{LocalZone} `{IpText} `{IsoFull} `{JsonCanon} `{Ed25519} `{JsonSha} `{TextDigest} `{IsoText}.
Variable cf : agent_config.
Variables R1 R2 : Rules.
Hypothesis weaker : forall k v, @kv_ok R1 k v -> @kv_ok R2 k v.

Lemma authorised_mono p : authorised (RU := R1) cf p -> authorised (RU := R2) cf p.
Proof. intros [?|(key & e & ? & ? & ?)]; [by left | right; exists key, e; auto]. Qed.
Lemma claim_ok_mono l c : claim_ok (RU := R1) cf l c -> claim_ok (RU := R2) cf l c.
Proof. intros [Hf Hn (p & Hp & Hr)]. split; [done | done|]. exists p. split; [by apply authorised_mono | done]. Qed.
Lemma paced_mono l : paced (RU := R1) cf l -> paced (RU := R2) cf l.
Proof. induction 1; constructor; [done | by apply claim_ok_mono]. Qed.
Lemma sending_ok_mono x : sending_ok (RU := R1) cf x -> sending_ok (RU := R2) cf x.
Proof. intros [? [? ?] ? ? ? ?]. split; try done. split; [by apply authorised_mono | done]. Qed.
Lemma env_ok_mono env : env_ok (RU := R1) env -> env_ok (RU := R2) env.
Proof. intros He n. eapply Forall_impl; [apply He|]. intros []; simpl; auto. Qed.
Lemma held_mono l tr w : @kept_log R2 `prefix_of` audit_log (w_store w) -> Held (RU := R1) cf l tr w -> Held (RU := R2) cf l tr w.
Proof.
  intros Hk ([Hr Ha Hp Hi Hl] & Ht & [Hg Hc Ho Hs] & He). split_and!; [split; eauto | done | | by apply env_ok_mono].
  split; try done; [by apply paced_mono|]. eapply Forall_impl; [exact Hs|]. apply sending_ok_mono.
Qed.
End Mono.

(** ** The server *)
Section Server.
Context `{Repr} `{SortedJson} `{JsonCanon} `{Ed25519} `{TextDigest}.
Variables (keys : list (string * string)) (ack_key : string).

Lemma ingest_error now a i l s e s' : ingest now a i l s = (Err e, s') -> s' = s.
Proof.
  unfold ingest. destruct (checked_records l); [|congruence]. intros Ht.
  apply transaction_cases in Ht as [(v & ? & _)|(e' & _ & ->)]; done.
Qed.

(** A request that changed the store or was acknowledged. *)
Inductive accepted (now : Q) (content : res pyval) (s s' : central_store) (signed : list pyval) : Prop :=
  | Accepted body signature agent instance records high key :
      (let! envelope := content in envelope_parts envelope) = Ok (body, VStr signature, VStr agent, instance, records) ->
      dict_get agent keys = Some key -> verify key body signature = Ok true ->
      ingest now agent instance records s = (Ok high, s') ->
      signed = [] \/ (exists nonce ack, ack_of body nonce (VInt high) = Ok ack /\ signed = [ack]) ->
      accepted now content s s' signed.
Lemma post_cases now path len content s r s' : do_POST keys ack_key now path len content s = (r, s') ->
  (s' = s /\ signed_reply r = []) \/ accepted now content s s' (signed_reply r).
Proof.
  unfold do_POST. destruct (negb _); [intros [= <- <-]; by left|]. destruct (py_int _) as [n|e]; [|intros [= <- <-]; by left].
  destruct (negb _); [intros [= <- <-]; by left|]. unfold post_audit.
  destruct (let! envelope := content in envelope_parts envelope) as [[[[[body signature] agent] instance] records]|e] eqn:Ep.
  2:{ intros [= <- <-]. left. by destruct (key_type_or_value_error e). }
  destruct (agent_key keys agent) as [[[a key]|]|e] eqn:Ek; [|intros [= <- <-]; by left..].
  destruct (signature_ok key body signature) as [[|]|e] eqn:Es; [|intros [= <- <-]; by left..].
  unfold agent_key in Ek. destruct (hashable agent); simpl in Ek; [|done]. destruct agent; try done.
  destruct (dict_get s0 keys) as [k|] eqn:Eg; [|done]. injection Ek as -> ->.
  unfold signature_ok in Es. destruct signature; try done.
  destruct (ingest now a instance records s) as [[high|e] s1] eqn:Ei.
  - intros [= <- <-]. right. eapply Accepted; [exact Ep | exact Eg | exact Es | exact Ei|].
    destruct (sign_ack ack_key body high) as [v|e] eqn:Ea; [|by left]. right. unfold sign_ack in Ea. inv_ok Ea. injection Ea as <-. eauto.
  - intros [= <- <-]. left. apply ingest_error in Ei as ->. by destruct (key_type_or_value_error e).
Qed.

Lemma ack_fields body nonce high ack : ack_of body nonce high = Ok ack -> exists a, ack = VDict a
  /\ dict_get "schema" a = Some (VStr ACK_SCHEMA) /\ idx body "agent_id" = Ok (default VNone (dict_get "agent_id" a)) /\ is_Some (dict_get "agent_id" a)
  /\ dict_get "acked_seq" a = Some high.
Proof. unfold ack_of. intros Ha. inv_ok Ha. injection Ha as <-. eexists. by split_and!. Qed.
Lemma parts_agent envelope body signature agent instance records : envelope_parts envelope = Ok (body, signature, agent, instance, records) ->
  idx body "agent_id" = Ok agent /\ idx body "instance_id" = Ok (VStr instance) /\ idx body "records" = Ok (VList records).
Proof.
  unfold envelope_parts. intros Hp. inv_ok Hp. destruct v3; try done. destruct v2; try done. case_in Hp; [done|]. injection Hp as <- <- <- <- <-. done.
Qed.
End Server.

(** ** The invariant *)
Section Invariant.
Context `{Repr} `{FromIso} `{LocalZone} `{IpText} `{IsoFull} `{JsonCanon} `{Ed25519} `{JsonSha} `{TextDigest} `{IsoText}.
Context `{SortedJson} `{Stamp}.
Variable d : deployment.
Notation cf := (dp_config d).
Notation ours := (stream_of (dp_agent d) (dp_instance d)).

Definition y_log (y : system) : list audit_record := audit_log (w_store (y_agent y)).
Definition row_of (r : audit_record) : central_row := mkRow (stamp_text (au_ts r)) (au_kind r) (VDict (au_payload r)).
Definition recorded (c : central_store) (p : Policy) : Prop := In (po_version p, policy_dict p) (c_policies c).
(** How much of the agent's log the centre holds. *)
Definition stored (c : central_store) : Z := contiguous_high (dp_agent d) (dp_instance d) c.

Program Definition rules (c : central_store) (log : list audit_record) : Rules := mkRules (fun k v =>
  (k = POLICY_KEY -> forall p, open_envelope v (centre_public d) = Ok p -> recorded c p)
  /\ (k = ACKED_KEY -> exists n, v = VInt n /\ n <= stored c)
  /\ (k = "instance_id" -> v = VStr (dp_instance d))) log _.
Next Obligation. match goal with Hk : own_key _ |- _ => destruct Hk as (? & ? & ?) end. split_and!; congruence. Qed.

(** What the centre signs: recorded policies, and acknowledgements it can keep. *)
Inductive signed_ok (c : central_store) (v : pyval) : Prop :=
  | SignedPolicy p : v = VDict (policy_dict p) -> policy_wf p -> recorded c p -> signed_ok c v
  | SignedAck a : v = VDict a -> dict_get "schema" a = Some (VStr ACK_SCHEMA) -> is_Some (dict_get "agent_id" a) ->
      (dict_get "agent_id" a = Some (VStr (dp_agent d)) -> exists n, dict_get "acked_seq" a = Some (VInt n) /\ n <= stored c) -> signed_ok c v.
Definition request_ok (log : list audit_record) (body : pyval) : Prop := exists nonce records,
  body = request_body (dp_agent d) (dp_instance d) nonce records /\ forall n r, In (n, r) records -> log !! Z.to_nat (n - 1) = Some r.

Record central_ok (log : list audit_record) (c : central_store) : Prop := {
  co_stream : exists h, (h <= length log)%nat /\ ours c = rows (map row_of (take h log));
  co_others : forall i, i <> dp_instance d -> c_audit c !! (dp_agent d, i) = None;
  co_versions : NoDup (map fst (c_policies c)) }.
Record sys_inv (y : system) : Prop := {
  in_agent : exists l tr, Held (RU := rules (y_central y) []) cf l tr (y_agent y);
  in_central : central_ok (y_log y) (y_central y);
  in_requests : forall acked body, In (acked, body) (y_requests y) -> request_ok (y_log y) body;
  in_signed : forall v, In v (y_signed y) -> signed_ok (y_central y) v;
  in_earned : forall n, In n (y_earned y) -> n <= stored (y_central y) }.

Lemma stored_rows c xs : ours c = rows xs -> stored c = Z.of_nat (length xs).
Proof. apply contiguous_high_rows. Qed.

(** *** The centre only grows *)
Definition grows (c c' : central_store) : Prop := (forall p, recorded c p -> recorded c' p) /\ stored c <= stored c'.
Lemma signed_grows c c' v : grows c c' -> signed_ok c v -> signed_ok c' v.
Proof.
  intros [Hr Hs] [p Hv Hp Hrec|a Hv Ha Hag Hn]; [by eapply SignedPolicy; eauto|]. eapply SignedAck; [done | done | done|].
  intros E. destruct (Hn E) as (n & ? & ?). exists n. split; [done | lia].
Qed.
Lemma held_grows c c' l tr w : grows c c' -> Held (RU := rules c []) cf l tr w -> Held (RU := rules c' []) cf l tr w.
Proof.
  intros [Hr Hs]. apply held_mono; [|apply prefix_nil]. intros k v (Hp & Hn & Hi). split_and!; [eauto | | done].
  intros E. destruct (Hn E) as (n & ? & ?). exists n. split; [done | lia].
Qed.

(** *** What verifies under the centre's key *)
Lemma opened_recorded c signed e p : (forall v, In v signed -> signed_ok c v) ->
  unforged (centre_public d) signed (dget e "policy" VNone) (dget e "signature" VNone) ->
  open_envelope (VDict e) (centre_public d) = Ok p -> recorded c p.
Proof.
  intros Hs Hu Ho. unfold open_envelope in Ho. destruct (dget e "signature" VNone) as [| | | |s| |]; try discriminate Ho.
  cbv zeta in Ho. inv_ok Ho. destruct v; [|discriminate Ho]. simpl in Ho.
  destruct (Hs _ (Hu E)) as [q Hq Hwf Hrec|a Ha Hsch _ _].
  - rewrite Hq, parse_policy_dict in Ho by done. by injection Ho as <-.
  - rewrite Ha in Ho. unfold parse, dget in Ho. rewrite Hsch in Ho. discriminate Ho.
Qed.

Lemma write_ok_allowed y log x : sys_inv y -> write_allowed d y x -> write_ok (RU := rules (y_central y) log) x.
Proof.
  intros Hy Hx. destruct x as [now v payload|now payload|n]; simpl in *; [| done |].
  - split_and!; [|discriminate..]. intros _ p Ho. destruct v; try discriminate Ho. eapply opened_recorded; [apply Hy | exact Hx | exact Ho].
  - split_and!; [discriminate | | discriminate]. intros _. exists n. split; [done | by apply (in_earned y Hy)].
Qed.
Lemma event_ok_allowed y log e : sys_inv y -> allowed d y (AgentDoes e) -> event_ok (RU := rules (y_central y) log) e.
Proof.
  intros Hy. destruct e; simpl; try done; [| by apply write_ok_allowed | |];
    intros Ha n; (eapply Forall_impl; [apply Ha|]); intros x; by apply write_ok_allowed.
Qed.

(** *** The agent's log only grows *)
Lemma request_ok_log log log' body : log `prefix_of` log' -> request_ok log body -> request_ok log' body.
Proof.
  intros Hl (nonce & records & -> & Hr). exists nonce, records. split; [done|]. intros n r Hin. eapply prefix_lookup_Some; [by apply Hr | done].
Qed.
Lemma central_ok_log log log' c : log `prefix_of` log' -> central_ok log c -> central_ok log' c.
Proof.
  intros Hl [(h & Hh & Hs) Ho Hv]. split; try done. exists h. split.
  - apply prefix_length in Hl. lia.
  - destruct Hl as [more ->]. by rewrite take_app_le.
Qed.
Lemma agent_step y e : sys_inv y -> allowed d y (AgentDoes e) -> sys_inv (sys_step d (AgentDoes e) y).
Proof.
  intros Hy Ha. pose proof Hy as [(l & tr & Hh) Hc Hr Hs He].
  set (RU := rules (y_central y) (y_log y)).
  assert (Inv (RU := RU) cf (y_agent y)) as Hi.
  { exists l, tr. revert Hh. apply held_mono; [done | reflexivity]. }
  apply (perform_inv (RU := RU) cf e) in Hi; [|by apply event_ok_allowed].
  destruct Hi as (l' & tr' & Hh'). assert (y_log y `prefix_of` y_log (sys_step d (AgentDoes e) y)) as Hp by apply (hc_log (RU := RU) _ _ (proj1 Hh')).
  split; simpl; try done.
  - exists l', tr'. revert Hh'. apply held_mono; [done | apply prefix_nil].
  - by eapply central_ok_log.
  - intros acked body Hin. eapply request_ok_log; [exact Hp | by eapply Hr].
Qed.

(** *** Requests show the log *)
Lemma instance_known c log l w : holds_claims (RU := rules c log) l w -> instance_id w = dp_instance d.
Proof.
  intros Hs. destruct (hc_instance _ _ Hs) as [v Hv]. destruct (hc_kv _ _ Hs _ _ Hv) as (_ & _ & Hi).
  unfold instance_id. rewrite Hv. simpl. by rewrite (Hi eq_refl).
Qed.
Lemma numbered_In {A} (l : list A) n x : In (n, x) (numbered l) -> 1 <= n /\ l !! Z.to_nat (n - 1) = Some x.
Proof.
  intros Hin. rewrite numbered_zip in Hin. apply list_elem_of_In, list_elem_of_lookup in Hin as [i Hi]. apply lookup_zip_Some in Hi as [Hn Hx].
  apply lookup_seqZ in Hn as [-> _]. split; [lia|]. by replace (Z.to_nat (1 + Z.of_nat i - 1)) with i by lia.
Qed.
Lemma read_audit_In acked batch s n r : In (n, r) (read_audit acked batch s) -> audit_log s !! Z.to_nat (n - 1) = Some r.
Proof.
  unfold read_audit. intros Hin. apply list_elem_of_In, elem_of_take in Hin as (i & Hi & _). apply list_elem_of_lookup_2, list_elem_of_In in Hi.
  apply filter_In in Hi as [Hi _]. by destruct (numbered_In _ _ _ Hi).
Qed.
Lemma ask_step y nonce seen : sys_inv y -> sys_inv (sys_step d (Ask nonce seen) y).
Proof.
  intros Hy. pose proof Hy as [(l & tr & Hh) Hc Hr Hs He]. simpl.
  set (s := set_audit (take seen (audit_log (w_store (y_agent y)))) (w_store (y_agent y))).
  destruct (audit_request _ _ nonce s) as [[acked [body|]]|] eqn:Er; try done.
  split; simpl; try done; [by exists l, tr|]. intros acked' body' Hin. apply in_app_iff in Hin as [Hin|[[= <- <-]|[]]]; [by eapply Hr|].
  unfold audit_request in Er. inv_ok Er. destruct (read_audit v (dp_batch d) s) as [|r rs] eqn:Ea; [done|]. injection Er as <- <-.
  exists nonce, (r :: rs). split.
  - f_equal. exact (instance_known (y_central y) [] l (w_store (y_agent y)) (proj1 Hh)).
  - intros n x Hin. rewrite <- Ea in Hin. apply read_audit_In in Hin. unfold s in Hin. simpl in Hin.
    rewrite lookup_take in Hin. by case_decide.
Qed.

(** *** An accepted answer *)
Lemma verify_ack_signed response request previous n : verify_ack (centre_public d) response request previous = Ok n -> exists r a expected nonce,
  response = VDict r /\ dget r "ack" VNone = VDict a /\ ack_of request nonce (dget a "acked_seq" VNone) = Ok expected /\ py_eq (VDict a) expected = true
  /\ dict_get "acked_seq" a = Some (VInt n) /\ exists s, dget r "signature" VNone = VStr s /\ verify (centre_public d) (VDict a) s = Ok true.
Proof.
  unfold verify_ack. intros Hv. destruct response as [| | | | | |r]; try discriminate Hv. destruct (dget r "ack" VNone) as [| | | | | |a] eqn:Ea; try discriminate Hv.
  inv_ok Hv. repeat match goal with E : require _ _ = Ok _ |- _ => apply required in E end. subst.
  destruct (dget r "signature" VNone) as [| | | |s| |] eqn:Es; try discriminate.
  unfold idx in E5. destruct (dict_get "acked_seq" a) as [w|] eqn:Eq; [|discriminate E5]. injection E5 as ->.
  destruct v5 as [| |m| | | |]; try discriminate Hv. case_in Hv; [discriminate Hv|]. inv_ok Hv. case_in Hv; [discriminate Hv|]. injection Hv as <-.
  exists r, a, v3, v2. split_and!; try done. exists s. by split.
Qed.

Lemma answer_step y acked body response : sys_inv y -> allowed d y (Answered acked body response) ->
  sys_inv (sys_step d (Answered acked body response) y).
Proof.
  intros Hy [Hreq Hu]. pose proof Hy as [(l & tr & Hh) Hc Hr Hs He]. cbn [sys_step]. unfold audit_acked.
  destruct (verify_ack _ _ _ _) as [high|] eqn:Ev; [|done]. cbn [rbind]. destruct (high =? acked); [done|].
  split; try done; [by exists l, tr|]. intros n Hn. apply in_app_iff in Hn as [Hn|[<-|[]]]; [by apply He|].
  apply verify_ack_signed in Ev as (r & a & expected & nonce & -> & Ea & Hexp & Heq & Hseq & s & Es & Hv).
  rewrite Ea, Es in Hu. simpl in Hu. destruct (ack_fields _ _ _ _ Hexp) as (e & -> & Hsch & Hagent & [x Hx] & _).
  rewrite Hx in Hagent. destruct (Hr _ _ Hreq) as (nonce' & records & -> & _). simpl in Hagent. injection Hagent as <-.
  destruct (Hs _ (Hu Hv)) as [p Hp _ _|a' [= <-] Hsch' [z Hz] Hcov].
  - injection Hp as ->. destruct (py_eq_dict _ _ "schema" (VStr POLICY_SCHEMA) Heq eq_refl) as (w & Hw & He'). rewrite Hsch in Hw. injection Hw as <-. discriminate He'.
  - destruct (py_eq_dict _ _ "agent_id" z Heq Hz) as (w & Hw & He'). rewrite Hx in Hw. injection Hw as <-. apply py_eq_str in He' as ->.
    destruct (Hcov Hz) as (n & Hn & Hle). rewrite Hseq in Hn. by injection Hn as ->.
Qed.

(** *** Publication *)
Lemma publish_step y value : sys_inv y -> sys_inv (sys_step d (Publish value) y).
Proof.
  intros Hy. pose proof Hy as [(l & tr & Hh) [Hst Ho Hnd] Hr Hs He]. cbn [sys_step]. unfold cmd_publish.
  assert (sys_inv (with_central (y_central y) [] y)) as Hsame by (unfold with_central; rewrite app_nil_r; by destruct y).
  destruct (parse value) as [p|e] eqn:Ep; [|done]. destruct (Z.leb_spec (po_version p) (latest_policy_version (y_central y))) as [|Hlt]; [done|].
  destruct (sign_envelope _ p) as [env|e] eqn:Ee; [|done].
  destruct (transaction _ _) as [r c] eqn:Et. apply transaction_cases in Et as [(u & -> & Hb)|(e & -> & ->)]; [|done].
  unfold record_policy in Hb. inv_db Hb. change (idx (VDict (policy_dict p)) "version") with (@Ok pyval (VInt (po_version p))) in E. injection E as <-.
  case_in Hb; [discriminate Hb|]. apply db_mod_Ok in Hb as ->. unfold sign_envelope in Ee. inv_ok Ee. injection Ee as <-.
  set (c := set_policies _ _). assert (grows (y_central y) c) as Hg.
  { split; [|done]. intros q Hq. apply in_app_iff. by left. }
  assert (recorded c p) as Hrec by (apply in_app_iff; right; by left).
  split; simpl; try done.
  - exists l, tr. by eapply held_grows.
  - split; try done. simpl. rewrite map_app. apply NoDup_app. split_and!; [done | | apply NoDup_singleton].
    intros n Hn Hn'. apply list_elem_of_singleton in Hn' as ->. simpl in Hn.
    unfold latest_policy_version in Hlt. destruct (maximum _) as [m|] eqn:Em; simpl in Hlt.
    + apply maximum_ge in Em. rewrite Forall_forall in Em. specialize (Em _ Hn). lia.
    + apply maximum_None in Em. rewrite Em in Hn. by apply not_elem_of_nil in Hn.
  - intros v' Hin. apply in_app_iff in Hin as [Hin|[<-|[]]]; [by eapply signed_grows; [|apply Hs]|].
    eapply SignedPolicy; [reflexivity | by eapply parse_wf | exact Hrec].
Qed.

(** *** Arrival *)
Lemma record_row n r n' a row : record_value (n, r) = VDict a -> dget a "seq" VNone = VInt n' -> row_from a row -> n' = n /\ row = row_of r.
Proof. intros [= <-] [= <-] (ts & kind & [= <-] & [= <-] & [= Hp] & ->). split; [done|]. unfold row_of. by rewrite <- Hp. Qed.

(** The rows that follow the stored ones are the next lines of the log. *)
Lemma next_rows log h (new : list central_row) : (h <= length log)%nat ->
  (forall k row, new !! k = Some row -> exists r, log !! (h + k)%nat = Some r /\ row = row_of r) ->
  (h + length new <= length log)%nat /\ map row_of (take h log) ++ new = map row_of (take (h + length new) log).
Proof.
  intros Hh Hn. assert (new = map row_of (take (length new) (drop h log))) as Hnew.
  { apply list_eq. intros k. change (map row_of) with (fmap (M := list) row_of). rewrite list_lookup_fmap, lookup_take, lookup_drop.
    destruct (new !! k) as [row|] eqn:Ek.
    - rewrite decide_True by (by eapply lookup_lt_Some). destruct (Hn _ _ Ek) as (r & -> & ->). done.
    - rewrite decide_False; [done|]. apply lookup_ge_None in Ek. lia. }
  pose proof (f_equal length Hnew) as Hl. rewrite length_map, length_take, length_drop in Hl. split; [lia|].
  rewrite <- take_take_drop, map_app. by rewrite <- Hnew.
Qed.
Lemma arrives_step y now path len content : deployed d -> sys_inv y -> allowed d y (Arrives now path len content) ->
  sys_inv (sys_step d (Arrives now path len content) y).
Proof.
  intros (_ & Hkey & _) Hy Hal. pose proof Hy as [(l & tr & Hh) [(h & Hlen & Hst) Ho Hv] Hr Hs He]. cbn [sys_step].
  destruct (do_POST _ _ _ _ _ _ _) as [reply c] eqn:Ep. apply post_cases in Ep as [[-> ->]|[body signature agent instance records high key Hp Hk Hver Hi Hsig]].
  { unfold with_central. rewrite app_nil_r. by destruct y. }
  pose proof (ingest_frame _ _ _ _ _ _ _ Hi) as [Hpol Hframe].
  assert (forall v, In v (signed_reply reply) -> exists a, v = VDict a /\ dict_get "schema" a = Some (VStr ACK_SCHEMA)
    /\ dict_get "agent_id" a = Some (VStr agent) /\ dict_get "acked_seq" a = Some (VInt high)) as Hack.
  { intros v Hin. destruct Hsig as [E|(nonce & ack & Ha & E)]; rewrite E in Hin; [done|]. destruct Hin as [<-|[]].
    destruct (ack_fields _ _ _ _ Ha) as (a & -> & Hsch & Hag & [x Hx] & Hseq). exists a. split_and!; try done.
    simpl in Hp. destruct content as [envelope|]; [|done]. simpl in Hp. apply parts_agent in Hp as [Hp _]. rewrite Hx in Hag. simpl in Hag. congruence. }
  assert (forall signed, (forall v, In v signed -> signed_ok c v) -> grows (y_central y) c -> central_ok (y_log y) c ->
    sys_inv (with_central c signed y)) as Hdone.
  { intros signed Hsg Hg Hc. split; simpl; try done; [exists l, tr; by eapply held_grows | |].
    - intros v Hin. apply in_app_iff in Hin as [Hin|Hin]; [eapply signed_grows; [exact Hg | by apply Hs] | by apply Hsg].
    - intros n Hn. specialize (He n Hn). destruct Hg. lia. }
  assert (forall p, recorded (y_central y) p -> recorded c p) as Hrec by (intros p; unfold recorded; by rewrite Hpol).
  destruct (decide (agent = dp_agent d)) as [->|Hne].
  - unfold allowed in Hal. rewrite Hp in Hal. rewrite Hkey in Hk. injection Hk as <-. specialize (Hal eq_refl Hver).
    apply in_map_iff in Hal as ([acked b] & Hb & Hin). simpl in Hb. subst b. destruct (Hr _ _ Hin) as (nonce & recs & -> & Hlog).
    destruct content as [envelope|]; [|done]. simpl in Hp. apply parts_agent in Hp as (_ & [= <-] & [= <-]).
    destruct (ingest_appends _ _ _ _ _ _ _ _ Hst Hi) as [[_ [e E]]|(lr & new & [Ha1 Ha2 _ _] & [= ->] & Hl)]; [done|].
    destruct (next_rows (y_log y) h new Hlen) as [Hle Hnew].
    { intros k row Hk. destruct (Ha2 k row Hk) as (dd & Hdd & Hrow). destruct (Hl _ _ Hdd) as [Hinr Hseq].
      apply in_map_iff in Hinr as ([n r] & Hrv & Hrin). destruct (record_row n r _ _ _ Hrv Hseq Hrow) as [<- ->]. exists r. split; [|done].
      specialize (Hlog _ _ Hrin). rewrite length_map, length_take in Hlog. rewrite <- Hlog. f_equal. lia. }
    rewrite Hnew in Ha1. assert (stored c = Z.of_nat (length (map row_of (take h (y_log y)) ++ new))) as Hstored by (by rewrite (stored_rows _ _ Ha1), <- Hnew).
    assert (stored (y_central y) <= stored c) as Hmono by (rewrite Hstored, (stored_rows _ _ Hst), length_app; lia).
    apply Hdone; [| by split |].
    + intros v Hv'. destruct (Hack v Hv') as (a & -> & Hsch & Hag & Hseq). eapply SignedAck; [done | done | eauto|]. intros _. eexists. split; [exact Hseq | lia].
    + split; [by exists (h + length new)%nat | | by rewrite Hpol]. intros i Hii. rewrite Hframe by congruence. by apply Ho.
  - assert (forall i, c_audit c !! (dp_agent d, i) = c_audit (y_central y) !! (dp_agent d, i)) as Hsame by (intros i; apply Hframe; congruence).
    assert (ours c = ours (y_central y)) as Hours by (unfold stream_of; by rewrite Hsame).
    apply Hdone.
    + intros v Hv'. destruct (Hack v Hv') as (a & -> & Hsch & Hag & Hseq). eapply SignedAck; [done | done | eauto|]. intros E. congruence.
    + split; [done|]. unfold stored, contiguous_high. by rewrite Hours.
    + split; [exists h; by rewrite Hours | | by rewrite Hpol]. intros i Hii. rewrite Hsame. by apply Ho.
Qed.

Lemma start_inv : sys_inv (sys_start d).
Proof.
  split; simpl; try done.
  - set (RU := rules new_central []). apply (cold_inv (RU := RU)); [done|]. by split_and!.
  - split; [exists 0%nat; split; [lia | done] | done | apply NoDup_nil_2].
Qed.
Lemma reachable_inv y : deployed d -> sys_reachable d y -> sys_inv y.
Proof.
  intros Hd. induction 1 as [|y ev Hy IH Ha]; [apply start_inv|].
  destruct ev; [by apply agent_step | by apply ask_step | by apply arrives_step | by apply answer_step | by apply publish_step].
Qed.
End Invariant.

(** ** What the centre holds of the agent *)
Section Held.
Context `{Repr} `{FromIso} `{LocalZone} `{IpText} `{IsoFull} `{JsonCanon} `{Ed25519} `{JsonSha} `{TextDigest} `{IsoText}.
Context `{SortedJson} `{StampLaw}.
Variable d : deployment.

Lemma published_rules c log p : central_key (dp_config d) = Some (centre_public d) ->
  NoDup (map fst (c_policies c)) -> Forall (fun kv => fst kv <> 0) (c_policies c) ->
  authorised (RU := rules d c log) (dp_config d) p -> published (c_policies c) p.
Proof.
  intros Hk Hnd Hf. unfold published, find_policy. simpl.
  assert (forall n (kv : Z * dict), py_eq (VInt (fst kv)) (VInt n) = true -> fst kv = n) as Heq by (intros n kv E; by eapply py_eq_int_r).
  intros [->|(key & e & Hkey & [He _] & Ho)].
  - right. split; [done|]. destruct (List.find _ _) as [kv|] eqn:Ef; [|done]. apply find_some in Ef as [Hin Hz]. apply Heq in Hz.
    rewrite List.Forall_forall in Hf. by apply Hf in Hin.
  - left. rewrite Hk in Hkey. injection Hkey as <-. specialize (He eq_refl p Ho). unfold recorded in He. clear - He Hnd Heq.
    induction (c_policies c) as [|[v b] l IH]; [done|]. cbn [List.find fst]. simpl in Hnd. apply NoDup_cons in Hnd as [Hn Hnd].
    destruct (Qeq_bool (inject_Z v) (inject_Z (po_version p))) eqn:E.
    + apply (Heq (po_version p) (v, b)) in E. simpl in E. subst v. destruct He as [[= ->]|He]; [done|]. exfalso.
      apply Hn, list_elem_of_In, in_map_iff. by exists (po_version p, policy_dict p).
    + destruct He as [[= -> ->]|He]; [|by apply IH]. unfold Qeq_bool in E. simpl in E. by rewrite Z.eqb_refl in E.
Qed.

Lemma only_one {A} (l : list A) x : NoDup l -> (forall y, In y l -> y = x) -> l = [] \/ l = [x].
Proof.
  intros Hnd Hx. destruct l as [|y l]; [by left|]. right. assert (y = x) as -> by (apply Hx; by left). destruct l as [|z l]; [done|].
  assert (z = x) as -> by (apply Hx; right; by left). apply NoDup_cons in Hnd as [Hn _]. exfalso. apply Hn. by left.
Qed.
Lemma instances_rows c xs : (forall i, i <> dp_instance d -> c_audit c !! (dp_agent d, i) = None) ->
  stream_of (dp_agent d) (dp_instance d) c = rows xs -> dp_agent d <> "" ->
  audit_records (Some (dp_agent d)) c = map (fun kv => (dp_agent d, dp_instance d, fst kv, snd kv)) (numbered xs).
Proof.
  intros Ho Hs Hne. unfold audit_records. destruct (String.eqb_spec (dp_agent d) ""); [done|]. simpl. rewrite app_nil_r. unfold instances_of.
  set (l := List.filter _ _). destruct (c_audit c !! (dp_agent d, dp_instance d)) as [m|] eqn:Em.
  - assert (l = [] \/ l = [((dp_agent d, dp_instance d), m)]) as Hl.
    { apply only_one; [apply NoDup_ListNoDup, List.NoDup_filter, NoDup_ListNoDup, NoDup_map_to_list|]. intros [[a i] m'] Hin. apply filter_In in Hin as [Hin Ha].
      apply String.eqb_eq in Ha. simpl in Ha. subst a. apply list_elem_of_In, elem_of_map_to_list in Hin.
      destruct (decide (i = dp_instance d)) as [->|Hi]; [congruence|]. rewrite Ho in Hin; done. }
    assert (In ((dp_agent d, dp_instance d), m) l) as Hin.
    { apply filter_In. split; [by apply list_elem_of_In, elem_of_map_to_list | apply String.eqb_refl]. }
    destruct Hl as [->| ->]; [done|]. simpl. rewrite app_nil_r. unfold stream_records. by rewrite Hs, ordered_rows_rows.
  - assert (l = []) as ->.
    { destruct l as [|[[a i] m] l0] eqn:El; [done|]. assert (In ((a, i), m) l) as Hin by (rewrite El; by left). apply filter_In in Hin as [Hin Ha].
      apply String.eqb_eq in Ha. simpl in Ha. subst a. apply list_elem_of_In, elem_of_map_to_list in Hin.
      destruct (decide (i = dp_instance d)) as [->|Hi]; [congruence|]. by rewrite Ho in Hin. }
    simpl. unfold stream_of in Hs. rewrite Em in Hs. simpl in Hs. destruct xs as [|x xs]; [done|].
    pose proof (lookup_map_seqZ_Some_inv (M := gmap Z) 1 (x :: xs) 0 x) as [Hx _]. specialize (Hx eq_refl). rewrite <- Hs, lookup_empty in Hx. done.
Qed.
Lemma stored_entries_rows log :
  stored_entries (map (fun kv => (dp_agent d, dp_instance d, fst kv, snd kv)) (numbered (map row_of log))) = Ok (log_entries (dp_agent d) (dp_instance d) log).
Proof.
  unfold log_entries, numbered. generalize 1. induction log as [|r log IH]; intros k; [done|]. simpl map at 2. rewrite !numbered_cons.
  cbn [map stored_entries fst snd]. unfold stored_entry at 1. cbn [cr_ts row_of cr_payload cr_kind]. rewrite stamp_back. cbn [rbind].
  by rewrite IH.
Qed.
End Held.

Module ReplicationProperties.
Section Properties.
Context `{Repr} `{FromIso} `{LocalZone} `{IpText} `{IsoFull} `{JsonCanon} `{Ed25519} `{JsonSha} `{TextDigest} `{IsoText}.
Context `{SortedJson} `{StampLaw}.

(** What the verification reads: the stored records of the agent, decoded. *)
Definition stored_log d y : res (list audit_entry) := stored_entries (audit_records (Some (dp_agent d)) (y_central y)).

(** C9: Whatever the network does, the sequence number the agent has stored as
    acknowledged counts records that the centre holds, each with the time, kind and
    payload of the agent's log. *)
Theorem acknowledged_is_stored d y v : deployed d -> sys_reachable d y -> kv_get ACKED_KEY (w_store (y_agent y)) = Some v ->
  exists n, v = VInt n /\ forall k, 1 <= k <= n -> exists r,
    y_log y !! Z.to_nat (k - 1) = Some r /\ stream_of (dp_agent d) (dp_instance d) (y_central y) !! k = Some (row_of r).
Proof.
  intros Hd Hy Hv. destruct (reachable_inv d y Hd Hy) as [(l & tr & Hh) [(h & Hlen & Hs) _ _] _ _ _].
  destruct (hc_kv _ _ (proj1 Hh) _ _ Hv) as (_ & Ha & _). destruct (Ha eq_refl) as (n & -> & Hn). exists n. split; [done|]. intros k Hk.
  rewrite (stored_rows d _ _ Hs), length_map, length_take in Hn.
  destruct (lookup_lt_is_Some_2 (y_log y) (Z.to_nat (k - 1))) as [r Hr]; [lia|]. exists r. split; [done|].
  rewrite Hs. apply lookup_map_seqZ_Some. split; [lia|]. change (map row_of) with (fmap (M := list) row_of).
  rewrite list_lookup_fmap, lookup_take, Hr, decide_True by lia. done.
Qed.

(** C10: Whatever the network does and the centre publishes, as long as version 0
    (the version of the agent's built-in policy) is not among the published policies,
    the records the centre holds of the agent decode, and its verification finds
    among them no repeated generation, no action without reachable ingest, no unknown
    policy, no request outside mode enforce and no action over the limits of the
    policies it published. *)
Theorem centre_accepts_agent d y : deployed d -> sys_reachable d y -> 0 ∉ map fst (c_policies (y_central y)) -> exists entries,
  stored_log d y = Ok entries /\ limits (c_policies (y_central y)) entries = Ok [].
Proof.
  intros Hd Hy Hv. destruct (reachable_inv d y Hd Hy) as [(l & tr & [_ Ha _ _ _] & _ & [Hp _ _ _] & _) [(h & Hlen & Hs) Ho Hnd] _ _ _].
  assert (Forall (fun kv => fst kv <> 0) (c_policies (y_central y))) as Hf.
  { apply Forall_forall. intros kv Hin E. apply Hv. rewrite <- E. by apply list_elem_of_fmap_2. }
  destruct Hd as (Hk & _ & Hne). unfold stored_log. rewrite (instances_rows d _ _ Ho Hs Hne), stored_entries_rows. eexists. split; [done|].
  eapply log_passes; [| exact Hp | exact Ha]. intros p. by apply published_rules.
Qed.
End Properties.

(** *** A run: the network repeats a request *)
Section Reach.
Context `{Repr} `{FromIso} `{LocalZone} `{IpText} `{IsoFull} `{JsonCanon} `{Ed25519} `{JsonSha} `{TextDigest} `{IsoText}.
Context `{SortedJson} `{Stamp}.
Variable d : deployment.
Fixpoint all_allowed (evs : list sys_event) (y : system) : Prop :=
  match evs with [] => True | ev :: evs => allowed d y ev /\ all_allowed evs (sys_step d ev y) end.
Lemma run_reachable evs : forall y, sys_reachable d y -> all_allowed evs y -> sys_reachable d (sys_run d evs y).
Proof. induction evs as [|ev evs IH]; intros y Hy Ha; [done|]. destruct Ha as [Ha Hr]. simpl. apply IH; [by constructor | done]. Qed.
(** Steps during which the synchronisation thread writes nothing. *)
Definition silent (e : event) : Prop := match e with Step env | Stop env | Start env => forall n, r_sync (env n) = [] | Synced _ => False | Kill => True end.
Lemma silent_allowed es y : Forall silent es -> all_allowed (map AgentDoes es) y.
Proof.
  intros Hs. revert y. induction Hs as [|e es He _ IH]; intros y; simpl; [done|]. split; [|apply IH].
  destruct e; simpl in *; try done; intros n; by rewrite He.
Qed.
End Reach.

Import Demo.
#[local] Instance canon_net : JsonCanon := fun _ => Ok "t".
#[local] Instance ed_net : Ed25519 := {|
  ed25519_sign key text := (key ++ text)%string;
  ed25519_verify key text signature := String.eqb signature (key ++ text)%string;
  public_key_text key := key |}.
#[local] Instance json_net : SortedJson := fun _ => "".
#[local] Instance stamp_net : Stamp := {|
  stamp_text z := NilEmpty.string_of_int (Z.to_int z);
  stamp_ms s := match NilEmpty.int_of_string s with Some i => Ok (Z.of_int i) | None => Err (EValue "") end |}.
#[local] Instance stamp_net_law : StampLaw.
Proof. intros z. simpl. by rewrite NilEmpty.isi, DecimalZ.of_to. Qed.

Definition net : deployment := mkDeployment config_demo "dell" "db" "agent" "centre" [("dell", "agent")] 500.
Definition envelope_net : pyval := VDict [("policy", VDict (policy_dict policy_demo)); ("signature", VStr "centret")].
(** The policy is published and adopted; a stall leads to a request to the executor;
    the log is sent. *)
Definition adoption : list sys_event :=
  [Publish (VDict (policy_dict policy_demo)); AgentDoes (Start (second "g1" T0 Calm)); AgentDoes (Synced (PolicyAdopted (inject_Z T0) envelope_net []))].
Definition y_adopted : system := sys_run net adoption (sys_start net).
Definition y_acted : system := sys_run net (map AgentDoes (steps "g1" 2 5)) y_adopted.
Definition y_asked : system := sys_run net [Ask "n1" 100] y_acted.
Definition body_net : pyval := default VNone (snd <$> last (y_requests y_asked)).
(** It arrives twice; its answer is accepted, and the agent goes on. *)
Definition arrival_of (body : pyval) : sys_event := Arrives 0 "/v1/audit" (Some "1000") (signed_request "agent" body).
Definition arrival : sys_event := arrival_of body_net.
Definition y_arrived : system := sys_run net [arrival; arrival] y_asked.
Definition ack_net : pyval := default VNone (last (y_signed y_arrived)).
Definition answer_with (body ack : pyval) : sys_event :=
  Answered 0 body (VDict [("acked_seq", VInt 8); ("ack", ack); ("signature", VStr "centret")]).
Definition answer : sys_event := answer_with body_net ack_net.
Definition y_answered : system := sys_run net [answer; AgentDoes (Synced (AuditAcked 8))] y_arrived.
Definition y_net : system := sys_run net (map AgentDoes (steps "g1" 22 4)) y_answered.

Lemma deployed_net : deployed net.
Proof. by split_and!. Qed.
Lemma steps_silent g from n : Forall silent (steps g from n).
Proof. apply Forall_forall. intros e He. unfold steps in He. apply list_elem_of_In, in_map_iff in He as (k & <- & _). by intros m. Qed.
Lemma publication_allowed y : allowed net y (Publish (VDict (policy_dict policy_demo))).
Proof. done. Qed.
Lemma start_allowed g t c y : allowed net y (AgentDoes (Start (second g t c))).
Proof. intros n. constructor. Qed.
Lemma adoption_allowed y t : y_signed y = [VDict (policy_dict policy_demo)] -> allowed net y (AgentDoes (Synced (PolicyAdopted t envelope_net []))).
Proof. intros Hs. unfold allowed, write_allowed, envelope_net, unforged. rewrite Hs. intros _. by left. Qed.
Lemma arrival_allowed y body : map snd (y_requests y) = [body] -> allowed net y (arrival_of body).
Proof.
  intros Hr. unfold allowed, arrival_of. case_match eqn:Ho; [|done]. destruct a as [[[[b sg] a] i] l]. destruct a as [| | | |s| |]; try done. intros _.
  unfold signed_request, envelope_parts in Ho. inv_ok Ho. destruct v4; try discriminate Ho. destruct v3; try discriminate Ho.
  case_match; [discriminate Ho|]. injection Ho as <- _ _ _ _. inv_ok E. injection E as <-. simpl in E0. injection E0 as <-.
  rewrite Hr. unfold unforged. case_match; try done. intros _. by left.
Qed.
Lemma answer_allowed y body ack : y_requests y = [(0, body)] -> In ack (y_signed y) -> allowed net y (answer_with body ack).
Proof. intros Hr Ha. unfold allowed, answer_with. rewrite Hr. split; [by left|]. intros _. exact Ha. Qed.

Definition y_before : system := sys_run net (firstn 2 adoption) (sys_start net).
Lemma before_signed : y_signed y_before = [VDict (policy_dict policy_demo)].
Proof. vm_compute. reflexivity. Qed.
Lemma asked_requests : map snd (y_requests y_asked) = [body_net].
Proof. vm_compute. reflexivity. Qed.
Lemma once_requests : map snd (y_requests (sys_step net arrival y_asked)) = [body_net].
Proof. vm_compute. reflexivity. Qed.
Lemma arrived_requests : y_requests y_arrived = [(0, body_net)].
Proof. vm_compute. reflexivity. Qed.
Lemma arrived_signed : y_signed y_arrived = [VDict (policy_dict policy_demo); ack_net; ack_net].
Proof. vm_compute. reflexivity. Qed.
Lemma answered_earned : y_earned (sys_step net answer y_arrived) = [8].
Proof. vm_compute. reflexivity. Qed.

Lemma before_reachable : sys_reachable net y_before.
Proof. apply reach_step; [apply reach_step; [constructor | apply publication_allowed] | apply start_allowed]. Qed.
Lemma adopted_reachable : sys_reachable net y_adopted.
Proof. apply (reach_step net y_before); [apply before_reachable | apply adoption_allowed, before_signed]. Qed.
Lemma asked_reachable : sys_reachable net y_asked.
Proof. apply (reach_step net y_acted); [|done]. apply run_reachable; [apply adopted_reachable | apply silent_allowed, steps_silent]. Qed.
Lemma arrived_reachable : sys_reachable net y_arrived.
Proof.
  apply (reach_step net (sys_step net arrival y_asked)); [apply reach_step|];
    [apply asked_reachable | apply arrival_allowed, asked_requests | apply arrival_allowed, once_requests].
Qed.
Lemma net_reachable : sys_reachable net y_net.
Proof.
  apply run_reachable; [|apply silent_allowed, steps_silent]. apply (reach_step net (sys_step net answer y_arrived)); [apply reach_step|].
  - apply arrived_reachable.
  - apply answer_allowed; [apply arrived_requests | rewrite arrived_signed; by right; left].
  - unfold allowed, write_allowed. rewrite answered_earned. by left.
Qed.

Lemma acknowledged_is_stored_witness : kv_get ACKED_KEY (w_store (y_agent y_net)) = Some (VInt 8)
  /\ exists n, VInt 8 = VInt n /\ forall k, 1 <= k <= n -> exists r,
    y_log y_net !! Z.to_nat (k - 1) = Some r /\ stream_of "dell" "db" (y_central y_net) !! k = Some (row_of r).
Proof.
  assert (kv_get ACKED_KEY (w_store (y_agent y_net)) = Some (VInt 8)) as Hv by (vm_compute; reflexivity).
  split; [exact Hv|]. exact (acknowledged_is_stored net y_net (VInt 8) deployed_net net_reachable Hv).
Defined.
Lemma centre_accepts_agent_witness : map fst (c_policies (y_central y_net)) = [7] /\ length (w_trace (y_agent y_net)) = 1%nat /\ exists entries,
  stored_log net y_net = Ok entries /\ limits (c_policies (y_central y_net)) entries = Ok [].
Proof.
  assert (map fst (c_policies (y_central y_net)) = [7]) as Hv by (vm_compute; reflexivity).
  split; [exact Hv|]. split; [vm_compute; reflexivity|]. apply (centre_accepts_agent net y_net deployed_net net_reachable).
  rewrite Hv. intros Hin. apply list_elem_of_singleton in Hin. discriminate Hin.
Defined.
End ReplicationProperties.
