(* ===== verification/Evidence.v ===== *)
(** * YouTube watchdog: evidence, verdicts and the restart gate

    Models src/watchers/evidence/{identity,sources,ledger}.py and
    src/watchers/decision/{policy,evaluator,action_gate}.py.  The ledger is the
    object in memory with the content of its file, which every change rewrites; the
    file holds the value its JSON text decodes to.  The order of the keys inside
    [raw] is not tracked. *)
From S2P Require Import Prelude PyVal Contracts FastPolicy SendSample EffectContract EffectModel AgentPolicy AgentObserve.

(** ** Numbers *)
Class FloatOfText := float_of_str : string -> option pyfloat.
Definition py_float `{FloatOfText} (v : pyval) : res pyfloat :=
  match v with
  | VBool b => Ok (Fin (inject_Z (Z.b2z b)))
  | VInt z => if int_fits_float z then Ok (Fin (inject_Z z)) else Err EOverflow
  | VFloat f => Ok f
  | VStr s => match float_of_str s with Some f => Ok f | None => Err (EValue "could not convert string to float") end
  | _ => Err EType
  end.
(** [now - f <= g] *)
Definition age_within (now : Q) (f g : pyfloat) : bool :=
  let age := match f with Fin q => Fin (now - q) | PosInf => NegInf | NegInf => PosInf | NaN => NaN end in
  pyfloat_lt age g || pyfloat_eq age g.

(** ** Targets (identity.py) *)
Record TargetIdentity : Type := mkTarget {
  ti_channel_id : string; ti_video_id : string; ti_broadcast_id : string; ti_bound_stream_id : string;
  ti_target_epoch : Z; ti_restart_epoch : Z }.
Definition no_target : TargetIdentity := mkTarget "" "" "" "" 0 0.

(** [a and b] of two texts: both given. *)
Definition both (a b : string) : bool := negb (String.eqb a "") && negb (String.eqb b "").
Definition matches (t u : TargetIdentity) : bool :=
  if both (ti_channel_id t) (ti_channel_id u) && negb (String.eqb (ti_channel_id t) (ti_channel_id u)) then false
  else if both (ti_video_id t) (ti_video_id u) then String.eqb (ti_video_id t) (ti_video_id u)
  else if both (ti_broadcast_id t) (ti_broadcast_id u) then String.eqb (ti_broadcast_id t) (ti_broadcast_id u)
  else true.
Definition strong_video_match (t u : TargetIdentity) : bool :=
  if both (ti_channel_id t) (ti_channel_id u) && negb (String.eqb (ti_channel_id t) (ti_channel_id u)) then false
  else both (ti_video_id t) (ti_video_id u) && String.eqb (ti_video_id t) (ti_video_id u).
Definition target_dict (t : TargetIdentity) : pyval :=
  VDict [("bound_stream_id", VStr (ti_bound_stream_id t)); ("broadcast_id", VStr (ti_broadcast_id t)); ("channel_id", VStr (ti_channel_id t));
         ("restart_epoch", VInt (ti_restart_epoch t)); ("target_epoch", VInt (ti_target_epoch t)); ("video_id", VStr (ti_video_id t))].
Definition target_from_dict `{Repr} (payload : pyval) : res TargetIdentity :=
  match payload with
  | VDict d =>
      let! te := int0 d "target_epoch" in
      let! re := int0 d "restart_epoch" in
      Ok (mkTarget (str0 d "channel_id") (str0 d "video_id") (str0 d "broadcast_id") (str0 d "bound_stream_id") te re)
  | _ => Ok no_target
  end.

(** ** Evidence (sources.py) *)
Inductive SourceKind : Type := DATA_API | OAUTH | WATCH_PAGE | RESOLVER | INGEST_LOCAL | API_COST.
#[export] Instance SourceKind_eq_dec : EqDecision SourceKind.
Proof. solve_decision. Defined.
Definition source_value (s : SourceKind) : string :=
  match s with
  | DATA_API => "data_api" | OAUTH => "oauth" | WATCH_PAGE => "watch_page" | RESOLVER => "resolver"
  | INGEST_LOCAL => "ingest_local" | API_COST => "api_cost"
  end.
Definition SOURCES : list SourceKind := [API_COST; DATA_API; INGEST_LOCAL; OAUTH; RESOLVER; WATCH_PAGE].
(** [SourceKind(value)] *)
Definition source_of (value : string) : res SourceKind :=
  match List.find (fun s => String.eqb (source_value s) value) SOURCES with Some s => Ok s | None => Err (EValue "not a valid SourceKind") end.

Record EvidenceRecord : Type := mkEvidence {
  ev_source : SourceKind; ev_verdict : string; ev_target : TargetIdentity; ev_observed_at : pyfloat;
  ev_target_epoch : Z; ev_restart_epoch : Z; ev_ttl_sec : pyfloat; ev_raw : dict }.
Definition is_fresh (now_ts : Q) (target_epoch restart_epoch : Z) (ev : EvidenceRecord) : bool :=
  (target_epoch <=? ev_target_epoch ev) && (restart_epoch <=? ev_restart_epoch ev) && age_within now_ts (ev_observed_at ev) (ev_ttl_sec ev).
Definition evidence_dict (ev : EvidenceRecord) : pyval :=
  VDict [("observed_at", VFloat (ev_observed_at ev)); ("raw", VDict (ev_raw ev)); ("restart_epoch", VInt (ev_restart_epoch ev));
         ("source", VStr (source_value (ev_source ev))); ("target", target_dict (ev_target ev)); ("target_epoch", VInt (ev_target_epoch ev));
         ("ttl_sec", VFloat (ev_ttl_sec ev)); ("verdict", VStr (ev_verdict ev))].
Definition float0 `{FloatOfText} (d : dict) (k : string) : res pyfloat := py_float (py_or (dget d k (VInt 0)) (VInt 0)).
Definition evidence_from_dict `{Repr} `{FloatOfText} (d : dict) : res EvidenceRecord :=
  let! source := source_of (py_str (dget d "source" (VStr "unknown"))) in
  let! target := target_from_dict (dget d "target" VNone) in
  let! observed := float0 d "observed_at" in
  let! te := int0 d "target_epoch" in
  let! re := int0 d "restart_epoch" in
  let! ttl := float0 d "ttl_sec" in
  Ok (mkEvidence source (py_str (py_or (dget d "verdict" (VStr "unknown")) (VStr "unknown"))) target observed te re ttl
        (as_dict (dget d "raw" (VDict [])))).

(** ** The ledger (ledger.py) *)
(** A dict keyed by the sources, in insertion order. *)
Definition by_source (A : Type) : Type := list (SourceKind * A).
Fixpoint src_get {A} (s : SourceKind) (d : by_source A) : option A :=
  match d with [] => None | (k, v) :: d' => if decide (k = s) then Some v else src_get s d' end.
Fixpoint src_set {A} (s : SourceKind) (v : A) (d : by_source A) : by_source A :=
  match d with [] => [(s, v)] | (k, w) :: d' => if decide (k = s) then (k, v) :: d' else (k, w) :: src_set s v d' end.

Record memory : Type := mkMemory {
  m_latest : by_source EvidenceRecord; m_recent : list EvidenceRecord; m_target_epoch : Z; m_restart_epoch : Z;
  m_last_restart_at : pyfloat; m_canonical : TargetIdentity }.
Definition empty_memory : memory := mkMemory [] [] 0 0 (Fin 0) no_target.
Record EvidenceLedger : Type := mkLedger { l_memory : memory; l_file : option pyval }.

Definition RECENT_LIMIT : nat := 64.
(** [l[-n:]] *)
Definition last_items {A} (n : nat) (l : list A) : list A := skipn (length l - n) l.

(** [sort_keys=True]: the sources in the order of their values. *)
Definition latest_dict (d : by_source EvidenceRecord) : dict :=
  omap (fun s => ev ← src_get s d; Some (source_value s, evidence_dict ev)) SOURCES.
Definition ledger_payload (m : memory) : pyval :=
  VDict [("canonical_target", target_dict (m_canonical m)); ("current_restart_epoch", VInt (m_restart_epoch m));
         ("current_target_epoch", VInt (m_target_epoch m)); ("last_restart_at", VFloat (m_last_restart_at m));
         ("latest_by_source", VDict (latest_dict (m_latest m)));
         ("recent_records", VList (map evidence_dict (last_items RECENT_LIMIT (m_recent m))))].
Definition persist (m : memory) : EvidenceLedger := mkLedger m (Some (ledger_payload m)).

Section Load.
Context `{Repr} `{FloatOfText}.
Fixpoint load_latest (items : dict) (latest : by_source EvidenceRecord) : by_source EvidenceRecord :=
  match items with
  | [] => latest
  | (key, VDict d) :: items' =>
      load_latest items' (match (let! ev := evidence_from_dict d in let! s := source_of key in Ok (s, ev)) with
                          | Ok (s, ev) => src_set s ev latest
                          | Err _ => latest
                          end)
  | _ :: items' => load_latest items' latest
  end.
Definition load_recent (items : list pyval) : list EvidenceRecord :=
  omap (fun v => match v with VDict d => match evidence_from_dict d with Ok ev => Some ev | Err _ => None end | _ => None end) items.

(** [_load]: no content, or content that is no object, is an empty ledger. *)
Definition load_memory (content : option pyval) : res memory :=
  match content with
  | Some (VDict d) =>
      let! te := int0 d "current_target_epoch" in
      let! re := int0 d "current_restart_epoch" in
      let! last := float0 d "last_restart_at" in
      let! canonical := target_from_dict (dget d "canonical_target" VNone) in
      let! latest := (match py_or (dget d "latest_by_source" (VDict [])) (VDict []) with VDict items => Ok (load_latest items []) | _ => Err EAttr end) in
      let! recent := iter (py_or (dget d "recent_records" (VList [])) (VList [])) in
      Ok (mkMemory latest (last_items RECENT_LIMIT (load_recent recent)) te re last canonical)
  | _ => Ok empty_memory
  end.
Definition open_ledger (content : option pyval) : res EvidenceLedger :=
  let! m := load_memory content in Ok (mkLedger m content).
End Load.

Definition retarget (t : TargetIdentity) (te : Z) (m : memory) : memory :=
  mkMemory (m_latest m) (m_recent m) te (m_restart_epoch m) (m_last_restart_at m) t.
Definition ensure_target (t : TargetIdentity) (l : EvidenceLedger) : EvidenceLedger :=
  let m := l_memory l in
  let c := m_canonical m in
  if negb (String.eqb (ti_video_id t) "") && negb (String.eqb (ti_video_id t) (ti_video_id c)) then
    let te := m_target_epoch m + 1 in
    persist (retarget (mkTarget (if String.eqb (ti_channel_id t) "" then ti_channel_id c else ti_channel_id t) (ti_video_id t) (ti_broadcast_id t)
                         (ti_bound_stream_id t) te (m_restart_epoch m)) te m)
  else if negb (String.eqb (ti_channel_id t) "") && negb (String.eqb (ti_channel_id t) (ti_channel_id c)) then
    persist (retarget (mkTarget (ti_channel_id t) (ti_video_id c) (ti_broadcast_id c) (ti_bound_stream_id c) (m_target_epoch m) (m_restart_epoch m))
               (m_target_epoch m) m)
  else l.
Definition record_evidence (ev : EvidenceRecord) (l : EvidenceLedger) : EvidenceLedger :=
  let m := l_memory l in
  if (ev_target_epoch ev <? m_target_epoch m) || (ev_restart_epoch ev <? m_restart_epoch m) then l else
  persist (mkMemory (src_set (ev_source ev) ev (m_latest m)) (last_items RECENT_LIMIT (m_recent m ++ [ev])) (m_target_epoch m) (m_restart_epoch m)
             (m_last_restart_at m) (m_canonical m)).
Definition bump_restart_epoch (now_ts : Q) (l : EvidenceLedger) : EvidenceLedger :=
  let m := l_memory l in
  let c := m_canonical m in
  persist (mkMemory (m_latest m) (m_recent m) (m_target_epoch m) (m_restart_epoch m + 1) (Fin now_ts)
             (mkTarget (ti_channel_id c) (ti_video_id c) (ti_broadcast_id c) (ti_bound_stream_id c) (m_target_epoch m) (m_restart_epoch m + 1))).

(** [snapshot]: the ledger at an instant. *)
Record LedgerSnapshot : Type := mkSnapshot { sn_memory : memory; sn_taken_at : Q }.
Definition snapshot (taken_at : Q) (l : EvidenceLedger) : LedgerSnapshot := mkSnapshot (l_memory l) taken_at.
Definition fresh_now (snap : LedgerSnapshot) (ev : EvidenceRecord) : bool :=
  is_fresh (sn_taken_at snap) (m_target_epoch (sn_memory snap)) (m_restart_epoch (sn_memory snap)) ev.

(** ** The verdict (evaluator.py) *)
Record Decision : Type := mkDecision { d_state : string; d_reason : string; d_sources : list SourceKind; d_target : option TargetIdentity }.

Definition _fresh_records (snap : LedgerSnapshot) : by_source EvidenceRecord :=
  List.filter (fun kv => fresh_now snap (snd kv)) (m_latest (sn_memory snap)).
Definition named_target (t : TargetIdentity) : bool :=
  negb (String.eqb (ti_video_id t) "") || negb (String.eqb (ti_broadcast_id t) "") || negb (String.eqb (ti_channel_id t) "").
Fixpoint pick_from (sources : list SourceKind) (records : by_source EvidenceRecord) (fallback : option TargetIdentity) : option TargetIdentity :=
  match sources with
  | [] => fallback
  | s :: sources' =>
      match src_get s records with
      | Some ev => if named_target (ev_target ev) then Some (ev_target ev) else pick_from sources' records fallback
      | None => pick_from sources' records fallback
      end
  end.
Definition _pick_canonical_target (records : by_source EvidenceRecord) (fallback : TargetIdentity) : option TargetIdentity :=
  pick_from [RESOLVER; DATA_API; OAUTH; WATCH_PAGE; INGEST_LOCAL] records (if named_target fallback then Some fallback else None).

Definition verdict_in (verdicts : list string) (ev : option EvidenceRecord) : bool :=
  match ev with Some ev => bool_decide (ev_verdict ev ∈ verdicts) | None => false end.
Definition HARD_NEGATIVE : list string := ["not_live"; "unplayable"; "login_required"].
Definition sources_with (verdicts : list string) (records : by_source EvidenceRecord) : list SourceKind :=
  map fst (List.filter (fun kv => bool_decide (ev_verdict (snd kv) ∈ verdicts)) records).
Definition is_remote (s : SourceKind) : bool := bool_decide (s ∈ [DATA_API; OAUTH; WATCH_PAGE]).

Definition evaluate (snap : LedgerSnapshot) : Decision :=
  let fresh := _fresh_records snap in
  let canonical := _pick_canonical_target fresh (m_canonical (sn_memory snap)) in
  let local := src_get INGEST_LOCAL fresh in
  let remote := List.filter (fun kv => is_remote (fst kv)) fresh in
  let agrees (kv : SourceKind * EvidenceRecord) := match canonical with Some c => matches (ev_target (snd kv)) c | None => true end in
  let aligned := List.filter agrees remote in
  let misaligned := List.filter (fun kv => negb (agrees kv)) remote in
  if verdict_in ["inactive"] local then mkDecision "local_unhealthy" "local ingest inactive" [INGEST_LOCAL] canonical
  else match remote with
  | [] =>
      if verdict_in ["live"] local then mkDecision "local_only" "no fresh remote evidence; local ingest alive" [INGEST_LOCAL] canonical
      else mkDecision "telemetry_degraded" "no fresh remote evidence" [] canonical
  | _ :: _ =>
      match misaligned with
      | _ :: _ =>
          let names := join_with "," (sorted_set (map (fun kv => source_value (fst kv)) misaligned)) in
          mkDecision "inconsistent_remote" ("identity mismatch from " ++ names) (map fst misaligned) canonical
      | [] =>
          let api := src_get DATA_API aligned in
          let oauth := src_get OAUTH aligned in
          let watch := src_get WATCH_PAGE aligned in
          let api_ended := verdict_in ["ended"] api in
          let oauth_complete := verdict_in ["ended"] oauth in
          let public_live := verdict_in ["live"] watch in
          let authoritative_live := verdict_in ["live"] api || verdict_in ["live"] oauth in
          let watch_hard_negative := verdict_in HARD_NEGATIVE watch in
          if public_live && (api_ended || oauth_complete) then
            mkDecision "inconsistent_remote" "public live evidence contradicts authoritative ended signal" (sources_with ["live"; "ended"] aligned) canonical
          else if api_ended && oauth_complete
                  && match api, oauth with Some a, Some o => strong_video_match (ev_target a) (ev_target o) | _, _ => false end then
            mkDecision "remote_ended_confirmed" "data_api=ended AND oauth=complete (fresh, identity matched)" [DATA_API; OAUTH] canonical
          else if (api_ended || oauth_complete) && watch_hard_negative then
            mkDecision "remote_ended_suspected" "one authoritative ended signal plus watch hard negative" (sources_with ("ended" :: HARD_NEGATIVE) aligned) canonical
          else if watch_hard_negative && negb (api_ended || oauth_complete) then
            mkDecision "public_degraded" "watch page hard negative without authoritative ended signal" [WATCH_PAGE] canonical
          else if authoritative_live || public_live then mkDecision "available" "fresh authoritative live evidence" (map fst aligned) canonical
          else mkDecision "remote_unconfirmed" "no confirmed termination evidence; public live not verified" (map fst aligned) canonical
      end
  end.

(** ** The gate (policy.py, action_gate.py) *)
Record evidence_policy : Type := mkPolicy { pl_ttl : by_source Q; pl_reconfirm : Q; pl_min_interval : Q }.
Definition policy_of_values (data_api oauth watch resolver ingest cost reconfirm interval : Z) : evidence_policy :=
  mkPolicy [(DATA_API, inject_Z data_api); (OAUTH, inject_Z oauth); (WATCH_PAGE, inject_Z watch); (RESOLVER, inject_Z resolver);
            (INGEST_LOCAL, inject_Z ingest); (API_COST, inject_Z cost)] (inject_Z reconfirm) (inject_Z interval).

Record GateContext : Type := mkGate {
  g_fail_count : Z; g_max_fails : Z; g_enforce_restart : bool; g_stream_uptime_sec : Z; g_min_restart_uptime_sec : Z;
  g_budget_hourly : Z; g_budget_daily : Z; g_history : list Z; g_last_restart_ts : Z; g_cooldown_sec : Z; g_reconfirm_sec : Z;
  g_override_sec : Z; g_active_first_ts : Z; g_api_cost_degraded : bool }.
Record ActionDecision : Type := mkAction { ad_action : string; ad_reason : string; ad_blocked_by : list string; ad_cooldown_left : Z }.

Definition _recent_budget_release_left (history : list Z) (now_ts window_sec budget used reconfirm_sec : Z) : Z :=
  if (budget <=? 0) || negb (used =? budget - 1) then 0 else
  fold_left (fun left ts => let released_age := now_ts - ts - window_sec in
               if (0 <? released_age) && (released_age <=? reconfirm_sec) then Z.max left (reconfirm_sec - released_age) else left) history 0.
Definition within (now_ts window : Z) (history : list Z) : Z := Z.of_nat (length (List.filter (fun ts => now_ts - ts <=? window) history)).

Definition _budget_emergency_override_active (now_ts : Z) (ctx : GateContext) : bool :=
  let override_sec := Z.max 0 (g_override_sec ctx) in
  if (override_sec <=? 0) || (g_active_first_ts ctx <=? 0) then false else override_sec <=? now_ts - g_active_first_ts ctx.

(** [int(ev.observed_at)]: an infinite or undefined time raises. *)
Definition observed_sec (ev : EvidenceRecord) : res Z := py_int (VFloat (ev_observed_at ev)).
Definition confirmation_age (p : evidence_policy) (ctx : GateContext) (source : SourceKind) : Z :=
  let max_age := Z.max 30 (Z.min 120 (if g_override_sec ctx =? 0 then 90 else g_override_sec ctx)) in
  let ttl := match src_get source (pl_ttl p) with Some q => if Qeq_bool q 0 then max_age else Qtrunc q | None => max_age end in
  Z.min max_age (Z.max 1 ttl).
Fixpoint confirmed (sources : list SourceKind) (snap : LedgerSnapshot) (p : evidence_policy) (ctx : GateContext) (now_ts : Z) : res bool :=
  match sources with
  | [] => Ok true
  | source :: sources' =>
      match src_get source (m_latest (sn_memory snap)) with
      | None => Ok false
      | Some ev =>
          let! observed := observed_sec ev in
          if confirmation_age p ctx source <? now_ts - observed then Ok false
          else if negb (fresh_now snap ev) then Ok false else confirmed sources' snap p ctx now_ts
      end
  end.
Definition _has_fresh_override_confirmation (d : Decision) (snap : LedgerSnapshot) (p : evidence_policy) (ctx : GateContext) (now_ts : Z) : res bool :=
  if String.eqb (d_state d) "remote_ended_confirmed" then confirmed [DATA_API; OAUTH] snap p ctx now_ts
  else if String.eqb (d_state d) "local_unhealthy" then confirmed [INGEST_LOCAL] snap p ctx now_ts
  else Ok false.

Definition _budget_block (now_ts : Z) (ctx : GateContext) (p : evidence_policy) (d : Decision) (snap : LedgerSnapshot) : res (string * Z) :=
  let history := g_history ctx in
  let hourly := within now_ts 3600 history in
  let daily := within now_ts 86400 history in
  let! override := (if _budget_emergency_override_active now_ts ctx then _has_fresh_override_confirmation d snap p ctx now_ts else Ok false) in
  if g_budget_hourly ctx <=? hourly then
    Ok (if override then ("", 0) else (("budget_exhausted_hourly(" ++ str_Z hourly ++ "/" ++ str_Z (g_budget_hourly ctx) ++ ")")%string, 0))
  else if g_budget_daily ctx <=? daily then
    Ok (if override then ("", 0) else (("budget_exhausted_daily(" ++ str_Z daily ++ "/" ++ str_Z (g_budget_daily ctx) ++ ")")%string, 0))
  else
  let reconfirm := Z.max 0 (if g_reconfirm_sec ctx =? 0 then Qtrunc (pl_reconfirm p) else g_reconfirm_sec ctx) in
  if reconfirm <=? 0 then Ok ("", 0) else
  let hourly_left := _recent_budget_release_left history now_ts 3600 (g_budget_hourly ctx) hourly reconfirm in
  if 0 <? hourly_left then Ok ("budget_just_released_need_reconfirm_hourly", hourly_left) else
  let daily_left := _recent_budget_release_left history now_ts 86400 (g_budget_daily ctx) daily reconfirm in
  if 0 <? daily_left then Ok ("budget_just_released_need_reconfirm_daily", daily_left) else Ok ("", 0).

Definition RESTARTABLE : list string := ["remote_ended_confirmed"; "local_unhealthy"].
Definition cooldown_left (snap : LedgerSnapshot) (ctx : GateContext) : Z :=
  Z.max 0 (g_last_restart_ts ctx + g_cooldown_sec ctx - Qtrunc (sn_taken_at snap)).
(** What keeps a restart back, in the order of the checks. *)
Definition restart_blockers (d : Decision) (snap : LedgerSnapshot) (ctx : GateContext) (budget_block : string) : list string :=
  (if g_fail_count ctx <? g_max_fails ctx then ["below_restart_threshold"] else []) ++
  (if g_enforce_restart ctx then [] else ["restart_enforcement_disabled"]) ++
  (if (0 <? g_stream_uptime_sec ctx) && (g_stream_uptime_sec ctx <? g_min_restart_uptime_sec ctx) then ["minimum_uptime_not_met"] else []) ++
  (if (0 <? g_last_restart_ts ctx) && (0 <? cooldown_left snap ctx) then ["cooldown"] else []) ++
  (if String.eqb budget_block "" then [] else [budget_block]) ++
  (if String.eqb (d_state d) "remote_ended_confirmed" then
     (match src_get INGEST_LOCAL (m_latest (sn_memory snap)) with
      | Some ev => if String.eqb (ev_verdict ev) "live" && fresh_now snap ev then ["local_ingest_alive_contradiction"] else []
      | None => []
      end) ++
     (if g_api_cost_degraded ctx then ["api_cost_degraded"] else [])
   else []).

Definition decide_action (veto : bool) (d : Decision) (snap : LedgerSnapshot) (p : evidence_policy) (ctx : GateContext) : res ActionDecision :=
  let state := d_state d in
  let none reason blocked := Ok (mkAction "none" reason blocked 0) in
  if veto && bool_decide (state ∈ ["inconsistent_remote"; "remote_ended_confirmed"; "local_unhealthy"]) then none "route causal guard" ["route_causal_guard"]
  else if String.eqb state "available" then none "available" []
  else if String.eqb state "remote_unconfirmed" then none "remote state unconfirmed; refuse destructive action" ["remote_unconfirmed"]
  else if String.eqb state "inconsistent_remote" then Ok (mkAction "resync_resolver" (d_reason d) [] 0)
  else if bool_decide (state ∈ ["telemetry_degraded"; "local_only"]) then none "blind or local-only; refuse destructive action" ["blind_safety"]
  else if bool_decide (state ∈ ["public_degraded"; "remote_ended_suspected"]) then Ok (mkAction "alert" (d_reason d) [] 0)
  else if negb (bool_decide (state ∈ RESTARTABLE)) then none ("unsupported decision state: " ++ state)%string []
  else
  let! budget := _budget_block (Qtrunc (sn_taken_at snap)) ctx p d snap in
  let '(budget_block, budget_left) := budget in
  match restart_blockers d snap ctx budget_block with
  | [] => Ok (mkAction "restart_stream" (d_reason d) [] 0)
  | blocked =>
      let left := cooldown_left snap ctx in
      Ok (mkAction "none" ("restart blocked for " ++ state)%string blocked (if String.eqb budget_block "" then left else Z.max left budget_left))
  end.
