(* ===== verification/EvidenceProofs.v ===== *)
(** * YouTube watchdog: what a restart rests on

    Theorems about the evidence, the verdict and the gate (Evidence.v): a verdict
    that allows a restart is reconstructed from the records it was drawn from; what
    was recorded before a restart or a change of target is never used again; a
    ledger reopened from its file answers as the one that wrote it. *)
From S2P Require Import Prelude PyVal Contracts FastPolicy SendSample EffectContract EffectModel AgentPolicy AgentObserve Evidence.

Module EvidenceProperties.

(** ** Dicts keyed by sources *)
Section BySource.
Context {A : Type}.
Implicit Types (d : by_source A).
Definition distinct d : Prop := NoDup (map fst d).

Lemma src_get_In s v d : src_get s d = Some v -> In (s, v) d.
Proof. induction d as [|[k w] d IH]; simpl; [done|]. case_decide; [intros [= <-]; left; by subst | auto]. Qed.
Lemma In_src_get s v d : distinct d -> In (s, v) d -> src_get s d = Some v.
Proof.
  unfold distinct. induction d as [|[k w] d IH]; simpl; [done|]. intros Hd Hin. apply NoDup_cons in Hd as [Hk Hd].
  case_decide as Ek; [|destruct Hin as [E|]; [by injection E as -> -> | auto]].
  destruct Hin as [E|Hin]; [by injection E as <- <-|]. subst. destruct Hk. apply list_elem_of_In, in_map_iff. by exists (s, v).
Qed.
Lemma src_get_set s s' v d : src_get s (src_set s' v d) = if decide (s' = s) then Some v else src_get s d.
Proof.
  induction d as [|[k w] d IH]; simpl; [done|]. destruct (decide (k = s')) as [->|]; simpl; [|rewrite IH]; repeat case_decide; congruence.
Qed.
Lemma src_set_keys s v d k : In k (map fst (src_set s v d)) <-> k = s \/ In k (map fst d).
Proof. induction d as [|[k' w] d IH]; simpl; [naive_solver|]. case_decide; simpl; subst; [naive_solver | rewrite IH; naive_solver]. Qed.
Lemma distinct_set s v d : distinct d -> distinct (src_set s v d).
Proof.
  unfold distinct. induction d as [|[k w] d IH]; simpl; [intros _; apply NoDup_singleton|]. intros Hd. case_decide as Ek; [by subst|].
  apply NoDup_cons in Hd as [Hk Hd]. simpl. apply NoDup_cons. split; [|auto]. intros Hin. apply list_elem_of_In, src_set_keys in Hin as [Hs|Hin]; [done|].
  by apply Hk, list_elem_of_In.
Qed.
Lemma src_set_In k w s v d : In (k, w) (src_set s v d) -> (k = s /\ w = v) \/ In (k, w) d.
Proof.
  induction d as [|[k' w'] d IH]; simpl; [intros [[= -> ->]|[]]; by left|]. case_decide; subst; simpl; [|naive_solver].
  intros [[= -> ->]|Hin]; auto.
Qed.
Lemma filter_distinct (f : SourceKind * A -> bool) d : distinct d -> distinct (List.filter f d).
Proof.
  unfold distinct. induction d as [|[k w] d IH]; simpl; [done|]. intros Hd. apply NoDup_cons in Hd as [Hk Hd]. case_match; simpl; [|auto].
  apply NoDup_cons. split; [|auto]. intros Hin. apply Hk. apply list_elem_of_In, in_map_iff in Hin as ([k' w'] & <- & Hin).
  apply List.filter_In in Hin as [Hin _]. apply list_elem_of_In, in_map_iff. by exists (k', w').
Qed.
Lemma src_get_filter (f : SourceKind * A -> bool) s d v : src_get s (List.filter f d) = Some v -> distinct d -> src_get s d = Some v /\ f (s, v) = true.
Proof.
  intros Hg Hd. apply src_get_In, List.filter_In in Hg as [Hin Hf]. split; [by apply In_src_get | done].
Qed.
Lemma src_get_filter_true (f : SourceKind * A -> bool) s d v : distinct d -> src_get s d = Some v -> f (s, v) = true -> src_get s (List.filter f d) = Some v.
Proof. intros Hd Hg Hf. apply In_src_get; [by apply filter_distinct|]. apply List.filter_In. split; [by apply src_get_In | done]. Qed.
End BySource.

(** ** The verdict *)
Definition latest_of (snap : LedgerSnapshot) : by_source EvidenceRecord := m_latest (sn_memory snap).
(** The source's latest record is fresh and says so. *)
Definition says (snap : LedgerSnapshot) (s : SourceKind) (verdict : string) (ev : EvidenceRecord) : Prop :=
  src_get s (latest_of snap) = Some ev /\ fresh_now snap ev = true /\ ev_verdict ev = verdict.
(** No fresh record of the source says so. *)
Definition denies (snap : LedgerSnapshot) (s : SourceKind) (verdict : string) : Prop := forall ev, ~ says snap s verdict ev.

Lemma fresh_in_time snap ev : fresh_now snap ev = true -> age_within (sn_taken_at snap) (ev_observed_at ev) (ev_ttl_sec ev) = true.
Proof. unfold fresh_now, is_fresh. intros Hf. by apply andb_true_iff in Hf as [_ Hf]. Qed.
Lemma verdict_in_one v ev : verdict_in [v] ev = true -> exists e, ev = Some e /\ ev_verdict e = v.
Proof. destruct ev as [e|]; simpl; [|done]. intros Hv. bools. exists e. split; [done|]. set_solver. Qed.
Lemma verdict_in_fresh snap s v : distinct (latest_of snap) -> verdict_in [v] (src_get s (_fresh_records snap)) = true -> exists ev, says snap s v ev.
Proof.
  intros Hd Hv. apply verdict_in_one in Hv as (e & He & Hv). apply src_get_filter in He as [He Hf]; [|done]. by exists e.
Qed.
Lemma not_verdict_in snap s v : distinct (latest_of snap) -> verdict_in [v] (src_get s (_fresh_records snap)) = false -> denies snap s v.
Proof.
  intros Hd Hv ev (Hg & Hf & He). unfold _fresh_records in Hv. rewrite (src_get_filter_true _ _ _ ev) in Hv by done.
  simpl in Hv. bools. set_solver.
Qed.

(** The two states that allow a restart. *)
Definition ended_evidence (snap : LedgerSnapshot) : Prop :=
  (exists api oauth, says snap DATA_API "ended" api /\ says snap OAUTH "ended" oauth
     /\ strong_video_match (ev_target api) (ev_target oauth) = true) /\
  denies snap WATCH_PAGE "live" /\ denies snap INGEST_LOCAL "inactive".

Ltac verdict_case E := match goal with |- d_state (if ?b then _ else _) = _ -> _ => destruct b eqn:E end.

Lemma local_unhealthy_evidence snap : distinct (latest_of snap) -> d_state (evaluate snap) = "local_unhealthy" -> exists ev, says snap INGEST_LOCAL "inactive" ev.
Proof.
  intros Hd. unfold evaluate. cbv zeta. case_match eqn:El; [intros _; by apply verdict_in_fresh|].
  repeat (case_match; simpl; try done).
Qed.

Lemma remote_ended_evidence snap : distinct (latest_of snap) -> d_state (evaluate snap) = "remote_ended_confirmed" -> ended_evidence snap.
Proof.
  intros Hd. unfold evaluate. cbv zeta. case_match eqn:El; [done|].
  set (remote := List.filter _ (_fresh_records snap)). set (agrees := fun kv : SourceKind * EvidenceRecord => match _ with Some c => _ | None => _ end).
  case_match eqn:Er; [by case_match|]. rewrite <-Er. clear Er. case_match eqn:Em; [|done].
  assert (forall s ev, is_remote s = true -> src_get s (_fresh_records snap) = Some ev -> src_get s (List.filter agrees remote) = Some ev) as Hall.
  { intros s ev Hs Hg. assert (distinct (_fresh_records snap)) as Hdf by (by apply filter_distinct). assert (distinct remote) as Hdr by (by apply filter_distinct).
    apply src_get_filter_true; [done | by apply src_get_filter_true|]. destruct (agrees (s, ev)) eqn:Ea; [done|]. exfalso.
    assert (In (s, ev) (List.filter (fun kv => negb (agrees kv)) remote)) as Hin.
    { apply List.filter_In. split; [|by rewrite Ea]. apply List.filter_In. split; [by apply src_get_In | done]. }
    assert (In (s, ev) []) by (rewrite <-Em; exact Hin). done. }
  assert (forall s ev, src_get s (List.filter agrees remote) = Some ev -> src_get s (_fresh_records snap) = Some ev) as Hback.
  { intros s ev Hg. apply src_get_filter in Hg as [Hg _]; [|by apply filter_distinct, filter_distinct]. apply src_get_filter in Hg as [Hg _]; [done | by apply filter_distinct]. }
  verdict_case Epub; [done|]. verdict_case Eend; [|repeat (let E := fresh in verdict_case E; [done|]); done]. intros _.
  apply andb_true_iff in Eend as [Eend Hstrong]. apply andb_true_iff in Eend as [Ha Ho].
  apply verdict_in_one in Ha as (a & Ea & Ha). apply verdict_in_one in Ho as (o & Eo & Ho). rewrite Ea, Eo in Hstrong.
  assert (forall s ev v, src_get s (_fresh_records snap) = Some ev -> ev_verdict ev = v -> says snap s v ev) as Hsays.
  { intros s ev v Hg Hv. apply src_get_filter in Hg as [Hg Hf]; [|done]. done. }
  split; [|split; [|by apply not_verdict_in]]; [exists a, o; split_and!; [apply Hsays; [by apply Hback | done] | apply Hsays; [by apply Hback | done] | done]|].
  intros ev (Hg & Hf & Hv). rewrite (Hall WATCH_PAGE ev) in Epub; [| done | by apply src_get_filter_true].
  rewrite Ea in Epub. simpl in Epub. rewrite Hv, Ha in Epub. discriminate Epub.
Qed.

(** ** The gate *)
(** What [decide_action] has checked when it lets a restart through. *)
Record gate_open (ctx : GateContext) (snap : LedgerSnapshot) : Prop := {
  go_fails : g_max_fails ctx <= g_fail_count ctx; go_enforced : g_enforce_restart ctx = true;
  go_uptime : 0 < g_stream_uptime_sec ctx -> g_min_restart_uptime_sec ctx <= g_stream_uptime_sec ctx;
  go_cooldown : 0 < g_last_restart_ts ctx -> g_last_restart_ts ctx + g_cooldown_sec ctx <= Qtrunc (sn_taken_at snap) }.
(** The active state has lasted long enough for the budget to be overridden. *)
Definition overridden (ctx : GateContext) (snap : LedgerSnapshot) : Prop :=
  0 < g_override_sec ctx /\ 0 < g_active_first_ts ctx /\ g_override_sec ctx <= Qtrunc (sn_taken_at snap) - g_active_first_ts ctx.
Definition within_budget (ctx : GateContext) (snap : LedgerSnapshot) : Prop :=
  let now := Qtrunc (sn_taken_at snap) in
  within now 3600 (g_history ctx) < g_budget_hourly ctx /\ within now 86400 (g_history ctx) < g_budget_daily ctx.

Lemma str_app_nonempty s t : (s ++ t)%string = "" -> s = "".
Proof. by destruct s. Qed.
Lemma budget_block_free now ctx p d snap left : _budget_block now ctx p d snap = Ok ("", left) ->
  (within now 3600 (g_history ctx) < g_budget_hourly ctx /\ within now 86400 (g_history ctx) < g_budget_daily ctx)
  \/ _budget_emergency_override_active now ctx = true.
Proof.
  unfold _budget_block. intros Hb. cbv zeta in Hb. inv_ok Hb. rename v into override. destruct override.
  { right. destruct (_budget_emergency_override_active now ctx); [done|]. discriminate E. }
  left. case_in Hb; [discriminate Hb|]. case_in Hb; [discriminate Hb|]. bools. lia.
Qed.
Lemma override_active now ctx : _budget_emergency_override_active now ctx = true ->
  0 < g_override_sec ctx /\ 0 < g_active_first_ts ctx /\ g_override_sec ctx <= now - g_active_first_ts ctx.
Proof. unfold _budget_emergency_override_active. cbv zeta. intros Ho. case_in Ho; [discriminate Ho|]. bools. lia. Qed.

Lemma one_or_none {A} (b : bool) (x : A) : (if b then [x] else []) = [] -> b = false.
Proof. by destruct b. Qed.
Lemma no_blockers d snap ctx block : restart_blockers d snap ctx block = [] ->
  gate_open ctx snap /\ block = "" /\ (d_state d = "remote_ended_confirmed" -> denies snap INGEST_LOCAL "live" /\ g_api_cost_degraded ctx = false).
Proof.
  unfold restart_blockers, cooldown_left. intros Hn.
  apply app_eq_nil in Hn as [F Hn]. apply app_eq_nil in Hn as [En Hn]. apply app_eq_nil in Hn as [U Hn]. apply app_eq_nil in Hn as [C Hn].
  apply app_eq_nil in Hn as [B R]. apply one_or_none in F, U, C. bools. split_and!.
  - split; [lia | by destruct (g_enforce_restart ctx) | intros Hu | intros Hl].
    + destruct U; lia.
    + destruct C; lia.
  - destruct (String.eqb_spec block ""); [done|]. discriminate B.
  - intros Hs. rewrite Hs in R. simpl in R. apply app_eq_nil in R as [L A]. apply one_or_none in A. split; [|done].
    intros ev (Hg & Hf & Hv). unfold latest_of in Hg. rewrite Hg, Hv, Hf in L. discriminate L.
Qed.

Lemma restart_gate veto d snap p ctx a : decide_action veto d snap p ctx = Ok a -> ad_action a = "restart_stream" ->
  veto = false /\ d_state d ∈ RESTARTABLE /\ gate_open ctx snap /\ (within_budget ctx snap \/ overridden ctx snap) /\
  (d_state d = "remote_ended_confirmed" -> denies snap INGEST_LOCAL "live" /\ g_api_cost_degraded ctx = false).
Proof.
  unfold decide_action. cbv zeta. intros Hd Ha. case_in Hd; [by injection Hd as <-|]. rename E into Ev.
  case_in Hd; [by injection Hd as <-|]. case_in Hd; [by injection Hd as <-|]. case_in Hd.
  { injection Hd as <-. simpl in Ha. discriminate Ha. }
  case_in Hd; [by injection Hd as <-|]. case_in Hd; [by injection Hd as <-|]. case_in Hd; [by injection Hd as <-|]. match goal with N : negb (bool_decide (_ ∈ RESTARTABLE)) = false |- _ => rename N into Hs end. bools.
  inv_ok Hd. destruct v as [block left]. destruct (restart_blockers d snap ctx block) as [|b bs] eqn:Eb; [|by injection Hd as <-].
  apply no_blockers in Eb as (Hg & -> & Hr). match goal with N : _budget_block _ _ _ _ _ = _ |- _ => apply budget_block_free in N as Hb end.
  split_and!; [| done | done | | done].
  - destruct veto; [|done]. simpl in Ev. bools. unfold RESTARTABLE in Hs. set_solver.
  - destruct Hb as [Hb|Ho]; [by left | right; by apply override_active].
Qed.

(** ** The file *)
(** Zero is written as [0.0]. *)
Definition plain (f : pyfloat) : Prop := match f with Fin q => Qeq_bool q 0 = true -> q = 0%Q | _ => True end.
Definition good (ev : EvidenceRecord) : Prop := ev_verdict ev <> "" /\ plain (ev_observed_at ev) /\ plain (ev_ttl_sec ev).
Record wf_memory (m : memory) : Prop := {
  wm_distinct : distinct (m_latest m); wm_good : Forall (fun kv => good (snd kv)) (m_latest m); wm_recent : Forall good (m_recent m);
  wm_limit : (length (m_recent m) <= RECENT_LIMIT)%nat; wm_last : plain (m_last_restart_at m) }.
(** The same answers to every question. *)
Record same_memory (m m' : memory) : Prop := {
  sm_latest : forall s, src_get s (m_latest m) = src_get s (m_latest m'); sm_recent : m_recent m = m_recent m';
  sm_target : m_target_epoch m = m_target_epoch m'; sm_restart : m_restart_epoch m = m_restart_epoch m';
  sm_last : m_last_restart_at m = m_last_restart_at m'; sm_canonical : m_canonical m = m_canonical m' }.

Section File.
Context `{RP : Repr} `{FT : FloatOfText}.

Lemma text_back s : py_str (py_or (VStr s) (VStr "")) = s.
Proof. by destruct s. Qed.
Lemma int_back z : py_int (py_or (VInt z) (VInt 0)) = Ok z.
Proof. unfold py_or. simpl. destruct (Z.eqb_spec z 0); by subst. Qed.
Lemma float_back f : plain f -> py_float (py_or (VFloat f) (VInt 0)) = Ok f.
Proof. intros Hp. unfold py_or. destruct f as [q| | |]; try done. simpl in *. destruct (Qeq_bool q 0) eqn:E; simpl; [by rewrite (Hp eq_refl) | done]. Qed.
Lemma target_back t : target_from_dict (target_dict t) = Ok t.
Proof.
  unfold target_from_dict, target_dict, int0, str0, dget. simpl dict_get. cbn [default from_option id].
  rewrite !int_back. cbn [rbind]. rewrite !text_back. by destruct t.
Qed.
Lemma source_back s : source_of (source_value s) = Ok s.
Proof. by destruct s. Qed.
Lemma evidence_back ev : good ev -> match evidence_dict ev with VDict d => evidence_from_dict d | _ => Err EAttr end = Ok ev.
Proof.
  intros (Hv & Ho & Ht). unfold evidence_dict, evidence_from_dict, float0, int0, dget. simpl dict_get. cbn [default from_option id py_str].
  rewrite source_back. cbn [rbind]. rewrite target_back. cbn [rbind]. rewrite !float_back, !int_back by done. cbn [rbind].
  destruct ev as [s v t o te re ttl raw]. simpl in *. by destruct v.
Qed.
Lemma recent_back l : Forall good l -> load_recent (map evidence_dict l) = l.
Proof.
  induction 1 as [|ev l Hg _ IH]; [done|]. pose proof (evidence_back ev Hg) as Hb. simpl in Hb.
  unfold load_recent in *. cbn [map omap list_omap]. unfold evidence_dict at 1. rewrite Hb. exact (f_equal (cons ev) IH).
Qed.
Lemma latest_back d : Forall (fun kv => good (snd kv)) d -> forall srcs acc s,
  src_get s (load_latest (omap (fun s => ev ← src_get s d; Some (source_value s, evidence_dict ev)) srcs) acc)
  = if bool_decide (s ∈ srcs) then match src_get s d with Some ev => Some ev | None => src_get s acc end else src_get s acc.
Proof.
  intros Hg. induction srcs as [|s' srcs IH]; intros acc s; [done|]. simpl. destruct (src_get s' d) as [ev|] eqn:E; simpl.
  - assert (good ev) as Hev by (rewrite Forall_forall in Hg; apply (Hg (s', ev)), list_elem_of_In, src_get_In, E).
    pose proof (evidence_back ev Hev) as Hb. simpl in Hb. rewrite Hb. simpl. rewrite source_back. simpl. rewrite IH, src_get_set.
    destruct (decide (s' = s)) as [->|]; [rewrite E; repeat case_bool_decide; set_solver|]. repeat case_bool_decide; set_solver.
  - rewrite IH. destruct (decide (s' = s)) as [->|]; [rewrite E; by repeat case_bool_decide|]. repeat case_bool_decide; set_solver.
Qed.
Lemma load_distinct items : forall acc, distinct acc -> distinct (load_latest items acc).
Proof.
  induction items as [|[k v] items IH]; intros acc Ha; [done|]. destruct v; simpl; try by apply IH. apply IH.
  case_match; [|done]. destruct a. by apply distinct_set.
Qed.
Lemma last_items_short {A} n (l : list A) : (length l <= n)%nat -> last_items n l = l.
Proof. intros Hl. unfold last_items. replace (length l - n)%nat with 0%nat by lia. done. Qed.

Lemma memory_back m : wf_memory m -> exists m', load_memory (Some (ledger_payload m)) = Ok m' /\ same_memory m m' /\ distinct (m_latest m').
Proof.
  intros [Hd Hg Hr Hl Hq]. unfold load_memory, ledger_payload, float0, int0, dget. simpl dict_get. cbn [default from_option id].
  rewrite !int_back. cbn [rbind]. rewrite float_back by done. cbn [rbind]. rewrite target_back. cbn [rbind].
  assert (py_or (VDict (latest_dict (m_latest m))) (VDict []) = VDict (latest_dict (m_latest m))) as -> by (unfold py_or; simpl; by destruct (latest_dict _)).
  cbn [rbind]. rewrite last_items_short by done.
  assert (py_or (VList (map evidence_dict (m_recent m))) (VList []) = VList (map evidence_dict (m_recent m))) as -> by (unfold py_or; simpl; by destruct (m_recent m)).
  cbn [iter rbind]. eexists. split; [done|]. rewrite recent_back, last_items_short by done. split; [|apply load_distinct, NoDup_nil_2].
  split; simpl; try done. intros s. unfold latest_dict. rewrite latest_back by done. rewrite bool_decide_true by (destruct s; set_solver). by case_match.
Qed.
End File.

(** ** A ledger over many processes *)
Inductive ledger_event : Type := Retarget (t : TargetIdentity) | Record_ (ev : EvidenceRecord) | Restarted (now : Z) | Reopened.
Definition is_restart (e : ledger_event) : bool := match e with Restarted _ => true | _ => false end.
Definition restarts (es : list ledger_event) : Z := Z.of_nat (length (List.filter is_restart es)).
Lemma restarts_app es es' : restarts (es ++ es') = restarts es + restarts es'.
Proof. unfold restarts. rewrite List.filter_app, length_app. lia. Qed.
Lemma no_restarts es : restarts es = 0 -> Forall (fun e => is_restart e = false) es.
Proof.
  induction es as [|e es IH]; [done|]. change (e :: es) with ([e] ++ es). rewrite restarts_app. unfold restarts at 1. simpl.
  destruct (is_restart e) eqn:E; intros Hz; [unfold restarts in Hz; simpl in Hz; lia|]. constructor; [done|]. apply IH. simpl in Hz. lia.
Qed.
(** A record made now carries the ledger's epochs. *)
Definition stamped (ev : EvidenceRecord) (l : EvidenceLedger) : Prop :=
  ev_target_epoch ev = m_target_epoch (l_memory l) /\ ev_restart_epoch ev = m_restart_epoch (l_memory l).
Definition current_video (l : EvidenceLedger) : string := ti_video_id (m_canonical (l_memory l)).

Section Life.
Context `{RP : Repr} `{FT : FloatOfText}.
Inductive lived : list ledger_event -> EvidenceLedger -> Prop :=
  | lv_new : lived [] (mkLedger empty_memory None)
  | lv_target es l t : lived es l -> lived (es ++ [Retarget t]) (ensure_target t l)
  | lv_record es l ev : lived es l -> good ev -> stamped ev l -> lived (es ++ [Record_ ev]) (record_evidence ev l)
  | lv_restart es l n : lived es l -> lived (es ++ [Restarted n]) (bump_restart_epoch (inject_Z n) l)
  | lv_reopen es l l' : lived es l -> open_ledger (l_file l) = Ok l' -> lived (es ++ [Reopened]) l'.

(** The file holds what the memory knows. *)
Definition backed (l : EvidenceLedger) : Prop :=
  (l_file l = None /\ l_memory l = empty_memory) \/ exists m, l_file l = Some (ledger_payload m) /\ wf_memory m /\ same_memory m (l_memory l).
(** Where a record comes from. *)
Definition recorded_in (es : list ledger_event) (l : EvidenceLedger) (ev : EvidenceRecord) : Prop :=
  exists es1 l1 es2, es = es1 ++ Record_ ev :: es2 /\ lived es1 l1 /\ stamped ev l1 /\
    ev_restart_epoch ev + restarts es2 = m_restart_epoch (l_memory l) /\ ev_target_epoch ev <= m_target_epoch (l_memory l) /\
    (ev_target_epoch ev = m_target_epoch (l_memory l) -> current_video l1 = current_video l).
Record life_inv (es : list ledger_event) (l : EvidenceLedger) : Prop := {
  li_wf : wf_memory (l_memory l); li_backed : backed l;
  li_recorded : forall s ev, src_get s (m_latest (l_memory l)) = Some ev -> ev_source ev = s /\ recorded_in es l ev }.

Lemma persist_backed m : wf_memory m -> backed (persist m).
Proof. intros Hm. right. by exists m. Qed.
Lemma reopen_same l l' : wf_memory (l_memory l) -> backed l -> open_ledger (l_file l) = Ok l' ->
  same_memory (l_memory l) (l_memory l') /\ wf_memory (l_memory l') /\ backed l'.
Proof.
  intros Hw Hb Ho. unfold open_ledger in Ho. destruct Hb as [[Hf Hm]|(m & Hf & Hwm & Hs)]; rewrite Hf in Ho.
  { injection Ho as <-. rewrite Hm. split_and!; [done | by rewrite <-Hm | by left]. }
  destruct (memory_back m Hwm) as (m' & El & Hs' & Hd). rewrite El in Ho. injection Ho as <-. simpl. destruct Hs as [S1 S2 S3 S4 S5 S6], Hs' as [T1 T2 T3 T4 T5 T6].
  destruct Hwm as [W1 W2 W3 W4 W5]. split_and!.
  - split; congruence.
  - split; [done | | by rewrite <-T2 | by rewrite <-T2 | by rewrite <-T5]. apply Forall_forall. intros [s ev] Hin.
    apply list_elem_of_In, In_src_get in Hin; [|done]. rewrite <-T1 in Hin. rewrite Forall_forall in W2. by apply (W2 (s, ev)), list_elem_of_In, src_get_In.
  - right. exists m. by split_and!.
Qed.

(** A change of the memory that keeps what was recorded. *)
Lemma recorded_later es e l l' ev : recorded_in es l ev -> is_restart e = false ->
  m_restart_epoch (l_memory l') = m_restart_epoch (l_memory l) -> m_target_epoch (l_memory l) <= m_target_epoch (l_memory l') ->
  (m_target_epoch (l_memory l) = m_target_epoch (l_memory l') -> current_video l = current_video l') -> recorded_in (es ++ [e]) l' ev.
Proof.
  intros (es1 & l1 & es2 & -> & Hl & Hs & Hr & Ht & Hv) He Er Et Ev. exists es1, l1, (es2 ++ [e]).
  rewrite <-app_assoc, restarts_app. unfold restarts at 2. simpl. rewrite He. simpl. split_and!; try done; try lia.
  intros Hq. rewrite Hv, Ev by lia. done.
Qed.
Lemma same_recorded es l l' ev : same_memory (l_memory l) (l_memory l') -> recorded_in es l ev -> recorded_in (es ++ [Reopened]) l' ev.
Proof. intros [S1 S2 S3 S4 S5 S6] Hr. eapply recorded_later; [exact Hr | done | done | lia |]. intros _. unfold current_video. by rewrite S6. Qed.

Lemma retarget_inv es t te tt l : life_inv es l -> m_target_epoch (l_memory l) <= te ->
  (te = m_target_epoch (l_memory l) -> ti_video_id tt = current_video l) -> life_inv (es ++ [Retarget t]) (persist (retarget tt te (l_memory l))).
Proof.
  intros [[W1 W2 W3 W4 W5] Hb Hr] Hte Hv. assert (wf_memory (retarget tt te (l_memory l))) by done. split; [done | by apply persist_backed|].
  intros s ev Hg. destruct (Hr _ _ Hg) as [Hsrc Hrec]. split; [done|]. eapply recorded_later; [exact Hrec | done | done | done|]. intros He. symmetry. by apply Hv.
Qed.
Lemma life es l : lived es l -> life_inv es l.
Proof.
  induction 1 as [|es l t _ IH|es l ev Hl IH Hg Hs|es l n _ IH|es l l' _ IH Ho].
  - split; [|by left|done]. split; simpl; try done; try constructor; unfold RECENT_LIMIT; lia.
  - unfold ensure_target. cbv zeta. case_match eqn:C1; [|case_match eqn:C2].
    + apply retarget_inv; [done | lia | intros Hq; exfalso; lia].
    + apply retarget_inv; [done | lia | done]. 
    + destruct IH as [Hw Hb Hr]. split; [done | done|]. intros s ev Hg. destruct (Hr _ _ Hg) as [Hsrc Hrec]. split; [done|].
      by eapply recorded_later; [exact Hrec | | | |].
  - unfold record_evidence. cbv zeta. destruct IH as [[W1 W2 W3 W4 W5] Hb Hr]. destruct Hs as [Hst Hsr]. rewrite Hst, Hsr, !Z.ltb_irrefl. simpl.
    match goal with |- life_inv _ (persist ?m) => assert (wf_memory m) as Hm end.
    { split; simpl; [by apply distinct_set | | | | done].
      - apply Forall_forall. intros [k v] Hin. apply list_elem_of_In, src_set_In in Hin as [[_ ->]|Hin]; [done|]. rewrite Forall_forall in W2. by apply (W2 (k, v)), list_elem_of_In.
      - unfold last_items. apply Forall_drop, Forall_app; auto.
      - unfold last_items. rewrite length_skipn. lia. }
    split; [done | by apply persist_backed|]. intros s ev' Hg'. simpl in Hg'. rewrite src_get_set in Hg'. case_decide as Hsrc; [injection Hg' as <-|].
    + split; [done|]. exists es, l, []. split_and!; try done; unfold restarts; simpl; lia.
    + destruct (Hr _ _ Hg') as [Hse Hrec]. split; [done|]. by eapply recorded_later; [exact Hrec | | | |].
  - destruct IH as [[W1 W2 W3 W4 W5] Hb Hr]. unfold bump_restart_epoch. cbv zeta.
    match goal with |- life_inv _ (persist ?m) => assert (wf_memory m) as Hm end.
    { split; simpl; try done. intros Hz. by apply Qeq_bool_eq, inject_Z_injective in Hz as ->. }
    split; [done | by apply persist_backed|]. intros s ev Hg. destruct (Hr s ev Hg) as (Hse & es1 & l1 & es2 & -> & Hl1 & Hs & He & Ht & Hv). split; [done|].
    exists es1, l1, (es2 ++ [Restarted n]). rewrite <-app_assoc, restarts_app. unfold restarts at 2. simpl. by split_and!; try lia.
  - destruct IH as [Hw Hb Hr]. destruct (reopen_same l l' Hw Hb Ho) as (Hs & Hw' & Hb'). split; [done | done|].
    intros s ev Hg. rewrite <- (sm_latest _ _ Hs) in Hg. destruct (Hr s ev Hg). split; [done|]. by eapply same_recorded.
Qed.

(** A ledger that was written by the program in any number of processes can be
    opened again from its file, and answers as the one that wrote it: the same
    latest record of every source, the same recent records, epochs and target. *)
Theorem reopened_ledger_is_same es l : lived es l -> exists l', open_ledger (l_file l) = Ok l' /\ same_memory (l_memory l) (l_memory l').
Proof.
  intros Hl. destruct (life es l Hl) as [Hw Hb _]. assert (exists l', open_ledger (l_file l) = Ok l') as (l' & Ho).
  { unfold open_ledger. destruct Hb as [[-> _]|(m & -> & Hwm & _)]; [by eexists|]. destruct (memory_back m Hwm) as (m' & El & _). rewrite El. by eexists. }
  exists l'. split; [done|]. by apply (reopen_same l l' Hw Hb).
Qed.

Lemma fresh_is_current es l taken s ev : lived es l -> src_get s (m_latest (l_memory l)) = Some ev -> fresh_now (snapshot taken l) ev = true ->
  ev_source ev = s /\
  exists es1 l1 es2, es = es1 ++ Record_ ev :: es2 /\ lived es1 l1 /\ Forall (fun e => is_restart e = false) es2 /\ current_video l1 = current_video l.
Proof.
  intros Hl Hg Hf. destruct (li_recorded _ _ (life es l Hl) _ _ Hg) as (Hse & es1 & l1 & es2 & -> & Hl1 & _ & Hr & Ht & Hv). split; [done|].
  unfold fresh_now, is_fresh, snapshot in Hf. simpl in Hf. bools. exists es1, l1, es2. assert (0 <= restarts es2) by (unfold restarts; lia).
  split_and!; [done | done | apply no_restarts; lia | apply Hv; lia].
Qed.
(** C11: An end of the broadcast is confirmed only by the latest answer of the Data
    API and the latest answer of OAuth, both "ended" for the same video, both fresh,
    and both recorded since the last restart while the ledger already followed the
    video it follows now; and by no fresh public page that shows the broadcast
    live. *)
Theorem confirmed_end_is_current es l taken : lived es l -> d_state (evaluate (snapshot taken l)) = "remote_ended_confirmed" ->
  (exists api oauth, src_get DATA_API (m_latest (l_memory l)) = Some api /\ src_get OAUTH (m_latest (l_memory l)) = Some oauth /\
     ev_source api = DATA_API /\ ev_source oauth = OAUTH /\
     ev_verdict api = "ended" /\ ev_verdict oauth = "ended" /\ strong_video_match (ev_target api) (ev_target oauth) = true /\
     forall ev, ev = api \/ ev = oauth -> age_within taken (ev_observed_at ev) (ev_ttl_sec ev) = true /\
       exists es1 l1 es2, es = es1 ++ Record_ ev :: es2 /\ lived es1 l1 /\ Forall (fun e => is_restart e = false) es2 /\ current_video l1 = current_video l) /\
  denies (snapshot taken l) WATCH_PAGE "live".
Proof.
  intros Hl He. apply remote_ended_evidence in He as ((a & o & Ha & Ho & Hv) & Hw & _); [|apply (li_wf _ _ (life es l Hl))].
  split; [|done]. exists a, o. destruct Ha as (Ga & Fa & Va), Ho as (Go & Fo & Vo).
  destruct (fresh_is_current _ _ _ _ _ Hl Ga Fa) as [Sa Ra], (fresh_is_current _ _ _ _ _ Hl Go Fo) as [So Ro]. split_and!; try done.
  intros ev [-> | ->]; (split; [by eapply fresh_in_time in Fa, Fo | done]).
Qed.
End Life.

(** A history: the broadcast is chosen, the ledger is reopened by a new process, both APIs say it ended. *)
Module Demo.
#[local] Instance repr_none : Repr := fun _ => "".
#[local] Instance floats_none : FloatOfText := fun _ => None.
Definition target : TargetIdentity := mkTarget "UCx" "abcdefghijk" "abcdefghijk" "stream-1" 1 0.
Definition says (s : SourceKind) (verdict : string) (at_ : Q) : EvidenceRecord := mkEvidence s verdict target (Fin at_) 1 0 (Fin 180) [].
Definition l1 : EvidenceLedger := ensure_target target (mkLedger empty_memory None).
Definition l2 : EvidenceLedger := Eval vm_compute in match open_ledger (l_file l1) with Ok l => l | Err _ => l1 end.
Definition l3 : EvidenceLedger := record_evidence (says DATA_API "ended" 1000) l2.
Definition l4 : EvidenceLedger := record_evidence (says OAUTH "ended" 1010) l3.
Definition events : list ledger_event :=
  ((([] ++ [Retarget target]) ++ [Reopened]) ++ [Record_ (says DATA_API "ended" 1000)]) ++ [Record_ (says OAUTH "ended" 1010)].
Lemma history : lived events l4.
Proof.
  apply lv_record; [apply lv_record; [eapply lv_reopen; [apply lv_target, lv_new | by vm_compute]| |]| |]; split; done.
Defined.
Lemma reopened_ledger_is_same_witness : exists l', open_ledger (l_file l4) = Ok l' /\ same_memory (l_memory l4) (l_memory l').
Proof. exact (reopened_ledger_is_same events l4 history). Defined.
Lemma confirmed_end_is_current_witness : d_state (evaluate (snapshot 1020 l4)) = "remote_ended_confirmed" /\
  exists api oauth, ev_source api = DATA_API /\ ev_source oauth = OAUTH /\
    ev_verdict api = "ended" /\ ev_verdict oauth = "ended" /\ strong_video_match (ev_target api) (ev_target oauth) = true.
Proof.
  assert (d_state (evaluate (snapshot 1020 l4)) = "remote_ended_confirmed") as He by (vm_compute; reflexivity). split; [exact He|].
  destruct (confirmed_end_is_current events l4 1020 history He) as [(a & o & _ & _ & Sa & So & Ha & Ho & Hm & _) _].
  exists a, o. exact (conj Sa (conj So (conj Ha (conj Ho Hm)))).
Defined.
End Demo.
End EvidenceProperties.
