(* ===== verification/ObservationTime.v ===== *)
(** * Observation identity and notification continuity

    Models src/stream_core/common/observation_time.py: the identity a producer gives
    a sample, its age for a receiver that trusts only a boot-bound clock, and the
    continuity of verdicts.  The clocks, the machine's identity, the token of a
    sample and the content of files are arguments; a clock reading is finite.  The
    reason of an observation with a missing key does not name the key. *)
From Stdlib Require Import Ascii.
From S2P Require Import Prelude PyVal Clock UtcTime FastPolicy SendSample EffectContract EffectModel AgentPolicy AgentObserve.

Definition OBSERVATION_SCHEMA : string := "stream.observation_time.v1".

Record Reading : Type := mkReading {
  rd_wall : Q; rd_mono : Q; rd_host : string; rd_boot : string; rd_machine : string; rd_uncertainty : Q }.
(** [capture]: the clocks before, at and after. *)
Definition capture_reading (before wall_now after : Q) (host boot machine : string) : Reading :=
  mkReading wall_now ((before + after) / 2) host boot machine ((after - before) / 2).
Definition clock_of (r : Reading) : Clock.stamp := Clock.Stamp (rd_wall r) (rd_mono r).
Definition qv (q : Q) : pyval := VFloat (Fin q).
Definition in_range (lo x hi : Q) : bool := Qleb lo x && Qleb x hi.
(** The text of the code's own exceptions. *)
Definition why (reason : string) : exn := EValue reason.

(** ** Times as text *)
Section Epoch.
Context `{FromIso}.
(** [value.replace("Z", "+00:00")] *)
Fixpoint replace_z (s : string) : string :=
  match s with
  | EmptyString => EmptyString
  | String c s' => if Ascii.eqb c "Z"%char then ("+00:00" ++ replace_z s')%string else String c (replace_z s')
  end.
Definition epoch (value : pyval) : res (option Q) :=
  let! number := num_finite value in
  if number : bool then Ok (if Qltb 0 (num_val value) then Some (num_val value) else None) else
  match value with
  | VStr s => Ok (match fromisoformat (replace_z s) with
                  | Some (wall, Some off) => if Qltb 0 (wall - off) then Some (wall - off)%Q else None
                  | _ => None
                  end)
  | _ => Ok None
  end.
End Epoch.

(** ** What a producer attaches *)
Section Stamp.
Context `{IsoFull}.
Definition CLOCK_FIELDS : list string := ["host_id"; "mono"; "synchronized"; "maximum_error_seconds"; "ntp"; "wall_steps_total"; "wall_step_seconds"].
Definition no_clock : pyval := VDict [("synchronized", VNone); ("reason", VStr "clock_observation_unavailable")].
(** The decoded status file of the clock observer, none when it cannot be read. *)
Definition clock_diagnostic (now : Reading) (file : option pyval) : pyval :=
  let read (value : pyval) : res pyval :=
    let! boot := get value "boot_id" in
    if negb (eq_str boot (rd_boot now)) then Err (why "unbound_clock_status") else
    let! machine := get value "machine_id_sha256" in
    if negb (eq_str machine (rd_machine now)) then Err (why "unbound_clock_status") else
    let! mono := get value "mono" in
    let! fin := num_finite mono in
    if negb fin || negb (in_range 0 (rd_mono now - num_val mono) 45) then Err (why "unbound_clock_status") else
    let! synchronized := get value "synchronized" in
    if negb (is_bool synchronized) then Err (why "unbound_clock_status") else
    let d := as_dict value in
    Ok (VDict (map (fun k => (k, dget d k VNone)) CLOCK_FIELDS)) in
  match file with Some v => match read v with Ok d => d | Err _ => no_clock end | None => no_clock end.

Definition stamp_observation (source : string) (now : Reading) (token : string) (clock_file : option pyval) : res pyval :=
  if String.eqb source "" then Err (why "observation_source_invalid") else
  if negb (in_range 0 (rd_uncertainty now) EPSILON) then Err (why "observation_capture_delayed") else
  Ok (VDict [("schema", VStr OBSERVATION_SCHEMA); ("source", VStr source); ("source_host", VStr (rd_host now));
             ("machine_id_sha256", VStr (rd_machine now)); ("boot_id", VStr (rd_boot now)); ("sample_id", VStr token);
             ("observed_at_utc", VStr (isoformat (rd_wall now))); ("observed_boottime", qv (rd_mono now));
             ("capture_uncertainty_sec", qv (rd_uncertainty now)); ("clock", clock_diagnostic now clock_file)]).
(** [attach]: a failed stamp is attached as its reason. *)
Definition attach (payload : dict) (source : string) (metadata : res pyval) : dict :=
  dict_set "observation_time"
    (match metadata with
     | Ok m => m
     | Err e => VDict [("schema", VStr OBSERVATION_SCHEMA); ("source", VStr source);
                       ("reason", VStr (match e with EValue t | EOS t => t | _ => "" end))]
     end) payload.
End Stamp.

(** ** The age of an observation *)
Record Qualified : Type := mkQualified {
  q_status : string; q_reason : string; q_source : string; q_host : string; q_boot : string; q_sample : string;
  q_source_mono : Q; q_age_upper : option Q; q_utc_status : string }.
Definition unverifiable (reason : string) : Qualified := mkQualified "UNVERIFIABLE" reason "" "" "" "" 0 None "UNAVAILABLE".
Definition q_valid (q : Qualified) : bool := String.eqb (q_status q) "VALID".

(** An authenticated exchange, or an estimate of the producer's clock. *)
Inductive timebase : Type :=
  | LocalOnly
  | Exchange (envelope nonce : pyval) (sent received : Clock.stamp) (receiver_boot : string)
  | Model (m : Clock.Estimate).

Section Qualify.
Context `{FromIso}.
Definition text_fields : list string := ["source"; "source_host"; "machine_id_sha256"; "boot_id"; "sample_id"].
Definition named_text (d : dict) (k : string) : bool := match dget d k VNone with VStr s => negb (String.eqb s "") | _ => false end.
Definition differs (wanted : option string) (v : pyval) : bool := match wanted with Some s => negb (eq_str v s) | None => false end.

(** The age on the receiver's boot clock, with what is known about UTC. *)
Definition observed_age (now : Reading) (max_age : Q) (base : timebase) (machine boot host : string) (mono wall : Q) : res (Q * string) :=
  if String.eqb machine (rd_machine now) then
    if negb (String.eqb boot (rd_boot now)) || negb (String.eqb host (rd_host now)) then Err (why "observation_local_identity_changed") else
    let age := (rd_mono now - mono)%Q in
    if Qltb age (- EPSILON) then Err (why "observation_boottime_future") else
    Ok (age, if Qleb (qabs ((rd_wall now - wall) - age)) (50 # 1000) then "VERIFIED" else "FAULT")
  else match base with
  | Exchange envelope nonce sent received receiver_boot =>
      let! age := monotonic_source_age envelope nonce sent received machine (VStr boot) (qv mono) max_age in
      if negb (String.eqb (rd_boot now) receiver_boot) then Err (why "observation_receiver_boot_changed") else
      if Qltb (rd_mono now) (Clock.mono received) then Err (why "observation_receipt_future") else
      Ok ((age + (rd_mono now - Clock.mono received))%Q, "UNAVAILABLE")
  | Model m =>
      if negb (String.eqb (Clock.machine m) machine) || negb (String.eqb (Clock.boot_id m) boot) || negb (String.eqb (Clock.local_boot m) (rd_boot now))
      then Err (why "observation_clock_identity_mismatch") else
      let! lh := age_bounds m (qv wall) (clock_of now) in
      let '(low, age) := lh in
      if Qltb age low then Err (why "observation_clock_interval_invalid") else
      if Qltb age (- EPSILON) then Err (why "observation_utc_future") else Ok (age, "VERIFIED")
  | LocalOnly => Err (why "observation_remote_clock_unavailable")
  end.

Definition qualify_body (metadata : pyval) (now : Reading) (max_age : Q) (source host : option string) (base : timebase) : res Qualified :=
  if Qltb (rd_mono now) 0 then Err (why "observation_receiver_time_invalid") else
  if negb (in_range 0 (rd_uncertainty now) EPSILON) then Err (why "observation_capture_delayed") else
  match metadata with
  | VDict d =>
      if negb (eq_str (dget d "schema" VNone) OBSERVATION_SCHEMA) || Qltb max_age 0 then Err (why "observation_metadata_missing_or_invalid") else
      if negb (forallb (named_text d) text_fields) then Err (why "observation_identity_invalid") else
      if differs source (dget d "source" VNone) then Err (why "observation_source_mismatch") else
      if differs host (dget d "source_host" VNone) then Err (why "observation_host_mismatch") else
      let! mono := idx metadata "observed_boottime" in
      let uncertainty := dget d "capture_uncertainty_sec" (qv 0) in
      let! fin := num_finite uncertainty in
      if negb fin || negb (in_range 0 (num_val uncertainty) EPSILON) then Err (why "observation_capture_delayed") else
      let! observed := idx metadata "observed_at_utc" in
      let! wall := epoch observed in
      let! fin := num_finite mono in
      match wall with
      | Some wall =>
          if negb fin || Qltb (num_val mono) 0 then Err (why "observation_timestamp_invalid") else
          let text k := str_val (dget d k VNone) in
          let! age := observed_age now max_age base (text "machine_id_sha256") (text "boot_id") (text "source_host") (num_val mono) wall in
          let '(age, utc_status) := age in
          let age := (age + (num_val uncertainty + rd_uncertainty now))%Q in
          let result status reason upper :=
            mkQualified status reason (text "source") (text "source_host") (text "boot_id") (text "sample_id") (num_val mono) (Some upper) utc_status in
          Ok (if Qltb max_age age then result "STALE" "observation_expired" age else result "VALID" "observation_fresh" (qmax 0 age))
      | None => Err (why "observation_timestamp_invalid")
      end
  | _ => Err (why "observation_metadata_missing_or_invalid")
  end.
Definition qualify (metadata : pyval) (now : Reading) (max_age : Q) (source host : option string) (base : timebase) : Qualified :=
  match qualify_body metadata now max_age source host base with
  | Ok q => q
  | Err e => unverifiable (match e with EValue t | EClock t => t | _ => "" end)
  end.
End Qualify.

(** ** Continuity of verdicts

    The slot is the dict the caller persists. *)
Section Advance.
Variables (bad_hold good_hold max_gap lost_after : Q).

Definition FADING : list string := ["source_identity"; "source_mono"; "since"; "source_since"; "count"; "verdict"; "last_sample"].
Definition pop_all (ks : list string) (d : dict) : dict := fold_left (fun d k => dict_pop k d) ks d.
Definition new_slot (now : Reading) : dict := [("receiver_boot", VStr (rd_boot now)); ("last_new", qv (rd_mono now))].
(** [k in d and not good(d[k])] *)
Definition spoiled (d : dict) (k : string) (good : pyval -> res bool) : res bool :=
  match dict_get k d with Some v => let! b := good v in Ok (negb b) | None => Ok false end.
Definition past (now : Reading) (v : pyval) : res bool := let! f := num_finite v in Ok (f && in_range 0 (num_val v) (rd_mono now)).
Definition small_count (v : pyval) : res bool := Ok (match v with VInt n => (0 <=? n) && (n <=? 1000000) | _ => false end).
Definition identity_value (s : Qualified) : pyval := VList [VStr (q_host s); VStr (q_boot s); VStr (q_source s)].

(** The persisted slot, or what is left of it on this boot. *)
Definition prior_slot (state : pyval) (now : Reading) : res dict :=
  let d := as_dict state in
  let d := if eq_str (dget d "receiver_boot" VNone) (rd_boot now) then d else new_slot now in
  let last_new := dget d "last_new" VNone in
  let! fin := num_finite last_new in
  if negb fin || Qltb (rd_mono now) (num_val last_new) then Ok (new_slot now) else
  let! a := (if is_none (dget d "source_identity" VNone) then Ok false else let! f := num_finite (dget d "source_mono" VNone) in Ok (negb f)) in
  let! a := (if a : bool then Ok true else spoiled d "since" (past now)) in
  let! a := (if a : bool then Ok true else spoiled d "source_since" num_finite) in
  let! a := (if a : bool then Ok true else spoiled d "count" small_count) in
  Ok (if a : bool then pop_all FADING d else d).

(** [source_mono] of the slot, -1 without one. *)
Definition slot_mono (d : dict) : Q := num_val (dget d "source_mono" (VInt (-1))).
Record step_facts : Type := mkFacts { sf_prior : dict; sf_fresh : bool; sf_new : bool; sf_regressed : bool; sf_changed : bool }.
Definition step_facts_of (prior : dict) (sample : Qualified) (verdict : string) : step_facts :=
  let identity := identity_value sample in
  let previous := dget prior "source_identity" VNone in
  let same := py_eq previous identity in
  let changed := negb (is_none previous) && negb same in
  let fresh := q_valid sample && bool_decide (verdict ∈ ["BAD"; "GOOD"]) in
  let prior := if changed then pop_all ["since"; "source_since"; "count"; "verdict"; "last_sample"; "source_mono"] prior else prior in
  let new := fresh && (negb same || (negb (eq_str (dget prior "last_sample" VNone) (q_sample sample)) && Qltb (slot_mono prior) (q_source_mono sample))) in
  let regressed := fresh && same && has_key "source_mono" prior && Qltb (q_source_mono sample) (slot_mono prior) in
  mkFacts prior fresh new regressed changed.

Definition contiguous (prior : dict) (verdict : string) (changed : bool) (now : Reading) : bool :=
  let last_new := num_val (dget prior "last_new" VNone) in
  eq_str (dget prior "verdict" VNone) verdict && in_range 0 (rd_mono now - last_new) max_gap && negb changed.
Definition slot_update (f : step_facts) (sample : Qualified) (verdict : string) (now : Reading) : dict :=
  let prior := sf_prior f in
  if sf_new f then
    let c := contiguous prior verdict (sf_changed f) now in
    dict_update prior
      [("source_identity", identity_value sample); ("last_sample", VStr (q_sample sample)); ("source_mono", qv (q_source_mono sample));
       ("last_new", qv (rd_mono now)); ("verdict", VStr verdict);
       ("since", if c then dget prior "since" (qv (rd_mono now)) else qv (rd_mono now));
       ("source_since", if c then dget prior "source_since" (qv (q_source_mono sample)) else qv (q_source_mono sample));
       ("count", VInt (if c then int_val (dget prior "count" (VInt 0)) + 1 else 1))]
  else if negb (sf_fresh f) || sf_regressed f then
    dict_update (dict_pop "since" prior) [("count", VInt 0); ("verdict", VStr "UNKNOWN")]
  else prior.

Definition elapsed (result : dict) (f : step_facts) (sample : Qualified) (now : Reading) : Q :=
  if sf_fresh f then
    qmin (rd_mono now - num_val (dget result "since" (qv (rd_mono now))))
         (q_source_mono sample - num_val (dget result "source_since" (qv (q_source_mono sample))))
  else 0.
(** The slot, BAD/GOOD/UNKNOWN, and whether the observation is lost. *)
Definition advance_slot (state : pyval) (sample : Qualified) (verdict : string) (now : Reading) : res (dict * string * bool) :=
  let! prior := prior_slot state now in
  let f := step_facts_of prior sample verdict in
  let result := slot_update f sample verdict now in
  let hold := if String.eqb verdict "BAD" then bad_hold else good_hold in
  let ready :=
    if sf_fresh f && sf_new f && eq_str (dget result "verdict" VNone) verdict && Qleb hold (elapsed result f sample now)
       && ((String.eqb verdict "BAD" && Qeq_bool bad_hold 0) || (2 <=? int_val (dget result "count" (VInt 0))))
    then verdict else "UNKNOWN" in
  Ok (result, ready, Qleb lost_after (rd_mono now - num_val (dget result "last_new" VNone))).
End Advance.
