(* ===== verification/ObservationTimeProofs.v ===== *)
(** * Observation continuity: a verdict is earned

    Theorems about ObservationTime.v: a recovery (or a failure with a hold) is
    reported only at the end of an unbroken row of valid samples of one source that
    all carry that verdict; the age of a qualified observation is an upper bound. *)
From S2P Require Import Prelude PyVal Clock UtcTime FastPolicy SendSample EffectContract EffectModel AgentPolicy AgentObserve ObservationTime.

Module ObservationProperties.

Record input : Type := mkInput { in_sample : Qualified; in_verdict : string; in_now : Reading }.
Notation mono_of i := (rd_mono (in_now i)).
Notation source_of i := (q_source_mono (in_sample i)).

(** ** The slot as a dict *)
Lemma get_pop_all ks : forall k (d : dict), dict_get k (pop_all ks d) = if existsb (String.eqb k) ks then None else dict_get k d.
Proof.
  unfold pop_all. induction ks as [|k' ks IH]; intros k d; simpl; [done|]. rewrite IH, dict_get_pop.
  destruct (String.eqb k k'); simpl; [by destruct (existsb _ _) | done].
Qed.
Lemma dget_some (d : dict) k v dflt : dict_get k d = Some v -> dget d k dflt = v.
Proof. unfold dget. by intros ->. Qed.
Ltac slot_get := unfold dict_update; cbn [fold_left fst snd]; rewrite ?dict_get_set, ?dict_get_pop, ?get_pop_all; simpl.

Section Earned.
Variables (bad_hold good_hold max_gap lost_after : Q).
Notation advance := (advance_slot bad_hold good_hold max_gap lost_after).

Definition step (r : res dict) (i : input) : res dict :=
  let! d := r in let! o := advance (VDict d) (in_sample i) (in_verdict i) (in_now i) in Ok (fst (fst o)).
Definition slots (l : list input) : res dict := fold_left step l (Ok []).
Lemma slots_snoc l i : slots (l ++ [i]) = step (slots l) i.
Proof. unfold slots. by rewrite fold_left_app. Qed.

(** A valid sample of that source, seen on that boot. *)
Definition of_source (boot : string) (identity : pyval) (i : input) : Prop :=
  q_valid (in_sample i) = true /\ rd_boot (in_now i) = boot /\ identity_value (in_sample i) = identity.
(** It carries the verdict, or repeats a sample of the row that does. *)
Definition carries (verdict : string) (w : list input) (i : input) : Prop :=
  in_verdict i = verdict \/
  exists y, In y w /\ in_verdict y = verdict /\ (q_sample (in_sample i) = q_sample (in_sample y) \/ (source_of i == source_of y)%Q).
(** Nothing in the row waits longer than [max_gap] for what follows, up to [last_new]. *)
Definition unbroken (last_new : Q) (w : list input) : Prop := forall a x b, w = a ++ x :: b ->
  (exists y, In y b /\ (mono_of y - mono_of x <= max_gap)%Q) \/ (last_new <= mono_of x)%Q.
Definition unbroken_row (verdict boot : string) (identity : pyval) (w : list input) : Prop :=
  Forall (of_source boot identity) w /\ Forall (carries verdict w) w.

(** The row under way, as the slot records it: its first sample and the last that counted. *)
Definition row (l : list input) (d : dict) (verdict : string) : Prop := exists pre first mid last boot n,
  l = pre ++ first :: mid /\ In last (first :: mid) /\ in_verdict last = verdict /\
  unbroken_row verdict boot (identity_value (in_sample last)) (first :: mid) /\ unbroken (mono_of last) (first :: mid) /\
  dict_get "receiver_boot" d = Some (VStr boot) /\ dict_get "source_identity" d = Some (identity_value (in_sample last)) /\
  dict_get "since" d = Some (qv (mono_of first)) /\ dict_get "source_since" d = Some (qv (source_of first)) /\
  dict_get "last_sample" d = Some (VStr (q_sample (in_sample last))) /\ dict_get "source_mono" d = Some (qv (source_of last)) /\
  dict_get "last_new" d = Some (qv (mono_of last)) /\ dict_get "count" d = Some (VInt n) /\
  (source_of first <= source_of last)%Q /\ (2 <= n -> (source_of first < source_of last)%Q).
Record slot_ok (l : list input) (d : dict) : Prop := {
  so_verdict : forall v, dict_get "verdict" d = Some v -> v = VStr "UNKNOWN" \/ exists verdict, v = VStr verdict /\ row l d verdict }.

Lemma carries_more verdict w w' i : (forall x, In x w -> In x w') -> carries verdict w i -> carries verdict w' i.
Proof. intros Hw [Hv|(y & Hy & Hr)]; [by left | right; exists y; auto]. Qed.
Lemma identity_eq s t : py_eq (identity_value s) (identity_value t) = true -> identity_value s = identity_value t.
Proof.
  unfold identity_value. simpl. intros He. apply andb_true_iff in He as [H1 He]. apply andb_true_iff in He as [H2 He].
  apply andb_true_iff in He as [H3 _]. apply String.eqb_eq in H1, H2, H3. congruence.
Qed.
Lemma row_extend verdict boot identity w i : unbroken_row verdict boot identity w -> of_source boot identity i -> carries verdict (w ++ [i]) i ->
  unbroken_row verdict boot identity (w ++ [i]).
Proof.
  intros [Hs Hc] Hi Hv. split; apply Forall_app; (split; [|by apply Forall_singleton]); [done|].
  eapply Forall_impl; [exact Hc|]. intros x Hx. eapply carries_more; [|exact Hx]. intros y Hy. apply in_or_app. by left.
Qed.
Lemma unbroken_extend ln w i : unbroken ln w -> (forall x, (ln <= mono_of x)%Q -> (mono_of i - mono_of x <= max_gap)%Q) -> unbroken (mono_of i) (w ++ [i]).
Proof.
  intros Hu Hg a x b Hw. destruct b as [|y0 b0] eqn:Eb; [|rewrite <-Eb in *; assert (b <> []) as Hb by (by rewrite Eb); clear Eb].
  - apply app_inj_tail in Hw as [_ ->]. right. apply Qle_refl.
  - destruct (exists_last Hb) as (b' & y & ->). rewrite app_comm_cons, app_assoc in Hw. apply app_inj_tail in Hw as [-> ->]. left.
    destruct (Hu a x b' eq_refl) as [(z & Hz & Hd)|Hl]; [exists z | exists y]; (split; [apply in_or_app; simpl; auto | auto]).
Qed.

Lemma eq_str_dget d k t : eq_str (dget d k VNone) t = true -> dict_get k d = Some (VStr t).
Proof. unfold dget. destruct (dict_get k d) as [v|]; simpl; [|done]. intros He. apply eq_str_true in He as ->. done. Qed.
Lemma prior_cases d now p : prior_slot (VDict d) now = Ok p ->
  dict_get "receiver_boot" p = Some (VStr (rd_boot now)) /\
  (dict_get "verdict" p = None \/ (p = d /\ (num_val (dget p "last_new" VNone) <= rd_mono now)%Q)).
Proof.
  unfold prior_slot. simpl as_dict. cbv zeta. intros Hp.
  set (e := if eq_str (dget d "receiver_boot" VNone) (rd_boot now) then d else new_slot now) in Hp.
  assert (dict_get "receiver_boot" e = Some (VStr (rd_boot now)) /\ (dict_get "verdict" e = None \/ e = d)) as [Hb Hv].
  { subst e. destruct (eq_str _ _) eqn:Eb; [apply eq_str_dget in Eb; auto | auto]. }
  clearbody e. inv_ok Hp. case_in Hp; [injection Hp as <-; auto|]. inv_ok Hp. bools.
  match type of Hp with Ok (if ?b then _ else _) = _ => destruct b end; injection Hp as <-.
  - rewrite !dict_get_pop. simpl. auto.
  - split; [done|]. destruct Hv as [Hv| ->]; [by left | right; by destruct_and!].
Qed.

(** A sample that starts a row of its own. *)
Lemma row_start l f i : q_valid (in_sample i) = true -> dict_get "receiver_boot" (sf_prior f) = Some (VStr (rd_boot (in_now i))) ->
  sf_new f = true -> contiguous max_gap (sf_prior f) (in_verdict i) (sf_changed f) (in_now i) = false ->
  row (l ++ [i]) (slot_update max_gap f (in_sample i) (in_verdict i) (in_now i)) (in_verdict i).
Proof.
  intros Hv Hb Hnew Hcont. unfold slot_update. rewrite Hnew, Hcont. cbv zeta. cbv iota.
  exists l, i, [], i, (rd_boot (in_now i)), 1. slot_get.
  split; [done|]. split; [by left|]. split; [done|]. split; [split; apply Forall_singleton; [unfold of_source; auto | by left]|].
  split; [|split_and!; try done; try apply Qle_refl; lia].
  intros a x b Hw. destruct a as [|a0 a]; [|by destruct a]. injection Hw as <- <-. right. apply Qle_refl.
Qed.

Lemma contiguous_true prior verdict changed now : contiguous max_gap prior verdict changed now = true ->
  dict_get "verdict" prior = Some (VStr verdict) /\ changed = false /\ (rd_mono now - num_val (dget prior "last_new" VNone) <= max_gap)%Q.
Proof.
  unfold contiguous. intros Hc. apply andb_true_iff in Hc as [Hc Hn]. apply andb_true_iff in Hc as [Hv Hr].
  apply eq_str_dget in Hv. unfold in_range in Hr. bools. destruct_and!. split_and!; done.
Qed.
(** A sample that continues the row. *)
Lemma row_continue l f i (prior := sf_prior f) : row l prior (in_verdict i) -> dict_get "receiver_boot" prior = Some (VStr (rd_boot (in_now i))) ->
  q_valid (in_sample i) = true -> py_eq (dget prior "source_identity" VNone) (identity_value (in_sample i)) = true ->
  (slot_mono prior < source_of i)%Q -> sf_new f = true -> contiguous max_gap prior (in_verdict i) (sf_changed f) (in_now i) = true ->
  row (l ++ [i]) (slot_update max_gap f (in_sample i) (in_verdict i) (in_now i)) (in_verdict i).
Proof.
  intros (pre & first & mid & last & boot & n & -> & Hin & Hv & Hrow & Hu & Hb & Hid & Hs & Hss & Hls & Hm & Hl & Hc & Hle & Hlt) Hb' Hval Hsame Hmono Hnew Hcont.
  fold prior in Hcont. rewrite Hb in Hb'. injection Hb' as ->. rewrite (dget_some _ _ _ _ Hid) in Hsame. apply identity_eq in Hsame.
  unfold slot_mono in Hmono. rewrite (dget_some _ _ _ _ Hm) in Hmono. simpl in Hmono.
  unfold slot_update. fold prior. rewrite Hnew, Hcont. cbv zeta. cbv iota. apply contiguous_true in Hcont as (_ & _ & Hgap).
  rewrite (dget_some _ _ _ _ Hl) in Hgap. simpl in Hgap. rewrite (dget_some _ _ _ _ Hs), (dget_some _ _ _ _ Hss), (dget_some _ _ _ _ Hc).
  exists pre, first, (mid ++ [i]), i, (rd_boot (in_now i)), (n + 1). rewrite <-app_assoc. change (first :: mid ++ [i]) with ((first :: mid) ++ [i]).
  split; [done|]. split; [apply in_or_app; right; by left|]. split; [done|].
  split; [rewrite <-Hsame; apply row_extend; [done | unfold of_source; auto | by left]|].
  split; [eapply unbroken_extend; [exact Hu|]; intros x Hx; lra|]. slot_get. split_and!; try done; lra.
Qed.
(** A repeated sample leaves the row as it is. *)
Lemma row_repeat l d i verdict : row l d verdict -> dict_get "receiver_boot" d = Some (VStr (rd_boot (in_now i))) ->
  q_valid (in_sample i) = true -> py_eq (dget d "source_identity" VNone) (identity_value (in_sample i)) = true ->
  (num_val (dget d "last_new" VNone) <= rd_mono (in_now i))%Q -> (slot_mono d <= source_of i)%Q ->
  (dict_get "last_sample" d = Some (VStr (q_sample (in_sample i))) \/ (source_of i <= slot_mono d)%Q) -> row (l ++ [i]) d verdict.
Proof.
  intros (pre & first & mid & last & boot & n & -> & Hin & Hv & Hrow & Hu & Hb & Hid & Hs & Hss & Hls & Hm & Hl & Hc & Hle & Hlt) Hb' Hval Hsame Hnow Hge Hrep.
  rewrite Hb in Hb'. injection Hb' as ->. rewrite (dget_some _ _ _ _ Hid) in Hsame. apply identity_eq in Hsame.
  unfold slot_mono in *. rewrite (dget_some _ _ _ _ Hm) in Hge, Hrep. rewrite (dget_some _ _ _ _ Hl) in Hnow. simpl in Hge, Hrep, Hnow.
  exists pre, first, (mid ++ [i]), last, (rd_boot (in_now i)), n. rewrite <-app_assoc. change (first :: mid ++ [i]) with ((first :: mid) ++ [i]).
  split; [done|]. split; [apply in_or_app; by left|]. split; [done|]. split.
  - apply row_extend; [done | unfold of_source; auto|]. right. exists last. split; [apply in_or_app; by left|]. split; [done|].
    destruct Hrep as [Hr|Hr]; [left; rewrite Hls in Hr; by injection Hr | right; lra].
  - split; [|by split_and!]. intros a x b Hw. destruct b as [|y0 b0] eqn:Eb.
    + apply app_inj_tail in Hw as [_ <-]. by right.
    + rewrite <-Eb in *. assert (b <> []) as Hne by (by rewrite Eb). clear Eb. destruct (exists_last Hne) as (b' & y & ->).
      rewrite app_comm_cons, app_assoc in Hw. apply app_inj_tail in Hw as [Hw _].
      destruct (Hu a x b' Hw) as [(z & Hz & Hd)|Hx]; [left; exists z; split; [apply in_or_app; by left | done] | by right].
Qed.

Lemma unknown_ok l f i : sf_new f = false -> negb (sf_fresh f) || sf_regressed f = true ->
  slot_ok l (slot_update max_gap f (in_sample i) (in_verdict i) (in_now i)).
Proof. intros Hn Hr. unfold slot_update. rewrite Hn, Hr. cbv zeta. split. slot_get. intros v [= <-]. by left. Qed.
(** A valid sample that is not new and does not go back. *)
Lemma repeated d i (f := step_facts_of d (in_sample i) (in_verdict i)) :
  sf_fresh f = true -> sf_new f = false -> sf_regressed f = false ->
  q_valid (in_sample i) = true /\ in_verdict i ∈ ["BAD"; "GOOD"] /\ py_eq (dget d "source_identity" VNone) (identity_value (in_sample i)) = true /\
  sf_prior f = d /\
  (has_key "source_mono" d = true -> (slot_mono d <= source_of i)%Q /\
   (dict_get "last_sample" d = Some (VStr (q_sample (in_sample i))) \/ (source_of i <= slot_mono d)%Q)).
Proof.
  intros Hf Hn Hr. unfold f, step_facts_of in Hf, Hn, Hr |- *. clear f. simpl in *. rewrite Hf in Hn, Hr. simpl in Hn, Hr.
  destruct (py_eq (dget d "source_identity" VNone) (identity_value (in_sample i))) eqn:Es; simpl in *; [|done]. rewrite andb_false_r in *.
  bools. destruct_and!. split; [done|]. split; [done|]. split; [done|]. split; [done|]. intros Hk.
  split; [destruct Hr; [congruence | done] | destruct Hn as [Hn|Hn]; [left; by apply eq_str_dget | by right]].
Qed.

Lemma prior_boot d s v : dict_get "receiver_boot" (sf_prior (step_facts_of d s v)) = dict_get "receiver_boot" d.
Proof. unfold step_facts_of. simpl. case_match; slot_get; done. Qed.

(** The slot after an input; a new sample ends a row of its verdict. *)
Lemma slot_after l d i (f := step_facts_of d (in_sample i) (in_verdict i)) (d' := slot_update max_gap f (in_sample i) (in_verdict i) (in_now i)) :
  slot_ok l d -> dict_get "receiver_boot" d = Some (VStr (rd_boot (in_now i))) ->
  (dict_get "verdict" d = None \/ (num_val (dget d "last_new" VNone) <= rd_mono (in_now i))%Q) ->
  slot_ok (l ++ [i]) d' /\ (sf_new f = true -> row (l ++ [i]) d' (in_verdict i)).
Proof.
  intros Hok Hb Hnow. assert (sf_new f = true -> row (l ++ [i]) d' (in_verdict i)) as Hrow; [|split; [|done]].
  - intros Hnew. assert (q_valid (in_sample i) = true /\ in_verdict i ∈ ["BAD"; "GOOD"]) as [Hval Hv].
    { unfold f, step_facts_of in Hnew. simpl in Hnew. bools. destruct_and!. done. }
    assert (dict_get "receiver_boot" (sf_prior f) = Some (VStr (rd_boot (in_now i)))) as Hb'.
    { unfold f. by rewrite prior_boot. }
    destruct (contiguous max_gap (sf_prior f) (in_verdict i) (sf_changed f) (in_now i)) eqn:Ec; [|by apply row_start].
    pose proof (contiguous_true _ _ _ _ Ec) as (Hg & Hch & _). pose proof Hnew as Hnew0. unfold f, step_facts_of in Hg, Hch, Hnew. simpl in Hg, Hch, Hnew. rewrite Hch in Hg, Hnew.
    destruct (py_eq (dget d "source_identity" VNone) (identity_value (in_sample i))) eqn:Es; simpl in Hch, Hnew.
    + assert (sf_prior f = d) as Hp by (unfold f, step_facts_of; simpl; by rewrite Es, andb_false_r).
      assert (row l d (in_verdict i)) as Hr.
      { destruct Hok as [Hok]. destruct (Hok _ Hg) as [[= Hu]|(v & [= <-] & Hr)]; [rewrite Hu in Hv; set_solver | done]. }
      assert (slot_mono d < source_of i)%Q as Hm by (clear -Hnew; bools; by destruct_and?).
      rewrite Hp in Ec. apply row_continue; by rewrite ?Hp.
    + exfalso. rewrite andb_true_r in Hch. apply negb_false_iff in Hch. destruct (dget d "source_identity" VNone) eqn:Ed; try discriminate Hch.
      destruct Hok as [Hok]. destruct (Hok _ Hg) as [[= Hu]|(v & [= <-] & Hr)]; [rewrite Hu in Hv; set_solver|].
      destruct Hr as (? & ? & ? & ? & ? & ? & _ & _ & _ & _ & _ & _ & Hid & _). unfold dget in Ed. by rewrite Hid in Ed.
  - destruct (sf_new f) eqn:Hnew.
    { split. intros v Hg. unfold d', slot_update in Hg. rewrite Hnew in Hg. cbv zeta iota in Hg. revert Hg. slot_get. intros [= <-]. right. eauto. }
    destruct (negb (sf_fresh f) || sf_regressed f) eqn:Hr; [by apply unknown_ok|].
    apply orb_false_iff in Hr as [Hf Hr]. apply negb_false_iff in Hf.
    destruct (repeated _ _ Hf Hnew Hr) as (Hval & Hv & Hsame & Hprior & Hrep). fold f in Hprior.
    assert (d' = d) as -> by (unfold d', slot_update; by rewrite Hnew, Hf, Hr, Hprior).
    split. intros v Hg. destruct Hok as [Hok]. destruct (Hok v Hg) as [Hu|(verdict & -> & Hrow')]; [by left|]. right. exists verdict. split; [done|].
    destruct Hrep as [Hge Hrep]. { destruct Hrow' as (? & ? & ? & ? & ? & ? & _ & _ & _ & _ & _ & _ & _ & _ & _ & _ & Hm & _). unfold has_key. by rewrite Hm. }
    apply row_repeat; try done. destruct Hnow; [congruence | done].
Qed.
(** What a verdict that is ready says of the new slot. *)
Lemma advance_parts d i o (hold := if String.eqb (in_verdict i) "BAD" then bad_hold else good_hold) :
  advance (VDict d) (in_sample i) (in_verdict i) (in_now i) = Ok o -> exists p (f := step_facts_of p (in_sample i) (in_verdict i)),
  prior_slot (VDict d) (in_now i) = Ok p /\ fst (fst o) = slot_update max_gap f (in_sample i) (in_verdict i) (in_now i) /\
  (snd (fst o) <> "UNKNOWN" -> sf_new f = true /\ sf_fresh f = true /\ snd (fst o) = in_verdict i /\
   (hold <= elapsed (fst (fst o)) f (in_sample i) (in_now i))%Q /\
   ((in_verdict i = "BAD" /\ (bad_hold == 0)%Q) \/ 2 <= int_val (dget (fst (fst o)) "count" (VInt 0)))).
Proof.
  unfold advance_slot. destruct (prior_slot (VDict d) (in_now i)) as [p|]; [|done]. unfold rbind. intros Ho. exists p. revert Ho.
  generalize (step_facts_of p (in_sample i) (in_verdict i)). intros f [= <-]. split; [done|]. cbn [fst snd]. split; [done|].
  match goal with |- (if ?b then _ else _) <> _ -> _ => destruct b eqn:Eb; [intros _ | done] end.
  apply andb_true_iff in Eb as [Eb Hcount]. apply andb_true_iff in Eb as [Eb He]. apply andb_true_iff in Eb as [Eb _]. apply andb_true_iff in Eb as [Hf Hn].
  split; [done|]. split; [done|]. split; [done|]. split; [by apply Qleb_true|].
  apply orb_true_iff in Hcount as [Hc|Hc]; [left | right; by apply Z.leb_le].
  apply andb_true_iff in Hc as [Hb Hz]. split; [by apply String.eqb_eq | by apply Qeq_bool_iff].
Qed.
Lemma prior_ok l d now p : slot_ok l d -> prior_slot (VDict d) now = Ok p -> slot_ok l p.
Proof. intros Hok Hp. apply prior_cases in Hp as [_ [Hn|[-> _]]]; [split; intros v Hv; congruence | done]. Qed.
Lemma slots_ok l : forall d, slots l = Ok d -> slot_ok l d.
Proof.
  induction l as [|i l IH] using rev_ind; intros d Hd; [injection Hd as <-; by split|].
  rewrite slots_snoc in Hd. unfold step in Hd. destruct (slots l) as [d0|] eqn:E0; [|done]. inv_ok Hd. injection Hd as <-.
  match goal with H : advance _ _ _ _ = Ok ?o |- _ => apply advance_parts in H as (p & Hp & -> & _) end.
  apply prior_ok with (l := l) in Hp as Hok; [|by apply IH]. apply prior_cases in Hp as [Hb Hv]. apply slot_after; [done..|].
  destruct Hv as [Hv|[_ Hv]]; [by left | by right].
Qed.

Lemma new_fields f i (d' := slot_update max_gap f (in_sample i) (in_verdict i) (in_now i)) : sf_new f = true ->
  dict_get "source_identity" d' = Some (identity_value (in_sample i)) /\ dict_get "source_mono" d' = Some (qv (source_of i)) /\
  dict_get "last_new" d' = Some (qv (mono_of i)) /\ dict_get "receiver_boot" d' = dict_get "receiver_boot" (sf_prior f).
Proof. intros Hn. unfold d', slot_update. rewrite Hn. cbv zeta iota. slot_get. done. Qed.

(** C12: a verdict is earned.  Along any sequence of samples advanced through the slot, one that is reported BAD or
    GOOD ends an unbroken row: samples of one source on one boot that are all valid, all carry that verdict (or
    repeat one that does) and leave no gap above [max_gap] on the receiver's clock; the row spans the verdict's hold
    on the receiver's clock and on the source's own, and holds two samples at different source times, except for a
    failure without a hold. *)
Theorem verdict_is_earned l d i o (hold := if String.eqb (in_verdict i) "BAD" then bad_hold else good_hold) :
  slots l = Ok d -> advance_slot bad_hold good_hold max_gap lost_after (VDict d) (in_sample i) (in_verdict i) (in_now i) = Ok o ->
  snd (fst o) <> "UNKNOWN" -> snd (fst o) = in_verdict i /\ exists pre first mid,
  l ++ [i] = pre ++ first :: mid /\
  unbroken_row (in_verdict i) (rd_boot (in_now i)) (identity_value (in_sample i)) (first :: mid) /\ unbroken (mono_of i) (first :: mid) /\
  (hold <= mono_of i - mono_of first)%Q /\ (hold <= source_of i - source_of first)%Q /\
  ((in_verdict i = "BAD" /\ (bad_hold == 0)%Q) \/ (source_of first < source_of i)%Q).
Proof.
  intros Hd Ho Hr. apply advance_parts in Ho as (p & Hp & Hs & Hready). destruct (Hready Hr) as (Hnew & Hfresh & Hv & Hhold & Hcount). split; [done|].
  apply prior_ok with (l := l) in Hp as Hok; [|by apply slots_ok]. apply prior_cases in Hp as [Hb Hln].
  destruct (slot_after l p i Hok Hb) as [_ Hrow]; [destruct Hln as [?|[_ ?]]; auto|].
  rewrite Hs in Hhold, Hcount. specialize (Hrow Hnew). revert Hrow Hhold Hcount. fold hold.
  unfold elapsed. rewrite Hfresh.
  intros (pre & first & mid & last & boot & n & Hl & Hin & _ & Hrow & Hu & Hbo & Hid & Hsi & Hss & _ & Hsm & Hla & Hc & Hle & Hlt).
  rewrite (dget_some _ _ _ _ Hsi), (dget_some _ _ _ _ Hss), (dget_some _ _ _ _ Hc). simpl. intros Hhold Hcount.
  destruct (new_fields (step_facts_of p (in_sample i) (in_verdict i)) i Hnew) as (Fid & Fsm & Fla & Fbo).
  rewrite Hid in Fid. rewrite Hsm in Fsm. rewrite Hla in Fla. rewrite Hbo, prior_boot, Hb in Fbo.
  injection Fid as Fid1 Fid2 Fid3. injection Fsm as Fsm. injection Fla as Fla. injection Fbo as ->.
  assert (identity_value (in_sample last) = identity_value (in_sample i)) as Hidl by (unfold identity_value; congruence).
  exists pre, first, mid. rewrite <-Hidl, <-Fla, <-Fsm. split; [done|]. split; [done|]. split; [done|].
  assert (forall x y z, (x <= qmin y z)%Q -> (x <= y)%Q /\ (x <= z)%Q) as Hmin by (clear; intros; split; qsolve).
  rewrite <-Fla, <-Fsm in Hhold. apply Hmin in Hhold as [Hh1 Hh2]. split; [done|]. split; [done|].
  destruct Hcount as [Hc0|Hc0]; [by left | right; by apply Hlt].
Qed.
End Earned.

(** Three good samples of one probe, fifteen seconds apart, under a hold of twenty. *)
Definition good_at (token : string) (t : Q) : input :=
  mkInput (mkQualified "VALID" "observation_fresh" "rtmp-ingest-probe" "relay" "boot-b" token (100 + t) (Some 0%Q) "VERIFIED") "GOOD"
          (mkReading (1700000000 + t) (500 + t) "monitor" "boot-a" "m" 0).
Definition good_row : list input := [good_at "s1" 0; good_at "s2" 15].
Definition good_slot : dict := Eval vm_compute in match slots 0 20 30 90 good_row with Ok d => d | Err _ => [] end.
Definition good_outcome : res (dict * string * bool) := Eval vm_compute in
  advance_slot 0 20 30 90 (VDict good_slot) (in_sample (good_at "s3" 30)) "GOOD" (in_now (good_at "s3" 30)).
Lemma verdict_is_earned_witness : exists o pre first mid,
  slots 0 20 30 90 good_row = Ok good_slot /\ good_outcome = Ok o /\ snd (fst o) = "GOOD" /\
  good_row ++ [good_at "s3" 30] = pre ++ first :: mid /\ (20 <= 530 - mono_of first)%Q /\ (source_of first < 130)%Q.
Proof.
  assert (slots 0 20 30 90 good_row = Ok good_slot) as Hd by (vm_compute; reflexivity).
  destruct good_outcome as [o|] eqn:Ho; [|vm_compute in Ho; discriminate Ho]. exists o.
  assert (snd (fst o) = "GOOD") as Hr by (vm_compute in Ho; injection Ho as <-; reflexivity).
  destruct (verdict_is_earned 0 20 30 90 good_row good_slot (good_at "s3" 30) o Hd) as (_ & pre & first & mid & Hl & _ & _ & Hh & _ & Hs);
    [rewrite <-Ho; vm_compute; reflexivity | by rewrite Hr|].
  exists pre, first, mid. split; [done|]. split; [done|]. split; [done|]. split; [done|].
  split; [exact Hh | destruct Hs as [[Hs _]|Hs]; [discriminate Hs | exact Hs]].
Defined.
End ObservationProperties.
