(* ===== verification/YtConfig.v ===== *)
(** * YouTube watchdog: configuration and probe results

    Models src/watchers/youtube_watchdog_config.py.  The environment is a class
    operation, read once as the module does; every constant is the definition of the
    same name.  Paths of files are not modelled: each file has its own name in
    YtWorld.v. *)
From S2P Require Import Prelude PyVal FastPolicy.

(** [os.environ] *)
Class Environ := environ : string -> option string.

Section Config.
Context `{Environ}.
Definition env (name dflt : string) : string := strip (default dflt (environ name)).
Definition int_env (name : string) (dflt : Z) : Z := default dflt (int_of_str (env name (str_Z dflt))).

Definition LIVE_URL : string := env "YTW_LIVE_URL" "".
Definition API_KEY : string := env "YTW_API_KEY" "".
Definition VIDEO_ID : string := env "YTW_VIDEO_ID" "".
Definition CHANNEL_ID : string := env "YTW_CHANNEL_ID" "".
Definition STREAM_SERVICE : string := env "YTW_STREAM_SERVICE" "adsb-streamnew-youtube-stream.service".
Definition MAX_FAILS : Z := Z.max 1 (int_env "YTW_MAX_FAILS" 3).
Definition STARTUP_GRACE_SEC : Z := Z.max 0 (int_env "YTW_STARTUP_GRACE_SEC" 30).
Definition OK_LOG_EVERY_SEC : Z := Z.max 0 (int_env "YTW_OK_LOG_EVERY_SEC" 300).
Definition ENFORCE_RESTART : bool := String.eqb (env "YTW_ENFORCE_RESTART" "0") "1".
Definition RESTART_COOLDOWN_SEC : Z := Z.max 60 (int_env "YTW_RESTART_COOLDOWN_SEC" 180).
Definition MIN_RESTART_UPTIME_SEC : Z := Z.max 0 (int_env "YTW_MIN_RESTART_UPTIME_SEC" 120).
Definition RECOVERING_GRACE_SEC : Z := Z.max 0 (int_env "YTW_RECOVERING_GRACE_SEC" 60).
Definition RESTART_BUDGET_HOURLY : Z := Z.max 1 (int_env "YTW_RESTART_BUDGET_HOURLY" 3).
Definition RESTART_BUDGET_DAILY : Z := Z.max 1 (int_env "YTW_RESTART_BUDGET_DAILY" 12).
Definition RESTART_BUDGET_RELEASE_RECONFIRM_SEC : Z := Z.max 0 (int_env "YTW_RESTART_BUDGET_RELEASE_RECONFIRM_SEC" 300).
Definition RESTART_BUDGET_EMERGENCY_OVERRIDE_SEC : Z := Z.max 0 (int_env "YTW_RESTART_BUDGET_EMERGENCY_OVERRIDE_SEC" 90).
Definition EVIDENCE_DATA_API_TTL_SEC : Z := Z.max 5 (int_env "YTW_EVIDENCE_DATA_API_TTL_SEC" 60).
Definition EVIDENCE_OAUTH_TTL_SEC : Z := Z.max 5 (int_env "YTW_EVIDENCE_OAUTH_TTL_SEC" 60).
Definition EVIDENCE_WATCH_TTL_SEC : Z := Z.max 5 (int_env "YTW_EVIDENCE_WATCH_TTL_SEC" 60).
Definition EVIDENCE_RESOLVER_TTL_SEC : Z := Z.max 5 (int_env "YTW_EVIDENCE_RESOLVER_TTL_SEC" 150).
Definition EVIDENCE_INGEST_TTL_SEC : Z := Z.max 1 (int_env "YTW_EVIDENCE_INGEST_TTL_SEC" 15).
Definition EVIDENCE_API_COST_TTL_SEC : Z := Z.max 5 (int_env "YTW_EVIDENCE_API_COST_TTL_SEC" 120).
Definition PUBLIC_LIVE_PROBE_ENABLE : bool := String.eqb (env "YTW_PUBLIC_LIVE_PROBE_ENABLE" "1") "1".
Definition VIDEO_RESOLVER_MAX_AGE_SEC : Z := Z.max 5 (int_env "YTW_VIDEO_RESOLVER_MAX_AGE_SEC" 120).
Definition URL_PRESERVATION_WINDOW_SEC : Z := Z.max 0 (int_env "YTW_URL_PRESERVATION_WINDOW_SEC" 180).
Definition VIDEO_ID_CONFIGURED_FALLBACK_BOOT_SEC : Z := Z.max 0 (int_env "YTW_VIDEO_ID_CONFIGURED_FALLBACK_BOOT_SEC" 120).
Definition INGEST_TCP_PORT : Z := Z.max 1 (int_env "YTW_INGEST_TCP_PORT" 1935).
Definition INGEST_TCP_PORTS_RAW : string := env "YTW_INGEST_TCP_PORTS" "".
Definition OAUTH_ENABLE : bool := String.eqb (env "YTW_OAUTH_ENABLE" "0") "1".
Definition OAUTH_SHADOW_MODE : bool := String.eqb (env "YTW_OAUTH_SHADOW_MODE" "1") "1".
Definition OAUTH_CLIENT_ID : string := env "YTW_OAUTH_CLIENT_ID" "".
Definition OAUTH_CLIENT_SECRET : string := env "YTW_OAUTH_CLIENT_SECRET" "".
Definition OAUTH_REFRESH_TOKEN : string := env "YTW_OAUTH_REFRESH_TOKEN" "".
Definition OAUTH_MIN_TOKEN_TTL_SEC : Z := Z.max 30 (int_env "YTW_OAUTH_MIN_TOKEN_TTL_SEC" 90).
Definition OAUTH_PROBE_MIN_INTERVAL_SEC : Z := Z.max 0 (int_env "YTW_OAUTH_PROBE_MIN_INTERVAL_SEC" 120).
Definition OAUTH_REQUIRE_CHANNEL_MATCH : bool := String.eqb (env "YTW_OAUTH_REQUIRE_CHANNEL_MATCH" "1") "1".
Definition QUOTA_EXHAUSTED_COOLDOWN_SEC : Z := Z.max 60 (int_env "YTW_QUOTA_EXHAUSTED_COOLDOWN_SEC" 21600).
Definition QUOTA_RESET_MARGIN_SEC : Z := Z.max 0 (int_env "YTW_QUOTA_RESET_MARGIN_SEC" 300).
Definition DATA_API_CHECK_MIN_INTERVAL_SEC : Z := Z.max 0 (int_env "YTW_DATA_API_CHECK_MIN_INTERVAL_SEC" 120).
Definition API_COST_BURN_RATE_ENABLE : bool := String.eqb (env "YTW_API_COST_BURN_RATE_ENABLE" "1") "1".
Definition API_COST_BURN_RATE_THRESHOLD_UNITS_PER_DAY : Z := Z.max 0 (int_env "YTW_API_COST_BURN_RATE_THRESHOLD_UNITS_PER_DAY" 9000).
Definition API_COST_BURN_RATE_MIN_ELAPSED_SEC : Z := Z.max 60 (int_env "YTW_API_COST_BURN_RATE_MIN_ELAPSED_SEC" 1800).
Definition API_COST_BURN_RATE_MAX_AGE_SEC : Z := Z.max 30 (int_env "YTW_API_COST_BURN_RATE_MAX_AGE_SEC" 1800).
Definition API_COST_BURN_RATE_CLOCK_SKEW_ALLOW_SEC : Z := Z.max 0 (int_env "YTW_API_COST_BURN_RATE_CLOCK_SKEW_ALLOW_SEC" 120).
Definition API_COST_BURN_RATE_FAIL_CLOSED : bool := String.eqb (env "YTW_API_COST_BURN_RATE_FAIL_CLOSED" "1") "1".
Definition API_COST_BURN_RATE_OAUTH_MIN_INTERVAL_SEC : Z := Z.max 0 (int_env "YTW_API_COST_BURN_RATE_OAUTH_MIN_INTERVAL_SEC" 600).
Definition API_COST_BURN_RATE_DATA_API_MIN_INTERVAL_SEC : Z := Z.max 0 (int_env "YTW_API_COST_BURN_RATE_DATA_API_MIN_INTERVAL_SEC" 600).
Definition OAUTH_STREAM_STATUS_REQUIRED : bool := String.eqb (env "YTW_OAUTH_STREAM_STATUS_REQUIRED" "1") "1".
Definition RESTART_FAILURE_BACKOFF_SEC : Z := Z.max 0 (int_env "YTW_RESTART_FAILURE_BACKOFF_SEC" 300).
Definition FORCE_LIVE_ON_UPCOMING_ONCE : bool := String.eqb (env "YTW_FORCE_LIVE_ON_UPCOMING_ONCE" "0") "1".
Definition FORCE_LIVE_AUTO_RECOVERY : bool := String.eqb (env "YTW_FORCE_LIVE_AUTO_RECOVERY" "0") "1".
Definition FORCE_LIVE_ALLOW_REPLACEMENT_BROADCAST : bool := String.eqb (env "YTW_FORCE_LIVE_ALLOW_REPLACEMENT_BROADCAST" "0") "1".
Definition FORCE_LIVE_MIN_FAILS : Z := Z.max 1 (int_env "YTW_FORCE_LIVE_MIN_FAILS" MAX_FAILS).
Definition FORCE_LIVE_REQUIRE_INGEST : bool := String.eqb (env "YTW_FORCE_LIVE_REQUIRE_INGEST" "1") "1".
Definition FORCE_LIVE_TARGET_STATUS : string := let s := lower (env "YTW_FORCE_LIVE_TARGET_STATUS" "live") in if String.eqb s "" then "live" else s.
Definition FORCE_LIVE_BROADCAST_ID : string := env "YTW_FORCE_LIVE_BROADCAST_ID" "".
Definition FORCE_LIVE_REQUIRE_OAUTH_STREAM_ACTIVE : bool := String.eqb (env "YTW_FORCE_LIVE_REQUIRE_OAUTH_STREAM_ACTIVE" "1") "1".
Definition FORCE_LIVE_CATEGORY_ID : string := env "YTW_FORCE_LIVE_CATEGORY_ID" "".
Definition FORCE_LIVE_REPLACEMENT_ENABLE_AUTO_STOP : bool := String.eqb (env "YTW_FORCE_LIVE_REPLACEMENT_ENABLE_AUTO_STOP" "0") "1".
Definition FORCE_LIVE_REPLACEMENT_ENABLE_AUTO_START : bool := String.eqb (env "YTW_FORCE_LIVE_REPLACEMENT_ENABLE_AUTO_START" "1") "1".
Definition FORCE_LIVE_MIN_STREAM_UPTIME_SEC : Z := Z.max 0 (int_env "YTW_FORCE_LIVE_MIN_STREAM_UPTIME_SEC" 45).
Definition FORCE_LIVE_REPLACEMENT_MIN_ELAPSED_SEC : Z := Z.max 0 (int_env "YTW_FORCE_LIVE_REPLACEMENT_MIN_ELAPSED_SEC" URL_PRESERVATION_WINDOW_SEC).
Definition FORCE_LIVE_BACKOFF_BASE_SEC : Z := Z.max 60 (int_env "YTW_FORCE_LIVE_BACKOFF_BASE_SEC" 900).
Definition FORCE_LIVE_BACKOFF_MAX_SEC : Z := Z.max FORCE_LIVE_BACKOFF_BASE_SEC (int_env "YTW_FORCE_LIVE_BACKOFF_MAX_SEC" 21600).
Definition FORCE_LIVE_BACKOFF_MAX_EXP : Z := Z.max 0 (int_env "YTW_FORCE_LIVE_BACKOFF_MAX_EXP" 6).
Definition FORCE_LIVE_MAX_ATTEMPTS_PER_DAY : Z := Z.max 1 (int_env "YTW_FORCE_LIVE_MAX_ATTEMPTS_PER_DAY" 24).
Definition FORCE_LIVE_SUCCESS_COOLDOWN_SEC : Z := Z.max 60 (int_env "YTW_FORCE_LIVE_SUCCESS_COOLDOWN_SEC" 1800).
Definition INCIDENT_CONFIRM_FAILS : Z := Z.max 1 (int_env "YTW_INCIDENT_CONFIRM_FAILS" 2).
End Config.

Record OAuthProbeResult : Type := mkOAuth {
  oa_enabled : bool; oa_configured : bool; oa_probe_ok : bool; oa_healthy : bool; oa_reason : string; oa_mode : string;
  oa_life_cycle_status : string; oa_broadcast_id : string; oa_video_id : string; oa_channel_id : string; oa_bound_stream_id : string;
  oa_stream_status : string; oa_stream_health_status : string; oa_stream_health_issues : Z; oa_stream_health_issue_details : list pyval;
  oa_stream_status_required : bool; oa_remote_checked : bool;
  oa_enable_auto_start : option bool; oa_enable_auto_stop : option bool; oa_monitor_stream_enabled : option bool }.
(** The fields without a default, and the defaults of the others. *)
Definition oauth_result (enabled configured probe_ok healthy : bool) (reason mode : string) (remote_checked : bool) : OAuthProbeResult :=
  mkOAuth enabled configured probe_ok healthy reason mode "" "" "" "" "" "" "" 0 [] false remote_checked None None None.
Record DataApiCheckResult : Type := mkDataApi { da_checked : bool; da_api_ok : bool; da_live_state : string; da_reason : string }.

(** ** Bounds of the constants *)
Section Bounds.
Context `{Environ}.
Lemma max_fails_positive : 1 <= MAX_FAILS.
Proof. unfold MAX_FAILS. lia. Qed.
Lemma restart_cooldown_positive : 60 <= RESTART_COOLDOWN_SEC.
Proof. unfold RESTART_COOLDOWN_SEC. lia. Qed.
Lemma budgets_positive : 1 <= RESTART_BUDGET_HOURLY /\ 1 <= RESTART_BUDGET_DAILY.
Proof. unfold RESTART_BUDGET_HOURLY, RESTART_BUDGET_DAILY. lia. Qed.
Lemma reconfirm_nonnegative : 0 <= RESTART_BUDGET_RELEASE_RECONFIRM_SEC.
Proof. unfold RESTART_BUDGET_RELEASE_RECONFIRM_SEC. lia. Qed.
End Bounds.
