(* ===== verification/YtWorld.v ===== *)
(** * YouTube watchdog: the process and its surroundings

    The files of the watchdog, the clock, the commands it runs and the replies of the
    API, with the file operations of src/watchers/youtube_watchdog_state.py.  A file
    holds the value its JSON text decodes to, none when it cannot be read.  [Stats],
    [Quota], [Token] and [Resolver] are written by other processes too: each reading
    says what they wrote in the meantime.  The paths, locks and temporary names of
    files, the console output and the reliability ledger next to the event log are
    not modelled. *)
From stdpp Require Import functions.
From S2P Require Import Prelude PyVal UtcTime FastPolicy YtConfig.
#[local] Open Scope x_scope.

(** ** Readings *)
Inductive yt_file : Type := State | Ledger | Stats | Heartbeat | Quota | Token | Force | Resolver | Reason.
#[export] Instance yt_file_eq_dec : EqDecision yt_file.
Proof. solve_decision. Defined.
Definition shared (f : yt_file) : bool := match f with Stats | Quota | Token | Resolver => true | _ => false end.

(** An HTTP exchange: the text of the answer, an error status with its body, or an exception. *)
Inductive reply : Type := Text (s : string) | Status (code : Z) (body : string) | Broken (e : exn).
(** A command: its exit status, standard output and standard error, or an exception. *)
Inductive run_reply : Type := Ran (returncode : Z) (stdout stderr : string) | RunError (e : exn).

Record yt_reading : Type := mkYtReading {
  yr_now : Q; yr_weather : weather; yr_others : list (yt_file * option pyval); yr_reply : reply; yr_run : run_reply;
  yr_restart : res (bool * string); yr_veto : bool; yr_cost : option (res pyval); yr_token : string; yr_stamp : res pyval }.

(** A call of the API. *)
Record api_call : Type := mkCall {
  ac_method : string; ac_endpoint : string; ac_token : string; ac_params : list (string * string); ac_body : option pyval }.
(** A restart of the stream that was ordered: the clock, and whether it succeeded. *)
Record restart_try : Type := mkTry { rt_at : Q; rt_reason : string; rt_ok : bool }.

(** The calls are kept with the reply each of them gets. *)
Record yt_world : Type := mkYt {
  y_files : yt_file -> option pyval; y_calls : list (api_call * reply); y_restarts : list restart_try; y_events : list dict; y_api_log : list dict;
  y_env : nat -> yt_reading; y_pos : nat; y_alive : bool }.
Definition with_files fs w := mkYt fs (y_calls w) (y_restarts w) (y_events w) (y_api_log w) (y_env w) (y_pos w) (y_alive w).
Definition set_file (f : yt_file) (v : option pyval) w := with_files (<[f := v]> (y_files w)) w.
Definition add_call c w := mkYt (y_files w) (y_calls w ++ [(c, yr_reply (y_env w (y_pos w)))]) (y_restarts w) (y_events w) (y_api_log w) (y_env w) (y_pos w) (y_alive w).
Definition add_restart r w := mkYt (y_files w) (y_calls w) (y_restarts w ++ [r]) (y_events w) (y_api_log w) (y_env w) (y_pos w) (y_alive w).
Definition add_event e w := mkYt (y_files w) (y_calls w) (y_restarts w) (y_events w ++ [e]) (y_api_log w) (y_env w) (y_pos w) (y_alive w).
Definition add_api_log e w := mkYt (y_files w) (y_calls w) (y_restarts w) (y_events w) (y_api_log w ++ [e]) (y_env w) (y_pos w) (y_alive w).
Definition killed w := mkYt (y_files w) (y_calls w) (y_restarts w) (y_events w) (y_api_log w) (y_env w) (y_pos w) false.
Definition next_reading w := mkYt (y_files w) (y_calls w) (y_restarts w) (y_events w) (y_api_log w) (y_env w) (S (y_pos w)) (y_alive w).
(** A new process on the same files. *)
Definition new_pass (readings : nat -> yt_reading) w := mkYt (y_files w) (y_calls w) (y_restarts w) (y_events w) (y_api_log w) readings 0 true.

(** ** Effects *)
Inductive yt_error : Type := HTTPError (code : Z) (body : string) | PyError (e : exn).
Notation Y := (Exec yt_world yt_error).
(** The text of an exception. *)
Class ExnText := exn_str : yt_error -> string.

Definition apply_other w (fv : yt_file * option pyval) := if shared (fst fv) then set_file (fst fv) (snd fv) w else w.
Definition sense : Y yt_reading := fun w =>
  let r := y_env w (y_pos w) in (Done r, fold_left apply_other (yr_others r) (next_reading w)).
Definition ylift {A} (m : res A) : Y A := match m with Ok a => xret a | Err e => xraise (PyError e) end.
(** [except HTTPError as e: http ... except Exception as e: other] *)
Definition except {A} (m : Y A) (http : Z -> string -> Y A) (other : exn -> Y A) : Y A :=
  xtry m (fun e => match e with HTTPError code body => http code body | PyError e => other e end).
Definition modify (f : yt_world -> yt_world) : Y unit := fun w => (Done tt, f w).
Definition read_file (f : yt_file) : Y (option pyval) := bind! _ := sense in fun w => (Done (y_files w f), w).
(** A write replaces the file as a whole; it can fail, and the process can die before it. *)
Definition writing (f : yt_world -> yt_world) : Y unit :=
  bind! r := sense in
  match yr_weather r with
  | Calm => modify f
  | Fault => xraise (PyError (EOS "OSError"))
  | Death => fun w => (Dead, killed w)
  end.
Definition write_file (f : yt_file) (v : pyval) : Y unit := writing (set_file f (Some v)).
(** [try: ... except Exception: pass] *)
Definition quietly (m : Y unit) : Y unit := xtry m (fun _ => xret tt).

Definition now : Y Q := bind! r := sense in xret (yr_now r).
Definition now_sec : Y Z := bind! t := now in xret (Qtrunc t).
(** [datetime.now(timezone.utc).isoformat(timespec="seconds")] with Z for the offset *)
Definition utc_seconds (t : Q) : string := (iso_seconds (Qfloor t) ++ "Z")%string.
Definition utc_now : Y string := bind! t := now in xret (utc_seconds t).
Definition veto : Y bool := bind! r := sense in xret (yr_veto r).
Definition run_cmd : Y run_reply := bind! r := sense in xret (yr_run r).
Definition fetch (c : api_call) : Y string :=
  bind! _ := modify (add_call c) in
  bind! r := sense in
  match yr_reply r with Text s => xret s | Status code body => xraise (HTTPError code body) | Broken e => xraise (PyError e) end.

(** ** Files of the watchdog *)
Section Files.
Definition dict_or_empty (v : option pyval) : dict := match v with Some (VDict d) => d | _ => [] end.
Definition _load_json_file_unlocked (f : yt_file) : Y dict := bind! v := read_file f in xret (dict_or_empty v).

Definition append_event (payload : dict) : Y unit :=
  bind! ts := utc_now in
  bind! r := sense in
  let event := dict_update [("ts_utc", VStr ts); ("event_id", VStr ("evt-ytw-" ++ str_Z (Qtrunc (yr_now r)) ++ "-" ++ yr_token r)%string)] payload in
  quietly (writing (add_event event)).

Definition initial_state : pyval :=
  VDict [("fail_count", VInt 0); ("degraded_public_count", VInt 0); ("last_reason", VStr ""); ("last_video_id_ts", VInt 0);
         ("last_restart_ts", VInt 0); ("restart_history_ts", VList [])].
Definition load_state : Y pyval := bind! v := read_file State in xret (default initial_state v).
Definition save_state (d : dict) : Y unit := write_file State (VDict d).
Definition load_oauth_token_state : Y dict := _load_json_file_unlocked Token.
Definition save_oauth_token_state (d : dict) : Y unit := write_file Token (VDict d).
Definition load_quota_state : Y dict := _load_json_file_unlocked Quota.
Definition save_quota_state (d : dict) : Y unit := write_file Quota (VDict d).
(** Under the lock of the file: nothing happens between the read and the write. *)
Definition update_quota_state {A} (updater : dict -> res (dict * A)) : Y A :=
  bind! r := sense in fun w =>
  match updater (dict_or_empty (y_files w Quota)) with
  | Err e => (Raised (PyError e), w)
  | Ok (d, a) =>
      match yr_weather r with
      | Calm => (Done a, set_file Quota (Some (VDict d)) w)
      | Fault => (Raised (PyError (EOS "OSError")), w)
      | Death => (Dead, killed w)
      end
  end.
Definition load_force_live_state : Y dict := _load_json_file_unlocked Force.
Definition save_force_live_state (d : dict) : Y unit := write_file Force (VDict d).
Definition load_video_resolver_state : Y dict := _load_json_file_unlocked Resolver.

Definition quota_exhausted_active (current : Z) : Y (bool * dict) :=
  bind! d := load_quota_state in
  if negb (truthy (dget d "quota_exhausted" (VBool false))) then xret (false, d) else
  bind! until_ts := ylift (int0 d "quota_exhausted_until_ts") in
  if (0 <? until_ts) && (until_ts <=? current) then
    bind! at_ := utc_now in
    let d := dict_update d [("quota_exhausted", VBool false); ("quota_exhausted_cleared_at_utc", VStr at_)] in
    bind! _ := save_quota_state d in xret (false, d)
  else xret (true, d).

(** [should_emit_ok_event], with the exceptions the caller reads as false. *)
Definition should_emit_ok_event `{Environ} : Y bool :=
  if OK_LOG_EVERY_SEC <=? 0 then xret true else
  bind! current := now_sec in
  bind! v := read_file Heartbeat in
  let last := match v with Some (VDict d) => match int0 d "last_ok_event_ts" with Ok z => z | Err _ => 0 end | _ => 0 end in
  if (0 <? last) && (current - last <? OK_LOG_EVERY_SEC) then xret false else
  bind! at_ := utc_now in
  bind! _ := write_file Heartbeat (VDict [("last_ok_event_ts", VInt current); ("updated_at_utc", VStr at_)]) in
  xret true.
Definition should_emit_ok_event_safe `{Environ} : Y bool := xtry should_emit_ok_event (fun _ => xret false).
End Files.
