(* ===== verification/YtApi.v ===== *)
(** * YouTube watchdog: the API, its quota and the probes

    Models src/watchers/youtube_api_lib/{quota,live_api,data_api,broadcasts,public_probe}.py,
    youtube_oauth/{config,token}.py and the probes of youtube_api.py.  A call of the
    API is a value of the trace [y_calls] and its reply a reading; the text of URLs,
    headers and request timeouts are not modelled.  [json.loads], [strptime], the
    time zone of the quota day and the text of exceptions are operations of classes. *)
From Stdlib Require Import Ascii.
From S2P Require Import Prelude PyVal UtcTime FastPolicy RemoteWarning YtConfig YtWorld.
#[local] Open Scope x_scope.

Class JsonLoads := json_loads : string -> res pyval.
(** [strptime] and [strftime] with %Y-%m-%dT%H:%M:%SZ; the former as seconds, 0 on text it rejects. *)
Class YtTime := mkYtTime { strptime_utc : string -> Z; strftime_utc : Q -> string }.
(** The next midnight of America/Los_Angeles. *)
Class PacificMidnight := next_quota_reset_ts_pacific : Z -> res Z.

(** ** Quota (quota.py) *)
Definition API_COST_UNITS : list (string * Z) :=
  [("search.list", 100); ("videos.list", 1); ("videos.update", 50); ("liveBroadcasts.list", 1); ("liveStreams.list", 1);
   ("liveBroadcasts.insert", 50); ("liveBroadcasts.bind", 50); ("liveBroadcasts.delete", 50); ("liveBroadcasts.transition", 50)].

Section Api.
Context `{Environ} `{Repr} `{ExnText} `{JsonLoads} `{YtTime} `{PacificMidnight}.

Definition _append_api_call_event (method status detail : string) (http_code : Z) (quota_exceeded : bool) (source : string) : Y unit :=
  bind! ts := utc_now in
  quietly (writing (add_api_log
    [("ts_utc", VStr ts); ("source", VStr (or_else source "youtube_api")); ("method", VStr method);
     ("cost_units", VInt (default 0 (dict_get method API_COST_UNITS))); ("status", VStr status);
     ("http_code", if http_code =? 0 then VNone else VInt http_code); ("quota_exceeded", VBool quota_exceeded);
     ("detail", VStr (str_take 320 detail))])).

(** The list [error.errors] of an error body. *)
Definition google_errors (detail : string) : option (list pyval) :=
  match json_loads (or_else detail "{}") with
  | Ok (VDict d) => match dget d "error" VNone with
                    | VDict err => match dget err "errors" VNone with VList l => Some l | _ => None end
                    | _ => None
                    end
  | _ => None
  end.
Definition error_reason (item : pyval) : string := match item with VDict d => text d "reason" | _ => "" end.
Definition has_reason (reasons : list string) (detail : string) : bool :=
  match google_errors detail with Some l => existsb (fun item => bool_decide (error_reason item ∈ reasons)) l | None => false end.
Definition _is_quota_exceeded_error (code : Z) (detail : string) : bool :=
  (code =? 403) && (contains "exceeded your quota" (lower detail) || has_reason ["quotaExceeded"; "dailyLimitExceeded"] detail).
Definition _is_rate_limited_error (code : Z) (detail : string) : bool :=
  ((code =? 403) || (code =? 429)) && (contains "rate limit" (lower detail) || has_reason ["rateLimitExceeded"; "userRateLimitExceeded"] detail).
Definition _extract_google_error_reason (detail : string) : string :=
  match google_errors detail with
  | Some l => default "" (List.find (fun s => negb (String.eqb s "")) (map error_reason l))
  | None => ""
  end.
Definition quoted (s : string) : string := String (ascii_of_nat 34) (s ++ String (ascii_of_nat 34) "")%string.
Definition _has_google_error_reason (detail reason : string) : bool :=
  let expected := strip reason in
  if String.eqb expected "" then false else
  String.eqb (_extract_google_error_reason detail) expected
  || contains (quoted "reason" ++ ": " ++ quoted expected)%string detail || contains (quoted "reason" ++ ":" ++ quoted expected)%string detail.

Definition quota_guard_until_ts_pacific (now_ts : Z) : res Z :=
  let! base := next_quota_reset_ts_pacific now_ts in
  Ok (if QUOTA_RESET_MARGIN_SEC <=? 0 then base else base + QUOTA_RESET_MARGIN_SEC).

Definition quota_guard_status (current : Z) : Y (bool * string) :=
  bind! active := quota_exhausted_active current in
  let '(active, d) := active in
  if negb active then xret (false, "quota guard inactive") else
  bind! until_ts := ylift (int0 d "quota_exhausted_until_ts") in
  let left := if 0 <? until_ts then Z.max 0 (until_ts - current) else 0 in
  let until_iso := if 0 <? until_ts then utc_seconds (inject_Z until_ts) else "-" in
  let source := or_else (text d "quota_exhausted_source") "unknown" in
  xret (true, ("quota exhausted guard active until " ++ until_iso ++ " (" ++ str_Z left ++ "s left, source=" ++ source ++ ")")%string).

Definition latched_reason (detail reason_hint : string) : string * string :=
  let reason := strip reason_hint in
  if negb (String.eqb reason "") then (reason, "google_error_reason")
  else if contains "daily limit" (lower detail) then ("dailyLimitExceeded", "google_error_reason_fallback")
  else if contains "exceeded your quota" (lower detail) then ("quotaExceeded", "message_fallback")
  else ("unknown", "message_fallback").
Definition latch_quota (source detail reason at_ : string) (current until_ts : Z) (state : dict) : res (dict * bool) :=
  let! since := int0 state "quota_exhausted_since_ts" in
  Ok (dict_update state
        [("quota_exhausted", VBool true); ("quota_exhausted_since_ts", VInt (if since <=? 0 then current else since));
         ("quota_exhausted_until_ts", VInt until_ts); ("quota_exhausted_source", VStr source); ("quota_exhausted_reason_code", VStr reason);
         ("quota_exhausted_reason", VStr (str_take 600 detail)); ("quota_exhausted_updated_at_utc", VStr at_)],
      truthy (dget state "quota_exhausted" (VBool false))).
Definition mark_quota_exhausted (source detail reason_hint : string) : Y string :=
  bind! current := now_sec in
  match (match quota_guard_until_ts_pacific current with
         | Ok until_ts => Some until_ts
         | Err _ => if QUOTA_EXHAUSTED_COOLDOWN_SEC <=? 0 then None else Some (current + QUOTA_EXHAUSTED_COOLDOWN_SEC)
         end) with
  | None => xret "quota guard disabled (no PT timezone and cooldown disabled)"
  | Some until_ts =>
      let '(reason, reason_source) := latched_reason detail reason_hint in
      bind! at_ := utc_now in
      bind! was_active := update_quota_state (latch_quota source detail reason at_ current until_ts) in
      bind! _ := (if was_active : bool then xret tt else
                  append_event [("event", VStr "youtube_quota_guard_activated"); ("reason", VStr reason); ("source", VStr reason_source);
                                ("quota_exhausted_source", VStr source); ("quota_exhausted_until_ts", VInt until_ts)]) in
      xret ("quota exhausted guard latched for " ++ str_Z (Z.max 0 (until_ts - current)) ++ "s (source=" ++ source ++ ")")%string
  end.
(** [f"{detail}; {quota_note}"] when the error is one of the quota *)
Definition with_quota (source : string) (code : Z) (body detail : string) : Y string :=
  if _is_quota_exceeded_error code body then
    bind! note := mark_quota_exhausted source detail (_extract_google_error_reason body) in xret (detail ++ "; " ++ note)%string
  else xret detail.

(** ** Calls with a token (live_api.py) *)
Definition METHOD_NAMES : list (string * string) :=
  [("GET liveBroadcasts", "liveBroadcasts.list"); ("GET liveStreams", "liveStreams.list");
   ("POST liveBroadcasts/transition", "liveBroadcasts.transition"); ("POST liveBroadcasts/bind", "liveBroadcasts.bind");
   ("INSERT liveBroadcasts", "liveBroadcasts.insert"); ("DELETE liveBroadcasts", "liveBroadcasts.delete"); ("PUT videos", "videos.update")].
Definition SUFFIXES : list (string * string) :=
  [("GET", "list"); ("POST", "post"); ("INSERT", "post_json"); ("DELETE", "delete"); ("PUT", "update")].
Definition _method_name (verb endpoint : string) : string :=
  default (endpoint ++ "." ++ default "" (dict_get verb SUFFIXES))%string (dict_get (verb ++ " " ++ endpoint)%string METHOD_NAMES).
Definition _record_http_error (code : Z) (body method source : string) : Y unit :=
  bind! detail := with_quota ("oauth_" ++ method)%string code body ("oauth " ++ method ++ " http " ++ str_Z code ++ ": " ++ str_take 240 body)%string in
  _append_api_call_event method "http_error" detail code (_is_quota_exceeded_error code body) source.
(** The exchange with its line in the call log; an error is logged and raised again. *)
Definition logged {A} (verb endpoint source : string) (exchange : Y A) : Y A :=
  let method := _method_name verb endpoint in
  bind! a := except exchange
    (fun code body => bind! _ := _record_http_error code body method source in xraise (HTTPError code body))
    (fun e => bind! _ := _append_api_call_event method "error" (exn_str (PyError e)) 0 false source in xraise (PyError e)) in
  bind! _ := _append_api_call_event method "ok" "" 0 false source in
  xret a.
Definition loads_or_empty (raw : string) : Y pyval := if String.eqb raw "" then xret (VDict []) else ylift (json_loads raw).
Definition api_get (endpoint token : string) (params : list (string * string)) : Y pyval :=
  logged "GET" endpoint "youtube_live_api_get" (bind! raw := fetch (mkCall "GET" endpoint token params None) in ylift (json_loads raw)).
Definition api_post (endpoint token : string) (params : list (string * string)) : Y pyval :=
  bind! raw := logged "POST" endpoint "youtube_live_api_post" (fetch (mkCall "POST" endpoint token params None)) in loads_or_empty raw.
Definition api_post_json (endpoint token : string) (params : list (string * string)) (body : pyval) : Y pyval :=
  bind! raw := logged "INSERT" endpoint "youtube_live_api_post_json" (fetch (mkCall "INSERT" endpoint token params (Some body))) in loads_or_empty raw.
Definition videos_api_update (token : string) (params : list (string * string)) (body : pyval) : Y pyval :=
  bind! raw := logged "PUT" "videos" "youtube_videos_api_update" (fetch (mkCall "PUT" "videos" token params (Some body))) in loads_or_empty raw.
Definition api_delete (endpoint token : string) (params : list (string * string)) : Y unit :=
  bind! _ := logged "DELETE" endpoint "youtube_live_api_delete" (fetch (mkCall "DELETE" endpoint token params None)) in xret tt.

(** ** The access token (config.py, token.py) *)
Definition oauth_is_configured : bool := negb (String.eqb OAUTH_CLIENT_ID "") && negb (String.eqb OAUTH_REFRESH_TOKEN "").
Definition refresh_form : list (string * string) :=
  [("client_id", OAUTH_CLIENT_ID); ("refresh_token", OAUTH_REFRESH_TOKEN); ("grant_type", "refresh_token")]
  ++ (if String.eqb OAUTH_CLIENT_SECRET "" then [] else [("client_secret", OAUTH_CLIENT_SECRET)]).
Definition post_form_json : Y pyval := bind! raw := fetch (mkCall "POST" "token" "" refresh_form None) in ylift (json_loads raw).
(** [int(payload.get(k, 0) or 0)] of any value *)
Definition int0v (v : pyval) (k : string) : res Z := let! x := getd v k (VInt 0) in py_int (py_or x (VInt 0)).
Definition textv (v : pyval) (k : string) : res string := let! x := getd v k (VStr "") in Ok (strip (py_str x)).
Definition store_token (now_ts : Z) (payload : pyval) : Y (string * string) :=
  bind! token := ylift (textv payload "access_token") in
  bind! expires_in := ylift (int0v payload "expires_in") in
  if String.eqb token "" || (expires_in <=? 0) then xret ("", "oauth token refresh returned no access token") else
  bind! kind := ylift (getd payload "token_type" (VStr "Bearer")) in
  bind! scope := ylift (getd payload "scope" (VStr "")) in
  bind! at_ := utc_now in
  bind! _ := save_oauth_token_state [("access_token", VStr token); ("expires_at", VInt (now_ts + expires_in)); ("token_type", VStr (py_str kind));
                                     ("scope", VStr (py_str scope)); ("updated_at_utc", VStr at_)] in
  xret (token, "oauth token refreshed").
(** The token and the reason; the expiry the callers ignore. *)
Definition get_oauth_access_token : Y (string * string) :=
  bind! now_ts := now_sec in
  if negb OAUTH_ENABLE then xret ("", "oauth disabled") else
  if negb oauth_is_configured then xret ("", "oauth not configured") else
  bind! state := load_oauth_token_state in
  let token := text state "access_token" in
  bind! expires_at := ylift (py_int (dget state "expires_at" (VInt 0))) in
  if negb (String.eqb token "") && (OAUTH_MIN_TOKEN_TTL_SEC <=? expires_at - now_ts) then xret (token, "oauth access token cached") else
  bind! payload := except (bind! p := post_form_json in xret (inl p))
    (fun code body => xret (inr ("oauth token refresh http " ++ str_Z code ++ ": " ++ str_take 240 body
        ++ (if contains "invalid_grant" body then " (refresh token invalid/expired or app test-user restriction)" else ""))%string))
    (fun e => xret (inr ("oauth token refresh failed: " ++ exn_str (PyError e))%string)) in
  match payload with inl p => store_token now_ts p | inr why => xret ("", why) end.

(** ** The Data API (data_api.py) *)
(** [payload.get(k, {}) or {}] *)
Definition sub (v : pyval) (k : string) : res pyval := let! x := getd v k (VDict []) in Ok (py_or x (VDict [])).
Definition first_item (items : pyval) : res pyval :=
  match items with VList (x :: _) => Ok x | VStr (String c _) => Ok (VStr (String c "")) | VDict _ => Err EKey | _ => Err EType end.
Definition data_api_verdict (payload : pyval) : res DataApiCheckResult :=
  let! items := getd payload "items" (VList []) in
  if negb (truthy items) then Ok (mkDataApi true false "none" "data api no items for video id") else
  let! first := first_item items in
  let item := if is_dict first then first else VDict [] in
  let! snippet := sub item "snippet" in
  let! details := sub item "liveStreamingDetails" in
  let! lbc := textv snippet "liveBroadcastContent" in
  if String.eqb lbc "live" then Ok (mkDataApi true true "live" "data api says live") else
  let! actual_start := textv details "actualStartTime" in
  let! actual_end := textv details "actualEndTime" in
  Ok (if negb (String.eqb actual_end "") then
        mkDataApi true false "ended" ("data api stream ended (lbc=" ++ or_else lbc "empty" ++ ", ended=" ++ actual_end ++ ")")%string
      else if String.eqb lbc "upcoming" then
        mkDataApi true false "upcoming" ("data api liveBroadcastContent=upcoming (actualStart=" ++ or_dash actual_start ++ ")")%string
      else if negb (String.eqb actual_start "") then
        mkDataApi true false "inconsistent_live_details"
          ("data api liveBroadcastContent=" ++ or_else lbc "empty" ++ " but actualStart exists (" ++ actual_start ++ ")")%string
      else mkDataApi true false (or_else lbc "none") ("data api liveBroadcastContent=" ++ or_else lbc "empty" ++ " (no live start)")%string).
Definition check_data_api (video_id api_key : string) : Y DataApiCheckResult :=
  if String.eqb video_id "" || String.eqb api_key "" then xret (mkDataApi false false "skipped" "data api check skipped") else
  let call := mkCall "GET" "videos" "" [("part", "snippet,liveStreamingDetails,status"); ("id", video_id); ("key", api_key)] None in
  let event := fun status detail code quota => _append_api_call_event "videos.list" status detail code quota "check_data_api" in
  bind! payload := except (bind! raw := fetch call in bind! p := ylift (json_loads raw) in bind! _ := event "ok" "" 0 false in xret (inl p))
    (fun code body =>
       let detail := ("data api http " ++ str_Z code ++ ": " ++ str_take 240 body)%string in
       bind! _ := event "http_error" detail code (_is_quota_exceeded_error code body) in
       bind! noted := with_quota "data_api_videos" code body detail in
       xret (inr (mkDataApi true false (if _is_quota_exceeded_error code body then "quota_exhausted"
                                        else if _is_rate_limited_error code body then "rate_limited" else "error") noted)))
    (fun e =>
       bind! _ := event "error" (exn_str (PyError e)) 0 false in
       xret (inr (mkDataApi true false "error" ("data api fetch failed: " ++ exn_str (PyError e))%string))) in
  match payload with inl p => ylift (data_api_verdict p) | inr d => xret d end.
End Api.
