(* ===== verification/YtProbe.v ===== *)
(** * YouTube watchdog: broadcasts, the OAuth probe and the public probes

    Models src/watchers/youtube_api_lib/{broadcasts,public_probe}.py, the probes of
    youtube_api.py and normalize_health_issue_details
    (stream_core/common/youtube_input_quality.py). *)
From Stdlib Require Import Ascii.
From S2P Require Import Prelude PyVal UtcTime FastPolicy RemoteWarning YtConfig YtWorld YtApi.
#[local] Open Scope x_scope.

(** [s.split(c)] *)
Fixpoint split_at (c : ascii) (cur : string) (s : string) : list string :=
  match s with
  | EmptyString => [cur]
  | String d s' => if Ascii.eqb c d then cur :: split_at c "" s' else split_at c (cur ++ String d "")%string s'
  end.

(** ** The public page (public_probe.py) *)
Definition is_id_char (c : ascii) : bool := is_word c || Ascii.eqb c "-"%char.
Fixpoint id_prefix (s : string) : string :=
  match s with String c s' => if is_id_char c then String c (id_prefix s') else "" | EmptyString => "" end.
(** The search for [(?:youtube\.com/live/|youtu\.be/|v=)([A-Za-z0-9_-]{8,})] *)
Definition id_after (marker s : string) : option string :=
  match drop_prefix marker s with Some rest => let i := id_prefix rest in if 8 <=? slen i then Some i else None | None => None end.
Definition id_here (s : string) : option string :=
  match id_after "youtube.com/live/" s with
  | Some i => Some i
  | None => match id_after "youtu.be/" s with Some i => Some i | None => id_after "v=" s end
  end.
Fixpoint extract_video_id (url : string) : string :=
  match id_here url with Some i => i | None => match url with EmptyString => "" | String _ url' => extract_video_id url' end end.

Record WatchPageProbeResult : Type := mkPage { wp_checked : bool; wp_verdict : string; wp_fatal : bool; wp_reason : string }.
Definition ok_for_availability (r : WatchPageProbeResult) : bool := negb (wp_fatal r) && negb (String.eqb (wp_verdict r) "not_live").
Definition LIVE_MARKERS : list string :=
  [(quoted "isLiveNow" ++ ":true")%string; (quoted "isLive" ++ ":true")%string; (quoted "badgeStyleType" ++ ":" ++ quoted "BADGE_STYLE_TYPE_LIVE_NOW")%string].
(** ["playabilityStatus":{"status":"..."] *)
Definition playability (status : string) : string := (quoted "playabilityStatus" ++ ":{" ++ quoted "status" ++ ":" ++ quoted status)%string.
Definition page_verdict (html : string) : WatchPageProbeResult :=
  match List.find (fun m => contains m html) LIVE_MARKERS with
  | Some marker => mkPage true "live" false ("watch page live marker detected (" ++ marker ++ ")")%string
  | None =>
      if contains (playability "ERROR") html then mkPage true "not_live" true "watch page playability error" else
      if contains (playability "UNPLAYABLE") html then mkPage true "not_live" true "watch page unplayable" else
      if contains (playability "LOGIN_REQUIRED") html then mkPage true "not_live" true "watch page login required" else
      if slen html <? 2048 then mkPage true "unknown" true "watch page response too short" else
      mkPage true "unknown" false "watch page live marker inconclusive (treated as unknown)"
  end.

Record PublicLiveProbeResult : Type := mkPublic { pp_checked : bool; pp_verdict : string; pp_reason : string }.
Definition unchecked (reason : string) : PublicLiveProbeResult := mkPublic false "unknown" reason.
Definition _parse_probe_bool (raw : string) : option bool :=
  let value := lower (strip raw) in
  if bool_decide (value ∈ ["true"; "1"; "yes"]) then Some true else if bool_decide (value ∈ ["false"; "0"; "no"]) then Some false else None.
Definition tab : ascii := ascii_of_nat 9.
Definition verdict_of_probe (live_status is_live was_live : string) : string :=
  let status := lower (strip live_status) in
  if bool_decide (_parse_probe_bool is_live = Some true) || bool_decide (status ∈ ["is_live"; "live"]) then "live"
  else if bool_decide (status ∈ ["was_live"; "not_live"; "post_live"]) || bool_decide (_parse_probe_bool was_live = Some true) then "not_live"
  else "unknown".
Definition parse_public_live_probe_output (output : string) : PublicLiveProbeResult :=
  match List.filter (fun l => negb (String.eqb l "")) (map strip (splitlines output)) with
  | [] => unchecked "public live probe produced no output"
  | l :: ls =>
      let parts := split_at tab "" (List.last (l :: ls) "") in
      let part i := nth i parts "" in
      let verdict := verdict_of_probe (part 1%nat) (part 2%nat) (part 3%nat) in
      mkPublic true verdict
        ("public live probe verdict=" ++ verdict ++ " video_id=" ++ or_dash (part 0%nat) ++ " live_status=" ++ or_dash (part 1%nat)
         ++ " is_live=" ++ or_dash (part 2%nat) ++ " was_live=" ++ or_dash (part 3%nat) ++ " availability=" ++ or_dash (part 4%nat))%string
  end.
Fixpoint newline_to_space (s : string) : string :=
  match s with EmptyString => "" | String c s' => String (if Ascii.eqb c (ascii_of_nat 10) then " "%char else c) (newline_to_space s') end.
Definition public_probe_of_run (r : run_reply) : res PublicLiveProbeResult :=
  match r with
  | RunError (EOS "FileNotFoundError") => Ok (unchecked "public live probe skipped (yt-dlp not installed)")
  | RunError (EOS "TimeoutExpired") => Ok (unchecked "public live probe timed out")
  | RunError e => Err e
  | Ran 0 stdout _ => Ok (parse_public_live_probe_output stdout)
  | Ran _ stdout stderr =>
      let detail := strip (or_else stderr stdout) in
      let short := str_take 240 (newline_to_space detail) in
      Ok (if contains "not currently live" (lower detail) then mkPublic true "not_live" ("public live probe verdict=not_live: " ++ short)%string
          else unchecked ("public live probe failed: " ++ short)%string)
  end.

Section Probe.
Context `{Environ} `{Repr} `{ExnText} `{JsonLoads} `{YtTime} `{PacificMidnight}.

Definition fetch_page : Y string :=
  bind! r := sense in
  match yr_reply r with Text s => xret s | Status code body => xraise (HTTPError code body) | Broken e => xraise (PyError e) end.
Definition check_public_watch_page_verdict (url : string) : Y WatchPageProbeResult :=
  if String.eqb url "" then xret (mkPage false "unknown" false "watch page check skipped (no YTW_LIVE_URL)") else
  xtry (bind! html := fetch_page in xret (page_verdict html))
    (fun e => xret (mkPage true "unknown" true ("watch page fetch failed: " ++ exn_str e)%string)).
Definition probe_public_live_status (url : string) : Y PublicLiveProbeResult :=
  if String.eqb url "" then xret (unchecked "public live probe skipped (no URL)") else
  bind! r := run_cmd in ylift (public_probe_of_run r).

(** ** Broadcasts (broadcasts.py) *)
Definition LIFECYCLE_PRIORITY : list (string * Z) :=
  [("live", 70); ("liveStarting", 60); ("testing", 50); ("testStarting", 45); ("ready", 40); ("created", 35); ("complete", 10); ("revoked", 0)].
Definition lifecycle_priority (lifecycle : string) : Z := default (-1) (dict_get (strip lifecycle) LIFECYCLE_PRIORITY).
Definition parse_yt_ts (value : string) : Z := let s := strip value in if String.eqb s "" then 0 else strptime_utc s.
(** [str((x.get(k) or "")).strip()] *)
Definition text_or_empty (v : pyval) (k : string) : res string := let! x := get v k in Ok (strip (py_str (py_or x (VStr "")))).
Definition orv (v : pyval) (k : string) : res pyval := let! x := get v k in Ok (py_or x (VDict [])).
Definition broadcast_id (item : pyval) : res string := textv item "id".
Definition broadcast_video_id (item : pyval) : res string :=
  let! snippet := orv item "snippet" in let! resource := orv snippet "resourceId" in text_or_empty resource "videoId".
Definition broadcast_lifecycle (item : pyval) : res string := let! status := orv item "status" in text_or_empty status "lifeCycleStatus".
(** The first item that satisfies a test which may raise. *)
Fixpoint first_where (p : pyval -> res bool) (items : list pyval) : res (option pyval) :=
  match items with
  | [] => Ok None
  | x :: items' => let! b := p x in if b : bool then Ok (Some x) else first_where p items'
  end.
Definition rank_of (item : pyval) : res (Z * Z) :=
  let! snippet := sub item "snippet" in
  let! status := sub item "status" in
  let! lifecycle := textv status "lifeCycleStatus" in
  let! actual := textv snippet "actualStartTime" in
  let! scheduled := textv snippet "scheduledStartTime" in
  let! published := textv snippet "publishedAt" in
  Ok (lifecycle_priority lifecycle, Z.max (parse_yt_ts actual) (Z.max (parse_yt_ts scheduled) (parse_yt_ts published))).
Definition rank_lt (a b : Z * Z) : bool := (fst a <? fst b) || ((fst a =? fst b) && (snd a <? snd b)).
(** The head of a stable sort by descending rank: the first item of the highest. *)
Fixpoint best_ranked (items : list pyval) (best : option (Z * Z * pyval)) : res (option (Z * Z * pyval)) :=
  match items with
  | [] => Ok best
  | x :: items' =>
      let! r := rank_of x in
      best_ranked items' (match best with
                          | Some (r0, x0) => if rank_lt r0 r then Some (r, x) else best
                          | None => Some (r, x)
                          end)
  end.
Definition select_primary_broadcast (broadcasts : list pyval) (preferred_video_id preferred_broadcast_id : string) : res (option pyval) :=
  let! by_id := (if String.eqb preferred_broadcast_id "" then Ok None
                 else first_where (fun item => let! i := broadcast_id item in Ok (String.eqb i preferred_broadcast_id)) broadcasts) in
  match by_id with
  | Some item => Ok (Some item)
  | None =>
      let! by_video := (if String.eqb preferred_video_id "" then Ok None
                        else first_where (fun item => let! v := broadcast_video_id item in
                                            Ok (negb (String.eqb v "") && String.eqb v preferred_video_id)) broadcasts) in
      match by_video with
      | Some item => Ok (Some item)
      | None => let! best := best_ranked broadcasts None in Ok (option_map snd best)
      end
  end.

Definition list_owned_broadcasts (token : string) : Y (list pyval) :=
  bind! payload := api_get "liveBroadcasts" token
    [("part", "id,snippet,contentDetails,status"); ("mine", "true"); ("broadcastType", "all"); ("maxResults", "20")] in
  bind! items := ylift (getd payload "items" (VList [])) in
  xret (match items with VList l => l | _ => [] end).

(** ** The OAuth probe (youtube_api.py) *)
Fixpoint issue_details (room : nat) (items : list pyval) : list pyval :=
  match room, items with
  | S room', VDict d :: items' =>
      let kind := str_take 80 (text d "type") in
      let severity := str_take 16 (lower (text d "severity")) in
      if String.eqb kind "" && String.eqb severity "" then issue_details room items'
      else VDict [("type", VStr kind); ("severity", VStr severity)] :: issue_details room' items'
  | S _, _ :: items' => issue_details room items'
  | _, _ => []
  end.
Definition normalize_health_issue_details (items : list pyval) : list pyval := issue_details 32 items.

Definition TRANSIENT_CODES : list Z := [500; 502; 503; 504].
(** [retry_count] retries so far; the second attempt is the last. *)
Fixpoint bound_streams (attempts : nat) (retry_count : Z) (token stream_id : string) : Y (pyval * Z) :=
  match attempts with
  | O => xraise (PyError (ERuntime "liveStreams retry loop exhausted without a result"))
  | S more =>
      except (bind! p := api_get "liveStreams" token [("part", "id,status"); ("id", stream_id)] in xret (p, retry_count))
        (fun code body => match more with
                          | O => xraise (HTTPError code body)
                          | _ => if bool_decide (code ∈ TRANSIENT_CODES) then bound_streams more (retry_count + 1) token stream_id
                                 else xraise (HTTPError code body)
                          end)
        (fun e => xraise (PyError e))
  end.
Definition _list_bound_streams_with_transient_retry (token stream_id : string) : Y (pyval * Z) := bound_streams 2 0 token stream_id.

(** Status, health, number of issues, issues, retries. *)
Record stream_facts : Type := mkStream { sf_status : string; sf_health : string; sf_issues : Z; sf_details : list pyval; sf_retries : Z }.
Definition stream_facts_of (streams : pyval) (retries : Z) : res stream_facts :=
  let! items := getd streams "items" (VList []) in
  if negb (truthy items) then Ok (mkStream "" "" 0 [] retries) else
  let! first := first_item items in
  let! status := orv first "status" in
  let! stream_status := textv status "streamStatus" in
  let! health := orv status "healthStatus" in
  let! health_status := textv health "status" in
  let! issues := get health "configurationIssues" in
  let issues := match issues with VList l => l | _ => [] end in
  Ok (mkStream stream_status health_status (Z.of_nat (length issues)) (normalize_health_issue_details issues) retries).
Definition opt_flag (details : pyval) (k : string) : res (option bool) :=
  match details with
  | VDict d => Ok (option_map truthy (dict_get k d))
  | VList l => if existsb (fun v => eq_str v k) l then Err EType else Ok None
  | VStr s => if contains k s then Err EType else Ok None
  | _ => Err EType
  end.
Definition shown (o : option bool) : string := match o with Some b => bool_str b | None => "-" end.

(** What the chosen broadcast says. *)
Record broadcast_facts : Type := mkFacts_ {
  bf_id : string; bf_video : string; bf_channel : string; bf_stream : string; bf_lifecycle : string;
  bf_auto_start : option bool; bf_auto_stop : option bool; bf_monitor : option bool }.
Definition broadcast_facts_of (b : pyval) : res broadcast_facts :=
  let! id := textv b "id" in
  let! snippet := sub b "snippet" in
  let! details := sub b "contentDetails" in
  let! monitor := orv details "monitorStream" in
  let! status := sub b "status" in
  let! lifecycle := textv status "lifeCycleStatus" in
  let! resource := orv snippet "resourceId" in
  let! video := text_or_empty resource "videoId" in
  let! channel := textv snippet "channelId" in
  let! stream := textv details "boundStreamId" in
  let! auto_start := opt_flag details "enableAutoStart" in
  let! auto_stop := opt_flag details "enableAutoStop" in
  let! monitored := opt_flag monitor "enableMonitorStream" in
  Ok (mkFacts_ id video channel stream lifecycle auto_start auto_stop monitored).

Definition LIVE_LIKE : list string := ["live"; "liveStarting"; "testing"; "testStarting"].
Definition probe_mode : string := if OAUTH_SHADOW_MODE then "shadow" else "enforced".
Definition probe_failed (f : broadcast_facts) (detail : string) : OAuthProbeResult :=
  mkOAuth true true false false detail probe_mode (bf_lifecycle f) (bf_id f) (bf_video f) "" (bf_stream f) "" "" 0 [] OAUTH_STREAM_STATUS_REQUIRED true
    (bf_auto_start f) (bf_auto_stop f) (bf_monitor f).
Definition probe_done (token_reason : string) (f : broadcast_facts) (s : stream_facts) : OAuthProbeResult :=
  let life_ok := bool_decide (bf_lifecycle f ∈ LIVE_LIKE) in
  let healthy := if negb (String.eqb (bf_stream f) "") && OAUTH_STREAM_STATUS_REQUIRED then life_ok && String.eqb (sf_status s) "active" else life_ok in
  let reason := (token_reason ++ "; oauth broadcast=" ++ or_dash (bf_id f) ++ " lifecycle=" ++ or_dash (bf_lifecycle f) ++ " stream=" ++ or_dash (bf_stream f)
      ++ " streamStatus=" ++ or_dash (sf_status s) ++ " health=" ++ or_dash (sf_health s) ++ " autoStart=" ++ shown (bf_auto_start f)
      ++ " autoStop=" ++ shown (bf_auto_stop f) ++ " monitorStream=" ++ shown (bf_monitor f)
      ++ " liveStreamsTransientRetries=" ++ str_Z (sf_retries s))%string in
  mkOAuth true true true healthy reason probe_mode (bf_lifecycle f) (bf_id f) (bf_video f) (bf_channel f) (bf_stream f) (sf_status s) (sf_health s)
    (sf_issues s) (sf_details s) OAUTH_STREAM_STATUS_REQUIRED true (bf_auto_start f) (bf_auto_stop f) (bf_monitor f).
Definition probe_stream (token token_reason : string) (f : broadcast_facts) : Y OAuthProbeResult :=
  if String.eqb (bf_stream f) "" then xret (probe_done token_reason f (mkStream "" "" 0 [] 0)) else
  except (bind! sr := _list_bound_streams_with_transient_retry token (bf_stream f) in
          bind! s := ylift (stream_facts_of (fst sr) (snd sr)) in xret (probe_done token_reason f s))
    (fun code body => bind! detail := with_quota "oauth_liveStreams" code body ("oauth liveStreams http " ++ str_Z code ++ ": " ++ str_take 240 body)%string in
                      xret (probe_failed f detail))
    (fun e => xret (probe_failed f ("oauth liveStreams failed: " ++ exn_str (PyError e))%string)).
Definition probe_with_oauth : Y OAuthProbeResult :=
  if negb OAUTH_ENABLE then xret (oauth_result false oauth_is_configured false false "oauth disabled" probe_mode false) else
  if negb oauth_is_configured then xret (oauth_result true false false false "oauth not configured" probe_mode false) else
  bind! (token, token_reason) := get_oauth_access_token in
  if String.eqb token "" then xret (oauth_result true true false false token_reason probe_mode false) else
  bind! items := except (bind! l := list_owned_broadcasts token in xret (inl l))
    (fun code body => bind! detail := with_quota "oauth_liveBroadcasts" code body ("oauth liveBroadcasts http " ++ str_Z code ++ ": " ++ str_take 240 body)%string in
                      xret (inr detail))
    (fun e => xret (inr ("oauth liveBroadcasts failed: " ++ exn_str (PyError e))%string)) in
  match items with
  | inr detail => xret (oauth_result true true false false detail probe_mode true)
  | inl [] => xret (oauth_result true true true false (token_reason ++ "; oauth no owned broadcasts")%string probe_mode true)
  | inl (item :: _ as items) =>
      bind! selected := ylift (select_primary_broadcast items "" "") in
      bind! f := ylift (broadcast_facts_of (match selected with Some x => if truthy x then x else item | None => item end)) in
      probe_stream token token_reason f
  end.

(** [parse_ingest_ports] *)
Definition parse_ingest_ports : list Z :=
  let ports := List.filter (Z.ltb 0) (omap (fun part => let s := strip part in if String.eqb s "" then None else int_of_str s)
                                       (if String.eqb (strip INGEST_TCP_PORTS_RAW) "" then [] else split_at ","%char "" (strip INGEST_TCP_PORTS_RAW))) in
  fold_left (fun seen p => if existsb (Z.eqb p) seen then seen else seen ++ [p]) (match ports with [] => [INGEST_TCP_PORT; 443] | _ => ports end) [].
End Probe.
