(* ===== verification/ForceLive.v ===== *)
(** * YouTube watchdog: bringing a stalled broadcast live

    Models [force_transition_live_once] of src/watchers/youtube_api.py with its
    helpers, the selection of the target (youtube_api_lib/broadcasts.py) and the guard
    in front of it (youtube_lifecycle/{actions,guards}.py).  The mutable
    [once_state] is passed along and written as the code writes it; the waits between
    polls do nothing. *)
From S2P Require Import Prelude PyVal UtcTime FastPolicy AgentPolicy RemoteWarning YtConfig YtWorld YtApi YtProbe.
#[local] Open Scope x_scope.

Record fl_input : Type := mkForce {
  fi_feature_enabled : bool; fi_fail_count : Z; fi_video_id : string; fi_api_reason : string; fi_stream_active : bool; fi_ingest_connected : bool;
  fi_oauth : OAuthProbeResult; fi_uptime : Z; fi_cli : bool; fi_elapsed : Z; fi_min_elapsed : option Z }.

Section Force.
Context `{Environ} `{Repr} `{ExnText} `{JsonLoads} `{YtTime} `{PacificMidnight}.

(** ** Guards *)
Definition in_upcoming_like_state (api_reason : string) (oauth : OAuthProbeResult) : bool :=
  contains "liveBroadcastContent=upcoming" api_reason
  || bool_decide (oa_life_cycle_status oauth ∈ ["ready"; "created"; "testStarting"; "testing"]).
Definition compute_force_live_backoff_sec (consecutive_failures : Z) : Z :=
  let exp := Z.min (Z.max 0 (consecutive_failures - 1)) FORCE_LIVE_BACKOFF_MAX_EXP in
  Z.min (FORCE_LIVE_BACKOFF_BASE_SEC * 2 ^ exp) FORCE_LIVE_BACKOFF_MAX_SEC.
Definition force_live_transition_statuses (current_lifecycle target_status : string) : list string :=
  let target := lower (strip (or_else target_status "live")) in
  if String.eqb target "live" && bool_decide (strip current_lifecycle ∈ ["ready"; "created"]) then ["testing"; "live"] else [target].

(** What keeps the attempt from starting, in the order of the checks. *)
Definition precheck (i : fl_input) : option string :=
  let oauth := fi_oauth i in
  if negb (fi_feature_enabled i) then Some "feature disabled" else
  if fi_fail_count i <? FORCE_LIVE_MIN_FAILS then
    Some ("below min fails (" ++ str_Z (fi_fail_count i) ++ "<" ++ str_Z FORCE_LIVE_MIN_FAILS ++ ")")%string else
  if negb (in_upcoming_like_state (fi_api_reason i) oauth) then
    Some ("not upcoming-like state (" ++ fi_api_reason i ++ "; oauth_lifecycle=" ++ or_dash (oa_life_cycle_status oauth) ++ ")")%string else
  if negb (fi_stream_active i) then Some "stream service inactive" else
  if FORCE_LIVE_REQUIRE_INGEST && negb (fi_ingest_connected i) then Some "ingest tcp not connected" else
  if (0 <? FORCE_LIVE_MIN_STREAM_UPTIME_SEC) && (fi_uptime i <? FORCE_LIVE_MIN_STREAM_UPTIME_SEC) then
    Some ("ffmpeg uptime too short (" ++ str_Z (fi_uptime i) ++ "s<" ++ str_Z FORCE_LIVE_MIN_STREAM_UPTIME_SEC ++ "s); wait for ingest stabilization")%string else
  if FORCE_LIVE_REQUIRE_OAUTH_STREAM_ACTIVE && negb (oa_probe_ok oauth) then
    Some "oauth probe unavailable while streamStatus=active is required" else
  if FORCE_LIVE_REQUIRE_OAUTH_STREAM_ACTIVE && negb (String.eqb (oa_stream_status oauth) "active") then
    Some ("oauth streamStatus is not active (" ++ or_dash (oa_stream_status oauth) ++ ")")%string else
  if negb OAUTH_ENABLE then Some "oauth disabled" else
  if negb oauth_is_configured then Some "oauth not configured" else None.

Definition sanitize_force_live_state (state : dict) (now_ts : Z) : res dict :=
  let! start := int0 state "attempt_window_start_ts" in
  let state := if (start <=? 0) || (86400 <=? now_ts - start)
               then dict_update state [("attempt_window_start_ts", VInt now_ts); ("attempt_count_window", VInt 0)] else state in
  Ok (dict_setdefault "next_allowed_ts" (VInt 0) (dict_setdefault "consecutive_failures" (VInt 0) (dict_setdefault "attempted" (VBool false) state))).
Definition attempt_refused (once : dict) (now_ts : Z) (cli : bool) : res (option string) :=
  if truthy (dget once "attempted" VNone) && FORCE_LIVE_ON_UPCOMING_ONCE && negb FORCE_LIVE_AUTO_RECOVERY && negb cli then Ok (Some "already attempted once") else
  let! next := int0 once "next_allowed_ts" in
  if (now_ts <? next) && negb cli then Ok (Some ("backoff active (" ++ str_Z (next - now_ts) ++ "s remaining)")%string) else
  let! attempts := int0 once "attempt_count_window" in
  if FORCE_LIVE_MAX_ATTEMPTS_PER_DAY <=? attempts then
    let! start := py_int (py_or (dget once "attempt_window_start_ts" (VInt now_ts)) (VInt now_ts)) in
    Ok (Some ("daily attempt cap reached (" ++ str_Z attempts ++ "/" ++ str_Z FORCE_LIVE_MAX_ATTEMPTS_PER_DAY ++ "; "
              ++ str_Z (Z.max 0 (start + 86400 - now_ts)) ++ "s remaining)")%string)
  else Ok None.

(** ** The target *)
Record fl_target : Type := mkTarget_ { ft_id : string; ft_video : string; ft_lifecycle : string; ft_reason : string }.
Definition TRANSITIONABLE : list string := ["ready"; "testStarting"; "testing"; "liveStarting"].
Definition candidate_of (b : pyval) : res (string * string * string) :=
  let! bid := textv b "id" in
  let! snippet := sub b "snippet" in
  let! status := sub b "status" in
  let! rid := sub snippet "resourceId" in
  let! vid := textv rid "videoId" in
  let! lifecycle := textv status "lifeCycleStatus" in
  Ok (bid, vid, lifecycle).
Fixpoint candidates_of (broadcasts : list pyval) : res (list (string * string * string)) :=
  match broadcasts with
  | [] => Ok []
  | b :: broadcasts' =>
      let! c := candidate_of b in
      let! cs := candidates_of broadcasts' in
      let '(bid, vid, lifecycle) := c in
      Ok (if String.eqb bid "" || negb (bool_decide (lifecycle ∈ TRANSITIONABLE)) then cs else c :: cs)
  end.
Definition target_of (reason : string) (c : string * string * string) : fl_target :=
  let '(bid, vid, lifecycle) := c in mkTarget_ bid vid lifecycle reason.
(** The first broadcast with the identifier of each candidate. *)
Fixpoint items_of (broadcasts : list pyval) (cs : list (string * string * string)) : res (list pyval) :=
  match cs with
  | [] => Ok []
  | (bid, _, _) :: cs' =>
      let! found := first_where (fun b => let! i := textv b "id" in Ok (String.eqb i bid)) broadcasts in
      let! rest := items_of broadcasts cs' in
      Ok (match found with Some b => b :: rest | None => rest end)
  end.
Definition choose_transition_target_broadcast (broadcasts : list pyval) (preferred_video_id preferred_broadcast_id : string) : res fl_target :=
  if negb (String.eqb preferred_broadcast_id "") then Ok (mkTarget_ preferred_broadcast_id "" "" "selected by YTW_FORCE_LIVE_BROADCAST_ID") else
  let! cs := candidates_of broadcasts in
  match cs with
  | [] => Ok (mkTarget_ "" "" "" "no transitionable broadcasts in lifecycle ready/testing/liveStarting")
  | first :: others =>
      let preferred := if String.eqb preferred_video_id "" then None
                       else List.find (fun c => negb (String.eqb (snd (fst c)) "") && String.eqb (snd (fst c)) preferred_video_id) cs in
      match preferred, others with
      | Some c, _ => Ok (target_of "matched preferred video_id" c)
      | None, [] => Ok (target_of "selected only transitionable broadcast" first)
      | None, _ =>
          let! items := items_of broadcasts cs in
          let! selected := select_primary_broadcast items preferred_video_id "" in
          let last := target_of "selected first transitionable broadcast" first in
          match selected with
          | Some b =>
              if negb (truthy b) then Ok last else
              let! bid := textv b "id" in
              let! snippet := sub b "snippet" in
              let! status := sub b "status" in
              let! resource := orv snippet "resourceId" in
              let! vid := text_or_empty resource "videoId" in
              let! lifecycle := textv status "lifeCycleStatus" in
              Ok (if String.eqb bid "" then last else mkTarget_ bid vid lifecycle "selected highest-priority transitionable broadcast")
          | None => Ok last
          end
      end
  end.

Definition find_owned_broadcast (token id : string) : Y (option pyval) :=
  if String.eqb id "" then xret None else
  bind! broadcasts := xtry (bind! l := list_owned_broadcasts token in xret (Some l)) (fun _ => xret None) in
  match broadcasts with
  | None => xret None
  | Some l => ylift (first_where (fun b => let! i := textv b "id" in Ok (String.eqb i id)) l)
  end.
(** [item or {}] *)
Definition or_empty (item : option pyval) : pyval := match item with Some v => py_or v (VDict []) | None => VDict [] end.
Definition find_broadcast_lifecycle (token id : string) : Y string :=
  bind! item := find_owned_broadcast token id in ylift (broadcast_lifecycle (or_empty item)).
Definition broadcast_channel_id (item : option pyval) : res string :=
  let! snippet := orv (or_empty item) "snippet" in text_or_empty snippet "channelId".
Definition validate_oauth_channel_match (oauth : OAuthProbeResult) (item : option pyval) : res (bool * string) :=
  if negb OAUTH_REQUIRE_CHANNEL_MATCH then Ok (true, "oauth channel match disabled") else
  let expected := strip CHANNEL_ID in
  if String.eqb expected "" then Ok (true, "oauth channel match skipped: YTW_CHANNEL_ID not configured") else
  let! observed := (if String.eqb (oa_channel_id oauth) "" then broadcast_channel_id item else Ok (oa_channel_id oauth)) in
  let observed := strip observed in
  Ok (if String.eqb observed "" then (false, ("oauth channel validation failed: expected " ++ expected ++ ", observed missing")%string)
      else if negb (String.eqb observed expected) then (false, ("oauth channel validation failed: expected " ++ expected ++ ", observed " ++ observed)%string)
      else (true, ("oauth channel validated: " ++ observed)%string)).

Fixpoint wait_for_broadcast_lifecycle (attempts : nat) (token id : string) (allowed : list string) (last : string) : Y string :=
  match attempts with
  | O => xret last
  | S more =>
      bind! lifecycle := find_broadcast_lifecycle token id in
      let last := if String.eqb lifecycle "" then last else lifecycle in
      if bool_decide (lifecycle ∈ allowed) then xret lifecycle else wait_for_broadcast_lifecycle more token id allowed last
  end.

(** ** A replacement *)
Definition kept_keys : list string := ["title"; "description"; "tags"; "defaultLanguage"; "defaultAudioLanguage"].
(** [str(a or b or dflt)] *)
Definition first_text (a b : pyval) (dflt : string) : string := py_str (py_or a (py_or b (VStr dflt))).
Definition build_safe_video_snippet_for_category (existing : dict) (category_id : string) : dict :=
  let snippet := omap (fun k => match dict_get k existing with Some VNone | None => None | Some v => Some (k, v) end) kept_keys in
  dict_update snippet
    [("title", VStr (first_text (dget snippet "title" VNone) (dget existing "title" VNone) "Recovered live stream"));
     ("description", VStr (first_text (dget snippet "description" VNone) (dget existing "description" VNone) ""));
     ("categoryId", VStr (strip category_id))].
(** [dict(v)] of a dict *)
Definition as_mapping (v : pyval) : res dict := match v with VDict d => Ok d | _ => Err EType end.
Definition update_video_category_from_existing_snippet (token video_id category_id : string) : Y string :=
  let vid := strip video_id in
  let cat := strip category_id in
  if String.eqb vid "" then xret "category update skipped: missing video id" else
  if String.eqb cat "" then xret "category update skipped: category id not configured" else
  bind! payload := api_get "videos" token [("part", "snippet"); ("id", vid)] in
  bind! items := ylift (getd payload "items" (VList [])) in
  match items with
  | VList (first :: _) =>
      let item := if is_dict first then first else VDict [] in
      bind! snippet := ylift (sub item "snippet") in
      bind! current := ylift (textv snippet "categoryId") in
      if String.eqb current cat then xret ("category already " ++ cat)%string else
      bind! existing := ylift (as_mapping snippet) in
      bind! _ := videos_api_update token [("part", "snippet")] (VDict [("id", VStr vid); ("snippet", VDict (build_safe_video_snippet_for_category existing cat))]) in
      xret ("category updated " ++ or_dash current ++ "->" ++ cat)%string
  | _ => xret ("category update skipped: videos.list returned no item for " ++ vid)%string
  end.
Definition _recovery_broadcast_body (source : pyval) (auto_start : bool) (current : Q) : res pyval :=
  let! snippet := sub source "snippet" in
  let! snippet := as_mapping snippet in
  let! status := sub source "status" in
  let! status := as_mapping status in
  let! details := orv source "contentDetails" in
  let! embed := getd details "enableEmbed" (VBool true) in
  let! latency := getd details "latencyPreference" (VStr "normal") in
  Ok (VDict
    [("snippet", VDict [("title", VStr (first_text (dget snippet "title" (VStr "")) VNone "Recovered live stream"));
                        ("description", VStr (first_text (dget snippet "description" (VStr "")) VNone ""));
                        ("scheduledStartTime", VStr (strftime_utc (current + 60)))]);
     ("status", VDict [("privacyStatus", VStr (first_text (dget status "privacyStatus" (VStr "")) VNone "public"));
                       ("selfDeclaredMadeForKids", VBool (truthy (dget status "selfDeclaredMadeForKids" (VBool false))))]);
     ("contentDetails", VDict [("monitorStream", VDict [("enableMonitorStream", VBool true); ("broadcastStreamDelayMs", VInt 0)]);
                               ("enableAutoStart", VBool auto_start); ("enableAutoStop", VBool FORCE_LIVE_REPLACEMENT_ENABLE_AUTO_STOP);
                               ("enableDvr", VBool true); ("recordFromStart", VBool true); ("enableEmbed", VBool (truthy embed));
                               ("latencyPreference", VStr (py_str latency))])]).
Definition bool_word (b : bool) : string := if b then "true" else "false".
Definition BROADCAST_PARTS : string := "id,snippet,contentDetails,status".
Definition insert_broadcast (token : string) (source : pyval) (auto_start : bool) : Y pyval :=
  bind! current := now in
  bind! body := ylift (_recovery_broadcast_body source auto_start current) in
  api_post_json "liveBroadcasts" token [("part", BROADCAST_PARTS)] body.
Definition create_recovery_broadcast (token : string) (source : pyval) (stream_id : string) : Y (string * string) :=
  let requested := FORCE_LIVE_REPLACEMENT_ENABLE_AUTO_START in
  bind! (created, used) := except (bind! c := insert_broadcast token source requested in xret (c, requested))
    (fun code body => if requested && _has_google_error_reason body "invalidAutoStart"
                      then bind! c := insert_broadcast token source false in xret (c, false)
                      else xraise (HTTPError code body))
    (fun e => xraise (PyError e)) in
  bind! id := ylift (textv created "id") in
  if String.eqb id "" then xret ("", "created broadcast response had no id") else
  bind! _ := api_post "liveBroadcasts/bind" token [("id", id); ("part", BROADCAST_PARTS); ("streamId", stream_id)] in
  bind! category := (if String.eqb FORCE_LIVE_CATEGORY_ID "" then xret "" else
    except (update_video_category_from_existing_snippet token id FORCE_LIVE_CATEGORY_ID)
      (fun code body => xret ("category update failed http " ++ str_Z code ++ ": " ++ str_take 160 body)%string)
      (fun e => xret ("category update failed: " ++ exn_str (PyError e))%string)) in
  xret (id, ("created replacement broadcast with enableAutoStart=" ++ bool_word used ++ " enableAutoStop="
             ++ bool_word FORCE_LIVE_REPLACEMENT_ENABLE_AUTO_STOP ++ " and bound active stream"
             ++ (if requested && negb used then "; enableAutoStart=true rejected with invalidAutoStart; retried enableAutoStart=false" else "")
             ++ (if String.eqb category "" then "" else "; " ++ category))%string).
Definition DELETABLE : list string := ["created"; "ready"; "testStarting"; "testing"].
Definition cleanup_replaced_broadcast (token : string) (source : pyval) (replacement_id : string) : Y string :=
  bind! raw := ylift (get source "id") in
  let source_id := strip (py_str (py_or raw (VStr ""))) in
  if String.eqb source_id "" || String.eqb source_id replacement_id then xret "" else
  bind! lifecycle := ylift (broadcast_lifecycle source) in
  if negb (bool_decide (lifecycle ∈ DELETABLE)) then xret ("cleanup skipped source=" ++ source_id ++ " lifecycle=" ++ or_dash lifecycle)%string else
  bind! _ := api_delete "liveBroadcasts" token [("id", source_id)] in
  xret ("deleted stale source broadcast " ++ source_id)%string.

(** ** The record of attempts *)
Definition target_fields (t : fl_target) (token_reason : string) : dict :=
  [("target_status", VStr FORCE_LIVE_TARGET_STATUS); ("target_broadcast_id", VStr (ft_id t)); ("target_video_id", VStr (ft_video t));
   ("target_lifecycle_before", VStr (ft_lifecycle t)); ("target_reason", VStr (ft_reason t)); ("token_reason", VStr token_reason)].
Definition failure_state (once : dict) (now_ts : Z) (detail at_ token_reason : string) (t : fl_target) : res dict :=
  let! failures := int0 once "consecutive_failures" in
  let! count := int0 once "attempt_count_window" in
  Ok (dict_update (dict_update once
        [("attempted", VBool true); ("attempted_at_utc", VStr at_); ("attempt_count_window", VInt (count + 1));
         ("consecutive_failures", VInt (failures + 1)); ("next_allowed_ts", VInt (now_ts + compute_force_live_backoff_sec (failures + 1)))])
        (target_fields t token_reason ++ [("ok", VBool false); ("error", VStr detail)])).
(** [save_force_live_failure] and the refusal. *)
Definition fail_attempt (once : dict) (now_ts : Z) (token_reason : string) (t : fl_target) (detail : string) : Y (bool * string) :=
  bind! at_ := utc_now in
  bind! state := ylift (failure_state once now_ts detail at_ token_reason t) in
  bind! _ := save_force_live_state state in
  xret (false, detail).
Definition deferred_state (once : dict) (at_ token_reason detail : string) (t : fl_target) (elapsed min_elapsed : Z) : dict :=
  dict_update once
    ([("attempted", VBool false); ("attempted_at_utc", VStr at_)] ++ target_fields t token_reason
     ++ [("ok", VBool false); ("error", VStr detail); ("operation", VStr "create_replacement_broadcast"); ("replacement_allowed", VBool false);
         ("url_recovery_elapsed_sec", VInt elapsed); ("replacement_min_elapsed_sec", VInt min_elapsed)]).
Definition success_state (once : dict) (now_ts : Z) (at_ token_reason channel_reason : string) (t : fl_target) (steps log : list string)
    (lifecycle operation : string) (elapsed min_elapsed : Z) : res dict :=
  let! count := int0 once "attempt_count_window" in
  Ok (dict_update once
    ([("attempted", VBool true); ("attempted_at_utc", VStr at_); ("attempt_count_window", VInt (count + 1)); ("consecutive_failures", VInt 0);
      ("next_allowed_ts", VInt (now_ts + FORCE_LIVE_SUCCESS_COOLDOWN_SEC)); ("transition_steps", VList (map VStr steps)); ("transition_log", VList (map VStr log))]
     ++ target_fields t token_reason
     ++ [("oauth_channel_validation", VStr channel_reason); ("result_life_cycle_status", VStr lifecycle); ("operation", VStr operation);
         ("replacement_allowed", VBool (String.eqb operation "create_replacement_broadcast")); ("url_recovery_elapsed_sec", VInt elapsed);
         ("replacement_min_elapsed_sec", VInt min_elapsed)])).

(** ** One attempt *)
(** The last lifecycle and the log of the steps. *)
Fixpoint run_transitions (token id : string) (steps : list string) (lifecycle : string) (log : list string) : Y (string * list string) :=
  match steps with
  | [] => xret (lifecycle, log)
  | step :: steps' =>
      bind! result := api_post "liveBroadcasts/transition" token [("broadcastStatus", step); ("id", id); ("part", "id,status,snippet")] in
      bind! after := ylift (broadcast_lifecycle result) in
      bind! waited := (if String.eqb step "testing" then wait_for_broadcast_lifecycle 6 token id ["testing"; "liveStarting"; "live"] "" else xret "") in
      let lifecycle := or_else waited after in
      run_transitions token id steps' lifecycle (log ++ [(step ++ "->" ++ or_dash lifecycle)%string])
  end.
Definition cleanup_note (token : string) (source : option pyval) (id : string) : Y dict :=
  match source with
  | Some item =>
      if negb (truthy item) then xret [] else
      xtry (bind! note := cleanup_replaced_broadcast token item id in xret (if String.eqb note "" then [] else [("cleanup_reason", VStr note)]))
        (fun e => xret [("cleanup_error", VStr ("cleanup stale source broadcast failed: " ++ exn_str e)%string)])
  | None => xret []
  end.
Definition transition_target (i : fl_input) (now_ts : Z) (once : dict) (token token_reason channel_reason : string) (min_elapsed : Z)
    (t : fl_target) (source : option pyval) : Y (bool * string) :=
  let elapsed := Z.max 0 (fi_elapsed i) in
  let operation := match source with Some _ => "create_replacement_broadcast" | None => "force_current_broadcast_live" end in
  let steps := force_live_transition_statuses (ft_lifecycle t) FORCE_LIVE_TARGET_STATUS in
  bind! result := except (bind! r := run_transitions token (ft_id t) steps (ft_lifecycle t) [] in xret (inl r))
    (fun code body => bind! detail := with_quota "oauth_liveBroadcasts.transition" code body ("oauth transition http " ++ str_Z code ++ ": " ++ str_take 240 body)%string in
                      xret (inr detail))
    (fun e => xret (inr ("oauth transition failed: " ++ exn_str (PyError e))%string)) in
  match result with
  | inr detail => fail_attempt once now_ts token_reason t detail
  | inl (lifecycle, log) =>
      bind! at_ := utc_now in
      bind! done := ylift (success_state once now_ts at_ token_reason channel_reason t steps log lifecycle operation elapsed min_elapsed) in
      bind! note := cleanup_note token source (ft_id t) in
      let done := dict_update (dict_update done note) [("ok", VBool true); ("error", VStr "")] in
      xtry (bind! _ := save_force_live_state done in
            xret (true, ("transition requested: broadcast=" ++ ft_id t ++ " video_id=" ++ or_dash (ft_video t) ++ " before=" ++ or_dash (ft_lifecycle t)
              ++ " after=" ++ or_dash lifecycle ++ " operation=" ++ operation ++ " elapsed=" ++ str_Z elapsed ++ "s replacement_min=" ++ str_Z min_elapsed
              ++ "s steps=" ++ or_dash (join_with "," log) ++ " reason=" ++ ft_reason t)%string))
        (fun e => fail_attempt done now_ts token_reason t ("oauth transition failed: " ++ exn_str e)%string)
  end.

(** A refusal that was answered, or the target to bring live with the broadcast it replaces. *)
Inductive plan : Type := Answered (r : bool * string) | Proceed (t : fl_target) (source : option pyval).
Definition replacement_min (i : fl_input) : Z :=
  match fi_min_elapsed i with None => FORCE_LIVE_REPLACEMENT_MIN_ELAPSED_SEC | Some m => Z.max 0 m end.
Definition replaceable (t : fl_target) (content : pyval) (stream_id : string) : res bool :=
  if String.eqb FORCE_LIVE_TARGET_STATUS "live" && bool_decide (ft_lifecycle t ∈ ["ready"; "created"]) then
    let! auto_start := get content "enableAutoStart" in Ok (truthy auto_start && negb (String.eqb stream_id ""))
  else Ok false.
Definition replace_target (i : fl_input) (now_ts : Z) (once : dict) (token token_reason : string) (t : fl_target) (item : option pyval) (stream_id : string) : Y plan :=
  let answered := fun m => bind! r := m in xret (Answered r) in
  let elapsed := Z.max 0 (fi_elapsed i) in
  if negb FORCE_LIVE_ALLOW_REPLACEMENT_BROADCAST then
    answered (fail_attempt once now_ts token_reason t
      ("replacement broadcast disabled; refusing to create scheduled recovery broadcast for autoStart source=" ++ ft_id t)%string) else
  if negb (fi_cli i) && (elapsed <? replacement_min i) then
    let detail := ("replacement broadcast deferred: url preservation window active (" ++ str_Z elapsed ++ "s<" ++ str_Z (replacement_min i) ++ "s); keep trying current URL")%string in
    bind! at_ := utc_now in
    bind! _ := save_force_live_state (deferred_state once at_ token_reason detail t elapsed (replacement_min i)) in
    xret (Answered (false, detail)) else
  bind! made := except (bind! c := create_recovery_broadcast token (or_empty item) stream_id in xret (inl c))
    (fun code body => xret (inr ("oauth recovery broadcast create/bind http " ++ str_Z code ++ ": " ++ str_take 240 body)%string))
    (fun e => xret (inr ("oauth recovery broadcast create/bind failed: " ++ exn_str (PyError e))%string)) in
  match made with
  | inr detail => answered (fail_attempt once now_ts token_reason t detail)
  | inl (id, reason) =>
      if String.eqb id "" then xret (Proceed t None) else
      bind! lifecycle := find_broadcast_lifecycle token id in
      xret (Proceed (mkTarget_ id id (or_else lifecycle "ready") (ft_reason t ++ "; " ++ reason)%string) (Some (or_empty item)))
  end.
(** The stream the target is bound to, as the target itself says it when it is known. *)
Definition bound_stream (oauth : OAuthProbeResult) (item : option pyval) : res string :=
  if truthy (default VNone item) then
    let! content := orv (or_empty item) "contentDetails" in
    let! bound := get content "boundStreamId" in
    Ok (strip (py_str (py_or bound (VStr (oa_bound_stream_id oauth)))))
  else Ok (oa_bound_stream_id oauth).
Definition plan_target (i : fl_input) (now_ts : Z) (once : dict) (token token_reason : string) (t : fl_target) (item : option pyval) (stream_id : string) : Y plan :=
  bind! content := ylift (orv (or_empty item) "contentDetails") in
  bind! b := ylift (replaceable t content stream_id) in
  if negb b then xret (Proceed t None) else
  bind! auto_stop := ylift (get content "enableAutoStop") in
  if is_false auto_stop then
    xret (Proceed (mkTarget_ (ft_id t) (ft_video t) (ft_lifecycle t)
      (ft_reason t ++ "; persistent scheduled broadcast enableAutoStop=false; using manual transition fallback instead of replacement")%string) None)
  else replace_target i now_ts once token token_reason t item stream_id.

Definition choose_target (i : fl_input) (token : string) : Y (string + fl_target) :=
  let oauth := fi_oauth i in
  if oa_probe_ok oauth && negb (String.eqb (oa_broadcast_id oauth) "") && bool_decide (oa_life_cycle_status oauth ∈ TRANSITIONABLE) then
    xret (inr (mkTarget_ (oa_broadcast_id oauth) (oa_video_id oauth) (oa_life_cycle_status oauth) "selected from oauth probe"))
  else
    bind! listed := except (bind! l := list_owned_broadcasts token in xret (inl l))
      (fun code body => xret (inr ("oauth liveBroadcasts list http " ++ str_Z code ++ ": " ++ str_take 240 body)%string))
      (fun e => xret (inr ("oauth liveBroadcasts list failed: " ++ exn_str (PyError e))%string)) in
    match listed with
    | inr why => xret (inl why)
    | inl broadcasts =>
        bind! t := ylift (choose_transition_target_broadcast broadcasts (fi_video_id i) FORCE_LIVE_BROADCAST_ID) in
        xret (if String.eqb (ft_id t) "" then inl (ft_reason t) else inr t)
    end.
Definition attempt (i : fl_input) (now_ts : Z) (once : dict) (token token_reason : string) (t : fl_target) : Y (bool * string) :=
  bind! item := find_owned_broadcast token (ft_id t) in
  bind! stream_id := ylift (bound_stream (fi_oauth i) item) in
  bind! (channel_ok, channel_reason) := ylift (validate_oauth_channel_match (fi_oauth i) item) in
  if negb channel_ok then fail_attempt once now_ts token_reason t channel_reason else
  bind! p := plan_target i now_ts once token token_reason t item stream_id in
  match p with
  | Answered r => xret r
  | Proceed t' source => transition_target i now_ts once token token_reason channel_reason (replacement_min i) t' source
  end.
Definition _api_force_transition_live_once (i : fl_input) : Y (bool * string) :=
  bind! now_ts := now_sec in
  match precheck i with
  | Some why => xret (false, why)
  | None =>
      bind! raw := load_force_live_state in
      bind! once := ylift (sanitize_force_live_state raw now_ts) in
      bind! refused := ylift (attempt_refused once now_ts (fi_cli i)) in
      match refused with
      | Some why => xret (false, why)
      | None =>
          bind! (token, token_reason) := get_oauth_access_token in
          if String.eqb token "" then xret (false, token_reason) else
          bind! chosen := choose_target i token in
          match chosen with
          | inl why => xret (false, why)
          | inr t => attempt i now_ts once token token_reason t
          end
      end
  end.

(** The guard in front of it (actions.py, guards.py). *)
Definition destructive_action_guard (action : string) (quota_guard_active : bool) : bool * string :=
  if quota_guard_active && bool_decide (action ∈ ["force_transition_live"; "create_replacement_broadcast"]) then (false, "quota guard active") else (true, "allowed").
Definition force_live_precheck (feature_enabled quota_guard_active : bool) : bool * string :=
  if negb feature_enabled then (false, "feature disabled") else destructive_action_guard "force_transition_live" quota_guard_active.
Definition force_transition_live_once (quota_guard_active : bool) (i : fl_input) : Y (bool * string) :=
  bind! vetoed := veto in
  if vetoed : bool then xret (false, "route causal guard") else
  let '(allowed, reason) := force_live_precheck (fi_feature_enabled i) quota_guard_active in
  if negb allowed then xret (false, reason) else _api_force_transition_live_once i.
End Force.
