(* ===== verification/YtFrame.v ===== *)
(** * YouTube watchdog: what a program may touch

    The footprint of a program: the files it may write and the calls it may send; the
    orders of restarts it leaves alone.  The functions that read the API, whatever it
    answers, write only the files that other processes share and send only reading
    calls; the proofs about the force-live attempt and about the pass both use them. *)
From stdpp Require Import functions.
From S2P Require Import Prelude PyVal UtcTime FastPolicy AgentPolicy RemoteWarning YtConfig YtWorld YtApi YtProbe ForceLive.
#[local] Open Scope x_scope.

Definition reading (c : api_call) : bool := String.eqb (ac_method c) "GET" || (String.eqb (ac_method c) "POST" && String.eqb (ac_endpoint c) "token").
Definition any_call (c : api_call) : bool := true.
Definition but (f : yt_file) (g : yt_file) : bool := negb (bool_decide (f = g)).

(** From [w] to [w'] only files of [F] were written and only calls of [C] sent. *)
Definition frame (F : yt_file -> bool) (C : api_call -> bool) (w w' : yt_world) : Prop :=
  y_restarts w' = y_restarts w /\ (forall f, F f = false -> y_files w' f = y_files w f) /\
  exists calls, y_calls w' = y_calls w ++ calls /\ forallb (fun x => C (fst x)) calls = true.
Definition within (F : yt_file -> bool) (C : api_call -> bool) {A} (m : Y A) : Prop := forall w, frame F C w (snd (m w)).
(** The least a program that reads the API needs. *)
Class Allows (F : yt_file -> bool) (C : api_call -> bool) : Prop := mkAllows {
  allows_shared : forall f, shared f = true -> F f = true; allows_reading : forall c, reading c = true -> C c = true }.
#[export] Instance allows_least : Allows shared reading.
Proof. by split. Qed.
#[export] Instance allows_but_state : Allows (but State) any_call.
Proof. split; [by intros [] | done]. Qed.
#[export] Instance allows_state_reading : Allows (but State) reading.
Proof. split; [by intros [] | done]. Qed.

Lemma frame_refl F C w : frame F C w w.
Proof. split; [done|]. split; [done|]. exists []. by rewrite app_nil_r. Qed.
Lemma footprint_trans F C w1 w2 w3 : frame F C w1 w2 -> frame F C w2 w3 -> frame F C w1 w3.
Proof.
  intros (E1 & F1 & l1 & C1 & H1) (E2 & F2 & l2 & C2 & H2). split; [congruence|]. split; [intros f Hf; rewrite F2, F1; done|].
  exists (l1 ++ l2). rewrite C2, C1, app_assoc, forallb_app, H1, H2. done.
Qed.
Lemma frame_same F C w w' : y_restarts w' = y_restarts w -> y_files w' = y_files w -> y_calls w' = y_calls w -> frame F C w w'.
Proof. intros Er Ef Ec. split; [done|]. split; [by rewrite Ef|]. exists []. by rewrite app_nil_r. Qed.
Lemma frame_file F C g v w : F g = true -> frame F C w (set_file g v w).
Proof.
  intros Hg. split; [done|]. split; [|exists []; by rewrite app_nil_r]. intros f Hf. simpl. rewrite fn_lookup_insert_ne; [done|]. congruence.
Qed.
Lemma footprint_weaken (F F' : yt_file -> bool) (C C' : api_call -> bool) w w' : (forall f, F f = true -> F' f = true) -> (forall c, C c = true -> C' c = true) ->
  frame F C w w' -> frame F' C' w w'.
Proof.
  intros HF HC (E & Ef & calls & Ec & Hc). split; [done|]. split; [|exists calls; split; [done|]; rewrite forallb_forall in *; auto].
  intros f Hf. apply Ef. destruct (F f) eqn:EF; [|done]. by rewrite (HF f EF) in Hf.
Qed.

(** What others write is all that happens at a reading. *)
Lemma others_same l w : y_calls (fold_left apply_other l w) = y_calls w /\ y_env (fold_left apply_other l w) = y_env w /\ y_pos (fold_left apply_other l w) = y_pos w.
Proof.
  revert w. induction l as [|[g v] l IH]; intros w; simpl; [done|]. destruct (IH (apply_other w (g, v))) as (-> & -> & ->).
  unfold apply_other. simpl. by destruct (shared g).
Qed.

(** ** The rules *)
Section Rules.
Context (F : yt_file -> bool) (C : api_call -> bool).
Lemma within_ret {A} (a : A) : within F C (xret a).
Proof. intros w. apply frame_refl. Qed.
Lemma within_raise {A} e : within F C (@xraise _ _ A e).
Proof. intros w. apply frame_refl. Qed.
Lemma within_bind {A B} (m : Y A) (k : A -> Y B) : within F C m -> (forall a, within F C (k a)) -> within F C (xbind m k).
Proof.
  intros Hm Hk w. unfold xbind. specialize (Hm w). destruct (m w) as [[a|e|] w']; [|done|done]. by eapply footprint_trans; [apply Hm | apply Hk].
Qed.
Lemma within_try {A} (m : Y A) h : within F C m -> (forall e, within F C (h e)) -> within F C (xtry m h).
Proof.
  intros Hm Hh w. unfold xtry. specialize (Hm w). destruct (m w) as [[a|e|] w']; [done| |done]. by eapply footprint_trans; [apply Hm | apply Hh].
Qed.
Lemma within_except {A} (m : Y A) http other : within F C m -> (forall c b, within F C (http c b)) -> (forall e, within F C (other e)) ->
  within F C (except m http other).
Proof. intros Hm Hh Ho. apply within_try; [done|]. intros [c b|e]; auto. Qed.
Lemma within_lift {A} (m : res A) : within F C (ylift m).
Proof. destruct m; [apply within_ret | apply within_raise]. Qed.
Context `{!Allows F C}.
Lemma frame_others l w : frame F C w (fold_left apply_other l w).
Proof.
  revert w. induction l as [|[g v] l IH]; intros w; simpl; [apply frame_refl|]. eapply footprint_trans; [|apply IH].
  unfold apply_other. simpl. destruct (shared g) eqn:Eg; [by apply frame_file, allows_shared | apply frame_refl].
Qed.
Lemma within_sense : within F C sense.
Proof. intros w. simpl. eapply footprint_trans; [|apply frame_others]. by apply frame_same. Qed.
Lemma within_modify g : (forall w, frame F C w (g w)) -> within F C (modify g).
Proof. intros Hg w. apply Hg. Qed.
Lemma within_writing g : (forall w, frame F C w (g w)) -> within F C (writing g).
Proof.
  intros Hg. apply within_bind; [apply within_sense|]. intros r. destruct (yr_weather r); [by apply within_modify | apply within_raise |].
  intros w. by apply frame_same.
Qed.
Lemma within_write g v : F g = true -> within F C (write_file g v).
Proof. intros Hg. apply within_writing. intros w. by apply frame_file. Qed.
Lemma within_event e : within F C (writing (add_event e)).
Proof. apply within_writing. intros w. by apply frame_same. Qed.
Lemma within_api_log e : within F C (writing (add_api_log e)).
Proof. apply within_writing. intros w. by apply frame_same. Qed.
Lemma within_read g : within F C (read_file g).
Proof. apply within_bind; [apply within_sense|]. intros r w. apply frame_refl. Qed.
Lemma within_update {A} (u : dict -> res (dict * A)) : within F C (update_quota_state u).
Proof.
  apply within_bind; [apply within_sense|]. intros r w. destruct (u _) as [[d a]|e]; [|apply frame_refl].
  destruct (yr_weather r); [by apply frame_file, allows_shared | apply frame_refl | by apply frame_same].
Qed.
Lemma within_fetch c : C c = true -> within F C (fetch c).
Proof.
  intros Hc. apply within_bind; [|intros _; apply within_bind; [apply within_sense|]].
  - apply within_modify. intros w. split; [done|]. split; [done|]. eexists [_]. split; [reflexivity|]. simpl. by rewrite Hc.
  - intros r. destruct (yr_reply r); [apply within_ret | apply within_raise | apply within_raise].
Qed.
End Rules.

Create HintDb footprint.
#[export] Hint Extern 1 (_ = true) => first [reflexivity | by apply allows_shared | by apply allows_reading] : footprint.
#[export] Hint Extern 1 (Allows _ _) => typeclasses eauto : footprint.
Ltac frame := repeat
  match goal with
  | |- forall _, _ => intros
  | |- Allows _ _ => typeclasses eauto
  | |- _ = true => first [reflexivity | apply allows_shared; reflexivity | apply allows_reading; reflexivity]
  | |- within _ _ (xret _) => apply within_ret
  | |- within _ _ (xraise _) => apply within_raise
  | |- within _ _ (xbind _ _) => apply within_bind
  | |- within _ _ (xtry _ _) => apply within_try
  | |- within _ _ (except _ _ _) => apply within_except
  | |- within _ _ (ylift _) => apply within_lift
  | |- within _ _ sense => apply within_sense; typeclasses eauto
  | |- within _ _ (read_file _) => apply within_read; typeclasses eauto
  | |- within _ _ (write_file _ _) => apply within_write; [typeclasses eauto|]
  | |- within _ _ (writing (add_event _)) => apply within_event; typeclasses eauto
  | |- within _ _ (writing (add_api_log _)) => apply within_api_log; typeclasses eauto
  | |- within _ _ (update_quota_state _) => apply within_update; typeclasses eauto
  | |- within _ _ (fetch _) => apply within_fetch; [typeclasses eauto|]
  | |- within _ _ (if ?b then _ else _) => destruct b
  | |- within _ _ (let (_, _) := ?x in _) => destruct x
  | |- within _ _ (match ?x with _ => _ end) => destruct x
  | |- within _ _ _ => solve [eauto 2 with footprint]
  end.

(** ** The API, the token, the probes *)
Section Reads.
Context `{Environ} `{Repr} `{ExnText} `{JsonLoads} `{YtTime} `{PacificMidnight} (F : yt_file -> bool) (C : api_call -> bool) `{!Allows F C}.
Lemma within_now : within F C now.
Proof. unfold now. frame. Qed.
#[local] Hint Resolve within_now : footprint.
Lemma within_now_sec : within F C now_sec.
Proof. unfold now_sec. frame. Qed.
Lemma within_utc_now : within F C utc_now.
Proof. unfold utc_now. frame. Qed.
Lemma within_veto : within F C veto.
Proof. unfold veto. frame. Qed.
#[local] Hint Resolve within_now_sec within_utc_now within_veto : footprint.
Lemma within_append_event e : within F C (append_event e).
Proof. unfold append_event, quietly. frame. Qed.
Lemma within_api_event a b c d e g : within F C (_append_api_call_event a b c d e g).
Proof. unfold _append_api_call_event, quietly. frame. Qed.
#[local] Hint Resolve within_append_event within_api_event : footprint.
Lemma within_mark a b c : within F C (mark_quota_exhausted a b c).
Proof. unfold mark_quota_exhausted. frame. Qed.
#[local] Hint Resolve within_mark : footprint.
Lemma within_with_quota a b c d : within F C (with_quota a b c d).
Proof. unfold with_quota. frame. Qed.
#[local] Hint Resolve within_with_quota : footprint.
Lemma within_record a b c d : within F C (_record_http_error a b c d).
Proof. unfold _record_http_error. frame. Qed.
#[local] Hint Resolve within_record : footprint.
Lemma within_loads raw : within F C (loads_or_empty raw).
Proof. unfold loads_or_empty. frame. Qed.
#[local] Hint Resolve within_loads : footprint.
Lemma within_logged {A} verb endpoint source (m : Y A) : within F C m -> within F C (logged verb endpoint source m).
Proof. intros Hm. unfold logged. frame. Qed.
Lemma within_get a b c : within F C (api_get a b c).
Proof. apply within_logged. frame. Qed.
#[local] Hint Resolve within_get : footprint.
Lemma within_store t v : within F C (store_token t v).
Proof. unfold store_token, save_oauth_token_state. frame. Qed.
#[local] Hint Resolve within_store : footprint.
Lemma within_token : within F C get_oauth_access_token.
Proof. unfold get_oauth_access_token, load_oauth_token_state, _load_json_file_unlocked, post_form_json. frame. Qed.
Lemma within_owned token : within F C (list_owned_broadcasts token).
Proof. unfold list_owned_broadcasts. frame. Qed.
#[local] Hint Resolve within_token within_owned : footprint.
Lemma within_bound n c token id : within F C (bound_streams n c token id).
Proof. revert c. induction n as [|n IH]; intros c; simpl; frame. Qed.
#[local] Hint Resolve within_bound : footprint.
Lemma within_probe : within F C probe_with_oauth.
Proof. unfold probe_with_oauth, probe_stream, _list_bound_streams_with_transient_retry. frame. Qed.
Lemma within_check video_id key : within F C (check_data_api video_id key).
Proof. unfold check_data_api. frame. Qed.
Lemma within_page url : within F C (check_public_watch_page_verdict url).
Proof. unfold check_public_watch_page_verdict, fetch_page. frame. Qed.
Lemma within_public url : within F C (probe_public_live_status url).
Proof. unfold probe_public_live_status, run_cmd. frame. Qed.
Lemma within_guard t : within F C (quota_guard_status t).
Proof. unfold quota_guard_status, quota_exhausted_active, load_quota_state, _load_json_file_unlocked, save_quota_state. frame. Qed.
Lemma within_find token id : within F C (find_owned_broadcast token id).
Proof. unfold find_owned_broadcast. frame. Qed.
#[local] Hint Resolve within_find : footprint.
Lemma within_lifecycle token id : within F C (find_broadcast_lifecycle token id).
Proof. unfold find_broadcast_lifecycle. frame. Qed.
#[local] Hint Resolve within_lifecycle : footprint.
Lemma within_wait n a b c d : within F C (wait_for_broadcast_lifecycle n a b c d).
Proof. revert d. induction n as [|n IH]; intros d; simpl; frame. Qed.
Lemma within_choose i token : within F C (choose_target i token).
Proof. unfold choose_target. frame. Qed.
End Reads.
#[export] Hint Resolve within_now within_now_sec within_utc_now within_veto within_append_event within_api_event within_mark within_with_quota within_record
  within_loads within_get within_store within_token within_owned within_bound within_probe within_check within_page within_public within_guard within_find
  within_lifecycle within_wait within_choose : footprint.
