(* ===== verification/ForceLiveProofs.v ===== *)
(** * YouTube watchdog: the calls of a force-live attempt

    The protocol an attempt follows, as an automaton over the trace of its calls, and
    the proof that [force_transition_live_once] follows it whatever the API answers,
    whatever the storage does, and wherever the process dies; and that an attempt
    that sent anything leaves a record the next invocation is held back by. *)
From stdpp Require Import functions.
From S2P Require Import Prelude PyVal UtcTime FastPolicy AgentPolicy RemoteWarning EffectModelProofs YtConfig YtWorld YtApi YtProbe ForceLive YtFrame.
#[local] Open Scope x_scope.

(** ** The protocol *)
(** How far an attempt has come: nothing sent; the insertion of a replacement refused
    for its automatic start; a replacement inserted; the replacement bound; a broadcast
    moved to a status; the replaced one deleted; a call that was not answered. *)
Inductive phase : Type :=
  Start | Refused | Inserted | Bound (id : string) (updated : bool) | Moved (id : string) (replaced : bool) (status : string) | Cleaned (id : string) | Stopped.

Section Protocol.
Context `{Environ} `{Repr} `{JsonLoads}.
Definition is_call (c : api_call) (method endpoint : string) : bool := String.eqb (ac_method c) method && String.eqb (ac_endpoint c) endpoint.
Definition param (c : api_call) (k : string) : string := default "" (dict_get k (ac_params c)).
Definition field (v : pyval) (k : string) : pyval := match v with VDict d => dget d k VNone | _ => VNone end.
Definition body_field (c : api_call) (k : string) : pyval := match ac_body c with Some v => field v k | None => VNone end.
Definition auto_starts (c : api_call) : bool := truthy (field (body_field c "contentDetails") "enableAutoStart").

(** The status an attempt ends with, and the order of the statuses before it. *)
Definition final_status : string := lower (strip (or_else FORCE_LIVE_TARGET_STATUS "live")).
Definition first_status (s : string) : bool := String.eqb s final_status || (String.eqb final_status "live" && String.eqb s "testing").
Definition next_status (before s : string) : bool := String.eqb final_status "live" && String.eqb before "testing" && String.eqb s "live".

(** A call that was answered, and one that was refused for the automatic start. *)
Definition answered (r : reply) : bool := match r with Text _ => true | _ => false end.
Definition refuses_start (r : reply) : bool := match r with Status _ body => _has_google_error_reason body "invalidAutoStart" | _ => false end.
Definition inserting (c : api_call) : bool := is_call c "INSERT" "liveBroadcasts".

Definition on_call (may_replace : bool) (p : phase) (x : api_call * reply) : option phase :=
  let (c, r) := x in
  if reading c then Some p else
  let next q := Some (if answered r then q else Stopped) in
  let moved b := if is_call c "POST" "liveBroadcasts/transition" && first_status (param c "broadcastStatus")
                 then next (Moved (param c "id") b (param c "broadcastStatus")) else None in
  match p with
  | Start =>
      if inserting c then (if may_replace then (if auto_starts c && refuses_start r then Some Refused else next Inserted) else None)
      else moved false
  | Refused => if inserting c && negb (auto_starts c) then next Inserted else None
  | Inserted => if is_call c "POST" "liveBroadcasts/bind" then next (Bound (param c "id") false) else moved false
  | Bound id updated =>
      if is_call c "PUT" "videos" then (if negb updated && py_eq (body_field c "id") (VStr id) then Some (Bound id true) else None)
      else if String.eqb (param c "id") id then moved true else None
  | Moved id replaced before =>
      if is_call c "DELETE" "liveBroadcasts" then
        if replaced && String.eqb before final_status && negb (String.eqb (param c "id") id) then Some (Cleaned id) else None
      else if is_call c "POST" "liveBroadcasts/transition" && String.eqb (param c "id") id && next_status before (param c "broadcastStatus")
      then next (Moved id replaced (param c "broadcastStatus")) else None
  | Cleaned _ | Stopped => None
  end.
Fixpoint follows (may_replace : bool) (p : phase) (calls : list (api_call * reply)) : option phase :=
  match calls with
  | [] => Some p
  | c :: calls' => match on_call may_replace p c with Some p' => follows may_replace p' calls' | None => None end
  end.
Definition arrived (p : phase) : bool := match p with Moved _ _ s => String.eqb s final_status | Cleaned _ => true | _ => false end.
(** An insertion that was not refused: it created a replacement, or may have. *)
Definition creates (x : api_call * reply) : bool := inserting (fst x) && negb (refuses_start (snd x)).
(** A replacement may be created: the operator asks, or the current URL has had its time. *)
Definition may_replace (i : fl_input) : bool :=
  FORCE_LIVE_ALLOW_REPLACEMENT_BROADCAST && (fi_cli i || (replacement_min i <=? Z.max 0 (fi_elapsed i))).

Lemma follows_app m p c calls : follows m p (calls ++ [c]) = match follows m p calls with Some p' => on_call m p' c | None => None end.
Proof. revert p. induction calls as [|x calls IH]; intros p; simpl; [by destruct (on_call m p c)|]. destruct (on_call m p x); [apply IH | done]. Qed.

(** The protocol lets one replacement be created. *)
Definition allowance (p : phase) : nat := match p with Start | Refused => 1 | _ => 0 end.
Lemma call_allowance m p x q : on_call m p x = Some q -> ((if creates x then 1 else 0) + allowance q <= allowance p)%nat.
Proof.
  destruct x as [c r]. unfold on_call, creates. cbn [fst snd].
  assert (Hread : reading c = true -> inserting c = false).
  { unfold reading, inserting, is_call. destruct (String.eqb_spec (ac_method c) "INSERT") as [->|]; done. }
  assert (Hother : forall m e, is_call c m e = true -> m <> "INSERT" -> inserting c = false).
  { intros m' e Hc Hm. unfold inserting, is_call in *. apply andb_true_iff in Hc as [Hc _]. apply String.eqb_eq in Hc as ->.
    by rewrite (proj2 (String.eqb_neq _ _) Hm). }
  destruct (reading c) eqn:Er; [intros [= <-]; rewrite Hread by done; simpl; lia|].
  intros Hc. destruct p; try discriminate Hc; repeat case_match; try discriminate Hc; injection Hc as <-; bools; destruct_and?; simpl; try lia;
    exfalso; first [congruence | match goal with E : is_call c ?m ?e = true |- _ => specialize (Hother m e E ltac:(discriminate)); congruence end].
Qed.
Lemma one_replacement m calls : forall p q, follows m p calls = Some q -> (length (List.filter creates calls) + allowance q <= allowance p)%nat.
Proof.
  induction calls as [|x calls IH]; intros p q Hf; simpl in *; [injection Hf as <-; lia|].
  destruct (on_call m p x) as [p'|] eqn:Ec; [|done]. apply call_allowance in Ec. specialize (IH _ _ Hf). destruct (creates x); simpl in *; lia.
Qed.
End Protocol.

Ltac dict_slots := unfold dict_update, target_fields; cbn [fold_left fst snd app]; rewrite ?dict_get_set; cbn -[dict_get dict_set]; try reflexivity.

(** ** Programs that only read *)
(** The calls made since [calls0] take the protocol to [p]; the record of attempts is [f]. *)
Section Rules.
Context `{Environ} `{Repr} `{ExnText} `{JsonLoads} `{YtTime} `{PacificMidnight}.
Variables (may : bool) (calls0 : list (api_call * reply)).

Definition At (p : phase) (f : option pyval) (w : yt_world) : Prop :=
  (exists calls, y_calls w = calls0 ++ calls /\ follows may Start calls = Some p) /\ y_files w Force = f.
Definition Inv (w : yt_world) : Prop := exists p f, At p f w.

(** The post-conditions of a result and of an exception; [Inv] when the process dies. *)
Definition spec {A} (P : yt_world -> Prop) (m : Y A) (Q : A -> yt_world -> Prop) (R : yt_world -> Prop) : Prop := forall w, P w ->
  match m w with (Done a, w') => Q a w' | (Raised _, w') => R w' | (Dead, w') => Inv w' end.
Definition quiet {A} (m : Y A) : Prop := forall p f, spec (At p f) m (fun _ => At p f) (At p f).

Lemma at_inv p f w : At p f w -> Inv w.
Proof. by exists p, f. Qed.
Lemma spec_ret {A} (P : yt_world -> Prop) (a : A) (Q : A -> yt_world -> Prop) R : (forall w, P w -> Q a w) -> spec P (xret a) Q R.
Proof. intros HQ w Hw. by apply HQ. Qed.
Lemma spec_raise {A} (P : yt_world -> Prop) e (Q : A -> yt_world -> Prop) R : (forall w, P w -> R w) -> spec P (xraise e) Q R.
Proof. intros HR w Hw. by apply HR. Qed.
Lemma spec_bind {A B} P (m : Y A) (k : A -> Y B) Q Q' R : spec P m Q R -> (forall a, spec (Q a) (k a) Q' R) -> spec P (xbind m k) Q' R.
Proof. intros Hm Hk w Hw. specialize (Hm w Hw). unfold xbind. destruct (m w) as [[a|e|] w']; try done. by apply Hk. Qed.
Lemma spec_try {A} P (m : Y A) h Q R R' : spec P m Q R -> (forall e, spec R (h e) Q R') -> spec P (xtry m h) Q R'.
Proof. intros Hm Hh w Hw. specialize (Hm w Hw). unfold xtry. destruct (m w) as [[a|e|] w']; try done. by apply Hh. Qed.
Lemma spec_except {A} P (m : Y A) http other Q R R' : spec P m Q R -> (forall c b, spec R (http c b) Q R') -> (forall e, spec R (other e) Q R') ->
  spec P (except m http other) Q R'.
Proof. intros Hm Hh Ho. eapply spec_try; [exact Hm|]. intros [c b|e]; auto. Qed.
Lemma spec_weaken {A} (P P' : yt_world -> Prop) (m : Y A) Q Q' (R R' : yt_world -> Prop) : spec P' m Q' R' -> (forall w, P w -> P' w) ->
  (forall a w, Q' a w -> Q a w) -> (forall w, R' w -> R w) -> spec P m Q R.
Proof. intros Hm HP HQ HR w Hw. specialize (Hm w (HP w Hw)). destruct (m w) as [[a|e|] w']; auto. Qed.
(** The same with a post-condition for each exception. *)
Definition spec_e {A} (P : yt_world -> Prop) (m : Y A) (Q : A -> yt_world -> Prop) (R : yt_error -> yt_world -> Prop) : Prop := forall w, P w ->
  match m w with (Done a, w') => Q a w' | (Raised e, w') => R e w' | (Dead, w') => Inv w' end.
Lemma spec_e_raise {A} (P : yt_world -> Prop) e (Q : A -> yt_world -> Prop) (R : yt_error -> yt_world -> Prop) :
  (forall w, P w -> R e w) -> spec_e P (xraise e) Q R.
Proof. intros HR w Hw. by apply HR. Qed.
Lemma spec_e_bind {A B} P (m : Y A) (k : A -> Y B) Q Q' R : spec_e P m Q R -> (forall a, spec_e (Q a) (k a) Q' R) -> spec_e P (xbind m k) Q' R.
Proof. intros Hm Hk w Hw. specialize (Hm w Hw). unfold xbind. destruct (m w) as [[a|e|] w']; try done. by apply Hk. Qed.
Lemma spec_e_try {A} P (m : Y A) h Q R R' : spec_e P m Q R -> (forall e, spec_e (R e) (h e) Q R') -> spec_e P (xtry m h) Q R'.
Proof. intros Hm Hh w Hw. specialize (Hm w Hw). unfold xtry. destruct (m w) as [[a|e|] w']; try done. by apply Hh. Qed.
Lemma spec_except_e {A} P (m : Y A) http other Q R R' : spec_e P m Q R -> (forall c b, spec (R (HTTPError c b)) (http c b) Q R') ->
  (forall e, spec (R (PyError e)) (other e) Q R') -> spec P (except m http other) Q R'.
Proof.
  intros Hm Hh Ho w Hw. specialize (Hm w Hw). unfold except, xtry. destruct (m w) as [[a|e|] w']; try done.
  destruct e as [c b|e]; [by apply Hh | by apply Ho].
Qed.
Lemma spec_e_weaken {A} (P : yt_world -> Prop) (m : Y A) Q Q' R R' : spec_e P m Q' R' -> (forall a w, Q' a w -> Q a w) ->
  (forall e w, R' e w -> R e w) -> spec_e P m Q R.
Proof. intros Hm HQ HR w Hw. specialize (Hm w Hw). destruct (m w) as [[a|e|] w']; auto. Qed.

(** What raises no error of HTTP. *)
Definition plain {A} (m : Y A) : Prop := forall w e w', m w = (Raised e, w') -> exists x, e = PyError x.
Lemma plain_ret {A} (a : A) : plain (xret a).
Proof. by intros w e w' [=]. Qed.
Lemma plain_bind {A B} (m : Y A) (k : A -> Y B) : plain m -> (forall a, plain (k a)) -> plain (xbind m k).
Proof.
  intros Hm Hk w e w'. unfold xbind. destruct (m w) as [[a|x|] w1] eqn:E; [apply Hk | | done]. intros [= -> ->]. by apply (Hm w _ w').
Qed.
Lemma plain_try {A} (m : Y A) h : (forall e, plain (h e)) -> plain (xtry m h).
Proof. intros Hh w e w'. unfold xtry. destruct (m w) as [[a|x|] w1]; [done | apply Hh | done]. Qed.
Lemma plain_lift {A} (m : res A) : plain (ylift m).
Proof. destruct m; intros w e' w' [=]; eauto. Qed.
Lemma plain_sense : plain sense.
Proof. by intros w e w' [=]. Qed.
Lemma plain_writing g : plain (writing g).
Proof.
  apply plain_bind; [apply plain_sense|]. intros r w e w'. destruct (yr_weather r); intros [=]; eauto.
Qed.
Lemma plain_update {A} (u : dict -> res (dict * A)) : plain (update_quota_state u).
Proof.
  apply plain_bind; [apply plain_sense|]. intros r w e w'. destruct (u _) as [[d a]|x]; [destruct (yr_weather r)|]; intros [=]; eauto.
Qed.
Ltac plainly := repeat first
  [ apply plain_ret | apply plain_lift | apply plain_sense | apply plain_writing | apply plain_update | apply plain_bind; [|intros] | apply plain_try; intros
  | case_match ].
Lemma plain_call_event a b c d e g : plain (_append_api_call_event a b c d e g).
Proof. unfold _append_api_call_event, quietly. plainly. Qed.
Lemma plain_record a b c d : plain (_record_http_error a b c d).
Proof.
  unfold _record_http_error, with_quota, mark_quota_exhausted, now_sec, utc_now, now, append_event, quietly.
  apply plain_bind; [|intros; apply plain_call_event]. plainly.
Qed.
Lemma spec_e_quiet {A} p f (m : Y A) : quiet m -> plain m -> spec_e (At p f) m (fun _ => At p f) (fun e w => (exists x, e = PyError x) /\ At p f w).
Proof.
  intros Hq Hp w Hw. specialize (Hq p f w Hw). destruct (m w) as [[a|e|] w'] eqn:E; [done | | done]. split; [by apply (Hp w e w') | done].
Qed.

Lemma spec_pure {A} (P : yt_world -> Prop) (F : Prop) (m : Y A) Q R : (F -> spec P m Q R) -> spec (fun w => P w /\ F) m Q R.
Proof. intros Hm w [Hw HF]. by apply Hm. Qed.

(** What only reads leaves the protocol and the record where they are. *)
Lemma follows_readings p calls : forallb (fun x => reading (fst x)) calls = true -> follows may p calls = Some p.
Proof. induction calls as [|[c r] calls IH]; simpl; [done|]. intros [Hc Hcs]%andb_true_iff. rewrite Hc. auto. Qed.
Lemma follows_more p q calls calls' : follows may p calls = Some q -> follows may p (calls ++ calls') = follows may q calls'.
Proof. revert p. induction calls as [|c calls IH]; intros p; simpl; [by intros [= ->]|]. destruct (on_call may p c); [apply IH | done]. Qed.
Lemma quiet_within {A} (m : Y A) : within shared reading m -> quiet m.
Proof.
  intros Hm p f w [(calls & Ec & Ef) Hf]. destruct (Hm w) as (_ & Hfiles & calls' & Ec' & Hr).
  assert (Hw : At p f (snd (m w))).
  { split; [|by rewrite Hfiles]. exists (calls ++ calls'). split; [by rewrite Ec', Ec, app_assoc|]. rewrite (follows_more _ p) by done. by apply follows_readings. }
  destruct (m w) as [[a|e|] w']; [exact Hw | exact Hw | by apply (at_inv p f)].
Qed.
Ltac quiet := intros; apply quiet_within; frame.

(** A call moves the protocol as its reply says. *)
Lemma fetch_rule_e c p next f : (forall r, on_call may p (c, r) = Some (next r)) ->
  spec_e (At p f) (fetch c) (fun s => At (next (Text s)) f)
    (fun e w => exists r, At (next r) f w /\ match r with Text _ => False | Status code body => e = HTTPError code body | Broken x => e = PyError x end).
Proof.
  intros Hc w [(calls & E & Ef) Hf]. unfold fetch, modify, xbind, sense. cbn [y_env y_pos add_call].
  set (r := yr_reply (y_env w (y_pos w))).
  assert (Hw : At (next r) f (fold_left apply_other (yr_others (y_env w (y_pos w))) (next_reading (add_call c w)))).
  { destruct (others_same (yr_others (y_env w (y_pos w))) (next_reading (add_call c w))) as (E' & _ & _).
    destruct (frame_others shared reading (yr_others (y_env w (y_pos w))) (next_reading (add_call c w))) as (_ & Hfo & _).
    split; [|by rewrite Hfo]. exists (calls ++ [(c, r)]). rewrite follows_app, Ef. split; [|apply Hc].
    rewrite E'. simpl. by rewrite E, app_assoc. }
  fold r. destruct r as [t|code body|x] eqn:Er; simpl; [exact Hw | by exists (Status code body) | by exists (Broken x)].
Qed.
Lemma fetch_rule c p p' q f : (forall r, on_call may p (c, r) = Some (if answered r then p' else q)) ->
  spec (At p f) (fetch c) (fun _ => At p' f) (At q f).
Proof.
  intros Hc w Hw. pose proof (fetch_rule_e c p (fun r => if answered r then p' else q) f Hc w Hw) as He.
  destruct (fetch c w) as [[a|e|] w']; [exact He | | exact He]. by destruct He as (r & Hr & Hm); destruct r.
Qed.
Definition either (p q : phase) (f : option pyval) (w : yt_world) : Prop := At p f w \/ At q f w.
Lemma logged_rule {A} verb endpoint source (m : Y A) p p' q f :
  spec (At p f) m (fun _ => At p' f) (At q f) -> spec (At p f) (logged verb endpoint source m) (fun _ => At p' f) (either p' q f).
Proof.
  intros Hm. unfold logged. eapply spec_bind with (Q := fun _ => At p' f).
  - eapply spec_weaken with (Q' := fun _ => At p' f) (R' := At q f); [|intros w Hw; exact Hw | done | by intros w ?; right].
    eapply spec_except; [exact Hm | intros c b | intros e]; (eapply spec_bind with (Q := fun _ => At q f); [quiet | intros; by apply spec_raise]).
  - intros a. eapply spec_weaken with (Q' := fun _ => At p' f) (R' := At p' f); [quiet | intros w Hw; exact Hw | done | by intros w ?; left].
Qed.
Lemma post_rule endpoint token params p p' q f :
  (forall r, on_call may p (mkCall "POST" endpoint token params None, r) = Some (if answered r then p' else q)) ->
  spec (At p f) (api_post endpoint token params) (fun _ => At p' f) (either p' q f).
Proof.
  intros Hc. eapply spec_bind with (Q := fun _ => At p' f); [by apply logged_rule, fetch_rule|]. intros raw.
  eapply spec_weaken with (Q' := fun _ => At p' f) (R' := At p' f); [quiet | intros w Hw; exact Hw | done | by intros w ?; left].
Qed.
Lemma update_rule token params body p p' f :
  (forall r, on_call may p (mkCall "PUT" "videos" token params (Some body), r) = Some p') ->
  spec (At p f) (videos_api_update token params body) (fun _ => At p' f) (At p' f).
Proof.
  intros Hc. eapply spec_weaken with (Q' := fun _ => At p' f) (R' := either p' p' f); [|intros w Hw; exact Hw | done | by intros w [|]].
  eapply spec_bind with (Q := fun _ => At p' f); [apply logged_rule, fetch_rule; intros r; rewrite Hc; by destruct (answered r)|]. intros raw.
  eapply spec_weaken with (Q' := fun _ => At p' f) (R' := At p' f); [quiet | intros w Hw; exact Hw | done | by intros w ?; left].
Qed.
Lemma delete_rule endpoint token params p p' f :
  (forall r, on_call may p (mkCall "DELETE" endpoint token params None, r) = Some p') ->
  spec (At p f) (api_delete endpoint token params) (fun _ => At p' f) (At p' f).
Proof.
  intros Hc. eapply spec_weaken with (Q' := fun _ => At p' f) (R' := either p' p' f); [|intros w Hw; exact Hw | done | by intros w [|]].
  eapply spec_bind with (Q := fun _ => At p' f); [apply logged_rule, fetch_rule; intros r; rewrite Hc; by destruct (answered r)|]. intros raw.
  eapply spec_weaken with (Q' := fun _ => At p' f) (R' := At p' f); [quiet | intros w Hw; exact Hw | done | by intros w ?; left].
Qed.

(** ** The steps of an attempt *)
Definition Mid (f : option pyval) (w : yt_world) : Prop := exists p, At p f w.
Lemma at_mid p f w : At p f w -> Mid f w.
Proof. by exists p. Qed.
Lemma mid_inv f w : Mid f w -> Inv w.
Proof. intros [p Hp]. by exists p, f. Qed.
Hint Resolve at_inv at_mid mid_inv : core.

Lemma spec_mid {A} f (m : Y A) Q R : (forall p, spec (At p f) m Q R) -> spec (Mid f) m Q R.
Proof. intros Hm w [p Hp]. by apply (Hm p). Qed.
Lemma spec_up {A} p f (m : Y A) Q (R : yt_world -> Prop) : spec (At p f) m Q (At p f) -> (forall w, At p f w -> R w) -> spec (At p f) m Q R.
Proof. intros Hm HR. eapply spec_weaken; [exact Hm | done | done | exact HR]. Qed.
(** A reading step, and a result that was computed. *)
Lemma calm_step {A B} (m : Y A) (k : A -> Y B) p f Q (R : yt_world -> Prop) : quiet m -> (forall w, At p f w -> R w) ->
  (forall a, spec (At p f) (k a) Q R) -> spec (At p f) (xbind m k) Q R.
Proof. intros Hm HR Hk. eapply spec_bind; [apply spec_up; [apply Hm | exact HR] | exact Hk]. Qed.
Lemma lift_step {A B} (m : res A) (k : A -> Y B) P Q (R : yt_world -> Prop) : (forall w, P w -> R w) ->
  (forall a, m = Ok a -> spec P (k a) Q R) -> spec P (xbind (ylift m) k) Q R.
Proof. intros HR Hk. destruct m as [a|e]; [by apply (Hk a)|]. intros w Hw. by apply HR. Qed.

Lemma recovery_body source auto t body token endpoint params : _recovery_broadcast_body source auto t = Ok body ->
  auto_starts (mkCall "INSERT" endpoint token params (Some body)) = auto.
Proof.
  unfold _recovery_broadcast_body. intros E. repeat match type of E with rbind ?m _ = _ => destruct m; simpl in E; [|discriminate E] end.
  injection E as <-. reflexivity.
Qed.
Lemma either_mid p q f w : either p q f w -> Mid f w.
Proof. intros [|]; eauto. Qed.
Hint Resolve either_mid : core.

(** Inserting a broadcast: an error of HTTP says where the protocol is. *)
Lemma spec_e_lift {A B} (m : res A) (k : A -> Y B) P Q (R : yt_error -> yt_world -> Prop) : (forall e w, P w -> R (PyError e) w) ->
  (forall a, m = Ok a -> spec_e P (k a) Q R) -> spec_e P (xbind (ylift m) k) Q R.
Proof. intros HR Hk. destruct m as [a|e]; [by apply (Hk a)|]. intros w Hw. by apply HR. Qed.
Lemma spec_e_pre {A} (P P' : yt_world -> Prop) (m : Y A) Q R : spec_e P' m Q R -> (forall w, P w -> P' w) -> spec_e P m Q R.
Proof. intros Hm HP w Hw. by apply Hm, HP. Qed.
Definition insert_error (next : reply -> phase) (f : option pyval) (e : yt_error) (w : yt_world) : Prop :=
  match e with HTTPError code body => At (next (Status code body)) f w | PyError _ => Mid f w end.
Lemma insert_quiet {A} next (m : Y A) q f : quiet m -> plain m -> spec_e (At q f) m (fun _ => At q f) (insert_error next f).
Proof. intros Hq Hp. eapply spec_e_weaken; [by apply spec_e_quiet | done|]. intros e w [[x ->] Hw]. simpl. eauto. Qed.
Lemma insert_rule_e token source auto p next f : (forall s, next (Text s) = Inserted) ->
  (forall params body r, auto_starts (mkCall "INSERT" "liveBroadcasts" token params (Some body)) = auto ->
     on_call may p (mkCall "INSERT" "liveBroadcasts" token params (Some body), r) = Some (next r)) ->
  spec_e (At p f) (insert_broadcast token source auto) (fun _ => At Inserted f) (insert_error next f).
Proof.
  intros Hin Hc. unfold insert_broadcast. eapply spec_e_bind; [apply insert_quiet; [quiet | unfold now; plainly]|].
  intros t. apply spec_e_lift; [simpl; eauto|]. intros body Eb. unfold api_post_json.
  eapply spec_e_bind with (Q := fun _ => At Inserted f); [|intros raw; apply insert_quiet; [quiet | unfold loads_or_empty; plainly]].
  unfold logged. eapply spec_e_bind with (Q := fun _ => At Inserted f).
  - eapply spec_e_try.
    + eapply spec_e_weaken; [apply (fetch_rule_e _ p next f); intros r; by eapply Hc, recovery_body | | intros e w He; exact He].
      intros a w Hw. cbv beta in Hw. by rewrite Hin in Hw.
    + intros [code body'|x].
      * eapply spec_e_pre with (P' := At (next (Status code body')) f).
        { eapply spec_e_bind; [apply insert_quiet; [quiet | apply plain_record]|]. intros u. by apply spec_e_raise. }
        intros w (r & Hw & Hr). destruct r as [s'|code' body2|x']; [done | by injection Hr as <- <- | done].
      * intros w (r & Hw & Hr). refine ((_ : spec_e (At (next r) f) _ _ _) w Hw). eapply spec_e_bind; [apply insert_quiet; [quiet | apply plain_call_event]|].
        intros u. apply spec_e_raise. simpl. eauto.
  - intros a. eapply spec_e_bind; [apply insert_quiet; [quiet | apply plain_call_event]|]. intros u w Hw. exact Hw.
Qed.

Lemma category_rule token id cat f : strip id = id ->
  spec (At (Bound id false) f) (update_video_category_from_existing_snippet token id cat)
    (fun _ w => exists u, At (Bound id u) f w) (fun w => exists u, At (Bound id u) f w).
Proof.
  intros Hid. assert (HR : forall w, At (Bound id false) f w -> exists u, At (Bound id u) f w) by eauto.
  assert (Hret : forall s : string, spec (At (Bound id false) f) (xret s) (fun _ w => exists u, At (Bound id u) f w) (fun w => exists u, At (Bound id u) f w))
    by (intros s; by apply spec_ret).
  unfold update_video_category_from_existing_snippet. rewrite Hid. destruct (String.eqb id ""); [apply Hret|]. destruct (String.eqb (strip cat) ""); [apply Hret|].
  apply calm_step; [quiet | done |]. intros payload. apply lift_step; [done|]. intros items _.
  destruct items as [| | | | | [|first l] |]; try apply Hret.
  apply lift_step; [done|]. intros snippet _. apply lift_step; [done|]. intros current _. destruct (String.eqb current _); [apply Hret|].
  apply lift_step; [done|]. intros existing _.
  eapply spec_bind with (Q := fun _ w => exists u, At (Bound id u) f w); [|intros; by apply spec_ret].
  eapply spec_weaken with (P' := At (Bound id false) f); [apply (update_rule _ _ _ (Bound id false) (Bound id true)) | done | intros ? ? Hw; by exists true | intros ? Hw; by exists true].
  intros r. unfold on_call. cbn. by rewrite String.eqb_refl.
Qed.

(** A replacement: bound, or inserted without an identifier in the answer. *)
Definition made (f : option pyval) (id : string) (w : yt_world) : Prop :=
  if String.eqb id "" then At Inserted f w else exists updated, At (Bound id updated) f w.
Lemma insert_any token source f : may = true ->
  spec (At Start f) (except (bind! c := insert_broadcast token source FORCE_LIVE_REPLACEMENT_ENABLE_AUTO_START in xret (c, FORCE_LIVE_REPLACEMENT_ENABLE_AUTO_START))
    (fun code body => if FORCE_LIVE_REPLACEMENT_ENABLE_AUTO_START && _has_google_error_reason body "invalidAutoStart"
                      then bind! c := insert_broadcast token source false in xret (c, false)
                      else xraise (HTTPError code body))
    (fun e => xraise (PyError e))) (fun _ => At Inserted f) (Mid f).
Proof.
  intros Hmay. set (auto := FORCE_LIVE_REPLACEMENT_ENABLE_AUTO_START).
  set (next := fun r => if auto && refuses_start r then Refused else if answered r then Inserted else Stopped).
  set (again := fun r => if answered r then Inserted else Stopped).
  eapply spec_except_e with (Q := fun _ => At Inserted f) (R := insert_error next f).
  - eapply spec_e_bind; [apply insert_rule_e with (next := next)|intros c w Hw; exact Hw].
    + intros s. unfold next. simpl. by rewrite andb_false_r.
    + intros params body r Ha. unfold on_call. cbn -[auto_starts]. rewrite Hmay, Ha. unfold next. by case_match.
  - intros code body. unfold insert_error, next. cbn [refuses_start answered]. destruct (auto && _has_google_error_reason body "invalidAutoStart"); [|apply spec_raise; eauto].
    intros w Hw. pose proof (insert_rule_e token source false Refused again f) as Hi. specialize (Hi ltac:(done)).
    unfold xbind. specialize (Hi ltac:(intros params v r Ha; unfold on_call; cbn -[auto_starts]; by rewrite Ha) w Hw).
    destruct (insert_broadcast token source false w) as [[c|[code' body'|x]|] w']; [exact Hi | | exact Hi | exact Hi]. simpl in Hi. eauto.
  - intros e. by apply spec_raise.
Qed.

Lemma spec_ex {A B} (P : B -> yt_world -> Prop) (m : Y A) Q R : (forall b, spec (P b) m Q R) -> spec (fun w => exists b, P b w) m Q R.
Proof. intros Hm w [b Hb]. by apply (Hm b). Qed.

Lemma create_rule token source stream_id f : may = true ->
  spec (At Start f) (create_recovery_broadcast token source stream_id) (fun r => made f (fst r)) (Mid f).
Proof.
  intros Hmay. unfold create_recovery_broadcast. eapply spec_bind; [by apply insert_any|]. intros [created used].
  apply lift_step; [eauto|]. intros id Hid. destruct (String.eqb id "") eqn:Ee; [by apply spec_ret|].
  assert (Hs : strip id = id). { unfold textv in Hid. destruct (getd _ _ _); [|discriminate Hid]. injection Hid as <-. apply strip_idem. }
  eapply spec_bind with (Q := fun _ => At (Bound id false) f).
  { eapply spec_weaken; [apply (post_rule _ _ _ Inserted (Bound id false) Stopped); reflexivity | done | done | eauto]. }
  intros _. eapply spec_bind with (Q := fun _ w => exists u, At (Bound id u) f w).
  - destruct (String.eqb FORCE_LIVE_CATEGORY_ID ""); [apply spec_ret; eauto|].
    eapply spec_except; [by apply category_rule | intros; apply spec_ret; eauto | intros; apply spec_ret; eauto].
  - intros category. apply spec_ret. intros w Hw. unfold made. cbn [fst]. by rewrite Ee.
Qed.

(** The moves: from [p], a broadcast may be taken to its first status. *)
Definition can_move (p : phase) (id : string) (b : bool) : Prop := forall token params s r, dict_get "id" params = Some id -> dict_get "broadcastStatus" params = Some s ->
  first_status s = true -> on_call may p (mkCall "POST" "liveBroadcasts/transition" token params None, r) = Some (if answered r then Moved id b s else Stopped).
Lemma can_start id : can_move Start id false.
Proof. intros token params s r Hi Hs Hf. unfold on_call. cbn -[first_status param answered]. unfold param. cbn -[first_status answered]. rewrite Hi, Hs. cbn -[first_status answered]. by rewrite Hf. Qed.
Lemma can_unnamed id : can_move Inserted id false.
Proof. intros token params s r Hi Hs Hf. unfold on_call. cbn -[first_status param answered]. unfold param. cbn -[first_status answered]. rewrite Hi, Hs. cbn -[first_status answered]. by rewrite Hf. Qed.
Lemma can_bound id u : can_move (Bound id u) id true.
Proof. intros token params s r Hi Hs Hf. unfold on_call. cbn -[first_status param answered]. unfold param. cbn -[first_status answered]. rewrite Hi, Hs. cbn -[first_status answered]. by rewrite Hf, String.eqb_refl. Qed.

Lemma one_transition token id s steps lifecycle log p p' q f Q :
  (forall r, on_call may p (mkCall "POST" "liveBroadcasts/transition" token [("broadcastStatus", s); ("id", id); ("part", "id,status,snippet")] None, r)
             = Some (if answered r then p' else q)) ->
  (forall lifecycle log, spec (At p' f) (run_transitions token id steps lifecycle log) Q (Mid f)) ->
  spec (At p f) (run_transitions token id (s :: steps) lifecycle log) Q (Mid f).
Proof.
  intros Hc Hk. cbn [run_transitions]. eapply spec_bind; [eapply spec_weaken; [by apply post_rule | done | done | eauto]|]. intros result.
  apply lift_step; [eauto|]. intros after _. apply calm_step; [quiet | eauto | intros waited; apply Hk].
Qed.
Lemma transitions_rule token id current lifecycle log p r f : can_move p id r ->
  spec (At p f) (run_transitions token id (force_live_transition_statuses current FORCE_LIVE_TARGET_STATUS) lifecycle log)
    (fun _ => At (Moved id r final_status) f) (Mid f).
Proof.
  intros Hm. unfold force_live_transition_statuses. fold final_status. destruct (String.eqb final_status "live" && _) eqn:E.
  - apply andb_true_iff in E as [E _]. apply String.eqb_eq in E. apply one_transition with (p' := Moved id r "testing") (q := Stopped).
   
    { intros rp. apply Hm; [done | done |]. unfold first_status. by rewrite E. }
    intros lc lg. apply one_transition with (p' := Moved id r "live") (q := Stopped).
    { intros rp. unfold on_call. cbn -[answered]. unfold next_status, param. cbn -[answered]. by rewrite E, String.eqb_refl. }
    intros lc' lg'. apply spec_ret. by rewrite E.
  - apply one_transition with (p' := Moved id r final_status) (q := Stopped); [|intros; by apply spec_ret].
    intros rp. apply Hm; [done | done |]. unfold first_status. by rewrite String.eqb_refl.
Qed.

(** ** The record of an attempt *)
(** The pause after a number of consecutive failures: doubled for each failure before
    the last, up to an exponent and up to a limit. *)
Definition reference_backoff (failures : Z) : Z :=
  Z.min FORCE_LIVE_BACKOFF_MAX_SEC (Nat.iter (Z.to_nat (Z.min failures FORCE_LIVE_BACKOFF_MAX_EXP)) (Z.mul 2) FORCE_LIVE_BACKOFF_BASE_SEC).
Lemma iter_double n b : Nat.iter n (Z.mul 2) b = b * 2 ^ Z.of_nat n.
Proof. induction n as [|n IH]; simpl Nat.iter; [lia|]. rewrite IH, Nat2Z.inj_succ, Z.pow_succ_r by lia. ring. Qed.
Lemma backoff_doubles failures : compute_force_live_backoff_sec (failures + 1) = reference_backoff failures.
Proof.
  unfold compute_force_live_backoff_sec, reference_backoff. rewrite iter_double.
  assert (0 <= FORCE_LIVE_BACKOFF_MAX_EXP) by (unfold FORCE_LIVE_BACKOFF_MAX_EXP; lia).
  replace (Z.of_nat _) with (Z.min (Z.max 0 (failures + 1 - 1)) FORCE_LIVE_BACKOFF_MAX_EXP) by lia. apply Z.min_comm.
Qed.

(** The record [d] an attempt leaves: after a success the cooldown and no failure;
    after a failure the backoff of one more failure than [before]. *)
Definition leaves (ok : bool) (before : Z) (now_ts : Z) (d : dict) : Prop :=
  dict_get "consecutive_failures" d = Some (VInt (if ok then 0 else before + 1)) /\
  dict_get "next_allowed_ts" d = Some (VInt (now_ts + if ok then FORCE_LIVE_SUCCESS_COOLDOWN_SEC else reference_backoff before)).
(** The failures before an attempt are those on record; none when it had brought the
    broadcast to the final status and only the record could not be written. *)
Definition recorded (once : dict) (now_ts : Z) (ok : bool) (p : phase) (f : option pyval) : Prop := exists d before, f = Some (VDict d) /\
  leaves ok before now_ts d /\ (ok = true \/ int0 once "consecutive_failures" = Ok before \/ before = 0 /\ arrived p = true).
Lemma int0_get d k z : dict_get k d = Some (VInt z) -> int0 d k = Ok z.
Proof. intros E. unfold int0, dget. rewrite E. cbn. unfold py_or. cbn. by destruct z. Qed.
Lemma failure_recorded once now_ts detail at_ token_reason t d : failure_state once now_ts detail at_ token_reason t = Ok d ->
  exists before, int0 once "consecutive_failures" = Ok before /\ leaves false before now_ts d.
Proof.
  unfold failure_state. destruct (int0 once "consecutive_failures") as [failures|]; [|done].
  destruct (int0 once "attempt_count_window") as [count|]; [|done]. unfold rbind. intros [= <-].
  exists failures. split; [done|]. unfold leaves. rewrite <- backoff_doubles. split; dict_slots.
Qed.
Lemma success_recorded now_ts once at_ tr cr t steps log lifecycle operation elapsed least d note :
  success_state once now_ts at_ tr cr t steps log lifecycle operation elapsed least = Ok d -> Forall (fun kv => fst kv = "cleanup_reason" \/ fst kv = "cleanup_error") note ->
  leaves true 0 now_ts (dict_update (dict_update d note) [("ok", VBool true); ("error", VStr "")]).
Proof.
  unfold success_state. destruct (int0 once "attempt_count_window") as [count|]; [|done]. unfold rbind. intros [= <-] Hnote.
  assert (Hget : forall k d, k <> "cleanup_reason" -> k <> "cleanup_error" -> dict_get k (dict_update d note) = dict_get k d).
  { intros k d0 K1 K2. clear -Hnote K1 K2. unfold dict_update. revert d0. induction Hnote as [|kv note Hk _ IH]; intros d0; [done|]. cbn [fold_left].
    rewrite IH, dict_get_set_ne; [done|]. destruct Hk as [->| ->]; done. }
  unfold leaves. split; unfold dict_update at 1; cbn [fold_left fst snd]; rewrite !dict_get_set; cbn [String.eqb Ascii.eqb Bool.eqb]; rewrite Hget by done; dict_slots.
Qed.

Lemma save_rule d p f : spec (At p f) (save_force_live_state d) (fun _ => At p (Some (VDict d))) (At p f).
Proof.
  eapply spec_bind; [quiet|]. intros r. destruct (yr_weather r); [| by apply spec_raise | intros w Hw; by apply (at_inv p f)].
  intros w [Hc Hf]. split; [exact Hc|]. simpl. by rewrite fn_lookup_insert.
Qed.
(** What an attempt answers with: nothing was sent, or the attempt is on record;
    a success brought the broadcast to the final status. *)
Definition answered_ (once : dict) (now_ts : Z) (r : bool * string) (w : yt_world) : Prop :=
  exists p f, At p f w /\ (p = Start \/ recorded once now_ts (fst r) p f) /\ (fst r = true -> arrived p = true).
Lemma fail_rule once now_ts token_reason t detail p f : spec (At p f) (fail_attempt once now_ts token_reason t detail)
  (fun r w => fst r = false /\ exists d before, At p (Some (VDict d)) w /\ int0 once "consecutive_failures" = Ok before /\ leaves false before now_ts d) Inv.
Proof.
  unfold fail_attempt. apply calm_step; [quiet | eauto |]. intros at_. apply lift_step; [eauto|].
  intros d Hd. eapply spec_bind; [apply spec_up; [apply save_rule | eauto]|]. intros ?. apply spec_ret. intros w Hw. split; [done|].
  apply failure_recorded in Hd as (before & Hb & Hl). by exists d, before.
Qed.
Lemma fail_answers once now_ts token_reason t detail f : spec (Mid f) (fail_attempt once now_ts token_reason t detail) (answered_ once now_ts) Inv.
Proof.
  apply spec_mid. intros p. eapply spec_weaken; [apply fail_rule | intros w Hw; exact Hw | | done].
  intros [ok why] w (Hf & d & before & Hw & Hb & Hl). simpl in Hf. subst ok. exists p, (Some (VDict d)). split; [done|]. split; [|done].
  right. exists d, before. split_and!; [done..|]. by right; left.
Qed.

(** ** The attempt *)
Lemma cleanup_rule token source id f : spec (At (Moved id true final_status) f) (cleanup_replaced_broadcast token source id)
  (fun _ w => exists p, At p f w /\ arrived p = true) (fun w => exists p, At p f w /\ arrived p = true).
Proof.
  assert (Hend : forall w, At (Moved id true final_status) f w -> exists p, At p f w /\ arrived p = true).
  { intros w Hw. eexists. split; [exact Hw|]. apply String.eqb_refl. }
  unfold cleanup_replaced_broadcast. apply lift_step; [done|]. intros raw _. set (source_id := strip _).
  destruct (_ || String.eqb source_id id) eqn:Ee; [by apply spec_ret|]. apply orb_false_iff in Ee as [_ Ee].
  apply lift_step; [done|]. intros lifecycle _. destruct (negb _); [by apply spec_ret|].
  eapply spec_bind with (Q := fun _ => At (Cleaned id) f); [|intros ?; apply spec_ret; intros w Hw; by exists (Cleaned id)].
  eapply spec_weaken; [apply (delete_rule _ _ _ (Moved id true final_status) (Cleaned id)) | done | done | intros w Hw; by exists (Cleaned id)].
  intros r. unfold on_call. cbn -[final_status]. unfold param. cbn -[final_status]. by rewrite String.eqb_refl, Ee.
Qed.
Lemma note_rule token source id r f : (is_Some source -> r = true) -> spec (At (Moved id r final_status) f) (cleanup_note token source id)
  (fun note w => (exists p, At p f w /\ arrived p = true) /\ Forall (fun kv => fst kv = "cleanup_reason" \/ fst kv = "cleanup_error") note) Inv.
Proof.
  intros Hr. assert (Hend : forall w, At (Moved id r final_status) f w -> exists p, At p f w /\ arrived p = true).
  { intros w Hw. eexists. split; [exact Hw|]. apply String.eqb_refl. }
  destruct source as [item|]; simpl; [|apply spec_ret; intros w Hw; split; [by apply Hend | constructor]].
  destruct (negb (truthy item)); [apply spec_ret; intros w Hw; split; [by apply Hend | constructor]|]. rewrite (Hr (ltac:(eauto))).
  eapply spec_try with (R := fun w => exists p, At p f w /\ arrived p = true).
  - eapply spec_bind; [apply cleanup_rule|]. intros note. apply spec_ret. intros w Hw. split; [exact Hw|].
    destruct (String.eqb note ""); repeat constructor.
  - intros e. apply spec_ret. intros w Hw. split; [exact Hw|]. apply Forall_singleton. by right.
Qed.

Lemma transition_rule i now_ts once token token_reason channel_reason least t source p f : can_move p (ft_id t) (bool_decide (is_Some source)) ->
  spec (At p f) (transition_target i now_ts once token token_reason channel_reason least t source) (answered_ once now_ts) Inv.
Proof.
  intros Hmove. unfold transition_target. set (steps := force_live_transition_statuses _ _).
  eapply spec_bind with (Q := fun r w => match r with inl _ => At (Moved (ft_id t) (bool_decide (is_Some source)) final_status) f w | inr _ => Mid f w end).
  { eapply spec_except with (R := Mid f).
    - eapply spec_bind; [by apply transitions_rule | intros a; by apply spec_ret].
    - intros code body. apply spec_mid. intros q. apply calm_step; [quiet | eauto | intros d; apply spec_ret; eauto].
    - intros e. apply spec_ret. eauto. }
  intros [[lifecycle log]|detail]; [|apply fail_answers].
  apply calm_step; [quiet | eauto |]. intros at_. apply lift_step; [eauto|]. intros d Hd.
  eapply spec_bind; [apply (note_rule _ _ _ (bool_decide (is_Some source))); intros Hs; by apply bool_decide_eq_true|]. intros note. apply spec_pure. intros Hnote.
  apply spec_ex. intros q. apply spec_pure. intros Hq. eapply spec_try with (R := At q f).
  - eapply spec_bind; [apply save_rule|]. intros ?. apply spec_ret. intros w Hw. eexists q, _. split; [exact Hw|]. split; [|done]. right.
    eexists _, 0. split; [reflexivity|]. split; [by eapply success_recorded | by left].
  - intros e. pose proof (success_recorded now_ts once _ _ _ _ _ _ _ _ _ _ d note Hd Hnote) as [Hz _].
    eapply spec_weaken; [apply fail_rule | intros w Hw; exact Hw | | done]. intros [ok why] w (Hf & d' & before & Hw & Hb & Hl). simpl in Hf. subst ok.
    rewrite (int0_get _ _ _ Hz) in Hb. injection Hb as <-. exists q, (Some (VDict d')). split; [done|]. split; [|done].
    right. exists d', 0. split_and!; [done..|]. by right; right.
Qed.

Definition planned (once : dict) (now_ts : Z) (f : option pyval) (p : plan) (w : yt_world) : Prop :=
  match p with
  | Answered r => answered_ once now_ts r w
  | Proceed t source => exists q, At q f w /\ can_move q (ft_id t) (bool_decide (is_Some source))
  end.
Lemma replace_rule i now_ts once token token_reason t item stream_id f : may = may_replace i ->
  spec (At Start f) (replace_target i now_ts once token token_reason t item stream_id) (planned once now_ts f) Inv.
Proof.
  intros Hmay. unfold replace_target. unfold may_replace in Hmay.
  assert (Hfail : forall detail, spec (Mid f) (bind! r := fail_attempt once now_ts token_reason t detail in xret (Answered r)) (planned once now_ts f) Inv).
  { intros detail. eapply spec_bind; [apply fail_answers | intros r; by apply spec_ret]. }
  destruct FORCE_LIVE_ALLOW_REPLACEMENT_BROADCAST; cbn [negb andb] in *; [|eapply spec_weaken; [apply Hfail | eauto | done | done]].
  destruct (negb (fi_cli i) && _) eqn:Ec.
  - apply calm_step; [quiet | eauto |]. intros at_. eapply spec_bind; [apply spec_up; [apply save_rule | eauto]|]. intros ?. apply spec_ret.
    intros w Hw. eexists Start, _. split; [exact Hw|]. split; [by left | done].
  - assert (may = true) as Ht. { rewrite Hmay. destruct (fi_cli i); [done|]. simpl in *. lia. } clear Hmay Ec.
    eapply spec_bind with (Q := fun r w => match r with inl c => made f (fst c) w | inr _ => Mid f w end).
    { eapply spec_except with (R := Mid f); [| intros; apply spec_ret; eauto | intros; apply spec_ret; eauto].
      eapply spec_bind; [by apply create_rule | intros c; by apply spec_ret]. }
    intros [[id reason]|detail]; [|apply Hfail]. unfold made. cbn [fst]. destruct (String.eqb id "").
    + apply spec_ret. intros w Hw. exists Inserted. split; [done | apply can_unnamed].
    + apply spec_ex. intros u. apply calm_step; [quiet | eauto |]. intros lifecycle. apply spec_ret. intros w Hw.
      exists (Bound id u). split; [done | apply can_bound].
Qed.
Lemma plan_rule i now_ts once token token_reason t item stream_id f : may = may_replace i ->
  spec (At Start f) (plan_target i now_ts once token token_reason t item stream_id) (planned once now_ts f) Inv.
Proof.
  intros Hmay. unfold plan_target. assert (Hgo : forall t', spec (At Start f) (xret (Proceed t' None)) (planned once now_ts f) Inv).
  { intros t'. apply spec_ret. intros w Hw. exists Start. split; [done | apply can_start]. }
  apply lift_step; [eauto|]. intros content _. apply lift_step; [eauto|]. intros b _. destruct (negb b); [apply Hgo|].
  apply lift_step; [eauto|]. intros auto_stop _. destruct (is_false auto_stop); [apply Hgo | by apply replace_rule].
Qed.
Lemma attempt_rule i now_ts once token token_reason t f : may = may_replace i ->
  spec (At Start f) (attempt i now_ts once token token_reason t) (answered_ once now_ts) Inv.
Proof.
  intros Hmay. unfold attempt. apply calm_step; [quiet | eauto |]. intros item. apply lift_step; [eauto|]. intros stream_id _.
  apply lift_step; [eauto|]. intros [ok reason] _. destruct (negb ok); [eapply spec_weaken; [apply fail_answers | eauto | done | done]|].
  eapply spec_bind; [by apply plan_rule|]. intros [r|t' source]; [by apply spec_ret|]. apply spec_ex. intros q. apply spec_pure. intros Hq. by apply transition_rule.
Qed.
End Rules.

(** ** The whole invocation *)
Section Invocation.
Context `{Environ} `{Repr} `{ExnText} `{JsonLoads} `{YtTime} `{PacificMidnight}.

(** The clock an invocation reads after the guard. *)
Definition attempt_clock (w : yt_world) : Z := Qtrunc (yr_now (y_env w (S (y_pos w)))).
(** The record an invocation finds. *)
Definition force_record (w : yt_world) : dict := dict_or_empty (y_files w Force).
(** What has to hold before anything is sent. *)
Definition cleared (quota_guard : bool) (i : fl_input) (w : yt_world) (once : dict) : Prop :=
  yr_veto (y_env w (y_pos w)) = false /\ quota_guard = false /\ precheck i = None /\
  sanitize_force_live_state (force_record w) (attempt_clock w) = Ok once /\ attempt_refused once (attempt_clock w) (fi_cli i) = Ok None.

Lemma sense_run w : exists w', sense w = (Done (y_env w (y_pos w)), w') /\ y_calls w' = y_calls w /\ y_files w' Force = y_files w Force /\
  y_env w' = y_env w /\ y_pos w' = S (y_pos w).
Proof.
  eexists. split; [reflexivity|]. destruct (others_same (yr_others (y_env w (y_pos w))) (next_reading w)) as (-> & -> & ->).
  destruct (frame_others shared reading (yr_others (y_env w (y_pos w))) (next_reading w)) as (_ & Hf & _). by rewrite (Hf Force).
Qed.

(** An invocation sends nothing and answers no success, or it is cleared, follows
    the protocol, and answers only with the attempt on record. *)
Lemma invocation quota_guard i w : let '(o, w') := force_transition_live_once quota_guard i w in
  (y_calls w' = y_calls w /\ forall why, o <> Done (true, why)) \/
  exists once, cleared quota_guard i w once /\
    match o with
    | Done r => answered_ (may_replace i) (y_calls w) once (attempt_clock w) r w'
    | _ => Inv (may_replace i) (y_calls w) w'
    end.
Proof.
  destruct (force_transition_live_once quota_guard i w) as [o w'] eqn:E. unfold force_transition_live_once, veto in E.
  destruct (sense_run w) as (w1 & E1 & Hc1 & Hf1 & He1 & Hp1). unfold xbind in E. rewrite E1 in E. cbn [xret] in E.
  destruct (yr_veto (y_env w (y_pos w))) eqn:Ev; [injection E as <- <-; left; by split|].
  unfold force_live_precheck, destructive_action_guard in E. destruct (fi_feature_enabled i) eqn:Ef; cbn [negb] in E; [|injection E as <- <-; left; by split].
  rewrite bool_decide_eq_true_2 in E by (repeat constructor). rewrite andb_true_r in E.
  destruct quota_guard; cbn [negb] in E; [injection E as <- <-; left; by split|].
  unfold _api_force_transition_live_once, now_sec, now in E. destruct (sense_run w1) as (w2 & E2 & Hc2 & Hf2 & He2 & Hp2).
  unfold xbind at 1 2 3 in E. rewrite E2 in E. cbn [xret] in E. rewrite He1, Hp1 in E. fold (attempt_clock w) in E.
  destruct (precheck i) eqn:Epre; [injection E as <- <-; left; split; [congruence | done]|].
  unfold load_force_live_state, _load_json_file_unlocked, read_file in E. destruct (sense_run w2) as (w3 & E3 & Hc3 & Hf3 & He3 & Hp3).
  unfold xbind at 1 2 3 in E. rewrite E3 in E. cbn [xret] in E. rewrite Hf3, Hf2, Hf1 in E. fold (force_record w) in E.
  assert (Hcalls : y_calls w3 = y_calls w) by congruence.
  destruct (sanitize_force_live_state (force_record w) (attempt_clock w)) as [once|] eqn:Es; cbn [ylift] in E;
    [|injection E as <- <-; left; by split]. unfold xbind at 1 in E. cbn [xret] in E.
  destruct (attempt_refused once (attempt_clock w) (fi_cli i)) as [[why|]|] eqn:Er; cbn [ylift] in E; unfold xbind at 1 in E; cbn [xret xraise] in E;
    [injection E as <- <-; left; by split | | injection E as <- <-; left; by split].
  right. exists once. split; [by repeat split|].
  assert (Hw : At (may_replace i) (y_calls w) Start (y_files w3 Force) w3) by (split; [exists []; by rewrite app_nil_r | done]).
  assert (Hs : forall why, spec (may_replace i) (y_calls w) (At (may_replace i) (y_calls w) Start (y_files w3 Force)) (xret (false, why))
    (answered_ (may_replace i) (y_calls w) once (attempt_clock w)) (Inv (may_replace i) (y_calls w))).
  { intros why. apply spec_ret. intros u Hu. exists Start, (y_files w3 Force). split; [done|]. split; [by left | done]. }
  match type of E with ?m w3 = _ => assert (Hm : spec (may_replace i) (y_calls w) (At (may_replace i) (y_calls w) Start (y_files w3 Force)) m
    (answered_ (may_replace i) (y_calls w) once (attempt_clock w)) (Inv (may_replace i) (y_calls w))) end.
  { apply calm_step; [apply quiet_within; frame | intros u; apply at_inv |]. intros [token why]. destruct (String.eqb token ""); [apply Hs|].
    apply calm_step; [apply quiet_within; frame | intros u; apply at_inv |]. intros [why'|t]; [apply Hs | by apply attempt_rule]. }
  specialize (Hm w3 Hw). rewrite E in Hm. by destruct o.
Qed.

(** The calls an invocation sent. *)
Definition sent (w w' : yt_world) : list (api_call * reply) := drop (length (y_calls w)) (y_calls w').
Lemma sent_calls w w' calls : y_calls w' = y_calls w ++ calls -> sent w w' = calls.
Proof. unfold sent. intros ->. apply drop_app_length. Qed.
Lemma sent_none w w' : y_calls w' = y_calls w -> sent w w' = [].
Proof. intros E. apply sent_calls. by rewrite app_nil_r. Qed.

(** C13: An invocation sends nothing unless the route guard, the quota guard, the state
    of the stream and the record of attempts allow it, and whatever the API answers,
    whatever fails and wherever the process dies, its calls with their replies keep to
    the protocol: at most one insertion of a replacement is not a refusal for its
    automatic start, only such a refusal lets a second insertion be sent, without the
    automatic start, and a replacement is inserted only when the operator asks or the
    current URL has had its time; only the replacement that was bound is updated and
    brought live; one broadcast is moved; after a call that was not answered nothing is
    changed (but for the update of the category, whose failure is passed over); and a
    broadcast is deleted only last, after its replacement has reached the final status,
    and never the replacement itself.  A success is answered only once the final status
    has been requested and answered. *)
Theorem force_live_protocol quota_guard i w : let '(o, w') := force_transition_live_once quota_guard i w in
  exists calls p, y_calls w' = y_calls w ++ calls /\ follows (may_replace i) Start calls = Some p /\
    (length (List.filter creates calls) <= 1)%nat /\
    (calls <> [] -> exists once, cleared quota_guard i w once) /\
    match o with Done (true, _) => arrived p = true | _ => True end.
Proof.
  pose proof (invocation quota_guard i w) as Hi. destruct (force_transition_live_once quota_guard i w) as [o w'].
  destruct Hi as [[Hc Ho]|(once & Hcl & Ho)].
  - exists [], Start. rewrite app_nil_r. split; [done|]. split; [done|]. split; [simpl; lia|]. split; [done|]. destruct o as [[[|] why]|e|]; try done. by destruct (Ho why).
  - assert (exists p f, At (may_replace i) (y_calls w) p f w' /\ match o with Done (true, _) => arrived p = true | _ => True end)
      as (p & f & [(calls & Ec & Ef) _] & Ha).
    { destruct o as [[[|] why]|e|]; [destruct Ho as (p & f & Hp & _ & Ha); exists p, f; auto | destruct Ho as (p & f & Hp & _); by exists p, f | |];
        destruct Ho as (p & f & Hp); by exists p, f. }
    exists calls, p. split; [done|]. split; [done|]. split; [apply one_replacement in Ef; simpl in Ef; lia|]. split; [by exists once | done].
Qed.

Lemma still_at_start may calls p : follows may p calls = Some Start -> forallb (fun x => reading (fst x)) calls = true.
Proof.
  assert (Hback : forall p x, on_call may p x = Some Start -> p = Start /\ reading (fst x) = true).
  { intros q [c r]. unfold on_call. cbn [fst]. destruct (reading c); [by intros [= ->]|]. destruct q; repeat case_match; by intros [=]. }
  assert (Hst : forall calls p, follows may p calls = Some Start -> p = Start /\ forallb (fun x => reading (fst x)) calls = true).
  { clear calls p. induction calls as [|x calls IH]; intros p E; simpl in *; [by injection E as ->|]. destruct (on_call may p x) as [p'|] eqn:Ec; [|done].
    destruct (IH p' E) as [-> ->]. destruct (Hback p x Ec) as [-> ->]. done. }
  intros E. by destruct (Hst calls p E).
Qed.
Lemma sanitize_keeps d now_ts once : sanitize_force_live_state d now_ts = Ok once -> forall next, dict_get "next_allowed_ts" d = Some (VInt next) ->
  int0 once "next_allowed_ts" = Ok next.
Proof.
  unfold sanitize_force_live_state. destruct (int0 d "attempt_window_start_ts") as [start|]; [|done]. unfold rbind. intros [= <-] next En. assert (Hn : dict_get "next_allowed_ts" d <> None) by (by rewrite En). apply int0_get.
  assert (Hk : forall v d, dict_get "next_allowed_ts" d <> None -> dict_get "next_allowed_ts" (dict_setdefault "next_allowed_ts" (VInt 0)
    (dict_setdefault "consecutive_failures" (VInt 0) (dict_setdefault "attempted" v d))) = dict_get "next_allowed_ts" d).
  { intros v e He. unfold dict_setdefault at 1. assert (E : dict_get "next_allowed_ts" (dict_setdefault "consecutive_failures" (VInt 0) (dict_setdefault "attempted" v e)) = dict_get "next_allowed_ts" e).
    { unfold dict_setdefault. repeat (case_match; try rewrite dict_get_set_ne by done); done. }
    rewrite E. by destruct (dict_get "next_allowed_ts" e). }
  rewrite Hk; [|destruct (_ || _); dict_slots; done]. destruct (_ || _); [|exact En].
  unfold dict_update. cbn [fold_left fst snd]. rewrite !dict_get_set_ne by done. exact En.
Qed.
Lemma next_holds once now_ts next : int0 once "next_allowed_ts" = Ok next -> now_ts < next -> attempt_refused once now_ts false <> Ok None.
Proof.
  intros En Hlt. unfold attempt_refused. destruct (_ && negb false); [done|]. rewrite En. unfold rbind. by rewrite (proj2 (Z.ltb_lt _ _) Hlt).
Qed.

Lemma sanitize_failures d now_ts once : sanitize_force_live_state d now_ts = Ok once ->
  int0 once "consecutive_failures" = int0 d "consecutive_failures".
Proof.
  unfold sanitize_force_live_state. destruct (int0 d "attempt_window_start_ts") as [start|]; [|done]. unfold rbind. intros [= <-].
  assert (Hd : forall k v e, k <> "consecutive_failures" -> int0 (dict_setdefault k v e) "consecutive_failures" = int0 e "consecutive_failures").
  { intros k v e Hk. unfold dict_setdefault, int0, dget. case_match; [done|]. by rewrite dict_get_set_ne. }
  rewrite Hd by done. assert (Hz : forall e, int0 (dict_setdefault "consecutive_failures" (VInt 0) e) "consecutive_failures" = int0 e "consecutive_failures").
  { intros e. unfold dict_setdefault, int0, dget. destruct (dict_get "consecutive_failures" e) eqn:E; [by rewrite E|]. by rewrite dict_get_set_eq. }
  rewrite Hz, Hd by done. case_match; [|done]. unfold int0, dget, dict_update. cbn [fold_left fst snd]. by rewrite !dict_get_set_ne.
Qed.

(** C14: An attempt that sent a call that changes anything, and answered, leaves a
    record that holds the next one back: after a success for the cooldown, with no
    failure on record; after a failure for the backoff, which doubles with each
    consecutive failure up to its limits, with one more failure on record than before
    (counted from none when the final status was reached and only the record failed).
    Whatever a later invocation is given short of the operator's order, it sends
    nothing and answers no success before that pause has passed. *)
Theorem attempts_are_paced quota_guard i w ok why w' : force_transition_live_once quota_guard i w = (Done (ok, why), w') ->
  forallb (fun x => reading (fst x)) (sent w w') = false ->
  exists pause,
    (if ok then pause = FORCE_LIVE_SUCCESS_COOLDOWN_SEC /\ int0 (force_record w') "consecutive_failures" = Ok 0
     else exists before, pause = reference_backoff before /\ int0 (force_record w') "consecutive_failures" = Ok (before + 1) /\
       (int0 (force_record w) "consecutive_failures" = Ok before \/
        before = 0 /\ exists p, follows (may_replace i) Start (sent w w') = Some p /\ arrived p = true)) /\
    forall quota_guard2 i2 w2, y_files w2 Force = y_files w' Force -> fi_cli i2 = false -> attempt_clock w2 < attempt_clock w + pause ->
      let '(o2, w2') := force_transition_live_once quota_guard2 i2 w2 in y_calls w2' = y_calls w2 /\ forall why, o2 <> Done (true, why).
Proof.
  intros E Hsent. pose proof (invocation quota_guard i w) as Hi. rewrite E in Hi.
  destruct Hi as [[Hc _]|(once & Hcl & p & f & [(calls & Ec & Ef) Hfile] & Hr & _)]; [by rewrite (sent_none w w' Hc) in Hsent|].
  rewrite (sent_calls w w' calls Ec) in *. destruct Hr as [->|(d & before & -> & [Hcount Hnext] & Hb)]; [by rewrite (still_at_start _ _ _ Ef) in Hsent|].
  cbn [fst] in *. assert (Hrec : force_record w' = d) by (unfold force_record; by rewrite Hfile). apply int0_get in Hcount.
  exists (if ok then FORCE_LIVE_SUCCESS_COOLDOWN_SEC else reference_backoff before). split.
  { rewrite Hrec. destruct ok; [by split|]. exists before. split_and!; [done..|]. destruct Hb as [Hb|[Hb|[-> Ha]]]; [done | left | right].
    - destruct Hcl as (_ & _ & _ & Hs & _). by rewrite <- (sanitize_failures _ _ _ Hs).
    - split; [done|]. by exists p. }
  intros qg2 i2 w2 Hf Hcli Hclock.
  pose proof (invocation qg2 i2 w2) as Hi. destruct (force_transition_live_once qg2 i2 w2) as [o2 w2']. destruct Hi as [Hi|(once2 & Hcl2 & _)]; [exact Hi|].
  destruct Hcl2 as (_ & _ & _ & Hs & Hgo). unfold force_record in Hs. rewrite Hf, Hfile in Hs. cbn [dict_or_empty] in Hs. rewrite Hcli in Hgo.
  refine (False_ind _ (next_holds once2 (attempt_clock w2) _ _ _ Hgo)); [by apply (sanitize_keeps d (attempt_clock w2)) | lia].
Qed.
End Invocation.

(** A broadcast that is ready but does not start: it is replaced, and the old one deleted. *)
Module Demo.
#[local] Instance repr_none : Repr := fun _ => "".
#[local] Instance exn_text : ExnText := fun _ => "error".
#[local] Instance yt_time : YtTime := mkYtTime (fun _ => 0) (fun _ => "2026-01-01T00:00:00Z").
#[local] Instance no_zone : PacificMidnight := fun _ => Err (EValue "zone").
#[local] Instance demo_env : Environ := fun k => dict_get k
  [("YTW_OAUTH_ENABLE", "1"); ("YTW_OAUTH_CLIENT_ID", "client"); ("YTW_OAUTH_REFRESH_TOKEN", "refresh"); ("YTW_OAUTH_REQUIRE_CHANNEL_MATCH", "0");
   ("YTW_FORCE_LIVE_AUTO_RECOVERY", "1"); ("YTW_FORCE_LIVE_ALLOW_REPLACEMENT_BROADCAST", "1")].
Definition broadcast (id : string) : pyval :=
  VDict [("id", VStr id); ("snippet", VDict [("title", VStr "Live")]); ("status", VDict [("lifeCycleStatus", VStr "ready")]);
         ("contentDetails", VDict [("enableAutoStart", VBool true); ("boundStreamId", VStr "stream")])].
(** One answer serves every call: a token, a broadcast, and a list of both. *)
Definition answer : pyval :=
  VDict [("access_token", VStr "token"); ("expires_in", VInt 3600); ("id", VStr "new"); ("items", VList [broadcast "old"; broadcast "new"]);
         ("status", VDict [("lifeCycleStatus", VStr "live")])].
#[local] Instance loads : JsonLoads := fun _ => Ok answer.
Definition at_time (t : Q) : nat -> yt_reading := fun _ => mkYtReading t Calm [] (Text "x") (Ran 0 "" "") (Ok (true, "")) false None "" (Err (EOS "no clock")).
Definition oauth : OAuthProbeResult :=
  mkOAuth true true true false "" "enforced" "ready" "old" "old" "" "stream" "active" "good" 0 [] true true (Some true) None None.
Definition input : fl_input := mkForce true 5 "old" "" true true oauth 600 false 600 None.
Definition w0 : yt_world := mkYt (fun _ => None) [] [] [] [] (at_time 1000) 0 true.
Definition w1 : yt_world := Eval vm_compute in snd (force_transition_live_once false input w0).
Definition verbs (l : list (api_call * reply)) : list string :=
  List.map (fun c => (ac_method c ++ " " ++ param c "id" ++ param c "broadcastStatus")%string) (List.filter (fun c => negb (reading c)) (List.map fst l)).
Lemma replaces : exists why, force_transition_live_once false input w0 = (Done (true, why), w1) /\
  verbs (sent w0 w1) = ["INSERT "; "POST new"; "POST newtesting"; "POST newlive"; "DELETE old"].
Proof. eexists. split; [vm_compute; reflexivity | vm_compute; reflexivity]. Defined.
Lemma force_live_protocol_witness : exists calls p, y_calls w1 = y_calls w0 ++ calls /\ follows (may_replace input) Start calls = Some p /\
  exists once, cleared false input w0 once.
Proof.
  pose proof (force_live_protocol false input w0) as Hp. destruct replaces as (why & E & Hv). rewrite E in Hp.
  destruct Hp as (calls & p & Hc & Hf & _ & Hcl & _). exists calls, p. split; [exact Hc|]. split; [exact Hf|]. apply Hcl. intros ->.
  rewrite (sent_none w0 w1) in Hv; [discriminate Hv | by rewrite Hc, app_nil_r].
Defined.
Definition w2 : yt_world := new_pass (at_time 2799) w1.
Lemma attempts_are_paced_witness : attempt_clock w2 < attempt_clock w0 + FORCE_LIVE_SUCCESS_COOLDOWN_SEC /\ y_calls (snd (force_transition_live_once false input w2)) = y_calls w2.
Proof.
  assert (attempt_clock w2 < attempt_clock w0 + FORCE_LIVE_SUCCESS_COOLDOWN_SEC) as Hc by (vm_compute; reflexivity). split; [exact Hc|].
  destruct replaces as (why & E & _).
  destruct (attempts_are_paced false input w0 true why w1 E ltac:(vm_compute; reflexivity)) as (pause & [-> _] & Hp).
  specialize (Hp false input w2 eq_refl eq_refl Hc). destruct (force_transition_live_once false input w2). exact (proj1 Hp).
Defined.
End Demo.
