(* ===== verification/YtHealth.v ===== *)
(** * YouTube watchdog: local readings, caches, classification and the published status

    Models src/watchers/youtube_watchdog_core/{process,cache,recovery,evidence}.py,
    youtube_api_cost_guard.py, youtube_monitor/{classifier,stats_writer,action_proposer}.py,
    youtube_health.py and the derived fields of youtube_watchdog_state.py.  Every
    command is a reading of its own; the observation stamps of the payload
    (observation_time.py, modelled in ObservationTime.v) are readings. *)
From Stdlib Require Import Ascii.
From S2P Require Import Prelude PyVal UtcTime Contracts FastPolicy RemoteWarning SendSample EffectContract EffectModel AgentPolicy AgentObserve Evidence.
From S2P Require Import YtConfig YtWorld YtApi YtProbe.
#[local] Open Scope x_scope.

(** ** Local readings (process.py) *)
Section Process.
Context `{Environ}.

Definition k8s_mode : bool := bool_decide (lower (env "STREAM_RUNTIME_SUPERVISOR" "systemd") ∈ ["k8s"; "k3s"; "kubernetes"]).
Definition K8S_MAIN_PID : Z := 2147483000.
Definition run : Y (Z * string) :=
  bind! r := run_cmd in match r with Ran rc stdout _ => xret (rc, stdout) | RunError e => xraise (PyError e) end.
(** [s.partition("/")] without the separator *)
Definition two_parts (s : string) : string * string := partition_slash s.
Definition ready_replicas (stdout : string) : bool :=
  let '(ready, desired) := two_parts (strip stdout) in
  match int_of_str (or_else ready "0"), int_of_str (or_else desired "1") with Some r, Some d => d <=? r | _, _ => false end.
Definition is_service_active : Y bool :=
  bind! (rc, stdout) := run in
  xret ((rc =? 0) && (if k8s_mode then ready_replicas stdout else String.eqb (strip stdout) "active")).
Definition pid_or_0 (s : string) : Z := match int_of_str s with Some pid => if 1 <? pid then pid else 0 | None => 0 end.
Definition get_main_pid : Y Z :=
  if k8s_mode then bind! b := is_service_active in xret (if b : bool then K8S_MAIN_PID else 0) else
  bind! (rc, stdout) := run in
  xret (if (rc =? 0) && negb (String.eqb (strip stdout) "") then pid_or_0 (strip stdout) else 0).
Definition get_child_ffmpeg_pid (main_pid : Z) : Y Z :=
  if k8s_mode && (main_pid =? K8S_MAIN_PID) then
    bind! (rc, stdout) := run in
    xret (if rc =? 0 then match splitlines (strip stdout) with l :: _ => pid_or_0 (strip l) | [] => 0 end else 0)
  else if main_pid <=? 1 then xret 0 else
    bind! (rc, stdout) := run in
    xret (if rc =? 0 then default 0 (List.find (Z.ltb 1) (omap (fun l => let s := strip l in if String.eqb s "" then None else int_of_str s) (splitlines stdout))) else 0).
Definition elapsed_of (rc : Z) (stdout : string) : Z :=
  if rc =? 0 then match int_of_str (strip stdout) with Some n => Z.max 0 n | None => 0 end else 0.
Definition get_process_elapsed_sec (pid : Z) : Y Z :=
  if negb k8s_mode && (pid <=? 1) then xret 0 else bind! (rc, stdout) := run in xret (elapsed_of rc stdout).
Definition ingest_line (pid port : Z) (stdout : string) : option string :=
  List.find (fun l => contains "ESTAB" l && contains ("pid=" ++ str_Z pid ++ ",")%string l && contains (":" ++ str_Z port)%string l) (splitlines stdout).
Definition ffmpeg_has_ingest_connection (pid port : Z) : Y (option string) :=
  if negb k8s_mode && (pid <=? 1) then xret None else
  bind! (rc, stdout) := run in
  xret (if rc =? 0 then option_map strip (ingest_line pid port stdout) else None).
Fixpoint ffmpeg_has_ingest_connection_any (pid : Z) (ports : list Z) : Y (option string) :=
  match ports with
  | [] => xret None
  | p :: ports' =>
      bind! c := ffmpeg_has_ingest_connection pid p in
      match c with Some line => xret (Some line) | None => ffmpeg_has_ingest_connection_any pid ports' end
  end.
Definition fallback_ingest_ports : list Z :=
  match List.filter (fun p => (0 <? p) && (p <? 65536)) (omap (fun raw => int_of_str (strip raw)) (split_at ","%char "" (env "YTW_FALLBACK_INGEST_TCP_PORTS" "443"))) with
  | [] => [443]
  | ports => ports
  end.
Definition established_ffmpeg_connection (ss_output : string) (ports : list Z) : string :=
  match List.find (fun line => let cols := split_ws line in
      (6 <=? length cols)%nat && String.eqb (nth 0 cols "") "ESTAB" && contains (quoted "ffmpeg") line
      && existsb (fun p => ends_with (":" ++ str_Z p)%string (nth 4 cols "")) ports) (splitlines ss_output) with
  | Some line => strip line
  | None => ""
  end.
Definition fallback_running (stdout : string) : bool :=
  let '(desired, ready) := two_parts (strip stdout) in
  match int_of_str (or_else desired "0"), int_of_str (or_else ready "0") with Some d, Some r => (1 <=? d) && (1 <=? r) | _, _ => false end.
Definition fallback_ingest_connection : Y (option string) :=
  if negb k8s_mode then xret None else
  bind! (rc, stdout) := run in
  if negb (rc =? 0) || negb (fallback_running stdout) then xret None else
  bind! (rc, stdout) := run in
  if negb (rc =? 0) then xret None else
  let line := established_ffmpeg_connection stdout fallback_ingest_ports in
  xret (if String.eqb line "" then None else Some line).

Fixpoint kept_times (now_ts max_age : Z) (items : list pyval) : res (list Z) :=
  match items with
  | [] => Ok []
  | x :: items' =>
      match py_int x with
      | Ok ts => let! rest := kept_times now_ts max_age items' in Ok (if (ts <=? 0) || (max_age <? now_ts - ts) then rest else ts :: rest)
      | Err (EType | EValue _) => kept_times now_ts max_age items'
      | Err e => Err e
      end
  end.
Definition trim_restart_history (raw : pyval) (now_ts retention_sec : Z) : res (list Z) :=
  let! items := iter raw in
  let! out := kept_times now_ts (Z.max 0 retention_sec) items in
  Ok (sort_by id out).
Definition times_py (l : list Z) : pyval := VList (map VInt l).
End Process.

(** ** Caches (cache.py) *)
Section Cache.
Context `{Repr} `{FromIso} `{LocalZone}.
Definition with_offset (text : string) : string :=
  if ends_with "Z" text then (String.substring 0 (String.length text - 1) text ++ "+00:00")%string else text.
Definition parse_iso_ts (raw : string) : Z :=
  let t := strip raw in
  if String.eqb t "" then 0 else
  match fromisoformat (with_offset t) with
  | Some (wall, Some off) => Qtrunc (wall - off)
  | Some (wall, None) => Qtrunc (wall - local_offset wall)
  | None => 0
  end.
Definition flag (d : dict) (k : string) : bool := truthy (dget d k (VBool false)).
Definition optional_bool (d : dict) (k : string) : option bool :=
  match dict_get k d with Some VNone | None => None | Some v => Some (truthy v) end.
(** [0 <= now - ts < max_age] of a check that has a time *)
Definition cache_hit (d : dict) (k : string) (now_ts max_age_sec : Z) : bool :=
  let ts := parse_iso_ts (text d k) in (0 <? ts) && (0 <=? now_ts - ts) && (now_ts - ts <? max_age_sec).
Definition oauth_from_stats_cache (d : dict) (now_ts max_age_sec : Z) : res (option OAuthProbeResult) :=
  if (max_age_sec <=? 0) || negb (has_key "oauth_probe_ok" d) || negb (cache_hit d "oauth_checked_ts_utc" now_ts max_age_sec) then Ok None else
  let! issues := int0 d "oauth_stream_health_issues" in
  let! details := iter (py_or (dget d "oauth_stream_health_issue_details" VNone) (VList [])) in
  Ok (Some (mkOAuth (flag d "oauth_enabled") (flag d "oauth_configured") (flag d "oauth_probe_ok") (flag d "oauth_healthy")
    (or_else (text d "oauth_reason") "oauth stats cache" ++ "; reused watchdog stats cache")%string "stats_cache"
    (text d "oauth_life_cycle_status") (text d "oauth_broadcast_id") (text d "oauth_video_id") (text d "oauth_channel_id") (text d "oauth_bound_stream_id")
    (text d "oauth_stream_status") (text d "oauth_stream_health_status") issues (List.filter is_dict details) false true
    (optional_bool d "oauth_enable_auto_start") (optional_bool d "oauth_enable_auto_stop") (optional_bool d "oauth_monitor_stream_enabled"))).
Definition data_api_from_stats_cache (d : dict) (now_ts max_age_sec : Z) (selected_video_id : string) : option (bool * string * string) :=
  if (max_age_sec <=? 0) || negb (has_key "api_live_state" d) || negb (cache_hit d "data_api_checked_ts_utc" now_ts max_age_sec) then None else
  let cached := text d "video_id" in
  if String.eqb selected_video_id "" || String.eqb cached "" || negb (String.eqb cached selected_video_id) then None else
  Some (flag d "api_ok", or_else (text d "api_reason") "data api stats cache", or_else (text d "api_live_state") "unknown").
End Cache.

(** ** The cost of the API (youtube_api_cost_guard.py) *)
Record ApiCostBurnRateStatus : Type := mkCost { co_active : bool; co_reason : string; co_projected : Z; co_threshold : Z }.
Section Cost.
Context `{Environ} `{Repr} `{FromIso} `{LocalZone} `{ExnText}.
Definition _telemetry_fail_closed (reason : string) (threshold : Z) : ApiCostBurnRateStatus :=
  if API_COST_BURN_RATE_FAIL_CLOSED then mkCost true ("api cost telemetry degraded; fail-closed active (" ++ reason ++ ")")%string 0 threshold
  else mkCost false reason 0 threshold.
(** The snapshot as a rate, or why it cannot be used. *)
Definition cost_rate (d : dict) (now_ts : Z) : res (string + Z) :=
  if negb (String.eqb (lower (text d "status")) "ok") then Ok (inl ("api cost snapshot not ok (" ++ py_str (dget d "status" VNone) ++ ")")%string) else
  match dget d "window" VNone, dget d "totals" VNone with
  | VDict window, VDict totals =>
      let covered := match dget d "ingest" VNone with VDict ingest => if truthy (dget ingest "coverage_ok" (VBool true)) then None else Some (or_else (text ingest "coverage_reason") "coverage not ok") | _ => None end in
      match covered with
      | Some why => Ok (inl ("api cost telemetry coverage degraded (" ++ why ++ ")")%string)
      | None =>
          if negb (flag window "open_day") then Ok (inl "api cost snapshot is not open-day") else
          let start := parse_iso_ts (text window "start_utc") in
          let stop := parse_iso_ts (text window "effective_end_utc") in
          if (start <=? 0) || (stop <=? start) then Ok (inl "api cost snapshot window invalid") else
          if now_ts + API_COST_BURN_RATE_CLOCK_SKEW_ALLOW_SEC <? stop then
            Ok (inl ("api cost snapshot from future (" ++ str_Z stop ++ ">" ++ str_Z now_ts ++ "+" ++ str_Z API_COST_BURN_RATE_CLOCK_SKEW_ALLOW_SEC ++ "s)")%string) else
          let elapsed := Z.max 0 (stop - start) in
          if elapsed <? API_COST_BURN_RATE_MIN_ELAPSED_SEC then Ok (inl ("api cost snapshot insufficient elapsed (" ++ str_Z elapsed ++ "s)")%string) else
          let! units := int0 totals "units" in
          let age := Z.max 0 (now_ts - stop) in
          if API_COST_BURN_RATE_MAX_AGE_SEC <? age then Ok (inl ("api cost snapshot stale (" ++ str_Z age ++ "s)")%string) else
          Ok (inr (Qceiling ((inject_Z units / inject_Z elapsed) * 86400)))
      end
  | _, _ => Ok (inl "api cost snapshot missing fields")
  end.
Definition load_api_cost_burn_rate_status (now_ts : Z) : Y ApiCostBurnRateStatus :=
  if negb API_COST_BURN_RATE_ENABLE then xret (mkCost false "api cost burn guard disabled" 0 0) else
  let threshold := API_COST_BURN_RATE_THRESHOLD_UNITS_PER_DAY in
  if threshold <=? 0 then xret (mkCost false "api cost burn threshold disabled" 0 0) else
  bind! r := sense in
  match yr_cost r with
  | None => xret (_telemetry_fail_closed "api cost snapshot missing" threshold)
  | Some (Err e) => xret (_telemetry_fail_closed ("api cost snapshot parse error (" ++ exn_str (PyError e) ++ ")")%string threshold)
  | Some (Ok (VDict d)) =>
      bind! rate := ylift (cost_rate d now_ts) in
      xret (match rate with
            | inl why => _telemetry_fail_closed why threshold
            | inr projected =>
                let active := threshold <=? projected in
                mkCost active ("projected units/day " ++ str_Z projected ++ (if active then ">=" else "<") ++ str_Z threshold)%string projected threshold
            end)
  | Some (Ok _) => xret (_telemetry_fail_closed "api cost snapshot invalid" threshold)
  end.
End Cost.

(** ** Classification (classifier.py, youtube_health.py) *)
Definition any_in (markers : list string) (text : string) : bool := existsb (fun m => contains m text) markers.
Definition joined (a b c : string) : string := lower (a ++ " | " ++ b ++ " | " ++ c)%string.
Definition TRANSIENT_MARKERS : list string :=
  ["network is unreachable"; "temporary failure in name resolution"; "timed out"; "name resolution"; "connection reset"; "connection refused";
   "rate limit exceeded"; "ratelimitexceeded"].
Definition detect_failure_kind (stream_active ingest_connected : bool) (selected_video_id api_live_state api_reason watch_reason oauth_reason lifecycle oauth_video_id : string) : string :=
  let selected := strip selected_video_id in
  let oauth_vid := strip oauth_video_id in
  if stream_active && ingest_connected && String.eqb api_live_state "ended" && String.eqb lifecycle "complete" && negb (String.eqb selected "")
     && negb (String.eqb oauth_vid "") && String.eqb selected oauth_vid && negb (contains "live marker detected" (lower watch_reason)) then "remote_ended"
  else if String.eqb api_live_state "rate_limited" then "transient_net"
  else if negb stream_active || negb ingest_connected then "local_pipeline"
  else if any_in TRANSIENT_MARKERS (joined api_reason watch_reason oauth_reason) then "transient_net"
  else "unknown".
Definition detect_transient_subkind (api_live_state api_reason watch_reason oauth_reason : string) : string :=
  let t := joined api_reason watch_reason oauth_reason in
  if String.eqb (lower (strip api_live_state)) "rate_limited" || any_in ["ratelimitexceeded"; "rate limit exceeded"] t then "rate_limited"
  else if any_in ["timed out"; "timeout"; "temporary failure in name resolution"; "network is unreachable"] t then "network_timeout"
  else if contains "http 5" t then "api_5xx" else "other".

Record IncidentJudge : Type := mkJudge { ij_stage : string; ij_reason : string }.
Definition judge_incident_stage (healthy : bool) (fail_count : Z) (stream_active ingest_connected availability_signal_ok : bool)
    (oauth : OAuthProbeResult) (incident_confirm_fails : Z) : IncidentJudge :=
  if healthy then mkJudge "none" "healthy" else
  let oauth_remote_bad := oa_probe_ok oauth
    && (bool_decide (oa_life_cycle_status oauth ∈ ["created"; "ready"; "testStarting"; "testing"])
        || (oa_stream_status_required oauth && negb (bool_decide (oa_stream_status oauth ∈ [""; "active"])))) in
  if negb stream_active || negb ingest_connected then mkJudge "confirmed" "local pipeline unhealthy (service inactive or ingest disconnected)"
  else if (incident_confirm_fails <=? fail_count) && (oauth_remote_bad || negb availability_signal_ok) then
    mkJudge "confirmed" ("consecutive unhealthy checks reached threshold (" ++ str_Z fail_count ++ ">=" ++ str_Z incident_confirm_fails ++ ") with remote unhealthy signal")%string
  else if incident_confirm_fails + 1 <=? fail_count then
    mkJudge "confirmed" ("consecutive unhealthy checks reached hard threshold (" ++ str_Z fail_count ++ ">=" ++ str_Z (incident_confirm_fails + 1) ++ ")")%string
  else if oauth_remote_bad && stream_active && ingest_connected then
    mkJudge "suspected" "remote-side mismatch while local ingest is connected (possible API/UI jitter)"
  else mkJudge "suspected" "single-cycle or early-stage unhealthy signal".

Record RestartDecision : Type := mkRestart { rd_should : bool; rd_action : string; rd_reason : string; rd_cooldown_left : Z }.
(** [restart_decision_from_gate] (action_proposer.py) *)
Definition restart_decision_from_gate (g : ActionDecision) (stream_service detail : string) : RestartDecision :=
  if String.eqb (ad_action g) "restart_stream" then mkRestart true ("restart " ++ stream_service)%string (ad_reason g) 0
  else if String.eqb (ad_action g) "none" then mkRestart false "none" (ad_reason g) 0
  else if String.eqb (ad_action g) "restart_suppressed_ingest_connected" then mkRestart false "restart suppressed: ingest tcp connected" (ad_reason g) 0
  else if String.eqb detail "" then mkRestart false ("restart deferred: evidence gate " ++ ad_action g)%string (ad_reason g) 0
  else mkRestart false ("restart deferred: evidence gate " ++ ad_action g ++ ": " ++ detail)%string detail 0.

(** ** URL recovery (recovery.py) *)
Section Recovery.
Context `{Environ} `{Repr}.
Definition URL_RECOVERY_FIELD_DEFAULTS : dict :=
  [("url_recovery_phase", VStr "healthy"); ("url_recovery_first_ts", VInt 0); ("url_recovery_elapsed_sec", VInt 0);
   ("url_recovery_window_sec", VInt URL_PRESERVATION_WINDOW_SEC); ("url_recovery_key", VStr ""); ("force_current_broadcast_live_allowed", VBool true);
   ("replacement_broadcast_allowed", VBool false); ("replacement_broadcast_min_elapsed_sec", VInt FORCE_LIVE_REPLACEMENT_MIN_ELAPSED_SEC);
   ("replacement_broadcast_blocked_reason", VStr "")].
Definition reset_url_recovery_fields : dict := URL_RECOVERY_FIELD_DEFAULTS.
Definition make_url_recovery_key (failure_kind video_id broadcast_id : string) : string :=
  if String.eqb video_id "" && String.eqb broadcast_id "" then ("failure=" ++ or_else failure_kind "unknown" ++ "|target=unknown")%string
  else ("video=" ++ or_dash video_id ++ "|broadcast=" ++ or_dash broadcast_id)%string.
(** The fields and the seconds since the failure of this target began. *)
Definition compute_url_recovery_fields (state : dict) (now_ts : Z) (recovery_key : string) : res (dict * Z) :=
  let! previous := int0 state "url_recovery_first_ts" in
  let first := if String.eqb (text state "url_recovery_key") recovery_key && (0 <? previous) then previous else now_ts in
  let elapsed := Z.max 0 (now_ts - first) in
  let allowed := FORCE_LIVE_REPLACEMENT_MIN_ELAPSED_SEC <=? elapsed in
  Ok ([("url_recovery_phase", VStr (if elapsed <? URL_PRESERVATION_WINDOW_SEC then "url_preservation" else "replacement_allowed"));
       ("url_recovery_first_ts", VInt first); ("url_recovery_elapsed_sec", VInt elapsed); ("url_recovery_window_sec", VInt URL_PRESERVATION_WINDOW_SEC);
       ("url_recovery_key", VStr recovery_key); ("force_current_broadcast_live_allowed", VBool true); ("replacement_broadcast_allowed", VBool allowed);
       ("replacement_broadcast_min_elapsed_sec", VInt FORCE_LIVE_REPLACEMENT_MIN_ELAPSED_SEC);
       ("replacement_broadcast_blocked_reason",
         VStr (if allowed then "" else ("replacement blocked during url preservation window (" ++ str_Z elapsed ++ "s<" ++ str_Z FORCE_LIVE_REPLACEMENT_MIN_ELAPSED_SEC ++ "s)")%string))],
      elapsed).
Definition enrich_status_with_recovery_context (payload : dict) : Y dict :=
  if has_key "url_recovery_phase" payload then xret payload else
  bind! state := load_state in
  bind! fields := ylift (match state with
                         | VDict d => Ok (map (fun kv => (fst kv, dget d (fst kv) (snd kv))) URL_RECOVERY_FIELD_DEFAULTS)
                         | _ => Err EAttr
                         end) in
  bind! r := load_video_resolver_state in
  bind! elapsed := ylift (int0 r "url_preservation_elapsed_sec") in
  let dflt d kv := dict_setdefault (fst kv) (snd kv) d in
  xret (fold_left dflt
    [("expected_video_id", VStr (text r "expected_video_id")); ("candidate_new_url_found", VBool (flag r "candidate_new_url_found"));
     ("candidate_new_video_id", VStr (text r "candidate_new_video_id")); ("candidate_new_video_source", VStr (text r "candidate_new_video_source"));
     ("candidate_new_video_reason", VStr (text r "candidate_new_video_reason")); ("resolver_url_preservation_active", VBool (flag r "url_preservation_active"));
     ("resolver_url_preservation_elapsed_sec", VInt elapsed)] (dict_update payload fields)).
End Recovery.
