(* ===== verification/YtStatus.v ===== *)
(** * YouTube watchdog: the published status

    Models youtube_monitor/stats_writer.py, the derived fields of
    youtube_watchdog_state.py and [record_status] of youtube_watchdog.py.  The stamps
    of the observation (observation_time.py, modelled in ObservationTime.v) are
    readings. *)
From S2P Require Import Prelude PyVal UtcTime Contracts FastPolicy AgentPolicy RemoteWarning SendSample AgentObserve Evidence ObservationTime.
From S2P Require Import YtConfig YtWorld YtApi YtProbe YtHealth.
#[local] Open Scope x_scope.

(** ** The payload *)
(** What a pass saw; the fields of the payload are named after them. *)
Record pass_view : Type := mkView {
  vw_video_id : string; vw_live_url : string; vw_search_reason : string; vw_watch_reason : string; vw_watch_verdict : string;
  vw_api_ok : bool; vw_api_reason : string; vw_api_state : string; vw_active : bool; vw_ffmpeg_pid : Z; vw_uptime : Z; vw_ingest : bool; vw_connection : string;
  vw_local_ok : bool; vw_oauth_ok : bool; vw_available : bool; vw_public_ok : bool; vw_source : string; vw_legacy : bool;
  vw_oauth : OAuthProbeResult; vw_oauth_checked : string; vw_api_checked : string; vw_probed : bool; vw_oauth_interval : Z;
  vw_cost : ApiCostBurnRateStatus; vw_evidence : Decision; vw_force_enabled : bool }.
(** What the branch that reports it adds. *)
Record report : Type := mkReport_ {
  rp_status : string; rp_healthy : bool; rp_fails : Z; rp_degraded : Z; rp_stage : string; rp_reason : string; rp_kind : string; rp_public : option bool;
  rp_force_enabled : option bool; rp_forced : bool * string; rp_evidence_action : string; rp_blocked_by : list string; rp_action : string }.
Definition opt_py (o : option bool) : pyval := match o with Some b => VBool b | None => VNone end.
Definition strs_py (l : list string) : pyval := VList (map VStr l).

Section Status.
Context `{Environ} `{Repr} `{FromIso} `{LocalZone} `{TextDigest}.

Definition build_status_payload (v : pass_view) (r : report) : dict :=
  let o := vw_oauth v in
  let subkind := if String.eqb (rp_kind r) "transient_net" then detect_transient_subkind (vw_api_state v) (vw_api_reason v) (vw_watch_reason v) (oa_reason o) else "" in
  [("status", VStr (rp_status r)); ("healthy", VBool (rp_healthy r)); ("fail_count", VInt (rp_fails r)); ("degraded_public_count", VInt (rp_degraded r));
   ("video_id", VStr (vw_video_id v)); ("live_url", VStr (vw_live_url v)); ("search_reason", VStr (vw_search_reason v)); ("watch_reason", VStr (vw_watch_reason v));
   ("watch_page_verdict", VStr (vw_watch_verdict v)); ("api_reason", VStr (vw_api_reason v)); ("api_live_state", VStr (vw_api_state v));
   ("stream_active", VBool (vw_active v)); ("ffmpeg_pid", VInt (vw_ffmpeg_pid v)); ("ffmpeg_uptime_sec", VInt (vw_uptime v));
   ("ingest_connected", VBool (vw_ingest v)); ("ingest_connection", VStr (vw_connection v)); ("local_ok", VBool (vw_local_ok v)); ("oauth_ok", VBool (vw_oauth_ok v));
   ("api_ok", VBool (vw_api_ok v)); ("availability_ok", VBool (vw_available v)); ("public_ok", VBool (default (vw_public_ok v) (rp_public r)));
   ("health_source", VStr (vw_source v)); ("legacy_healthy", VBool (vw_legacy v)); ("oauth_enabled", VBool (oa_enabled o)); ("oauth_configured", VBool (oa_configured o));
   ("oauth_mode", VStr (oa_mode o)); ("oauth_probe_ok", VBool (oa_probe_ok o)); ("oauth_healthy", VBool (oa_healthy o)); ("oauth_reason", VStr (oa_reason o));
   ("oauth_broadcast_id", VStr (oa_broadcast_id o)); ("oauth_video_id", VStr (oa_video_id o)); ("oauth_channel_id", VStr (oa_channel_id o));
   ("oauth_life_cycle_status", VStr (oa_life_cycle_status o)); ("oauth_bound_stream_id", VStr (oa_bound_stream_id o)); ("oauth_stream_status", VStr (oa_stream_status o));
   ("oauth_stream_health_status", VStr (oa_stream_health_status o)); ("oauth_stream_health_issues", VInt (oa_stream_health_issues o));
   ("oauth_stream_health_issue_details", VList (oa_stream_health_issue_details o)); ("oauth_enable_auto_start", opt_py (oa_enable_auto_start o));
   ("oauth_enable_auto_stop", opt_py (oa_enable_auto_stop o)); ("oauth_monitor_stream_enabled", opt_py (oa_monitor_stream_enabled o));
   ("oauth_checked_ts_utc", VStr (vw_oauth_checked v)); ("data_api_checked_ts_utc", VStr (vw_api_checked v)); ("oauth_probe_performed", VBool (vw_probed v));
   ("oauth_cache_min_interval_sec", VInt (vw_oauth_interval v)); ("incident_stage", VStr (rp_stage r)); ("incident_reason", VStr (rp_reason r));
   ("failure_kind", VStr (rp_kind r)); ("failure_subkind", VStr subkind); ("enforce_restart", VBool ENFORCE_RESTART);
   ("force_live_on_upcoming_once_enabled", VBool (default (vw_force_enabled v) (rp_force_enabled r))); ("force_live_triggered", VBool (fst (rp_forced r)));
   ("force_live_reason", VStr (snd (rp_forced r))); ("api_cost_burn_rate_active", VBool (co_active (vw_cost v))); ("api_cost_burn_rate_reason", VStr (co_reason (vw_cost v)));
   ("api_cost_projected_units_per_day", VInt (co_projected (vw_cost v))); ("api_cost_threshold_units_per_day", VInt (co_threshold (vw_cost v)));
   ("evidence_state", VStr (d_state (vw_evidence v))); ("evidence_reason", VStr (d_reason (vw_evidence v))); ("evidence_action", VStr (rp_evidence_action r));
   ("evidence_blocked_by", strs_py (rp_blocked_by r)); ("action", VStr (rp_action r))].

(** ** The derived fields *)
(** [str(out.get(k, "") or "").strip()] *)
Definition text0 (d : dict) (k : string) : string := strip (str0 d k).
(** The text with the latest time; the first of equal ones. *)
Definition _latest_iso_ts (values : list string) : string :=
  fst (fold_left (fun best raw => let ts := parse_iso_ts raw in if snd best <? ts then (strip raw, ts) else best) values ("", 0)).
Definition _derive_remote_source (d : dict) : string :=
  let existing := strip (py_str (py_or (dget d "remote_source" (VStr "")) (py_or (dget d "remote_probe_source" (VStr "")) (VStr "")))) in
  if negb (String.eqb existing "") then existing else
  let has_oauth := negb (String.eqb (text0 d "oauth_checked_ts_utc") "") in
  let has_data_api := negb (String.eqb (text0 d "data_api_checked_ts_utc") "") in
  if has_oauth && has_data_api then "data_api_oauth" else if has_oauth then "oauth_api" else if has_data_api then "data_api_videos" else "".
Definition _derive_ffmpeg_generation (d : dict) : res string :=
  let existing := text0 d "ffmpeg_generation" in
  if negb (String.eqb existing "") then Ok existing else
  let! pid := (match int0 d "ffmpeg_pid" with Err (EType | EValue _) => Ok 0 | r => r end) in
  Ok (if 0 <? pid then ("ffmpeg_pid=" ++ str_Z pid)%string else "").
Definition set_if (b : bool) (keys : list string) (v : string) (d : dict) : dict :=
  if b then fold_left (fun d k => dict_setdefault k (VStr v) d) keys d else d.
Definition enrich_remote_probe_fields (payload : dict) : res dict :=
  let given := text0 payload "remote_probe_ts_utc" in
  let at_ := if String.eqb given "" then _latest_iso_ts [str0 payload "oauth_checked_ts_utc"; str0 payload "data_api_checked_ts_utc"] else given in
  let source := _derive_remote_source payload in
  let! generation := _derive_ffmpeg_generation payload in
  let episode := text0 payload "recovery_episode_id" in
  let out := set_if (negb (String.eqb at_ "")) ["remote_probe_ts_utc"] at_ payload in
  let out := set_if (negb (String.eqb source "")) ["remote_probe_source"; "remote_sample_source"; "remote_source"] source out in
  let out := set_if (negb (String.eqb generation "")) ["ffmpeg_generation"] generation out in
  let out := dict_setdefault "recovery_episode_id" (VStr episode) out in
  Ok (if negb (String.eqb at_ "") && negb (String.eqb source "") && String.eqb (text0 out "remote_sample_id") "" then
        dict_set "remote_sample_id" (VStr ("rps-" ++ str_take 16 (sha256_text (join_with "|" [at_; source; episode; generation; text0 out "video_id"])))) out
      else out).

Definition classify_judgment (status : string) (healthy : bool) : string * string :=
  let normalized := lower (strip status) in
  if String.eqb normalized "ok" && healthy then ("ok", "availability_healthy")
  else if bool_decide (normalized ∈ ["startup_grace"; "degraded_public"; "quota_guard"]) then ("deferred", "non_actionable_observation")
  else if bool_decide (normalized ∈ ["warn"; "restart"]) then ("ng", "availability_unhealthy")
  else if healthy then ("deferred", "healthy_non_final_state") else ("ng", "unhealthy_non_final_state").

Definition write_stats (payload : dict) : Y unit :=
  bind! at_ := utc_now in
  bind! enriched := ylift (enrich_remote_probe_fields payload) in
  write_file Stats (VDict (dict_update enriched [("ts_utc", VStr at_); ("stats_file_updated_at_utc", VStr at_)])).

(** ** [record_status] *)
Definition observed (payload : dict) (source : string) : Y dict := bind! r := sense in xret (attach payload source (yr_stamp r)).
Definition oauth_observation (payload previous : dict) : Y dict :=
  if is_true (dget payload "oauth_probe_performed" VNone) && negb (py_eq (dget payload "oauth_checked_ts_utc" VNone) (dget previous "oauth_checked_ts_utc" VNone)) then
    bind! m := observed [] "youtube_oauth" in xret (dict_set "oauth_observation_time" (dget m "observation_time" VNone) payload)
  else xret (match dget previous "oauth_observation_time" VNone with VDict t => dict_set "oauth_observation_time" (VDict t) payload | _ => payload end).
Definition record_status (payload : dict) : Y unit :=
  bind! previous := _load_json_file_unlocked Stats in
  bind! payload := enrich_status_with_recovery_context payload in
  let '(judgment, reason) := classify_judgment (py_str (dget payload "status" (VStr ""))) (flag payload "healthy") in
  let payload := dict_update payload [("judgment", VStr judgment); ("judgment_reason", VStr reason)] in
  bind! payload := oauth_observation payload previous in
  bind! payload := observed payload "youtube_watchdog" in
  bind! _ := write_stats payload in
  if bool_decide (judgment ∈ ["ok"; "deferred"]) then
    bind! emit := should_emit_ok_event_safe in
    if emit : bool then append_event payload else xret tt
  else append_event payload.
Definition report_status (v : pass_view) (r : report) : Y unit := record_status (build_status_payload v r).
End Status.
