(* ===== verification/YtWatchdog.v ===== *)
(** * YouTube watchdog: one pass

    Models [main] of src/watchers/youtube_watchdog.py: what a pass reads, the evidence
    it records, and what it does about it; with youtube_watchdog_core/evidence.py,
    write_restart_reason and youtube_lifecycle/actions.py.  The ledger is that of
    Evidence.v, kept in memory and in the file [Ledger]; the audit records of
    maintenance next to a restart are not modelled.  The file [Reason], which nothing
    here reads, is written in place. *)
From S2P Require Import Prelude PyVal UtcTime Contracts FastPolicy AgentPolicy RemoteWarning SendSample AgentObserve Evidence.
From S2P Require Import YtConfig YtWorld YtApi YtProbe ForceLive YtHealth YtStatus.
#[local] Open Scope x_scope.

(** ** Evidence (core/evidence.py) *)
Section Monitoring.
Context `{Environ} `{Repr} `{FromIso} `{LocalZone}.

Definition active_evidence_key (d : Decision) : string :=
  if negb (bool_decide (d_state d ∈ RESTARTABLE)) then "" else
  let t := default no_target (d_target d) in
  (d_state d ++ "|channel=" ++ ti_channel_id t ++ "|video=" ++ ti_video_id t ++ "|broadcast=" ++ ti_broadcast_id t
   ++ "|sources=" ++ join_with "," (sorted_set (map source_value (d_sources d))))%string.
Definition active_evidence_first_ts (state : dict) (evidence_state : string) (now_ts : Z) (key : string) : res Z :=
  if negb (bool_decide (evidence_state ∈ RESTARTABLE)) then Ok 0 else
  let! previous := int0 state "active_evidence_first_ts" in
  Ok (if String.eqb (text state "active_evidence_state") evidence_state && String.eqb (text state "active_evidence_key") key && (0 <? previous)
      then previous else now_ts).
Definition build_evidence_policy : evidence_policy :=
  policy_of_values EVIDENCE_DATA_API_TTL_SEC EVIDENCE_OAUTH_TTL_SEC EVIDENCE_WATCH_TTL_SEC EVIDENCE_RESOLVER_TTL_SEC EVIDENCE_INGEST_TTL_SEC
    EVIDENCE_API_COST_TTL_SEC RESTART_BUDGET_RELEASE_RECONFIRM_SEC RESTART_COOLDOWN_SEC.
Definition evidence_target (m : memory) (video_id broadcast_id bound_stream_id channel_id : string) : TargetIdentity :=
  mkTarget (or_else channel_id (or_else CHANNEL_ID (ti_channel_id (m_canonical m)))) (strip video_id) (strip broadcast_id) (strip bound_stream_id)
    (m_target_epoch m) (m_restart_epoch m).
Definition verdict_from_api_live_state (api_live_state : string) : string :=
  let state := lower (strip api_live_state) in
  if String.eqb state "live" then "live" else if String.eqb state "ended" then "ended"
  else if bool_decide (state ∈ ["error"; "quota_exhausted"; "rate_limited"; "deferred"]) then "degraded" else "unknown".
Definition verdict_from_watch_reason (watch_reason : string) : string :=
  let text := lower (strip watch_reason) in
  if contains "public live probe verdict=live" text then "live"
  else if contains "public live probe verdict=not_live" text then "not_live"
  else if contains "live marker detected" text then "live"
  else if contains "login required" text then "login_required"
  else if contains "playability error" text || contains "unplayable" text then "unplayable" else "unknown".
Definition verdict_from_oauth (o : OAuthProbeResult) : string :=
  if negb (oa_probe_ok o) then (if oa_enabled o then "degraded" else "unknown") else
  let lifecycle := lower (strip (oa_life_cycle_status o)) in
  if String.eqb lifecycle "complete" then "ended" else if String.eqb lifecycle "live" then "live" else "unknown".

(** What a pass has found out when it records evidence. *)
Record findings : Type := mkFindings {
  fn_now : Z; fn_video_id : string; fn_resolver : dict; fn_active : bool; fn_ingest : bool; fn_api_state : string; fn_api_reason : string;
  fn_watch_reason : string; fn_watch_verdict : string; fn_oauth : OAuthProbeResult; fn_oauth_checked : string; fn_api_checked : string;
  fn_cost : ApiCostBurnRateStatus }.
Definition or_z (a b : Z) : Z := if a =? 0 then b else a.
Definition fn_channel (f : findings) : string := or_else CHANNEL_ID (oa_channel_id (fn_oauth f)).
Definition monitoring_records (m : memory) (f : findings) : res (list EvidenceRecord) :=
  let o := fn_oauth f in
  let base := evidence_target m (fn_video_id f) "" "" (fn_channel f) in
  let resolver_video := text (fn_resolver f) "video_id" in
  let! resolved := int0 (fn_resolver f) "resolved_ts" in
  let resolver_target := evidence_target m (or_else resolver_video (fn_video_id f)) "" "" (or_else (text (fn_resolver f) "channel_id") (fn_channel f)) in
  let oauth_target := evidence_target m (oa_video_id o) (oa_broadcast_id o) (oa_bound_stream_id o) (or_else (oa_channel_id o) CHANNEL_ID) in
  let ev source verdict target (observed_at ttl : Z) raw :=
    mkEvidence source verdict target (Fin (inject_Z observed_at)) (m_target_epoch m) (m_restart_epoch m) (Fin (inject_Z ttl)) raw in
  Ok [ev RESOLVER (if String.eqb resolver_video "" then "unknown" else "live") resolver_target (or_z resolved (fn_now f)) EVIDENCE_RESOLVER_TTL_SEC
        [("source", dget (fn_resolver f) "source" (VStr "")); ("reason", dget (fn_resolver f) "live_page_reason" (VStr ""))];
      ev INGEST_LOCAL (if fn_active f && fn_ingest f then "live" else "inactive") base (fn_now f) EVIDENCE_INGEST_TTL_SEC
        [("stream_active", VBool (fn_active f)); ("ingest_connected", VBool (fn_ingest f))];
      ev DATA_API (verdict_from_api_live_state (fn_api_state f)) base (or_z (parse_iso_ts (fn_api_checked f)) (fn_now f)) EVIDENCE_DATA_API_TTL_SEC
        [("live_state", VStr (fn_api_state f)); ("reason", VStr (fn_api_reason f))];
      ev WATCH_PAGE (or_else (fn_watch_verdict f) (verdict_from_watch_reason (fn_watch_reason f))) base (fn_now f) EVIDENCE_WATCH_TTL_SEC
        [("reason", VStr (fn_watch_reason f)); ("watch_page_verdict", VStr (fn_watch_verdict f))];
      ev OAUTH (verdict_from_oauth o) oauth_target (or_z (parse_iso_ts (fn_oauth_checked f)) (fn_now f)) EVIDENCE_OAUTH_TTL_SEC
        [("probe_ok", VBool (oa_probe_ok o)); ("healthy", VBool (oa_healthy o)); ("lifecycle", VStr (oa_life_cycle_status o)); ("reason", VStr (oa_reason o))];
      ev API_COST (if co_active (fn_cost f) then "degraded" else "live") base (fn_now f) EVIDENCE_API_COST_TTL_SEC
        [("active", VBool (co_active (fn_cost f))); ("reason", VStr (co_reason (fn_cost f)))]].

(** The memory of the ledger and its file: what [_persist] writes, if anything. *)
Definition persisted (l : EvidenceLedger) : Y memory :=
  match l_file l with
  | Some payload => bind! _ := write_file Ledger payload in xret (l_memory l)
  | None => xret (l_memory l)
  end.
(** A record whose write fails stays in memory. *)
Fixpoint record_all (records : list EvidenceRecord) (m : memory) : Y memory :=
  match records with
  | [] => xret m
  | ev :: records' =>
      let l := record_evidence ev (mkLedger m None) in
      bind! _ := quietly (bind! _ := persisted l in xret tt) in
      record_all records' (l_memory l)
  end.
Definition record_monitoring_evidence (m : memory) (f : findings) : Y memory :=
  bind! m := (if String.eqb (fn_video_id f) "" then xret m
              else persisted (ensure_target (evidence_target m (fn_video_id f) "" "" (fn_channel f)) (mkLedger m None))) in
  bind! records := ylift (monitoring_records m f) in
  record_all records m.
End Monitoring.

(** ** What a pass reads *)
Record start : Type := mkStart {
  st_state : dict; st_ledger : memory; st_stats : dict; st_fails : Z; st_degraded : Z; st_last_reason : string; st_last_video : string;
  st_last_video_ts : Z; st_last_search_ts : Z; st_last_restart_ts : Z; st_now : Z; st_cost : ApiCostBurnRateStatus; st_history : list Z }.
Record local : Type := mkLocal { lc_active : bool; lc_pid : Z; lc_uptime : Z; lc_ingest : bool; lc_connection : string }.
Record remote : Type := mkRemote {
  rm_guard : bool; rm_guard_reason : string; rm_oauth : OAuthProbeResult; rm_oauth_checked : string; rm_probed : bool; rm_resolver : dict;
  rm_video_id : string; rm_search_reason : string; rm_live_url : string; rm_watch_ok : bool; rm_watch_reason : string; rm_watch_verdict : string;
  rm_api_ok : bool; rm_api_reason : string; rm_api_state : string; rm_api_checked : string }.
(** The availability drawn from them. *)
Record health : Type := mkHealth { hl_local : bool; hl_oauth : bool; hl_available : bool; hl_public : bool; hl_signal : bool; hl_legacy : bool; hl_source : string }.

Section Pass.
Context `{Environ} `{Repr} `{FloatOfText} `{FromIso} `{LocalZone} `{TextDigest} `{ExnText} `{JsonLoads} `{YtTime} `{PacificMidnight}.

Definition state_int (d : dict) (k : string) : res Z := py_int (dget d k (VInt 0)).
Definition open_pass : Y start :=
  bind! state := load_state in
  bind! content := read_file Ledger in
  bind! ledger := ylift (load_memory content) in
  bind! stats := _load_json_file_unlocked Stats in
  bind! d := ylift (match state with VDict d => Ok d | _ => Err EAttr end) in
  bind! fails := ylift (state_int d "fail_count") in
  bind! degraded := ylift (state_int d "degraded_public_count") in
  bind! video_ts := ylift (state_int d "last_video_id_ts") in
  bind! search_ts := ylift (state_int d "last_api_search_ts") in
  bind! restart_ts := ylift (state_int d "last_restart_ts") in
  bind! now_ts := now_sec in
  bind! cost := load_api_cost_burn_rate_status now_ts in
  bind! history := ylift (trim_restart_history (dget d "restart_history_ts" (VList [])) now_ts (86400 + RESTART_BUDGET_RELEASE_RECONFIRM_SEC)) in
  xret (mkStart d ledger stats fails degraded (py_str (dget d "last_reason" (VStr ""))) (text d "last_video_id") video_ts search_ts restart_ts now_ts cost history).
Definition oauth_interval (s : start) : Z :=
  if co_active (st_cost s) then Z.max OAUTH_PROBE_MIN_INTERVAL_SEC API_COST_BURN_RATE_OAUTH_MIN_INTERVAL_SEC else OAUTH_PROBE_MIN_INTERVAL_SEC.
Definition data_api_interval (s : start) : Z :=
  if co_active (st_cost s) then Z.max DATA_API_CHECK_MIN_INTERVAL_SEC API_COST_BURN_RATE_DATA_API_MIN_INTERVAL_SEC else DATA_API_CHECK_MIN_INTERVAL_SEC.

(** The service, its process and its connection; or the fallback sender. *)
Definition read_local : Y local :=
  bind! active := is_service_active in
  bind! main_pid := get_main_pid in
  bind! pid := get_child_ffmpeg_pid main_pid in
  bind! uptime := get_process_elapsed_sec pid in
  bind! connection := ffmpeg_has_ingest_connection_any pid parse_ingest_ports in
  match active : bool, connection with
  | true, Some c => xret (mkLocal true pid uptime true c)
  | _, _ =>
      bind! fallback := fallback_ingest_connection in
      xret (match fallback with
            | Some c => mkLocal true pid uptime true ("fallback " ++ c)%string
            | None => mkLocal active pid uptime (bool_decide (is_Some connection)) (default "" connection)
            end)
  end.

(** The video to judge, and where it is known from. *)
Definition select_video (s : start) (uptime : Z) (o : OAuthProbeResult) (resolver : dict) : res (string * string) :=
  let configured := or_else VIDEO_ID (extract_video_id LIVE_URL) in
  let resolver_video := text resolver "video_id" in
  let! attempt_ts := int0 resolver "last_attempt_ts" in
  let! resolved_ts := int0 resolver "resolved_ts" in
  let now_ts := st_now s in
  let last := st_last_restart_ts s in
  let age := if 0 <? resolved_ts then now_ts - resolved_ts else -1 in
  let fresh := (0 <? resolved_ts) && (age <=? VIDEO_RESOLVER_MAX_AGE_SEC) in
  let after_restart := last <? resolved_ts in
  let recent := (0 <? attempt_ts) && (now_ts - attempt_ts <=? VIDEO_RESOLVER_MAX_AGE_SEC * 3) in
  let booting := (0 <? VIDEO_ID_CONFIGURED_FALLBACK_BOOT_SEC) && (0 <=? uptime) && (uptime <=? VIDEO_ID_CONFIGURED_FALLBACK_BOOT_SEC) in
  let has v := negb (String.eqb v "") in
  let allowed := booting && (resolved_ts <=? 0) && negb (has (st_last_video s)) in
  Ok (if oa_probe_ok o && has (oa_video_id o) then (oa_video_id o, "resolved from oauth mine=true broadcast")
      else if has resolver_video && fresh && after_restart then
        (resolver_video, ("resolved from resolver cache (source=" ++ or_else (text resolver "source") "unknown" ++ ", age=" ++ str_Z (Z.max 0 age) ++ "s, post-restart)")%string)
      else if has (st_last_video s) && (last <? st_last_video_ts s) then (st_last_video s, "resolved from cached video id (post-restart fresh)")
      else if has configured && negb recent && allowed then
        (if (0 <? last) && (resolved_ts <=? last) && (now_ts - last <=? VIDEO_RESOLVER_MAX_AGE_SEC)
         then ("", "configured video id temporarily ignored until resolver refresh after restart")
         else (configured, "resolved from configured video id (boot fallback only)"))
      else
        let details :=
          (if has resolver_video && negb after_restart then ["resolver cache stale vs last restart"]
           else if has resolver_video && negb fresh then [("resolver cache too old (age=" ++ str_Z (Z.max 0 age) ++ "s)")%string] else []) ++
          (if has (st_last_video s) && (st_last_video_ts s <=? last) then ["state cached video id stale vs last restart"] else []) ++
          (if negb (has configured) then [] else if recent then ["configured video id ignored while resolver loop is active"]
           else if negb booting then ["configured video id ignored after boot window"]
           else if (0 <? resolved_ts) || has (st_last_video s) then ["configured video id ignored after runtime id initialization"] else []) in
        ("", ("video id unresolved" ++ match details with [] => "" | _ => "; " ++ join_with "; " details end)%string)).
(** The page to read, aligned with the selected video. *)
Definition align_url (video_id reason : string) : string * string :=
  if String.eqb video_id "" then (LIVE_URL, reason) else
  let aligned := ("https://youtube.com/watch?v=" ++ video_id)%string in
  let current := extract_video_id LIVE_URL in
  if String.eqb LIVE_URL "" then (aligned, reason)
  else if negb (String.eqb current "") && negb (String.eqb current video_id) then (aligned, (reason ++ "; aligned live_url with selected video id")%string)
  else (LIVE_URL, reason).

Definition choose_oauth (s : start) (guard : bool) (guard_reason : string) : Y (OAuthProbeResult * string * bool) :=
  let checked := text (st_stats s) "oauth_checked_ts_utc" in
  if guard then xret (oauth_result false false false false ("oauth probe bypassed: " ++ guard_reason)%string "quota_guard" false, checked, false) else
  bind! cached := ylift (oauth_from_stats_cache (st_stats s) (st_now s) (oauth_interval s)) in
  match cached with
  | Some o => xret (o, checked, false)
  | None =>
      bind! o := probe_with_oauth in
      if oa_remote_checked o then bind! at_ := utc_now in xret (o, at_, true) else xret (o, checked, false)
  end.
(** The public page and the public probe: availability, reason, verdict. *)
Definition read_page (live_url : string) : Y (bool * string * string) :=
  bind! page := check_public_watch_page_verdict live_url in
  let plain := (ok_for_availability page, wp_reason page, wp_verdict page) in
  if negb PUBLIC_LIVE_PROBE_ENABLE || String.eqb live_url "" then xret plain else
  bind! probe := probe_public_live_status live_url in
  let reason := (wp_reason page ++ "; " ++ pp_reason probe)%string in
  xret (if pp_checked probe && String.eqb (pp_verdict probe) "live" then (true, reason, "live")
        else if pp_checked probe && String.eqb (pp_verdict probe) "not_live" then (false, reason, "not_live")
        else (ok_for_availability page, reason, wp_verdict page)).
(** The Data API: availability, reason, live state, time of the check. *)
Definition read_data_api (s : start) (video_id : string) : Y (bool * string * string * string) :=
  let checked := text (st_stats s) "data_api_checked_ts_utc" in
  match data_api_from_stats_cache (st_stats s) (st_now s) (data_api_interval s) video_id with
  | Some (ok, reason, live_state) => xret (ok, (reason ++ "; reused watchdog stats cache")%string, live_state, checked)
  | None =>
      bind! c := check_data_api video_id API_KEY in
      bind! at_ := (if da_checked c then utc_now else xret checked) in
      xret (da_api_ok c, da_reason c, da_live_state c, at_)
  end.
Definition NO_CHECKS : string := "all remote checks skipped (no URL/VIDEO_ID/API_KEY/CHANNEL_ID)".
Definition read_remote (s : start) (uptime : Z) : Y remote :=
  bind! (guard, guard_reason) := quota_guard_status (st_now s) in
  bind! (o, oauth_checked, probed) := choose_oauth s guard guard_reason in
  bind! resolver := load_video_resolver_state in
  bind! (video_id, reason) := ylift (select_video s uptime o resolver) in
  let '(live_url, reason) := align_url video_id reason in
  if guard : bool then
    xret (mkRemote true guard_reason o oauth_checked probed resolver video_id reason live_url true ("watch page check bypassed: " ++ guard_reason)%string "unknown"
            false ("data api check bypassed: " ++ guard_reason)%string "quota_exhausted" (text (st_stats s) "data_api_checked_ts_utc"))
  else
  bind! (watch_ok, watch_reason, watch_verdict) := read_page live_url in
  bind! (api_ok, api_reason, api_state, api_checked) := read_data_api s video_id in
  let checked := negb (String.eqb live_url "") || (negb (String.eqb video_id "") && negb (String.eqb API_KEY "")) || oa_probe_ok o in
  xret (if checked
        then mkRemote false guard_reason o oauth_checked probed resolver video_id reason live_url watch_ok watch_reason watch_verdict api_ok api_reason api_state api_checked
        else mkRemote false guard_reason o oauth_checked probed resolver video_id reason live_url watch_ok NO_CHECKS "unknown" api_ok NO_CHECKS "skipped" api_checked).

Definition health_of (l : local) (r : remote) : health :=
  let local_ok := lc_active l && lc_ingest l in
  let oauth_ok := oa_probe_ok (rm_oauth r) && oa_healthy (rm_oauth r) in
  if rm_guard r then
    mkHealth local_ok oauth_ok local_ok true local_ok local_ok ("local_ingest_only(quota_guard, oauth_mode=" ++ oa_mode (rm_oauth r) ++ ")")%string
  else
    mkHealth local_ok oauth_ok (local_ok && (oauth_ok || rm_api_ok r)) (rm_watch_ok r && rm_api_ok r) (oauth_ok || rm_api_ok r) (rm_api_ok r)
      ("availability(local&& (oauth||api), oauth_mode=" ++ oa_mode (rm_oauth r) ++ ")")%string.
End Pass.

(** ** What a pass does *)
Section Act.
Context `{Environ} `{Repr} `{FloatOfText} `{FromIso} `{LocalZone} `{TextDigest} `{ExnText} `{JsonLoads} `{YtTime} `{PacificMidnight}.

(** [write_restart_reason] and the restart of the service. *)
Definition write_restart_reason (reason : string) : Y unit :=
  bind! at_ := utc_now in
  bind! r := sense in
  write_file Reason (VDict [("ts_utc", VStr at_); ("source", VStr "youtube_watchdog");
    ("event_id", VStr ("evt-ytw-restart-" ++ str_Z (Qtrunc (yr_now r)) ++ "-" ++ yr_token r)%string); ("component", VStr "stream");
    ("reason", VStr reason); ("target_unit", VStr STREAM_SERVICE)]).
Definition known_supervisor : bool := k8s_mode || bool_decide (lower (env "STREAM_RUNTIME_SUPERVISOR" "systemd") ∈ [""; "systemd"]).
(** The order of a restart, on record whatever its answer. *)
Definition supervisor_restart (reason : string) : Y (bool * string) :=
  bind! r := sense in
  let ok := match yr_restart r with Ok (b, _) => b | Err _ => false end in
  bind! _ := modify (add_restart (mkTry (yr_now r) reason ok)) in
  ylift (yr_restart r).
Definition restart_stream (reason : string) : Y (bool * string) :=
  if negb known_supervisor then xraise (PyError (EValue "unsupported STREAM_RUNTIME_SUPERVISOR")) else
  bind! vetoed := veto in
  if vetoed : bool then xret (false, "route causal guard") else
  bind! _ := write_restart_reason reason in
  bind! (ok, detail) := supervisor_restart reason in
  xret (if ok : bool then (true, "restart ok") else (false, detail)).

(** The state a pass leaves, after the fields of the URL recovery. *)
Definition state_after (prefix : dict) (s : start) (fails degraded : Z) (reason stage stage_reason video : string) (video_ts last_restart : Z) (history : list Z) : dict :=
  dict_update prefix
    [("fail_count", VInt fails); ("degraded_public_count", VInt degraded); ("last_reason", VStr reason); ("last_incident_stage", VStr stage);
     ("last_incident_reason", VStr stage_reason); ("last_video_id", VStr video); ("last_video_id_ts", VInt video_ts);
     ("last_api_search_ts", VInt (st_last_search_ts s)); ("last_restart_ts", VInt last_restart); ("restart_history_ts", times_py history)].
Definition seen_ts (s : start) (video_id : string) : Z := if String.eqb video_id "" then st_last_video_ts s else st_now s.

(** The start-up grace. *)
Definition in_grace (l : local) : bool := lc_active l && (0 <? lc_uptime l) && (lc_uptime l <? STARTUP_GRACE_SEC).
Definition grace (s : start) (l : local) : Y unit :=
  let recovering := (0 <? st_last_restart_ts s) && (st_now s - st_last_restart_ts s <? RECOVERING_GRACE_SEC) in
  let reason := ("startup grace active (" ++ str_Z (lc_uptime l) ++ "s<" ++ str_Z STARTUP_GRACE_SEC ++ "s); skip remote youtube checks to avoid delay-induced false negatives")%string in
  bind! _ := save_state (state_after reset_url_recovery_fields s 0 0 reason (if recovering then "recovering" else "none")
                           (if recovering then "recovering grace" else "startup grace") (st_last_video s) (st_last_video_ts s) (st_last_restart_ts s) (st_history s)) in
  record_status [("status", VStr "startup_grace"); ("healthy", VBool true); ("fail_count", VInt 0); ("degraded_public_count", VInt 0);
    ("stream_active", VBool (lc_active l)); ("ffmpeg_pid", VInt (lc_pid l)); ("ffmpeg_uptime_sec", VInt (lc_uptime l)); ("ingest_connected", VBool (lc_ingest l));
    ("ingest_connection", VStr (lc_connection l)); ("action", VStr "none"); ("reason", VStr reason)].

(** Everything a branch works with. *)
Record pass : Type := mkPass {
  ps_start : start; ps_local : local; ps_remote : remote; ps_health : health; ps_ledger : memory; ps_snapshot : LedgerSnapshot; ps_evidence : Decision;
  ps_first_ts : Z; ps_incident : IncidentJudge; ps_once : bool }.
Definition feature_enabled (once : bool) : bool := FORCE_LIVE_ON_UPCOMING_ONCE || FORCE_LIVE_AUTO_RECOVERY || once.
Definition view_of (p : pass) : pass_view :=
  let s := ps_start p in let l := ps_local p in let r := ps_remote p in let h := ps_health p in
  mkView (rm_video_id r) (rm_live_url r) (rm_search_reason r) (rm_watch_reason r) (rm_watch_verdict r) (rm_api_ok r) (rm_api_reason r) (rm_api_state r)
    (lc_active l) (lc_pid l) (lc_uptime l) (lc_ingest l) (lc_connection l) (hl_local h) (hl_oauth h) (hl_available h) (hl_public h) (hl_source h) (hl_legacy h)
    (rm_oauth r) (rm_oauth_checked r) (rm_api_checked r) (rm_probed r) (oauth_interval s) (st_cost s) (ps_evidence p) (feature_enabled (ps_once p)).
Definition findings_of (s : start) (l : local) (r : remote) : findings :=
  mkFindings (st_now s) (rm_video_id r) (rm_resolver r) (lc_active l) (lc_ingest l) (rm_api_state r) (rm_api_reason r) (rm_watch_reason r) (rm_watch_verdict r)
    (rm_oauth r) (rm_oauth_checked r) (rm_api_checked r) (st_cost s).
(** The evidence of the pass, its verdict, and the stage of the incident. *)
Definition judge (once : bool) (s : start) (l : local) (r : remote) : Y pass :=
  let h := health_of l r in
  bind! m := record_monitoring_evidence (st_ledger s) (findings_of s l r) in
  bind! taken := now in
  let snap := mkSnapshot m taken in
  let d := evaluate snap in
  bind! first := ylift (active_evidence_first_ts (st_state s) (d_state d) (st_now s) (active_evidence_key d)) in
  let fails := if hl_available h then 0 else st_fails s + 1 in
  xret (mkPass s l r h m snap d first
          (judge_incident_stage (hl_available h) fails (lc_active l) (lc_ingest l) (hl_signal h) (rm_oauth r) INCIDENT_CONFIRM_FAILS) once).

(** The quota guard over a healthy local pipeline; a healthy pass; a degraded public side. *)
Definition pass_quota_guard (p : pass) : Y unit :=
  let s := ps_start p in let video := rm_video_id (ps_remote p) in
  bind! _ := save_state (state_after reset_url_recovery_fields s 0 0 (rm_guard_reason (ps_remote p)) "none" "quota guard active; api-derived checks bypassed"
                           video (seen_ts s video) (st_last_restart_ts s) (st_history s)) in
  report_status (view_of p) (mkReport_ "quota_guard" true 0 0 "none" "quota guard active; local ingest healthy" "none" (Some true) None (false, "") "none" []
                               "restart deferred: quota exhausted guard active").
Definition pass_healthy (p : pass) : Y unit :=
  let s := ps_start p in let r := ps_remote p in let video := rm_video_id r in
  let stage := ij_stage (ps_incident p) in let stage_reason := ij_reason (ps_incident p) in
  if hl_public (ps_health p) then
    bind! _ := save_state (state_after reset_url_recovery_fields s 0 0 "ok" stage stage_reason video (seen_ts s video) (st_last_restart_ts s) (st_history s)) in
    report_status (view_of p) (mkReport_ "ok" true 0 0 stage stage_reason "none" None None (false, "") "none" [] "none")
  else
    let degraded := st_degraded s + 1 in
    let reason := ("public degraded while availability is healthy: " ++ rm_watch_reason r ++ "; " ++ rm_api_reason r ++ "; oauth=" ++ oa_reason (rm_oauth r)
                   ++ "; video_id=" ++ or_dash video)%string in
    let why := "availability healthy; public degraded" in
    bind! _ := save_state (state_after [] s 0 degraded reason "none" why video (seen_ts s video) (st_last_restart_ts s) (st_history s)) in
    report_status (view_of p) (mkReport_ "degraded_public" true 0 degraded "none" why "none" None None (false, "") "none" [] "none").

(** *** An unhealthy pass *)
Record failure : Type := mkFailure { fl_fails : Z; fl_reason : string; fl_kind : string; fl_recovery : dict; fl_elapsed : Z }.
Definition failure_of (p : pass) : res failure :=
  let s := ps_start p in let l := ps_local p in let r := ps_remote p in let o := rm_oauth r in
  let reason := (rm_search_reason r ++ "; " ++ rm_watch_reason r ++ "; " ++ rm_api_reason r ++ "; oauth=" ++ oa_reason o ++ "; source=" ++ hl_source (ps_health p)
                 ++ "; video_id=" ++ or_dash (rm_video_id r))%string in
  let kind := detect_failure_kind (lc_active l) (lc_ingest l) (rm_video_id r) (rm_api_state r) (rm_api_reason r) (rm_watch_reason r) (oa_reason o)
                (oa_life_cycle_status o) (oa_video_id o) in
  let! (fields, elapsed) := compute_url_recovery_fields (st_state s) (st_now s) (make_url_recovery_key kind (rm_video_id r) (oa_broadcast_id o)) in
  Ok (mkFailure (st_fails s + 1) reason kind fields elapsed).
Definition kept_video (p : pass) : string := or_else (rm_video_id (ps_remote p)) (st_last_video (ps_start p)).
Definition unhealthy_state (p : pass) (f : failure) : dict :=
  let s := ps_start p in
  let active := negb (ps_first_ts p =? 0) in
  dict_update (state_after (fl_recovery f) s (fl_fails f) 0 (fl_reason f) (ij_stage (ps_incident p)) (ij_reason (ps_incident p)) (kept_video p)
                 (seen_ts s (rm_video_id (ps_remote p))) (st_last_restart_ts s) (st_history s))
    [("active_evidence_state", VStr (if active then d_state (ps_evidence p) else "")); ("active_evidence_key", VStr (if active then active_evidence_key (ps_evidence p) else ""));
     ("active_evidence_first_ts", VInt (ps_first_ts p))].
(** The report of an unhealthy pass: its status and action, the gate, the force-live attempt. *)
Definition unhealthy_report (p : pass) (f : failure) (status action : string) (forced : bool * string) (enabled : option bool) (g : option ActionDecision) : report :=
  mkReport_ status false (fl_fails f) 0 (ij_stage (ps_incident p)) (ij_reason (ps_incident p)) (fl_kind f) None enabled forced
    (match g with Some g => ad_action g | None => "none" end) (match g with Some g => ad_blocked_by g | None => [] end) action.
(** The backoff after a restart that failed, by the reason the last pass left. *)
Definition in_failure_backoff (s : start) : bool :=
  String.prefix "restart failed:" (st_last_reason s) && (0 <? st_last_restart_ts s) && (0 <? RESTART_FAILURE_BACKOFF_SEC)
  && (st_now s - st_last_restart_ts s <? RESTART_FAILURE_BACKOFF_SEC).
Definition force_input (p : pass) (f : failure) : fl_input :=
  mkForce (feature_enabled (ps_once p)) (fl_fails f) (rm_video_id (ps_remote p)) (rm_api_reason (ps_remote p)) (lc_active (ps_local p)) (lc_ingest (ps_local p))
    (rm_oauth (ps_remote p)) (lc_uptime (ps_local p)) (ps_once p) (fl_elapsed f) (Some FORCE_LIVE_REPLACEMENT_MIN_ELAPSED_SEC).
Definition gate_context (p : pass) (f : failure) : GateContext :=
  let s := ps_start p in
  mkGate (fl_fails f) MAX_FAILS ENFORCE_RESTART (lc_uptime (ps_local p)) MIN_RESTART_UPTIME_SEC RESTART_BUDGET_HOURLY RESTART_BUDGET_DAILY (st_history s)
    (st_last_restart_ts s) RESTART_COOLDOWN_SEC RESTART_BUDGET_RELEASE_RECONFIRM_SEC RESTART_BUDGET_EMERGENCY_OVERRIDE_SEC (ps_first_ts p) (co_active (st_cost s)).
Definition restart_decision (g : ActionDecision) : RestartDecision :=
  if String.eqb (ad_reason g) "available" then mkRestart false "none" (ad_reason g) 0
  else if bool_decide ("cooldown" ∈ ad_blocked_by g) then
    mkRestart false ("restart cooldown active (" ++ str_Z (ad_cooldown_left g) ++ "s remaining)")%string (ad_reason g) (ad_cooldown_left g)
  else
    let blocked := join_with "," (ad_blocked_by g) in
    restart_decision_from_gate g STREAM_SERVICE (if String.eqb blocked "" then ad_reason g else (ad_reason g ++ "; blocked_by=" ++ blocked)%string).
(** Decisions that are reported as they are. *)
Definition held_back (action : string) : bool :=
  String.eqb action "restart suppressed: ingest tcp connected" || String.prefix "restart cooldown active" action
  || String.prefix "restart deferred:" action || String.prefix "restart budget exceeded:" action.

(** The restart: the epoch of the evidence, the history and the state move when it succeeded. *)
Definition restart_done (p : pass) (f : failure) (forced : bool * string) (g : ActionDecision) (action : string) (result : bool * string) : Y unit :=
  let s := ps_start p in
  let video := kept_video p in
  let video_ts := seen_ts s (rm_video_id (ps_remote p)) in
  let stage := ij_stage (ps_incident p) in let stage_reason := ij_reason (ps_incident p) in
  let '(ok, detail) := result in
  if ok : bool then
    bind! _ := persisted (bump_restart_epoch (inject_Z (st_now s)) (mkLedger (ps_ledger p) None)) in
    bind! history := ylift (trim_restart_history (times_py (st_history s ++ [st_now s])) (st_now s) 86400) in
    bind! _ := save_state (state_after reset_url_recovery_fields s 0 0 "restarted" stage stage_reason video video_ts (st_now s) history) in
    report_status (view_of p) (unhealthy_report p f "restart" action forced None (Some g))
  else
    bind! history := ylift (trim_restart_history (times_py (st_history s ++ [st_now s])) (st_now s) 86400) in
    bind! _ := save_state (state_after [] s (fl_fails f) 0 ("restart failed: " ++ detail)%string stage stage_reason video video_ts (st_now s) history) in
    report_status (view_of p) (unhealthy_report p f "warn" ("restart failed; backoff active (" ++ str_Z RESTART_FAILURE_BACKOFF_SEC ++ "s): " ++ detail)%string forced None (Some g)).
(** The gate, and what follows from it. *)
Definition pass_gate (p : pass) (f : failure) (forced : bool * string) : Y unit :=
  bind! vetoed := veto in
  bind! g := ylift (decide_action vetoed (ps_evidence p) (ps_snapshot p) build_evidence_policy (gate_context p f)) in
  let r := restart_decision g in
  let warn action := report_status (view_of p) (unhealthy_report p f "warn" action forced None (Some g)) in
  if held_back (rd_action r) then warn (rd_action r) else
  if rd_should r then
    bind! result := restart_stream (fl_reason f) in
    restart_done p f forced g (rd_action r) result
  else if String.eqb (rd_action r) "threshold reached; restart disabled" then warn "threshold reached; restart disabled" else warn "none".
Definition pass_unhealthy (p : pass) : Y unit :=
  bind! f := ylift (failure_of p) in
  bind! _ := save_state (unhealthy_state p f) in
  let s := ps_start p in
  if in_failure_backoff s then
    report_status (view_of p) (unhealthy_report p f "warn"
      ("restart failure backoff active (" ++ str_Z (RESTART_FAILURE_BACKOFF_SEC - (st_now s - st_last_restart_ts s)) ++ "s remaining)")%string (false, "") (Some false) None)
  else
    bind! forced := force_transition_live_once (rm_guard (ps_remote p)) (force_input p f) in
    pass_gate p f forced.

(** ** The pass *)
Definition conclude (p : pass) : Y unit :=
  if rm_guard (ps_remote p) && hl_local (ps_health p) then pass_quota_guard p
  else if hl_available (ps_health p) then pass_healthy p else pass_unhealthy p.
Definition main (force_live_once : bool) : Y unit :=
  bind! s := open_pass in
  bind! l := read_local in
  if in_grace l then grace s l else
  bind! r := read_remote s (lc_uptime l) in
  bind! p := judge force_live_once s l r in
  conclude p.
End Act.
