(* ===== verification/YtWatchdogProofs.v ===== *)
(** * YouTube watchdog: what a pass orders

    Theorems about the pass (YtWatchdog.v): a restart is ordered only on the evidence
    of the pass itself, past every guard; over any run of passes restarts keep the
    cooldown and the budgets; and runs that show what the guards do not cover. *)
From stdpp Require Import functions.
From S2P Require Import Prelude PyVal UtcTime Contracts FastPolicy AgentPolicy RemoteWarning SendSample AgentObserve Evidence EvidenceProofs.
From S2P Require Import YtConfig YtWorld YtApi YtProbe ForceLive YtFrame YtHealth YtStatus YtWatchdog.
#[local] Open Scope x_scope.
Import EvidenceProperties.

(** ** Programs that order nothing

    Everything but the writes of the state and the restart itself leaves the orders
    and the state of the watchdog alone. *)
Notation idle := (within (but State) any_call).
Section Idle.
Context `{Environ} `{Repr} `{FloatOfText} `{FromIso} `{LocalZone} `{TextDigest} `{ExnText} `{JsonLoads} `{YtTime} `{PacificMidnight}.

Lemma idle_post a b c : idle (api_post a b c).
Proof. apply within_bind; [apply within_logged; frame | frame]. Qed.
Lemma idle_post_json a b c d : idle (api_post_json a b c d).
Proof. apply within_bind; [apply within_logged; frame | frame]. Qed.
Lemma idle_put a b c : idle (videos_api_update a b c).
Proof. apply within_bind; [apply within_logged; frame | frame]. Qed.
Lemma idle_delete a b c : idle (api_delete a b c).
Proof. apply within_bind; [apply within_logged; frame | frame]. Qed.
#[local] Hint Resolve idle_post idle_post_json idle_put idle_delete : footprint.
Lemma idle_category a b c : idle (update_video_category_from_existing_snippet a b c).
Proof. unfold update_video_category_from_existing_snippet. frame. Qed.
Lemma idle_insert a b c : idle (insert_broadcast a b c).
Proof. unfold insert_broadcast. frame. Qed.
#[local] Hint Resolve idle_category idle_insert : footprint.
Lemma idle_create a b c : idle (create_recovery_broadcast a b c).
Proof. unfold create_recovery_broadcast. frame. Qed.
Lemma idle_cleanup a b c : idle (cleanup_replaced_broadcast a b c).
Proof. unfold cleanup_replaced_broadcast. frame. Qed.
Lemma idle_save_force d : idle (save_force_live_state d).
Proof. unfold save_force_live_state. frame. Qed.
#[local] Hint Resolve idle_create idle_cleanup idle_save_force : footprint.
Lemma idle_fail a b c d e : idle (fail_attempt a b c d e).
Proof. unfold fail_attempt. frame. Qed.
Lemma idle_transitions a b c d e : idle (run_transitions a b c d e).
Proof. revert d e. induction c as [|step c IH]; intros d e; simpl; frame. Qed.
Lemma idle_note a b c : idle (cleanup_note a b c).
Proof. unfold cleanup_note. frame. Qed.
#[local] Hint Resolve idle_fail idle_transitions idle_note : footprint.
Lemma idle_transition a b c d e f g h k : idle (transition_target a b c d e f g h k).
Proof. unfold transition_target. frame. Qed.
Lemma idle_replace a b c d e f g h : idle (replace_target a b c d e f g h).
Proof. unfold replace_target. frame. Qed.
#[local] Hint Resolve idle_transition idle_replace : footprint.
Lemma idle_plan a b c d e f g h : idle (plan_target a b c d e f g h).
Proof. unfold plan_target. frame. Qed.
#[local] Hint Resolve idle_plan : footprint.
Lemma idle_attempt a b c d e f : idle (attempt a b c d e f).
Proof. unfold attempt. frame. Qed.
#[local] Hint Resolve idle_attempt : footprint.
Lemma idle_force b i : idle (force_transition_live_once b i).
Proof.
  unfold force_transition_live_once, _api_force_transition_live_once, load_force_live_state, _load_json_file_unlocked.
  destruct (force_live_precheck _ _). frame.
Qed.

Lemma idle_run : idle run.
Proof. unfold run, run_cmd. frame. Qed.
#[local] Hint Resolve idle_run : footprint.
Lemma idle_active : idle is_service_active.
Proof. unfold is_service_active. frame. Qed.
#[local] Hint Resolve idle_active : footprint.
Lemma idle_connection pid ports : idle (ffmpeg_has_ingest_connection_any pid ports).
Proof. induction ports as [|p ports IH]; simpl; unfold ffmpeg_has_ingest_connection; frame. Qed.
Lemma idle_fallback : idle fallback_ingest_connection.
Proof. unfold fallback_ingest_connection. frame. Qed.
#[local] Hint Resolve idle_connection idle_fallback : footprint.
Lemma idle_local : idle read_local.
Proof. unfold read_local, get_main_pid, get_child_ffmpeg_pid, get_process_elapsed_sec. frame. Qed.

Lemma idle_cost t : idle (load_api_cost_burn_rate_status t).
Proof. unfold load_api_cost_burn_rate_status. frame. Qed.
#[local] Hint Resolve idle_cost : footprint.
Lemma idle_open : idle open_pass.
Proof. unfold open_pass, load_state, _load_json_file_unlocked. frame. Qed.
Lemma idle_oauth a b c : idle (choose_oauth a b c).
Proof. unfold choose_oauth. frame. Qed.
Lemma idle_page url : idle (read_page url).
Proof. unfold read_page. frame. Qed.
Lemma idle_data s v : idle (read_data_api s v).
Proof. unfold read_data_api. frame. Qed.
#[local] Hint Resolve idle_oauth idle_page idle_data : footprint.
Lemma idle_remote s u : idle (read_remote s u).
Proof. unfold read_remote, load_video_resolver_state, _load_json_file_unlocked. frame. Qed.

Lemma idle_persisted l : idle (persisted l).
Proof. unfold persisted. frame. Qed.
#[local] Hint Resolve idle_persisted : footprint.
Lemma idle_record_all records m : idle (record_all records m).
Proof. revert m. induction records as [|ev records IH]; intros m; simpl; unfold quietly; frame. Qed.
#[local] Hint Resolve idle_record_all : footprint.
Lemma idle_judge once s l r : idle (judge once s l r).
Proof. unfold judge, record_monitoring_evidence. frame. Qed.

Lemma idle_emit : idle should_emit_ok_event_safe.
Proof. unfold should_emit_ok_event_safe, should_emit_ok_event. frame. Qed.
Lemma idle_stats d : idle (write_stats d).
Proof. unfold write_stats. frame. Qed.
Lemma idle_enrich d : idle (enrich_status_with_recovery_context d).
Proof. unfold enrich_status_with_recovery_context, load_state, load_video_resolver_state, _load_json_file_unlocked. frame. Qed.
#[local] Hint Resolve idle_emit idle_stats idle_enrich : footprint.
Lemma idle_status d : idle (record_status d).
Proof.
  unfold record_status, oauth_observation, observed, _load_json_file_unlocked. apply within_bind; [frame|]. intros previous. apply within_bind; [frame|].
  intros payload. destruct (classify_judgment _ _). frame.
Qed.
Lemma idle_reason reason : idle (write_restart_reason reason).
Proof. unfold write_restart_reason. frame. Qed.
End Idle.

(** ** The anatomy of a pass *)
Section Anatomy.
Context `{Environ} `{Repr} `{FloatOfText} `{FromIso} `{LocalZone} `{TextDigest} `{ExnText} `{JsonLoads} `{YtTime} `{PacificMidnight}.

(** The orders and the state are those of [w]. *)
Definition same (w w' : yt_world) : Prop := y_restarts w' = y_restarts w /\ y_files w' State = y_files w State.
Lemma same_trans w1 w2 w3 : same w1 w2 -> same w2 w3 -> same w1 w3.
Proof. intros [E1 F1] [E2 F2]. split; congruence. Qed.
Lemma idle_same {A} (m : Y A) w : idle m -> same w (snd (m w)).
Proof. intros Hm. destruct (Hm w) as (E & Ef & _). split; [done | by apply Ef]. Qed.
(** A step that is idle: the program stops there, or goes on from its result. *)
Lemma idle_step {A B} (m : Y A) (k : A -> Y B) w0 w (P : yt_world -> Prop) : idle m -> same w0 w -> (forall w', same w0 w' -> P w') ->
  (forall a w', m w = (Done a, w') -> same w0 w' -> P (snd (k a w'))) -> P (snd (xbind m k w)).
Proof.
  intros Hm Hw Hstop Hgo. pose proof (idle_same m w Hm) as Hs. unfold xbind. destruct (m w) as [[a|e|] w'] eqn:E; simpl in *; [|eauto using same_trans | eauto using same_trans].
  apply Hgo; [done | by eapply same_trans].
Qed.
Lemma idle_end {A} (m : Y A) w0 w (P : yt_world -> Prop) : idle m -> same w0 w -> (forall w', same w0 w' -> P w') -> P (snd (m w)).
Proof. intros Hm Hw HP. apply HP. eapply same_trans; [exact Hw | by apply idle_same]. Qed.

(** What the state remembers of the restarts. *)
Definition remembers (w : yt_world) (last : Z) (history : list Z) : Prop := exists d, y_files w State = Some (VDict d) /\
  dget d "last_restart_ts" (VInt 0) = VInt last /\ dget d "restart_history_ts" (VList []) = times_py history.
Lemma same_remembers w w' last history : same w w' -> remembers w last history -> remembers w' last history.
Proof. intros [_ Ef] (d & Ed & Hd). exists d. by rewrite Ef. Qed.
Lemma save_step {B} d last history (k : Y B) w (P : yt_world -> Prop) :
  dget d "last_restart_ts" (VInt 0) = VInt last -> dget d "restart_history_ts" (VList []) = times_py history -> (forall w', same w w' -> P w') ->
  (forall w', y_restarts w' = y_restarts w -> remembers w' last history -> P (snd (k w'))) -> P (snd ((bind! _ := save_state d in k) w)).
Proof.
  intros Hl Hh Hstop Hgo. pose proof (idle_same sense w (within_sense _ _)) as Hs. unfold save_state, write_file, writing.
  unfold xbind at 1 2. cbn [sense fst snd] in *. destruct (yr_weather _); cbn; [|apply Hstop; exact Hs | apply Hstop; exact Hs].
  apply Hgo; [exact (proj1 Hs)|]. exists d. split; [|done]. simpl. by rewrite fn_lookup_insert.
Qed.
Lemma state_after_last prefix s a b c d e v t last history : dget (state_after prefix s a b c d e v t last history) "last_restart_ts" (VInt 0) = VInt last.
Proof. unfold state_after, dget, dict_update. cbn [fold_left fst snd]. by rewrite !dict_get_set. Qed.
Lemma state_after_history prefix s a b c d e v t last history :
  dget (state_after prefix s a b c d e v t last history) "restart_history_ts" (VList []) = times_py history.
Proof. unfold state_after, dget, dict_update. cbn [fold_left fst snd]. by rewrite !dict_get_set. Qed.
Lemma unhealthy_last p f : dget (unhealthy_state p f) "last_restart_ts" (VInt 0) = VInt (st_last_restart_ts (ps_start p)).
Proof. unfold unhealthy_state. cbv zeta. unfold dget, dict_update at 1. cbn [fold_left fst snd]. rewrite !dict_get_set_ne by done. apply state_after_last. Qed.
Lemma unhealthy_history p f : dget (unhealthy_state p f) "restart_history_ts" (VList []) = times_py (st_history (ps_start p)).
Proof. unfold unhealthy_state. cbv zeta. unfold dget, dict_update at 1. cbn [fold_left fst snd]. rewrite !dict_get_set_ne by done. apply state_after_history. Qed.

(** The state carries the restarts it was opened with, or this pass is added. *)
Definition booked (s : start) (w : yt_world) : Prop := exists history, remembers w (st_now s) history /\
  trim_restart_history (times_py (st_history s ++ [st_now s])) (st_now s) 86400 = Ok history.
Definition carried (s : start) (w : yt_world) : Prop := remembers w (st_last_restart_ts s) (st_history s) \/ booked s w.
(** The stages of a pass up to its judgement. *)
Definition judged (once : bool) (w : yt_world) (p : pass) : Prop := exists w1 w2 w3 w4,
  open_pass w = (Done (ps_start p), w1) /\ read_local w1 = (Done (ps_local p), w2) /\ in_grace (ps_local p) = false /\
  read_remote (ps_start p) (lc_uptime (ps_local p)) w2 = (Done (ps_remote p), w3) /\
  judge once (ps_start p) (ps_local p) (ps_remote p) w3 = (Done p, w4).
Definition gate_passed (p : pass) (f : failure) : Prop := exists g,
  decide_action false (ps_evidence p) (ps_snapshot p) build_evidence_policy (gate_context p f) = Ok g /\ ad_action g = "restart_stream".

Inductive changes (once : bool) (w w' : yt_world) : Prop :=
| ch_none : same w w' -> changes once w w'
| ch_saved s w1 : open_pass w = (Done s, w1) -> y_restarts w' = y_restarts w -> carried s w' -> changes once w w'
| ch_ordered p f t : judged once w p -> hl_available (ps_health p) = false -> failure_of p = Ok f -> gate_passed p f ->
    y_restarts w' = y_restarts w ++ [t] -> carried (ps_start p) w' -> changes once w w'.

Lemma file_carried s w w' : y_files w' State = y_files w State -> carried s w -> carried s w'.
Proof. intros Ef [(d & Hd)|(history & (d & Hd) & Ht)]; [left | right; exists history; split; [|done]]; exists d; by rewrite Ef. Qed.
Lemma same_carried s w w' : same w w' -> carried s w -> carried s w'.
Proof. intros [_ Ef]. by apply file_carried. Qed.
Lemma saved_carried s w : remembers w (st_last_restart_ts s) (st_history s) -> carried s w.
Proof. by left. Qed.
Lemma decision_restarts g : rd_should (restart_decision g) = true -> ad_action g = "restart_stream".
Proof.
  unfold restart_decision. destruct (String.eqb _ _); [done|]. destruct (bool_decide _); [done|]. unfold restart_decision_from_gate.
  destruct (String.eqb_spec (ad_action g) "restart_stream"); [done|]. by repeat case_match.
Qed.

(** The end of a pass that saved its state: only reports follow. *)
Lemma report_end v r w0 w s (P : yt_world -> Prop) : y_restarts w = y_restarts w0 -> carried s w ->
  (forall w', y_restarts w' = y_restarts w0 -> carried s w' -> P w') -> P (snd (report_status v r w)).
Proof.
  intros Er Hc HP. apply (idle_end _ w); [apply idle_status | done |]. intros w' Hs. apply HP; [destruct Hs as [-> _]; exact Er | by eapply same_carried].
Qed.
Lemma done_keeps p f forced g action result w w0 (P : yt_world -> Prop) : y_restarts w = y_restarts w0 -> carried (ps_start p) w ->
  (forall w', y_restarts w' = y_restarts w0 -> carried (ps_start p) w' -> P w') -> P (snd (restart_done p f forced g action result w)).
Proof.
  intros Er Hc HP. assert (Hstop : forall w', same w w' -> P w').
  { intros w' Hs. apply HP; [destruct Hs as [-> _]; exact Er | by eapply same_carried]. }
  unfold restart_done. destruct result as [ok detail]. destruct ok.
  - apply (idle_step _ _ w); [apply idle_persisted | done | exact Hstop |]. intros m w1 _ Hk1.
    apply (idle_step _ _ w); [apply within_lift | done | exact Hstop |]. intros history w2 Eh Hk2.
    assert (Hh : trim_restart_history (times_py (st_history (ps_start p) ++ [st_now (ps_start p)])) (st_now (ps_start p)) 86400 = Ok history).
    { destruct (trim_restart_history _ _ _); [by injection Eh as -> _ | discriminate Eh]. }
    apply (save_step _ (st_now (ps_start p)) history); [apply state_after_last | apply state_after_history | intros w' Hs; apply Hstop; by eapply same_trans |].
    intros w3 E3 Hr. apply (report_end _ _ w0 _ (ps_start p)); [rewrite E3; destruct Hk2 as [-> _]; exact Er | | exact HP].
    right. by exists history.
  - apply (idle_step _ _ w); [apply within_lift | done | exact Hstop |]. intros history w2 Eh Hk2.
    assert (Hh : trim_restart_history (times_py (st_history (ps_start p) ++ [st_now (ps_start p)])) (st_now (ps_start p)) 86400 = Ok history).
    { destruct (trim_restart_history _ _ _); [by injection Eh as -> _ | discriminate Eh]. }
    apply (save_step _ (st_now (ps_start p)) history); [apply state_after_last | apply state_after_history | intros w' Hs; apply Hstop; by eapply same_trans |].
    intros w3 E3 Hr. apply (report_end _ _ w0 _ (ps_start p)); [rewrite E3; destruct Hk2 as [-> _]; exact Er | | exact HP].
    right. by exists history.
Qed.

(** The restart leaves one order, or none. *)
Lemma restart_step {B} reason (k : bool * string -> Y B) w (P : yt_world -> Prop) :
  (forall w', same w w' -> P w') -> (forall w' t, y_restarts w' = y_restarts w ++ [t] -> y_files w' State = y_files w State -> P w') ->
  (forall r w', same w w' -> P (snd (k r w'))) ->
  (forall r w' t, y_restarts w' = y_restarts w ++ [t] -> y_files w' State = y_files w State -> P (snd (k r w'))) ->
  P (snd ((bind! r := restart_stream reason in k r) w)).
Proof.
  intros Hstop Hstop1 Hgo Hgo1. unfold restart_stream. destruct (negb known_supervisor); [by apply Hstop|].
  assert (Ha : forall A B C (m : Y A) (f : A -> Y B) (g : B -> Y C) w, xbind (xbind m f) g w = xbind m (fun a => xbind (f a) g) w).
  { intros. unfold xbind. by destruct (m _) as [[]]. }
  rewrite Ha. apply (idle_step _ _ w); [frame | done | exact Hstop |]. intros [] w1 _ Hk1; [by apply Hgo|].
  rewrite Ha. apply (idle_step _ _ w); [apply idle_reason | done | exact Hstop |]. intros _ w2 _ Hk2.
  rewrite Ha. unfold supervisor_restart. rewrite Ha. apply (idle_step _ _ w); [frame | done | exact Hstop |]. intros r w3 _ Hk3.
  rewrite Ha. unfold modify. unfold xbind at 1. destruct (yr_restart r) as [[b detail]|e]; cbn.
  - destruct b; (eapply Hgo1; simpl; [destruct Hk3 as [-> _]; reflexivity | exact (proj2 Hk3)]).
  - eapply Hstop1; simpl; [destruct Hk3 as [-> _]; reflexivity | exact (proj2 Hk3)].
Qed.

Lemma gate_changes once p f forced w0 w : judged once w0 p -> hl_available (ps_health p) = false -> failure_of p = Ok f ->
  y_restarts w = y_restarts w0 -> carried (ps_start p) w -> changes once w0 (snd (pass_gate p f forced w)).
Proof.
  intros Hj Ha Hf Er Hc. assert (Hsaved : forall w', y_restarts w' = y_restarts w0 -> carried (ps_start p) w' -> changes once w0 w').
  { intros w' E' Hc'. destruct Hj as (w1 & _ & _ & _ & Ho & _). by apply (ch_saved _ _ _ (ps_start p) w1). }
  assert (Hstop : forall w', same w w' -> changes once w0 w').
  { intros w' Hs. apply Hsaved; [destruct Hs as [-> _]; exact Er | by eapply same_carried]. }
  unfold pass_gate. apply (idle_step _ _ w); [frame | done | exact Hstop |]. intros vetoed w1 _ Hk1.
  apply (idle_step _ _ w); [apply within_lift | done | exact Hstop |]. intros g w2 Eg Hk2.
  assert (Hg : decide_action vetoed (ps_evidence p) (ps_snapshot p) build_evidence_policy (gate_context p f) = Ok g).
  { destruct (decide_action _ _ _ _ _); [by injection Eg as -> _ | discriminate Eg]. } clear Eg.
  assert (Hwarn : forall v r, changes once w0 (snd (report_status v r w2))).
  { intros v r. apply (report_end _ _ w0 _ (ps_start p)); [destruct Hk2 as [-> _]; exact Er | by eapply same_carried | exact Hsaved]. }
  destruct (held_back _); [apply Hwarn|]. destruct (rd_should _) eqn:Ed; [|by case_match; apply Hwarn].
  apply decision_restarts in Ed. assert (Hp : gate_passed p f).
  { exists g. split; [|done]. destruct (restart_gate _ _ _ _ _ _ Hg Ed) as [-> _]. exact Hg. }
  apply restart_step.
  - intros w' Hs. apply Hstop. by eapply same_trans.
  - intros w' t Et Es. apply (ch_ordered _ _ _ p f t); try done; [rewrite Et; destruct Hk2 as [-> _]; by rewrite Er|].
    apply (file_carried _ w); [|exact Hc]. rewrite Es. exact (proj2 Hk2).
  - intros r w' Hs. assert (Hw : same w w') by (by eapply same_trans).
    apply (done_keeps _ _ _ _ _ _ _ w0); [destruct Hw as [-> _]; exact Er | by eapply same_carried | exact Hsaved].
  - intros r w' t Et Es. apply (done_keeps _ _ _ _ _ _ _ w'); [done | apply (file_carried _ w); [rewrite Es; exact (proj2 Hk2) | exact Hc]|].
    intros w3 E3 Hc3. apply (ch_ordered _ _ _ p f t); try done. rewrite E3, Et. destruct Hk2 as [-> _]. by rewrite Er.
Qed.

Lemma judge_parts once s l r w p w' : judge once s l r w = (Done p, w') ->
  ps_start p = s /\ ps_local p = l /\ ps_remote p = r /\ ps_health p = health_of l r /\ ps_evidence p = evaluate (ps_snapshot p) /\
  exists w1, record_monitoring_evidence (st_ledger s) (findings_of s l r) w = (Done (sn_memory (ps_snapshot p)), w1).
Proof.
  unfold judge. intros E. apply xbind_Done in E as (m & w1 & Em & E). apply xbind_Done in E as (taken & w2 & Et & E).
  apply xbind_Done in E as (first & w3 & Ef & E). injection E as <- _. split_and!; try done. by exists w1.
Qed.

(** Every pass, whatever it meets. *)
Lemma main_changes once w : changes once w (snd (main once w)).
Proof.
  unfold main. apply (idle_step _ _ w); [apply idle_open | done | apply ch_none |]. intros s w1 Eo Hk1.
  assert (Hsaved : forall w', y_restarts w' = y_restarts w -> carried s w' -> changes once w w') by (intros w'; by apply ch_saved with w1).
  apply (idle_step _ _ w); [apply idle_local | done | apply ch_none |]. intros l w2 El Hk2.
  assert (Hstate : forall P : yt_world -> Prop, forall a b c d e v t v0 r prefix w0, same w w0 -> (forall w', changes once w w' -> P w') ->
    P (snd ((bind! _ := save_state (state_after prefix s a b c d e v t (st_last_restart_ts s) (st_history s)) in report_status v0 r) w0))).
  { intros P a b c d e v t v0 r prefix w0 Hs HP. apply (save_step _ (st_last_restart_ts s) (st_history s)); [apply state_after_last | apply state_after_history | |].
    - intros w' Hs'. apply HP, ch_none. by eapply same_trans.
    - intros w' Er Hr. apply (report_end _ _ w _ s); [rewrite Er; exact (proj1 Hs) | by apply saved_carried |]. intros w3 E3 Hc. by apply HP, Hsaved. }
  destruct (in_grace l) eqn:Eg.
  { unfold grace. cbv zeta. apply (save_step _ (st_last_restart_ts s) (st_history s)); [apply state_after_last | apply state_after_history | |].
    - intros w' Hs'. apply ch_none. by eapply same_trans.
    - intros w' Er Hr. apply (idle_end _ w'); [apply idle_status | done |]. intros w3 Hs3. apply Hsaved; [destruct Hs3 as [-> _]; rewrite Er; exact (proj1 Hk2)|].
      apply (same_carried _ w'); [done | by apply saved_carried]. }
  apply (idle_step _ _ w); [apply idle_remote | done | apply ch_none |]. intros r w3 Er Hk3.
  apply (idle_step _ _ w); [apply idle_judge | done | apply ch_none |]. intros p w4 Ej Hk4.
  pose proof (judge_parts _ _ _ _ _ _ _ Ej) as (Es & Epl & Epr & _).
  assert (Hj : judged once w p) by (exists w1, w2, w3, w4; rewrite Es, Epl, Epr; by repeat split).
  unfold conclude. destruct (rm_guard _ && _); [unfold pass_quota_guard; cbv zeta; rewrite Es; by apply Hstate|].
  destruct (hl_available (ps_health p)) eqn:Ea; [unfold pass_healthy; cbv zeta; rewrite Es; destruct (hl_public _); by apply Hstate|].
  unfold pass_unhealthy. apply (idle_step _ _ w); [apply within_lift | done | apply ch_none |]. intros f w5 Ef Hk5.
  assert (Hf : failure_of p = Ok f) by (destruct (failure_of p); [by injection Ef as -> _ | discriminate Ef]).
  apply (save_step _ (st_last_restart_ts s) (st_history s)); [rewrite <- Es; apply unhealthy_last | rewrite <- Es; apply unhealthy_history | |].
  { intros w' Hs'. apply ch_none. by eapply same_trans. }
  intros w6 E6 Hr. rewrite Es. assert (E6' : y_restarts w6 = y_restarts w) by (rewrite E6; exact (proj1 Hk5)). apply saved_carried in Hr.
  destruct (in_failure_backoff s); [by apply (report_end _ _ w _ s)|].
  apply (idle_step _ _ w6); [apply idle_force | done | |].
  - intros w' Hs'. apply Hsaved; [destruct Hs' as [-> _]; exact E6' | by eapply same_carried].
  - intros forced w7 _ Hk7. apply gate_changes; try done; [destruct Hk7 as [-> _]; exact E6' | rewrite Es; by eapply same_carried].
Qed.
End Anatomy.
