(* ===== verification/YtRestartProofs.v ===== *)
(** * YouTube watchdog: what a restart of the stream has behind it

    Theorems about the pass (YtWatchdog.v): a restart is ordered only on the evidence
    of the pass itself, past every guard; and over any run of passes restarts keep the
    cooldown and the budgets.  Runs at the end show what the guards do not cover. *)
From stdpp Require Import functions.
From S2P Require Import Prelude PyVal UtcTime Contracts FastPolicy AgentPolicy RemoteWarning SendSample AgentObserve Evidence EvidenceProofs.
From S2P Require Import YtConfig YtWorld YtApi YtProbe ForceLive YtFrame YtHealth YtStatus YtWatchdog YtWatchdogProofs.
#[local] Open Scope x_scope.
Import EvidenceProperties.

(** ** The evidence of a pass *)
Lemma age_iff (now q ttl : Q) : age_within now (Fin q) (Fin ttl) = true <-> (now - q <= ttl)%Q.
Proof.
  unfold age_within, pyfloat_lt, pyfloat_eq. rewrite orb_true_iff, Qeq_bool_iff. destruct (Qltb_spec (now - q) ttl); split; intros; try lra; try (by left); try (right; lra).
Qed.
Lemma stale_iff (now q ttl : Q) : age_within now (Fin q) (Fin ttl) = false <-> (ttl < now - q)%Q.
Proof. rewrite <- not_true_iff_false, age_iff. split; [apply Qnot_le_lt | apply Qlt_not_le]. Qed.

Section Evidence.
Context `{Environ} `{Repr} `{FloatOfText} `{FromIso} `{LocalZone} `{TextDigest} `{ExnText} `{JsonLoads} `{YtTime} `{PacificMidnight}.

(** The records of the pass, each made with the epochs of the memory. *)
Definition own (m : memory) (ev : EvidenceRecord) : Prop := ev_target_epoch ev = m_target_epoch m /\ ev_restart_epoch ev = m_restart_epoch m.
Definition keep (latest : by_source EvidenceRecord) (ev : EvidenceRecord) : by_source EvidenceRecord := src_set (ev_source ev) ev latest.
Lemma record_all_keeps records : forall m w m' w', record_all records m w = (Done m', w') -> Forall (own m) records ->
  m_latest m' = fold_left keep records (m_latest m) /\ m_target_epoch m' = m_target_epoch m /\ m_restart_epoch m' = m_restart_epoch m.
Proof.
  induction records as [|ev records IH]; intros m w m' w' E Hr; [by injection E as <- _|]. cbn [record_all fold_left] in E |- *.
  apply xbind_Done in E as (u & w1 & _ & E). apply Forall_cons in Hr as [[Ht Hre] Hr].
  unfold record_evidence in E. cbn [l_memory] in E. rewrite Ht, Hre, !Z.ltb_irrefl in E. cbn [orb persist l_memory] in E. by apply IH in E.
Qed.
Lemma record_monitoring_keeps m f w m' w' : record_monitoring_evidence m f w = (Done m', w') -> exists m1 records,
  m_latest m1 = m_latest m /\ monitoring_records m1 f = Ok records /\
  m_latest m' = fold_left keep records (m_latest m) /\ m_target_epoch m' = m_target_epoch m1 /\ m_restart_epoch m' = m_restart_epoch m1.
Proof.
  unfold record_monitoring_evidence. intros E. apply xbind_Done in E as (m1 & w1 & E1 & E). apply xbind_Done in E as (records & w2 & Er & E).
  exists m1, records. assert (Hm : m_latest m1 = m_latest m).
  { destruct (String.eqb _ _); [by injection E1 as <- _|]. unfold persisted in E1.
    assert (Ht : forall t l, m_latest (l_memory (ensure_target t l)) = m_latest (l_memory l)) by (intros; unfold ensure_target; cbv zeta; by repeat case_match).
    destruct (l_file _); [apply xbind_Done in E1 as (? & ? & _ & E1)|]; injection E1 as <- _; apply Ht. }
  assert (Hr : monitoring_records m1 f = Ok records) by (destruct (monitoring_records m1 f); [by injection Er as -> _ | discriminate Er]).
  split; [done|]. split; [done|]. rewrite <- Hm. apply (record_all_keeps _ _ _ _ _ E).
  unfold monitoring_records in Hr. cbv zeta in Hr. inv_ok Hr. injection Hr as <-. by repeat constructor.
Qed.

(** The latest record of a source: what it says, of which target, and until when it counts. *)
Definition heard (p : pass) (s : SourceKind) (verdict : string) (target : TargetIdentity) (seen ttl : Z) : Prop := exists ev,
  src_get s (latest_of (ps_snapshot p)) = Some ev /\ ev_verdict ev = verdict /\ ev_target ev = target /\
  (fresh_now (ps_snapshot p) ev = true <-> (sn_taken_at (ps_snapshot p) - inject_Z seen <= inject_Z ttl)%Q).
Definition local_verdict (l : local) : string := if lc_active l && lc_ingest l then "live" else "inactive".
(** When the Data API and OAUTH were asked last. *)
Definition api_seen (p : pass) : Z := or_z (parse_iso_ts (rm_api_checked (ps_remote p))) (st_now (ps_start p)).
Definition oauth_seen (p : pass) : Z := or_z (parse_iso_ts (rm_oauth_checked (ps_remote p))) (st_now (ps_start p)).
Definition watch_says (p : pass) : string := or_else (rm_watch_verdict (ps_remote p)) (verdict_from_watch_reason (rm_watch_reason (ps_remote p))).

Lemma keep_distinct records : forall latest, distinct latest -> distinct (fold_left keep records latest).
Proof. induction records as [|ev records IH]; intros latest Hd; [done|]. by apply IH, distinct_set. Qed.
Lemma own_fresh p m ev (seen ttl : Z) : m_target_epoch (sn_memory (ps_snapshot p)) = m_target_epoch m -> m_restart_epoch (sn_memory (ps_snapshot p)) = m_restart_epoch m ->
  own m ev -> ev_observed_at ev = Fin (inject_Z seen) -> ev_ttl_sec ev = Fin (inject_Z ttl) ->
  (fresh_now (ps_snapshot p) ev = true <-> (sn_taken_at (ps_snapshot p) - inject_Z seen <= inject_Z ttl)%Q).
Proof.
  intros Ht Hr [Ot Or] Eo El. unfold fresh_now, is_fresh. rewrite Ht, Hr, Ot, Or, !Z.leb_refl, Eo, El. apply age_iff.
Qed.
Lemma judged_ledger once w p : judged once w p -> distinct (m_latest (st_ledger (ps_start p))).
Proof.
  intros (w1 & _ & _ & _ & Ho & _). unfold open_pass in Ho. apply xbind_Done in Ho as (state & v1 & _ & Ho).
  apply xbind_Done in Ho as (content & v2 & _ & Ho). apply xbind_Done in Ho as (m & v3 & Em & Ho).
  repeat (let a := fresh "a" in let v := fresh "v" in apply xbind_Done in Ho as (a & v & _ & Ho)). injection Ho as <- _. cbn [st_ledger].
  assert (El : load_memory content = Ok m) by (destruct (load_memory content); [by injection Em as -> _ | discriminate Em]).
  assert (Hnil : distinct (A := EvidenceRecord) []) by apply NoDup_nil_2.
  destruct content as [[]|]; simpl in El; try by injection El as <-. inv_ok El. injection El as <-. cbn [m_latest].
  match goal with N : match _ with VDict _ => _ | _ => _ end = Ok _ |- _ => destruct (py_or _ _) in N; try discriminate N; injection N as <- end. by apply load_distinct.
Qed.
Lemma pass_heard once w p : judged once w p -> distinct (latest_of (ps_snapshot p)) /\ exists base oauth,
  let s := ps_start p in let r := ps_remote p in
  heard p INGEST_LOCAL (local_verdict (ps_local p)) base (st_now s) EVIDENCE_INGEST_TTL_SEC /\
  heard p DATA_API (verdict_from_api_live_state (rm_api_state r)) base (api_seen p) EVIDENCE_DATA_API_TTL_SEC /\
  heard p WATCH_PAGE (watch_says p) base (st_now s) EVIDENCE_WATCH_TTL_SEC /\
  heard p OAUTH (verdict_from_oauth (rm_oauth r)) oauth (oauth_seen p) EVIDENCE_OAUTH_TTL_SEC /\
  ti_video_id base = strip (rm_video_id r) /\ ti_video_id oauth = strip (oa_video_id (rm_oauth r)).
Proof.
  intros Hj. pose proof (judged_ledger _ _ _ Hj) as Hd. destruct Hj as (w1 & w2 & w3 & w4 & _ & _ & _ & _ & Ej).
  apply judge_parts in Ej as (_ & _ & _ & _ & _ & w5 & Em). apply record_monitoring_keeps in Em as (m1 & records & _ & Er & El & Et & Ee).
  split; [unfold latest_of; rewrite El; by apply keep_distinct|].
  unfold monitoring_records in Er. cbv zeta in Er. inv_ok Er. injection Er as <-.
  exists (evidence_target m1 (rm_video_id (ps_remote p)) "" "" (or_else CHANNEL_ID (oa_channel_id (rm_oauth (ps_remote p))))).
  eexists. unfold heard, latest_of. rewrite El. cbn [fold_left]. unfold keep. cbn [ev_source]. rewrite !src_get_set.
  do 4 (split; [eexists; split; [reflexivity|]; split; [reflexivity|]; split; [reflexivity|]; by apply (own_fresh p m1)|]). done.
Qed.
Lemma heard_says p s v ev verdict target seen ttl : heard p s verdict target seen ttl -> says (ps_snapshot p) s v ev ->
  verdict = v /\ ev_target ev = target /\ (sn_taken_at (ps_snapshot p) - inject_Z seen <= inject_Z ttl)%Q.
Proof. intros (ev' & Eg & Ev & Et & Hf) (Eg' & Hf' & Ev'). rewrite Eg in Eg'. injection Eg' as ->. split; [congruence|]. split; [done | by apply Hf]. Qed.
Lemma heard_denies p s v target seen ttl : heard p s v target seen ttl -> denies (ps_snapshot p) s v -> (inject_Z ttl < sn_taken_at (ps_snapshot p) - inject_Z seen)%Q.
Proof. intros (ev & Eg & Ev & Et & Hf) Hd. apply Qnot_le_lt. intros Hle. apply Hf in Hle. by apply (Hd ev). Qed.

(** ** What a restart rests on *)
Notation age_of p t := (sn_taken_at (ps_snapshot p) - inject_Z t)%Q.
(** The pass found the service or its connection down, and judged that at once. *)
Definition local_down (p : pass) : Prop :=
  lc_active (ps_local p) && lc_ingest (ps_local p) = false /\ (age_of p (st_now (ps_start p)) <= inject_Z EVIDENCE_INGEST_TTL_SEC)%Q.
(** Both APIs said of the same video that it ended, and no younger finding says otherwise. *)
Record remote_over (p : pass) : Prop := {
  ro_api : verdict_from_api_live_state (rm_api_state (ps_remote p)) = "ended"; ro_api_age : (age_of p (api_seen p) <= inject_Z EVIDENCE_DATA_API_TTL_SEC)%Q;
  ro_oauth : verdict_from_oauth (rm_oauth (ps_remote p)) = "ended"; ro_oauth_age : (age_of p (oauth_seen p) <= inject_Z EVIDENCE_OAUTH_TTL_SEC)%Q;
  ro_video : strip (rm_video_id (ps_remote p)) <> "" /\ strip (rm_video_id (ps_remote p)) = strip (oa_video_id (rm_oauth (ps_remote p)));
  ro_page : watch_says p = "live" -> (inject_Z EVIDENCE_WATCH_TTL_SEC < age_of p (st_now (ps_start p)))%Q;
  ro_late : (inject_Z EVIDENCE_INGEST_TTL_SEC < age_of p (st_now (ps_start p)))%Q; ro_cost : co_active (st_cost (ps_start p)) = false }.
(** Every guard of the order. *)
Record restart_cleared (p : pass) (f : failure) : Prop := {
  rc_unavailable : hl_available (ps_health p) = false; rc_grace : in_grace (ps_local p) = false;
  rc_fails : MAX_FAILS <= st_fails (ps_start p) + 1; rc_enforced : ENFORCE_RESTART = true;
  rc_uptime : 0 < lc_uptime (ps_local p) -> MIN_RESTART_UPTIME_SEC <= lc_uptime (ps_local p);
  rc_cooldown : 0 < st_last_restart_ts (ps_start p) ->
    st_last_restart_ts (ps_start p) + RESTART_COOLDOWN_SEC <= Qtrunc (sn_taken_at (ps_snapshot p));
  rc_budget : within_budget (gate_context p f) (ps_snapshot p) \/ overridden (gate_context p f) (ps_snapshot p);
  rc_evidence : local_down p \/ remote_over p }.

Lemma gate_cleared once w p f : judged once w p -> hl_available (ps_health p) = false -> failure_of p = Ok f -> gate_passed p f -> restart_cleared p f.
Proof.
  intros Hj Ha Hf (g & Hg & Hr). assert (Hfails : fl_fails f = st_fails (ps_start p) + 1).
  { unfold failure_of in Hf. cbv zeta in Hf. inv_ok Hf. destruct v. by injection Hf as <-. }
  apply restart_gate in Hg as (_ & Hs & [G1 G2 G3 G4] & Hb & Hr'); [|done]. cbn [gate_context g_fail_count g_max_fails g_stream_uptime_sec g_min_restart_uptime_sec
    g_last_restart_ts g_cooldown_sec g_enforce_restart g_api_cost_degraded] in *. pose proof Hj as (w1 & w2 & w3 & w4 & _ & _ & Hgrace & _ & Ej).
  apply judge_parts in Ej as (_ & _ & _ & _ & Ee & _). pose proof (pass_heard _ _ _ Hj) as (Hd & base & oauth & Hl & Hap & Hwa & Hoa & Vb & Vo).
  split; try done; [by rewrite <- Hfails|]. rewrite Ee in Hs, Hr'. unfold RESTARTABLE in Hs. apply elem_of_cons in Hs as [Hs|Hs].
  - right. destruct (Hr' Hs) as [Hal Hco]. apply remote_ended_evidence in Hs as ((a & o & Sa & So & Hm) & Hpl & Hin); [|done].
    apply (heard_says _ _ _ _ _ _ _ _ Hap) in Sa as (Va & Ta & Aa). apply (heard_says _ _ _ _ _ _ _ _ Hoa) in So as (Vo' & To & Ao).
    split; try done.
    + rewrite Ta, To in Hm. unfold strong_video_match, both in Hm. rewrite Vb, Vo in Hm. case_match; [done|]. bools. destruct Hm as [[N _] E]. by apply String.eqb_neq in N; apply String.eqb_eq in E.
    + intros Ew. rewrite Ew in Hwa. by apply (heard_denies _ _ _ _ _ _ Hwa).
    + unfold local_verdict in Hl. destruct (_ && _); by apply (heard_denies _ _ _ _ _ _ Hl).
  - left. apply list_elem_of_singleton, local_unhealthy_evidence in Hs as (ev & Hev); [|done].
    apply (heard_says _ _ _ _ _ _ _ _ Hl) in Hev as (Vl & _ & Al). split; [|done]. unfold local_verdict in Vl. by destruct (_ && _).
Qed.

(** C15: A pass orders at most one restart of the stream, and only when it found the
    stream unavailable outside the start-up grace, enough passes in a row have, and
    restarts are enforced; the process has run long enough; the cooldown since the
    last restart is over; the budgets of the hour and the day are not used up, or the
    same failure has lasted long enough to override them; and its own findings are
    either that the service or its connection is down, judged while that is fresh, or
    that the Data API and OAUTH, both asked recently, say of the same video that it
    ended, with no fresh page that shows it live and no alarm about the cost of the
    API.  The second comes to an order only in a pass that judged later than its local
    finding counts. *)
Theorem restart_is_cleared once w : y_restarts (snd (main once w)) = y_restarts w \/
  exists p f t, y_restarts (snd (main once w)) = y_restarts w ++ [t] /\ judged once w p /\ failure_of p = Ok f /\ restart_cleared p f.
Proof.
  destruct (main_changes once w) as [[E _]|s w1 _ E _|p f t Hj Ha Hf Hg E _]; [by left | by left|].
  right. exists p, f, t. do 3 (split; [done|]). by eapply gate_cleared.
Qed.
End Evidence.

(** ** The memory of restarts over a run of passes *)
(** How many of the times lie within a window before [now]. *)
Notation spent := Evidence.within.
Lemma spent_cons now window t l : spent now window (t :: l) = (if now - t <=? window then 1 else 0) + spent now window l.
Proof. unfold Evidence.within. simpl. case_match; simpl length; lia. Qed.
Lemma spent_app now window l1 l2 : spent now window (l1 ++ l2) = spent now window l1 + spent now window l2.
Proof. induction l1 as [|t l1 IH]; [done|]. rewrite <- app_comm_cons, !spent_cons, IH. lia. Qed.
#[export] Instance spent_perm now window : Proper (Permutation ==> eq) (spent now window).
Proof. intros l l' Hp. unfold Evidence.within. f_equal. induction Hp; simpl; repeat case_match; simpl; lia. Qed.
Lemma spent_nonneg now window l : 0 <= spent now window l.
Proof. unfold Evidence.within. lia. Qed.

Definition kept (now max_age ts : Z) : bool := (0 <? ts) && (now - ts <=? Z.max 0 max_age).
Lemma trim_times l now max_age : trim_restart_history (times_py l) now max_age = Ok (sort_by id (List.filter (kept now max_age) l)).
Proof.
  unfold trim_restart_history, times_py. cbn [iter rbind].
  assert (E : kept_times now (Z.max 0 max_age) (map VInt l) = Ok (List.filter (kept now max_age) l)); [|by rewrite E].
  induction l as [|ts l IH]; [done|]. cbn [map kept_times py_int List.filter]. rewrite IH. cbn [rbind]. unfold kept.
  destruct (Z.leb_spec ts 0), (Z.ltb_spec 0 ts), (Z.ltb_spec (Z.max 0 max_age) (now - ts)), (Z.leb_spec (now - ts) (Z.max 0 max_age)); simpl; try lia; done.
Qed.
Lemma spent_kept now max_age t window l : now <= t -> window <= max_age -> Forall (fun ts => 0 < ts) l ->
  spent t window (List.filter (kept now max_age) l) = spent t window l.
Proof.
  intros Ht Hw. induction 1 as [|ts l Hts _ IH]; [done|]. cbn [List.filter]. destruct (kept now max_age ts) eqn:Ek.
  - by rewrite !spent_cons, IH.
  - rewrite spent_cons, IH. unfold kept in Ek. destruct (Z.leb_spec (t - ts) window); [|lia]. exfalso. bools. lia.
Qed.

(** From time [n] on, the history counts every order that a window of a day can. *)
Definition covers (n : Z) (history orders : list Z) : Prop := Forall (fun ts => 0 < ts) history /\
  forall t window, n <= t -> window <= 86400 -> spent t window orders <= spent t window history.
Lemma trim_covers n now max_age history orders history' : n <= now -> 86400 <= max_age -> covers n history orders ->
  trim_restart_history (times_py history) now max_age = Ok history' -> covers now history' orders.
Proof.
  intros Hn Hm [Hp Hc] Ht. rewrite trim_times in Ht. injection Ht as <-. split.
  - rewrite sort_by_perm. apply Forall_forall. intros ts Hin. apply list_elem_of_In, List.filter_In in Hin as [_ Hk]. unfold kept in Hk. bools. lia.
  - intros t window Hle Hw. rewrite sort_by_perm, spent_kept by (done || lia). apply Hc; lia.
Qed.
Lemma more_covers n now history orders : 0 < now -> covers n history orders -> covers n (history ++ [now]) (now :: orders) /\ covers n (history ++ [now]) orders.
Proof.
  intros Hn [Hp Hc]. assert (Hp' : Forall (fun ts => 0 < ts) (history ++ [now])) by (apply Forall_app; auto).
  split; (split; [done|]); intros t window Ht Hw; specialize (Hc t window Ht Hw); rewrite ?spent_cons, spent_app, spent_cons; unfold Evidence.within at 3; simpl; case_match; lia.
Qed.

Section Runs.
Context `{Environ} `{Repr} `{FloatOfText} `{FromIso} `{LocalZone} `{TextDigest} `{ExnText} `{JsonLoads} `{YtTime} `{PacificMidnight}.

(** The pass opens its state between two times. *)
Definition opened_between (n n' : Z) (w : yt_world) : Prop := forall s w1, open_pass w = (Done s, w1) -> n <= st_now s <= n'.
(** Passes one after the other, to time [n]; [orders] are the start times of the passes
    that ordered a restart, the latest first.  Each of them booked its order. *)
Inductive ran : Z -> list Z -> yt_world -> Prop :=
| ran_new n w : 0 < n -> y_files w State = None -> ran n [] w
| ran_others n orders w w' : ran n orders w -> y_files w' State = y_files w State -> ran n orders w'
| ran_quiet n n' orders w env once : ran n orders w -> n <= n' -> opened_between n n' (new_pass env w) ->
    y_restarts (snd (main once (new_pass env w))) = y_restarts w -> ran n' orders (snd (main once (new_pass env w)))
| ran_order n n' orders w env once s w1 : ran n orders w -> n <= n' -> opened_between n n' (new_pass env w) ->
    open_pass (new_pass env w) = (Done s, w1) -> booked s (snd (main once (new_pass env w))) -> ran n' (st_now s :: orders) (snd (main once (new_pass env w))).

(** What the state file says, and what an absent one does. *)
Definition recalls (w : yt_world) (last : Z) (history : list Z) : Prop := exists d, default initial_state (y_files w State) = VDict d /\
  dget d "last_restart_ts" (VInt 0) = VInt last /\ dget d "restart_history_ts" (VList []) = times_py history.
Definition accounted (n : Z) (orders : list Z) (w : yt_world) : Prop := exists last history, recalls w last history /\
  0 < n /\ Forall (fun o => 0 < o <= last) orders /\ last <= n /\ covers n history orders.
Lemma remembers_recalls w last history : remembers w last history -> recalls w last history.
Proof. intros (d & Ef & Hd). exists d. by rewrite Ef. Qed.
Lemma same_recalls w w' last history : y_files w' State = y_files w State -> recalls w last history -> recalls w' last history.
Proof. intros Ef (d & Ed & Hd). exists d. by rewrite Ef. Qed.

Lemma opened_state w s w1 last history : open_pass w = (Done s, w1) -> recalls w last history -> st_last_restart_ts s = last /\
  trim_restart_history (times_py history) (st_now s) (86400 + RESTART_BUDGET_RELEASE_RECONFIRM_SEC) = Ok (st_history s).
Proof.
  intros Ho (d & Ed & El & Eh). unfold open_pass in Ho. apply xbind_Done in Ho as (state & v1 & Es & Ho).
  assert (state = VDict d) as ->.
  { unfold load_state, read_file in Es. apply xbind_Done in Es as (f & v0 & Ef & Es). apply xbind_Done in Ef as (r & v2 & Er & Ef). injection Ef as <- <-.
    injection Es as <- _. rewrite <- Ed. f_equal. pose proof (idle_same sense w (within_sense _ _)) as [_ Hs]. by rewrite Er in Hs. }
  apply xbind_Done in Ho as (? & v2 & _ & Ho). apply xbind_Done in Ho as (? & v3 & _ & Ho). apply xbind_Done in Ho as (? & v4 & _ & Ho).
  apply xbind_Done in Ho as (d' & v5 & E & Ho). injection E as <- <-.
  do 4 (apply xbind_Done in Ho as (? & ? & _ & Ho)). apply xbind_Done in Ho as (l & ? & E & Ho).
  unfold state_int in E. rewrite El in E. injection E as <- <-. do 2 (apply xbind_Done in Ho as (? & ? & _ & Ho)).
  apply xbind_Done in Ho as (hs & ? & E & Ho). injection Ho as <- _. cbn [st_last_restart_ts st_now st_history]. split; [done|].
  rewrite Eh in E. destruct (trim_restart_history _ _ _); [by injection E as -> _ | discriminate E].
Qed.
Lemma opened_accounted n n' orders w s w1 : accounted n orders w -> opened_between n n' w -> open_pass w = (Done s, w1) ->
  n <= st_now s <= n' /\ 0 < st_now s /\ Forall (fun o => 0 < o <= st_last_restart_ts s) orders /\ st_last_restart_ts s <= n /\
  covers (st_now s) (st_history s) orders.
Proof.
  intros (last & history & Hr & Hn & Ho & Hl & Hc) Hb Hs. destruct (opened_state _ _ _ _ _ Hs Hr) as [E Et]. specialize (Hb _ _ Hs).
  pose proof reconfirm_nonnegative. do 2 (split; [lia|]). split; [by rewrite E|]. split; [lia|]. eapply (trim_covers n); [lia | | exact Hc | exact Et]. lia.
Qed.
Lemma covers_later n n' history orders : n <= n' -> covers n history orders -> covers n' history orders.
Proof. intros Hn [Hp Hc]. split; [done|]. intros t window Ht. apply Hc. lia. Qed.
Lemma booked_accounted n n' orders w s w1 w' : accounted n orders w -> opened_between n n' w -> open_pass w = (Done s, w1) -> booked s w' ->
  accounted n' (st_now s :: orders) w' /\ accounted n' orders w'.
Proof.
  intros Ha Hb Hs (history & Hr & Ht). destruct (opened_accounted _ _ _ _ _ _ Ha Hb Hs) as (Hn & Hpos & Ho & Hl & Hc).
  assert (Ho' : Forall (fun o => 0 < o <= st_now s) orders) by (eapply Forall_impl; [exact Ho|]; simpl; lia).
  destruct (more_covers _ (st_now s) _ _ Hpos Hc) as [Hc1 Hc2]. apply remembers_recalls in Hr.
  assert (Hgo : forall os, covers (st_now s) (st_history s ++ [st_now s]) os -> covers n' history os).
  { intros os Hos. apply (covers_later (st_now s)); [lia|]. eapply trim_covers; [| |exact Hos | exact Ht]; lia. }
  split; exists (st_now s), history; (split; [done|]); split; [lia | | lia |].
  - split; [apply Forall_cons; split; [lia | done]|]. split; [lia | by apply Hgo].
  - split; [done|]. split; [lia | by apply Hgo].
Qed.
Lemma ran_accounted n orders w : ran n orders w -> accounted n orders w.
Proof.
  induction 1 as [n w Hn E|n orders w w' _ IH E|n n' orders w env once _ IH Hn Hb E|n n' orders w env once s w1 _ IH Hn Hb Ho Hk].
  - exists 0, []. split; [eexists; by rewrite E|]. split; [done|]. split; [done|]. split; [lia|]. by split.
  - destruct IH as (last & history & Hr & Hrest). exists last, history. split; [by eapply same_recalls | done].
  - destruct (main_changes once (new_pass env w)) as [[_ Ef]|s w1 Ho _ Hc|p f t _ _ _ _ Et _].
    + destruct IH as (last & history & Hr & Hpos & Hos & Hl & Hc). exists last, history. split; [by eapply same_recalls|].
      split; [lia|]. split; [done|]. split; [lia | by apply (covers_later n)].
    + assert (Ha : accounted n orders (new_pass env w)) by exact IH. destruct Hc as [Hr|Hk]; [|by eapply booked_accounted].
      destruct (opened_accounted _ _ _ _ _ _ Ha Hb Ho) as (Hs & _ & Hos & Hl & Hc). exists (st_last_restart_ts s), (st_history s).
      destruct IH as (_ & _ & _ & Hpos & _). split; [by apply remembers_recalls|]. split; [lia|]. split; [done|]. split; [lia|].
      apply (covers_later (st_now s)); [lia | done].
    + rewrite E in Et. apply (f_equal length) in Et. rewrite length_app in Et. simpl in Et. lia.
  - exact (proj1 (booked_accounted _ _ _ (new_pass env w) _ _ _ IH Hb Ho Hk)).
Qed.

(** When the pass was judged. *)
Definition judged_at (p : pass) : Z := Qtrunc (sn_taken_at (ps_snapshot p)).
(** C16: However many passes have run, with other programs changing every file but the
    state in between: when a pass orders a restart, and the clock has not been set
    back, the cooldown is over since every earlier order, and fewer orders than the
    budgets allow were given within the last hour and within the last day, unless the
    failure of this pass has lasted the override time.  Every earlier order must have
    been booked: a process killed between the order and its booking forgets it. *)
Theorem restarts_are_rationed n n' orders w env once : ran n orders w -> opened_between n n' (new_pass env w) ->
  let w' := snd (main once (new_pass env w)) in
  y_restarts w' = y_restarts w \/
  exists p f t, y_restarts w' = y_restarts w ++ [t] /\ judged once (new_pass env w) p /\ failure_of p = Ok f /\
    (st_now (ps_start p) <= judged_at p ->
      (forall o, o ∈ orders -> o + RESTART_COOLDOWN_SEC <= judged_at p) /\
      ((spent (judged_at p) 3600 orders < RESTART_BUDGET_HOURLY /\ spent (judged_at p) 86400 orders < RESTART_BUDGET_DAILY) \/
       overridden (gate_context p f) (ps_snapshot p))).
Proof.
  intros Hr Hb. apply ran_accounted in Hr. destruct (main_changes once (new_pass env w)) as [[E _]|s w1 _ E _|p f t Hj Ha Hf Hg E _]; [by left | by left|].
  right. exists p, f, t. do 3 (split; [done|]). intros Hclock. destruct (gate_cleared _ _ _ _ Hj Ha Hf Hg) as [_ _ _ _ _ Hcool Hbudget _].
  destruct Hj as (w1 & _ & _ & _ & Ho & _). destruct (opened_accounted _ _ _ (new_pass env w) _ _ Hr Hb Ho) as (Hn & Hpos & Hos & Hl & _ & Hc).
  split.
  - intros o Hin. rewrite Forall_forall in Hos. specialize (Hos o Hin). simpl in Hos. unfold judged_at. lia.
  - destruct Hbudget as [[B1 B2]|Hov]; [left | by right]. cbn [gate_context g_history g_budget_hourly g_budget_daily] in B1, B2. fold (judged_at p) in B1, B2.
    pose proof (Hc (judged_at p) 3600 Hclock ltac:(lia)). pose proof (Hc (judged_at p) 86400 Hclock ltac:(lia)). lia.
Qed.

Lemma opened_by n n' w : match fst (open_pass w) with Done s => (n <=? st_now s) && (st_now s <=? n') | _ => true end = true -> opened_between n n' w.
Proof. intros Hb s w1 E. rewrite E in Hb. simpl in Hb. bools. lia. Qed.
End Runs.

(** The branch of [pass_gate] that reports disabled restarts is never taken: the gate
    answers a blocked restart with the action none. *)
Lemma restart_disabled_unreachable `{Environ} g : rd_action (restart_decision g) <> "threshold reached; restart disabled".
Proof. unfold restart_decision, restart_decision_from_gate. repeat case_match; by simpl. Qed.

(** ** Concrete runs *)
Module Demo.
#[local] Instance repr_none : Repr := fun _ => "".
#[local] Instance exn_text : ExnText := fun _ => "error".
#[local] Instance floats_none : FloatOfText := fun _ => None.
#[local] Instance no_iso : FromIso := fun _ => None.
#[local] Instance utc_zone : LocalZone := fun _ => 0%Q.
#[local] Instance digest_none : TextDigest := fun _ => "".
#[local] Instance yt_time : YtTime := mkYtTime (fun _ => 0) (fun _ => "2026-01-01T00:00:00Z").
#[local] Instance no_midnight : PacificMidnight := fun _ => Err (EValue "zone").
(** One answer serves every call: a token, and a broadcast that ended. *)
Definition ended : pyval :=
  VDict [("id", VStr "abcdefghijk"); ("snippet", VDict [("resourceId", VDict [("videoId", VStr "abcdefghijk")]); ("liveBroadcastContent", VStr "none")]);
         ("status", VDict [("lifeCycleStatus", VStr "complete")]); ("contentDetails", VDict []);
         ("liveStreamingDetails", VDict [("actualStartTime", VStr "2026-01-01T00:00:00Z"); ("actualEndTime", VStr "2026-01-01T06:00:00Z")])].
Definition answer : pyval := VDict [("access_token", VStr "token"); ("expires_in", VInt 3600); ("items", VList [ended])].
#[local] Instance loads : JsonLoads := fun _ => Ok answer.
#[local] Instance demo_env : Environ := fun k => dict_get k
  [("YTW_ENFORCE_RESTART", "1"); ("YTW_MAX_FAILS", "1"); ("YTW_API_KEY", "key"); ("YTW_API_COST_BURN_RATE_ENABLE", "0");
   ("YTW_OAUTH_ENABLE", "1"); ("YTW_OAUTH_CLIENT_ID", "client"); ("YTW_OAUTH_REFRESH_TOKEN", "refresh"); ("YTW_PUBLIC_LIVE_PROBE_ENABLE", "0")].
Definition readings (clock : nat -> Q) (commands : list string) (restart : bool * string) : nat -> yt_reading :=
  fun n => mkYtReading (clock n) Calm [] (Text "x") (Ran 0 (nth (n - 4) commands "") "") (Ok restart) false None "" (Err (EOS "no clock")).
(** The commands of a sender that runs and is connected: the service, its processes, their age, the socket. *)
Definition sending : list string := ["active"; "200"; "201"; "600"; "ESTAB 0 0 10.0.0.1:5000 10.0.0.2:1935 users:((ffmpeg,pid=201,fd=5))"].
Definition w0 : yt_world := mkYt (fun _ => None) [] [] [] [] (readings (fun _ => 0%Q) [] (true, "")) 0 true.
Definition run_pass (clock : nat -> Q) (commands : list string) (restart : bool * string) (w : yt_world) : yt_world :=
  snd (main false (new_pass (readings clock commands restart) w)).
(** The pass opens at 1000; from then on each reading may be later. *)
Definition slow (later : Q) (n : nat) : Q := if (n <=? 8)%nat then 1000%Q else later.
Definition at_time (t : Q) (n : nat) : Q := t.
(** What the last pass published of the gate. *)
Definition published (w : yt_world) : option (pyval * pyval) :=
  option_map (fun e => (dget e "evidence_state" VNone, dget e "evidence_blocked_by" VNone)) (List.last (map Some (y_events w)) None).

(** *** A sender that is down *)
Definition w1 : yt_world := Eval vm_compute in run_pass (at_time 1000) [] (true, "") w0.
Definition s1 : start := Eval vm_compute in
  match fst (open_pass (new_pass (readings (at_time 1000) [] (true, "")) w0)) with Done s => s | _ => mkStart [] empty_memory [] 0 0 "" "" 0 0 0 0 (mkCost false "" 0 0) [] end.
Lemma first_order : ran 1000 [1000] w1.
Proof.
  assert (E : snd (main false (new_pass (readings (at_time 1000) [] (true, "")) w0)) = w1) by (vm_compute; reflexivity). rewrite <- E.
  apply (ran_order 1000 1000 [] w0 _ false s1 (snd (open_pass (new_pass (readings (at_time 1000) [] (true, "")) w0)))).
  - by apply ran_new.
  - lia.
  - apply opened_by. vm_compute. reflexivity.
  - vm_compute. reflexivity.
  - rewrite E. exists [1000]. split; [|vm_compute; reflexivity].
    eexists. split; [vm_compute; reflexivity | split; vm_compute; reflexivity].
Qed.
(** A second order follows when the cooldown is over, not before. *)
Lemma restarts_are_rationed_witness : length (y_restarts (run_pass (at_time 1179) [] (true, "") w1)) = 1%nat /\
  length (y_restarts (run_pass (at_time 1180) [] (true, "") w1)) = 2%nat /\
  exists p, judged false (new_pass (readings (at_time 1180) [] (true, "")) w1) p /\
    (st_now (ps_start p) <= judged_at p -> 1000 + RESTART_COOLDOWN_SEC <= judged_at p).
Proof.
  split; [vm_compute; reflexivity|]. split; [vm_compute; reflexivity|].
  assert (opened_between 1000 1180 (new_pass (readings (at_time 1180) [] (true, "")) w1)) as Hb by (apply opened_by; vm_compute; reflexivity).
  destruct (restarts_are_rationed 1000 1180 [1000] w1 _ false first_order Hb) as [E|(p & f & t & _ & Hj & _ & Hr)].
  - exfalso. apply (f_equal length) in E. vm_compute in E. discriminate E.
  - exists p. split; [exact Hj|]. intros Hc. apply (proj1 (Hr Hc)). left.
Defined.
(** The same failure can be refused twice within the time the backoff is to last: the
    pass that reports the backoff overwrites the reason that it is kept by. *)
Definition refused (t : Q) (w : yt_world) : yt_world := run_pass (at_time t) [] (false, "refused") w.
Lemma backoff_is_forgotten : RESTART_FAILURE_BACKOFF_SEC = 300 /\
  map rt_at (y_restarts (refused 1180 (refused 1000 w0))) = [1000%Q] /\ map rt_at (y_restarts (refused 1180 (refused 1010 (refused 1000 w0)))) = [1000%Q; 1180%Q].
Proof. split; [vm_compute; reflexivity|]. split; vm_compute; reflexivity. Qed.

(** *** A sender that runs, of a broadcast that ended *)
Lemma restart_is_cleared_witness : exists p f t, y_restarts (run_pass (slow 1020) sending (true, "") w0) = y_restarts w0 ++ [t] /\
  failure_of p = Ok f /\ restart_cleared p f.
Proof.
  destruct (restart_is_cleared false (new_pass (readings (slow 1020) sending (true, "")) w0)) as [E|(p & f & t & E & _ & Hf & Hr)].
  - exfalso. apply (f_equal length) in E. vm_compute in E. discriminate E.
  - exists p, f, t. split; [exact E|]. split; [exact Hf | exact Hr].
Defined.
(** The sender keeps the restart back while it is fresh; a pass that takes longer to
    judge restarts it all the same. *)
Lemma late_pass_ignores_the_sender :
  published (run_pass (slow 1015) sending (true, "") w0) = Some (VStr "remote_ended_confirmed", VList [VStr "local_ingest_alive_contradiction"]) /\
  y_restarts (run_pass (slow 1015) sending (true, "") w0) = [] /\ map rt_at (y_restarts (run_pass (slow 1016) sending (true, "") w0)) = [1016%Q].
Proof. split; [vm_compute; reflexivity|]. split; vm_compute; reflexivity. Qed.
End Demo.
