(* ===== verification/V2Model.v ===== *)
(** * Stream v2: subsystem states

    Models src/stream_v2/model.py, timeutil.py, subsystems/common.py and the way back
    from a stored snapshot (pipeline.py).  A time is an exact rational of seconds; the
    random part of an event id is a class operation, one reading per evidence of a
    subsystem. *)
From S2P Require Import Prelude PyVal UtcTime FastPolicy AgentObserve Evidence.

(** The random hex digits in the id of the n-th evidence of a subsystem. *)
Class EventToken := event_token : string -> nat -> string.

(** ** Readings of decoded values (subsystems/common.py, timeutil.py) *)
Section Readings.
Context `{Repr} `{FromIso} `{FloatOfText}.
(** [truthy] of common.py, which is not Python's. *)
Definition YES : list string := ["1"; "true"; "yes"; "ok"; "running"; "live"; "healthy"].
Definition says_yes (v : pyval) : bool :=
  match v with
  | VBool b => b
  | VInt z => negb (z =? 0)
  | VFloat f => negb (pyfloat_eq f (Fin 0))
  | VStr s => bool_decide (lower (strip s) ∈ YES)
  | _ => false
  end.
Definition text (v : pyval) : string := match v with VNone => "" | _ => py_str v end.
Definition lower_text (v : pyval) : string := lower (text v).

Definition parse_utc (v : pyval) : res (option Q) :=
  match v with
  | VStr s =>
      let t := strip s in
      if String.eqb t "" then Ok None else
      match fromisoformat (if ends_with "Z" t then (drop_last t ++ "+00:00")%string else t) with
      | None => Ok None
      | Some (wall, None) => Ok (Some wall)
      | Some (wall, Some off) =>
          let utc := (wall - off)%Q in
          if Qleb (inject_Z MIN_TS) utc && Qltb utc (inject_Z (MAX_TS + 1)) then Ok (Some utc) else Err EOverflow
      end
  | _ => Ok None
  end.
Definition age_seconds (observed_at : option Q) (now : Q) : option Q := option_map (fun t => qmax 0 (now - t)) observed_at.
Definition isoformat_utc (t : Q) : string := (iso_seconds (Qfloor t) ++ "Z")%string.
(** [age is not None and age <= limit] *)
Definition recent (age : option Q) (limit : Q) : bool := match age with Some a => Qleb a limit | None => false end.
Definition age_of (v : pyval) (now : Q) : res (option Q) := let! t := parse_utc v in Ok (age_seconds t now).

(** [_int] and [_float] of the signals: another value than a number gives the default. *)
Definition _int (v : pyval) (dflt : Z) : res Z := match py_int v with Err (EType | EValue _) => Ok dflt | r => r end.
Definition _float (v : pyval) : res (option pyfloat) :=
  match py_float v with Ok f => Ok (Some f) | Err (EType | EValue _) => Ok None | Err e => Err e end.
Definition above (f : pyfloat) (limit : Q) : bool := pyfloat_lt (Fin limit) f.
(** [d.get(a) or d.get(b) or ...] *)
Fixpoint first_of (d : dict) (keys : list string) : pyval :=
  match keys with [] => VNone | [k] => dget d k VNone | k :: keys' => py_or (dget d k VNone) (first_of d keys') end.
(** [d.get(k) if isinstance(d.get(k), dict) else {}] *)
Definition sub_dict (d : dict) (k : string) : dict := match dict_get k d with Some (VDict e) => e | _ => [] end.
Definition given (d : dict) : bool := match d with [] => false | _ => true end.
(** The words that are not empty, with blanks between them. *)
Definition sentence (l : list string) : string := String.concat " " (List.filter (fun s => negb (String.eqb s "")) l).
Definition age_py (age : option Q) : pyval := match age with Some a => VFloat (Fin a) | None => VNone end.
Definition float_py (f : option pyfloat) : pyval := match f with Some f => VFloat f | None => VNone end.
Definition texts_py (l : list string) : pyval := VList (map VStr l).
End Readings.

(** ** The snapshot (model.py) *)
Definition DESTRUCTIVE_ACTIONS : list string :=
  ["restart_stream"; "force_current_broadcast_live"; "bind_current_stream"; "transition_current_broadcast"; "create_replacement_broadcast"; "cleanup_stale_broadcast"].
Definition YOUTUBE_DESTRUCTIVE_ACTIONS : list string :=
  ["force_current_broadcast_live"; "bind_current_stream"; "transition_current_broadcast"; "create_replacement_broadcast"; "cleanup_stale_broadcast"].

Record EvidenceRecord : Type := mkEvidence {
  er_source : string; er_event_id : string; er_subsystem : string; er_name : string; er_verdict : string; er_observed_at : string;
  er_age : option pyfloat; er_ttl : pyfloat; er_confidence : string; er_target : dict; er_raw_ref : dict }.
Record SubsystemStatus : Type := mkStatus {
  ss_name : string; ss_state : string; ss_confidence : string; ss_evidence : list string; ss_records : list EvidenceRecord; ss_age : option pyfloat;
  ss_last_ok : string; ss_caused_by : list string; ss_affects : list string; ss_action : string; ss_blocked_by : list string; ss_extra : dict }.
Record OverallStatus : Type := mkOverall {
  ov_state : string; ov_public : string; ov_video_id : string; ov_url_state : string; ov_degraded : list string; ov_oldest : string;
  ov_window : option pyfloat; ov_max_window : pyfloat; ov_sli : dict; ov_action : string; ov_scope : string; ov_reason : string }.
Record SubsystemsSnapshot : Type := mkSnapshot {
  sn_ts : string; sn_version : Z; sn_run_id : string; sn_overall : OverallStatus; sn_rendering : SubsystemStatus; sn_music : SubsystemStatus;
  sn_local : SubsystemStatus; sn_youtube : SubsystemStatus; sn_monitoring : SubsystemStatus }.
Definition subsystems (s : SubsystemsSnapshot) : list SubsystemStatus := [sn_rendering s; sn_music s; sn_local s; sn_youtube s; sn_monitoring s].
Record ActionCandidate : Type := mkCandidate {
  ac_action : string; ac_scope : string; ac_priority : Z; ac_level : string; ac_preserves_url : bool; ac_ready : bool; ac_blocked_by : list string }.
Record ReplacementPolicy : Type := mkReplacement { rp_allowed : bool; rp_reason : string; rp_missing : list string }.

(** [round(age, 3)] of a float *)
Definition rounded (f : pyfloat) : pyfloat := match f with Fin q => Fin (round3 q) | _ => f end.
Definition evidence_dict (e : EvidenceRecord) : pyval :=
  VDict [("source", VStr (er_source e)); ("event_id", VStr (er_event_id e)); ("subsystem", VStr (er_subsystem e)); ("name", VStr (er_name e));
         ("verdict", VStr (er_verdict e)); ("observed_at_utc", VStr (er_observed_at e)); ("age_sec", float_py (option_map rounded (er_age e)));
         ("ttl_sec", VFloat (er_ttl e)); ("confidence", VStr (er_confidence e)); ("target", VDict (er_target e)); ("raw_ref", VDict (er_raw_ref e))].
Definition status_dict (s : SubsystemStatus) : dict :=
  dict_update [("state", VStr (ss_state s)); ("confidence", VStr (ss_confidence s)); ("evidence", texts_py (ss_evidence s));
     ("evidence_records", VList (map evidence_dict (ss_records s))); ("evidence_age_sec", float_py (option_map rounded (ss_age s)));
     ("last_ok_ts_utc", VStr (ss_last_ok s)); ("caused_by_subsystems", texts_py (ss_caused_by s)); ("affects_subsystems", texts_py (ss_affects s));
     ("recommended_action", VStr (ss_action s)); ("blocked_by", texts_py (ss_blocked_by s))] (ss_extra s).
Definition replacement_dict (r : ReplacementPolicy) : pyval :=
  VDict [("allowed", VBool (rp_allowed r)); ("reason", VStr (rp_reason r)); ("required_missing", texts_py (rp_missing r))].
Definition overall_dict (o : OverallStatus) : pyval :=
  VDict [("state", VStr (ov_state o)); ("stream_public_state", VStr (ov_public o)); ("expected_video_id", VStr (ov_video_id o));
         ("expected_url_state", VStr (ov_url_state o)); ("degraded_subsystems", texts_py (ov_degraded o)); ("oldest_evidence_ts_utc", VStr (ov_oldest o));
         ("consistency_window_sec", float_py (option_map rounded (ov_window o))); ("max_consistency_window_sec", VFloat (ov_max_window o));
         ("objective_sli", VDict (ov_sli o)); ("recommended_action", VStr (ov_action o)); ("action_scope", VStr (ov_scope o)); ("action_reason", VStr (ov_reason o))].
Definition snapshot_dict (s : SubsystemsSnapshot) : dict :=
  [("ts_utc", VStr (sn_ts s)); ("schema_version", VInt (sn_version s)); ("run_id", VStr (sn_run_id s)); ("overall", overall_dict (sn_overall s));
   ("rendering", VDict (status_dict (sn_rendering s))); ("music", VDict (status_dict (sn_music s))); ("local_delivery", VDict (status_dict (sn_local s)));
   ("youtube_lifecycle", VDict (status_dict (sn_youtube s))); ("monitoring", VDict (status_dict (sn_monitoring s)))].
Definition candidate_dict (c : ActionCandidate) : pyval :=
  VDict [("action", VStr (ac_action c)); ("scope", VStr (ac_scope c)); ("priority", VInt (ac_priority c)); ("destructive_level", VStr (ac_level c));
         ("would_preserve_url", VBool (ac_preserves_url c)); ("preconditions_met", VBool (ac_ready c)); ("blocked_by", texts_py (ac_blocked_by c))].

(** ** Back from a stored snapshot (pipeline.py) *)
Section FromPayload.
Context `{Repr} `{FromIso} `{FloatOfText}.
Definition _list (v : pyval) : list pyval := match v with VList l => l | _ => [] end.
Definition _dict (v : pyval) : dict := match v with VDict d => d | _ => [] end.
Definition _float_or_none (v : pyval) : res (option pyfloat) := _float v.
Definition float_or (v : pyval) (dflt : Q) : res pyfloat := let! f := _float v in Ok (default (Fin dflt) f).
Definition text_or (d : dict) (k dflt : string) : string := text (py_or (dget d k VNone) (VStr dflt)).
Definition text_at (d : dict) (k : string) : string := text (dget d k VNone).
Definition strings_at (d : dict) (k : string) : list string := map py_str (_list (dget d k VNone)).
Definition _evidence_from_payload (d : dict) : res EvidenceRecord :=
  let! age := _float_or_none (dget d "age_sec" VNone) in
  let! ttl := float_or (dget d "ttl_sec" VNone) 0 in
  Ok (mkEvidence (text_at d "source") (text_at d "event_id") (text_at d "subsystem") (text_at d "name") (text_at d "verdict") (text_at d "observed_at_utc")
        age ttl (text_or d "confidence" "unknown") (_dict (dget d "target" VNone)) (_dict (dget d "raw_ref" VNone))).
Definition dicts (l : list pyval) : list dict := omap (fun v => match v with VDict d => Some d | _ => None end) l.
Fixpoint rmap_list {A B} (f : A -> res B) (l : list A) : res (list B) :=
  match l with [] => Ok [] | x :: l' => let! y := f x in let! ys := rmap_list f l' in Ok (y :: ys) end.
Definition _SUBSYSTEM_BASE_KEYS : list string :=
  ["state"; "confidence"; "evidence"; "evidence_records"; "evidence_age_sec"; "last_ok_ts_utc"; "caused_by_subsystems"; "affects_subsystems";
   "recommended_action"; "blocked_by"].
Definition extra_key (k : string) : bool := negb (bool_decide (k ∈ _SUBSYSTEM_BASE_KEYS)).
Definition _subsystem_from_payload (name : string) (d : dict) : res SubsystemStatus :=
  let! records := rmap_list _evidence_from_payload (dicts (_list (dget d "evidence_records" VNone))) in
  let! age := _float_or_none (dget d "evidence_age_sec" VNone) in
  Ok (mkStatus name (text_or d "state" "unknown") (text_or d "confidence" "unknown") (strings_at d "evidence") records age (text_at d "last_ok_ts_utc")
        (strings_at d "caused_by_subsystems") (strings_at d "affects_subsystems") (text_or d "recommended_action" "none") (strings_at d "blocked_by")
        (List.filter (fun kv => extra_key (fst kv)) d)).
Definition snapshot_from_payload (d : dict) : res SubsystemsSnapshot :=
  let o := _dict (dget d "overall" VNone) in
  let! version := py_int (py_or (dget d "schema_version" VNone) (VInt 1)) in
  let! window := _float_or_none (dget o "consistency_window_sec" VNone) in
  let! max_window := float_or (dget o "max_consistency_window_sec" VNone) 120 in
  let part name := _subsystem_from_payload name (_dict (dget d name VNone)) in
  let! rendering := part "rendering" in
  let! music := part "music" in
  let! local := part "local_delivery" in
  let! youtube := part "youtube_lifecycle" in
  let! monitoring := part "monitoring" in
  Ok (mkSnapshot (text_at d "ts_utc") version (text_at d "run_id")
        (mkOverall (text_or o "state" "unknown") (text_or o "stream_public_state" "unknown") (text_at o "expected_video_id") (text_or o "expected_url_state" "unknown")
           (strings_at o "degraded_subsystems") (text_at o "oldest_evidence_ts_utc") window max_window (_dict (dget o "objective_sli" VNone))
           (text_or o "recommended_action" "none") (text_or o "action_scope" "none") (text_at o "action_reason"))
        rendering music local youtube monitoring).
End FromPayload.

(** ** Evidence and status of a subsystem (common.py) *)
Section Evaluator.
Context `{Repr} `{FromIso} `{FloatOfText} `{EventToken}.
(** Where a piece of evidence comes from: source, payload, file, lifetime. *)
Record evidence_source : Type := mkSource { so_name : string; so_payload : dict; so_file : string; so_ttl : Q }.
Definition TIME_KEYS : list string :=
  ["ts_utc"; "ts_jst"; "updated_at_utc"; "selected_at_utc"; "started_at_utc"; "oauth_checked_ts_utc"; "data_api_checked_ts_utc"].
Definition evidence (n : nat) (subsystem name verdict : string) (target : dict) (now : Q) (s : evidence_source) : res EvidenceRecord :=
  let! observed := parse_utc (first_of (so_payload s) TIME_KEYS) in
  let at_ := default now observed in
  Ok (mkEvidence (so_name s)
        (text (py_or (dget (so_payload s) "event_id" VNone) (VStr ("evt-" ++ so_name s ++ "-" ++ event_token subsystem n)%string)))
        subsystem name verdict (isoformat_utc at_) (option_map Fin (age_seconds (Some at_) now)) (Fin (so_ttl s)) "high" target
        (if String.eqb (so_file s) "" then [] else [("file", VStr (so_file s))])).
(** The evidence of the names, in their order; none without a payload where [skip] says so. *)
Fixpoint evidence_list (n : nat) (subsystem : string) (source : string -> evidence_source) (verdict : string -> string) (skip : bool)
    (target : dict) (now : Q) (names : list string) : res (list EvidenceRecord) :=
  match names with
  | [] => Ok []
  | name :: names' =>
      if skip && negb (given (so_payload (source name))) then evidence_list (S n) subsystem source verdict skip target now names' else
      let! e := evidence n subsystem name (verdict name) target now (source name) in
      let! es := evidence_list (S n) subsystem source verdict skip target now names' in
      Ok (e :: es)
  end.

(** [max]: the first of the greatest *)
Definition max_age (l : list pyfloat) : option pyfloat :=
  match l with [] => None | f :: l' => Some (fold_left (fun best g => if pyfloat_lt best g then g else best) l' f) end.
Definition str_lt (s t : string) : bool := match String.compare s t with Lt => true | _ => false end.
Definition latest (l : list string) : string := match l with [] => "" | s :: l' => fold_left (fun best t => if str_lt best t then t else best) l' s end.
(** What a policy decides of a subsystem. *)
Record SubsystemDecision : Type := mkDecision {
  sd_state : string; sd_confidence : string; sd_evidence : list string; sd_action : string; sd_blocked_by : list string; sd_caused_by : list string; sd_affects : list string }.
Definition status (name : string) (d : SubsystemDecision) (records : list EvidenceRecord) (extra : dict) : SubsystemStatus :=
  mkStatus name (sd_state d) (sd_confidence d) (sd_evidence d) records (max_age (omap er_age records))
    (latest (map er_observed_at (List.filter (fun e => String.eqb (er_verdict e) "healthy") records)))
    (sd_caused_by d) (sd_affects d) (sd_action d) (sd_blocked_by d) extra.
End Evaluator.
