(* ===== verification/V2Signals.v ===== *)
(** * Stream v2: the five subsystems

    Models src/stream_v2/subsystems/*/{signals,policy,evaluator,actions}.py: what each
    evaluator reads from the files of the runtime, what its policy decides, and the
    evidence it attaches.  A payload is the decoded object of a file, empty when there
    is none. *)
From S2P Require Import Prelude PyVal UtcTime FastPolicy EffectModel AgentObserve Evidence V2Model.

Definition has (words : list string) (text : string) : bool := existsb (fun w => contains w text) words.
Definition only_if (b : bool) (name : string) : list string := if b then [name] else [].
Definition listed_in (s : string) (l : list string) : bool := bool_decide (s ∈ l).
Definition none_of (l : list string) : bool := match l with [] => true | _ => false end.
(** The decision of a state without evidence. *)
Definition unknown (why : string) : SubsystemDecision := mkDecision "unknown" "unknown" [] "none" [why] [] [].

(** ** Rendering *)
Module Rendering.
Section Rendering.
Context `{Repr} `{FromIso} `{FloatOfText} `{EventToken}.
Definition FAILURE_OVERLAY_UNAVAILABLE := "overlay_unavailable".
Definition FAILURE_STREAM1090_UNAVAILABLE := "stream1090_unavailable".
Definition FAILURE_ADSB_FRESHNESS_STALL := "adsb_freshness_stall".
Definition FAILURE_VIDEO_FRAME_UNHEALTHY := "video_frame_unhealthy".
Definition FAILURE_RUNTIME_SNAPSHOT_STALE := "runtime_snapshot_stale".
Definition FAILURE_UPSTREAM_STREAM1090_UNAVAILABLE := "upstream_stream1090_unavailable".
Definition BLOCK_YOUTUBE_LIFECYCLE := "rendering_failure_never_authorizes_youtube_lifecycle_action".

Record RenderingSignals : Type := mkSignals {
  runtime_snapshot_fresh : bool; watchdog_ok : bool; overlay_unavailable : bool; stream1090_unavailable : bool; adsb_unhealthy : bool;
  video_frame_unhealthy : bool; runtime_snapshot_stale : bool; stream1090_report_fresh : bool; stream1090_report_ok : bool; upstream_report_fresh : bool;
  upstream_report_ok : bool; aircraft_json_ok : bool; aircraft_messages_moving : bool; aircraft_positions_moving : bool; adsb_freshness_ok : bool;
  adsb_freshness_stale : bool; stream1090_target : string; reason : string; timeline_ts_utc : string; snapshot_updated_at_utc : string; snapshot_age : option pyfloat }.
Definition has_healthy_signal (s : RenderingSignals) : bool :=
  runtime_snapshot_fresh s || watchdog_ok s || stream1090_report_ok s || adsb_freshness_ok s.
Definition healthy_evidence_names (s : RenderingSignals) : list string :=
  only_if (runtime_snapshot_fresh s) "runtime_snapshot_fresh" ++ only_if (watchdog_ok s) "watchdog_ok" ++ only_if (stream1090_report_ok s) "stream1090_report_ok"
  ++ only_if (upstream_report_ok s) "upstream_stream1090_report_ok" ++ only_if (adsb_freshness_ok s) "adsb_freshness_ok".
Definition failure_names (s : RenderingSignals) : list string :=
  only_if (overlay_unavailable s) FAILURE_OVERLAY_UNAVAILABLE ++ only_if (stream1090_unavailable s) FAILURE_STREAM1090_UNAVAILABLE
  ++ only_if (adsb_unhealthy s) FAILURE_ADSB_FRESHNESS_STALL ++ only_if (video_frame_unhealthy s) FAILURE_VIDEO_FRAME_UNHEALTHY
  ++ only_if (runtime_snapshot_stale s) FAILURE_RUNTIME_SNAPSHOT_STALE
  ++ only_if (upstream_report_fresh s && negb (upstream_report_ok s)) FAILURE_UPSTREAM_STREAM1090_UNAVAILABLE.

(** A report of the map. *)
Record report_signals : Type := mkReport {
  rs_fresh : bool; rs_ok : bool; rs_html : bool; rs_aircraft_json : bool; rs_messages : bool; rs_positions : bool; rs_bad : bool; rs_visual : bool; rs_unavailable : bool }.
Definition rs_moving (r : report_signals) : bool := rs_messages r || rs_positions r.
Definition _report_signals (payload : dict) (now : Q) : res report_signals :=
  let checks := sub_dict payload "checks" in
  let! age := age_of (dget payload "ts_utc" VNone) now in
  let fresh := given payload && recent age 1800 in
  let html := says_yes (dget checks "html_reachable" VNone) in
  let json := says_yes (dget checks "aircraft_json_ok" VNone) in
  let! messages := _float (dget checks "messages_delta" VNone) in
  let! positions := _float (dget checks "position_change_count" VNone) in
  let messages := above (default (Fin 0) messages) 0 in
  let positions := above (default (Fin 0) positions) 0 in
  let warnings := _list (dget checks "warnings" VNone) in
  let bad := given payload && negb (listed_in (lower_text (dget payload "judgment" VNone)) [""; "ok"; "report_only_ok"]) in
  let visual := sub_dict checks "visual" in
  let unhealthy := says_yes (dget payload "visual_unhealthy" VNone) || says_yes (dget visual "unhealthy" VNone)
                   || listed_in (lower_text (dget visual "verdict" VNone)) ["failed"; "unhealthy"] in
  Ok (mkReport fresh (fresh && html && json && (messages || positions) && negb bad && negb unhealthy) html json messages positions bad unhealthy
        (existsb (fun w => contains "stream1090" (lower_text w)) warnings)).
(** Freshness of the aircraft data: fresh, healthy, stale. *)
Definition _adsb_signals (payload : dict) (now : Q) : res (bool * bool * bool) :=
  let! age := age_of (first_of payload ["ts_utc"; "updated_at_utc"]) now in
  let fresh := given payload && recent age 180 in
  let status := lower_text (first_of payload ["status"; "judgment"]) in
  let stale := fresh && (listed_in status ["stale"; "failed"; "fail"; "unhealthy"] || says_yes (dget payload "stale" VNone)
                         || says_yes (dget payload "messages_stalled" VNone) || says_yes (dget payload "aircraft_json_stale" VNone)) in
  Ok (fresh, fresh && negb stale && listed_in status [""; "ok"; "healthy"], stale).
Definition at_most (f : option pyfloat) (limit : Q) : bool := match f with Some f => pyfloat_lt f (Fin limit) || pyfloat_eq f (Fin limit) | None => false end.
Definition collect_signals (stream_stats timeline runtime stream1090_report upstream_report adsb_freshness : dict) (now : Q) : res RenderingSignals :=
  let snapshot := sub_dict timeline "runtime_snapshot" in
  let! timeline_age := _float (dget snapshot "age_sec" VNone) in
  let runtime_ts := text (py_or (dget snapshot "updated_at_utc" VNone) (dget runtime "updated_at_utc" VNone)) in
  let! computed := age_of (VStr runtime_ts) now in
  let age := match timeline_age with Some a => Some a | None => option_map Fin computed end in
  let fresh := given snapshot && at_most age 90 in
  let why := lower (sentence [text (dget stream_stats "reason" VNone); text (dget timeline "reason" VNone)]) in
  let ok := String.eqb (lower_text (dget stream_stats "status" VNone)) "ok" && listed_in (lower_text (dget stream_stats "judgment" VNone)) ["ok"; ""] in
  let! report := _report_signals stream1090_report now in
  let! upstream := _report_signals upstream_report now in
  let! (adsb_fresh, adsb_ok, adsb_stale) := _adsb_signals adsb_freshness now in
  let! stale := (if negb (given runtime || given timeline || given stream_stats) || fresh then Ok false
                 else if contains "runtime_snapshot" why then Ok true
                 else let! a := _float (dget stream_stats "runtime_snapshot_age_sec" VNone) in Ok (above (default (Fin 0) a) 90)) in
  let overlay := contains "overlay" why && has ["unavailable"; "unhealthy"; "not listening"; "index"] why in
  let map_down := has ["stream1090"; "map proxy"] why in
  let adsb := has ["adsb"; "aircraft json"; "messages stalled"] why in
  let video := has ["video frame"; "dark frame"; "luma"] why in
  let seen := rs_fresh report in
  Ok (mkSignals fresh ok
        (overlay || (seen && (negb (rs_html report) || rs_bad report)))
        (map_down || (seen && rs_unavailable report))
        (adsb || (seen && (negb (rs_aircraft_json report) || negb (rs_moving report))) || (adsb_fresh && adsb_stale))
        (video || (seen && rs_visual report)) stale seen (rs_ok report) (rs_fresh upstream) (rs_ok upstream) (rs_aircraft_json report) (rs_messages report)
        (rs_positions report) adsb_ok adsb_stale (text (dget stream1090_report "target" VNone)) why
        (text (py_or (dget timeline "ts_utc" VNone) (dget stream_stats "ts_utc" VNone))) runtime_ts age).

Definition decide (s : RenderingSignals) (has_any_input : bool) : SubsystemDecision :=
  let failures := failure_names s in
  let failing name := listed_in name failures in
  if has_healthy_signal s && none_of failures then
    mkDecision "healthy" (if watchdog_ok s then "high" else "medium") (healthy_evidence_names s) "none" [] [] []
  else if failing FAILURE_VIDEO_FRAME_UNHEALTHY then mkDecision "failed" "medium" failures "restart_browser" [BLOCK_YOUTUBE_LIFECYCLE] [] []
  else if existsb failing [FAILURE_OVERLAY_UNAVAILABLE; FAILURE_STREAM1090_UNAVAILABLE; FAILURE_UPSTREAM_STREAM1090_UNAVAILABLE; FAILURE_ADSB_FRESHNESS_STALL] then
    mkDecision "failed" "medium" failures "reload_overlay" [BLOCK_YOUTUBE_LIFECYCLE] [] []
  else if failing FAILURE_RUNTIME_SNAPSHOT_STALE then mkDecision "degraded" "medium" failures "restart_browser" [BLOCK_YOUTUBE_LIFECYCLE] ["local_delivery"] []
  else if has_healthy_signal s then mkDecision "healthy" "medium" (healthy_evidence_names s) "none" [] [] []
  else unknown (if has_any_input then "rendering_evidence_missing" else "no_rendering_evidence").

Definition _evidence_source (stream1090_report upstream_report adsb_freshness stream_stats timeline : dict) (s : RenderingSignals) (name : string) : evidence_source :=
  if listed_in name ["stream1090_report_ok"; "overlay_unavailable"; "stream1090_unavailable"; "adsb_freshness_stall"; "video_frame_unhealthy"] && given stream1090_report then
    mkSource "stream1090_report" stream1090_report "logs/stream1090_report.jsonl" 1800
  else if listed_in name ["upstream_stream1090_report_ok"; "upstream_stream1090_unavailable"] && given upstream_report then
    mkSource "upstream_stream1090_report" upstream_report "logs/upstream_stream1090_report.jsonl" 1800
  else if String.eqb name "adsb_freshness_ok" && given adsb_freshness then mkSource "stream_watchdog" adsb_freshness "watchdog/adsb_freshness_state.json" 180
  else mkSource "stream_watchdog"
         [("ts_utc", py_or (VStr (timeline_ts_utc s)) (py_or (VStr (snapshot_updated_at_utc s)) (dget stream_stats "ts_utc" VNone))); ("event_id", dget timeline "event_id" VNone)]
         "watchdog_state_timeline.jsonl" 120.
Definition extra (s : RenderingSignals) : dict :=
  [("runtime_snapshot_age_sec", float_py (snapshot_age s)); ("stream1090_report_fresh", VBool (stream1090_report_fresh s)); ("stream1090_report_ok", VBool (stream1090_report_ok s));
   ("upstream_stream1090_report_fresh", VBool (upstream_report_fresh s)); ("upstream_stream1090_report_ok", VBool (upstream_report_ok s));
   ("aircraft_json_ok", VBool (aircraft_json_ok s)); ("aircraft_messages_moving", VBool (aircraft_messages_moving s));
   ("aircraft_positions_moving", VBool (aircraft_positions_moving s)); ("adsb_freshness_ok", VBool (adsb_freshness_ok s)); ("adsb_freshness_stale", VBool (adsb_freshness_stale s));
   ("stream1090_target", VStr (stream1090_target s)); ("reason", VStr (reason s)); ("recovery_order", texts_py ["reload_overlay"; "restart_browser"])].
Definition evaluate (stream_stats timeline runtime stream1090_report upstream_report adsb_freshness target : dict) (now : Q) : res SubsystemStatus :=
  let! s := collect_signals stream_stats timeline runtime stream1090_report upstream_report adsb_freshness now in
  let d := decide s (existsb given [stream_stats; timeline; runtime; stream1090_report; upstream_report; adsb_freshness]) in
  let verdict name := if listed_in name (healthy_evidence_names s) then "healthy" else "failed" in
  let! records := evidence_list 0 "rendering" (_evidence_source stream1090_report upstream_report adsb_freshness stream_stats timeline s) verdict false target now (sd_evidence d) in
  Ok (status "rendering" d records (extra s)).
End Rendering.
End Rendering.

(** ** Music *)
Module Music.
Section Music.
Context `{Repr} `{FromIso} `{FloatOfText} `{EventToken}.
Definition FAILURE_AUDIO_ENERGY_LOW := "audio_energy_low".
Definition FAILURE_AUDIO_ENERGY_LOW_TRANSITION_GRACE := "audio_energy_low_transition_grace".
Definition FAILURE_PULSE_SOURCE_MISSING := "pulse_source_missing".
Definition FAILURE_NOW_PLAYING_STALE := "now_playing_stale".
Definition FAILURE_PULSE_ROUTE_ANOMALY := "pulse_route_anomaly".
Definition BLOCK_YOUTUBE_LIFECYCLE := "audio_failure_never_authorizes_youtube_lifecycle_action".

Record MusicSignals : Type := mkSignals {
  now_playing_fresh : bool; now_playing_status : string; now_playing_title : string; now_playing_age : option Q; audio_energy_low : bool;
  pulse_source_missing : bool; pulse_route_ok : bool; pulse_route_anomaly : bool; play_history_recent : bool; track_transition_within_grace : bool;
  bucket_boundary_within_grace : bool; audio_fail_count : Z; pulse_source_missing_count : Z; reason : string; observed_ts_utc : string }.
Definition healthy_evidence_names (s : MusicSignals) : list string :=
  only_if (now_playing_fresh s) "now_playing_fresh" ++ only_if (pulse_route_ok s) "pulse_route_ok" ++ only_if (play_history_recent s) "play_history_recent".
Definition older_than (age : option Q) (limit : Q) : bool := match age with Some a => Qltb limit a | None => false end.
Definition failure_names (s : MusicSignals) : list string :=
  only_if (audio_energy_low s)
    (if track_transition_within_grace s || bucket_boundary_within_grace s then FAILURE_AUDIO_ENERGY_LOW_TRANSITION_GRACE else FAILURE_AUDIO_ENERGY_LOW)
  ++ only_if (pulse_source_missing s) FAILURE_PULSE_SOURCE_MISSING ++ only_if (pulse_route_anomaly s) FAILURE_PULSE_ROUTE_ANOMALY
  ++ only_if (negb (now_playing_fresh s) && older_than (now_playing_age s) 180) FAILURE_NOW_PLAYING_STALE.

(** The route of the sound: healthy, anomalous. *)
Definition _pulse_route (payload : dict) : res (bool * bool) :=
  if negb (given payload) then Ok (false, false) else
  let count k := _int (dget payload k VNone) 0 in
  let! dj_missing := count "dj_missing_count" in
  let! capture_missing := count "capture_missing_count" in
  let! dj_latency := count "dj_latency_high_count" in
  let! capture_latency := count "capture_latency_high_count" in
  let status := lower_text (dget payload "status" VNone) in
  let explicit_ok := says_yes (dget payload "ok" VNone) || listed_in status ["ok"; "healthy"] in
  let anomaly := existsb (Z.ltb 0) [dj_missing; capture_missing; dj_latency; capture_latency] || listed_in status ["failed"; "fail"; "unhealthy"] in
  Ok (explicit_ok || negb anomaly, anomaly).
(** A change of the track or of the bucket that is still within its grace. *)
Definition _transition_detail (timeline restart_reason overlay_now_playing : dict) : bool * bool :=
  let detail := sub_dict timeline "now_playing_transition_detail" in
  let detail := if given detail then detail else restart_reason in
  (says_yes (dget detail "track_transition_within_grace" VNone) && negb (contains "heartbeat update" (lower_text (dget overlay_now_playing "note" VNone))),
   says_yes (dget detail "bucket_boundary_within_grace" VNone)).
Definition _play_history_recent (payload : dict) (now : Q) : res bool :=
  if negb (given payload) then Ok false else
  let! age := age_of (first_of payload ["ts_utc"; "ts_jst"; "selected_at_utc"; "started_at_utc"]) now in
  Ok (recent age 900 && listed_in (lower_text (first_of payload ["event"; "kind"])) [""; "track_selected"; "track_started"; "selected"; "play"]).
(** What is playing: of the timeline, else of the overlay. *)
Definition now_playing_of (timeline overlay : dict) : dict :=
  let playing := sub_dict timeline "now_playing_state" in
  if given playing || negb (given overlay) then playing else
  let nested := sub_dict overlay "now_playing" in
  let both k := py_or (dget nested k VNone) (dget overlay k VNone) in
  [("updated_at_utc", dget overlay "updated_at_utc" VNone); ("status", dget overlay "status" VNone); ("title", both "title"); ("bucket", both "bucket"); ("prefix", both "prefix")].
Definition LOW_WORDS : list string := ["audio energy"; "audio_energy_low"; "silent"].
Definition collect_signals (timeline restart_reason overlay_now_playing pulse_health play_history : dict) (audio_fails pulse_missing : Z) (now : Q) : res MusicSignals :=
  let playing := now_playing_of timeline overlay_now_playing in
  let! age := age_of (dget playing "updated_at_utc" VNone) now in
  let status := lower_text (dget playing "status" VNone) in
  let fresh := given playing && recent age 90 && listed_in status ["playing"; "transition"; "starting"] in
  let why := lower (sentence [text (dget restart_reason "reason" VNone); text (dget timeline "reason" VNone)]) in
  let component := lower_text (dget restart_reason "component" VNone) in
  let! fails := _int (dget restart_reason "consecutive_fail_count" VNone) audio_fails in
  let low := has LOW_WORDS why in
  let fails := if (fails <=? 0) && low then 1 else fails in
  let missing := has ["pulse source"; "pulse_source_missing"; "stream_capture_source_output_missing"] why || (0 <? pulse_missing) in
  let! (route_ok, anomaly) := _pulse_route pulse_health in
  let '(track, bucket) := _transition_detail timeline restart_reason overlay_now_playing in
  let! history := _play_history_recent play_history now in
  Ok (mkSignals fresh status (text (dget playing "title" VNone)) age (listed_in component ["dj"; "audio"; "stream"; ""] && (low || (0 <? fails)))
        missing route_ok anomaly history track bucket fails pulse_missing why
        (text (py_or (dget playing "updated_at_utc" VNone) (py_or (dget restart_reason "ts_utc" VNone) (py_or (dget timeline "ts_utc" VNone) (dget play_history "ts_utc" VNone)))))).

Definition decide (s : MusicSignals) (has_any_input : bool) : SubsystemDecision :=
  let failures := failure_names s in
  let failing name := listed_in name failures in
  let degraded action affects := mkDecision "degraded" "medium" failures action [BLOCK_YOUTUBE_LIFECYCLE] [] affects in
  if now_playing_fresh s && none_of failures then mkDecision "healthy" "high" (healthy_evidence_names s) "none" [] [] []
  else if failing FAILURE_AUDIO_ENERGY_LOW_TRANSITION_GRACE then mkDecision "recovering" "medium" failures "defer" [BLOCK_YOUTUBE_LIFECYCLE] [] []
  else if failing FAILURE_PULSE_SOURCE_MISSING then mkDecision "failed" "medium" failures "repair_pulse" [BLOCK_YOUTUBE_LIFECYCLE] [] ["local_delivery"]
  else if failing FAILURE_PULSE_ROUTE_ANOMALY then degraded "repair_pulse" ["local_delivery"]
  else if failing FAILURE_AUDIO_ENERGY_LOW then degraded (if audio_fail_count s <? 2 then "none" else "restart_dj") ["local_delivery"]
  else if failing FAILURE_NOW_PLAYING_STALE then degraded "restart_dj" []
  else if now_playing_fresh s then mkDecision "healthy" "medium" (healthy_evidence_names s) "none" [] [] []
  else unknown (if has_any_input then "music_evidence_missing" else "no_music_evidence").

Definition _evidence_source (timeline restart_reason overlay_now_playing pulse_health play_history : dict) (s : MusicSignals) (name : string) : evidence_source :=
  if listed_in name ["now_playing_fresh"; "now_playing_stale"] then
    if given overlay_now_playing then mkSource "now_playing_overlay" overlay_now_playing "ui/overlay/now_playing.json" 120
    else mkSource "stream_watchdog" [("ts_utc", VStr (observed_ts_utc s)); ("event_id", dget timeline "event_id" VNone)] "watchdog_state_timeline.jsonl" 120
  else if listed_in name ["pulse_route_ok"; "pulse_route_anomaly"; "pulse_source_missing"] && given pulse_health then
    mkSource "stream_watchdog" pulse_health "watchdog/pulse_health_state.json" 180
  else if String.eqb name "play_history_recent" && given play_history then mkSource "auto_dj" play_history "logs/play_history.jsonl" 900
  else mkSource "stream_watchdog"
         [("ts_utc", VStr (observed_ts_utc s)); ("event_id", py_or (dget restart_reason "event_id" VNone) (dget timeline "event_id" VNone))] "restart_reason.json" 120.
Definition extra (s : MusicSignals) : dict :=
  [("now_playing_title", VStr (now_playing_title s)); ("now_playing_status", VStr (now_playing_status s)); ("now_playing_age_sec", age_py (now_playing_age s));
   ("pulse_route_ok", VBool (pulse_route_ok s)); ("play_history_recent", VBool (play_history_recent s));
   ("track_transition_within_grace", VBool (track_transition_within_grace s)); ("bucket_boundary_within_grace", VBool (bucket_boundary_within_grace s));
   ("audio_fail_count", VInt (audio_fail_count s)); ("pulse_source_missing_count", VInt (pulse_source_missing_count s)); ("reason", VStr (reason s));
   ("recovery_order", texts_py ["defer"; "restart_dj"; "repair_pulse"])].
Definition evaluate (timeline restart_reason overlay_now_playing pulse_health play_history : dict) (audio_fails pulse_missing : Z) (target : dict) (now : Q) : res SubsystemStatus :=
  let! s := collect_signals timeline restart_reason overlay_now_playing pulse_health play_history audio_fails pulse_missing now in
  let any := existsb given [timeline; restart_reason; overlay_now_playing; pulse_health; play_history] || negb (audio_fails =? 0) || negb (pulse_missing =? 0) in
  let d := decide s any in
  let verdict name := if listed_in name (healthy_evidence_names s) then "healthy" else "degraded" in
  let! records := evidence_list 0 "music" (_evidence_source timeline restart_reason overlay_now_playing pulse_health play_history s) verdict false target now (sd_evidence d) in
  Ok (status "music" d records (extra s)).
End Music.
End Music.

(** ** Local delivery *)
Module LocalDelivery.
Section LocalDelivery.
Context `{Repr} `{FromIso} `{FloatOfText} `{EventToken}.
Definition FAILURE_FFMPEG_MISSING := "ffmpeg_missing".
Definition FAILURE_INGEST_DISCONNECTED := "ingest_disconnected".
Definition FAILURE_RUNTIME_HEARTBEAT_STALE := "runtime_heartbeat_stale".
Definition FAILURE_TCP_STALL := "tcp_stall".
Definition FAILURE_STREAM_FFMPEG_DUPLICATE := "stream_ffmpeg_duplicate".
Definition FAST_RECOVERY_STREAM_RESTART_FAILURE_BY_TRIGGER : list (string * string) :=
  [("tcp_stall", "fast_recovery_stream_restart_tcp_stall"); ("network_down", "fast_recovery_stream_restart_network_down");
   ("low_upload_pressure", "fast_recovery_stream_restart_low_upload_pressure"); ("remote_warning", "fast_recovery_stream_restart_remote_warning")].
Definition FAST_RECOVERY_STREAM_RESTART_FAILURES : list string := map snd FAST_RECOVERY_STREAM_RESTART_FAILURE_BY_TRIGGER.
Definition BLOCK_REPLACEMENT := "local_delivery_failure_never_authorizes_replacement_broadcast".

(** The upload of a fast recovery event. *)
Record tcp_metrics : Type := mkTcp { bytes_sent_delta : option pyfloat; mbps : option pyfloat; notsent : Z; unacked : Z; lastsnd_ms : Z; conn_established : bool }.
Record LocalDeliverySignals : Type := mkSignals {
  ffmpeg_alive : bool; ingest_connected : bool; runtime_fresh : bool; stream_watchdog_ok : bool; tcp_send_healthy : bool; tcp_stall_recent : bool;
  stream_engine_recent : bool; runtime_age : option Q; ffmpeg_count : Z; tcp : tcp_metrics; fast_recovery_kind : string; fast_recovery_trigger : string;
  fast_recovery_age : option Q; restart_trigger : string; restart_age : option Q; stream_restart_recent : bool; stream_engine_event : string;
  observed_ts_utc : string; reason : string }.
Definition has_healthy_signal (s : LocalDeliverySignals) : bool :=
  ffmpeg_alive s && (ingest_connected s || runtime_fresh s || stream_watchdog_ok s || tcp_send_healthy s).
Definition healthy_evidence_names (s : LocalDeliverySignals) : list string :=
  only_if (ffmpeg_alive s) "ffmpeg_alive" ++ only_if (ingest_connected s) "ingest_connected" ++ only_if (runtime_fresh s) "runtime_heartbeat_fresh"
  ++ only_if (stream_watchdog_ok s) "stream_watchdog_ok" ++ only_if (tcp_send_healthy s) "tcp_send_healthy" ++ only_if (stream_engine_recent s) "stream_engine_recent".
Definition failure_names (s : LocalDeliverySignals) : list string :=
  (if stream_restart_recent s then match dict_get (restart_trigger s) FAST_RECOVERY_STREAM_RESTART_FAILURE_BY_TRIGGER with Some f => [f] | None => [] end else [])
  ++ only_if (1 <? ffmpeg_count s) FAILURE_STREAM_FFMPEG_DUPLICATE
  ++ only_if (negb (ffmpeg_alive s) && (ffmpeg_count s <=? 0)) FAILURE_FFMPEG_MISSING
  ++ only_if (ffmpeg_alive s && negb (ingest_connected s)) FAILURE_INGEST_DISCONNECTED
  ++ only_if (match runtime_age s with Some a => Qltb 120 a | None => false end) FAILURE_RUNTIME_HEARTBEAT_STALE
  ++ only_if (tcp_stall_recent s) FAILURE_TCP_STALL.

(** The first value that is there and not null: of the event, then of its metrics. *)
Definition _first_present (payload metrics : dict) (names : list string) : pyval :=
  let present d k := match dict_get k d with Some VNone | None => None | Some v => Some v end in
  default VNone (head (omap (present payload) names ++ omap (present metrics) names)).
Definition _tcp_metrics (payload : dict) : res tcp_metrics :=
  let metrics := sub_dict payload "metrics" in
  let conn := upper (text (first_of payload ["conn"; "connection_state"; "state"])) in
  let first names := _first_present payload metrics names in
  let! delta := _float (first ["bytes_sent_delta"; "bytes_delta"]) in
  let! rate := _float (first ["mbps"; "send_mbps"]) in
  let! notsent := _int (first ["notsent"]) 0 in
  let! unacked := _int (first ["unacked"]) 0 in
  let! lastsnd := _int (first ["lastsnd_ms"]) 0 in
  Ok (mkTcp delta rate notsent unacked lastsnd (contains "ESTAB" conn || contains "ESTABLISHED" conn || says_yes (dget payload "ingest_connected" VNone))).
Definition trigger_of (event : dict) : string :=
  lower (text (py_or (dget event "trigger" VNone) (dget (sub_dict event "restart_context") "trigger" VNone))).
Definition collect_signals (ytw stream_stats runtime fast_recovery fast_recovery_restart stream_engine_event restart_reason recovery_stage : dict) (now : Q) : res LocalDeliverySignals :=
  let! age := age_of (dget runtime "updated_at_utc" VNone) now in
  let fresh := recent age 90 && String.eqb (lower_text (dget runtime "status" VNone)) "running" in
  let! count := _int (dget stream_stats "ffmpeg_count" VNone) 0 in
  let alive := says_yes (dget ytw "ffmpeg_pid" VNone) || says_yes (dget runtime "ffmpeg_pid" VNone) || (0 <? count) in
  let watchdog := String.eqb (lower_text (dget stream_stats "status" VNone)) "ok" && listed_in (lower_text (dget stream_stats "judgment" VNone)) ["ok"; ""] in
  let! fast_age := age_of (dget fast_recovery "ts_utc" VNone) now in
  let restart := if given fast_recovery_restart then fast_recovery_restart else fast_recovery in
  let! restart_age := age_of (dget restart "ts_utc" VNone) now in
  let kind := lower_text (dget fast_recovery "kind" VNone) in
  let! tcp := _tcp_metrics fast_recovery in
  let! notsent := _int (dget fast_recovery "notsent" VNone) 0 in
  let! unacked := _int (dget fast_recovery "unacked" VNone) 0 in
  let still := match bytes_sent_delta tcp with Some d => pyfloat_eq d (Fin 0) | None => false end in
  let stall := (String.eqb (lower_text (dget fast_recovery "trigger" VNone)) "tcp_stall" || String.eqb kind "tcp_stall" || (still && ((0 <? notsent) || (0 <? unacked)))) && recent fast_age 180 in
  let sending := String.eqb kind "tcp_send_sample" && recent fast_age 180 && above (default (Fin 0) (bytes_sent_delta tcp)) 0 && conn_established tcp in
  let restarted := String.eqb (lower_text (dget restart "kind" VNone)) "restart" && has_key (trigger_of restart) FAST_RECOVERY_STREAM_RESTART_FAILURE_BY_TRIGGER && recent restart_age 180 in
  let! engine_age := age_of (dget stream_engine_event "ts_utc" VNone) now in
  Ok (mkSignals alive (says_yes (dget ytw "ingest_connected" VNone)) fresh watchdog sending stall (given stream_engine_event && recent engine_age 180) age count tcp kind
        (trigger_of fast_recovery) fast_age (trigger_of restart) restart_age restarted (text (first_of stream_engine_event ["event"; "event_type"; "kind"]))
        (text (py_or (dget runtime "updated_at_utc" VNone) (py_or (dget ytw "ts_utc" VNone) (py_or (dget stream_stats "ts_utc" VNone)
                 (py_or (dget fast_recovery "ts_utc" VNone) (dget stream_engine_event "ts_utc" VNone))))))
        (sentence [text (dget stream_stats "reason" VNone); text (dget fast_recovery "message" VNone); text (dget restart_reason "reason" VNone); text (dget recovery_stage "reason" VNone)])).

Definition decide (s : LocalDeliverySignals) (has_any_input : bool) : SubsystemDecision :=
  let failures := failure_names s in
  let failing name := listed_in name failures in
  let failed state confidence action := mkDecision state confidence failures action [BLOCK_REPLACEMENT] [] ["youtube_lifecycle"] in
  if has_healthy_signal s && none_of failures then
    mkDecision "healthy" (if ingest_connected s && runtime_fresh s then "high" else "medium") (healthy_evidence_names s) "none" [] [] []
  else if existsb (fun f => listed_in f FAST_RECOVERY_STREAM_RESTART_FAILURES) failures then failed "failed" "high" "restart_stream"
  else if failing FAILURE_TCP_STALL then failed "recovering" "medium" "restart_ffmpeg"
  else if failing FAILURE_STREAM_FFMPEG_DUPLICATE then failed "failed" "high" "restart_stream"
  else if failing FAILURE_FFMPEG_MISSING then failed "failed" "high" "restart_ffmpeg"
  else if failing FAILURE_INGEST_DISCONNECTED || failing FAILURE_RUNTIME_HEARTBEAT_STALE then failed "failed" "medium" "restart_ffmpeg"
  else if has_healthy_signal s then mkDecision "healthy" "medium" (healthy_evidence_names s) "none" [] [] []
  else unknown (if has_any_input then "local_delivery_evidence_missing" else "no_local_delivery_evidence").

Definition _evidence_source (ytw stream_stats runtime fast_recovery fast_recovery_restart stream_engine_event : dict) (s : LocalDeliverySignals) (name : string) : evidence_source :=
  if String.eqb name "ingest_connected" then mkSource "youtube_watchdog" ytw "youtube_watchdog_stats.json" 90
  else if listed_in name FAST_RECOVERY_STREAM_RESTART_FAILURES && given fast_recovery_restart then
    mkSource "fast_recovery" fast_recovery_restart "logs/fast_recovery_events.jsonl" 90
  else if listed_in name ["tcp_send_healthy"; "tcp_stall"] && given fast_recovery then mkSource "fast_recovery" fast_recovery "logs/fast_recovery_events.jsonl" 90
  else if String.eqb name "stream_engine_recent" && given stream_engine_event then mkSource "stream_engine" stream_engine_event "logs/stream_engine_events.jsonl" 90
  else if listed_in name ["stream_watchdog_ok"; "stream_ffmpeg_duplicate"] && given stream_stats then mkSource "stream_watchdog" stream_stats "stream_watchdog_stats.json" 90
  else mkSource "stream_engine"
         [("ts_utc", VStr (observed_ts_utc s));
          ("event_id", py_or (dget runtime "last_event_id" VNone) (py_or (dget fast_recovery "event_id" VNone) (dget stream_engine_event "event_id" VNone)))]
         (py_str (py_or (dget runtime "_source_file" VNone) (VStr "stream_runtime_state_*.json"))) 90.
Definition extra (s : LocalDeliverySignals) : dict :=
  let t := tcp s in
  [("ffmpeg_count", VInt (ffmpeg_count s)); ("runtime_age_sec", age_py (runtime_age s)); ("ingest_connected", VBool (ingest_connected s));
   ("tcp_send_healthy", VBool (tcp_send_healthy s)); ("tcp_bytes_sent_delta", float_py (bytes_sent_delta t)); ("tcp_mbps", float_py (mbps t));
   ("tcp_notsent", VInt (notsent t)); ("tcp_unacked", VInt (unacked t)); ("tcp_lastsnd_ms", VInt (lastsnd_ms t)); ("tcp_conn_established", VBool (conn_established t));
   ("fast_recovery_kind", VStr (fast_recovery_kind s)); ("fast_recovery_trigger", VStr (fast_recovery_trigger s)); ("fast_recovery_age_sec", age_py (fast_recovery_age s));
   ("fast_recovery_restart_trigger", VStr (restart_trigger s)); ("fast_recovery_restart_age_sec", age_py (restart_age s));
   ("fast_recovery_stream_restart_recent", VBool (stream_restart_recent s)); ("stream_engine_recent", VBool (stream_engine_recent s));
   ("stream_engine_event", VStr (stream_engine_event s)); ("reason", VStr (reason s)); ("recovery_order", texts_py ["restart_ffmpeg"; "restart_stream"])].
Definition evaluate (ytw stream_stats timeline runtime fast_recovery fast_recovery_restart stream_engine_event restart_reason recovery_stage target : dict) (now : Q) : res SubsystemStatus :=
  let! s := collect_signals ytw stream_stats runtime fast_recovery fast_recovery_restart stream_engine_event restart_reason recovery_stage now in
  let d := decide s (existsb given [ytw; stream_stats; timeline; runtime; fast_recovery; stream_engine_event; restart_reason; recovery_stage]) in
  let verdict name := if listed_in name (healthy_evidence_names s) then "healthy" else "failed" in
  let! records := evidence_list 0 "local_delivery" (_evidence_source ytw stream_stats runtime fast_recovery fast_recovery_restart stream_engine_event s) verdict false target now (sd_evidence d) in
  Ok (status "local_delivery" d records (extra s)).
End LocalDelivery.
End LocalDelivery.

(** ** YouTube lifecycle *)
Module YouTubeLifecycle.
Section YouTubeLifecycle.
Context `{Repr} `{FromIso} `{FloatOfText} `{EventToken}.
Definition FAILURE_INCONSISTENT_REMOTE := "inconsistent_remote".
Definition FAILURE_REMOTE_ENDED_CONFIRMED := "remote_ended_confirmed".
Definition FAILURE_PUBLIC_NOT_LIVE := "public_not_live".
Definition FAILURE_CANDIDATE_NEW_URL_FOUND := "candidate_new_url_found_not_promoted".

Record YouTubeLifecycleSignals : Type := mkSignals {
  public_ok : bool; api_live : bool; oauth_live : bool; api_ended : bool; oauth_complete : bool; auto_stop_disabled : bool; current_url_recoverable : bool;
  candidate_found : bool; expected_identity_match : bool; expected_video_id : string; candidate_video_id : string; quota_guard_active : bool;
  oauth_channel_mismatch : bool; oauth_shadow_invalid_grant : bool; url_preservation_active : bool; public_probe_age : option Q; data_api_age : option Q;
  oauth_age : option Q; resolver_age : option Q; failure_kind : string; has_watchdog_input : bool; expected_url_state : string }.
Definition remote_stale_ended (s : YouTubeLifecycleSignals) : bool := api_ended s || oauth_complete s.
Definition authoritative_live (s : YouTubeLifecycleSignals) : bool := api_live s || oauth_live s.
Definition collect_signals (ytw resolver cost target : dict) (now : Q) : res YouTubeLifecycleSignals :=
  let either k k' := py_or (dget ytw k VNone) (dget resolver k' VNone) in
  let yes d k := says_yes (dget d k VNone) in
  let ok := says_yes (first_of ytw ["public_ok"; "availability_ok"]) in
  let api_state := lower_text (either "api_live_state" "api_live_state") in
  let oauth_state := lower_text (either "oauth_life_cycle_status" "oauth_lifecycle") in
  let id k := text (dget target k (VStr "")) in
  let (expected, candidate) := (id "expected_video_id", id "candidate_video_id") in
  let selected := id "selected_video_id" in
  let no_stop := is_false (dget ytw "oauth_enable_auto_stop" VNone) in
  let recoverable := ok || no_stop || yes ytw "force_current_broadcast_live_allowed" in
  let! probe := age_of (first_of ytw ["remote_probe_ts_utc"; "ts_utc"]) now in
  let! api := age_of (either "data_api_checked_ts_utc" "data_api_checked_ts_utc") now in
  let! oauth := age_of (either "oauth_checked_ts_utc" "oauth_checked_ts_utc") now in
  let! resolved := age_of (first_of resolver ["ts_utc"; "updated_at_utc"]) now in
  Ok (mkSignals ok (String.eqb api_state "live") (String.eqb oauth_state "live") (String.eqb api_state "ended") (listed_in oauth_state ["complete"; "completed"])
        no_stop recoverable
        (yes ytw "candidate_new_url_found" || yes resolver "candidate_new_url_found" || (negb (String.eqb candidate "") && negb (String.eqb candidate expected)))
        (negb (String.eqb expected "") && negb (String.eqb selected "") && String.eqb expected selected) expected candidate
        (yes ytw "api_cost_burn_rate_active" || yes cost "quota_guard_active" || yes resolver "quota_guard_active") (yes ytw "oauth_channel_mismatch")
        (String.eqb (lower_text (either "oauth_mode" "oauth_mode")) "shadow" && contains "invalid_grant" (lower_text (either "oauth_error" "oauth_error")))
        (yes ytw "url_preservation_active" || yes resolver "url_preservation_active") probe api oauth resolved (text (dget ytw "failure_kind" VNone)) (given ytw)
        (if ok then "live" else if recoverable then "recoverable" else if given ytw then "not_live" else "unknown")).

Definition healthy_evidence (s : YouTubeLifecycleSignals) : list string :=
  only_if (expected_identity_match s) "expected_video_id_match" ++ only_if (public_ok s) "public_probe_live" ++ only_if (api_live s) "data_api_live"
  ++ only_if (oauth_live s) "oauth_broadcast_live" ++ only_if (auto_stop_disabled s) "auto_stop_disabled" ++ only_if (negb (quota_guard_active s)) "quota_guard_inactive".
Definition decide_replacement_policy (s : YouTubeLifecycleSignals) : ReplacementPolicy :=
  if listed_in (expected_url_state s) ["live"; "recoverable"] then
    mkReplacement false "expected_url_live_or_recoverable" ["current_url_unrecoverable"; "same_broadcast_recovery_failed"]
  else if current_url_recoverable s then mkReplacement false "current_url_recoverable" ["current_url_unrecoverable"]
  else if quota_guard_active s then mkReplacement false "quota_guard_active" ["quota_guard_clear"]
  else if oauth_channel_mismatch s then mkReplacement false "oauth_channel_mismatch" ["oauth_channel_match"]
  else mkReplacement false "replacement_requires_explicit_unrecoverable_confirmation" ["same_broadcast_recovery_failed"; "manual_or_policy_confirmation"].
Definition decide (s : YouTubeLifecycleSignals) : SubsystemDecision :=
  let evidence := healthy_evidence s in
  let decision state confidence evidence action := mkDecision state confidence evidence action [] [] [] in
  let recover := if current_url_recoverable s then "force_current_broadcast_live" else "retry_probe" in
  if candidate_found s then
    decision (if public_ok s then "degraded" else "unknown") "medium" (evidence ++ [FAILURE_CANDIDATE_NEW_URL_FOUND]) "resync_resolver"
  else if public_ok s && remote_stale_ended s then decision "degraded" "medium" (evidence ++ [FAILURE_INCONSISTENT_REMOTE]) "resync_resolver"
  else if public_ok s && authoritative_live s then decision "healthy" (if api_live s && oauth_live s then "high" else "medium") evidence "none"
  else if has_watchdog_input s then
    if listed_in (failure_kind s) ["remote_ended"; "remote_ended_confirmed"] then decision "failed" "medium" [FAILURE_REMOTE_ENDED_CONFIRMED] recover
    else decision "degraded" "medium" (if none_of evidence then [FAILURE_PUBLIC_NOT_LIVE] else evidence) recover
  else unknown "no_youtube_lifecycle_evidence".

Definition HEALTHY_NAMES : list string :=
  ["expected_video_id_match"; "public_probe_live"; "data_api_live"; "oauth_broadcast_live"; "auto_stop_disabled"; "quota_guard_inactive"].
Definition _evidence_source (ytw resolver cost : dict) (name : string) : evidence_source :=
  let stats := "youtube_watchdog_stats.json" in
  let since k := dict_update ytw [("ts_utc", py_or (dget ytw k VNone) (dget ytw "ts_utc" VNone))] in
  let or_stats source d file (ttl : Q) := mkSource source (if given d then d else ytw) (if given d then file else stats) ttl in
  if listed_in name ["expected_video_id_match"; "candidate_new_url_found_not_promoted"] then
    or_stats "youtube_video_id_resolver" resolver "youtube_video_id_resolver_state.json" 300%Q
  else if String.eqb name "data_api_live" then mkSource "youtube_watchdog" (since "data_api_checked_ts_utc") stats 180
  else if String.eqb name "oauth_broadcast_live" then mkSource "youtube_watchdog" (since "oauth_checked_ts_utc") stats 180
  else if String.eqb name "quota_guard_inactive" then or_stats "youtube_api_cost_report" cost "reports/youtube_api_cost/open_day_latest.json" 1800%Q
  else mkSource "youtube_watchdog" ytw stats 180.
Definition extra (ytw target : dict) (s : YouTubeLifecycleSignals) : dict :=
  let r := decide_replacement_policy s in
  [("expected_video_id", VStr (expected_video_id s)); ("selected_video_id", dget target "selected_video_id" (VStr ""));
   ("candidate_video_id", VStr (candidate_video_id s)); ("candidate_new_url_found", VBool (candidate_found s));
   ("expected_identity_match", VBool (expected_identity_match s)); ("expected_url_state", VStr (expected_url_state s));
   ("same_url_preserved", VBool (listed_in (expected_url_state s) ["live"; "recoverable"])); ("current_url_recoverable", VBool (current_url_recoverable s));
   ("replacement_allowed", VBool (rp_allowed r)); ("replacement_policy", replacement_dict r);
   ("blocked_actions", VList (if rp_allowed r then [] else [VDict [("action", VStr "create_replacement_broadcast"); ("blocked_by", VStr (rp_reason r))]]));
   ("broadcast_id", VStr (text (py_or (dget ytw "oauth_broadcast_id" VNone) (VStr (expected_video_id s)))));
   ("bound_stream_id", VStr (text (dget ytw "oauth_bound_stream_id" VNone))); ("oauth_channel_id", VStr (text (dget ytw "oauth_channel_id" VNone)));
   ("expected_channel_id", VStr (text (dget ytw "expected_channel_id" VNone))); ("oauth_enable_auto_stop", dget ytw "oauth_enable_auto_stop" VNone);
   ("oauth_channel_mismatch", VBool (oauth_channel_mismatch s)); ("oauth_shadow_invalid_grant", VBool (oauth_shadow_invalid_grant s));
   ("quota_guard_active", VBool (quota_guard_active s)); ("url_preservation_active", VBool (url_preservation_active s));
   ("public_probe_age_sec", age_py (public_probe_age s)); ("data_api_age_sec", age_py (data_api_age s)); ("oauth_age_sec", age_py (oauth_age s));
   ("resolver_age_sec", age_py (resolver_age s));
   ("public_probe_verdict", VStr (if public_ok s then "live" else if given ytw then "not_live" else "unknown"));
   ("local_ingest_state", VStr (if truthy (dget ytw "ingest_connected" VNone) then "connected" else "unknown"));
   ("recovery_order", texts_py ["retry_probe"; "resync_resolver"; "force_current_broadcast_live"; "create_replacement_broadcast"])].
Definition evaluate (ytw resolver cost target : dict) (now : Q) : res SubsystemStatus :=
  let! s := collect_signals ytw resolver cost target now in
  let d := decide s in
  let verdict name := if String.eqb name FAILURE_REMOTE_ENDED_CONFIRMED then "failed" else if listed_in name HEALTHY_NAMES then "healthy" else "degraded" in
  let! records := evidence_list 0 "youtube_lifecycle" (_evidence_source ytw resolver cost) verdict true target now (sd_evidence d) in
  Ok (status "youtube_lifecycle" d records (extra ytw target s)).
End YouTubeLifecycle.
End YouTubeLifecycle.

(** ** Monitoring *)
Module Monitoring.
Section Monitoring.
Context `{Repr} `{FromIso} `{FloatOfText} `{EventToken}.
Definition FAILURE_QUOTA_GUARD_ACTIVE := "quota_guard_active".
Definition FAILURE_COST_REPORT_DEGRADED := "cost_report_degraded".
Definition BLOCK_DESTRUCTIVE := "monitoring_unknown_never_authorizes_destructive_action".
Definition BLOCK_YOUTUBE_API := "youtube_api_destructive_action_blocked".

(** What a source should be: its name, payload, evidence, lifetime and file. *)
Record source_spec : Type := mkSpec { sp_source : string; sp_payload : dict; sp_name : string; sp_ttl : Q; sp_file : string }.
Record SourceFreshness : Type := mkFreshness { sf_spec : source_spec; sf_observed : string; sf_age : option Q; sf_fresh : bool }.
Record MonitoringSignals : Type := mkSignals { sources : list SourceFreshness; quota_guard_active : bool; cost_report_degraded : bool }.
Definition names_of (keep : SourceFreshness -> bool) (s : MonitoringSignals) : list string := map (fun f => sp_name (sf_spec f)) (List.filter keep (sources s)).
Definition fresh_names : MonitoringSignals -> list string := names_of sf_fresh.
Definition stale_names : MonitoringSignals -> list string := names_of (fun f => negb (sf_fresh f)).

Definition _observed_ts (payload : dict) : string :=
  let window := sub_dict payload "window" in
  let ingest := sub_dict payload "ingest" in
  if negb (given payload) then "" else
  text (py_or (first_of payload ["ts_utc"; "ts_jst"; "updated_at_utc"; "selected_at_utc"; "started_at_utc"])
          (py_or (dget window "effective_end_utc" VNone) (first_of ingest ["last_in_window_utc"; "last_seen_utc"]))).
Definition freshness (now : Q) (sp : source_spec) : res SourceFreshness :=
  let! age := age_of (VStr (_observed_ts (sp_payload sp))) now in
  Ok (mkFreshness sp (_observed_ts (sp_payload sp)) age (given (sp_payload sp) && recent age (sp_ttl sp))).
Definition base_specs (ytw resolver cost stream_stats timeline : dict) : list source_spec :=
  [mkSpec "youtube_watchdog" ytw "watchdog_stats_fresh" 180 "youtube_watchdog_stats.json";
   mkSpec "youtube_video_id_resolver" resolver "resolver_cache_fresh" 300 "youtube_video_id_resolver_state.json";
   mkSpec "youtube_api_cost_report" cost "cost_report_fresh" 1800 "reports/youtube_api_cost/open_day_latest.json";
   mkSpec "stream_watchdog" (if given stream_stats then stream_stats else timeline) "stream_watchdog_fresh" 180 "stream_watchdog_stats.json"].
Definition rich_specs (stream1090_report upstream_report stream_engine_event play_history : dict) : list source_spec :=
  [mkSpec "stream1090_report" stream1090_report "stream1090_report_fresh" 1800 "logs/stream1090_report.jsonl";
   mkSpec "upstream_stream1090_report" upstream_report "upstream_stream1090_report_fresh" 1800 "logs/upstream_stream1090_report.jsonl";
   mkSpec "stream_engine" stream_engine_event "stream_engine_event_fresh" 180 "logs/stream_engine_events.jsonl";
   mkSpec "auto_dj" play_history "play_history_fresh" 900 "logs/play_history.jsonl"].
(** A further source counts when it has a time; the engine's events only when they are fresh. *)
Fixpoint counted (now : Q) (specs : list source_spec) : res (list source_spec) :=
  match specs with
  | [] => Ok []
  | sp :: specs' =>
      let observed := _observed_ts (sp_payload sp) in
      let! keep := (if String.eqb observed "" then Ok false
                    else if String.eqb (sp_source sp) "stream_engine" then let! age := age_of (VStr observed) now in Ok (recent age (sp_ttl sp))
                    else Ok true) in
      let! l := counted now specs' in
      Ok (if keep then sp :: l else l)
  end.
Definition collect_rich_signals (ytw resolver cost stream_stats timeline stream1090_report upstream_report stream_engine_event play_history : dict) (now : Q) : res MonitoringSignals :=
  let! more := counted now (rich_specs stream1090_report upstream_report stream_engine_event play_history) in
  let! l := rmap_list (freshness now) (base_specs ytw resolver cost stream_stats timeline ++ more) in
  Ok (mkSignals l (says_yes (dget ytw "api_cost_burn_rate_active" VNone) || says_yes (dget cost "quota_guard_active" VNone))
        (String.eqb (lower_text (dget cost "status" VNone)) "degraded")).

Definition decide (s : MonitoringSignals) : SubsystemDecision :=
  let names := fresh_names s in
  let stale := stale_names s in
  if quota_guard_active s || cost_report_degraded s then
    mkDecision "degraded" "medium" (names ++ only_if (quota_guard_active s) FAILURE_QUOTA_GUARD_ACTIVE ++ only_if (cost_report_degraded s) FAILURE_COST_REPORT_DEGRADED)
      "none" [BLOCK_YOUTUBE_API] [] ["youtube_lifecycle"]
  else if none_of stale then mkDecision "healthy" "high" names "none" [] [] []
  else mkDecision (if none_of names then "unknown" else "degraded") (if none_of names then "unknown" else "medium") names "none" (BLOCK_DESTRUCTIVE :: stale) [] [].
(** The evidence of the sources that have a payload. *)
Fixpoint source_evidence (n : nat) (target : dict) (now : Q) (l : list SourceFreshness) : res (list EvidenceRecord) :=
  match l with
  | [] => Ok []
  | f :: l' =>
      let sp := sf_spec f in
      if negb (given (sp_payload sp)) then source_evidence (S n) target now l' else
      let payload := dict_setdefault "ts_utc" (VStr (sf_observed f)) (sp_payload sp) in
      let! e := evidence n "monitoring" (sp_name sp) (if sf_fresh f then "healthy" else "unknown") target now (mkSource (sp_source sp) payload (sp_file sp) (sp_ttl sp)) in
      let! es := source_evidence (S n) target now l' in
      Ok (e :: es)
  end.
Definition extra (s : MonitoringSignals) : dict :=
  [("fresh_sources", texts_py (fresh_names s)); ("stale_sources", texts_py (stale_names s)); ("quota_guard_active", VBool (quota_guard_active s));
   ("cost_report_degraded", VBool (cost_report_degraded s))].
Definition evaluate (ytw resolver cost stream_stats timeline stream1090_report upstream_report stream_engine_event play_history target : dict) (now : Q) : res SubsystemStatus :=
  let! s := collect_rich_signals ytw resolver cost stream_stats timeline stream1090_report upstream_report stream_engine_event play_history now in
  let! records := source_evidence 0 target now (sources s) in
  Ok (status "monitoring" (decide s) records (extra s)).
End Monitoring.
End Monitoring.
