(* ===== verification/V2Orchestrator.v ===== *)
(** * Stream v2: from the files of the runtime to a recovery plan

    Models src/stream_v2/aggregator.py, action_lock.py, recovery_orchestrator/*.py and
    the recovery pass of pipeline.py.  A file is its decoded content, none when it is
    missing or holds no JSON; the clock readings and the process id are arguments.  Reading
    and writing the files of the state directory does not fail. *)
From S2P Require Import Prelude PyVal UtcTime FastPolicy EffectModel Contracts AgentObserve Evidence ObservationTime V2Model V2Signals.

Definition json_file : Type := option pyval.
(** [read_json(path) or {}] *)
Definition read_json (f : json_file) : dict := match f with Some (VDict d) => d | _ => [] end.

(** What the source reader has read (source_reader.py), of it what the aggregator uses. *)
Record RuntimeInputs : Type := mkInputs {
  youtube_watchdog_stats : dict; youtube_video_id_resolver_state : dict; stream_watchdog_stats : dict; latest_runtime_state : dict; restart_reason : dict;
  api_cost_latest : dict; latest_watchdog_timeline_event : dict; latest_fast_recovery_event : dict; latest_fast_recovery_restart_event : dict;
  latest_stream1090_report : dict; latest_upstream_stream1090_report : dict; latest_stream_engine_event : dict; latest_play_history_event : dict;
  pulse_health_state : dict; adsb_freshness_state : dict; recovery_stage_state : dict; overlay_now_playing : dict; audio_fail_count : Z; pulse_source_missing_count : Z }.
Record RuntimeConfig : Type := mkConfig { cf_stream_id : string; cf_max_window : Q; cf_mode : string; cf_supervisor : string }.

(** ** The aggregator (aggregator.py) *)
Section Aggregate.
Context `{Repr} `{FromIso} `{FloatOfText} `{EventToken}.
Definition _target (c : RuntimeConfig) (ytw resolver runtime : dict) : dict :=
  let expected := text (py_or (first_of ytw ["expected_video_id"; "video_id"]) (first_of resolver ["expected_video_id"; "video_id"])) in
  let either k := text (py_or (dget ytw k VNone) (dget resolver k VNone)) in
  [("stream_id", VStr (cf_stream_id c)); ("expected_video_id", VStr expected); ("selected_video_id", VStr (either "video_id"));
   ("candidate_video_id", VStr (either "candidate_new_video_id"));
   ("expected_watch_url", VStr (if String.eqb expected "" then "" else ("https://youtube.com/watch?v=" ++ expected)%string));
   ("broadcast_id", VStr (text (py_or (dget ytw "oauth_broadcast_id" VNone) (VStr expected)))); ("bound_stream_id", VStr (text (dget ytw "oauth_bound_stream_id" VNone)));
   ("stream_key_hash", VStr (text (dget runtime "stream_key_hash" VNone)))].
(** The first of the oldest. *)
Definition oldest (l : list EvidenceRecord) : option EvidenceRecord :=
  let older e f := match er_age e, er_age f with Some a, Some b => pyfloat_lt a b | _, _ => false end in
  match l with [] => None | e :: l' => Some (fold_left (fun best f => if older best f then f else best) l' e) end.
Definition pyfloat_le (f g : pyfloat) : bool := pyfloat_lt f g || pyfloat_eq f g.
Definition control_evidence (window : Q) (l : list EvidenceRecord) : list EvidenceRecord :=
  List.filter (fun e => pyfloat_le (er_ttl e) (Fin window) || negb (String.eqb (er_verdict e) "healthy")) l.
(** [l or l'] *)
Definition or_else {A} (l l' : list A) : list A := match l with [] => l' | _ => l end.
Definition RECOMMENDED : list string :=
  ["reload_overlay"; "restart_dj"; "repair_pulse"; "restart_ffmpeg"; "restart_stream"; "resync_resolver"; "force_current_broadcast_live"; "defer"; "retry_probe"].
Definition _first_recommended_action (l : list SubsystemStatus) : string :=
  let actions := List.filter (fun a => negb (String.eqb a "") && negb (String.eqb a "none")) (map ss_action l) in
  match List.find (fun a => listed_in a actions) RECOMMENDED with Some a => a | None => default "none" (head actions) end.
Definition _action_scope (action : string) (l : list SubsystemStatus) : string :=
  match List.find (fun s => String.eqb (ss_action s) action) l with Some s => ss_name s | None => "none" end.
Definition within_window (consistency : option pyfloat) (window : pyfloat) : bool := match consistency with Some a => pyfloat_le a window | None => false end.
(** [f > g] of an age and the window: not a number is not above it. *)
Definition beyond_window (consistency : option pyfloat) (window : pyfloat) : bool := match consistency with Some a => pyfloat_lt window a | None => true end.
Definition state_of (names : list string) (s : SubsystemStatus) : bool := listed_in (ss_state s) names.
Definition overall_of (exceeded : bool) (l : list SubsystemStatus) : string * string :=
  if exceeded then ("unknown", "consistency window exceeded; destructive action disabled")
  else if existsb (state_of ["failed"]) l then ("failed", "one or more subsystems failed")
  else if existsb (state_of ["degraded"; "recovering"]) l then ("degraded", "one or more subsystems degraded")
  else if existsb (state_of ["unknown"]) l then ("unknown", "one or more subsystems unknown")
  else ("healthy", "all subsystems healthy").
Definition public_state (url : string) (local : string) : string :=
  if String.eqb url "live" && String.eqb local "healthy" then "same_url_live"
  else if String.eqb url "live" then "same_url_live_local_degraded"
  else if listed_in url ["recoverable"; "buffering"; "not_live"] then ("same_url_" ++ url)%string else "unknown".
Definition aggregate (c : RuntimeConfig) (i : RuntimeInputs) (now : Q) (objective_sli : dict) : res SubsystemsSnapshot :=
  let ytw := youtube_watchdog_stats i in
  let resolver := youtube_video_id_resolver_state i in
  let stats := stream_watchdog_stats i in
  let runtime := latest_runtime_state i in
  let timeline := latest_watchdog_timeline_event i in
  let cost := api_cost_latest i in
  let target := _target c ytw resolver runtime in
  let! rendering := Rendering.evaluate stats timeline runtime (latest_stream1090_report i) (latest_upstream_stream1090_report i) (adsb_freshness_state i) target now in
  let! music := Music.evaluate timeline (restart_reason i) (overlay_now_playing i) (pulse_health_state i) (latest_play_history_event i) (audio_fail_count i) (pulse_source_missing_count i) target now in
  let! local := LocalDelivery.evaluate ytw stats timeline runtime (latest_fast_recovery_event i) (latest_fast_recovery_restart_event i) (latest_stream_engine_event i) (restart_reason i) (recovery_stage_state i) target now in
  let! youtube := YouTubeLifecycle.evaluate ytw resolver cost target now in
  let! monitoring := Monitoring.evaluate ytw resolver cost stats timeline (latest_stream1090_report i) (latest_upstream_stream1090_report i) (latest_stream_engine_event i) (latest_play_history_event i) target now in
  let l := [rendering; music; local; youtube; monitoring] in
  let valid := List.filter (fun e => match er_age e with Some _ => true | None => false end) (concat (map ss_records l)) in
  let oldest_ev := oldest (or_else (control_evidence (cf_max_window c) valid) valid) in
  let consistency := match oldest_ev with Some e => er_age e | None => None end in
  let (state, reason) := overall_of (beyond_window consistency (Fin (cf_max_window c))) l in
  let url := text (py_or (dget (ss_extra youtube) "expected_url_state" VNone) (VStr "unknown")) in
  let action := _first_recommended_action l in
  Ok (mkSnapshot (isoformat_utc now) 1 (text (py_or (dget runtime "run_id" VNone) (py_or (dget ytw "run_id" VNone) (VStr ""))))
        (mkOverall state (public_state url (ss_state local)) (text (dget target "expected_video_id" (VStr ""))) url
           (map ss_name (List.filter (state_of ["degraded"; "failed"; "recovering"; "unknown"]) l))
           (match oldest_ev with Some e => er_observed_at e | None => "" end) consistency (Fin (cf_max_window c)) objective_sli action
           (if String.eqb action "none" then "none" else _action_scope action l) reason)
        rendering music local youtube monitoring).
End Aggregate.

(** ** The lock of destructive actions (action_lock.py) *)
Section Lock.
Context `{Repr} `{FromIso} `{FloatOfText}.
Record LockState : Type := mkLock { ls_active : bool; ls_stale : bool; ls_reason : string; ls_owner : string; ls_action : string; ls_scope : string }.
Definition to_gate (s : LockState) : dict :=
  [("passed", VBool (negb (ls_active s))); ("reason", VStr (ls_reason s)); ("lock_owner_event_id", VStr (ls_owner s)); ("action", VStr (ls_action s));
   ("scope", VStr (ls_scope s)); ("stale", VBool (ls_stale s))].
Definition str_at (d : dict) (k : string) : string := py_str (dget d k (VStr "")).
Definition check (f : json_file) (now : Q) : res LockState :=
  let d := read_json f in
  if negb (given d) then Ok (mkLock false false "no_destructive_action_in_progress" "" "" "") else
  let! acquired := parse_utc (dget d "acquired_at_utc" VNone) in
  let! ttl := py_float (py_or (dget d "ttl_sec" VNone) (VInt 0)) in
  let held active stale reason := mkLock active stale reason (str_at d "lock_owner_event_id") (str_at d "action") (str_at d "scope") in
  match acquired with
  | None => Ok (mkLock false true "stale_lock_invalid_record" "" "" "")
  | Some t =>
      if pyfloat_le ttl (Fin 0) then Ok (mkLock false true "stale_lock_invalid_record" "" "" "")
      else if pyfloat_lt ttl (Fin (now - t)) then Ok (held false true "stale_lock_expired")
      else Ok (held true false "destructive_action_in_progress")
  end.
Definition acquire_record (owner action scope : string) (ttl : pyfloat) (now : Q) (pid : Z) : dict :=
  [("lock_owner_event_id", VStr owner); ("action", VStr action); ("scope", VStr scope); ("acquired_at_utc", VStr (isoformat_utc now)); ("ttl_sec", VFloat ttl);
   ("owner_pid", VInt pid)].
Definition cleanup_stale (f : json_file) (now : Q) : res LockState * json_file :=
  match check f now with
  | Ok s => (Ok s, if ls_stale s then None else f)
  | Err e => (Err e, f)
  end.
(** The clock is read at each check and for the record. *)
Definition acquire (owner action scope : string) (ttl : pyfloat) (pid : Z) (first_look writing second_look : Q) (f : json_file) : res (bool * LockState * dict) * json_file :=
  match cleanup_stale f first_look with
  | (Err e, f1) => (Err e, f1)
  | (Ok before, f1) =>
      if ls_active before then (Ok (false, before, []), f1) else
      let payload := acquire_record owner action scope ttl writing pid in
      (let! s := check (Some (VDict payload)) second_look in Ok (true, s, payload), Some (VDict payload))
  end.
Definition release (owner : string) (f : json_file) : bool * json_file :=
  let d := read_json f in
  if negb (given d) then (false, f) else if negb (String.eqb (str_at d "lock_owner_event_id") owner) then (false, f) else (true, None).
End Lock.

(** ** Candidates (proposer.py) *)
Section Propose.
Context `{Repr}.
Definition low (action scope : string) (priority : Z) : ActionCandidate := mkCandidate action scope priority "low" true true [].
Definition restart_stream (priority : Z) : ActionCandidate := mkCandidate "restart_stream" "stream_all" priority "high" true true [].
Definition restart_ffmpeg (priority : Z) : ActionCandidate := mkCandidate "restart_ffmpeg" "local_delivery" priority "medium" true true [].
Definition is_state (s : SubsystemStatus) (name : string) : bool := String.eqb (ss_state s) name.
Definition for_rendering (r : SubsystemStatus) : list ActionCandidate :=
  if is_state r "failed" then [low "restart_browser" "rendering" 20] else if is_state r "degraded" then [low "reload_overlay" "rendering" 10] else [].
Definition for_music (m local : SubsystemStatus) : list ActionCandidate :=
  if state_of ["failed"; "degraded"] m && negb (state_of ["failed"; "degraded"] local) then [low "restart_dj" "music" 20] else [].
Definition for_local (local : SubsystemStatus) : list ActionCandidate :=
  if is_state local "failed" then
    if String.eqb (ss_action local) "restart_stream" then [restart_stream 30; restart_ffmpeg 40] else [restart_ffmpeg 30; restart_stream 40]
  else if is_state local "degraded" then [restart_ffmpeg 30] else [].
Definition for_youtube (y : SubsystemStatus) : list ActionCandidate :=
  let retry := low "retry_probe" "youtube_lifecycle" 10 in
  (if state_of ["degraded"; "unknown"] y then
     if listed_in "inconsistent_remote" (ss_evidence y) || String.eqb (ss_action y) "resync_resolver" then [low "resync_resolver" "youtube_lifecycle" 15] else [retry]
   else [])
  ++ (if is_state y "failed" then
        if truthy (dget (ss_extra y) "current_url_recoverable" VNone)
        then [mkCandidate "force_current_broadcast_live" "youtube_lifecycle" 50 "high" true true []] else [retry]
      else []).
Definition replacement_policy (y : SubsystemStatus) : dict := sub_dict (ss_extra y) "replacement_policy".
Definition for_replacement (y : SubsystemStatus) : res ActionCandidate :=
  let r := replacement_policy y in
  let allowed := truthy (dget r "allowed" VNone) in
  let! missing := iter (dget r "required_missing" (VList [])) in
  Ok (mkCandidate "create_replacement_broadcast" "youtube_lifecycle" 90 "very_high" false allowed
        ((if allowed then [] else [py_str (py_or (dget r "reason" VNone) (VStr "replacement_not_allowed"))]) ++ map py_str (List.filter truthy missing))).
Definition for_monitoring (m : SubsystemStatus) : list ActionCandidate :=
  if state_of ["degraded"; "unknown"] m then [mkCandidate "alert" "monitoring" 5 "none" true true []] else [].
Definition propose (s : SubsystemsSnapshot) : res (list ActionCandidate) :=
  let! replacement := for_replacement (sn_youtube s) in
  Ok (sort_by ac_priority (for_rendering (sn_rendering s) ++ for_music (sn_music s) (sn_local s) ++ for_local (sn_local s) ++ for_youtube (sn_youtube s)
                           ++ replacement :: for_monitoring (sn_monitoring s))).
End Propose.

(** ** Gates (gate.py) *)
Section Gates.
Context `{Repr}.
Record GateResult : Type := mkGates { gr_gates : list (string * dict); gr_passed : bool; gr_blocked_by : list string }.
Definition gate_dict (passed : bool) (reason : string) : dict := [("passed", VBool passed); ("reason", VStr reason)].
Definition is_destructive (action : string) : bool := listed_in action DESTRUCTIVE_ACTIONS.
Definition is_youtube_destructive (action : string) : bool := listed_in action YOUTUBE_DESTRUCTIVE_ACTIONS.
Definition consistency_ok (s : SubsystemsSnapshot) : bool := within_window (ov_window (sn_overall s)) (ov_max_window (sn_overall s)).
Definition gates_of (s : SubsystemsSnapshot) (c : ActionCandidate) (lock : LockState) : list (string * dict) :=
  let y := sn_youtube s in
  let o := sn_overall s in
  let r := replacement_policy y in
  let action := ac_action c in
  let destructive := is_destructive action in
  let quota := truthy (dget (ss_extra y) "quota_guard_active" VNone) in
  let mismatch := truthy (dget (ss_extra y) "oauth_channel_mismatch" VNone) in
  let replacing := String.eqb action "create_replacement_broadcast" in
  let allowed := truthy (dget r "allowed" VNone) in
  let healthy := is_state (sn_monitoring s) "healthy" in
  [("budget", gate_dict true "shadow_budget_not_enforced"); ("cooldown", gate_dict true "shadow_cooldown_not_enforced");
   ("oauth_channel", gate_dict (negb (is_youtube_destructive action && mismatch)) (if mismatch then "oauth_channel_mismatch_blocks_youtube_destructive_action" else "oauth_channel_match"));
   ("quota_guard", gate_dict (negb (is_youtube_destructive action && quota)) (if quota then "quota_guard_active_blocks_youtube_destructive_action" else "quota_guard_clear"));
   ("global_action_lock", if destructive then to_gate lock else gate_dict true "not_lock_scoped_action" ++ [("lock_owner_event_id", VStr "")]);
   ("consistency_window", gate_dict (negb destructive || consistency_ok s)
      (if consistency_ok s then (py_str (float_py (ov_window o)) ++ "<=" ++ py_str (VFloat (ov_max_window o)))%string else "stale_or_missing_evidence_blocks_destructive_action"));
   ("url_preservation", gate_dict (negb replacing || allowed) (py_str (py_or (dget r "reason" VNone) (VStr "not_replacement_action")))
      ++ [("blocked_actions", texts_py (only_if (replacing && negb allowed) "create_replacement_broadcast"))]);
   ("monitoring_safety", gate_dict (negb destructive || healthy) (if healthy then "monitoring_healthy" else "monitoring_unknown_or_degraded_blocks_destructive_action"))].
Definition evaluate_gates (s : SubsystemsSnapshot) (c : ActionCandidate) (lock : LockState) : GateResult :=
  let gates := gates_of s c lock in
  let blocked := map fst (List.filter (fun kv => negb (truthy (dget (snd kv) "passed" VNone))) gates) ++ (if ac_ready c then [] else ac_blocked_by c) in
  mkGates gates (none_of blocked) blocked.
Definition gate_result_dict (g : GateResult) : pyval :=
  VDict [("passed", VBool (gr_passed g)); ("blocked_by", texts_py (gr_blocked_by g)); ("gates", VDict (map (fun kv => (fst kv, VDict (snd kv))) (gr_gates g)))].
End Gates.

(** ** Plans (executor.py) *)
Section Plan.
Context `{Repr}.
Definition STREAM_SERVICE := "adsb-streamnew-youtube-stream.service".
Definition DJ_SERVICE := "adsb-streamnew-auto-dj.service".
Definition VIDEO_RESOLVER_SERVICE := "adsb-streamnew-youtube-video-resolver.service".
Definition YOUTUBE_MONITOR_SERVICE := "adsb-streamnew-youtube-monitor.service".
Definition SCOPED_RECOVERY_SCRIPT := "ops/scripts/stream_v3_scoped_recovery.py".
(** [STREAM_V3_K8S_TARGET_MAP[STREAM_SERVICE]] *)
Definition K8S_TARGET := "deployment/stream-v3-runtime".
Record ExecutionStep : Type := mkStep {
  es_id : string; es_kind : string; es_description : string; es_command : list string; es_unit : string; es_privilege : bool; es_url_risk : string;
  es_reads : list string; es_writes : list string; es_blocked_by : list string }.
Record ExecutionPlan : Type := mkPlan {
  pl_action : string; pl_scope : string; pl_mode : string; pl_executable : bool; pl_execute : bool; pl_reason : string; pl_blocked_by : list string; pl_steps : list ExecutionStep }.
Definition step_dict (s : ExecutionStep) : pyval :=
  VDict [("step_id", VStr (es_id s)); ("kind", VStr (es_kind s)); ("description", VStr (es_description s)); ("command", texts_py (es_command s));
         ("service_unit", VStr (es_unit s)); ("require_privilege", VBool (es_privilege s)); ("url_risk", VStr (es_url_risk s)); ("reads", texts_py (es_reads s));
         ("writes", texts_py (es_writes s)); ("blocked_by", texts_py (es_blocked_by s))].
Definition plan_dict (p : ExecutionPlan) : dict :=
  [("action", VStr (pl_action p)); ("scope", VStr (pl_scope p)); ("mode", VStr (pl_mode p)); ("executable", VBool (pl_executable p)); ("execute", VBool (pl_execute p));
   ("reason", VStr (pl_reason p)); ("blocked_by", texts_py (pl_blocked_by p)); ("steps", VList (map step_dict (pl_steps p)))].
Definition _is_k8s (mode : string) : bool := listed_in (lower (strip mode)) ["k8s"; "k3s"; "kubernetes"].

(** The step of an action, and what keeps the executor from running it. *)
Definition ready (s : ExecutionStep) : list ExecutionStep * list string := ([s], []).
Definition blocked (why : list string) (s : list string -> ExecutionStep) : list ExecutionStep * list string := ([s why], why).
Definition steps_restart_dj (k8s : bool) : list ExecutionStep * list string :=
  if k8s then ready (mkStep "restart_auto_dj_container" "k8s_scoped_container_restart"
    "Restart only the Auto DJ container; do not roll the shared v3 runtime for music-only recovery."
    ["python3"; SCOPED_RECOVERY_SCRIPT; "restart-dj"; "--reason"; "recovery_orchestrator:restart_dj"] DJ_SERVICE false "none" [] ["k8s:container:auto-dj"] [])
  else ready (mkStep "restart_auto_dj" "systemd_restart" "Restart Auto DJ only; does not change YouTube URL or stream binding."
    ["systemctl"; "restart"; DJ_SERVICE] DJ_SERVICE true "none" [] [("systemd:" ++ DJ_SERVICE)%string] []).
Definition steps_restart_stream (k8s : bool) : list ExecutionStep * list string :=
  if k8s then ready (mkStep "restart_stream_runtime_pod" "k8s_rollout_restart"
    "Restart the v3 runtime workload through k8s; intended to preserve the current YouTube stream URL after v3 cutover."
    ["kubectl"; "-n"; "stream-v3"; "rollout"; "restart"; K8S_TARGET] STREAM_SERVICE false "same_url_preserving" [] [("k8s:" ++ K8S_TARGET)%string] [])
  else ready (mkStep "restart_stream_service" "systemd_restart" "Restart the stream service through systemd; intended to preserve the current YouTube stream URL."
    ["systemctl"; "restart"; STREAM_SERVICE] STREAM_SERVICE true "same_url_preserving" [] [("systemd:" ++ STREAM_SERVICE)%string] []).
Definition steps_resync_resolver (k8s : bool) : list ExecutionStep * list string :=
  let reads := ["youtube_watchdog_stats.json"; "youtube_video_id_resolver_state.json"] in
  if k8s then blocked ["resolver_specific_k8s_task_not_yet_split"] (mkStep "run_v3_control_shadow_once" "v3_control_task"
    "Refresh v3 shadow state through the v3 control loop; resolver-specific ownership is not split yet."
    ["python3"; "-m"; "stream_v3.control_loop"; "--once"; "--only"; "shadow_once"] "" false "none" reads
    ["v3_control_state.json"; "subsystems_status.json"; "recovery_action_plan.json"])
  else ready (mkStep "start_video_resolver" "systemd_start_oneshot" "Refresh the expected/candidate YouTube video ID resolver without promoting a candidate URL."
    ["systemctl"; "start"; VIDEO_RESOLVER_SERVICE] VIDEO_RESOLVER_SERVICE true "none" reads ["youtube_video_id_resolver_state.json"] []).
Definition steps_restart_ffmpeg (k8s : bool) : list ExecutionStep * list string :=
  if k8s then ready (mkStep "restart_rtmps_ffmpeg_child" "k8s_scoped_process_restart"
    "Terminate only the RTMPS FFmpeg child inside stream-engine; the engine loop restarts FFmpeg without rolling the runtime Pod."
    ["python3"; SCOPED_RECOVERY_SCRIPT; "restart-ffmpeg"; "--reason"; "recovery_orchestrator:restart_ffmpeg"] STREAM_SERVICE false "same_url_preserving" []
    ["stream_engine rtmps ffmpeg child process"] [])
  else blocked ["native_ffmpeg_control_api_not_yet_available"] (mkStep "restart_ffmpeg_inside_engine" "engine_control"
    "Restart FFmpeg inside the stream engine without restarting the full service." [] STREAM_SERVICE false "same_url_preserving" []
    ["stream_engine ffmpeg child process"]).
Definition _steps_for (action supervisor : string) : list ExecutionStep * list string :=
  let k8s := _is_k8s supervisor in
  if String.eqb action "none" then ready (mkStep "no_action" "noop" "No recovery action is required." [] "" false "none" [] [] [])
  else if String.eqb action "alert" then ready (mkStep "record_alert" "v2_audit_log" "Record monitoring alert in v2 recovery audit outputs." [] "" false "none" []
    ["recovery_orchestrator.jsonl"; "recovery_action_plan.jsonl"] [])
  else if String.eqb action "restart_dj" then steps_restart_dj k8s
  else if String.eqb action "restart_stream" then steps_restart_stream k8s
  else if String.eqb action "resync_resolver" then steps_resync_resolver k8s
  else if String.eqb action "force_current_broadcast_live" then blocked ["youtube_mutation_not_enabled_in_stream_v2"]
    (mkStep "force_current_broadcast_live" "youtube_api_mutation" "Attempt one-time liveBroadcasts.transition for the current broadcast only."
      ["python3"; "src/watchers/youtube_watchdog.py"; "--force-live-once"] YOUTUBE_MONITOR_SERVICE false "can_change_youtube_lifecycle"
      ["youtube_watchdog_stats.json"; "oauth token state"] ["YouTube liveBroadcasts.transition"])
  else if String.eqb action "create_replacement_broadcast" then blocked ["same_url_required_absolute"; "replacement_broadcast_disabled"]
    (mkStep "replacement_broadcast" "youtube_api_mutation" "Create/bind a replacement broadcast. Blocked by the absolute same-URL contract." [] "" false
      "can_change_youtube_url" [] ["YouTube liveBroadcasts.insert"; "YouTube liveStreams.bind"])
  else if String.eqb action "restart_ffmpeg" then steps_restart_ffmpeg k8s
  else if listed_in action ["reload_overlay"; "restart_browser"] then blocked ["native_rendering_control_api_not_yet_available"]
    (mkStep "refresh_rendering_inside_engine" "engine_control" "Refresh Chromium/overlay rendering inside the stream engine without replacing the YouTube broadcast."
      [] STREAM_SERVICE false "same_url_preserving" [] ["stream_engine browser/overlay helpers"])
  else if String.eqb action "repair_pulse" then blocked ["pulse_repair_requires_operator_window"]
    (mkStep "validate_pulse_repair" "script_dry_run" "Validate Pulse/PipeWire repair path before any user audio stack restart."
      ["python3"; "ops/scripts/ensure_pulse.py"; "--dry-run"; "--no-write-config"] "" false "same_url_preserving" ["PulseAudio/PipeWire user session"] [])
  else if String.eqb action "retry_probe" then ready (mkStep "rerun_shadow_probe" "v2_read_only_probe"
    "Re-read production runtime state and refresh v2 shadow outputs." ["python3"; "-m"; "stream_v2"; "shadow-once"] "" false "none"
    ["production runtime state"] ["stream_v2 shadow state"] [])
  else ([], [("unknown_action:" ++ action)%string]).
Definition _reason (action : string) (gates executor : list string) (mode : string) : string :=
  if negb (none_of gates) then "gates_block_execution_plan"
  else if negb (none_of executor) then "executor_missing_native_control_path"
  else if String.eqb mode "shadow" then "shadow_mode_plan_only"
  else if String.eqb action "none" then "no_action_required" else "ready_to_execute".
(** [dict.fromkeys]: each once, in the order of the first *)
Fixpoint uniq (seen l : list string) : list string :=
  match l with [] => [] | s :: l' => if listed_in s seen then uniq seen l' else s :: uniq (s :: seen) l' end.
Definition build (c : ActionCandidate) (g : GateResult) (mode supervisor : string) : ExecutionPlan :=
  let (steps, executor) := _steps_for (ac_action c) supervisor in
  let executable := negb (match steps with [] => true | _ => false end) && none_of (gr_blocked_by g) && none_of executor in
  mkPlan (ac_action c) (ac_scope c) mode executable (executable && negb (String.eqb mode "shadow")) (_reason (ac_action c) (gr_blocked_by g) executor mode)
    (uniq [] (gr_blocked_by g ++ executor ++ only_if (String.eqb mode "shadow") "shadow_mode")) steps.
End Plan.

(** ** The engine (engine.py) *)
Section Engine.
Context `{Repr} `{EventToken}.
Record OrchestratorDecision : Type := mkOutcome { od_event : dict; od_action : string; od_execute : bool; od_plan : ExecutionPlan }.
Definition nothing : ActionCandidate := mkCandidate "none" "none" 0 "none" true true [].
Definition all_blocked : GateResult := mkGates [] true ["all_action_candidates_blocked"].
Definition gated (s : SubsystemsSnapshot) (lock : LockState) (l : list ActionCandidate) : list (ActionCandidate * GateResult) :=
  map (fun c => (c, evaluate_gates s c lock)) l.
(** The first that is ready and passes its gates. *)
Definition select (l : list (ActionCandidate * GateResult)) : ActionCandidate * GateResult :=
  default (nothing, all_blocked) (List.find (fun cg => ac_ready (fst cg) && gr_passed (snd cg)) l).
Definition _selected_reason (c : ActionCandidate) (g : GateResult) : string :=
  if String.eqb (ac_action c) "none" then "no executable action in shadow decision"
  else if negb (none_of (gr_blocked_by g)) then "selected candidate has gate blocks"
  else if listed_in (ac_level c) ["medium"; "high"; "very_high"] then "lowest destructive action that addresses confirmed subsystem state"
  else "lowest scoped non-destructive action".
Definition _source_event_ids (s : SubsystemsSnapshot) : list string :=
  firstn 50 (uniq [""] (map er_event_id (concat (map ss_records (subsystems s))))).
Definition _failure_name (s : SubsystemsSnapshot) : string :=
  let failing := omap (fun t => if state_of ["failed"; "degraded"] t then head (ss_evidence t) else None) (subsystems s) in
  match failing with name :: _ => name | [] => if String.eqb (ov_state (sn_overall s)) "unknown" then "unknown_evidence" else "none" end.
Definition _overall_confidence (s : SubsystemsSnapshot) : string :=
  let state := ov_state (sn_overall s) in
  if String.eqb state "healthy" then "high" else if String.eqb state "unknown" then "unknown" else "medium".
Definition _decision_state (s : SubsystemsSnapshot) : string :=
  if String.eqb (ov_state (sn_overall s)) "healthy" then "all_subsystems_healthy" else ("subsystem_" ++ ov_state (sn_overall s))%string.
Definition names_in (f : SubsystemStatus -> list string) (s : SubsystemsSnapshot) : list string := sorted_set (concat (map f (subsystems s))).
Definition event_of (c : RuntimeConfig) (s : SubsystemsSnapshot) (now : Q) (l : list (ActionCandidate * GateResult)) (chosen : ActionCandidate) (g : GateResult)
    (p : ExecutionPlan) : dict :=
  let o := sn_overall s in
  let y := ss_extra (sn_youtube s) in
  [("ts_utc", VStr (isoformat_utc now)); ("event_id", VStr ("evt-orch-" ++ event_token "orch" 0)%string); ("schema_version", VInt 1);
   ("actor", VDict [("name", VStr "recovery_orchestrator"); ("version", VStr "v1"); ("mode", VStr (cf_mode c)); ("trigger", VStr "timer_or_manual_shadow_once");
                    ("source_event_ids", texts_py (_source_event_ids s))]);
   ("target", VDict [("stream_id", VStr (cf_stream_id c)); ("expected_video_id", VStr (ov_video_id o));
                     ("expected_watch_url", VStr (if String.eqb (ov_video_id o) "" then "" else ("https://youtube.com/watch?v=" ++ ov_video_id o)%string));
                     ("broadcast_id", VStr (py_str (dget y "broadcast_id" (VStr (ov_video_id o))))); ("bound_stream_id", VStr (str_at y "bound_stream_id"));
                     ("stream_key_hash", VStr "")]);
   ("observed_state", VDict [("overall", VStr (ov_state o)); ("stream_public_state", VStr (ov_public o)); ("expected_url_state", VStr (ov_url_state o));
                             ("subsystems", VDict (map (fun t => (ss_name t, VStr (ss_state t))) (subsystems s))); ("degraded_subsystems", texts_py (ov_degraded o));
                             ("consistency_window_sec", float_py (ov_window o)); ("max_consistency_window_sec", VFloat (ov_max_window o))]);
   ("evidence", VList (map evidence_dict (concat (map ss_records (subsystems s)))));
   ("decision", VDict [("state", VStr (_decision_state s)); ("failure_name", VStr (_failure_name s)); ("reason", VStr (ov_reason o)); ("confidence", VStr (_overall_confidence s));
                       ("caused_by_subsystems", texts_py (names_in ss_caused_by s)); ("affects_subsystems", texts_py (names_in ss_affects s))]);
   ("action_candidates", VList (map (fun cg => candidate_dict (fst cg)) l));
   ("gates", VDict (map (fun kv => (fst kv, VDict (snd kv))) (gr_gates g)));
   ("all_candidate_gates", VDict (fold_left (fun d cg => dict_set (ac_action (fst cg)) (gate_result_dict (snd cg)) d) l []));
   ("selected_action", VDict [("action", VStr (ac_action chosen)); ("scope", VStr (ac_scope chosen)); ("mode", VStr (cf_mode c)); ("execute", VBool (pl_execute p));
                              ("reason", VStr (_selected_reason chosen g))]);
   ("execution_plan", VDict (plan_dict p));
   ("result", VDict [("status", VStr "not_executed"); ("reason", VStr "shadow_mode"); ("completed_at_utc", VStr "")])].
Definition evaluate (c : RuntimeConfig) (s : SubsystemsSnapshot) (now : Q) (lock : LockState) : res OrchestratorDecision :=
  let! candidates := propose s in
  let l := gated s lock candidates in
  let (chosen, g) := select l in
  let p := build chosen g (cf_mode c) (cf_supervisor c) in
  Ok (mkOutcome (event_of c s now l chosen g p) (ac_action chosen) (pl_execute p) p).
End Engine.

(** ** The recovery pass (pipeline.py) *)
Section Pipeline.
Context `{Repr} `{FromIso} `{FloatOfText} `{EventToken}.
(** The stored snapshot, unless it is older than the window. *)
Definition _read_recent_subsystems_snapshot (c : RuntimeConfig) (f : json_file) (now : Q) : res (option dict) :=
  let d := read_json f in
  if negb (given d) then Ok None else
  let! ts := parse_utc (dget d "ts_utc" VNone) in
  Ok (match ts with Some t => if Qltb (cf_max_window c) (now - t) then None else Some d | None => None end).
Definition _objective_summary (objective : dict) : res dict :=
  let! last := (match dget objective "windows" VNone with VDict w => Ok (dget w "last_24h" (VDict [])) | _ => Ok (VDict []) end) in
  let! live := get last "same_url_live_ratio" in
  let! unknown := get last "unknown_ratio" in
  let! replaced := get last "replacement_count" in
  let! overridden := get last "budget_override_count" in
  Ok [("last_24h_same_url_live_ratio", live); ("last_24h_unknown_ratio", unknown); ("last_24h_replacement_count", replaced); ("last_24h_budget_override_count", overridden)].
(** The files of a decision: the log line, the plan and the facts of it. *)
Record recovery_files : Type := mkFiles { rf_log : dict; rf_plan : dict; rf_view : dict }.
Definition _write_recovery_decision (c : RuntimeConfig) (s : SubsystemsSnapshot) (now : Q) (lock_file : json_file) (lock_now : Q) (metadata : res pyval) : res (OrchestratorDecision * recovery_files) :=
  let! lock := check lock_file lock_now in
  let! d := evaluate c s now lock in
  let plan := dict_update (plan_dict (od_plan d)) [("ts_utc", VStr (isoformat_utc now)); ("event_id", dget (od_event d) "event_id" (VStr ""))] in
  let view := map (fun k => (k, dget plan k VNone)) ["ts_utc"; "event_id"; "action"; "execute"; "executable"] in
  Ok (d, mkFiles (od_event d) plan (attach view "recovery_plan" metadata)).
(** The status file written from the inputs. *)
Definition _write_subsystems_status (c : RuntimeConfig) (i : RuntimeInputs) (now : Q) (summary : dict) (metadata : res pyval) : res (SubsystemsSnapshot * dict) :=
  let! s := aggregate c i now summary in
  Ok (s, attach (snapshot_dict s) "subsystems" metadata).
(** The snapshot and the status file of [run_recovery_orchestrator_once]. *)
Definition recovery_snapshot (c : RuntimeConfig) (i : RuntimeInputs) (now : Q) (status_file objective_file : json_file) (metadata : res pyval) : res (SubsystemsSnapshot * dict) :=
  let! recent := _read_recent_subsystems_snapshot c status_file now in
  match recent with
  | Some d => let! s := snapshot_from_payload d in Ok (s, d)
  | None => let! summary := _objective_summary (read_json objective_file) in _write_subsystems_status c i now summary metadata
  end.
Definition run_recovery_orchestrator_once (c : RuntimeConfig) (i : RuntimeInputs) (now : Q) (status_file objective_file lock_file : json_file) (lock_now : Q)
    (status_metadata plan_metadata : res pyval) : res (OrchestratorDecision * recovery_files * dict) :=
  let! (s, stored) := recovery_snapshot c i now status_file objective_file status_metadata in
  let! (d, files) := _write_recovery_decision c s now lock_file lock_now plan_metadata in
  Ok (d, files, stored).
End Pipeline.
