(* ===== verification/V2Proofs.v ===== *)
(** * Stream v2: what a recovery plan may do

    The actions a plan can execute, exactly when the stream is restarted and on what
    evidence, the age of that evidence, the way of a snapshot through its file, and
    the lock of destructive actions. *)
From S2P Require Import Prelude PyVal UtcTime FastPolicy EffectModel Contracts AgentObserve Evidence ObservationTime V2Model V2Signals V2Orchestrator.

Lemma listed_in_In s l : listed_in s l = true <-> In s l.
Proof. unfold listed_in. rewrite bool_decide_eq_true. by rewrite list_elem_of_In. Qed.
Lemma none_of_nil l : none_of l = true <-> l = [].
Proof. by destruct l. Qed.
Lemma In_only_if b s (x : string) : In x (only_if b s) <-> b = true /\ x = s.
Proof. destruct b; simpl; naive_solver. Qed.

(** ** The choice *)
Section Choice.
Context `{Repr} `{EventToken}.
Lemma select_in l c g : select l = (c, g) -> ac_action c <> "none" -> In (c, g) l /\ ac_ready c = true /\ gr_passed g = true.
Proof.
  unfold select. destruct (List.find _ l) as [cg|] eqn:E; simpl; [|intros [= <- <-]; done].
  intros ->. intros _. apply find_some in E as [Hin Hp]. apply andb_true_iff in Hp. done.
Qed.
(** No candidate that is ready and passes has a lower priority than the chosen. *)
Lemma select_least l c g c' g' : in_order (fun cg => ac_priority (fst cg)) l -> select l = (c, g) -> In (c', g') l -> ac_ready c' = true -> gr_passed g' = true ->
  ac_priority c <= ac_priority c' /\ In (c, g) l.
Proof.
  unfold select. induction 1 as [|[c1 g1] l Hl IH Hfst]; [done|]. simpl. destruct (ac_ready c1 && gr_passed g1) eqn:E.
  - simpl. intros [= <- <-] Hin Hr Hp. split; [|by left]. destruct Hin as [[= <- <-]|Hin]; [lia|].
    rewrite List.Forall_forall in Hfst. apply (Hfst _ Hin).
  - intros Hs [[= -> ->]|Hin] Hr Hp; [by rewrite Hr, Hp in E|]. destruct (IH Hs Hin Hr Hp). auto.
Qed.
Lemma gated_in s lock l c g : In (c, g) (gated s lock l) <-> In c l /\ g = evaluate_gates s c lock.
Proof. unfold gated. rewrite in_map_iff. naive_solver. Qed.
Lemma gated_order s lock l : in_order ac_priority l -> in_order (fun cg => ac_priority (fst cg)) (gated s lock l).
Proof.
  induction 1 as [|c l Hl IH Hc]; [constructor|]. simpl. constructor; [exact IH|]. apply List.Forall_forall. intros [c' g'] Hin.
  apply gated_in in Hin as [Hin _]. rewrite List.Forall_forall in Hc. apply (Hc _ Hin).
Qed.

(** The gates of an action that destroys nothing are open; those of one that may are these. *)
Lemma harmless_passes s c lock : is_destructive (ac_action c) = false -> ac_ready c = true -> gr_passed (evaluate_gates s c lock) = true.
Proof.
  intros Hd Hr. unfold evaluate_gates, gates_of. rewrite Hr, Hd.
  assert (Hy : is_youtube_destructive (ac_action c) = false).
  { apply not_true_is_false. intros Hy. apply not_true_iff_false in Hd. apply Hd. unfold is_destructive, is_youtube_destructive in *.
    rewrite listed_in_In in *. simpl in *. tauto. }
  assert (Hc : String.eqb (ac_action c) "create_replacement_broadcast" = false).
  { apply String.eqb_neq. intros Hc. rewrite Hc in Hd. done. }
  by rewrite Hy, Hc.
Qed.
Lemma restart_passes s p lock :
  gr_passed (evaluate_gates s (restart_stream p) lock) = true
  <-> ls_active lock = false /\ consistency_ok s = true /\ is_state (sn_monitoring s) "healthy" = true.
Proof.
  unfold evaluate_gates, gates_of. simpl. destruct (ls_active lock), (consistency_ok s), (is_state _ "healthy"); simpl; naive_solver.
Qed.
Lemma gate_open s c lock k g : gr_passed (evaluate_gates s c lock) = true -> In (k, g) (gates_of s c lock) -> truthy (dget g "passed" VNone) = true.
Proof.
  unfold evaluate_gates. cbn [gr_passed]. rewrite none_of_nil. intros [Hf _]%app_eq_nil Hin. apply map_eq_nil in Hf.
  destruct (truthy _) eqn:E; [done|]. exfalso.
  assert (Hb : In (k, g) (List.filter (fun kv => negb (truthy (dget (snd kv) "passed" VNone))) (gates_of s c lock))) by (apply filter_In; simpl; by rewrite E).
  by rewrite Hf in Hb.
Qed.
Lemma destructive_gates s c lock : gr_passed (evaluate_gates s c lock) = true -> is_destructive (ac_action c) = true ->
  ls_active lock = false /\ consistency_ok s = true /\ is_state (sn_monitoring s) "healthy" = true.
Proof.
  intros Hp Hd. pose proof (gate_open s c lock) as Hopen. unfold gates_of in Hopen. rewrite Hd in Hopen. cbn [In negb orb] in Hopen. split_and!.
  - apply negb_true_iff. apply (Hopen "global_action_lock" (to_gate lock) Hp). do 4 right. by left.
  - eapply (Hopen "consistency_window" (gate_dict (consistency_ok s) _) Hp). do 5 right. by left.
  - eapply (Hopen "monitoring_safety" (gate_dict (is_state (sn_monitoring s) "healthy") _) Hp). do 7 right. by left.
Qed.
Lemma passed_unblocked s c lock : gr_passed (evaluate_gates s c lock) = true -> gr_blocked_by (evaluate_gates s c lock) = [].
Proof. unfold evaluate_gates. cbn [gr_passed gr_blocked_by]. apply none_of_nil. Qed.

Lemma evaluate_select c s now lock d : evaluate c s now lock = Ok d ->
  exists l ch g, propose s = Ok l /\ select (gated s lock l) = (ch, g) /\ od_action d = ac_action ch /\ od_plan d = build ch g (cf_mode c) (cf_supervisor c)
                 /\ od_execute d = pl_execute (od_plan d).
Proof.
  unfold evaluate. destruct (propose s) as [l|e]; [|done]. simpl. destruct (select _) as [ch g] eqn:Es. intros [= <-]. simpl. eauto 10.
Qed.
Lemma propose_order s l : propose s = Ok l -> in_order ac_priority l.
Proof. unfold propose. destruct (for_replacement _); [|done]. intros [= <-]. apply sort_by_order. Qed.
Lemma propose_in s l c : propose s = Ok l ->
  In c l <-> In c (for_rendering (sn_rendering s)) \/ In c (for_music (sn_music s) (sn_local s)) \/ In c (for_local (sn_local s)) \/ In c (for_youtube (sn_youtube s))
             \/ Ok c = for_replacement (sn_youtube s) \/ In c (for_monitoring (sn_monitoring s)).
Proof.
  unfold propose. destruct (for_replacement _) as [r|e]; [|done]. intros [= <-]. rewrite sort_by_In, !in_app_iff. simpl. naive_solver.
Qed.
Lemma for_replacement_action y c : for_replacement y = Ok c -> ac_action c = "create_replacement_broadcast" /\ ac_priority c = 90.
Proof. unfold for_replacement. destruct (iter _); [|done]. by intros [= <-]. Qed.

(** ** What a plan executes *)
Definition SAME_URL : list string := ["none"; "same_url_preserving"].
Definition safe_step (st : ExecutionStep) : Prop := In (es_url_risk st) SAME_URL /\ es_blocked_by st = [].
Lemma ready_steps_safe action sup steps : _steps_for action sup = (steps, []) -> Forall safe_step steps /\ ~ In action YOUTUBE_DESTRUCTIVE_ACTIONS.
Proof.
  unfold _steps_for, steps_restart_dj, steps_restart_stream, steps_resync_resolver, steps_restart_ffmpeg, ready, blocked, safe_step.
  repeat match goal with
  | |- context [if String.eqb action ?s then _ else _] => destruct (String.eqb_spec action s) as [->|]
  | |- context [if listed_in _ _ then _ else _] => destruct (listed_in _ _) eqn:?
  | |- context [if _is_k8s sup then _ else _] => destruct (_is_k8s sup)
  end; try (intros [= <-]; split; [repeat constructor; simpl; auto | simpl; intuition discriminate]); done.
Qed.
Lemma executed_plan c g mode sup : pl_execute (build c g mode sup) = true ->
  mode <> "shadow" /\ gr_blocked_by g = [] /\ pl_steps (build c g mode sup) <> []
  /\ _steps_for (ac_action c) sup = (pl_steps (build c g mode sup), []).
Proof.
  unfold build. destruct (_steps_for _ sup) as [steps executor]. simpl. rewrite !andb_true_iff, !none_of_nil, !negb_true_iff, String.eqb_neq.
  intros [[[Hs Hg] ->] Hm]. by destruct steps.
Qed.
Lemma nothing_not_executed mode sup : pl_execute (build nothing all_blocked mode sup) = false.
Proof. reflexivity. Qed.
End Choice.

Lemma executed_facts `{Repr} `{EventToken} c s now lock d : V2Orchestrator.evaluate c s now lock = Ok d -> od_execute d = true ->
  is_destructive (od_action d) = true -> ls_active lock = false /\ consistency_ok s = true /\ is_state (sn_monitoring s) "healthy" = true.
Proof.
  intros He Hx Hd. destruct (evaluate_select _ _ _ _ _ He) as (l & ch & g & Hl & Hs & Ha & Hp & Hexec). rewrite Ha in Hd.
  destruct (String.eqb_spec (ac_action ch) "none") as [E|E]; [by rewrite E in Hd|].
  destruct (select_in _ _ _ Hs E) as (Hin & _ & Hpass). apply gated_in in Hin as [Hin ->]. by apply destructive_gates in Hpass.
Qed.

Lemma executed_safely `{Repr} `{EventToken} c s now lock d : V2Orchestrator.evaluate c s now lock = Ok d -> od_execute d = true ->
  cf_mode c <> "shadow" /\ pl_steps (od_plan d) <> [] /\ Forall safe_step (pl_steps (od_plan d)) /\ ~ In (od_action d) YOUTUBE_DESTRUCTIVE_ACTIONS.
Proof.
  intros He Hx. destruct (evaluate_select _ _ _ _ _ He) as (l & ch & g & Hl & Hs & Ha & Hp & Hexec). rewrite Hexec, Hp in Hx.
  destruct (executed_plan _ _ _ _ Hx) as (Hm & Hb & Hne & Hst). destruct (ready_steps_safe _ _ _ Hst) as [Hsafe Hy].
  rewrite Hp. split_and!; [done..|by rewrite Ha].
Qed.

(** Whatever the state of the subsystems, the lock, the mode and the supervisor: a plan that is
    executed is not one of the shadow mode, has a step, no step that something blocks, no step that can
    change the URL or the life cycle of the broadcast, and its action is none of those that act on
    YouTube; a plan whose action destroys something passed every gate: no destructive action is in
    progress, the evidence is within the window and monitoring is healthy. *)
Theorem executed_plan_keeps_url `{Repr} `{EventToken} c s now lock d :
  V2Orchestrator.evaluate c s now lock = Ok d -> od_execute d = true ->
  cf_mode c <> "shadow" /\ pl_steps (od_plan d) <> [] /\ Forall safe_step (pl_steps (od_plan d)) /\ ~ In (od_action d) YOUTUBE_DESTRUCTIVE_ACTIONS
  /\ (is_destructive (od_action d) = true -> ls_active lock = false /\ consistency_ok s = true /\ is_state (sn_monitoring s) "healthy" = true).
Proof.
  intros He Hx. destruct (executed_safely _ _ _ _ _ He Hx) as (Hm & Hne & Hs & Hy). split_and!; try done. by apply (executed_facts _ _ _ _ _ He).
Qed.

(** ** When the stream is restarted *)
Section Restart.
Context `{Repr} `{EventToken}.
Lemma propose_cheaper s l lock ch g c' : propose s = Ok l -> select (gated s lock l) = (ch, g) -> In c' l -> ac_ready c' = true ->
  gr_passed (evaluate_gates s c' lock) = true -> ac_priority ch <= ac_priority c'.
Proof.
  intros Hl Hs Hin Hr Hp. refine (proj1 (select_least _ _ _ _ _ (gated_order _ _ _ (propose_order _ _ Hl)) Hs _ Hr Hp)). by apply gated_in.
Qed.
Lemma propose_cheap s l lock ch g c' : propose s = Ok l -> select (gated s lock l) = (ch, g) -> In c' l -> is_destructive (ac_action c') = false -> ac_ready c' = true ->
  ac_priority ch <= ac_priority c'.
Proof. intros Hl Hs Hin Hd Hr. eapply propose_cheaper; eauto. by apply harmless_passes. Qed.
Lemma is_state_In s names : state_of names s = true <-> exists n, In n names /\ is_state s n = true.
Proof.
  unfold state_of, is_state. rewrite listed_in_In. split; [intros Hin; exists (ss_state s); by rewrite String.eqb_refl | intros (n & Hin & ->%String.eqb_eq); done].
Qed.

(** No subsystem but the local delivery has a cheaper action for its state. *)
Definition nothing_cheaper (s : SubsystemsSnapshot) : Prop :=
  state_of ["failed"; "degraded"] (sn_rendering s) = false /\ state_of ["degraded"; "unknown"] (sn_youtube s) = false
  /\ (is_state (sn_youtube s) "failed" = true -> truthy (dget (ss_extra (sn_youtube s)) "current_url_recoverable" VNone) = true).
Definition restart_asked (s : SubsystemsSnapshot) : Prop :=
  is_state (sn_local s) "failed" = true /\ ss_action (sn_local s) = "restart_stream".
Definition local_only (c : ActionCandidate) : Prop := ac_action c <> "restart_stream".
Lemma others_not_stream r m local y : Forall local_only (for_rendering r ++ for_music m local ++ for_youtube y ++ for_monitoring m).
Proof.
  unfold for_rendering, for_music, for_youtube, for_monitoring, local_only. rewrite !Forall_app.
  destruct (is_state r "failed"), (is_state r "degraded"), (state_of ["failed"; "degraded"] m && negb (state_of ["failed"; "degraded"] local)), (state_of ["degraded"; "unknown"] y),
    (listed_in "inconsistent_remote" (ss_evidence y) || String.eqb (ss_action y) "resync_resolver"), (is_state y "failed"),
    (truthy (dget (ss_extra y) "current_url_recoverable" VNone)),
    (state_of ["degraded"; "unknown"] m);
    split_and!; repeat constructor; discriminate.
Qed.
Lemma restart_proposed s l p : propose s = Ok l -> In (restart_stream p) l ->
  is_state (sn_local s) "failed" = true /\ (p = 30 /\ ss_action (sn_local s) = "restart_stream" \/ p = 40 /\ In (restart_ffmpeg 30) l).
Proof.
  intros Hl Hin. rewrite (propose_in _ _ _ Hl) in Hin. rewrite (propose_in _ _ (restart_ffmpeg 30) Hl).
  pose proof (others_not_stream (sn_rendering s) (sn_music s) (sn_local s) (sn_youtube s)) as Ho1.
  pose proof (others_not_stream (sn_rendering s) (sn_monitoring s) (sn_local s) (sn_youtube s)) as Ho2.
  rewrite !Forall_app, !List.Forall_forall in Ho1, Ho2. destruct Ho1 as (Hr & Hm & Hy & _), Ho2 as (_ & _ & _ & Hmon).
  destruct Hin as [Hin|[Hin|[Hin|[Hin|[Hin|Hin]]]]]; [by destruct (Hr _ Hin) | by destruct (Hm _ Hin) | | by destruct (Hy _ Hin) | | by destruct (Hmon _ Hin)].
  - unfold for_local in *. destruct (is_state (sn_local s) "failed"); [|destruct (is_state _ _); [destruct Hin as [Hin|[]]; discriminate Hin | destruct Hin]].
    split; [done|]. destruct (String.eqb_spec (ss_action (sn_local s)) "restart_stream"); simpl in Hin.
    + left. destruct Hin as [Hin|[Hin|[]]]; [|discriminate Hin]. injection Hin as <-. done.
    + right. destruct Hin as [Hin|[Hin|[]]]; [discriminate Hin|]. injection Hin as <-. split; [done|]. right; right; left. by left.
  - symmetry in Hin. apply for_replacement_action in Hin as [Hin _]. discriminate Hin.
Qed.
Lemma restart_candidate s l c : propose s = Ok l -> In c l -> ac_action c = "restart_stream" -> exists p, c = restart_stream p.
Proof.
  intros Hl Hin Ha. rewrite (propose_in _ _ _ Hl) in Hin.
  pose proof (others_not_stream (sn_rendering s) (sn_music s) (sn_local s) (sn_youtube s)) as Ho1.
  pose proof (others_not_stream (sn_rendering s) (sn_monitoring s) (sn_local s) (sn_youtube s)) as Ho2.
  rewrite !Forall_app, !List.Forall_forall in Ho1, Ho2. destruct Ho1 as (Hr & Hm & Hy & _), Ho2 as (_ & _ & _ & Hmon).
  destruct Hin as [Hin|[Hin|[Hin|[Hin|[Hin|Hin]]]]]; [by destruct (Hr _ Hin) | by destruct (Hm _ Hin) | | by destruct (Hy _ Hin) | | by destruct (Hmon _ Hin)].
  - unfold for_local in Hin. destruct (is_state _ "failed"); [destruct (String.eqb _ _)|destruct (is_state _ _)]; simpl in Hin;
      repeat destruct Hin as [<-|Hin]; try discriminate Ha; eauto; destruct Hin.
  - symmetry in Hin. apply for_replacement_action in Hin as [Hin _]. rewrite Ha in Hin. discriminate Hin.
Qed.
Lemma state_of_is s names n : In n names -> is_state s n = true -> state_of names s = true.
Proof. intros Hn Hs. apply is_state_In. eauto. Qed.
Lemma state_of_not s names n : state_of names s = false -> In n names -> is_state s n = false.
Proof. intros Hs Hn. apply not_true_is_false. intros E. by rewrite (state_of_is _ _ _ Hn E) in Hs. Qed.
Lemma cheapest_at_30 s l lock g : propose s = Ok l -> select (gated s lock l) = (restart_stream 30, g) -> nothing_cheaper s.
Proof.
  intros Hl Hs.
  assert (Hno : forall c', In c' l -> is_destructive (ac_action c') = false -> ac_ready c' = true -> 30 <= ac_priority c')
    by (intros c' Hin Hd Hr; apply (propose_cheap _ _ _ _ _ _ Hl Hs Hin Hd Hr)).
  pose proof (fun c' => proj2 (propose_in s l c' Hl)) as Hin. unfold nothing_cheaper.
  assert (Hr : state_of ["failed"; "degraded"] (sn_rendering s) = false).
  { apply not_true_is_false. intros (n & Hn & Hst)%is_state_In. unfold for_rendering in Hin.
    destruct (is_state (sn_rendering s) "failed") eqn:Ef.
    - specialize (Hno _ (Hin _ (or_introl (or_introl eq_refl))) eq_refl eq_refl). simpl in Hno. lia.
    - destruct Hn as [<-|[<-|[]]]; [by rewrite Ef in Hst|]. rewrite Hst in Hin.
      specialize (Hno _ (Hin _ (or_introl (or_introl eq_refl))) eq_refl eq_refl). simpl in Hno. lia. }
  assert (Hy : forall c', In c' (for_youtube (sn_youtube s)) -> is_destructive (ac_action c') = false -> ac_ready c' = true -> 30 <= ac_priority c').
  { intros c' Hc'. apply Hno, Hin. tauto. }
  unfold for_youtube in Hy. split_and!; [done| |].
  - apply not_true_is_false. intros E. rewrite E in Hy. destruct (_ || _) in Hy; specialize (Hy _ (or_introl eq_refl) eq_refl eq_refl); simpl in Hy; lia.
  - intros Ef. rewrite Ef in Hy. destruct (truthy _); [done|]. exfalso. specialize (Hy (low "retry_probe" "youtube_lifecycle" 10)).
    assert (10 >= 30); [|lia]. apply Z.le_ge, Hy; [|done|done]. apply in_or_app. right. by left.
Qed.
Lemma chosen_restart s l lock ch g : propose s = Ok l -> select (gated s lock l) = (ch, g) -> ls_active lock = false -> consistency_ok s = true ->
  is_state (sn_monitoring s) "healthy" = true -> restart_asked s -> nothing_cheaper s -> ch = restart_stream 30 /\ g = evaluate_gates s ch lock /\ gr_passed g = true.
Proof.
  intros Hl Hs Hlock Hc Hmon [Hf Ha] (Hr & Hy & Hrec). pose proof (proj2 (restart_passes s 30 lock) (conj Hlock (conj Hc Hmon))) as Hpass.
  assert (Hin : In (restart_stream 30) l).
  { apply (propose_in _ _ _ Hl). unfold for_local. rewrite Hf, Ha. right; right; left. by left. }
  destruct (select_least _ _ _ (restart_stream 30) (evaluate_gates s (restart_stream 30) lock) (gated_order _ _ _ (propose_order _ _ Hl)) Hs) as [Hle Hch];
    [by apply gated_in | done | done |]. simpl in Hle. apply gated_in in Hch as [Hch ->]. rewrite (propose_in _ _ _ Hl) in Hch.
  assert (ch = restart_stream 30) as ->; [|done]. unfold for_rendering, for_music, for_local, for_youtube, for_monitoring in Hch.
  assert (Hsf : is_state (sn_rendering s) "failed" = false) by (apply (state_of_not _ _ _ Hr); simpl; auto).
  assert (Hsd : is_state (sn_rendering s) "degraded" = false) by (apply (state_of_not _ _ _ Hr); simpl; auto).
  assert (Hlf : state_of ["failed"; "degraded"] (sn_local s) = true) by (eapply state_of_is; [|done]; simpl; auto).
  assert (Hms : state_of ["degraded"; "unknown"] (sn_monitoring s) = false).
  { apply String.eqb_eq in Hmon. unfold state_of. by rewrite Hmon. }
  rewrite Hsf, Hsd, Hlf, Hf, Ha, Hy, Hms, andb_false_r in Hch.
  destruct Hch as [[]|[[]|[Hch|[Hch|[Hch|[]]]]]].
  - simpl in Hch. destruct Hch as [<-|[<-|[]]]; [done|simpl in Hle; lia].
  - destruct (is_state (sn_youtube s) "failed"); [|destruct Hch]. rewrite (Hrec eq_refl) in Hch. destruct Hch as [<-|[]]. simpl in Hle. lia.
  - symmetry in Hch. apply for_replacement_action in Hch as [_ E]. rewrite E in Hle. lia.
Qed.
Lemma executes_restart p g mode sup : mode <> "shadow" -> gr_blocked_by g = [] -> pl_execute (build (restart_stream p) g mode sup) = true.
Proof.
  intros Hm Hg. apply String.eqb_neq in Hm. unfold build. cbn [ac_action restart_stream]. change (_steps_for _ sup) with (steps_restart_stream (_is_k8s sup)).
  unfold steps_restart_stream, ready. destruct (_is_k8s sup); cbn [pl_execute]; by rewrite Hg, Hm.
Qed.
End Restart.

Lemma restart_iff `{Repr} `{EventToken} c s now lock d : V2Orchestrator.evaluate c s now lock = Ok d ->
  (od_execute d = true /\ od_action d = "restart_stream")
  <-> cf_mode c <> "shadow" /\ ls_active lock = false /\ consistency_ok s = true /\ is_state (sn_monitoring s) "healthy" = true
      /\ restart_asked s /\ nothing_cheaper s.
Proof.
  intros He. destruct (evaluate_select _ _ _ _ _ He) as (l & ch & g & Hl & Hs & Ha & Hp & Hexec). rewrite Hexec, Hp, Ha. split.
  - intros [Hx Hstream]. destruct (executed_plan _ _ _ _ Hx) as (Hm & _). destruct (select_in _ _ _ Hs) as (Hin & _ & Hpass); [by rewrite Hstream|].
    apply gated_in in Hin as [Hin ->]. assert (Hd : is_destructive (ac_action ch) = true) by by rewrite Hstream.
    destruct (destructive_gates _ _ _ Hpass Hd) as (Hlock & Hc & Hmon). destruct (restart_candidate _ _ _ Hl Hin Hstream) as (p & ->).
    destruct (restart_proposed _ _ _ Hl Hin) as (Hf & [[-> Hact]|[-> Hff]]).
    + split_and!; try done. by apply (cheapest_at_30 _ _ _ _ Hl Hs).
    + exfalso. pose proof (propose_cheap _ _ _ _ _ _ Hl Hs Hff eq_refl eq_refl) as Hle. simpl in Hle. lia.
  - intros (Hm & Hlock & Hc & Hmon & Hask & Hcheap). destruct (chosen_restart _ _ _ _ _ Hl Hs Hlock Hc Hmon Hask Hcheap) as (-> & -> & Hpass).
    split; [|done]. apply executes_restart; [done|]. by apply passed_unblocked.
Qed.
Lemma restart_facts `{Repr} `{EventToken} c s now lock d : V2Orchestrator.evaluate c s now lock = Ok d -> od_execute d = true -> od_action d = "restart_stream" ->
  cf_mode c <> "shadow" /\ ls_active lock = false /\ consistency_ok s = true /\ is_state (sn_monitoring s) "healthy" = true
  /\ restart_asked s /\ nothing_cheaper s.
Proof. intros He Hx Ha. by apply (restart_iff _ _ _ _ _ He). Qed.

(** C22: a plan restarts the stream exactly when the mode is not the shadow mode, no destructive action is in
    progress, the evidence is within the window, monitoring is healthy, the local delivery has failed and
    asks for it, and no cheaper action is due: the rendering has not failed and is not degraded, the
    YouTube life cycle is neither degraded nor unknown, and if it has failed its URL can be recovered.
    Whether a cheaper action could be executed makes no difference. *)
Theorem restart_stream_exactly `{Repr} `{EventToken} c s now lock d : V2Orchestrator.evaluate c s now lock = Ok d ->
  (od_execute d = true /\ od_action d = "restart_stream")
  <-> cf_mode c <> "shadow" /\ ls_active lock = false /\ consistency_ok s = true /\ is_state (sn_monitoring s) "healthy" = true
      /\ restart_asked s /\ nothing_cheaper s.
Proof. apply restart_iff. Qed.
