(* ===== verification/V2Evidence.v ===== *)
(** * Stream v2: what a restart of the stream rests on

    The ages of the evidence of a snapshot, and what the files of the runtime said when
    a plan restarts the stream: from the signals of each subsystem to the choice. *)
From S2P Require Import Prelude PyVal UtcTime FastPolicy EffectModel Contracts AgentObserve Evidence ObservationTime V2Model V2Signals V2Orchestrator V2Proofs.

(** ** Ages *)
Section Ages.
Context `{Repr} `{FromIso} `{FloatOfText} `{EventToken}.
Definition aged (e : EvidenceRecord) : Prop := exists a : Q, er_age e = Some (Fin a).
Lemma evidence_aged n sub name v target now src e : evidence n sub name v target now src = Ok e -> aged e.
Proof. unfold evidence. intros Hv. inv_ok Hv. injection Hv as <-. by eexists. Qed.
Lemma evidence_list_aged n sub src v skip target now names l : evidence_list n sub src v skip target now names = Ok l -> Forall aged l.
Proof.
  revert n l. induction names as [|x names IH]; intros n l; simpl; [by intros [= <-]|]. destruct (skip && _); [apply IH|].
  intros Hv. inv_ok Hv. injection Hv as <-. constructor; [by eapply evidence_aged | by eapply IH].
Qed.
Lemma source_evidence_aged n target now fs l : Monitoring.source_evidence n target now fs = Ok l -> Forall aged l.
Proof.
  revert n l. induction fs as [|f fs IH]; intros n l; simpl; [by intros [= <-]|]. destruct (negb _); [apply IH|].
  intros Hv. inv_ok Hv. injection Hv as <-. constructor; [by eapply evidence_aged | by eapply IH].
Qed.
(** None is older than the oldest. *)
Lemma oldest_upper l e : Forall aged l -> In e l -> exists o a b, oldest l = Some o /\ In o l /\ er_age o = Some (Fin a) /\ er_age e = Some (Fin b) /\ (b <= a)%Q.
Proof.
  unfold oldest. destruct l as [|x l]; [done|]. intros [Hx Hl]%Forall_cons_1 Hin.
  assert (Hgo : forall l best, Forall aged l -> aged best -> let o := fold_left (fun best f =>
      if match er_age best, er_age f with Some a, Some b => pyfloat_lt a b | _, _ => false end then f else best) l best in
    aged o /\ (o = best \/ In o l) /\ forall e, e = best \/ In e l -> exists a b, er_age o = Some (Fin a) /\ er_age e = Some (Fin b) /\ (b <= a)%Q).
  { clear. induction l as [|y l IH]; intros best Hl Hb; simpl.
    - split_and!; [done|by left|]. intros e [->|[]]. destruct Hb as (a & Ha). exists a, a. split_and!; try done. lra.
    - apply Forall_cons_1 in Hl as [Hy Hl]. pose proof Hb as (a & Ha). pose proof Hy as (b & Hyb). rewrite Ha, Hyb. simpl.
      destruct (Qltb_spec a b) as [Hab|Hab].
      + destruct (IH y Hl Hy) as (Ho & Hin & Hup). split_and!; [done|naive_solver|]. intros e [->|[->|Hin2]]; [|apply Hup; auto..].
        destruct (Hup y (or_introl eq_refl)) as (p & q & Hp & Hq & Hle). exists p, a. split_and!; try done. rewrite Hyb in Hq. injection Hq as <-. lra.
      + destruct (IH best Hl Hb) as (Ho & Hin & Hup). split_and!; [done|naive_solver|]. intros e [->|[->|Hin2]]; [apply Hup; auto| |apply Hup; auto].
        destruct (Hup best (or_introl eq_refl)) as (p & q & Hp & Hq & Hle). exists p, b. split_and!; try done. rewrite Ha in Hq. injection Hq as <-. lra. }
  destruct (Hgo l x Hl Hx) as (Ho & Hmem & Hup). destruct (Hup e) as (a & b & Ha & Hb & Hle); [naive_solver|].
  eexists _, a, b. split_and!; try done. simpl. naive_solver.
Qed.
End Ages.

(** ** What the states say of the files *)
Section States.
Context `{Repr} `{FromIso} `{FloatOfText} `{EventToken}.
Lemma recent_age v now age limit : age_of v now = Ok age -> recent age limit = true -> exists t, parse_utc v = Ok (Some t) /\ (now - t <= limit)%Q.
Proof.
  unfold age_of. intros Ha. inv_ok Ha. injection Ha as <-. unfold age_seconds, recent. destruct v0 as [t|]; simpl; [|done].
  intros Hl%Qleb_true. exists t. split; [done|]. pose proof (qmax_spec 0 (now - t)) as (_ & Hm & _). lra.
Qed.
Lemma rmap_list_In {A B} (f : A -> res B) l l' : rmap_list f l = Ok l' -> forall x, In x l -> exists y, f x = Ok y /\ In y l'.
Proof.
  revert l'. induction l as [|x l IH]; intros l'; simpl; [done|]. intros Hv. inv_ok Hv. injection Hv as <-.
  intros z [->|Hz]; [simpl; eauto|]. destruct (IH _ E0 _ Hz) as (y & Hy & Hin). simpl. eauto.
Qed.

(** A source of monitoring that has been written within its lifetime. *)
Definition fresh_source (now : Q) (sp : Monitoring.source_spec) : Prop :=
  given (Monitoring.sp_payload sp) = true
  /\ exists t, parse_utc (VStr (Monitoring._observed_ts (Monitoring.sp_payload sp))) = Ok (Some t) /\ (now - t <= Monitoring.sp_ttl sp)%Q.
Lemma monitoring_healthy ytw resolver cost stats timeline r1 r2 eng hist target now st :
  Monitoring.evaluate ytw resolver cost stats timeline r1 r2 eng hist target now = Ok st -> is_state st "healthy" = true ->
  Forall (fresh_source now) (Monitoring.base_specs ytw resolver cost stats timeline)
  /\ says_yes (dget ytw "api_cost_burn_rate_active" VNone) = false /\ says_yes (dget cost "quota_guard_active" VNone) = false.
Proof.
  unfold Monitoring.evaluate, Monitoring.collect_rich_signals. intros Hv. inv_ok Hv. injection Hv as <-. inv_ok E. injection E as <-.
  unfold is_state, Monitoring.decide. cbn [ss_state status]. cbn [Monitoring.quota_guard_active Monitoring.cost_report_degraded].
  destruct (says_yes (dget ytw _ _)) eqn:Eq1; [cbn [orb sd_state]; intros Hd; discriminate Hd|].
  destruct (says_yes (dget cost _ _)) eqn:Eq2; [cbn [orb sd_state]; intros Hd; discriminate Hd|].
  destruct (String.eqb _ "degraded"); [cbn [orb sd_state]; intros Hd; discriminate Hd|]. cbn [orb].
  destruct (none_of (Monitoring.stale_names _)) eqn:En; [|by destruct (none_of (Monitoring.fresh_names _))].
  intros _. split; [|done]. apply none_of_nil in En. apply List.Forall_forall. intros sp Hsp.
  destruct (rmap_list_In _ _ _ E2 sp) as (fr & Hfr & Hin); [apply in_or_app; by left|]. clear E2.
  assert (Hf : Monitoring.sf_fresh fr = true).
  { unfold Monitoring.stale_names, Monitoring.names_of in En. apply map_eq_nil in En. apply not_false_iff_true. intros Ef.
    assert (Hb : In fr (List.filter (fun f => negb (Monitoring.sf_fresh f)) v2)) by (apply filter_In; by rewrite Ef). cbn [Monitoring.sources] in En. by rewrite En in Hb. }
  unfold Monitoring.freshness in Hfr. inv_ok Hfr. injection Hfr as <-. cbn [Monitoring.sf_fresh] in Hf. apply andb_true_iff in Hf as [Hg Hr].
  split; [done|]. by eapply recent_age.
Qed.

(** The URL of the expected broadcast is live or can be made live again, and no other one has been found. *)
Definition url_recoverable (ytw : dict) : bool :=
  says_yes (first_of ytw ["public_ok"; "availability_ok"]) || is_false (dget ytw "oauth_enable_auto_stop" VNone)
  || says_yes (dget ytw "force_current_broadcast_live_allowed" VNone).
Definition no_candidate (ytw resolver : dict) : bool :=
  negb (says_yes (dget ytw "candidate_new_url_found" VNone)) && negb (says_yes (dget resolver "candidate_new_url_found" VNone)).
Lemma youtube_settled ytw resolver cost target now st :
  YouTubeLifecycle.evaluate ytw resolver cost target now = Ok st -> state_of ["degraded"; "unknown"] st = false ->
  (is_state st "failed" = true -> truthy (dget (ss_extra st) "current_url_recoverable" VNone) = true) ->
  url_recoverable ytw = true /\ no_candidate ytw resolver = true.
Proof.
  unfold YouTubeLifecycle.evaluate, YouTubeLifecycle.collect_signals. intros Hv. inv_ok Hv. injection Hv as <-. inv_ok E. injection E as <-.
  unfold state_of, is_state. cbn [ss_state ss_extra status]. unfold YouTubeLifecycle.decide, url_recoverable, no_candidate.
  cbn [YouTubeLifecycle.candidate_found YouTubeLifecycle.public_ok YouTubeLifecycle.has_watchdog_input YouTubeLifecycle.failure_kind].
  destruct (says_yes (dget ytw "candidate_new_url_found" VNone)); [cbn [orb]; by destruct (says_yes _)|].
  destruct (says_yes (dget resolver "candidate_new_url_found" VNone)); [cbn [orb]; by destruct (says_yes _)|]. cbn [orb negb andb].
  destruct (negb _ && negb _); [by destruct (says_yes _)|].
  cbn [first_of]. destruct (says_yes (py_or (dget ytw "public_ok" VNone) _)); cbn [orb andb]; [done|].
  destruct (given ytw); [|done]. destruct (listed_in _ ["remote_ended"; _]); [|done].
  cbn [sd_state]. intros _ Hrec. split; [|done]. specialize (Hrec eq_refl).
  by destruct (is_false _ || _).
Qed.

(** The restart of the fast recovery that counts, and what it must say. *)
Definition restart_event (i : RuntimeInputs) : dict :=
  if given (latest_fast_recovery_restart_event i) then latest_fast_recovery_restart_event i else latest_fast_recovery_event i.
Definition restarted_lately (e : dict) (now : Q) : Prop :=
  lower_text (dget e "kind" VNone) = "restart" /\ has_key (LocalDelivery.trigger_of e) LocalDelivery.FAST_RECOVERY_STREAM_RESTART_FAILURE_BY_TRIGGER = true
  /\ exists t, parse_utc (dget e "ts_utc" VNone) = Ok (Some t) /\ (now - t <= 180)%Q.
Definition ffmpeg_twice (stats : dict) : Prop := exists n, _int (dget stats "ffmpeg_count" VNone) 0 = Ok n /\ 1 < n.
Lemma existsb_only_if (f : string -> bool) b s : existsb f (only_if b s) = b && f s.
Proof. destruct b; simpl; [by rewrite orb_false_r | done]. Qed.
Lemma restart_failures s : existsb (fun f => listed_in f LocalDelivery.FAST_RECOVERY_STREAM_RESTART_FAILURES) (LocalDelivery.failure_names s) = true ->
  LocalDelivery.stream_restart_recent s = true.
Proof.
  unfold LocalDelivery.failure_names. rewrite !existsb_app, !existsb_only_if. destruct (LocalDelivery.stream_restart_recent s); [done|].
  change (listed_in LocalDelivery.FAILURE_STREAM_FFMPEG_DUPLICATE _) with false. change (listed_in LocalDelivery.FAILURE_FFMPEG_MISSING _) with false.
  change (listed_in LocalDelivery.FAILURE_INGEST_DISCONNECTED _) with false. change (listed_in LocalDelivery.FAILURE_RUNTIME_HEARTBEAT_STALE _) with false.
  change (listed_in LocalDelivery.FAILURE_TCP_STALL _) with false. by rewrite !andb_false_r.
Qed.
Lemma decide_restart s any : sd_action (LocalDelivery.decide s any) = "restart_stream" ->
  LocalDelivery.stream_restart_recent s = true \/ In LocalDelivery.FAILURE_STREAM_FFMPEG_DUPLICATE (LocalDelivery.failure_names s).
Proof.
  unfold LocalDelivery.decide. destruct (LocalDelivery.has_healthy_signal s && _); [done|].
  destruct (existsb _ _) eqn:Ef; [intros _; left; by apply restart_failures|].
  destruct (listed_in LocalDelivery.FAILURE_TCP_STALL _); [done|].
  destruct (listed_in LocalDelivery.FAILURE_STREAM_FFMPEG_DUPLICATE _) eqn:Ed; [intros _; right; by apply listed_in_In|].
  destruct (listed_in LocalDelivery.FAILURE_FFMPEG_MISSING _); [done|]. destruct (_ || _); [done|]. by destruct (LocalDelivery.has_healthy_signal s).
Qed.
Lemma duplicate_failure s : In LocalDelivery.FAILURE_STREAM_FFMPEG_DUPLICATE (LocalDelivery.failure_names s) -> 1 < LocalDelivery.ffmpeg_count s.
Proof.
  unfold LocalDelivery.failure_names. rewrite !in_app_iff, !In_only_if. intros [Hin|[[Hc%Z.ltb_lt _]|Hin]]; [|done|].
  - exfalso. destruct (LocalDelivery.stream_restart_recent s); [|destruct Hin]. destruct (dict_get _ _) as [f|] eqn:Eg; [|destruct Hin].
    destruct Hin as [->|[]]. revert Eg. unfold LocalDelivery.FAST_RECOVERY_STREAM_RESTART_FAILURE_BY_TRIGGER. simpl.
    repeat (destruct (String.eqb _ _); [discriminate|]). discriminate.
  - exfalso. destruct Hin as [[_ E]|[[_ E]|[[_ E]|[_ E]]]]; discriminate E.
Qed.
Lemma local_restart ytw stats timeline runtime fast restart eng reason stage target now st :
  LocalDelivery.evaluate ytw stats timeline runtime fast restart eng reason stage target now = Ok st -> ss_action st = "restart_stream" ->
  restarted_lately (if given restart then restart else fast) now \/ ffmpeg_twice stats.
Proof.
  unfold LocalDelivery.evaluate. intros Hv. inv_ok Hv. injection Hv as <-. cbn [ss_action status]. intros Ha.
  unfold LocalDelivery.collect_signals in E. inv_ok E. apply decide_restart in Ha as [Ha|Ha%duplicate_failure].
  - left. injection E as <-. cbn [LocalDelivery.stream_restart_recent] in Ha. apply andb_true_iff in Ha as [[Hk Ht]%andb_true_iff Hr].
    apply String.eqb_eq in Hk. split_and!; try done. eapply recent_age; eauto.
  - right. injection E as <-. cbn [LocalDelivery.ffmpeg_count] in Ha. eexists. eauto.
Qed.
End States.

(** ** From the files to the restart *)
Section FromFiles.
Context `{Repr} `{FromIso} `{FloatOfText} `{EventToken}.
Lemma aggregate_parts c i now sli s : aggregate c i now sli = Ok s ->
  exists target, let ytw := youtube_watchdog_stats i in let stats := stream_watchdog_stats i in let timeline := latest_watchdog_timeline_event i in
    LocalDelivery.evaluate ytw stats timeline (latest_runtime_state i) (latest_fast_recovery_event i) (latest_fast_recovery_restart_event i)
      (latest_stream_engine_event i) (restart_reason i) (recovery_stage_state i) target now = Ok (sn_local s)
    /\ YouTubeLifecycle.evaluate ytw (youtube_video_id_resolver_state i) (api_cost_latest i) target now = Ok (sn_youtube s)
    /\ Monitoring.evaluate ytw (youtube_video_id_resolver_state i) (api_cost_latest i) stats timeline (latest_stream1090_report i)
         (latest_upstream_stream1090_report i) (latest_stream_engine_event i) (latest_play_history_event i) target now = Ok (sn_monitoring s)
    /\ Forall aged (concat (map ss_records (subsystems s)))
    /\ ov_max_window (sn_overall s) = Fin (cf_max_window c)
    /\ sn_ts s = isoformat_utc now
    /\ (let valid := List.filter (fun e => match er_age e with Some _ => true | None => false end) (concat (map ss_records (subsystems s))) in
        ov_window (sn_overall s) = match oldest (or_else (control_evidence (cf_max_window c) valid) valid) with Some e => er_age e | None => None end).
Proof.
  unfold aggregate. intros Hv. inv_ok Hv. destruct (overall_of _ _) as [st why] in Hv. injection Hv as <-. exists (_target c (youtube_watchdog_stats i) (youtube_video_id_resolver_state i) (latest_runtime_state i)).
  cbn [sn_local sn_youtube sn_monitoring sn_overall ov_max_window ov_window sn_ts subsystems sn_rendering sn_music map]. split_and!; try done.
  cbn [concat]. rewrite !Forall_app, Forall_nil. split_and!; [| | | | |done].
  - unfold Rendering.evaluate in E. inv_ok E. injection E as <-. by eapply evidence_list_aged.
  - unfold Music.evaluate in E0. inv_ok E0. injection E0 as <-. by eapply evidence_list_aged.
  - unfold LocalDelivery.evaluate in E1. inv_ok E1. injection E1 as <-. by eapply evidence_list_aged.
  - unfold YouTubeLifecycle.evaluate in E2. inv_ok E2. injection E2 as <-. by eapply evidence_list_aged.
  - unfold Monitoring.evaluate in E3. inv_ok E3. injection E3 as <-. by eapply source_evidence_aged.
Qed.
Lemma aged_valid l : Forall aged l -> List.filter (fun e => match er_age e with Some _ => true | None => false end) l = l.
Proof. induction 1 as [|e l (a & He) Hl IH]; [done|]. simpl. by rewrite He, IH. Qed.
(** The evidence that counts is within the window where the snapshot says so. *)
Definition counts (window : Q) (e : EvidenceRecord) : Prop := In e (control_evidence window [e]).
Lemma window_upper c i now sli s e : aggregate c i now sli = Ok s -> In e (concat (map ss_records (subsystems s))) -> counts (cf_max_window c) e ->
  exists a b, ov_window (sn_overall s) = Some (Fin a) /\ er_age e = Some (Fin b) /\ (b <= a)%Q.
Proof.
  intros Hs Hin Hcount. destruct (aggregate_parts _ _ _ _ _ Hs) as (_ & _ & _ & _ & Haged & _ & _ & Hwin).
  cbv zeta in Hwin. rewrite (aged_valid _ Haged) in Hwin. set (l := concat _) in *.
  assert (Hmem : In e (control_evidence (cf_max_window c) l)).
  { unfold counts, control_evidence in *. rewrite filter_In in *. naive_solver. }
  assert (Hsome : or_else (control_evidence (cf_max_window c) l) l = control_evidence (cf_max_window c) l) by by destruct (control_evidence _ l).
  rewrite Hsome in Hwin. destruct (oldest_upper (control_evidence (cf_max_window c) l) e) as (o & a & b & Ho & _ & Ha & Hb & Hle); [|done|].
  { apply List.Forall_forall. intros x Hx. unfold control_evidence in Hx. apply filter_In in Hx as [Hx _]. rewrite List.Forall_forall in Haged. by apply Haged. }
  exists a, b. by rewrite Hwin, Ho.
Qed.
Lemma within_fin a w : within_window (Some (Fin a)) (Fin w) = true -> (a <= w)%Q.
Proof.
  unfold within_window, pyfloat_le. intros [Hc|Hc]%orb_true_iff; simpl in Hc; [apply Qltb_true in Hc; lra|]. apply Qeq_bool_iff in Hc. lra.
Qed.
Lemma window_covers c i now sli s : aggregate c i now sli = Ok s -> consistency_ok s = true ->
  forall e, In e (concat (map ss_records (subsystems s))) -> counts (cf_max_window c) e -> exists a, er_age e = Some (Fin a) /\ (a <= cf_max_window c)%Q.
Proof.
  intros Hs Hc e Hin Hcount. destruct (window_upper _ _ _ _ _ _ Hs Hin Hcount) as (a & b & Hw & Hb & Hle).
  destruct (aggregate_parts _ _ _ _ _ Hs) as (_ & _ & _ & _ & _ & Hmax & _). unfold consistency_ok in Hc. rewrite Hw, Hmax in Hc. apply within_fin in Hc.
  exists b. split; [done|lra].
Qed.
End FromFiles.

(** C17: a plan made from the files of the runtime restarts the stream only when the mode is not the shadow
    mode and no destructive action is in progress; when the fast recovery has restarted for a known reason
    in the last three minutes or more than one ffmpeg runs; when the files of the YouTube watchdog, of the
    resolver, of the cost report and of the stream watchdog were each written within their lifetime and
    show no quota guard; when the broadcast is live or its URL can be recovered, and no other broadcast was
    found; and when every piece of evidence that counts is within the window. *)
Theorem restart_needs_evidence `{Repr} `{FromIso} `{FloatOfText} `{EventToken} c i now sli s later lock d :
  aggregate c i now sli = Ok s -> V2Orchestrator.evaluate c s later lock = Ok d -> od_execute d = true -> od_action d = "restart_stream" ->
  let ytw := youtube_watchdog_stats i in
  cf_mode c <> "shadow" /\ ls_active lock = false
  /\ (restarted_lately (restart_event i) now \/ ffmpeg_twice (stream_watchdog_stats i))
  /\ Forall (fresh_source now) (Monitoring.base_specs ytw (youtube_video_id_resolver_state i) (api_cost_latest i) (stream_watchdog_stats i) (latest_watchdog_timeline_event i))
  /\ says_yes (dget ytw "api_cost_burn_rate_active" VNone) = false /\ says_yes (dget (api_cost_latest i) "quota_guard_active" VNone) = false
  /\ url_recoverable ytw = true /\ no_candidate ytw (youtube_video_id_resolver_state i) = true
  /\ (forall e, In e (concat (map ss_records (subsystems s))) -> counts (cf_max_window c) e -> exists a, er_age e = Some (Fin a) /\ (a <= cf_max_window c)%Q).
Proof.
  intros Hs He Hx Ha. cbv zeta. destruct (restart_facts _ _ _ _ _ He Hx Ha) as (Hm & Hl & Hc & Hmon & (_ & Hact) & _ & Hy & Hrec).
  destruct (aggregate_parts _ _ _ _ _ Hs) as (target & Hlocal & Hyt & Hmo & _). destruct (monitoring_healthy _ _ _ _ _ _ _ _ _ _ _ _ Hmo Hmon) as (Hfresh & Hq1 & Hq2).
  destruct (youtube_settled _ _ _ _ _ _ Hyt Hy Hrec) as [Hurl Hcand]. split_and!; try done.
  - by apply (local_restart _ _ _ _ _ _ _ _ _ _ _ _ Hlocal).
  - by eapply window_covers.
Qed.
