(* ===== verification/V2Stored.v ===== *)
(** * Stream v2: the snapshot and its file

    A snapshot comes back from its file with its ages rounded to milliseconds, every
    snapshot the aggregator makes does, and how old the evidence of a decision made
    from the file can be. *)
From S2P Require Import Prelude PyVal UtcTime FastPolicy EffectModel Contracts AgentObserve Evidence ObservationTime V2Model V2Signals V2Orchestrator V2Proofs V2Evidence.

Section Dicts.
Context {A : Type}.
Implicit Types d e : list (string * A).
Lemma dict_set_new k v d : ~ In k (map fst d) -> dict_set k v d = d ++ [(k, v)].
Proof.
  induction d as [|[k' v'] d IH]; simpl; [done|]. intros Hn. destruct (String.eqb_spec k k') as [->|]; [naive_solver|]. by rewrite IH by naive_solver.
Qed.
(** An update with new keys appends them. *)
Lemma dict_update_new d e : NoDup (map fst e) -> (forall k, In k (map fst e) -> ~ In k (map fst d)) -> dict_update d e = d ++ e.
Proof.
  unfold dict_update. revert d. induction e as [|[k v] e IH]; intros d; simpl; [by rewrite app_nil_r|]. intros [Hk He]%NoDup_cons Hd.
  rewrite dict_set_new by (apply Hd; by left). rewrite IH; [by rewrite <- app_assoc | done|]. intros k' Hk'. rewrite map_app, in_app_iff. simpl.
  intros [Hin|[->|[]]]; [by apply (Hd k'); [right|]|]. apply Hk. by apply list_elem_of_In.
Qed.
Lemma filter_keys_out (p : string -> bool) d : (forall k, In k (map fst d) -> p k = false) -> List.filter (fun kv => p (fst kv)) d = [].
Proof. induction d as [|[k v] d IH]; simpl; [done|]. intros Hp. rewrite (Hp k) by auto. apply IH. auto. Qed.
Lemma filter_keys_in (p : string -> bool) d : (forall k, In k (map fst d) -> p k = true) -> List.filter (fun kv => p (fst kv)) d = d.
Proof. induction d as [|[k v] d IH]; simpl; [done|]. intros Hp. rewrite (Hp k) by auto. f_equal. apply IH. auto. Qed.
End Dicts.

(** ** The rounded snapshot *)
Definition rounded_evidence (e : EvidenceRecord) : EvidenceRecord :=
  mkEvidence (er_source e) (er_event_id e) (er_subsystem e) (er_name e) (er_verdict e) (er_observed_at e) (option_map rounded (er_age e)) (er_ttl e)
    (er_confidence e) (er_target e) (er_raw_ref e).
Definition rounded_status (s : SubsystemStatus) : SubsystemStatus :=
  mkStatus (ss_name s) (ss_state s) (ss_confidence s) (ss_evidence s) (map rounded_evidence (ss_records s)) (option_map rounded (ss_age s)) (ss_last_ok s)
    (ss_caused_by s) (ss_affects s) (ss_action s) (ss_blocked_by s) (ss_extra s).
Definition rounded_overall (o : OverallStatus) : OverallStatus :=
  mkOverall (ov_state o) (ov_public o) (ov_video_id o) (ov_url_state o) (ov_degraded o) (ov_oldest o) (option_map rounded (ov_window o)) (ov_max_window o)
    (ov_sli o) (ov_action o) (ov_scope o) (ov_reason o).
Definition rounded_snapshot (s : SubsystemsSnapshot) : SubsystemsSnapshot :=
  mkSnapshot (sn_ts s) (sn_version s) (sn_run_id s) (rounded_overall (sn_overall s)) (rounded_status (sn_rendering s)) (rounded_status (sn_music s))
    (rounded_status (sn_local s)) (rounded_status (sn_youtube s)) (rounded_status (sn_monitoring s)).

(** What comes back: the words that have a default are there, and the extra keys are no others. *)
Definition storable_evidence (e : EvidenceRecord) : Prop := er_confidence e <> "".
Record storable_status (name : string) (s : SubsystemStatus) : Prop := {
  st_name : ss_name s = name; st_state : ss_state s <> ""; st_confidence : ss_confidence s <> ""; st_action : ss_action s <> "";
  st_records : Forall storable_evidence (ss_records s);
  st_once : NoDup (map fst (ss_extra s)); st_extra : forall k, In k (map fst (ss_extra s)) -> ~ In k _SUBSYSTEM_BASE_KEYS }.
Record storable (s : SubsystemsSnapshot) : Prop := {
  sb_version : sn_version s <> 0; sb_state : ov_state (sn_overall s) <> ""; sb_public : ov_public (sn_overall s) <> ""; sb_url : ov_url_state (sn_overall s) <> "";
  sb_action : ov_action (sn_overall s) <> ""; sb_scope : ov_scope (sn_overall s) <> "";
  sb_rendering : storable_status "rendering" (sn_rendering s); sb_music : storable_status "music" (sn_music s); sb_local : storable_status "local_delivery" (sn_local s);
  sb_youtube : storable_status "youtube_lifecycle" (sn_youtube s); sb_monitoring : storable_status "monitoring" (sn_monitoring s) }.

Section Back.
Context `{Repr} `{FromIso} `{FloatOfText}.
Lemma text_VStr s : text (VStr s) = s.
Proof. done. Qed.
Lemma text_or_given s dflt : s <> "" -> text (py_or (VStr s) (VStr dflt)) = s.
Proof. intros Hs. unfold py_or, truthy. apply String.eqb_neq in Hs. by rewrite Hs. Qed.
Lemma age_back f : _float (float_py f) = Ok f.
Proof. by destruct f. Qed.
Lemma strings_back l : map py_str (_list (texts_py l)) = l.
Proof. simpl. rewrite map_map. apply map_id. Qed.
Lemma record_back e : storable_evidence e -> _evidence_from_payload (_dict (evidence_dict e)) = Ok (rounded_evidence e).
Proof.
  intros Hc. unfold _evidence_from_payload, evidence_dict. cbn -[text _float py_or float_py]. unfold _float_or_none. rewrite age_back.
  cbn -[text py_or]. unfold rounded_evidence. unfold text_at, text_or. cbn -[py_or]. by rewrite (text_or_given _ "unknown" Hc).
Qed.
Lemma records_back l : Forall storable_evidence l -> rmap_list _evidence_from_payload (dicts (map evidence_dict l)) = Ok (map rounded_evidence l).
Proof.
  induction 1 as [|e l He Hl IH]; [done|].
  assert (E : dicts (map evidence_dict (e :: l)) = _dict (evidence_dict e) :: dicts (map evidence_dict l)) by done.
  rewrite E. cbn [rmap_list]. rewrite (record_back _ He), IH. done.
Qed.
Lemma status_dict_app name s : storable_status name s ->
  status_dict s = [("state", VStr (ss_state s)); ("confidence", VStr (ss_confidence s)); ("evidence", texts_py (ss_evidence s));
     ("evidence_records", VList (map evidence_dict (ss_records s))); ("evidence_age_sec", float_py (option_map rounded (ss_age s)));
     ("last_ok_ts_utc", VStr (ss_last_ok s)); ("caused_by_subsystems", texts_py (ss_caused_by s)); ("affects_subsystems", texts_py (ss_affects s));
     ("recommended_action", VStr (ss_action s)); ("blocked_by", texts_py (ss_blocked_by s))] ++ ss_extra s.
Proof. intros Hs. unfold status_dict. apply dict_update_new; [apply (st_once _ _ Hs)|]. intros k Hk. apply (st_extra _ _ Hs k Hk). Qed.
Lemma status_back name s : storable_status name s -> _subsystem_from_payload name (status_dict s) = Ok (rounded_status s).
Proof.
  intros Hs. rewrite (status_dict_app _ _ Hs). unfold _subsystem_from_payload, text_or, text_at, strings_at, dget.
  assert (Hf : List.filter (fun kv : string * pyval => extra_key (fst kv)) (ss_extra s) = ss_extra s).
  { apply filter_keys_in. intros k Hk. unfold extra_key.
    apply negb_true_iff, bool_decide_eq_false. rewrite list_elem_of_In. apply (st_extra _ _ Hs k Hk). }
  rewrite List.filter_app, Hf. clear Hf.
  cbn -[text py_or _float float_py texts_py rmap_list dicts _list]. cbn [_list]. rewrite (records_back _ (st_records _ _ Hs)). cbn [rbind]. unfold _float_or_none. rewrite age_back.
  cbn [rbind]. rewrite !strings_back. rewrite !text_or_given by apply Hs. unfold rounded_status. by rewrite (st_name _ _ Hs).
Qed.
Lemma snapshot_back s more : storable s -> snapshot_from_payload (snapshot_dict s ++ more) = Ok (rounded_snapshot s).
Proof.
  intros Hs. unfold snapshot_from_payload, snapshot_dict. unfold text_at, text_or, strings_at, dget.
  cbn -[text py_or _float float_py float_or texts_py _subsystem_from_payload status_dict py_int _list rbind]. unfold _float_or_none. rewrite age_back.
  assert (Ev : py_int (py_or (VInt (sn_version s)) (VInt 1)) = Ok (sn_version s)).
  { unfold py_or, truthy. pose proof (sb_version _ Hs) as Hv. apply Z.eqb_neq in Hv. by rewrite Hv. }
  rewrite Ev. cbn [rbind]. unfold float_or. cbn [_float py_float rbind default].
  rewrite (status_back "rendering" _ (sb_rendering _ Hs)), (status_back "music" _ (sb_music _ Hs)), (status_back "local_delivery" _ (sb_local _ Hs)),
    (status_back "youtube_lifecycle" _ (sb_youtube _ Hs)), (status_back "monitoring" _ (sb_monitoring _ Hs)).
  cbn [rbind]. rewrite !strings_back. rewrite !text_or_given by apply Hs. done.
Qed.
Lemma attach_snapshot s m : exists more, attach (snapshot_dict s) "subsystems" m = snapshot_dict s ++ more.
Proof. unfold attach. eexists. apply dict_set_new. simpl. intuition discriminate. Qed.
End Back.

(** ** Every snapshot of the aggregator comes back *)
Section Storable.
Context `{Repr} `{FromIso} `{FloatOfText} `{EventToken}.
Definition settled (d : SubsystemDecision) : Prop := sd_state d <> "" /\ sd_confidence d <> "" /\ sd_action d <> "".
Ltac branches := repeat match goal with |- settled (if ?b then _ else _) => destruct b end; unfold settled; cbn [sd_state sd_confidence sd_action];
  repeat match goal with |- context [if ?b then _ else _] => destruct b end; split_and!; discriminate.
Lemma rendering_settled s any : settled (Rendering.decide s any).
Proof. unfold Rendering.decide, unknown. branches. Qed.
Lemma music_settled s any : settled (Music.decide s any).
Proof. unfold Music.decide, unknown. branches. Qed.
Lemma local_settled s any : settled (LocalDelivery.decide s any).
Proof. unfold LocalDelivery.decide, unknown. branches. Qed.
Lemma youtube_settled_decision s : settled (YouTubeLifecycle.decide s).
Proof. unfold YouTubeLifecycle.decide, unknown. branches. Qed.
Lemma monitoring_settled s : settled (Monitoring.decide s).
Proof. unfold Monitoring.decide. branches. Qed.

Lemma evidence_storable n sub name v target now src e : evidence n sub name v target now src = Ok e -> storable_evidence e.
Proof. unfold evidence. intros Hv. inv_ok Hv. injection Hv as <-. done. Qed.
Lemma evidence_list_storable n sub src v skip target now names l : evidence_list n sub src v skip target now names = Ok l -> Forall storable_evidence l.
Proof.
  revert n l. induction names as [|x names IH]; intros n l; simpl; [by intros [= <-]|]. destruct (skip && _); [apply IH|].
  intros Hv. inv_ok Hv. injection Hv as <-. constructor; [by eapply evidence_storable | by eapply IH].
Qed.
Lemma source_evidence_storable n target now fs l : Monitoring.source_evidence n target now fs = Ok l -> Forall storable_evidence l.
Proof.
  revert n l. induction fs as [|f fs IH]; intros n l; simpl; [by intros [= <-]|]. destruct (negb _); [apply IH|].
  intros Hv. inv_ok Hv. injection Hv as <-. constructor; [by eapply evidence_storable | by eapply IH].
Qed.
(** The keys an evaluator adds: each once, none of the status itself. *)
Definition further_keys (keys : list string) : bool := bool_decide (NoDup keys) && forallb (fun k => negb (listed_in k _SUBSYSTEM_BASE_KEYS)) keys.
Lemma status_storable name d records extra : settled d -> Forall storable_evidence records -> further_keys (map fst extra) = true ->
  storable_status name (status name d records extra).
Proof.
  intros (Hs & Hc & Ha) Hr [Hk1 Hk2]%andb_true_iff. constructor; cbn [ss_name ss_state ss_confidence ss_action ss_records ss_extra status]; try done.
  - by apply bool_decide_eq_true in Hk1.
  - intros k Hk. rewrite forallb_forall in Hk2. apply Hk2, negb_true_iff in Hk. intros Hin. apply listed_in_In in Hin. by rewrite Hin in Hk.
Qed.
Lemma find_In_l {A} (p : A -> bool) l x : List.find p l = Some x -> In x l.
Proof. intros Hf. by apply find_some in Hf as [Hf _]. Qed.
Lemma first_action_given l : _first_recommended_action l <> "".
Proof.
  unfold _first_recommended_action. set (acts := List.filter _ _). assert (Ha : forall a, In a acts -> a <> "").
  { intros a Hin. unfold acts in Hin. apply filter_In in Hin as [_ Hn]. apply andb_true_iff in Hn as [Hn _]. by apply negb_true_iff, String.eqb_neq in Hn. }
  destruct (List.find _ RECOMMENDED) as [a|] eqn:Ef.
  - apply find_some in Ef as [_ Hl]. apply listed_in_In in Hl. by apply Ha.
  - destruct acts as [|a l']; [done|]. simpl. apply Ha. by left.
Qed.
Lemma scope_given action l : Forall (fun s => ss_name s <> "") l -> _action_scope action l <> "".
Proof.
  intros Hl. unfold _action_scope. destruct (List.find _ l) as [s|] eqn:Ef; [|done]. apply find_In_l in Ef. rewrite List.Forall_forall in Hl. by apply Hl.
Qed.
Lemma overall_given b l : (overall_of b l).1 <> "".
Proof. unfold overall_of. repeat match goal with |- context [if ?b then _ else _] => destruct b end; done. Qed.
Lemma public_given url local : public_state url local <> "".
Proof. unfold public_state. repeat match goal with |- context [if ?b then _ else _] => destruct b end; done. Qed.

Lemma aggregate_storable c i now sli s : aggregate c i now sli = Ok s -> storable s.
Proof.
  unfold aggregate. intros Hv. inv_ok Hv.
  assert (Hr : storable_status "rendering" v).
  { unfold Rendering.evaluate in E. inv_ok E. injection E as <-. apply status_storable; [apply rendering_settled | by eapply evidence_list_storable | by vm_compute]. }
  assert (Hm : storable_status "music" v0).
  { unfold Music.evaluate in E0. inv_ok E0. injection E0 as <-. apply status_storable; [apply music_settled | by eapply evidence_list_storable | by vm_compute]. }
  assert (Hl : storable_status "local_delivery" v1).
  { unfold LocalDelivery.evaluate in E1. inv_ok E1. injection E1 as <-. apply status_storable; [apply local_settled | by eapply evidence_list_storable | by vm_compute]. }
  assert (Hu : exists u, dget (ss_extra v2) "expected_url_state" VNone = VStr u /\ u <> "").
  { unfold YouTubeLifecycle.evaluate, YouTubeLifecycle.collect_signals in E2. inv_ok E2. injection E2 as <-. inv_ok E4. injection E4 as <-. cbn [ss_extra status].
    eexists. split; [reflexivity|]. cbn [YouTubeLifecycle.expected_url_state]. repeat match goal with |- context [if ?b then _ else _] => destruct b end; done. }
  assert (Hy : storable_status "youtube_lifecycle" v2).
  { unfold YouTubeLifecycle.evaluate in E2. inv_ok E2. injection E2 as <-.
    apply status_storable; [apply youtube_settled_decision | by eapply evidence_list_storable | by vm_compute]. }
  assert (Ho : storable_status "monitoring" v3).
  { unfold Monitoring.evaluate in E3. inv_ok E3. injection E3 as <-. apply status_storable; [apply monitoring_settled | by eapply source_evidence_storable | by vm_compute]. }
  destruct (overall_of _ _) as [st why] eqn:Eo in Hv. injection Hv as <-. destruct Hu as (u & Hu & Hne).
  constructor; cbn [sn_version sn_overall ov_state ov_public ov_url_state ov_action ov_scope sn_rendering sn_music sn_local sn_youtube sn_monitoring]; try done.
  - match type of Eo with overall_of ?b ?l = _ => pose proof (overall_given b l) as Hg end. by rewrite Eo in Hg.
  - apply public_given.
  - rewrite Hu. by rewrite text_or_given.
  - apply first_action_given.
  - destruct (String.eqb _ "none"); [done|]. apply scope_given. repeat constructor; [by rewrite (st_name _ _ Hr)|by rewrite (st_name _ _ Hm)|by rewrite (st_name _ _ Hl)|by rewrite (st_name _ _ Hy)|by rewrite (st_name _ _ Ho)].
Qed.
End Storable.

(** ** The age of the evidence of a decision *)
Section Age.
Context `{Repr} `{FromIsoLaw} `{FloatOfText} `{EventToken}.
Lemma parse_isoformat t : MIN_TS <= Qfloor t <= MAX_TS -> V2Model.parse_utc (VStr (isoformat_utc t)) = Ok (Some (inject_Z (Qfloor t) - 0)%Q).
Proof.
  intros Hz. unfold V2Model.parse_utc, isoformat_utc. set (z := Qfloor t) in *.
  assert (strip (iso_seconds z ++ "Z") = (iso_seconds z ++ "Z")%string) as ->.
  { unfold strip. rewrite <- rstrip_Z at 2. f_equal.
    destruct (iso_seconds_head z) as (n & s & Hn & ->); [lia|]. by apply (lstrip_digit n). }
  rewrite ends_with_Z, drop_last_Z, fromiso_text by lia.
  assert (E : String.eqb (iso_seconds z ++ "Z") "" = false) by (by destruct (iso_seconds z)). rewrite E.
  assert (Hr : Qleb (inject_Z MIN_TS) (inject_Z z - 0) && Qltb (inject_Z z - 0) (inject_Z (MAX_TS + 1)) = true).
  { apply andb_true_iff. split; [apply Qleb_true | apply Qltb_true]; unfold Qminus, Qle, Qlt; simpl; lia. }
  by rewrite Hr.
Qed.
Lemma round3_upper a : (a <= round3 a + (1 # 2000))%Q.
Proof.
  unfold round3. pose proof (round_even_error (a * 1000)) as He. set (n := inject_Z _) in *.
  assert (Hle : (a * 1000 - n <= 1 # 2)%Q) by (revert He; unfold qabs; destruct (Qleb _ _) eqn:E; qcases; intros; lra).
  assert (n / 1000 == n * (1 # 1000))%Q as Hn by (by field). rewrite Hn. lra.
Qed.
(** Evidence of a snapshot that the gate lets through, at the time of the snapshot. *)
Lemma stored_window c i t sli s e : aggregate c i t sli = Ok s -> consistency_ok (rounded_snapshot s) = true ->
  In e (concat (map ss_records (subsystems s))) -> counts (cf_max_window c) e -> exists a, er_age e = Some (Fin a) /\ (a <= cf_max_window c + (1 # 2000))%Q.
Proof.
  intros Hs Hc Hin Hcount. destruct (window_upper _ _ _ _ _ _ Hs Hin Hcount) as (a & b & Hw & Hb & Hle).
  destruct (aggregate_parts _ _ _ _ _ Hs) as (_ & _ & _ & _ & _ & Hmax & _). unfold consistency_ok, rounded_snapshot, rounded_overall in Hc.
  cbn [sn_overall ov_window ov_max_window] in Hc. rewrite Hw, Hmax in Hc. cbn [option_map rounded] in Hc. apply within_fin in Hc.
  pose proof (round3_upper a). exists b. split; [done|lra].
Qed.
Lemma recent_snapshot c i t sli s m now d : MIN_TS <= Qfloor t <= MAX_TS -> aggregate c i t sli = Ok s ->
  _read_recent_subsystems_snapshot c (Some (VDict (attach (snapshot_dict s) "subsystems" m))) now = Ok d ->
  d = None \/ d = Some (attach (snapshot_dict s) "subsystems" m) /\ (now - t <= cf_max_window c)%Q.
Proof.
  intros Hr Hs. destruct (aggregate_parts _ _ _ _ _ Hs) as (_ & _ & _ & _ & _ & _ & Hts & _).
  destruct (attach_snapshot s m) as (more & ->). unfold _read_recent_subsystems_snapshot. cbn [read_json].
  assert (dget (snapshot_dict s ++ more) "ts_utc" VNone = VStr (isoformat_utc t)) as -> by (cbn; by rewrite Hts).
  cbn [given snapshot_dict app negb]. rewrite (parse_isoformat _ Hr). cbn [rbind]. destruct (Qltb_spec (cf_max_window c) (now - (inject_Z (Qfloor t) - 0))) as [Hlt|Hge]; intros [= <-]; [by left|].
  right. split; [done|]. pose proof (Qfloor_le t). lra.
Qed.
Lemma recovery_decision c i now sf obj lf lnow m1 m2 d files stored : run_recovery_orchestrator_once c i now sf obj lf lnow m1 m2 = Ok (d, files, stored) ->
  exists s lock, recovery_snapshot c i now sf obj m1 = Ok (s, stored) /\ check lf lnow = Ok lock /\ V2Orchestrator.evaluate c s now lock = Ok d.
Proof.
  unfold run_recovery_orchestrator_once. intros Hv. apply rbind_Ok in Hv as ([s st] & Hsnap & Hv). apply rbind_Ok in Hv as ([d' fs] & Hw & Hv).
  injection Hv as <- <- <-. unfold _write_recovery_decision in Hw. apply rbind_Ok in Hw as (lock & Hlock & Hw). apply rbind_Ok in Hw as (d'' & He & Hw).
  injection Hw as <- _. eauto 10.
Qed.
End Age.

(** The evidence of a snapshot that counts is at most so old, some time later. *)
Definition evidence_within (bound : Q) (c : RuntimeConfig) (later : Q) (s : SubsystemsSnapshot) : Prop :=
  forall e, In e (concat (map ss_records (subsystems s))) -> counts (cf_max_window c) e -> exists a, er_age e = Some (Fin a) /\ (a + later <= bound)%Q.

(** C34: a snapshot of the aggregator comes back from the file it is written to, with every age rounded to
    milliseconds and nothing else changed. *)
Theorem snapshot_round_trip `{Repr} `{FromIso} `{FloatOfText} `{EventToken} c i now summary metadata s file :
  _write_subsystems_status c i now summary metadata = Ok (s, file) -> snapshot_from_payload file = Ok (rounded_snapshot s).
Proof.
  unfold _write_subsystems_status. intros Hv. inv_ok Hv. injection Hv as <- <-. destruct (attach_snapshot v metadata) as (more & ->).
  apply snapshot_back. by eapply aggregate_storable.
Qed.

(** C23: the recovery pass finds the status file of an earlier snapshot.  When it executes an action that destroys
    something, the snapshot it decides from, the earlier one or one it made itself, was taken at most the
    window before, and its evidence that counts is at most twice the window old, to half a millisecond. *)
Theorem decision_evidence_age `{Repr} `{FromIsoLaw} `{FloatOfText} `{EventToken} c i0 t0 sli s0 m0 i now obj lf lnow m1 m2 d files stored :
  aggregate c i0 t0 sli = Ok s0 -> MIN_TS <= Qfloor t0 <= MAX_TS -> (0 <= cf_max_window c)%Q ->
  run_recovery_orchestrator_once c i now (Some (VDict (attach (snapshot_dict s0) "subsystems" m0))) obj lf lnow m1 m2 = Ok (d, files, stored) ->
  od_execute d = true -> is_destructive (od_action d) = true ->
  exists j t summary s, aggregate c j t summary = Ok s /\ ((j, t) = (i0, t0) \/ (j, t) = (i, now)) /\ (now - t <= cf_max_window c)%Q
    /\ evidence_within (2 * cf_max_window c + (1 # 2000)) c (now - t) s.
Proof.
  intros Hs0 Ht0 Hw Hrun Hx Hd. destruct (recovery_decision _ _ _ _ _ _ _ _ _ _ _ _ Hrun) as (s & lock & Hsnap & _ & He).
  destruct (executed_facts _ _ _ _ _ He Hx Hd) as (_ & Hc & _). unfold recovery_snapshot in Hsnap.
  apply rbind_Ok in Hsnap as (r & Hr & Hsnap). destruct (recent_snapshot _ _ _ _ _ _ _ _ Ht0 Hs0 Hr) as [->|[-> Hage]].
  - apply rbind_Ok in Hsnap as (summary & _ & Hsnap). unfold _write_subsystems_status in Hsnap. inv_ok Hsnap. injection Hsnap as -> _.
    exists i, now, summary, s. split_and!; [done|by right|lra|]. intros e Hin Hcount.
    destruct (window_covers _ _ _ _ _ E Hc e Hin Hcount) as (a & Ha & Hle). exists a. split; [done|lra].
  - destruct (attach_snapshot s0 m0) as (more & Hatt). rewrite Hatt, (snapshot_back _ more (aggregate_storable _ _ _ _ _ Hs0)) in Hsnap.
    cbn [rbind] in Hsnap. injection Hsnap as <- _. exists i0, t0, sli, s0. split_and!; [done|by left|lra|]. intros e Hin Hcount.
    destruct (stored_window _ _ _ _ _ _ Hs0 Hc Hin Hcount) as (a & Ha & Hle). exists a. split; [done|lra].
Qed.

(** ** The lock *)
Section TheLock.
Context `{Repr} `{FromIsoLaw} `{FloatOfText}.
Lemma check_record owner action scope q at_ pid t : MIN_TS <= Qfloor at_ <= MAX_TS -> (0 < q)%Q ->
  check (Some (VDict (acquire_record owner action scope (Fin q) at_ pid))) t
  = Ok (if Qltb q (t - (inject_Z (Qfloor at_) - 0)) then mkLock false true "stale_lock_expired" owner action scope
        else mkLock true false "destructive_action_in_progress" owner action scope).
Proof.
  intros Hr Hq. unfold check. cbn [read_json given acquire_record negb]. unfold dget, acquire_record, str_at.
  cbn -[V2Model.parse_utc py_or py_float pyfloat_le pyfloat_lt isoformat_utc]. rewrite (parse_isoformat _ Hr). cbn [rbind].
  assert (Hz : Qeq_bool q 0 = false) by (apply not_true_iff_false; intros E%Qeq_bool_iff; lra).
  assert (Ht : py_or (VFloat (Fin q)) (VInt 0) = VFloat (Fin q)) by (unfold py_or; simpl; by rewrite Hz).
  assert (Hl : pyfloat_le (Fin q) (Fin 0) = false).
  { unfold pyfloat_le. cbn [pyfloat_lt pyfloat_eq]. rewrite Hz. destruct (Qltb_spec q 0); [lra|done]. }
  rewrite Ht. cbn [py_float rbind]. rewrite Hl. cbn [pyfloat_lt]. by destruct (Qltb _ _).
Qed.
Lemma acquire_ok owner action scope ttl pid a b c f s p f' : acquire owner action scope ttl pid a b c f = (Ok (true, s, p), f') ->
  f' = Some (VDict (acquire_record owner action scope ttl b pid)).
Proof.
  unfold acquire. destruct (cleanup_stale f a) as [[st|e] f1]; [|done]. destruct (ls_active st); [done|]. destruct (check _ _); [|done].
  simpl. by intros [= _ _ <-].
Qed.
End TheLock.

(** Who has acquired the lock holds it for its time to live, counted from the second of the record: until then
    every look finds it held by that owner, an acquisition by anyone fails and changes nothing, a release by
    another owner fails and changes nothing, and the owner's release removes it; after it an acquisition
    succeeds. *)
Theorem lock_is_held `{Repr} `{FromIsoLaw} `{FloatOfText} owner action scope q pid a b c f s p f' :
  acquire owner action scope (Fin q) pid a b c f = (Ok (true, s, p), f') -> (0 < q)%Q -> MIN_TS <= Qfloor b <= MAX_TS ->
  (forall t, (t <= inject_Z (Qfloor b) + q)%Q ->
     check f' t = Ok (mkLock true false "destructive_action_in_progress" owner action scope)
     /\ forall owner2 action2 scope2 ttl2 pid2 b2 c2, exists st, acquire owner2 action2 scope2 ttl2 pid2 t b2 c2 f' = (Ok (false, st, []), f'))
  /\ (forall owner2, release owner2 f' = if String.eqb owner owner2 then (true, None) else (false, f'))
  /\ (forall t, (inject_Z (Qfloor b) + q < t)%Q -> forall owner2 action2 scope2 q2 pid2 b2 c2, (0 < q2)%Q -> MIN_TS <= Qfloor b2 <= MAX_TS ->
        exists st p2, acquire owner2 action2 scope2 (Fin q2) pid2 t b2 c2 f' = (Ok (true, st, p2), Some (VDict (acquire_record owner2 action2 scope2 (Fin q2) b2 pid2)))).
Proof.
  intros Hacq Hq Hb. rewrite (acquire_ok _ _ _ _ _ _ _ _ _ _ _ _ Hacq). split_and!.
  - intros t Ht. rewrite (check_record _ _ _ _ _ _ _ Hb Hq). destruct (Qltb_spec q (t - (inject_Z (Qfloor b) - 0))); [lra|]. split; [done|].
    intros owner2 action2 scope2 ttl2 pid2 b2 c2. unfold acquire, cleanup_stale. rewrite (check_record _ _ _ _ _ _ _ Hb Hq).
    destruct (Qltb_spec q (t - (inject_Z (Qfloor b) - 0))); [lra|]. by eexists.
  - intros owner2. unfold release. cbn [read_json given acquire_record negb]. unfold str_at, acquire_record, dget. simpl. by destruct (String.eqb owner owner2).
  - intros t Ht owner2 action2 scope2 q2 pid2 b2 c2 Hq2 Hb2. unfold acquire, cleanup_stale. rewrite (check_record _ _ _ _ _ _ _ Hb Hq).
    destruct (Qltb_spec q (t - (inject_Z (Qfloor b) - 0))); [|lra]. cbn [ls_stale ls_active]. rewrite (check_record _ _ _ _ _ _ _ Hb2 Hq2). by eexists _, _.
Qed.
