(* ===== verification/V2Run.v ===== *)
(** * Stream v2: runs on concrete files

    A run in which the fast recovery has just restarted on a stalled connection and the
    plan restarts the stream; the same from the stored snapshot; one in which a fault of
    the rendering keeps the restart from being chosen; and the lock. *)
From S2P Require Import Prelude PyVal UtcTime FastPolicy EffectModel Contracts AgentObserve Evidence ObservationTime V2Model V2Signals V2Orchestrator V2Proofs V2Evidence V2Stored.

#[local] Instance run_repr : Repr := fun _ => "".
#[local] Instance run_floats : FloatOfText := fun _ => None.
#[local] Instance run_iso : FromIso := basic_iso.
#[local] Instance run_token : EventToken := fun sub n => (sub ++ str_Z (Z.of_nat n))%string.

Definition noon : Z := 1777636800.
Definition at_noon : pyval := VStr (iso_seconds noon ++ "Z").
Definition now_demo : Q := inject_Z noon.
Definition stamped (d : dict) : dict := ("ts_utc", at_noon) :: d.
Definition config_demo : RuntimeConfig := mkConfig "adsb" 120 "active" "k8s".
Definition inputs_demo : RuntimeInputs := mkInputs
  (stamped [("public_ok", VBool true); ("api_live_state", VStr "live"); ("video_id", VStr "v1"); ("ffmpeg_pid", VInt 7); ("ingest_connected", VBool true)])
  (stamped []) (stamped [("status", VStr "ok"); ("judgment", VStr "ok"); ("ffmpeg_count", VInt 1)]) [("updated_at_utc", at_noon); ("status", VStr "running")] []
  (stamped []) (stamped [("runtime_snapshot", VDict [("age_sec", VInt 5)])]) [] (stamped [("kind", VStr "restart"); ("trigger", VStr "tcp_stall")]) [] [] [] [] [] [] [] [] 0 0.
Definition snapshot_demo : SubsystemsSnapshot :=
  Eval vm_compute in match aggregate config_demo inputs_demo now_demo [] with Ok s => s | Err _ => mkSnapshot "" 0 "" (mkOverall "" "" "" "" [] "" None NaN [] "" "" "")
    (mkStatus "" "" "" [] [] None "" [] [] "" [] []) (mkStatus "" "" "" [] [] None "" [] [] "" [] []) (mkStatus "" "" "" [] [] None "" [] [] "" [] [])
    (mkStatus "" "" "" [] [] None "" [] [] "" [] []) (mkStatus "" "" "" [] [] None "" [] [] "" [] []) end.
Lemma aggregated : aggregate config_demo inputs_demo now_demo [] = Ok snapshot_demo.
Proof. vm_compute. reflexivity. Qed.
Definition free : LockState := mkLock false false "no_destructive_action_in_progress" "" "" "".
Definition no_decision : OrchestratorDecision := mkOutcome [] "" false (mkPlan "" "" "" false false "" [] []).
Definition decision_demo : OrchestratorDecision :=
  Eval vm_compute in match V2Orchestrator.evaluate config_demo snapshot_demo now_demo free with Ok d => d | Err _ => no_decision end.
Lemma decided : V2Orchestrator.evaluate config_demo snapshot_demo now_demo free = Ok decision_demo.
Proof. vm_compute. reflexivity. Qed.
Example restarts : (od_execute decision_demo, od_action decision_demo) = (true, "restart_stream").
Proof. reflexivity. Qed.

Lemma executed_plan_keeps_url_witness :
  od_execute decision_demo = true
  /\ cf_mode config_demo <> "shadow" /\ pl_steps (od_plan decision_demo) <> [] /\ Forall safe_step (pl_steps (od_plan decision_demo)) /\ ~ In (od_action decision_demo) YOUTUBE_DESTRUCTIVE_ACTIONS
  /\ (is_destructive (od_action decision_demo) = true -> ls_active free = false /\ consistency_ok snapshot_demo = true /\ is_state (sn_monitoring snapshot_demo) "healthy" = true).
Proof. split; [reflexivity | exact (executed_plan_keeps_url _ _ _ _ _ decided eq_refl)]. Defined.
Lemma restart_stream_exactly_witness :
  (od_execute decision_demo = true /\ od_action decision_demo = "restart_stream")
  <-> cf_mode config_demo <> "shadow" /\ ls_active free = false /\ consistency_ok snapshot_demo = true /\ is_state (sn_monitoring snapshot_demo) "healthy" = true
      /\ restart_asked snapshot_demo /\ nothing_cheaper snapshot_demo.
Proof. exact (restart_stream_exactly _ _ _ _ _ decided). Defined.
Lemma restart_needs_evidence_witness :
  restarted_lately (restart_event inputs_demo) now_demo \/ ffmpeg_twice (stream_watchdog_stats inputs_demo).
Proof. exact (proj1 (proj2 (proj2 (restart_needs_evidence _ _ _ _ _ _ _ _ aggregated decided eq_refl eq_refl)))). Defined.

(** A fault of the rendering: its refresh is chosen, which the executor cannot do, and nothing is executed. *)
Definition inputs_dark : RuntimeInputs := mkInputs (youtube_watchdog_stats inputs_demo) (stamped [])
  (stamped [("status", VStr "ok"); ("judgment", VStr "ok"); ("ffmpeg_count", VInt 1); ("reason", VStr "dark frame")]) (latest_runtime_state inputs_demo) []
  (stamped []) (latest_watchdog_timeline_event inputs_demo) [] (latest_fast_recovery_restart_event inputs_demo) [] [] [] [] [] [] [] [] 0 0.
Example rendering_holds_back :
  (let! s := aggregate config_demo inputs_dark now_demo [] in
   let! d := V2Orchestrator.evaluate config_demo s now_demo free in
   Ok (ss_action (sn_local s), od_action d, od_execute d, pl_blocked_by (od_plan d)))
  = Ok ("restart_stream", "restart_browser", false, ["native_rendering_control_api_not_yet_available"]).
Proof. vm_compute. reflexivity. Qed.

(** A restart reported 100 seconds before the snapshot, and a decision 100 seconds after it. *)
Definition restart_then : dict := [("ts_utc", VStr (iso_seconds (noon - 100) ++ "Z")); ("kind", VStr "restart"); ("trigger", VStr "tcp_stall")].
Definition inputs_then : RuntimeInputs := mkInputs (youtube_watchdog_stats inputs_demo) (stamped []) (stream_watchdog_stats inputs_demo) (latest_runtime_state inputs_demo) []
  (stamped []) (latest_watchdog_timeline_event inputs_demo) [] restart_then [] [] [] [] [] [] [] [] 0 0.
Definition snapshot_then : SubsystemsSnapshot :=
  Eval vm_compute in match aggregate config_demo inputs_then now_demo [] with Ok s => s | Err _ => snapshot_demo end.
Lemma aggregated_then : aggregate config_demo inputs_then now_demo [] = Ok snapshot_then.
Proof. vm_compute. reflexivity. Qed.
Definition file_then : dict := Eval vm_compute in attach (snapshot_dict snapshot_then) "subsystems" (Ok VNone).
Lemma status_written : _write_subsystems_status config_demo inputs_then now_demo [] (Ok VNone) = Ok (snapshot_then, file_then).
Proof. vm_compute. reflexivity. Qed.
Lemma snapshot_round_trip_witness : snapshot_from_payload file_then = Ok (rounded_snapshot snapshot_then).
Proof. exact (snapshot_round_trip _ _ _ _ _ _ _ status_written). Defined.
Definition later : Q := inject_Z (noon + 100).
Definition pass_later : OrchestratorDecision * recovery_files * dict :=
  Eval vm_compute in match run_recovery_orchestrator_once config_demo inputs_demo later (Some (VDict file_then)) None None later (Ok VNone) (Ok VNone) with
  Ok r => r | Err _ => (no_decision, mkFiles [] [] [], []) end.
Lemma passed_later : run_recovery_orchestrator_once config_demo inputs_demo later (Some (VDict (attach (snapshot_dict snapshot_then) "subsystems" (Ok VNone)))) None None later
  (Ok VNone) (Ok VNone) = Ok pass_later.
Proof. vm_compute. reflexivity. Qed.
(** The evidence of the restart is 200 seconds old then, its window 120 seconds. *)
Example old_evidence : (od_execute (fst (fst pass_later)), od_action (fst (fst pass_later)),
   map er_age (List.filter (fun e => String.eqb (er_verdict e) "failed") (ss_records (sn_local snapshot_then)))) = (true, "restart_stream", [Some (Fin 100)]).
Proof. reflexivity. Qed.
Lemma decision_evidence_age_witness :
  exists j t summary s, aggregate config_demo j t summary = Ok s /\ ((j, t) = (inputs_then, now_demo) \/ (j, t) = (inputs_demo, later)) /\ (later - t <= 120)%Q
    /\ evidence_within (2 * 120 + (1 # 2000)) config_demo (later - t) s.
Proof.
  refine (decision_evidence_age config_demo _ _ _ _ _ _ _ _ _ _ _ _ (fst (fst pass_later)) (snd (fst pass_later)) (snd pass_later) aggregated_then _ _ passed_later eq_refl eq_refl).
  - vm_compute. split; discriminate.
  - vm_compute. discriminate.
Defined.

(** ** A lock that is taken *)
Definition taken : res (bool * LockState * dict) * json_file :=
  Eval vm_compute in acquire "evt-1" "restart_stream" "stream_all" (Fin 90) 7 now_demo now_demo now_demo None.
Lemma lock_is_held_witness :
  check (snd taken) (inject_Z (noon + 60)) = Ok (mkLock true false "destructive_action_in_progress" "evt-1" "restart_stream" "stream_all").
Proof.
  refine (proj1 (proj1 (lock_is_held "evt-1" "restart_stream" "stream_all" 90 7 now_demo now_demo now_demo None _ _ (snd taken) _ _ _) (inject_Z (noon + 60)) _)).
  - vm_compute. reflexivity.
  - vm_compute. reflexivity.
  - vm_compute. split; discriminate.
  - vm_compute. discriminate.
Defined.
