(* ===== verification/V2Sli.v ===== *)
(** * Stream v2: the objective SLI

    Models src/stream_v2/sli.py: how long the same URL was live, and how the decisions
    of the orchestrator compare with what production did.  A log is the list of the
    objects of its lines; an event keeps its place in the list as its identity.  A
    logged action or state is no list or object (a set would refuse it). *)
From S2P Require Import Prelude PyVal UtcTime FastPolicy EffectModel Contracts AgentObserve Evidence V2Model V2Signals V2Orchestrator.

Definition WINDOWS : list (string * Z) := [("last_24h", 24 * 3600); ("last_7d", 7 * 24 * 3600); ("last_30d", 30 * 24 * 3600)].
Definition SHADOW_TIMER_INTERVAL_SEC : Z := 60.
Definition WINDOW_COMPLETE_COVERAGE_RATIO : Q := 9 # 10.
Definition PRODUCTION_DIFF_MATCH_WINDOW_SEC : Z := 120.
Definition LOCAL_RESTART_ACTIONS : list string := ["restart_ffmpeg"; "restart_stream"].
Definition EXECUTOR_RECOVERY_ACTIONS : list string :=
  ["reload_overlay"; "restart_browser"; "restart_dj"; "restart_ffmpeg"; "restart_stream"; "force_current_broadcast_live"; "create_replacement_broadcast"].
Definition fl (x : Q) : pyval := VFloat (Fin x).
Definition opt_fl (x : option Q) : pyval := match x with Some q => fl q | None => VNone end.
Definition len {A} (l : list A) : Z := Z.of_nat (length l).

(** ** Events in the order of their time *)
Section Timed.
Context {A : Type}.
Record timed : Type := mkTimed { t_at : Q; t_what : A }.
Fixpoint insert_timed (x : timed) (l : list timed) : list timed :=
  match l with [] => [x] | y :: l' => if Qleb (t_at x) (t_at y) then x :: l else y :: insert_timed x l' end.
Definition sort_timed (l : list timed) : list timed := fold_right insert_timed [] l.
(** The events of a log that have a time that is not after now. *)
Fixpoint load `{FromIso} (read : dict -> option A) (now : Q) (log : list dict) : res (list timed) :=
  match log with
  | [] => Ok []
  | e :: log' =>
      let! ts := parse_utc (dget e "ts_utc" VNone) in
      let! l := load read now log' in
      Ok (match ts, read e with Some t, Some a => if Qltb now t then l else mkTimed t a :: l | _, _ => l end)
  end.
Definition since (start : Q) (l : list timed) : list timed := List.filter (fun x => Qleb start (t_at x)) l.
End Timed.
Arguments timed : clear implicits.

(** ** Projections of the logs *)
Section Project.
Context `{Repr}.
(** The state and public state of a status line. *)
Definition status_view : Type := pyval * pyval.
Definition project_status (e : dict) : status_view := let o := sub_dict e "overall" in (dget o "state" VNone, dget o "stream_public_state" VNone).
Definition passed_only (d : dict) : pyval := VDict [("passed", dget d "passed" VNone)].
Definition candidate_lock (v : pyval) : dict := sub_dict (sub_dict (_dict v) "gates") "global_action_lock".
Definition project_candidates (d : dict) : dict :=
  fold_left (fun acc kv => let lock := candidate_lock (snd kv) in
    if given lock then dict_set (fst kv) (VDict [("gates", VDict [("global_action_lock", passed_only lock)])]) acc else acc) d [].
Definition _project_orchestrator_event (e : dict) : dict :=
  let plan := sub_dict e "execution_plan" in
  let gates := sub_dict e "gates" in
  let budget := sub_dict gates "budget" in
  let lock := sub_dict gates "global_action_lock" in
  [("selected_action", VDict [("action", dget (sub_dict e "selected_action") "action" VNone)]);
   ("execution_plan", VDict [("action", dget plan "action" VNone); ("executable", VBool (truthy (dget plan "executable" (VBool false))));
      ("execute", VBool (truthy (dget plan "execute" (VBool false)))); ("reason", dget plan "reason" VNone);
      ("blocked_by", texts_py (map py_str (List.filter truthy (_list (dget plan "blocked_by" VNone)))))]);
   ("gates", VDict ((if given budget then [("budget", VDict [("reason", dget budget "reason" VNone); ("passed", dget budget "passed" VNone)])] else [])
                    ++ (if given lock then [("global_action_lock", passed_only lock)] else [])));
   ("all_candidate_gates", VDict (project_candidates (sub_dict e "all_candidate_gates")))].

(** What production did. *)
Record production : Type := mkProduction { pr_action : string; pr_source : string; pr_reason : string; pr_trigger : option string }.
Definition from_fast_recovery (e : dict) : option production :=
  if negb (eq_str (dget e "kind" VNone) "restart") then None else
  let trigger := py_str (py_or (dget e "trigger" VNone) (py_or (dget (sub_dict e "restart_context") "trigger" VNone) (py_or (dget e "message" VNone) (VStr "restart")))) in
  Some (mkProduction "restart_stream" "fast_recovery_events" trigger (Some trigger)).
Definition event_type (e : dict) : string := py_str (py_or (dget e "event_type" VNone) (py_or (dget e "kind" VNone) (VStr ""))).
Definition from_stream_engine (e : dict) : option production :=
  if listed_in (event_type e) ["ffmpeg_restart_scheduled"; "ffmpeg_restarted"; "self_recovery"]
  then Some (mkProduction "restart_ffmpeg" "stream_engine_events" (event_type e) None) else None.
Definition ACTION_BY_EVENT : list (string * string) :=
  [("dj_restart", "restart_dj"); ("restart_dj", "restart_dj"); ("stream_restart", "restart_stream"); ("restart_stream", "restart_stream");
   ("youtube_watchdog_restart", "restart_stream")].
Definition from_stream_watchdog (e : dict) : option production :=
  option_map (fun action => mkProduction action "stream_watchdog_events" (event_type e) None) (dict_get (event_type e) ACTION_BY_EVENT).
End Project.

(** The logs of production, of each distinct directory. *)
Record production_logs : Type := mkLogs { lg_fast_recovery : list dict; lg_stream_engine : list dict; lg_stream_watchdog : list dict }.
Section Loads.
Context `{Repr} `{FromIso}.
Definition _load_status_events (log : list dict) (now : Q) : res (list (timed status_view)) :=
  let! l := load (fun e => Some (project_status e)) now log in Ok (sort_timed l).
Definition _load_orchestrator_events (log : list dict) (now : Q) : res (list (timed dict)) :=
  let! l := load (fun e => Some (_project_orchestrator_event e)) now log in Ok (sort_timed l).
Definition production_key (x : timed production) : string * string * string * string :=
  (isoformat_utc (t_at x), pr_action (t_what x), pr_source (t_what x), pr_reason (t_what x)).
Fixpoint dedupe (seen : list (string * string * string * string)) (l : list (timed production)) : list (timed production) :=
  match l with
  | [] => []
  | x :: l' => if bool_decide (production_key x ∈ seen) then dedupe seen l' else x :: dedupe (production_key x :: seen) l'
  end.
Definition production_of (now : Q) (g : production_logs) : res (list (timed production)) :=
  let! fast := load from_fast_recovery now (lg_fast_recovery g) in
  let! engine := load from_stream_engine now (lg_stream_engine g) in
  let! watchdog := load from_stream_watchdog now (lg_stream_watchdog g) in
  Ok (fast ++ engine ++ watchdog).
Definition _load_production_action_events (dirs : list production_logs) (now : Q) : res (list (timed production)) :=
  let! l := rmap_list (production_of now) dirs in Ok (sort_timed (dedupe [] (concat l))).
End Loads.

(** ** Counts *)
Definition count_one (d : list (string * Z)) (k : string) : list (string * Z) := dict_set k (default 0 (dict_get k d) + 1) d.
Fixpoint insert_key (kv : string * Z) (l : list (string * Z)) : list (string * Z) :=
  match l with [] => [kv] | kv' :: l' => if str_lt (fst kv') (fst kv) then kv' :: insert_key kv l' else kv :: l end.
(** [dict(sorted(counts.items()))] *)
Definition counts_of (l : list string) : list (string * Z) := fold_right insert_key [] (fold_left count_one l []).
Definition counts_py (l : list (string * Z)) : pyval := VDict (map (fun kv => (fst kv, VInt (snd kv))) l).
Definition total (l : list (string * Z)) : Z := fold_right (fun kv n => snd kv + n) 0 l.
Definition _distribution (l : list (string * Z)) : list (string * Q) :=
  if total l <=? 0 then [] else map (fun kv => (fst kv, round6 (inject_Z (snd kv) / inject_Z (total l)))) l.
Definition ratio (n d : Z) : option Q := if d =? 0 then None else Some (round6 (inject_Z n / inject_Z d)).

Section Decisions.
Context `{Repr}.
Implicit Types e : dict.
Definition _selected_action e : string := py_str (py_or (dget (sub_dict e "selected_action") "action" VNone) (VStr "none")).
Definition _execution_plan e : dict := sub_dict e "execution_plan".
Definition _execution_plan_action e : string := py_str (py_or (dget (_execution_plan e) "action" VNone) (VStr "none")).
Definition _execution_plan_executable e : bool := truthy (dget (_execution_plan e) "executable" (VBool false)).
Definition _has_recovery_intent e : bool := listed_in (_execution_plan_action e) EXECUTOR_RECOVERY_ACTIONS && _execution_plan_executable e.
Definition runs_plan e : bool := negb (String.eqb (_execution_plan_action e) "none") && _execution_plan_executable e.
(** [selected_action.action] is one of the actions. *)
Definition selects (actions : list string) e : bool := in_strs (dget (sub_dict e "selected_action") "action" VNone) actions.
Definition budget_reason (needle : string) e : bool := contains needle (py_str (dget (sub_dict (sub_dict e "gates") "budget") "reason" (VStr ""))).
Definition lock_refused (d : dict) : bool := is_false (dget d "passed" VNone).
Definition lock_blocks e : bool :=
  lock_refused (sub_dict (sub_dict e "gates") "global_action_lock") || existsb (fun kv => lock_refused (candidate_lock (snd kv))) (sub_dict e "all_candidate_gates").
Definition count_if {A} (p : A -> bool) (l : list A) : Z := len (List.filter p l).

(** *** Against production *)
Definition _actions_scope_compatible (left right : string) : bool :=
  String.eqb left right || (listed_in left LOCAL_RESTART_ACTIONS && listed_in right LOCAL_RESTART_ACTIONS).
(** The place of the nearest event within the match window: the first of the nearest. *)
Fixpoint nearest_from (i : nat) (ts : Q) (best : option (nat * dict)) (best_delta : Q) (l : list (timed dict)) : option (nat * dict) :=
  match l with
  | [] => best
  | x :: l' =>
      let delta := qabs (t_at x - ts) in
      if Qleb delta (inject_Z PRODUCTION_DIFF_MATCH_WINDOW_SEC) && Qltb delta best_delta
      then nearest_from (S i) ts (Some (i, t_what x)) delta l' else nearest_from (S i) ts best best_delta l'
  end.
Definition _nearest_orchestrator_event (l : list (timed dict)) (ts : Q) : option (nat * dict) :=
  nearest_from 0 ts None (inject_Z PRODUCTION_DIFF_MATCH_WINDOW_SEC + 1) l.
Record difference : Type := mkDiff {
  df_exact : Z; df_compatible : Z; df_disagree : Z; df_without_shadow : Z; df_false_positive : Z; df_mismatch : Z; df_matched : list nat }.
Definition no_difference : difference := mkDiff 0 0 0 0 0 0 [].
Definition compare_one (intents : list (timed dict)) (d : difference) (p : timed production) : difference :=
  match _nearest_orchestrator_event intents (t_at p) with
  | None => mkDiff (df_exact d) (df_compatible d) (df_disagree d + 1) (df_without_shadow d + 1) (df_false_positive d) (df_mismatch d) (df_matched d)
  | Some (i, e) =>
      let matched := i :: df_matched d in
      let shadow := _execution_plan_action e in
      let prod := py_str (py_or (VStr (pr_action (t_what p))) (VStr "unknown")) in
      if String.eqb shadow prod then mkDiff (df_exact d + 1) (df_compatible d + 1) (df_disagree d) (df_without_shadow d) (df_false_positive d) (df_mismatch d) matched
      else if _actions_scope_compatible shadow prod then
        mkDiff (df_exact d) (df_compatible d + 1) (df_disagree d + 1) (df_without_shadow d) (df_false_positive d) (df_mismatch d + 1) matched
      else if String.eqb shadow "none" then
        mkDiff (df_exact d) (df_compatible d) (df_disagree d + 1) (df_without_shadow d + 1) (df_false_positive d) (df_mismatch d) matched
      else mkDiff (df_exact d) (df_compatible d) (df_disagree d + 1) (df_without_shadow d) (df_false_positive d) (df_mismatch d + 1) matched
  end.
Definition unmatched (matched : list nat) (intents : list (timed dict)) : Z :=
  count_if (fun i => negb (bool_decide (i ∈ matched))) (seq 0 (length intents)).
Definition _diff_shadow_vs_production (orchestrator : list (timed dict)) (prods : list (timed production)) : difference * Z :=
  let intents := List.filter (fun x => _has_recovery_intent (t_what x)) orchestrator in
  let d := fold_left (compare_one intents) prods no_difference in
  let alone := unmatched (df_matched d) intents in
  (mkDiff (df_exact d) (df_compatible d) (df_disagree d + alone) (df_without_shadow d) (df_false_positive d + alone) (df_mismatch d) (df_matched d),
   len prods + alone).
Definition by_reason_py (d : difference) : pyval :=
  VDict [("timing", VInt 0); ("production_without_shadow", VInt (df_without_shadow d)); ("false_positive_shadow", VInt (df_false_positive d));
         ("action_mismatch", VInt (df_mismatch d))].

(** *** Replay of the classifier *)
Definition trigger_or (dflt : string) (p : production) : string :=
  py_str (py_or (match pr_trigger p with Some t => VStr t | None => VNone end) (py_or (VStr (pr_reason p)) (VStr dflt))).
Definition _current_classifier_action_for_production (p : production) : string :=
  if has_key (trigger_or "" p) LocalDelivery.FAST_RECOVERY_STREAM_RESTART_FAILURE_BY_TRIGGER then "restart_stream" else "none".
Definition _current_classifier_replay (prods : list production) : pyval :=
  let eligible := List.filter (fun p => String.eqb (pr_source p) "fast_recovery_events" && String.eqb (pr_action p) "restart_stream") prods in
  let is_covered p := String.eqb (_current_classifier_action_for_production p) (pr_action p) in
  let covered := List.filter is_covered eligible in
  let uncovered := List.filter (fun p => negb (is_covered p)) eligible in
  VDict [("classifier", VStr "local_delivery_fast_recovery_stream_restart_v1"); ("target_action", VStr "restart_stream");
         ("basis", VStr "current classifier replay over historical fast_recovery restart events; historical orchestrator JSONL is not backfilled");
         ("eligible_count", VInt (len eligible)); ("covered_count", VInt (len covered)); ("uncovered_count", VInt (len uncovered));
         ("coverage_ratio", opt_fl (ratio (len covered) (len eligible))); ("covered_by_trigger", counts_py (counts_of (map (trigger_or "unknown") covered)));
         ("uncovered_by_trigger", counts_py (counts_of (map (trigger_or "unknown") uncovered)))].
End Decisions.

(** ** A window *)
Section Window.
Context `{Repr} `{FromIso}.
Definition is_live (v : status_view) : bool := eq_str (snd v) "same_url_live".
Definition is_unknown (v : status_view) : bool := eq_str (fst v) "unknown" || String.prefix "unknown" (py_str (snd v)).
Definition is_degraded (v : status_view) : bool := in_strs (fst v) ["degraded"; "failed"; "recovering"].
(** The seconds of the events that [p] holds of, each until the next or now. *)
Fixpoint seconds_of (p : status_view -> bool) (now : Q) (l : list (timed status_view)) : Q :=
  match l with
  | [] => 0
  | x :: l' =>
      let next := match l' with y :: _ => t_at y | [] => now end in
      ((if p (t_what x) then qmax 0 (next - t_at x) else 0) + seconds_of p now l')%Q
  end.
Definition coverage_of (now : Q) (l : list (timed status_view)) : Q := match l with x :: _ => qmax 0 (now - t_at x) | [] => 0 end.
Definition threshold (seconds : Z) : Q := (inject_Z seconds * WINDOW_COMPLETE_COVERAGE_RATIO)%Q.
Definition is_complete (seconds : Z) (now : Q) (l : list (timed status_view)) : bool := match l with [] => false | _ => Qleb (threshold seconds) (coverage_of now l) end.
Definition time_ratio (seconds : Z) (now : Q) (p : status_view -> bool) (l : list (timed status_view)) : option Q :=
  if is_complete seconds now l && Qltb 0 (coverage_of now l) then Some (seconds_of p now l / coverage_of now l)%Q else None.
Definition _shadow_decision_sli (orchestrator : list (timed dict)) (prods : list (timed production)) : dict :=
  let events := map t_what orchestrator in
  let selected := counts_of (map _selected_action events) in
  let intents := List.filter _has_recovery_intent events in
  let (d, comparable) := _diff_shadow_vs_production orchestrator prods in
  [("selected_action_counts", counts_py selected); ("selected_action_distribution", VDict (map (fun kv => (fst kv, fl (snd kv))) (_distribution selected)));
   ("execution_plan_counts", counts_py (counts_of (map _execution_plan_action events)));
   ("executable_plan_counts", counts_py (counts_of (map _execution_plan_action (List.filter runs_plan events))));
   ("recovery_intent_action_counts", counts_py (counts_of (map _execution_plan_action intents)));
   ("production_action_counts", counts_py (counts_of (map (fun x => py_str (py_or (VStr (pr_action (t_what x))) (VStr "unknown"))) prods)));
   ("production_action_sample_count", VInt (len prods)); ("shadow_non_none_action_count", VInt (count_if (fun e => negb (String.eqb (_selected_action e) "none")) events));
   ("shadow_executable_plan_action_count", VInt (count_if runs_plan events)); ("shadow_recovery_intent_action_count", VInt (len intents));
   ("shadow_destructive_action_count", VInt (count_if (selects DESTRUCTIVE_ACTIONS) events)); ("current_classifier_replay", _current_classifier_replay (map t_what prods));
   ("exact_agreement_count", VInt (df_exact d)); ("scope_compatible_agreement_count", VInt (df_compatible d)); ("disagreement_count", VInt (df_disagree d));
   ("disagreement_ratio", opt_fl (ratio (df_disagree d) comparable)); ("disagreement_by_reason", by_reason_py d)].
(** The fields of the report, and where each is in the decisions. *)
Definition SHADOW_FIELDS : list (string * string) :=
  [("selected_action_counts", "selected_action_counts"); ("selected_action_distribution", "selected_action_distribution"); ("execution_plan_counts", "execution_plan_counts");
   ("executable_plan_counts", "executable_plan_counts"); ("recovery_intent_action_counts", "recovery_intent_action_counts"); ("production_action_counts", "production_action_counts");
   ("production_action_sample_count", "production_action_sample_count"); ("shadow_non_none_action_count", "shadow_non_none_action_count");
   ("shadow_executable_plan_action_count", "shadow_executable_plan_action_count"); ("shadow_recovery_intent_action_count", "shadow_recovery_intent_action_count");
   ("shadow_destructive_action_count", "shadow_destructive_action_count"); ("shadow_vs_production_exact_agreement_count", "exact_agreement_count");
   ("shadow_vs_production_scope_compatible_agreement_count", "scope_compatible_agreement_count"); ("shadow_vs_production_disagreement_count", "disagreement_count");
   ("shadow_vs_production_disagreement_ratio", "disagreement_ratio"); ("shadow_vs_production_disagreement_by_reason", "disagreement_by_reason");
   ("current_classifier_replay", "current_classifier_replay")].
Definition _window (seconds : Z) (status : list (timed status_view)) (orchestrator : list (timed dict)) (prods : list (timed production)) (now : Q) : dict :=
  let start := (now - inject_Z seconds)%Q in
  let l := since start status in
  let o := since start orchestrator in
  let p := since start prods in
  let events := map t_what o in
  let shadow := _shadow_decision_sli o p in
  let share q := opt_fl (option_map round6 (time_ratio seconds now q l)) in
  [("data_coverage_sec", fl (round3 (coverage_of now l))); ("window_complete", VBool (is_complete seconds now l)); ("window_complete_threshold_sec", fl (round3 (threshold seconds)));
   ("expected_sample_interval_sec", VInt SHADOW_TIMER_INTERVAL_SEC); ("status_sample_count", VInt (len l)); ("orchestrator_sample_count", VInt (len o));
   ("same_url_live_ratio", share is_live); ("unknown_ratio", share is_unknown); ("degraded_ratio", share is_degraded);
   ("replacement_count", VInt (count_if (selects ["create_replacement_broadcast"]) events)); ("budget_override_count", VInt (count_if (budget_reason "budget_override") events));
   ("destructive_action_count", VInt (count_if (selects DESTRUCTIVE_ACTIONS) events)); ("global_action_lock_block_count", VInt (count_if lock_blocks events));
   ("subsystems_shadow", VDict ([("status_sample_count", VInt (len l)); ("orchestrator_sample_count", VInt (len o))] ++ map (fun kk => (fst kk, dget shadow (snd kk) VNone)) SHADOW_FIELDS
      ++ [("match_window_sec", VInt PRODUCTION_DIFF_MATCH_WINDOW_SEC);
          ("diff_basis", VStr "execution_plan.executable recovery actions only; report-only alert/probe/resync decisions excluded");
          ("interpretation", VStr "shadow decisions are observations only; production actions remain owned by current watchdog/fast-recovery/stream-engine paths")]))].
Record v2_logs : Type := mkV2Logs { lg_status : list dict; lg_orchestrator : list dict; lg_production : list production_logs }.
Definition calculate (c : RuntimeConfig) (g : v2_logs) (now : Q) (expected_video_id : string) : res dict :=
  let! status := _load_status_events (lg_status g) now in
  let! orchestrator := _load_orchestrator_events (lg_orchestrator g) now in
  let! prods := _load_production_action_events (lg_production g) now in
  Ok [("ts_utc", VStr (isoformat_utc now)); ("schema_version", VInt 1); ("stream_id", VStr (cf_stream_id c)); ("expected_video_id", VStr expected_video_id);
      ("shadow_timer_policy", VDict [("subsystems_status_timer", VStr "adsb-streamnew-subsystems-status.timer");
         ("recovery_orchestrator_timer", VStr "adsb-streamnew-recovery-orchestrator.timer"); ("expected_interval_sec", VInt SHADOW_TIMER_INTERVAL_SEC); ("accuracy_sec", VInt 15)]);
      ("window_policy", VDict [("window_complete_coverage_ratio", fl WINDOW_COMPLETE_COVERAGE_RATIO);
         ("production_diff_match_window_sec", VInt PRODUCTION_DIFF_MATCH_WINDOW_SEC); ("incomplete_ratio_value", VNone)]);
      ("windows", VDict (map (fun w => (fst w, VDict (_window (snd w) status orchestrator prods now))) WINDOWS));
      ("source_logs", texts_py ["subsystems_status.jsonl"; "recovery_orchestrator.jsonl"; "fast_recovery_events.jsonl"; "stream_engine_events.jsonl"; "stream_watchdog_events.jsonl"])].
End Window.
