(* ===== verification/V2SliProofs.v ===== *)
(** * Stream v2: what the objective SLI says

    The shares of a window are shares of its coverage, the comparison with production
    accounts for every action on either side, the counts count, and projecting the
    orchestrator's log changes none of them. *)
From S2P Require Import Prelude PyVal UtcTime FastPolicy EffectModel Contracts AgentObserve Evidence V2Model V2Signals V2Orchestrator V2Proofs V2Evidence V2Stored V2Run V2Sli.

(** ** Order *)
Section Order.
Context {A : Type}.
Implicit Types l : list (timed A).
Definition before (x y : timed A) : Prop := (t_at x <= t_at y)%Q.
Definition chronological l : Prop := Sorted.StronglySorted before l.
Lemma insert_timed_In x l y : In y (insert_timed x l) <-> y = x \/ In y l.
Proof. induction l as [|z l IH]; simpl; [firstorder|]. destruct (Qleb _ _); simpl; firstorder. Qed.
Lemma sort_timed_In l x : In x (sort_timed l) <-> In x l.
Proof. induction l as [|y l IH]; [done|]. unfold sort_timed in *. simpl. rewrite insert_timed_In, IH. firstorder. Qed.
Lemma insert_timed_order x l : chronological l -> chronological (insert_timed x l).
Proof.
  induction 1 as [|y l Hl IH Hy]; simpl; [repeat constructor|]. destruct (Qleb_spec (t_at x) (t_at y)) as [Hx|Hx].
  - constructor; [by constructor|]. constructor; [done|]. eapply Forall_impl; [exact Hy|]. unfold before. intros; lra.
  - constructor; [done|]. apply List.Forall_forall. intros z Hz. apply insert_timed_In in Hz as [->|Hz]; [unfold before; lra|].
    rewrite List.Forall_forall in Hy. by apply Hy.
Qed.
Lemma sort_timed_order l : chronological (sort_timed l).
Proof. induction l; [constructor | by apply insert_timed_order]. Qed.
Lemma since_order start l : chronological l -> chronological (since start l).
Proof.
  induction 1 as [|y l Hl IH Hy]; [constructor|]. unfold since in *. simpl. destruct (Qleb _ _); [|done]. constructor; [done|].
  apply List.Forall_forall. intros z [Hz _]%filter_In. rewrite List.Forall_forall in Hy. by apply Hy.
Qed.
Lemma load_past `{FromIso} (read : dict -> option A) now log l : load read now log = Ok l -> forall x, In x l -> (t_at x <= now)%Q.
Proof.
  revert l. induction log as [|e log IH]; intros l; simpl; [by intros [= <-]|]. intros Hv. inv_ok Hv. injection Hv as <-.
  intros x. destruct v as [t|]; [|by apply IH]. destruct (read e) as [a|]; [|by apply IH]. destruct (Qltb_spec now t); [by apply IH|].
  intros [<-|Hin]; [done|by apply (IH _ E0)].
Qed.
End Order.

(** ** Shares of a window *)
Section Shares.
Context `{Repr} `{FromIso}.
Implicit Types p : status_view -> bool.
Lemma seconds_nonneg p now l : (0 <= seconds_of p now l)%Q.
Proof.
  induction l as [|x l IH]; simpl; [lra|]. pose proof (qmax_spec 0 ((match l with [] => now | y :: _ => t_at y end) - t_at x)) as (Hm & _). destruct (p _); lra.
Qed.
(** The seconds of a class and of its complement are the coverage. *)
Lemma seconds_split p now l : chronological l -> (forall x, In x l -> (t_at x <= now)%Q) ->
  (seconds_of p now l + seconds_of (fun v => negb (p v)) now l == coverage_of now l)%Q.
Proof.
  induction 1 as [|x l Hl IH Hx]; intros Hnow; simpl; [lra|]. specialize (IH (fun y Hy => Hnow y (or_intror Hy))).
  assert (Hfst : (t_at x <= now)%Q) by (apply Hnow; by left). destruct l as [|y l].
  - simpl in *. destruct (p (t_what x)); simpl; lra.
  - apply Forall_inv in Hx. unfold before in Hx. assert (Hy : (t_at y <= now)%Q) by (apply Hnow; simpl; auto). cbn [coverage_of] in IH.
    set (s1 := seconds_of p now (y :: l)) in *. set (s2 := seconds_of (fun v => negb (p v)) now (y :: l)) in *.
    unfold qmax in *. destruct (p (t_what x)); cbn [negb]; qcases; lra.
Qed.
Definition sum_of (x y : option Q) : option Q := match x, y with Some a, Some b => Some (a + b)%Q | _, _ => None end.
Lemma share_split seconds now p l : chronological l -> (forall x, In x l -> (t_at x <= now)%Q) ->
  match time_ratio seconds now p l, time_ratio seconds now (fun v => negb (p v)) l with
  | Some q, Some q' => (q + q' == 1)%Q /\ (0 <= q <= 1)%Q /\ (threshold seconds <= coverage_of now l)%Q
  | None, None => is_complete seconds now l = false \/ ~ (0 < coverage_of now l)%Q
  | _, _ => False
  end.
Proof.
  intros Hl Hnow. unfold time_ratio. destruct (is_complete seconds now l) eqn:Ec; simpl; [|by left].
  destruct (Qltb_spec 0 (coverage_of now l)) as [Hc|Hc]; [|right; lra].
  pose proof (seconds_split p now l Hl Hnow) as Hs. pose proof (seconds_nonneg p now l) as H1. pose proof (seconds_nonneg (fun v => negb (p v)) now l) as H2.
  set (a := seconds_of p now l) in *. set (b := seconds_of (fun v => negb (p v)) now l) in *. set (c := coverage_of now l) in *.
  assert (Hsum : (a / c + b / c == 1)%Q) by (transitivity ((a + b) / c)%Q; [field; lra|]; rewrite Hs; field; lra).
  assert (0 <= a / c)%Q by (apply Qle_shift_div_l; [done|lra]). assert (0 <= b / c)%Q by (apply Qle_shift_div_l; [done|lra]).
  split_and!; [done|done|lra|]. unfold is_complete in Ec. destruct l; [done|]. by apply Qleb_true in Ec.
Qed.
Lemma coverage_bound seconds now l : (forall x, In x l -> (now - inject_Z seconds <= t_at x)%Q) -> 0 <= seconds -> (coverage_of now l <= inject_Z seconds)%Q.
Proof.
  intros Hl Hs. assert (0 <= inject_Z seconds)%Q by (change 0%Q with (inject_Z 0); by rewrite <- Zle_Qle).
  destruct l as [|x l]; simpl; [done|]. specialize (Hl x (or_introl eq_refl)). unfold qmax. destruct (Qleb _ _); lra.
Qed.
Lemma status_events_past log now l : _load_status_events log now = Ok l -> chronological l /\ forall x, In x l -> (t_at x <= now)%Q.
Proof.
  unfold _load_status_events. intros Hv. inv_ok Hv. injection Hv as <-. split; [apply sort_timed_order|].
  intros x Hx. rewrite sort_timed_In in Hx. exact (load_past _ _ _ _ E _ Hx).
Qed.
End Shares.

(** What the share of a class of states says, next to that of the other states. *)
Definition share_is_sound (seconds : Z) (now : Q) (p : status_view -> bool) (l : list (timed status_view)) : Prop :=
  match time_ratio seconds now p l, time_ratio seconds now (fun v => negb (p v)) l with
  | Some q, Some q' => (q + q' == 1)%Q /\ (0 <= q <= 1)%Q /\ (threshold seconds <= coverage_of now l)%Q
  | None, None => is_complete seconds now l = false \/ ~ (0 < coverage_of now l)%Q
  | _, _ => False
  end.
(** C19: in each window of the report, a share of the time (the same URL live, unknown, degraded, or any other class of
    states) is there exactly when the window is covered to nine tenths and not empty; it is between 0 and 1, the
    share of a class and that of its complement make 1, and the coverage is no longer than the window. *)
Theorem shares_of_a_window `{Repr} `{FromIso} log now status seconds p : _load_status_events log now = Ok status -> 0 <= seconds ->
  let l := since (now - inject_Z seconds) status in
  (coverage_of now l <= inject_Z seconds)%Q
  /\ share_is_sound seconds now p l.
Proof.
  intros Hs Hn. destruct (status_events_past _ _ _ Hs) as [Hl Hp]. cbv zeta.
  assert (Hin : forall x, In x (since (now - inject_Z seconds) status) -> In x status /\ (now - inject_Z seconds <= t_at x)%Q).
  { intros x [Hx Hq]%filter_In. split; [done|by apply Qleb_true]. }
  split; [apply coverage_bound; [intros x Hx; by apply Hin | done]|]. apply share_split; [by apply since_order|]. intros x Hx. apply Hp. by apply Hin.
Qed.

(** ** The comparison with production *)
Section Compare.
Context `{Repr}.
Lemma len_app {A} (l l' : list A) : len (l ++ l') = len l + len l'.
Proof. unfold len. rewrite length_app. lia. Qed.
Lemma len_cons {A} (x : A) l : len (x :: l) = len l + 1.
Proof. unfold len. simpl. lia. Qed.
Lemma count_if_cons {A} (p : A -> bool) x l : count_if p (x :: l) = Z.b2z (p x) + count_if p l.
Proof. unfold count_if. simpl. destruct (p x); simpl; [rewrite len_cons|]; lia. Qed.
Lemma count_if_split {A} (p : A -> bool) l : count_if p l + count_if (fun x => negb (p x)) l = len l.
Proof. induction l as [|x l IH]; [done|]. rewrite !count_if_cons, len_cons. destruct (p x); simpl; lia. Qed.
Lemma count_if_nonneg {A} (p : A -> bool) l : 0 <= count_if p l.
Proof. unfold count_if, len. lia. Qed.

(** An intent near a production action. *)
Definition near (ts : Q) (x : timed dict) : bool := Qleb (qabs (t_at x - ts)) (inject_Z PRODUCTION_DIFF_MATCH_WINDOW_SEC).
Definition distance (ts : Q) (x : timed dict) : Q := qabs (t_at x - ts).
(** The intent for a moment, found by its place: it is near, none is nearer, and each before it is farther. *)
Definition nearest_of (intents : list (timed dict)) (ts : Q) (found : option (nat * dict)) : Prop :=
  match found with
  | None => forall x, In x intents -> near ts x = false
  | Some (i, e) => exists x, intents !! i = Some x /\ t_what x = e /\ near ts x = true
      /\ forall j y, intents !! j = Some y -> (distance ts x <= distance ts y)%Q /\ ((j < i)%nat -> (distance ts x < distance ts y)%Q)
  end.
Lemma near_spec ts x : if near ts x then (distance ts x <= inject_Z PRODUCTION_DIFF_MATCH_WINDOW_SEC)%Q else (inject_Z PRODUCTION_DIFF_MATCH_WINDOW_SEC < distance ts x)%Q.
Proof. unfold near. by destruct (Qleb_spec (qabs (t_at x - ts)) (inject_Z PRODUCTION_DIFF_MATCH_WINDOW_SEC)). Qed.
(** The search so far. *)
Definition searched (ts : Q) (pre : list (timed dict)) (best : option (nat * dict)) (bd : Q) : Prop :=
  nearest_of pre ts best /\ match best with
    | None => (inject_Z PRODUCTION_DIFF_MATCH_WINDOW_SEC < bd)%Q
    | Some (i, _) => exists x, pre !! i = Some x /\ bd = distance ts x end.
Lemma searched_better ts pre best bd x : searched ts pre best bd -> near ts x = true -> (distance ts x < bd)%Q ->
  searched ts (pre ++ [x]) (Some (length pre, t_what x)) (distance ts x).
Proof.
  intros [Hbest Hbd] Hx Hlt. assert (Hlast : (pre ++ [x]) !! length pre = Some x) by (rewrite lookup_app_r, Nat.sub_diag; [done|lia]).
  split; [|by exists x]. exists x. split_and!; [done..|]. intros j y Hy. apply lookup_snoc_Some in Hy as [[Hj Hy]|[-> ->]]; [|split; [lra|lia]].
  enough (distance ts x < distance ts y)%Q by (split; [lra|done]). pose proof (near_spec ts x) as Hn. rewrite Hx in Hn.
  destruct best as [[i e]|]; simpl in Hbest.
  - destruct Hbest as (b & Hb & _ & _ & Hall), Hbd as (b' & Hb' & ->). rewrite Hb in Hb'. injection Hb' as <-. specialize (Hall j y Hy) as [Hall _]. lra.
  - pose proof (near_spec ts y) as Hny. rewrite (Hbest y) in Hny by (apply list_elem_of_In; by eapply list_elem_of_lookup_2). lra.
Qed.
Lemma searched_worse ts pre best bd x : searched ts pre best bd -> near ts x = false \/ (bd <= distance ts x)%Q -> searched ts (pre ++ [x]) best bd.
Proof.
  intros [Hbest Hbd] Hx. pose proof (near_spec ts x) as Hn. destruct best as [[i e]|]; simpl in Hbest.
  - destruct Hbest as (b & Hb & He & Hnear & Hall), Hbd as (b' & Hb' & ->). rewrite Hb in Hb'. injection Hb' as <-.
    pose proof (lookup_lt_Some _ _ _ Hb) as Hi. assert (Hb' : (pre ++ [x]) !! i = Some b) by (by apply lookup_app_l_Some).
    pose proof (near_spec ts b) as Hnb. rewrite Hnear in Hnb.
    split; [|by exists b]. exists b. split_and!; [done..|]. intros j y Hy. apply lookup_snoc_Some in Hy as [[Hj Hy]|[-> ->]]; [by apply Hall|].
    split; [|lia]. destruct Hx as [Hx|Hx]; [rewrite Hx in Hn; lra|done].
  - split; [|done]. intros y Hy. apply in_app_iff in Hy as [Hy|[<-|[]]]; [by apply Hbest|]. destruct Hx as [Hx|Hx]; [done|].
    destruct (near ts x); [|done]. lra.
Qed.
Lemma nearest_from_searched ts l : forall pre best bd, searched ts pre best bd -> nearest_of (pre ++ l) ts (nearest_from (length pre) ts best bd l).
Proof.
  induction l as [|x l IH]; intros pre best bd Hs; cbn [nearest_from]; [rewrite app_nil_r; apply Hs|].
  assert (Hgo : forall best' bd', searched ts (pre ++ [x]) best' bd' -> nearest_of (pre ++ x :: l) ts (nearest_from (S (length pre)) ts best' bd' l)).
  { intros best' bd' Hs'. specialize (IH _ _ _ Hs'). rewrite <- app_assoc, length_app in IH. simpl in IH. by rewrite Nat.add_1_r in IH. }
  change (Qleb (qabs (t_at x - ts)) (inject_Z PRODUCTION_DIFF_MATCH_WINDOW_SEC)) with (near ts x). change (qabs (t_at x - ts)) with (distance ts x).
  destruct (near ts x) eqn:Hx; cbn [andb]; [destruct (Qltb (distance ts x) bd) eqn:Hlt|]; apply Hgo.
  - by eapply searched_better; [..|apply Qltb_true].
  - apply searched_worse; [done|]. right. apply Qnot_lt_le. intros Hq. apply Qltb_true in Hq. congruence.
  - apply searched_worse; auto.
Qed.
(** The code finds the nearest intent. *)
Lemma nearest_found intents ts : nearest_of intents ts (_nearest_orchestrator_event intents ts).
Proof. apply (nearest_from_searched ts intents []). split; [by intros ? []|]. reflexivity. Qed.
Lemma nearest_of_none intents ts o : nearest_of intents ts o -> o = None <-> existsb (near ts) intents = false.
Proof.
  destruct o as [[i e]|]; simpl; intros Ho.
  - destruct Ho as (x & Hx & _ & Hn & _). split; [done|]. intros E. enough (existsb (near ts) intents = true) by congruence.
    apply existsb_exists. exists x. split; [|done]. apply list_elem_of_In. by eapply list_elem_of_lookup_2.
  - split; [|done]. intros _. apply not_true_is_false. intros (x & Hx & Hn)%existsb_exists. rewrite Ho in Hn; done.
Qed.

(** A production action, by its name, and how its intent compares with it. *)
Definition action_name (p : timed production) : string := py_str (py_or (VStr (pr_action (t_what p))) (VStr "unknown")).
Definition meets (same : string -> string -> bool) (met : timed production * option (nat * dict)) : bool :=
  match snd met with Some (_, e) => same (_execution_plan_action e) (action_name (fst met)) | None => false end.
Definition place (met : option (nat * dict)) : option nat := fst <$> met.
(** What the actions compared so far add up to, each with the intent found for it. *)
Record accounts (intents : list (timed dict)) (mets : list (timed production * option (nat * dict))) (d : difference) : Prop := {
  ac_exact : df_exact d = count_if (meets String.eqb) mets;
  ac_compatible : df_compatible d = count_if (meets _actions_scope_compatible) mets;
  ac_mismatch : df_mismatch d = count_if (meets (fun s p => negb (String.eqb s p))) mets;
  ac_alone : df_without_shadow d = count_if (fun m => bool_decide (place (snd m) = None)) mets;
  ac_disagree : df_disagree d = df_without_shadow d + df_mismatch d;
  ac_later : df_false_positive d = 0;
  ac_places : forall i, In i (df_matched d) <-> In (Some i) (map (fun m => place (snd m)) mets) }.
Lemma count_if_snoc {A} (p : A -> bool) l x : count_if p (l ++ [x]) = count_if p l + Z.b2z (p x).
Proof. unfold count_if. rewrite List.filter_app, len_app. simpl. by destruct (p x). Qed.
Lemma compare_accounts intents mets d p : Forall (fun x => _execution_plan_action (t_what x) <> "none") intents ->
  accounts intents mets d -> accounts intents (mets ++ [(p, _nearest_orchestrator_event intents (t_at p))]) (compare_one intents d p).
Proof.
  intros Hint [H1 H2 H3 H4 H5 H6 H7]. unfold compare_one. pose proof (nearest_found intents (t_at p)) as Hn.
  destruct (_nearest_orchestrator_event intents (t_at p)) as [[i e]|].
  - destruct Hn as (x & Hx & <- & _). rewrite Forall_lookup in Hint. specialize (Hint _ _ Hx). apply String.eqb_neq in Hint.
    fold (action_name p). rewrite Hint.
    assert (Hplace : forall j, In j (i :: df_matched d) <-> In (Some j) (map (fun m => place (snd m)) (mets ++ [(p, Some (i, t_what x))]))).
    { intros j. rewrite map_app, in_app_iff, <- H7. simpl. split; [intros [<-|Hj]; auto | intros [Hj|[[= <-]|[]]]; auto]. }
    destruct (String.eqb _ (action_name p)) eqn:Ee; [assert (Ec : _actions_scope_compatible (_execution_plan_action (t_what x)) (action_name p) = true)
      by (unfold _actions_scope_compatible; by rewrite Ee) | destruct (_actions_scope_compatible _ _) eqn:Ec];
      constructor; cbn [df_exact df_compatible df_disagree df_without_shadow df_false_positive df_mismatch df_matched]; try done;
      rewrite ?count_if_snoc; unfold meets; cbn [fst snd place fmap option_fmap option_map];
      rewrite ?Ee, ?Ec; cbn [negb Z.b2z]; rewrite ?bool_decide_eq_false_2 by done; cbn [Z.b2z];
      unfold meets, place in *; lia.
  - constructor; cbn [df_exact df_compatible df_disagree df_without_shadow df_false_positive df_mismatch df_matched];
      rewrite ?count_if_snoc; unfold meets; cbn [fst snd place]; rewrite ?bool_decide_eq_true_2 by done; cbn [Z.b2z]; unfold meets, place in *; try lia.
    intros j. rewrite map_app, in_app_iff, <- H7. simpl. split; [auto | intros [Hj|[Hj|[]]]; [auto|done]].
Qed.
(** Each action with the intent found for it. *)
Definition found_for (intents : list (timed dict)) (prods : list (timed production)) : list (option (nat * dict)) :=
  map (fun p => _nearest_orchestrator_event intents (t_at p)) prods.
Lemma fold_accounts intents prods : Forall (fun x => _execution_plan_action (t_what x) <> "none") intents ->
  accounts intents (combine prods (found_for intents prods)) (fold_left (compare_one intents) prods no_difference).
Proof.
  intros Hint. unfold found_for.
  assert (Hzip : combine prods (map (fun p => _nearest_orchestrator_event intents (t_at p)) prods) = map (fun p => (p, _nearest_orchestrator_event intents (t_at p))) prods).
  { induction prods as [|p l IH]; simpl; [done|by rewrite IH]. }
  rewrite Hzip. clear Hzip. induction prods as [|p l IH] using rev_ind; [by constructor; simpl|].
  rewrite fold_left_app, map_app. by apply compare_accounts.
Qed.
Lemma found_nearest intents prods : Forall2 (fun p o => nearest_of intents (t_at p) o) prods (found_for intents prods).
Proof. unfold found_for. induction prods as [|p l IH]; constructor; [apply nearest_found|done]. Qed.
Lemma intents_act l : Forall (fun x : timed dict => _execution_plan_action (t_what x) <> "none") (List.filter (fun x => _has_recovery_intent (t_what x)) l).
Proof.
  apply List.Forall_forall. intros x [_ Hx]%filter_In. unfold _has_recovery_intent in Hx. apply andb_true_iff in Hx as [Hx _]. intros E. by rewrite E in Hx.
Qed.
Lemma count_if_ext {A} (p q : A -> bool) l : (forall x, p x = q x) -> count_if p l = count_if q l.
Proof. intros Hpq. unfold count_if. f_equal. by apply List.filter_ext. Qed.
Lemma map_snd_combine {A B C} (f : B -> C) (l : list A) (l' : list B) : length l = length l' -> map (fun m => f (snd m)) (combine l l') = map f l'.
Proof. revert l'. induction l as [|x l IH]; intros [|y l'] Hl; try done. simpl. f_equal. apply IH. by injection Hl. Qed.
(** An action is alone when no intent is near it, and is otherwise an agreement or a mismatch. *)
Lemma alone_count intents (prods : list (timed production)) partners : Forall2 (fun p o => nearest_of intents (t_at p) o) prods partners ->
  count_if (fun m => bool_decide (place (snd m) = None)) (combine prods partners) = count_if (fun p => negb (existsb (near (t_at p)) intents)) prods.
Proof.
  induction 1 as [|p o prods partners Ho _ IH]; [done|]. simpl. rewrite !count_if_cons, IH. simpl. f_equal. apply nearest_of_none in Ho. f_equal.
  destruct o as [[i e]|]; cbn [place fmap option_fmap option_map]; [rewrite bool_decide_eq_false_2 by done|by destruct Ho as [-> _]].
  destruct (existsb _ _); [done|]. destruct Ho as [_ Ho]. discriminate (Ho eq_refl).
Qed.
Lemma paired_or_alone (mets : list (timed production * option (nat * dict))) :
  count_if (meets String.eqb) mets + count_if (meets (fun s p => negb (String.eqb s p))) mets + count_if (fun m => bool_decide (place (snd m) = None)) mets = len mets.
Proof.
  induction mets as [|[p [[i e]|]] mets IH]; [done|..]; rewrite !count_if_cons, len_cons; unfold meets at 1 3; cbn [fst snd place fmap option_fmap option_map].
  - rewrite bool_decide_eq_false_2 by done. destruct (String.eqb _ _); cbn [negb Z.b2z]; lia.
  - rewrite bool_decide_eq_true_2 by done. cbn [Z.b2z]. lia.
Qed.
End Compare.

(** C20: the comparison of the orchestrator with production pairs each production action with the intent of the
    orchestrator nearest to it, within two minutes, the first of those equally near, or with none when none is
    that near. The exact agreements, the compatible ones and the mismatches are those of the pairs; an action
    has no shadow when it has no partner; an intent is a false positive when it is the partner of no action; the
    disagreements are the sum of their reasons and, with the exact agreements, are what was comparable. *)
Theorem comparison_accounts `{Repr} orchestrator prods :
  let intents := List.filter (fun x => _has_recovery_intent (t_what x)) orchestrator in
  let (d, comparable) := _diff_shadow_vs_production orchestrator prods in
  exists partners, Forall2 (fun p o => nearest_of intents (t_at p) o) prods partners
  /\ df_exact d = count_if (meets String.eqb) (combine prods partners)
  /\ df_compatible d = count_if (meets _actions_scope_compatible) (combine prods partners)
  /\ df_mismatch d = count_if (meets (fun s p => negb (String.eqb s p))) (combine prods partners)
  /\ df_without_shadow d = count_if (fun p => negb (existsb (near (t_at p)) intents)) prods
  /\ df_false_positive d = count_if (fun i => negb (bool_decide (Some i ∈ map place partners))) (seq 0 (length intents))
  /\ df_disagree d = df_without_shadow d + df_false_positive d + df_mismatch d
  /\ df_exact d + df_disagree d = comparable /\ comparable = len prods + df_false_positive d.
Proof.
  intros intents. unfold _diff_shadow_vs_production. fold intents. cbn zeta. exists (found_for intents prods).
  pose proof (found_nearest intents prods) as Hnear. split; [done|].
  destruct (fold_accounts intents prods (intents_act orchestrator)) as [H1 H2 H3 H4 H5 H6 H7]. set (d := fold_left _ _ _) in *.
  cbn [df_exact df_compatible df_disagree df_without_shadow df_false_positive df_mismatch df_matched].
  pose proof (paired_or_alone (combine prods (found_for intents prods))) as Hsum. rewrite (alone_count _ _ _ Hnear) in Hsum, H4.
  assert (Hlen : len (combine prods (found_for intents prods)) = len prods).
  { unfold len, found_for. by rewrite length_combine, length_map, Nat.min_id. }
  split_and!; [done..| |lia|lia|lia].
  rewrite H6. unfold unmatched. rewrite Z.add_0_l. apply count_if_ext. intros i. f_equal. apply bool_decide_ext.
  rewrite !list_elem_of_In, H7, (map_snd_combine place) by (by (unfold found_for; by rewrite length_map)). done.
Qed.

(** ** The projection *)
Section Projection.
Context `{Repr}.
Lemma sub_dict_VDict d k e : dict_get k d = Some (VDict e) -> sub_dict d k = e.
Proof. unfold sub_dict. by intros ->. Qed.
Lemma passed_only_refused d : lock_refused (_dict (passed_only d)) = lock_refused d.
Proof. done. Qed.
Lemma project_candidates_app acc d : NoDup (map fst d) -> (forall k, In k (map fst d) -> ~ In k (map fst acc)) ->
  fold_left (fun acc kv => let lock := candidate_lock (snd kv) in
    if given lock then dict_set (fst kv) (VDict [("gates", VDict [("global_action_lock", passed_only lock)])]) acc else acc) d acc
  = acc ++ map (fun kv => (fst kv, VDict [("gates", VDict [("global_action_lock", passed_only (candidate_lock (snd kv)))])])) (List.filter (fun kv => given (candidate_lock (snd kv))) d).
Proof.
  revert acc. induction d as [|[k v] d IH]; intros acc; simpl; [by rewrite app_nil_r|]. intros [Hk Hd]%NoDup_cons Hacc.
  destruct (given (candidate_lock v)); [|apply IH; auto]. rewrite dict_set_new by auto. rewrite IH; [by rewrite <- app_assoc | done|].
  intros k' Hk'. rewrite map_app, in_app_iff. simpl. intros [Hin|[<-|[]]]; [by apply (Hacc k'); auto|]. apply Hk. by apply list_elem_of_In.
Qed.
Lemma refused_given d : lock_refused d = true -> given d = true.
Proof. by destruct d. Qed.
Lemma candidates_refused d : NoDup (map fst d) ->
  existsb (fun kv => lock_refused (candidate_lock (snd kv))) (project_candidates d) = existsb (fun kv => lock_refused (candidate_lock (snd kv))) d.
Proof.
  intros Hd. unfold project_candidates. rewrite project_candidates_app; [|done|simpl; auto]. simpl. clear Hd.
  induction d as [|[k v] d IH]; [done|]. simpl. destruct (given (candidate_lock v)) eqn:Eg; simpl; rewrite IH; [done|].
  destruct (lock_refused (candidate_lock v)) eqn:El; [|done]. apply refused_given in El. by rewrite El in Eg.
Qed.
Lemma given_or_empty d : given d = false -> d = [].
Proof. by destruct d. Qed.
Lemma py_or_or v w u : py_str (py_or (py_or v w) u) = py_str (py_or v (py_or w u)).
Proof. unfold py_or. destruct (truthy v) eqn:E; [by rewrite E|done]. Qed.
End Projection.

(** What the report says of a line. *)
Definition same_report `{Repr} (p e : dict) : Prop :=
  _selected_action p = _selected_action e /\ _execution_plan_action p = _execution_plan_action e /\ _execution_plan_executable p = _execution_plan_executable e
  /\ _has_recovery_intent p = _has_recovery_intent e /\ runs_plan p = runs_plan e /\ (forall actions, selects actions p = selects actions e)
  /\ budget_reason "budget_override" p = budget_reason "budget_override" e /\ lock_blocks p = lock_blocks e.
(** C21: projecting a line of the orchestrator's log to what the report keeps changes nothing the report says of it:
    the action selected, the action and executability of its plan, the intent, the reason of its budget gate, and
    whether the lock refused it. *)
Theorem projection_keeps_the_report `{Repr} e : NoDup (map fst (sub_dict e "all_candidate_gates")) ->
  same_report (_project_orchestrator_event e) e.
Proof.
  intros Hd. set (p := _project_orchestrator_event e). unfold same_report.
  split_and!; try done.
  - unfold budget_reason, p, _project_orchestrator_event. set (g := sub_dict e "gates"). set (b := sub_dict g "budget"). set (l := sub_dict g "global_action_lock").
    destruct (given b) eqn:Eb.
    + unfold sub_dict at 1 2. simpl. unfold dget at 1 2. simpl. unfold dget. destruct (dict_get "reason" b) as [v|]; [done|reflexivity].
    + rewrite (given_or_empty _ Eb). destruct (given l); reflexivity.
  - unfold lock_blocks. f_equal; [|exact (candidates_refused _ Hd)].
    unfold p, _project_orchestrator_event. set (g := sub_dict e "gates"). set (b := sub_dict g "budget"). set (l := sub_dict g "global_action_lock").
    destruct (given l) eqn:El; [destruct (given b); reflexivity|]. rewrite (given_or_empty _ El). destruct (given b); reflexivity.
Qed.

(** ** On concrete logs *)
#[local] Existing Instance run_repr.
#[local] Existing Instance run_iso.
Definition line_at (t : Z) (state public : string) : dict :=
  [("ts_utc", VStr (iso_seconds t ++ "Z")); ("overall", VDict [("state", VStr state); ("stream_public_state", VStr public)])].
Definition log_demo : list dict := [line_at (noon - 40) "failed" "same_url_live_local_degraded"; line_at (noon - 100) "healthy" "same_url_live"].
Definition status_demo : list (timed status_view) := Eval vm_compute in match _load_status_events log_demo now_demo with Ok l => l | Err _ => [] end.
Lemma status_loaded : _load_status_events log_demo now_demo = Ok status_demo.
Proof. vm_compute. reflexivity. Qed.
Example live_for_a_minute : option_map Qred (time_ratio 100 now_demo is_live (since (now_demo - 100) status_demo)) = Some (3 # 5).
Proof. reflexivity. Qed.
Lemma shares_of_a_window_witness :
  let l := since (now_demo - inject_Z 100) status_demo in
  (coverage_of now_demo l <= inject_Z 100)%Q
  /\ share_is_sound 100 now_demo is_live l.
Proof. apply (shares_of_a_window log_demo now_demo status_demo 100 is_live status_loaded). lia. Defined.

Definition refused_line : dict :=
  [("selected_action", VDict [("action", VStr "none")]);
   ("all_candidate_gates", VDict [("restart_stream", VDict [("gates", VDict [("global_action_lock", VDict [("passed", VBool false)])])]); ("alert", VDict [])])].
Lemma projection_keeps_the_report_witness : lock_blocks (_project_orchestrator_event refused_line) = true.
Proof.
  transitivity (lock_blocks refused_line); [|reflexivity]. refine (proj2 (proj2 (proj2 (proj2 (proj2 (proj2 (proj2 (projection_keeps_the_report refused_line _)))))))).
  apply (bool_decide_unpack _). vm_compute. exact I.
Defined.

(** A production restart that the orchestrator planned a minute before, one it did not, and a plan that nothing followed. *)
Definition plan_line (t : Z) : timed dict :=
  mkTimed (inject_Z t) [("execution_plan", VDict [("action", VStr "restart_stream"); ("executable", VBool true)])].
Definition restart_at (t : Z) : timed production := mkTimed (inject_Z t) (mkProduction "restart_stream" "fast_recovery_events" "tcp_stall" (Some "tcp_stall")).
Example compared :
  let (d, n) := _diff_shadow_vs_production [plan_line 60; plan_line 9000] [restart_at 0; restart_at 3000] in
  (df_exact d, df_disagree d, df_without_shadow d, df_false_positive d, df_mismatch d, n) = (1, 2, 1, 1, 0, 3).
Proof. reflexivity. Qed.
