(* ===== verification/V2Pipeline.v ===== *)
(** * Stream v2: the passes over the state directory

    Models the passes of src/stream_v2/pipeline.py: the files and logs they write, in
    their order, over the monad [Exec]; and what every run of passes keeps.  Each write
    is a step of its own that can raise or be the last of the process, with the file
    replaced or the line appended as a whole, or not at all.  A line read back from a
    log is the object that was appended.  The table of legacy components is not in the
    state; its writes are steps that can fail. *)
From S2P Require Import Prelude PyVal UtcTime FastPolicy EffectModel Contracts AgentObserve Evidence ObservationTime V2Model V2Signals V2Orchestrator V2Proofs V2Run V2Sli.
#[local] Open Scope x_scope.

(** The state directory; the lock and the logs of production are written by others. *)
Record v2_state : Type := mkState {
  vs_status : json_file; vs_plan : json_file; vs_view : json_file; vs_objective : json_file; vs_lock : json_file;
  vs_status_log : list dict; vs_orchestrator_log : list dict; vs_plan_log : list dict; vs_objective_log : list dict; vs_production : list production_logs }.
(** The writes of a pass, and what can come of one. *)
Inductive write_site : Type :=
  | WComponents | WComponentsLog | WStatus | WStatusLog | WEvent | WPlan | WPlanLog | WView | WObjective | WObjectiveLog.
Inductive write_outcome : Type := Wrote | Raises (written : bool) (e : exn) | Dies (written : bool).
(** What a pass reads besides: the clocks, the runtime, the stamps of its observations; and the fate of its writes. *)
Record reading : Type := mkReading {
  rd_now : Q; rd_lock_now : Q; rd_inputs : RuntimeInputs; rd_status_stamp : res pyval; rd_plan_stamp : res pyval; rd_writes : write_site -> write_outcome }.

Section Passes.
Context `{Repr} `{FromIso} `{FloatOfText} `{EventToken}.
Context (c : RuntimeConfig).
#[local] Notation P := (Exec v2_state exn).
Definition lift {A} (m : res A) : P A := match m with Ok a => xret a | Err e => xraise e end.
Definition get_state : P v2_state := fun s => (Done s, s).
Definition write (r : reading) (site : write_site) (f : v2_state -> v2_state) : P unit := fun s =>
  match rd_writes r site with
  | Wrote => (Done tt, f s)
  | Raises written e => (Raised e, if written then f s else s)
  | Dies written => (Dead, if written then f s else s)
  end.
Definition put_status (payload : dict) (s : v2_state) : v2_state :=
  mkState (Some (VDict payload)) (vs_plan s) (vs_view s) (vs_objective s) (vs_lock s) (vs_status_log s) (vs_orchestrator_log s) (vs_plan_log s)
    (vs_objective_log s) (vs_production s).
Definition log_status (payload : dict) (s : v2_state) : v2_state :=
  mkState (vs_status s) (vs_plan s) (vs_view s) (vs_objective s) (vs_lock s) (vs_status_log s ++ [payload]) (vs_orchestrator_log s) (vs_plan_log s)
    (vs_objective_log s) (vs_production s).
Definition log_event (payload : dict) (s : v2_state) : v2_state :=
  mkState (vs_status s) (vs_plan s) (vs_view s) (vs_objective s) (vs_lock s) (vs_status_log s) (vs_orchestrator_log s ++ [payload]) (vs_plan_log s)
    (vs_objective_log s) (vs_production s).
Definition put_plan (payload : dict) (s : v2_state) : v2_state :=
  mkState (vs_status s) (Some (VDict payload)) (vs_view s) (vs_objective s) (vs_lock s) (vs_status_log s) (vs_orchestrator_log s) (vs_plan_log s)
    (vs_objective_log s) (vs_production s).
Definition log_plan (payload : dict) (s : v2_state) : v2_state :=
  mkState (vs_status s) (vs_plan s) (vs_view s) (vs_objective s) (vs_lock s) (vs_status_log s) (vs_orchestrator_log s) (vs_plan_log s ++ [payload])
    (vs_objective_log s) (vs_production s).
Definition put_view (payload : dict) (s : v2_state) : v2_state :=
  mkState (vs_status s) (vs_plan s) (Some (VDict payload)) (vs_objective s) (vs_lock s) (vs_status_log s) (vs_orchestrator_log s) (vs_plan_log s)
    (vs_objective_log s) (vs_production s).
Definition put_objective (payload : dict) (s : v2_state) : v2_state :=
  mkState (vs_status s) (vs_plan s) (vs_view s) (Some (VDict payload)) (vs_lock s) (vs_status_log s) (vs_orchestrator_log s) (vs_plan_log s)
    (vs_objective_log s) (vs_production s).
Definition log_objective (payload : dict) (s : v2_state) : v2_state :=
  mkState (vs_status s) (vs_plan s) (vs_view s) (vs_objective s) (vs_lock s) (vs_status_log s) (vs_orchestrator_log s) (vs_plan_log s)
    (vs_objective_log s ++ [payload]) (vs_production s).
Definition sli (now : Q) (video : string) : P dict :=
  bind! s := get_state in lift (calculate c (mkV2Logs (vs_status_log s) (vs_orchestrator_log s) (vs_production s)) now video).

(** The table of components is written without a place in the state. *)
Definition write_components (r : reading) : P unit :=
  bind! _ := write r WComponents (fun s => s) in
  write r WComponentsLog (fun s => s).
Definition write_status (r : reading) (summary : dict) : P (SubsystemsSnapshot * dict) :=
  bind! (s, payload) := lift (_write_subsystems_status c (rd_inputs r) (rd_now r) summary (rd_status_stamp r)) in
  bind! _ := write r WStatus (put_status payload) in
  bind! _ := write r WStatusLog (log_status payload) in
  xret (s, payload).
(** The event, the plan file, the line of the plan; then the view, whose OSError is passed over. *)
Definition write_decision (r : reading) (s : SubsystemsSnapshot) : P OrchestratorDecision :=
  bind! st := get_state in
  bind! (d, files) := lift (_write_recovery_decision c s (rd_now r) (vs_lock st) (rd_lock_now r) (rd_plan_stamp r)) in
  bind! _ := write r WEvent (log_event (rf_log files)) in
  bind! _ := write r WPlan (put_plan (rf_plan files)) in
  bind! _ := write r WPlanLog (log_plan (rf_plan files)) in
  bind! _ := xtry (write r WView (put_view (rf_view files))) (fun e => match e with EOS _ => xret tt | _ => xraise e end) in
  xret d.
Definition _write_objective_sli (r : reading) (video : string) : P dict :=
  bind! o := sli (rd_now r) video in
  bind! _ := write r WObjective (put_objective o) in
  bind! _ := write r WObjectiveLog (log_objective o) in
  xret o.
Definition _latest_objective_summary : P dict := bind! st := get_state in lift (_objective_summary (read_json (vs_objective st))).
Record PipelineResult : Type := mkResult { pr_snapshot : dict; pr_event : dict; pr_plan : dict; pr_objective : dict }.
Definition plan_of (r : reading) (d : OrchestratorDecision) : dict :=
  dict_update (plan_dict (od_plan d)) [("ts_utc", VStr (isoformat_utc (rd_now r))); ("event_id", dget (od_event d) "event_id" (VStr ""))].
Definition decide_and_report (r : reading) (s : SubsystemsSnapshot) (payload : dict) : P PipelineResult :=
  bind! d := write_decision r s in
  bind! objective := _write_objective_sli r (ov_video_id (sn_overall s)) in
  xret (mkResult payload (od_event d) (plan_of r d) objective).
Definition run_once (r : reading) : P PipelineResult :=
  bind! previous := sli (rd_now r) "" in
  bind! _ := write_components r in
  bind! summary := lift (_objective_summary previous) in
  bind! (s, payload) := write_status r summary in
  decide_and_report r s payload.
Definition run_subsystems_status_once (r : reading) : P PipelineResult :=
  bind! _ := write_components r in
  bind! summary := _latest_objective_summary in
  bind! (_, payload) := write_status r summary in
  bind! st := get_state in
  xret (mkResult payload [] [] (read_json (vs_objective st))).
Definition run_recovery_pass (r : reading) : P PipelineResult :=
  bind! st := get_state in
  bind! recent := lift (_read_recent_subsystems_snapshot c (vs_status st) (rd_now r)) in
  match recent with
  | Some payload => bind! s := lift (snapshot_from_payload payload) in decide_and_report r s payload
  | None =>
      bind! _ := write_components r in
      bind! summary := _latest_objective_summary in bind! (s, payload) := write_status r summary in decide_and_report r s payload
  end.

(** ** Runs *)
Inductive event : Type :=
  | ShadowOnce (r : reading)
  | StatusOnce (r : reading)
  | RecoveryOnce (r : reading)
  | OthersWrite (status lock objective : json_file) (production : list production_logs).
Definition others_write (status lock objective : json_file) (production : list production_logs) (s : v2_state) : v2_state :=
  mkState status (vs_plan s) (vs_view s) objective lock (vs_status_log s) (vs_orchestrator_log s) (vs_plan_log s) (vs_objective_log s) production.
Definition pass_of (e : event) : option (P PipelineResult) :=
  match e with
  | ShadowOnce r => Some (run_once r)
  | StatusOnce r => Some (run_subsystems_status_once r)
  | RecoveryOnce r => Some (run_recovery_pass r)
  | OthersWrite _ _ _ _ => None
  end.
Definition after (e : event) (s : v2_state) : v2_state :=
  match pass_of e, e with
  | Some m, _ => snd (m s)
  | None, OthersWrite status lock objective production => others_write status lock objective production s
  | None, _ => s
  end.
(** A pass that raised or died. *)
Definition interrupted (e : event) (s : v2_state) : bool :=
  match pass_of e with Some m => match fst (m s) with Done _ => false | _ => true end | None => false end.
(** The states of runs, with the number of passes that did not return. *)
Inductive reachable (s0 : v2_state) : nat -> v2_state -> Prop :=
  | at_start : reachable s0 0 s0
  | then_event n s e : reachable s0 n s -> reachable s0 (if interrupted e s then S n else n) (after e s).
End Passes.

(** ** What every run keeps *)
Section Kept.
Context `{Repr} `{FromIso} `{FloatOfText} `{EventToken}.
(** A plan that is executed keeps the broadcast and its URL. *)
Definition safe_plan (plan : dict) : Prop :=
  dget plan "execute" VNone = VBool true ->
  dget plan "mode" VNone <> VStr "shadow" /\ ~ In (str_val (dget plan "action" VNone)) YOUTUBE_DESTRUCTIVE_ACTIONS
  /\ Forall (fun v => In (str_val (dget (as_dict v) "url_risk" VNone)) SAME_URL) (_list (dget plan "steps" VNone)).
(** The plan of an event of the orchestrator. *)
Definition plan_of_event (plan event : dict) : Prop :=
  dget plan "event_id" VNone = dget event "event_id" VNone
  /\ dget plan "action" VNone = dget (sub_dict event "selected_action") "action" VNone
  /\ dget plan "execute" VNone = dget (sub_dict event "selected_action") "execute" VNone.
Definition line_of (plan event : dict) : Prop := safe_plan plan /\ plan_of_event plan event.
(** The lines of plans are those of a subsequence of the events, which lacks at most
    [gaps] of them; and the plan file holds the plan of an event. *)
Record agree (gaps : nat) (s : v2_state) : Prop := {
  ag_lines : exists events, events `sublist_of` vs_orchestrator_log s /\ Forall2 line_of (vs_plan_log s) events;
  ag_gaps : (length (vs_orchestrator_log s) <= length (vs_plan_log s) + gaps)%nat;
  ag_file : forall plan, vs_plan s = Some (VDict plan) -> exists event, In event (vs_orchestrator_log s) /\ line_of plan event }.
Lemma agree_more n s : agree n s -> agree (S n) s.
Proof. intros [Hl Hg Hf]. split; [done | lia | done]. Qed.
Lemma sublist_full {A} (l k : list A) : l `sublist_of` k -> (length k <= length l)%nat -> l = k.
Proof.
  induction 1 as [|x l k _ IH|x l k Hs _]; simpl; intros Hl; [done | f_equal; apply IH; lia|]. apply sublist_length in Hs. lia.
Qed.
(** Without gaps each line is at the place of its event. *)
Lemma agree_exact s : agree 0 s -> Forall2 line_of (vs_plan_log s) (vs_orchestrator_log s).
Proof.
  intros [(es & Hs & Hl) Hg _]. pose proof (Forall2_length _ _ _ Hl) as Hlen. pose proof (sublist_length _ _ Hs) as Hle.
  assert (es = vs_orchestrator_log s) as <-; [|done]. apply sublist_full; [done | lia].
Qed.

(** A pass keeps the logs in agreement, and leaves one gap more at most when it is interrupted. *)
Definition keeps {A} (m : Exec v2_state exn A) : Prop := forall n, triple (agree (S n)) (agree n) m (fun _ => agree n).

Lemma passes_lift {A} (m : res A) : keeps (lift m).
Proof. intros n s Hs. destruct m; [done | by apply agree_more]. Qed.
Lemma keeps_get : keeps get_state.
Proof. by intros n s Hs. Qed.
Lemma keeps_write r site f : (forall s, vs_plan_log (f s) = vs_plan_log s /\ vs_orchestrator_log (f s) = vs_orchestrator_log s /\ vs_plan (f s) = vs_plan s) ->
  keeps (write r site f).
Proof.
  intros Hf n s Hs. assert (agree n (f s)) as Hs'.
  { destruct (Hf s) as (E1 & E2 & E3), Hs as [Hl Hg Hp]. split; by rewrite ?E1, ?E2, ?E3. }
  unfold write. destruct (rd_writes r site) as [|[] e|[]]; try done; by apply agree_more.
Qed.
Lemma passes_ret {A} (a : A) : keeps (xret a).
Proof. by intros n s Hs. Qed.
Lemma passes_bind {A B} (m : Exec v2_state exn A) (k : A -> Exec v2_state exn B) : keeps m -> (forall a, keeps (k a)) -> keeps (xbind m k).
Proof. intros Hm Hk n. eapply triple_bind; [apply Hm|]. intros a. apply Hk. Qed.
Ltac keep := repeat first
  [ apply passes_ret | apply passes_lift | apply keeps_get | (apply keeps_write; intros; repeat split; reflexivity)
  | (apply passes_bind; [|intros]) | match goal with |- context [let '_ := ?p in _] => destruct p end | match goal with |- context [match ?o with _ => _ end] => destruct o end ].

Lemma build_fields ch g mode sup : pl_action (build ch g mode sup) = ac_action ch /\ pl_mode (build ch g mode sup) = mode.
Proof. unfold build. by destruct (_steps_for _ _). Qed.
Lemma decision_written c s now lock lnow m d files : _write_recovery_decision c s now lock lnow m = Ok (d, files) ->
  safe_plan (rf_plan files) /\ plan_of_event (rf_plan files) (rf_log files).
Proof.
  unfold _write_recovery_decision. intros Hv. inv_ok Hv. injection Hv as <- <-. cbn [rf_plan rf_log].
  assert (Hplan : od_execute v0 = true -> cf_mode c <> "shadow" /\ Forall safe_step (pl_steps (od_plan v0)) /\ ~ In (od_action v0) YOUTUBE_DESTRUCTIVE_ACTIONS).
  { intros Hx. destruct (executed_safely _ _ _ _ _ E0 Hx) as (Hm & _ & Hs & Hy). done. }
  unfold V2Orchestrator.evaluate in E0. inv_ok E0. destruct (select _) as [ch g]. injection E0 as <-. cbn [od_plan od_event od_execute od_action] in *.
  destruct (build_fields ch g (cf_mode c) (cf_supervisor c)) as [Ha Hmode].
  split; [|split_and!; [reflexivity|exact (f_equal VStr Ha)|reflexivity]]. intros Hx. injection Hx as Hx. destruct (Hplan Hx) as (Hm & Hs & Hy). split_and!.
  - intros E'. injection E' as E'. apply Hm. by rewrite <- Hmode.
  - rewrite <- Ha in Hy. exact Hy.
  - change (Forall (fun v => In (str_val (dget (as_dict v) "url_risk" VNone)) SAME_URL) (map step_dict (pl_steps (build ch g (cf_mode c) (cf_supervisor c))))).
    apply Forall_map. eapply Forall_impl; [exact Hs|]. by intros st [Hr _].
Qed.
(** Between the line of an event and the line of its plan. *)
Definition opened (n : nat) (event : dict) (s : v2_state) : Prop := exists events,
  vs_orchestrator_log s = events ++ [event] /\ (exists es, es `sublist_of` events /\ Forall2 line_of (vs_plan_log s) es) /\
  (length events <= length (vs_plan_log s) + n)%nat /\
  forall plan, vs_plan s = Some (VDict plan) -> exists e, In e (vs_orchestrator_log s) /\ line_of plan e.
Lemma opened_agrees n event s : opened n event s -> agree (S n) s.
Proof.
  intros (events & El & (es & Hs & Hl) & Hg & Hf). split; [|rewrite El, length_app; simpl; lia | done].
  exists es. split; [|done]. rewrite El. by apply sublist_inserts_r.
Qed.
Lemma write_rule I r site f P Q : (forall s, P s -> I s) -> (forall s, P s -> Q (f s)) -> (forall s, Q s -> I s) ->
  triple I P (write r site f) (fun _ => Q).
Proof. intros K1 K2 K3 s Hs. unfold write. destruct (rd_writes r site) as [|[] e|[]]; eauto. Qed.
Lemma keeps_decision c r s : keeps (write_decision c r s).
Proof.
  intros n st Hst. unfold write_decision. unfold xbind at 1. cbn [get_state].
  destruct (_write_recovery_decision _ _ _ _ _ _) as [[d files]|e] eqn:Ed; [|by apply agree_more]. apply decision_written in Ed as Hline.
  change (line_of (rf_plan files) (rf_log files)) in Hline. revert st Hst Ed. intros st Hst _. unfold xbind at 1. cbn [lift xret]. revert st Hst.
  match goal with |- forall st, _ -> match ?m st with _ => _ end => change (triple (agree (S n)) (agree n) m (fun _ => agree n)) end.
  eapply triple_bind; [apply (write_rule _ _ _ _ _ (opened n (rf_log files))); [apply agree_more | | apply opened_agrees]|intros ?].
  { intros st [Hl Hg Hf]. exists (vs_orchestrator_log st). split_and!; [done..|]. intros plan Hp. destruct (Hf plan Hp) as (e & He & Hl').
    exists e. split; [|done]. simpl. apply in_app_iff. by left. }
  eapply triple_bind; [apply (write_rule _ _ _ _ _ (opened n (rf_log files))); [apply opened_agrees | | apply opened_agrees]|intros ?].
  { intros st (events & El & Hl & Hg & Hf). exists events. split_and!; [done..|]. intros plan [= <-]. exists (rf_log files). split; [|done].
    simpl. rewrite El. apply in_app_iff. by right; left. }
  eapply triple_bind; [apply (write_rule _ _ _ _ _ (agree n)); [apply opened_agrees | | apply agree_more]|intros ?].
  { intros st (events & El & (es & Hs & Hl) & Hg & Hf). split; [|simpl; rewrite El, !length_app; simpl; lia | exact Hf].
    exists (es ++ [rf_log files]). simpl. rewrite El. split; [by apply sublist_app|]. apply Forall2_app; [done|]. by constructor. }
  eapply triple_bind; [|intros ?; apply passes_ret]. intros st Hst. unfold xtry.
  pose proof (keeps_write r WView (put_view (rf_view files)) ltac:(done) n st Hst) as Hw.
  unfold write in *. destruct (rd_writes r WView) as [|[] e|[]]; try exact Hw; destruct e; try exact Hw; destruct Hst as [Hl Hg Hf]; by split.
Qed.
Lemma keeps_components r : keeps (write_components r).
Proof. unfold write_components. keep. Qed.
Lemma keeps_report c r s payload : keeps (decide_and_report c r s payload).
Proof. unfold decide_and_report, _write_objective_sli, sli. apply passes_bind; [apply keeps_decision|intros d]. keep. Qed.
Lemma keeps_status c r summary : keeps (write_status c r summary).
Proof. unfold write_status. keep. Qed.
Lemma keeps_pass c e m : pass_of c e = Some m -> keeps m.
Proof.
  destruct e as [r|r|r|? ? ? ?]; [intros [= <-]..|done].
  - unfold run_once, sli. apply passes_bind; [keep|intros]. apply passes_bind; [apply keeps_components|intros].
    apply passes_bind; [keep|intros]. apply passes_bind; [apply keeps_status|intros [s' payload]]. apply keeps_report.
  - unfold run_subsystems_status_once, _latest_objective_summary. apply passes_bind; [apply keeps_components|intros].
    apply passes_bind; [keep|intros]. apply passes_bind; [apply keeps_status|intros [s' payload]]. keep.
  - unfold run_recovery_pass, _latest_objective_summary. do 2 (apply passes_bind; [keep|intros]). destruct a0 as [payload|].
    + apply passes_bind; [keep|intros]. apply keeps_report.
    + apply passes_bind; [apply keeps_components|intros]. apply passes_bind; [keep|intros].
      apply passes_bind; [apply keeps_status|intros [s' payload]]. apply keeps_report.
Qed.
Lemma keeps_after c e n s : agree n s -> agree (if interrupted c e s then S n else n) (after c e s).
Proof.
  intros Hs. unfold interrupted, after. destruct (pass_of c e) as [m|] eqn:Em.
  - specialize (keeps_pass c e m Em n s Hs). by destruct (m s) as [[a|x|] s'].
  - destruct e; try done. destruct Hs as [Hl Hg Hf]. by split.
Qed.
End Kept.

(** C18: over every run of passes, whatever they read, whatever others write to the
    status file, the lock and the logs of production in between, and wherever a pass
    raises or dies: the lines of the plan log are the plans of events of the
    orchestrator log, in their order, all events but as many as passes were interrupted
    have one, so without an interruption each line is at the place of its event; the
    plan file holds the plan of a logged event; and a plan, on its line or in the file,
    that is executed is not of the shadow mode, acts on no broadcast and has no step
    that can change the URL. *)
Theorem logged_plans_are_safe `{Repr} `{FromIso} `{FloatOfText} `{EventToken} c s0 n s : agree 0 s0 -> reachable c s0 n s ->
  agree n s /\ (n = 0%nat -> Forall2 line_of (vs_plan_log s) (vs_orchestrator_log s)).
Proof.
  intros Hstart Hr. assert (Ha : agree n s) by (induction Hr as [|n s e Hr IH]; [done | by apply keeps_after]).
  split; [done|]. intros ->. by apply agree_exact.
Qed.

(** ** A pass that restarts the stream *)
#[local] Existing Instance run_repr.
#[local] Existing Instance run_floats.
#[local] Existing Instance run_iso.
#[local] Existing Instance run_token.
Definition start_demo : v2_state := mkState (Some (VDict file_then)) None None None None [] [] [] [] [].
Definition reading_demo : reading := mkReading later later inputs_demo (Ok VNone) (Ok VNone) (fun _ => Wrote).
(** The disk is full when the line of the plan is to be appended. *)
Definition reading_full : reading := mkReading later later inputs_demo (Ok VNone) (Ok VNone)
  (fun site => match site with WPlanLog => Raises false (EOS "No space left on device") | _ => Wrote end).
Example restart_is_logged :
  map (fun plan => (dget plan "action" VNone, dget plan "execute" VNone)) (vs_plan_log (after config_demo (RecoveryOnce reading_demo) start_demo))
  = [(VStr "restart_stream", VBool true)].
Proof. vm_compute. reflexivity. Qed.
(** Two passes, the first of which is interrupted: two events, one line. *)
Definition state_full : v2_state := after config_demo (RecoveryOnce reading_full) start_demo.
Definition state_then : v2_state := after config_demo (ShadowOnce reading_demo) state_full.
Example one_line_lost : (length (vs_orchestrator_log state_then), length (vs_plan_log state_then), interrupted config_demo (RecoveryOnce reading_full) start_demo)
  = (2%nat, 1%nat, true).
Proof. vm_compute. reflexivity. Qed.
Lemma logged_plans_are_safe_witness : agree 0 start_demo /\ agree 1 state_then.
Proof.
  assert (agree 0 start_demo) as Hs.
  { split; [exists []; split; constructor | simpl; lia | intros plan Hp; discriminate Hp]. }
  split; [exact Hs|]. apply (logged_plans_are_safe config_demo start_demo 1 state_then Hs).
  assert (E1 : interrupted config_demo (RecoveryOnce reading_full) start_demo = true) by (vm_compute; reflexivity).
  assert (E2 : interrupted config_demo (ShadowOnce reading_demo) state_full = false) by (vm_compute; reflexivity).
  pose proof (then_event config_demo start_demo 0 start_demo (RecoveryOnce reading_full) (at_start _ _)) as Hr. rewrite E1 in Hr.
  pose proof (then_event config_demo start_demo 1 state_full (ShadowOnce reading_demo) Hr) as Hr2. rewrite E2 in Hr2. exact Hr2.
Defined.
